(* ===== verification/_CoqProject ===== *)
-Q . S2P
Prelude.v
BerEncoder.v
BerSpec.v
BerDecoder.v
Oid.v
ListHead.v
MibTree.v
MibSearch.v
MibView.v
Message.v
SnmpData.v
SnmpOut.v
SnmpProc.v
SnmpIn.v
HashWords.v
Hash.v
Md5.v
Sha1.v
Sha1Small.v
AesTables.v
AesSpec.v
Aes.v
AesVariants.v
AesCfb.v
AesCfbBits.v
Usm.v
UsmRecv.v
EventLoop.v
Transport.v
SnmpTrap.v
AgentxData.v
ErrorMsg.v
AgentxWire.v
AgentxCodec.v
AgentxOut.v
AgentxProc.v
AgentxIn.v
Agentx.v
Snmpd.v
Bindings.v
Subagent.v
