(* ===== verification/Prelude.v ===== *)
(** * SmithSNMP: a verification of the agent's core

    SmithSNMP is an SNMP agent in C whose MIB variables are served by Lua
    handlers.  It runs as an SNMP agent of its own or as an AgentX sub-agent of
    a master agent.  As an SNMP agent a datagram goes through these parts:

    - the event loop ([event_loop.c] with one of three back ends) waits for the
      socket and calls the transport ([snmp_udp_transport.c]), which receives
      the datagram and keeps the address of the client;
    - [snmp_recv] ([snmp_msg_in.c]) decodes it with the BER primitives
      ([snmp_decoder.c]) into the global [struct snmp_datagram] ([snmp.h]); for
      version 3 it also verifies the digest and decrypts the scoped PDU in place;
    - [snmp_request_dispatch] calls the handler of the request
      ([snmp_msg_proc.c]), which for every variable binding walks through the
      views of the community or user ([mib_view.c]) and searches the MIB tree
      ([mib_tree.c]) in each of them;
    - the search ends in a Lua handler, called by [mib_instance_search];
    - the answers are collected and [snmp_response] ([snmp_msg_out.c]) encodes
      them with [snmp_encoder.c], encrypts and signs the message, and hands it to
      the transport, which sends it when the event loop finds the socket
      writable.

    As a sub-agent it opens a session with the master agent and registers its
    subtrees ([agentx.c]); a PDU of the master is decoded by [agentx_recv]
    ([agentx_msg_in.c], [agentx_decoder.c]), answered from the same MIB tree
    ([agentx_msg_proc.c]) and the response is encoded by [agentx_msg_out.c] and
    [agentx_encoder.c].  Notifications ([snmp_trap.c]) are built and sent by a
    Lua handler that the event loop calls when it times out.

    The MIB tree, the views, the communities and the users are global tables
    changed by [mib_node_reg], [mib_node_unreg], [mib_community_reg] and so on.
    A Lua program calls them through the bindings ([smithsnmp.c]) to configure
    the agent, and starts and runs it through the table of functions of its
    protocol ([snmp.c], [agentx.c], [protocol.h]).  Digests and the cipher of
    version 3 are those of [3rd/crypto].

    ** Files

    Every file names the C file it models; definitions keep the names of the C
    functions (with [x_] in front where the AgentX files use the name of an SNMP
    function), and a loop inside a function is a [Fixpoint] next to it.

    - [Prelude]: machine integers, byte order, bounds-checked memory, the option
      monad, tactics and list lemmas.
    - [BerEncoder]: [snmp_encoder.c] (and the tags of [asn1.h]), for both byte
      orders.
    - [BerSpec]: the values of a binding and their encoding by X.690, independent
      of the code ([val_octets], [oid_x690]), and what the encoder writes
      ([val_written]); the two are the same for [val_standard] values.
    - [BerDecoder]: [snmp_decoder.c], and the round trips with the encoder.
    - [Oid]: [oid_cmp], [oid_cover], [oid_dup], [oid_cpy] and
      [oid_binary_search] of [mib_tree.c], against prefix and lexicographic
      order.
    - [ListHead]: [list.h] over a heap of links.  The abstract specification is
      a map from heads to sequences ([lists], [a_step]); it is what lets the
      other files treat the lists as sequences.
    - [MibTree]: the nodes of [mib.h] and the registration and removal code of
      [mib_tree.c]; the abstract specification is a map from identifiers to
      nodes ([amib], [a_reg], [a_unreg]).
    - [MibSearch]: [mib_instance_search], [mib_tree_search] and
      [mib_tree_search_next] of [mib_tree.c].  The abstract specification of the
      last is a recursive traversal ([next_full]); the class [NextHandler] is
      what the agent relies on of the Lua handlers.
    - [MibView]: [mib_view.c].  The code for communities and users is the same
      and is written once over the class [Owner], with its laws in [OwnerLaws].
    - [Message]: the reference encoding of SNMP messages, independent of the
      code: tag, minimal length and contents, nested.
    - [SnmpData]: the records of [snmp.h].
    - [SnmpOut]: [snmp_msg_out.c].
    - [SnmpProc]: [snmp_msg_proc.c].
    - [SnmpIn]: [snmp_msg_in.c].
    - [HashWords], [Hash], [Md5], [Sha1], [Sha1Small]: the collector of
      [openssl_md32_common.h] over the class [HashAlg], with the block functions
      of [openssl_md5.c] and [openssl_sha_local.h] as instances, and the key
      derivation and HMAC of [openssl_md5.c] and [openssl_sha.c].  The
      references are RFC 1321, FIPS 180, RFC 2104 and RFC 3414.  [HashWords] has
      the registers, of any width from 32 bits on ([target]); [Sha1Small] is the
      variant of SHA-1 for a small footprint.
    - [AesTables], [AesSpec], [Aes]: the tables of [openssl_aes_core.c], the
      cipher of FIPS 197 over the field of 256 elements, and the code;
      [AesVariants]: the unrolled rounds and the key schedules for assembler
      code, which compute the same.
    - [AesCfb], [AesCfbBits]: [openssl_cfb128.c], [openssl_aes_cfb.c] and
      [openssl_aes.c], against the mode of NIST SP 800-38A.
    - [Usm]: the calls from the agent to the cryptography, which instantiate the
      parameters of [MibView], [SnmpOut] and [SnmpIn] and discharge their laws,
      and the messages of RFC 3414 and RFC 3826; [UsmRecv]: requests that are
      received under this model.
    - [EventLoop]: [event_loop.c], over the class [Backend] with the instances
      [Select], [Epoll] and [Kqueue] for [event_select.h], [event_epoll.h] and
      [event_kqueue.h].
    - [Transport]: [snmp_udp_transport.c] and [agentx_tcp_transport.c], whose
      code is the same but for the size of a buffer and the client's address.
    - [SnmpTrap]: [snmp_trap.c] and [trap.h].
    - [AgentxData]: the constants and records of [agentx.h] and the byte order
      macros of [utils.h].
    - [ErrorMsg]: the search for error messages of [utils.h] and the tables of
      the two decoders.
    - [AgentxWire]: the reference encoding of RFC 2741, independent of the code
      and for both byte orders.
    - [AgentxCodec]: [agentx_decoder.c] and [agentx_encoder.c].
    - [AgentxOut]: [agentx_msg_out.c], as writes into a zeroed allocation.
    - [AgentxProc]: [agentx_msg_proc.c].
    - [AgentxIn]: [agentx_msg_in.c].
    - [Agentx]: [agentx.c], a session with the master agent.
    - [Snmpd]: the tables of functions of [protocol.h] and [trap.h] as records,
      with [snmp.c], the table of [snmp_trap.c] and that of [agentx.c]; the state
      of the whole agent.
    - [Bindings]: [smithsnmp.c], in a monad of state and Lua errors, over the
      class [LuaApi] for the Lua API and the class [AgentState] for what the
      bindings touch themselves.  The abstract specification of a script is
      [a_script], on the map of the MIB, the access tables and the references of
      the interpreter.
    - [Subagent]: a whole program that runs as a sub-agent, from the bindings to
      the master agent.

    ** Conventions

    A C integer is a [Z], reduced to its width ([u8], [u16], [u32], [i32])
    wherever the code stores it.  Memory is a list of cells; a read or write
    outside of it, the use of a freed or NULL pointer, a failed [assert],
    [abort] and a system call that blocks for ever are [None], so that a theorem
    that says [Some] also says that the code is free of such faults.
    Uninitialised memory holds a parameter [junk].  The code is compiled with
    all of its cryptography and with notifications ([DISABLE_CRYPTO],
    [DISABLE_TRAP] and the like are not defined).
    The byte order is a parameter [e].  Pointers into the tree are lists of
    child indices, pointers to views are indices, pointers into buffers are
    positions.

    Parameters stand for what is not modelled: the Lua interpreter ([lua_pcall],
    a function of the interpreter's state, the callback, the request, the
    identifier and the value) and its API, [random()], the results of [socket],
    [bind] and [connect], what
    the system calls of the event loop report ([select_answer],
    [epoll_answer]), the network of a transport (a queue of what arrives, a log
    of what is sent and [sendto], whether sending succeeds) and the master agent
    of a session ([send], [recv], [close] on a state of their own).  The files on
    messages take the key derivations, the HMAC functions and the cipher as
    parameters with the laws [hmac_ok] (a digest has the length it is asked for)
    and [aes_ok] (the cipher keeps the length of the text), which [Usm] proves of
    the code.  The other hypotheses are named: [NextHandler] (a handler
    answers GETNEXT with the next of its own variables), [answer_ok] (a
    descriptor that is reported readable can be read), [interrupted] (that, up to
    a report of SIGINT), [turns] (a response is
    written before the next request is read), [responds] (the master agent
    answers a PDU), [master] and [requests] (it does so for a sequence of PDUs,
    and sends well-formed requests); the witnesses instantiate them with concrete functions.

    ** Loops and fuel

    Recursion that is not structural has fuel, and running out of it is [None];
    the theorems prove [Some], so the fuel is enough.  [bsearch_loop] gets the
    size of its interval; [next_loop] and [delete_loop] get [tree_steps], which
    counts the steps of a full traversal; the loops of [owner_unreg] get one
    more than the number of owners, since an iteration advances or removes one
    (that [mib_community_unreg_write_diverges] needs no bound shows an endless
    loop); [view_search] and [view_search_next] get [view_fuel], one more than
    the number of views; [var_bind_loop] gets one more than the size of the
    buffer, since an iteration reads at least one byte of it, and so do
    [x_var_bind_parse] and [x_search_range_parse]; the traversals of a linked
    list get the number of nodes in the heap.  The loops of the cryptography
    have the counts of the code (a megabyte of password is 16384 blocks), or
    get the length of their input.  [snmp_event_run] does not end by itself: it
    consumes the answers of its system call one by one, until SIGINT
    ([transport_stops_on_sigint]).

    ** What the theorems show

    - The BER layer: integers are encoded minimally, lengths and the values of
      a binding survive encoding and decoding, but for the identifiers whose first
      two sub-identifiers one octet does not hold; the announced sizes are the written
      sizes within the stated bounds.
    - Identifiers: comparison, covering and binary search are the mathematical
      ones, for sub-identifiers below 2^31 where the code needs it.
    - Lists: any sequence of operations on any number of lists in one heap
      implements the operations on sequences.
    - The MIB tree: any sequence of registrations and removals implements the
      map, stays inside its arrays and stack and releases exactly what it
      removes; a search dispatches to the right handler; the stack-based GETNEXT
      refines the recursive traversal and, with handlers that keep their
      contract, finds the lexicographic successor.
    - Views: an invariant of all configuration sequences, which run to their end
      unless they come to a removal with the write attribute of a community or
      user with readable views, an endless loop ([view_stuck]); registration
      grants exactly one subtree, and removal with the read attribute revokes
      exactly one community.
    - Requests: GET and SET reach handlers only through a view that covers the
      identifier; GETNEXT over all views finds the successor; a GETBULK request
      is answered with max-repetitions rounds, in a response that is well formed
      when the error index has the length of max-repetitions, is malformed when
      it is shorter and overruns its allocation when it is longer
      ([index_message]).
    - Messages: responses are exactly the reference encoding, for versions 1, 2c
      and 3, with the right digest and cipher text; every message in the
      reference encoding is decoded to its fields; receiving a request sends
      the response, end to end; malformed input is answered by silence.
    - The event loop and the transports: an invariant of the table of events and
      of the pending response under any report of [select]; requests that come
      one at a time are answered in order, each to its client; SIGINT
      ends the run and closes the descriptors.
    - Notifications: any sequence of them transmits its messages and leaves the
      datagram clear; they are those of X.690 for standard values.  On big-endian
      machines the lengths of 0 and -1 cannot be announced ([int_sized]), so that
      nothing is sent from the initial state.
    - Cryptography: MD5 and SHA-1 in pieces of any size are the digests of the
      standards, the tables and key schedules of AES compute the cipher of
      FIPS 197 and its inverse, and cipher feedback is that of SP 800-38A.
    - Security: users get the keys of RFC 3414; an authenticated and encrypted
      request is received, answered and responded to with the messages of
      RFC 3414 and RFC 3826, octet for octet.
    - Bindings: a script that configures the agent implements the abstract
      operations and leaks nothing, or comes to a removal that never returns
      ([a_stuck]); a program that starts, configures and runs the agent then
      serves the requests that are answered without a fault, in order;
      notifications from Lua reach the host and port they name, the host with its
      bytes exchanged on big-endian machines.
    - AgentX: the decoder returns well-formed datagrams for arbitrary bytes and
      the fields of every reference PDU, with the identifiers as the code reads
      them ([as_read]: those sent in full get a prefix); a request of the master
      whose answers can be computed and written ([x_answered]) is answered with
      their reference encoding, end to end, and the others by a fault; a search
      range yields the smallest variable in it; a session opens, registers,
      unregisters and closes with the reference PDUs, for regions the code can
      write ([x_oid_short]: below 1.3.6.1, the fifth sub-identifier up to 255); a
      program that runs as a sub-agent configures the MIB with such regions
      ([region_ok]) and serves the master, end to end.
    - Defects of the code are stated as theorems too: authentication that is
      computed but not enforced, or passed with an empty parameter, an endless
      loop, values and errors that are lost between views, responses that are
      lost or sent to the wrong client, events given to the wrong callback,
      memory used after it is freed or written past its end, identifiers and
      byte orders that are misread, bounds that wrap.

    ** Not modelled

    The Lua library and MIB modules; [luaopen_smithsnmp_core], which registers
    the bindings; the allocators of [utils.h] (allocation failure ends the
    program); output; what system calls do beyond the results listed above.  Of
    [3rd/crypto]: SHA-0, which is not compiled. *)
From stdpp Require Export base list.
From Stdlib Require Export ZArith Lia.

(** ** Machine integers

    C integers are [Z] values; every assignment to an object of width [w]
    applies the conversion below, which is what the C conversions do on the
    two's complement targets of the program. *)
Definition u8 (z : Z) : Z := (z mod 2 ^ 8)%Z.
Definition u16 (z : Z) : Z := (z mod 2 ^ 16)%Z.
Definition u32 (z : Z) : Z := (z mod 2 ^ 32)%Z.
Definition i32 (z : Z) : Z :=
  let m := (z mod 2 ^ 32)%Z in
  if (m <? 2 ^ 31)%Z then m else (m - 2 ^ 32)%Z.

Definition is_u8 (z : Z) : Prop := (0 <= z < 2 ^ 8)%Z.
Definition is_u16 (z : Z) : Prop := (0 <= z < 2 ^ 16)%Z.
Definition is_u32 (z : Z) : Prop := (0 <= z < 2 ^ 32)%Z.
Definition is_i32 (z : Z) : Prop := (- 2 ^ 31 <= z < 2 ^ 31)%Z.

Abbreviation bytes := (Forall is_u8).
Abbreviation words := (Forall is_u32).

(** C's truth value of an integer. *)
Definition nz (z : Z) : bool := negb (z =? 0)%Z.

(** ** Byte order *)
Inductive endian := LE | BE.

(** [le_bytes n z] are the [n] low bytes of [z], least significant first;
    [le_val] is their value. *)
Fixpoint le_bytes (n : nat) (z : Z) : list Z :=
  match n with
  | O => []
  | S n' => (z mod 256)%Z :: le_bytes n' (z / 256)%Z
  end.

Fixpoint le_val (l : list Z) : Z :=
  match l with
  | [] => 0%Z
  | b :: l' => (b + 256 * le_val l')%Z
  end.

(** The object representation of an [n]-byte integer, and its reading. *)
Definition mem_of (e : endian) (n : nat) (z : Z) : list Z :=
  match e with LE => le_bytes n z | BE => rev (le_bytes n z) end.

Definition val_of (e : endian) (l : list Z) : Z :=
  match e with LE => le_val l | BE => le_val (rev l) end.

(** ** Buffers

    [slice i n buf] are the [n] bytes at offset [i]; [None] when one of them
    is outside the buffer (reading no byte is always fine).  [blit bs mem] is [memcpy(mem, bs, |bs|)]. *)
Definition slice {A} (i n : nat) (buf : list A) : option (list A) :=
  if decide (n = 0 \/ i + n <= length buf) then Some (take n (drop i buf)) else None.

Definition blit {A} (bs mem : list A) : option (list A) :=
  if decide (length bs <= length mem) then Some (bs ++ drop (length bs) mem) else None.

(** The length of a list as an integer. *)
Definition zlen {A} (l : list A) : Z := Z.of_nat (length l).

(** ** The option monad *)
Declare Scope opt_scope.
Delimit Scope opt_scope with opt.
Notation "'let*' p := c 'in' k" :=
  (match c with Some p => k | None => None end)
  (at level 10, p pattern, c at level 100, k at level 200, only parsing) : opt_scope.
Open Scope opt_scope.

(** Writing [bs] at offset [i]. *)
Definition write_at {A} (i : nat) (bs mem : list A) : option (list A) :=
  if decide (i <= length mem)%nat then
    let* tl := blit bs (drop i mem) in Some (take i mem ++ tl)
  else None.

(** ** Automation *)
Create HintDb smith.

Ltac unfold_ints :=
  unfold is_u8, is_u16, is_u32, is_i32, u8, u16, u32, i32, nz in *.

(** Case analysis on the boolean comparison of a goal or hypothesis. *)
Ltac zcase :=
  match goal with
  | |- context [(?a <? ?b)%Z] => destruct (Z.ltb_spec a b)
  | |- context [(?a <=? ?b)%Z] => destruct (Z.leb_spec a b)
  | |- context [(?a =? ?b)%Z] => destruct (Z.eqb_spec a b)
  | |- context [(?a >=? ?b)%Z] => rewrite (Z.geb_leb a b)
  | |- context [(?a >? ?b)%Z] => rewrite (Z.gtb_ltb a b)
  end.

(** The same, deciding the comparison from the context when possible. *)
Ltac zdec :=
  match goal with
  | |- context [(?a <? ?b)%Z] =>
      first [ rewrite (proj2 (Z.ltb_lt a b)) by lia
            | rewrite (proj2 (Z.ltb_ge a b)) by lia | destruct (Z.ltb_spec a b) ]
  | |- context [(?a <=? ?b)%Z] =>
      first [ rewrite (proj2 (Z.leb_le a b)) by lia
            | rewrite (proj2 (Z.leb_gt a b)) by lia | destruct (Z.leb_spec a b) ]
  | |- context [(?a =? ?b)%Z] =>
      first [ rewrite (proj2 (Z.eqb_eq a b)) by lia
            | rewrite (proj2 (Z.eqb_neq a b)) by lia | destruct (Z.eqb_spec a b) ]
  | |- context [(?a >=? ?b)%Z] => rewrite (Z.geb_leb a b)
  | |- context [(?a >? ?b)%Z] => rewrite (Z.gtb_ltb a b)
  end; cbn [andb orb negb].

(** Evaluate the powers of literals in the goal and the hypotheses. *)
Ltac zpow :=
  repeat match goal with
  | |- context [Z.pow ?a ?b] =>
      let v := eval vm_compute in (Z.pow a b) in
      match v with Zpos _ => change (Z.pow a b) with v end
  | H : context [Z.pow ?a ?b] |- _ =>
      let v := eval vm_compute in (Z.pow a b) in
      match v with Zpos _ => change (Z.pow a b) with v in H end
  end.

(** Refutes an equation between a closed computation that succeeds and [None],
    without reading back its result. *)
Ltac not_none E :=
  exfalso;
  match type of E with
  | ?t = None =>
      let H := fresh in
      assert (match t with Some _ => true | None => false end = true) as H by (vm_compute; reflexivity);
      rewrite E in H; discriminate H
  end.

(** Integer goals with constant division and modulo. *)
Ltac zlia := unfold_ints; Z.div_mod_to_equations; lia.

(** ** Integer lemmas *)
Section Ints.
Local Open Scope Z_scope.

Lemma u8_range z : is_u8 (u8 z).
Proof. unfold_ints. apply Z.mod_pos_bound. lia. Qed.

Lemma u16_range z : is_u16 (u16 z).
Proof. unfold_ints. apply Z.mod_pos_bound. lia. Qed.

Lemma u32_range z : is_u32 (u32 z).
Proof. unfold_ints. apply Z.mod_pos_bound. lia. Qed.

Lemma i32_range z : is_i32 (i32 z).
Proof. unfold_ints. zcase; pose proof (Z.mod_pos_bound z (2 ^ 32)); lia. Qed.

Lemma u8_id z : is_u8 z -> u8 z = z.
Proof. apply Z.mod_small. Qed.

Lemma u16_id z : is_u16 z -> u16 z = z.
Proof. apply Z.mod_small. Qed.

Lemma u32_id z : is_u32 z -> u32 z = z.
Proof. apply Z.mod_small. Qed.

Lemma i32_id z : is_i32 z -> i32 z = z.
Proof.
  intros H. unfold i32. destruct (decide (0 <= z)).
  - unfold is_i32 in *. rewrite Z.mod_small by lia. zcase; lia.
  - unfold is_i32 in *. replace (z mod 2 ^ 32) with (z + 2 ^ 32).
    + zcase; lia.
    + symmetry. rewrite <- (Z.mod_add z 1) by lia. apply Z.mod_small. lia.
Qed.

Lemma i32_u32 z : i32 (u32 z) = i32 z.
Proof. unfold i32, u32. by rewrite Z.mod_mod by lia. Qed.

Lemma u32_i32 z : u32 (i32 z) = u32 z.
Proof.
  unfold i32, u32. zcase; [by rewrite Z.mod_mod by lia|].
  replace (z mod 2 ^ 32 - 2 ^ 32) with (z mod 2 ^ 32 + (-1) * 2 ^ 32) by lia.
  rewrite Z.mod_add by lia. by rewrite Z.mod_mod by lia.
Qed.

Lemma i32_zero z : i32 z = 0 <-> u32 z = 0.
Proof.
  unfold i32, u32. pose proof (Z.mod_pos_bound z (2 ^ 32)). zcase; lia.
Qed.

(** Appending a byte: [(v << 8) | b] is [256 v + b]. *)
Lemma lor_shiftl_small n v b :
  0 <= n -> 0 <= b < 2 ^ n -> Z.lor (Z.shiftl v n) b = 2 ^ n * v + b.
Proof.
  intros Hn Hb. rewrite Z.shiftl_mul_pow2 by lia.
  rewrite <- Z.add_lor_land, (Z.mul_comm v).
  enough (Z.land (2 ^ n * v) b = 0) as -> by lia.
  apply Z.bits_inj'. intros i Hi. rewrite Z.land_spec, Z.bits_0.
  destruct (Z.ltb_spec i n).
  - rewrite (Z.mul_comm _ v), Z.mul_pow2_bits_low by lia. done.
  - rewrite andb_comm. destruct (decide (b = 0)) as [->|]; [by rewrite Z.bits_0|].
    rewrite Z.bits_above_log2; [done|lia|].
    apply Z.lt_le_trans with n; [|lia]. apply Z.log2_lt_pow2; lia.
Qed.

Lemma lor_shiftl_byte v b : is_u8 b -> Z.lor (Z.shiftl v 8) b = 256 * v + b.
Proof. intros. by rewrite lor_shiftl_small by (unfold is_u8 in *; lia). Qed.

(** A property of all bytes can be checked by evaluation. *)
Lemma byte_check (P : Z -> bool) :
  forallb (fun n => P (Z.of_nat n)) (seq 0 256) = true -> forall b, is_u8 b -> P b = true.
Proof.
  intros H b Hb. rewrite forallb_forall in H.
  specialize (H (Z.to_nat b)). rewrite Z2Nat.id in H by (unfold is_u8 in *; lia).
  apply H. apply in_seq. unfold is_u8 in *. lia.
Qed.

Lemma bytes_check l : forallb (fun b => (0 <=? b) && (b <? 256)) l = true -> bytes l.
Proof.
  intros H. apply List.Forall_forall. rewrite forallb_forall in H. intros b Hb. specialize (H b Hb). unfold is_u8. lia.
Qed.

Lemma land_0x80 b : is_u8 b -> nz (Z.land b 0x80) = (128 <=? b).
Proof.
  intros Hb.
  by apply eqb_prop, (byte_check (fun b => eqb (nz (Z.land b 0x80)) (128 <=? b))).
Qed.

Lemma land_0x7f b : 0 <= b -> Z.land b 0x7f = b mod 128.
Proof. intros. change 0x7f with (Z.ones 7). by rewrite Z.land_ones by lia. Qed.
Lemma u32_add_l a b : u32 (u32 a + b) = u32 (a + b).
Proof. unfold u32. by rewrite Z.add_mod_idemp_l by lia. Qed.
End Ints.

#[export] Hint Resolve u8_range u16_range u32_range i32_range : smith.

(** ** Memory lemmas *)
Section Memory.
Local Open Scope Z_scope.

Lemma length_le_bytes n z : length (le_bytes n z) = n.
Proof. revert z. induction n; intros; simpl; auto. Qed.

Lemma le_bytes_bytes n z : bytes (le_bytes n z).
Proof.
  revert z. induction n; intros; simpl; constructor; auto.
  unfold is_u8. apply Z.mod_pos_bound. lia.
Qed.

Lemma le_val_le_bytes n z : le_val (le_bytes n z) = z mod 256 ^ Z.of_nat n.
Proof.
  revert z. induction n as [|n IH]; intros z.
  - simpl. by rewrite Z.mod_1_r.
  - cbn [le_bytes le_val]. rewrite IH.
    rewrite Nat2Z.inj_succ, Z.pow_succ_r by lia.
    rewrite Z.rem_mul_r by (try apply Z.pow_nonzero; lia). done.
Qed.

Lemma le_bytes_le_val l : bytes l -> le_bytes (length l) (le_val l) = l.
Proof.
  induction 1 as [|b l Hb _ IH]; simpl; [done|].
  unfold is_u8 in Hb. f_equal.
  - rewrite (Z.mul_comm 256), Z.mod_add by lia. apply Z.mod_small. lia.
  - rewrite (Z.mul_comm 256), Z.div_add by lia. rewrite Z.div_small by lia. done.
Qed.

Lemma le_val_bound l : bytes l -> 0 <= le_val l < 256 ^ Z.of_nat (length l).
Proof.
  induction 1 as [|b l Hb _ IH]; [simpl; lia|].
  cbn [le_val length]. rewrite Nat2Z.inj_succ, Z.pow_succ_r by lia. unfold is_u8 in Hb. nia.
Qed.

Lemma length_mem_of e n z : length (mem_of e n z) = n.
Proof. destruct e; simpl; by rewrite ?length_rev, length_le_bytes. Qed.

Lemma mem_of_bytes e n z : bytes (mem_of e n z).
Proof. destruct e; simpl; [|apply Forall_rev]; apply le_bytes_bytes. Qed.

Lemma val_of_mem_of e n z : val_of e (mem_of e n z) = z mod 256 ^ Z.of_nat n.
Proof. destruct e; simpl; rewrite ?rev_involutive; apply le_val_le_bytes. Qed.

Lemma val_of_word e z : is_u32 z -> val_of e (mem_of e 4 z) = z.
Proof. intros. rewrite val_of_mem_of. by apply u32_id. Qed.

Lemma val_of_int e z : is_i32 z -> i32 (val_of e (mem_of e 4 z)) = z.
Proof. intros. rewrite val_of_mem_of. change (256 ^ Z.of_nat 4) with (2 ^ 32).
  change (z mod 2 ^ 32) with (u32 z). rewrite i32_u32. by apply i32_id. Qed.

Lemma val_of_bound e l : bytes l -> 0 <= val_of e l < 256 ^ Z.of_nat (length l).
Proof.
  intros H. destruct e; simpl; [by apply le_val_bound|].
  rewrite <- length_rev. by apply le_val_bound, Forall_rev.
Qed.
End Memory.

(** ** Buffer lemmas *)
Section Buffers.
Context {A : Type}.
Implicit Types l buf mem : list A.

Lemma slice_app l r n : n = length l -> slice 0 n (l ++ r) = Some l.
Proof.
  intros ->. unfold slice. rewrite decide_True by (right; rewrite length_app; lia).
  by rewrite drop_0, take_app_length.
Qed.

Lemma slice_mid l1 l2 r i n :
  i = length l1 -> n = length l2 -> slice i n (l1 ++ l2 ++ r) = Some l2.
Proof.
  intros -> ->. unfold slice. rewrite decide_True by (right; rewrite !length_app; lia).
  by rewrite drop_app_length, take_app_length.
Qed.

Lemma lookup_mid l1 l2 r i k x : i = (length l1 + k)%nat -> l2 !! k = Some x -> (l1 ++ l2 ++ r) !! i = Some x.
Proof.
  intros -> H. rewrite lookup_app_r by lia. replace (length l1 + k - length l1) with k by lia.
  rewrite lookup_app_l; [done|]. by eapply lookup_lt_Some.
Qed.

Lemma slice_length i n buf l : slice i n buf = Some l -> length l = n.
Proof.
  unfold slice. case_decide; [|done]. intros [= <-].
  rewrite length_take, length_drop. lia.
Qed.

Lemma slice_prefix n buf l : slice 0 n buf = Some l -> exists r, buf = l ++ r.
Proof.
  unfold slice. case_decide; [|done]. intros [= <-]. exists (drop n buf). by rewrite drop_0, take_drop.
Qed.

Lemma slice_Forall (P : A -> Prop) i n buf l :
  Forall P buf -> slice i n buf = Some l -> Forall P l.
Proof.
  unfold slice. case_decide; [|done]. intros H0 [= <-].
  by apply Forall_take, Forall_drop.
Qed.

Lemma blit_length bs mem mem' : blit bs mem = Some mem' -> length mem' = length mem.
Proof.
  unfold blit. case_decide; [|done]. intros [= <-].
  rewrite length_app, length_drop. lia.
Qed.

Lemma blit_take bs mem mem' : blit bs mem = Some mem' -> take (length bs) mem' = bs.
Proof. unfold blit. case_decide; [|done]. intros [= <-]. apply take_app_length. Qed.
End Buffers.

Lemma write_at_mid {A} (l1 old bs l2 : list A) i :
  i = length l1 -> length old = length bs -> write_at i bs (l1 ++ old ++ l2) = Some (l1 ++ bs ++ l2).
Proof.
  intros -> Hl. unfold write_at, blit. rewrite decide_True by (rewrite !length_app; lia).
  rewrite drop_app_length, take_app_length, decide_True by (rewrite length_app; lia).
  rewrite <- Hl, drop_app_length. done.
Qed.

Lemma slice_self {A} (l : list A) : slice 0 (length l) l = Some l.
Proof. rewrite <- (app_nil_r l) at 2. by apply slice_app. Qed.

Lemma slice_take {A} n (l : list A) : (n <= length l)%nat -> slice 0 n l = Some (take n l).
Proof. intros. unfold slice. by rewrite decide_True by lia. Qed.

Lemma blit_all {A} (bs mem : list A) : length bs = length mem -> blit bs mem = Some bs.
Proof. intros H. unfold blit. rewrite decide_True, H, drop_all, app_nil_r by lia. done. Qed.

Lemma take_blit {A} n (bs mem : list A) : (length bs <= length mem)%nat -> (n <= length bs)%nat ->
  exists mem', blit bs mem = Some mem' /\ slice 0 n mem' = Some (take n bs).
Proof.
  intros H Hn. unfold blit. rewrite decide_True by lia. eexists. split; [done|].
  rewrite slice_take by (rewrite length_app; lia). by rewrite take_app_le by lia.
Qed.

Lemma blit_fits (bs mem : list Z) : (length bs <= length mem)%nat ->
  exists mem', blit bs mem = Some mem' /\ length mem' = length mem.
Proof.
  intros H. destruct (blit bs mem) as [mem'|] eqn:E; [|unfold blit in E; case_decide; [done|lia]].
  exists mem'. split; [done|]. by apply blit_length in E.
Qed.

(** *** Lengths *)
Section Lengths.
Local Open Scope Z_scope.

Lemma zlen_app {A} (l1 l2 : list A) : zlen (l1 ++ l2) = zlen l1 + zlen l2.
Proof. unfold zlen. rewrite length_app. lia. Qed.

Lemma zlen_cons {A} (x : A) l : zlen (x :: l) = 1 + zlen l.
Proof. unfold zlen. cbn [length]. lia. Qed.

Lemma zlen_nonneg {A} (l : list A) : 0 <= zlen l.
Proof. unfold zlen. lia. Qed.

Lemma zlen_u32 {A} (l : list A) : zlen l < 2 ^ 32 -> is_u32 (zlen l).
Proof. split; [apply zlen_nonneg|done]. Qed.

Lemma zlen_mem_of e n z : zlen (mem_of e n z) = Z.of_nat n.
Proof. unfold zlen. by rewrite length_mem_of. Qed.

Lemma Zto_nat_zlen {A} (l : list A) : Z.to_nat (zlen l) = length l.
Proof. apply Nat2Z.id. Qed.
End Lengths.

#[global] Arguments zlen : simpl never.
#[export] Hint Resolve le_bytes_bytes mem_of_bytes : smith.
