(* ===== verification/BerEncoder.v ===== *)
(** * BER encoder ([src/core/snmp_encoder.c])

    The encoder comes in pairs: [f_try] computes the number of bytes [f] will
    write, so that the caller can size the buffer before [f] fills it.  Both
    halves are translated for the two byte orders the build supports
    ([#ifdef LITTLE_ENDIAN]); a function that writes [n] bytes at [buf] and
    returns [n] is a function returning the list of bytes written.  [None]
    stands for an access outside the object (undefined behaviour) or, for the
    object identifier length, for a loop that does not terminate. *)
From S2P Require Import Prelude.
Local Open Scope Z_scope.

(** ** Tags ([asn1.h]) *)
Definition ASN1_TAG_INT : Z := 0x02.
Definition ASN1_TAG_OCTSTR : Z := 0x04.
Definition ASN1_TAG_NUL : Z := 0x05.
Definition ASN1_TAG_OBJID : Z := 0x06.
Definition ASN1_TAG_SEQ : Z := 0x30.
Definition ASN1_TAG_IPADDR : Z := 0x40.
Definition ASN1_TAG_CNT : Z := 0x41.
Definition ASN1_TAG_GAU : Z := 0x42.
Definition ASN1_TAG_TIMETICKS : Z := 0x43.
Definition ASN1_TAG_OPAQ : Z := 0x44.
Definition ASN1_TAG_CNT64 : Z := 0x46.
Definition ASN1_TAG_NO_SUCH_OBJ : Z := 0x80.
Definition ASN1_TAG_NO_SUCH_INST : Z := 0x81.
Definition ASN1_TAG_END_OF_MIB_VIEW : Z := 0x82.

Definition ASN1_OID_MAX_LEN : Z := 64.
Definition ASN1_VALUE_MAX_LEN : Z := 1024.

Definition ASN1_TAG_VALID (tag : Z) : bool := tag <? ASN1_TAG_NO_SUCH_OBJ.

(** ** Scanning and copying loops of the encoder *)

(** [while (i > 0 && p(a[i])) i--;] *)
Fixpoint scan_down (p : Z -> bool) (a : list Z) (i : nat) : nat :=
  match i with
  | O => O
  | S i' => if p (nth i a 0) then scan_down p a i' else i
  end.

(** [while (i < i + k && p(a[i])) i++;] where [k] is the distance to the bound. *)
Fixpoint scan_up (p : Z -> bool) (a : list Z) (k i : nat) : nat :=
  match k with
  | O => i
  | S k' => if p (nth i a 0) then scan_up p a k' (S i) else i
  end.

(** [while (i >= 0) buf[j++] = a[i--];] *)
Fixpoint copy_down (a : list Z) (i : nat) : list Z :=
  nth i a 0 :: match i with O => [] | S i' => copy_down a i' end.

(** ** Integers *)
Definition ber_int_enc_try (e : endian) (value : Z) : option Z :=
  let a := mem_of e 4 value in
  match e with
  | LE =>
      let i := if value >=? 0 then scan_down (Z.eqb 0) a 3 else scan_down (Z.eqb 0xff) a 3 in
      let* b := a !! i in
      let len := if value >=? 0 then (if nz (Z.land b 0x80) then 1 else 0)
                 else (if nz (Z.land b 0x80) then 0 else 1) in
      Some (len + (Z.of_nat i + 1))
  | BE =>
      let i := if value >=? 0 then scan_up (Z.eqb 0) a 4 0 else scan_up (Z.eqb 0xff) a 4 0 in
      let* b := a !! i in
      let len := if value >=? 0 then (if nz (Z.land b 0x80) then 1 else 0)
                 else (if nz (Z.land b 0x80) then 0 else 1) in
      Some (len + (4 - Z.of_nat i))
  end.

Definition ber_uint_enc_try (e : endian) (value : Z) : Z :=
  let a := mem_of e 4 value in
  match e with
  | LE =>
      let i := scan_down (Z.eqb 0) a 3 in
      (if nz (Z.land (nth i a 0) 0x80) then 1 else 0) + (Z.of_nat i + 1)
  | BE =>
      let i := scan_up (Z.eqb 0) a 3 0 in
      (if nz (Z.land (nth i a 0) 0x80) then 1 else 0) + (4 - Z.of_nat i)
  end.

Definition ber_int_enc (e : endian) (value : Z) : list Z :=
  let a := mem_of e 4 value in
  match e with
  | LE =>
      let i := if value >=? 0 then scan_down (Z.eqb 0) a 3 else scan_down (Z.eqb 0xff) a 3 in
      (if value >=? 0 then (if nz (Z.land (nth i a 0) 0x80) then [0x0] else [])
       else (if nz (Z.land (nth i a 0) 0x80) then [] else [0xff]))
      ++ copy_down a i
  | BE =>
      let i := if value >=? 0 then scan_up (Z.eqb 0) a 3 0 else scan_up (Z.eqb 0xff) a 3 0 in
      (if value >=? 0 then (if nz (Z.land (nth i a 0) 0x80) then [0x0] else [])
       else (if nz (Z.land (nth i a 0) 0x80) then [] else [0xff]))
      ++ drop i a
  end.

(** The parameter is an [int], the union member an [unsigned int]. *)
Definition ber_uint_enc (e : endian) (value : Z) : list Z :=
  let a := mem_of e 4 (u32 value) in
  match e with
  | LE =>
      let i := scan_down (Z.eqb 0) a 3 in
      (if nz (Z.land (nth i a 0) 0x80) then [0x0] else []) ++ copy_down a i
  | BE =>
      let i := scan_up (Z.eqb 0) a 3 0 in
      (if nz (Z.land (nth i a 0) 0x80) then [0x0] else []) ++ drop i a
  end.

(** ** Object identifiers *)

(** The [do ... while (id)] loop that fills [tmp] with the base-128 digits of a
    sub-identifier, least significant first.  [room] is what is left of
    [tmp[10]]; [None] is a write past its end. *)
Fixpoint subid_digits (room : nat) (id : Z) : option (list Z) :=
  match room with
  | O => None
  | S room' =>
      let d := u8 (Z.lor (Z.land id 0x7f) 0x80) in
      if nz (id / 128) then
        let* ds := subid_digits room' (id / 128) in Some (d :: ds)
      else Some [d]
  end.

(** [tmp[0] &= 0x7f], then the digits most significant first. *)
Definition subid_enc (id : Z) : option (list Z) :=
  let* tmp := subid_digits 10 id in
  match tmp with
  | [] => Some []
  | d0 :: ds => Some (rev (Z.land d0 0x7f :: ds))
  end.

Fixpoint subids_enc (ids : list Z) : option (list Z) :=
  match ids with
  | [] => Some []
  | id :: ids' =>
      let* bs := subid_enc id in
      let* rest := subids_enc ids' in Some (bs ++ rest)
  end.

(** The inner [do { j++; k--; } while (k)] adds the digit count to the 8-bit
    [j]; the counter [i] is 8-bit too and is compared to the 32-bit [len]. *)
Fixpoint oid_enc_try_loop (fuel : nat) (oid : list Z) (i j : Z) : option Z :=
  if i <? Z.of_nat (length oid) then
    match fuel with
    | O => None
    | S fuel' =>
        let* id := oid !! Z.to_nat i in
        let* tmp := subid_digits 10 id in
        oid_enc_try_loop fuel' oid (u8 (i + 1)) (u8 (j + Z.of_nat (length tmp)))
    end
  else Some j.

Definition ber_oid_enc_try (oid : list Z) : option Z :=
  let len := Z.of_nat (length oid) in
  if len <? 2 then Some len else oid_enc_try_loop 256 oid 2 1.

Definition ber_oid_enc (oid : list Z) : option (list Z) :=
  match oid with
  | [] => Some []
  | [id0] => Some [u8 id0]
  | id0 :: id1 :: ids =>
      let* rest := subids_enc ids in Some (u8 (u32 (id0 * 40 + id1)) :: rest)
  end.

(** ** Values

    [value] is the memory the [const void *] points to. *)
Definition load_int (e : endian) (value : list Z) : option Z :=
  let* m := slice 0 4 value in Some (i32 (val_of e m)).

Definition load_uint (e : endian) (value : list Z) : option Z :=
  let* m := slice 0 4 value in Some (val_of e m).

Fixpoint load_oid (e : endian) (value : list Z) (len : nat) : option (list Z) :=
  match len with
  | O => Some []
  | S len' =>
      let* id := load_uint e value in
      let* ids := load_oid e (drop 4 value) len' in Some (id :: ids)
  end.

(** The object representation of an [oid_t] array. *)
Fixpoint store_oid (e : endian) (oid : list Z) : list Z :=
  match oid with
  | [] => []
  | id :: ids => mem_of e 4 id ++ store_oid e ids
  end.

Definition ber_value_enc_try (e : endian) (value : list Z) (len type : Z) : option Z :=
  if (type =? ASN1_TAG_INT) || (type =? ASN1_TAG_CNT) then
    let* inter := load_int e value in ber_int_enc_try e inter
  else if (type =? ASN1_TAG_GAU) || (type =? ASN1_TAG_TIMETICKS) then
    let* uinter := load_uint e value in Some (ber_uint_enc_try e uinter)
  else if type =? ASN1_TAG_OBJID then
    let* oid := load_oid e value (Z.to_nat len) in ber_oid_enc_try oid
  else if (type =? ASN1_TAG_OCTSTR) || (type =? ASN1_TAG_IPADDR) then Some len
  else Some 0.

Definition ber_value_enc (e : endian) (value : list Z) (len type : Z) : option (list Z) :=
  if (type =? ASN1_TAG_INT) || (type =? ASN1_TAG_CNT) then
    let* inter := load_int e value in Some (ber_int_enc e inter)
  else if (type =? ASN1_TAG_GAU) || (type =? ASN1_TAG_TIMETICKS) then
    let* uinter := load_uint e value in Some (ber_uint_enc e (i32 uinter))
  else if type =? ASN1_TAG_OBJID then
    let* oid := load_oid e value (Z.to_nat len) in ber_oid_enc oid
  else if (type =? ASN1_TAG_OCTSTR) || (type =? ASN1_TAG_IPADDR) then
    slice 0 (Z.to_nat len) value
  else Some [].

(** ** Lengths *)
Definition ber_length_enc_try (e : endian) (value : Z) : Z :=
  let a := mem_of e 4 value in
  match e with
  | LE =>
      let i := scan_down (Z.eqb 0) a 3 in
      (if value >? 127 then 1 else 0) + (Z.of_nat i + 1)
  | BE =>
      let i := scan_up (Z.eqb 0) a 3 0 in
      (if value >? 127 then 1 else 0) + (4 - Z.of_nat i)
  end.

Definition ber_length_enc (e : endian) (value : Z) : list Z :=
  let a := mem_of e 4 value in
  match e with
  | LE =>
      let i := scan_down (Z.eqb 0) a 3 in
      (if value >? 127 then [Z.lor 0x80 (Z.of_nat i + 1)] else []) ++ copy_down a i
  | BE =>
      let i := scan_up (Z.eqb 0) a 3 0 in
      (if value >? 127 then [Z.lor 0x80 (4 - Z.of_nat i)] else []) ++ drop i a
  end.

(** ** Reference sizes

    The number of octets of the minimal two's complement form of a signed and
    of an unsigned integer, and of the minimal unsigned form used in long-form
    lengths (X.690, 8.1.3.5 and 8.3.2). *)
Definition int_octets (v : Z) : nat :=
  if (-2 ^ 7 <=? v) && (v <? 2 ^ 7) then 1
  else if (-2 ^ 15 <=? v) && (v <? 2 ^ 15) then 2
  else if (-2 ^ 23 <=? v) && (v <? 2 ^ 23) then 3
  else if (-2 ^ 31 <=? v) && (v <? 2 ^ 31) then 4 else 5.

Definition len_octets (v : Z) : nat :=
  if v <? 2 ^ 8 then 1 else if v <? 2 ^ 16 then 2 else if v <? 2 ^ 24 then 3 else 4.

(** Big-endian octets. *)
Definition be_bytes (n : nat) (z : Z) : list Z := rev (le_bytes n z).

Lemma length_store_oid w ids : length (store_oid w ids) = (4 * length ids)%nat.
Proof. induction ids as [|x ids IH]; cbn [store_oid length]; [done|]. rewrite length_app, length_mem_of. lia. Qed.

Lemma store_oid_app w a b : store_oid w (a ++ b) = store_oid w a ++ store_oid w b.
Proof. induction a as [|x a IH]; cbn [store_oid app]; [done|]. by rewrite IH, app_assoc. Qed.

Lemma store_oid_bytes w ids : bytes (store_oid w ids).
Proof. induction ids; cbn [store_oid]; [constructor|]. apply Forall_app. split; [apply mem_of_bytes|done]. Qed.

(** ** Lemmas on the loops *)
Lemma copy_down_take a i : (i < length a)%nat -> copy_down a i = rev (take (S i) a).
Proof.
  induction i as [|i IH]; intros Hi.
  - by destruct a; simpl in *; [lia|].
  - cbn [copy_down]. rewrite IH by lia.
    destruct (lookup_lt_is_Some_2 a (S i)) as [x Hx]; [lia|].
    rewrite (take_S_r a (S i) x Hx), rev_app_distr. simpl. f_equal.
    rewrite nth_lookup, Hx. done.
Qed.

Lemma take_le_bytes k n z : (k <= n)%nat -> take k (le_bytes n z) = le_bytes k z.
Proof.
  revert n z. induction k as [|k IH]; intros n z Hk; [by rewrite take_0|].
  destruct n as [|n]; [lia|]. simpl. f_equal. apply IH. lia.
Qed.

Lemma copy_down_le_bytes i z : (i < 4)%nat -> copy_down (le_bytes 4 z) i = be_bytes (S i) z.
Proof.
  intros. rewrite copy_down_take by (rewrite length_le_bytes; lia).
  by rewrite take_le_bytes by lia.
Qed.

Lemma scan_down_le p a i : (scan_down p a i <= i)%nat.
Proof. induction i; simpl; [lia|]. destruct (p _); lia. Qed.

(** Scanning the big-endian image upwards meets the bytes in the order in
    which the little-endian image is scanned downwards. *)
Lemma scan_up_rev p z :
  scan_up p (rev (le_bytes 4 z)) 3 0 = (3 - scan_down p (le_bytes 4 z) 3)%nat.
Proof.
  cbn [le_bytes rev app scan_up scan_down nth].
  by destruct (p _); [destruct (p _); [destruct (p _)|]|].
Qed.

Lemma nth_rev_le_bytes z i :
  (i <= 3)%nat -> nth (3 - i) (rev (le_bytes 4 z)) 0 = nth i (le_bytes 4 z) 0.
Proof.
  intros. rewrite rev_nth by (rewrite length_le_bytes; lia).
  rewrite length_le_bytes. f_equal. lia.
Qed.

Lemma drop_rev_le_bytes z i :
  (i <= 3)%nat -> drop (3 - i) (rev (le_bytes 4 z)) = be_bytes (S i) z.
Proof.
  intros. unfold be_bytes. cbn [le_bytes].
  destruct i as [|[|[|[|]]]]; [done..|lia].
Qed.

Lemma div256_2 z : z / 256 / 256 = z / 65536.
Proof. by rewrite Z.div_div by lia. Qed.
Lemma div256_3 z : z / 65536 / 256 = z / 16777216.
Proof. by rewrite Z.div_div by lia. Qed.

(** Evaluate a scan of the four bytes of [z] to comparisons on [z]. *)
Ltac scan_bytes :=
  cbn [le_bytes scan_down nth]; rewrite ?div256_2, ?div256_3; repeat zcase;
  cbn [andb]; try reflexivity; try (exfalso; Z.div_mod_to_equations; lia).

Lemma scan_down_zero z :
  is_u32 z -> scan_down (Z.eqb 0) (le_bytes 4 z) 3 = pred (len_octets z).
Proof. unfold is_u32, len_octets. intros Hz. scan_bytes. Qed.

Lemma scan_down_ones z :
  - 2 ^ 31 <= z < 0 ->
  scan_down (Z.eqb 0xff) (le_bytes 4 z) 3 =
  if - 2 ^ 8 <=? z then 0%nat else if - 2 ^ 16 <=? z then 1%nat
  else if - 2 ^ 24 <=? z then 2%nat else 3%nat.
Proof. intros Hz. scan_bytes. Qed.

Lemma nth_le_bytes z i : (i < 4)%nat -> nth i (le_bytes 4 z) 0 = (z / 256 ^ Z.of_nat i) mod 256.
Proof.
  intros. destruct i as [|[|[|[|]]]]; cbn [nth le_bytes]; rewrite ?Z.div_div by lia;
    [by rewrite Z.div_1_r|done..|lia].
Qed.

Lemma byte_mod z : is_u8 (z mod 256).
Proof. unfold is_u8. apply Z.mod_pos_bound. lia. Qed.

(** One octet more than the first significant one is the sign octet. *)
Lemma be_bytes_S_zero n z : 0 <= z < 256 ^ Z.of_nat n -> be_bytes (S n) z = 0 :: be_bytes n z.
Proof.
  revert z. induction n as [|n IH]; intros z Hz.
  - cbn in Hz. unfold be_bytes. cbn. rewrite Z.mod_small by lia. f_equal. lia.
  - unfold be_bytes in *. rewrite Nat2Z.inj_succ, Z.pow_succ_r in Hz by lia.
    change (le_bytes (S (S n)) z) with (z mod 256 :: le_bytes (S n) (z / 256)).
    cbn [rev]. rewrite IH; [done|]. split; [apply Z.div_pos; lia|].
    apply Z.div_lt_upper_bound; lia.
Qed.

Lemma be_bytes_S_ones n z : - 256 ^ Z.of_nat n <= z < 0 -> be_bytes (S n) z = 0xff :: be_bytes n z.
Proof.
  revert z. induction n as [|n IH]; intros z Hz.
  - cbn in Hz. replace z with (-1) by lia. done.
  - unfold be_bytes in *. rewrite Nat2Z.inj_succ, Z.pow_succ_r in Hz by lia.
    change (le_bytes (S (S n)) z) with (z mod 256 :: le_bytes (S n) (z / 256)).
    cbn [rev]. rewrite IH; [done|]. split; [apply Z.div_le_lower_bound; lia|].
    apply Z.div_lt_upper_bound; lia.
Qed.

Lemma length_be_bytes n z : length (be_bytes n z) = n.
Proof. unfold be_bytes. by rewrite length_rev, length_le_bytes. Qed.

Lemma be_bytes_bytes n z : bytes (be_bytes n z).
Proof. apply Forall_rev, le_bytes_bytes. Qed.

(** The sign bit of the most significant octet. *)
Lemma sign_bit_nonneg i z :
  (i < 4)%nat -> 0 <= z < 256 ^ (Z.of_nat i + 1) ->
  nz (Z.land (nth i (le_bytes 4 z) 0) 0x80) = (128 * 256 ^ Z.of_nat i <=? z).
Proof.
  intros Hi Hz. rewrite nth_le_bytes by done. rewrite land_0x80 by apply byte_mod.
  rewrite Z.pow_add_r in Hz by lia.
  assert (0 < 256 ^ Z.of_nat i) by (apply Z.pow_pos_nonneg; lia).
  rewrite Z.mod_small by (split; [apply Z.div_pos; lia|apply Z.div_lt_upper_bound; lia]).
  apply Bool.eq_iff_eq_true. rewrite !Z.leb_le. split; intros.
  - rewrite (Z.div_mod z (256 ^ Z.of_nat i)) by lia.
    pose proof (Z.mod_pos_bound z (256 ^ Z.of_nat i)). nia.
  - apply Z.div_le_lower_bound; lia.
Qed.

Lemma sign_bit_neg i z :
  (i < 4)%nat -> - 256 ^ (Z.of_nat i + 1) <= z < 0 ->
  nz (Z.land (nth i (le_bytes 4 z) 0) 0x80) = (- 128 * 256 ^ Z.of_nat i <=? z).
Proof.
  intros Hi Hz. rewrite nth_le_bytes by done. rewrite land_0x80 by apply byte_mod.
  rewrite Z.pow_add_r in Hz by lia.
  assert (0 < 256 ^ Z.of_nat i) by (apply Z.pow_pos_nonneg; lia).
  assert (- 256 <= z / 256 ^ Z.of_nat i < 0) as Hd.
  { split; [apply Z.div_le_lower_bound; lia|apply Z.div_lt_upper_bound; lia]. }
  replace ((z / 256 ^ Z.of_nat i) mod 256) with (z / 256 ^ Z.of_nat i + 256)
    by (Z.div_mod_to_equations; lia).
  apply Bool.eq_iff_eq_true. rewrite !Z.leb_le.
  pose proof (Z.div_mod z (256 ^ Z.of_nat i) ltac:(lia)).
  pose proof (Z.mod_pos_bound z (256 ^ Z.of_nat i) ltac:(lia)). nia.
Qed.

(** Decide which octets are written once the leading octet is known. *)
Ltac octets :=
  cbn [pred]; rewrite ?sign_bit_nonneg, ?sign_bit_neg, ?copy_down_le_bytes by (cbn; lia);
  unfold int_octets; cbn [Z.of_nat Pos.of_succ_nat Pos.succ Z.pow Z.pow_pos Pos.iter Z.mul Pos.mul Pos.add Z.opp];
  repeat zdec; cbn [app]; try reflexivity;
  try (symmetry; first [ apply be_bytes_S_zero; cbn; lia | apply be_bytes_S_ones; cbn; lia ]).

Lemma ber_uint_enc_LE z : is_u32 z -> ber_uint_enc LE z = be_bytes (int_octets z) z.
Proof.
  intros Hz. unfold ber_uint_enc. rewrite u32_id by done. cbn [mem_of].
  rewrite scan_down_zero by done. unfold is_u32 in Hz. unfold len_octets.
  repeat zdec; octets.
Qed.

Lemma ber_int_enc_LE z : is_i32 z -> ber_int_enc LE z = be_bytes (int_octets z) z.
Proof.
  intros Hz. unfold is_i32 in Hz. unfold ber_int_enc. cbn [mem_of].
  destruct (Z.geb_spec z 0).
  - rewrite scan_down_zero by (unfold is_u32; lia). unfold len_octets. repeat zdec; octets.
  - rewrite scan_down_ones by lia. repeat zdec; octets.
Qed.

(** *** The two byte orders write the same octets *)
Lemma ber_uint_enc_BE z : ber_uint_enc BE z = ber_uint_enc LE z.
Proof.
  unfold ber_uint_enc. cbn [mem_of]. rewrite scan_up_rev.
  pose proof (scan_down_le (Z.eqb 0) (le_bytes 4 (u32 z)) 3).
  rewrite nth_rev_le_bytes, drop_rev_le_bytes, copy_down_le_bytes by lia. done.
Qed.

Lemma ber_int_enc_BE z : ber_int_enc BE z = ber_int_enc LE z.
Proof.
  unfold ber_int_enc. cbn [mem_of]. rewrite !scan_up_rev.
  pose proof (scan_down_le (Z.eqb 0) (le_bytes 4 z) 3).
  pose proof (scan_down_le (Z.eqb 255) (le_bytes 4 z) 3).
  destruct (z >=? 0); rewrite nth_rev_le_bytes, drop_rev_le_bytes, copy_down_le_bytes by lia; done.
Qed.

Lemma ber_uint_enc_eq e z : is_u32 z -> ber_uint_enc e z = be_bytes (int_octets z) z.
Proof. destruct e; rewrite ?ber_uint_enc_BE; apply ber_uint_enc_LE. Qed.

Lemma ber_uint_enc_mod e z : ber_uint_enc e (i32 z) = ber_uint_enc e z.
Proof. unfold ber_uint_enc. by rewrite u32_i32. Qed.

(** *** Lengths computed ahead *)
Lemma ber_uint_enc_try_eq e z : is_u32 z -> ber_uint_enc_try e z = Z.of_nat (int_octets z).
Proof.
  intros Hz. unfold ber_uint_enc_try. destruct e; cbn [mem_of].
  - rewrite scan_down_zero by done. unfold is_u32 in Hz. unfold len_octets. repeat zdec; octets.
  - rewrite scan_up_rev, scan_down_zero by done.
    rewrite nth_rev_le_bytes by (unfold len_octets; repeat zcase; cbn; lia).
    unfold is_u32 in Hz. unfold len_octets. repeat zdec; octets.
Qed.

Lemma lookup_nth_le_bytes z i : (i < 4)%nat -> le_bytes 4 z !! i = Some (nth i (le_bytes 4 z) 0).
Proof. by destruct i as [|[|[|[|]]]]; intros; [..|lia]. Qed.

Lemma ber_int_enc_try_LE z : is_i32 z -> ber_int_enc_try LE z = Some (Z.of_nat (int_octets z)).
Proof.
  intros Hz. unfold is_i32 in Hz. unfold ber_int_enc_try. cbn [mem_of].
  destruct (Z.geb_spec z 0).
  - rewrite scan_down_zero by (unfold is_u32; lia). unfold len_octets.
    repeat zdec; rewrite lookup_nth_le_bytes by (cbn; lia); octets.
  - rewrite scan_down_ones by lia.
    repeat zdec; rewrite lookup_nth_le_bytes by lia; octets.
Qed.

(** *** Length octets *)
Lemma ber_length_enc_LE z :
  is_u32 z ->
  ber_length_enc LE z =
  if z <=? 127 then [z] else (128 + Z.of_nat (len_octets z)) :: be_bytes (len_octets z) z.
Proof.
  intros Hz. unfold ber_length_enc. cbn [mem_of]. rewrite scan_down_zero by done.
  unfold is_u32 in Hz. unfold len_octets.
  repeat zdec; cbn [pred]; rewrite copy_down_le_bytes by lia; try done.
  unfold be_bytes. cbn [le_bytes rev app]. by rewrite Z.mod_small by lia.
Qed.

Lemma ber_length_enc_BE z : ber_length_enc BE z = ber_length_enc LE z.
Proof.
  unfold ber_length_enc. cbn [mem_of]. rewrite scan_up_rev.
  pose proof (scan_down_le (Z.eqb 0) (le_bytes 4 z) 3).
  rewrite drop_rev_le_bytes, copy_down_le_bytes by lia. destruct (z >? 127); [|done].
  do 3 f_equal. lia.
Qed.

Lemma ber_length_enc_try_eq e z :
  is_u32 z -> ber_length_enc_try e z = Z.of_nat (length (ber_length_enc e z)).
Proof.
  intros Hz. destruct e; rewrite ?ber_length_enc_BE, ber_length_enc_LE by done;
    unfold ber_length_enc_try; cbn [mem_of]; rewrite ?scan_up_rev, scan_down_zero by done;
    unfold is_u32 in Hz; unfold len_octets; repeat zdec; cbn [length pred];
    rewrite ?length_be_bytes; done.
Qed.

Lemma ber_length_enc_bytes e z : is_u32 z -> bytes (ber_length_enc e z).
Proof.
  intros Hz. destruct e; rewrite ?ber_length_enc_BE, ber_length_enc_LE by done;
    unfold is_u32 in Hz; unfold len_octets; repeat zdec;
    (constructor; [unfold is_u8; cbn; lia | first [apply be_bytes_bytes | constructor]]).
Qed.

(** *** Object identifiers *)
Lemma digit_or_flag id : 0 <= id -> u8 (Z.lor (Z.land id 0x7f) 0x80) = id mod 128 + 128.
Proof.
  intros. rewrite land_0x7f by done. pose proof (Z.mod_pos_bound id 128 ltac:(lia)).
  pose proof (lor_shiftl_small 7 1 (id mod 128)) as Hl. change (Z.shiftl 1 7) with 128 in Hl.
  rewrite Z.lor_comm, Hl by lia. rewrite u8_id by (unfold is_u8; lia). lia.
Qed.

(** The digits of an [oid_t] fit [tmp]: at most five are written. *)
Lemma subid_digits_bound k id :
  (0 < k)%nat -> 0 <= id < 128 ^ Z.of_nat k ->
  forall room, (k <= room)%nat ->
  exists ds, subid_digits room id = Some ds /\ (0 < length ds <= k)%nat.
Proof.
  revert id. induction k as [|k IH]; intros id Hk Hid room Hroom; [lia|].
  destruct room as [|room]; [lia|]. cbn [subid_digits].
  unfold nz. destruct (Z.eqb_spec (id / 128) 0) as [E|E]; cbn [negb]; [eexists; split; [done|cbn; lia]|].
  rewrite Nat2Z.inj_succ, Z.pow_succ_r in Hid by lia.
  destruct k as [|k].
  { cbn in Hid. exfalso. apply E. apply Z.div_small. lia. }
  destruct (IH (id / 128) ltac:(lia)) with (room := room) as (ds & -> & Hl); [|lia|].
  { split; [apply Z.div_pos; lia|apply Z.div_lt_upper_bound; lia]. }
  eexists; split; [done|cbn; lia].
Qed.

Lemma subid_digits_u32 id :
  is_u32 id -> exists ds, subid_digits 10 id = Some ds /\ (0 < length ds <= 5)%nat.
Proof. intros [? ?]. apply subid_digits_bound with (k := 5%nat); cbn; lia. Qed.

Lemma subid_enc_digits id ds :
  subid_digits 10 id = Some ds ->
  exists bs, subid_enc id = Some bs /\ length bs = length ds.
Proof.
  intros H. unfold subid_enc. rewrite H. destruct ds; eexists; split; try done.
  by rewrite length_rev.
Qed.

Lemma subids_enc_length ids :
  words ids ->
  exists bs, subids_enc ids = Some bs /\ (length ids <= length bs <= 5 * length ids)%nat.
Proof.
  induction 1 as [|id ids Hid _ (bs & Hbs & Hl)]; [by exists []|].
  destruct (subid_digits_u32 id Hid) as (ds & Hds & Hdl).
  destruct (subid_enc_digits id ds Hds) as (b & Hb & Hbl).
  exists (b ++ bs). cbn [subids_enc]. rewrite Hb, Hbs. split; [done|].
  rewrite length_app. cbn [length]. lia.
Qed.

Lemma ber_oid_enc_total oid :
  words oid -> exists bs, ber_oid_enc oid = Some bs /\ (length bs <= 1 + 5 * (length oid - 2))%nat.
Proof.
  intros H. destruct oid as [|id0 [|id1 ids]]; [eexists; split; [done|cbn; lia]..|].
  apply Forall_cons in H as [_ [_ H]%Forall_cons].
  destruct (subids_enc_length ids H) as (bs & Hbs & Hl).
  exists (u8 (u32 (id0 * 40 + id1)) :: bs). cbn [ber_oid_enc]. rewrite Hbs.
  split; [done|]. cbn [length]. lia.
Qed.

(** The 8-bit running count [j] is the number of bytes written, modulo 256. *)
Lemma oid_enc_try_loop_eq oid k ids bs fuel j :
  drop k oid = ids -> (k + length ids)%nat = length oid -> (length oid < 256)%nat ->
  words ids -> subids_enc ids = Some bs -> (length ids < fuel)%nat ->
  oid_enc_try_loop fuel oid (Z.of_nat k) (u8 j) = Some (u8 (j + Z.of_nat (length bs))).
Proof.
  revert k ids bs j. induction fuel as [|fuel IH]; intros k ids bs j Hd Hk Hlen Hw Hbs Hf; [lia|].
  cbn [oid_enc_try_loop]. destruct ids as [|id ids].
  - cbn in Hk, Hbs. simplify_eq. rewrite (proj2 (Z.ltb_ge _ _)) by lia. cbn. by rewrite Z.add_0_r.
  - cbn [length] in *. rewrite (proj2 (Z.ltb_lt _ _)) by lia. rewrite Nat2Z.id.
    assert (oid !! k = Some id) as Hl.
    { rewrite <- (Nat.add_0_r k), <- lookup_drop, Hd. done. }
    rewrite Hl. apply Forall_cons in Hw as [Hid Hw].
    destruct (subid_digits_u32 id Hid) as (ds & Hds & _). rewrite Hds.
    destruct (subid_enc_digits id ds Hds) as (b & Hb & Hbl).
    cbn [subids_enc] in Hbs. rewrite Hb in Hbs. destruct (subids_enc ids) as [rest|] eqn:Hr; [|done].
    simplify_eq. replace (u8 (Z.of_nat k + 1)) with (Z.of_nat (S k))
      by (rewrite u8_id by (unfold is_u8; lia); lia).
    replace (u8 (u8 j + Z.of_nat (length ds))) with (u8 (j + Z.of_nat (length ds)))
      by (unfold u8; by rewrite Z.add_mod_idemp_l by lia).
    rewrite IH with (ids := ids) (bs := rest); [|..]; try done; try lia.
    + do 2 f_equal. rewrite length_app. lia.
    + replace (S k) with (k + 1)%nat by lia.
      rewrite <- drop_drop, Hd. done.
Qed.

Lemma ber_oid_enc_try_mod oid bs :
  words oid -> (length oid < 256)%nat -> ber_oid_enc oid = Some bs ->
  ber_oid_enc_try oid = Some (u8 (Z.of_nat (length bs))).
Proof.
  intros Hw Hlen Hbs. unfold ber_oid_enc_try.
  destruct oid as [|id0 [|id1 ids]]; [cbn [ber_oid_enc] in Hbs; simplify_eq; reflexivity..|].
  rewrite (proj2 (Z.ltb_ge _ _)) by (cbn [length]; lia).
  apply Forall_cons in Hw as [_ [_ Hw]%Forall_cons].
  cbn [ber_oid_enc] in Hbs. destruct (subids_enc ids) as [rest|] eqn:Hr; [|done]. simplify_eq.
  change 2 with (Z.of_nat 2). change 1 with (u8 1).
  rewrite (oid_enc_try_loop_eq _ _ ids rest); try done; cbn [length] in *; try lia.
  do 2 f_equal. lia.
Qed.

(** *** The big-endian scan of [ber_int_enc_try] may leave the union *)
Lemma scan_up_4 p z :
  scan_up p (rev (le_bytes 4 z)) 4 0 =
  if (scan_down p (le_bytes 4 z) 3 =? 0)%nat && p (nth 0 (le_bytes 4 z) 0) then 4%nat
  else (3 - scan_down p (le_bytes 4 z) 3)%nat.
Proof.
  cbn [le_bytes rev app scan_up scan_down nth].
  by destruct (p _); [destruct (p _); [destruct (p _); [destruct (p _)|]|]|].
Qed.

Lemma lookup_rev_le_bytes z i :
  (i <= 3)%nat -> rev (le_bytes 4 z) !! (3 - i)%nat = Some (nth i (le_bytes 4 z) 0).
Proof. by destruct i as [|[|[|[|]]]]; intros; [..|lia]. Qed.

Lemma ber_int_enc_try_BE z :
  is_i32 z ->
  ber_int_enc_try BE z =
  if (z =? 0) || (z =? -1) then None else Some (Z.of_nat (int_octets z)).
Proof.
  intros Hz. rewrite <- ber_int_enc_try_LE by done. unfold is_i32 in Hz.
  unfold ber_int_enc_try. cbn [mem_of]. rewrite !scan_up_4.
  destruct (Z.geb_spec z 0).
  - pose proof (scan_down_zero z ltac:(unfold is_u32; lia)) as E. rewrite E.
    rewrite (nth_le_bytes z 0) by lia. rewrite Z.div_1_r.
    replace (pred (len_octets z) =? 0)%nat with (z <? 256)
      by (unfold len_octets; repeat zdec; done).
    destruct (Z.ltb_spec z 256).
    + rewrite Z.mod_small by lia. unfold len_octets in *. by repeat zdec.
    + rewrite andb_false_l. rewrite lookup_rev_le_bytes, lookup_nth_le_bytes
        by (unfold len_octets; repeat zcase; cbn; lia).
      repeat zdec. do 2 f_equal. unfold len_octets; repeat zcase; cbn; lia.
  - pose proof (scan_down_ones z ltac:(lia)) as E. rewrite E.
    rewrite (nth_le_bytes z 0) by lia. rewrite Z.div_1_r.
    destruct (Z.leb_spec (- 2 ^ 8) z).
    + replace (z mod 256) with (z + 256) by (Z.div_mod_to_equations; lia).
      cbn [Nat.eqb]. by repeat zdec.
    + repeat zdec; cbn [Nat.eqb andb]; rewrite lookup_rev_le_bytes, lookup_nth_le_bytes by lia;
        do 2 f_equal; lia.
Qed.

(** *** Non-termination of the identifier length *)
Lemma oid_enc_try_loop_diverges fuel oid i j :
  (256 <= length oid)%nat -> is_u8 i -> oid_enc_try_loop fuel oid i j = None.
Proof.
  intros Hl. revert i j. induction fuel as [|fuel IH]; intros i j Hi; cbn [oid_enc_try_loop];
    rewrite (proj2 (Z.ltb_lt _ _)) by (unfold is_u8 in Hi; lia); [done|].
  destruct (oid !! _); [|done]. destruct (subid_digits 10 _); [|done].
  apply IH, u8_range.
Qed.

(** ** Properties *)

(** On both byte orders [ber_int_enc] writes the big-endian two's
    complement octets of the value, and as few of them as X.690 allows: one
    octet exactly for -128..127, two for -32768..32767, and so on. *)
Theorem ber_int_enc_minimal (e : endian) (v : Z) (Hv : is_i32 v) :
  ber_int_enc e v = be_bytes (int_octets v) v.
Proof. destruct e; rewrite ?ber_int_enc_BE; by apply ber_int_enc_LE. Qed.

Lemma ber_int_enc_minimal_witness :
  is_i32 (-129) /\ ber_int_enc LE (-129) = [0xff; 0x7f].
Proof.
  assert (is_i32 (-129)) as H by (unfold is_i32; lia).
  split; [exact H|]. rewrite (ber_int_enc_minimal LE (-129) H). reflexivity.
Defined.

(** [ber_int_enc_try] announces exactly the number of octets
    [ber_int_enc] writes, except that the big-endian variant reads past the
    end of its four byte union for 0 and -1. *)
Theorem ber_int_enc_try_length (e : endian) (v : Z) (Hv : is_i32 v) :
  ber_int_enc_try e v =
  match e with
  | LE => Some (Z.of_nat (length (ber_int_enc LE v)))
  | BE => if (v =? 0) || (v =? -1) then None
          else Some (Z.of_nat (length (ber_int_enc BE v)))
  end.
Proof.
  destruct e; rewrite ?ber_int_enc_BE, ber_int_enc_LE, length_be_bytes by done.
  - by apply ber_int_enc_try_LE.
  - by apply ber_int_enc_try_BE.
Qed.

Lemma ber_int_enc_try_length_witness :
  is_i32 300 /\ ber_int_enc_try LE 300 = Some 2 /\ ber_int_enc_try BE 0 = None.
Proof.
  assert (is_i32 300) as H by (unfold is_i32; lia).
  split; [exact H|]. split.
  - rewrite (ber_int_enc_try_length LE 300 H). reflexivity.
  - reflexivity.
Defined.

(** For an identifier of fewer than 256 sub-identifiers both passes
    terminate without leaving [tmp]; the announced length is the number of
    bytes written modulo 256, hence exact when fewer than 256 bytes are
    written, which is the case up to 52 sub-identifiers. *)
Theorem ber_oid_enc_try_length (oid : list Z) (Hw : words oid) (Hlen : (length oid < 256)%nat) :
  exists bs, ber_oid_enc oid = Some bs /\
    ber_oid_enc_try oid = Some (u8 (Z.of_nat (length bs))) /\
    ((length oid <= 52)%nat -> ber_oid_enc_try oid = Some (Z.of_nat (length bs))).
Proof.
  destruct (ber_oid_enc_total oid Hw) as (bs & Hbs & Hl). exists bs. split; [done|].
  pose proof (ber_oid_enc_try_mod oid bs Hw Hlen Hbs) as Htry. split; [done|].
  intros. rewrite Htry, u8_id by (unfold is_u8; lia). done.
Qed.

Lemma ber_oid_enc_try_length_witness :
  exists bs, ber_oid_enc [1; 3; 6; 1; 4; 1; 4294967295] = Some bs /\
    ber_oid_enc_try [1; 3; 6; 1; 4; 1; 4294967295] = Some (u8 (Z.of_nat (length bs))).
Proof.
  destruct (ber_oid_enc_try_length [1; 3; 6; 1; 4; 1; 4294967295]) as (bs & H1 & H2 & _).
  - repeat constructor; lia.
  - simpl; lia.
  - exists bs. split; assumption.
Defined.

(** The announced length is too small for a legal identifier of 64
    sub-identifiers ([ASN1_OID_MAX_LEN]): 311 bytes are written where 55 were
    announced. *)
Theorem ber_oid_enc_try_truncates :
  exists oid bs, words oid /\ Z.of_nat (length oid) = ASN1_OID_MAX_LEN /\
    ber_oid_enc oid = Some bs /\ length bs = 311%nat /\ ber_oid_enc_try oid = Some 55.
Proof.
  exists ([1; 3] ++ replicate 62 4294967295). eexists. split; [|split; [done|]].
  - apply Forall_app. split; [repeat constructor; lia|]. apply Forall_replicate. unfold is_u32. lia.
  - split; [vm_compute; reflexivity|]. split; vm_compute; reflexivity.
Qed.

(** With 256 sub-identifiers or more the 8-bit counter of
    [ber_oid_enc_try] never reaches [len]: no number of iterations ends the
    loop. *)
Theorem ber_oid_enc_try_no_end (oid : list Z) (Hlen : (256 <= length oid)%nat) (fuel : nat) :
  oid_enc_try_loop fuel oid 2 1 = None.
Proof. apply oid_enc_try_loop_diverges; [done|]. unfold is_u8. lia. Qed.

Lemma ber_oid_enc_try_no_end_witness :
  oid_enc_try_loop 1000 (replicate 256 1) 2 1 = None.
Proof. apply (ber_oid_enc_try_no_end (replicate 256 1)). rewrite length_replicate. lia. Defined.
