(* ===== verification/BerSpec.v ===== *)
(** * The encoding of X.690

    A reference for the contents of the values of SNMP, independent of
    [snmp_encoder.c]: integers in the shortest two's complement form, strings as
    they are, object identifiers in base 128.  The encoder is compared with it. *)
From S2P Require Import Prelude BerEncoder.
Local Open Scope Z_scope.

(** ** Integers *)
Definition int_bytes (v : Z) : list Z := be_bytes (int_octets v) v.

(** ** Object identifiers *)

(** The last [n] groups of seven bits, most significant first, the last one
    with [flag] added and the others with their highest bit set. *)
Fixpoint groups (n : nat) (v flag : Z) : list Z :=
  match n with
  | O => []
  | S n' => groups n' (v / 128) 128 ++ [v mod 128 + flag]
  end.

(** The number of groups of a sub-identifier of 32 bits. *)
Definition subid_octets (v : Z) : nat :=
  if v <? 2 ^ 7 then 1 else if v <? 2 ^ 14 then 2 else if v <? 2 ^ 21 then 3 else if v <? 2 ^ 28 then 4 else 5.

Definition subid_bytes (v : Z) : list Z := groups (subid_octets v) v 0.
Definition subids_bytes (ids : list Z) : list Z := concat (map subid_bytes ids).

(** The first two sub-identifiers share one (8.19.4). *)
Definition oid_x690 (ids : list Z) : list Z :=
  match ids with
  | id0 :: id1 :: rest => subids_bytes (40 * id0 + id1 :: rest)
  | _ => []
  end.

(** The same with the first sub-identifier cut to one octet, extended to
    identifiers that are too short for X.690. *)
Definition oid_bytes (ids : list Z) : list Z :=
  match ids with
  | [] => []
  | [id0] => [id0 mod 256]
  | id0 :: id1 :: rest => (40 * id0 + id1) mod 256 :: subids_bytes rest
  end.

(** Identifiers whose first octet is that of X.690: those below 0, 1 and 2.0 to
    2.47. *)
Definition oid_standard (ids : list Z) : Prop :=
  words ids /\ match ids with id0 :: id1 :: _ => 40 * id0 + id1 < 128 | _ => False end.

Lemma oid_bytes_x690 ids : oid_standard ids -> oid_bytes ids = oid_x690 ids.
Proof.
  intros [Hw H]. destruct ids as [|id0 [|id1 rest]]; [done..|].
  apply Forall_cons in Hw as [H0 [H1 _]%Forall_cons]. unfold is_u32 in *.
  unfold oid_bytes, oid_x690, subids_bytes. cbn [map concat]. unfold subid_bytes at 2, subid_octets.
  rewrite (proj2 (Z.ltb_lt (40 * id0 + id1) (2 ^ 7))) by lia. cbn [groups app]. by rewrite Z.add_0_r, !Z.mod_small by lia.
Qed.

(** *** The encoder on this reference *)
Lemma subid_digits_groups k : forall room v, (k < room)%nat -> 0 <= v < 128 ^ Z.of_nat (S k) ->
  (k = 0%nat \/ 128 ^ Z.of_nat k <= v) -> exists ds, subid_digits room v = Some ds /\ rev ds = groups (S k) v 128.
Proof.
  induction k as [|k IH]; intros [|room] v Hroom Hv Hk; [lia| |lia|]; cbn [subid_digits]; rewrite digit_or_flag by lia; unfold nz.
  - rewrite Z.div_small by (cbn in Hv; lia). by exists [v mod 128 + 128].
  - destruct Hk as [?|Hk]; [lia|]. rewrite Nat2Z.inj_succ, Z.pow_succ_r in Hv, Hk by lia.
    assert (128 ^ Z.of_nat k <= v / 128) as Hk' by (apply Z.div_le_lower_bound; lia).
    pose proof (Z.pow_pos_nonneg 128 (Z.of_nat k)). rewrite (proj2 (Z.eqb_neq (v / 128) 0)) by lia. cbn [negb].
    destruct (IH room (v / 128)) as (ds & -> & Hds); [lia| |by right|].
    { split; [apply Z.div_pos; lia|]. apply Z.div_lt_upper_bound; lia. }
    eexists. split; [done|]. cbn [rev]. by rewrite Hds.
Qed.

Lemma subid_octets_bound v : is_u32 v -> exists k, subid_octets v = S k /\ (k < 5)%nat /\
  v < 128 ^ Z.of_nat (S k) /\ (k = 0%nat \/ 128 ^ Z.of_nat k <= v).
Proof.
  unfold is_u32, subid_octets. intros Hv. repeat zdec;
    [exists 0%nat|exists 1%nat|exists 2%nat|exists 3%nat|exists 4%nat]; cbn -[Z.lt Z.le]; repeat split; try lia; by left || (right; lia).
Qed.

Lemma subid_enc_bytes id : is_u32 id -> subid_enc id = Some (subid_bytes id).
Proof.
  intros Hid. unfold subid_enc, subid_bytes. destruct (subid_octets_bound id Hid) as (k & -> & Hk & Hlt & Hle).
  destruct (subid_digits_groups k 10 id) as (ds & -> & Hds); [lia|unfold is_u32 in Hid; lia|done|].
  pose proof (f_equal (@rev Z) Hds) as Hd. cbn [groups] in Hd. rewrite rev_involutive, rev_app_distr in Hd. cbn [rev app] in Hd.
  rewrite Hd. cbn [rev groups]. rewrite rev_involutive. pose proof (Z.mod_pos_bound id 128).
  rewrite land_0x7f, Z.add_0_r by lia. by replace ((id mod 128 + 128) mod 128) with (id mod 128) by (Z.div_mod_to_equations; lia).
Qed.

Lemma subids_enc_bytes ids : words ids -> subids_enc ids = Some (subids_bytes ids).
Proof. induction 1 as [|id ids Hid _ IH]; [done|]. cbn [subids_enc]. by rewrite subid_enc_bytes, IH. Qed.

(** The encoder writes [oid_bytes] for every identifier. *)
Lemma ber_oid_enc_bytes ids : words ids -> ber_oid_enc ids = Some (oid_bytes ids).
Proof.
  intros Hw. destruct ids as [|id0 [|id1 rest]]; [done..|]. apply Forall_cons in Hw as [_ [_ Hw]%Forall_cons].
  cbn [ber_oid_enc oid_bytes]. rewrite subids_enc_bytes by done. do 2 f_equal. unfold u8, u32.
  rewrite Z.mod_mod_divide by (by exists (2 ^ 24)). f_equal. lia.
Qed.

(** ** The values of a variable binding

    Integers, counters, gauges and time ticks of 32 bits, identifiers, strings
    and addresses, and the types without contents. *)
Inductive snmp_val :=
| VInt (v : Z)
| VCnt (v : Z)
| VUint (t v : Z)
| VOid (ids : list Z)
| VStr (t : Z) (s : list Z)
| VNone (t : Z).

Definition val_tag (v : snmp_val) : Z :=
  match v with
  | VInt _ => ASN1_TAG_INT
  | VCnt _ => ASN1_TAG_CNT
  | VUint t _ | VStr t _ | VNone t => t
  | VOid _ => ASN1_TAG_OBJID
  end.

Definition val_ok (v : snmp_val) : Prop :=
  match v with
  | VInt v => is_i32 v
  | VCnt v => is_u32 v
  | VUint t v => (t = ASN1_TAG_GAU \/ t = ASN1_TAG_TIMETICKS) /\ is_u32 v
  | VOid ids => words ids
  | VStr t _ => t = ASN1_TAG_OCTSTR \/ t = ASN1_TAG_IPADDR
  | VNone t => t ∉ [ASN1_TAG_INT; ASN1_TAG_CNT; ASN1_TAG_GAU; ASN1_TAG_TIMETICKS; ASN1_TAG_OBJID; ASN1_TAG_OCTSTR; ASN1_TAG_IPADDR]
  end.

(** The contents by X.690 and RFC 2578, where counters are not negative. *)
Definition val_octets (v : snmp_val) : list Z :=
  match v with
  | VInt v | VCnt v | VUint _ v => int_bytes v
  | VOid ids => oid_x690 ids
  | VStr _ s => s
  | VNone _ => []
  end.

(** The contents the encoder writes: counters as signed integers, and the first
    sub-identifier of an identifier in one octet. *)
Definition val_written (v : snmp_val) : list Z :=
  match v with
  | VCnt v => int_bytes (i32 v)
  | VOid ids => oid_bytes ids
  | _ => val_octets v
  end.

(** The values for which the two are the same. *)
Definition val_standard (v : snmp_val) : Prop :=
  match v with VCnt v => v < 2 ^ 31 | VOid ids => oid_standard ids | _ => True end.

Lemma val_written_octets v : val_ok v -> val_standard v -> val_written v = val_octets v.
Proof.
  destruct v as [v|v|t v|ids|t s|t]; cbn [val_ok val_standard val_written val_octets]; intros H Hs; try done.
  - rewrite i32_id; [done|]. unfold is_u32, is_i32 in *. lia.
  - by apply oid_bytes_x690.
Qed.

(** In memory: the number of elements and the bytes. *)
Definition val_count (v : snmp_val) : Z :=
  match v with VInt _ | VCnt _ | VUint _ _ => 1 | VOid ids => zlen ids | VStr _ s => zlen s | VNone _ => 0 end.

Definition val_mem (e : endian) (v : snmp_val) : list Z :=
  match v with
  | VInt v | VCnt v | VUint _ v => mem_of e 4 v
  | VOid ids => store_oid e ids
  | VStr _ s => s
  | VNone _ => []
  end.

#[global] Instance val_ok_dec v : Decision (val_ok v).
Proof. destruct v; cbn [val_ok]; unfold is_i32, is_u32; apply _. Defined.

(** The value of a type that [count] elements of memory hold. *)
Definition val_at (e : endian) (mem : list Z) (count t : Z) : option snmp_val :=
  if t =? ASN1_TAG_INT then let* v := load_int e mem in Some (VInt v)
  else if t =? ASN1_TAG_CNT then let* v := load_uint e mem in Some (VCnt (u32 v))
  else if (t =? ASN1_TAG_GAU) || (t =? ASN1_TAG_TIMETICKS) then let* v := load_uint e mem in Some (VUint t (u32 v))
  else if t =? ASN1_TAG_OBJID then let* ids := load_oid e mem (Z.to_nat count) in Some (VOid ids)
  else if (t =? ASN1_TAG_OCTSTR) || (t =? ASN1_TAG_IPADDR) then let* s := slice 0 (Z.to_nat count) mem in Some (VStr t s)
  else Some (VNone t).
