(* ===== verification/BerDecoder.v ===== *)
(** * BER decoder ([src/core/snmp_decoder.c])

    A decoder reads at [buf], here the list of the bytes from [buf] to the end
    of the receive buffer.  The code never compares a length with the bytes
    that are left, so every read can leave the buffer; such a read is [None].
    What a decoder stores through its result pointer is returned as the value
    (or, for [ber_value_dec], as the bytes) stored. *)
From S2P Require Import Prelude BerEncoder BerSpec.
Local Open Scope Z_scope.

(** [v = (v << 8) | b] on an [int] and on an [unsigned int]. *)
Definition acc_i32 (v b : Z) : Z := i32 (Z.lor (Z.shiftl v 8) b).
Definition acc_u32 (v b : Z) : Z := u32 (Z.lor (Z.shiftl v 8) b).

(** ** Element counts *)
Definition ber_oid_dec_try (buf : list Z) (len : Z) : option Z :=
  let* bs := slice 1 (Z.to_nat len - 1) buf in
  Some (foldl (fun j b => if nz (Z.land b 0x80) then j else u32 (j + 1)) 2 bs).

Definition ber_value_dec_try (buf : list Z) (len type : Z) : option Z :=
  if len =? 0 then Some 0
  else if (type =? ASN1_TAG_INT) || (type =? ASN1_TAG_CNT)
          || (type =? ASN1_TAG_GAU) || (type =? ASN1_TAG_TIMETICKS) then Some 1
  else if type =? ASN1_TAG_OBJID then ber_oid_dec_try buf len
  else if (type =? ASN1_TAG_OCTSTR) || (type =? ASN1_TAG_IPADDR) then Some len
  else Some 0.

(** ** Integers

    For a negative value the sign extension runs [sizeof(int) - len] times; the
    difference is computed in [size_t], so with [len > 4] the bound is out of
    reach of the [int] counter, whose overflow is undefined: [None]. *)
Definition ber_int_dec (buf : list Z) (len : Z) : option Z :=
  let* b0 := buf !! 0%nat in
  if nz (Z.land b0 0x80) then
    if 4 <? len then None
    else
      let v0 := Nat.iter (Z.to_nat (4 - len)) (fun v => acc_i32 v 0xff) 0 in
      let* bs := slice 0 (Z.to_nat len) buf in Some (foldl acc_i32 v0 bs)
  else
    let i := if b0 =? 0 then 1%nat else 0%nat in
    let* bs := slice i (Z.to_nat len - i) buf in Some (foldl acc_i32 0 bs).

Definition ber_uint_dec (buf : list Z) (len : Z) : option Z :=
  let* b0 := buf !! 0%nat in
  let i := if b0 =? 0 then 1%nat else 0%nat in
  let* bs := slice i (Z.to_nat len - i) buf in Some (foldl acc_u32 0 bs).

(** ** Object identifiers *)
Fixpoint oid_dec_loop (id : Z) (bs : list Z) : list Z :=
  match bs with
  | [] => []
  | b :: bs' =>
      let id' := u32 (Z.lor (Z.shiftl id 7) (Z.land b 0x7f)) in
      if nz (Z.land b 0x80) then oid_dec_loop id' bs' else id' :: oid_dec_loop 0 bs'
  end.

Definition ber_oid_dec (buf : list Z) (len : Z) : option (list Z) :=
  let* b0 := buf !! 0%nat in
  let* bs := slice 1 (Z.to_nat len - 1) buf in
  Some (b0 / 40 :: b0 mod 40 :: oid_dec_loop 0 bs).

(** ** Values: the returned element count and the bytes stored *)
Definition ber_value_dec (e : endian) (buf : list Z) (len type : Z) : option (Z * list Z) :=
  if len =? 0 then Some (0, [])
  else if (type =? ASN1_TAG_INT) || (type =? ASN1_TAG_CNT) then
    let* v := ber_int_dec buf len in Some (1, mem_of e 4 v)
  else if (type =? ASN1_TAG_GAU) || (type =? ASN1_TAG_TIMETICKS) then
    let* v := ber_uint_dec buf len in Some (1, mem_of e 4 v)
  else if type =? ASN1_TAG_OBJID then
    let* oid := ber_oid_dec buf len in Some (Z.of_nat (length oid), store_oid e oid)
  else if (type =? ASN1_TAG_OCTSTR) || (type =? ASN1_TAG_IPADDR) then
    let* bs := slice 0 (Z.to_nat len) buf in Some (len, bs)
  else Some (0, []).

(** ** Lengths: bytes consumed and value *)
Definition ber_length_dec_try (buf : list Z) : option Z :=
  let* b0 := buf !! 0%nat in
  Some (if nz (Z.land b0 0x80) then 1 + Z.land b0 0x7f else 1).

Definition ber_length_dec (buf : list Z) : option (Z * Z) :=
  let* b0 := buf !! 0%nat in
  let '(i, len) := if nz (Z.land b0 0x80) then (1%nat, 1 + Z.land b0 0x7f) else (0%nat, 1) in
  let* bs := slice i (Z.to_nat len - i) buf in
  Some (len, foldl acc_u32 0 bs).

(** ** Reference values of an octet string *)
Definition be_val (bs : list Z) : Z := le_val (rev bs).

(** Two's complement value. *)
Definition twos_val (bs : list Z) : Z :=
  if 2 * be_val bs <? 256 ^ Z.of_nat (length bs) then be_val bs
  else be_val bs - 256 ^ Z.of_nat (length bs).

Lemma le_val_app l1 l2 : le_val (l1 ++ l2) = le_val l1 + 256 ^ Z.of_nat (length l1) * le_val l2.
Proof.
  induction l1 as [|b l1 IH]; cbn [app le_val length]; [cbn; lia|].
  rewrite IH, Nat2Z.inj_succ, Z.pow_succ_r by lia. lia.
Qed.

Lemma be_val_cons b bs : be_val (b :: bs) = b * 256 ^ Z.of_nat (length bs) + be_val bs.
Proof.
  unfold be_val. cbn [rev]. rewrite le_val_app, length_rev. cbn [le_val]. lia.
Qed.

Lemma be_val_bound bs : bytes bs -> 0 <= be_val bs < 256 ^ Z.of_nat (length bs).
Proof. intros. unfold be_val. rewrite <- length_rev. by apply le_val_bound, Forall_rev. Qed.

Lemma be_val_be_bytes n z : be_val (be_bytes n z) = z mod 256 ^ Z.of_nat n.
Proof. unfold be_val, be_bytes. by rewrite rev_involutive, le_val_le_bytes. Qed.

(** The accumulation loops compute the big-endian value modulo 2^32. *)
Lemma foldl_acc_u32 v bs :
  bytes bs -> u32 (foldl acc_u32 v bs) = u32 (v * 256 ^ Z.of_nat (length bs) + be_val bs).
Proof.
  intros H. revert v. induction H as [|b bs Hb _ IH]; intros v.
  - cbn [foldl length be_val rev le_val]. f_equal. unfold be_val. cbn. lia.
  - cbn [foldl length]. rewrite IH, be_val_cons. unfold acc_u32.
    rewrite lor_shiftl_byte by done. rewrite Nat2Z.inj_succ, Z.pow_succ_r by lia.
    unfold u32. rewrite <- Z.add_mod_idemp_l, Z.mul_mod_idemp_l, Z.add_mod_idemp_l by lia.
    f_equal. lia.
Qed.

Lemma foldl_acc_u32_0 bs : bytes bs -> foldl acc_u32 0 bs = u32 (be_val bs).
Proof.
  intros H. rewrite <- (u32_id (foldl acc_u32 0 bs)).
  - by rewrite foldl_acc_u32 by done.
  - induction bs as [|b bs _] using rev_ind; [cbn; unfold is_u32; lia|].
    rewrite foldl_app. apply u32_range.
Qed.

Lemma foldl_acc_i32 v bs :
  bytes bs -> is_i32 v ->
  foldl acc_i32 v bs = i32 (v * 256 ^ Z.of_nat (length bs) + be_val bs).
Proof.
  intros H. revert v. induction H as [|b bs Hb _ IH]; intros v Hv.
  - cbn. rewrite i32_id; [lia|]. unfold is_i32 in *. lia.
  - cbn [foldl length]. rewrite IH by apply i32_range.
    rewrite be_val_cons. unfold acc_i32. rewrite lor_shiftl_byte by done.
    rewrite Nat2Z.inj_succ, Z.pow_succ_r by lia. rewrite <- i32_u32. symmetry. rewrite <- i32_u32.
    f_equal. unfold u32. symmetry.
    rewrite <- Z.add_mod_idemp_l, <- Z.mul_mod_idemp_l by lia.
    change (i32 (256 * v + b) mod 2 ^ 32) with (u32 (i32 (256 * v + b))).
    rewrite u32_i32. unfold u32. rewrite Z.mul_mod_idemp_l, Z.add_mod_idemp_l by lia.
    f_equal. lia.
Qed.

(** ** Decoding of well-formed octets *)
Lemma skip_zero b0 bs rest (n := Z.of_nat (length (b0 :: bs))) :
  slice (if b0 =? 0 then 1%nat else 0%nat)
    (Z.to_nat n - if b0 =? 0 then 1%nat else 0%nat) (b0 :: bs ++ rest) =
  Some (if b0 =? 0 then bs else b0 :: bs).
Proof.
  subst n. rewrite Nat2Z.id. cbn [length]. destruct (b0 =? 0).
  - apply (slice_mid [b0] bs rest); [done|lia].
  - apply (slice_app (b0 :: bs) rest). cbn. lia.
Qed.

Lemma be_val_skip_zero b0 bs : be_val (if b0 =? 0 then bs else b0 :: bs) = be_val (b0 :: bs).
Proof. destruct (Z.eqb_spec b0 0) as [->|]; [rewrite (be_val_cons 0); lia|done]. Qed.

Lemma bytes_skip_zero b0 bs : bytes (b0 :: bs) -> bytes (if b0 =? 0 then bs else b0 :: bs).
Proof. destruct (b0 =? 0); [|done]. by intros [_ ?]%Forall_cons. Qed.

Lemma ber_uint_dec_app bs rest :
  bytes bs -> bs <> [] ->
  ber_uint_dec (bs ++ rest) (Z.of_nat (length bs)) = Some (u32 (be_val bs)).
Proof.
  intros H Hne. destruct bs as [|b0 bs]; [done|]. unfold ber_uint_dec.
  cbn [app lookup list_lookup]. rewrite skip_zero.
  by rewrite foldl_acc_u32_0, be_val_skip_zero by by apply bytes_skip_zero.
Qed.

Lemma sign_extension k :
  (k <= 3)%nat -> Nat.iter k (fun v => acc_i32 v 0xff) 0 = 256 ^ Z.of_nat k - 1.
Proof. intros. destruct k as [|[|[|[|]]]]; [reflexivity..|lia]. Qed.

Lemma ber_int_dec_app bs rest :
  bytes bs -> (1 <= length bs <= 4)%nat ->
  ber_int_dec (bs ++ rest) (Z.of_nat (length bs)) = Some (twos_val bs).
Proof.
  intros H Hl. destruct bs as [|b0 bs]; [cbn in Hl; lia|]. unfold ber_int_dec.
  cbn [app lookup list_lookup]. pose proof H as [Hb Hbs]%Forall_cons.
  rewrite land_0x80 by done. pose proof (be_val_bound bs Hbs) as Hv. unfold twos_val.
  destruct (Z.leb_spec 128 b0).
  - rewrite (proj2 (Z.ltb_ge 4 _)) by lia.
    rewrite Nat2Z.id, (slice_app (b0 :: bs) rest) by done.
    rewrite sign_extension by (cbn [length] in *; lia).
    rewrite be_val_cons. unfold is_u8 in Hb. cbn [length] in *.
    assert (length bs = 0 \/ length bs = 1 \/ length bs = 2 \/ length bs = 3)%nat as Hc by lia.
    destruct Hc as [Hc|[Hc|[Hc|Hc]]]; rewrite foldl_acc_i32 by (rewrite ?Hc; unfold is_i32; cbn; try done; lia);
      rewrite be_val_cons; cbn [length]; rewrite Hc in *; zpow; f_equal; unfold i32; zpow;
      repeat zcase; Z.div_mod_to_equations; lia.
  - rewrite skip_zero, foldl_acc_i32; [|by apply bytes_skip_zero|unfold is_i32; lia].
    rewrite be_val_skip_zero, Z.mul_0_l, Z.add_0_l, be_val_cons. unfold is_u8 in Hb.
    cbn [length] in *. f_equal.
    assert (length bs = 0 \/ length bs = 1 \/ length bs = 2 \/ length bs = 3)%nat as Hc by lia.
    destruct Hc as [Hc|[Hc|[Hc|Hc]]]; rewrite Hc in *; zpow;
      (rewrite i32_id by (unfold is_i32; lia)); zdec; lia.
Qed.

(** *** Lengths *)
Lemma ber_length_dec_enc e v rest :
  is_u32 v ->
  ber_length_dec (ber_length_enc e v ++ rest) = Some (ber_length_enc_try e v, v).
Proof.
  intros Hv. rewrite ber_length_enc_try_eq by done.
  destruct e; rewrite ?ber_length_enc_BE, ber_length_enc_LE by done.
  all: destruct (Z.leb_spec v 127); unfold ber_length_dec; cbn [app lookup list_lookup].
  1, 3: rewrite land_0x80 by (unfold is_u8, is_u32 in *; lia);
    rewrite (proj2 (Z.leb_gt 128 v)) by lia; rewrite (slice_app [v] rest) by done;
    cbn [foldl]; change (acc_u32 0 v) with (foldl acc_u32 0 [v]);
    rewrite foldl_acc_u32_0 by (repeat constructor; unfold is_u8, is_u32 in *; lia);
    unfold be_val; cbn; rewrite u32_id by (unfold is_u32 in *; lia); do 2 f_equal; lia.
  all: assert (len_octets v = 1 \/ len_octets v = 2 \/ len_octets v = 3 \/ len_octets v = 4)%nat as Ho
    by (unfold len_octets; repeat zcase; lia);
    assert (v < 256 ^ Z.of_nat (len_octets v)) as Hb
      by (unfold is_u32 in Hv; unfold len_octets; repeat zcase; zpow; lia);
    set (n := len_octets v) in *;
    rewrite land_0x80 by (unfold is_u8; lia);
    rewrite (proj2 (Z.leb_le _ _)) by lia; rewrite land_0x7f by lia;
    replace ((128 + Z.of_nat n) mod 128) with (Z.of_nat n) by (Z.div_mod_to_equations; lia);
    rewrite (slice_mid [128 + Z.of_nat n] (be_bytes n v) rest) by (rewrite ?length_be_bytes; cbn; lia);
    rewrite foldl_acc_u32_0, be_val_be_bytes by apply be_bytes_bytes;
    cbn [length]; rewrite length_be_bytes, Z.mod_small by (unfold is_u32 in Hv; lia);
    rewrite u32_id by done; do 2 f_equal; lia.
Qed.

(** *** Object identifiers *)
Lemma oid_dec_digit acc b :
  0 <= b -> u32 (Z.lor (Z.shiftl acc 7) (Z.land b 0x7f)) = u32 (128 * acc + b mod 128).
Proof.
  intros. rewrite land_0x7f by done. rewrite lor_shiftl_small; [done|lia|].
  apply Z.mod_pos_bound. lia.
Qed.

Lemma digit_join x : 128 * (x / 128) + (x mod 128 + 128) mod 128 = x.
Proof. Z.div_mod_to_equations. lia. Qed.

Lemma subid_digits_dec room id ds rest :
  is_u32 id -> subid_digits room id = Some ds ->
  exists d ds', ds = d :: ds' /\ d = id mod 128 + 128 /\
    oid_dec_loop 0 (rev ds' ++ rest) = oid_dec_loop (id / 128) rest.
Proof.
  revert id ds rest. induction room as [|room IH]; intros id ds rest Hid H; [done|].
  cbn [subid_digits] in H. unfold is_u32 in Hid. rewrite digit_or_flag in H by lia.
  unfold nz in H. destruct (Z.eqb_spec (id / 128) 0) as [E|E]; cbn [negb] in H.
  - simplify_eq. exists (id mod 128 + 128), []. by rewrite E.
  - destruct (subid_digits room (id / 128)) as [ds'|] eqn:Hds; [|done]. simplify_eq.
    exists (id mod 128 + 128), ds'. split; [done|]. split; [done|].
    assert (is_u32 (id / 128)) as Hid' by (unfold is_u32; Z.div_mod_to_equations; lia).
    destruct (IH (id / 128) ds' ((id / 128) mod 128 + 128 :: rest) Hid' Hds) as (d & ds2 & -> & -> & Hloop).
    cbn [rev]. rewrite <- app_assoc. cbn [app]. rewrite Hloop. cbn [oid_dec_loop].
    pose proof (Z.mod_pos_bound (id / 128) 128 ltac:(lia)).
    rewrite land_0x80 by (unfold is_u8; lia). rewrite (proj2 (Z.leb_le _ _)) by lia.
    by rewrite oid_dec_digit, digit_join, u32_id by (done || lia).
Qed.

Lemma oid_dec_loop_subid id bs rest :
  is_u32 id -> subid_enc id = Some bs -> oid_dec_loop 0 (bs ++ rest) = id :: oid_dec_loop 0 rest.
Proof.
  intros Hid H. unfold subid_enc in H. destruct (subid_digits 10 id) as [ds|] eqn:Hds; [|done].
  destruct (subid_digits_dec 10 id ds (id mod 128 :: rest) Hid Hds) as (d & ds' & -> & -> & Hloop).
  simplify_eq. cbn [rev]. rewrite <- app_assoc. cbn [app].
  pose proof (Z.mod_pos_bound id 128 ltac:(lia)).
  rewrite land_0x7f by lia. replace ((id mod 128 + 128) mod 128) with (id mod 128)
    by (Z.div_mod_to_equations; lia).
  rewrite Hloop. cbn [oid_dec_loop].
  rewrite land_0x80 by (unfold is_u8; lia). rewrite (proj2 (Z.leb_gt _ _)) by lia.
  rewrite oid_dec_digit by lia. rewrite Z.mod_mod, <- Z.div_mod by lia. by rewrite u32_id.
Qed.

Lemma oid_dec_loop_subids ids bs :
  words ids -> subids_enc ids = Some bs -> oid_dec_loop 0 bs = ids.
Proof.
  intros H. revert bs. induction H as [|id ids Hid _ IH]; intros bs Hbs; cbn in Hbs; [by simplify_eq|].
  destruct (subid_enc id) as [b|] eqn:Hb; [|done].
  destruct (subids_enc ids) as [r|] eqn:Hr; [|done]. simplify_eq.
  rewrite (oid_dec_loop_subid id b r Hid Hb). f_equal. by apply IH.
Qed.

(** The first octet can hold the first two sub-identifiers. *)
Definition oid_canonical (oid : list Z) : Prop :=
  words oid /\
  match oid with
  | id0 :: id1 :: _ => id1 < 40 /\ id0 * 40 + id1 < 256
  | _ => False
  end.

Lemma ber_oid_dec_enc oid bs rest :
  oid_canonical oid -> ber_oid_enc oid = Some bs ->
  ber_oid_dec (bs ++ rest) (Z.of_nat (length bs)) = Some oid.
Proof.
  intros [Hw Hc] H. destruct oid as [|id0 [|id1 ids]]; try done.
  cbn [ber_oid_enc] in H. destruct (subids_enc ids) as [r|] eqn:Hr; [|done]. simplify_eq.
  apply Forall_cons in Hw as [H0 [H1 Hw]%Forall_cons]. unfold is_u32 in H0, H1.
  rewrite (u32_id (id0 * 40 + id1)), u8_id by (unfold is_u8, is_u32; lia).
  unfold ber_oid_dec. cbn [app lookup list_lookup].
  rewrite (slice_mid [id0 * 40 + id1] r rest) by (cbn [length]; lia).
  rewrite (oid_dec_loop_subids ids r) by done.
  do 2 f_equal; [|f_equal]; Z.div_mod_to_equations; lia.
Qed.

(** *** Element counts *)
Lemma oid_dec_loop_count id bs n :
  0 <= n -> n + Z.of_nat (length bs) < 2 ^ 32 ->
  foldl (fun j b => if nz (Z.land b 0x80) then j else u32 (j + 1)) n bs =
  n + Z.of_nat (length (oid_dec_loop id bs)).
Proof.
  revert id n. induction bs as [|b bs IH]; intros id n Hn Hl; [cbn; lia|].
  cbn [foldl oid_dec_loop length] in *. destruct (nz _); [apply IH; lia|].
  cbn [length]. rewrite u32_id by (unfold is_u32; lia). rewrite (IH 0) by lia. lia.
Qed.

(** *** Object representations *)
Lemma load_uint_mem_of e v rest : load_uint e (mem_of e 4 v ++ rest) = Some (u32 v).
Proof.
  unfold load_uint. rewrite (slice_app (mem_of e 4 v) rest) by by rewrite length_mem_of.
  by rewrite val_of_mem_of.
Qed.

Lemma load_int_mem_of e v rest : is_i32 v -> load_int e (mem_of e 4 v ++ rest) = Some v.
Proof.
  intros. unfold load_int. rewrite (slice_app (mem_of e 4 v) rest) by by rewrite length_mem_of.
  by rewrite val_of_int.
Qed.

Lemma load_oid_store_oid e oid rest :
  words oid -> load_oid e (store_oid e oid ++ rest) (length oid) = Some oid.
Proof.
  induction 1 as [|id oid Hid _ IH]; [done|]. cbn [length load_oid store_oid].
  rewrite <- app_assoc, load_uint_mem_of, u32_id by done.
  rewrite drop_app_length' by by rewrite length_mem_of. by rewrite IH.
Qed.

Lemma twos_val_be_bytes n v :
  - 256 ^ Z.of_nat n <= 2 * v < 256 ^ Z.of_nat n -> twos_val (be_bytes n v) = v.
Proof.
  intros Hv. unfold twos_val. rewrite length_be_bytes, be_val_be_bytes.
  destruct (Z.leb_spec 0 v).
  - rewrite Z.mod_small by lia. zdec; lia.
  - rewrite <- (Z.mod_add v 1), Z.mod_small by lia. zdec; lia.
Qed.

Lemma twos_val_enc v : is_i32 v -> twos_val (be_bytes (int_octets v) v) = v.
Proof.
  intros Hv. unfold is_i32 in Hv. apply twos_val_be_bytes.
  unfold int_octets. repeat zdec; zpow; lia.
Qed.

Lemma be_val_enc v : is_u32 v -> be_val (be_bytes (int_octets v) v) = v.
Proof.
  intros Hv. unfold is_u32 in Hv. rewrite be_val_be_bytes. unfold int_octets.
  repeat zdec; zpow; apply Z.mod_small; lia.
Qed.

Lemma int_octets_i32 v : is_i32 v -> (1 <= int_octets v <= 4)%nat.
Proof. unfold is_i32, int_octets. intros. repeat zdec; lia. Qed.

Lemma be_bytes_nonempty n v : (0 < n)%nat -> be_bytes n v <> [].
Proof. intros Hn E. apply (f_equal length) in E. rewrite length_be_bytes in E. cbn in E. lia. Qed.

Lemma int_octets_pos v : (0 < int_octets v)%nat.
Proof. unfold int_octets. repeat (case_match; try lia). Qed.

(** Reduce the [switch] on a known tag. *)
Ltac tag_switch :=
  unfold ber_value_enc, ber_value_enc_try, ber_value_dec, ber_value_dec_try,
    ASN1_TAG_INT, ASN1_TAG_CNT, ASN1_TAG_GAU, ASN1_TAG_TIMETICKS, ASN1_TAG_OBJID,
    ASN1_TAG_OCTSTR, ASN1_TAG_IPADDR in *; cbn [Z.eqb Pos.eqb orb].

(** What comes back of a value. *)
Definition oid_back (ids : list Z) : list Z :=
  match oid_bytes ids with
  | [] => []
  | b0 :: _ => b0 / 40 :: b0 mod 40 :: drop 2 ids
  end.

Definition val_back (v : snmp_val) : snmp_val := match v with VOid ids => VOid (oid_back ids) | _ => v end.

Lemma oid_back_same ids : words ids -> oid_back ids = ids <-> ids = [] \/ oid_canonical ids.
Proof.
  intros Hw. unfold oid_canonical. destruct ids as [|id0 [|id1 rest]]; [by split; [left|]|by split; [|intros [?|[_ []]]]|].
  pose proof Hw as [H0 [H1 _]%Forall_cons]%Forall_cons. unfold oid_back, is_u32 in *. cbn [oid_bytes drop].
  pose proof (Z.mod_pos_bound (40 * id0 + id1) 256 ltac:(lia)). split.
  - intros [= E0 E1]. right. split; [done|]. Z.div_mod_to_equations. lia.
  - intros [?|[_ [Hc Hb]]]; [done|]. rewrite Z.mod_small by lia.
    f_equal; [|f_equal]; Z.div_mod_to_equations; lia.
Qed.

Lemma oid_bytes_dec ids rest : words ids -> ids <> [] ->
  ber_oid_dec (oid_bytes ids ++ rest) (Z.of_nat (length (oid_bytes ids))) = Some (oid_back ids).
Proof.
  intros Hw Hne. destruct ids as [|id0 [|id1 ids]]; [done|..]; unfold ber_oid_dec, oid_back;
    cbn [oid_bytes app lookup list_lookup drop].
  - by rewrite (slice_mid [id0 mod 256] [] rest).
  - apply Forall_cons in Hw as [_ [_ Hw]%Forall_cons].
    rewrite (slice_mid [(40 * id0 + id1) mod 256] (subids_bytes ids) rest) by (cbn [length]; lia).
    by rewrite (oid_dec_loop_subids ids) by (done || by apply subids_enc_bytes).
Qed.

(** *** Counters *)
Lemma mem_of_i32 e v : mem_of e 4 (i32 v) = mem_of e 4 v.
Proof.
  assert (le_bytes 4 (i32 v) = le_bytes 4 v) as H.
  { rewrite <- (le_bytes_le_val (le_bytes 4 (i32 v))), <- (le_bytes_le_val (le_bytes 4 v)) by apply le_bytes_bytes.
    rewrite !length_le_bytes, !le_val_le_bytes. f_equal. change (256 ^ Z.of_nat 4) with (2 ^ 32). apply u32_i32. }
  destruct e; cbn [mem_of]; by rewrite H.
Qed.

Lemma load_int_counter e v rest : load_int e (mem_of e 4 v ++ rest) = Some (i32 v).
Proof. rewrite <- mem_of_i32. apply load_int_mem_of, i32_range. Qed.

Lemma int_bytes_nonempty v : int_bytes v <> [].
Proof. apply be_bytes_nonempty, int_octets_pos. Qed.

Lemma ber_int_enc_int_bytes e v : is_i32 v -> ber_int_enc e v = int_bytes v.
Proof. intros. destruct e; rewrite ?ber_int_enc_BE; by apply ber_int_enc_LE. Qed.

Lemma Zlength_nonzero {A} (l : list A) : l <> [] -> (Z.of_nat (length l) =? 0) = false.
Proof. intros. apply Z.eqb_neq. destruct l; [done|]. cbn [length]. lia. Qed.

(** ** Properties *)

(** A length written by [ber_length_enc] and followed by any bytes is
    read back by [ber_length_dec], which consumes exactly the bytes written. *)
Theorem ber_length_roundtrip (e : endian) (v : Z) (rest : list Z) (Hv : is_u32 v) :
  ber_length_dec (ber_length_enc e v ++ rest) =
  Some (Z.of_nat (length (ber_length_enc e v)), v).
Proof. by rewrite ber_length_dec_enc, ber_length_enc_try_eq. Qed.

Lemma ber_length_roundtrip_witness :
  ber_length_dec (ber_length_enc BE 65536 ++ [7]) = Some (4, 65536).
Proof.
  rewrite (ber_length_roundtrip BE 65536 [7]); [reflexivity|]. unfold is_u32. lia.
Defined.

(** [ber_int_dec] of one to four octets is their two's complement value,
    whether or not the encoding is minimal. *)
Theorem ber_int_dec_twos (bs rest : list Z) (Hb : bytes bs) (Hl : (1 <= length bs <= 4)%nat) :
  ber_int_dec (bs ++ rest) (Z.of_nat (length bs)) = Some (twos_val bs).
Proof. by apply ber_int_dec_app. Qed.

Lemma ber_int_dec_twos_witness : ber_int_dec ([0xff; 0x7f] ++ [1]) 2 = Some (-129).
Proof.
  refine (eq_trans (ber_int_dec_twos [0xff; 0x7f] [1] _ _) _); [|simpl; lia|reflexivity].
  repeat constructor; lia.
Defined.

(** The encoder writes [val_written], whatever follows the value in memory. *)
Lemma ber_value_enc_written e v tail : val_ok v ->
  ber_value_enc e (val_mem e v ++ tail) (val_count v) (val_tag v) = Some (val_written v).
Proof.
  destruct v as [v|v|t v|ids|t s|t]; cbn [val_ok val_mem val_count val_tag val_written val_octets].
  - intros Hv. tag_switch. by rewrite load_int_mem_of, ber_int_enc_int_bytes.
  - intros Hv. tag_switch. rewrite load_int_counter, ber_int_enc_int_bytes; [done|apply i32_range].
  - intros [[-> | ->] Hv]; tag_switch; rewrite load_uint_mem_of, u32_id by done; by rewrite ber_uint_enc_mod, ber_uint_enc_eq.
  - intros Hw. tag_switch. unfold zlen. rewrite Nat2Z.id, load_oid_store_oid by done. by apply ber_oid_enc_bytes.
  - intros [-> | ->]; tag_switch; unfold zlen; rewrite Nat2Z.id; by apply slice_app.
  - rewrite !not_elem_of_cons. intros (H1 & H2 & H3 & H4 & H5 & H6 & H7 & _). unfold ber_value_enc.
    by rewrite !(proj2 (Z.eqb_neq t _)) by done.
Qed.

(** The same from what is in memory. *)
Lemma val_at_written e mem count t v : val_at e mem count t = Some v -> val_ok v ->
  ber_value_enc e mem count t = Some (val_written v).
Proof.
  unfold val_at, ber_value_enc.
  destruct (Z.eqb_spec t ASN1_TAG_INT) as [->|H1]; cbn [orb].
  { destruct (load_int e mem) as [z|]; [|done]. intros [= <-] Hv. cbn [val_written val_octets]. by rewrite ber_int_enc_int_bytes. }
  destruct (Z.eqb_spec t ASN1_TAG_CNT) as [->|H2]; cbn [orb].
  { unfold load_uint, load_int. destruct (slice 0 4 mem) as [m|]; [|done]. intros [= <-] _. cbn [val_written].
    assert (i32 (u32 (val_of e m)) = i32 (val_of e m)) as -> by (unfold i32, u32; by rewrite Z.mod_mod by lia).
    by rewrite ber_int_enc_int_bytes by apply i32_range. }
  destruct ((t =? ASN1_TAG_GAU) || (t =? ASN1_TAG_TIMETICKS)).
  { destruct (load_uint e mem) as [z|]; [|done]. intros [= <-] [_ Hv]. cbn [val_written val_octets].
    assert (ber_uint_enc e (i32 z) = ber_uint_enc e (i32 (u32 z))) as -> by (unfold i32, u32; by rewrite Z.mod_mod by lia).
    by rewrite ber_uint_enc_mod, ber_uint_enc_eq. }
  destruct (t =? ASN1_TAG_OBJID).
  { destruct (load_oid e mem _) as [ids|]; [|done]. intros [= <-] Hw. by apply ber_oid_enc_bytes. }
  destruct ((t =? ASN1_TAG_OCTSTR) || (t =? ASN1_TAG_IPADDR)); [|by intros [= <-] _].
  destruct (slice _ _ mem) as [s|]; [|done]. by intros [= <-] _.
Qed.

(** The values whose length is announced: on big-endian machines the length of 0
    and of -1 is read outside the object, and the length of an identifier has
    eight bits. *)
Definition int_sized (e : endian) (v : Z) : Prop := match e with LE => True | BE => v <> 0 /\ v <> -1 end.

Definition val_sized (e : endian) (v : snmp_val) : Prop :=
  match v with
  | VInt v => int_sized e v
  | VCnt v => int_sized e (i32 v)
  | VOid ids => (length ids < 256)%nat /\ zlen (oid_bytes ids) < 256
  | _ => True
  end.

#[global] Instance int_sized_dec e v : Decision (int_sized e v).
Proof. destruct e; cbn [int_sized]; apply _. Defined.

Lemma ber_int_enc_try_sized e v : is_i32 v ->
  ber_int_enc_try e v = if decide (int_sized e v) then Some (zlen (int_bytes v)) else None.
Proof.
  intros Hv. unfold zlen, int_bytes. rewrite length_be_bytes. destruct e; [by rewrite ber_int_enc_try_LE|].
  rewrite ber_int_enc_try_BE by done. destruct (Z.eqb_spec v 0), (Z.eqb_spec v (-1)); cbn [orb];
    destruct (decide (int_sized BE v)) as [[? ?]|Hn]; done || by destruct Hn.
Qed.

Lemma ber_value_enc_try_written e v tail : val_ok v -> val_sized e v ->
  ber_value_enc_try e (val_mem e v ++ tail) (val_count v) (val_tag v) = Some (zlen (val_written v)).
Proof.
  destruct v as [v|v|t v|ids|t s|t]; cbn [val_ok val_sized val_mem val_count val_tag val_written val_octets].
  - intros Hv Hs. tag_switch. by rewrite load_int_mem_of, ber_int_enc_try_sized, decide_True.
  - intros Hv Hs. tag_switch. rewrite load_int_counter, ber_int_enc_try_sized by apply i32_range. by rewrite decide_True.
  - intros [[-> | ->] Hv] _; tag_switch; rewrite load_uint_mem_of, u32_id, ber_uint_enc_try_eq by done;
      unfold zlen, int_bytes; by rewrite length_be_bytes.
  - intros Hw [Hn Hl]. tag_switch. unfold zlen in *. rewrite Nat2Z.id, load_oid_store_oid by done.
    rewrite (ber_oid_enc_try_mod _ _ Hw Hn (ber_oid_enc_bytes _ Hw)), u8_id; [done|unfold is_u8; lia].
  - intros [-> | ->] _; by tag_switch.
  - rewrite !not_elem_of_cons. intros (H1 & H2 & H3 & H4 & H5 & H6 & H7 & _) _. unfold ber_value_enc_try.
    by rewrite !(proj2 (Z.eqb_neq t _)) by done.
Qed.

Lemma ber_value_dec_written e v rest : val_ok v ->
  ber_value_dec e (val_written v ++ rest) (zlen (val_written v)) (val_tag v) =
  Some (val_count (val_back v), val_mem e (val_back v)).
Proof.
  unfold zlen. destruct v as [v|v|t v|ids|t s|t]; cbn [val_ok val_mem val_count val_tag val_written val_octets val_back].
  - intros Hv. pose proof (int_octets_i32 v Hv). tag_switch. rewrite Zlength_nonzero by apply int_bytes_nonempty.
    unfold int_bytes. by rewrite ber_int_dec_app, twos_val_enc by (rewrite ?length_be_bytes; auto using be_bytes_bytes).
  - intros _. pose proof (i32_range v) as Hv. pose proof (int_octets_i32 _ Hv). tag_switch.
    rewrite Zlength_nonzero by apply int_bytes_nonempty. unfold int_bytes.
    rewrite ber_int_dec_app, twos_val_enc by (rewrite ?length_be_bytes; auto using be_bytes_bytes). by rewrite mem_of_i32.
  - intros [[-> | ->] Hv]; tag_switch; rewrite Zlength_nonzero by apply int_bytes_nonempty; unfold int_bytes;
      pose proof (int_octets_pos v);
      by rewrite ber_uint_dec_app, be_val_enc, u32_id by auto using be_bytes_bytes, be_bytes_nonempty.
  - intros Hw. tag_switch. destruct ids as [|id ids]; [done|].
    assert (oid_bytes (id :: ids) <> []) as Hne by (by destruct ids).
    by rewrite Zlength_nonzero, oid_bytes_dec by done.
  - intros Ht. destruct s as [|b s]; [done|].
    destruct Ht as [-> | ->]; tag_switch; rewrite Zlength_nonzero, Nat2Z.id by done;
      by rewrite (slice_app (b :: s) rest).
  - done.
Qed.

(** C29: every value of a variable binding (integer, counter, gauge, time ticks,
    any object identifier, any string or address, the types without contents)
    is encoded without a fault, as [val_written], which is the encoding of X.690
    unless it is a counter of 2^31 or more or an identifier whose first octet
    does not fit seven bits; decoding the octets, whatever follows, gives the
    element count and the representation of [val_back]: the value itself, but
    for identifiers, which come back unchanged exactly when they are empty or
    their second sub-identifier is below 40 and the first octet holds both. *)
Theorem ber_value_roundtrip (e : endian) (v : snmp_val) (tail rest : list Z) (Hok : val_ok v) :
  ber_value_enc e (val_mem e v ++ tail) (val_count v) (val_tag v) = Some (val_written v) /\
  (val_standard v -> val_written v = val_octets v) /\
  ber_value_dec e (val_written v ++ rest) (zlen (val_written v)) (val_tag v) =
    Some (val_count (val_back v), val_mem e (val_back v)) /\
  (val_back v = v <-> match v with VOid ids => ids = [] \/ oid_canonical ids | _ => True end).
Proof.
  split; [by apply ber_value_enc_written|]. split; [by apply val_written_octets|].
  split; [by apply ber_value_dec_written|]. destruct v as [v|v|t v|ids|t s|t]; try done. cbn [val_back].
  rewrite <- oid_back_same by done. split; [by intros [=]|by intros ->].
Qed.

(** 2.100.3 comes back as 4.20.3. *)
Lemma ber_value_roundtrip_witness :
  ber_value_enc LE (store_oid LE [2; 100; 3] ++ []) 3 ASN1_TAG_OBJID = Some [180; 3] /\
  ber_value_dec LE ([180; 3] ++ [5; 0]) 2 ASN1_TAG_OBJID = Some (3, store_oid LE [4; 20; 3]) /\
  ~ oid_canonical [2; 100; 3].
Proof.
  destruct (ber_value_roundtrip LE (VOid [2; 100; 3]) [] [5; 0]) as (H1 & _ & H3 & H4).
  - repeat constructor; lia.
  - split; [exact H1|]. split; [exact H3|]. intros Hc. destruct (proj2 H4 (or_intror Hc)).
    cbn in Hc. destruct Hc as [_ Hc]. lia.
Defined.

(** [ber_value_dec_try] announces the element count [ber_value_dec]
    returns, for every tag, whenever the octets are in the buffer (an integer
    is given at most four octets). *)
Theorem ber_value_dec_try_count (e : endian) (bs rest : list Z) (t : Z)
    (Hb : bytes bs) (Hl : Z.of_nat (length bs) < 2 ^ 31)
    (Hint : t = ASN1_TAG_INT \/ t = ASN1_TAG_CNT -> (length bs <= 4)%nat) :
  exists n stored,
    ber_value_dec_try (bs ++ rest) (Z.of_nat (length bs)) t = Some n /\
    ber_value_dec e (bs ++ rest) (Z.of_nat (length bs)) t = Some (n, stored).
Proof.
  destruct (decide (bs = [])) as [->|Hne]; [by exists 0, []|].
  unfold ber_value_dec_try, ber_value_dec. rewrite (Zlength_nonzero bs) by done.
  assert (1 <= length bs)%nat by (destruct bs; [done|cbn; lia]).
  destruct (Z.eqb_spec t ASN1_TAG_INT) as [->|]; [|destruct (Z.eqb_spec t ASN1_TAG_CNT) as [->|]].
  1, 2: cbn [orb]; rewrite ber_int_dec_app by auto; eauto.
  cbn [orb]. destruct ((t =? ASN1_TAG_GAU) || (t =? ASN1_TAG_TIMETICKS)).
  { rewrite ber_uint_dec_app by done. eauto. }
  destruct (t =? ASN1_TAG_OBJID).
  { destruct bs as [|b0 bs]; [done|]. unfold ber_oid_dec_try, ber_oid_dec.
    cbn [app lookup list_lookup]. cbn [length] in *.
    rewrite (slice_mid [b0] bs rest) by (cbn [length]; lia).
    rewrite (oid_dec_loop_count 0) by lia. do 2 eexists. split; [done|]. f_equal. cbn [length].
    f_equal. lia. }
  destruct ((t =? ASN1_TAG_OCTSTR) || (t =? ASN1_TAG_IPADDR)); [|by exists 0, []].
  rewrite Nat2Z.id, (slice_app bs rest) by done. eauto.
Qed.

Lemma ber_value_dec_try_count_witness :
  exists n stored,
    ber_value_dec_try ([43; 6; 1; 0x81; 0x00] ++ [9]) 5 ASN1_TAG_OBJID = Some n /\
    ber_value_dec LE ([43; 6; 1; 0x81; 0x00] ++ [9]) 5 ASN1_TAG_OBJID = Some (n, stored).
Proof.
  apply (ber_value_dec_try_count LE [43; 6; 1; 0x81; 0x00] [9] ASN1_TAG_OBJID).
  - repeat constructor; lia.
  - cbn; lia.
  - intros [?|?]; discriminate.
Defined.

(** A Counter32 of 2^31 or more is encoded as a signed integer: the
    octets written denote the negative number [v - 2^32], while the same value
    tagged as a gauge keeps its sign octet. *)
Theorem ber_counter_negative (e : endian) (v : Z) (Hv : 2 ^ 31 <= v < 2 ^ 32) :
  (exists bs, ber_value_enc e (mem_of e 4 v) 1 ASN1_TAG_CNT = Some bs /\ twos_val bs = v - 2 ^ 32) /\
  (exists bs, ber_value_enc e (mem_of e 4 v) 1 ASN1_TAG_GAU = Some bs /\ twos_val bs = v).
Proof.
  assert (mem_of e 4 v = mem_of e 4 (v - 2 ^ 32)) as Hm.
  { assert (le_bytes 4 v = le_bytes 4 (v - 2 ^ 32)) as H.
    { rewrite <- (le_bytes_le_val (le_bytes 4 v)), <- (le_bytes_le_val (le_bytes 4 (v - 2 ^ 32)))
        by apply le_bytes_bytes.
      rewrite !length_le_bytes, !le_val_le_bytes. f_equal.
      change (256 ^ Z.of_nat 4) with (2 ^ 32). by rewrite <- (Z.mod_add v (-1)) by lia. }
    destruct e; cbn [mem_of]; by rewrite H. }
  split.
  - assert (is_i32 (v - 2 ^ 32)) as Hi by (unfold is_i32; lia).
    exists (be_bytes (int_octets (v - 2 ^ 32)) (v - 2 ^ 32)). rewrite Hm. split; [|by apply twos_val_enc].
    tag_switch. rewrite <- (app_nil_r (mem_of _ _ _)), load_int_mem_of by done.
    destruct e; by rewrite ?ber_int_enc_BE, ber_int_enc_LE.
  - assert (is_u32 v) as Hu by (unfold is_u32; lia).
    exists (be_bytes (int_octets v) v). split.
    + tag_switch. rewrite <- (app_nil_r (mem_of _ _ _)), load_uint_mem_of, u32_id by done.
      by rewrite ber_uint_enc_mod, ber_uint_enc_eq.
    + apply twos_val_be_bytes. unfold int_octets. repeat zdec; zpow; lia.
Qed.

Lemma ber_counter_negative_witness :
  exists bs, ber_value_enc LE (mem_of LE 4 4294967295) 1 ASN1_TAG_CNT = Some bs /\ twos_val bs = -1.
Proof. apply (ber_counter_negative LE 4294967295). lia. Defined.
