(* ===== verification/Oid.v ===== *)
(** * Object identifiers ([src/core/mib_tree.c], [oid_*])

    A pair [(const oid_t *oid, uint32_t len)] is the list of its [len]
    sub-identifiers.  [oid_cmp] is what the whole agent orders and matches
    identifiers with; it is compared here with the lexicographic order, and
    [oid_binary_search], which the MIB tree is built on, with a linear scan. *)
From Stdlib Require Export Sorted.
From S2P Require Import Prelude BerEncoder.
Local Open Scope Z_scope.

(** ** Operations *)

(** The difference is computed on [unsigned int] and converted to [int]. *)
Fixpoint oid_cmp (src target : list Z) : Z :=
  match src, target with
  | x :: src', y :: target' =>
      let ret := i32 (u32 (x - y)) in
      if ret =? 0 then oid_cmp src' target' else ret
  | _, _ => i32 (u32 (Z.of_nat (length src) - Z.of_nat (length target)))
  end.

(** [oid_dup] allocates [ASN1_VALUE_MAX_LEN] cells whatever [len] is; the cells
    that are not assigned hold whatever [malloc] returned ([junk]). *)
Definition oid_dup (junk : Z) (oid : list Z) : option (list Z) :=
  blit oid (replicate (Z.to_nat ASN1_VALUE_MAX_LEN) junk).

Definition oid_cpy (oid_dest oid_src : list Z) : option (list Z) := blit oid_src oid_dest.

Definition oid_cover (oid1 oid2 : list Z) : Z :=
  let len1 := length oid1 in
  let len2 := length oid2 in
  if (len1 <=? len2)%nat && (oid_cmp oid1 (take len1 oid2) =? 0) then 1
  else if (len2 <=? len1)%nat && (oid_cmp (take len2 oid1) oid2 =? 0) then -1
  else 0.

(** [while (low + 1 < high)]; [None] is a read outside [array]. *)
Fixpoint bsearch_loop (fuel : nat) (array : list Z) (oid low high : Z) : option Z :=
  if low + 1 <? high then
    match fuel with
    | O => None
    | S fuel' =>
        let mid := low + Z.quot (high - low) 2 in
        let* x := (if mid <? 0 then None else array !! Z.to_nat mid) in
        if x <? oid then bsearch_loop fuel' array oid mid high
        else bsearch_loop fuel' array oid low mid
    end
  else Some high.

Definition oid_binary_search (array : list Z) (n oid : Z) : option Z :=
  let* high := bsearch_loop (Z.to_nat n) array oid (-1) n in
  if high >=? n then Some (- high - 1)
  else
    let* x := (if high <? 0 then None else array !! Z.to_nat high) in
    if negb (x =? oid) then Some (- high - 1) else Some high.

(** ** The lexicographic order *)
Fixpoint oid_compare (a b : list Z) : comparison :=
  match a, b with
  | [], [] => Eq
  | [], _ :: _ => Lt
  | _ :: _, [] => Gt
  | x :: a', y :: b' =>
      match x ?= y with Eq => oid_compare a' b' | c => c end
  end.

Definition oid_lt (a b : list Z) : Prop := oid_compare a b = Lt.

(** Position of the first element that is not below [x]. *)
Fixpoint lower_bound (x : Z) (l : list Z) : nat :=
  match l with
  | [] => O
  | y :: l' => if y <? x then S (lower_bound x l') else O
  end.

#[global] Instance oid_lt_dec : RelDecision oid_lt.
Proof. intros a b. unfold oid_lt. solve_decision. Defined.

(** ** The lexicographic order is a strict total order *)
Lemma oid_compare_eq a b : oid_compare a b = Eq <-> a = b.
Proof.
  revert b. induction a as [|x a IH]; intros [|y b]; cbn; try (split; congruence).
  destruct (Z.compare_spec x y) as [->| |]; [rewrite IH|..]; split; try congruence; intros [= ?]; lia.
Qed.

Lemma oid_compare_refl a : oid_compare a a = Eq.
Proof. by apply oid_compare_eq. Qed.

Lemma oid_compare_antisym a b : oid_compare b a = CompOpp (oid_compare a b).
Proof.
  revert b. induction a as [|x a IH]; intros [|y b]; cbn; try done.
  rewrite (Z.compare_antisym x y). destruct (x ?= y); cbn; auto.
Qed.

#[global] Instance oid_lt_trans : Transitive oid_lt.
Proof.
  unfold oid_lt. intros a. induction a as [|x a IH]; intros [|y b] [|z c]; cbn; try done.
  destruct (Z.compare_spec x y) as [->|H1|H1], (Z.compare_spec y z) as [->|H2|H2]; try done.
  - by apply IH.
  - by rewrite (proj2 (Z.compare_lt_iff x z)) by lia.
  - by rewrite (proj2 (Z.compare_lt_iff x z)) by lia.
Qed.

#[global] Instance oid_lt_irrefl : Irreflexive oid_lt.
Proof. intros a H. unfold oid_lt in H. by rewrite oid_compare_refl in H. Qed.

Lemma oid_lt_total a b : oid_lt a b \/ a = b \/ oid_lt b a.
Proof.
  unfold oid_lt. rewrite (oid_compare_antisym a b).
  destruct (oid_compare a b) eqn:E; [|by auto..]. apply oid_compare_eq in E. auto.
Qed.

(** Common prefixes do not matter, and a proper prefix comes first. *)
Lemma oid_compare_app p a b : oid_compare (p ++ a) (p ++ b) = oid_compare a b.
Proof. induction p as [|x p IH]; cbn; [done|]. by rewrite Z.compare_refl. Qed.

Lemma oid_lt_app_r p x a : oid_lt p (p ++ x :: a).
Proof. unfold oid_lt. by rewrite <- (app_nil_r p) at 1; rewrite oid_compare_app. Qed.

(** ** [oid_cmp] *)
Lemma oid_cmp_diff_small x y : 0 <= x < 2 ^ 31 -> 0 <= y < 2 ^ 31 -> i32 (u32 (x - y)) = x - y.
Proof. intros. rewrite i32_u32. apply i32_id. unfold is_i32. lia. Qed.

Lemma oid_cmp_diff_zero x y : is_u32 x -> is_u32 y -> i32 (u32 (x - y)) = 0 <-> x = y.
Proof.
  unfold is_u32. intros. rewrite i32_u32, i32_zero. unfold u32. split; intros.
  - destruct (decide (x < y)); [|rewrite Z.mod_small in * by lia; lia].
    rewrite <- (Z.mod_add (x - y) 1), Z.mod_small in * by lia. lia.
  - subst. by rewrite Z.sub_diag.
Qed.

(** Equality is decided correctly on all identifiers. *)
Lemma oid_cmp_zero a b :
  words a -> words b -> Z.of_nat (length a) < 2 ^ 31 -> Z.of_nat (length b) < 2 ^ 31 ->
  oid_cmp a b = 0 <-> a = b.
Proof.
  intros Ha. revert b. induction Ha as [|x a Hx _ IH]; intros b Hb Hla Hlb.
  - destruct b as [|y b]; cbn [oid_cmp length] in *; [done|].
    rewrite oid_cmp_diff_small by lia. split; [lia|done].
  - destruct Hb as [|y b Hy Hb]; cbn [oid_cmp length] in *.
    + rewrite oid_cmp_diff_small by lia. split; [lia|done].
    + pose proof (oid_cmp_diff_zero x y Hx Hy).
      destruct (Z.eqb_spec (i32 (u32 (x - y))) 0) as [E|E].
      * rewrite IH by (done || lia). split; [|congruence]. intros ->. f_equal. tauto.
      * split; [lia|]. intros [= -> ->]. tauto.
Qed.

(** ** [oid_cover] *)
Lemma prefix_take (a b : list Z) : a `prefix_of` b <-> take (length a) b = a.
Proof.
  split.
  - intros [k ->]. apply take_app_length.
  - intros <-. exists (drop (length a) b). by rewrite take_drop.
Qed.

Lemma cover_test a b :
  words a -> words b -> Z.of_nat (length a) < 2 ^ 31 -> Z.of_nat (length b) < 2 ^ 31 ->
  (length a <=? length b)%nat && (oid_cmp a (take (length a) b) =? 0) = true <->
  a `prefix_of` b.
Proof.
  intros. rewrite andb_true_iff, Nat.leb_le, Z.eqb_eq, prefix_take.
  rewrite oid_cmp_zero by (rewrite ?length_take; auto using Forall_take; lia).
  split; [by intros [_ ?]|]. intros E. split; [|done].
  rewrite <- E, length_take. lia.
Qed.

Lemma cover_test' a b :
  words a -> words b -> Z.of_nat (length a) < 2 ^ 31 -> Z.of_nat (length b) < 2 ^ 31 ->
  (length b <=? length a)%nat && (oid_cmp (take (length b) a) b =? 0) = true <->
  b `prefix_of` a.
Proof.
  intros. rewrite andb_true_iff, Nat.leb_le, Z.eqb_eq, prefix_take.
  rewrite oid_cmp_zero by (rewrite ?length_take; auto using Forall_take; lia).
  split; [by intros [_ ?]|]. intros E. split; [|done].
  rewrite <- E, length_take. lia.
Qed.

(** Identifiers whose arithmetic is exact in [oid_cover]. *)
Definition oid_ok (a : list Z) : Prop := words a /\ Z.of_nat (length a) < 2 ^ 31.

Lemma oid_cover_spec a b :
  oid_ok a -> oid_ok b ->
  oid_cover a b =
  if decide (a `prefix_of` b) then 1 else if decide (b `prefix_of` a) then -1 else 0.
Proof.
  intros [Ha Hla] [Hb Hlb]. unfold oid_cover.
  pose proof (cover_test a b Ha Hb Hla Hlb) as H1. pose proof (cover_test' a b Ha Hb Hla Hlb) as H2.
  destruct (_ && _), (_ && _); repeat case_decide; intuition congruence.
Qed.

(** ** [oid_binary_search] *)
Lemma lower_bound_le x l : (lower_bound x l <= length l)%nat.
Proof. induction l as [|y l IH]; cbn; [lia|]. case_match; lia. Qed.

Lemma lower_bound_below x l i y :
  (i < lower_bound x l)%nat -> l !! i = Some y -> y < x.
Proof.
  revert i. induction l as [|z l IH]; intros i; cbn; [lia|].
  destruct (Z.ltb_spec z x); [|lia]. intros Hi Hl.
  destruct i as [|i]; cbn in Hl; [by simplify_eq|]. apply (IH i); [lia|done].
Qed.

Lemma lower_bound_above x l i y :
  StronglySorted Z.lt l -> (lower_bound x l <= i)%nat -> l !! i = Some y -> x <= y.
Proof.
  intros Hs. revert i. induction Hs as [|z l Hs IH Hz]; intros i; cbn; [done|].
  destruct (Z.ltb_spec z x).
  - intros Hi Hl. destruct i as [|i]; [lia|]. cbn in Hl. apply (IH i); [lia|done].
  - intros _ Hl. destruct i as [|i]; cbn in Hl; [simplify_eq; lia|].
    rewrite List.Forall_forall in Hz. enough (z < y) by lia.
    by apply Hz, list_elem_of_In, list_elem_of_lookup_2 with i.
Qed.

Lemma bsearch_loop_spec fuel l pad x low high :
  StronglySorted Z.lt l ->
  -1 <= low -> low < Z.of_nat (lower_bound x l) <= high -> high <= Z.of_nat (length l) ->
  high - low <= Z.of_nat fuel + 1 ->
  bsearch_loop fuel (l ++ pad) x low high = Some (Z.of_nat (lower_bound x l)).
Proof.
  intros Hs. revert low high. induction fuel as [|fuel IH]; intros low high Hlow Hb Hh Hf;
    cbn [bsearch_loop]; destruct (Z.ltb_spec (low + 1) high) as [Hlt|Hge]; try lia; try (f_equal; lia).
  assert (low < low + Z.quot (high - low) 2 < high) as Hmid.
  { rewrite Z.quot_div_nonneg by lia. Z.div_mod_to_equations. lia. }
  set (mid := low + Z.quot (high - low) 2) in *.
  rewrite (proj2 (Z.ltb_ge mid 0)) by lia.
  destruct (lookup_lt_is_Some_2 l (Z.to_nat mid)) as [y Hy]; [lia|].
  rewrite lookup_app_l by lia. rewrite Hy.
  destruct (Z.ltb_spec y x).
  - apply IH; try lia. split; [|lia].
    destruct (decide (lower_bound x l <= Z.to_nat mid)%nat) as [Hle|]; [|lia].
    pose proof (lower_bound_above x l _ _ Hs Hle Hy). lia.
  - apply IH; try lia. split; [lia|].
    destruct (decide (Z.to_nat mid < lower_bound x l)%nat) as [Hle|]; [|lia].
    pose proof (lower_bound_below x l _ _ Hle Hy). lia.
Qed.

Lemma StronglySorted_lookup l i j x y :
  StronglySorted Z.lt l -> l !! i = Some x -> l !! j = Some y -> (i < j)%nat -> x < y.
Proof.
  intros Hs. revert i j. induction Hs as [|z l Hs IH Hz]; intros i j Hi Hj Hij; [done|].
  destruct j as [|j]; [lia|]. cbn in Hj. destruct i as [|i]; cbn in Hi.
  - simplify_eq. rewrite List.Forall_forall in Hz.
    by apply Hz, list_elem_of_In, list_elem_of_lookup_2 with j.
  - eapply (IH i j); [done..|lia].
Qed.

(** The value returned for the sorted sub-identifiers [l]. *)
Definition search_index (x : Z) (l : list Z) : Z :=
  let i := lower_bound x l in
  if decide (l !! i = Some x) then Z.of_nat i else - Z.of_nat i - 1.

Lemma oid_binary_search_eq l pad x :
  StronglySorted Z.lt l ->
  oid_binary_search (l ++ pad) (Z.of_nat (length l)) x = Some (search_index x l).
Proof.
  intros Hs. unfold oid_binary_search, search_index. pose proof (lower_bound_le x l).
  rewrite bsearch_loop_spec by (done || lia). rewrite Z.geb_leb.
  destruct (Z.leb_spec (Z.of_nat (length l)) (Z.of_nat (lower_bound x l))).
  - rewrite decide_False; [done|]. intros E. apply lookup_lt_Some in E. lia.
  - rewrite (proj2 (Z.ltb_ge _ 0)) by lia. rewrite Nat2Z.id.
    destruct (lookup_lt_is_Some_2 l (lower_bound x l)) as [y Hy]; [lia|].
    rewrite lookup_app_l by lia. rewrite Hy.
    destruct (Z.eqb_spec y x) as [->|]; cbn [negb]; case_decide; congruence.
Qed.

Lemma oid_cmp_app p a b : oid_cmp (p ++ a) (p ++ b) = oid_cmp a b.
Proof.
  induction p as [|x p IH]; cbn [app oid_cmp]; [done|].
  by rewrite Z.sub_diag.
Qed.

Lemma oid_cmp_order (a b : list Z) :
  Forall (fun x => 0 <= x < 2 ^ 31) a -> Forall (fun x => 0 <= x < 2 ^ 31) b ->
  Z.of_nat (length a) < 2 ^ 31 -> Z.of_nat (length b) < 2 ^ 31 ->
  (oid_cmp a b ?= 0) = oid_compare a b.
Proof.
  intros Ha. revert b. induction Ha as [|x a Hx _ IH]; intros b Hb Hla Hlb.
  - destruct b as [|y b]; cbn [oid_cmp oid_compare length] in *; [done|].
    rewrite oid_cmp_diff_small by lia. apply Z.compare_lt_iff. lia.
  - destruct Hb as [|y b Hy Hb]; cbn [oid_cmp oid_compare length] in *.
    + rewrite oid_cmp_diff_small by lia. apply Z.compare_gt_iff. lia.
    + rewrite oid_cmp_diff_small by lia.
      destruct (Z.eqb_spec (x - y) 0) as [E|E], (Z.compare_spec x y); try lia.
      * apply IH; done || lia.
      * apply Z.compare_lt_iff. lia.
      * apply Z.compare_gt_iff. lia.
Qed.

(** Identifiers on which [oid_cmp] is the lexicographic order. *)
Definition oid_small (o : list Z) : Prop :=
  Forall (fun x => 0 <= x < 2 ^ 31) o /\ Z.of_nat (length o) < 2 ^ 31.

Lemma oid_small_ok o : oid_small o -> oid_ok o.
Proof. intros [H ?]. split; [|done]. eapply Forall_impl; [exact H|]. unfold is_u32. cbn. lia. Qed.

Lemma oid_cmp_gt a b : oid_small a -> oid_small b -> 0 < oid_cmp a b <-> oid_lt b a.
Proof.
  intros [Ha1 Ha2] [Hb1 Hb2]. pose proof (oid_cmp_order a b Ha1 Hb1 Ha2 Hb2) as Hc.
  unfold oid_lt. rewrite (oid_compare_antisym a b), <- Hc.
  destruct (Z.compare_spec (oid_cmp a b) 0); cbn; split; lia || done.
Qed.

Lemma oid_cmp_neg a b : oid_small a -> oid_small b -> oid_cmp a b < 0 <-> oid_lt a b.
Proof.
  intros [Ha1 Ha2] [Hb1 Hb2]. unfold oid_lt. rewrite <- oid_cmp_order by done. by rewrite Z.compare_lt_iff.
Qed.

Lemma prefix_lt (a b : list Z) : a `prefix_of` b -> a = b \/ oid_lt a b.
Proof. intros [[|x k] ->]; [left; by rewrite app_nil_r|right; apply oid_lt_app_r]. Qed.

(** ** Properties *)

(** On identifiers whose sub-identifiers are below 2^31, the sign of
    [oid_cmp] is the lexicographic order, so 0 means equality and the agent's
    views and instances are ordered as SNMP requires. *)
Theorem oid_cmp_lexicographic (a b : list Z)
    (Ha : Forall (fun x => 0 <= x < 2 ^ 31) a) (Hb : Forall (fun x => 0 <= x < 2 ^ 31) b)
    (Hla : Z.of_nat (length a) < 2 ^ 31) (Hlb : Z.of_nat (length b) < 2 ^ 31) :
  (oid_cmp a b ?= 0) = oid_compare a b.
Proof. by apply oid_cmp_order. Qed.

Lemma oid_cmp_lexicographic_witness :
  (oid_cmp [1; 3; 6; 1; 2] [1; 3; 6; 1; 4; 1] ?= 0) = Lt.
Proof.
  rewrite (oid_cmp_lexicographic [1; 3; 6; 1; 2] [1; 3; 6; 1; 4; 1]);
    [reflexivity|repeat constructor; lia|repeat constructor; lia|cbn; lia|cbn; lia].
Defined.

(** Sub-identifiers that differ by more than 2^31 are ordered the wrong
    way round: the larger identifier compares below the smaller one. *)
Theorem oid_cmp_inverted (p a b : list Z) (x y : Z)
    (Hx : is_u32 x) (Hy : is_u32 y) (Hd : x - y > 2 ^ 31) :
  oid_cmp (p ++ x :: a) (p ++ y :: b) < 0 /\ oid_lt (p ++ y :: b) (p ++ x :: a).
Proof.
  unfold is_u32 in *. split.
  - rewrite oid_cmp_app. cbn [oid_cmp]. rewrite i32_u32.
    assert (i32 (x - y) = x - y - 2 ^ 32) as E
      by (unfold i32; rewrite Z.mod_small by lia; zdec; lia).
    rewrite E. zdec; lia.
  - unfold oid_lt. rewrite oid_compare_app. cbn.
    by rewrite (proj2 (Z.compare_lt_iff y x)) by lia.
Qed.

Lemma oid_cmp_inverted_witness :
  oid_cmp [1; 3; 4294967295] [1; 3; 1] < 0 /\ oid_lt [1; 3; 1] [1; 3; 4294967295].
Proof. apply (oid_cmp_inverted [1; 3] [] [] 4294967295 1); unfold is_u32; lia. Defined.

(** [oid_cover] is 1 exactly when the first identifier is a prefix of the
    second, -1 exactly when the second is a proper prefix of the first, and 0
    otherwise, for all 32-bit sub-identifiers. *)
Theorem oid_cover_prefix (a b : list Z) (Ha : oid_ok a) (Hb : oid_ok b) :
  (oid_cover a b = 1 <-> a `prefix_of` b) /\
  (oid_cover a b = -1 <-> b `prefix_of` a /\ a <> b) /\
  (oid_cover a b = 0 <-> ~ a `prefix_of` b /\ ~ b `prefix_of` a).
Proof.
  rewrite (oid_cover_spec a b Ha Hb).
  assert (a = b -> a `prefix_of` b) by (intros ->; done).
  assert (a `prefix_of` b -> b `prefix_of` a -> a = b) by (apply anti_symm; apply _).
  repeat case_decide; intuition (congruence || auto).
Qed.

Lemma oid_cover_prefix_witness : oid_cover [1; 3; 6] [1; 3; 6; 4294967295] = 1.
Proof.
  apply (oid_cover_prefix [1; 3; 6] [1; 3; 6; 4294967295]).
  - split; [repeat constructor; lia|cbn; lia].
  - split; [repeat constructor; lia|cbn; lia].
  - by exists [4294967295].
Defined.

(** On strictly sorted sub-identifiers (followed by the unused capacity
    of the array) [oid_binary_search] terminates without leaving the array and
    returns the index of [x], or [-i-1] where [i] is the position at which [x]
    has to be inserted: everything before [i] is smaller, everything from [i]
    on is greater. *)
Theorem oid_binary_search_spec (l pad : list Z) (x : Z) (Hs : StronglySorted Z.lt l) :
  exists r, oid_binary_search (l ++ pad) (Z.of_nat (length l)) x = Some r /\
    (0 <= r -> l !! Z.to_nat r = Some x) /\
    (r < 0 -> 0 <= - r - 1 <= Z.of_nat (length l) /\
      forall i y, l !! i = Some y ->
        (Z.of_nat i < - r - 1 -> y < x) /\ (- r - 1 <= Z.of_nat i -> x < y)).
Proof.
  exists (search_index x l). split; [by apply oid_binary_search_eq|].
  unfold search_index. pose proof (lower_bound_le x l). case_decide as Hl.
  - split; [by rewrite Nat2Z.id|lia].
  - split; [lia|]. intros _. split; [lia|]. intros i y Hy. split; intros Hi.
    + apply (lower_bound_below x l i); [lia|done].
    + destruct (decide (x = y)) as [->|]; [|pose proof (lower_bound_above x l i y Hs ltac:(lia) Hy); lia].
      destruct (decide (i = lower_bound y l)) as [->|]; [done|].
      destruct (lookup_lt_is_Some_2 l (lower_bound y l)) as [z Hz];
        [apply lookup_lt_Some in Hy; lia|].
      pose proof (lower_bound_above y l _ _ Hs (le_n _) Hz).
      assert (z < y) by (eapply StronglySorted_lookup; [done|exact Hz|exact Hy|lia]). lia.
Qed.

Lemma oid_binary_search_spec_witness :
  exists r, oid_binary_search ([1; 3; 6] ++ [0; 0]) 3 5 = Some r /\ r = -3.
Proof.
  destruct (oid_binary_search_spec [1; 3; 6] [0; 0] 5) as (r & Hr & _).
  - repeat constructor; lia.
  - exists r. split; [exact Hr|]. vm_compute in Hr. congruence.
Defined.
