(* ===== verification/ListHead.v ===== *)
(** * Circular doubly linked lists ([src/core/list.h])

    The lists of bindings, views, communities and users are intrusive circular
    lists: a [struct list_head] embedded in the element, and one more as the head
    of the list.  The other files treat such a list as the sequence of its
    elements; this one justifies it.  The heap maps the address of a
    [list_head] to its contents, the operations assign the fields in the order
    of the code, and a dereference of an address that is not allocated is [None].
    [is_list h head xs] says that in [h] the list of [head] holds the elements
    [xs]; every operation implements its counterpart on sequences and leaves the
    rest of the heap alone. *)
From stdpp Require Import gmap.
From S2P Require Import Prelude.
Local Open Scope Z_scope.

Record list_head := mk_link { next : Z; prev : Z }.

Abbreviation heap := (gmap Z list_head).
Abbreviation NULL := 0.

(** ** Operations *)
Definition next_of (h : heap) (p : Z) : option Z := let* c := h !! p in Some (next c).
Definition prev_of (h : heap) (p : Z) : option Z := let* c := h !! p in Some (prev c).

(** [p->next = v] and [p->prev = v]. *)
Definition set_next (p v : Z) (h : heap) : option heap := let* c := h !! p in Some (<[p := mk_link v (prev c)]> h).
Definition set_prev (p v : Z) (h : heap) : option heap := let* c := h !! p in Some (<[p := mk_link (next c) v]> h).

(** The assignment of the right-hand side is the innermost. *)
Definition INIT_LIST_HEAD (list : Z) (h : heap) : option heap :=
  let* h := set_prev list list h in set_next list list h.

Definition list_empty (h : heap) (head : Z) : option bool := let* n := next_of h head in Some (n =? head).

Definition list_is_first (h : heap) (list head : Z) : option bool := let* p := prev_of h list in Some (p =? head).

Definition list_is_last (h : heap) (list head : Z) : option bool := let* n := next_of h list in Some (n =? head).

Definition list_del_links (entry : Z) (h : heap) : option heap :=
  let* n := next_of h entry in
  let* p := prev_of h entry in
  let* h := set_prev n p h in
  let* p := prev_of h entry in
  let* n := next_of h entry in
  set_next p n h.

Definition list_del (entry : Z) (h : heap) : option heap :=
  let* h := list_del_links entry h in
  let* h := set_prev entry NULL h in set_next entry NULL h.

Definition list_add_between (new prev next : Z) (h : heap) : option heap :=
  let* h := set_prev next new h in
  let* h := set_next new next h in
  let* h := set_prev new prev h in
  set_next prev new h.

Definition list_del_init (entry : Z) (h : heap) : option heap :=
  let* h := list_del_links entry h in INIT_LIST_HEAD entry h.

Definition list_add (new head : Z) (h : heap) : option heap :=
  let* n := next_of h head in list_add_between new head n h.

Definition list_add_tail (new head : Z) (h : heap) : option heap :=
  let* p := prev_of h head in list_add_between new p head h.

Definition list_move (list head : Z) (h : heap) : option heap :=
  let* h := list_del_links list h in list_add list head h.

Definition list_move_tail (entry head : Z) (h : heap) : option heap :=
  let* h := list_del_links entry h in list_add_tail entry head h.

Definition list_splice_between (list prev next : Z) (h : heap) : option heap :=
  let* empty := list_empty h list in
  if empty : bool then Some h else
  let* first := next_of h list in
  let* last := prev_of h list in
  let* h := set_prev first prev h in
  let* h := set_next prev first h in
  let* h := set_next last next h in
  set_prev next last h.

Definition list_splice (list head : Z) (h : heap) : option heap :=
  let* n := next_of h head in list_splice_between list head n h.

Definition list_splice_tail (list head : Z) (h : heap) : option heap :=
  let* p := prev_of h head in list_splice_between list p head h.

Definition list_splice_init (list head : Z) (h : heap) : option heap :=
  let* h := list_splice list head h in INIT_LIST_HEAD list h.

Definition list_splice_tail_init (list head : Z) (h : heap) : option heap :=
  let* h := list_splice_tail list head h in INIT_LIST_HEAD list h.

(** [list_for_each]: the elements visited from [p] on, when the body leaves the
    links alone.  The fuel bounds the number of elements. *)
Fixpoint walk (step : heap -> Z -> option Z) (fuel : nat) (h : heap) (head p : Z) : option (list Z) :=
  if p =? head then Some [] else
  match fuel with
  | O => None
  | S fuel' =>
      let* q := step h p in
      let* rest := walk step fuel' h head q in Some (p :: rest)
  end.

Definition list_for_each (h : heap) (head : Z) : option (list Z) :=
  let* p := next_of h head in walk next_of (size h) h head p.

Definition list_for_each_prev (h : heap) (head : Z) : option (list Z) :=
  let* p := prev_of h head in walk prev_of (size h) h head p.

(** [list_for_each_safe], whose body deletes the element and frees it: the
    successor is read before the body runs. *)
Fixpoint free_loop (fuel : nat) (head p n : Z) (h : heap) : option heap :=
  if p =? head then Some h else
  match fuel with
  | O => None
  | S fuel' =>
      let* h := list_del p h in
      let h := delete p h in
      let* n' := next_of h n in free_loop fuel' head n n' h
  end.

Definition vb_list_free (head : Z) (h : heap) : option heap :=
  let* p := next_of h head in
  let* n := next_of h p in free_loop (size h) head p n h.

(** ** Lists in the heap *)

(** Each element of the path points to the next one and back. *)
Fixpoint path (h : heap) (l : list Z) : Prop :=
  match l with
  | [] => True
  | a :: l' =>
      match l' with [] => True | b :: _ => next_of h a = Some b /\ prev_of h b = Some a end /\ path h l'
  end.

Definition is_list (h : heap) (head : Z) (xs : list Z) : Prop :=
  NoDup (head :: xs) /\ path h (head :: xs ++ [head]).

Section Paths.
Implicit Types (h : heap) (l : list Z) (a b : Z).

Lemma path_cons h a b l : path h (a :: b :: l) <-> next_of h a = Some b /\ prev_of h b = Some a /\ path h (b :: l).
Proof. cbn [path]. tauto. Qed.

Lemma path_app h l1 a l2 : path h (l1 ++ a :: l2) <-> path h (l1 ++ [a]) /\ path h (a :: l2).
Proof.
  induction l1 as [|x l1 IH]; [cbn; tauto|]. destruct l1 as [|y l1].
  - cbn [app]. rewrite !path_cons. cbn. tauto.
  - cbn [app] in *. rewrite !path_cons, IH. tauto.
Qed.

(** [h'] differs from [h] at most in the [next] of [N] and the [prev] of [P]. *)
Record frame h h' (N P : list Z) : Prop := {
  fr_next x : x ∉ N -> next_of h' x = next_of h x;
  fr_prev x : x ∉ P -> prev_of h' x = prev_of h x;
  fr_alloc x : is_Some (h' !! x) <-> is_Some (h !! x);
}.

Lemma frame_trans h1 h2 h3 N1 P1 N2 P2 :
  frame h1 h2 N1 P1 -> frame h2 h3 N2 P2 -> frame h1 h3 (N1 ++ N2) (P1 ++ P2).
Proof.
  intros [F1 G1 A1] [F2 G2 A2]. split; intros x.
  - intros [??]%not_elem_of_app. by rewrite F2, F1.
  - intros [??]%not_elem_of_app. by rewrite G2, G1.
  - by rewrite A2.
Qed.

(** A path depends on the [next] of its elements but the last and on the [prev]
    of its elements but the first. *)
Lemma path_frame h h' N P l :
  path h l -> frame h h' N P -> (forall x, x ∈ removelast l -> x ∉ N) -> (forall x, x ∈ tail l -> x ∉ P) -> path h' l.
Proof.
  intros Hp F. induction l as [|a [|b l] IH]; [done..|]. apply path_cons in Hp as (E1 & E2 & Hp). intros HN HP.
  apply path_cons. rewrite (fr_next _ _ _ _ F), (fr_prev _ _ _ _ F).
  - split_and!; [done..|]. apply IH; [done| |].
    + intros x Hx. apply HN. by right.
    + intros x Hx. apply HP. by right.
  - apply HP. by left.
  - apply HN. by left.
Qed.

(** *** The assignments *)
Lemma set_next_ok h p v : is_Some (h !! p) ->
  exists h', set_next p v h = Some h' /\ frame h h' [p] [] /\ next_of h' p = Some v.
Proof.
  intros [c Hc]. unfold set_next. rewrite Hc. eexists. split; [reflexivity|].
  split; [split; intros x; unfold next_of, prev_of|unfold next_of, prev_of; by rewrite lookup_insert_eq].
  - intros Hx. by rewrite lookup_insert_ne by set_solver.
  - intros _. destruct (decide (p = x)) as [<-|]; [by rewrite lookup_insert_eq, Hc|by rewrite lookup_insert_ne].
  - destruct (decide (p = x)) as [<-|]; [rewrite lookup_insert_eq, Hc; by split; eauto|by rewrite lookup_insert_ne].
Qed.

Lemma set_prev_ok h p v : is_Some (h !! p) ->
  exists h', set_prev p v h = Some h' /\ frame h h' [] [p] /\ prev_of h' p = Some v.
Proof.
  intros [c Hc]. unfold set_prev. rewrite Hc. eexists. split; [reflexivity|].
  split; [split; intros x; unfold next_of, prev_of|unfold next_of, prev_of; by rewrite lookup_insert_eq].
  - intros _. destruct (decide (p = x)) as [<-|]; [by rewrite lookup_insert_eq, Hc|by rewrite lookup_insert_ne].
  - intros Hx. by rewrite lookup_insert_ne by set_solver.
  - destruct (decide (p = x)) as [<-|]; [rewrite lookup_insert_eq, Hc; by split; eauto|by rewrite lookup_insert_ne].
Qed.

Lemma next_alloc h p q : next_of h p = Some q -> is_Some (h !! p).
Proof. unfold next_of. destruct (h !! p); [eauto|done]. Qed.

Lemma prev_alloc h p q : prev_of h p = Some q -> is_Some (h !! p).
Proof. unfold prev_of. destruct (h !! p); [eauto|done]. Qed.

(** *** Cutting a list in two *)
Record cut h head (l1 l2 : list Z) (A : list Z) (p n : Z) (B : list Z) : Prop := {
  cut_front : head :: l1 = A ++ [p];
  cut_back : l2 ++ [head] = n :: B;
  cut_dup : NoDup (head :: l1 ++ l2);
  cut_path1 : path h (A ++ [p]);
  cut_path2 : path h (n :: B);
  cut_next : next_of h p = Some n;
  cut_prev : prev_of h n = Some p;
}.

Lemma list_cut h head l1 l2 : is_list h head (l1 ++ l2) -> exists A p n B, cut h head l1 l2 A p n B.
Proof.
  intros [Hd Hp]. destruct (exists_last (l := head :: l1)) as (A & p & EA); [done|].
  destruct (l2 ++ [head]) as [|n B] eqn:EB; [by destruct l2|]. exists A, p, n, B.
  rewrite <- app_assoc, EB, (app_comm_cons l1 _ head), EA, <- app_assoc in Hp. cbn [app] in Hp.
  apply path_app in Hp as [H1 (H2 & H3 & H4)%path_cons]. by split.
Qed.

Lemma cut_list h head l1 l2 A p n B : cut h head l1 l2 A p n B -> is_list h head (l1 ++ l2).
Proof.
  intros []. split; [done|]. rewrite <- app_assoc, cut_back0, (app_comm_cons l1 _ head), cut_front0, <- app_assoc.
  apply path_app. split; [done|]. by apply path_cons.
Qed.

Lemma frame_lookup h h' N P x : frame h h' N P -> x ∉ N -> x ∉ P -> h' !! x = h !! x.
Proof.
  intros [Hn Hp Ha] H1 H2. specialize (Hn x H1). specialize (Hp x H2). specialize (Ha x).
  unfold next_of, prev_of in *. destruct (h !! x) as [[]|], (h' !! x) as [[]|]; naive_solver.
Qed.

(** A list is untouched by changes elsewhere. *)
Lemma is_list_frame h h' head xs :
  is_list h head xs -> (forall x, x ∈ head :: xs -> h' !! x = h !! x) -> is_list h' head xs.
Proof.
  intros [Hd Hp] He. split; [done|].
  assert (forall x, x ∈ head :: xs ++ [head] -> h' !! x = h !! x) as He' by (intros x Hx; apply He; set_solver).
  clear He Hd. revert Hp He'. generalize (head :: xs ++ [head]). intros l.
  induction l as [|a [|b l] IH]; [done..|]. rewrite !path_cons. intros (E1 & E2 & Hp) He.
  unfold next_of, prev_of in *. rewrite !He by set_solver. split_and!; [done..|]. apply IH; set_solver.
Qed.

(** The two parts of a cut only depend on themselves. *)
Lemma cut_frame1 h h' head l1 l2 A p n B N P :
  cut h head l1 l2 A p n B -> frame h h' N P -> N ## A -> P ## l1 -> path h' (A ++ [p]).
Proof.
  intros [] F HN HP. eapply path_frame; [done..| |].
  - rewrite removelast_last. intros x Hx Hn. by apply (HN x).
  - rewrite <- cut_front0. intros x Hx Hn. by apply (HP x).
Qed.

Lemma cut_frame2 h h' head l1 l2 A p n B N P :
  cut h head l1 l2 A p n B -> frame h h' N P -> N ## l2 -> P ## B -> path h' (n :: B).
Proof.
  intros [] F HN HP. eapply path_frame; [done..| |].
  - rewrite <- cut_back0, removelast_last. intros x Hx Hn. by apply (HN x).
  - intros x Hx Hn. by apply (HP x).
Qed.

(** Where the ends of the parts are. *)
Lemma cut_ends h head l1 l2 A p n B : cut h head l1 l2 A p n B ->
  (p ∈ head :: l1) /\ (n ∈ l2 ++ [head]) /\ (p ∉ A) /\ (p ∉ l2) /\ (n ∉ l1) /\ (n ∉ B).
Proof.
  intros []. assert (p ∈ head :: l1) by (rewrite cut_front0; set_solver).
  assert (n ∈ l2 ++ [head]) by (rewrite cut_back0; set_solver).
  assert (NoDup (A ++ [p])) as D1.
  { rewrite <- cut_front0. rewrite app_comm_cons in cut_dup0. by apply NoDup_app in cut_dup0 as [? _]. }
  assert (NoDup (n :: B)) as D2.
  { rewrite <- cut_back0. rewrite (Permutation_app_comm l2 [head]). cbn [app].
    apply NoDup_cons in cut_dup0 as [[_ H1]%not_elem_of_app (_ & _ & H2)%NoDup_app]. by constructor. }
  apply NoDup_app in D1 as (_ & D1 & _). apply NoDup_cons in D2 as [D2 _].
  apply NoDup_cons in cut_dup0 as [D3 D4]. apply NoDup_app in D4 as (_ & D4 & _).
  split_and!; try done; [|set_solver..].
  intros Hp. apply (D1 p Hp). set_solver.
Qed.

Lemma cut_sub h head l1 l2 A p n B x : cut h head l1 l2 A p n B -> x ∉ head :: l1 ++ l2 ->
  (x ∉ A) /\ (x ∉ B) /\ x <> p /\ x <> n.
Proof.
  intros [E1 E2 _ _ _ _ _] Hx.
  assert (x ∉ A ++ [p]) as [??]%not_elem_of_app by (rewrite <- E1; set_solver).
  assert (x ∉ n :: B) as [??]%not_elem_of_cons by (rewrite <- E2; set_solver). set_solver.
Qed.
End Paths.

(** ** The operations on sequences *)
Section Specs.
Implicit Types (h : heap) (head x : Z).

Lemma nodup_mid head l1 x l2 : NoDup (head :: l1 ++ x :: l2) <-> (x ∉ head :: l1 ++ l2) /\ NoDup (head :: l1 ++ l2).
Proof. rewrite <- NoDup_cons, (app_comm_cons l1 (x :: l2)). by rewrite <- Permutation_middle. Qed.

Lemma nodup_insert head l1 ys l2 :
  NoDup ys -> ys ## (head :: l1 ++ l2) -> NoDup (head :: l1 ++ l2) -> NoDup (head :: l1 ++ ys ++ l2).
Proof.
  intros H1 H2 H3. rewrite (Permutation_app_swap_app l1), !app_comm_cons.
  change (NoDup ([head] ++ ys ++ l1 ++ l2)). rewrite Permutation_app_swap_app.
  apply NoDup_app. split_and!; [done| |done]. intros x Hx Hx'. by apply (H2 x).
Qed.

Lemma list_del_links_spec h head l1 x l2 :
  is_list h head (l1 ++ x :: l2) ->
  exists h', list_del_links x h = Some h' /\ is_list h' head (l1 ++ l2) /\
    forall y, y ∉ head :: l1 ++ l2 -> h' !! y = h !! y.
Proof.
  intros Hl. pose proof Hl as Hl2. destruct (list_cut _ _ _ _ Hl) as (A & p & n & B & C1).
  rewrite (app_assoc l1 [x] l2 : l1 ++ x :: l2 = _) in Hl2.
  destruct (list_cut _ _ _ _ Hl2) as (A2 & p2 & n2 & B2 & C2).
  pose proof (cut_ends _ _ _ _ _ _ _ _ C1) as (Ep & _ & Ep1 & Ep2 & _).
  pose proof (cut_ends _ _ _ _ _ _ _ _ C2) as (_ & En & _ & _ & En1 & En2).
  pose proof (cut_back _ _ _ _ _ _ _ _ C1) as EB. cbn in EB. injection EB as <- <-.
  pose proof (cut_front _ _ _ _ _ _ _ _ C2) as EA. rewrite app_comm_cons in EA. apply app_inj_tail in EA as [<- <-].
  pose proof (cut_dup _ _ _ _ _ _ _ _ C1) as Hd.
  destruct (set_prev_ok h n2 p) as (h1 & E1 & F1 & P1); [by eapply prev_alloc, cut_prev|].
  destruct (set_next_ok h1 p n2) as (h2 & E2 & F2 & N2).
  { apply (fr_alloc _ _ _ _ F1). by eapply next_alloc, cut_next. }
  exists h2. pose proof (frame_trans _ _ _ _ _ _ _ F1 F2) as F. cbn [app] in F.
  split_and!.
  - unfold list_del_links. rewrite (cut_next _ _ _ _ _ _ _ _ C2), (cut_prev _ _ _ _ _ _ _ _ C1), E1.
    rewrite (fr_prev _ _ _ _ F1), (fr_next _ _ _ _ F1) by set_solver.
    by rewrite (cut_next _ _ _ _ _ _ _ _ C2), (cut_prev _ _ _ _ _ _ _ _ C1).
  - apply (cut_list _ _ _ _ A p n2 B2). split; [by eapply cut_front|by eapply cut_back| | | |done|].
    + by apply nodup_mid in Hd as [_ Hd].
    + by apply (cut_frame1 _ _ _ _ _ _ _ _ _ _ _ C1 F); set_solver.
    + by apply (cut_frame2 _ _ _ _ _ _ _ _ _ _ _ C2 F); set_solver.
    + by rewrite (fr_prev _ _ _ _ F2) by set_solver.
  - intros y Hy. apply (frame_lookup _ _ _ _ _ F); set_solver.
Qed.

(** A segment linked in between the parts of a cut. *)
Lemma cut_insert h h' head l1 l2 A p n B M y ys z N P :
  cut h head l1 l2 A p n B -> y :: ys = M ++ [z] -> path h (y :: ys) -> NoDup (y :: ys) -> frame h h' N P ->
  (y :: ys) ## (head :: l1 ++ l2) -> N ⊆ [p; z] -> P ⊆ [y; n] ->
  next_of h' p = Some y -> prev_of h' y = Some p -> next_of h' z = Some n -> prev_of h' n = Some z ->
  is_list h' head (l1 ++ (y :: ys) ++ l2) /\ forall x, x ∉ head :: l1 ++ l2 ++ y :: ys -> h' !! x = h !! x.
Proof.
  intros C EM Hp Hd F Hdis HN HP V1 V2 V3 V4.
  pose proof (cut_ends _ _ _ _ _ _ _ _ C) as (Ep & En & Ep1 & Ep2 & En1 & En2).
  assert (NoDup (M ++ [z])) as HdM by (by rewrite <- EM). apply NoDup_app in HdM as (_ & HzM & _).
  assert (z ∈ y :: ys) as Hz by (rewrite EM; set_solver).
  assert (forall m, m ∈ M -> m ∈ y :: ys) as HM by (intros m Hm; rewrite EM; set_solver).
  assert (forall m, m ∈ y :: ys -> m ∉ head :: l1 ++ l2) as Hm by (intros m Hm Hm'; by apply (Hdis m)).
  destruct (cut_sub _ _ _ _ _ _ _ _ y C (Hm y ltac:(set_solver))) as (HyA & HyB & Nyp & Nyn).
  destruct (cut_sub _ _ _ _ _ _ _ _ z C (Hm z Hz)) as (HzA & HzB & Nzp & Nzn).
  assert (forall x, x ∈ N -> x = p \/ x = z) as HNx by (intros x Hx%HN; set_solver).
  assert (forall x, x ∈ P -> x = y \/ x = n) as HPx by (intros x Hx%HP; set_solver). clear HN HP.
  split; [|intros x Hx; apply (frame_lookup _ _ _ _ _ F); intros Hn; apply Hx; clear Hdis Hm HM;
           [destruct (HNx x Hn) as [-> | ->]|destruct (HPx x Hn) as [-> | ->]]; set_solver].
  split; [by apply (nodup_insert head l1 (y :: ys) l2), C|].
  rewrite <- !app_assoc. rewrite (app_comm_cons l1 _ head), (cut_front _ _ _ _ _ _ _ _ C), <- app_assoc.
  assert (y ∉ l1 /\ z ∉ l2) as [Hy1 Hz2] by (pose proof (Hm y ltac:(set_solver)); pose proof (Hm z Hz); set_solver).
  apply path_app. split.
  { apply (cut_frame1 _ _ _ _ _ _ _ _ _ _ _ C F); intros x Hx ?;
      [destruct (HNx x Hx) as [-> | ->]|destruct (HPx x Hx) as [-> | ->]]; done. }
  cbn [app]. apply path_cons. split_and!; [done..|]. rewrite app_comm_cons, EM, <- app_assoc.
  apply path_app. rewrite (cut_back _ _ _ _ _ _ _ _ C). split.
  - rewrite <- EM. apply (path_frame h _ N P); [done..| |].
    + rewrite EM, removelast_last. intros x Hx Hn. destruct (HNx x Hn) as [-> | ->]; [|by apply (HzM z Hx); left].
      apply (Hm p (HM p Hx)). clear - Ep. set_solver.
    + cbn [tail]. apply NoDup_cons in Hd as [Hd _]. intros x Hx Hn. destruct (HPx x Hn) as [-> | ->]; [done|].
      apply (Hm n); clear - Hx En; set_solver.
  - cbn [app]. apply path_cons. split_and!; [done..|].
    apply (cut_frame2 _ _ _ _ _ _ _ _ _ _ _ C F); intros x Hx ?;
      [destruct (HNx x Hx) as [-> | ->]|destruct (HPx x Hx) as [-> | ->]]; done.
Qed.

(** Adding between two neighbours. *)
Lemma list_add_between_spec h head l1 l2 A p n B x :
  cut h head l1 l2 A p n B -> x ∉ head :: l1 ++ l2 -> is_Some (h !! x) ->
  exists h', list_add_between x p n h = Some h' /\ is_list h' head (l1 ++ x :: l2) /\
    forall y, y ∉ x :: head :: l1 ++ l2 -> h' !! y = h !! y.
Proof.
  intros C Hx Hal. pose proof (cut_ends _ _ _ _ _ _ _ _ C) as (Ep & En & Ep1 & Ep2 & En1 & En2).
  pose proof (cut_dup _ _ _ _ _ _ _ _ C) as Hd.
  destruct (set_prev_ok h n x) as (h1 & E1 & F1 & V1); [by eapply prev_alloc, cut_prev|].
  destruct (set_next_ok h1 x n) as (h2 & E2 & F2 & V2); [by apply (fr_alloc _ _ _ _ F1)|].
  pose proof (frame_trans _ _ _ _ _ _ _ F1 F2) as F12.
  destruct (set_prev_ok h2 x p) as (h3 & E3 & F3 & V3); [by apply (fr_alloc _ _ _ _ F12)|].
  pose proof (frame_trans _ _ _ _ _ _ _ F12 F3) as F13.
  destruct (set_next_ok h3 p x) as (h4 & E4 & F4 & V4).
  { apply (fr_alloc _ _ _ _ F13). by eapply next_alloc, cut_next. }
  pose proof (frame_trans _ _ _ _ _ _ _ F13 F4) as F. cbn [app] in F.
  destruct (cut_sub _ _ _ _ _ _ _ _ x C Hx) as (_ & _ & Np & Nn).
  exists h4. unfold list_add_between. rewrite E1, E2, E3. split; [done|].
  destruct (cut_insert h h4 head l1 l2 A p n B [] x [] x _ _ C eq_refl (conj I I) (NoDup_singleton x) F) as [L R]; try done.
  - intros y Hy. by rewrite list_elem_of_singleton in Hy; subst.
  - set_solver.
  - set_solver.
  - by rewrite (fr_prev _ _ _ _ F4) by set_solver.
  - by rewrite (fr_next _ _ _ _ F4), (fr_next _ _ _ _ F3) by set_solver.
  - by rewrite (fr_prev _ _ _ _ F4), (fr_prev _ _ _ _ F3), (fr_prev _ _ _ _ F2) by set_solver.
  - split; [done|]. intros y Hy. apply R. set_solver.
Qed.

(** *** The ends of a list *)
Lemma is_list_next h head x l : is_list h head (x :: l) -> next_of h head = Some x.
Proof. intros [_ Hp]. by apply path_cons in Hp as (? & _). Qed.

Lemma is_list_nil h head : is_list h head [] <-> next_of h head = Some head /\ prev_of h head = Some head.
Proof.
  unfold is_list. cbn [app]. rewrite path_cons. split; [tauto|]. intros [??]. split; [|by split].
  apply NoDup_singleton.
Qed.

Lemma is_list_alloc h head xs x : is_list h head xs -> x ∈ head :: xs -> is_Some (h !! x).
Proof.
  intros [_ Hp] Hx. assert (x ∈ removelast (head :: xs ++ [head])) as Hx'.
  { by rewrite app_comm_cons, removelast_last. }
  revert Hp Hx'. generalize (head :: xs ++ [head]). intros l. induction l as [|a [|b l] IH]; [set_solver..|].
  rewrite path_cons. intros (E & _ & Hp) [->|Hx']%elem_of_cons; [by eapply next_alloc|by apply IH].
Qed.

Lemma is_list_first h head xs : is_list h head xs ->
  exists n B, xs ++ [head] = n :: B /\ next_of h head = Some n.
Proof.
  intros H. destruct (list_cut h head [] xs H) as (A & p & n & B & []). exists n, B. split; [done|].
  destruct A as [|? [|]]; cbn in cut_front0; by simplify_eq.
Qed.

Lemma is_list_size h head xs : is_list h head xs -> (length xs <= size h)%nat.
Proof.
  intros H. assert (NoDup xs) as Hd by (destruct H as [H _]; by apply NoDup_cons in H as [_ H]).
  rewrite <- size_dom, <- (size_list_to_set (C := gset Z) xs) by done. apply subseteq_size.
  intros x Hx%elem_of_list_to_set. apply elem_of_dom. apply (is_list_alloc h head xs); [done|by right].
Qed.

(** *** Initialisation and deletion *)
Lemma init_spec h head : is_Some (h !! head) ->
  exists h', INIT_LIST_HEAD head h = Some h' /\ is_list h' head [] /\ forall y, y <> head -> h' !! y = h !! y.
Proof.
  intros Ha. destruct (set_prev_ok h head head Ha) as (h1 & E1 & F1 & V1).
  destruct (set_next_ok h1 head head) as (h2 & E2 & F2 & V2); [by apply (fr_alloc _ _ _ _ F1)|].
  exists h2. unfold INIT_LIST_HEAD. rewrite E1. split; [done|]. split.
  - apply is_list_nil. split; [done|]. by rewrite (fr_prev _ _ _ _ F2) by set_solver.
  - intros y Hy. by apply (frame_lookup _ _ _ _ _ (frame_trans _ _ _ _ _ _ _ F1 F2)); set_solver.
Qed.

Lemma list_del_spec h head l1 x l2 :
  is_list h head (l1 ++ x :: l2) ->
  exists h', list_del x h = Some h' /\ is_list h' head (l1 ++ l2) /\ h' !! x = Some (mk_link NULL NULL) /\
    forall y, y ∉ x :: head :: l1 ++ l2 -> h' !! y = h !! y.
Proof.
  intros H. pose proof H as [Hd _]. apply nodup_mid in Hd as [Hx _].
  destruct (list_del_links_spec h head l1 x l2 H) as (h1 & E1 & L1 & R1).
  assert (is_Some (h1 !! x)) as [c Hc].
  { rewrite R1 by done. apply (is_list_alloc h head (l1 ++ x :: l2)); set_solver. }
  unfold list_del, set_prev, set_next. rewrite E1, Hc, lookup_insert_eq, insert_insert_eq. eexists.
  split; [reflexivity|]. split_and!.
  - apply (is_list_frame h1); [done|]. intros y Hy. by rewrite lookup_insert_ne by set_solver.
  - by rewrite lookup_insert_eq.
  - intros y Hy. rewrite lookup_insert_ne by set_solver. apply R1. set_solver.
Qed.

(** *** Insertion *)
Lemma list_add_spec h head xs x :
  is_list h head xs -> x ∉ head :: xs -> is_Some (h !! x) ->
  exists h', list_add x head h = Some h' /\ is_list h' head (x :: xs) /\
    forall y, y ∉ x :: head :: xs -> h' !! y = h !! y.
Proof.
  intros H Hx Ha. destruct (list_cut h head [] xs H) as (A & p & n & B & C).
  assert (p = head) as -> by (pose proof (cut_front _ _ _ _ _ _ _ _ C); destruct A as [|? [|]]; by simplify_eq/=).
  destruct (list_add_between_spec h head [] xs A head n B x C Hx Ha) as (h' & E & L & R).
  exists h'. unfold list_add. by rewrite (cut_next _ _ _ _ _ _ _ _ C).
Qed.

Lemma list_add_tail_spec h head xs x :
  is_list h head xs -> x ∉ head :: xs -> is_Some (h !! x) ->
  exists h', list_add_tail x head h = Some h' /\ is_list h' head (xs ++ [x]) /\
    forall y, y ∉ x :: head :: xs -> h' !! y = h !! y.
Proof.
  intros H Hx Ha. rewrite <- (app_nil_r xs) in H, Hx. destruct (list_cut h head xs [] H) as (A & p & n & B & C).
  assert (n = head) as -> by (pose proof (cut_back _ _ _ _ _ _ _ _ C); by simplify_eq/=).
  destruct (list_add_between_spec h head xs [] A p head B x C Hx Ha) as (h' & E & L & R).
  exists h'. unfold list_add_tail. rewrite (cut_prev _ _ _ _ _ _ _ _ C). rewrite app_nil_r in R. done.
Qed.

(** *** Traversal *)
Lemma walk_next_spec h head l : forall fuel p B,
  head ∉ l -> path h (l ++ [head]) -> l ++ [head] = p :: B -> (length l <= fuel)%nat ->
  walk next_of fuel h head p = Some l.
Proof.
  induction l as [|a l IH]; intros fuel p B Hh Hp Ep Hf; injection Ep as <- <-.
  { destruct fuel; cbn [walk]; by rewrite Z.eqb_refl. }
  apply not_elem_of_cons in Hh as [Ha Hh]. cbn [length] in Hf. destruct fuel as [|fuel]; [lia|].
  cbn [walk]. rewrite (proj2 (Z.eqb_neq _ _)) by done.
  destruct (l ++ [head]) as [|b B'] eqn:E; [by destruct l|].
  cbn [app] in Hp. rewrite E in Hp. apply path_cons in Hp as (-> & _ & Hp).
  rewrite (IH fuel b B') by (done || lia). done.
Qed.

Lemma walk_prev_spec h head l : forall fuel p A,
  head ∉ l -> path h (head :: l) -> head :: l = A ++ [p] -> (length l <= fuel)%nat ->
  walk prev_of fuel h head p = Some (rev l).
Proof.
  induction l as [|a l IH] using rev_ind; intros fuel p A Hh Hp Ep Hf.
  { assert (p = head) as -> by (destruct A as [|? [|]]; by simplify_eq/=).
    destruct fuel; cbn [walk]; by rewrite Z.eqb_refl. }
  rewrite app_comm_cons in Ep. apply app_inj_tail in Ep as [<- <-]. rewrite length_app in Hf. cbn [length] in Hf.
  destruct fuel as [|fuel]; [lia|]. apply not_elem_of_app in Hh as [Hh Ha%not_elem_of_cons].
  cbn [walk]. rewrite (proj2 (Z.eqb_neq _ _)) by (intros ->; tauto).
  destruct (exists_last (l := head :: l)) as (A' & q & E); [done|].
  rewrite app_comm_cons, E, <- app_assoc in Hp. apply path_app in Hp as [Hp (_ & -> & _)%path_cons].
  rewrite (IH fuel q A') by (done || lia || congruence). by rewrite rev_app_distr.
Qed.

Lemma for_each_spec h head xs : is_list h head xs ->
  list_for_each h head = Some xs /\ list_for_each_prev h head = Some (rev xs).
Proof.
  intros H. pose proof (is_list_size h head xs H) as Hs. pose proof H as [[Hh _]%NoDup_cons Hp]. split.
  - destruct (is_list_first h head xs H) as (n & B & E & En). unfold list_for_each. rewrite En.
    apply (walk_next_spec h head xs (size h) n B); try done. rewrite E in Hp |- *.
    by apply path_cons in Hp as (_ & _ & Hp).
  - assert (is_list h head (xs ++ [])) as H' by (by rewrite app_nil_r).
    destruct (list_cut h head xs [] H') as (A & p & n & B & C).
    assert (n = head) as -> by (pose proof (cut_back _ _ _ _ _ _ _ _ C); by simplify_eq/=).
    unfold list_for_each_prev. rewrite (cut_prev _ _ _ _ _ _ _ _ C).
    pose proof (cut_front _ _ _ _ _ _ _ _ C) as E.
    apply (walk_prev_spec h head xs (size h) p A); try done. rewrite E. by eapply cut_path1.
Qed.

(** *** Releasing a list *)
Lemma free_loop_spec head xs : forall fuel h p n B,
  is_list h head xs -> xs ++ [head] = p :: B -> next_of h p = Some n -> (length xs <= fuel)%nat ->
  exists h', free_loop fuel head p n h = Some h' /\ is_list h' head [] /\ (forall x, x ∈ xs -> h' !! x = None) /\
    forall y, y ∉ head :: xs -> h' !! y = h !! y.
Proof.
  induction xs as [|x xs IH]; intros fuel h p n B H Ep En Hf; cbn [app] in Ep; injection Ep as <- <-.
  { exists h. split; [destruct fuel; cbn [free_loop]; by rewrite Z.eqb_refl|]. set_solver. }
  pose proof H as [Hd Hp]. apply NoDup_cons in Hd as [Hh Hd]. apply NoDup_cons in Hd as [Hx _].
  cbn [length] in Hf. destruct fuel as [|fuel]; [lia|]. cbn [free_loop].
  rewrite (proj2 (Z.eqb_neq _ _)) by set_solver.
  destruct (list_del_spec h head [] x xs H) as (h1 & E1 & L1 & _ & R1). rewrite E1. cbn [app] in *.
  assert (is_list (delete x h1) head xs) as L2.
  { apply (is_list_frame h1); [done|]. intros y Hy. rewrite lookup_delete_ne; [done|]. set_solver. }
  destruct (xs ++ [head]) as [|q B'] eqn:E; [by destruct xs|].
  apply path_cons in Hp as (_ & _ & Hp). apply path_cons in Hp as (En' & _ & _).
  assert (n = q) as -> by congruence.
  assert (is_Some (delete x h1 !! q)) as [c Hc].
  { apply (is_list_alloc _ head xs); [done|]. assert (q ∈ xs ++ [head]) by (rewrite E; set_solver). set_solver. }
  assert (next_of (delete x h1) q = Some (next c)) as Eq by (unfold next_of; by rewrite Hc). rewrite Eq.
  destruct (IH fuel _ q (next c) B' L2 eq_refl Eq ltac:(lia)) as (h' & E' & L' & F' & R'). exists h'. split; [done|].
  split; [done|]. split.
  - intros y [->|Hy]%elem_of_cons; [|by apply F']. rewrite R' by set_solver. apply lookup_delete_eq.
  - intros y Hy. rewrite R' by set_solver. rewrite lookup_delete_ne by set_solver. apply R1. set_solver.
Qed.

Lemma vb_list_free_spec h head xs : is_list h head xs ->
  exists h', vb_list_free head h = Some h' /\ is_list h' head [] /\ (forall x, x ∈ xs -> h' !! x = None) /\
    forall y, y ∉ head :: xs -> h' !! y = h !! y.
Proof.
  intros H. destruct (is_list_first h head xs H) as (p & B & E & Ep).
  assert (is_Some (h !! p)) as [c Hc].
  { apply (is_list_alloc _ head xs); [done|]. assert (p ∈ xs ++ [head]) by (rewrite E; set_solver). set_solver. }
  assert (next_of h p = Some (next c)) as En by (unfold next_of; by rewrite Hc).
  unfold vb_list_free. rewrite Ep, En. apply (free_loop_spec head xs _ h p (next c) B); try done.
  by apply (is_list_size h head).
Qed.

(** *** Splicing *)
Lemma list_splice_between_spec h head l1 l2 A p n B list ys :
  cut h head l1 l2 A p n B -> is_list h list ys -> (list :: ys) ## (head :: l1 ++ l2) ->
  exists h', list_splice_between list p n h = Some h' /\ is_list h' head (l1 ++ ys ++ l2) /\
    forall y, y ∉ head :: l1 ++ l2 ++ ys -> h' !! y = h !! y.
Proof.
  intros C Hl Hdis. unfold list_splice_between, list_empty.
  destruct (is_list_first h list ys Hl) as (first & B0 & E0 & En). rewrite En.
  destruct ys as [|y ys].
  { cbn [app] in *. injection E0 as <- _. rewrite Z.eqb_refl. exists h. split; [done|]. split; [|done].
    by eapply cut_list. }
  cbn [app] in E0. injection E0 as <- _. pose proof Hl as [Hdy Hpy]. apply NoDup_cons in Hdy as [Hly Hdy].
  rewrite (proj2 (Z.eqb_neq y list)) by set_solver.
  destruct (exists_last (l := y :: ys)) as (M & z & EM); [done|].
  rewrite EM, <- app_assoc in Hpy. cbn [app] in Hpy. rewrite app_comm_cons in Hpy.
  apply path_app in Hpy as [Hpy (_ & -> & _)%path_cons].
  assert (path h (y :: ys)) as Hpath.
  { destruct M as [|m M]; cbn [app] in Hpy, EM; [by rewrite EM|]. rewrite EM. by apply path_cons in Hpy as (_ & _ & ?). }
  assert (z ∈ y :: ys) as Hz by (rewrite EM; set_solver).
  assert (forall m, m ∈ y :: ys -> m ∉ head :: l1 ++ l2) as Hm by (intros m Hm Hm'; apply (Hdis m); set_solver).
  destruct (cut_sub _ _ _ _ _ _ _ _ y C (Hm y ltac:(set_solver))) as (_ & _ & Nyp & Nyn).
  destruct (cut_sub _ _ _ _ _ _ _ _ z C (Hm z Hz)) as (_ & _ & Nzp & Nzn).
  destruct (set_prev_ok h y p) as (h1 & E1 & F1 & V1); [apply (is_list_alloc h list (y :: ys)); set_solver|].
  destruct (set_next_ok h1 p y) as (h2 & E2 & F2 & V2).
  { apply (fr_alloc _ _ _ _ F1). by eapply next_alloc, cut_next. }
  pose proof (frame_trans _ _ _ _ _ _ _ F1 F2) as F12.
  destruct (set_next_ok h2 z n) as (h3 & E3 & F3 & V3).
  { apply (fr_alloc _ _ _ _ F12). apply (is_list_alloc h list (y :: ys)); set_solver. }
  pose proof (frame_trans _ _ _ _ _ _ _ F12 F3) as F13.
  destruct (set_prev_ok h3 n z) as (h4 & E4 & F4 & V4).
  { apply (fr_alloc _ _ _ _ F13). by eapply prev_alloc, cut_prev. }
  pose proof (frame_trans _ _ _ _ _ _ _ F13 F4) as F. cbn [app] in F.
  exists h4. rewrite E1, E2, E3. split; [done|].
  apply (cut_insert h h4 head l1 l2 A p n B M y ys z _ _ C EM Hpath Hdy F); [|set_solver..| | | |].
  - intros m Hm1 Hm2. by apply (Hm m).
  - by rewrite (fr_next _ _ _ _ F4), (fr_next _ _ _ _ F3) by set_solver.
  - by rewrite (fr_prev _ _ _ _ F4), (fr_prev _ _ _ _ F3), (fr_prev _ _ _ _ F2) by set_solver.
  - by rewrite (fr_next _ _ _ _ F4) by set_solver.
  - done.
Qed.

Lemma list_splice_spec h list ys head xs :
  is_list h list ys -> is_list h head xs -> (list :: ys) ## (head :: xs) ->
  exists h', list_splice list head h = Some h' /\ is_list h' head (ys ++ xs) /\
    forall y, y ∉ head :: xs ++ ys -> h' !! y = h !! y.
Proof.
  intros Hl H Hd. destruct (list_cut h head [] xs H) as (A & p & n & B & C).
  assert (p = head) as -> by (pose proof (cut_front _ _ _ _ _ _ _ _ C); destruct A as [|? [|]]; by simplify_eq/=).
  destruct (list_splice_between_spec h head [] xs A head n B list ys C Hl Hd) as (h' & E & L & U).
  exists h'. unfold list_splice. by rewrite (cut_next _ _ _ _ _ _ _ _ C).
Qed.

Lemma list_splice_tail_spec h list ys head xs :
  is_list h list ys -> is_list h head xs -> (list :: ys) ## (head :: xs) ->
  exists h', list_splice_tail list head h = Some h' /\ is_list h' head (xs ++ ys) /\
    forall y, y ∉ head :: xs ++ ys -> h' !! y = h !! y.
Proof.
  intros Hl H Hd. rewrite <- (app_nil_r xs) in H, Hd. destruct (list_cut h head xs [] H) as (A & p & n & B & C).
  assert (n = head) as -> by (pose proof (cut_back _ _ _ _ _ _ _ _ C); by simplify_eq/=).
  destruct (list_splice_between_spec h head xs [] A p head B list ys C Hl Hd) as (h' & E & L & U).
  exists h'. unfold list_splice_tail. rewrite (cut_prev _ _ _ _ _ _ _ _ C). by rewrite app_nil_r in L.
Qed.

(** The other two empty the list that was spliced. *)
Lemma splice_then_init h h' list ys head zs :
  is_list h list ys -> list ∉ head :: zs -> is_list h' head zs -> h' !! list = h !! list ->
  exists h2, INIT_LIST_HEAD list h' = Some h2 /\ is_list h2 head zs /\ is_list h2 list [].
Proof.
  intros Hl Hn H Hk. destruct (init_spec h' list) as (h2 & E & L & U).
  { rewrite Hk. apply (is_list_alloc h list ys); set_solver. }
  exists h2. split_and!; [done| |done]. apply (is_list_frame h'); [done|]. intros y Hy. apply U. set_solver.
Qed.

Lemma list_splice_init_spec h list ys head xs :
  is_list h list ys -> is_list h head xs -> (list :: ys) ## (head :: xs) ->
  exists h', list_splice_init list head h = Some h' /\ is_list h' head (ys ++ xs) /\ is_list h' list [].
Proof.
  intros Hl H Hd. destruct (list_splice_spec h list ys head xs Hl H Hd) as (h1 & E & L & U).
  pose proof Hl as [[Hy _]%NoDup_cons _]. unfold list_splice_init. rewrite E.
  apply (splice_then_init h h1 list ys head (ys ++ xs)); try done; [|apply U]; set_solver.
Qed.

Lemma list_splice_tail_init_spec h list ys head xs :
  is_list h list ys -> is_list h head xs -> (list :: ys) ## (head :: xs) ->
  exists h', list_splice_tail_init list head h = Some h' /\ is_list h' head (xs ++ ys) /\ is_list h' list [].
Proof.
  intros Hl H Hd. destruct (list_splice_tail_spec h list ys head xs Hl H Hd) as (h1 & E & L & U).
  pose proof Hl as [[Hy _]%NoDup_cons _]. unfold list_splice_tail_init. rewrite E.
  apply (splice_then_init h h1 list ys head (xs ++ ys)); try done; [|apply U]; set_solver.
Qed.

(** *** Tests *)
Lemma list_empty_spec h head xs : is_list h head xs -> list_empty h head = Some (bool_decide (xs = [])).
Proof.
  intros H. destruct (is_list_first h head xs H) as (n & B & E & En). unfold list_empty. rewrite En. f_equal.
  pose proof H as [[Hh _]%NoDup_cons _]. destruct xs as [|x xs]; cbn [app] in E; injection E as <- _.
  - apply Z.eqb_refl.
  - apply Z.eqb_neq. set_solver.
Qed.

Lemma list_is_last_spec h head l1 x l2 :
  is_list h head (l1 ++ x :: l2) -> list_is_last h x head = Some (bool_decide (l2 = [])).
Proof.
  rewrite (app_assoc l1 [x] l2 : l1 ++ x :: l2 = _). intros H.
  destruct (list_cut h head (l1 ++ [x]) l2 H) as (A & p & n & B & C).
  pose proof (cut_front _ _ _ _ _ _ _ _ C) as EA. rewrite app_comm_cons in EA. apply app_inj_tail in EA as [_ <-].
  unfold list_is_last. rewrite (cut_next _ _ _ _ _ _ _ _ C). f_equal.
  pose proof (cut_back _ _ _ _ _ _ _ _ C) as EB. pose proof H as [[Hh _]%NoDup_cons _].
  destruct l2 as [|y l2]; cbn [app] in EB; injection EB as <- _.
  - apply Z.eqb_refl.
  - apply Z.eqb_neq. set_solver.
Qed.
End Specs.


(** ** Abstract specification

    The lists by their heads, and the nodes that are allocated but in no list. *)
Record lists := mk_lists {
  elems : gmap Z (list Z);
  detached : gset Z;
}.

Inductive list_op :=
| OpInit (head : Z)
| OpAdd (x head : Z)
| OpAddTail (x head : Z)
| OpDel (x head : Z)
| OpMove (x from to : Z)
| OpMoveTail (x from to : Z)
| OpFree (head : Z).

Definition a_insert (f : list Z -> list Z) (x head : Z) (a : lists) : option lists :=
  let* xs := elems a !! head in
  if decide (x ∈ detached a) then Some (mk_lists (<[head := f xs]> (elems a)) (detached a ∖ {[x]})) else None.

Definition a_del (x head : Z) (a : lists) : option lists :=
  let* xs := elems a !! head in
  if decide (x ∈ xs) then Some (mk_lists (<[head := filter (.≠ x) xs]> (elems a)) ({[x]} ∪ detached a)) else None.

Definition a_step (o : list_op) (a : lists) : option lists :=
  match o with
  | OpInit head =>
      if decide (head ∈ detached a) then Some (mk_lists (<[head := []]> (elems a)) (detached a ∖ {[head]})) else None
  | OpAdd x head => a_insert (cons x) x head a
  | OpAddTail x head => a_insert (λ xs, xs ++ [x]) x head a
  | OpDel x head => a_del x head a
  | OpMove x from to => let* a := a_del x from a in a_insert (cons x) x to a
  | OpMoveTail x from to => let* a := a_del x from a in a_insert (λ xs, xs ++ [x]) x to a
  | OpFree head => let* _ := elems a !! head in Some (mk_lists (<[head := []]> (elems a)) (detached a))
  end.

(** The code does not need to know which list an element is in. *)
Definition c_step (o : list_op) (h : heap) : option heap :=
  match o with
  | OpInit head => INIT_LIST_HEAD head h
  | OpAdd x head => list_add x head h
  | OpAddTail x head => list_add_tail x head h
  | OpDel x _ => list_del x h
  | OpMove x _ to => list_move x to h
  | OpMoveTail x _ to => list_move_tail x to h
  | OpFree head => vb_list_free head h
  end.

Fixpoint run_ops {S} (step : list_op -> S -> option S) (ops : list list_op) (s : S) : option S :=
  match ops with
  | [] => Some s
  | o :: ops' => let* s := step o s in run_ops step ops' s
  end.

Record lists_rep (h : heap) (a : lists) : Prop := {
  lr_list head xs : elems a !! head = Some xs -> is_list h head xs;
  lr_disj head1 xs1 head2 xs2 : elems a !! head1 = Some xs1 -> elems a !! head2 = Some xs2 -> head1 <> head2 ->
    (head1 :: xs1) ## (head2 :: xs2);
  lr_alloc x : x ∈ detached a -> is_Some (h !! x);
  lr_det x head xs : x ∈ detached a -> elems a !! head = Some xs -> x ∉ head :: xs;
}.

Section Refinement.
Implicit Types (h : heap) (a : lists) (head x : Z).

(** Changing one list, with the nodes [T] touched. *)
Lemma rep_update h h' a head xs det (T : list Z) :
  lists_rep h a -> is_list h' head xs -> (forall y, y ∉ T -> h' !! y = h !! y) ->
  (forall head2 xs2, elems a !! head2 = Some xs2 -> head2 <> head ->
     T ## (head2 :: xs2) /\ (head :: xs) ## (head2 :: xs2)) ->
  (forall y, y ∈ det -> is_Some (h' !! y) /\ (y ∉ head :: xs) /\
     forall head2 xs2, elems a !! head2 = Some xs2 -> head2 <> head -> y ∉ head2 :: xs2) ->
  lists_rep h' (mk_lists (<[head := xs]> (elems a)) det).
Proof.
  intros R HL Hun Hother Hdet. split; cbn [elems detached].
  - intros head2 xs2. destruct (decide (head = head2)) as [<-|Hne].
    + rewrite lookup_insert_eq. by intros [= <-].
    + rewrite lookup_insert_ne by done. intros E. apply (is_list_frame h); [by eapply lr_list|].
      intros y Hy. apply Hun. destruct (Hother head2 xs2 E) as [HT _]; [congruence|]. intros HyT. by apply (HT y).
  - intros head1 xs1 head2 xs2. destruct (decide (head = head1)) as [<-|N1], (decide (head = head2)) as [<-|N2];
      rewrite ?lookup_insert_eq, ?lookup_insert_ne by done.
    + done.
    + intros [= <-] E _. by apply Hother.
    + intros E [= <-] _ y H1 H2. by destruct (Hother head1 xs1 E ltac:(congruence)) as [_ H]; apply (H y).
    + by apply R.
  - intros x Hx. by apply Hdet.
  - intros x head2 xs2 Hx. destruct (Hdet x Hx) as (_ & H1 & H2). destruct (decide (head = head2)) as [<-|Hne].
    + rewrite lookup_insert_eq. by intros [= <-].
    + rewrite lookup_insert_ne by done. intros E. by apply (H2 head2).
Qed.

Lemma filter_absent x (l : list Z) : x ∉ l -> filter (.≠ x) l = l.
Proof.
  induction l as [|y l IH]; [done|]. intros [Hy Hl]%not_elem_of_cons.
  rewrite filter_cons_True by congruence. by rewrite IH.
Qed.

Lemma filter_mid x (l1 l2 : list Z) : x ∉ l1 -> x ∉ l2 -> filter (.≠ x) (l1 ++ x :: l2) = l1 ++ l2.
Proof.
  intros H1 H2. rewrite filter_app, filter_cons_False by (intros H; by apply H).
  by rewrite !filter_absent.
Qed.

(** Insertion of a detached node at either end. *)
Lemma insert_refines h a a' (f : list Z -> list Z) (op : heap -> option heap) x head :
  (forall xs y, y ∈ f xs <-> y = x \/ y ∈ xs) ->
  (forall xs, is_list h head xs -> x ∉ head :: xs -> is_Some (h !! x) ->
     exists h', op h = Some h' /\ is_list h' head (f xs) /\ forall y, y ∉ x :: head :: xs -> h' !! y = h !! y) ->
  lists_rep h a -> a_insert f x head a = Some a' -> exists h', op h = Some h' /\ lists_rep h' a'.
Proof.
  intros Hf Hop R. unfold a_insert. destruct (elems a !! head) as [xs|] eqn:E; [|done].
  case_decide as Hx; [|done]. intros [= <-].
  pose proof (lr_det h a R x head xs Hx E) as Hxs.
  destruct (Hop xs) as (h' & Eh & L & U); [by eapply lr_list|done|by eapply lr_alloc|].
  exists h'. split; [done|]. apply (rep_update h h' a head (f xs) _ (x :: head :: xs)); try done.
  - intros head2 xs2 E2 Hne. pose proof (lr_disj h a R head xs head2 xs2 E E2 ltac:(congruence)) as Hd.
    pose proof (lr_det h a R x head2 xs2 Hx E2). specialize (Hf xs). set_solver.
  - intros y [Hy Hyx]%elem_of_difference. rewrite not_elem_of_singleton in Hyx.
    pose proof (lr_det h a R y head xs Hy E) as Hyn. split_and!.
    + rewrite U by set_solver. by eapply lr_alloc.
    + specialize (Hf xs y). set_solver.
    + intros head2 xs2 E2 _. by eapply lr_det.
Qed.

(** Deletion. *)
Lemma del_refines h a a' (op : heap -> option heap) x head :
  (forall l1 l2, is_list h head (l1 ++ x :: l2) ->
     exists h', op h = Some h' /\ is_list h' head (l1 ++ l2) /\ is_Some (h' !! x) /\
       forall y, y ∉ x :: head :: l1 ++ l2 -> h' !! y = h !! y) ->
  lists_rep h a -> a_del x head a = Some a' -> exists h', op h = Some h' /\ lists_rep h' a'.
Proof.
  intros Hop R. unfold a_del. destruct (elems a !! head) as [xs|] eqn:E; [|done].
  case_decide as Hx; [|done]. intros [= <-]. apply list_elem_of_split in Hx as (l1 & l2 & ->).
  pose proof (lr_list h a R head _ E) as L. pose proof L as [Hd _]. apply nodup_mid in Hd as [Hx Hd].
  destruct (Hop l1 l2 L) as (h' & Eh & L' & Hal & U). exists h'. split; [done|].
  rewrite filter_mid by set_solver. apply (rep_update h h' a head (l1 ++ l2) _ (x :: head :: l1 ++ l2)); try done.
  - intros head2 xs2 E2 Hne. pose proof (lr_disj h a R head _ head2 xs2 E E2 ltac:(congruence)) as Hdis. set_solver.
  - intros y [->%elem_of_singleton|Hy]%elem_of_union.
    + split_and!; [done..|]. intros head2 xs2 E2 Hne.
      pose proof (lr_disj h a R head _ head2 xs2 E E2 ltac:(congruence)) as Hdis. set_solver.
    + pose proof (lr_det h a R y head _ Hy E) as Hyn. split_and!.
      * rewrite U by set_solver. by eapply lr_alloc.
      * set_solver.
      * intros head2 xs2 E2 _. by eapply lr_det.
Qed.

Lemma mem_snoc x (xs : list Z) y : y ∈ xs ++ [x] <-> y = x \/ y ∈ xs.
Proof. set_solver. Qed.

Lemma del_links_refines h a a' x head :
  lists_rep h a -> a_del x head a = Some a' -> exists h', list_del_links x h = Some h' /\ lists_rep h' a'.
Proof.
  apply del_refines. intros l1 l2 L. destruct (list_del_links_spec h head l1 x l2 L) as (h' & E & L' & U).
  exists h'. split_and!; [done..| |].
  - pose proof L as [Hd _]. apply nodup_mid in Hd as [Hx _]. rewrite U by done.
    apply (is_list_alloc h head (l1 ++ x :: l2)); set_solver.
  - intros y Hy. apply U. set_solver.
Qed.

Lemma add_refines h a a' x head : lists_rep h a -> a_insert (cons x) x head a = Some a' ->
  exists h', list_add x head h = Some h' /\ lists_rep h' a'.
Proof. apply insert_refines; [intros; apply elem_of_cons|intros xs L Hx Ha; by apply list_add_spec]. Qed.

Lemma add_tail_refines h a a' x head : lists_rep h a -> a_insert (λ xs, xs ++ [x]) x head a = Some a' ->
  exists h', list_add_tail x head h = Some h' /\ lists_rep h' a'.
Proof. apply insert_refines; [apply mem_snoc|intros xs L Hx Ha; by apply list_add_tail_spec]. Qed.

Lemma init_refines h a a' head : lists_rep h a -> a_step (OpInit head) a = Some a' ->
  exists h', INIT_LIST_HEAD head h = Some h' /\ lists_rep h' a'.
Proof.
  intros R. cbn [a_step]. case_decide as Hx; [|done]. intros [= <-].
  destruct (init_spec h head) as (h' & E & L & U); [by eapply lr_alloc|]. exists h'. split; [done|].
  apply (rep_update h h' a head [] _ [head]); try done.
  - intros y Hy. apply U. set_solver.
  - intros head2 xs2 E2 Hne. pose proof (lr_det h a R head head2 xs2 Hx E2). set_solver.
  - intros y [Hy Hyx]%elem_of_difference. split_and!.
    + rewrite U by set_solver. by eapply lr_alloc.
    + set_solver.
    + intros head2 xs2 E2 _. by eapply lr_det.
Qed.

Lemma free_refines h a a' head : lists_rep h a -> a_step (OpFree head) a = Some a' ->
  exists h', vb_list_free head h = Some h' /\ lists_rep h' a'.
Proof.
  intros R. cbn [a_step]. destruct (elems a !! head) as [xs|] eqn:E; [|done]. intros [= <-].
  destruct (vb_list_free_spec h head xs) as (h' & Eh & L & _ & U); [by eapply lr_list|]. exists h'. split; [done|].
  apply (rep_update h h' a head [] _ (head :: xs)); try done.
  - intros head2 xs2 E2 Hne. pose proof (lr_disj h a R head xs head2 xs2 E E2 ltac:(congruence)). set_solver.
  - intros y Hy. pose proof (lr_det h a R y head xs Hy E). split_and!.
    + rewrite U by set_solver. by eapply lr_alloc.
    + set_solver.
    + intros head2 xs2 E2 _. by eapply lr_det.
Qed.

Lemma step_refines h a a' o : lists_rep h a -> a_step o a = Some a' -> exists h', c_step o h = Some h' /\ lists_rep h' a'.
Proof.
  intros R. destruct o as [head|x head|x head|x head|x from to|x from to|head]; cbn [c_step].
  - by apply init_refines.
  - by apply add_refines.
  - by apply add_tail_refines.
  - revert R. apply del_refines. intros l1 l2 L. destruct (list_del_spec h head l1 x l2 L) as (h' & E & L' & Ex & U).
    exists h'. rewrite Ex. split_and!; eauto.
  - cbn [a_step]. destruct (a_del x from a) as [a1|] eqn:E1; [|done].
    destruct (del_links_refines h a a1 x from R E1) as (h1 & Eh & R1). unfold list_move. rewrite Eh. by apply add_refines.
  - cbn [a_step]. destruct (a_del x from a) as [a1|] eqn:E1; [|done].
    destruct (del_links_refines h a a1 x from R E1) as (h1 & Eh & R1). unfold list_move_tail. rewrite Eh.
    by apply add_tail_refines.
  - by apply free_refines.
Qed.
End Refinement.

(** ** Properties *)

(** C14: the linked lists implement sequences: any sequence of [INIT_LIST_HEAD],
    [list_add], [list_add_tail], [list_del], [list_move], [list_move_tail] and
    [vb_list_free] that is meaningful on sequences runs without following a bad
    pointer, whatever lists share the heap, and the lists in the resulting heap
    hold the resulting sequences; in particular [list_for_each] then visits
    exactly the elements of each list, in order, and stops. *)
Theorem list_ops_refine (ops : list list_op) (h : heap) (a a' : lists) :
  lists_rep h a -> run_ops a_step ops a = Some a' ->
  exists h', run_ops c_step ops h = Some h' /\ lists_rep h' a' /\
    forall head xs, elems a' !! head = Some xs ->
      list_for_each h' head = Some xs /\ list_for_each_prev h' head = Some (rev xs).
Proof.
  revert h a. induction ops as [|o ops IH]; intros h a R; cbn [run_ops].
  - intros [= <-]. exists h. split_and!; [done..|]. intros head xs E. by apply for_each_spec, R.
  - destruct (a_step o a) as [a1|] eqn:E; [|done]. destruct (step_refines h a a1 o R E) as (h1 & -> & R1).
    by apply IH.
Qed.

(** Two heads and three elements, none of them linked yet. *)
Definition example_heap : heap := list_to_map (map (λ x, (x, mk_link 77 77)) [1; 2; 3; 4; 5]).

Lemma example_heap_rep : lists_rep example_heap (mk_lists ∅ (list_to_set [1; 2; 3; 4; 5])).
Proof. split; cbn [elems detached]; try (by intros *; rewrite lookup_empty). set_solver. Qed.

Definition example_ops : list list_op :=
  [OpInit 1; OpInit 2; OpAddTail 3 1; OpAddTail 4 1; OpAdd 5 1; OpMove 4 1 2; OpDel 3 1; OpAddTail 3 2; OpFree 1].

Lemma list_ops_refine_witness :
  exists h', run_ops c_step example_ops example_heap = Some h' /\ list_for_each h' 1 = Some [] /\
    list_for_each h' 2 = Some [4; 3] /\ list_for_each_prev h' 2 = Some [3; 4].
Proof.
  destruct (run_ops a_step example_ops (mk_lists ∅ (list_to_set [1; 2; 3; 4; 5]))) as [a'|] eqn:E;
    [|exfalso; revert E; by vm_compute].
  assert (elems a' !! 1 = Some [] /\ elems a' !! 2 = Some [4; 3]) as [E1 E2]
    by (vm_compute in E; injection E as <-; by split).
  destruct (list_ops_refine example_ops example_heap _ a' example_heap_rep E) as (h' & Eh & _ & H).
  exists h'. split; [exact Eh|]. split; [exact (proj1 (H 1 [] E1))|].
  split; [exact (proj1 (H 2 [4; 3] E2))|exact (proj2 (H 2 [4; 3] E2))].
Defined.
