(* ===== verification/MibTree.v ===== *)
(** * The MIB tree ([src/core/mib_tree.c]): registration and removal

    Group nodes hold two parallel arrays, the sub-identifiers in increasing
    order and the children; instance nodes hold the reference of a Lua
    callback.  The global tree below [mib_dummy_node] is a value; a pointer to
    one of its nodes is the list of child indices that leads to it.  [None] as
    the result of an operation means that it does not return: an access
    outside an array, a NULL dereference, a failed [assert] or [die()]. *)
From stdpp Require Import gmap.
From S2P Require Import Prelude BerEncoder Oid.
Local Open Scope Z_scope.

(** ** Data ([mib.h]) *)
Record group_node (A : Type) := mk_group {
  sub_id_cap : Z;
  sub_id_cnt : Z;
  sub_id : list Z;
  sub_ptr : list (option A);
}.
Arguments mk_group {A} _ _ _ _.
Arguments sub_id_cap {A} _.
Arguments sub_id_cnt {A} _.
Arguments sub_id {A} _.
Arguments sub_ptr {A} _.

Inductive mib_node :=
| MIB_OBJ_GROUP (gn : group_node mib_node)
| MIB_OBJ_INSTANCE (callback : Z).

Abbreviation mib_group_node := (group_node mib_node).

(** ** Arrays *)
Definition awrite {A} (a : list A) (i : Z) (x : A) : option (list A) :=
  if (0 <=? i) && (i <? Z.of_nat (length a)) then Some (<[Z.to_nat i := x]> a) else None.

Definition aread {A} (a : list A) (i : Z) : option A :=
  if 0 <=? i then a !! Z.to_nat i else None.

(** ** Group nodes *)
Definition alloc_nr (x : Z) : Z := Z.quot ((x + 2) * 3) 2.

Definition is_raw_group (gn : mib_group_node) : option bool :=
  let* x := aread (sub_id gn) 0 in Some ((x =? 0) && (sub_id_cnt gn =? 0)).

(** [for (i = 0; i < cnt; i++) dst[i < index ? i : i + 1] = src[i];] with [n]
    iterations left. *)
Fixpoint copy_gap {A} (n : nat) (i index : Z) (src dst : list A) : option (list A) :=
  match n with
  | O => Some dst
  | S n' =>
      let* x := aread src i in
      let* dst' := awrite dst (if i <? index then i else i + 1) x in
      copy_gap n' (i + 1) index src dst'
  end.

(** [for (i = cnt - 1; i >= index; i--) a[i + 1] = a[i];], [n = cnt - index]. *)
Fixpoint shift_up {A} (n : nat) (index : Z) (a : list A) : option (list A) :=
  match n with
  | O => Some a
  | S n' =>
      let i := index + Z.of_nat n' in
      let* x := aread a i in
      let* a' := awrite a (i + 1) x in
      shift_up n' index a'
  end.

(** [for (i = index; i < cnt - 1; i++) a[i] = a[i + 1];], [n = cnt - 1 - index]. *)
Fixpoint shift_down {A} (n : nat) (i : Z) (a : list A) : option (list A) :=
  match n with
  | O => Some a
  | S n' =>
      let* x := aread a (i + 1) in
      let* a' := awrite a i x in
      shift_down n' (i + 1) a'
  end.

Definition group_node_expand (gn : mib_group_node) (index : Z) : option mib_group_node :=
  let* raw := is_raw_group gn in
  if raw then None
  else
    let cap := sub_id_cap gn in
    let cnt := sub_id_cnt gn in
    if cnt + 1 >? cap then
      let size := Z.to_nat (alloc_nr cap) in
      let* ids := copy_gap (Z.to_nat cnt) 0 index (sub_id gn) (replicate size 0) in
      let* ptrs := copy_gap (Z.to_nat cnt) 0 index (sub_ptr gn) (replicate size None) in
      Some (mk_group (u16 (alloc_nr cap)) cnt ids ptrs)
    else
      let n := Z.to_nat (cnt - index) in
      let* ids := shift_up n index (sub_id gn) in
      let* ptrs := shift_up n index (sub_ptr gn) in
      Some (mk_group cap cnt ids ptrs).

Definition group_node_shrink (gn : mib_group_node) (index : Z) : option mib_group_node :=
  let cnt := sub_id_cnt gn in
  if cnt >? 1 then
    let n := Z.to_nat (cnt - 1 - index) in
    let* ids := shift_down n index (sub_id gn) in
    let* ptrs := shift_down n index (sub_ptr gn) in
    Some (mk_group (sub_id_cap gn) (u16 (cnt - 1)) ids ptrs)
  else
    let* ids := awrite (sub_id gn) 0 0 in
    let* ptrs := awrite (sub_ptr gn) 0 None in
    Some (mk_group (sub_id_cap gn) 0 ids ptrs).

Definition mib_group_node_new : mib_node := MIB_OBJ_GROUP (mk_group 1 0 [0] [None]).

Definition mib_instance_node_new (callback : Z) : mib_node := MIB_OBJ_INSTANCE callback.

(** What deleting nodes does to the rest of the program: a group's memory is
    released, an instance also drops its Lua reference. *)
Inductive free_event :=
| FreeGroup
| UnrefInstance (callback : Z).

Definition mib_group_node_delete (gn : mib_group_node) : list free_event := [FreeGroup].

Definition mib_instance_node_delete (callback : Z) : list free_event := [UnrefInstance callback].

(** ** Insertion *)

(** [gn->sub_id_cnt++; gn->sub_id[i] = id; gn->sub_ptr[i] = child;] *)
Definition group_set (gn : mib_group_node) (i id : Z) (child : mib_node) : option mib_group_node :=
  let* ids := awrite (sub_id gn) i id in
  let* ptrs := awrite (sub_ptr gn) i (Some child) in
  Some (mk_group (sub_id_cap gn) (u16 (sub_id_cnt gn + 1)) ids ptrs).

(** The traversal of [mib_tree_instance_insert]; the result is the new content
    of [node] and whether a non-NULL pointer is returned. *)
Fixpoint mib_tree_instance_insert (node : mib_node) (oid : list Z) (callback : Z)
    : option (bool * mib_node) :=
  match oid with
  | [] => Some (false, node)
  | id :: oid' =>
      match node with
      | MIB_OBJ_INSTANCE _ => Some (false, node)
      | MIB_OBJ_GROUP gn =>
          let new_child :=
            match oid' with
            | [] => Some (true, mib_instance_node_new callback)
            | _ :: _ => mib_tree_instance_insert mib_group_node_new oid' callback
            end in
          let* raw := is_raw_group gn in
          if raw then
            let* (ok, child) := new_child in
            let* gn' := group_set gn 0 id child in
            Some (ok, MIB_OBJ_GROUP gn')
          else
            let* i := oid_binary_search (sub_id gn) (sub_id_cnt gn) id in
            if i >=? 0 then
              let* ptr := aread (sub_ptr gn) i in
              match ptr, oid' with
              | None, [] => Some (false, node)
              | None, _ :: _ => None
              | Some child, _ =>
                  let* (ok, child') := mib_tree_instance_insert child oid' callback in
                  let* ptrs := awrite (sub_ptr gn) i (Some child') in
                  Some (ok, MIB_OBJ_GROUP (mk_group (sub_id_cap gn) (sub_id_cnt gn) (sub_id gn) ptrs))
              end
            else
              let i := - i - 1 in
              let* gn1 := group_node_expand gn i in
              let* (ok, child) := new_child in
              let* gn' := group_set gn1 i id child in
              Some (ok, MIB_OBJ_GROUP gn')
      end
  end.

(** [mib_dummy_node] before and after [mib_init]: its arrays are NULL until
    then, and [mib_tree_init_check] dies. *)
Definition mib_dummy_node_init : mib_node := MIB_OBJ_GROUP (mk_group 1 0 [0] [None]).

Definition mib_init : option mib_node := Some mib_dummy_node_init.

Definition mib_tree_init_check (dummy : option mib_node) : option mib_node := dummy.

Definition mib_node_reg (dummy : option mib_node) (oid : list Z) (callback : Z)
    : option (Z * option mib_node) :=
  let* root := mib_tree_init_check dummy in
  let len := Z.of_nat (length oid) in
  if len =? 0 then Some (-1, dummy)
  else if len >? ASN1_OID_MAX_LEN then Some (-1, dummy)
  else
    let* (ok, root') := mib_tree_instance_insert root oid callback in
    Some (if ok then 0 else -1, Some root').

(** ** Removal *)

(** Pointers into the tree. *)
Definition node_ptr : Type := list nat.

Fixpoint node_at (node : mib_node) (p : node_ptr) : option mib_node :=
  match p with
  | [] => Some node
  | i :: p' =>
      match node with
      | MIB_OBJ_GROUP gn =>
          match sub_ptr gn !! i with
          | Some (Some child) => node_at child p'
          | _ => None
          end
      | MIB_OBJ_INSTANCE _ => None
      end
  end.

(** Assignment through a pointer to a group. *)
Fixpoint group_update (f : mib_group_node -> option mib_group_node) (node : mib_node) (p : node_ptr)
    : option mib_node :=
  match node with
  | MIB_OBJ_INSTANCE _ => None
  | MIB_OBJ_GROUP gn =>
      match p with
      | [] => let* gn' := f gn in Some (MIB_OBJ_GROUP gn')
      | i :: p' =>
          match sub_ptr gn !! i with
          | Some (Some child) =>
              let* child' := group_update f child p' in
              Some (MIB_OBJ_GROUP (mk_group (sub_id_cap gn) (sub_id_cnt gn) (sub_id gn)
                                     (<[i := Some child']> (sub_ptr gn))))
          | _ => None
          end
      end
  end.

Record node_pair := mk_pair {
  np_parent : node_ptr;
  np_child : option node_ptr;
  np_sub_idx : Z;
}.

(** The loop of [mib_tree_node_search]: [node] is the content of the node at
    [cur] ([None]: NULL). *)
Fixpoint node_search_loop (node : option mib_node) (oid : list Z) (parent cur : node_ptr)
    (sub_idx : Z) : option (option node_ptr * node_pair) :=
  match node, oid with
  | None, _ => Some (None, mk_pair parent None sub_idx)
  | Some _, [] => Some (Some cur, mk_pair parent (Some cur) sub_idx)
  | Some (MIB_OBJ_GROUP gn), id :: oid' =>
      let* i := oid_binary_search (sub_id gn) (sub_id_cnt gn) id in
      if i >=? 0 then
        let* child := aread (sub_ptr gn) i in
        node_search_loop child oid' cur (cur ++ [Z.to_nat i]) i
      else Some (None, mk_pair parent (Some cur) sub_idx)
  | Some (MIB_OBJ_INSTANCE _), _ :: oid' =>
      Some (match oid' with [] => Some cur | _ => None end, mk_pair parent (Some cur) sub_idx)
  end.

Definition mib_tree_node_search (root : mib_node) (oid : list Z)
    : option (option node_ptr * node_pair) :=
  node_search_loop (Some root) oid [] [] 0.

(** The traversal of [__mib_tree_delete].  [p_nbl] is the index of the
    backlogged child, [stack] the content of [nbl_stack] (its capacity is
    [ASN1_OID_MAX_LEN]), [log] what has been released. *)
Fixpoint delete_loop (fuel : nat) (p_nbl : option Z) (node : option mib_node)
    (stack : list (mib_node * Z)) (log : list free_event) : option (list free_event) :=
  match fuel with
  | O => None
  | S fuel' =>
      let backtrack (log' : list free_event) :=
        match stack with
        | [] => Some log'
        | (n, n_idx) :: stack' => delete_loop fuel' (Some n_idx) (Some n) stack' log'
        end in
      match node with
      | None => backtrack log
      | Some (MIB_OBJ_INSTANCE callback) => backtrack (log ++ mib_instance_node_delete callback)
      | Some (MIB_OBJ_GROUP gn) =>
          let i := match p_nbl with Some n_idx => n_idx | None => 0 end in
          if i =? -1 then backtrack (log ++ mib_group_node_delete gn)
          else if ASN1_OID_MAX_LEN <=? Z.of_nat (length stack) then None
          else
            let n_idx := if i + 1 >=? sub_id_cnt gn then -1 else i + 1 in
            let* child := aread (sub_ptr gn) i in
            delete_loop fuel' None child ((MIB_OBJ_GROUP gn, n_idx) :: stack) log
      end
  end.

(** The iterations that a subtree takes: a group is visited once for each of
    its children and once more; an empty group has one NULL child. *)
Fixpoint tree_steps (node : mib_node) : nat :=
  match node with
  | MIB_OBJ_INSTANCE _ => 1
  | MIB_OBJ_GROUP gn =>
      match gn with
      | mk_group _ cnt _ ptrs =>
          (if (cnt =? 0)%Z then 2 else 0) +
          (fix go (l : list (option mib_node)) (n : nat) : nat :=
             match l, n with
             | Some child :: l', S n' => 1 + tree_steps child + go l' n'
             | _, _ => 1
             end) ptrs (Z.to_nat cnt)
      end
  end%nat.

Definition __mib_tree_delete (root : mib_node) (np : node_pair)
    : option (mib_node * list free_event) :=
  match np_child np with
  | Some [] => Some (root, [])
  | child =>
      let node := match child with Some p => node_at root p | None => None end in
      let fuel := match node with Some n => tree_steps n | None => 1%nat end in
      let* log := delete_loop fuel None node [] [] in
      let* root' := group_update (fun gn => group_node_shrink gn (np_sub_idx np)) root (np_parent np) in
      Some (root', log)
  end.

Definition mib_tree_delete (root : mib_node) (oid : list Z) : option (mib_node * list free_event) :=
  let* (node, np) := mib_tree_node_search root oid in
  match node with
  | Some _ => __mib_tree_delete root np
  | None => Some (root, [])
  end.

Definition mib_node_unreg (dummy : option mib_node) (oid : list Z)
    : option (option mib_node * list free_event) :=
  let* root := mib_tree_init_check dummy in
  let* (root', log) := mib_tree_delete root oid in
  Some (Some root', log).

(** A sequence of registrations and removals, with the returned codes. *)
Inductive mib_op :=
| Reg (oid : list Z) (callback : Z)
| Unreg (oid : list Z).

Fixpoint mib_run (dummy : option mib_node) (ops : list mib_op) : option (list Z * option mib_node) :=
  match ops with
  | [] => Some ([], dummy)
  | Reg oid callback :: ops' =>
      let* (r, dummy') := mib_node_reg dummy oid callback in
      let* (rs, dummy'') := mib_run dummy' ops' in
      Some (r :: rs, dummy'')
  | Unreg oid :: ops' =>
      let* (dummy', _) := mib_node_unreg dummy oid in
      mib_run dummy' ops'
  end.

(** ** Specification *)

(** The children of a group, in order. *)
Definition kids (gn : mib_group_node) : list (Z * mib_node) :=
  omap (fun '(id, p) => (fun n => (id, n)) <$> p)
    (take (Z.to_nat (sub_id_cnt gn)) (zip (sub_id gn) (sub_ptr gn))).

Definition kmap (l : list (Z * mib_node)) : gmap Z mib_node := list_to_map l.

(** The node named by an identifier. *)
Fixpoint node_find (node : mib_node) (oid : list Z) : option mib_node :=
  match oid with
  | [] => Some node
  | id :: oid' =>
      match node with
      | MIB_OBJ_INSTANCE _ => None
      | MIB_OBJ_GROUP gn => let* child := kmap (kids gn) !! id in node_find child oid'
      end
  end.

(** What an identifier names: nothing, a group ([Some None]) or the instance
    of a callback. *)
Definition shape (node : mib_node) (oid : list Z) : option (option Z) :=
  match node_find node oid with
  | None => None
  | Some (MIB_OBJ_GROUP _) => Some None
  | Some (MIB_OBJ_INSTANCE callback) => Some (Some callback)
  end.

(** A group whose arrays hold the children [l]. *)
Definition rep (gn : mib_group_node) (l : list (Z * mib_node)) : Prop :=
  exists pad_id pad_ptr,
    sub_id gn = l.*1 ++ pad_id /\ sub_ptr gn = (Some <$> l.*2) ++ pad_ptr /\
    length pad_id = length pad_ptr /\
    sub_id_cnt gn = Z.of_nat (length l) /\ sub_id_cap gn = Z.of_nat (length (sub_id gn)) /\
    1 <= sub_id_cap gn < 2 ^ 16 /\ StronglySorted Z.lt l.*1 /\
    (l = [] -> pad_id !! 0%nat = Some 0 /\ pad_ptr !! 0%nat = Some None).

(** The widest group that can be grown: [sub_id_cap] is 16 bits wide. *)
Definition GROUP_MAX : Z := 43688.

(** Well-formed trees: at most [d] levels of groups, at most [w] children in
    a group. *)
Fixpoint wf (w : Z) (d : nat) (node : mib_node) : Prop :=
  match node with
  | MIB_OBJ_INSTANCE _ => True
  | MIB_OBJ_GROUP gn =>
      match d with
      | O => False
      | S d' => exists l, rep gn l /\ Z.of_nat (length l) <= w /\
                          Forall (fun kv => is_u32 kv.1 /\ wf w d' kv.2) l
      end
  end.

(** The order in which a subtree is released: every node after its children. *)
Fixpoint frees (node : mib_node) : list free_event :=
  match node with
  | MIB_OBJ_INSTANCE callback => [UnrefInstance callback]
  | MIB_OBJ_GROUP gn =>
      match gn with
      | mk_group _ cnt _ ptrs =>
          (fix go (l : list (option mib_node)) (n : nat) : list free_event :=
             match l, n with
             | Some child :: l', S n' => frees child ++ go l' n'
             | _, _ => []
             end) ptrs (Z.to_nat cnt) ++ [FreeGroup]
      end
  end.

(** When an identifier cannot be registered: the node exists or an instance
    lies on the way to it. *)
Fixpoint blocked (node : mib_node) (oid : list Z) : bool :=
  match oid with
  | [] => true
  | id :: oid' =>
      match node with
      | MIB_OBJ_INSTANCE _ => true
      | MIB_OBJ_GROUP gn =>
          match kmap (kids gn) !! id with Some child => blocked child oid' | None => false end
      end
  end.

(** The instances of a subtree with their identifiers, in order. *)
Fixpoint instances (node : mib_node) : list (list Z * Z) :=
  match node with
  | MIB_OBJ_INSTANCE callback => [([], callback)]
  | MIB_OBJ_GROUP gn =>
      match gn with
      | mk_group _ cnt ids ptrs =>
          (fix go (l : list (option mib_node)) (ids : list Z) (n : nat) : list (list Z * Z) :=
             match l, ids, n with
             | Some child :: l', id :: ids', S n' =>
                 map (fun '(o, cb) => (id :: o, cb)) (instances child) ++ go l' ids' n'
             | _, _, _ => []
             end) ptrs ids (Z.to_nat cnt)
      end
  end.

(** What [mib_node_unreg oid] removes: the node named [oid], or an instance
    whose identifier is [oid] without its last sub-identifier. *)
Fixpoint unreg_target (node : mib_node) (oid : list Z) : option (list Z) :=
  match oid with
  | [] => None
  | id :: oid' =>
      match node with
      | MIB_OBJ_INSTANCE _ => None
      | MIB_OBJ_GROUP gn =>
          let* child := kmap (kids gn) !! id in
          match child, oid' with
          | _, [] => Some [id]
          | MIB_OBJ_INSTANCE _, [_] => Some [id]
          | MIB_OBJ_INSTANCE _, _ => None
          | MIB_OBJ_GROUP _, _ => let* p := unreg_target child oid' in Some (id :: p)
          end
      end
  end.

(** The abstract MIB: what each identifier names.  Registration and removal are
    updates of that map. *)
Definition amib : Type := list Z -> option (option Z).

Definition amib_init : amib := fun o => if decide (o = []) then Some None else None.

(** The effect of a registration. *)
Definition shape_reg (sh : amib) (oid : list Z) (cb : Z) : amib := fun o =>
  if decide (o = oid) then Some (Some cb)
  else if decide (o `prefix_of` oid) then Some None
  else sh o.

(** The effect of the removal of the node [t]. *)
Definition shape_unreg (sh : amib) (t : list Z) : amib := fun o =>
  if decide (t `prefix_of` o) then None else sh o.

Definition is_instance (k : option (option Z)) : bool :=
  match k with Some (Some _) => true | _ => false end.

Definition is_node (k : option (option Z)) : bool :=
  match k with Some _ => true | None => false end.

Definition a_blocked (sh : amib) (oid : list Z) : bool :=
  is_node (sh oid) || existsb (fun n => is_instance (sh (take n oid))) (seq 0 (length oid)).

Definition a_reg (sh : amib) (oid : list Z) (cb : Z) : Z * amib :=
  if (length oid =? 0)%nat || (64 <? length oid)%nat || a_blocked sh oid then (-1, sh)
  else (0, shape_reg sh oid cb).

Definition a_target (sh : amib) (oid : list Z) : option (list Z) :=
  match oid with
  | [] => None
  | _ :: _ =>
      if is_node (sh oid) then Some oid
      else if is_instance (sh (removelast oid)) then Some (removelast oid) else None
  end.

Definition a_unreg (sh : amib) (oid : list Z) : amib :=
  match a_target sh oid with Some t => shape_unreg sh t | None => sh end.

Fixpoint a_run (sh : amib) (ops : list mib_op) : list Z * amib :=
  match ops with
  | [] => ([], sh)
  | Reg oid cb :: ops' =>
      let run := a_run (a_reg sh oid cb).2 ops' in
      ((a_reg sh oid cb).1 :: run.1, run.2)
  | Unreg oid :: ops' => a_run (a_unreg sh oid) ops'
  end.

(** ** Array loops *)
Section Arrays.
Context {A : Type}.
Implicit Types a b : list A.

Lemma aread_app a x b i : i = Z.of_nat (length a) -> aread (a ++ x :: b) i = Some x.
Proof.
  intros ->. unfold aread. zdec. rewrite Nat2Z.id.
  by rewrite lookup_app_r, Nat.sub_diag by lia.
Qed.

Lemma awrite_app a x y b i : i = Z.of_nat (length a) -> awrite (a ++ x :: b) i y = Some (a ++ y :: b).
Proof.
  intros ->. unfold awrite. rewrite length_app. cbn [length]. zdec. zdec.
  rewrite Nat2Z.id. by rewrite insert_app_r_alt, Nat.sub_diag by lia.
Qed.

Lemma shift_up_app a b x pad i :
  i = Z.of_nat (length a) ->
  exists y, shift_up (length b) i (a ++ b ++ x :: pad) = Some (a ++ y :: b ++ pad).
Proof.
  intros ->. revert x pad. induction b as [|z b IH] using rev_ind; intros x pad.
  - by exists x.
  - rewrite length_app, Nat.add_1_r. cbn [shift_up].
    rewrite <- !app_assoc, app_assoc. cbn [app].
    rewrite aread_app by (rewrite length_app; lia).
    replace ((a ++ b) ++ z :: x :: pad) with (((a ++ b) ++ [z]) ++ x :: pad)
      by (by rewrite <- !app_assoc).
    rewrite awrite_app by (rewrite !length_app; cbn; lia).
    rewrite <- !app_assoc. apply IH.
Qed.

Lemma shift_down_app a x b pad i :
  i = Z.of_nat (length a) ->
  exists y, shift_down (length b) i (a ++ x :: b ++ pad) = Some (a ++ b ++ y :: pad).
Proof.
  intros ->. revert a x. induction b as [|z b IH]; intros a x.
  - by exists x.
  - cbn [length shift_down]. rewrite cons_middle, app_assoc.
    change ((z :: b) ++ pad) with (z :: b ++ pad).
    rewrite aread_app by (rewrite length_app; cbn; lia).
    rewrite <- app_assoc. cbn [app]. rewrite awrite_app by lia.
    destruct (IH (a ++ [z]) z) as [y Hy]. exists y.
    rewrite length_app in Hy. cbn [length] in Hy.
    replace (Z.of_nat (length a) + 1) with (Z.of_nat (length a + 1)) by lia.
    rewrite <- !app_assoc in Hy. exact Hy.
Qed.

Lemma copy_gap_below a1 a2 rest d2 drest n i index :
  i = Z.of_nat (length a1) -> Z.of_nat (length a1 + length a2) <= index -> length d2 = length a2 ->
  copy_gap (length a2 + n) i index (a1 ++ a2 ++ rest) (a1 ++ d2 ++ drest) =
  copy_gap n (Z.of_nat (length a1 + length a2)) index (a1 ++ a2 ++ rest) (a1 ++ a2 ++ drest).
Proof.
  intros ->. revert a1 d2. induction a2 as [|x a2 IH]; intros a1 d2 Hi Hd.
  - destruct d2; [|done]. cbn [length]. by rewrite Nat.add_0_r.
  - destruct d2 as [|y d2]; [done|]. cbn [length] in *. cbn [Nat.add copy_gap app].
    rewrite aread_app by done. rewrite (proj2 (Z.ltb_lt _ _)) by lia. rewrite awrite_app by done.
    specialize (IH (a1 ++ [x]) d2). rewrite length_app, <- !app_assoc in IH. cbn [length app] in IH.
    replace (Z.of_nat (length a1) + 1) with (Z.of_nat (length a1 + 1)) by lia.
    rewrite IH by lia. by replace (length a1 + S (length a2))%nat with (length a1 + 1 + length a2)%nat by lia.
Qed.

Lemma copy_gap_above a b1 b rest y d drest i :
  i = Z.of_nat (length a + length b1) -> length d = length b ->
  copy_gap (length b) i (Z.of_nat (length a)) (a ++ b1 ++ b ++ rest) (a ++ y :: b1 ++ d ++ drest) =
  Some (a ++ y :: b1 ++ b ++ drest).
Proof.
  intros ->. revert b1 d. induction b as [|x b IH]; intros b1 d Hd.
  - by destruct d.
  - destruct d as [|z d]; [done|]. cbn [length] in *. cbn [copy_gap app].
    rewrite (app_assoc a b1), aread_app by (rewrite length_app; lia).
    rewrite (proj2 (Z.ltb_ge _ _)) by lia.
    rewrite (app_comm_cons b1), app_assoc, awrite_app by (rewrite length_app; cbn; lia).
    specialize (IH (b1 ++ [x]) d). rewrite length_app, <- !app_assoc in IH. cbn [length app] in IH.
    replace (Z.of_nat (length a + length b1) + 1) with (Z.of_nat (length a + (length b1 + 1))) by lia.
    rewrite <- !app_assoc. cbn [app]. apply IH. lia.
Qed.

Lemma copy_gap_app a b pad y d1 d2 drest n :
  n = (length a + length b)%nat -> length d1 = length a -> length d2 = length b ->
  copy_gap n 0 (Z.of_nat (length a)) (a ++ b ++ pad) (d1 ++ y :: d2 ++ drest) =
  Some (a ++ y :: b ++ drest).
Proof.
  intros -> H1 H2.
  pose proof (copy_gap_below [] a (b ++ pad) d1 (y :: d2 ++ drest) (length b) 0 (Z.of_nat (length a))) as E.
  cbn [app length Nat.add] in E. rewrite E by (done || lia).
  pose proof (copy_gap_above a [] b pad y d2 drest (Z.of_nat (length a))) as E2.
  cbn [app length] in E2. apply E2; [lia|done].
Qed.

(** A zeroed array is long enough for the copy. *)
Lemma replicate_gap n m size (x : A) :
  (n + m < size)%nat -> replicate size x = replicate n x ++ x :: replicate m x ++ replicate (size - n - m - 1) x.
Proof.
  intros H. change (x :: replicate m x ++ ?l) with (replicate 1 x ++ replicate m x ++ l).
  rewrite <- !replicate_add. f_equal. lia.
Qed.
End Arrays.

(** ** Sorted children *)
Lemma StronglySorted_insert x l :
  StronglySorted Z.lt l -> l !! lower_bound x l <> Some x ->
  StronglySorted Z.lt (take (lower_bound x l) l ++ x :: drop (lower_bound x l) l).
Proof.
  induction 1 as [|y l Hs IH Hy]; intros Hne; cbn in *; [by repeat constructor|].
  destruct (Z.ltb_spec y x); cbn.
  - constructor; [by apply IH|]. apply Forall_app; split; [by apply Forall_take|].
    constructor; [done|by apply Forall_drop].
  - assert (x < y) by (cbn in Hne; assert (y <> x) by congruence; lia).
    repeat constructor; [done..|]. eapply Forall_impl; [exact Hy|]. cbn. lia.
Qed.

Lemma StronglySorted_NoDup l : StronglySorted Z.lt l -> NoDup l.
Proof.
  induction 1 as [|y l Hs IH Hy]; constructor; [|done].
  intros Hin. rewrite Forall_forall in Hy. specialize (Hy _ Hin). lia.
Qed.

Lemma StronglySorted_remove l1 x l2 :
  StronglySorted Z.lt (l1 ++ x :: l2) -> StronglySorted Z.lt (l1 ++ l2).
Proof.
  induction l1 as [|y l1 IH]; cbn; inversion_clear 1 as [|? ? Hs Hy]; [done|].
  constructor; [by apply IH|]. apply Forall_app in Hy as [? Hy]. inversion_clear Hy.
  by apply Forall_app.
Qed.

Lemma kmap_middle l1 id c l2 :
  NoDup (l1 ++ (id, c) :: l2).*1 ->
  kmap (l1 ++ (id, c) :: l2) = <[id := c]> (kmap (l1 ++ l2)) /\ kmap (l1 ++ l2) !! id = None.
Proof.
  intros Hn. unfold kmap. assert (l1 ++ (id, c) :: l2 ≡ₚ (id, c) :: l1 ++ l2) as Hp
    by (by rewrite Permutation_middle).
  split.
  - by rewrite (list_to_map_proper _ _ Hn Hp).
  - apply not_elem_of_list_to_map_1. rewrite Hp in Hn. cbn in Hn. by inversion_clear Hn.
Qed.

Lemma kids_rep gn l : rep gn l -> kids gn = l.
Proof.
  intros (pi & pp & Hi & Hp & _ & Hc & _). unfold kids. rewrite Hi, Hp, Hc, Nat2Z.id.
  clear. induction l as [|[id n] l IH]; cbn; [done|]. by rewrite IH.
Qed.

(** The search in a group. *)
Lemma group_search gn l id :
  rep gn l ->
  (exists l1 c l2, l = l1 ++ (id, c) :: l2 /\ kmap l !! id = Some c /\
     oid_binary_search (sub_id gn) (sub_id_cnt gn) id = Some (Z.of_nat (length l1))) \/
  (exists l1 l2, l = l1 ++ l2 /\ kmap l !! id = None /\
     StronglySorted Z.lt (l1.*1 ++ id :: l2.*1) /\
     oid_binary_search (sub_id gn) (sub_id_cnt gn) id = Some (- Z.of_nat (length l1) - 1)).
Proof.
  intros (pi & pp & Hi & _ & _ & Hc & _ & _ & Hs & _).
  rewrite Hi, Hc, <- (length_fmap fst), oid_binary_search_eq by done.
  unfold search_index. pose proof (lower_bound_le id l.*1) as Hle. rewrite length_fmap in Hle.
  case_decide as Hl.
  - left. rewrite list_lookup_fmap in Hl. destruct (l !! _) as [[id' c]|] eqn:E; [|done].
    cbn in Hl. simplify_eq. pose proof (take_drop_middle _ _ _ E) as Hm.
    exists (take (lower_bound id l.*1) l), c, (drop (S (lower_bound id l.*1)) l).
    rewrite length_take, Hm, Nat.min_l by lia. split_and!; [done| |done].
    edestruct (kmap_middle (take (lower_bound id l.*1) l) id c) as [E' _];
      [rewrite Hm; by apply StronglySorted_NoDup|].
    rewrite Hm in E'. by rewrite E', lookup_insert_eq.
  - right. exists (take (lower_bound id l.*1) l), (drop (lower_bound id l.*1) l).
    rewrite take_drop, length_take, Nat.min_l by lia.
    rewrite fmap_take, fmap_drop. pose proof (StronglySorted_insert id l.*1 Hs Hl) as Hs'.
    split_and!; [done| |done|done].
    apply not_elem_of_list_to_map_1. apply StronglySorted_NoDup in Hs'.
    apply NoDup_app in Hs' as (_ & H1 & H2). inversion_clear H2 as [|? ? H3 _].
    rewrite <- (take_drop (lower_bound id l.*1) l.*1). rewrite elem_of_app. intros [H|H]; [|done].
    apply (H1 _ H). left.
Qed.

(** ** Group operations *)
Lemma is_raw_group_rep gn l : rep gn l -> is_raw_group gn = Some (bool_decide (l = [])).
Proof.
  intros (pi & pp & Hi & _ & _ & Hc & Hcap & Hb & _ & Hz). unfold is_raw_group, aread.
  rewrite Hi, Hc. destruct l as [|[id n] l]; cbn [fmap list_fmap app Z.leb].
  - destruct Hz as [Hz _]; [done|]. change (Z.to_nat 0) with 0%nat. by rewrite Hz.
  - change (Z.to_nat 0) with 0%nat. cbn [lookup list_lookup length fst].
    rewrite (proj2 (Z.eqb_neq (Z.of_nat (S (length l))) 0)) by lia.
    change (0 <=? 0) with true. cbn iota. by rewrite andb_false_r, bool_decide_false.
Qed.

Lemma group_set_rep cap ids ptrs l1 l2 id n n0 x y :
  length ids = length ptrs -> 1 <= cap < 2 ^ 16 ->
  cap = Z.of_nat (length (l1.*1 ++ x :: l2.*1 ++ ids)) ->
  n0 = Z.of_nat (length (l1 ++ l2)) -> StronglySorted Z.lt (l1.*1 ++ id :: l2.*1) ->
  exists gn', group_set (mk_group cap n0 (l1.*1 ++ x :: l2.*1 ++ ids)
                (fmap Some l1.*2 ++ y :: (fmap Some l2.*2) ++ ptrs)) (Z.of_nat (length l1)) id n = Some gn' /\
    rep gn' (l1 ++ (id, n) :: l2).
Proof.
  intros Hlen Hb Hcap -> Hs. unfold group_set. cbn [sub_id sub_ptr sub_id_cap sub_id_cnt].
  rewrite awrite_app by (by rewrite length_fmap). rewrite awrite_app by (by rewrite !length_fmap).
  eexists. split; [done|]. rewrite !length_app in Hcap. cbn [length] in Hcap. rewrite length_app, !length_fmap in Hcap.
  exists ids, ptrs. cbn [sub_id sub_ptr sub_id_cap sub_id_cnt].
  rewrite !fmap_app. cbn [fmap list_fmap]. rewrite <- !app_assoc. cbn [app fst snd].
  split_and!; try done.
  - rewrite !length_app. cbn [length]. unfold u16. rewrite Z.mod_small by lia. lia.
  - rewrite !length_app. cbn [length]. rewrite length_app, !length_fmap. lia.
  - lia.
  - lia.
  - by destruct l1.
Qed.

(** Inserting a child that is not there, in an initialised group. *)
Lemma group_insert gn l1 l2 id :
  rep gn (l1 ++ l2) -> l1 ++ l2 <> [] -> Z.of_nat (length (l1 ++ l2)) <= GROUP_MAX ->
  StronglySorted Z.lt (l1.*1 ++ id :: l2.*1) ->
  exists gn1, group_node_expand gn (Z.of_nat (length l1)) = Some gn1 /\
    forall n, exists gn', group_set gn1 (Z.of_nat (length l1)) id n = Some gn' /\
                          rep gn' (l1 ++ (id, n) :: l2).
Proof.
  intros Hr Hne Hw Hs'. unfold group_node_expand. rewrite (is_raw_group_rep _ _ Hr), bool_decide_false by done.
  destruct Hr as (pi & pp & Hi & Hp & Hlen & Hc & Hcap & Hb & Hs & _).
  rewrite Hi in Hcap. rewrite Hi, Hp, Hc, Z.gtb_ltb. rewrite !fmap_app in *. rewrite <- !app_assoc.
  rewrite !length_app, !length_fmap in Hcap. rewrite length_app in *.
  destruct (Z.ltb_spec (sub_id_cap gn) (Z.of_nat (length l1 + length l2) + 1)).
  - assert (sub_id_cap gn = Z.of_nat (length l1 + length l2)) as Ecap by lia. rewrite Ecap.
    assert (alloc_nr (Z.of_nat (length l1 + length l2)) = (Z.of_nat (length l1 + length l2) + 2) * 3 / 2) as Ea
      by (unfold alloc_nr; rewrite Z.quot_div_nonneg by lia; done).
    set (c := alloc_nr (Z.of_nat (length l1 + length l2))) in *.
    assert (Z.of_nat (length l1 + length l2) < c < 2 ^ 16) as Hc2 by (unfold GROUP_MAX in *; Z.div_mod_to_equations; lia).
    clearbody c. rewrite !(replicate_gap (length l1) (length l2) (Z.to_nat c)) by lia.
    pose proof (copy_gap_app l1.*1 l2.*1 pi 0 (replicate (length l1) 0) (replicate (length l2) 0)
      (replicate (Z.to_nat c - length l1 - length l2 - 1) 0) (length l1 + length l2)%nat) as E1.
    rewrite !length_fmap, !length_replicate in E1.
    rewrite Nat2Z.id, E1 by done.
    pose proof (copy_gap_app (Some <$> l1.*2) (Some <$> l2.*2) pp None (replicate (length l1) None) (replicate (length l2) None)
      (replicate (Z.to_nat c - length l1 - length l2 - 1) None) (length l1 + length l2)%nat) as E2.
    rewrite !length_fmap, !length_replicate in E2. rewrite E2 by done.
    eexists. split; [done|]. intros n. unfold u16. rewrite Z.mod_small by lia.
    apply group_set_rep; [by rewrite !length_replicate|lia| |by rewrite length_app|done].
    rewrite !length_app. cbn [length]. rewrite !length_app, !length_fmap, length_replicate. lia.
  - destruct pi as [|x pi]; cbn [length] in *; [lia|]. destruct pp as [|y pp]; cbn [length] in *; [lia|].
    replace (Z.to_nat (Z.of_nat (length l1 + length l2) - Z.of_nat (length l1))) with (length l2) by lia.
    destruct (shift_up_app l1.*1 l2.*1 x pi (Z.of_nat (length l1))) as [x' E1]; [by rewrite length_fmap|].
    rewrite length_fmap in E1. rewrite E1.
    destruct (shift_up_app (Some <$> l1.*2) (Some <$> l2.*2) y pp (Z.of_nat (length l1))) as [y' E2]; [by rewrite !length_fmap|].
    rewrite !length_fmap in E2. rewrite E2.
    eexists. split; [done|]. intros n.
    apply group_set_rep; [lia|lia| |by rewrite length_app|done].
    rewrite !length_app. cbn [length]. rewrite !length_app, !length_fmap. lia.
Qed.

Lemma group_put gn l1 id c c' l2 :
  rep gn (l1 ++ (id, c) :: l2) ->
  exists ptrs, awrite (sub_ptr gn) (Z.of_nat (length l1)) (Some c') = Some ptrs /\
    <[length l1 := Some c']> (sub_ptr gn) = ptrs /\
    rep (mk_group (sub_id_cap gn) (sub_id_cnt gn) (sub_id gn) ptrs) (l1 ++ (id, c') :: l2).
Proof.
  intros (pi & pp & Hi & Hp & Hlen & Hc & Hcap & Hb & Hs & _).
  rewrite !fmap_app in *. cbn [fmap list_fmap fst snd] in *. rewrite <- app_assoc in Hp. cbn [app] in Hp.
  exists ((Some <$> l1.*2) ++ Some c' :: (Some <$> l2.*2) ++ pp). split_and!.
  - rewrite Hp, awrite_app; [done|by rewrite !length_fmap].
  - rewrite Hp, insert_app_r_alt by (by rewrite !length_fmap).
    by rewrite !length_fmap, Nat.sub_diag.
  - exists pi, pp. cbn [sub_id sub_ptr sub_id_cap sub_id_cnt]. rewrite !fmap_app. cbn [fmap list_fmap fst snd].
    rewrite <- !app_assoc in *. split_and!; try done; try lia.
    + rewrite Hc, !length_app. cbn [length]. lia.
    + by destruct l1.
Qed.

Lemma aread_rep gn l1 id c l2 :
  rep gn (l1 ++ (id, c) :: l2) ->
  aread (sub_ptr gn) (Z.of_nat (length l1)) = Some (Some c) /\ sub_ptr gn !! length l1 = Some (Some c) /\
  aread (sub_id gn) (Z.of_nat (length l1)) = Some id.
Proof.
  intros (pi & pp & Hi & Hp & _). rewrite Hi, Hp, !fmap_app. cbn [fmap list_fmap fst snd].
  rewrite <- !app_assoc. cbn [app]. rewrite !aread_app by (by rewrite !length_fmap).
  split_and!; try done.
  rewrite lookup_app_r by (by rewrite !length_fmap). by rewrite !length_fmap, Nat.sub_diag.
Qed.

Lemma rep_nil gn : rep gn [] -> forall id n, is_u32 id ->
  exists gn', group_set gn 0 id n = Some gn' /\ rep gn' [(id, n)].
Proof.
  intros (pi & pp & Hi & Hp & Hlen & Hc & Hcap & Hb & _ & Hz) id n Hid. cbn [fmap list_fmap app length] in *.
  destruct Hz as [Hz1 Hz2]; [done|]. destruct pi as [|x pi], pp as [|y pp]; try done.
  destruct gn as [cap cnt ids ptrs]. cbn [sub_id sub_ptr sub_id_cap sub_id_cnt] in *. subst ids ptrs.
  apply (group_set_rep cap pi pp [] [] id n cnt x y); cbn [length] in *; [lia|lia|done|done|repeat constructor].
Qed.

Lemma rep_sorted gn l : rep gn l -> StronglySorted Z.lt l.*1.
Proof. by intros (? & ? & _ & _ & _ & _ & _ & _ & ? & _). Qed.

Lemma rep_kmap_middle gn l1 id c l2 :
  rep gn (l1 ++ (id, c) :: l2) ->
  kmap (l1 ++ (id, c) :: l2) = <[id := c]> (kmap (l1 ++ l2)) /\ kmap (l1 ++ l2) !! id = None.
Proof. intros Hr. apply kmap_middle, StronglySorted_NoDup. by eapply rep_sorted. Qed.

Lemma wf_mono w w' d d' n : w <= w' -> (d <= d')%nat -> wf w d n -> wf w' d' n.
Proof.
  intros Hw. revert d' n. induction d as [|d IH]; intros d' [gn|cb] Hd; cbn [wf]; try done.
  - by destruct d'.
  - destruct d' as [|d']; [lia|]. cbn [wf]. intros (l & Hr & Hl & Hf). exists l.
    split_and!; [done|lia|]. eapply Forall_impl; [exact Hf|]. cbn. intros [k n] [? ?].
    split; [done|]. apply IH; [lia|done].
  - by destruct d'.
Qed.

Lemma wf_new w d : 0 <= w -> (0 < d)%nat -> wf w d mib_group_node_new.
Proof.
  intros Hw Hd. destruct d as [|d]; [lia|]. exists []. split_and!; [|done|constructor].
  exists [0], [None]. cbn. split_and!; try done; constructor.
Qed.

(** ** What identifiers name *)
Lemma shape_cons gn id o :
  shape (MIB_OBJ_GROUP gn) (id :: o) =
  match kmap (kids gn) !! id with Some c => shape c o | None => None end.
Proof. unfold shape. cbn [node_find]. by destruct (kmap (kids gn) !! id). Qed.

Lemma shape_group gn l id o :
  rep gn l ->
  shape (MIB_OBJ_GROUP gn) (id :: o) = match kmap l !! id with Some c => shape c o | None => None end.
Proof. intros Hr. by rewrite shape_cons, (kids_rep _ _ Hr). Qed.

Lemma shape_new o : shape mib_group_node_new o = if decide (o = []) then Some None else None.
Proof.
  destruct o; [done|]. unfold shape, mib_group_node_new. cbn [node_find].
  change (kmap _) with (∅ : gmap Z mib_node). by rewrite lookup_empty.
Qed.

(** Replacing or adding the child [id]. *)
Lemma shape_insert gn gn' l1 l2 id c c' oid cb :
  rep gn' (l1 ++ (id, c') :: l2) ->
  rep gn (l1 ++ (id, c) :: l2) \/ rep gn (l1 ++ l2) /\ c = mib_group_node_new ->
  (forall o, shape c' o = shape_reg (shape c) oid cb o) ->
  forall o, shape (MIB_OBJ_GROUP gn') o = shape_reg (shape (MIB_OBJ_GROUP gn)) (id :: oid) cb o.
Proof.
  intros Hr' Hr Hc o. unfold shape_reg in *. destruct o as [|id' o].
  { rewrite decide_False, decide_True by (done || apply prefix_nil). done. }
  rewrite (shape_group _ _ _ _ Hr'). destruct (rep_kmap_middle _ _ _ _ _ Hr') as [-> Hn].
  destruct (decide (id' = id)) as [->|Hne].
  - rewrite lookup_insert_eq, Hc.
    assert (id :: o `prefix_of` id :: oid <-> o `prefix_of` oid) as Hp.
    { split; [by intros ?%prefix_cons_inv_2|apply prefix_cons]. }
    destruct (decide (o = oid)) as [->|]; [by rewrite decide_True|].
    rewrite (decide_False (P := id :: o = id :: oid)) by congruence.
    destruct (decide (o `prefix_of` oid)) as [|Ho]; [by rewrite decide_True by tauto|].
    rewrite decide_False by tauto. destruct Hr as [Hr|[Hr ->]].
    + rewrite (shape_group _ _ _ _ Hr). destruct (rep_kmap_middle _ _ _ _ _ Hr) as [-> _].
      by rewrite lookup_insert_eq.
    + rewrite (shape_group _ _ _ _ Hr), Hn, shape_new. rewrite decide_False; [done|].
      intros ->. destruct Ho. apply prefix_nil.
  - rewrite lookup_insert_ne, !decide_False by (try congruence; intros ?%prefix_cons_inv_1; congruence).
    destruct Hr as [Hr|[Hr _]].
    + rewrite (shape_group _ _ _ _ Hr). destruct (rep_kmap_middle _ _ _ _ _ Hr) as [-> _].
      by rewrite lookup_insert_ne by congruence.
    + by rewrite (shape_group _ _ _ _ Hr).
Qed.

(** ** Registration *)
Definition insert_post (w : Z) (d : nat) (node : mib_node) (oid : list Z) (cb : Z) (ok : bool)
    (node' : mib_node) : Prop :=
  wf (w + 1) d node' /\ ok = negb (blocked node oid) /\
  if ok then forall o, shape node' o = shape_reg (shape node) oid cb o else node' = node.

Definition insert_ok (oid : list Z) : Prop := forall node w d cb,
  words oid -> (length oid <= d)%nat -> 0 <= w <= GROUP_MAX -> wf w d node ->
  exists ok node', mib_tree_instance_insert node oid cb = Some (ok, node') /\
    insert_post w d node oid cb ok node'.

(** The child created when a sub-identifier is new. *)
Lemma new_child_spec oid w d cb :
  insert_ok oid -> words oid -> (length oid <= d)%nat -> 0 <= w <= GROUP_MAX ->
  exists child,
    match oid with
    | [] => Some (true, mib_instance_node_new cb)
    | _ :: _ => mib_tree_instance_insert mib_group_node_new oid cb
    end = Some (true, child) /\
    wf (w + 1) d child /\
    forall o, shape child o = shape_reg (shape mib_group_node_new) oid cb o.
Proof.
  intros IH Ho Hd Hw. destruct oid as [|id oid].
  - eexists. split_and!; [done|by destruct d|]. intros o. unfold mib_instance_node_new, shape_reg.
    destruct o; [done|]. rewrite shape_new, !decide_False; [done|done| |done].
    intros [? ?]. done.
  - destruct (IH mib_group_node_new w d cb) as (ok & n & E & H1 & H2 & H3);
      [done|done|done|apply wf_new; cbn in Hd; lia|].
    unfold mib_group_node_new in H2. cbn [blocked] in H2.
    change (kmap _) with (∅ : gmap Z mib_node) in H2. rewrite lookup_empty in H2. subst ok. by exists n.
Qed.

Lemma Forall_middle {A} (P : A -> Prop) l1 x l2 :
  Forall P (l1 ++ x :: l2) <-> P x /\ Forall P (l1 ++ l2).
Proof. rewrite !Forall_app, Forall_cons. tauto. Qed.

Lemma insert_spec oid : insert_ok oid.
Proof.
  induction oid as [|id oid' IH]; intros node w d cb Ho Hd Hw Hwf.
  { exists false, node. split; [done|]. split_and!; try done. by apply (wf_mono w _ d d); [lia|lia|]. }
  inversion_clear Ho as [|? ? Hid Ho']. destruct node as [gn|cb'].
  2:{ exists false, (MIB_OBJ_INSTANCE cb'). split; [done|]. split_and!; [by destruct d|done..]. }
  destruct d as [|d]; [done|]. cbn [length] in Hd. pose proof Hwf as (l & Hr & Hl & Hf).
  assert (Forall (fun kv => is_u32 kv.1 /\ wf (w + 1) d kv.2) l) as Hf'.
  { eapply Forall_impl; [exact Hf|]; cbn; intros [? c] [? ?]. split; [done|].
    by apply (wf_mono w _ d d); [lia|lia|]. }
  destruct (new_child_spec oid' w d cb) as (child & Ec & Hwc & Hc); [done|done|lia|done|].
  cbn [mib_tree_instance_insert]. rewrite Ec, (is_raw_group_rep _ _ Hr).
  unfold insert_post. cbn [blocked]. rewrite (kids_rep _ _ Hr).
  destruct (bool_decide_reflect (l = [])) as [->|Hne].
  { destruct (rep_nil _ Hr id child Hid) as (gn' & -> & Hr'). eexists true, _. split; [done|].
    split_and!; [|done|by apply (shape_insert gn gn' [] [] id mib_group_node_new child); auto].
    exists [(id, child)]. split_and!; [done|cbn; lia|]. by constructor; [|constructor]. }
  destruct (group_search gn l id Hr) as [(l1 & c & l2 & -> & Hk & ->)|(l1 & l2 & -> & Hk & Hs & ->)];
    rewrite Hk, Z.geb_leb; zdec.
  - destruct (aread_rep _ _ _ _ _ Hr) as [-> _].
    apply Forall_middle in Hf as [[_ Hwfc] _], Hf' as [[? _] Hf'].
    destruct (IH c w d cb) as (ok & c' & -> & H1 & H2 & H3); [done|lia|done|done|].
    destruct (group_put gn l1 id c c' l2 Hr) as (ptrs & -> & Hins & Hr').
    exists ok. eexists. split; [done|]. split_and!; [|done|].
    + eexists. split; [exact Hr'|]. split; [rewrite length_app in *; cbn [length] in *; lia|].
      by apply Forall_middle.
    + destruct ok; [by eapply shape_insert; [exact Hr'|left; exact Hr|]|].
      subst c'. rewrite list_insert_id in Hins by (by eapply aread_rep). subst ptrs. by destruct gn.
  - replace (- (- Z.of_nat (length l1) - 1) - 1) with (Z.of_nat (length l1)) by lia.
    destruct (group_insert gn l1 l2 id Hr Hne) as (gn1 & -> & Hset); [lia|done|].
    destruct (Hset child) as (gn' & -> & Hr'). eexists true, _. split; [done|].
    split_and!; [|done|by eapply shape_insert; eauto].
    eexists. split; [exact Hr'|]. split; [rewrite length_app in *; cbn [length]; lia|].
    by apply Forall_middle.
Qed.

(** ** Removal *)
Lemma shrink_rep gn l1 id c l2 :
  rep gn (l1 ++ (id, c) :: l2) ->
  exists gn', group_node_shrink gn (Z.of_nat (length l1)) = Some gn' /\ rep gn' (l1 ++ l2).
Proof.
  intros (pi & pp & Hi & Hp & Hlen & Hc & Hcap & Hb & Hs & _). rewrite Hi in Hcap.
  unfold group_node_shrink. rewrite Hi, Hp, Hc, Z.gtb_ltb.
  rewrite !fmap_app in *. cbn [fmap list_fmap fst snd] in *. rewrite <- !app_assoc in *.
  rewrite !length_app in *. cbn [length app] in *. rewrite ?length_app, !length_fmap in *.
  destruct (Z.ltb_spec 1 (Z.of_nat (length l1 + S (length l2)))).
  - replace (Z.to_nat _) with (length l2) by lia.
    destruct (shift_down_app l1.*1 id l2.*1 pi (Z.of_nat (length l1))) as [y E1]; [by rewrite length_fmap|].
    rewrite length_fmap in E1. rewrite E1.
    destruct (shift_down_app (Some <$> l1.*2) (Some c) (Some <$> l2.*2) pp (Z.of_nat (length l1))) as [z E2];
      [by rewrite !length_fmap|].
    rewrite !length_fmap in E2. rewrite E2. eexists. split; [done|].
    exists (y :: pi), (z :: pp). cbn [sub_id sub_ptr sub_id_cap sub_id_cnt].
    rewrite !fmap_app, <- !app_assoc, !length_app. cbn [length]. rewrite !length_fmap.
    split_and!; try done; try lia.
    + unfold u16. rewrite Z.mod_small by lia. lia.
    + by eapply StronglySorted_remove.
    + intros E. apply app_eq_nil in E as [-> ->]. cbn in *. lia.
  - assert (l1 = []) as -> by (destruct l1; cbn in *; [done|lia]).
    assert (l2 = []) as -> by (destruct l2; cbn in *; [done|lia]). cbn [fmap list_fmap app length] in *.
    eexists. split; [done|]. exists (0 :: pi), (None :: pp). cbn [sub_id sub_ptr sub_id_cap sub_id_cnt].
    cbn [fmap list_fmap app length]. split_and!; try done; try lia. constructor.
Qed.

Lemma frees_rep gn l : rep gn l -> frees (MIB_OBJ_GROUP gn) = concat (frees <$> l.*2) ++ [FreeGroup].
Proof.
  intros (pi & pp & _ & Hp & _ & Hc & _). destruct gn as [cap cnt ids ptrs]. cbn in Hp, Hc. subst.
  cbn [frees]. f_equal. rewrite Nat2Z.id. induction l as [|[id n] l IH]; cbn.
  - by destruct pp as [|[|]].
  - by rewrite IH.
Qed.

Lemma tree_steps_rep gn l :
  rep gn l ->
  tree_steps (MIB_OBJ_GROUP gn) =
  ((if decide (l = []) then 2 else 0) + foldr (fun n a => 1 + tree_steps n + a) 1 l.*2)%nat.
Proof.
  intros (pi & pp & _ & Hp & _ & Hc & _). destruct gn as [cap cnt ids ptrs]. cbn in Hp, Hc. subst.
  cbn [tree_steps]. f_equal.
  - destruct l; [done|]. cbn [length]. zdec. by rewrite decide_False.
  - rewrite Nat2Z.id. induction l as [|[id n] l IH]; cbn [length fmap list_fmap foldr snd app].
    + by destruct pp as [|[|]].
    + by rewrite IH.
Qed.

Lemma instances_rep gn l :
  rep gn l ->
  instances (MIB_OBJ_GROUP gn) =
  concat ((fun kv => map (fun '(o, cb) => (kv.1 :: o, cb)) (instances kv.2)) <$> l).
Proof.
  intros (pi & pp & Hi & Hp & _ & Hc & _). destruct gn as [cap cnt ids ptrs]. cbn in Hi, Hp, Hc. subst.
  cbn [instances]. rewrite Nat2Z.id. induction l as [|[id n] l IH]; cbn.
  - by destruct pp as [|[|]], pi.
  - by rewrite IH.
Qed.

(** What the traversal does once a subtree has been released. *)
Definition delete_resume (fuel : nat) (stack : list (mib_node * Z)) (log : list free_event)
    : option (list free_event) :=
  match stack with
  | [] => Some log
  | (n, n_idx) :: stack' => delete_loop fuel (Some n_idx) (Some n) stack' log
  end.

Definition delete_ok (d : nat) (n : mib_node) : Prop := forall fuel stack log,
  Z.of_nat (length stack + d) <= ASN1_OID_MAX_LEN ->
  delete_loop (tree_steps n + fuel) None (Some n) stack log = delete_resume fuel stack (log ++ frees n).

Lemma delete_group gn l1 l2 d p_nbl fuel stack log :
  rep gn (l1 ++ l2) -> l2 <> [] -> Forall (delete_ok d) l2.*2 ->
  match p_nbl with Some n_idx => n_idx | None => 0 end = Z.of_nat (length l1) ->
  Z.of_nat (length stack + S d) <= ASN1_OID_MAX_LEN ->
  delete_loop (foldr (fun n a => 1 + tree_steps n + a) 1 l2.*2 + fuel)%nat p_nbl
    (Some (MIB_OBJ_GROUP gn)) stack log =
  delete_resume fuel stack (log ++ concat (frees <$> l2.*2) ++ [FreeGroup]).
Proof.
  intros Hr Hne Hok Hp Hst. revert l1 p_nbl log Hr Hne Hp.
  induction l2 as [|[id c] l2 IH]; intros l1 p_nbl log Hr Hne Hp; [done|].
  cbn [fmap list_fmap foldr snd fst] in *. inversion_clear Hok as [|? ? Hc Hok'].
  cbn [Nat.add]. rewrite <- Nat.add_assoc. cbn [delete_loop]. rewrite Hp.
  rewrite (proj2 (Z.eqb_neq _ _)) by lia. rewrite (proj2 (Z.leb_gt _ _)) by lia.
  destruct (aread_rep _ _ _ _ _ Hr) as [-> _]. rewrite Hc by (cbn [length]; lia).
  cbn [delete_resume]. rewrite Z.geb_leb.
  assert (sub_id_cnt gn = Z.of_nat (length l1 + S (length l2))) as ->.
  { destruct Hr as (? & ? & _ & _ & _ & -> & _). rewrite length_app. cbn [length]. lia. }
  destruct l2 as [|kv l2].
  - cbn [length]. zdec. cbn [fmap list_fmap foldr concat Nat.add delete_loop].
    unfold mib_group_node_delete. rewrite app_nil_r, <- app_assoc. done.
  - rewrite (proj2 (Z.leb_gt _ _)) by (cbn [length]; lia).
    rewrite (IH Hok' (l1 ++ [(id, c)])); [|by rewrite <- app_assoc|done|by rewrite length_app; cbn; lia].
    cbn [concat]. by rewrite <- !app_assoc.
Qed.

Lemma delete_spec w d n : wf w d n -> delete_ok d n.
Proof.
  revert n. induction d as [|d IH]; intros [gn|cb] Hwf fuel stack log Hst; try done.
  destruct Hwf as (l & Hr & _ & Hf). rewrite (frees_rep _ _ Hr), (tree_steps_rep _ _ Hr).
  destruct l as [|kv l].
  - rewrite decide_True by done. cbn [fmap list_fmap foldr concat Nat.add delete_loop app].
    rewrite (proj2 (Z.eqb_neq _ _)) by lia. rewrite (proj2 (Z.leb_gt _ _)) by lia.
    destruct Hr as (pi & pp & _ & -> & _ & -> & _ & _ & _ & Hz). cbn [length fmap list_fmap app] in *.
    destruct Hz as [_ Hz]; [done|]. unfold aread. cbn [Z.leb]. change (Z.to_nat 0) with 0%nat. by rewrite Hz.
  - rewrite decide_False by done. rewrite Nat.add_0_l.
    apply (delete_group gn [] (kv :: l) d); [done|done| |done|done].
    apply Forall_fmap. eapply Forall_impl; [exact Hf|]. cbn. intros [? ?] [? ?]. by apply IH.
Qed.

(** Removing the child [id], or something below it. *)
Lemma shape_remove gn gn' l1 id c l2 :
  rep gn (l1 ++ (id, c) :: l2) -> rep gn' (l1 ++ l2) ->
  forall o, shape (MIB_OBJ_GROUP gn') o = shape_unreg (shape (MIB_OBJ_GROUP gn)) [id] o.
Proof.
  intros Hr Hr' o. unfold shape_unreg. destruct o as [|id' o].
  { rewrite decide_False; [done|]. by intros ?%prefix_nil_not. }
  rewrite (shape_group _ _ _ _ Hr'), (shape_group _ _ _ _ Hr).
  destruct (rep_kmap_middle _ _ _ _ _ Hr) as [-> Hn]. destruct (decide (id' = id)) as [->|].
  - rewrite decide_True by (apply prefix_cons, prefix_nil). by rewrite Hn.
  - rewrite decide_False, lookup_insert_ne; [done|done|]. intros ?%prefix_cons_inv_1. congruence.
Qed.

Lemma shape_remove_below gn gn' l1 id c c' l2 t :
  rep gn (l1 ++ (id, c) :: l2) -> rep gn' (l1 ++ (id, c') :: l2) ->
  (forall o, shape c' o = shape_unreg (shape c) t o) ->
  forall o, shape (MIB_OBJ_GROUP gn') o = shape_unreg (shape (MIB_OBJ_GROUP gn)) (id :: t) o.
Proof.
  intros Hr Hr' Hc o. unfold shape_unreg in *. destruct o as [|id' o].
  { rewrite decide_False; [done|]. by intros ?%prefix_nil_not. }
  rewrite (shape_group _ _ _ _ Hr'), (shape_group _ _ _ _ Hr).
  destruct (rep_kmap_middle _ _ _ _ _ Hr) as [-> _], (rep_kmap_middle _ _ _ _ _ Hr') as [-> _].
  destruct (decide (id' = id)) as [->|].
  - rewrite !lookup_insert_eq, Hc. assert (id :: t `prefix_of` id :: o <-> t `prefix_of` o) as Hp.
    { split; [by intros ?%prefix_cons_inv_2|apply prefix_cons]. }
    repeat case_decide; tauto.
  - rewrite !lookup_insert_ne, decide_False by (try done; intros ?%prefix_cons_inv_1; congruence). done.
Qed.

(** [mib_tree_node_search] finds the target, and shrinking its parent removes
    the subtree. *)
Definition unreg_found (w : Z) (d : nat) (node : mib_node) (oid : list Z) (parent cur : node_ptr) (idx : Z)
    (t : list Z) : Prop :=
  exists q i n root',
    node_search_loop (Some node) oid parent cur idx =
      Some (Some (cur ++ q ++ [i]), mk_pair (cur ++ q) (Some (cur ++ q ++ [i])) (Z.of_nat i)) /\
    node_at node (q ++ [i]) = Some n /\ node_find node t = Some n /\ wf w d n /\
    group_update (fun gn => group_node_shrink gn (Z.of_nat i)) node q = Some root' /\
    wf w (S d) root' /\ forall o, shape root' o = shape_unreg (shape node) t o.

Lemma unreg_here gn l1 id c l2 w d parent cur idx oid' :
  rep gn (l1 ++ (id, c) :: l2) ->
  Z.of_nat (length (l1 ++ (id, c) :: l2)) <= w ->
  Forall (fun kv => is_u32 kv.1 /\ wf w d kv.2) (l1 ++ (id, c) :: l2) ->
  oid_binary_search (sub_id gn) (sub_id_cnt gn) id = Some (Z.of_nat (length l1)) ->
  (forall cur' i, node_search_loop (Some c) oid' cur (cur' ++ [i]) (Z.of_nat i) =
     Some (Some (cur' ++ [i]), mk_pair cur (Some (cur' ++ [i])) (Z.of_nat i))) ->
  unreg_found w d (MIB_OBJ_GROUP gn) (id :: oid') parent cur idx [id].
Proof.
  intros Hr Hl Hf Hb Hc. destruct (shrink_rep _ _ _ _ _ Hr) as (gn' & E & Hr').
  destruct (aread_rep _ _ _ _ _ Hr) as (E1 & E2 & _).
  exists [], (length l1), c. eexists. cbn [node_search_loop]. rewrite Hb, Z.geb_leb. zdec. rewrite E1, Nat2Z.id, Hc, app_nil_r.
  cbn [app node_at group_update node_find]. rewrite E2, E, (kids_rep _ _ Hr).
  destruct (rep_kmap_middle _ _ _ _ _ Hr) as [-> _]. rewrite lookup_insert_eq.
  apply Forall_middle in Hf as [[_ Hwc] Hf]. split_and!; try done.
  - exists (l1 ++ l2). split_and!; [done| |done]. rewrite length_app in *. cbn [length] in *. lia.
  - by eapply shape_remove.
Qed.

Lemma unreg_below gn l1 id c l2 w d parent cur idx oid' t :
  rep gn (l1 ++ (id, c) :: l2) ->
  Z.of_nat (length (l1 ++ (id, c) :: l2)) <= w ->
  Forall (fun kv => is_u32 kv.1 /\ wf w (S d) kv.2) (l1 ++ (id, c) :: l2) ->
  oid_binary_search (sub_id gn) (sub_id_cnt gn) id = Some (Z.of_nat (length l1)) ->
  unreg_found w d c oid' cur (cur ++ [length l1]) (Z.of_nat (length l1)) t ->
  unreg_found w (S d) (MIB_OBJ_GROUP gn) (id :: oid') parent cur idx (id :: t).
Proof.
  intros Hr Hl Hf Hb (q & i & n & c' & Es & Ea & En & Hn & Eg & Hc' & Hsh).
  destruct (aread_rep _ _ _ _ _ Hr) as (E1 & E2 & _).
  destruct (group_put gn l1 id c c' l2 Hr) as (ptrs & _ & Hins & Hr').
  exists (length l1 :: q), i, n. eexists. cbn [node_search_loop]. rewrite Hb, Z.geb_leb. zdec. rewrite E1, Nat2Z.id, Es.
  cbn [app node_at group_update node_find]. rewrite E2, Eg, Ea, (kids_rep _ _ Hr), Hins.
  destruct (rep_kmap_middle _ _ _ _ _ Hr) as [-> _]. rewrite lookup_insert_eq, En, <- !app_assoc.
  apply Forall_middle in Hf as [[? Hwc] Hf]. split_and!; try done.
  - by apply (wf_mono w w d (S d)); [lia|lia|].
  - eexists. split; [exact Hr'|]. split; [rewrite length_app in *; cbn [length] in *; lia|].
    by apply Forall_middle.
  - by eapply shape_remove_below.
Qed.

Lemma unreg_search oid : forall gn w d parent cur idx,
  wf w (S d) (MIB_OBJ_GROUP gn) -> oid <> [] ->
  match unreg_target (MIB_OBJ_GROUP gn) oid with
  | None => exists np, node_search_loop (Some (MIB_OBJ_GROUP gn)) oid parent cur idx = Some (None, np)
  | Some t => unreg_found w d (MIB_OBJ_GROUP gn) oid parent cur idx t
  end.
Proof.
  induction oid as [|id oid' IH]; intros gn w d parent cur idx Hwf Hne; [done|].
  destruct Hwf as (l & Hr & Hl & Hf). cbn [unreg_target]. rewrite (kids_rep _ _ Hr).
  destruct (group_search gn l id Hr) as [(l1 & c & l2 & -> & Hk & Hb)|(l1 & l2 & -> & Hk & Hs & Hb)]; rewrite Hk.
  2:{ cbn [node_search_loop]. rewrite Hb, Z.geb_leb. zdec. by eexists. }
  destruct c as [gc|cb].
  - destruct oid' as [|id' oid'']; [by eapply unreg_here|].
    destruct d as [|d]; [by apply Forall_middle in Hf as [[_ []] _]|].
    specialize (IH gc w d cur (cur ++ [length l1]) (Z.of_nat (length l1))).
    destruct (unreg_target (MIB_OBJ_GROUP gc) (id' :: oid'')) as [t|].
    + eapply unreg_below; [done..|]. apply IH; [|done]. by apply Forall_middle in Hf as [[_ ?] _].
    + cbn [node_search_loop] in IH |- *. rewrite Hb, Z.geb_leb. zdec.
      destruct (aread_rep _ _ _ _ _ Hr) as (-> & _). rewrite Nat2Z.id. cbn [node_search_loop].
      apply IH; [|done]. by apply Forall_middle in Hf as [[_ ?] _].
  - destruct oid' as [|id' [|? ?]]; [by eapply unreg_here..|].
    cbn [node_search_loop]. rewrite Hb, Z.geb_leb. zdec.
    destruct (aread_rep _ _ _ _ _ Hr) as (-> & _). cbn [node_search_loop]. by eexists.
Qed.

(** ** Instances *)
Lemma instances_shape w d n : wf w d n -> forall o cb, (o, cb) ∈ instances n <-> shape n o = Some (Some cb).
Proof.
  revert n. induction d as [|d IH]; intros [gn|cb']; try done.
  - intros _ o cb. destruct o; cbn; rewrite list_elem_of_singleton; split; congruence.
  - intros (l & Hr & _ & Hf) o cb. rewrite (instances_rep _ _ Hr).
    rewrite list_elem_of_In, in_concat. setoid_rewrite <- list_elem_of_In. setoid_rewrite list_elem_of_fmap.
    destruct o as [|id o].
    { split; [|done]. intros (ls & ((id & n) & -> & _) & H).
      apply list_elem_of_In, in_map_iff in H as ((? & ?) & ? & _). congruence. }
    rewrite (shape_group _ _ _ _ Hr). split.
    + intros (ls & ((id' & n) & -> & Hin) & H).
      apply list_elem_of_In, in_map_iff in H as ((o' & cb') & [= -> <- <-] & H).
      apply list_elem_of_In in H. unfold kmap.
      erewrite elem_of_list_to_map_1; [|by apply StronglySorted_NoDup, (rep_sorted gn)|exact Hin].
      rewrite Forall_forall in Hf. by apply IH; [apply (Hf _ Hin)|].
    + destruct (kmap l !! id) as [n|] eqn:E; [|done]. intros H.
      apply elem_of_list_to_map_2 in E. rewrite Forall_forall in Hf.
      eexists. split; [by exists (id, n)|]. apply list_elem_of_In, in_map_iff. exists (o, cb).
      split; [done|]. apply list_elem_of_In. apply IH; [apply (Hf _ E)|done].
  - intros _ o cb. destruct o; cbn; rewrite list_elem_of_singleton; split; congruence.
Qed.

Lemma instances_frees w d n :
  wf w d n ->
  omap (fun e => match e with UnrefInstance cb => Some cb | FreeGroup => None end) (frees n) = (instances n).*2.
Proof.
  revert n. induction d as [|d IH]; intros [gn|cb]; try done. intros (l & Hr & _ & Hf).
  rewrite (instances_rep _ _ Hr), (frees_rep _ _ Hr), omap_app. cbn. rewrite app_nil_r. clear Hr.
  induction Hf as [|[id n] l [_ Hn] _ IHl]; cbn; [done|].
  rewrite omap_app, fmap_app, IHl, (IH n) by done. f_equal.
  induction (instances n) as [|[? ?] ? IHi]; cbn; [done|]. by rewrite IHi.
Qed.

(** ** The abstract operations *)
Lemma existsb_map {A B} (f : B -> bool) (g : A -> B) l :
  existsb f (map g l) = existsb (fun x => f (g x)) l.
Proof. induction l as [|x l IH]; cbn; [done|]. by rewrite IH. Qed.

Lemma existsb_ext {A} (f g : A -> bool) l : (forall x, f x = g x) -> existsb f l = existsb g l.
Proof. intros H. induction l as [|x l IH]; cbn; [done|]. by rewrite H, IH. Qed.

Lemma blocked_abs node oid : blocked node oid = a_blocked (shape node) oid.
Proof.
  revert node. induction oid as [|id oid IH]; intros node; unfold a_blocked.
  { cbn. destruct node; unfold shape; cbn; done. }
  cbn [blocked length seq existsb]. rewrite <- seq_shift, existsb_map.
  destruct node as [gn|cb]; [|done].
  change (is_instance (shape (MIB_OBJ_GROUP gn) (take 0 (id :: oid)))) with false. cbn [orb take].
  rewrite shape_cons. rewrite (existsb_ext _ (fun n => is_instance
    match kmap (kids gn) !! id with Some c => shape c (take n oid) | None => None end))
    by (intros n; by rewrite shape_cons).
  destruct (kmap (kids gn) !! id) as [c|]; [by rewrite IH|].
  cbn [is_node orb]. symmetry. apply not_true_iff_false. rewrite existsb_exists. by intros (? & _ & ?).
Qed.

Lemma unreg_target_abs gn oid :
  unreg_target (MIB_OBJ_GROUP gn) oid = a_target (shape (MIB_OBJ_GROUP gn)) oid.
Proof.
  revert gn. induction oid as [|id oid IH]; intros gn; [done|].
  cbn [unreg_target]. unfold a_target.
  rewrite shape_cons. destruct (kmap (kids gn) !! id) as [c|] eqn:Ek.
  - destruct oid as [|id' oid']; [by destruct c|].
    change (removelast (id :: id' :: oid')) with (id :: removelast (id' :: oid')). rewrite shape_cons, Ek.
    destruct c as [gc|cb].
    + rewrite IH. unfold a_target. destruct (is_node _); [done|]. by destruct (is_instance _).
    + by destruct oid' as [|id'' oid''].
  - cbn [is_node]. destruct oid as [|id' oid']; [done|].
    change (removelast (id :: id' :: oid')) with (id :: removelast (id' :: oid')). by rewrite shape_cons, Ek.
Qed.

(** The maps matter only pointwise. *)
Lemma a_blocked_ext sh sh' oid : (forall o, sh o = sh' o) -> a_blocked sh oid = a_blocked sh' oid.
Proof. intros H. unfold a_blocked. rewrite H. f_equal. apply existsb_ext. intros n. by rewrite H. Qed.

Lemma a_target_ext sh sh' oid : (forall o, sh o = sh' o) -> a_target sh oid = a_target sh' oid.
Proof. intros H. unfold a_target. destruct oid; [done|]. by rewrite !H. Qed.

Lemma a_target_nonempty sh oid : sh [] = Some None -> a_target sh oid <> Some [].
Proof.
  intros H. unfold a_target. destruct oid as [|id oid]; [done|].
  destruct (is_node _); [done|]. destruct (is_instance _) eqn:E; [|done].
  intros [= E']. change (removelast (id :: oid) = []) in E'. by rewrite E', H in E.
Qed.

Lemma a_reg_ext sh sh' oid cb : (forall o, sh o = sh' o) ->
  (a_reg sh oid cb).1 = (a_reg sh' oid cb).1 /\ forall o, (a_reg sh oid cb).2 o = (a_reg sh' oid cb).2 o.
Proof.
  intros H. unfold a_reg. rewrite (a_blocked_ext sh sh') by done. case_match; [done|]. split; [done|].
  intros o. cbn [snd]. unfold shape_reg. by repeat case_decide.
Qed.

Lemma a_run_ext ops : forall sh sh', (forall o, sh o = sh' o) ->
  (a_run sh ops).1 = (a_run sh' ops).1 /\ forall o, (a_run sh ops).2 o = (a_run sh' ops).2 o.
Proof.
  induction ops as [|[oid cb|oid] ops IH]; intros sh sh' H; cbn [a_run fst snd]; [done|..].
  - destruct (a_reg_ext _ _ oid cb H) as [-> H2]. destruct (IH _ _ H2) as [-> ?]. done.
  - apply IH. intros o. unfold a_unreg. rewrite (a_target_ext sh sh') by done.
    destruct (a_target sh' oid); [|done]. unfold shape_unreg. by case_decide.
Qed.

(** ** Operations on the whole tree *)
Definition root_wf (w : Z) (root : mib_node) : Prop :=
  wf w 64 root /\ exists gn, root = MIB_OBJ_GROUP gn.

Lemma shape_root root : (exists gn, root = MIB_OBJ_GROUP gn) <-> shape root [] = Some None.
Proof.
  split; [by intros [gn ->]|]. destruct root as [gn|cb]; [by eexists|]. cbn. done.
Qed.

Lemma root_wf_init : exists root, mib_init = Some root /\ root_wf 0 root /\
  forall o, shape root o = amib_init o.
Proof.
  eexists. split; [done|]. split; [split; [by apply (wf_new 0 64); [|lia]|by eexists]|].
  intros o. apply shape_new.
Qed.

Lemma reg_spec root w oid cb :
  root_wf w root -> words oid -> 0 <= w <= GROUP_MAX ->
  exists root', mib_node_reg (Some root) oid cb = Some ((a_reg (shape root) oid cb).1, Some root') /\
    root_wf (w + 1) root' /\ forall o, shape root' o = (a_reg (shape root) oid cb).2 o.
Proof.
  intros [Hwf Hroot] Ho Hw. unfold mib_node_reg, a_reg, ASN1_OID_MAX_LEN. cbn [mib_tree_init_check].
  assert (root_wf (w + 1) root) as Hmono by (split; [by apply (wf_mono w _ 64 64); [lia|lia|]|done]).
  rewrite Z.gtb_ltb. destruct (Z.eqb_spec (Z.of_nat (length oid)) 0).
  { rewrite (proj2 (Nat.eqb_eq _ _)) by lia. by exists root. }
  rewrite (proj2 (Nat.eqb_neq _ _)) by lia. destruct (Z.ltb_spec 64 (Z.of_nat (length oid))).
  { rewrite (proj2 (Nat.ltb_lt _ _)) by lia. by exists root. }
  rewrite (proj2 (Nat.ltb_ge _ _)) by lia. cbn [orb].
  destruct (insert_spec oid root w 64%nat cb Ho ltac:(lia) Hw Hwf) as (ok & root' & -> & Hwf' & Hok & Hpost).
  rewrite blocked_abs in Hok. exists root'. subst ok.
  destruct (a_blocked (shape root) oid); cbn [negb fst snd] in *; [by subst|].
  split_and!; [done| |done]. split; [done|]. apply shape_root. rewrite Hpost. unfold shape_reg.
  destruct oid; [done|]. rewrite decide_False, decide_True by (done || apply prefix_nil). done.
Qed.

Lemma unreg_spec root w oid :
  root_wf w root ->
  exists root' log, mib_node_unreg (Some root) oid = Some (Some root', log) /\
    root_wf w root' /\ (forall o, shape root' o = a_unreg (shape root) oid o) /\
    match a_target (shape root) oid with
    | Some t => exists n, node_find root t = Some n /\ wf w 63 n /\ log = frees n
    | None => log = [] /\ root' = root
    end.
Proof.
  intros Hroot. pose proof Hroot as [Hwf [gn ->]].
  unfold mib_node_unreg, mib_tree_delete, mib_tree_node_search, a_unreg. cbn [mib_tree_init_check].
  destruct oid as [|id oid]; [by exists (MIB_OBJ_GROUP gn), []|].
  pose proof (unreg_search (id :: oid) gn w 63%nat [] [] 0 Hwf ltac:(done)) as Hs. rewrite unreg_target_abs in Hs.
  destruct (a_target (shape (MIB_OBJ_GROUP gn)) (id :: oid)) as [t|] eqn:Et.
  2:{ destruct Hs as [np ->]. by exists (MIB_OBJ_GROUP gn), []. }
  destruct Hs as (q & i & n & root' & -> & Ea & En & Hn & Eg & Hwf' & Hsh). cbn [app].
  unfold __mib_tree_delete. cbn [np_child np_sub_idx np_parent]. 
  pose proof (delete_spec w 63%nat n Hn 0%nat [] [] ltac:(cbn; unfold ASN1_OID_MAX_LEN; lia)) as Hdel.
  rewrite Nat.add_0_r in Hdel. cbn [delete_resume app] in Hdel.
  destruct (q ++ [i]) as [|j q'] eqn:Eq; [by destruct q|]. rewrite Ea, Hdel, Eg.
  do 2 eexists. split; [done|]. split_and!; [split; [done|]|done|by eauto].
  apply shape_root. rewrite Hsh. unfold shape_unreg. rewrite decide_False; [done|].
  intros ->%prefix_nil_inv. by apply (a_target_nonempty (shape (MIB_OBJ_GROUP gn)) (id :: oid)).
Qed.

Lemma run_spec ops : forall root w,
  root_wf w root -> 0 <= w -> w + Z.of_nat (length ops) <= GROUP_MAX + 1 ->
  Forall (fun op => match op with Reg oid _ => words oid | Unreg _ => True end) ops ->
  exists root', mib_run (Some root) ops = Some ((a_run (shape root) ops).1, Some root') /\
    root_wf (w + Z.of_nat (length ops)) root' /\ forall o, shape root' o = (a_run (shape root) ops).2 o.
Proof.
  induction ops as [|op ops IH]; intros root w Hwf Hw0 Hw Hops.
  { exists root. rewrite Z.add_0_r. done. }
  inversion_clear Hops as [|? ? Hop Hops']. cbn [length] in *. rewrite Nat2Z.inj_succ in *.
  destruct op as [oid cb|oid]; cbn [mib_run a_run].
  - destruct (reg_spec root w oid cb Hwf Hop ltac:(lia)) as (root1 & -> & Hwf1 & Hs1).
    destruct (IH root1 (w + 1) Hwf1 ltac:(lia) ltac:(lia) Hops') as (root2 & -> & Hwf2 & Hs2).
    exists root2. destruct (a_run_ext ops (shape root1) _ Hs1) as [E1 E2]. rewrite E1. split_and!; [done| |].
    + by replace (w + Z.succ (Z.of_nat (length ops))) with (w + 1 + Z.of_nat (length ops)) by lia.
    + intros o. by rewrite Hs2, E2.
  - destruct (unreg_spec root w oid Hwf) as (root1 & log & -> & Hwf1 & Hs1 & _).
    assert (root_wf (w + 1) root1) as Hwf1'
      by (destruct Hwf1 as [H ?]; split; [by apply (wf_mono w _ 64 64); [lia|lia|]|done]).
    destruct (IH root1 (w + 1) Hwf1' ltac:(lia) ltac:(lia) Hops') as (root2 & -> & Hwf2 & Hs2).
    exists root2. destruct (a_run_ext ops (shape root1) _ Hs1) as [E1 E2]. rewrite E1. split_and!; [done| |].
    + by replace (w + Z.succ (Z.of_nat (length ops))) with (w + 1 + Z.of_nat (length ops)) by lia.
    + intros o. by rewrite Hs2, E2.
Qed.

Lemma node_find_app p o : forall node n, node_find node p = Some n -> node_find node (p ++ o) = node_find n o.
Proof.
  induction p as [|id p IH]; intros node n; [by intros [= ->]|]. cbn [node_find app].
  destruct node as [gn|cb]; [|done]. destruct (kmap (kids gn) !! id); [apply IH|done].
Qed.

Lemma oid_lt_cons id a b : oid_lt a b -> oid_lt (id :: a) (id :: b).
Proof. unfold oid_lt. cbn. by rewrite Z.compare_refl. Qed.

Lemma oid_lt_head x y a b : x < y -> oid_lt (x :: a) (y :: b).
Proof. unfold oid_lt. cbn. intros H. by rewrite (proj2 (Z.compare_lt_iff x y) H). Qed.

Lemma StronglySorted_app {A} (R : A -> A -> Prop) l1 l2 :
  StronglySorted R l1 -> StronglySorted R l2 -> (forall x y, x ∈ l1 -> y ∈ l2 -> R x y) ->
  StronglySorted R (l1 ++ l2).
Proof.
  induction 1 as [|x l1 Hs IH Hx]; intros H2 H; cbn; [done|]. constructor.
  - apply IH; [done|]. intros. apply H; [by right|done].
  - apply Forall_app. split; [done|]. apply Forall_forall. intros y Hy. apply H; [by left|done].
Qed.

(** The instances come in increasing order. *)
Lemma instances_sorted w d n : wf w d n -> StronglySorted oid_lt (instances n).*1.
Proof.
  revert n. induction d as [|d IH]; intros [gn|cb]; try done; try by (intros _; repeat constructor).
  intros (l & Hr & _ & Hf). rewrite (instances_rep _ _ Hr). pose proof (rep_sorted _ _ Hr) as Hs. clear Hr.
  induction Hf as [|[id n] l [_ Hn] _ IHl]; cbn [fmap list_fmap concat fst snd]; [constructor|].
  cbn [fmap list_fmap fst] in Hs. inversion_clear Hs as [|? ? Hs' Hlt].
  rewrite fmap_app. apply StronglySorted_app; [|by apply IHl|].
  - specialize (IH n Hn). induction (instances n) as [|[o cb] ins IHi]; cbn in *; [constructor|].
    inversion_clear IH as [|? ? H1 H2]. constructor; [by apply IHi|].
    clear -H2. induction ins as [|[o' cb'] ins IHi]; cbn in *; [constructor|].
    inversion_clear H2. constructor; [by apply oid_lt_cons|by apply IHi].
  - intros x y Hx Hy. apply list_elem_of_fmap in Hx as ((? & ?) & -> & Hx).
    apply list_elem_of_In, in_map_iff in Hx as ((o & cb) & [= <- <-] & _).
    apply list_elem_of_fmap in Hy as ((? & ?) & -> & Hy).
    apply list_elem_of_In, in_concat in Hy as (ls & Hls & Hy).
    apply list_elem_of_In, list_elem_of_fmap in Hls as ((id' & n') & -> & Hin).
    apply in_map_iff in Hy as ((o' & cb') & [= <- <-] & _). cbn. apply oid_lt_head.
    rewrite Forall_forall in Hlt. apply Hlt. apply list_elem_of_fmap. by exists (id', n').
Qed.

Lemma copy_gap_overflow {A} n : forall i index (src dst : list A),
  0 <= i -> Z.of_nat (length dst) < i + Z.of_nat n -> copy_gap n i index src dst = None \/ n = O.
Proof.
  induction n as [|n IH]; intros i index src dst Hi Hn; [by right|]. left. cbn [copy_gap].
  destruct (aread src i) as [x|]; [|done].
  destruct (awrite dst _ x) as [dst'|] eqn:E; [|done]. unfold awrite in E.
  destruct (_ && _) eqn:Eb; [|done]. assert (length dst' = length dst) as Hd
    by (injection E as <-; apply length_insert).
  destruct (IH (i + 1) index src dst') as [H|H]; [lia|lia|done|].
  subst n. destruct (i <? index); lia.
Qed.

(** ** Properties *)

(** C16: registering and removing nodes implements a map.  Any sequence of up
    to 43689 calls of [mib_node_reg] and [mib_node_unreg] after [mib_init] stays
    inside its arrays and its 64-entry traversal stack, every registration
    returns 0 or -1 as the map predicts (-1 for an empty or too long identifier,
    for one that names a node already, and for one below an instance), and the
    final tree names exactly the nodes of the map. *)
Theorem mib_run_refines (ops : list mib_op)
    (Hlen : Z.of_nat (length ops) <= GROUP_MAX + 1)
    (Hops : Forall (fun op => match op with Reg oid _ => words oid | Unreg _ => True end) ops) :
  exists root, mib_run mib_init ops = Some ((a_run amib_init ops).1, Some root) /\
    root_wf (Z.of_nat (length ops)) root /\ forall o, shape root o = (a_run amib_init ops).2 o.
Proof.
  destruct root_wf_init as (root & -> & Hwf & Hs).
  destruct (run_spec ops root 0 Hwf ltac:(lia) ltac:(lia) Hops) as (root' & -> & Hwf' & Hs').
  destruct (a_run_ext ops _ _ Hs) as [-> E]. exists root'. split_and!; [done|done|].
  intros o. by rewrite Hs', E.
Qed.

Lemma mib_run_refines_witness :
  exists root,
    mib_run mib_init [Reg [1; 3; 6; 1] 7; Reg [1; 3; 6; 1; 2] 8; Reg [1; 3; 5] 9; Unreg [1; 3; 6]; Reg [1; 3; 6] 5] =
      Some ([0; -1; 0; 0], Some root) /\ shape root [1; 3; 6] = Some (Some 5).
Proof.
  destruct (mib_run_refines
    [Reg [1; 3; 6; 1] 7; Reg [1; 3; 6; 1; 2] 8; Reg [1; 3; 5] 9; Unreg [1; 3; 6]; Reg [1; 3; 6] 5])
    as (root & E & _ & Hs).
  - unfold GROUP_MAX. cbn. lia.
  - repeat constructor; unfold is_u32; lia.
  - exists root. split; [exact E|]. rewrite Hs. vm_compute. reflexivity.
Defined.

(** Removing a subtree releases the Lua reference of every instance at or
    below the removed node exactly once, in the order of their identifiers, and
    releases nothing else; when nothing matches the tree is left alone. *)
Theorem mib_node_unreg_releases (root : mib_node) (w : Z) (oid : list Z) (Hwf : root_wf w root) :
  exists root' log, mib_node_unreg (Some root) oid = Some (Some root', log) /\
    match a_target (shape root) oid with
    | None => root' = root /\ log = []
    | Some t => exists l,
        omap (fun e => match e with UnrefInstance cb => Some cb | FreeGroup => None end) log = l.*2 /\
        StronglySorted oid_lt l.*1 /\
        forall o cb, (o, cb) ∈ l <-> shape root (t ++ o) = Some (Some cb)
    end.
Proof.
  destruct (unreg_spec root w oid Hwf) as (root' & log & E & _ & _ & H). exists root', log. split; [done|].
  destruct (a_target (shape root) oid) as [t|]; [|tauto].
  destruct H as (n & Hn & Hwfn & ->). exists (instances n).
  split_and!; [by eapply instances_frees|by eapply instances_sorted|].
  intros o cb. rewrite (instances_shape _ _ _ Hwfn). unfold shape. by rewrite (node_find_app t o root n Hn).
Qed.

(** The tree of a small agent. *)
Definition example_root : mib_node :=
  match mib_run mib_init [Reg [1; 3; 6; 1] 7; Reg [1; 3; 6; 4] 8; Reg [1; 3; 5] 9] with
  | Some (_, Some root) => root
  | _ => mib_group_node_new
  end.

Lemma example_root_wf : root_wf 3 example_root.
Proof.
  unfold example_root.
  destruct (run_spec [Reg [1; 3; 6; 1] 7; Reg [1; 3; 6; 4] 8; Reg [1; 3; 5] 9] mib_dummy_node_init 0)
    as (root & E & Hwf & _).
  - destruct root_wf_init as (root & [= <-] & H & _). exact H.
  - lia.
  - unfold GROUP_MAX. cbn. lia.
  - repeat constructor; unfold is_u32; lia.
  - change mib_init with (Some mib_dummy_node_init). by rewrite E.
Qed.

Lemma root_wf_weaken w root : root_wf w root -> root_wf (w + 1) root.
Proof. intros [H1 H2]. split; [by apply (wf_mono w _ 64 64); [lia|lia|]|done]. Qed.

(** What a removal frees, seen by the interpreter: the references of the
    instances are dropped in order. *)
Section Release.
Context {L : Type} (luaL_unref : Z -> L -> L).

Definition release (log : list free_event) (l : L) : L :=
  foldl (fun l ev => match ev with FreeGroup => l | UnrefInstance cb => luaL_unref cb l end) l log.

(** The callbacks at and below the node that a removal finds, in the order of
    their identifiers. *)
Definition released (sh : amib) (oid cbs : list Z) : Prop :=
  match a_target sh oid with
  | None => cbs = []
  | Some p => exists l : list (list Z * Z), cbs = l.*2 /\ StronglySorted oid_lt l.*1 /\
      forall o cb, (o, cb) ∈ l <-> sh (p ++ o) = Some (Some cb)
  end.

Lemma release_spec log l :
  release log l =
  foldl (fun l cb => luaL_unref cb l) l (omap (fun ev => match ev with UnrefInstance cb => Some cb | FreeGroup => None end) log).
Proof. unfold release. revert l. induction log as [|[|cb] log IH]; intros l; cbn; [done|apply IH|apply IH]. Qed.

Lemma frees_released root w oid root' log l :
  root_wf w root -> mib_node_unreg (Some root) oid = Some (root', log) ->
  exists cbs, released (shape root) oid cbs /\ release log l = foldl (fun l cb => luaL_unref cb l) l cbs.
Proof.
  intros Hwf E. destruct (mib_node_unreg_releases root w oid Hwf) as (r & lg & E' & Hl). rewrite E in E'. injection E' as -> ->.
  rewrite release_spec. eexists. split; [|reflexivity]. unfold released.
  destruct (a_target (shape root) oid) as [p|]; [exact Hl|by destruct Hl as [_ ->]].
Qed.
End Release.

Lemma mib_node_unreg_releases_witness :
  exists root' log, mib_node_unreg (Some example_root) [1; 3; 6] = Some (Some root', log) /\
    log = [UnrefInstance 7; UnrefInstance 8; FreeGroup].
Proof.
  destruct (mib_node_unreg_releases example_root 3 [1; 3; 6] example_root_wf) as (root' & log & E & _).
  exists root', log. split; [exact E|]. vm_compute in E. congruence.
Defined.

(** [sub_id_cap] is 16 bits wide: growing a full group of 47421 children
    stores a capacity of 5598, and the next insertion into that group copies
    past the end of the arrays it has just allocated. *)
Theorem group_node_expand_wraps (gn : mib_group_node) (l1 l2 : list (Z * mib_node))
    (Hr : rep gn (l1 ++ l2)) (Hfull : Z.of_nat (length (l1 ++ l2)) = 47421) (Hcap : sub_id_cap gn = 47421) :
  exists gn1, group_node_expand gn (Z.of_nat (length l1)) = Some gn1 /\ sub_id_cap gn1 = 5598 /\
    forall id child gn2 index, group_set gn1 (Z.of_nat (length l1)) id child = Some gn2 ->
      group_node_expand gn2 index = None.
Proof.
  assert (l1 ++ l2 <> []) as Hne by (intros E; rewrite E in Hfull; cbn in Hfull; lia).
  unfold group_node_expand at 1. rewrite (is_raw_group_rep _ _ Hr), bool_decide_false by done.
  destruct Hr as (pi & pp & Hi & Hp & _ & Hc & _). rewrite Hi, Hp, Hc, Hcap, Hfull, !fmap_app.
  rewrite length_app in Hfull. rewrite <- !app_assoc.
  change (47421 + 1 >? 47421) with true. cbn match. change (alloc_nr 47421) with 71134.
  rewrite !(replicate_gap (length l1) (length l2) (Z.to_nat 71134)) by lia.
  replace (Z.to_nat 47421) with (length l1 + length l2)%nat by lia.
  pose proof (copy_gap_app l1.*1 l2.*1 pi 0 (replicate (length l1) 0) (replicate (length l2) 0)
    (replicate (Z.to_nat 71134 - length l1 - length l2 - 1) 0) (length l1 + length l2)%nat) as E1.
  rewrite !length_fmap, !length_replicate in E1. rewrite E1 by done.
  pose proof (copy_gap_app (Some <$> l1.*2) (Some <$> l2.*2) pp None (replicate (length l1) None)
    (replicate (length l2) None) (replicate (Z.to_nat 71134 - length l1 - length l2 - 1) None)
    (length l1 + length l2)%nat) as E2.
  rewrite !length_fmap, !length_replicate in E2. rewrite E2 by done. clear E1 E2.
  eexists. split; [done|]. split; [done|]. intros id child gn2 index. unfold group_set.
  cbn [sub_id sub_ptr sub_id_cap sub_id_cnt].
  destruct (awrite _ _ id) as [ids|]; [|done]. destruct (awrite _ _ (Some child)) as [ptrs|]; [|done].
  intros [= <-]. unfold group_node_expand. destruct (is_raw_group _) as [[]|]; [done| |done].
  cbn [sub_id sub_ptr sub_id_cap sub_id_cnt].
  change (u16 (47421 + 1) + 1 >? u16 71134) with true. cbn match.
  change (Z.to_nat (u16 (47421 + 1))) with (Z.to_nat 47422). change (alloc_nr (u16 71134)) with 8400.
  destruct (copy_gap_overflow (Z.to_nat 47422) 0 index ids (replicate (Z.to_nat 8400) 0)) as [->|H];
    [lia|rewrite length_replicate; lia|done|lia].
Qed.

Lemma seqZ_sorted m n : StronglySorted Z.lt (seqZ m n).
Proof.
  destruct (decide (0 <= n)); [|rewrite seqZ_nil by lia; constructor].
  revert m. pattern n. apply natlike_ind; [| |done].
  - intros m. constructor.
  - intros k Hk IH m. rewrite seqZ_cons, Z.pred_succ by lia. constructor; [apply IH|].
    apply Forall_forall. intros x. rewrite elem_of_seqZ. lia.
Qed.

Lemma group_node_expand_wraps_witness :
  exists gn1, group_node_expand (mk_group 47421 47421 (seqZ 0 47421)
      (replicate (Z.to_nat 47421) (Some (MIB_OBJ_INSTANCE 1)))) 0 = Some gn1 /\ sub_id_cap gn1 = 5598.
Proof.
  set (l := (fun x => (x, MIB_OBJ_INSTANCE 1)) <$> seqZ 0 47421).
  assert (Z.of_nat (length l) = 47421) as Hl by (unfold l; rewrite length_fmap, length_seqZ; lia).
  assert (l.*1 = seqZ 0 47421) as H1 by (unfold l; rewrite <- list_fmap_compose; apply list_fmap_id).
  assert (Some <$> l.*2 = replicate (Z.to_nat 47421) (Some (MIB_OBJ_INSTANCE 1))) as H2.
  { replace (Z.to_nat 47421) with (length (seqZ 0 47421)) by (rewrite length_seqZ; lia).
    unfold l. clear. induction (seqZ 0 47421) as [|x k IH]; [done|]. cbn in *. by rewrite IH. }
  clearbody l.
  destruct (group_node_expand_wraps (mk_group 47421 47421 (seqZ 0 47421)
      (replicate (Z.to_nat 47421) (Some (MIB_OBJ_INSTANCE 1)))) [] l) as (gn1 & E & Hc & _).
  - exists [], []. cbn [app sub_id sub_ptr sub_id_cap sub_id_cnt]. rewrite !app_nil_r, H1, H2, length_seqZ.
    repeat (split; [reflexivity || lia|]). split; [apply seqZ_sorted|]. intros ->. cbn in Hl. lia.
  - exact Hl.
  - reflexivity.
  - exists gn1. exact (conj E Hc).
Defined.
