(* ===== verification/MibSearch.v ===== *)
(** * Searching the MIB tree ([src/core/mib_tree.c]): GET, GETNEXT and SET

    [mib_tree_search] finds the node of an identifier and hands the rest of the
    identifier to the Lua handler of the instance; [mib_tree_search_next] walks
    the tree with an explicit stack and a mode bit and asks one instance after
    the other for the next variable.  The Lua interpreter is a parameter: a
    state and the protected call of a handler.  [None] means that the function
    does not return (access outside an object, failed [assert]). *)
From stdpp Require Import gmap.
From S2P Require Import Prelude BerEncoder Oid MibTree.
Local Open Scope Z_scope.

(** ** Data ([asn1.h], [mib.h]) *)
Definition SNMP_REQ_GET : Z := 0xA0.
Definition SNMP_REQ_GETNEXT : Z := 0xA1.
Definition SNMP_RESP : Z := 0xA2.
Definition SNMP_REQ_SET : Z := 0xA3.
Definition SNMP_REQ_BULKGET : Z := 0xA5.
Definition SNMP_TRAP_V2 : Z := 0xA7.
Definition SNMP_REPO : Z := 0xA8.

(** [value] are the bytes of the union, [VALUE_SIZE] of them where [long] has
    8 bytes. *)
Record asn1_var := mk_var { tag : Z; len : Z; value : list Z }.

Definition VALUE_SIZE : Z := 8 * ASN1_VALUE_MAX_LEN.

(** [oid] are the cells of the allocation that [oid] points to, [inst_id] is
    an index into them ([None]: NULL). *)
Record oid_search_res := mk_res {
  r_oid : list Z;
  r_id_len : Z;
  r_inst_id : option nat;
  r_inst_id_len : Z;
  r_callback : Z;
  r_request : Z;
  r_err_stat : Z;
  r_var : asn1_var;
}.

Definition set_oid (oid : list Z) (id_len : Z) (r : oid_search_res) : oid_search_res :=
  mk_res oid id_len (r_inst_id r) (r_inst_id_len r) (r_callback r) (r_request r) (r_err_stat r) (r_var r).
Definition set_inst (inst_id : option nat) (inst_id_len : Z) (r : oid_search_res) : oid_search_res :=
  mk_res (r_oid r) (r_id_len r) inst_id inst_id_len (r_callback r) (r_request r) (r_err_stat r) (r_var r).
Definition set_callback (cb : Z) (r : oid_search_res) : oid_search_res :=
  mk_res (r_oid r) (r_id_len r) (r_inst_id r) (r_inst_id_len r) cb (r_request r) (r_err_stat r) (r_var r).
Definition set_request (req : Z) (r : oid_search_res) : oid_search_res :=
  mk_res (r_oid r) (r_id_len r) (r_inst_id r) (r_inst_id_len r) (r_callback r) req (r_err_stat r) (r_var r).
Definition set_err_stat (err : Z) (r : oid_search_res) : oid_search_res :=
  mk_res (r_oid r) (r_id_len r) (r_inst_id r) (r_inst_id_len r) (r_callback r) (r_request r) err (r_var r).
Definition set_var (v : asn1_var) (r : oid_search_res) : oid_search_res :=
  mk_res (r_oid r) (r_id_len r) (r_inst_id r) (r_inst_id_len r) (r_callback r) (r_request r) (r_err_stat r) v.
Definition set_tag (t : Z) (v : asn1_var) : asn1_var := mk_var t (len v) (value v).

(** ** The Lua interface *)

(** The values pushed for [req_val] and [req_val_type]. *)
Inductive lua_arg :=
| LuaNil
| LuaInteger (z : Z)
| LuaNumber (z : Z)
| LuaString (bs : list Z)
| LuaTable (ids : list Z).

(** What the API functions read from a returned value: [lua_tointeger],
    [lua_tonumber] (as an integer), the characters of [lua_tostring], the
    integers of a table; [lua_objlen] is the length of the last two. *)
Record lua_value := mk_lua_value {
  lua_tointeger : Z;
  lua_tonumber : Z;
  lua_tostring : list Z;
  lua_totable : list Z;
}.

(** The four results of a handler: error status, identifier, value, tag. *)
Record lua_ret := mk_lua_ret {
  ret_err : Z;
  ret_ids : list Z;
  ret_val : lua_value;
  ret_tag : Z;
}.

(** The argument pushed for a SET request. *)
Definition set_arg (e : endian) (v : asn1_var) : option lua_arg :=
  if tag v =? ASN1_TAG_INT then let* z := load_int e (value v) in Some (LuaInteger z)
  else if tag v =? ASN1_TAG_OCTSTR then
    let* bs := slice 0 (Z.to_nat (len v)) (value v) in Some (LuaString bs)
  else if tag v =? ASN1_TAG_CNT then let* z := load_uint e (value v) in Some (LuaNumber z)
  else if tag v =? ASN1_TAG_IPADDR then
    let* bs := slice 0 (Z.to_nat (len v)) (value v) in Some (LuaString bs)
  else if tag v =? ASN1_TAG_OBJID then
    let* ids := load_oid e (value v) (Z.to_nat (len v)) in Some (LuaTable ids)
  else if (tag v =? ASN1_TAG_GAU) || (tag v =? ASN1_TAG_TIMETICKS) then
    let* z := load_uint e (value v) in Some (LuaNumber z)
  else Some LuaNil.

(** Storing a returned value; [len] has 16 bits; an unexpected tag aborts. *)
Definition store_value (e : endian) (t : Z) (lv : lua_value) (v : asn1_var) : option asn1_var :=
  if t =? ASN1_TAG_INT then
    let* val := blit (mem_of e 4 (i32 (lua_tointeger lv))) (value v) in Some (mk_var t 1 val)
  else if t =? ASN1_TAG_OCTSTR then
    let n := u16 (Z.of_nat (length (lua_tostring lv))) in
    let* val := blit (take (Z.to_nat n) (lua_tostring lv)) (value v) in Some (mk_var t n val)
  else if (t =? ASN1_TAG_CNT) || (t =? ASN1_TAG_GAU) || (t =? ASN1_TAG_TIMETICKS) then
    let* val := blit (mem_of e 4 (u32 (lua_tonumber lv))) (value v) in Some (mk_var t 1 val)
  else if t =? ASN1_TAG_IPADDR then
    let n := u16 (Z.of_nat (length (lua_totable lv))) in
    let* val := blit (map u8 (take (Z.to_nat n) (lua_totable lv))) (value v) in Some (mk_var t n val)
  else if t =? ASN1_TAG_OBJID then
    let n := u16 (Z.of_nat (length (lua_totable lv))) in
    let* val := blit (store_oid e (map u32 (take (Z.to_nat n) (lua_totable lv)))) (value v) in
    Some (mk_var t n val)
  else None.

(** Writing [ids] at index [i] of the identifier cells. *)
Definition write_ids (i : nat) (ids cells : list Z) : option (list Z) :=
  let* tl := blit ids (drop i cells) in
  if decide (i <= length cells)%nat then Some (take i cells ++ tl) else None.

Section Search.
Context {L : Type}.
Context (lua_pcall : L -> Z -> Z -> list Z -> lua_arg -> lua_arg -> L * option lua_ret).
Context (e : endian) (junk : Z).

(** ** [mib_instance_search] *)

(** The call of the handler and what it does to [var]; the identifiers are the
    ones it returns for a GETNEXT request. *)
Definition instance_call (l : L) (callback request : Z) (ids : list Z) (v : asn1_var)
    : option (L * Z * list Z * asn1_var) :=
  let* (req_val, req_val_type) :=
    (if request =? SNMP_REQ_SET then
       let* a := set_arg e v in Some (a, LuaInteger (tag v))
     else Some (LuaNil, LuaNil)) in
  match lua_pcall l callback request ids req_val req_val_type with
  | (l', None) => Some (l', 0, ids, set_tag ASN1_TAG_NO_SUCH_OBJ v)
  | (l', Some ret) =>
      let err := i32 (ret_err ret) in
      let t := u8 (ret_tag ret) in
      if (err =? 0) && ASN1_TAG_VALID t then
        let* v' := (if request =? SNMP_REQ_SET then Some (set_tag t v) else store_value e t (ret_val ret) v) in
        Some (l', err, if request =? SNMP_REQ_GETNEXT then map u32 (ret_ids ret) else ids, v')
      else Some (l', err, ids, set_tag t v)
  end.

(** The result is the returned value, the interpreter and [ret_oid]. *)
Definition mib_instance_search (l : L) (r : oid_search_res) : option (L * oid_search_res) :=
  let* i := r_inst_id r in
  let* ids := slice i (Z.to_nat (r_inst_id_len r)) (r_oid r) in
  let* (l', err, ids', v') := instance_call l (r_callback r) (r_request r) ids (r_var r) in
  let* oid' := write_ids i ids' (r_oid r) in
  Some (l', set_err_stat err (set_var v' (set_inst (Some i) (Z.of_nat (length ids'))
              (set_oid oid' (r_id_len r) r)))).

(** ** [mib_tree_search] *)

(** The descent, from [node] at index [i] of the identifier: the node where it
    stops, the index, and the number of sub-identifiers left. *)
Fixpoint search_walk (node : option mib_node) (oid : list Z) (i : nat) : option (option mib_node * nat * list Z) :=
  match node, oid with
  | Some (MIB_OBJ_GROUP gn), id :: oid' =>
      let* k := oid_binary_search (sub_id gn) (sub_id_cnt gn) id in
      if k >=? 0 then
        let* child := aread (sub_ptr gn) k in
        search_walk child oid' (S i)
      else Some (node, i, oid)
  | _, _ => Some (node, i, oid)
  end.

Definition mib_tree_search (root : mib_node) (view orig_oid : list Z) (l : L) (r : oid_search_res)
    : option (option mib_node * L * oid_search_res) :=
  let* cells := oid_dup junk orig_oid in
  let r := set_err_stat 0 (set_oid cells (Z.of_nat (length orig_oid)) r) in
  if oid_cover view orig_oid <=? 0 then
    Some (None, l, set_var (set_tag ASN1_TAG_NO_SUCH_OBJ (r_var r)) r)
  else
    let* (node, i, rest) := search_walk (Some root) orig_oid 0 in
    let r := set_inst (Some i) (Z.of_nat (length rest)) r in
    match node, rest with
    | Some (MIB_OBJ_INSTANCE callback), _ :: _ =>
        let* (l', r') := mib_instance_search l (set_callback callback r) in
        Some (node, l', r')
    | Some (MIB_OBJ_INSTANCE _), [] =>
        Some (node, l, set_var (set_tag ASN1_TAG_NO_SUCH_INST (r_var r)) r)
    | _, _ => Some (node, l, set_var (set_tag ASN1_TAG_NO_SUCH_OBJ (r_var r)) r)
    end.

(** ** [mib_tree_search_next] *)

(** The [for] loop.  [stack] is the content of [nbl_stack], [p] the index of
    [oid] in [ret_oid->oid]. *)
Fixpoint next_loop (fuel : nat) (view orig_oid : list Z) (immediate : bool) (p_nbl : option Z)
    (node : option mib_node) (stack : list (option mib_node * Z)) (p : nat) (id_len : Z)
    (l : L) (r : oid_search_res) : option (L * oid_search_res) :=
  match fuel with
  | O => None
  | S fuel' =>
      let backtrack (l : L) (r : oid_search_res) :=
        match stack with
        | [] =>
            let* oid' := oid_cpy (r_oid r) orig_oid in
            Some (l, set_var (set_tag ASN1_TAG_END_OF_MIB_VIEW (r_var r))
                       (set_err_stat 0 (set_inst None 0 (set_oid oid' (Z.of_nat (length orig_oid)) r))))
        | (n, n_idx) :: stack' =>
            match p with
            | O => None
            | S p' => next_loop fuel' view orig_oid true (Some n_idx) n stack' p' id_len l r
            end
        end in
      match node with
      | None => backtrack l r
      | Some (MIB_OBJ_GROUP gn) =>
          (* push the next sibling of child [i] and write its sub-identifier *)
          let enter (i : Z) (k : option mib_node -> list (option mib_node * Z) -> oid_search_res ->
                                 option (L * oid_search_res)) :=
            if ASN1_OID_MAX_LEN <=? Z.of_nat (length stack) then None
            else
              let entry := if i + 1 >=? sub_id_cnt gn then (None, 0) else (node, i + 1) in
              let* id := aread (sub_id gn) i in
              let* oid' := awrite (r_oid r) (Z.of_nat p) id in
              let* child := aread (sub_ptr gn) i in
              k child (entry :: stack) (set_oid oid' (r_id_len r) r) in
          if immediate then
            let i := match p_nbl with Some n_idx => n_idx | None => 0 end in
            enter i (fun child stack' r' =>
              next_loop fuel' view orig_oid true None child stack' (S p) id_len l r')
          else
            let* x := r_oid r !! p in
            let* index := oid_binary_search (sub_id gn) (sub_id_cnt gn) x in
            if (index <? 0) && (- index - 1 =? sub_id_cnt gn) then backtrack l r
            else if (index <? 0) && (- index - 1 =? 0) then
              next_loop fuel' view orig_oid true p_nbl node stack p id_len l r
            else
              let i := if index <? 0 then - index - 1 else index in
              enter i (fun child stack' r' =>
                let* c := child in
                let id_len' := u32 (id_len - 1) in
                let immediate' := (index <? 0) ||
                  ((id_len' =? 0) && match c with MIB_OBJ_GROUP _ => true | _ => false end) in
                next_loop fuel' view orig_oid immediate' p_nbl child stack' (S p) id_len' l r')
      | Some (MIB_OBJ_INSTANCE callback) =>
          let r := set_callback callback (set_inst (Some p) (if immediate then 0 else id_len) r) in
          let* (l', r') := mib_instance_search l r in
          if ASN1_TAG_VALID (tag (r_var r')) then
            let id_len' := Z.of_nat p + r_inst_id_len r' in
            if id_len' <=? ASN1_OID_MAX_LEN then
              let r' := set_oid (r_oid r') id_len' r' in
              let* found := slice 0 (Z.to_nat id_len') (r_oid r') in
              if oid_cover view found =? 0 then backtrack l' r' else Some (l', r')
            else None
          else backtrack l' r'
      end
  end.

Definition mib_tree_search_next (root : mib_node) (view orig_oid : list Z) (l : L) (r : oid_search_res)
    : option (L * oid_search_res) :=
  let start (immediate : bool) (node : option mib_node) (p : nat) (l : L) (r : oid_search_res) :=
    let fuel := match node with Some n => S (tree_steps n) | None => 1%nat end in
    next_loop fuel view orig_oid immediate None node [] p (u32 (r_id_len r - Z.of_nat p)) l (set_err_stat 0 r) in
  if oid_cover view orig_oid >? 0 then
    let* (node, l', r') := mib_tree_search root view view l (set_request SNMP_REQ_GET r) in
    let* n := node in
    let* p := r_inst_id r' in
    let* oid' := oid_cpy (r_oid r') orig_oid in
    let r' := set_oid oid' (Z.of_nat (length orig_oid)) (set_request SNMP_REQ_GETNEXT r') in
    start (negb (r_id_len r' >? Z.of_nat p)) node p l' r'
  else if oid_cmp orig_oid view <? 0 then
    let* (node, l', r') := mib_tree_search root view view l (set_request SNMP_REQ_GET r) in
    let* n := node in
    let* p := r_inst_id r' in
    let r' := set_request SNMP_REQ_GETNEXT r' in
    start (match n with MIB_OBJ_GROUP _ => true | _ => false end) node p l' r'
  else
    let* cells := oid_dup junk view in
    start false None 0%nat l (set_oid cells (Z.of_nat (length view)) r).

(** ** Specification of GETNEXT *)

(** An attempt asks the instance at [o] for what follows the identifiers
    [ids]; none means its first variable. *)
Definition attempt : Type := list Z * Z * list Z.

Inductive next_res :=
| NextFound (o : list Z) (err : Z) (v : asn1_var)
| NextEnd (v : asn1_var).

(** The attempts are made in turn until a handler returns a variable that is
    not outside the view. *)
Fixpoint next_spec (view : list Z) (atts : list attempt) (l : L) (v : asn1_var)
    : option (L * next_res) :=
  match atts with
  | [] => Some (l, NextEnd v)
  | (o, cb, ids) :: atts' =>
      let* (l', err, ids', v') := instance_call l cb SNMP_REQ_GETNEXT ids v in
      if ASN1_TAG_VALID (tag v') then
        if (length (o ++ ids') <=? 64)%nat then
          if oid_cover view (o ++ ids') =? 0 then next_spec view atts' l' v'
          else Some (l', NextFound (o ++ ids') err v')
        else None
      else next_spec view atts' l' v'
  end.

End Search.

(** The attempts for what follows [rem] in a subtree: the instance on the way
    to [rem] is asked with the rest of [rem], every instance after [rem] for its
    first variable. *)
Definition attempts (node : mib_node) (rem : list Z) : list attempt :=
  omap (fun '(o, cb) =>
    if decide (o `prefix_of` rem) then Some (o, cb, drop (length o) rem)
    else if decide (oid_lt rem o) then Some (o, cb, []) else None) (instances node).

Definition att_app (pre : list Z) (a : attempt) : attempt :=
  let '(o, cb, ids) := a in (pre ++ o, cb, ids).

(** Every instance for its first variable. *)
Definition imm_atts (node : mib_node) : list attempt :=
  map (fun '(o, cb) => (o, cb, [])) (instances node).

Definition kids_atts (l : list (Z * mib_node)) : list attempt :=
  concat (map (fun '(id, c) => map (att_app [id]) (imm_atts c)) l).

Lemma store_value_tag e t lv v v' : store_value e t lv v = Some v' -> tag v' = t.
Proof.
  unfold store_value. repeat (case_match; [|try done]); intros; simplify_eq; try done.
Qed.

(** The descent along an identifier: the node where it stops, the part of the
    identifier that leads to it, and the rest. *)
Fixpoint walk (node : mib_node) (oid : list Z) : mib_node * list Z * list Z :=
  match oid, node with
  | id :: oid', MIB_OBJ_GROUP gn =>
      match kmap (kids gn) !! id with
      | Some child => let '(n, p, rest) := walk child oid' in (n, id :: p, rest)
      | None => (node, [], oid)
      end
  | _, _ => (node, [], oid)
  end.

(** ** Attempts of a group *)
Lemma att_app_app p q a : att_app p (att_app q a) = att_app (p ++ q) a.
Proof. destruct a as [[o cb] ids]. cbn. by rewrite app_assoc. Qed.

Lemma map_att_app p q l : map (att_app p) (map (att_app q) l) = map (att_app (p ++ q)) l.
Proof. rewrite map_map. apply map_ext. intros. apply att_app_app. Qed.

Lemma imm_atts_group gn l : rep gn l -> imm_atts (MIB_OBJ_GROUP gn) = kids_atts l.
Proof.
  intros Hr. unfold imm_atts, kids_atts. rewrite (instances_rep _ _ Hr), concat_map. f_equal. clear Hr.
  induction l as [|[id c] l IH]; [done|]. cbn [fmap list_fmap map fst snd]. rewrite IH. f_equal.
  unfold imm_atts. rewrite !map_map. apply map_ext. by intros [o cb].
Qed.

Lemma oid_lt_nil a : oid_lt [] a <-> a <> [].
Proof. unfold oid_lt. destruct a; cbn; [|done]. split; [done|]. intros H. by destruct H. Qed.

Lemma oid_lt_cons_iff x y a b : oid_lt (x :: a) (y :: b) <-> x < y \/ x = y /\ oid_lt a b.
Proof.
  unfold oid_lt. cbn. destruct (Z.compare_spec x y) as [->|H|H]; intuition (done || lia).
Qed.

Lemma attempts_nil n : attempts n [] = imm_atts n.
Proof.
  unfold attempts, imm_atts. induction (instances n) as [|[o cb] is' IH]; [done|]. cbn.
  rewrite IH. destruct (decide (o `prefix_of` [])) as [H|H].
  - apply prefix_nil_inv in H as ->. done.
  - rewrite decide_True; [done|]. apply oid_lt_nil. intros ->. by destruct H.
Qed.

(** The attempts that one child of a group contributes. *)
Definition kid_attempts (id : Z) (rem : list Z) (kv : Z * mib_node) : list attempt :=
  if decide (kv.1 = id) then map (att_app [id]) (attempts kv.2 rem)
  else if decide (id < kv.1) then map (att_app [kv.1]) (imm_atts kv.2) else [].

Lemma attempts_kid id rem k c :
  omap (fun '(o, cb) =>
    if decide (o `prefix_of` id :: rem) then Some (o, cb, drop (length o) (id :: rem))
    else if decide (oid_lt (id :: rem) o) then Some (o, cb, []) else None)
    (map (fun '(o, cb) => (k :: o, cb)) (instances c)) = kid_attempts id rem (k, c).
Proof.
  unfold kid_attempts, attempts, imm_atts. cbn [fst snd].
  induction (instances c) as [|[o cb] is' IH]; cbn [map omap list_omap].
  { by repeat case_decide. }
  rewrite IH. clear IH. destruct (decide (k = id)) as [->|Hk].
  - assert (id :: o `prefix_of` id :: rem <-> o `prefix_of` rem) as Hp.
    { split; [by intros ?%prefix_cons_inv_2|apply prefix_cons]. }
    assert (oid_lt (id :: rem) (id :: o) <-> oid_lt rem o) as Hl by (rewrite oid_lt_cons_iff; intuition lia).
    destruct (decide (o `prefix_of` rem)); [by rewrite decide_True by tauto|].
    rewrite decide_False by tauto.
    destruct (decide (oid_lt rem o)); [by rewrite decide_True by tauto|by rewrite decide_False by tauto].
  - rewrite decide_False by (intros ?%prefix_cons_inv_1; congruence).
    destruct (decide (id < k)) as [Hlt|Hge].
    + rewrite decide_True by (rewrite oid_lt_cons_iff; lia). done.
    + rewrite decide_False by (rewrite oid_lt_cons_iff; lia). done.
Qed.

Lemma attempts_group gn l id rem :
  rep gn l -> attempts (MIB_OBJ_GROUP gn) (id :: rem) = concat (map (kid_attempts id rem) l).
Proof.
  intros Hr. unfold attempts at 1. rewrite (instances_rep _ _ Hr). clear Hr.
  induction l as [|[k c] l IH]; [done|]. cbn [fmap list_fmap map concat fst snd].
  rewrite omap_app, IH, attempts_kid. done.
Qed.

Lemma kid_attempts_below id rem l : Forall (fun k => k < id) l.*1 -> concat (map (kid_attempts id rem) l) = [].
Proof.
  induction l as [|[k c] l IH]; [done|]. cbn. inversion_clear 1. rewrite IH by done. unfold kid_attempts. cbn.
  rewrite !decide_False by lia. done.
Qed.

Lemma kid_attempts_above id rem l :
  Forall (fun k => id < k) l.*1 -> concat (map (kid_attempts id rem) l) = kids_atts l.
Proof.
  unfold kids_atts. induction l as [|[k c] l IH]; [done|]. cbn. inversion_clear 1. rewrite IH by done.
  unfold kid_attempts. cbn. rewrite decide_False, decide_True by lia. done.
Qed.

Lemma StronglySorted_middle l1 x l2 :
  StronglySorted Z.lt (l1 ++ x :: l2) -> Forall (fun k => k < x) l1 /\ Forall (fun k => x < k) l2.
Proof.
  induction l1 as [|y l1 IH]; cbn; inversion_clear 1 as [|? ? Hs Hy]; [by split|].
  destruct (IH Hs) as [H1 H2]. split; [|done]. constructor; [|done].
  rewrite Forall_app, Forall_cons in Hy. tauto.
Qed.

Lemma attempts_found gn l1 id c l2 rem :
  rep gn (l1 ++ (id, c) :: l2) ->
  attempts (MIB_OBJ_GROUP gn) (id :: rem) = map (att_app [id]) (attempts c rem) ++ kids_atts l2.
Proof.
  intros Hr. rewrite (attempts_group _ _ _ _ Hr). pose proof (rep_sorted _ _ Hr) as Hs.
  rewrite fmap_app in Hs. apply StronglySorted_middle in Hs as [H1 H2].
  rewrite map_app, concat_app, kid_attempts_below by done. cbn [map concat app].
  rewrite kid_attempts_above by done. unfold kid_attempts at 1. cbn. by rewrite decide_True.
Qed.

Lemma attempts_not_found gn l1 id l2 rem :
  rep gn (l1 ++ l2) -> StronglySorted Z.lt (l1.*1 ++ id :: l2.*1) ->
  attempts (MIB_OBJ_GROUP gn) (id :: rem) = kids_atts l2.
Proof.
  intros Hr Hs. rewrite (attempts_group _ _ _ _ Hr). apply StronglySorted_middle in Hs as [H1 H2].
  by rewrite map_app, concat_app, kid_attempts_below, kid_attempts_above.
Qed.

(** ** The traversal makes the attempts *)
Section Traversal.
Context {L : Type}.
Context (lua_pcall : L -> Z -> Z -> list Z -> lua_arg -> lua_arg -> L * option lua_ret).
Context (e : endian) (view orig_oid : list Z).

Local Abbreviation nloop := (next_loop lua_pcall e).
Local Abbreviation icall := (instance_call lua_pcall e).
Local Abbreviation nspec := (next_spec lua_pcall e view).

(** The identifier built so far is [pre]. *)
Definition res_inv (pre : list Z) (r : oid_search_res) : Prop :=
  r_request r = SNMP_REQ_GETNEXT /\ length (r_oid r) = 1024%nat /\
  take (length pre) (r_oid r) = pre.

Definition found_ok (o : list Z) (err : Z) (v : asn1_var) (r : oid_search_res) : Prop :=
  res_inv o r /\ r_id_len r = Z.of_nat (length o) /\ r_err_stat r = err /\ r_var r = v.

(** [run] makes the attempts [atts] and, when all of them fail, goes on as [K]
    says. *)
Definition sim (run : option (L * oid_search_res)) (atts : list attempt) (l : L) (r : oid_search_res)
    (K : L -> oid_search_res -> Prop) : Prop :=
  match nspec atts l (r_var r) with
  | None => run = None
  | Some (l', NextFound o err v) => exists r', run = Some (l', r') /\ found_ok o err v r'
  | Some (l', NextEnd v) => exists r', r_var r' = v /\ K l' r'
  end.

(** Backtracking from a node that has been dealt with. *)
Definition resume (fuel : nat) (stack : list (option mib_node * Z)) (p : nat) (id_len : Z) (l : L)
    (r : oid_search_res) : option (L * oid_search_res) :=
  nloop (S fuel) view orig_oid true None None stack p id_len l r.

Lemma next_spec_app a b l v :
  nspec (a ++ b) l v =
  match nspec a l v with
  | Some (l', NextEnd v') => nspec b l' v'
  | x => x
  end.
Proof.
  revert l v. induction a as [|[[o cb] ids] a IH]; intros l v; [done|]. cbn [app next_spec].
  destruct (icall l cb SNMP_REQ_GETNEXT ids v) as [[[[l' err] ids'] v']|]; [|done].
  destruct (ASN1_TAG_VALID _); [|apply IH]. destruct (_ <=? _)%nat; [|done].
  destruct (_ =? 0); [apply IH|done].
Qed.

Lemma sim_nil run l r (K : L -> oid_search_res -> Prop) : K l r -> sim run [] l r K.
Proof. intros H. cbn. by exists r. Qed.

Lemma sim_nil_var run l r r' (K : L -> oid_search_res -> Prop) :
  r_var r' = r_var r -> K l r' -> sim run [] l r K.
Proof. intros H HK. cbn. by exists r'. Qed.

Lemma sim_start run a l r1 r2 (K : L -> oid_search_res -> Prop) :
  r_var r1 = r_var r2 -> sim run a l r1 K -> sim run a l r2 K.
Proof. unfold sim. by intros ->. Qed.

Lemma sim_app run a b l r (K1 K2 : L -> oid_search_res -> Prop) :
  sim run a l r K1 -> (forall l' r', K1 l' r' -> sim run b l' r' K2) -> sim run (a ++ b) l r K2.
Proof.
  unfold sim. rewrite next_spec_app. intros H1 H2.
  destruct (nspec a l (r_var r)) as [[l' [o err v|v]]|]; [done| |done].
  destruct H1 as (r' & <- & HK). by apply H2.
Qed.

Lemma sim_mono run a l r (K1 K2 : L -> oid_search_res -> Prop) :
  sim run a l r K1 -> (forall l' r', K1 l' r' -> K2 l' r') -> sim run a l r K2.
Proof.
  unfold sim. intros H1 H2. destruct (nspec a l (r_var r)) as [[l' [o err v|v]]|]; [done| |done].
  destruct H1 as (r' & <- & HK). exists r'. auto.
Qed.

Lemma res_inv_app pre x r : res_inv (pre ++ x) r -> res_inv pre r.
Proof.
  intros (H1 & H2 & H3). split_and!; [done|done|].
  rewrite length_app in H3. apply (f_equal (take (length pre))) in H3.
  rewrite take_take, Nat.min_l, take_app_length in H3 by lia. done.
Qed.

Lemma res_inv_length pre r : res_inv pre r -> (length pre <= 1024)%nat.
Proof.
  intros (_ & H2 & H3). apply (f_equal length) in H3. rewrite length_take in H3. lia.
Qed.

Lemma write_ids_spec (pre ids cells : list Z) :
  take (length pre) cells = pre -> (length pre + length ids <= length cells)%nat ->
  exists cells', write_ids (length pre) ids cells = Some cells' /\ length cells' = length cells /\
    take (length (pre ++ ids)) cells' = pre ++ ids.
Proof.
  intros Hp Hl. unfold write_ids, blit. rewrite length_drop, decide_True, decide_True by lia.
  eexists. split; [done|]. rewrite Hp. split.
  - rewrite !length_app, !length_drop. lia.
  - by rewrite app_assoc, take_app_length.
Qed.

Lemma write_ids_overflow (pre ids cells : list Z) :
  (length cells < length pre + length ids)%nat -> (length pre <= length cells)%nat ->
  write_ids (length pre) ids cells = None.
Proof.
  intros H Hp. unfold write_ids, blit. rewrite length_drop, decide_False by lia. done.
Qed.

Lemma instance_call_ids l cb req ids v l' err ids' v' :
  icall l cb req ids v = Some (l', err, ids', v') -> ids' = ids \/ ASN1_TAG_VALID (tag v') = true.
Proof.
  unfold instance_call. intros E.
  destruct (req =? SNMP_REQ_SET).
  - destruct (set_arg e v) as [a|]; [|done].
    destruct (lua_pcall l cb req ids a _) as [l2 [ret|]]; [|simplify_eq; by left].
    destruct (_ && _) eqn:Eb; simplify_eq; [|by left]. apply andb_true_iff in Eb as [_ Et]. by right.
  - destruct (lua_pcall l cb req ids _ _) as [l2 [ret|]]; [|simplify_eq; by left].
    destruct (_ && _) eqn:Eb; [|simplify_eq; by left]. apply andb_true_iff in Eb as [_ Et]. right.
    destruct (store_value e _ _ v) as [v2|] eqn:Ev; [|done].
    simplify_eq. by rewrite (store_value_tag _ _ _ _ _ Ev).
Qed.

Lemma sim_instance fuel (imm : bool) p_nbl cb stack pre id_len ids l r :
  res_inv pre r ->
  slice (length pre) (Z.to_nat (if imm then 0 else id_len)) (r_oid r) = Some ids ->
  let run := nloop (S fuel) view orig_oid imm p_nbl (Some (MIB_OBJ_INSTANCE cb)) stack (length pre) id_len l r in
  sim run [(pre, cb, ids)] l r
    (fun l' r' => res_inv pre r' /\ run = resume fuel stack (length pre) id_len l' r').
Proof.
  intros Hinv Hids. pose proof (res_inv_length _ _ Hinv) as Hlen. destruct Hinv as (Hreq & Hcells & Hpre).
  unfold sim, resume. cbn [next_loop next_spec]. unfold mib_instance_search.
  cbn [r_inst_id r_oid r_inst_id_len r_callback r_request r_var set_callback set_inst].
  rewrite Hids, Hreq.
  destruct (icall l cb SNMP_REQ_GETNEXT ids (r_var r)) as [[[[l' err] ids'] v']|] eqn:Ecall; [|done].
  destruct (decide (1024 < length pre + length ids')%nat) as [Hbig|Hok].
  { rewrite write_ids_overflow by lia. rewrite length_app.
    apply slice_length in Hids as Hl. unfold slice in Hids. case_decide as Hd; [|done].
    destruct (instance_call_ids _ _ _ _ _ _ _ _ _ Ecall) as [->|Ev]; [lia|].
    by rewrite Ev, (proj2 (Nat.leb_gt _ _)) by lia. }
  destruct (write_ids_spec pre ids' (r_oid r) Hpre ltac:(lia)) as (cells' & -> & Hc1 & Hc2).
  cbn [r_var set_err_stat set_var set_inst set_oid r_inst_id_len r_oid].
  assert (res_inv (pre ++ ids') (mk_res cells' (r_id_len r) (Some (length pre)) (Z.of_nat (length ids')) cb
    (r_request r) err v')) as Hinv' by (split_and!; cbn; [done|lia|done]).
  destruct (ASN1_TAG_VALID (tag v')).
  2:{ eexists (mk_res _ _ _ _ _ _ _ _). split; [|split; [exact (res_inv_app _ _ _ Hinv')|]]; done. }
  rewrite length_app. replace (Z.of_nat (length pre) + Z.of_nat (length ids')) with (Z.of_nat (length pre + length ids')) by lia.
  unfold ASN1_OID_MAX_LEN. destruct (Nat.leb_spec (length pre + length ids') 64).
  2:{ by rewrite (proj2 (Z.leb_gt _ _)) by lia. }
  rewrite (proj2 (Z.leb_le _ _)) by lia. rewrite Nat2Z.id.
  assert (slice 0 (length pre + length ids') cells' = Some (pre ++ ids')) as ->.
  { unfold slice. rewrite decide_True by lia. rewrite drop_0, <- length_app. by f_equal. }
  destruct (oid_cover view (pre ++ ids') =? 0).
  - exists (mk_res cells' (Z.of_nat (length pre + length ids')) (Some (length pre)) (Z.of_nat (length ids')) cb
      (r_request r) err v').
    split; [done|]. split; [|done]. apply (res_inv_app _ ids'). by destruct Hinv' as (? & ? & ?).
  - eexists. split; [done|]. split_and!; try done; cbn; rewrite ?length_app; done || lia.
Qed.

(** Entering a child in the immediate mode. *)
Lemma res_inv_write pre id r :
  res_inv pre r -> (length pre < 1024)%nat ->
  exists cells, awrite (r_oid r) (Z.of_nat (length pre)) id = Some cells /\
    res_inv (pre ++ [id]) (set_oid cells (r_id_len r) r) /\ length cells = length (r_oid r) /\
    forall n ids, slice (length (pre ++ [id])) n (r_oid r) = Some ids -> slice (length (pre ++ [id])) n cells = Some ids.
Proof.
  intros (H1 & H2 & H3) Hlt. rewrite <- (take_drop (length pre) (r_oid r)), H3.
  destruct (drop (length pre) (r_oid r)) as [|x tl] eqn:E.
  { apply (f_equal length) in E. rewrite length_drop in E. cbn in E. lia. }
  rewrite awrite_app by done. eexists. split; [done|].
  assert (r_oid r = pre ++ x :: tl) as Ec by (by rewrite <- (take_drop (length pre) (r_oid r)), H3, E).
  rewrite Ec in H2. rewrite length_app in H2. split_and!.
  - split_and!; cbn; [done|by rewrite length_app|].
    replace (pre ++ id :: tl) with ((pre ++ [id]) ++ tl) by (by rewrite <- app_assoc). apply take_app_length.
  - rewrite !length_app. done.
  - intros n ids. unfold slice. rewrite !length_app. cbn [length].
    assert (forall y, drop (length pre + 1) (pre ++ y :: tl) = tl) as Hd.
    { intros y. replace (pre ++ y :: tl) with ((pre ++ [y]) ++ tl) by (by rewrite <- app_assoc).
      rewrite <- (drop_app_length (pre ++ [y]) tl) at 2. by rewrite length_app. }
    by rewrite !Hd.
Qed.

Definition imm_ok (d : nat) (n : mib_node) : Prop := forall fuel stack pre id_len l r,
  res_inv pre r -> (length stack + d <= 64)%nat -> (length pre + d <= 1024)%nat ->
  let run := nloop (tree_steps n + fuel) view orig_oid true None (Some n) stack (length pre) id_len l r in
  sim run (map (att_app pre) (imm_atts n)) l r
    (fun l' r' => res_inv pre r' /\ run = resume fuel stack (length pre) id_len l' r').

Lemma imm_group gn l1 l2 d p_nbl fuel stack pre id_len l r :
  rep gn (l1 ++ l2) -> l2 <> [] -> Forall (imm_ok d) l2.*2 ->
  match p_nbl with Some n_idx => n_idx | None => 0 end = Z.of_nat (length l1) ->
  res_inv pre r -> (length stack + S d <= 64)%nat -> (length pre + S d <= 1024)%nat ->
  let run := nloop (foldr (fun n a => 1 + tree_steps n + a) 1 l2.*2 + fuel)%nat view orig_oid true p_nbl
    (Some (MIB_OBJ_GROUP gn)) stack (length pre) id_len l r in
  sim run (map (att_app pre) (kids_atts l2)) l r
    (fun l' r' => res_inv pre r' /\ run = resume fuel stack (length pre) id_len l' r').
Proof.
  intros Hr Hne Hok Hp Hinv Hst Hpre. revert l1 p_nbl l r Hr Hne Hp Hinv.
  induction l2 as [|[id c] l2 IH]; intros l1 p_nbl l r Hr Hne Hp Hinv; [done|].
  cbn [fmap list_fmap foldr snd fst] in *. inversion_clear Hok as [|? ? Hc Hok'].
  unfold kids_atts. cbn [map concat]. rewrite map_app, map_att_app. fold (kids_atts l2).
  set (rest := foldr (fun n a => 1 + tree_steps n + a)%nat 1%nat l2.*2) in *.
  cbn [Nat.add]. rewrite <- Nat.add_assoc. cbn [next_loop]. rewrite Hp.
  unfold ASN1_OID_MAX_LEN. rewrite (proj2 (Z.leb_gt _ _)) by lia.
  destruct (aread_rep _ _ _ _ _ Hr) as (-> & _ & ->).
  destruct (res_inv_write pre id r Hinv ltac:(lia)) as (cells & -> & Hinv' & _).
  assert (sub_id_cnt gn = Z.of_nat (length l1 + S (length l2))) as ->.
  { destruct Hr as (? & ? & _ & _ & _ & -> & _). rewrite length_app. cbn [length]. lia. }
  rewrite Z.geb_leb. replace (S (length pre)) with (length (pre ++ [id])) by (rewrite length_app; cbn; lia).
  set (entry := if Z.of_nat (length l1 + S (length l2)) <=? _ then _ else _).
  eapply sim_app.
  { specialize (Hc (rest + fuel)%nat (entry :: stack) (pre ++ [id]) id_len l (set_oid cells (r_id_len r) r) Hinv').
    cbn zeta in Hc. apply Hc; [cbn [length]; lia|rewrite length_app; cbn [length]; lia]. }
  cbn beta. intros l' r' [Hinv2 Hrun]. rewrite Hrun. unfold resume. 
  rewrite length_app, Nat.add_1_r. cbn [next_loop]. apply res_inv_app in Hinv2.
  destruct l2 as [|kv l2].
  - unfold entry. cbn [length]. rewrite (proj2 (Z.leb_le _ _)) by lia. apply sim_nil. done.
  - unfold entry. rewrite (proj2 (Z.leb_gt _ _)) by (cbn [length]; lia).
    apply (IH Hok' (l1 ++ [(id, c)])); [by rewrite <- app_assoc|done|by rewrite length_app; cbn; lia|done].
Qed.

Lemma imm_instance d cb : imm_ok d (MIB_OBJ_INSTANCE cb).
Proof.
  intros fuel stack pre id_len l r Hinv _ _.
  change (map (att_app pre) _) with [(pre ++ [], cb, @nil Z)]. rewrite app_nil_r.
  change (tree_steps (MIB_OBJ_INSTANCE cb) + fuel)%nat with (S fuel).
  apply sim_instance; [done|]. unfold slice. by rewrite decide_True by lia.
Qed.

Lemma imm_spec w d n : wf w d n -> imm_ok d n.
Proof.
  revert n. induction d as [|d IH]; intros [gn|cb] Hwf; [done|apply imm_instance| |apply imm_instance].
  intros fuel stack pre id_len l r Hinv Hst Hpre. destruct Hwf as (kl & Hr & _ & Hf).
  rewrite (imm_atts_group _ _ Hr), (tree_steps_rep _ _ Hr). destruct kl as [|kv kl].
  - rewrite decide_True by done. cbn [fmap list_fmap foldr Nat.add next_loop].
    unfold ASN1_OID_MAX_LEN. rewrite (proj2 (Z.leb_gt _ _)) by lia.
    destruct Hr as (pi & pp & -> & -> & _ & -> & _ & _ & _ & Hz). cbn [length fmap list_fmap app] in *.
    destruct Hz as [Hz1 Hz2]; [done|]. unfold aread. change (Z.to_nat 0) with 0%nat. change (0 <=? 0) with true.
    cbn match. rewrite Hz1, Hz2.
    destruct (res_inv_write pre 0 r Hinv ltac:(lia)) as (cells & -> & Hinv' & _).
    change (0 + 1 >=? Z.of_nat 0) with true. cbn match. apply sim_nil_var with (set_oid cells (r_id_len r) r); [done|].
    split; [by eapply res_inv_app|]. unfold resume. done.
  - rewrite decide_False by done. rewrite Nat.add_0_l.
    apply (imm_group gn [] (kv :: kl) d); [done|done| |done|done|lia|lia].
    apply Forall_fmap. eapply Forall_impl; [exact Hf|]. cbn. intros [? ?] [? ?]. by apply IH.
Qed.

(** Following the given identifier. *)
Definition rem_ok (d : nat) (n : mib_node) (rem : list Z) : Prop := forall F fuel stack pre l r,
  res_inv pre r -> (length stack + d <= 64)%nat -> (length pre + d <= 1024)%nat ->
  slice (length pre) (length rem) (r_oid r) = Some rem ->
  (tree_steps n + S fuel <= F)%nat ->
  let run := nloop F view orig_oid false None (Some n) stack (length pre) (Z.of_nat (length rem)) l r in
  sim run (map (att_app pre) (attempts n rem)) l r
    (fun l' r' => res_inv pre r' /\ exists fuel' id_len, (fuel <= fuel')%nat /\
       run = resume fuel' stack (length pre) id_len l' r').

Lemma slice_cons (cells : list Z) p id rem :
  slice p (S (length rem)) cells = Some (id :: rem) ->
  cells !! p = Some id /\ slice (S p) (length rem) cells = Some rem.
Proof.
  unfold slice. case_decide as H; [|done]. intros [= E].
  destruct (drop p cells) as [|x tl] eqn:Ed; [done|]. cbn in E. injection E as -> E.
  split.
  - rewrite <- (Nat.add_0_r p), <- lookup_drop, Ed. done.
  - rewrite decide_True by lia. f_equal. replace (S p) with (p + 1)%nat by lia.
    by rewrite <- drop_drop, Ed.
Qed.

(** The children after the one at index [length l1] are tried by backtracking. *)
Definition sibling_entry (gn : mib_group_node) (i : nat) : option mib_node * Z :=
  if sub_id_cnt gn <=? Z.of_nat i + 1 then (None, 0) else (Some (MIB_OBJ_GROUP gn), Z.of_nat i + 1).

Lemma siblings_sim gn l1 id c l2 w d fuel stack pre id_len l r :
  rep gn (l1 ++ (id, c) :: l2) -> Forall (fun kv => is_u32 kv.1 /\ wf w d kv.2) l2 ->
  res_inv pre r -> (length stack + S d <= 64)%nat -> (length pre + S d <= 1024)%nat ->
  let run := resume (foldr (fun n a => 1 + tree_steps n + a) 1 l2.*2 + fuel)%nat
               (sibling_entry gn (length l1) :: stack) (S (length pre)) id_len l r in
  sim run (map (att_app pre) (kids_atts l2)) l r
    (fun l' r' => res_inv pre r' /\ run = resume fuel stack (length pre) id_len l' r').
Proof.
  intros Hr Hf Hinv Hst Hpre. unfold resume, sibling_entry. cbn [next_loop].
  assert (sub_id_cnt gn = Z.of_nat (length l1 + S (length l2))) as ->.
  { destruct Hr as (? & ? & _ & _ & _ & -> & _). rewrite length_app. cbn [length]. lia. }
  destruct l2 as [|kv l2].
  - cbn [length]. rewrite (proj2 (Z.leb_le _ _)) by lia. apply sim_nil. done.
  - rewrite (proj2 (Z.leb_gt _ _)) by (cbn [length]; lia).
    apply (imm_group gn (l1 ++ [(id, c)]) (kv :: l2) d); try done.
    + by rewrite <- app_assoc.
    + apply Forall_fmap. eapply Forall_impl; [exact Hf|]. cbn. intros [? ?] [? ?]. by eapply imm_spec.
    + rewrite length_app. cbn. lia.
Qed.

Lemma rem_instance d cb rem : rem_ok d (MIB_OBJ_INSTANCE cb) rem.
Proof.
  intros F fuel stack pre l r Hinv _ _ Hs HF. destruct F as [|F]; [cbn in HF; lia|].
  change (attempts (MIB_OBJ_INSTANCE cb) rem) with
    (omap (fun '(o, cb) => if decide (o `prefix_of` rem) then Some (o, cb, drop (length o) rem)
      else if decide (oid_lt rem o) then Some (o, cb, []) else None) [([], cb)]).
  cbn [omap list_omap]. rewrite decide_True by apply prefix_nil. cbn [map att_app]. rewrite app_nil_r, drop_0.
  eapply sim_mono; [by apply sim_instance; [done|rewrite Nat2Z.id]|].
  cbn beta. intros l' r' [? ->]. split; [done|]. do 2 eexists. split; [|done]. cbn in HF. lia.
Qed.

Lemma foldr_steps_app (l1 l2 : list mib_node) :
  (foldr (fun n a => 1 + tree_steps n + a) 1 (l1 ++ l2) =
   foldr (fun n a => 1 + tree_steps n + a) 0 l1 + foldr (fun n a => 1 + tree_steps n + a) 1 l2)%nat.
Proof. induction l1 as [|n l1 IH]; cbn [app foldr]; [done|]. rewrite IH. lia. Qed.

Lemma foldr_steps_pos (l : list mib_node) : (1 <= foldr (fun n a => 1 + tree_steps n + a) 1 l)%nat.
Proof. destruct l; cbn; lia. Qed.

(** A child on the way to the given identifier, then its siblings. *)
Lemma rem_child gn l1 id c l2 w d rem F fuel stack pre l r :
  rep gn (l1 ++ (id, c) :: l2) -> Forall (fun kv => is_u32 kv.1 /\ wf w d kv.2) l2 -> wf w d c ->
  (rem <> [] \/ (exists cb, c = MIB_OBJ_INSTANCE cb) -> rem_ok d c rem) ->
  res_inv (pre ++ [id]) r -> (length stack + S d <= 64)%nat -> (length pre + S d <= 1024)%nat ->
  slice (S (length pre)) (length rem) (r_oid r) = Some rem ->
  (tree_steps c + foldr (fun n a => 1 + tree_steps n + a) 1 l2.*2 + S fuel <= F)%nat ->
  let imm := (Z.of_nat (length rem) =? 0) && match c with MIB_OBJ_GROUP _ => true | _ => false end in
  let run := nloop F view orig_oid imm None (Some c) (sibling_entry gn (length l1) :: stack)
               (S (length pre)) (Z.of_nat (length rem)) l r in
  sim run (map (att_app pre) (map (att_app [id]) (attempts c rem) ++ kids_atts l2)) l r
    (fun l' r' => res_inv pre r' /\ exists fuel' id_len, (fuel <= fuel')%nat /\
       run = resume fuel' stack (length pre) id_len l' r').
Proof.
  intros Hr Hf Hwfc Hc Hinv Hst Hpre Hsl HF. cbn zeta. rewrite map_app, map_att_app.
  set (sib := foldr (fun n a => 1 + tree_steps n + a)%nat 1%nat l2.*2) in *.
  replace (S (length pre)) with (length (pre ++ [id])) in * by (rewrite length_app; cbn; lia).
  assert (length (sibling_entry gn (length l1) :: stack) + d <= 64)%nat as Hst' by (cbn [length]; lia).
  assert (length (pre ++ [id]) + d <= 1024)%nat as Hpre' by (rewrite length_app; cbn [length]; lia).
  set (run := nloop F view orig_oid _ None (Some c) _ _ _ l r).
  apply (sim_app run _ _ _ _ (fun l' r' => res_inv (pre ++ [id]) r' /\ exists fuel' id_len, (sib + fuel <= fuel')%nat /\
    run = resume fuel' (sibling_entry gn (length l1) :: stack) (length (pre ++ [id])) id_len l' r')).
  - unfold run. clear run. destruct (_ && _) eqn:Eimm.
    + apply andb_true_iff in Eimm as [E0%Z.eqb_eq _].
      assert (rem = []) as -> by (destruct rem; [done|cbn [length] in E0; lia]).
      rewrite attempts_nil. replace F with (tree_steps c + (F - tree_steps c))%nat by lia.
      eapply sim_mono; [by apply (imm_spec w d c Hwfc)|]. cbn beta. intros l' r' [? Hrun]. split; [done|].
      do 2 eexists. split; [|exact Hrun]. lia.
    + assert (rem <> [] \/ exists cb, c = MIB_OBJ_INSTANCE cb) as Hne.
      { destruct rem; [right|by left]. destruct c; [done|by eexists]. }
      apply (Hc Hne F (sib + fuel)%nat); done || lia.
  - clearbody run. cbn beta. intros l' r' (Hinv' & fuel' & id_len & Hfuel & ->).
    assert (fuel' = sib + (fuel' - sib))%nat as Efuel by lia. set (x := (fuel' - sib)%nat) in *. clearbody x.
    subst fuel'. rewrite length_app, Nat.add_1_r.
    eapply sim_mono.
    + apply (siblings_sim gn l1 id c l2 w d); try done. by eapply res_inv_app.
    + cbn beta. intros l'' r'' [? Hrun]. split; [done|]. do 2 eexists. split; [|exact Hrun]. lia.
Qed.

Lemma rem_group gn w d id rem :
  wf w (S d) (MIB_OBJ_GROUP gn) ->
  (forall c, wf w d c -> rem <> [] \/ (exists cb, c = MIB_OBJ_INSTANCE cb) -> rem_ok d c rem) ->
  Z.of_nat (length rem) < 2 ^ 32 - 1 ->
  rem_ok (S d) (MIB_OBJ_GROUP gn) (id :: rem).
Proof.
  intros Hwf IH Hlen F fuel stack pre l r Hinv Hst Hpre Hsl HF.
  destruct F as [|F]; [cbn in HF; lia|]. pose proof Hwf as (kl & Hr & _ & Hf).
  destruct (slice_cons _ _ _ _ Hsl) as [Hx Hsl'].
  assert (u32 (Z.of_nat (length (id :: rem)) - 1) = Z.of_nat (length rem)) as Elen.
  { cbn [length]. rewrite u32_id by (unfold is_u32; lia). lia. }
  pose proof (tree_steps_rep _ _ Hr) as Hts.
  destruct (group_search gn kl id Hr) as [(l1 & c & l2 & -> & Hk & Hb)|(l1 & l2 & -> & Hk & Hs & Hb)].
  - rewrite (attempts_found _ _ _ _ _ _ Hr). cbn [next_loop]. rewrite Hx, Hb, Elen.
    rewrite !(proj2 (Z.ltb_ge _ _)) by lia. cbn [andb orb].
    unfold ASN1_OID_MAX_LEN. rewrite (proj2 (Z.leb_gt _ _)) by lia.
    destruct (aread_rep _ _ _ _ _ Hr) as (-> & _ & ->).
    destruct (res_inv_write pre id r Hinv ltac:(lia)) as (cells & -> & Hinv' & Hcells & Hkeep).
    rewrite Z.geb_leb. apply Forall_app in Hf as [_ Hf]. inversion_clear Hf as [|? ? [_ Hwfc] Hf2].
    rewrite decide_False, fmap_app, foldr_steps_app in Hts by (by destruct l1).
    cbn [fmap list_fmap foldr snd] in Hts.
    apply (sim_start _ _ _ (set_oid cells (r_id_len r) r)); [done|].
    apply (rem_child gn l1 id c l2 w d); try done; try lia; [by apply IH|].
    cbn. replace (S (length pre)) with (length (pre ++ [id])) in * by (rewrite length_app; cbn; lia). by apply Hkeep.
  - rewrite (attempts_not_found _ _ _ _ _ Hr Hs). 
    assert (sub_id_cnt gn = Z.of_nat (length l1 + length l2)) as Hcnt.
    { destruct Hr as (? & ? & _ & _ & _ & -> & _). by rewrite length_app. }
    cbn [next_loop]. rewrite Hx, Hb, Elen, (proj2 (Z.ltb_lt _ 0)) by lia. cbn [andb orb].
    replace (- (- Z.of_nat (length l1) - 1) - 1) with (Z.of_nat (length l1)) by lia. rewrite Hcnt.
    destruct l2 as [|[id2 c2] l2].
    { rewrite (proj2 (Z.eqb_eq _ _)) by (cbn; lia). apply sim_nil. split; [done|].
      exists F. eexists. split; [lia|]. unfold resume. done. }
    rewrite (proj2 (Z.eqb_neq _ _)) by (cbn [length]; lia). destruct (Z.eqb_spec (Z.of_nat (length l1)) 0) as [E0|E0].
    + destruct l1; [|cbn [length] in E0; lia]. cbn [app] in Hr. rewrite <- (imm_atts_group _ _ Hr).
      assert (F = tree_steps (MIB_OBJ_GROUP gn) + (F - tree_steps (MIB_OBJ_GROUP gn)))%nat as EF by lia.
      rewrite EF. eapply sim_mono; [by apply (imm_spec w (S d))|]. cbn beta. intros l' r' [? Hrun].
      split; [done|]. do 2 eexists. split; [|exact Hrun]. lia.
    + rewrite decide_False, fmap_app, foldr_steps_app in Hts by (by destruct l1).
      apply Forall_app in Hf as [_ Hf].
      set (sib := foldr (fun n a => 1 + tree_steps n + a)%nat 1%nat ((id2, c2) :: l2).*2) in *.
      pose proof (imm_group gn l1 ((id2, c2) :: l2) d (Some (Z.of_nat (length l1))) (S F - sib) stack pre
        (Z.of_nat (length rem)) l r Hr ltac:(done)) as Hg. fold sib in Hg.
      replace (sib + (S F - sib))%nat with (S F) in Hg by lia. cbn zeta in Hg. cbn [next_loop] in Hg.
      rewrite Hcnt in Hg. destruct (aread_rep _ _ _ _ _ Hr) as (E1 & _ & E2). rewrite E1, E2 in *.
      destruct (awrite (r_oid r) _ id2); [|destruct (_ <=? _)].
      all: eapply sim_mono; [apply Hg; try done; try lia|].
      all: try (apply Forall_fmap; eapply Forall_impl; [exact Hf|]; cbn; intros [? ?] [? ?]; by eapply imm_spec).
      all: cbn beta; intros l' r' [? Hrun]; split; [done|]; do 2 eexists; (split; [|exact Hrun]; lia).
Qed.

Lemma rem_spec w d rem : Z.of_nat (length rem) < 2 ^ 32 - 1 ->
  forall n, wf w d n -> rem <> [] \/ (exists cb, n = MIB_OBJ_INSTANCE cb) -> rem_ok d n rem.
Proof.
  revert d. induction rem as [|id rem IH]; intros d Hlen [gn|cb] Hwf Hne.
  - destruct Hne as [|[? ?]]; done.
  - apply rem_instance.
  - destruct d as [|d]; [done|]. cbn [length] in Hlen. apply (rem_group gn w); [done| |lia].
    intros c Hc. apply IH; [lia|done].
  - apply rem_instance.
Qed.
End Traversal.

(** ** The descent *)
Lemma walk_spec oid : forall w d n i, wf w d n ->
  let '(n', p, rest) := walk n oid in
  search_walk (Some n) oid i = Some (Some n', (i + length p)%nat, rest) /\
  oid = p ++ rest /\ (length p <= d)%nat /\ wf w (d - length p) n' /\ node_find n p = Some n' /\
  match n', rest with MIB_OBJ_GROUP gn, id :: _ => kmap (kids gn) !! id = None | _, _ => True end.
Proof.
  induction oid as [|id oid IH]; intros w d n i Hwf.
  { cbn. destruct n; rewrite Nat.add_0_r, Nat.sub_0_r; split_and!; done || lia. }
  destruct n as [gn|cb]; [|cbn; rewrite Nat.add_0_r, Nat.sub_0_r; split_and!; done || lia].
  destruct d as [|d]; [done|]. pose proof Hwf as (l & Hr & _ & Hf). cbn [walk search_walk].
  rewrite (kids_rep _ _ Hr).
  destruct (group_search gn l id Hr) as [(l1 & c & l2 & -> & Hk & ->)|(l1 & l2 & -> & Hk & Hs & ->)];
    rewrite Hk, Z.geb_leb; zdec.
  - destruct (aread_rep _ _ _ _ _ Hr) as (-> & _). apply Forall_middle in Hf as [[_ Hc] _].
    specialize (IH w d c (S i) Hc). destruct (walk c oid) as [[n' p] rest].
    destruct IH as (-> & -> & Hp & Hwf' & Hn & Hstop). cbn [length app node_find]. rewrite (kids_rep _ _ Hr), Hk.
    split_and!; try done; try lia. do 3 f_equal. lia.
  - cbn [length node_find]. rewrite Nat.add_0_r, (kids_rep _ _ Hr). split_and!; done || lia.
Qed.

(** The instance that serves an identifier is the registered one that is a
    prefix of it. *)
Lemma walk_instance w d n p cb rest :
  wf w d n -> shape n p = Some (Some cb) -> walk n (p ++ rest) = (MIB_OBJ_INSTANCE cb, p, rest).
Proof.
  revert d n. induction p as [|id p IH]; intros d n Hwf Hs.
  - destruct n as [gn|cb']; unfold shape in Hs; cbn in Hs; [done|]. simplify_eq. cbn. by destruct rest.
  - destruct n as [gn|cb']; [|done]. rewrite shape_cons in Hs. cbn [app walk].
    destruct (kmap (kids gn) !! id) as [c|] eqn:Ek; [|done].
    destruct d as [|d]; [done|]. destruct Hwf as (l & Hr & _ & Hf). rewrite (kids_rep _ _ Hr) in Ek.
    apply elem_of_list_to_map_2 in Ek. rewrite Forall_forall in Hf.
    by rewrite (IH d c (proj2 (Hf _ Ek)) Hs).
Qed.

Lemma oid_dup_spec junk o : (length o <= 1024)%nat ->
  exists cells, oid_dup junk o = Some cells /\ length cells = 1024%nat /\ take (length o) cells = o.
Proof.
  intros H. unfold oid_dup. destruct (blit o (replicate (Z.to_nat ASN1_VALUE_MAX_LEN) junk)) as [cells|] eqn:E.
  - exists cells. split; [done|]. split; [|by apply blit_take in E].
    apply blit_length in E. by rewrite length_replicate in E.
  - unfold blit in E. case_decide as Hd; [done|]. rewrite length_replicate in Hd.
    change (Z.to_nat ASN1_VALUE_MAX_LEN) with 1024%nat in Hd. lia.
Qed.

Lemma cells_split (cells a b : list Z) :
  take (length (a ++ b)) cells = a ++ b ->
  take (length a) cells = a /\ slice (length a) (length b) cells = Some b.
Proof.
  intros H. rewrite <- (take_drop (length (a ++ b)) cells), H, <- app_assoc.
  split; [apply take_app_length|by apply slice_mid].
Qed.

(** Writing back what was read changes nothing. *)
Lemma write_ids_same i n ids (cells : list Z) :
  slice i n cells = Some ids -> (i <= length cells)%nat -> write_ids i ids cells = Some cells.
Proof.
  intros Hs Hi. unfold write_ids, blit. unfold slice in Hs. case_decide as Hd; [|done]. injection Hs as <-.
  rewrite length_take, length_drop. rewrite !decide_True by lia.
  destruct (decide (n = 0%nat)) as [->|].
  - rewrite take_0, Nat.min_0_l, drop_0. cbn [app]. by rewrite take_drop.
  - rewrite Nat.min_l by lia. by rewrite !take_drop.
Qed.

Section Top.
Context {L : Type}.
Context (lua_pcall : L -> Z -> Z -> list Z -> lua_arg -> lua_arg -> L * option lua_ret).
Context (e : endian) (junk : Z).

Local Abbreviation icall := (instance_call lua_pcall e).

Lemma instance_call_not_next l cb req ids v l' err ids' v' :
  req <> SNMP_REQ_GETNEXT -> icall l cb req ids v = Some (l', err, ids', v') -> ids' = ids.
Proof.
  intros Hreq. unfold instance_call. rewrite (proj2 (Z.eqb_neq req SNMP_REQ_GETNEXT) Hreq). intros E.
  destruct (req =? SNMP_REQ_SET).
  - destruct (set_arg e v) as [a|]; [|done].
    destruct (lua_pcall l cb req ids a _) as [l2 [ret|]]; [|by simplify_eq].
    by destruct (_ && _); simplify_eq.
  - destruct (lua_pcall l cb req ids _ _) as [l2 [ret|]]; [|by simplify_eq].
    destruct (_ && _); [|by simplify_eq]. by destruct (store_value e _ _ v); simplify_eq.
Qed.

(** The outcome of a GET or SET search. *)
Definition get_spec (root : mib_node) (view orig_oid : list Z) (req : Z) (l : L) (v : asn1_var)
    : option (option mib_node * L * Z * asn1_var) :=
  if decide (view `prefix_of` orig_oid) then
    let '(n, p, rest) := walk root orig_oid in
    match n, rest with
    | MIB_OBJ_INSTANCE cb, _ :: _ =>
        let* (l', err, _, v') := icall l cb req rest v in Some (Some n, l', err, v')
    | MIB_OBJ_INSTANCE _, [] => Some (Some n, l, 0, set_tag ASN1_TAG_NO_SUCH_INST v)
    | MIB_OBJ_GROUP _, _ => Some (Some n, l, 0, set_tag ASN1_TAG_NO_SUCH_OBJ v)
    end
  else Some (None, l, 0, set_tag ASN1_TAG_NO_SUCH_OBJ v).

Definition get_ok (root : mib_node) (orig_oid : list Z) (req : Z) (node : option mib_node) (err : Z) (v : asn1_var)
    (r : oid_search_res) : Prop :=
  length (r_oid r) = 1024%nat /\ take (length orig_oid) (r_oid r) = orig_oid /\
  r_id_len r = Z.of_nat (length orig_oid) /\ r_err_stat r = err /\ r_var r = v /\ r_request r = req /\
  (is_Some node -> r_inst_id r = Some (length (walk root orig_oid).1.2)).

Lemma search_spec root w view orig_oid l r :
  root_wf w root -> oid_ok view -> oid_ok orig_oid -> (length orig_oid <= 1024)%nat ->
  r_request r <> SNMP_REQ_GETNEXT ->
  match get_spec root view orig_oid (r_request r) l (r_var r) with
  | None => mib_tree_search lua_pcall e junk root view orig_oid l r = None
  | Some (node, l', err, v) => exists r',
      mib_tree_search lua_pcall e junk root view orig_oid l r = Some (node, l', r') /\
      get_ok root orig_oid (r_request r) node err v r'
  end.
Proof.
  intros [Hwf _] Hv Ho Hlen Hreq. unfold get_spec, mib_tree_search, get_ok.
  destruct (oid_dup_spec junk orig_oid Hlen) as (cells & -> & Hc1 & Hc2).
  rewrite (oid_cover_spec view orig_oid Hv Ho). case_decide as Hp.
  2:{ rewrite (proj2 (Z.leb_le _ 0)) by (case_decide; lia). eexists. split; [done|]. split_and!; try done. }
  change (1 <=? 0) with false. cbn match.
  pose proof (walk_spec orig_oid w 64%nat root 0%nat Hwf) as Hw.
  destruct (walk root orig_oid) as [[n p] rest]. destruct Hw as (-> & Eo & Hpd & Hwfn & _ & _).
  cbn [fst snd]. rewrite Nat.add_0_l. destruct n as [gn|cb].
  { eexists. split; [done|]. split_and!; done. }
  destruct rest as [|id rest]; [eexists; split; [done|]; split_and!; done|].
  unfold mib_instance_search. cbn [r_inst_id r_oid r_inst_id_len r_callback r_request r_var set_callback set_inst set_err_stat set_oid].
  assert (slice (length p) (length (id :: rest)) cells = Some (id :: rest)) as Hs.
  { rewrite Eo in Hc2. by destruct (cells_split _ _ _ Hc2). }
  rewrite Nat2Z.id, Hs.
  destruct (icall l cb (r_request r) (id :: rest) (r_var r)) as [[[[l' err] ids'] v']|] eqn:Ec; [|done].
  rewrite (instance_call_not_next _ _ _ _ _ _ _ _ _ Hreq Ec).
  rewrite (write_ids_same _ _ _ _ Hs) by (rewrite Hc1; rewrite Eo, length_app in Hlen; lia).
  eexists. split; [done|]. split_and!; done.
Qed.

(** How GETNEXT starts: the node of the view is looked up with a GET search,
    whose handler call, if any, happens before the first attempt. *)
Definition next_plan (root : mib_node) (view orig_oid : list Z) (l : L) (v : asn1_var)
    : option (L * asn1_var * list attempt) :=
  let '(n, p, rest) := walk root view in
  if decide (view `prefix_of` orig_oid) then
    let* (_, l', _, v') := get_spec root view view SNMP_REQ_GET l v in
    Some (l', v', map (att_app p) (attempts n (drop (length p) orig_oid)))
  else if oid_cmp orig_oid view <? 0 then
    let* (_, l', _, v') := get_spec root view view SNMP_REQ_GET l v in
    Some (l', v', map (att_app p) (match n with MIB_OBJ_GROUP _ => imm_atts n | _ => attempts n rest end))
  else Some (l, v, []).

Definition next_post (orig_oid : list Z) (res : next_res) (r : oid_search_res) : Prop :=
  length (r_oid r) = 1024%nat /\
  match res with
  | NextFound o err v =>
      take (length o) (r_oid r) = o /\ r_id_len r = Z.of_nat (length o) /\ r_err_stat r = err /\ r_var r = v
  | NextEnd v =>
      take (length orig_oid) (r_oid r) = orig_oid /\ r_id_len r = Z.of_nat (length orig_oid) /\
      r_err_stat r = 0 /\ r_var r = set_tag ASN1_TAG_END_OF_MIB_VIEW v
  end.

Definition next_full (root : mib_node) (view orig_oid : list Z) (l : L) (v : asn1_var) : option (L * next_res) :=
  let* (l', v', atts) := next_plan root view orig_oid l v in
  next_spec lua_pcall e view atts l' v'.

Lemma oid_cpy_spec cells o : length cells = 1024%nat -> (length o <= 1024)%nat ->
  exists cells', oid_cpy cells o = Some cells' /\ length cells' = 1024%nat /\ take (length o) cells' = o.
Proof.
  intros Hc Ho. unfold oid_cpy. destruct (blit o cells) as [cells'|] eqn:E.
  - exists cells'. split; [done|]. split; [|by apply blit_take in E]. apply blit_length in E. lia.
  - unfold blit in E. case_decide; [done|lia].
Qed.

(** Running out of backlog ends the view. *)
Lemma resume_nil view orig_oid fuel p id_len l r pre :
  res_inv pre r -> (length orig_oid <= 1024)%nat ->
  exists r', resume lua_pcall e view orig_oid fuel [] p id_len l r = Some (l, r') /\
    next_post orig_oid (NextEnd (r_var r)) r'.
Proof.
  intros (_ & Hc & _) Ho. unfold resume. cbn [next_loop].
  destruct (oid_cpy_spec (r_oid r) orig_oid Hc Ho) as (cells' & -> & ? & ?).
  eexists. split; [done|]. split_and!; done.
Qed.

Lemma sim_top view orig_oid run atts l v r :
  sim lua_pcall e view run atts l r (fun l' r' =>
    exists pre, res_inv pre r' /\ exists fuel' id_len, run = resume lua_pcall e view orig_oid fuel' [] (length pre) id_len l' r') ->
  r_var r = v -> (length orig_oid <= 1024)%nat ->
  match next_spec lua_pcall e view atts l v with
  | None => run = None
  | Some (l', res) => exists r', run = Some (l', r') /\ next_post orig_oid res r'
  end.
Proof.
  unfold sim. intros H <- Ho. destruct (next_spec _ _ _ _ _ _) as [[l' [o err v|v]]|]; [| |done].
  - destruct H as (r' & -> & ((_ & ? & ?) & ? & ? & ?)). exists r'. split; [done|]. by split_and!.
  - destruct H as (r' & <- & pre & Hinv & fuel' & id_len & ->).
    by eapply resume_nil.
Qed.

Lemma get_spec_view root view req l v :
  get_spec root view view req l v = None \/
  exists l' err v', get_spec root view view req l v = Some (Some (walk root view).1.1, l', err, v').
Proof.
  unfold get_spec. rewrite decide_True by done. destruct (walk root view) as [[n p] rest]. cbn [fst].
  destruct n as [gn|cb]; [right; by do 3 eexists|]. destruct rest as [|id rest]; [right; by do 3 eexists|].
  destruct (icall l cb req (id :: rest) v) as [[[[l' err] ids'] v']|]; [right; by do 3 eexists|by left].
Qed.

(** The search from the node [n] at [p]. *)
Lemma start_sim w d view orig_oid n p rem imm l r :
  wf w d n -> (d + length p <= 64)%nat -> res_inv p r ->
  slice (length p) (length rem) (r_oid r) = Some rem -> Z.of_nat (length rem) < 2 ^ 32 - 1 ->
  (imm = false -> rem <> [] \/ exists cb, n = MIB_OBJ_INSTANCE cb) ->
  (length orig_oid <= 1024)%nat ->
  match next_spec lua_pcall e view (map (att_app p) (if imm then imm_atts n else attempts n rem)) l (r_var r) with
  | None => next_loop lua_pcall e (S (tree_steps n)) view orig_oid imm None (Some n) [] (length p)
              (Z.of_nat (length rem)) l r = None
  | Some (l', res) => exists r',
      next_loop lua_pcall e (S (tree_steps n)) view orig_oid imm None (Some n) [] (length p)
        (Z.of_nat (length rem)) l r = Some (l', r') /\ next_post orig_oid res r'
  end.
Proof.
  intros Hwf Hd Hinv Hs Hlen Himm Ho. eapply sim_top; [|done|done].
  destruct imm.
  - replace (S (tree_steps n)) with (tree_steps n + 1)%nat by lia.
    eapply sim_mono; [apply (imm_spec lua_pcall e view orig_oid w d n Hwf); [done|cbn; lia|lia]|].
    cbn beta. intros l' r' [? Hrun]. exists p. split; [done|]. do 2 eexists. exact Hrun.
  - specialize (Himm eq_refl).
    eapply sim_mono; [apply (rem_spec lua_pcall e view orig_oid w d rem Hlen n Hwf Himm _ 0%nat);
      [done|cbn; lia|lia|done|lia]|].
    cbn beta. intros l' r' (? & fuel' & id_len & _ & Hrun). exists p. split; [done|]. do 2 eexists. exact Hrun.
Qed.

(** The given identifier [p ++ rem] is in the view. *)
Lemma start_in_view w view n p rem cells l r :
  wf w (64 - length p) n -> (length p <= 64)%nat ->
  length cells = 1024%nat -> take (length (p ++ rem)) cells = p ++ rem -> (length (p ++ rem) <= 1024)%nat ->
  let r2 := set_err_stat 0 (set_oid cells (Z.of_nat (length (p ++ rem))) (set_request SNMP_REQ_GETNEXT r)) in
  let run := next_loop lua_pcall e (S (tree_steps n)) view (p ++ rem)
    (negb (Z.of_nat (length (p ++ rem)) >? Z.of_nat (length p))) None (Some n) [] (length p)
    (u32 (Z.of_nat (length (p ++ rem)) - Z.of_nat (length p))) l r2 in
  match next_spec lua_pcall e view (map (att_app p) (attempts n rem)) l (r_var r) with
  | None => run = None
  | Some (l', res) => exists r', run = Some (l', r') /\ next_post (p ++ rem) res r'
  end.
Proof.
  intros Hwf Hp Hc1 Hc2 Hlen. cbn zeta. destruct (cells_split _ _ _ Hc2) as [Hs1 Hs2].
  set (r2 := set_err_stat 0 _). change (r_var r) with (r_var r2).
  assert (res_inv p r2) as Hinv by (by split_and!).
  set (len := length (p ++ rem)) in *. assert (len = length p + length rem)%nat as Elen by apply length_app.
  rewrite Z.gtb_ltb, (u32_id _) by (unfold is_u32; lia).
  replace (Z.of_nat len - Z.of_nat (length p)) with (Z.of_nat (length rem)) by lia.
  set (imm := negb _).
  assert ((if imm then imm_atts n else attempts n rem) = attempts n rem /\ (imm = false -> rem <> [])) as [Eatt Himm].
  { unfold imm. destruct (Z.ltb_spec (Z.of_nat (length p)) (Z.of_nat len)); cbn [negb].
    - split; [done|]. intros _ ->. cbn in Elen. lia.
    - destruct rem; [by rewrite attempts_nil|cbn in Elen; lia]. }
  rewrite <- Eatt. apply (start_sim w (64 - length p)); try done; try lia. intros Hi. left. by apply Himm.
Qed.

(** The given identifier is before the view [p ++ rest]. *)
Lemma start_ahead w view orig_oid n p rest l r :
  wf w (64 - length p) n -> (length p <= 64)%nat -> (length orig_oid <= 1024)%nat ->
  length (r_oid r) = 1024%nat -> take (length (p ++ rest)) (r_oid r) = p ++ rest ->
  r_id_len r = Z.of_nat (length (p ++ rest)) -> (length (p ++ rest) <= 1024)%nat ->
  let r2 := set_err_stat 0 (set_request SNMP_REQ_GETNEXT r) in
  let run := next_loop lua_pcall e (S (tree_steps n)) view orig_oid
    (match n with MIB_OBJ_GROUP _ => true | _ => false end) None (Some n) [] (length p)
    (u32 (r_id_len r2 - Z.of_nat (length p))) l r2 in
  match next_spec lua_pcall e view (map (att_app p)
          (match n with MIB_OBJ_GROUP _ => imm_atts n | _ => attempts n rest end)) l (r_var r) with
  | None => run = None
  | Some (l', res) => exists r', run = Some (l', r') /\ next_post orig_oid res r'
  end.
Proof.
  intros Hwf Hp Ho Hc1 Hc2 Hid Hlen. cbn zeta. destruct (cells_split _ _ _ Hc2) as [Hs1 Hs2].
  set (r2 := set_err_stat 0 _). change (r_var r) with (r_var r2). change (r_id_len r2) with (r_id_len r).
  assert (res_inv p r2) as Hinv by (by split_and!). rewrite Hid. rewrite length_app in *.
  rewrite (u32_id _) by (unfold is_u32; lia).
  replace (Z.of_nat (length p + length rest) - Z.of_nat (length p)) with (Z.of_nat (length rest)) by lia.
  pose proof (start_sim w (64 - length p) view orig_oid n p rest
    (match n with MIB_OBJ_GROUP _ => true | _ => false end) l r2 Hwf ltac:(lia) Hinv Hs2 ltac:(lia)) as H.
  destruct n; (apply H; [|done]); [done|eauto].
Qed.

Lemma search_next_spec root w view orig_oid l r :
  root_wf w root -> oid_ok view -> oid_ok orig_oid -> (length view <= 1024)%nat -> (length orig_oid <= 1024)%nat ->
  match next_full root view orig_oid l (r_var r) with
  | None => mib_tree_search_next lua_pcall e junk root view orig_oid l r = None
  | Some (l', res) => exists r',
      mib_tree_search_next lua_pcall e junk root view orig_oid l r = Some (l', r') /\ next_post orig_oid res r'
  end.
Proof.
  intros Hroot Hv Ho Hlv Hlo. unfold next_full, next_plan, mib_tree_search_next.
  rewrite (oid_cover_spec view orig_oid Hv Ho).
  pose proof (search_spec root w view view l (set_request SNMP_REQ_GET r) Hroot Hv Hv Hlv ltac:(done)) as Hget.
  cbn [r_request r_var set_request] in Hget. unfold get_ok in Hget.
  pose proof (get_spec_view root view SNMP_REQ_GET l (r_var r)) as Hview.
  destruct Hroot as [Hwf _]. pose proof (walk_spec view w 64%nat root 0%nat Hwf) as Hw.
  destruct (walk root view) as [[n p] rest]. destruct Hw as (_ & Ev & Hp & Hwfn & _ & _).
  cbn [fst snd] in *. destruct (decide (view `prefix_of` orig_oid)) as [[k Ek]|Hpre].
  - change (1 >? 0) with true. cbn match. destruct Hview as [E|(l' & err & v' & E)]; rewrite E in Hget |- *.
    { by rewrite Hget. }
    destruct Hget as (r' & -> & Hc & _ & _ & _ & <- & _ & Hinst). rewrite (Hinst ltac:(by eexists)).
    destruct (oid_cpy_spec (r_oid r') orig_oid Hc Hlo) as (cells & -> & Hc1 & Hc2).
    assert (orig_oid = p ++ (rest ++ k)) as -> by (by rewrite Ek, Ev, app_assoc).
    rewrite drop_app_length. by apply (start_in_view w view n p (rest ++ k) cells l' r').
  - rewrite Z.gtb_ltb, (proj2 (Z.ltb_ge 0 _)) by (case_decide; lia). destruct (oid_cmp orig_oid view <? 0).
    + destruct Hview as [E|(l' & err & v' & E)]; rewrite E in Hget |- *.
      { by rewrite Hget. }
      destruct Hget as (r' & -> & Hc & Hcv & Hid & _ & <- & _ & Hinst). rewrite (Hinst ltac:(by eexists)).
      rewrite Ev in Hcv, Hid, Hlv. by apply (start_ahead w view orig_oid n p rest l' r').
    + destruct (oid_dup_spec junk view Hlv) as (cells & -> & Hc1 & _). cbn.
      destruct (oid_cpy_spec cells orig_oid Hc1 Hlo) as (cells' & -> & ? & ?).
      eexists. split; [done|]. by split_and!.
Qed.
End Top.

(** ** The order of identifiers and prefixes *)
Lemma oid_lt_app_mono o1 o2 a b : oid_lt o1 o2 -> ~ o1 `prefix_of` o2 -> oid_lt (o1 ++ a) (o2 ++ b).
Proof.
  revert o2. induction o1 as [|x o1 IH]; intros o2 H Hp; [by destruct Hp; apply prefix_nil|].
  destruct o2 as [|y o2]; [done|]. cbn [app]. apply oid_lt_cons_iff in H. apply oid_lt_cons_iff.
  destruct H as [H|[-> H]]; [by left|]. right. split; [done|]. apply IH; [done|].
  intros Hq. by apply Hp, prefix_cons.
Qed.

Lemma oid_lt_app_l p a b : oid_lt (p ++ a) (p ++ b) <-> oid_lt a b.
Proof. unfold oid_lt. by rewrite oid_compare_app. Qed.

(** What lies between two identifiers of a view is in the view. *)
Lemma prefix_between p a b c :
  p `prefix_of` a -> p `prefix_of` c -> oid_lt a b -> b = c \/ oid_lt b c -> p `prefix_of` b.
Proof.
  revert a b c. induction p as [|x p IH]; intros a b c [a' ->] [c' ->] Hab Hbc; [apply prefix_nil|].
  destruct b as [|y b]; [done|]. cbn [app] in *. apply oid_lt_cons_iff in Hab.
  destruct Hbc as [Hbc|Hbc]; [rewrite Hbc; by exists c'|]. apply oid_lt_cons_iff in Hbc.
  assert (y = x) as -> by lia. apply prefix_cons.
  apply (IH (p ++ a') b (p ++ c')); [by exists a'|by exists c'|intuition lia|].
  right. intuition lia.
Qed.

Lemma oid_lt_asym a b : oid_lt a b -> oid_lt b a -> False.
Proof. intros H1 H2. apply (irreflexivity oid_lt a). by transitivity b. Qed.

(** No registered instance is below another one. *)
Lemma shape_below n o cb x a : shape n o = Some (Some cb) -> shape n (o ++ x :: a) = None.
Proof.
  unfold shape. destruct (node_find n o) as [[gn|cb']|] eqn:E; [done| |done].
  by rewrite (node_find_app o (x :: a) n _ E).
Qed.

Lemma shape_prefix_free n o1 o2 cb k :
  shape n o1 = Some (Some cb) -> shape n o2 = Some k -> o1 `prefix_of` o2 -> o1 = o2.
Proof.
  intros H1 H2 [[|x a] ->]; [by rewrite app_nil_r|]. by rewrite (shape_below _ _ _ _ _ H1) in H2.
Qed.

Lemma StronglySorted_impl_in {A} (R R' : A -> A -> Prop) l :
  StronglySorted R l -> (forall x y, x ∈ l -> y ∈ l -> R x y -> R' x y) -> StronglySorted R' l.
Proof.
  induction 1 as [|x l Hs IH Hx]; intros H; constructor.
  - apply IH. intros. apply H; try done; by right.
  - apply Forall_forall. intros y Hy. rewrite Forall_forall in Hx. apply H; [by left|by right|by apply Hx].
Qed.

(** Whatever is appended to them, the instances stay in order. *)
Lemma instances_apart w d n :
  wf w d n -> StronglySorted (fun o1 o2 => forall a b, oid_lt (o1 ++ a) (o2 ++ b)) (instances n).*1.
Proof.
  intros Hwf. eapply StronglySorted_impl_in; [by eapply instances_sorted|].
  intros o1 o2 H1 H2 Hlt a b. apply oid_lt_app_mono; [done|]. intros Hp.
  apply list_elem_of_fmap in H1 as ([o1' cb1] & -> & H1), H2 as ([o2' cb2] & -> & H2).
  rewrite (instances_shape _ _ _ Hwf) in H1, H2. cbn in *.
  rewrite (shape_prefix_free _ _ _ _ _ H1 H2 Hp) in Hlt. by apply irreflexivity in Hlt; [|apply _].
Qed.

(** ** GETNEXT returns the successor *)

(** What a handler returns can be stored. *)
Definition storable (ret : lua_ret) : Prop :=
  u8 (ret_tag ret) ∈ [ASN1_TAG_INT; ASN1_TAG_OCTSTR; ASN1_TAG_CNT; ASN1_TAG_IPADDR; ASN1_TAG_OBJID;
                      ASN1_TAG_GAU; ASN1_TAG_TIMETICKS] /\
  Z.of_nat (length (lua_tostring (ret_val ret))) <= VALUE_SIZE /\
  4 * Z.of_nat (length (lua_totable (ret_val ret))) <= VALUE_SIZE.

(** The first of the sub-identifiers [ss] after [ids]. *)
Definition first_after (ids : list Z) (ss : list (list Z)) : option (list Z) :=
  List.find (fun s => bool_decide (oid_lt ids s)) ss.

(** The contract of the Lua handlers: callback [cb] serves the variables whose
    sub-identifiers are [table cb], and answers GETNEXT with the next one. *)
Class NextHandler {L : Type}
    (lua_pcall : L -> Z -> Z -> list Z -> lua_arg -> lua_arg -> L * option lua_ret)
    (table : Z -> list (list Z)) : Prop := {
  nh_sorted cb : StronglySorted oid_lt (table cb);
  nh_nonempty cb : [] ∉ table cb;
  nh_get l cb ids :
    match lua_pcall l cb SNMP_REQ_GET ids LuaNil LuaNil with
    | (_, Some ret) => i32 (ret_err ret) = 0 -> ASN1_TAG_VALID (u8 (ret_tag ret)) = true -> storable ret
    | (_, None) => True
    end;
  nh_next l cb ids :
    exists l' ret, lua_pcall l cb SNMP_REQ_GETNEXT ids LuaNil LuaNil = (l', Some ret) /\
      match first_after ids (table cb) with
      | Some s => i32 (ret_err ret) = 0 /\ map u32 (ret_ids ret) = s /\ storable ret
      | None => ASN1_TAG_VALID (u8 (ret_tag ret)) = false
      end;
}.

(** [x] is the identifier of a variable. *)
Definition is_var (table : Z -> list (list Z)) (root : mib_node) (x : list Z) : Prop :=
  exists o cb s, shape root o = Some (Some cb) /\ s ∈ table cb /\ x = o ++ s.

Section Successor.
Context {L : Type}.
Context (lua_pcall : L -> Z -> Z -> list Z -> lua_arg -> lua_arg -> L * option lua_ret).
Context (table : Z -> list (list Z)) `{!NextHandler lua_pcall table}.
Context (e : endian) (junk : Z).

Local Abbreviation icall := (instance_call lua_pcall e).

Definition value_ok (v : asn1_var) : Prop := Z.of_nat (length (value v)) = VALUE_SIZE.

Lemma store_value_ok ret v :
  storable ret -> value_ok v ->
  exists v', store_value e (u8 (ret_tag ret)) (ret_val ret) v = Some v' /\ value_ok v' /\
    ASN1_TAG_VALID (tag v') = true.
Proof.
  intros (Ht & Hs & Htab) Hv. unfold value_ok, VALUE_SIZE, ASN1_VALUE_MAX_LEN in *.
  assert (forall bs t n, (length bs <= length (value v))%nat -> ASN1_TAG_VALID t = true ->
    exists v', match blit bs (value v) with Some val => Some (mk_var t n val) | None => None end = Some v' /\
      Z.of_nat (length (value v')) = 8 * 1024 /\ ASN1_TAG_VALID (tag v') = true) as Hblit.
  { intros bs t n Hl Hvt. destruct (blit_fits bs (value v) Hl) as (mem' & -> & Hm).
    eexists. split; [done|]. cbn. split; [lia|done]. }
  set (t := u8 (ret_tag ret)) in *. clearbody t.
  unfold store_value. repeat (apply elem_of_cons in Ht as [->|Ht]); [..|by apply not_elem_of_nil in Ht].
  all: apply Hblit; [|done].
  all: rewrite ?length_mem_of, ?length_map, ?length_store_oid, ?length_map, ?length_take; try lia.
Qed.

Lemma call_next l cb ids v :
  value_ok v ->
  match first_after ids (table cb) with
  | Some s => exists l' v', icall l cb SNMP_REQ_GETNEXT ids v = Some (l', 0, s, v') /\
      ASN1_TAG_VALID (tag v') = true /\ value_ok v'
  | None => exists l' err v', icall l cb SNMP_REQ_GETNEXT ids v = Some (l', err, ids, v') /\
      ASN1_TAG_VALID (tag v') = false /\ value_ok v'
  end.
Proof.
  intros Hv. destruct (nh_next l cb ids) as (l' & ret & E & H). unfold instance_call.
  change (SNMP_REQ_GETNEXT =? SNMP_REQ_SET) with false. cbn match. rewrite E.
  destruct (first_after ids (table cb)) as [s|].
  - destruct H as (He & Hs & Hst). destruct (store_value_ok ret v Hst Hv) as (v' & Ev & Hv' & Ht).
    pose proof (store_value_tag _ _ _ _ _ Ev) as Et. rewrite Et in Ht. rewrite He, Ht, Ev, Hs.
    exists l', v'. split_and!; [done|by rewrite Et|done].
  - rewrite H, andb_false_r. by do 3 eexists.
Qed.

Lemma call_get l cb ids v : value_ok v ->
  exists l' err ids' v', icall l cb SNMP_REQ_GET ids v = Some (l', err, ids', v') /\ value_ok v'.
Proof.
  intros Hv. pose proof (nh_get l cb ids) as H. unfold instance_call.
  change (SNMP_REQ_GET =? SNMP_REQ_SET) with false. cbn match.
  destruct (lua_pcall l cb SNMP_REQ_GET ids LuaNil LuaNil) as [l' [ret|]]; [|by do 4 eexists].
  destruct (_ && _) eqn:Eb; [|by do 4 eexists]. apply andb_true_iff in Eb as [He%Z.eqb_eq Ht].
  destruct (store_value_ok ret v (H He Ht) Hv) as (v' & -> & Hv' & _). by do 4 eexists.
Qed.

(** What an attempt finds. *)
Definition cand (a : attempt) : option (list Z) :=
  let '(o, cb, ids) := a in (fun s => o ++ s) <$> first_after ids (table cb).

Lemma next_first view atts l v :
  value_ok v -> Forall (fun a => forall x, cand a = Some x -> (length x <= 64)%nat) atts ->
  exists l' v', next_spec lua_pcall e view atts l v = Some (l',
    match List.find (fun x => negb (oid_cover view x =? 0)) (omap cand atts) with
    | Some x => NextFound x 0 v'
    | None => NextEnd v'
    end) /\ value_ok v' /\
    match List.find (fun x => negb (oid_cover view x =? 0)) (omap cand atts) with
    | Some _ => ASN1_TAG_VALID (tag v') = true
    | None => True
    end.
Proof.
  intros Hv Hlen. revert l v Hv. induction Hlen as [|[[o cb] ids] atts Ha _ IH]; intros l v Hv.
  { by do 2 eexists. }
  cbn [next_spec omap list_omap]. pose proof (call_next l cb ids v Hv) as Hc. cbn [cand] in *.
  destruct (first_after ids (table cb)) as [s|].
  - destruct Hc as (l' & v' & -> & Hvt & Hv'). rewrite Hvt. cbn [fmap option_fmap option_map] in *.
    rewrite (proj2 (Nat.leb_le _ _)) by (by apply Ha). cbn [List.find].
    destruct (oid_cover view (o ++ s) =? 0); cbn [negb]; [by apply IH|]. by do 2 eexists.
  - destruct Hc as (l' & err & v' & -> & -> & Hv'). by apply IH.
Qed.

(** ** Candidates are the variables that follow *)
Lemma first_after_spec ids ss :
  StronglySorted oid_lt ss ->
  match first_after ids ss with
  | Some s => s ∈ ss /\ oid_lt ids s /\ forall s', s' ∈ ss -> oid_lt ids s' -> s = s' \/ oid_lt s s'
  | None => forall s', s' ∈ ss -> ~ oid_lt ids s'
  end.
Proof.
  unfold first_after. induction 1 as [|x ss Hs IH Hx]; cbn; [by intros s' ?%not_elem_of_nil|].
  destruct (bool_decide_reflect (oid_lt ids x)) as [H|H].
  - split_and!; [by left|done|]. intros s' [->|Hin]%elem_of_cons _; [by left|]. right.
    rewrite Forall_forall in Hx. by apply Hx.
  - destruct (List.find _ ss) as [s|].
    + destruct IH as (H1 & H2 & H3). split_and!; [by right|done|].
      intros s' [->|Hin]%elem_of_cons Hlt; [done|by apply H3].
    + intros s' [->|Hin]%elem_of_cons; [done|by apply IH].
Qed.

Lemma cand_sound w d n rem a x :
  wf w d n -> a ∈ attempts n rem -> cand a = Some x -> is_var table n x /\ oid_lt rem x.
Proof.
  intros Hwf Ha Hx. unfold attempts in Ha. apply list_elem_of_omap in Ha as ([o cb] & Hin & Ha).
  apply (instances_shape _ _ _ Hwf) in Hin.
  assert (forall ids, a = (o, cb, ids) -> exists s, x = o ++ s /\ s ∈ table cb /\ oid_lt ids s) as Hs.
  { intros ids ->. cbn in Hx. pose proof (first_after_spec ids (table cb) (nh_sorted cb)) as H.
    destruct (first_after ids (table cb)) as [s|]; [|done]. cbn in Hx. simplify_eq. exists s. tauto. }
  case_decide as Hp.
  - simplify_eq. destruct (Hs _ eq_refl) as (s & -> & Hs1 & Hs2). split; [by exists o, cb, s|].
    destruct Hp as [k ->]. rewrite drop_app_length in Hs2. by apply oid_lt_app_l.
  - case_decide as Hlt; [|done]. simplify_eq. destruct (Hs _ eq_refl) as (s & -> & Hs1 & Hs2).
    split; [by exists o, cb, s|]. transitivity o; [done|]. destruct s; [done|]. apply oid_lt_app_r.
Qed.

Lemma cand_complete w d n rem x :
  wf w d n -> is_var table n x -> oid_lt rem x ->
  exists a y, a ∈ attempts n rem /\ cand a = Some y /\ (y = x \/ oid_lt y x).
Proof.
  intros Hwf (o & cb & s & Ho & Hs & ->) Hlt.
  assert (forall ids, (o, cb, ids) ∈ attempts n rem -> oid_lt ids s ->
    exists a y, a ∈ attempts n rem /\ cand a = Some y /\ (y = o ++ s \/ oid_lt y (o ++ s))) as Hdone.
  { intros ids Hin Hids. pose proof (first_after_spec ids (table cb) (nh_sorted cb)) as H.
    exists (o, cb, ids). cbn. destruct (first_after ids (table cb)) as [s0|]; [|by destruct (H s)].
    exists (o ++ s0). destruct H as (_ & _ & H). split_and!; [done|done|].
    destruct (H s Hs Hids) as [->|?]; [by left|]. right. by apply oid_lt_app_l. }
  apply (instances_shape _ _ _ Hwf) in Ho. unfold attempts in *.
  destruct (decide (o `prefix_of` rem)) as [Hp|Hp].
  - destruct Hp as [k ->]. apply (Hdone k).
    + apply list_elem_of_omap. exists (o, cb). split; [done|]. rewrite decide_True by (by exists k). by rewrite drop_app_length.
    + by apply oid_lt_app_l in Hlt.
  - apply (Hdone []).
    + apply list_elem_of_omap. exists (o, cb). split; [done|]. rewrite decide_False by done.
      destruct (oid_lt_total rem o) as [H|[->|H]]; [by rewrite decide_True|by destruct Hp|].
      exfalso. pose proof (oid_lt_app_mono o rem s [] H Hp) as H'. rewrite app_nil_r in H'. by eapply oid_lt_asym.
    + apply oid_lt_nil. intros ->. by eapply nh_nonempty.
Qed.

Lemma StronglySorted_omap {A B} (R : A -> A -> Prop) (R' : B -> B -> Prop) (f : A -> option B) l :
  StronglySorted R l -> (forall x y x' y', R x y -> f x = Some x' -> f y = Some y' -> R' x' y') ->
  StronglySorted R' (omap f l).
Proof.
  intros Hs Hf. induction Hs as [|x l Hs IH Hx]; cbn; [constructor|].
  destruct (f x) as [x'|] eqn:E; [|done]. constructor; [done|].
  apply Forall_forall. intros y' (y & Hin & Hy)%list_elem_of_omap. rewrite Forall_forall in Hx. eauto.
Qed.

Lemma StronglySorted_fmap {A B} (R : B -> B -> Prop) (f : A -> B) l :
  StronglySorted R (f <$> l) -> StronglySorted (fun x y => R (f x) (f y)) l.
Proof.
  induction l as [|x l IH]; cbn; [constructor|]. inversion_clear 1 as [|? ? Hs Hx].
  constructor; [by apply IH|]. exact (proj1 (Forall_fmap f _ l) Hx).
Qed.

Lemma cands_sorted w d n rem : wf w d n -> StronglySorted oid_lt (omap cand (attempts n rem)).
Proof.
  intros Hwf. pose proof (StronglySorted_fmap _ _ _ (instances_apart w d n Hwf)) as Hs. cbn beta in Hs.
  assert (StronglySorted (fun a1 a2 : attempt => forall a b, oid_lt (a1.1.1 ++ a) (a2.1.1 ++ b)) (attempts n rem)) as Hs2.
  { eapply StronglySorted_omap; [exact Hs|]. intros [o1 cb1] [o2 cb2] x y H E1 E2. cbn in H.
    repeat case_decide; simplify_eq; cbn; exact H. }
  eapply StronglySorted_omap; [exact Hs2|]. intros [[o1 cb1] i1] [[o2 cb2] i2] x y H E1 E2. cbn in *.
  destruct (first_after i1 _), (first_after i2 _); cbn in *; simplify_eq. apply H.
Qed.

(** The variables of the view lie below the node the search starts from. *)
Lemma is_var_below root w view n p rest x :
  root_wf w root -> walk root view = (n, p, rest) -> view `prefix_of` x ->
  is_var table root x -> exists y, x = p ++ y /\ is_var table n y.
Proof.
  intros [Hwf _] Hw [k Hx] (o & cb & s & Ho & Hs & ->).
  pose proof (walk_spec view w 64%nat root 0%nat Hwf) as H. rewrite Hw in H.
  destruct H as (_ & -> & _ & _ & Hfind & _).
  assert (p `prefix_of` o) as [o' ->].
  { destruct (prefix_weak_total p o (o ++ s)) as [?|Hop]; [rewrite Hx; exists (rest ++ k); by rewrite app_assoc|by exists s|done|].
    assert (o = p) as ->; [|done]. apply (shape_prefix_free root o p cb
      match n with MIB_OBJ_GROUP _ => None | MIB_OBJ_INSTANCE c => Some c end); [done| |done].
    unfold shape. rewrite Hfind. by destruct n. }
  exists (o' ++ s). split; [by rewrite app_assoc|]. exists o', cb, s. split_and!; [|done|done].
  unfold shape in *. by rewrite (node_find_app p o' root n Hfind) in Ho.
Qed.

Lemma is_var_above root w view n p rest y :
  root_wf w root -> walk root view = (n, p, rest) -> is_var table n y -> is_var table root (p ++ y).
Proof.
  intros [Hwf _] Hw (o & cb & s & Ho & Hs & ->).
  pose proof (walk_spec view w 64%nat root 0%nat Hwf) as H. rewrite Hw in H. destruct H as (_ & _ & _ & _ & Hfind & _).
  exists (p ++ o), cb, s. split_and!; [|done|by rewrite app_assoc].
  unfold shape in *. by rewrite (node_find_app p o root n Hfind).
Qed.

Lemma omap_cand_app p atts : omap cand (map (att_app p) atts) = (fun x => p ++ x) <$> omap cand atts.
Proof.
  induction atts as [|[[o cb] ids] atts IH]; [done|]. cbn. rewrite IH.
  destruct (first_after ids (table cb)); [|done]. cbn. by rewrite app_assoc.
Qed.

Lemma get_spec_total root view l v : value_ok v ->
  exists node l' err v', get_spec lua_pcall e root view view SNMP_REQ_GET l v = Some (node, l', err, v') /\ value_ok v'.
Proof.
  intros Hv. unfold get_spec. rewrite decide_True by done.
  destruct (walk root view) as [[[gn|cb] p] [|id rest]]; [by do 4 eexists..| |].
  - by do 4 eexists.
  - destruct (call_get l cb (id :: rest) v Hv) as (l' & err & ids' & v' & -> & ?). by do 4 eexists.
Qed.

Lemma find_sorted_least (P : list Z -> bool) ss :
  StronglySorted oid_lt ss ->
  match List.find P ss with
  | Some s => s ∈ ss /\ P s = true /\ forall s', s' ∈ ss -> P s' = true -> s = s' \/ oid_lt s s'
  | None => forall s', s' ∈ ss -> P s' = false
  end.
Proof.
  induction 1 as [|x ss Hs IH Hx]; cbn; [by intros s' ?%not_elem_of_nil|].
  destruct (P x) eqn:E.
  - split_and!; [by left|done|]. intros s' [->|Hin]%elem_of_cons _; [by left|]. right.
    rewrite Forall_forall in Hx. by apply Hx.
  - destruct (List.find P ss) as [s|].
    + destruct IH as (H1 & H2 & H3). split_and!; [by right|done|].
      intros s' [->|Hin]%elem_of_cons Hp; [congruence|by apply H3].
    + intros s' [->|Hin]%elem_of_cons; [done|by apply IH].
Qed.

Lemma covered_iff view orig x : oid_ok view -> oid_ok x -> view `prefix_of` orig -> oid_lt orig x ->
  negb (oid_cover view x =? 0) = true <-> view `prefix_of` x.
Proof.
  intros Hv Hx [k ->] Hlt. rewrite (oid_cover_spec view x Hv Hx). case_decide as H1; [done|].
  case_decide as H2; [|done]. split; [|done]. intros _. exfalso. destruct H2 as [j ->].
  destruct j as [|y j]; [by rewrite app_nil_r in H1|]. rewrite <- app_assoc in Hlt.
  apply (oid_lt_asym _ _ Hlt). apply oid_lt_app_r.
Qed.

(** The candidates of the search that starts from the node of the view. *)
Section Candidates.
Context (root n : mib_node) (w : Z) (view p rest rem : list Z).
Context (Hroot : root_wf w root) (Hw : walk root view = (n, p, rest)).

Definition cands : list (list Z) := (fun x => p ++ x) <$> omap cand (attempts n rem).

Lemma walk_wf : wf w (64 - length p) n.
Proof.
  pose proof (walk_spec view w 64%nat root 0%nat (proj1 Hroot)) as H. rewrite Hw in H. tauto.
Qed.

Lemma cands_app_sorted : StronglySorted oid_lt cands.
Proof.
  unfold cands. pose proof (cands_sorted _ _ _ rem walk_wf) as Hs.
  induction Hs as [|x l Hs IH Hx]; cbn; constructor; [done|].
  apply Forall_fmap. eapply Forall_impl; [exact Hx|]. intros y Hy. by apply oid_lt_app_l.
Qed.

Lemma cands_sound x : x ∈ cands -> is_var table root x /\ oid_lt (p ++ rem) x.
Proof.
  intros (x' & -> & (a & Ha & Hx)%list_elem_of_omap)%list_elem_of_fmap.
  destruct (cand_sound _ _ _ _ _ _ walk_wf Ha Hx). split; [by eapply is_var_above|]. by apply oid_lt_app_l.
Qed.

Lemma cands_complete y :
  view `prefix_of` p ++ rem -> is_var table root y -> view `prefix_of` y -> oid_lt (p ++ rem) y ->
  exists x, x ∈ cands /\ view `prefix_of` x /\ (x = y \/ oid_lt x y).
Proof.
  intros Hpre Hy Hyv Hlt. destruct (is_var_below _ _ _ _ _ _ _ Hroot Hw Hyv Hy) as (y' & -> & Hy').
  apply oid_lt_app_l in Hlt. destruct (cand_complete _ _ _ _ _ walk_wf Hy' Hlt) as (a & x & Ha & Hx & Hle).
  assert (p ++ x = p ++ y' \/ oid_lt (p ++ x) (p ++ y')) as Hle'
    by (rewrite oid_lt_app_l; destruct Hle as [->|]; auto).
  assert (p ++ x ∈ cands) as Hin.
  { apply list_elem_of_fmap. exists x. split; [done|]. apply list_elem_of_omap. by exists a. }
  exists (p ++ x). split_and!; [done| |done].
  apply (prefix_between view (p ++ rem) _ (p ++ y')); [done|done|by apply cands_sound|done].
Qed.

Lemma cands_lengths :
  (forall x, is_var table root x -> (length x <= 64)%nat) ->
  Forall (fun a => forall x, cand a = Some x -> (length x <= 64)%nat) (map (att_app p) (attempts n rem)).
Proof.
  intros Hvars. apply Forall_forall. intros a Ha x Hx. apply Hvars, cands_sound.
  unfold cands. rewrite <- omap_cand_app. apply list_elem_of_omap. by exists a.
Qed.
End Candidates.

(** [res] is the first variable of the view after [orig]. *)
Definition succ_in (root : mib_node) (view orig : list Z) (res : next_res) : Prop :=
  match res with
  | NextFound x err v =>
      err = 0 /\ ASN1_TAG_VALID (tag v) = true /\ value_ok v /\
      is_var table root x /\ view `prefix_of` x /\ oid_lt orig x /\
      forall y, is_var table root y -> view `prefix_of` y -> oid_lt orig y -> x = y \/ oid_lt x y
  | NextEnd v => value_ok v /\ forall y, is_var table root y -> view `prefix_of` y -> ~ oid_lt orig y
  end.

(** The attempts for what follows [p ++ rem], an identifier of the view. *)
Lemma next_spec_successor root w view n p rest rem l v :
  root_wf w root -> oid_ok view -> walk root view = (n, p, rest) -> view `prefix_of` p ++ rem -> value_ok v ->
  (forall x, is_var table root x -> oid_ok x /\ (length x <= 64)%nat) ->
  exists l' res, next_spec lua_pcall e view (map (att_app p) (attempts n rem)) l v = Some (l', res) /\
    succ_in root view (p ++ rem) res.
Proof.
  intros Hroot Hview Ew Hpre Hv Hvars.
  destruct (next_first view (map (att_app p) (attempts n rem)) l v Hv) as (l2 & v2 & E & Hv2 & Ht2).
  { apply (cands_lengths root n w view p rest rem Hroot Ew). intros x Hx. by apply Hvars. }
  exists l2. eexists. split; [exact E|]. clear E. rewrite omap_cand_app in Ht2 |- *. fold (cands n p rem) in Ht2 |- *.
  pose proof (cands_sound root n w view p rest rem Hroot Ew) as Hin.
  pose proof (fun y => cands_complete root n w view p rest rem Hroot Ew y Hpre) as Hcomp.
  assert (forall x, x ∈ cands n p rem -> negb (oid_cover view x =? 0) = true <-> view `prefix_of` x) as Hcov.
  { intros x Hx. destruct (Hin x Hx). apply (covered_iff view (p ++ rem)); [done|by apply Hvars|done|done]. }
  pose proof (find_sorted_least (fun x => negb (oid_cover view x =? 0)) _
    (cands_app_sorted root n w view p rest rem Hroot Ew)) as Hfind.
  destruct (List.find _ _) as [x|].
  - destruct Hfind as (Hx & Hxc & Hleast). destruct (Hin x Hx) as [Hxv Hxlt].
    split_and!; [done|done|done|done|by apply Hcov|done|].
    intros y Hy Hyv Hlt. destruct (Hcomp y Hy Hyv Hlt) as (z & Hz & Hzv & Hle).
    destruct (Hleast z Hz) as [->|Hxz]; [by apply Hcov|done|].
    destruct Hle as [->|Hzy]; [by right|]. right. by transitivity z.
  - split; [done|]. intros y Hy Hyv Hlt. destruct (Hcomp y Hy Hyv Hlt) as (z & Hz & Hzv & Hle).
    specialize (Hfind z Hz). cbn beta in Hfind. rewrite (proj2 (Hcov z Hz) Hzv) in Hfind. done.
Qed.

(** The successor of an identifier of the view. *)
Lemma next_full_successor root w view orig l v :
  root_wf w root -> oid_ok view -> view `prefix_of` orig -> value_ok v ->
  (forall x, is_var table root x -> oid_ok x /\ (length x <= 64)%nat) ->
  exists l' res, next_full lua_pcall e root view orig l v = Some (l', res) /\ succ_in root view orig res.
Proof.
  intros Hroot Hview Hpre Hv Hvars. unfold next_full, next_plan.
  pose proof (walk_spec view w 64%nat root 0%nat (proj1 Hroot)) as Hw.
  destruct (walk root view) as [[n p] rest] eqn:Ew. destruct Hw as (_ & Ev & _ & _ & _).
  rewrite decide_True by done.
  destruct (get_spec_total root view l v Hv) as (node & l1 & err & v1 & -> & Hv1).
  assert (exists rem, orig = p ++ rem) as [rem ->]
    by (destruct Hpre as [k ->]; exists (rest ++ k); by rewrite Ev, app_assoc).
  rewrite drop_app_length. by eapply next_spec_successor.
Qed.

(** Below a group that has no child on the way to the view there is nothing
    of the view. *)
Lemma outside_group gn id rest y :
  kmap (kids gn) !! id = None -> is_var table (MIB_OBJ_GROUP gn) y ->
  ~ id :: rest `prefix_of` y /\ ~ y `prefix_of` id :: rest.
Proof.
  intros Hk (o & cb & s & Ho & Hs & ->). destruct o as [|id' o]; [done|]. rewrite shape_cons in Ho.
  split; intros [k Hx]; cbn in Hx; injection Hx as -> _; by rewrite Hk in Ho.
Qed.

Lemma next_spec_outside root w view gn p id rest l v :
  root_wf w root -> oid_ok view -> walk root view = (MIB_OBJ_GROUP gn, p, id :: rest) -> value_ok v ->
  (forall x, is_var table root x -> oid_ok x /\ (length x <= 64)%nat) ->
  exists l' v', next_spec lua_pcall e view (map (att_app p) (imm_atts (MIB_OBJ_GROUP gn))) l v =
    Some (l', NextEnd v') /\ value_ok v' /\ forall y, is_var table root y -> ~ view `prefix_of` y.
Proof.
  intros Hroot Hview Ew Hv Hvars. rewrite <- attempts_nil.
  pose proof (walk_spec view w 64%nat root 0%nat (proj1 Hroot)) as Hw. rewrite Ew in Hw.
  destruct Hw as (_ & Ev & _ & Hwf & _ & Hk).
  destruct (next_first view (map (att_app p) (attempts (MIB_OBJ_GROUP gn) [])) l v Hv) as (l2 & v2 & E & Hv2 & _).
  { eapply cands_lengths; [done|exact Ew|]. intros x Hx. by apply Hvars. }
  rewrite omap_cand_app in E. exists l2, v2. rewrite E.
  destruct (List.find _ ((fun x => p ++ x) <$> _)) as [x|] eqn:Ef.
  - exfalso. apply List.find_some in Ef as [Hx Hc]. rewrite <- list_elem_of_In in Hx.
    apply list_elem_of_fmap in Hx as (x' & -> & (a & Ha & Hx)%list_elem_of_omap).
    destruct (cand_sound _ _ _ _ _ _ Hwf Ha Hx) as [Hx' _]. destruct (outside_group _ _ rest _ Hk Hx') as [N1 N2].
    rewrite oid_cover_spec in Hc; [|done|by eapply Hvars, is_var_above]. rewrite Ev in Hc.
    rewrite !decide_False in Hc; [done|..]; by intros ?%prefix_app_inv.
  - split_and!; [done|done|]. intros y Hy Hyv.
    destruct (is_var_below _ _ _ _ _ _ _ Hroot Ew Hyv Hy) as (y' & -> & Hy').
    rewrite Ev in Hyv. apply prefix_app_inv in Hyv. by destruct (outside_group _ _ rest _ Hk Hy') as [N1 _].
Qed.

(** Ahead of the view: what follows the identifier of the view itself. *)
Lemma next_full_ahead root w view orig l v :
  root_wf w root -> oid_ok view -> ~ view `prefix_of` orig -> oid_cmp orig view < 0 -> value_ok v ->
  (forall x, is_var table root x -> oid_ok x /\ (length x <= 64)%nat) ->
  exists l' res, next_full lua_pcall e root view orig l v = Some (l', res) /\ succ_in root view view res.
Proof.
  intros Hroot Hview Hpre Hc Hv Hvars. unfold next_full, next_plan.
  pose proof (walk_spec view w 64%nat root 0%nat (proj1 Hroot)) as Hw.
  destruct (walk root view) as [[n p] rest] eqn:Ew. destruct Hw as (_ & Ev & _ & _ & _).
  rewrite decide_False, (proj2 (Z.ltb_lt _ 0)) by done.
  destruct (get_spec_total root view l v Hv) as (node & l1 & err & v1 & -> & Hv1).
  destruct n as [gn|cb]; [destruct rest as [|id rest]|].
  - rewrite <- attempts_nil, Ev. rewrite Ev in Ew. eapply next_spec_successor; [done|by rewrite <- Ev|done|done|done|done].
  - destruct (next_spec_outside root w view gn p id rest l1 v1) as (l2 & v2 & -> & Hv2 & Hno); [done..|].
    do 2 eexists. split; [done|]. split; [done|]. intros y Hy Hyv. by destruct (Hno y Hy).
  - rewrite Ev. rewrite Ev in Ew. eapply next_spec_successor; [done|by rewrite <- Ev|done|done|done|done].
Qed.
End Successor.

Section AnyView.
Context {L : Type} (lua_pcall : L -> Z -> Z -> list Z -> lua_arg -> lua_arg -> L * option lua_ret).
Context (table : Z -> list (list Z)) `{!NextHandler lua_pcall table}.
Context (e : endian) (root : mib_node) (w : Z) (Hroot : root_wf w root).
Context (Hvars : forall x, is_var table root x -> oid_ok x /\ (length x <= 64)%nat).

(** Every view, whatever its position, finds its first variable after [orig];
    a view that is itself a variable is the exception. *)
Lemma view_next_spec view orig l v :
  oid_small view -> oid_small orig -> ~ is_var table root view -> value_ok v ->
  exists l' res, next_full lua_pcall e root view orig l v = Some (l', res) /\ succ_in table root view orig res.
Proof.
  intros Hsv Hso Hnv Hv. pose proof (oid_small_ok _ Hsv) as Hview.
  destruct (decide (view `prefix_of` orig)) as [Hp|Hp]; [by eapply next_full_successor|].
  destruct (oid_lt_total orig view) as [Hlt|[->|Hlt]]; [|by destruct Hp|].
  - destruct (next_full_ahead lua_pcall table e root w view orig l v Hroot Hview Hp) as (l' & res & E & Hres);
      [by apply oid_cmp_neg|done..|].
    exists l', res. split; [done|].
    assert (forall y, is_var table root y -> view `prefix_of` y -> oid_lt view y) as Hy.
    { intros y Hy Hyv. destruct (prefix_lt _ _ Hyv) as [<-|?]; done. }
    destruct res as [x err v'|v']; cbn [succ_in] in *.
    + destruct Hres as (H1 & H2 & H3 & H4 & H5 & H6 & H7). split_and!; try done; [by transitivity view|].
      intros y Hy1 Hy2 _. apply H7; auto.
    + destruct Hres as [H1 H2]. split; [done|]. intros y Hy1 Hy2 _. apply (H2 y); auto.
  - unfold next_full, next_plan. destruct (walk root view) as [[n p] rest].
    rewrite decide_False, (proj2 (Z.ltb_ge _ 0)) by (done || (apply Z.nlt_ge; intros Hc%oid_cmp_neg; [|done..];
      by destruct (oid_lt_asym _ _ Hlt))).
    exists l, (NextEnd v). split; [done|]. split; [done|]. intros y _ [k ->] Hy.
    apply (oid_lt_asym _ _ Hy). rewrite <- (app_nil_r orig). by apply oid_lt_app_mono.
Qed.
End AnyView.

Lemma take_len (o cells : list Z) : take (length o) cells = o -> take (Z.to_nat (Z.of_nat (length o))) cells = o.
Proof. by rewrite Nat2Z.id. Qed.

(** ** Shared by the request handlers *)

(** [memset(&ret_oid, 0, sizeof(ret_oid)); ret_oid.request = request;] *)
Definition ret_oid_init (request : Z) : oid_search_res :=
  mk_res [] 0 None 0 0 request 0 (mk_var 0 0 (replicate (Z.to_nat VALUE_SIZE) 0)).

(** The first error and its position. *)
Fixpoint first_error (errs : list Z) (k : Z) : Z * Z :=
  match errs with
  | [] => (0, 0)
  | err :: errs' => if nz err then (err, k) else first_error errs' (k + 1)
  end.

(** ** A concrete handler *)
Definition table_handler (table : Z -> list (list Z)) (l : unit) (cb req : Z) (ids : list Z) (_ _ : lua_arg)
    : unit * option lua_ret :=
  let v := mk_lua_value 42 42 [] [] in
  if req =? SNMP_REQ_GETNEXT then
    match first_after ids (table cb) with
    | Some s => (tt, Some (mk_lua_ret 0 s v ASN1_TAG_INT))
    | None => (tt, Some (mk_lua_ret 0 [] v ASN1_TAG_END_OF_MIB_VIEW))
    end
  else if bool_decide (ids ∈ table cb) then (tt, Some (mk_lua_ret 0 [] v ASN1_TAG_INT))
  else (tt, Some (mk_lua_ret 0 [] v ASN1_TAG_NO_SUCH_INST)).

Lemma table_handler_next table :
  (forall cb, StronglySorted oid_lt (table cb)) -> (forall cb, [] ∉ table cb) ->
  (forall cb s, s ∈ table cb -> words s) -> NextHandler (table_handler table) table.
Proof.
  intros H1 H2 H3. split; [done|done|..]; intros l cb ids; unfold table_handler.
  - change (SNMP_REQ_GET =? SNMP_REQ_GETNEXT) with false. cbn match. destruct (bool_decide _); [|done].
    intros _ _. split; [left|]. by split.
  - change (SNMP_REQ_GETNEXT =? SNMP_REQ_GETNEXT) with true. cbn match.
    pose proof (first_after_spec ids (table cb) (H1 cb)) as Hs.
    destruct (first_after ids (table cb)) as [s|]; [|by do 2 eexists].
    do 2 eexists. split; [done|]. split; [done|]. split; [|split; [left|by split]]. cbn [ret_ids].
    destruct Hs as (Hs & _). specialize (H3 _ _ Hs). clear -H3.
    induction H3 as [|x s Hx _ IH]; cbn; [done|]. by rewrite IH, u32_id.
Qed.

Definition example_table (cb : Z) : list (list Z) :=
  if cb =? 7 then [[1; 0]; [2; 0]] else if cb =? 8 then [[0]] else [].

#[global] Instance example_handler : NextHandler (table_handler example_table) example_table.
Proof.
  apply table_handler_next; intros cb; unfold example_table;
    (destruct (cb =? 7); [|destruct (cb =? 8)]); try (by repeat constructor).
  1,2: rewrite ?elem_of_cons, ?elem_of_nil; intuition discriminate.
  1: apply not_elem_of_nil.
  - intros s. rewrite !elem_of_cons, elem_of_nil. intros [->|[->|[]]]; repeat constructor; unfold is_u32; lia.
  - intros s. rewrite elem_of_cons, elem_of_nil. intros [->|[]]; repeat constructor; unfold is_u32; lia.
  - intros s ?%elem_of_nil. done.
Qed.

Definition example_var : asn1_var := mk_var ASN1_TAG_NUL 0 (replicate (Z.to_nat VALUE_SIZE) 0).

Definition example_res (req : Z) : oid_search_res := mk_res [] 0 None 0 0 req 0 example_var.

Lemma oid_ok_small (o : list Z) : forallb (fun x => (0 <=? x) && (x <? 2 ^ 32)) o = true ->
  Z.of_nat (length o) < 2 ^ 31 -> oid_ok o.
Proof.
  intros H Hl. split; [|done]. apply Forall_forall. intros x Hx. rewrite forallb_forall in H.
  specialize (H x). rewrite <- list_elem_of_In in H. specialize (H Hx). unfold is_u32. lia.
Qed.

(** ** Properties *)

(** A GET or SET search for an identifier inside the view hands the request
    to the handler registered for the prefix [p] of the identifier, with the
    rest of the identifier, exactly once; the result carries the requested
    identifier and the status and value of the handler. *)
Theorem mib_tree_search_dispatch {L} lua_pcall e junk (root : mib_node) w (view p rest : list Z) (cb : Z) (l : L)
    (r : oid_search_res) (Hroot : root_wf w root) (Hinst : shape root p = Some (Some cb)) (Hrest : rest <> [])
    (Hview : view `prefix_of` p ++ rest) (Hv : oid_ok view) (Ho : oid_ok (p ++ rest))
    (Hlen : (length (p ++ rest) <= 1024)%nat) (Hreq : r_request r <> SNMP_REQ_GETNEXT) :
  match instance_call lua_pcall e l cb (r_request r) rest (r_var r) with
  | None => mib_tree_search lua_pcall e junk root view (p ++ rest) l r = None
  | Some (l', err, _, v) => exists r',
      mib_tree_search lua_pcall e junk root view (p ++ rest) l r = Some (Some (MIB_OBJ_INSTANCE cb), l', r') /\
      take (length (p ++ rest)) (r_oid r') = p ++ rest /\ r_id_len r' = Z.of_nat (length (p ++ rest)) /\
      r_err_stat r' = err /\ r_var r' = v
  end.
Proof.
  pose proof (search_spec lua_pcall e junk root w view (p ++ rest) l r Hroot Hv Ho Hlen Hreq) as H.
  unfold get_spec in H. rewrite decide_True in H by done.
  rewrite (walk_instance w 64%nat root p cb rest (proj1 Hroot) Hinst) in H.
  destruct rest as [|id rest]; [done|].
  destruct (instance_call _ _ _ _ _ _ _) as [[[[l' err] ids'] v']|]; [|done].
  destruct H as (r' & E & _ & H1 & H2 & H3 & H4 & _). by exists r'.
Qed.

Lemma mib_tree_search_dispatch_witness :
  exists r', mib_tree_search (table_handler example_table) LE 0 example_root [1; 3] [1; 3; 6; 1; 2; 0] tt
      (example_res SNMP_REQ_GET) = Some (Some (MIB_OBJ_INSTANCE 7), tt, r') /\ tag (r_var r') = ASN1_TAG_INT.
Proof.
  pose proof (mib_tree_search_dispatch (table_handler example_table) LE 0 example_root 3 [1; 3] [1; 3; 6; 1] [2; 0] 7 tt
    (example_res SNMP_REQ_GET) example_root_wf eq_refl ltac:(done) ltac:(by exists [6; 1; 2; 0])
    ltac:(by apply oid_ok_small) ltac:(by apply oid_ok_small) ltac:(cbn; lia) ltac:(done)) as H.
  destruct (instance_call _ _ _ _ _ _ _) as [[[[l' err] ids'] v']|] eqn:E; [|not_none E].
  destruct H as (r' & Er & _ & _ & _ & Hv). destruct l'. exists r'. split; [exact Er|]. rewrite Hv.
  vm_compute in E. injection E as <- <- <-. reflexivity.
Defined.

(** A GET or SET search for an identifier outside the view never calls a
    handler: the interpreter is untouched and the result is noSuchObject. *)
Theorem mib_tree_search_outside_view {L} lua_pcall e junk (root : mib_node) w (view orig_oid : list Z) (l : L)
    (r : oid_search_res) (Hroot : root_wf w root) (Hview : ~ view `prefix_of` orig_oid) (Hv : oid_ok view)
    (Ho : oid_ok orig_oid) (Hlen : (length orig_oid <= 1024)%nat) (Hreq : r_request r <> SNMP_REQ_GETNEXT) :
  exists r', mib_tree_search lua_pcall e junk root view orig_oid l r = Some (None, l, r') /\
    r_err_stat r' = 0 /\ tag (r_var r') = ASN1_TAG_NO_SUCH_OBJ /\
    take (length orig_oid) (r_oid r') = orig_oid.
Proof.
  pose proof (search_spec lua_pcall e junk root w view orig_oid l r Hroot Hv Ho Hlen Hreq) as H.
  unfold get_spec in H. rewrite decide_False in H by done.
  destruct H as (r' & E & _ & H1 & H2 & H3 & H4 & _). exists r'. by rewrite H4.
Qed.

Lemma mib_tree_search_outside_view_witness :
  exists r', mib_tree_search (table_handler example_table) LE 0 example_root [1; 3; 5] [1; 3; 6; 1; 2; 0] tt
      (example_res SNMP_REQ_SET) = Some (None, tt, r') /\ tag (r_var r') = ASN1_TAG_NO_SUCH_OBJ.
Proof.
  destruct (mib_tree_search_outside_view (table_handler example_table) LE 0 example_root 3 [1; 3; 5] [1; 3; 6; 1; 2; 0] tt
    (example_res SNMP_REQ_SET) example_root_wf) as (r' & E & _ & Ht & _).
  - intros [k Hk]. discriminate.
  - by apply oid_ok_small.
  - by apply oid_ok_small.
  - cbn. lia.
  - done.
  - exists r'. exact (conj E Ht).
Defined.

(** C26: the traversal of [mib_tree_search_next], with its explicit stack, its
    mode bit and its backlog of siblings, terminates within its 64 stack entries
    and makes exactly the attempts of [next_full] in order: the handlers of the
    instances that can hold what follows the given identifier are asked one
    after the other until one returns a variable of the view; otherwise the
    result is endOfMibView with the given identifier. *)
Theorem mib_tree_search_next_refines {L} lua_pcall e junk (root : mib_node) w (view orig_oid : list Z) (l : L)
    (r : oid_search_res) (Hroot : root_wf w root) (Hv : oid_ok view) (Ho : oid_ok orig_oid)
    (Hlv : (length view <= 1024)%nat) (Hlo : (length orig_oid <= 1024)%nat) :
  match next_full lua_pcall e root view orig_oid l (r_var r) with
  | None => mib_tree_search_next lua_pcall e junk root view orig_oid l r = None
  | Some (l', res) => exists r',
      mib_tree_search_next lua_pcall e junk root view orig_oid l r = Some (l', r') /\ next_post orig_oid res r'
  end.
Proof. by apply (search_next_spec lua_pcall e junk root w). Qed.

Lemma mib_tree_search_next_refines_witness :
  exists r', mib_tree_search_next (table_handler example_table) LE 0 example_root [1; 3] [1; 3; 6; 1; 2; 0] tt
      (example_res SNMP_REQ_GETNEXT) = Some (tt, r') /\ r_id_len r' = 5.
Proof.
  pose proof (mib_tree_search_next_refines (table_handler example_table) LE 0 example_root 3 [1; 3] [1; 3; 6; 1; 2; 0] tt
    (example_res SNMP_REQ_GETNEXT) example_root_wf ltac:(by apply oid_ok_small) ltac:(by apply oid_ok_small)
    ltac:(cbn; lia) ltac:(cbn; lia)) as H.
  destruct (next_full _ _ _ _ _ _ _) as [[[] res]|] eqn:E; [|not_none E].
  destruct H as (r' & Er & Hp). exists r'. split; [exact Er|].
  vm_compute in E. injection E as <-. apply Hp.
Defined.

(** If every Lua handler answers GETNEXT with the next of its own variables,
    then for an identifier inside the view [mib_tree_search_next] returns the
    lexicographically least variable of the view that follows it, and
    endOfMibView (with the given identifier) exactly when there is none. *)
Theorem mib_tree_search_next_successor {L} lua_pcall table (H : @NextHandler L lua_pcall table) e junk
    (root : mib_node) w (view orig_oid : list Z) (l : L) (r : oid_search_res)
    (Hroot : root_wf w root) (Hv : oid_ok view) (Ho : oid_ok orig_oid) (Hpre : view `prefix_of` orig_oid)
    (Hlo : (length orig_oid <= 1024)%nat) (Hval : value_ok (r_var r))
    (Hvars : forall x, is_var table root x -> oid_ok x /\ (length x <= 64)%nat) :
  exists l' r' x, mib_tree_search_next lua_pcall e junk root view orig_oid l r = Some (l', r') /\
    x = take (Z.to_nat (r_id_len r')) (r_oid r') /\ r_err_stat r' = 0 /\
    (is_var table root x /\ view `prefix_of` x /\ oid_lt orig_oid x /\
     (forall y, is_var table root y -> view `prefix_of` y -> oid_lt orig_oid y -> x = y \/ oid_lt x y) \/
     tag (r_var r') = ASN1_TAG_END_OF_MIB_VIEW /\ x = orig_oid /\
     forall y, is_var table root y -> view `prefix_of` y -> ~ oid_lt orig_oid y).
Proof.
  assert (length view <= 1024)%nat as Hlv by (destruct Hpre as [k ->]; rewrite length_app in Hlo; lia).
  pose proof (search_next_spec lua_pcall e junk root w view orig_oid l r Hroot Hv Ho Hlv Hlo) as Hs.
  destruct (next_full_successor lua_pcall table e root w view orig_oid l (r_var r) Hroot Hv Hpre Hval Hvars)
    as (l' & res & E & Hres). rewrite E in Hs. destruct Hs as (r' & Er & _ & Hpost).
  exists l', r'. eexists. split; [exact Er|]. split; [reflexivity|]. destruct res as [x err v|v].
  - destruct Hpost as (Hx & -> & -> & _). rewrite Nat2Z.id, Hx. destruct Hres as (-> & _ & _ & Hres). auto.
  - destruct Hpost as (Hx & -> & -> & ->). rewrite Nat2Z.id, Hx. destruct Hres as [_ Hres]. auto.
Qed.

Lemma example_vars x : is_var example_table example_root x -> oid_ok x /\ (length x <= 64)%nat.
Proof.
  intros (o & cb & s & Ho & Hs & ->).
  apply (instances_shape _ _ _ (proj1 example_root_wf)) in Ho.
  replace (instances example_root) with [([1; 3; 5], 9); ([1; 3; 6; 1], 7); ([1; 3; 6; 4], 8)] in Ho
    by (by vm_compute).
  rewrite !elem_of_cons, elem_of_nil in Ho.
  destruct Ho as [[= -> ->]|[[= -> ->]|[[= -> ->]|[]]]].
  - by apply not_elem_of_nil in Hs.
  - change (example_table 7) with [[1; 0]; [2; 0]] in Hs. rewrite !elem_of_cons, elem_of_nil in Hs.
    destruct Hs as [->|[->|[]]]; (split; [by apply oid_ok_small|cbn; lia]).
  - change (example_table 8) with [[0]] in Hs. rewrite elem_of_cons, elem_of_nil in Hs.
    destruct Hs as [->|[]]. split; [by apply oid_ok_small|cbn; lia].
Qed.

Lemma mib_tree_search_next_successor_witness :
  exists l' r' x, mib_tree_search_next (table_handler example_table) LE 0 example_root [1; 3] [1; 3; 6; 1; 2; 0] tt
      (example_res SNMP_REQ_GETNEXT) = Some (l', r') /\ x = take (Z.to_nat (r_id_len r')) (r_oid r') /\
      x = [1; 3; 6; 4; 0].
Proof.
  destruct (mib_tree_search_next_successor (table_handler example_table) example_table example_handler LE 0 example_root 3
    [1; 3] [1; 3; 6; 1; 2; 0] tt (example_res SNMP_REQ_GETNEXT) example_root_wf) as (l' & r' & x & E & Hx & _).
  - by apply oid_ok_small.
  - by apply oid_ok_small.
  - by exists [6; 1; 2; 0].
  - cbn. lia.
  - reflexivity.
  - exact example_vars.
  - exists l', r', x. split; [exact E|]. split; [exact Hx|]. subst x. clear -E. vm_compute in E. injection E as _ <-. reflexivity.
Defined.
