(* ===== verification/MibView.v ===== *)
(** * Views, communities and users ([src/core/mib_view.c])

    A view is a subtree of the MIB; a community (v1, v2c) or a user (v3) has an
    ordered list of read-only and one of read-write views.  The views live in
    [mib_views] in the order of their allocation and a pointer to one of them is
    its index there; they are never freed.  A [struct community_view] is an
    entry of its community's list, and is linked back from its view by the
    community's name and the attribute; likewise [struct user_view].  The two
    halves of the file are the same code for communities and for users: the
    operations on a list of views are written once, for a kind of owner. *)
From Stdlib Require Import String.
From S2P Require Import Prelude BerEncoder Oid MibTree MibSearch.
Local Open Scope Z_scope.

(** ** Data ([mib.h]) *)
Inductive aces_attr := MIB_ACES_READ | MIB_ACES_WRITE.
Inductive owner_kind := Community | User.

Definition backlink : Type := string * aces_attr.

Record mib_view := mk_view {
  v_oid : list Z;
  v_communities : list backlink;
  v_users : list backlink;
}.

Record mib_community := mk_community {
  c_name : string;
  c_ro_views : list nat;
  c_rw_views : list nat;
}.

Record mib_user := mk_user {
  u_name : string;
  u_auth_mode : Z;
  u_priv_mode : Z;
  u_auth_key : list Z;
  u_priv_key : list Z;
  u_ro_views : list nat;
  u_rw_views : list nat;
}.

Record view_state := mk_state {
  mib_views : list mib_view;
  mib_communities : list mib_community;
  mib_users : list mib_user;
}.

#[global] Instance aces_attr_eq_dec : EqDecision aces_attr.
Proof. solve_decision. Defined.
#[global] Instance backlink_eq_dec : EqDecision backlink.
Proof. solve_decision. Defined.

(** Linking and unlinking an entry at its view ([vlink]). *)
Definition link_view (k : owner_kind) (b : backlink) (v : mib_view) : mib_view :=
  match k with
  | Community => mk_view (v_oid v) (b :: v_communities v) (v_users v)
  | User => mk_view (v_oid v) (v_communities v) (b :: v_users v)
  end.

Definition unlink_view (k : owner_kind) (b : backlink) (v : mib_view) : mib_view :=
  match k with
  | Community => mk_view (v_oid v) (filter (fun b' => b' <> b) (v_communities v)) (v_users v)
  | User => mk_view (v_oid v) (v_communities v) (filter (fun b' => b' <> b) (v_users v))
  end.

(** ** Views *)

(** The list is searched from the view created last. *)
Fixpoint view_search_loop (oid : list Z) (vs : list mib_view) (i : nat) : option nat :=
  match vs with
  | [] => None
  | v :: vs' =>
      match view_search_loop oid vs' (S i) with
      | Some j => Some j
      | None => if oid_cmp (v_oid v) oid =? 0 then Some i else None
      end
  end.

Definition mib_view_search (vs : list mib_view) (oid : list Z) : option nat := view_search_loop oid vs 0.

Definition view_create (vs : list mib_view) (oid : list Z) : nat * list mib_view :=
  match mib_view_search vs oid with
  | Some v => (v, vs)
  | None => (length vs, vs ++ [mk_view oid [] []])
  end.

(** ** Lists of views *)

(** The result is 1 or 0, the list, and the views with their back links. *)
Fixpoint view_filter (k : owner_kind) (b : backlink) (oid : list Z) (l : list nat) (vs : list mib_view)
    : option (bool * list nat * list mib_view) :=
  match l with
  | [] => Some (false, [], vs)
  | i :: l' =>
      let* v := vs !! i in
      let cover := oid_cover (v_oid v) oid in
      if cover >? 0 then Some (true, l, vs)
      else if cover <? 0 then view_filter k b oid l' (<[i := unlink_view k b v]> vs)
      else
        let* (filtered, l'', vs') := view_filter k b oid l' vs in
        Some (filtered, i :: l'', vs')
  end.

(** Insertion before the first view whose identifier is greater. *)
Fixpoint view_insert (oid : list Z) (new : nat) (l : list nat) (vs : list mib_view) : option (list nat) :=
  match l with
  | [] => Some [new]
  | i :: l' =>
      let* v := vs !! i in
      if oid_cmp (v_oid v) oid >? 0 then Some (new :: l)
      else let* l'' := view_insert oid new l' vs in Some (i :: l'')
  end.

Definition view_add (k : owner_kind) (b : backlink) (oid : list Z) (new : nat) (l : list nat) (vs : list mib_view)
    : option (list nat * list mib_view) :=
  let* v := vs !! new in
  let vs' := <[new := link_view k b v]> vs in
  let* l' := view_insert oid new l vs' in
  Some (l', vs').

Fixpoint view_remove (k : owner_kind) (b : backlink) (l : list nat) (vs : list mib_view) : option (list mib_view) :=
  match l with
  | [] => Some vs
  | i :: l' =>
      let* v := vs !! i in
      view_remove k b l' (<[i := unlink_view k b v]> vs)
  end.

(** Binding an identifier to a list: the new list and the views. *)
Definition view_bind (k : owner_kind) (b : backlink) (oid : list Z) (l : list nat) (vs : list mib_view)
    : option (list nat * list mib_view) :=
  let* (filtered, l1, vs1) := view_filter k b oid l vs in
  if (filtered : bool) then Some (l1, vs1)
  else
    let '(v, vs2) := view_create vs1 oid in
    view_add k b oid v l1 vs2.

(** [list_for_each] of [*_view_cover]. *)
Fixpoint view_cover (oid : list Z) (l : list nat) (vs : list mib_view) : option Z :=
  match l with
  | [] => Some 0
  | i :: l' =>
      let* v := vs !! i in
      if oid_cover (v_oid v) oid >? 0 then Some 1 else view_cover oid l' vs
  end.

(** [list_for_each] of [*_next_view]: [l] are the entries not yet visited. *)
Fixpoint next_view (v : option nat) (l : list nat) : option nat :=
  match l with
  | [] => None
  | i :: l' =>
      match v with
      | None => Some i
      | Some p =>
          if decide (p = i) then
            match l' with
            | j :: _ => Some j
            | [] => next_view v l'
            end
          else next_view v l'
      end
  end.

(** ** Owners of views *)
Class Owner (T : Type) := {
  o_kind : owner_kind;
  o_name : T -> string;
  o_views : T -> aces_attr -> list nat;
  o_set_views : T -> aces_attr -> list nat -> T;
}.

Section Owners.
Context {T : Type} `{Owner T}.

Fixpoint owner_search_loop (name : string) (l : list T) (i : nat) : option nat :=
  match l with
  | [] => None
  | c :: l' => if String.eqb (o_name c) name then Some i else owner_search_loop name l' (S i)
  end.

Definition owner_search (l : list T) (name : string) : option nat := owner_search_loop name l 0.

(** [*_view_bind] for the owner at position [i]. *)
Definition owner_view_bind (oid : list Z) (i : nat) (attr : aces_attr) (st : list mib_view * list T)
    : option (list mib_view * list T) :=
  let '(vs, owners) := st in
  let* c := owners !! i in
  let* (l, vs') := view_bind o_kind (o_name c, attr) oid (o_views c attr) vs in
  Some (vs', <[i := o_set_views c attr l]> owners).

(** The bindings of [*_reg]: a writable view is also readable. *)
Definition owner_reg (oid : list Z) (i : nat) (attr : aces_attr) (st : list mib_view * list T)
    : option (list mib_view * list T) :=
  let* st' := (if decide (attr = MIB_ACES_WRITE) then owner_view_bind oid i MIB_ACES_WRITE st else Some st) in
  owner_view_bind oid i MIB_ACES_READ st'.

(** [while ( *cc != NULL)] of [*_unreg]; [i] is the position of [cc]. *)
Fixpoint owner_unreg_loop (fuel : nat) (name : string) (attr : aces_attr) (i : nat) (vs : list mib_view)
    (owners : list T) : option (list mib_view * list T) :=
  match fuel with
  | O => None
  | S fuel' =>
      match owners !! i with
      | None => Some (vs, owners)
      | Some c =>
          if String.eqb (o_name c) name then
            let* (c1, vs1) :=
              (if decide (attr = MIB_ACES_READ) then
                 let* vs' := view_remove o_kind (name, MIB_ACES_READ) (o_views c MIB_ACES_READ) vs in
                 Some (o_set_views c MIB_ACES_READ [], vs')
               else Some (c, vs)) in
            let* vs2 := view_remove o_kind (name, MIB_ACES_WRITE) (o_views c1 MIB_ACES_WRITE) vs1 in
            let c2 := o_set_views c1 MIB_ACES_WRITE [] in
            if decide (o_views c2 MIB_ACES_READ = []) then
              owner_unreg_loop fuel' name attr i vs2 (take i owners ++ drop (S i) owners)
            else owner_unreg_loop fuel' name attr i vs2 (<[i := c2]> owners)
          else owner_unreg_loop fuel' name attr (S i) vs owners
      end
  end.

(** Enough iterations: each one advances or removes an owner. *)
Definition owner_unreg (name : string) (attr : aces_attr) (vs : list mib_view) (owners : list T)
    : option (list mib_view * list T) :=
  owner_unreg_loop (S (length owners)) name attr 0 vs owners.

(** The argument is the owner, [None] when it is NULL. *)
Definition owner_view_cover (vs : list mib_view) (c : option T) (attr : aces_attr) (oid : list Z) : option Z :=
  match c with
  | Some c => view_cover oid (o_views c attr) vs
  | None => Some 0
  end.

Definition owner_next_view (c : option T) (attr : aces_attr) (v : option nat) : option nat :=
  match c with
  | Some c => next_view v (o_views c attr)
  | None => None
  end.
End Owners.

(** ** Communities *)
#[global] Instance community_owner : Owner mib_community := {
  o_kind := Community;
  o_name := c_name;
  o_views c attr := match attr with MIB_ACES_READ => c_ro_views c | MIB_ACES_WRITE => c_rw_views c end;
  o_set_views c attr l :=
    match attr with
    | MIB_ACES_READ => mk_community (c_name c) l (c_rw_views c)
    | MIB_ACES_WRITE => mk_community (c_name c) (c_ro_views c) l
    end;
}.

Definition community_view_filter (name : string) (attr : aces_attr) := view_filter Community (name, attr).
Definition community_view_add (name : string) (attr : aces_attr) := view_add Community (name, attr).
Definition community_view_remove (name : string) (attr : aces_attr) := view_remove Community (name, attr).

Definition mib_community_search (st : view_state) (name : string) : option nat :=
  owner_search (mib_communities st) name.

Definition community_create (st : view_state) (name : string) : nat * view_state :=
  match mib_community_search st name with
  | Some i => (i, st)
  | None => (0%nat, mk_state (mib_views st) (mk_community name [] [] :: mib_communities st) (mib_users st))
  end.

Definition mib_community_reg (oid : list Z) (name : string) (attr : aces_attr) (st : view_state) : option view_state :=
  let '(i, st1) := community_create st name in
  let* (vs, cs) := owner_reg oid i attr (mib_views st1, mib_communities st1) in
  Some (mk_state vs cs (mib_users st1)).

Definition mib_community_unreg (name : string) (attr : aces_attr) (st : view_state) : option view_state :=
  let* (vs, cs) := owner_unreg name attr (mib_views st) (mib_communities st) in
  Some (mk_state vs cs (mib_users st)).

Definition mib_community_view_cover (st : view_state) (c : option mib_community) (attr : aces_attr) (oid : list Z)
    : option Z := owner_view_cover (mib_views st) c attr oid.

Definition mib_community_next_view (c : option mib_community) (attr : aces_attr) (v : option nat) : option nat :=
  owner_next_view c attr v.

(** ** Users *)
#[global] Instance user_owner : Owner mib_user := {
  o_kind := User;
  o_name := u_name;
  o_views u attr := match attr with MIB_ACES_READ => u_ro_views u | MIB_ACES_WRITE => u_rw_views u end;
  o_set_views u attr l :=
    match attr with
    | MIB_ACES_READ =>
        mk_user (u_name u) (u_auth_mode u) (u_priv_mode u) (u_auth_key u) (u_priv_key u) l (u_rw_views u)
    | MIB_ACES_WRITE =>
        mk_user (u_name u) (u_auth_mode u) (u_priv_mode u) (u_auth_key u) (u_priv_key u) (u_ro_views u) l
    end;
}.

Definition user_view_filter (name : string) (attr : aces_attr) := view_filter User (name, attr).
Definition user_view_add (name : string) (attr : aces_attr) := view_add User (name, attr).
Definition user_view_remove (name : string) (attr : aces_attr) := view_remove User (name, attr).

Definition mib_user_search (st : view_state) (name : string) : option nat := owner_search (mib_users st) name.

Definition mib_user_reg (oid : list Z) (name : string) (attr : aces_attr) (st : view_state) : option view_state :=
  match mib_user_search st name with
  | Some i =>
      let* (vs, us) := owner_reg oid i attr (mib_views st, mib_users st) in
      Some (mk_state vs (mib_communities st) us)
  | None => Some st
  end.

Definition mib_user_unreg (name : string) (attr : aces_attr) (st : view_state) : option view_state :=
  let* (vs, us) := owner_unreg name attr (mib_views st) (mib_users st) in
  Some (mk_state vs (mib_communities st) us).

Definition mib_user_view_cover (st : view_state) (u : option mib_user) (attr : aces_attr) (oid : list Z) : option Z :=
  owner_view_cover (mib_views st) u attr oid.

Definition mib_user_next_view (u : option mib_user) (attr : aces_attr) (v : option nat) : option nat :=
  owner_next_view u attr v.

(** ** User creation *)
Definition SNMP_USER_AUTH_MD5 : Z := 0.
Definition SNMP_USER_AUTH_SHA1 : Z := 1.

(** The key derivations are the library's; fields of a new user that are not
    assigned hold whatever [malloc] returned. *)
Section UserCreate.
Context (MD5_key SHA1_key : list Z -> list Z -> list Z).
Context (snmpv3_engine_id : list Z) (junk : Z).

Definition user_keys (u : mib_user) (auth_mode : Z) (auth_phrase : list Z) (priv_mode : Z) (priv_phrase : list Z)
    : option mib_user :=
  if decide (auth_phrase = []) then Some u
  else
    let* auth_key :=
      (if auth_mode =? SNMP_USER_AUTH_MD5 then blit (MD5_key auth_phrase snmpv3_engine_id) (u_auth_key u)
       else if auth_mode =? SNMP_USER_AUTH_SHA1 then blit (SHA1_key auth_phrase snmpv3_engine_id) (u_auth_key u)
       else Some (u_auth_key u)) in
    let u1 := mk_user (u_name u) auth_mode (u_priv_mode u) auth_key (u_priv_key u) (u_ro_views u) (u_rw_views u) in
    if decide (priv_phrase = []) then Some u1
    else
      let secret := replicate 20 junk in
      let* secret_key :=
        (if auth_mode =? SNMP_USER_AUTH_MD5 then blit (MD5_key priv_phrase snmpv3_engine_id) secret
         else if auth_mode =? SNMP_USER_AUTH_SHA1 then blit (SHA1_key priv_phrase snmpv3_engine_id) secret
         else Some secret) in
      let* priv_key := slice 0 16 secret_key in
      Some (mk_user (u_name u) auth_mode priv_mode auth_key priv_key (u_ro_views u) (u_rw_views u)).

Definition mib_user_create (name : string) (auth_mode : Z) (auth_phrase : list Z) (priv_mode : Z)
    (priv_phrase : list Z) (st : view_state) : option view_state :=
  let '(i, users) :=
    match mib_user_search st name with
    | Some i => (i, mib_users st)
    | None => (0%nat, mk_user name junk junk (replicate 20 junk) (replicate 16 junk) [] [] :: mib_users st)
    end in
  let* u := users !! i in
  let* u' := user_keys u auth_mode auth_phrase priv_mode priv_phrase in
  Some (mk_state (mib_views st) (mib_communities st) (<[i := u']> users)).
End UserCreate.

(** ** Specification: lists of view identifiers *)

(** Removing the views below [oid]; [true] when a view above [oid] is met. *)
Fixpoint ofilter (oid : list Z) (L : list (list Z)) : bool * list (list Z) :=
  match L with
  | [] => (false, [])
  | o :: L' =>
      if decide (o `prefix_of` oid) then (true, L)
      else if decide (oid `prefix_of` o) then ofilter oid L'
      else let '(f, L'') := ofilter oid L' in (f, o :: L'')
  end.

Fixpoint oinsert (oid : list Z) (L : list (list Z)) : list (list Z) :=
  match L with
  | [] => [oid]
  | o :: L' => if decide (oid_lt oid o) then oid :: L else o :: oinsert oid L'
  end.

Definition obind (oid : list Z) (L : list (list Z)) : list (list Z) :=
  let '(f, L') := ofilter oid L in if f then L' else oinsert oid L'.

(** Disjoint subtrees in increasing order. *)
Definition apart (L : list (list Z)) : Prop :=
  StronglySorted (fun a b => oid_lt a b /\ ~ a `prefix_of` b) L.

Definition covered (L : list (list Z)) (o : list Z) : Prop := Exists (fun v => v `prefix_of` o) L.

Lemma ofilter_covered oid L o :
  let '(f, L') := ofilter oid L in
  (f = true -> covered L' oid) /\
  (covered L' o \/ oid `prefix_of` o <-> covered L o \/ oid `prefix_of` o).
Proof.
  induction L as [|v L IH]; cbn [ofilter]; [by split|].
  destruct (decide (v `prefix_of` oid)) as [Hp|Hp].
  { split; [|done]. intros _. by left. }
  destruct (decide (oid `prefix_of` v)) as [Hq|Hq].
  - destruct (ofilter oid L) as [f L']. destruct IH as [IH1 IH2]. split; [done|]. rewrite IH2.
    unfold covered. rewrite Exists_cons. split; [tauto|]. intros [[H|H]|H]; [|tauto..]. right. by etransitivity.
  - destruct (ofilter oid L) as [f L']. destruct IH as [IH1 IH2]. unfold covered in *. rewrite !Exists_cons.
    split; [intros Hf; right; by apply IH1|tauto].
Qed.

Lemma oinsert_covered oid L o : covered (oinsert oid L) o <-> covered L o \/ oid `prefix_of` o.
Proof.
  unfold covered. induction L as [|v L IH]; cbn [oinsert].
  - rewrite Exists_cons, Exists_nil. tauto.
  - case_decide; rewrite !Exists_cons; [tauto|]. rewrite IH. tauto.
Qed.

(** Binding adds exactly the subtree of [oid]. *)
Lemma obind_covered oid L o : covered (obind oid L) o <-> covered L o \/ oid `prefix_of` o.
Proof.
  unfold obind. pose proof (ofilter_covered oid L o) as H. destruct (ofilter oid L) as [[] L'].
  - destruct H as [H1 H2]. rewrite <- H2. split; [by left|]. intros [?|Hp]; [done|].
    specialize (H1 eq_refl). eapply Exists_impl; [exact H1|]. cbn. intros v Hv. by etransitivity.
  - rewrite oinsert_covered. tauto.
Qed.

Lemma ofilter_incl oid L : let '(_, L') := ofilter oid L in forall v, v ∈ L' -> v ∈ L.
Proof.
  induction L as [|v L IH]; cbn [ofilter]; [done|].
  destruct (decide (v `prefix_of` oid)); [done|].
  destruct (decide (oid `prefix_of` v)); destruct (ofilter oid L) as [f L']; intros x Hx.
  - right. by apply IH.
  - apply elem_of_cons in Hx as [->|Hx]; [left|right; by apply IH].
Qed.

Lemma ofilter_apart oid L : apart L ->
  let '(f, L') := ofilter oid L in
  apart L' /\ (f = false -> Forall (fun v => ~ v `prefix_of` oid /\ ~ oid `prefix_of` v) L').
Proof.
  unfold apart. induction 1 as [|v L Hs IH Hv]; cbn [ofilter]; [by repeat constructor|].
  destruct (decide (v `prefix_of` oid)) as [Hp|Hp]; [split; [by constructor|done]|].
  pose proof (ofilter_incl oid L) as Hincl.
  destruct (decide (oid `prefix_of` v)) as [Hq|Hq]; destruct (ofilter oid L) as [f L']; [done|].
  destruct IH as [IH1 IH2]. split.
  - constructor; [done|]. apply Forall_forall. intros x Hx. rewrite Forall_forall in Hv. by apply Hv, Hincl.
  - intros Hf. constructor; [done|by apply IH2].
Qed.

Lemma oinsert_apart oid L : apart L -> Forall (fun v => ~ v `prefix_of` oid /\ ~ oid `prefix_of` v) L ->
  apart (oinsert oid L).
Proof.
  unfold apart. induction 1 as [|v L Hs IH Hv]; cbn [oinsert]; [by repeat constructor|].
  intros Hf. apply Forall_cons in Hf as [[Hp Hq] Hrest]. case_decide as Hlt.
  - constructor; [by constructor|]. constructor; [done|].
    apply Forall_forall. intros y Hy. rewrite Forall_forall in Hv, Hrest.
    split; [transitivity v; [done|by apply Hv]|by apply Hrest].
  - assert (oid_lt v oid) as Hvo by (destruct (oid_lt_total oid v) as [?|[->|?]]; [done|by destruct Hp|done]).
    constructor; [by apply IH|]. clear IH Hs Hrest Hlt.
    induction L as [|x L IHL]; cbn [oinsert]; [by repeat constructor|].
    inversion_clear Hv. case_decide; repeat (constructor; try done). by apply IHL.
Qed.

Lemma obind_apart oid L : apart L -> apart (obind oid L).
Proof.
  intros H. unfold obind. pose proof (ofilter_apart oid L H) as H'. destruct (ofilter oid L) as [[] L'].
  - apply H'.
  - destruct H' as [? H2]. by apply oinsert_apart; [|apply H2].
Qed.

Lemma obind_in oid L v : v ∈ obind oid L -> v = oid \/ v ∈ L.
Proof.
  unfold obind. pose proof (ofilter_incl oid L) as Hi. destruct (ofilter oid L) as [[] L']; [by right; apply Hi|].
  clear -Hi. intros H. enough (v = oid \/ v ∈ L') as [?|?] by auto. clear Hi.
  induction L' as [|x L' IH]; cbn [oinsert] in H.
  - apply list_elem_of_singleton in H. by left.
  - case_decide; apply elem_of_cons in H as [->|H]; auto; [right; by left|].
    destruct (IH H); [by left|right; by right].
Qed.

(** ** The lists of the code denote them *)
Definition voids (vs : list mib_view) : list (list Z) := v_oid <$> vs.
#[global] Arguments voids : simpl never.

Definition den (os : list (list Z)) (l : list nat) (L : list (list Z)) : Prop :=
  Forall2 (fun i o => os !! i = Some o) l L.

Lemma den_lookup vs i o : voids vs !! i = Some o -> exists v, vs !! i = Some v /\ v_oid v = o.
Proof. unfold voids. rewrite list_lookup_fmap. destruct (vs !! i) as [v|]; [|done]. intros [= <-]. by exists v. Qed.

Lemma voids_insert vs i v v' : vs !! i = Some v -> v_oid v' = v_oid v -> voids (<[i := v']> vs) = voids vs.
Proof.
  intros Hi Hv. unfold voids. rewrite list_fmap_insert, Hv. apply list_insert_id.
  by rewrite list_lookup_fmap, Hi.
Qed.

Lemma v_oid_link k b v : v_oid (link_view k b v) = v_oid v.
Proof. by destruct k. Qed.

Lemma v_oid_unlink k b v : v_oid (unlink_view k b v) = v_oid v.
Proof. by destruct k. Qed.

Lemma den_app os os' l L : den os l L -> den (os ++ os') l L.
Proof. intros H. eapply Forall2_impl; [exact H|]. intros i o Hi. by apply lookup_app_l_Some. Qed.

Lemma view_filter_den k b oid l L vs :
  oid_ok oid -> Forall oid_ok (voids vs) -> den (voids vs) l L ->
  exists l' vs', view_filter k b oid l vs = Some ((ofilter oid L).1, l', vs') /\
    voids vs' = voids vs /\ den (voids vs) l' (ofilter oid L).2.
Proof.
  intros Ho Hok Hd. remember (voids vs) as os eqn:Eos. revert vs Eos.
  induction Hd as [|i o l L Hi Hd IH]; intros vs ->; cbn [view_filter ofilter].
  { exists [], vs. split_and!; [done|done|constructor]. }
  destruct (den_lookup _ _ _ Hi) as (v & Hv & Evo). rewrite Hv, Evo.
  assert (oid_ok o) as Hoo by (rewrite Forall_forall in Hok; apply Hok; by eapply list_elem_of_lookup_2).
  rewrite (oid_cover_spec o oid Hoo Ho).
  destruct (decide (o `prefix_of` oid)).
  { exists (i :: l), vs. split_and!; [done|done|]. by constructor. }
  destruct (decide (oid `prefix_of` o)).
  - change (-1 >? 0) with false. change (-1 <? 0) with true. cbn match.
    destruct (IH (<[i := unlink_view k b v]> vs)) as (l' & vs' & -> & E & Hl).
    { symmetry. apply (voids_insert _ _ v); [done|apply v_oid_unlink]. }
    exists l', vs'. split_and!; [done|exact E|done].
  - change (0 >? 0) with false. change (0 <? 0) with false. cbn match.
    destruct (IH vs eq_refl) as (l' & vs' & -> & E & Hl).
    destruct (ofilter oid L) as [f L']. cbn [fst snd] in *. exists (i :: l'), vs'. split_and!; [done|done|].
    by constructor.
Qed.

Lemma view_insert_den oid new l L vs :
  oid_small oid -> Forall oid_small (voids vs) -> den (voids vs) l L -> voids vs !! new = Some oid ->
  exists l', view_insert oid new l vs = Some l' /\ den (voids vs) l' (oinsert oid L).
Proof.
  intros Ho Hok Hd Hnew. induction Hd as [|i o l L Hi Hd IH]; cbn [view_insert oinsert].
  { eexists. split; [done|]. by repeat constructor. }
  destruct (den_lookup _ _ _ Hi) as (v & -> & ->).
  assert (oid_small o) as [Hoo1 Hoo2] by (rewrite Forall_forall in Hok; apply Hok; by eapply list_elem_of_lookup_2).
  pose proof (oid_cmp_gt o oid (conj Hoo1 Hoo2) Ho) as Hc.
  rewrite Z.gtb_ltb. destruct (Z.ltb_spec 0 (oid_cmp o oid)).
  - rewrite decide_True by tauto. eexists. split; [done|]. constructor; [done|]. by constructor.
  - rewrite decide_False by (rewrite <- Hc; lia). destruct IH as (l' & -> & Hl').
    eexists. split; [done|]. by constructor.
Qed.

Lemma view_cover_den oid l L vs :
  oid_ok oid -> Forall oid_ok (voids vs) -> den (voids vs) l L ->
  exists r, view_cover oid l vs = Some r /\ (r = 1 /\ covered L oid \/ r = 0 /\ ~ covered L oid).
Proof.
  intros Ho Hok Hd. unfold covered. induction Hd as [|i o l L Hi Hd IH]; cbn [view_cover].
  { exists 0. split; [done|]. right. split; [done|]. by intros ?%Exists_nil. }
  destruct (den_lookup _ _ _ Hi) as (v & -> & ->).
  assert (oid_ok o) as Hoo by (rewrite Forall_forall in Hok; apply Hok; by eapply list_elem_of_lookup_2).
  rewrite (oid_cover_spec o oid Hoo Ho). setoid_rewrite Exists_cons. case_decide as H1.
  - exists 1. split; [done|]. left. auto.
  - assert (((if decide (oid `prefix_of` o) then -1 else 0) >? 0) = false) as -> by (by case_decide).
    destruct IH as (r & -> & IH). exists r. split; [done|]. tauto.
Qed.

Lemma Forall_small_ok os : Forall oid_small os -> Forall oid_ok os.
Proof. intros H. eapply Forall_impl; [exact H|]. apply oid_small_ok. Qed.

(** The views: distinct identifiers, ordered correctly by [oid_cmp]. *)
Definition views_ok (vs : list mib_view) : Prop := Forall oid_small (voids vs) /\ NoDup (voids vs).

(** New views are added behind the existing ones. *)
Definition views_ext (vs vs' : list mib_view) : Prop := exists ext, voids vs' = voids vs ++ ext.

#[global] Instance views_ext_preorder : PreOrder views_ext.
Proof.
  split.
  - intros vs. exists []. by rewrite app_nil_r.
  - intros vs1 vs2 vs3 [e1 H1] [e2 H2]. exists (e1 ++ e2). by rewrite H2, H1, app_assoc.
Qed.

Lemma view_search_spec oid vs i :
  oid_ok oid -> Forall oid_ok (voids vs) ->
  match view_search_loop oid vs i with
  | Some j => (i <= j)%nat /\ voids vs !! (j - i)%nat = Some oid
  | None => oid ∉ voids vs
  end.
Proof.
  intros [Ho1 Ho2]. revert i. unfold voids. induction vs as [|v vs IH]; intros i Hok; cbn [view_search_loop fmap list_fmap].
  { apply not_elem_of_nil. }
  inversion_clear Hok as [|? ? [Hv1 Hv2] Hok']. specialize (IH (S i) Hok').
  destruct (view_search_loop oid vs (S i)) as [j|].
  - destruct IH as [Hj E]. split; [lia|]. replace (j - i)%nat with (S (j - S i)) by lia. exact E.
  - destruct (Z.eqb_spec (oid_cmp (v_oid v) oid) 0) as [E|E].
    + split; [lia|]. rewrite Nat.sub_diag. cbn. f_equal. by apply oid_cmp_zero in E.
    + rewrite not_elem_of_cons. split; [|done]. intros Heq. apply E. rewrite oid_cmp_zero by done. by symmetry.
Qed.

Lemma view_create_spec vs oid v vs' :
  oid_small oid -> views_ok vs -> view_create vs oid = (v, vs') ->
  voids vs' !! v = Some oid /\ views_ok vs' /\ views_ext vs vs'.
Proof.
  intros Ho [Hok Hnd]. unfold view_create, mib_view_search.
  pose proof (view_search_spec oid vs 0 (oid_small_ok _ Ho) (Forall_small_ok _ Hok)) as Hs.
  destruct (view_search_loop oid vs 0) as [j|]; intros [= <- <-].
  - destruct Hs as [_ Hs]. rewrite Nat.sub_0_r in Hs. by split_and!.
  - unfold views_ok, views_ext, voids in *. rewrite fmap_app. split_and!.
    + rewrite lookup_app_r by (by rewrite length_fmap). by rewrite length_fmap, Nat.sub_diag.
    + apply Forall_app. split; [done|]. by apply Forall_singleton.
    + apply NoDup_app. split_and!; [done| |apply NoDup_singleton].
      intros x Hx Hx2. apply list_elem_of_singleton in Hx2. by subst.
    + by eexists.
Qed.

(** What a binding does to a list and to the views. *)
Lemma view_bind_spec k b oid l L vs :
  oid_small oid -> views_ok vs -> den (voids vs) l L ->
  exists l' vs', view_bind k b oid l vs = Some (l', vs') /\
    den (voids vs') l' (obind oid L) /\ views_ok vs' /\ views_ext vs vs'.
Proof.
  intros Ho Hok Hd. unfold view_bind, obind.
  destruct (view_filter_den k b oid l L vs) as (l1 & vs1 & -> & E1 & Hd1);
    [by apply oid_small_ok|by apply Forall_small_ok, Hok|done|].
  assert (views_ok vs1) as Hok1 by (unfold views_ok; by rewrite E1).
  assert (views_ext vs vs1) as Hext1 by (exists []; by rewrite app_nil_r).
  destruct (ofilter oid L) as [[] L']; cbn [fst snd] in *; rewrite <- E1 in Hd1.
  { by exists l1, vs1. }
  destruct (view_create vs1 oid) as [v vs2] eqn:Ec.
  destruct (view_create_spec vs1 oid v vs2 Ho Hok1 Ec) as (Hv & Hok2 & Hext2).
  unfold view_add. destruct (den_lookup _ _ _ Hv) as (mv & Hmv & _). rewrite Hmv.
  set (vs3 := <[v := link_view k b mv]> vs2).
  assert (voids vs3 = voids vs2) as E3 by (apply (voids_insert _ _ mv); [done|apply v_oid_link]).
  destruct (view_insert_den oid v l1 L' vs3) as (l2 & -> & Hl2).
  - done.
  - rewrite E3. apply Hok2.
  - rewrite E3. destruct Hext2 as [ext ->]. by apply den_app.
  - by rewrite E3.
  - exists l2, vs3. split; [done|]. split; [done|]. unfold views_ok, views_ext in *. rewrite E3.
    split; [done|]. destruct Hext1 as [e1 H1], Hext2 as [e2 H2]. exists (e1 ++ e2). by rewrite H2, H1, app_assoc.
Qed.

(** ** Owners *)
Class OwnerLaws (T : Type) `{Owner T} : Prop := {
  o_name_set c attr l : o_name (o_set_views c attr l) = o_name c;
  o_views_same c attr l : o_views (o_set_views c attr l) attr = l;
  o_views_other c attr attr' l : attr <> attr' -> o_views (o_set_views c attr l) attr' = o_views c attr';
}.

#[global] Instance community_laws : OwnerLaws mib_community.
Proof. split; intros; repeat match goal with a : aces_attr |- _ => destruct a end; done. Qed.

#[global] Instance user_laws : OwnerLaws mib_user.
Proof. split; intros; repeat match goal with a : aces_attr |- _ => destruct a end; done. Qed.

Definition list_ok (os : list (list Z)) (l : list nat) : Prop := exists L, den os l L /\ apart L.

Definition oids_of (os : list (list Z)) (l : list nat) : list (list Z) := omap (fun i => os !! i) l.

Lemma den_oids os l L : den os l L -> oids_of os l = L.
Proof. unfold oids_of. induction 1 as [|i o l L Hi _ IH]; cbn; [done|]. by rewrite Hi, IH. Qed.

Lemma list_ok_den os l : list_ok os l -> den os l (oids_of os l) /\ apart (oids_of os l).
Proof. intros (L & Hd & Ha). by rewrite (den_oids _ _ _ Hd). Qed.

Lemma list_ok_ext vs vs' l : views_ext vs vs' -> list_ok (voids vs) l -> list_ok (voids vs') l.
Proof. intros [ext ->] (L & Hd & Ha). exists L. split; [by apply den_app|done]. Qed.

Lemma oids_of_ext vs vs' l : views_ext vs vs' -> list_ok (voids vs) l ->
  oids_of (voids vs') l = oids_of (voids vs) l.
Proof. intros [ext ->] (L & Hd & _). rewrite (den_oids _ _ _ Hd). by apply den_oids, den_app. Qed.

Section OwnerProofs.
Context {T : Type} `{OwnerLaws T}.

(** The views of the owner [name], by identifier: the abstract state. *)
Definition owner_oids (vs : list mib_view) (owners : list T) (name : string) (attr : aces_attr) : list (list Z) :=
  match owner_search owners name with
  | Some i =>
      match owners !! i with
      | Some c => oids_of (voids vs) (o_views c attr)
      | None => []
      end
  | None => []
  end.

Definition owners_ok (vs : list mib_view) (owners : list T) : Prop :=
  Forall (fun c => forall attr, list_ok (voids vs) (o_views c attr)) owners /\ NoDup (o_name <$> owners).

Lemma owner_search_spec name (l : list T) i :
  match owner_search_loop name l i with
  | Some j => (i <= j)%nat /\ exists c, l !! (j - i)%nat = Some c /\ o_name c = name
  | None => name ∉ o_name <$> l
  end.
Proof.
  revert i. induction l as [|c l IH]; intros i; cbn [owner_search_loop fmap list_fmap].
  { apply not_elem_of_nil. }
  destruct (String.eqb_spec (o_name c) name) as [E|E].
  - split; [lia|]. exists c. by rewrite Nat.sub_diag.
  - specialize (IH (S i)). destruct (owner_search_loop name l (S i)) as [j|].
    + destruct IH as (? & c' & Hc & ?). split; [lia|]. exists c'. split; [|done].
      by replace (j - i)%nat with (S (j - S i)) by lia.
    + rewrite not_elem_of_cons. split; [congruence|done].
Qed.

(** An owner is found by its name. *)
Lemma owner_search_at (owners : list T) i c :
  NoDup (o_name <$> owners) -> owners !! i = Some c -> owner_search owners (o_name c) = Some i.
Proof.
  intros Hnd Hi. unfold owner_search. pose proof (owner_search_spec (o_name c) owners 0) as Hs.
  destruct (owner_search_loop _ _ _) as [j|].
  - destruct Hs as (_ & c' & Hj & Hn). rewrite Nat.sub_0_r in Hj. f_equal.
    apply (NoDup_lookup _ j i (o_name c) Hnd);
      [rewrite list_lookup_fmap, Hj; cbn; by rewrite Hn|by rewrite list_lookup_fmap, Hi].
  - destruct Hs. apply list_elem_of_fmap. exists c. split; [done|]. by eapply list_elem_of_lookup_2.
Qed.

Lemma owner_search_some (owners : list T) name i :
  owner_search owners name = Some i -> exists c, owners !! i = Some c /\ o_name c = name.
Proof.
  unfold owner_search. pose proof (owner_search_spec name owners 0) as Hs. intros E. rewrite E in Hs.
  destruct Hs as (_ & c & Hj & Hn). rewrite Nat.sub_0_r in Hj. by exists c.
Qed.

Lemma owner_search_none (owners : list T) name : owner_search owners name = None -> name ∉ o_name <$> owners.
Proof. unfold owner_search. pose proof (owner_search_spec name owners 0) as Hs. intros E. by rewrite E in Hs. Qed.

Lemma owner_oids_at vs (owners : list T) i c attr :
  NoDup (o_name <$> owners) -> owners !! i = Some c ->
  owner_oids vs owners (o_name c) attr = oids_of (voids vs) (o_views c attr).
Proof. intros Hnd Hi. unfold owner_oids. by rewrite (owner_search_at owners i c Hnd Hi), Hi. Qed.

Lemma owner_oids_none vs (owners : list T) name attr :
  name ∉ o_name <$> owners -> owner_oids vs owners name attr = [].
Proof.
  intros Hn. unfold owner_oids. destruct (owner_search owners name) as [i|] eqn:E; [|done].
  apply owner_search_some in E as (c & Hi & <-). destruct Hn. apply list_elem_of_fmap. exists c.
  split; [done|]. by eapply list_elem_of_lookup_2.
Qed.

Lemma owner_oids_ext vs vs' (owners : list T) name attr :
  views_ext vs vs' -> owners_ok vs owners -> owner_oids vs' owners name attr = owner_oids vs owners name attr.
Proof.
  intros Hext [Hf _]. unfold owner_oids. destruct (owner_search owners name) as [i|]; [|done].
  destruct (owners !! i) as [c|] eqn:E; [|done]. apply oids_of_ext; [done|].
  exact (Forall_lookup_1 _ _ _ _ Hf E attr).
Qed.

Lemma owners_ok_ext vs vs' (owners : list T) : views_ext vs vs' -> owners_ok vs owners -> owners_ok vs' owners.
Proof.
  intros Hext [Hf Hnd]. split; [|done]. eapply Forall_impl; [exact Hf|]. intros c Hc a.
  eapply list_ok_ext; [done|apply Hc].
Qed.

(** Replacing one list of one owner. *)
Lemma owner_update vs vs' (owners : list T) i c attr l L :
  owners_ok vs owners -> owners !! i = Some c -> views_ext vs vs' -> den (voids vs') l L -> apart L ->
  let owners' := <[i := o_set_views c attr l]> owners in
  owners_ok vs' owners' /\ (o_name <$> owners') = o_name <$> owners /\
  forall n a, owner_oids vs' owners' n a =
    if decide (n = o_name c /\ a = attr) then L else owner_oids vs owners n a.
Proof.
  intros Hok Hi Hext Hd Ha owners'. pose proof Hok as [Hf Hnd].
  assert (o_name <$> owners' = o_name <$> owners) as Hnames.
  { unfold owners'. rewrite list_fmap_insert, o_name_set. apply list_insert_id. by rewrite list_lookup_fmap, Hi. }
  assert (owners' !! i = Some (o_set_views c attr l)) as Hi'
    by (apply list_lookup_insert_eq; by eapply lookup_lt_Some).
  assert (NoDup (o_name <$> owners')) as Hnd' by (by rewrite Hnames).
  split_and!; [split; [|done]|done|].
  - apply Forall_insert; [apply (owners_ok_ext vs vs' owners Hext Hok)|].
    intros a. destruct (decide (attr = a)) as [<-|]; [rewrite o_views_same; by exists L|].
    rewrite o_views_other by done. eapply list_ok_ext; [done|]. exact (Forall_lookup_1 _ _ _ _ Hf Hi a).
  - intros n a. destruct (owner_search owners n) as [j|] eqn:Ej.
    2:{ apply owner_search_none in Ej as Hn. rewrite !owner_oids_none by (by rewrite ?Hnames).
        rewrite decide_False; [done|]. intros [-> _]. destruct Hn. apply list_elem_of_fmap. exists c.
        split; [done|]. by eapply list_elem_of_lookup_2. }
    apply owner_search_some in Ej as (cj & Hj & <-). destruct (decide (j = i)) as [->|Hji].
    + assert (cj = c) as -> by congruence. rewrite <- (o_name_set c attr l) at 1.
      rewrite (owner_oids_at vs' owners' i _ a Hnd' Hi'). destruct (decide (attr = a)) as [<-|Hne].
      * rewrite decide_True, o_views_same by done. by apply den_oids.
      * rewrite decide_False, o_views_other by (done || (intros [_ ?]; congruence)).
        rewrite (owner_oids_at vs owners i c a Hnd Hi). apply oids_of_ext; [done|].
        exact (Forall_lookup_1 _ _ _ _ Hf Hi a).
    + assert (owners' !! j = Some cj) as Hj' by (unfold owners'; by rewrite list_lookup_insert_ne).
      rewrite (owner_oids_at vs' owners' j cj a Hnd' Hj'), decide_False.
      * rewrite (owner_oids_at vs owners j cj a Hnd Hj). apply oids_of_ext; [done|].
        exact (Forall_lookup_1 _ _ _ _ Hf Hj a).
      * intros [E _]. apply Hji. apply (NoDup_lookup _ j i (o_name cj) Hnd); [by rewrite list_lookup_fmap, Hj|].
        rewrite list_lookup_fmap, Hi. cbn. by rewrite E.
Qed.

Lemma owner_bind_spec vs (owners : list T) i c oid attr :
  views_ok vs -> owners_ok vs owners -> oid_small oid -> owners !! i = Some c ->
  exists vs' owners', owner_view_bind oid i attr (vs, owners) = Some (vs', owners') /\
    views_ok vs' /\ views_ext vs vs' /\ owners_ok vs' owners' /\ (o_name <$> owners') = o_name <$> owners /\
    forall n a, owner_oids vs' owners' n a =
      if decide (n = o_name c /\ a = attr) then obind oid (owner_oids vs owners n a) else owner_oids vs owners n a.
Proof.
  intros Hvok Hok Ho Hi. unfold owner_view_bind. rewrite Hi. pose proof Hok as [Hf Hnd].
  destruct (list_ok_den _ _ (Forall_lookup_1 _ _ _ _ Hf Hi attr)) as [Hd Ha].
  destruct (view_bind_spec o_kind (o_name c, attr) oid _ _ vs Ho Hvok Hd) as (l & vs' & -> & Hd' & Hvok' & Hext).
  destruct (owner_update vs vs' owners i c attr l _ Hok Hi Hext Hd' (obind_apart _ _ Ha)) as (Hok' & Hn & Ho').
  do 2 eexists. split; [done|]. split_and!; try done. intros n a. rewrite Ho'. case_decide as E; [|done].
  destruct E as [-> ->]. by rewrite (owner_oids_at vs owners i c attr Hnd Hi).
Qed.

Lemma owner_reg_spec vs (owners : list T) i c oid attr :
  views_ok vs -> owners_ok vs owners -> oid_small oid -> owners !! i = Some c ->
  exists vs' owners', owner_reg oid i attr (vs, owners) = Some (vs', owners') /\
    views_ok vs' /\ views_ext vs vs' /\ owners_ok vs' owners' /\
    forall n a, owner_oids vs' owners' n a =
      if decide (n = o_name c /\ (attr = MIB_ACES_WRITE \/ a = MIB_ACES_READ))
      then obind oid (owner_oids vs owners n a) else owner_oids vs owners n a.
Proof.
  intros Hvok Hok Ho Hi. unfold owner_reg. destruct (decide (attr = MIB_ACES_WRITE)) as [->|Hattr].
  - destruct (owner_bind_spec vs owners i c oid MIB_ACES_WRITE Hvok Hok Ho Hi)
      as (vs1 & os1 & -> & Hvok1 & Hext1 & Hok1 & Hn1 & H1).
    destruct (lookup_lt_is_Some_2 os1 i) as [c1 Hc1].
    { rewrite <- (length_fmap o_name), Hn1, length_fmap. by eapply lookup_lt_Some. }
    assert (o_name c1 = o_name c) as En.
    { apply (f_equal (fun l => l !! i)) in Hn1. rewrite !list_lookup_fmap, Hc1, Hi in Hn1. cbn in Hn1. congruence. }
    destruct (owner_bind_spec vs1 os1 i c1 oid MIB_ACES_READ Hvok1 Hok1 Ho Hc1)
      as (vs2 & os2 & -> & Hvok2 & Hext2 & Hok2 & Hn2 & H2).
    do 2 eexists. split; [done|]. split_and!; try done; [by transitivity vs1|].
    intros n a. rewrite H2, H1, En. destruct (decide (n = o_name c)) as [->|]; [|by rewrite !decide_False by tauto].
    destruct a.
    + rewrite decide_True, decide_False, decide_True by (intuition done). done.
    + rewrite decide_False, decide_True, decide_True by (intuition done). done.
  - destruct (owner_bind_spec vs owners i c oid MIB_ACES_READ Hvok Hok Ho Hi)
      as (vs1 & os1 & -> & Hvok1 & Hext1 & Hok1 & Hn1 & H1).
    do 2 eexists. split; [done|]. split_and!; try done. intros n a. rewrite H1.
    destruct (decide (n = o_name c /\ a = MIB_ACES_READ)) as [[-> ->]|Hne];
      [by rewrite decide_True by auto|by rewrite decide_False by tauto].
Qed.

(** ** Removal *)
Lemma view_remove_spec k b l L vs : den (voids vs) l L ->
  exists vs', view_remove k b l vs = Some vs' /\ voids vs' = voids vs.
Proof.
  intros Hd. remember (voids vs) as os eqn:Eos. revert vs Eos.
  induction Hd as [|i o l L Hi Hd IH]; intros vs ->; cbn [view_remove]; [by eexists|].
  destruct (den_lookup _ _ _ Hi) as (v & Hv & _). rewrite Hv. apply IH.
  symmetry. by apply (voids_insert _ _ v); [|apply v_oid_unlink].
Qed.

Definition not_named (name : string) (c : T) : bool := negb (String.eqb (o_name c) name).

Lemma owner_unreg_read name : forall fuel i vs (owners : list T),
  Forall (fun c => forall attr, list_ok (voids vs) (o_views c attr)) owners ->
  (length owners - i < fuel)%nat ->
  exists vs', owner_unreg_loop fuel name MIB_ACES_READ i vs owners =
    Some (vs', take i owners ++ List.filter (not_named name) (drop i owners)) /\ voids vs' = voids vs.
Proof.
  induction fuel as [|fuel IH]; intros i vs owners Hf Hlt; [lia|]. cbn [owner_unreg_loop].
  destruct (owners !! i) as [c|] eqn:Ei.
  2:{ apply lookup_ge_None in Ei. exists vs. rewrite drop_ge by done. cbn. by rewrite app_nil_r, take_ge. }
  rewrite (drop_S _ _ _ Ei). cbn [List.filter]. unfold not_named at 1.
  pose proof (lookup_lt_Some _ _ _ Ei) as Hi. destruct (String.eqb (o_name c) name); cbn [negb].
  - rewrite decide_True by done. pose proof (Forall_lookup_1 _ _ _ _ Hf Ei) as Hc.
    destruct (list_ok_den _ _ (Hc MIB_ACES_READ)) as [Hd1 _], (list_ok_den _ _ (Hc MIB_ACES_WRITE)) as [Hd2 _].
    destruct (view_remove_spec o_kind (name, MIB_ACES_READ) _ _ _ Hd1) as (vs1 & -> & E1).
    rewrite o_views_other by done. rewrite <- E1 in Hd2.
    destruct (view_remove_spec o_kind (name, MIB_ACES_WRITE) _ _ _ Hd2) as (vs2 & -> & E2).
    rewrite o_views_other, o_views_same, decide_True by done.
    destruct (IH i vs2 (take i owners ++ drop (S i) owners)) as (vs' & -> & E).
    + rewrite E2, E1. apply Forall_app. split; [by apply Forall_take|by apply Forall_drop].
    + rewrite length_app, length_take, length_drop. lia.
    + exists vs'. split; [|congruence]. rewrite take_app_le, take_take, Nat.min_id by (rewrite length_take; lia).
      by rewrite drop_app_ge, length_take, Nat.min_l, Nat.sub_diag, drop_0 by (rewrite ?length_take; lia).
  - destruct (IH (S i) vs owners Hf ltac:(lia)) as (vs' & -> & E). exists vs'. split; [|done].
    rewrite (take_S_r _ _ _ Ei), <- app_assoc. done.
Qed.

(** An owner of that name has readable views. *)
Definition has_readable (name : string) (owners : list T) : Prop :=
  Exists (fun c => o_name c = name /\ o_views c MIB_ACES_READ <> []) owners.

#[local] Instance has_readable_dec name owners : Decision (has_readable name owners).
Proof. unfold has_readable. apply _. Defined.

(** Without them both attributes remove the same. *)
Lemma owner_unreg_same name : forall fuel i vs (owners : list T), ~ has_readable name owners ->
  owner_unreg_loop fuel name MIB_ACES_WRITE i vs owners = owner_unreg_loop fuel name MIB_ACES_READ i vs owners.
Proof.
  induction fuel as [|fuel IH]; intros i vs owners Hno; [done|]. cbn [owner_unreg_loop].
  destruct (owners !! i) as [c|] eqn:Ei; [|done]. destruct (String.eqb_spec (o_name c) name) as [E|E]; [|by apply IH].
  assert (o_views c MIB_ACES_READ = []) as Hc.
  { destruct (decide (o_views c MIB_ACES_READ = [])); [done|]. destruct Hno. apply Exists_exists.
    exists c. split; [by eapply list_elem_of_lookup_2|done]. }
  rewrite (decide_False (P := MIB_ACES_WRITE = MIB_ACES_READ)), (decide_True (P := MIB_ACES_READ = MIB_ACES_READ)), Hc by done.
  cbn [view_remove]. rewrite (o_views_other c MIB_ACES_READ MIB_ACES_WRITE) by done.
  destruct (view_remove _ _ _ _) as [vs2|]; [|done]. rewrite !o_views_other, o_views_same, Hc, !decide_True by done.
  apply IH. intros Hin. apply Hno. unfold has_readable in *. apply Exists_app in Hin as [Hin|Hin];
    [rewrite <- (take_drop i owners)|rewrite <- (take_drop (S i) owners)]; apply Exists_app; auto.
Qed.

(** The owner stays in place and is looked at again. *)
Lemma owner_unreg_diverges name : forall fuel i j vs (owners : list T) c,
  owners !! j = Some c -> (i <= j)%nat -> o_name c = name -> o_views c MIB_ACES_READ <> [] ->
  owner_unreg_loop fuel name MIB_ACES_WRITE i vs owners = None.
Proof.
  induction fuel as [|fuel IH]; intros i j vs owners c Hj Hij Hn Hro; [done|]. cbn [owner_unreg_loop].
  pose proof (lookup_lt_Some _ _ _ Hj) as Hlt.
  destruct (lookup_lt_is_Some_2 owners i) as [ci Hi]; [lia|]. rewrite Hi.
  destruct (String.eqb_spec (o_name ci) name) as [E|E].
  - rewrite decide_False by done. destruct (view_remove _ _ _ _) as [vs2|]; [|done].
    rewrite o_views_other by done. case_decide as Hempty.
    + destruct (decide (i = j)) as [->|]; [congruence|].
      apply (IH i (j - 1)%nat vs2 _ c); [|lia|done|done].
      rewrite lookup_app_r by (rewrite length_take; lia). rewrite length_take, lookup_drop, Nat.min_l by lia.
      rewrite <- Hj. f_equal. lia.
    + destruct (decide (i = j)) as [->|].
      * apply (IH j j vs2 _ (o_set_views ci MIB_ACES_WRITE [])); [|lia|by rewrite o_name_set|by rewrite o_views_other].
        by rewrite list_lookup_insert_eq.
      * apply (IH i j vs2 _ c); [|lia|done|done]. by rewrite list_lookup_insert_ne.
  - destruct (decide (i = j)) as [->|]; [congruence|]. apply (IH (S i) j vs owners c); done || lia.
Qed.

Lemma owner_unreg_stuck name vs (owners : list T) : has_readable name owners ->
  forall fuel, owner_unreg_loop fuel name MIB_ACES_WRITE 0 vs owners = None.
Proof.
  intros (c & [j Hj]%list_elem_of_lookup & Hn & Hro)%Exists_exists fuel.
  by apply (owner_unreg_diverges name fuel 0 j vs owners c); [|lia|..].
Qed.

(** A removal is that with the read attribute, or it is stuck. *)
Lemma owner_unreg_cases name attr vs (owners : list T) :
  owner_unreg name attr vs owners = owner_unreg name MIB_ACES_READ vs owners \/
  attr = MIB_ACES_WRITE /\ has_readable name owners.
Proof.
  destruct attr; [by left|]. destruct (decide (has_readable name owners)) as [Hr|Hr]; [by right|left].
  by apply owner_unreg_same.
Qed.

(** ** Enumeration *)
Lemma next_view_first i (l : list nat) : next_view None (i :: l) = Some i.
Proof. done. Qed.

Lemma next_view_next l1 i j l2 : NoDup (l1 ++ i :: j :: l2) -> next_view (Some i) (l1 ++ i :: j :: l2) = Some j.
Proof.
  induction l1 as [|x l1 IH]; cbn; intros Hnd; [by rewrite decide_True|].
  inversion_clear Hnd as [|? ? Hx Hnd']. rewrite decide_False; [by apply IH|].
  intros ->. apply Hx. rewrite elem_of_app. right. left.
Qed.

Lemma next_view_last l1 i : NoDup (l1 ++ [i]) -> next_view (Some i) (l1 ++ [i]) = None.
Proof.
  induction l1 as [|x l1 IH]; cbn; intros Hnd; [by rewrite decide_True|].
  inversion_clear Hnd as [|? ? Hx Hnd']. rewrite decide_False; [by apply IH|].
  intros ->. apply Hx. rewrite elem_of_app. right. left.
Qed.

Lemma list_ok_NoDup os l : list_ok os l -> NoDup l.
Proof.
  intros (L & Hd & Ha). unfold apart in Ha. revert l Hd. induction Ha as [|o L Hs IH Ho]; intros l Hd.
  - apply Forall2_nil_inv_r in Hd as ->. constructor.
  - apply Forall2_cons_inv_r in Hd as (i & l' & Hi & Hd & ->). constructor; [|by apply IH].
    intros Hin. apply list_elem_of_lookup in Hin as [k Hk].
    destruct (Forall2_lookup_l _ _ _ _ _ Hd Hk) as (o' & Hk' & Ho').
    assert (o' = o) as -> by congruence. rewrite Forall_forall in Ho.
    destruct (Ho o) as [H' _]; [by eapply list_elem_of_lookup_2|]. by apply irreflexivity in H'; [|apply _].
Qed.

Lemma filter_names name (owners : list T) :
  NoDup (o_name <$> owners) -> NoDup (o_name <$> List.filter (not_named name) owners) /\
  forall n, n ∈ o_name <$> List.filter (not_named name) owners <-> n ∈ o_name <$> owners /\ n <> name.
Proof.
  induction owners as [|c owners IH]; cbn [List.filter fmap list_fmap].
  { intros _. split; [constructor|]. intros n. rewrite elem_of_nil. tauto. }
  inversion_clear 1 as [|? ? Hc Hnd]. destruct (IH Hnd) as [IH1 IH2].
  destruct (not_named name c) eqn:E; unfold not_named in E; cbn [fmap list_fmap].
  - apply negb_true_iff, String.eqb_neq in E. split.
    + constructor; [|done]. rewrite IH2. tauto.
    + intros n. rewrite !elem_of_cons, IH2. split; [|tauto]. intros [->|?]; tauto.
  - apply negb_false_iff, String.eqb_eq in E. split; [done|].
    intros n. rewrite IH2, elem_of_cons. split; [tauto|]. intros [[->|?] ?]; [done|tauto].
Qed.

Lemma owner_oids_in vs (owners : list T) c attr :
  NoDup (o_name <$> owners) -> c ∈ owners ->
  owner_oids vs owners (o_name c) attr = oids_of (voids vs) (o_views c attr).
Proof. intros Hnd [i Hi]%list_elem_of_lookup. by eapply owner_oids_at. Qed.

Lemma owner_oids_filter vs vs' (owners : list T) name n a :
  voids vs' = voids vs -> NoDup (o_name <$> owners) ->
  owner_oids vs' (List.filter (not_named name) owners) n a =
  if decide (n = name) then [] else owner_oids vs owners n a.
Proof.
  intros Hvs Hnd. destruct (filter_names name owners Hnd) as [Hnd' Hin].
  destruct (decide (n ∈ o_name <$> List.filter (not_named name) owners)) as [Hn|Hn].
  - pose proof (proj1 (Hin n) Hn) as [_ Hne]. rewrite decide_False by done.
    apply list_elem_of_fmap in Hn as (c & -> & Hc). rewrite (owner_oids_in vs' _ c a Hnd' Hc), Hvs.
    rewrite list_elem_of_In, filter_In, <- list_elem_of_In in Hc. by rewrite (owner_oids_in vs owners c a Hnd (proj1 Hc)).
  - rewrite (owner_oids_none vs') by done. case_decide; [done|]. symmetry. apply owner_oids_none. rewrite Hin in Hn. tauto.
Qed.

Lemma owner_unreg_spec name vs (owners : list T) :
  owners_ok vs owners ->
  exists vs', owner_unreg name MIB_ACES_READ vs owners = Some (vs', List.filter (not_named name) owners) /\
    voids vs' = voids vs /\ owners_ok vs' (List.filter (not_named name) owners) /\
    forall n a, owner_oids vs' (List.filter (not_named name) owners) n a =
      if decide (n = name) then [] else owner_oids vs owners n a.
Proof.
  intros [Hf Hnd]. unfold owner_unreg.
  destruct (owner_unreg_read name (S (length owners)) 0 vs owners Hf ltac:(lia)) as (vs' & -> & E).
  rewrite take_0, drop_0. exists vs'. split_and!; [done|done| |by intros; apply owner_oids_filter].
  split; [|by apply filter_names]. rewrite E. apply Forall_forall. intros c Hc.
  rewrite list_elem_of_In, filter_In, <- list_elem_of_In in Hc. rewrite Forall_forall in Hf. exact (Hf c (proj1 Hc)).
Qed.

(** Adding an owner without views. *)
Lemma owner_new vs (owners : list T) c :
  owners_ok vs owners -> o_name c ∉ o_name <$> owners -> (forall attr, o_views c attr = []) ->
  owners_ok vs (c :: owners) /\ forall n a, owner_oids vs (c :: owners) n a = owner_oids vs owners n a.
Proof.
  intros [Hf Hnd] Hc Hv. assert (NoDup (o_name <$> c :: owners)) as Hnd' by (cbn; by constructor).
  split; [split; [|done]|].
  - constructor; [|done]. intros attr. rewrite Hv. exists []. split; constructor.
  - intros n a. destruct (decide (n ∈ o_name <$> owners)) as [Hn|Hn].
    + apply list_elem_of_fmap in Hn as (c' & -> & Hin).
      rewrite (owner_oids_in vs (c :: owners) c' a Hnd') by (by right). by rewrite (owner_oids_in vs owners c' a Hnd).
    + rewrite (owner_oids_none vs owners) by done. destruct (decide (n = o_name c)) as [->|].
      * rewrite (owner_oids_in vs (c :: owners) c a Hnd') by (by left). by rewrite Hv.
      * apply owner_oids_none. cbn. rewrite not_elem_of_cons. done.
Qed.

(** Replacing an owner by one with the same name and views. *)
Lemma owner_replace vs (owners : list T) i c c' :
  owners_ok vs owners -> owners !! i = Some c -> o_name c' = o_name c ->
  (forall attr, o_views c' attr = o_views c attr) ->
  owners_ok vs (<[i := c']> owners) /\ (o_name <$> <[i := c']> owners) = o_name <$> owners /\
  forall n a, owner_oids vs (<[i := c']> owners) n a = owner_oids vs owners n a.
Proof.
  intros [Hf Hnd] Hi En Eviews.
  assert (o_name <$> <[i := c']> owners = o_name <$> owners) as Enames.
  { rewrite list_fmap_insert, En. apply list_insert_id. by rewrite list_lookup_fmap, Hi. }
  assert (NoDup (o_name <$> <[i := c']> owners)) as Hnd' by (by rewrite Enames).
  split_and!; [split; [|done]|done|].
  - apply Forall_insert; [done|]. intros attr. rewrite Eviews. exact (Forall_lookup_1 _ _ _ _ Hf Hi attr).
  - intros n a. destruct (owner_search owners n) as [j|] eqn:Ej.
    + apply owner_search_some in Ej as (cj & Hj & <-). rewrite (owner_oids_at _ owners j cj a Hnd Hj).
      destruct (decide (j = i)) as [->|].
      * assert (cj = c) as -> by congruence. rewrite <- En.
        rewrite (owner_oids_at _ (<[i := c']> owners) i c' a Hnd'); [by rewrite Eviews|].
        apply list_lookup_insert_eq. by eapply lookup_lt_Some.
      * apply (owner_oids_at _ (<[i := c']> owners) j cj a Hnd'). by rewrite list_lookup_insert_ne.
    + apply owner_search_none in Ej. rewrite !owner_oids_none by (by rewrite ?Enames). done.
Qed.

(** Every writable subtree is readable. *)
Definition write_read (vs : list mib_view) (owners : list T) : Prop := forall n o,
  covered (owner_oids vs owners n MIB_ACES_WRITE) o -> covered (owner_oids vs owners n MIB_ACES_READ) o.

Lemma write_read_reg vs vs' (owners owners' : list T) name oid attr :
  write_read vs owners ->
  (forall n a, owner_oids vs' owners' n a =
    if decide (n = name /\ (attr = MIB_ACES_WRITE \/ a = MIB_ACES_READ))
    then obind oid (owner_oids vs owners n a) else owner_oids vs owners n a) ->
  write_read vs' owners'.
Proof.
  intros Hwr Ho n o. specialize (Hwr n o). rewrite (Ho n MIB_ACES_READ), (Ho n MIB_ACES_WRITE).
  destruct (decide (n = name)) as [->|]; [|by rewrite !decide_False by tauto].
  rewrite (decide_True (P := name = name /\ (attr = MIB_ACES_WRITE \/ MIB_ACES_READ = MIB_ACES_READ))) by auto.
  rewrite obind_covered. destruct (decide _); [rewrite obind_covered|]; tauto.
Qed.
End OwnerProofs.

(** ** The whole state *)
Record state_ok (st : view_state) : Prop := {
  so_views : views_ok (mib_views st);
  so_communities : owners_ok (mib_views st) (mib_communities st);
  so_users : owners_ok (mib_views st) (mib_users st);
  so_communities_wr : write_read (mib_views st) (mib_communities st);
  so_users_wr : write_read (mib_views st) (mib_users st);
}.

Definition community_oids (st : view_state) := owner_oids (mib_views st) (mib_communities st).
Definition user_oids (st : view_state) := owner_oids (mib_views st) (mib_users st).

Definition reg_effect (name : string) (attr : aces_attr) (oid : list Z)
    (f f' : string -> aces_attr -> list (list Z)) : Prop := forall n a,
  f' n a = if decide (n = name /\ (attr = MIB_ACES_WRITE \/ a = MIB_ACES_READ)) then obind oid (f n a) else f n a.

Lemma write_read_ext {T} `{OwnerLaws T} vs vs' (owners owners' : list T) :
  write_read vs owners -> (forall n a, owner_oids vs' owners' n a = owner_oids vs owners n a) -> write_read vs' owners'.
Proof. intros Hwr Ho n o. rewrite !Ho. apply Hwr. Qed.

Lemma community_create_spec st name i st' :
  state_ok st -> community_create st name = (i, st') ->
  state_ok st' /\ (exists c, mib_communities st' !! i = Some c /\ o_name c = name) /\
  mib_views st' = mib_views st /\ mib_users st' = mib_users st /\
  forall n a, community_oids st' n a = community_oids st n a.
Proof.
  intros [Hv Hc Hu Hcw Huw]. unfold community_create, mib_community_search.
  destruct (owner_search (mib_communities st) name) as [j|] eqn:E; intros [= <- <-].
  - apply owner_search_some in E as (c & ? & ?). split_and!; try done. by exists c.
  - apply owner_search_none in E.
    destruct (owner_new (mib_views st) (mib_communities st) (mk_community name [] [])) as [Hok Ho];
      [done|done|by intros []|].
    split_and!; try done; [|by eexists]. split; try done. by eapply write_read_ext.
Qed.

Lemma community_reg_spec st oid name attr :
  state_ok st -> oid_small oid ->
  exists st', mib_community_reg oid name attr st = Some st' /\ state_ok st' /\
    reg_effect name attr oid (community_oids st) (community_oids st') /\
    forall n a, user_oids st' n a = user_oids st n a.
Proof.
  intros Hst Ho. unfold mib_community_reg. destruct (community_create st name) as [i st1] eqn:E.
  destruct (community_create_spec st name i st1 Hst E) as (Hst1 & (c & Hi & <-) & Hvs & Hus & Hco).
  destruct Hst1 as [Hv Hc Hu Hcw Huw].
  destruct (owner_reg_spec _ _ i c oid attr Hv Hc Ho Hi) as (vs & cs & -> & Hv' & Hext & Hc' & Heff).
  eexists. split; [done|].
  assert (forall n a, user_oids (mk_state vs cs (mib_users st1)) n a = user_oids st1 n a) as Huo
    by (intros n a; by apply owner_oids_ext).
  split_and!.
  - split; [done|done|by eapply owners_ok_ext|by eapply write_read_reg|by eapply write_read_ext].
  - intros n a. rewrite <- !Hco. apply Heff.
  - intros n a. rewrite Huo. unfold user_oids. by rewrite Hvs, Hus.
Qed.

Lemma user_reg_spec st oid name attr :
  state_ok st -> oid_small oid ->
  exists st', mib_user_reg oid name attr st = Some st' /\ state_ok st' /\
    (mib_user_search st name <> None -> reg_effect name attr oid (user_oids st) (user_oids st')) /\
    (mib_user_search st name = None -> st' = st) /\
    forall n a, community_oids st' n a = community_oids st n a.
Proof.
  intros Hst Ho. pose proof Hst as [Hv Hc Hu Hcw Huw]. unfold mib_user_reg, mib_user_search.
  destruct (owner_search (mib_users st) name) as [i|] eqn:E; [|by exists st].
  apply owner_search_some in E as (u & Hi & <-).
  destruct (owner_reg_spec _ _ i u oid attr Hv Hu Ho Hi) as (vs & us & -> & Hv' & Hext & Hu' & Heff).
  eexists. split; [done|].
  assert (forall n a, community_oids (mk_state vs (mib_communities st) us) n a = community_oids st n a) as Hco
    by (intros n a; by apply owner_oids_ext).
  split_and!; try done.
  split; [done|by eapply owners_ok_ext|done|by eapply write_read_ext|by eapply write_read_reg].
Qed.

Lemma views_ok_same vs vs' : voids vs' = voids vs -> views_ok vs -> views_ok vs' /\ views_ext vs vs'.
Proof. intros E H. unfold views_ok, views_ext. rewrite E. split; [done|]. exists []. by rewrite app_nil_r. Qed.

Lemma write_read_unreg {T} `{OwnerLaws T} vs vs' (owners owners' : list T) name :
  write_read vs owners ->
  (forall n a, owner_oids vs' owners' n a = if decide (n = name) then [] else owner_oids vs owners n a) ->
  write_read vs' owners'.
Proof. intros Hwr Ho n o. rewrite !Ho. case_decide; [done|apply Hwr]. Qed.

Lemma community_unreg_spec st name :
  state_ok st ->
  exists st', mib_community_unreg name MIB_ACES_READ st = Some st' /\ state_ok st' /\
    (forall n a, community_oids st' n a = if decide (n = name) then [] else community_oids st n a) /\
    forall n a, user_oids st' n a = user_oids st n a.
Proof.
  intros [Hv Hc Hu Hcw Huw]. unfold mib_community_unreg.
  destruct (owner_unreg_spec name (mib_views st) (mib_communities st) Hc) as (vs & -> & E & Hc' & Heff).
  eexists. split; [done|]. destruct (views_ok_same _ _ E Hv) as [Hv' Hext].
  assert (forall n a, user_oids (mk_state vs (List.filter (not_named name) (mib_communities st)) (mib_users st)) n a =
    user_oids st n a) as Huo by (intros n a; by apply owner_oids_ext).
  split_and!; [|done|done].
  split; [done|done|by eapply owners_ok_ext|by eapply write_read_unreg|by eapply write_read_ext].
Qed.

Lemma user_unreg_spec st name :
  state_ok st ->
  exists st', mib_user_unreg name MIB_ACES_READ st = Some st' /\ state_ok st' /\
    (forall n a, user_oids st' n a = if decide (n = name) then [] else user_oids st n a) /\
    forall n a, community_oids st' n a = community_oids st n a.
Proof.
  intros [Hv Hc Hu Hcw Huw]. unfold mib_user_unreg.
  destruct (owner_unreg_spec name (mib_views st) (mib_users st) Hu) as (vs & -> & E & Hu' & Heff).
  eexists. split; [done|]. destruct (views_ok_same _ _ E Hv) as [Hv' Hext].
  assert (forall n a, community_oids (mk_state vs (mib_communities st) (List.filter (not_named name) (mib_users st))) n a =
    community_oids st n a) as Hco by (intros n a; by apply owner_oids_ext).
  split_and!; [|done|done].
  split; [done|by eapply owners_ok_ext|done|by eapply write_read_ext|by eapply write_read_unreg].
Qed.

(** ** Creating users *)
Section UserCreateProofs.
Context (MD5_key SHA1_key : list Z -> list Z -> list Z) (engine_id : list Z) (junk : Z).
Context (Hmd5 : forall p id, length (MD5_key p id) = 16%nat).
Context (Hsha1 : forall p id, length (SHA1_key p id) = 20%nat).

(** The key buffers of a user. *)
Definition keys_ok (u : mib_user) : Prop := length (u_auth_key u) = 20%nat /\ length (u_priv_key u) = 16%nat.

Local Abbreviation create := (mib_user_create MD5_key SHA1_key engine_id junk).
Local Abbreviation keys := (user_keys MD5_key SHA1_key engine_id junk).

(** A key is derived into a buffer of 20 bytes. *)
Lemma derive_spec am p buf :
  length buf = 20%nat ->
  exists k, (if am =? SNMP_USER_AUTH_MD5 then blit (MD5_key p engine_id) buf
    else if am =? SNMP_USER_AUTH_SHA1 then blit (SHA1_key p engine_id) buf else Some buf) = Some k /\
    length k = 20%nat /\ (am = SNMP_USER_AUTH_MD5 -> take 16 k = MD5_key p engine_id) /\
    (am = SNMP_USER_AUTH_SHA1 -> k = SHA1_key p engine_id).
Proof.
  intros Hb. unfold blit. rewrite Hmd5, Hsha1, !decide_True by lia.
  destruct (Z.eqb_spec am SNMP_USER_AUTH_MD5) as [->|]; [|destruct (Z.eqb_spec am SNMP_USER_AUTH_SHA1) as [->|]].
  - eexists. split; [done|]. split_and!; [rewrite length_app, length_drop, Hmd5; lia| |done].
    intros _. by rewrite <- (Hmd5 p engine_id), take_app_length.
  - eexists. split; [done|]. split_and!; [rewrite length_app, length_drop, Hsha1; lia|done|].
    intros _. by rewrite drop_ge, app_nil_r by lia.
  - by eexists.
Qed.

Lemma user_keys_spec u am ap pm pp :
  keys_ok u ->
  exists u', keys u am ap pm pp = Some u' /\ keys_ok u' /\ u_name u' = u_name u /\
    u_ro_views u' = u_ro_views u /\ u_rw_views u' = u_rw_views u /\
    (ap <> [] -> u_auth_mode u' = am /\
      (am = SNMP_USER_AUTH_MD5 -> take 16 (u_auth_key u') = MD5_key ap engine_id) /\
      (am = SNMP_USER_AUTH_SHA1 -> u_auth_key u' = SHA1_key ap engine_id) /\
      (pp <> [] -> u_priv_mode u' = pm /\
        (am = SNMP_USER_AUTH_MD5 -> u_priv_key u' = MD5_key pp engine_id) /\
        (am = SNMP_USER_AUTH_SHA1 -> u_priv_key u' = take 16 (SHA1_key pp engine_id)))).
Proof.
  intros [Ha Hp]. unfold user_keys. destruct (decide (ap = [])) as [->|Hap]; [exists u; by split_and!|].
  destruct (derive_spec am ap (u_auth_key u) Ha) as (ak & -> & Hlen & H1 & H2).
  destruct (decide (pp = [])) as [->|Hpp]; [by eexists|].
  destruct (derive_spec am pp (replicate 20 junk)) as (sk & -> & Hslen & H3 & H4); [by rewrite length_replicate|].
  unfold slice. rewrite decide_True by lia. rewrite drop_0. eexists. split; [done|].
  split; [split; cbn; [done|rewrite length_take; lia]|]. cbn. split_and!; try done.
  intros _. split_and!; [done|done|done|]. intros _. split_and!; [done|done|]. intros E. by rewrite (H4 E).
Qed.

Definition users_keys_ok (st : view_state) : Prop := Forall keys_ok (mib_users st).

Lemma user_create_spec st name am ap pm pp :
  state_ok st -> users_keys_ok st ->
  exists st', create name am ap pm pp st = Some st' /\ state_ok st' /\ users_keys_ok st' /\
    mib_user_search st' name <> None /\
    (forall n a, user_oids st' n a = user_oids st n a) /\
    forall n a, community_oids st' n a = community_oids st n a.
Proof.
  intros [Hv Hc Hu Hcw Huw] Hk. unfold mib_user_create, mib_user_search.
  assert (exists i users u, (match owner_search (mib_users st) name with
    | Some i => (i, mib_users st)
    | None => (0%nat, mk_user name junk junk (replicate 20 junk) (replicate 16 junk) [] [] :: mib_users st)
    end) = (i, users) /\ users !! i = Some u /\ u_name u = name /\ owners_ok (mib_views st) users /\ Forall keys_ok users /\
    forall n a, owner_oids (mib_views st) users n a = owner_oids (mib_views st) (mib_users st) n a)
    as (i & users & u & -> & Hi & Hn & Hok & Hkeys & Ho).
  { destruct (owner_search (mib_users st) name) as [i|] eqn:E.
    - apply owner_search_some in E as (u & ? & ?). exists i, (mib_users st), u. by split_and!.
    - apply owner_search_none in E. do 3 eexists. split; [done|]. split; [done|]. split; [done|].
      destruct (owner_new (mib_views st) (mib_users st)
        (mk_user name junk junk (replicate 20 junk) (replicate 16 junk) [] [])) as [Hok Ho]; [done|done|by intros []|].
      split_and!; [done| |done]. constructor; [|done]. split; cbn; done. }
  rewrite Hi. destruct (user_keys_spec u am ap pm pp) as (u' & -> & Hk' & En & Ero & Erw & _).
  { exact (Forall_lookup_1 _ _ _ _ Hkeys Hi). }
  eexists. split; [done|].
  destruct (owner_replace (mib_views st) users i u u') as (Hok' & Enames & Eo); [done|done|done|by intros []|].
  split_and!; [split| | | |]; cbn; try done.
  - apply (write_read_ext (mib_views st) _ (mib_users st)); [done|]. intros n a. by rewrite Eo, Ho.
  - by apply Forall_insert.
  - intros Es. apply owner_search_none in Es. destruct Es.
    rewrite Enames. apply list_elem_of_fmap. exists u. split; [done|]. by eapply list_elem_of_lookup_2.
  - intros n a. unfold user_oids. cbn. by rewrite Eo, Ho.
Qed.
End UserCreateProofs.

(** ** Sequences of operations *)
Definition view_init : view_state := mk_state [] [] [].

Inductive view_op :=
| CommunityReg (oid : list Z) (name : string) (attr : aces_attr)
| CommunityUnreg (name : string) (attr : aces_attr)
| UserCreate (name : string) (auth_mode : Z) (auth_phrase : list Z) (priv_mode : Z) (priv_phrase : list Z)
| UserReg (oid : list Z) (name : string) (attr : aces_attr)
| UserUnreg (name : string) (attr : aces_attr).

Definition view_step (md5 sha1 : list Z -> list Z -> list Z) (engine_id : list Z) (junk : Z) (op : view_op)
    (st : view_state) : option view_state :=
  match op with
  | CommunityReg oid name attr => mib_community_reg oid name attr st
  | CommunityUnreg name attr => mib_community_unreg name attr st
  | UserCreate name am ap pm pp => mib_user_create md5 sha1 engine_id junk name am ap pm pp st
  | UserReg oid name attr => mib_user_reg oid name attr st
  | UserUnreg name attr => mib_user_unreg name attr st
  end.

Fixpoint view_run (md5 sha1 : list Z -> list Z -> list Z) (engine_id : list Z) (junk : Z) (ops : list view_op)
    (st : view_state) : option view_state :=
  match ops with
  | [] => Some st
  | op :: ops' => let* st' := view_step md5 sha1 engine_id junk op st in view_run md5 sha1 engine_id junk ops' st'
  end.

(** The operations that never return: removals with the write attribute of a
    community or user with readable views. *)
Definition view_stuck (op : view_op) (st : view_state) : Prop :=
  match op with
  | CommunityUnreg name attr => attr = MIB_ACES_WRITE /\ has_readable name (mib_communities st) /\
      forall fuel, owner_unreg_loop fuel name attr 0 (mib_views st) (mib_communities st) = None
  | UserUnreg name attr => attr = MIB_ACES_WRITE /\ has_readable name (mib_users st) /\
      forall fuel, owner_unreg_loop fuel name attr 0 (mib_views st) (mib_users st) = None
  | _ => False
  end.

Lemma view_stuck_step md5 sha1 engine_id junk op st : view_stuck op st -> view_step md5 sha1 engine_id junk op st = None.
Proof.
  destruct op; cbn [view_stuck view_step]; intros H; try done; destruct H as (_ & _ & Hf);
    unfold mib_community_unreg, mib_user_unreg, owner_unreg; by rewrite Hf.
Qed.

(** Repeated calls of [*_next_view], as the request handlers make them. *)
Fixpoint visit (n : nat) (f : option nat -> option nat) (v : option nat) : list nat :=
  match n with
  | O => []
  | S n' => match f v with Some w => w :: visit n' f (Some w) | None => [] end
  end.

(** The community called [name], and what it may do. *)
Definition community_at (st : view_state) (name : string) : option mib_community :=
  let* i := mib_community_search st name in mib_communities st !! i.

Lemma users_keys_reg st oid name attr st' :
  mib_user_reg oid name attr st = Some st' -> users_keys_ok st -> users_keys_ok st'.
Proof.
  unfold mib_user_reg, users_keys_ok. destruct (mib_user_search st name) as [i|]; [|by intros [= <-]].
  assert (forall a s s', owner_view_bind oid i a s = Some s' -> Forall keys_ok s.2 -> Forall keys_ok s'.2) as Hbind.
  { intros a [vs us] s'. unfold owner_view_bind. destruct (us !! i) as [u|] eqn:Eu; [|done].
    destruct (view_bind _ _ _ _ _) as [[l vs']|]; [|done]. intros [= <-] Hk. cbn in *.
    apply Forall_insert; [done|]. pose proof (Forall_lookup_1 _ _ _ _ Hk Eu). by destruct a. }
  unfold owner_reg. intros E Hk. case_decide.
  - destruct (owner_view_bind oid i MIB_ACES_WRITE _) as [s1|] eqn:E1; [|done].
    destruct (owner_view_bind oid i MIB_ACES_READ s1) as [[vs us]|] eqn:E2; [|done]. injection E as <-.
    apply (Hbind _ _ _ E2), (Hbind _ _ _ E1). done.
  - destruct (owner_view_bind oid i MIB_ACES_READ _) as [[vs us]|] eqn:E2; [|done]. injection E as <-.
    by apply (Hbind _ _ _ E2).
Qed.

Lemma view_step_ok md5 sha1 engine_id junk op st :
  (forall p id, length (md5 p id) = 16%nat) -> (forall p id, length (sha1 p id) = 20%nat) ->
  state_ok st -> users_keys_ok st ->
  match op with CommunityReg oid _ _ | UserReg oid _ _ => oid_small oid | _ => True end ->
  (exists st', view_step md5 sha1 engine_id junk op st = Some st' /\ state_ok st' /\ users_keys_ok st') \/ view_stuck op st.
Proof.
  intros Hmd5 Hsha1 Hst Hk Ho. destruct op as [oid name attr|name attr|name am ap pm pp|oid name attr|name attr]; cbn [view_step view_stuck].
  - left. destruct (community_reg_spec st oid name attr Hst Ho) as (st' & E & Hst' & _). exists st'. split_and!; [done|done|].
    unfold mib_community_reg in E. destruct (community_create st name) as [i st1] eqn:Ec.
    destruct (community_create_spec st name i st1 Hst Ec) as (_ & _ & _ & Hus & _).
    destruct (owner_reg _ _ _ _) as [[vs cs]|]; [|done]. injection E as <-. unfold users_keys_ok. cbn. by rewrite Hus.
  - destruct (owner_unreg_cases name attr (mib_views st) (mib_communities st)) as [Ea|[-> Hr]];
      [left|right; split_and!; [done|done|by apply owner_unreg_stuck]].
    destruct (community_unreg_spec st name Hst) as (st' & E & Hst' & _).
    unfold mib_community_unreg in *. rewrite Ea. clear Ea. exists st'. split; [exact E|]. split; [done|].
    destruct (owner_unreg name MIB_ACES_READ (mib_views st) (mib_communities st)) as [[vs cs]|]; [|done]. by injection E as <-.
  - left. destruct (user_create_spec md5 sha1 engine_id junk Hmd5 Hsha1 st name am ap pm pp Hst Hk) as (st' & E & Hst' & Hk' & _).
    by exists st'.
  - left. destruct (user_reg_spec st oid name attr Hst Ho) as (st' & E & Hst' & _). exists st'. split_and!; [done|done|].
    by eapply users_keys_reg.
  - destruct (owner_unreg_cases name attr (mib_views st) (mib_users st)) as [Ea|[-> Hr]];
      [left|right; split_and!; [done|done|by apply owner_unreg_stuck]].
    destruct (user_unreg_spec st name Hst) as (st' & E & Hst' & _).
    unfold mib_user_unreg in *. rewrite Ea. clear Ea. exists st'. split; [exact E|]. split; [done|].
    destruct (owner_unreg_spec name (mib_views st) (mib_users st) (so_users _ Hst)) as (vs & Eu & _).
    rewrite Eu in E. injection E as <-. unfold users_keys_ok. cbn. apply Forall_forall. intros u Hu.
    rewrite list_elem_of_In, filter_In, <- list_elem_of_In in Hu. unfold users_keys_ok in Hk. rewrite Forall_forall in Hk.
    exact (Hk u (proj1 Hu)).
Qed.

Lemma view_init_ok : state_ok view_init /\ users_keys_ok view_init.
Proof.
  split; [|constructor]. split.
  - split; constructor.
  - split; constructor.
  - split; constructor.
  - intros n o Hc. by apply Exists_nil in Hc.
  - intros n o Hc. by apply Exists_nil in Hc.
Qed.

Lemma view_run_ok md5 sha1 engine_id junk ops st :
  (forall p id, length (md5 p id) = 16%nat) -> (forall p id, length (sha1 p id) = 20%nat) ->
  Forall (fun op => match op with CommunityReg oid _ _ | UserReg oid _ _ => oid_small oid | _ => True end) ops ->
  state_ok st -> users_keys_ok st ->
  match view_run md5 sha1 engine_id junk ops st with
  | Some st' => state_ok st'
  | None => exists done op rest st', ops = done ++ op :: rest /\ view_run md5 sha1 engine_id junk done st = Some st' /\
      state_ok st' /\ view_stuck op st'
  end.
Proof.
  intros Hmd5 Hsha1 Hops. revert st. induction Hops as [|op ops Hop _ IH]; intros st Hst Hk; cbn [view_run]; [done|].
  destruct (view_step_ok md5 sha1 engine_id junk op st Hmd5 Hsha1 Hst Hk Hop) as [(st1 & E & Hst1 & Hk1)|Hs].
  - rewrite E. specialize (IH st1 Hst1 Hk1). destruct (view_run _ _ _ _ ops st1) as [st'|]; [done|].
    destruct IH as (ops1 & op' & rest & st' & -> & Hr & Hst' & Hs). exists (op :: ops1), op', rest, st'.
    split_and!; [done| |done|done]. cbn [view_run]. by rewrite E.
  - rewrite (view_stuck_step _ _ _ _ _ _ Hs). by exists [], op, ops, st.
Qed.

Lemma community_cover_spec st name attr o :
  state_ok st -> oid_ok o ->
  exists r, mib_community_view_cover st (community_at st name) attr o = Some r /\
    (r = 1 /\ covered (community_oids st name attr) o \/ r = 0 /\ ~ covered (community_oids st name attr) o).
Proof.
  intros [[Hsm Hnd] [Hf Hn] _ _ _] Ho. unfold mib_community_view_cover, owner_view_cover, community_at, community_oids, owner_oids.
  unfold mib_community_search. destruct (owner_search (mib_communities st) name) as [i|] eqn:E.
  - apply owner_search_some in E as (c & Hi & _). rewrite Hi.
    apply view_cover_den; [done|by apply Forall_small_ok|]. apply list_ok_den. exact (Forall_lookup_1 _ _ _ _ Hf Hi attr).
  - exists 0. split; [done|]. right. split; [done|]. by intros ?%Exists_nil.
Qed.

Lemma visit_next l1 i l2 : NoDup (l1 ++ i :: l2) ->
  visit (S (length l2)) (fun v => next_view v (l1 ++ i :: l2)) (Some i) = l2.
Proof.
  revert l1 i. induction l2 as [|j l2 IH]; intros l1 i Hnd; cbn [visit length].
  - by rewrite next_view_last.
  - rewrite next_view_next by done. f_equal. specialize (IH (l1 ++ [i]) j). rewrite <- app_assoc in IH. by apply IH.
Qed.

(** ** Properties *)


Definition example_ops : list view_op :=
  [CommunityReg [1; 3; 6; 1] "public" MIB_ACES_READ; CommunityReg [1; 3; 6] "public" MIB_ACES_WRITE;
   CommunityReg [1; 3; 5] "public" MIB_ACES_READ;
   UserCreate "alice" 0 [1; 2] 1 [3; 4]; UserReg [1; 3] "alice" MIB_ACES_WRITE; CommunityUnreg "nobody" MIB_ACES_WRITE].

Definition example_key (n : nat) (p id : list Z) : list Z := replicate n 7.

Lemma oid_small_check o : forallb (fun x => (0 <=? x) && (x <? 2 ^ 31)) o = true ->
  Z.of_nat (length o) < 2 ^ 31 -> oid_small o.
Proof.
  intros H Hl. split; [|done]. apply Forall_forall. intros x Hx. rewrite forallb_forall in H.
  specialize (H x). rewrite <- list_elem_of_In in H. specialize (H Hx). lia.
Qed.

Lemma example_ops_small :
  Forall (fun op => match op with CommunityReg oid _ _ | UserReg oid _ _ => oid_small oid | _ => True end) example_ops.
Proof.
  unfold example_ops. repeat (apply Forall_cons; split; [try exact I; by apply oid_small_check|]). apply Forall_nil_2.
Qed.


(** The state of that example. *)
Definition example_state : view_state :=
  match view_run (example_key 16) (example_key 20) [] 0 example_ops view_init with Some st => st | None => view_init end.

Lemma example_state_ok : state_ok example_state.
Proof.
  unfold example_state. destruct view_init_ok as [Hst Hk].
  pose proof (view_run_ok (example_key 16) (example_key 20) [] 0 example_ops view_init
    ltac:(reflexivity) ltac:(reflexivity) example_ops_small Hst Hk) as H.
  by destruct (view_run _ _ _ _ _ _).
Qed.



(** C36: [mib_community_unreg] with [MIB_ACES_READ] terminates and revokes every
    access of the community, and only of that community. *)
Theorem mib_community_unreg_revokes (st : view_state) (name : string) (Hst : state_ok st) :
  exists st', mib_community_unreg name MIB_ACES_READ st = Some st' /\ state_ok st' /\
    forall n a o, oid_ok o ->
      mib_community_view_cover st' (community_at st' n) a o =
      if decide (n = name) then Some 0 else mib_community_view_cover st (community_at st n) a o.
Proof.
  destruct (community_unreg_spec st name Hst) as (st' & E & Hst' & Heff & _). exists st'.
  split_and!; [done|done|]. intros n a o Ho.
  destruct (community_cover_spec st' n a o Hst' Ho) as (r' & -> & H'), (community_cover_spec st n a o Hst Ho) as (r & -> & H).
  rewrite Heff in H'. case_decide as Hd; f_equal.
  - destruct H' as [[_ Hc]|[-> _]]; [by apply Exists_nil in Hc|done].
  - destruct H as [[-> ?]|[-> ?]], H' as [[-> ?]|[-> ?]]; tauto || done.
Qed.

Lemma mib_community_unreg_revokes_witness :
  exists st', mib_community_unreg "public" MIB_ACES_READ example_state = Some st' /\
    mib_community_view_cover st' (community_at st' "public") MIB_ACES_READ [1; 3; 6] = Some 0.
Proof.
  destruct (mib_community_unreg_revokes example_state "public" example_state_ok) as (st' & E & _ & H).
  exists st'. split; [exact E|]. rewrite H by (by apply oid_ok_small). reflexivity.
Defined.

(** C40: [mib_community_unreg] with [MIB_ACES_WRITE] never returns for a
    community that still has readable views, whatever number of iterations it is
    given: the loop neither removes the community nor advances past it. *)
Theorem mib_community_unreg_write_diverges (st : view_state) (i : nat) (c : mib_community)
    (Hi : mib_communities st !! i = Some c) (Hro : c_ro_views c <> []) :
  forall fuel, owner_unreg_loop fuel (c_name c) MIB_ACES_WRITE 0 (mib_views st) (mib_communities st) = None.
Proof. intros fuel. by apply (owner_unreg_diverges (c_name c) fuel 0 i _ _ c); [|lia|..]. Qed.

Lemma mib_community_unreg_write_diverges_witness :
  owner_unreg_loop 1000 "public" MIB_ACES_WRITE 0 (mib_views example_state) (mib_communities example_state) = None.
Proof.
  destruct (mib_communities example_state !! 0%nat) as [c|] eqn:E; [|by vm_compute in E].
  assert (c_name c = "public"%string) as <- by (vm_compute in E; by injection E as <-).
  apply (mib_community_unreg_write_diverges example_state 0 c E).
  vm_compute in E. injection E as <-. discriminate.
Defined.

(** The request handlers, which ask [mib_community_next_view] for the first
    view and then for the one after the last, visit each view of the community
    once, in increasing order of disjoint subtrees. *)
Theorem mib_community_next_view_visits (st : view_state) (i : nat) (c : mib_community) (attr : aces_attr)
    (Hst : state_ok st) (Hi : mib_communities st !! i = Some c) :
  visit (S (length (o_views c attr))) (mib_community_next_view (Some c) attr) None = o_views c attr /\
  apart (oids_of (voids (mib_views st)) (o_views c attr)).
Proof.
  destruct Hst as [_ [Hf _] _ _ _]. pose proof (Forall_lookup_1 _ _ _ _ Hf Hi attr) as Hok.
  split; [|by apply list_ok_den]. pose proof (list_ok_NoDup _ _ Hok) as Hnd.
  unfold mib_community_next_view, owner_next_view. destruct (o_views c attr) as [|j l]; [done|].
  cbn [visit length next_view]. f_equal. by apply (visit_next [] j l).
Qed.

Lemma mib_community_next_view_visits_witness :
  exists c, mib_communities example_state !! 0%nat = Some c /\
    visit (S (length (o_views c MIB_ACES_READ))) (mib_community_next_view (Some c) MIB_ACES_READ) None = [2; 1]%nat.
Proof.
  destruct (mib_communities example_state !! 0%nat) as [c|] eqn:E; [|by vm_compute in E]. exists c. split; [done|].
  refine (eq_trans (proj1 (mib_community_next_view_visits example_state 0 c MIB_ACES_READ example_state_ok E)) _).
  vm_compute in E. injection E as <-. reflexivity.
Defined.
