(* ===== verification/Message.v ===== *)
(** * SNMP messages on the wire

    The reference encoding of SNMP messages (RFC 1157, RFC 3416 and RFC 3412 on
    top of the BER of X.690): what the decoder of [snmp_msg_in.c] is meant to
    accept and the encoder of [snmp_msg_out.c] is meant to produce.  Every
    length is that of the content that follows, and every integer is in its
    shortest form. *)
From S2P Require Import Prelude BerEncoder BerSpec BerDecoder.
Local Open Scope Z_scope.

(** ** Basic encodings *)
Definition len_bytes (n : Z) : list Z :=
  if n <=? 127 then [n] else (128 + Z.of_nat (len_octets n)) :: be_bytes (len_octets n) n.

Definition tlv (t : Z) (c : list Z) : list Z := t :: len_bytes (zlen c) ++ c.

Definition tint (v : Z) : list Z := tlv ASN1_TAG_INT (int_bytes v).
Definition tstr (s : list Z) : list Z := tlv ASN1_TAG_OCTSTR s.

(** ** Bindings and PDUs *)
Record binding := mk_binding {
  b_oid : list Z;
  b_type : Z;
  b_value : list Z;
}.

Definition binding_body (b : binding) : list Z := tlv ASN1_TAG_OBJID (oid_bytes (b_oid b)) ++ tlv (b_type b) (b_value b).
Definition binding_tlv (b : binding) : list Z := tlv ASN1_TAG_SEQ (binding_body b).
Definition bindings_bytes (l : list binding) : list Z := concat (map binding_tlv l).

Record pdu_msg := mk_pdu_msg {
  p_type : Z;
  p_req_id : Z;
  p_err_stat : Z;
  p_err_idx : Z;
  p_bindings : list binding;
}.

Definition pdu_body (p : pdu_msg) : list Z :=
  tint (p_req_id p) ++ tint (p_err_stat p) ++ tint (p_err_idx p)
    ++ tlv ASN1_TAG_SEQ (bindings_bytes (p_bindings p)).
Definition pdu_tlv (p : pdu_msg) : list Z := tlv (p_type p) (pdu_body p).

(** ** Versions 1 and 2c *)
Definition msg_body (version : Z) (community : list Z) (p : pdu_msg) : list Z :=
  tint version ++ tstr community ++ pdu_tlv p.
Definition message_tlv (version : Z) (community : list Z) (p : pdu_msg) : list Z :=
  tlv ASN1_TAG_SEQ (msg_body version community p).

(** ** Version 3 *)
Record v3_hdr := mk_v3 {
  h_id : Z;
  h_max_size : Z;
  h_flags : Z;
  h_model : Z;
  h_engine_id : list Z;
  h_boots : Z;
  h_time : Z;
  h_user : list Z;
}.

Definition global_body (h : v3_hdr) : list Z :=
  tint (h_id h) ++ tint (h_max_size h) ++ tstr [h_flags h] ++ tint (h_model h).
Definition global_tlv (h : v3_hdr) : list Z := tlv ASN1_TAG_SEQ (global_body h).

(** [auth] is the authentication parameter, [priv] the privacy parameter. *)
Definition secur_body (h : v3_hdr) (auth priv : list Z) : list Z :=
  tstr (h_engine_id h) ++ tint (h_boots h) ++ tint (h_time h) ++ tstr (h_user h) ++ tstr auth ++ tstr priv.
Definition secur_tlv (h : v3_hdr) (auth priv : list Z) : list Z := tstr (tlv ASN1_TAG_SEQ (secur_body h auth priv)).

Definition scoped_body (context_id context_name : list Z) (p : pdu_msg) : list Z :=
  tstr context_id ++ tstr context_name ++ pdu_tlv p.
Definition scoped_tlv (context_id context_name : list Z) (p : pdu_msg) : list Z :=
  tlv ASN1_TAG_SEQ (scoped_body context_id context_name p).

(** [data] is the scoped PDU or its encryption as an octet string. *)
Definition message3_body (version : Z) (h : v3_hdr) (auth priv data : list Z) : list Z :=
  tint version ++ global_tlv h ++ secur_tlv h auth priv ++ data.
Definition message3_tlv (version : Z) (h : v3_hdr) (auth priv data : list Z) : list Z :=
  tlv ASN1_TAG_SEQ (message3_body version h auth priv data).

(** ** The code's primitives on this encoding *)
Lemma ber_length_enc_len_bytes e n : is_u32 n -> ber_length_enc e n = len_bytes n.
Proof. intros. destruct e; rewrite ?ber_length_enc_BE; by apply ber_length_enc_LE. Qed.

Lemma length_len_bytes_pos n : (1 <= length (len_bytes n) <= 5)%nat.
Proof.
  unfold len_bytes. case_match; cbn [length]; [lia|]. rewrite length_be_bytes.
  unfold len_octets. repeat case_match; lia.
Qed.

Lemma zlen_tlv t c : zlen (tlv t c) = 1 + zlen (len_bytes (zlen c)) + zlen c.
Proof. unfold tlv. rewrite zlen_cons, zlen_app. lia. Qed.

Lemma zlen_tlv_lt t c : zlen c < zlen (tlv t c).
Proof. rewrite zlen_tlv. pose proof (zlen_nonneg (len_bytes (zlen c))). lia. Qed.

Lemma zlen_int_bytes v : is_i32 v -> 1 <= zlen (int_bytes v) <= 4.
Proof. intros H%int_octets_i32. unfold zlen, int_bytes. rewrite length_be_bytes. lia. Qed.

(** A tag with a length, and the element they start. *)
Definition thl (t n : Z) : list Z := t :: len_bytes n.

Lemma tlv_thl t c : tlv t c = thl t (zlen c) ++ c.
Proof. done. Qed.

#[global] Opaque tlv.

(** Bounds on the parts of a message follow from a bound on the whole. *)
Definition seen (l : list Z) : Prop := True.

Lemma seen_intro l : seen l.
Proof. done. Qed.

Ltac zlens :=
  repeat match goal with
  | H : context [zlen (tlv ?t ?c)] |- _ =>
      lazymatch goal with
      | _ : seen (tlv t c) |- _ => fail
      | _ => pose proof (seen_intro (tlv t c)); pose proof (zlen_tlv_lt t c)
      end
  | H : context [zlen (_ ++ _)] |- _ => rewrite zlen_app in H
  | H : context [zlen (_ :: _)] |- _ => rewrite zlen_cons in H
  end;
  rewrite ?zlen_app, ?zlen_cons;
  repeat match goal with
  | |- context [zlen ?l] => lazymatch goal with _ : 0 <= zlen l |- _ => fail | _ => pose proof (zlen_nonneg l) end
  | _ : context [zlen ?l] |- _ => lazymatch goal with _ : 0 <= zlen l |- _ => fail | _ => pose proof (zlen_nonneg l) end
  end;
  repeat match goal with H : seen _ |- _ => clear H end.

(** The side conditions of the field lemmas: tags are bytes, lengths fit. *)
Ltac zside := first [done | by (split; vm_compute) | solve [zlens; unfold is_u32; lia]].
