(* ===== verification/SnmpData.v ===== *)
(** * The SNMP datagram ([src/core/snmp.h])

    [struct snmp_datagram] is the only state of the protocol engine: the decoder
    fills it, the request handlers append the answers to [vb_out_list] and the
    encoder sends it.  Its fields are grouped here as the comments of the header
    group them.  The two lists are Rocq lists in the order of the links; an
    allocation is the list of its cells. *)
From Stdlib Require Import String.
From S2P Require Import Prelude BerEncoder Oid MibTree MibSearch MibView.
Local Open Scope Z_scope.

(** ** Constants *)
Definition SNMP_MSG_AUTH_PARA_LEN : Z := 12.
Definition SNMP_MSG_ENCRYPT_PARA_LEN : Z := 8.
Definition SNMP_SECUR_FLAG_AUTH : Z := 0x1.
Definition SNMP_SECUR_FLAG_ENCRYPT : Z := 0x2.
Definition SNMP_USER_ENCRYPT_AES : Z := 1.

Definition SNMP_ERR_STAT_NO_ERR : Z := 0.
Definition SNMP_ERR_STAT_GEN_ERR : Z := 5.
Definition SNMP_ERR_STAT_NO_ACCESS : Z := 6.
Definition SNMP_ERR_STAT_AUTHORIZATION : Z := 16.
Definition SNMP_ERR_STAT_NOT_WRITABLE : Z := 17.

(** The declaration of the engine identifier in [snmp.h] has 15 elements, its
    initialiser in [snmp.c] has 14: the last element is zero. *)
Definition snmpv3_engine_id : list Z :=
  [0x80; 0x00; 0x00; 0x00; 0x04; 83; 109; 97; 114; 116; 83; 78; 77; 80; 0].

(** The return codes of the decoder. *)
Inductive snmp_err_code :=
| SNMP_ERR_VERSION
| SNMP_ERR_GLOBAL_DATA_LEN
| SNMP_ERR_GLOBAL_ID
| SNMP_ERR_GLOBAL_SIZE
| SNMP_ERR_GLOBAL_FLAGS
| SNMP_ERR_GLOBAL_MODEL
| SNMP_ERR_SECURITY_STR
| SNMP_ERR_SECURITY_SEQ
| SNMP_ERR_SECURITY_ENGINE_ID
| SNMP_ERR_SECURITY_ENGINE_ID_LEN
| SNMP_ERR_SECURITY_ENGINE_BOOTS
| SNMP_ERR_SECURITY_ENGINE_TIME
| SNMP_ERR_SECURITY_USER_NAME
| SNMP_ERR_SECURITY_USER_NAME_LEN
| SNMP_ERR_SECURITY_AUTH_PARA
| SNMP_ERR_SECURITY_AUTH_PARA_LEN
| SNMP_ERR_SECURITY_PRIV_PARA
| SNMP_ERR_SECURITY_PRIV_PARA_LEN
| SNMP_ERR_SCOPE_PDU_SEQ
| SNMP_ERR_CONTEXT_ID
| SNMP_ERR_CONTEXT_ID_LEN
| SNMP_ERR_CONTEXT_NAME
| SNMP_ERR_CONTEXT_NAME_LEN
| SNMP_ERR_PDU_TYPE
| SNMP_ERR_PDU_LEN
| SNMP_ERR_PDU_REQID
| SNMP_ERR_PDU_ERRSTAT
| SNMP_ERR_PDU_ERRIDX
| SNMP_ERR_VB_LIST_SEQ
| SNMP_ERR_VB_SEQ
| SNMP_ERR_VB_OID_TYPE
| SNMP_ERR_VB_VAR
| SNMP_ERR_VB_VALUE_LEN
| SNMP_ERR_VB_OID_LEN
| SNMP_ERR_AUTH_NO_SUCH_USER
| SNMP_ERR_AUTH_FAIL
| SNMP_ERR_ENCRYPT_PDU_TAG.

#[global] Instance snmp_err_code_eq_dec : EqDecision snmp_err_code.
Proof. solve_decision. Defined.

(** ** Variable bindings *)
Record var_bind := mk_vb {
  vb_oid : list Z;
  vb_len : Z;
  oid_len : Z;
  value_len : Z;
  value_type : Z;
  vb_value : list Z;
}.

(** [vb_new]: the allocations of a binding, nothing assigned. *)
Definition vb_new (junk oid_len val_len : Z) : var_bind :=
  mk_vb (replicate (Z.to_nat oid_len) junk) junk junk junk junk (replicate (Z.to_nat val_len) junk).

(** The identifier of a binding. *)
Definition vb_ids (vb : var_bind) : option (list Z) := slice 0 (Z.to_nat (oid_len vb)) (vb_oid vb).

(** ** The datagram *)
Record pdu_hdr := mk_pdu {
  pdu_type : Z;
  pdu_len : Z;
  req_id_len : Z;
  req_id : Z;
  err_stat_len : Z;
  err_stat : Z;
  err_idx_len : Z;
  err_idx : Z;
}.

Record global_data := mk_global {
  msg_len : Z;
  msg_id : Z;
  msg_id_len : Z;
  msg_max_size : Z;
  msg_size_len : Z;
  msg_flags : Z;
  msg_flags_len : Z;
  msg_security_model : Z;
  msg_model_len : Z;
}.

Record security_para := mk_secur {
  secur_str_len : Z;
  secur_para_len : Z;
  engine_id : list Z;
  engine_id_len : Z;
  engine_boots : Z;
  engine_boots_len : Z;
  engine_time : Z;
  engine_time_len : Z;
  user_name : list Z;
  user_name_len : Z;
  auth_para : list Z;
  auth_para_len : Z;
  priv_para : list Z;
  priv_para_len : Z;
}.

Record context := mk_context {
  scope_len : Z;
  context_id : list Z;
  context_id_len : Z;
  context_name : list Z;
  context_name_len : Z;
}.

Record snmp_datagram := mk_sdg {
  recv_len : Z;
  send_len : Z;
  data_len : Z;
  version : Z;
  ver_len : Z;
  global : global_data;
  secur : security_para;
  user : option mib_user;
  auth_err : Z;
  ctx : context;
  pdu : pdu_hdr;
  vb_list_len : Z;
  vb_in_cnt : Z;
  vb_out_cnt : Z;
  vb_in_list : list var_bind;
  vb_out_list : list var_bind;
}.

(** Field updates. *)
Definition set_pdu (ph : pdu_hdr) (s : snmp_datagram) : snmp_datagram :=
  mk_sdg (recv_len s) (send_len s) (data_len s) (version s) (ver_len s) (global s) (secur s) (user s)
    (auth_err s) (ctx s) ph (vb_list_len s) (vb_in_cnt s) (vb_out_cnt s) (vb_in_list s) (vb_out_list s).

Definition set_out (list_len out_cnt : Z) (outs : list var_bind) (s : snmp_datagram) : snmp_datagram :=
  mk_sdg (recv_len s) (send_len s) (data_len s) (version s) (ver_len s) (global s) (secur s) (user s)
    (auth_err s) (ctx s) (pdu s) list_len (vb_in_cnt s) out_cnt (vb_in_list s) outs.

Definition set_in (list_len in_cnt : Z) (ins : list var_bind) (s : snmp_datagram) : snmp_datagram :=
  mk_sdg (recv_len s) (send_len s) (data_len s) (version s) (ver_len s) (global s) (secur s) (user s)
    (auth_err s) (ctx s) (pdu s) list_len in_cnt (vb_out_cnt s) ins (vb_out_list s).

Definition set_send_len (n : Z) (s : snmp_datagram) : snmp_datagram :=
  mk_sdg (recv_len s) n (data_len s) (version s) (ver_len s) (global s) (secur s) (user s)
    (auth_err s) (ctx s) (pdu s) (vb_list_len s) (vb_in_cnt s) (vb_out_cnt s) (vb_in_list s) (vb_out_list s).

Definition set_auth_err (err : Z) (s : snmp_datagram) : snmp_datagram :=
  mk_sdg (recv_len s) (send_len s) (data_len s) (version s) (ver_len s) (global s) (secur s) (user s)
    err (ctx s) (pdu s) (vb_list_len s) (vb_in_cnt s) (vb_out_cnt s) (vb_in_list s) (vb_out_list s).

Definition set_err (stat idx : Z) (ph : pdu_hdr) : pdu_hdr :=
  mk_pdu (pdu_type ph) (pdu_len ph) (req_id_len ph) (req_id ph) (err_stat_len ph) stat (err_idx_len ph) idx.

Definition set_pdu_type (t : Z) (ph : pdu_hdr) : pdu_hdr :=
  mk_pdu t (pdu_len ph) (req_id_len ph) (req_id ph) (err_stat_len ph) (err_stat ph) (err_idx_len ph) (err_idx ph).

(** A byte array read as a C string. *)
Fixpoint cstring (bs : list Z) : string :=
  match bs with
  | [] => EmptyString
  | b :: bs' => if b =? 0 then EmptyString else String (Ascii.ascii_of_N (Z.to_N b)) (cstring bs')
  end.
