(* ===== verification/SnmpOut.v ===== *)
(** * Sending a response ([src/core/snmp_msg_out.c])

    [asn1_encode] computes every length bottom-up, allocates the send buffer
    and writes the message up to the list of variable bindings;
    [snmp_response] appends the bindings, encrypts and signs the message and
    hands it to the transport.  What is written is a list of bytes; it is put
    into an allocation of the computed size, so that a wrong length shows either
    as a write outside the buffer ([None]) or as bytes never written.  The
    digests and the cipher are parameters. *)
From Stdlib Require Import String.
From S2P Require Import Prelude BerEncoder BerSpec BerDecoder Oid MibTree MibSearch MibView Message SnmpData.
Local Open Scope Z_scope.

Section Response.
Context (e : endian) (junk : Z).
(** [MD5_hmac data maclen secret]: the returned code and what is stored in [mac]. *)
Context (MD5_hmac SHA1_hmac : list Z -> Z -> list Z -> Z * list Z).
(** [AES_Encrypt key iv plaintext] is the cipher text. *)
Context (AES_Encrypt : list Z -> list Z -> list Z -> list Z).
(** The two results of [random()]. *)
Context (random1 random2 : Z).

(** [len_len = ber_length_enc_try(len); tag_len + len_len + len] *)
Definition tlv_len (len : Z) : Z := u32 (1 + ber_length_enc_try e len + len).

(** [*buf++ = tag; buf += ber_length_enc(len, buf);] *)
Definition tl (tag len : Z) : list Z := u8 tag :: ber_length_enc e len.

(** The same followed by an [integer_t] field. *)
Definition int_field (len v : Z) : option (list Z) :=
  let* bs := ber_value_enc e (mem_of e 4 v) 1 ASN1_TAG_INT in Some (tl ASN1_TAG_INT len ++ bs).

(** The same followed by an octet string field. *)
Definition str_field (len : Z) (mem : list Z) : option (list Z) :=
  let* bs := ber_value_enc e mem len ASN1_TAG_OCTSTR in Some (tl ASN1_TAG_OCTSTR len ++ bs).

(** ** Global data *)
Definition global_data_encode_try (g : global_data) : Z :=
  let msg_len := tlv_len (msg_id_len g) in
  let msg_len := u32 (msg_len + tlv_len (msg_size_len g)) in
  let msg_len := u32 (msg_len + tlv_len (msg_flags_len g)) in
  u32 (msg_len + tlv_len (msg_model_len g)).

Definition global_data_encode (g : global_data) : option (list Z) :=
  let* id := int_field (msg_id_len g) (msg_id g) in
  let* size := int_field (msg_size_len g) (msg_max_size g) in
  let* flags := str_field (msg_flags_len g) [msg_flags g] in
  let* model := int_field (msg_model_len g) (msg_security_model g) in
  Some (tl ASN1_TAG_SEQ (msg_len g) ++ id ++ size ++ flags ++ model).

(** ** Security parameters *)

(** The result is the length and the parameters with the agent's engine
    identifier length. *)
Definition security_parameter_encode_try (s : security_para) : Z * Z :=
  let id_len := Z.of_nat (length snmpv3_engine_id) in
  let len := tlv_len id_len in
  let len := u32 (len + tlv_len (engine_boots_len s)) in
  let len := u32 (len + tlv_len (engine_time_len s)) in
  let len := u32 (len + tlv_len (user_name_len s)) in
  let len := u32 (len + tlv_len (auth_para_len s)) in
  (id_len, u32 (len + tlv_len (priv_para_len s))).

(** The result is what is written, and the offsets in it of
    [snmp_msg_auth_para] and [snmp_msg_priv_para]. *)
Definition security_parameter_encode (s : security_para) : option (list Z * nat * nat) :=
  let* id := str_field (engine_id_len s) snmpv3_engine_id in
  let* boots := int_field (engine_boots_len s) (engine_boots s) in
  let* time := int_field (engine_time_len s) (engine_time s) in
  let* name := str_field (user_name_len s) (user_name s) in
  let* auth := ber_value_enc e (auth_para s) (auth_para_len s) ASN1_TAG_OCTSTR in
  let* priv := ber_value_enc e (priv_para s) (priv_para_len s) ASN1_TAG_OCTSTR in
  let buf1 := tl ASN1_TAG_SEQ (secur_para_len s) ++ id ++ boots ++ time ++ name
                ++ tl ASN1_TAG_OCTSTR (auth_para_len s) in
  let buf2 := buf1 ++ auth ++ tl ASN1_TAG_OCTSTR (priv_para_len s) in
  Some (buf2 ++ priv, length buf1, length buf2).

(** ** [asn1_encode] *)

(** The datagram with its lengths, [snmp_scope_pdu_len] and the size of the
    allocation. *)
Definition asn1_lengths (s : snmp_datagram) : snmp_datagram * Z * Z :=
  let ph := pdu s in
  let plen := tlv_len (vb_list_len s) in
  let plen := u32 (plen + tlv_len (req_id_len ph)) in
  let plen := u32 (plen + tlv_len (err_stat_len ph)) in
  let plen := u32 (plen + tlv_len (err_idx_len ph)) in
  let ph' := mk_pdu (pdu_type ph) plen (req_id_len ph) (req_id ph) (err_stat_len ph) (err_stat ph)
               (err_idx_len ph) (err_idx ph) in
  let c := ctx s in
  let slen := tlv_len plen in
  let slen := u32 (slen + tlv_len (context_name_len c)) in
  let '(dlen, g', sec', c', scope_pdu_len) :=
    if version s >=? 3 then
      let id_len := Z.of_nat (length snmpv3_engine_id) in
      let slen := u32 (slen + tlv_len id_len) in
      let sec := secur s in
      let '(eid_len, para_len) := security_parameter_encode_try sec in
      let str_len := tlv_len para_len in
      let sec' := mk_secur str_len para_len (engine_id sec) eid_len (engine_boots sec) (engine_boots_len sec)
        (engine_time sec) (engine_time_len sec) (user_name sec) (user_name_len sec) (auth_para sec)
        (auth_para_len sec) (priv_para sec) (priv_para_len sec) in
      let g := global s in
      let mlen := global_data_encode_try g in
      let g' := mk_global mlen (msg_id g) (msg_id_len g) (msg_max_size g) (msg_size_len g) (msg_flags g)
        (msg_flags_len g) (msg_security_model g) (msg_model_len g) in
      let dlen := tlv_len mlen in
      let dlen := u32 (dlen + tlv_len str_len) in
      let dlen := u32 (dlen + (1 + ber_length_enc_try e slen)) in
      let scope_pdu_len := tlv_len slen in
      let dlen :=
        if nz (Z.land (msg_flags g) SNMP_SECUR_FLAG_ENCRYPT)
        then u32 (dlen + (1 + ber_length_enc_try e scope_pdu_len)) else dlen in
      (dlen, g', sec', mk_context slen (context_id c) id_len (context_name c) (context_name_len c), scope_pdu_len)
    else (0, global s, secur s,
          mk_context slen (context_id c) (context_id_len c) (context_name c) (context_name_len c), 0) in
  let dlen := u32 (dlen + scope_len c') in
  let dlen := u32 (dlen + tlv_len (ver_len s)) in
  (mk_sdg (recv_len s) (send_len s) dlen (version s) (ver_len s) g' sec' (user s) (auth_err s) c' ph'
     (vb_list_len s) (vb_in_cnt s) (vb_out_cnt s) (vb_in_list s) (vb_out_list s),
   scope_pdu_len, tlv_len dlen).

(** The PDU header and the header of the binding list. *)
Definition pdu_hdr_encode (ph : pdu_hdr) (vb_list_len : Z) : option (list Z) :=
  let* id := int_field (req_id_len ph) (req_id ph) in
  let* stat := int_field (err_stat_len ph) (err_stat ph) in
  let* idx := int_field (err_idx_len ph) (err_idx ph) in
  Some (tl (pdu_type ph) (pdu_len ph) ++ id ++ stat ++ idx ++ tl ASN1_TAG_SEQ vb_list_len).

(** What is written for version 3 between the version and the context name,
    with the offsets of [snmp_msg_auth_para] and [snmp_msg_priv_para]. *)
Definition v3_encode (s : snmp_datagram) : option (list Z * nat * nat) :=
  let* g := global_data_encode (global s) in
  let* (sec, auth, priv) := security_parameter_encode (secur s) in
  let* id := str_field (Z.of_nat (length snmpv3_engine_id)) snmpv3_engine_id in
  let buf := g ++ tl ASN1_TAG_OCTSTR (secur_str_len (secur s)) in
  Some (buf ++ sec ++ tl ASN1_TAG_SEQ (scope_len (ctx s)) ++ id, (length buf + auth)%nat, (length buf + priv)%nat).

Record encoded := mk_encoded {
  enc_sdg : snmp_datagram;
  enc_scope_pdu_len : Z;
  enc_size : Z;
  enc_buf : list Z;
  enc_auth : nat;
  enc_priv : nat;
}.

Definition asn1_encode (s : snmp_datagram) : option encoded :=
  let '(s, scope_pdu_len, size) := asn1_lengths s in
  let* ver := int_field (ver_len s) (version s) in
  let buf := tl ASN1_TAG_SEQ (data_len s) ++ ver in
  let* (v3, auth, priv) := (if version s >=? 3 then v3_encode s else Some ([], 0%nat, 0%nat)) in
  let* name := str_field (context_name_len (ctx s)) (context_name (ctx s)) in
  let* ph := pdu_hdr_encode (pdu s) (vb_list_len s) in
  Some (mk_encoded s scope_pdu_len size (buf ++ v3 ++ name ++ ph)
          (length buf + auth)%nat (length buf + priv)%nat).

(** ** Bindings *)
Definition vb_encode (vb : var_bind) : option (list Z) :=
  let* ids := vb_ids vb in
  let* n := ber_oid_enc_try ids in
  let* oid := ber_oid_enc ids in
  let* val := slice 0 (Z.to_nat (value_len vb)) (vb_value vb) in
  Some (tl ASN1_TAG_SEQ (vb_len vb) ++ tl ASN1_TAG_OBJID n ++ oid ++ tl (value_type vb) (value_len vb) ++ val).

Fixpoint vbs_encode (l : list var_bind) : option (list Z) :=
  match l with
  | [] => Some []
  | vb :: l' =>
      let* bs := vb_encode vb in
      let* rest := vbs_encode l' in Some (bs ++ rest)
  end.

(** ** Encryption and signature of the send buffer [mem] *)

(** [htonl] then [memcpy]: the bytes in network order. *)
Definition net_bytes (z : Z) : list Z := mem_of BE 4 z.

Definition snmp_msg_encrypt (s : snmp_datagram) (u : mib_user) (scope_pdu_len : Z) (priv : nat) (mem : list Z)
    : option (list Z) :=
  let sec := secur s in
  let plain := (priv + Z.to_nat (priv_para_len sec))%nat in
  if u_priv_mode u =? SNMP_USER_ENCRYPT_AES then
    let iv := net_bytes (engine_boots sec) ++ net_bytes (engine_time sec) ++ net_bytes random1 ++ net_bytes random2 in
    let* text := slice plain (Z.to_nat scope_pdu_len) mem in
    let* cipher := blit (AES_Encrypt (u_priv_key u) iv text) (replicate (Z.to_nat scope_pdu_len) junk) in
    let clen := Z.of_nat (length (AES_Encrypt (u_priv_key u) iv text)) in
    let* salt := slice 8 (Z.to_nat (priv_para_len sec)) iv in
    let* mem := write_at priv salt mem in
    let* bs := ber_value_enc e cipher clen ASN1_TAG_OCTSTR in
    write_at plain (tl ASN1_TAG_OCTSTR clen ++ bs) mem
  else
    (* the cipher text is NULL *)
    let* bs := ber_value_enc e [] scope_pdu_len ASN1_TAG_OCTSTR in
    write_at plain (tl ASN1_TAG_OCTSTR scope_pdu_len ++ bs) mem.

Definition snmp_msg_signature (s : snmp_datagram) (u : mib_user) (auth : nat) (mem : list Z) : option (list Z) :=
  let n := Z.to_nat (auth_para_len (secur s)) in
  let* mem := write_at auth (replicate n 0) mem in
  let* msg := slice 0 (Z.to_nat (send_len s)) mem in
  let* mac :=
    (if u_auth_mode u =? SNMP_USER_AUTH_MD5 then
       let* secret := slice 0 16 (u_auth_key u) in blit (snd (MD5_hmac msg 16 secret)) (replicate 20 junk)
     else if u_auth_mode u =? SNMP_USER_AUTH_SHA1 then
       let* secret := slice 0 20 (u_auth_key u) in blit (snd (SHA1_hmac msg 20 secret)) (replicate 20 junk)
     else Some (replicate 20 0)) in
  let* mac := slice 0 n mac in
  write_at auth mac mem.

(** ** [snmp_response]: the datagram and what is sent *)
Definition snmp_response (s : snmp_datagram) : option (snmp_datagram * list Z) :=
  let* enc := asn1_encode s in
  let* vbs := vbs_encode (vb_out_list s) in
  let* mem := blit (enc_buf enc ++ vbs) (replicate (Z.to_nat (enc_size enc)) junk) in
  let s := enc_sdg enc in
  let s := set_send_len (tlv_len (data_len s)) s in
  let* mem :=
    (match user s with
     | Some u =>
         if (version s >=? 3) && nz (Z.land (msg_flags (global s)) SNMP_SECUR_FLAG_AUTH) then
           let* mem :=
             (if nz (Z.land (msg_flags (global s)) SNMP_SECUR_FLAG_ENCRYPT)
              then snmp_msg_encrypt s u (enc_scope_pdu_len enc) (enc_priv enc) mem else Some mem) in
           snmp_msg_signature s u (enc_auth enc) mem
         else Some mem
     | None => Some mem
     end) in
  let* sent := slice 0 (Z.to_nat (send_len s)) mem in
  Some (s, sent).
End Response.

(** ** Fields *)
Section Fields.
Context (e : endian).

Lemma tlv_len_spec t c : zlen (tlv t c) < 2 ^ 32 -> tlv_len e (zlen c) = zlen (tlv t c).
Proof.
  intros H. pose proof (zlen_tlv_lt t c). unfold tlv_len.
  rewrite ber_length_enc_try_eq, ber_length_enc_len_bytes by (apply zlen_u32; lia).
  change (Z.of_nat (length ?x)) with (zlen x). rewrite <- (zlen_tlv t c). apply u32_id, zlen_u32. lia.
Qed.

Lemma hdr_len_spec t c : zlen (tlv t c) < 2 ^ 32 -> 1 + ber_length_enc_try e (zlen c) = zlen (tlv t c) - zlen c.
Proof.
  intros H. pose proof (zlen_tlv_lt t c).
  rewrite ber_length_enc_try_eq, ber_length_enc_len_bytes by (apply zlen_u32; lia).
  rewrite zlen_tlv. change (Z.of_nat (length ?x)) with (zlen x). lia.
Qed.

Lemma tl_spec t c r : is_u8 t -> zlen c < 2 ^ 32 -> tl e t (zlen c) ++ c ++ r = tlv t c ++ r.
Proof.
  intros. unfold tl. rewrite ber_length_enc_len_bytes by by apply zlen_u32.
  rewrite u8_id by done. Transparent tlv. unfold tlv. Opaque tlv. cbn [app]. by rewrite <- app_assoc.
Qed.

Lemma tl_spec0 t c : is_u8 t -> zlen c < 2 ^ 32 -> tl e t (zlen c) ++ c = tlv t c.
Proof. intros. rewrite <- (app_nil_r (_ ++ _)), <- app_assoc, tl_spec by done. apply app_nil_r. Qed.

Lemma tl_thl t n : is_u8 t -> is_u32 n -> tl e t n = thl t n.
Proof. intros. unfold tl. by rewrite ber_length_enc_len_bytes, u8_id. Qed.

Lemma int_field_spec v : is_i32 v -> int_field e (zlen (int_bytes v)) v = Some (tint v).
Proof.
  intros Hv. unfold int_field, ber_value_enc. cbn [ASN1_TAG_INT Z.eqb Pos.eqb orb].
  rewrite <- (app_nil_r (mem_of e 4 v)), load_int_mem_of, ber_int_enc_int_bytes by done.
  f_equal. apply tl_spec0; [done|]. pose proof (zlen_int_bytes v Hv). lia.
Qed.

Lemma enc_octstr mem bs :
  slice 0 (length bs) mem = Some bs -> ber_value_enc e mem (zlen bs) ASN1_TAG_OCTSTR = Some bs.
Proof. intros. unfold ber_value_enc. by rewrite Zto_nat_zlen. Qed.

Lemma str_field_spec mem bs : zlen bs < 2 ^ 32 -> slice 0 (length bs) mem = Some bs ->
  str_field e (zlen bs) mem = Some (tstr bs).
Proof.
  intros Hl Hs. unfold str_field. rewrite (enc_octstr _ bs) by done. f_equal.
  apply tl_spec0; [done|done].
Qed.

End Fields.

(** ** A datagram that represents a message *)

(** The binding as [snmp_get] and the others leave it. *)
Definition vb_rep (vb : var_bind) (b : binding) : Prop :=
  vb_ids vb = Some (b_oid b) /\ words (b_oid b) /\ (length (b_oid b) < 256)%nat /\ zlen (oid_bytes (b_oid b)) < 256 /\
  is_u8 (b_type b) /\ value_type vb = b_type b /\ value_len vb = zlen (b_value b) /\
  slice 0 (length (b_value b)) (vb_value vb) = Some (b_value b) /\ vb_len vb = zlen (binding_body b).

(** An integer field with the length of its encoding. *)
Definition int_rep (len v : Z) : Prop := is_i32 v /\ len = zlen (int_bytes v).

Definition pdu_rep (ph : pdu_hdr) (p : pdu_msg) : Prop :=
  is_u8 (p_type p) /\ pdu_type ph = p_type p /\
  req_id ph = p_req_id p /\ int_rep (req_id_len ph) (req_id ph) /\
  err_stat ph = p_err_stat p /\ int_rep (err_stat_len ph) (err_stat ph) /\
  err_idx ph = p_err_idx p /\ int_rep (err_idx_len ph) (err_idx ph).

Definition str_rep (mem : list Z) (len : Z) (bs : list Z) : Prop :=
  len = zlen bs /\ slice 0 (length bs) mem = Some bs.

Definition sdg_rep (s : snmp_datagram) (name : list Z) (p : pdu_msg) : Prop :=
  int_rep (ver_len s) (version s) /\ str_rep (context_name (ctx s)) (context_name_len (ctx s)) name /\
  pdu_rep (pdu s) p /\ Forall2 vb_rep (vb_out_list s) (p_bindings p) /\
  vb_list_len s = zlen (bindings_bytes (p_bindings p)).

Section Encode.
Context (e : endian).

Lemma vb_encode_spec vb b : vb_rep vb b -> zlen (binding_tlv b) < 2 ^ 32 -> vb_encode e vb = Some (binding_tlv b).
Proof.
  intros (H1 & H2 & H3 & H4 & H5 & H6 & H7 & H8 & H9) Hb. unfold vb_encode. rewrite H1.
  pose proof (ber_oid_enc_bytes (b_oid b) H2) as Hbs.
  unfold binding_tlv, binding_body in *. remember (oid_bytes (b_oid b)) as bs eqn:Eb. symmetry in Eb.
  rewrite (ber_oid_enc_try_mod _ bs), Hbs by done. change (Z.of_nat (length bs)) with (zlen bs).
  rewrite u8_id by (split; [apply zlen_nonneg|lia]). rewrite H6, H7, H9, Zto_nat_zlen, H8. f_equal.
  rewrite (tl_spec e ASN1_TAG_OBJID bs), (tl_spec0 e (b_type b)) by zside. apply tl_spec0; zside.
Qed.

Lemma vbs_encode_spec vbs bs : Forall2 vb_rep vbs bs -> zlen (bindings_bytes bs) < 2 ^ 32 ->
  vbs_encode e vbs = Some (bindings_bytes bs).
Proof.
  induction 1 as [|vb b vbs bs Hb _ IH]; [done|]. unfold bindings_bytes in *. cbn [map concat vbs_encode].
  rewrite zlen_app. intros Hl. pose proof (zlen_nonneg (binding_tlv b)).
  pose proof (zlen_nonneg (concat (map binding_tlv bs))).
  rewrite (vb_encode_spec vb b), IH by (done || lia). done.
Qed.

(** The lengths of the PDU. *)
Lemma pdu_len_spec ph p list_len :
  pdu_rep ph p -> list_len = zlen (bindings_bytes (p_bindings p)) -> zlen (pdu_tlv p) < 2 ^ 32 ->
  u32 (u32 (u32 (tlv_len e list_len + tlv_len e (req_id_len ph)) + tlv_len e (err_stat_len ph))
       + tlv_len e (err_idx_len ph)) = zlen (pdu_body p) /\
  tlv_len e (zlen (pdu_body p)) = zlen (pdu_tlv p).
Proof.
  intros (_ & _ & E1 & [_ ->] & E2 & [_ ->] & E3 & [_ ->]) -> Hl. rewrite E1, E2, E3.
  change (pdu_tlv p) with (tlv (p_type p) (pdu_body p)) in *.
  split; [|by apply tlv_len_spec]. unfold pdu_body, tint in *. zlens.
  rewrite (tlv_len_spec e ASN1_TAG_SEQ), !(tlv_len_spec e ASN1_TAG_INT) by lia.
  rewrite !u32_id; unfold is_u32; repeat rewrite u32_id; unfold is_u32; lia.
Qed.

Lemma pdu_hdr_encode_spec ph p list_len :
  pdu_rep ph p -> list_len = zlen (bindings_bytes (p_bindings p)) -> pdu_len ph = zlen (pdu_body p) ->
  zlen (pdu_tlv p) < 2 ^ 32 ->
  exists h, pdu_hdr_encode e ph list_len = Some h /\ h ++ bindings_bytes (p_bindings p) = pdu_tlv p.
Proof.
  intros (Ht & Et & E1 & [I1 L1] & E2 & [I2 L2] & E3 & [I3 L3]) -> Hp Hl. unfold pdu_hdr_encode.
  rewrite L1, L2, L3, !int_field_spec by done. eexists. split; [reflexivity|]. rewrite Et, Hp, E1, E2, E3.
  change (pdu_tlv p) with (tlv (p_type p) (pdu_body p)) in *. rewrite <- !app_assoc.
  rewrite (tl_spec0 e ASN1_TAG_SEQ) by (done || unfold pdu_body in *; zside). fold (pdu_body p).
  apply tl_spec0; zside.
Qed.
End Encode.

Section Message.
Context (e : endian) (junk : Z).

(** The lengths of a version 1 or 2c message. *)
Lemma asn1_lengths_spec s name p :
  sdg_rep s name p -> version s < 3 -> zlen (message_tlv (version s) name p) < 2 ^ 32 ->
  exists s', asn1_lengths e s = (s', 0, zlen (message_tlv (version s) name p)) /\
    data_len s' = zlen (msg_body (version s) name p) /\ sdg_rep s' name p /\ version s' = version s /\
    pdu_len (pdu s') = zlen (pdu_body p) /\ vb_out_list s' = vb_out_list s.
Proof.
  intros Hrep Hv Hl. destruct Hrep as ([Hvi Hvl] & [Hcl Hc] & Hp & Hvbs & Hll).
  change (message_tlv _ _ _) with (tlv ASN1_TAG_SEQ (msg_body (version s) name p)) in *.
  destruct (pdu_len_spec e (pdu s) p (vb_list_len s) Hp Hll) as [Ep1 Ep2]; [unfold msg_body in *; zside|].
  unfold asn1_lengths. rewrite Ep1, Ep2, Z.geb_leb, (proj2 (Z.leb_gt 3 (version s))) by lia. cbn [scope_len].
  rewrite Hcl, Hvl, (tlv_len_spec e ASN1_TAG_OCTSTR), (tlv_len_spec e ASN1_TAG_INT)
    by (unfold msg_body, tint, tstr in *; zside).
  assert (u32 (u32 (0 + u32 (zlen (pdu_tlv p) + zlen (tlv ASN1_TAG_OCTSTR name))) +
    zlen (tlv ASN1_TAG_INT (int_bytes (version s)))) = zlen (msg_body (version s) name p)) as ->.
  { unfold msg_body, tint, tstr in *. zlens. rewrite !u32_id; unfold is_u32; repeat rewrite u32_id; unfold is_u32; lia. }
  rewrite (tlv_len_spec e ASN1_TAG_SEQ) by done. eexists. split; [reflexivity|]. by rewrite <- Hcl.
Qed.

Lemma response_message md5 sha1 aes r1 r2 s name p :
  sdg_rep s name p -> version s < 3 -> zlen (message_tlv (version s) name p) < 2 ^ 32 ->
  exists s', snmp_response e junk md5 sha1 aes r1 r2 s = Some (s', message_tlv (version s) name p).
Proof.
  intros Hrep Hv Hl. destruct (asn1_lengths_spec s name p Hrep Hv Hl) as (s' & E & Hd & Hrep' & Ev & Epl & Eo).
  unfold snmp_response, asn1_encode. rewrite E, <- Eo.
  destruct Hrep' as ([Hvi Hvl] & [Hcl Hc] & Hp & Hvbs & Hll). rewrite <- Ev in *. rewrite Hvl, int_field_spec by done.
  rewrite Z.geb_leb, (proj2 (Z.leb_gt 3 (version s'))) by lia.
  change (message_tlv _ _ _) with (tlv ASN1_TAG_SEQ (msg_body (version s') name p)) in *.
  rewrite Hcl, str_field_spec by (done || unfold msg_body, tint, tstr in *; zside).
  assert (zlen (pdu_tlv p) < 2 ^ 32) as Hpl by (unfold msg_body in *; zside).
  destruct (pdu_hdr_encode_spec e (pdu s') p (vb_list_len s') Hp Hll Epl Hpl) as (h & -> & Hh).
  rewrite (vbs_encode_spec e _ (p_bindings p))
    by (done || change (pdu_tlv p) with (tlv (p_type p) (pdu_body p)) in *; unfold pdu_body in *; zside).
  cbn [enc_buf enc_size enc_sdg app]. rewrite Hd, <- !app_assoc, Hh. fold (tstr name).
  change (tint (version s') ++ tstr name ++ pdu_tlv p) with (msg_body (version s') name p).
  rewrite tl_spec0, Zto_nat_zlen by zside. set (m := tlv ASN1_TAG_SEQ _) in *.
  unfold blit. rewrite decide_True by (by rewrite length_replicate).
  rewrite drop_ge by (by rewrite length_replicate). rewrite app_nil_r. cbn [send_len set_send_len user version].
  rewrite Z.geb_leb, (proj2 (Z.leb_gt 3 (version s'))) by lia. cbn [andb].
  assert (match user s' with Some _ | None => Some m end = Some m) as -> by (by destruct (user s')).
  rewrite (tlv_len_spec e ASN1_TAG_SEQ), Zto_nat_zlen by done. fold m. rewrite slice_self. by eexists.
Qed.
(** *** An error index of another length

    The length announced for the error index is that of the request's field
    [k], the octets are those of the index. *)
Definition with_index (k : Z) (p : pdu_msg) : pdu_msg :=
  mk_pdu_msg (p_type p) (p_req_id p) (p_err_stat p) k (p_bindings p).

Definition index_body (k : Z) (p : pdu_msg) : list Z :=
  tint (p_req_id p) ++ tint (p_err_stat p) ++ thl ASN1_TAG_INT (zlen (int_bytes k)) ++ int_bytes (p_err_idx p) ++
    tlv ASN1_TAG_SEQ (bindings_bytes (p_bindings p)).

(** What is left of the allocation keeps its contents; if nothing is left it is
    overrun. *)
Definition index_message (v : Z) (name : list Z) (k : Z) (p : pdu_msg) : option (list Z) :=
  let pad := zlen (int_bytes k) - zlen (int_bytes (p_err_idx p)) in
  if pad <? 0 then None
  else Some (tlv ASN1_TAG_SEQ (tint v ++ tstr name ++ tlv (p_type p) (index_body k p ++ replicate (Z.to_nat pad) junk))).

Lemma index_message_same v name k p : zlen (int_bytes k) = zlen (int_bytes (p_err_idx p)) ->
  index_message v name k p = Some (message_tlv v name p).
Proof.
  intros E. unfold index_message, index_body. rewrite E, Z.sub_diag. change (0 <? 0) with false. cbv iota.
  change (replicate (Z.to_nat 0) junk) with (@nil Z). rewrite app_nil_r.
  unfold message_tlv, msg_body, pdu_tlv, pdu_body. do 6 f_equal. unfold tint. rewrite !tlv_thl. by rewrite <- !app_assoc.
Qed.

Lemma int_field_any n v : is_i32 v -> int_field e n v = Some (tl e ASN1_TAG_INT n ++ int_bytes v).
Proof.
  intros Hv. unfold int_field, ber_value_enc. cbn [ASN1_TAG_INT Z.eqb Pos.eqb orb].
  by rewrite <- (app_nil_r (mem_of e 4 v)), load_int_mem_of, ber_int_enc_int_bytes by done.
Qed.

Definition set_index (k : Z) (s : snmp_datagram) : snmp_datagram := set_pdu (set_err (err_stat (pdu s)) k (pdu s)) s.

(** The lengths do not depend on the index. *)
Lemma asn1_lengths_index s s' k m : version s < 3 -> asn1_lengths e (set_index k s) = (s', 0, m) ->
  asn1_lengths e s = (set_index (err_idx (pdu s)) s', 0, m).
Proof.
  intros Hv. unfold asn1_lengths. change (version (set_index k s)) with (version s).
  rewrite Z.geb_leb, (proj2 (Z.leb_gt 3 (version s))) by lia. cbv iota zeta. intros [= <- <-].
  unfold set_index, set_pdu, set_err. cbn. by destruct s as [? ? ? ? ? ? ? ? ? ? [] ? ? ? ? ?].
Qed.

Lemma zlen_index_body k p :
  zlen (index_body k p) = zlen (pdu_body (with_index k p)) - (zlen (int_bytes k) - zlen (int_bytes (p_err_idx p))).
Proof.
  unfold index_body, pdu_body, with_index. cbn [p_type p_req_id p_err_stat p_err_idx p_bindings].
  assert (zlen (tint k) = zlen (thl ASN1_TAG_INT (zlen (int_bytes k))) + zlen (int_bytes k)) as E.
  { unfold tint. by rewrite tlv_thl, zlen_app. }
  rewrite !zlen_app, E. lia.
Qed.

(** The buffer, before what is left of the allocation. *)
Lemma index_message_prefix v name k p m : index_message v name k p = Some m ->
  let body := msg_body v name (with_index k p) in
  m = thl ASN1_TAG_SEQ (zlen body) ++ tint v ++ tstr name ++ thl (p_type p) (zlen (pdu_body (with_index k p))) ++ index_body k p
      ++ replicate (Z.to_nat (zlen (int_bytes k) - zlen (int_bytes (p_err_idx p)))) junk /\
  zlen m = zlen (tlv ASN1_TAG_SEQ body).
Proof.
  intros E body. unfold index_message in E. set (pad := zlen (int_bytes k) - zlen (int_bytes (p_err_idx p))) in *. cbv zeta in E.
  destruct (Z.ltb_spec pad 0) as [H|H]; [done|]. injection E as <-.
  assert (zlen (index_body k p ++ replicate (Z.to_nat pad) junk) = zlen (pdu_body (with_index k p))) as E1.
  { assert (zlen (replicate (Z.to_nat pad) junk) = pad) as Ep by (unfold zlen at 1; rewrite length_replicate; lia).
    rewrite zlen_app, zlen_index_body, Ep. lia. }
  assert (zlen (tlv (p_type p) (index_body k p ++ replicate (Z.to_nat pad) junk)) = zlen (pdu_tlv (with_index k p))) as E2.
  { change (pdu_tlv (with_index k p)) with (tlv (p_type p) (pdu_body (with_index k p))). by rewrite !zlen_tlv, E1. }
  assert (zlen (tint v ++ tstr name ++ tlv (p_type p) (index_body k p ++ replicate (Z.to_nat pad) junk)) = zlen body) as E3.
  { subst body. unfold msg_body. by rewrite !zlen_app, E2. }
  split; [|by rewrite !zlen_tlv, E3]. by rewrite tlv_thl, E3, tlv_thl, E1.
Qed.

(** What is left of the allocation after the buffer. *)
Lemma index_message_blit v name k p :
  let body := msg_body v name (with_index k p) in
  blit (thl ASN1_TAG_SEQ (zlen body) ++ tint v ++ tstr name ++ thl (p_type p) (zlen (pdu_body (with_index k p))) ++
        index_body k p) (replicate (Z.to_nat (zlen (tlv ASN1_TAG_SEQ body))) junk) = index_message v name k p.
Proof.
  intros body. set (buf := thl _ _ ++ _). set (size := zlen (tlv _ body)).
  assert (zlen buf = size - (zlen (int_bytes k) - zlen (int_bytes (p_err_idx p)))) as Hb.
  { assert (zlen body = zlen (tint v) + zlen (tstr name) + zlen (thl (p_type p) (zlen (pdu_body (with_index k p)))) +
      zlen (pdu_body (with_index k p))) as Eb.
    { unfold body, msg_body, pdu_tlv. rewrite tlv_thl, !zlen_app. cbn [p_type with_index]. lia. }
    unfold buf, size. rewrite tlv_thl, !zlen_app, zlen_index_body. lia. }
  change (zlen buf) with (Z.of_nat (length buf)) in Hb. pose proof (zlen_nonneg (tlv ASN1_TAG_SEQ body)). fold size in H.
  unfold blit. rewrite length_replicate, drop_replicate. destruct (index_message v name k p) as [m|] eqn:Em.
  - destruct (index_message_prefix _ _ _ _ _ Em) as [Hm _]. unfold index_message in Em. cbv zeta in Em.
    destruct (Z.ltb_spec (zlen (int_bytes k) - zlen (int_bytes (p_err_idx p))) 0); [done|].
    rewrite decide_True by lia. f_equal. rewrite Hm. unfold buf at 1. rewrite <- !app_assoc. do 6 f_equal. lia.
  - unfold index_message in Em. cbv zeta in Em.
    destruct (Z.ltb_spec (zlen (int_bytes k) - zlen (int_bytes (p_err_idx p))) 0); [|done]. by rewrite decide_False by lia.
Qed.

Lemma message_parts_lt v name p : zlen (pdu_body p) < zlen (msg_body v name p) /\
  zlen (bindings_bytes (p_bindings p)) < zlen (pdu_body p) /\ zlen (int_bytes (p_err_idx p)) < zlen (pdu_body p).
Proof.
  unfold msg_body, pdu_tlv. set (b := pdu_body p) at 1 2. unfold pdu_body, tint. rewrite !zlen_app.
  pose proof (zlen_tlv_lt (p_type p) b). pose proof (zlen_tlv_lt ASN1_TAG_SEQ (bindings_bytes (p_bindings p))).
  pose proof (zlen_tlv_lt ASN1_TAG_INT (int_bytes (p_err_idx p))).
  repeat match goal with |- context [zlen (tlv ?t ?c)] => lazymatch goal with
    | _ : 0 <= zlen (tlv t c) |- _ => fail | _ => pose proof (zlen_nonneg (tlv t c)) end end.
  pose proof (zlen_nonneg (tstr name)). pose proof (zlen_nonneg (bindings_bytes (p_bindings p))).
  pose proof (zlen_nonneg (int_bytes (p_err_idx p))). lia.
Qed.

Lemma response_index md5 sha1 aes r1 r2 s name p k :
  sdg_rep (set_index k s) name (with_index k p) -> err_idx (pdu s) = p_err_idx p -> is_i32 (p_err_idx p) ->
  version s < 3 -> zlen (message_tlv (version s) name (with_index k p)) < 2 ^ 32 ->
  match index_message (version s) name k p with
  | Some m => exists s', snmp_response e junk md5 sha1 aes r1 r2 s = Some (s', m)
  | None => snmp_response e junk md5 sha1 aes r1 r2 s = None
  end.
Proof.
  intros Hrep Ei Hi Hv Hl.
  destruct (asn1_lengths_spec _ name _ Hrep Hv Hl) as (s' & E & Hd & Hrep' & Ev & Epl & Eo).
  apply asn1_lengths_index in E; [|done]. unfold snmp_response, asn1_encode. rewrite E. clear E.
  destruct Hrep' as ([Hvi Hvl] & [Hcl Hc] & (Ht & Et & E1 & [I1 L1] & E2 & [I2 L2] & E3 & [_ L3]) & Hvbs & Hll).
  change (vb_out_list (set_index k s)) with (vb_out_list s) in Eo. rewrite <- Eo. clear Eo Hrep.
  change (version (set_index k s)) with (version s) in *. set (si := set_index (err_idx (pdu s)) s').
  change (ver_len si) with (ver_len s'). change (version si) with (version s'). rewrite <- Ev in *. rewrite Hvl, int_field_spec by done.
  rewrite Z.geb_leb, (proj2 (Z.leb_gt 3 (version s'))) by lia.
  change (context_name (ctx si)) with (context_name (ctx s')). change (context_name_len (ctx si)) with (context_name_len (ctx s')).
  change (message_tlv _ _ _) with (tlv ASN1_TAG_SEQ (msg_body (version s') name (with_index k p))) in *.
  rewrite Hcl, str_field_spec by (done || unfold msg_body, tint, tstr in *; zside).
  unfold pdu_hdr_encode. change (req_id_len (pdu si)) with (req_id_len (pdu s')). change (req_id (pdu si)) with (req_id (pdu s')).
  change (err_stat_len (pdu si)) with (err_stat_len (pdu s')). change (err_stat (pdu si)) with (err_stat (pdu s')).
  change (err_idx_len (pdu si)) with (err_idx_len (pdu s')). change (err_idx (pdu si)) with (err_idx (pdu s)).
  change (pdu_type (pdu si)) with (pdu_type (pdu s')). change (pdu_len (pdu si)) with (pdu_len (pdu s')).
  change (vb_list_len si) with (vb_list_len s'). change (data_len si) with (data_len s').
  rewrite L1, L2, !int_field_spec, Ei, int_field_any by done. rewrite L3, E1, E2, E3, Et, Epl, Hll, Hd.
  change (p_bindings (with_index k p)) with (p_bindings p) in *. change (p_type (with_index k p)) with (p_type p) in *.
  change (p_req_id (with_index k p)) with (p_req_id p). change (p_err_stat (with_index k p)) with (p_err_stat p).
  change (p_err_idx (with_index k p)) with k.
  set (ks := with_index k p) in *. pose proof (zlen_tlv_lt ASN1_TAG_SEQ (msg_body (version s') name ks)) as U1.
  destruct (message_parts_lt (version s') name ks) as (U2 & U3 & U4).
  change (p_bindings ks) with (p_bindings p) in U3. change (p_err_idx ks) with k in U4.
  pose proof (zlen_nonneg (bindings_bytes (p_bindings p))). pose proof (zlen_nonneg (int_bytes k)).
  rewrite (vbs_encode_spec e _ (p_bindings p)) by (done || lia). cbn [enc_buf enc_size enc_sdg app].
  rewrite !tl_thl by (done || (unfold is_u32; lia)). rewrite <- !app_assoc.
  pose proof (index_message_blit (version s') name k p) as B. fold ks in B. unfold index_body in B. rewrite tlv_thl in B.
  cbv zeta in B. rewrite B. clear B.
  destruct (index_message (version s') name k p) as [m|] eqn:Em; [|done].
  destruct (index_message_prefix _ _ _ _ _ Em) as [_ Hz]. fold ks in Hz.
  cbn [send_len set_send_len user version]. change (version si) with (version s'). rewrite Z.geb_leb, (proj2 (Z.leb_gt 3 (version s'))) by lia.
  cbn [andb]. assert (match user si with Some _ | None => Some m end = Some m) as -> by (by destruct (user si)).
  change (data_len si) with (data_len s'). rewrite Hd, (tlv_len_spec e ASN1_TAG_SEQ), <- Hz, Zto_nat_zlen, slice_self by done.
  by eexists.
Qed.
End Message.

(** ** Version 3 *)

(** The fields of the header; [auth] and [priv] are the contents of the
    authentication and privacy parameters. *)
Definition v3_rep (s : snmp_datagram) (h : v3_hdr) (auth priv : list Z) : Prop :=
  (msg_id (global s) = h_id h /\ int_rep (msg_id_len (global s)) (h_id h)) /\
  (msg_max_size (global s) = h_max_size h /\ int_rep (msg_size_len (global s)) (h_max_size h)) /\
  (msg_flags (global s) = h_flags h /\ msg_flags_len (global s) = 1) /\
  (msg_security_model (global s) = h_model h /\ int_rep (msg_model_len (global s)) (h_model h)) /\
  h_engine_id h = snmpv3_engine_id /\
  (engine_boots (secur s) = h_boots h /\ int_rep (engine_boots_len (secur s)) (h_boots h)) /\
  (engine_time (secur s) = h_time h /\ int_rep (engine_time_len (secur s)) (h_time h)) /\
  str_rep (user_name (secur s)) (user_name_len (secur s)) (h_user h) /\
  str_rep (auth_para (secur s)) (auth_para_len (secur s)) auth /\
  str_rep (priv_para (secur s)) (priv_para_len (secur s)) priv.

Definition flag (f : Z) (h : v3_hdr) : bool := nz (Z.land (h_flags h) f).

(** A payload of the length the encoder announces. *)
Definition payload (h : v3_hdr) (name : list Z) (p : pdu_msg) : list Z :=
  let scoped := scoped_tlv snmpv3_engine_id name p in
  if flag SNMP_SECUR_FLAG_ENCRYPT h then tstr scoped else scoped.

(** Everything before the authentication parameter, and everything between
    the two parameters. *)
Definition v3_pre (v : Z) (h : v3_hdr) (auth priv data : list Z) : list Z :=
  thl ASN1_TAG_SEQ (zlen (message3_body v h auth priv data)) ++ tint v ++ global_tlv h
    ++ thl ASN1_TAG_OCTSTR (zlen (tlv ASN1_TAG_SEQ (secur_body h auth priv)))
    ++ thl ASN1_TAG_SEQ (zlen (secur_body h auth priv))
    ++ tstr (h_engine_id h) ++ tint (h_boots h) ++ tint (h_time h) ++ tstr (h_user h)
    ++ thl ASN1_TAG_OCTSTR (zlen auth).

Definition v3_mid (priv : list Z) : list Z := thl ASN1_TAG_OCTSTR (zlen priv).

Lemma message3_split v h auth priv data :
  message3_tlv v h auth priv data = v3_pre v h auth priv data ++ auth ++ v3_mid priv ++ priv ++ data.
Proof.
  unfold message3_tlv, v3_pre, v3_mid. rewrite tlv_thl. unfold message3_body at 2, secur_tlv, tstr.
  rewrite (tlv_thl ASN1_TAG_OCTSTR (tlv ASN1_TAG_SEQ _)), (tlv_thl ASN1_TAG_SEQ (secur_body h auth priv)).
  unfold secur_body at 4, tstr. rewrite (tlv_thl ASN1_TAG_OCTSTR auth), (tlv_thl ASN1_TAG_OCTSTR priv).
  by rewrite <- !app_assoc.
Qed.

Lemma v3_pre_ext v h auth auth' priv priv' data data' :
  zlen auth = zlen auth' -> zlen priv = zlen priv' -> zlen data = zlen data' ->
  v3_pre v h auth priv data = v3_pre v h auth' priv' data'.
Proof.
  intros E1 E2 E3. unfold v3_pre, message3_body, secur_tlv, secur_body, tstr.
  repeat rewrite ?zlen_app, ?zlen_tlv. by rewrite E1, E2, E3.
Qed.

Section V3.
Context (e : endian).

Lemma global_len_spec s h auth priv :
  v3_rep s h auth priv -> zlen (global_tlv h) < 2 ^ 32 ->
  global_data_encode_try e (global s) = zlen (global_body h) /\
  tlv_len e (zlen (global_body h)) = zlen (global_tlv h).
Proof.
  intros ([_ [_ L1]] & [_ [_ L2]] & [_ L3] & [_ [_ L4]] & _) Hl. split; [|by apply tlv_len_spec].
  change 1 with (zlen [h_flags h]) in L3. unfold global_data_encode_try. rewrite L1, L2, L3, L4.
  unfold global_tlv, global_body, tint, tstr in *. clear L3. generalize dependent [h_flags h]. intros fl Hl. zlens.
  rewrite (tlv_len_spec e ASN1_TAG_OCTSTR fl), !(tlv_len_spec e ASN1_TAG_INT) by lia.
  rewrite !u32_id; unfold is_u32; repeat rewrite u32_id; unfold is_u32; lia.
Qed.

Lemma secur_len_spec s h auth priv :
  v3_rep s h auth priv -> zlen (secur_tlv h auth priv) < 2 ^ 32 ->
  security_parameter_encode_try e (secur s) = (15, zlen (secur_body h auth priv)) /\
  tlv_len e (zlen (secur_body h auth priv)) = zlen (tlv ASN1_TAG_SEQ (secur_body h auth priv)) /\
  tlv_len e (zlen (tlv ASN1_TAG_SEQ (secur_body h auth priv))) = zlen (secur_tlv h auth priv).
Proof.
  intros (_ & _ & _ & _ & Eid & [_ [_ L1]] & [_ [_ L2]] & [L3 _] & [L4 _] & [L5 _]) Hl.
  split; [|split; apply tlv_len_spec; unfold secur_tlv, tstr in *; zside].
  unfold security_parameter_encode_try. rewrite L1, L2, L3, L4, L5.
  change (Z.of_nat (length snmpv3_engine_id)) with (zlen snmpv3_engine_id). rewrite <- Eid.
  unfold secur_tlv, secur_body, tint, tstr in *. zlens.
  rewrite (tlv_len_spec e ASN1_TAG_OCTSTR (h_engine_id h)), (tlv_len_spec e ASN1_TAG_OCTSTR (h_user h)),
    (tlv_len_spec e ASN1_TAG_OCTSTR auth), (tlv_len_spec e ASN1_TAG_OCTSTR priv), !(tlv_len_spec e ASN1_TAG_INT) by lia.
  f_equal; [by rewrite Eid|]. rewrite !u32_id; unfold is_u32; repeat rewrite u32_id; unfold is_u32; lia.
Qed.

(** The datagram with the lengths of the message. *)
Definition v3_lens (s : snmp_datagram) (h : v3_hdr) (auth priv name : list Z) (p : pdu_msg) : Prop :=
  data_len s = zlen (message3_body (version s) h auth priv (payload h name p)) /\
  msg_len (global s) = zlen (global_body h) /\ secur_para_len (secur s) = zlen (secur_body h auth priv) /\
  secur_str_len (secur s) = zlen (tlv ASN1_TAG_SEQ (secur_body h auth priv)) /\ engine_id_len (secur s) = 15 /\
  scope_len (ctx s) = zlen (scoped_body snmpv3_engine_id name p) /\ pdu_len (pdu s) = zlen (pdu_body p).

Lemma asn1_lengths_v3 s h auth priv name p :
  sdg_rep s name p -> v3_rep s h auth priv -> 3 <= version s ->
  zlen (message3_tlv (version s) h auth priv (payload h name p)) < 2 ^ 32 ->
  exists s', asn1_lengths e s = (s', zlen (scoped_tlv snmpv3_engine_id name p),
      zlen (message3_tlv (version s) h auth priv (payload h name p))) /\
    v3_lens s' h auth priv name p /\ sdg_rep s' name p /\ v3_rep s' h auth priv /\
    version s' = version s /\ vb_out_list s' = vb_out_list s /\ user s' = user s.
Proof.
  intros Hrep H3 Hv Hl. destruct Hrep as ([Hvi Hvl] & [Hcl Hc] & Hp & Hvbs & Hll).
  set (D := payload h name p) in *. set (S := scoped_tlv snmpv3_engine_id name p).
  assert (zlen D < 2 ^ 32 /\ zlen (global_tlv h) < 2 ^ 32 /\ zlen (secur_tlv h auth priv) < 2 ^ 32 /\
    zlen (tint (version s)) < 2 ^ 32) as (HD & HG & HS & HV) by (unfold message3_tlv, message3_body in *; zlens; lia).
  assert (zlen S <= zlen D /\ zlen D - zlen S = if flag SNMP_SECUR_FLAG_ENCRYPT h
    then 1 + ber_length_enc_try e (zlen S) else 0) as [HSD EDS].
  { subst D. unfold payload in *. fold S in HD |- *. destruct (flag _ h); [|lia]. unfold tstr in *.
    pose proof (zlen_tlv_lt ASN1_TAG_OCTSTR S). rewrite (hdr_len_spec e ASN1_TAG_OCTSTR) by done. lia. }
  assert (zlen S = zlen (tlv ASN1_TAG_SEQ (scoped_body snmpv3_engine_id name p))) as ES by done.
  destruct (pdu_len_spec e (pdu s) p (vb_list_len s) Hp Hll) as [Ep1 Ep2]; [unfold scoped_body in *; zlens; lia|].
  destruct (global_len_spec s h auth priv H3 HG) as [Eg1 Eg2].
  destruct (secur_len_spec s h auth priv H3 HS) as (Es1 & Es2 & Es3).
  unfold asn1_lengths. rewrite Ep1, Ep2, Z.geb_leb, (proj2 (Z.leb_le 3 (version s))), Es1, Es2, Es3, Eg1, Eg2 by lia.
  cbn [scope_len]. change (Z.of_nat (length snmpv3_engine_id)) with (zlen snmpv3_engine_id).
  rewrite Hcl, Hvl, (tlv_len_spec e ASN1_TAG_OCTSTR name), (tlv_len_spec e ASN1_TAG_OCTSTR snmpv3_engine_id),
    (tlv_len_spec e ASN1_TAG_INT (int_bytes _)) by (done || unfold scoped_body, tstr in *; zlens; lia).
  assert (u32 (u32 (zlen (pdu_tlv p) + zlen (tlv ASN1_TAG_OCTSTR name)) + zlen (tlv ASN1_TAG_OCTSTR snmpv3_engine_id)) =
    zlen (scoped_body snmpv3_engine_id name p)) as ->.
  { unfold scoped_body, tstr in *. zlens. rewrite !u32_id; unfold is_u32; repeat rewrite u32_id; unfold is_u32; lia. }
  rewrite (tlv_len_spec e ASN1_TAG_SEQ (scoped_body _ _ _)), (hdr_len_spec e ASN1_TAG_SEQ (scoped_body _ _ _)) by lia.
  rewrite <- ES. destruct H3 as (G1 & G2 & G3 & G4 & H3). destruct G3 as [G3 G3']. rewrite G3.
  change (nz (Z.land (h_flags h) SNMP_SECUR_FLAG_ENCRYPT)) with (flag SNMP_SECUR_FLAG_ENCRYPT h).
  match goal with |- context [mk_sdg _ _ ?d] =>
    assert (d = zlen (message3_body (version s) h auth priv D)) as -> end.
  { unfold message3_tlv, message3_body in *. fold (tint (version s)). zlens.
    destruct (flag _ h); rewrite !u32_id; unfold is_u32; repeat rewrite u32_id; unfold is_u32; try lia. }
  rewrite (tlv_len_spec e ASN1_TAG_SEQ) by done. eexists. split; [reflexivity|]. rewrite <- Hcl.
  unfold v3_rep. cbn [global msg_flags]. done.
Qed.

Lemma global_data_encode_spec s h auth priv :
  v3_rep s h auth priv -> msg_len (global s) = zlen (global_body h) -> zlen (global_tlv h) < 2 ^ 32 ->
  global_data_encode e (global s) = Some (global_tlv h).
Proof.
  intros ([E1 [I1 L1]] & [E2 [I2 L2]] & [E3 L3] & [E4 [I4 L4]] & _) Hm Hl. unfold global_data_encode.
  change 1 with (zlen [h_flags h]) in L3.
  rewrite E1, E2, E3, E4, L1, L2, L3, L4, Hm, !int_field_spec, str_field_spec by done.
  f_equal. apply (tl_spec0 e ASN1_TAG_SEQ (global_body h)); [done|]. unfold global_tlv in Hl. zlens. lia.
Qed.

Lemma security_parameter_encode_spec s h auth priv name p :
  v3_rep s h auth priv -> v3_lens s h auth priv name p -> zlen (secur_tlv h auth priv) < 2 ^ 32 ->
  exists buf1, security_parameter_encode e (secur s) =
    Some (tlv ASN1_TAG_SEQ (secur_body h auth priv), length buf1, length (buf1 ++ auth ++ v3_mid priv)) /\
    buf1 = thl ASN1_TAG_SEQ (zlen (secur_body h auth priv)) ++ tstr (h_engine_id h) ++ tint (h_boots h) ++ tint (h_time h)
             ++ tstr (h_user h) ++ thl ASN1_TAG_OCTSTR (zlen auth).
Proof.
  intros (_ & _ & _ & _ & Eid & [E1 [I1 L1]] & [E2 [I2 L2]] & [L3 S3] & [L4 S4] & [L5 S5]) Hlens Hl.
  destruct Hlens as (_ & _ & Lp & _ & Le & _ & _). change 15 with (zlen snmpv3_engine_id) in Le. rewrite <- Eid in Le.
  unfold security_parameter_encode. rewrite <- Eid.
  assert (zlen (secur_body h auth priv) < 2 ^ 32) as Hb by (unfold secur_tlv, tstr in Hl; zlens; lia).
  assert (zlen (h_engine_id h) < 2 ^ 32 /\ zlen (h_user h) < 2 ^ 32 /\ zlen auth < 2 ^ 32 /\ zlen priv < 2 ^ 32) as
    (B1 & B2 & B3 & B4) by (unfold secur_body, tstr in *; zlens; lia).
  rewrite E1, E2, L1, L2, L3, L4, L5, Le, Lp, !int_field_spec by done.
  rewrite (str_field_spec e _ (h_engine_id h)), (str_field_spec e _ (h_user h)) by (done || apply slice_self).
  rewrite (enc_octstr e _ auth), (enc_octstr e _ priv) by done.
  rewrite !(tl_thl e ASN1_TAG_OCTSTR), (tl_thl e ASN1_TAG_SEQ) by (done || by apply zlen_u32).
  eexists. split; [|reflexivity]. fold (v3_mid priv). do 3 f_equal.
  rewrite (tlv_thl ASN1_TAG_SEQ (secur_body h auth priv)). unfold secur_body at 3, v3_mid, tstr.
  rewrite (tlv_thl _ auth), (tlv_thl _ priv). by rewrite <- !app_assoc.
Qed.
End V3.

Section Response3.
Context (e : endian) (junk : Z).
Context (MD5_hmac SHA1_hmac : list Z -> Z -> list Z -> Z * list Z) (AES_Encrypt : list Z -> list Z -> list Z -> list Z).
Context (random1 random2 : Z).

(** What [asn1_encode] and the loop over the bindings write. *)
Lemma asn1_encode_v3 s h auth priv name p :
  sdg_rep s name p -> v3_rep s h auth priv -> 3 <= version s ->
  let v := version s in
  let D := payload h name p in
  zlen (message3_tlv v h auth priv D) < 2 ^ 32 ->
  exists enc, asn1_encode e s = Some enc /\
    enc_buf enc ++ bindings_bytes (p_bindings p) =
      v3_pre v h auth priv D ++ auth ++ v3_mid priv ++ priv ++ scoped_tlv snmpv3_engine_id name p /\
    enc_auth enc = length (v3_pre v h auth priv D) /\
    enc_priv enc = length (v3_pre v h auth priv D ++ auth ++ v3_mid priv) /\
    enc_size enc = zlen (message3_tlv v h auth priv D) /\
    enc_scope_pdu_len enc = zlen (scoped_tlv snmpv3_engine_id name p) /\
    vbs_encode e (vb_out_list s) = Some (bindings_bytes (p_bindings p)) /\
    v3_rep (enc_sdg enc) h auth priv /\ version (enc_sdg enc) = v /\ user (enc_sdg enc) = user s /\
    data_len (enc_sdg enc) = zlen (message3_body v h auth priv D).
Proof.
  intros Hrep H3 Hv v D Hl. destruct (asn1_lengths_v3 e s h auth priv name p Hrep H3 Hv Hl)
    as (s' & E & Hlens & Hrep' & H3' & Ev & Eo & Eu).
  unfold asn1_encode. rewrite E. destruct Hrep' as ([Hvi Hvl] & [Hcl Hc] & Hp & Hvbs & Hll).
  pose proof Hlens as (Ed & Eg & Ep & Est & Ee & Esc & Epl). rewrite Ev in *. fold v in Ed, Hvi, Hvl |- *. fold D in Ed.
  rewrite Hvl, int_field_spec by done. rewrite Z.geb_leb, (proj2 (Z.leb_le 3 v)) by (subst v; lia).
  assert (zlen (message3_body v h auth priv D) < 2 ^ 32) as Hb by (unfold message3_tlv in Hl; zlens; lia).
  assert (zlen D < 2 ^ 32 /\ zlen (global_tlv h) < 2 ^ 32 /\ zlen (secur_tlv h auth priv) < 2 ^ 32)
    as (HD & HG & HS) by (unfold message3_body in Hb; zlens; lia).
  assert (zlen (scoped_tlv snmpv3_engine_id name p) < 2 ^ 32) as HSc.
  { subst D. unfold payload, tstr in HD. destruct (flag _ h); [zlens|]; lia. }
  assert (zlen (scoped_body snmpv3_engine_id name p) < 2 ^ 32) as HSb by (unfold scoped_tlv in HSc; zlens; lia).
  assert (zlen (pdu_tlv p) < 2 ^ 32 /\ zlen name < 2 ^ 32) as [Hpl Hn] by (unfold scoped_body, tstr in HSb; zlens; lia).
  assert (zlen (bindings_bytes (p_bindings p)) < 2 ^ 32) as Hbb by (unfold pdu_tlv, pdu_body in Hpl; zlens; lia).
  unfold v3_encode. rewrite (global_data_encode_spec e s' h auth priv) by done.
  destruct (security_parameter_encode_spec e s' h auth priv name p H3' Hlens HS) as (buf1 & -> & Hb1).
  rewrite Hcl, (str_field_spec e _ name) by done.
  change (Z.of_nat (length snmpv3_engine_id)) with (zlen snmpv3_engine_id).
  rewrite (str_field_spec e _ snmpv3_engine_id) by (done || apply slice_self).
  destruct (pdu_hdr_encode_spec e (pdu s') p (vb_list_len s') Hp Hll Epl Hpl) as (ph & -> & Hh).
  eexists. split; [reflexivity|]. cbn [enc_buf enc_auth enc_priv enc_size enc_scope_pdu_len enc_sdg].
  rewrite Est, Ed, Esc, !(tl_thl e ASN1_TAG_SEQ), (tl_thl e ASN1_TAG_OCTSTR)
    by (done || apply zlen_u32; unfold secur_tlv, tstr in HS; zlens; lia).
  rewrite <- Eo, (vbs_encode_spec e _ (p_bindings p)) by done.
  split; [|split; [|split; [|done]]]; [|rewrite Hb1; unfold v3_pre; rewrite !length_app; lia..].
  rewrite <- !app_assoc, Hh.
  fold (scoped_body snmpv3_engine_id name p). rewrite <- (tlv_thl ASN1_TAG_SEQ (scoped_body _ _ _)).
  fold (scoped_tlv snmpv3_engine_id name p). unfold v3_pre. rewrite <- !app_assoc. do 4 f_equal.
  rewrite (tlv_thl _ (secur_body _ _ _)). unfold secur_body at 2, v3_mid, tstr.
  rewrite (tlv_thl _ auth), (tlv_thl _ priv). by rewrite <- !app_assoc.
Qed.

(** The authentication code of a message for a user. *)
Definition user_mac (u : mib_user) (msg : list Z) : list Z :=
  if u_auth_mode u =? SNMP_USER_AUTH_MD5 then snd (MD5_hmac msg 16 (take 16 (u_auth_key u)))
  else if u_auth_mode u =? SNMP_USER_AUTH_SHA1 then snd (SHA1_hmac msg 20 (take 20 (u_auth_key u)))
  else replicate 20 0.

(** The digests fill the buffer they are given. *)
Definition hmac_ok : Prop :=
  forall data n secret, length (snd (MD5_hmac data n secret)) = Z.to_nat n /\
                        length (snd (SHA1_hmac data n secret)) = Z.to_nat n.

(** The cipher keeps the length of the text (CFB mode). *)
Definition aes_ok : Prop := forall key iv text, length (AES_Encrypt key iv text) = length text.

Lemma signature_spec s u pre auth rest :
  hmac_ok -> keys_ok u -> (length auth <= 16)%nat -> auth_para_len (secur s) = zlen auth ->
  send_len s = zlen (pre ++ auth ++ rest) ->
  snmp_msg_signature junk MD5_hmac SHA1_hmac s u (length pre) (pre ++ auth ++ rest) =
  Some (pre ++ take (length auth) (user_mac u (pre ++ replicate (length auth) 0 ++ rest)) ++ rest).
Proof.
  intros Hh [Hk _] Hl Ha Hs. unfold snmp_msg_signature. rewrite Ha, Zto_nat_zlen.
  rewrite (write_at_mid pre auth) by (by rewrite ?length_replicate). set (msg := pre ++ replicate _ _ ++ _).
  assert (length (pre ++ auth ++ rest) = length msg) as Em
    by (subst msg; rewrite !length_app, length_replicate; done).
  rewrite Hs, Zto_nat_zlen, Em, slice_self, !slice_take by lia.
  assert (forall mac, length mac = length auth -> write_at (length pre) mac msg = Some (pre ++ mac ++ rest)) as Hw
    by (intros mac Hm; apply write_at_mid; rewrite ?length_replicate; lia).
  destruct (Hh msg 16 (take 16 (u_auth_key u))) as [H16 _]. destruct (Hh msg 20 (take 20 (u_auth_key u))) as [_ H20].
  unfold user_mac. destruct (u_auth_mode u =? SNMP_USER_AUTH_MD5); [|destruct (u_auth_mode u =? SNMP_USER_AUTH_SHA1)].
  - destruct (take_blit (length auth) (snd (MD5_hmac msg 16 (take 16 (u_auth_key u)))) (replicate 20 junk))
      as (mem' & -> & ->); [rewrite length_replicate; lia|lia|]. apply Hw. rewrite length_take. lia.
  - destruct (take_blit (length auth) (snd (SHA1_hmac msg 20 (take 20 (u_auth_key u)))) (replicate 20 junk))
      as (mem' & -> & ->); [rewrite length_replicate; lia|lia|]. apply Hw. rewrite length_take. lia.
  - rewrite slice_take by (rewrite length_replicate; lia). apply Hw. rewrite length_take, length_replicate. lia.
Qed.

(** The initialisation vector; its second half is sent as the salt. *)
Definition out_iv (h : v3_hdr) : list Z :=
  net_bytes (h_boots h) ++ net_bytes (h_time h) ++ net_bytes random1 ++ net_bytes random2.

Definition out_salt (priv : list Z) : list Z := take (length priv) (net_bytes random1 ++ net_bytes random2).

Definition out_cipher (u : mib_user) (h : v3_hdr) (name : list Z) (p : pdu_msg) : list Z :=
  AES_Encrypt (u_priv_key u) (out_iv h) (scoped_tlv snmpv3_engine_id name p).

Lemma length_net_bytes z : length (net_bytes z) = 4%nat.
Proof. apply length_mem_of. Qed.

Lemma encrypt_spec s u h pre auth priv name p tail :
  let S := scoped_tlv snmpv3_engine_id name p in
  let C := out_cipher u h name p in
  aes_ok -> u_priv_mode u = SNMP_USER_ENCRYPT_AES -> v3_rep s h auth priv -> (length priv <= 8)%nat ->
  zlen (tstr S) < 2 ^ 32 -> zlen S + zlen tail = zlen (tstr S) ->
  snmp_msg_encrypt e junk AES_Encrypt random1 random2 s u (zlen S) (length (pre ++ auth ++ v3_mid priv))
    (pre ++ auth ++ v3_mid priv ++ priv ++ S ++ tail) =
  Some (pre ++ auth ++ v3_mid priv ++ out_salt priv ++ tstr C).
Proof.
  intros S C Haes Hm H3 Hp HlS Htail. unfold snmp_msg_encrypt. rewrite Hm.
  change (SNMP_USER_ENCRYPT_AES =? SNMP_USER_ENCRYPT_AES) with true. cbv iota.
  destruct H3 as (_ & _ & _ & _ & _ & [Eb _] & [Et _] & _ & _ & [Hpl _]). rewrite Hpl, Eb, Et.
  fold (out_iv h). rewrite !Zto_nat_zlen.
  assert (length (out_iv h) = 16%nat) as Hiv by (unfold out_iv; rewrite !length_app, !length_net_bytes; lia).
  set (X := pre ++ auth ++ v3_mid priv). set (mem := pre ++ auth ++ _).
  assert (mem = (X ++ priv) ++ S ++ tail) as Emem by (subst mem X; by rewrite <- !app_assoc).
  rewrite Emem, (slice_mid (X ++ priv) S tail) by (rewrite ?length_app; done). fold S. subst C. unfold out_cipher. fold S.
  pose proof (Haes (u_priv_key u) (out_iv h) S) as HC.
  set (C := AES_Encrypt (u_priv_key u) (out_iv h) S) in *.
  rewrite blit_all by (by rewrite length_replicate).
  assert (slice 8 (length priv) (out_iv h) = Some (out_salt priv)) as ->.
  { unfold slice. rewrite decide_True by lia. reflexivity. }
  assert (length (out_salt priv) = length priv) as Hsl.
  { unfold out_salt. rewrite length_take, length_app, !length_net_bytes. lia. }
  rewrite <- app_assoc, (write_at_mid X priv) by done. change (Z.of_nat (length C)) with (zlen C).
  assert (zlen C = zlen S) as EC by (unfold zlen; by rewrite HC).
  rewrite enc_octstr by apply slice_self. rewrite tl_spec0 by (done || unfold tstr in *; zlens; lia). fold (tstr C).
  assert (zlen (tstr C) = zlen (tstr S)) as ET by (unfold tstr; by rewrite !zlen_tlv, EC).
  rewrite (app_assoc X), <- (app_nil_r (S ++ tail)).
  rewrite write_at_mid; [|rewrite !length_app; lia|unfold zlen in *; rewrite length_app; lia].
  subst X. rewrite app_nil_r, <- !app_assoc. done.
Qed.

(** The bytes of the allocation behind the message, never written before the
    encryption. *)
Definition slack (h : v3_hdr) (name : list Z) (p : pdu_msg) : list Z :=
  replicate (length (payload h name p) - length (scoped_tlv snmpv3_engine_id name p)) junk.

Lemma slack_plain h name p : flag SNMP_SECUR_FLAG_ENCRYPT h = false -> slack h name p = [].
Proof. intros H. unfold slack, payload. by rewrite H, Nat.sub_diag. Qed.

Lemma zlen_slack h name p :
  zlen (scoped_tlv snmpv3_engine_id name p) + zlen (slack h name p) = zlen (payload h name p).
Proof.
  unfold slack, zlen. rewrite length_replicate. unfold payload, tstr. destruct (flag _ h); [|lia].
  pose proof (zlen_tlv_lt ASN1_TAG_OCTSTR (scoped_tlv snmpv3_engine_id name p)). unfold zlen in *. lia.
Qed.

(** The send buffer before the encryption. *)
Definition clear_mem (v : Z) (h : v3_hdr) (auth priv name : list Z) (p : pdu_msg) : list Z :=
  v3_pre v h auth priv (payload h name p) ++ auth ++ v3_mid priv ++ priv
    ++ scoped_tlv snmpv3_engine_id name p ++ slack h name p.

Lemma zlen_clear_mem v h auth priv name p :
  zlen (clear_mem v h auth priv name p) = zlen (message3_tlv v h auth priv (payload h name p)).
Proof. rewrite message3_split. unfold clear_mem. rewrite !zlen_app. pose proof (zlen_slack h name p). lia. Qed.

(** [snmp_response] up to the encryption. *)
Lemma response_v3 s h auth priv name p :
  sdg_rep s name p -> v3_rep s h auth priv -> 3 <= version s ->
  zlen (message3_tlv (version s) h auth priv (payload h name p)) < 2 ^ 32 ->
  exists s', v3_rep s' h auth priv /\ send_len s' = zlen (clear_mem (version s) h auth priv name p) /\
    snmp_response e junk MD5_hmac SHA1_hmac AES_Encrypt random1 random2 s =
    let pre := v3_pre (version s) h auth priv (payload h name p) in
    let mem := clear_mem (version s) h auth priv name p in
    let* mem' :=
      (match user s with
       | Some u =>
           if flag SNMP_SECUR_FLAG_AUTH h then
             let* mem1 :=
               (if flag SNMP_SECUR_FLAG_ENCRYPT h
                then snmp_msg_encrypt e junk AES_Encrypt random1 random2 s' u (zlen (scoped_tlv snmpv3_engine_id name p))
                       (length (pre ++ auth ++ v3_mid priv)) mem
                else Some mem) in
             snmp_msg_signature junk MD5_hmac SHA1_hmac s' u (length pre) mem1
           else Some mem
       | None => Some mem
       end) in
    let* sent := slice 0 (length mem) mem' in Some (s', sent).
Proof.
  intros Hrep H3 Hv Hl. destruct (asn1_encode_v3 s h auth priv name p Hrep H3 Hv Hl)
    as (enc & E & Hb & Ea & Ep & Es & Eo & Evb & H3' & Ev & Eu & Ed). unfold snmp_response. rewrite E, Evb, Es.
  set (M := message3_tlv _ _ _ _ _) in *. pose proof (zlen_clear_mem (version s) h auth priv name p) as HM. fold M in HM.
  rewrite Hb, Zto_nat_zlen. set (D := payload h name p) in *. set (W := v3_pre _ _ _ _ _ ++ _).
  assert (clear_mem (version s) h auth priv name p = W ++ slack h name p) as EM
    by (unfold clear_mem; subst W; by rewrite <- !app_assoc).
  pose proof (f_equal zlen EM) as HW. rewrite zlen_app in HW.
  assert (blit W (replicate (length M) junk) = Some (clear_mem (version s) h auth priv name p)) as ->.
  { unfold zlen in HM, HW. unfold blit. rewrite decide_True by (rewrite length_replicate; lia). rewrite EM, drop_replicate.
    do 2 f_equal. unfold slack in *. fold D in HW |- *. rewrite length_replicate in HW. f_equal. lia. }
  set (s' := set_send_len _ _). exists s'. split; [done|].
  assert (send_len s' = zlen (clear_mem (version s) h auth priv name p)) as Hsl.
  { subst s'. cbn [send_len set_send_len]. rewrite Ed, HM. by apply tlv_len_spec. }
  split; [done|]. rewrite Hsl, Zto_nat_zlen, Ea, Ep, Eo.
  change (user s') with (user (enc_sdg enc)). change (version s') with (version (enc_sdg enc)). rewrite Eu, Ev.
  destruct H3' as (_ & _ & [Ef _] & _). change (global s') with (global (enc_sdg enc)). rewrite Ef.
  rewrite Z.geb_leb, (proj2 (Z.leb_le 3 (version s))) by lia. done.
Qed.

(** What is sent as the privacy parameter and as the data. *)
Definition out_priv (h : v3_hdr) (priv : list Z) : list Z :=
  if flag SNMP_SECUR_FLAG_ENCRYPT h then out_salt priv else priv.

Definition out_data (u : mib_user) (h : v3_hdr) (name : list Z) (p : pdu_msg) : list Z :=
  if flag SNMP_SECUR_FLAG_ENCRYPT h then tstr (out_cipher u h name p) else scoped_tlv snmpv3_engine_id name p.

Lemma zlen_out_priv h priv : (length priv <= 8)%nat -> zlen (out_priv h priv) = zlen priv.
Proof.
  intros. unfold out_priv. destruct (flag _ h); [|done]. unfold zlen, out_salt.
  rewrite length_take, length_app, !length_net_bytes. lia.
Qed.

Lemma zlen_out_data u h name p : aes_ok -> zlen (out_data u h name p) = zlen (payload h name p).
Proof.
  intros Haes. unfold out_data, payload. destruct (flag _ h); [|done].
  unfold tstr. rewrite !zlen_tlv. unfold zlen, out_cipher. by rewrite Haes.
Qed.

Lemma zlen_user_mac u msg n : hmac_ok -> (n <= 16)%nat -> length (take n (user_mac u msg)) = n.
Proof.
  intros Hh Hn. rewrite length_take. enough (16 <= length (user_mac u msg))%nat by lia. unfold user_mac.
  destruct (_ =? _); [|destruct (_ =? _)]; rewrite ?(proj1 (Hh _ _ _)), ?(proj2 (Hh _ _ _)); cbn; lia.
Qed.

(** The send buffer after the encryption. *)
Lemma encrypted_mem s u v h auth priv name p :
  let pre := v3_pre v h auth priv (payload h name p) in
  aes_ok -> v3_rep s h auth priv -> (length priv <= 8)%nat ->
  (flag SNMP_SECUR_FLAG_ENCRYPT h = true -> u_priv_mode u = SNMP_USER_ENCRYPT_AES) ->
  zlen (payload h name p) < 2 ^ 32 ->
  (if flag SNMP_SECUR_FLAG_ENCRYPT h
   then snmp_msg_encrypt e junk AES_Encrypt random1 random2 s u (zlen (scoped_tlv snmpv3_engine_id name p))
          (length (pre ++ auth ++ v3_mid priv)) (clear_mem v h auth priv name p)
   else Some (clear_mem v h auth priv name p))
  = Some (pre ++ auth ++ v3_mid (out_priv h priv) ++ out_priv h priv ++ out_data u h name p).
Proof.
  intros pre Haes H3 Hp Hm Hl. pose proof (zlen_out_priv h priv Hp) as Els. unfold clear_mem. fold pre.
  unfold out_priv, out_data in *. destruct (flag SNMP_SECUR_FLAG_ENCRYPT h) eqn:He.
  - pose proof (zlen_slack h name p) as Hz. unfold payload in Hz, Hl. rewrite He in Hz, Hl.
    rewrite (encrypt_spec s u h) by (done || by apply Hm). unfold v3_mid. by rewrite Els.
  - rewrite slack_plain, app_nil_r by done. done.
Qed.

(** Replacing parts of a message by parts of the same length. *)
Lemma message3_replace v h auth auth' priv priv' data data' :
  length auth = length auth' -> zlen priv = zlen priv' -> zlen data = zlen data' ->
  v3_pre v h auth priv data ++ auth' ++ v3_mid priv' ++ priv' ++ data' = message3_tlv v h auth' priv' data' /\
  zlen (message3_tlv v h auth priv data) = zlen (message3_tlv v h auth' priv' data').
Proof.
  intros E1 E2 E3. rewrite !message3_split, !zlen_app.
  rewrite (v3_pre_ext v h auth auth' priv priv' data data') by (done || unfold zlen; by rewrite E1).
  split; [done|]. unfold v3_mid. rewrite E2, E3. unfold zlen. lia.
Qed.
End Response3.

(** ** Examples *)
Definition example_binding : binding := mk_binding [1; 3; 6; 1; 2; 0] ASN1_TAG_INT [42].
Definition example_pdu : pdu_msg := mk_pdu_msg SNMP_RESP 1234 0 0 [example_binding].
Definition example_name : list Z := [112; 117; 98; 108; 105; 99].
Definition example_user : mib_user :=
  mk_user "admin"%string SNMP_USER_AUTH_MD5 SNMP_USER_ENCRYPT_AES (replicate 20 3) (replicate 16 5) [] [].

(** A datagram that answers [example_pdu]; version 3 when [v] is 3. *)
Definition example_sdg (v flags : Z) (u : option mib_user) (auth priv : list Z) : snmp_datagram :=
  mk_sdg 0 0 0 v 1
    (mk_global 0 9 1 1472 2 flags 1 3 1)
    (mk_secur 0 0 (replicate 33 0) 0 1 1 300 2 example_name 6 auth (zlen auth) priv (zlen priv))
    u 0
    (mk_context 0 (replicate 33 0) 0 (example_name ++ replicate 35 0) 6)
    (mk_pdu SNMP_RESP 0 2 1234 1 0 1 0)
    (zlen (binding_tlv example_binding)) 1 1 []
    [mk_vb [1; 3; 6; 1; 2; 0] (zlen (binding_body example_binding)) 6 1 ASN1_TAG_INT [42]].

Definition example_hdr (flags : Z) : v3_hdr := mk_v3 9 1472 flags 3 snmpv3_engine_id 1 300 example_name.

Lemma example_vb_rep : vb_rep (mk_vb [1; 3; 6; 1; 2; 0] (zlen (binding_body example_binding)) 6 1 ASN1_TAG_INT [42])
  example_binding.
Proof.
  split_and!; try done; try (cbn; lia); try (unfold zlen; cbn; lia).
  repeat constructor; cbn; lia.
Qed.

Lemma int_rep_check len v : (-2 ^ 31 <=? v) && (v <? 2 ^ 31) = true -> len = zlen (int_bytes v) -> int_rep len v.
Proof. intros [H1 H2]%andb_true_iff Hl. split; [unfold is_i32; lia|done]. Qed.

Lemma example_sdg_rep v flags u auth priv :
  0 <= v < 128 -> sdg_rep (example_sdg v flags u auth priv) example_name example_pdu.
Proof.
  intros Hv. unfold sdg_rep. split_and!.
  - split; [unfold is_i32; cbn; lia|]. cbn [example_sdg ver_len version]. unfold int_bytes, int_octets, zlen.
    rewrite length_be_bytes. by repeat zdec.
  - done.
  - unfold pdu_rep. split_and!; try done; by apply int_rep_check.
  - constructor; [apply example_vb_rep|constructor].
  - unfold bindings_bytes, example_pdu. cbn [p_bindings map concat]. by rewrite app_nil_r.
Qed.

Lemma example_v3_rep v flags u auth priv : v3_rep (example_sdg v flags u auth priv) (example_hdr flags) auth priv.
Proof. unfold v3_rep. split_and!; try done; try (by apply int_rep_check); split; try done; apply slice_self. Qed.

(** ** Properties *)

(** C27: a response of version 1 or 2c is sent as exactly the reference encoding
    of its message: the lengths computed in advance are those of the fields, the
    allocation is filled exactly, and nothing else is sent. *)
Theorem snmp_response_message e junk md5 sha1 aes r1 r2 (s : snmp_datagram) (name : list Z) (p : pdu_msg)
    (Hrep : sdg_rep s name p) (Hv : version s < 3) (Hl : zlen (message_tlv (version s) name p) < 2 ^ 32) :
  exists s', snmp_response e junk md5 sha1 aes r1 r2 s = Some (s', message_tlv (version s) name p).
Proof. by apply response_message. Qed.

Lemma snmp_response_message_witness :
  exists s', snmp_response LE 170 (fun _ _ _ => (0, [])) (fun _ _ _ => (0, [])) (fun _ _ t => t) 0 0
    (example_sdg 1 0 None [] []) = Some (s', message_tlv 1 example_name example_pdu).
Proof.
  apply (snmp_response_message LE 170 _ _ _ 0 0 (example_sdg 1 0 None [] []) example_name example_pdu).
  - apply example_sdg_rep. lia.
  - cbn. lia.
  - vm_compute. reflexivity.
Defined.

(** A version 3 response that is neither signed nor encrypted is sent as
    exactly the reference encoding of its message, with the agent's engine
    identifier in the security parameters and in the scoped PDU. *)
Theorem snmp_response_v3_plain e junk md5 sha1 aes r1 r2 (s : snmp_datagram) (h : v3_hdr) (auth priv name : list Z)
    (p : pdu_msg) (Hrep : sdg_rep s name p) (H3 : v3_rep s h auth priv) (Hv : 3 <= version s)
    (Hl : zlen (message3_tlv (version s) h auth priv (payload h name p)) < 2 ^ 32)
    (Hu : user s = None \/ flag SNMP_SECUR_FLAG_AUTH h = false) (He : flag SNMP_SECUR_FLAG_ENCRYPT h = false) :
  exists s', snmp_response e junk md5 sha1 aes r1 r2 s =
    Some (s', message3_tlv (version s) h auth priv (scoped_tlv snmpv3_engine_id name p)).
Proof.
  destruct (response_v3 e junk md5 sha1 aes r1 r2 s h auth priv name p Hrep H3 Hv Hl) as (s' & _ & _ & ->).
  exists s'. cbv zeta. rewrite He.
  assert (clear_mem junk (version s) h auth priv name p =
    message3_tlv (version s) h auth priv (scoped_tlv snmpv3_engine_id name p)) as ->.
  { rewrite message3_split. unfold clear_mem. rewrite slack_plain, app_nil_r by done. unfold payload. by rewrite He. }
  destruct Hu as [-> | ->]; [by rewrite slice_self|]. destruct (user s); by rewrite slice_self.
Qed.

Lemma snmp_response_v3_plain_witness :
  exists s', snmp_response BE 170 (fun _ _ _ => (0, [])) (fun _ _ _ => (0, [])) (fun _ _ t => t) 0 0
    (example_sdg 3 0 None [] []) =
    Some (s', message3_tlv 3 (example_hdr 0) [] [] (scoped_tlv snmpv3_engine_id example_name example_pdu)).
Proof.
  apply (snmp_response_v3_plain BE 170 _ _ _ 0 0 (example_sdg 3 0 None [] []) (example_hdr 0) [] [] example_name example_pdu).
  - apply example_sdg_rep. lia.
  - apply example_v3_rep.
  - cbn. lia.
  - vm_compute. reflexivity.
  - by left.
  - reflexivity.
Defined.

(** A version 3 response to an authenticated request of a known user is a
    well-formed message whose authentication parameter is the digest of the same
    message with that parameter zeroed; if encryption is asked for, the scoped
    PDU is replaced by its encryption under the user's key with the engine boots,
    the engine time and the salt that is sent, and fits the allocation exactly. *)
Theorem snmp_response_v3_signed e junk md5 sha1 aes r1 r2 (s : snmp_datagram) (h : v3_hdr) (auth priv name : list Z)
    (p : pdu_msg) (u : mib_user) (Hh : hmac_ok md5 sha1) (Haes : aes_ok aes)
    (Hrep : sdg_rep s name p) (H3 : v3_rep s h auth priv) (Hv : 3 <= version s)
    (Hl : zlen (message3_tlv (version s) h auth priv (payload h name p)) < 2 ^ 32)
    (Hu : user s = Some u) (Hk : keys_ok u) (Hf : flag SNMP_SECUR_FLAG_AUTH h = true)
    (Ha : (length auth <= 16)%nat) (Hp : (length priv <= 8)%nat)
    (Hm : flag SNMP_SECUR_FLAG_ENCRYPT h = true -> u_priv_mode u = SNMP_USER_ENCRYPT_AES) :
  let zeroed := message3_tlv (version s) h (replicate (length auth) 0) (out_priv r1 r2 h priv) (out_data aes r1 r2 u h name p) in
  exists s', snmp_response e junk md5 sha1 aes r1 r2 s =
    Some (s', message3_tlv (version s) h (take (length auth) (user_mac md5 sha1 u zeroed))
                (out_priv r1 r2 h priv) (out_data aes r1 r2 u h name p)).
Proof.
  destruct (response_v3 e junk md5 sha1 aes r1 r2 s h auth priv name p Hrep H3 Hv Hl) as (s' & H3' & Hsl & ->).
  intros zeroed. exists s'. cbv zeta. rewrite Hu, Hf. rewrite zlen_clear_mem in Hsl.
  pose proof (zlen_out_priv r1 r2 h priv Hp) as Els. pose proof (zlen_out_data aes r1 r2 u h name p Haes) as Eld.
  rewrite encrypted_mem by (done || unfold message3_tlv, message3_body in Hl; zlens; lia).
  destruct (message3_replace (version s) h auth auth priv (out_priv r1 r2 h priv) (payload h name p)
    (out_data aes r1 r2 u h name p)) as [E1 Ez1]; [done..|].
  destruct (message3_replace (version s) h auth (replicate (length auth) 0) priv (out_priv r1 r2 h priv)
    (payload h name p) (out_data aes r1 r2 u h name p)) as [E2 _]; [by rewrite length_replicate|done..|].
  rewrite (signature_spec junk md5 sha1 s' u _ auth), E2; [|done|done|done|apply H3'|by rewrite Hsl, Ez1, E1].
  fold zeroed. set (mac := take _ _).
  destruct (message3_replace (version s) h auth mac priv (out_priv r1 r2 h priv)
    (payload h name p) (out_data aes r1 r2 u h name p)) as [-> Ez3];
    [symmetry; by apply zlen_user_mac|done..|].
  pose proof (zlen_clear_mem junk (version s) h auth priv name p) as Hc. rewrite Ez3 in Hc. unfold zlen in Hc.
  apply Nat2Z.inj in Hc. by rewrite Hc, slice_self.
Qed.

Lemma snmp_response_v3_signed_witness :
  exists s', snmp_response LE 170 (fun d n _ => (0, replicate (Z.to_nat n) (u8 (zlen d))))
      (fun d n _ => (0, replicate (Z.to_nat n) 1)) (fun _ _ t => map (fun b => 255 - b) t) 5 6
      (example_sdg 3 3 (Some example_user) (replicate 12 9) (replicate 8 8)) =
    Some (s', message3_tlv 3 (example_hdr 3) (replicate 12 136) [0; 0; 0; 5; 0; 0; 0; 6]
      (tstr (map (fun b => 255 - b) (scoped_tlv snmpv3_engine_id example_name example_pdu)))).
Proof.
  eapply (snmp_response_v3_signed LE 170 (fun d n _ => (0, replicate (Z.to_nat n) (u8 (zlen d))))
      (fun d n _ => (0, replicate (Z.to_nat n) 1)) (fun _ _ t => map (fun b => 255 - b) t) 5 6
      (example_sdg 3 3 (Some example_user) (replicate 12 9) (replicate 8 8)) (example_hdr 3)
      (replicate 12 9) (replicate 8 8) example_name example_pdu example_user).
  - intros d n k. split; apply length_replicate.
  - intros k iv t. apply length_map.
  - apply example_sdg_rep. lia.
  - apply example_v3_rep.
  - cbn. lia.
  - vm_compute. reflexivity.
  - reflexivity.
  - done.
  - reflexivity.
  - cbn. lia.
  - cbn. lia.
  - reflexivity.
Defined.

(** When the request sets the privacy flag but the response is not encrypted
    (the authentication flag is missing or the user is unknown), the header of
    the cipher text is counted in the length but never written: the message is
    sent in clear and followed by at least two bytes of uninitialised memory. *)
Theorem snmp_response_v3_slack e junk md5 sha1 aes r1 r2 (s : snmp_datagram) (h : v3_hdr) (auth priv name : list Z)
    (p : pdu_msg) (Hrep : sdg_rep s name p) (H3 : v3_rep s h auth priv) (Hv : 3 <= version s)
    (Hl : zlen (message3_tlv (version s) h auth priv (payload h name p)) < 2 ^ 32)
    (Hu : user s = None \/ flag SNMP_SECUR_FLAG_AUTH h = false) (He : flag SNMP_SECUR_FLAG_ENCRYPT h = true) :
  exists s' written k, snmp_response e junk md5 sha1 aes r1 r2 s = Some (s', written ++ replicate k junk) /\
    (2 <= k)%nat /\ exists w, written = w ++ scoped_tlv snmpv3_engine_id name p.
Proof.
  destruct (response_v3 e junk md5 sha1 aes r1 r2 s h auth priv name p Hrep H3 Hv Hl) as (s' & _ & _ & ->).
  exists s', (v3_pre (version s) h auth priv (payload h name p) ++ auth ++ v3_mid priv ++ priv
    ++ scoped_tlv snmpv3_engine_id name p), (length (slack junk h name p)). cbv zeta.
  assert (clear_mem junk (version s) h auth priv name p = (v3_pre (version s) h auth priv (payload h name p) ++ auth
    ++ v3_mid priv ++ priv ++ scoped_tlv snmpv3_engine_id name p) ++ replicate (length (slack junk h name p)) junk) as <-.
  { unfold clear_mem, slack. by rewrite length_replicate, <- !app_assoc. }
  split; [|split].
  - destruct Hu as [-> | ->]; [by rewrite slice_self|]. destruct (user s); by rewrite slice_self.
  - pose proof (zlen_slack junk h name p) as Hz. unfold payload, tstr in Hz. rewrite He, zlen_tlv in Hz.
    pose proof (length_len_bytes_pos (zlen (scoped_tlv snmpv3_engine_id name p))). unfold zlen in *. lia.
  - eexists. rewrite !app_assoc. reflexivity.
Qed.

Lemma snmp_response_v3_slack_witness :
  exists s' written k, snmp_response LE 170 (fun _ _ _ => (0, [])) (fun _ _ _ => (0, [])) (fun _ _ t => t) 0 0
    (example_sdg 3 2 (Some example_user) [] []) = Some (s', written ++ replicate k 170) /\ (2 <= k)%nat /\
    exists w, written = w ++ scoped_tlv snmpv3_engine_id example_name example_pdu.
Proof.
  apply (snmp_response_v3_slack LE 170 _ _ _ 0 0 (example_sdg 3 2 (Some example_user) [] []) (example_hdr 2) [] []).
  - apply example_sdg_rep. lia.
  - apply example_v3_rep.
  - cbn. lia.
  - vm_compute. reflexivity.
  - by right.
  - reflexivity.
Defined.
