(* ===== verification/SnmpProc.v ===== *)
(** * Processing a request ([src/core/snmp_msg_proc.c])

    Every binding of the request is looked up in the views of the community or
    user, in the order of the list of views; the answer is encoded and appended
    to [vb_out_list], with the running lengths the response needs, and the first
    error is kept in the PDU header.  The MIB tree and the views do not change
    during a request; the Lua state does.  The result structure [ret_oid] is
    reused from one binding to the next, and so is it here. *)
From Stdlib Require Import String.
From S2P Require Import Prelude BerEncoder BerSpec BerDecoder Oid MibTree MibSearch MibView Message SnmpData SnmpOut.
Local Open Scope Z_scope.

Section Proc.
Context {L : Type} (lua_pcall : L -> Z -> Z -> list Z -> lua_arg -> lua_arg -> L * option lua_ret).
Context (e : endian) (junk : Z) (root : mib_node) (st : view_state).
Context (respond : snmp_datagram -> option (snmp_datagram * list Z)).

(** ** Access control *)

(** The community or the user of a request ([None]: NULL). *)
Inductive access := ByUser (u : option mib_user) | ByCommunity (c : option mib_community).

Definition community_of (s : snmp_datagram) : option mib_community :=
  let* i := mib_community_search st (cstring (context_name (ctx s))) in mib_communities st !! i.

Definition access_of (s : snmp_datagram) : access :=
  if version s >=? 3 then ByUser (user s) else ByCommunity (community_of s).

Definition next_view_of (a : access) (attr : aces_attr) (v : option nat) : option nat :=
  match a with
  | ByUser u => mib_user_next_view u attr v
  | ByCommunity c => mib_community_next_view c attr v
  end.

(** The status set before the views are traversed. *)
Definition access_status (s : snmp_datagram) (a : access) (r : oid_search_res) : oid_search_res :=
  match a with
  | ByUser (Some _) =>
      if nz (Z.land (msg_flags (global s)) SNMP_SECUR_FLAG_AUTH) then set_err_stat (auth_err s) r else r
  | ByUser None | ByCommunity None => set_err_stat SNMP_ERR_STAT_NO_ACCESS r
  | ByCommunity (Some _) => r
  end.

(** ** [mib_get], [mib_getnext], [mib_set] *)

(** [for (; ;)] of [mib_get] and [mib_set].  [None] is an access outside an
    object, or a traversal that does not end: it visits every view once. *)
Fixpoint view_search (fuel : nat) (a : access) (attr : aces_attr) (oid : list Z) (view : option nat)
    (l : L) (r : oid_search_res) : option (L * oid_search_res) :=
  match fuel with
  | O => None
  | S fuel' =>
      match next_view_of a attr view with
      | None =>
          let* cells := oid_dup junk oid in
          Some (l, set_oid cells (Z.of_nat (length oid)) r)
      | Some i =>
          let* v := mib_views st !! i in
          let* (node, l', r') := mib_tree_search lua_pcall e junk root (v_oid v) oid l r in
          if ((r_err_stat r' =? 0) && ASN1_TAG_VALID (tag (r_var r'))) || (oid_cmp oid (v_oid v) <? 0)
          then Some (l', r')
          else view_search fuel' a attr oid (Some i) l' r'
      end
  end.

Definition view_fuel : nat := S (length (mib_views st)).

Definition mib_get (s : snmp_datagram) (vb_in : var_bind) (l : L) (r : oid_search_res)
    : option (L * oid_search_res) :=
  let* oid := vb_ids vb_in in
  let a := access_of s in
  view_search view_fuel a MIB_ACES_READ oid None l (access_status s a r).

(** [for (; ;)] of [mib_getnext]. *)
Fixpoint view_search_next (fuel : nat) (a : access) (oid : list Z) (view : option nat)
    (l : L) (r : oid_search_res) : option (L * oid_search_res) :=
  match fuel with
  | O => None
  | S fuel' =>
      match next_view_of a MIB_ACES_READ view with
      | None =>
          let* cells := oid_dup junk oid in
          Some (l, set_oid cells (Z.of_nat (length oid)) r)
      | Some i =>
          let* v := mib_views st !! i in
          let* (l', r') := mib_tree_search_next lua_pcall e junk root (v_oid v) oid l r in
          if negb (tag (r_var r') =? ASN1_TAG_END_OF_MIB_VIEW) then Some (l', r')
          else view_search_next fuel' a oid (Some i) l' r'
      end
  end.

Definition mib_getnext (s : snmp_datagram) (vb_in : var_bind) (l : L) (r : oid_search_res)
    : option (L * oid_search_res) :=
  let* oid := vb_ids vb_in in
  let a := access_of s in
  view_search_next view_fuel a oid None l (access_status s a r).

(** The owner is dropped when none of its write views covers the identifier. *)
Definition write_access (a : access) (oid : list Z) : option access :=
  match a with
  | ByUser (Some u) =>
      let* c := mib_user_view_cover st (Some u) MIB_ACES_WRITE oid in
      Some (if c =? 0 then ByUser None else a)
  | ByCommunity (Some m) =>
      let* c := mib_community_view_cover st (Some m) MIB_ACES_WRITE oid in
      Some (if c =? 0 then ByCommunity None else a)
  | _ => Some a
  end.

Definition mib_set (s : snmp_datagram) (vb_in : var_bind) (l : L) (r : oid_search_res)
    : option (L * oid_search_res) :=
  let* oid := vb_ids vb_in in
  let* a := write_access (access_of s) oid in
  view_search view_fuel a MIB_ACES_WRITE oid None l (access_status s a r).

(** ** Answers *)

(** Decoding the value of the request. *)
Definition vb_in_decode (vb_in : var_bind) (r : oid_search_res) : option oid_search_res :=
  let* (n, bs) := ber_value_dec e (vb_value vb_in) (value_len vb_in) (value_type vb_in) in
  let* val := blit bs (value (r_var r)) in
  Some (set_var (mk_var (value_type vb_in) (u16 n) val) r).

(** Encoding the answer; [len] is the count given to [ber_value_enc], [t] the
    type of the answer.  The lengths are those of the last part of the loops. *)
Definition vb_out_encode (r : oid_search_res) (val_len len t : Z) : option var_bind :=
  let v := r_var r in
  let* bs := ber_value_enc e (value v) len (tag v) in
  let* mem := blit bs (replicate (Z.to_nat val_len) junk) in
  let* ids := slice 0 (Z.to_nat (r_id_len r)) (r_oid r) in
  let* oid_len := ber_oid_enc_try ids in
  let vlen := Z.of_nat (length bs) in
  Some (mk_vb (r_oid r) (u32 (tlv_len e oid_len + tlv_len e vlen)) (r_id_len r) vlen t mem).

(** [vb_list_len], [vb_out_cnt] and the list. *)
Definition vb_out_add (vb_out : var_bind) (s : snmp_datagram) : snmp_datagram :=
  set_out (u32 (vb_list_len s + tlv_len e (vb_len vb_out))) (u32 (vb_out_cnt s + 1)) (vb_out_list s ++ [vb_out]) s.

(** The first error is reported. *)
Definition report (err cnt : Z) (s : snmp_datagram) : snmp_datagram :=
  if nz err && (err_stat (pdu s) =? 0) then set_pdu (set_err err (i32 cnt) (pdu s)) s else s.

Record pstate := mk_pstate {
  ps_lua : L;
  ps_ret : oid_search_res;
  ps_cnt : Z;
  ps_sdg : snmp_datagram;
}.

(** The body of the loops of [snmp_get] and [snmp_getnext]; [search] is
    [mib_get] or [mib_getnext]. *)
Definition get_step (search : snmp_datagram -> var_bind -> L -> oid_search_res -> option (L * oid_search_res))
    (p : pstate) (vb_in : var_bind) : option pstate :=
  let cnt := u32 (ps_cnt p + 1) in
  let* r := vb_in_decode vb_in (ps_ret p) in
  let* (l, r) := search (ps_sdg p) vb_in (ps_lua p) r in
  let* val_len := ber_value_enc_try e (value (r_var r)) (len (r_var r)) (tag (r_var r)) in
  let* vb_out := vb_out_encode r val_len (len (r_var r)) (tag (r_var r)) in
  Some (mk_pstate l r cnt (vb_out_add vb_out (report (r_err_stat r) cnt (ps_sdg p)))).

(** The body of the loop of [snmp_set]: the encoding is given [val_len] as the
    count, the answer keeps the type of the request. *)
Definition set_step (p : pstate) (vb_in : var_bind) : option pstate :=
  let cnt := u32 (ps_cnt p + 1) in
  let* r := vb_in_decode vb_in (ps_ret p) in
  let* (l, r) := mib_set (ps_sdg p) vb_in (ps_lua p) r in
  let* val_len := ber_value_enc_try e (value (r_var r)) (len (r_var r)) (tag (r_var r)) in
  let* vb_out := vb_out_encode r val_len val_len (value_type vb_in) in
  let r := if (r_err_stat r =? 0) && negb (ASN1_TAG_VALID (tag (r_var r)))
           then set_err_stat SNMP_ERR_STAT_NOT_WRITABLE r else r in
  Some (mk_pstate l r cnt (vb_out_add vb_out (report (r_err_stat r) cnt (ps_sdg p)))).

(** [list_for_each] over the bindings of the request. *)
Fixpoint for_each (step : pstate -> var_bind -> option pstate) (vbs : list var_bind) (p : pstate) : option pstate :=
  match vbs with
  | [] => Some p
  | vb :: vbs' => let* p' := step p vb in for_each step vbs' p'
  end.

Definition snmp_get (s : snmp_datagram) (l : L) : option (L * snmp_datagram * list Z) :=
  let* p := for_each (get_step mib_get) (vb_in_list s) (mk_pstate l (ret_oid_init SNMP_REQ_GET) 0 s) in
  let* (s', sent) := respond (ps_sdg p) in Some (ps_lua p, s', sent).

Definition snmp_getnext (s : snmp_datagram) (l : L) : option (L * snmp_datagram * list Z) :=
  let* p := for_each (get_step mib_getnext) (vb_in_list s) (mk_pstate l (ret_oid_init SNMP_REQ_GETNEXT) 0 s) in
  let* (s', sent) := respond (ps_sdg p) in Some (ps_lua p, s', sent).

Definition snmp_set (s : snmp_datagram) (l : L) : option (L * snmp_datagram * list Z) :=
  let* p := for_each set_step (vb_in_list s) (mk_pstate l (ret_oid_init SNMP_REQ_SET) 0 s) in
  let* (s', sent) := respond (ps_sdg p) in Some (ps_lua p, s', sent).

(** ** [snmp_bulkget] *)

(** The binding of the request is advanced to the answer. *)
Definition vb_advance (r : oid_search_res) (vb_in : var_bind) : option var_bind :=
  let* ids := slice 0 (Z.to_nat (r_id_len r)) (r_oid r) in
  let* cells := oid_dup junk ids in
  Some (mk_vb cells (vb_len vb_in) (r_id_len r) (value_len vb_in) (value_type vb_in) (vb_value vb_in)).

(** One pass over the bindings: the new bindings of the request. *)
Fixpoint bulk_pass (vbs : list var_bind) (p : pstate) : option (list var_bind * pstate) :=
  match vbs with
  | [] => Some ([], p)
  | vb :: vbs' =>
      let* p' := get_step mib_getnext p vb in
      let* vb' := vb_advance (ps_ret p') vb in
      let* (rest, p'') := bulk_pass vbs' p' in
      Some (vb' :: rest, p'')
  end.

Fixpoint bulk_loop (repeat : nat) (vbs : list var_bind) (p : pstate) : option (list var_bind * pstate) :=
  match repeat with
  | O => Some (vbs, p)
  | S repeat' =>
      let* (vbs', p') := bulk_pass vbs p in bulk_loop repeat' vbs' p'
  end.

Definition snmp_bulkget (s : snmp_datagram) (l : L) : option (L * snmp_datagram * list Z) :=
  let repeat := Z.to_nat (u32 (err_idx (pdu s))) in
  let s := set_pdu (set_err (err_stat (pdu s)) 0 (pdu s)) s in
  let* (vbs, p) := bulk_loop repeat (vb_in_list s) (mk_pstate l (ret_oid_init SNMP_REQ_GETNEXT) 0 s) in
  let s := set_in (vb_list_len (ps_sdg p)) (vb_in_cnt (ps_sdg p)) vbs (ps_sdg p) in
  let* (s', sent) := respond s in Some (ps_lua p, s', sent).
End Proc.

(** ** The views of a request *)
Definition views_of (a : access) (attr : aces_attr) : list nat :=
  match a with
  | ByUser (Some u) => o_views u attr
  | ByCommunity (Some c) => o_views c attr
  | _ => []
  end.

Definition access_ok (st : view_state) (a : access) : Prop :=
  match a with
  | ByUser (Some u) => u ∈ mib_users st
  | ByCommunity (Some c) => c ∈ mib_communities st
  | _ => True
  end.

(** The subtrees the request may read or write, in order. *)
Definition access_oids (st : view_state) (a : access) (attr : aces_attr) : list (list Z) :=
  oids_of (voids (mib_views st)) (views_of a attr).

Lemma next_view_of_list a attr v : next_view_of a attr v = next_view v (views_of a attr).
Proof. destruct a as [[u|]|[c|]]; done. Qed.

Lemma access_views st a attr : state_ok st -> access_ok st a -> list_ok (voids (mib_views st)) (views_of a attr).
Proof.
  intros [_ [Hc _] [Hu _] _ _] Ha.
  destruct a as [[u|]|[c|]]; cbn [views_of access_ok] in *; try (exists []; split; constructor).
  - rewrite Forall_forall in Hu. by apply Hu.
  - rewrite Forall_forall in Hc. by apply Hc.
Qed.

Lemma access_fuel st l : list_ok (voids (mib_views st)) l -> (length l < view_fuel st)%nat.
Proof.
  intros H. pose proof (list_ok_NoDup _ _ H) as Hnd. destruct H as (Ls & Hd & _). unfold view_fuel.
  enough (length l <= length (seq 0 (length (mib_views st))))%nat by (rewrite length_seq in *; lia).
  apply submseteq_length, NoDup_submseteq; [done|]. intros i Hi. apply list_elem_of_lookup in Hi as [k Hk].
  destruct (Forall2_lookup_l _ _ _ _ _ Hd Hk) as (o & _ & Ho). apply lookup_lt_Some in Ho. unfold voids in Ho.
  rewrite length_fmap in Ho. apply elem_of_seq. lia.
Qed.

(** The community the request names is one of the state. *)
Lemma access_of_ok st s : (forall u, user s = Some u -> u ∈ mib_users st) -> access_ok st (access_of st s).
Proof.
  intros Hu. unfold access_of. destruct (version s >=? 3).
  - destruct (user s) as [u|]; [by apply Hu|done].
  - unfold community_of. destruct (mib_community_search st _) as [i|]; [|done].
    destruct (mib_communities st !! i) as [c|] eqn:E; [|done]. by eapply list_elem_of_lookup_2.
Qed.

(** The part of a list of views before the view of an identifier, that view,
    and the part after it. *)
Fixpoint covering (Ls : list (list Z)) (o : list Z) : option (list (list Z) * list Z * list (list Z)) :=
  match Ls with
  | [] => None
  | v :: Ls' =>
      if decide (v `prefix_of` o) then Some ([], v, Ls')
      else let* (before, w, after) := covering Ls' o in Some (v :: before, w, after)
  end.

Section Views.
Context {L : Type} (lua_pcall : L -> Z -> Z -> list Z -> lua_arg -> lua_arg -> L * option lua_ret).
Context (e : endian) (junk : Z) (root : mib_node) (st : view_state).

(** The two loops, on the identifiers of the views. *)
Fixpoint search_list (Ls : list (list Z)) (oid : list Z) (l : L) (r : oid_search_res) : option (L * oid_search_res) :=
  match Ls with
  | [] => let* cells := oid_dup junk oid in Some (l, set_oid cells (Z.of_nat (length oid)) r)
  | v :: Ls' =>
      let* (node, l', r') := mib_tree_search lua_pcall e junk root v oid l r in
      if ((r_err_stat r' =? 0) && ASN1_TAG_VALID (tag (r_var r'))) || (oid_cmp oid v <? 0) then Some (l', r')
      else search_list Ls' oid l' r'
  end.

Fixpoint search_next_list (Ls : list (list Z)) (oid : list Z) (l : L) (r : oid_search_res) : option (L * oid_search_res) :=
  match Ls with
  | [] => let* cells := oid_dup junk oid in Some (l, set_oid cells (Z.of_nat (length oid)) r)
  | v :: Ls' =>
      let* (l', r') := mib_tree_search_next lua_pcall e junk root v oid l r in
      if negb (tag (r_var r') =? ASN1_TAG_END_OF_MIB_VIEW) then Some (l', r')
      else search_next_list Ls' oid l' r'
  end.

(** Where the loop stands after the views [l1]. *)
Lemma next_view_at l1 l2 : NoDup (l1 ++ l2) -> next_view (last l1) (l1 ++ l2) = head l2.
Proof.
  intros Hnd. destruct l1 as [|i l1 _] using rev_ind; [by destruct l2|]. rewrite last_snoc, <- app_assoc. cbn [app].
  rewrite <- app_assoc in Hnd. cbn [app] in Hnd.
  destruct l2 as [|j l2]; [by apply next_view_last|by apply next_view_next].
Qed.

Lemma view_search_list a attr oid fuel l1 l2 Ls l r :
  views_of a attr = l1 ++ l2 -> NoDup (l1 ++ l2) -> den (voids (mib_views st)) l2 Ls -> (length l2 < fuel)%nat ->
  view_search lua_pcall e junk root st fuel a attr oid (last l1) l r = search_list Ls oid l r.
Proof.
  revert l1 l2 Ls l r. induction fuel as [|fuel IH]; intros l1 l2 Ls l r Hv Hnd Hd Hf; [lia|].
  cbn [view_search]. rewrite next_view_of_list, Hv, next_view_at by done.
  destruct Hd as [|i o l2 Ls Hi Hd]; cbn [head search_list]; [done|].
  destruct (den_lookup _ _ _ Hi) as (v & -> & ->).
  destruct (mib_tree_search _ _ _ _ _ _ _ _) as [[[node l'] r']|]; [|done]. destruct (_ || _); [done|].
  specialize (IH (l1 ++ [i]) l2 Ls l' r'). rewrite last_snoc, <- app_assoc in IH. apply IH; [done..|cbn in Hf; lia].
Qed.

Lemma view_search_next_list a oid fuel l1 l2 Ls l r :
  views_of a MIB_ACES_READ = l1 ++ l2 -> NoDup (l1 ++ l2) -> den (voids (mib_views st)) l2 Ls -> (length l2 < fuel)%nat ->
  view_search_next lua_pcall e junk root st fuel a oid (last l1) l r = search_next_list Ls oid l r.
Proof.
  revert l1 l2 Ls l r. induction fuel as [|fuel IH]; intros l1 l2 Ls l r Hv Hnd Hd Hf; [lia|].
  cbn [view_search_next]. rewrite next_view_of_list, Hv, next_view_at by done.
  destruct Hd as [|i o l2 Ls Hi Hd]; cbn [head search_next_list]; [done|].
  destruct (den_lookup _ _ _ Hi) as (v & -> & ->).
  destruct (mib_tree_search_next _ _ _ _ _ _ _ _) as [[l' r']|]; [|done]. destruct (negb _); [done|].
  specialize (IH (l1 ++ [i]) l2 Ls l' r'). rewrite last_snoc, <- app_assoc in IH. apply IH; [done..|cbn in Hf; lia].
Qed.

Lemma view_search_oids a attr oid l r : state_ok st -> access_ok st a ->
  view_search lua_pcall e junk root st (view_fuel st) a attr oid None l r = search_list (access_oids st a attr) oid l r.
Proof.
  intros Hst Ha. pose proof (access_views st a attr Hst Ha) as Hl.
  apply (view_search_list a attr oid _ [] (views_of a attr)); [done|by eapply list_ok_NoDup| |by apply access_fuel].
  by apply list_ok_den.
Qed.

Lemma view_search_next_oids a oid l r : state_ok st -> access_ok st a ->
  view_search_next lua_pcall e junk root st (view_fuel st) a oid None l r =
  search_next_list (access_oids st a MIB_ACES_READ) oid l r.
Proof.
  intros Hst Ha. pose proof (access_views st a MIB_ACES_READ Hst Ha) as Hl.
  apply (view_search_next_list a oid _ [] (views_of a MIB_ACES_READ));
    [done|by eapply list_ok_NoDup| |by apply access_fuel]. by apply list_ok_den.
Qed.

(** *** GET and SET *)

(** What the traversal of the views [Ls] does for the identifier [o]: the
    handler is called through the one view that covers [o], with the variable
    as the earlier views left it; what it returns is kept when it is a value or
    when no view follows. *)
Definition views_spec (Ls : list (list Z)) (o : list Z) (req : Z) (l : L) (err : Z) (v : asn1_var)
    : option (L * Z * asn1_var) :=
  match covering Ls o with
  | None => Some (l, if decide (Ls = []) then err else 0, if decide (Ls = []) then v else set_tag ASN1_TAG_NO_SUCH_OBJ v)
  | Some (before, view, after) =>
      let v1 := if decide (before = []) then v else set_tag ASN1_TAG_NO_SUCH_OBJ v in
      let* (_, l', err', v') := get_spec lua_pcall e root view o req l v1 in
      if ((err' =? 0) && ASN1_TAG_VALID (tag v')) || bool_decide (after = []) then Some (l', err', v')
      else Some (l', 0, set_tag ASN1_TAG_NO_SUCH_OBJ v')
  end.

(** An answer to a request for [o]. *)
Definition answer (o : list Z) (req err : Z) (v : asn1_var) (r : oid_search_res) : Prop :=
  length (r_oid r) = 1024%nat /\ take (length o) (r_oid r) = o /\ r_id_len r = Z.of_nat (length o) /\
  r_err_stat r = err /\ r_var r = v /\ r_request r = req.

Lemma set_tag_twice t v : set_tag t (set_tag t v) = set_tag t v.
Proof. done. Qed.

Context (w : Z) (Hroot : root_wf w root).

Lemma search_outside view o l r : oid_ok view -> oid_ok o -> (length o <= 1024)%nat -> r_request r <> SNMP_REQ_GETNEXT ->
  ~ view `prefix_of` o ->
  exists r', mib_tree_search lua_pcall e junk root view o l r = Some (None, l, r') /\
    answer o (r_request r) 0 (set_tag ASN1_TAG_NO_SUCH_OBJ (r_var r)) r'.
Proof.
  intros Hv Ho Hl Hq Hp. pose proof (search_spec lua_pcall e junk root w view o l r Hroot Hv Ho Hl Hq) as H.
  unfold get_spec in H. rewrite decide_False in H by done. destruct H as (r' & E & H).
  exists r'. split; [done|]. unfold get_ok in H. unfold answer. tauto.
Qed.

(** An identifier that the first view does not cover is handled like a new
    request whose variable is already noSuchObject. *)
Lemma views_spec_skip u Ls o req l err v :
  ~ u `prefix_of` o ->
  views_spec (u :: Ls) o req l err v = views_spec Ls o req l 0 (set_tag ASN1_TAG_NO_SUCH_OBJ v).
Proof.
  intros Hu. unfold views_spec. cbn [covering]. rewrite decide_False by done.
  destruct (covering Ls o) as [[[b x] a]|].
  - rewrite (decide_False (P := u :: b = [])) by done. by destruct (decide (b = [])).
  - rewrite !(decide_False (P := u :: Ls = [])) by done. by destruct (decide (Ls = [])).
Qed.

Lemma covering_ahead Ls o v : apart (v :: Ls) -> ~ v `prefix_of` o -> oid_lt o v -> covering (v :: Ls) o = None.
Proof.
  intros Ha Hp Hlt. cbn [covering]. rewrite decide_False by done.
  assert (covering Ls o = None) as ->; [|done].
  apply StronglySorted_inv in Ha as [_ Ha]. induction Ha as [|u Ls [Hu Hup] _ IH]; [done|]. cbn [covering].
  rewrite decide_False, IH; [done|]. intros Hpre. destruct (prefix_lt _ _ Hpre) as [->|Hlt'].
  - by apply (oid_lt_asym _ _ Hlt).
  - apply (oid_lt_asym _ _ Hlt). by transitivity u.
Qed.

Lemma covering_in Ls o before view after : covering Ls o = Some (before, view, after) ->
  Ls = before ++ view :: after /\ view `prefix_of` o /\ Forall (fun v => ~ v `prefix_of` o) before.
Proof.
  revert before. induction Ls as [|v Ls IH]; intros before; cbn [covering]; [done|].
  case_decide as Hp; [intros [= <- <- <-]; split_and!; done|].
  destruct (covering Ls o) as [[[b u] a]|]; [|done]. intros [= <- <- <-].
  destruct (IH b eq_refl) as (-> & Hu & Hb). split_and!; [done|done|by constructor].
Qed.

(** An identifier below [v] is ahead of every view behind [v]. *)
Lemma below_ahead v u o : v `prefix_of` o -> oid_lt v u -> ~ v `prefix_of` u -> oid_lt o u /\ ~ u `prefix_of` o.
Proof.
  intros [k ->] Hlt Hp. assert (oid_lt (v ++ k) u) as H.
  { rewrite <- (app_nil_r u). by apply oid_lt_app_mono. }
  split; [done|]. intros Hu. destruct (prefix_lt _ _ Hu) as [->|Hlt']; by destruct (oid_lt_asym _ _ H).
Qed.

Lemma not_ahead v o : oid_small v -> oid_small o -> v `prefix_of` o -> (oid_cmp o v <? 0) = false.
Proof.
  intros Hv Ho Hp. apply Z.ltb_ge. destruct (Z.lt_ge_cases (oid_cmp o v) 0) as [Hc|?]; [|done].
  apply oid_cmp_neg in Hc; [|done..]. destruct (prefix_lt _ _ Hp) as [->|Hlt]; by destruct (oid_lt_asym _ _ Hc).
Qed.

(** The views behind the one that covers the identifier. *)
Lemma search_list_after Ls o l r :
  Forall oid_small Ls -> oid_small o -> (length o <= 1024)%nat -> r_request r <> SNMP_REQ_GETNEXT ->
  Forall (fun u => oid_lt o u /\ ~ u `prefix_of` o) Ls ->
  exists r', search_list Ls o l r = Some (l, r') /\
    answer o (r_request r) (if decide (Ls = []) then r_err_stat r else 0)
      (if decide (Ls = []) then r_var r else set_tag ASN1_TAG_NO_SUCH_OBJ (r_var r)) r'.
Proof.
  intros Hs Ho Hl Hq Hf. destruct Ls as [|u Ls]; cbn [search_list].
  - rewrite !decide_True by done. destruct (oid_dup_spec junk o Hl) as (cells & -> & Hc1 & Hc2).
    eexists. split; [done|]. by split_and!.
  - rewrite !decide_False by done. apply Forall_cons in Hs as [Hu _]. apply Forall_cons in Hf as [[Hou Hup] _].
    destruct (search_outside u o l r) as (r' & -> & Hans); [by apply oid_small_ok|by apply oid_small_ok|done..|].
    rewrite (proj2 (Z.ltb_lt _ _)) by (by apply oid_cmp_neg). rewrite orb_true_r. by exists r'.
Qed.

Lemma search_list_covered v Ls o l r :
  apart (v :: Ls) -> Forall oid_small (v :: Ls) -> oid_small o -> (length o <= 1024)%nat ->
  r_request r <> SNMP_REQ_GETNEXT -> v `prefix_of` o ->
  match views_spec (v :: Ls) o (r_request r) l (r_err_stat r) (r_var r) with
  | None => search_list (v :: Ls) o l r = None
  | Some (l', err, v') => exists r', search_list (v :: Ls) o l r = Some (l', r') /\ answer o (r_request r) err v' r'
  end.
Proof.
  intros Ha [Hv Hs]%Forall_cons Ho Hl Hq Hp.
  pose proof (search_spec lua_pcall e junk root w v o l r Hroot (oid_small_ok _ Hv) (oid_small_ok _ Ho) Hl Hq) as Hsp.
  unfold views_spec. cbn [covering search_list]. rewrite !decide_True by done.
  destruct (get_spec _ _ _ _ _ _ _ _) as [[[[node l'] err] v']|]; [|by rewrite Hsp].
  destruct Hsp as (r' & -> & Hok). destruct Hok as (G1 & G2 & G3 & G4 & G5 & G6 & _).
  rewrite not_ahead, G4, G5, orb_false_r by done. destruct ((err =? 0) && _); cbn [orb].
  { eexists. split; [done|]. by split_and!. }
  destruct (search_list_after Ls o l' r') as (r'' & -> & Hans); [done..|by rewrite G6| |].
  { apply StronglySorted_inv in Ha as [_ Ha]. eapply Forall_impl; [exact Ha|]. intros u [Hu1 Hu2]. by apply (below_ahead v). }
  rewrite G4, G5, G6 in Hans. destruct Ls as [|u Ls].
  - rewrite bool_decide_true by done. exists r''. by rewrite !decide_True in Hans.
  - rewrite bool_decide_false by done. exists r''. by rewrite !decide_False in Hans.
Qed.

Lemma search_list_spec Ls o l r :
  apart Ls -> Forall oid_small Ls -> oid_small o -> (length o <= 1024)%nat -> r_request r <> SNMP_REQ_GETNEXT ->
  match views_spec Ls o (r_request r) l (r_err_stat r) (r_var r) with
  | None => search_list Ls o l r = None
  | Some (l', err, v') => exists r', search_list Ls o l r = Some (l', r') /\ answer o (r_request r) err v' r'
  end.
Proof.
  intros Ha Hs Ho Hl. revert l r. induction Ls as [|v Ls IH]; intros l r Hq.
  { cbn. destruct (oid_dup_spec junk o Hl) as (cells & -> & Hc1 & Hc2). eexists. split; [done|]. by split_and!. }
  destruct (decide (v `prefix_of` o)) as [Hp|Hp]; [by apply search_list_covered|].
  pose proof Hs as [Hv Hs']%Forall_cons. pose proof (StronglySorted_inv Ha) as [Ha' _]. cbn [search_list].
  destruct (search_outside v o l r) as (r' & -> & Hans); [by apply oid_small_ok|by apply oid_small_ok|done..|].
  destruct (Z.ltb_spec (oid_cmp o v) 0) as [Hc|Hc].
  - apply oid_cmp_neg in Hc; [|done..]. rewrite orb_true_r. unfold views_spec.
    rewrite (covering_ahead Ls o v), !decide_False by done. by exists r'.
  - destruct Hans as (G1 & G2 & G3 & G4 & G5 & G6). rewrite G5. cbn [tag set_tag]. rewrite andb_false_r. cbn [orb].
    rewrite views_spec_skip by done. specialize (IH Ha' Hs' l r'). rewrite G4, G5, G6 in IH. by apply IH.
Qed.
End Views.

(** *** GETNEXT *)
Section Next.
Context {L : Type} (lua_pcall : L -> Z -> Z -> list Z -> lua_arg -> lua_arg -> L * option lua_ret).
Context (table : Z -> list (list Z)) `{!NextHandler lua_pcall table}.
Context (e : endian) (junk : Z) (root : mib_node) (w : Z) (Hroot : root_wf w root).
Context (Hvars : forall x, is_var table root x -> oid_ok x /\ (length x <= 64)%nat).

(** [r] answers with the first variable of the views after [orig]. *)
Definition next_answer (Ls : list (list Z)) (orig : list Z) (r : oid_search_res) : Prop :=
  let x := take (Z.to_nat (r_id_len r)) (r_oid r) in
  length (r_oid r) = 1024%nat /\ r_id_len r = Z.of_nat (length x) /\ r_err_stat r = 0 /\ value_ok (r_var r) /\
  (ASN1_TAG_VALID (tag (r_var r)) = true /\ is_var table root x /\ covered Ls x /\ oid_lt orig x /\
   (forall y, is_var table root y -> covered Ls y -> oid_lt orig y -> x = y \/ oid_lt x y) \/
   tag (r_var r) = ASN1_TAG_END_OF_MIB_VIEW /\ x = orig /\
   forall y, is_var table root y -> covered Ls y -> ~ oid_lt orig y).

(** The variables of a view come before those of the views behind it. *)
Lemma views_ordered v Ls x y :
  Forall (fun u => oid_lt v u /\ ~ v `prefix_of` u) Ls -> v `prefix_of` x -> covered Ls y -> oid_lt x y.
Proof.
  intros Hf [k ->] Hc. apply list.Exists_exists in Hc as (u & Hu & [j ->]). rewrite Forall_forall in Hf.
  destruct (Hf u Hu). by apply oid_lt_app_mono.
Qed.

Lemma search_next_list_spec Ls orig l r :
  apart Ls -> Forall oid_small Ls -> Forall (fun v => ~ is_var table root v /\ (length v <= 1024)%nat) Ls ->
  oid_small orig -> (length orig <= 1024)%nat -> value_ok (r_var r) ->
  (Ls = [] -> tag (r_var r) = ASN1_TAG_END_OF_MIB_VIEW /\ r_err_stat r = 0) ->
  exists l' r', search_next_list lua_pcall e junk root Ls orig l r = Some (l', r') /\ next_answer Ls orig r'.
Proof.
  intros Ha Hs Hn Ho Hl. revert l r. induction Ls as [|v Ls IH]; intros l r Hv Hnil; cbn [search_next_list].
  { destruct (oid_dup_spec junk orig Hl) as (cells & -> & Hc1 & Hc2). destruct (Hnil eq_refl) as [Ht He].
    do 2 eexists. split; [done|]. unfold next_answer. cbn [r_id_len r_oid set_oid r_err_stat r_var].
    rewrite take_len by done. split_and!; try done. right. split_and!; [done|done|]. by intros y _ ?%Exists_nil. }
  apply Forall_cons in Hs as [Hsv Hs]. apply Forall_cons in Hn as [[Hnv Hlv] Hn].
  apply StronglySorted_inv in Ha as [Ha Hva].
  destruct (view_next_spec lua_pcall table e root w Hroot Hvars v orig l (r_var r)) as (l' & res & E & Hres); [done..|].
  pose proof (search_next_spec lua_pcall e junk root w v orig l r Hroot (oid_small_ok _ Hsv) (oid_small_ok _ Ho) Hlv Hl) as Hsp.
  rewrite E in Hsp. destruct Hsp as (r' & -> & Hlen & Hpost). destruct res as [x err v'|v']; cbn [succ_in] in Hres.
  - destruct Hpost as (Hx & Hid & He & Hvar). destruct Hres as (-> & Hvt & Hvv & Hxv & Hxp & Hxlt & Hxleast).
    assert (negb (tag (r_var r') =? ASN1_TAG_END_OF_MIB_VIEW) = true) as ->.
    { rewrite Hvar. unfold ASN1_TAG_VALID in Hvt. apply Z.ltb_lt in Hvt. apply negb_true_iff, Z.eqb_neq.
      unfold ASN1_TAG_NO_SUCH_OBJ, ASN1_TAG_END_OF_MIB_VIEW in *. lia. }
    do 2 eexists. split; [done|]. unfold next_answer. rewrite Hid, take_len, Hvar by done. split_and!; try done.
    left. split_and!; try done; [by left|]. intros y Hy [Hyv|Hyv]%Exists_cons Hlt; [by apply Hxleast|]. right.
    by eapply views_ordered.
  - destruct Hpost as (Hx & Hid & He & Hvar). destruct Hres as [Hvv Hno].
    rewrite Hvar. cbn [tag set_tag negb Z.eqb ASN1_TAG_END_OF_MIB_VIEW Pos.eqb].
    destruct (IH Ha Hs Hn l' r') as (l'' & r'' & -> & Hans); [by rewrite Hvar|by rewrite Hvar|].
    do 2 eexists. split; [done|]. destruct Hans as (N1 & N2 & N3 & N4 & N5). split_and!; [done..|].
    destruct N5 as [(M1 & M2 & M3 & M4 & M5)|(M1 & M2 & M3)]; [left|right]; split_and!; try done; [by right|..].
    + intros y Hy [Hyv|Hyv]%Exists_cons Hlt; [by destruct (Hno y Hy Hyv)|by apply M5].
    + intros y Hy [Hyv|Hyv]%Exists_cons; [by apply Hno|by apply M3].
Qed.
End Next.

(** ** The answers to a request *)

(** [report] on the PDU header, for a list of statuses from position [k]. *)
Fixpoint report_pdu (errs : list Z) (k : Z) (ph : pdu_hdr) : pdu_hdr :=
  match errs with
  | [] => ph
  | err :: errs' =>
      report_pdu errs' (k + 1) (if nz err && (err_stat ph =? 0) then set_err err k ph else ph)
  end.

(** The datagram once the answers are appended. *)
Definition add_answers (vbs : list var_bind) (ans : list (Z * binding)) (k : Z) (s : snmp_datagram) : snmp_datagram :=
  set_out (u32 (vb_list_len s + zlen (bindings_bytes (ans.*2)))) (u32 (vb_out_cnt s + zlen ans)) (vb_out_list s ++ vbs)
    (set_pdu (report_pdu (ans.*1) k (pdu s)) s).

(** What a search depends on. *)
Definition same_access (s s' : snmp_datagram) : Prop :=
  version s = version s' /\ user s = user s' /\ auth_err s = auth_err s' /\ global s = global s' /\ ctx s = ctx s'.

#[global] Instance same_access_equiv : Equivalence same_access.
Proof. unfold same_access. split; [intros ?|intros ? ?|intros ? ? ?]; intuition congruence. Qed.

Section Answers.
Context {L : Type} (lua_pcall : L -> Z -> Z -> list Z -> lua_arg -> lua_arg -> L * option lua_ret).
Context (e : endian) (junk : Z) (root : mib_node) (st : view_state).

Definition searcher : Type := snmp_datagram -> var_bind -> L -> oid_search_res -> option (L * oid_search_res).

(** The answer of the search result [r]: the [count] elements it holds, under type
    [t], if the length announced for them is that of their contents.  The
    contents are those of X.690 but for the counters of 2^31 or more and the
    identifiers with a first octet over seven bits ([val_written_octets]). *)
Definition answer_of (r : oid_search_res) (count t : Z) : option binding :=
  let* v := val_at e (value (r_var r)) count (tag (r_var r)) in
  let bs := val_written v in
  let* n := ber_value_enc_try e (value (r_var r)) (len (r_var r)) (tag (r_var r)) in
  let* ids := slice 0 (Z.to_nat (r_id_len r)) (r_oid r) in
  let b := mk_binding ids t bs in
  if decide (val_ok v /\ n = zlen bs /\ words ids /\ (length ids < 256)%nat /\ zlen (oid_bytes ids) < 256 /\ is_u8 t /\
             zlen (binding_tlv b) < 2 ^ 32)
  then Some b else None.

Definition get_ans (search : searcher) (s : snmp_datagram) (l : L) (r : oid_search_res) (vb : var_bind)
    : option (L * oid_search_res * Z * binding) :=
  let* r0 := vb_in_decode e vb r in
  let* (l1, r1) := search s vb l r0 in
  let* b := answer_of r1 (len (r_var r1)) (tag (r_var r1)) in
  Some (l1, r1, r_err_stat r1, b).

Definition set_ans (s : snmp_datagram) (l : L) (r : oid_search_res) (vb : var_bind)
    : option (L * oid_search_res * Z * binding) :=
  let* r0 := vb_in_decode e vb r in
  let* (l1, r1) := mib_set lua_pcall e junk root st s vb l r0 in
  let* n := ber_value_enc_try e (value (r_var r1)) (len (r_var r1)) (tag (r_var r1)) in
  let* b := answer_of r1 n (value_type vb) in
  let r2 := if (r_err_stat r1 =? 0) && negb (ASN1_TAG_VALID (tag (r_var r1)))
            then set_err_stat SNMP_ERR_STAT_NOT_WRITABLE r1 else r1 in
  Some (l1, r2, r_err_stat r2, b).

Definition answerer : Type := snmp_datagram -> L -> oid_search_res -> var_bind -> option (L * oid_search_res * Z * binding).

(** The answers to the bindings of a request, in order. *)
Fixpoint collect (ans : answerer) (s : snmp_datagram) (vbs : list var_bind) (l : L) (r : oid_search_res)
    : option (L * oid_search_res * list (Z * binding)) :=
  match vbs with
  | [] => Some (l, r, [])
  | vb :: vbs' =>
      let* (l1, r1, err, b) := ans s l r vb in
      let* (l2, r2, rest) := collect ans s vbs' l1 r1 in
      Some (l2, r2, (err, b) :: rest)
  end.

Lemma vb_out_encode_value r count t ids bs :
  ber_value_enc e (value (r_var r)) count (tag (r_var r)) = Some bs ->
  slice 0 (Z.to_nat (r_id_len r)) (r_oid r) = Some ids -> words ids -> (length ids < 256)%nat -> zlen (oid_bytes ids) < 256 ->
  is_u8 t -> zlen (binding_tlv (mk_binding ids t bs)) < 2 ^ 32 ->
  exists vb, vb_out_encode e junk r (zlen bs) count t = Some vb /\ vb_rep vb (mk_binding ids t bs).
Proof.
  unfold vb_out_encode. intros -> Hi Hw Hl Hb Ht Hz. rewrite Hi, Zto_nat_zlen.
  rewrite (blit_all bs) by (by rewrite length_replicate).
  pose proof (ber_oid_enc_bytes ids Hw) as Eo. remember (oid_bytes ids) as obs eqn:Eb. symmetry in Eb.
  rewrite (ber_oid_enc_try_mod ids obs) by done. change (Z.of_nat (length ?x)) with (zlen x).
  rewrite u8_id by (split; [apply zlen_nonneg|lia]). eexists. split; [done|].
  unfold vb_rep, vb_ids. cbn [oid_len vb_oid b_oid b_type b_value value_type value_len vb_value vb_len].
  rewrite Eb. split_and!; try done; [apply slice_self|].
  unfold binding_tlv, binding_body in *. cbn [b_oid b_type b_value] in *. rewrite ?Eb in *. zlens.
  rewrite (tlv_len_spec e ASN1_TAG_OBJID), (tlv_len_spec e t) by lia. apply u32_id. unfold is_u32. lia.
Qed.

Lemma vb_out_encode_spec r n count t b :
  answer_of r count t = Some b ->
  ber_value_enc_try e (value (r_var r)) (len (r_var r)) (tag (r_var r)) = Some n ->
  exists vb, vb_out_encode e junk r n count t = Some vb /\ vb_rep vb b.
Proof.
  unfold answer_of. intros H En. rewrite En in H.
  destruct (val_at _ _ _ _) as [v|] eqn:Ev; [|done]. destruct (slice 0 _ (r_oid r)) as [ids|] eqn:Ei; [|done].
  case_decide as Hd; [|done]. destruct Hd as (Hv & -> & Hw & Hl & Hb & Ht & Hz). injection H as <-.
  by apply vb_out_encode_value; try apply val_at_written.
Qed.

(** A step appends the answer and reports its status. *)
Definition step_answers (step : pstate -> var_bind -> option pstate) (ans : answerer) : Prop :=
  forall l r cnt s vb l' r' err b, ans s l r vb = Some (l', r', err, b) ->
  exists vb_out, vb_rep vb_out b /\ zlen (binding_tlv b) < 2 ^ 32 /\
    step (mk_pstate l r cnt s) vb =
    Some (mk_pstate l' r' (u32 (cnt + 1)) (vb_out_add e vb_out (report err (u32 (cnt + 1)) s))).

Lemma answer_of_bound r count t b : answer_of r count t = Some b -> zlen (binding_tlv b) < 2 ^ 32.
Proof.
  unfold answer_of. destruct (val_at _ _ _ _); [|done]. destruct (ber_value_enc_try _ _ _ _); [|done].
  destruct (slice _ _ _); [|done].
  case_decide as H; [|done]. intros [= <-]. apply H.
Qed.

Lemma answer_of_try r count t b : answer_of r count t = Some b ->
  exists n, ber_value_enc_try e (value (r_var r)) (len (r_var r)) (tag (r_var r)) = Some n.
Proof.
  unfold answer_of. destruct (val_at _ _ _ _); [|done]. destruct (ber_value_enc_try _ _ _ _); [eauto|done].
Qed.

Lemma get_step_answers search : step_answers (get_step e junk search) (get_ans search).
Proof.
  intros l r cnt s vb l' r' err b H. unfold get_ans in H. unfold get_step. cbn [ps_cnt ps_ret ps_sdg ps_lua].
  destruct (vb_in_decode e vb r) as [r0|]; [|done]. destruct (search s vb l r0) as [[l1 r1]|]; [|done].
  destruct (answer_of r1 _ _) as [b'|] eqn:Eb; [|done]. simplify_eq.
  destruct (answer_of_try _ _ _ _ Eb) as [n En]. rewrite En.
  destruct (vb_out_encode_spec _ n _ _ _ Eb En) as (vb_out & -> & Hrep). exists vb_out.
  split_and!; [done|by eapply answer_of_bound|done].
Qed.

Lemma set_step_answers : step_answers (set_step lua_pcall e junk root st) set_ans.
Proof.
  intros l r cnt s vb l' r' err b H. unfold set_ans in H. unfold set_step. cbn [ps_cnt ps_ret ps_sdg ps_lua].
  destruct (vb_in_decode e vb r) as [r0|]; [|done]. destruct (mib_set _ _ _ _ _ _ _ _ _) as [[l1 r1]|]; [|done].
  destruct (ber_value_enc_try _ _ _ _) as [n|] eqn:En; [|done].
  destruct (answer_of r1 _ _) as [b'|] eqn:Eb; [|done]. simplify_eq.
  destruct (vb_out_encode_spec _ n _ _ _ Eb En) as (vb_out & -> & Hrep). exists vb_out.
  split_and!; [done|by eapply answer_of_bound|done].
Qed.

(** The searches see only the part of the datagram the answers do not change. *)
Definition access_only (ans : answerer) : Prop :=
  forall s s', same_access s s' -> forall l r vb, ans s l r vb = ans s' l r vb.

Lemma access_same s s' r : same_access s s' ->
  access_of st s = access_of st s' /\ forall a, access_status s a r = access_status s' a r.
Proof.
  intros (Ev & Eu & Ea & Eg & Ec). unfold access_of, community_of, access_status. rewrite Ev, Eu, Ea, Eg, Ec. done.
Qed.

Lemma mib_get_access : access_only (get_ans (mib_get lua_pcall e junk root st)).
Proof.
  intros s s' H l r vb. unfold get_ans, mib_get. destruct (vb_in_decode e vb r) as [r0|]; [|done].
  destruct (access_same s s' r0 H) as [-> Ha]. destruct (vb_ids vb); [|done]. by rewrite Ha.
Qed.

Lemma mib_getnext_access : access_only (get_ans (mib_getnext lua_pcall e junk root st)).
Proof.
  intros s s' H l r vb. unfold get_ans, mib_getnext. destruct (vb_in_decode e vb r) as [r0|]; [|done].
  destruct (access_same s s' r0 H) as [-> Ha]. destruct (vb_ids vb); [|done]. by rewrite Ha.
Qed.

Lemma mib_set_access : access_only set_ans.
Proof.
  intros s s' H l r vb. unfold set_ans, mib_set. destruct (vb_in_decode e vb r) as [r0|]; [|done].
  destruct (access_same s s' r0 H) as [-> Ha]. destruct (vb_ids vb); [|done].
  destruct (write_access st _ _) as [a|]; [|done]. by rewrite Ha.
Qed.

Lemma report_same err k s : same_access (report err k s) s /\ vb_list_len (report err k s) = vb_list_len s /\
  vb_out_cnt (report err k s) = vb_out_cnt s /\ vb_out_list (report err k s) = vb_out_list s.
Proof. unfold report. by destruct (_ && _). Qed.

(** Appending one answer, then the others. *)
Lemma add_answers_cons vb vbs err b ans k s :
  vb_rep vb b -> zlen (binding_tlv b) < 2 ^ 32 -> 0 <= k < 2 ^ 31 ->
  add_answers vbs ans (k + 1) (vb_out_add e vb (report err k s)) = add_answers (vb :: vbs) ((err, b) :: ans) k s.
Proof.
  intros (_ & _ & _ & _ & _ & _ & _ & _ & Hvl) Hz Hk. unfold add_answers, vb_out_add.
  destruct (report_same err k s) as (_ & E1 & E2 & E3). cbn [vb_list_len vb_out_cnt vb_out_list set_out fmap list_fmap fst snd].
  rewrite E1, E2, E3, Hvl, (tlv_len_spec e ASN1_TAG_SEQ) by done. fold (binding_tlv b).
  unfold bindings_bytes. cbn [map concat]. rewrite zlen_app, zlen_cons, !u32_add_l, <- !Z.add_assoc, <- app_assoc.
  cbn [app report_pdu pdu set_out]. unfold report, set_out, set_pdu.
  rewrite i32_id by (unfold is_i32; lia). destruct (nz err && _); destruct s; reflexivity.
Qed.

Lemma collect_access ans s s' vbs : access_only ans -> same_access s s' ->
  forall l r, collect ans s vbs l r = collect ans s' vbs l r.
Proof.
  intros Ha Hs. induction vbs as [|vb vbs IH]; intros l r; [done|]. cbn [collect]. rewrite (Ha s s' Hs).
  destruct (ans s' l r vb) as [[[[l1 r1] err] b]|]; [|done]. by rewrite IH.
Qed.

Lemma collect_length ans s vbs : forall l r l' r' bs, collect ans s vbs l r = Some (l', r', bs) -> length bs = length vbs.
Proof.
  induction vbs as [|vb vbs IH]; intros l r l' r' bs; cbn [collect]; [by intros [= <- <- <-]|].
  destruct (ans s l r vb) as [[[[l1 r1] err] b]|]; [|done].
  destruct (collect ans s vbs l1 r1) as [[[l2 r2] rest]|] eqn:E; [|done]. intros [= <- <- <-].
  cbn. f_equal. by eapply IH.
Qed.

Definition counters_u32 (s : snmp_datagram) : Prop := is_u32 (vb_list_len s) /\ is_u32 (vb_out_cnt s).

Lemma add_answers_nil k s : counters_u32 s -> add_answers [] [] k s = s.
Proof.
  intros [H1 H2]. unfold add_answers, set_out, set_pdu. cbn [fmap list_fmap report_pdu].
  change (zlen (bindings_bytes [])) with 0. change (zlen []) with 0.
  rewrite !Z.add_0_r, !u32_id, app_nil_r by done. by destruct s.
Qed.

Lemma add_same vb err k s :
  same_access (vb_out_add e vb (report err k s)) s /\ counters_u32 (vb_out_add e vb (report err k s)).
Proof.
  split; [transitivity (report err k s); [done|apply report_same]|]. split; apply u32_range.
Qed.

Lemma for_each_answers step ans vbs :
  step_answers step ans -> access_only ans ->
  forall s l r cnt l' r' bs, counters_u32 s ->
  collect ans s vbs l r = Some (l', r', bs) -> 0 <= cnt -> cnt + zlen vbs < 2 ^ 31 ->
  exists outs, Forall2 vb_rep outs (bs.*2) /\ length bs = length vbs /\
    for_each step vbs (mk_pstate l r cnt s) = Some (mk_pstate l' r' (cnt + zlen vbs) (add_answers outs bs (cnt + 1) s)).
Proof.
  intros Hstep Hacc. induction vbs as [|vb vbs IH]; intros s l r cnt l' r' bs Hu; cbn [collect for_each].
  - intros [= <- <- <-] Hc _. exists []. split_and!; [constructor|done|].
    change (zlen (@nil var_bind)) with 0. by rewrite Z.add_0_r, add_answers_nil.
  - destruct (ans s l r vb) as [[[[l1 r1] err] b]|] eqn:Ea; [|done].
    destruct (collect ans s vbs l1 r1) as [[[l2 r2] rest]|] eqn:Ec; [|done]. intros [= <- <- <-] Hc Hl.
    rewrite zlen_cons in *. pose proof (zlen_nonneg vbs).
    destruct (Hstep l r cnt s vb l1 r1 err b Ea) as (out & Hrep & Hz & ->).
    rewrite u32_id by (unfold is_u32; lia). destruct (add_same out err (cnt + 1) s) as [Hs Hu'].
    rewrite <- (collect_access ans _ s vbs Hacc Hs) in Ec.
    destruct (IH _ _ _ (cnt + 1) _ _ _ Hu' Ec) as (outs & Ho & Hlen & ->); [lia|lia|].
    exists (out :: outs). split_and!; [by constructor|cbn; lia|].
    rewrite (add_answers_cons out outs err b) by (done || lia). do 2 f_equal. lia.
Qed.

(** *** GETBULK *)

(** One pass: the answers and the bindings of the next pass. *)
Fixpoint bulk_round (ans : answerer) (s : snmp_datagram) (vbs : list var_bind) (l : L) (r : oid_search_res)
    : option (L * oid_search_res * list (Z * binding) * list var_bind) :=
  match vbs with
  | [] => Some (l, r, [], [])
  | vb :: vbs' =>
      let* (l1, r1, err, b) := ans s l r vb in
      let* vb' := vb_advance junk r1 vb in
      let* (l2, r2, bs, next) := bulk_round ans s vbs' l1 r1 in
      Some (l2, r2, (err, b) :: bs, vb' :: next)
  end.

Fixpoint bulk_collect (ans : answerer) (n : nat) (s : snmp_datagram) (vbs : list var_bind) (l : L) (r : oid_search_res)
    : option (L * oid_search_res * list (Z * binding) * list var_bind) :=
  match n with
  | O => Some (l, r, [], vbs)
  | S n' =>
      let* (l1, r1, bs, vbs1) := bulk_round ans s vbs l r in
      let* (l2, r2, rest, vbs2) := bulk_collect ans n' s vbs1 l1 r1 in
      Some (l2, r2, bs ++ rest, vbs2)
  end.

Lemma report_pdu_app errs1 errs2 k ph :
  report_pdu (errs1 ++ errs2) k ph = report_pdu errs2 (k + zlen errs1) (report_pdu errs1 k ph).
Proof.
  revert k ph. induction errs1 as [|err errs1 IH]; intros k ph; [change (zlen []) with 0; by rewrite Z.add_0_r|].
  cbn [app report_pdu]. rewrite IH, zlen_cons. f_equal. lia.
Qed.

Lemma add_answers_app outs1 outs2 bs1 bs2 k s :
  add_answers outs2 bs2 (k + zlen bs1) (add_answers outs1 bs1 k s) = add_answers (outs1 ++ outs2) (bs1 ++ bs2) k s.
Proof.
  unfold add_answers, set_out, set_pdu. cbn [vb_list_len vb_out_cnt vb_out_list pdu recv_len send_len data_len version
    ver_len global secur user auth_err ctx vb_in_cnt vb_in_list].
  rewrite !u32_add_l, !fmap_app. unfold bindings_bytes. rewrite map_app, concat_app, !zlen_app, report_pdu_app, <- !Z.add_assoc, <- app_assoc.
  unfold zlen. by rewrite length_fmap.
Qed.

Lemma add_answers_same outs bs k s : same_access (add_answers outs bs k s) s /\ counters_u32 (add_answers outs bs k s).
Proof. split; [done|]. split; apply u32_range. Qed.

Lemma bulk_round_length ans s vbs : forall l r l' r' bs next, bulk_round ans s vbs l r = Some (l', r', bs, next) ->
  length bs = length vbs /\ length next = length vbs.
Proof.
  induction vbs as [|vb vbs IH]; intros l r l' r' bs next; cbn [bulk_round]; [by intros [= <- <- <- <-]|].
  destruct (ans s l r vb) as [[[[l1 r1] err] b]|]; [|done]. destruct (vb_advance junk r1 vb) as [vb'|]; [|done].
  destruct (bulk_round ans s vbs l1 r1) as [[[[l2 r2] rest] next']|] eqn:E; [|done]. intros [= <- <- <- <-].
  destruct (IH _ _ _ _ _ _ E). cbn. lia.
Qed.

Lemma bulk_collect_length ans n s : forall vbs l r l' r' bs next, bulk_collect ans n s vbs l r = Some (l', r', bs, next) ->
  length bs = (n * length vbs)%nat.
Proof.
  induction n as [|n IH]; intros vbs l r l' r' bs next; cbn [bulk_collect]; [by intros [= <- <- <- <-]|].
  destruct (bulk_round ans s vbs l r) as [[[[l1 r1] bs1] vbs1]|] eqn:E1; [|done].
  destruct (bulk_collect ans n s vbs1 l1 r1) as [[[[l2 r2] rest] next2]|] eqn:E2; [|done]. intros [= <- <- <- <-].
  destruct (bulk_round_length _ _ _ _ _ _ _ _ _ E1). rewrite length_app, (IH _ _ _ _ _ _ _ E2). lia.
Qed.

Lemma bulk_round_access ans s s' vbs : access_only ans -> same_access s s' ->
  forall l r, bulk_round ans s vbs l r = bulk_round ans s' vbs l r.
Proof.
  intros Ha Hs. induction vbs as [|vb vbs IH]; intros l r; [done|]. cbn [bulk_round]. rewrite (Ha s s' Hs).
  destruct (ans s' l r vb) as [[[[l1 r1] err] b]|]; [|done]. destruct (vb_advance junk r1 vb); [|done]. by rewrite IH.
Qed.

Lemma bulk_collect_access ans n s s' : access_only ans -> same_access s s' ->
  forall vbs l r, bulk_collect ans n s vbs l r = bulk_collect ans n s' vbs l r.
Proof.
  intros Ha Hs. induction n as [|n IH]; intros vbs l r; [done|]. cbn [bulk_collect].
  rewrite (bulk_round_access ans s s' vbs Ha Hs).
  destruct (bulk_round ans s' vbs l r) as [[[[l1 r1] bs] vbs1]|]; [|done]. by rewrite IH.
Qed.

Local Abbreviation next_ans := (get_ans (mib_getnext lua_pcall e junk root st)).

Lemma bulk_pass_answers vbs : forall s l r cnt l' r' bs next, counters_u32 s ->
  bulk_round next_ans s vbs l r = Some (l', r', bs, next) -> 0 <= cnt -> cnt + zlen vbs < 2 ^ 31 ->
  exists outs, Forall2 vb_rep outs (bs.*2) /\ length bs = length vbs /\ length next = length vbs /\
    bulk_pass lua_pcall e junk root st vbs (mk_pstate l r cnt s) =
    Some (next, mk_pstate l' r' (cnt + zlen vbs) (add_answers outs bs (cnt + 1) s)).
Proof.
  induction vbs as [|vb vbs IH]; intros s l r cnt l' r' bs next Hu; cbn [bulk_round bulk_pass].
  - intros [= <- <- <- <-] Hc _. exists []. split_and!; [constructor|done|done|].
    change (zlen (@nil var_bind)) with 0. by rewrite Z.add_0_r, add_answers_nil.
  - destruct (next_ans s l r vb) as [[[[l1 r1] err] b]|] eqn:Ea; [|done].
    destruct (vb_advance junk r1 vb) as [vb'|] eqn:Ev; [|done].
    destruct (bulk_round next_ans s vbs l1 r1) as [[[[l2 r2] rest] next']|] eqn:Ec; [|done]. intros [= <- <- <- <-] Hc Hl.
    rewrite zlen_cons in *. pose proof (zlen_nonneg vbs).
    destruct (get_step_answers _ l r cnt s vb l1 r1 err b Ea) as (out & Hrep & Hz & ->). cbn [ps_ret]. rewrite Ev.
    rewrite u32_id by (unfold is_u32; lia). destruct (add_same out err (cnt + 1) s) as [Hs Hu'].
    rewrite <- (bulk_round_access next_ans _ s vbs mib_getnext_access Hs) in Ec.
    destruct (IH _ _ _ (cnt + 1) _ _ _ _ Hu' Ec) as (outs & Ho & Hlen & Hn & ->); [lia|lia|].
    exists (out :: outs). split_and!; [by constructor|cbn; lia|cbn; lia|].
    rewrite (add_answers_cons out outs err b) by (done || lia). do 3 f_equal. lia.
Qed.

Lemma bulk_loop_answers n : forall vbs s l r cnt l' r' bs next, counters_u32 s ->
  bulk_collect next_ans n s vbs l r = Some (l', r', bs, next) -> 0 <= cnt -> cnt + Z.of_nat n * zlen vbs < 2 ^ 31 ->
  exists outs, Forall2 vb_rep outs (bs.*2) /\ length bs = (n * length vbs)%nat /\
    bulk_loop lua_pcall e junk root st n vbs (mk_pstate l r cnt s) =
    Some (next, mk_pstate l' r' (cnt + zlen bs) (add_answers outs bs (cnt + 1) s)).
Proof.
  induction n as [|n IH]; intros vbs s l r cnt l' r' bs next Hu; cbn [bulk_collect bulk_loop].
  - intros [= <- <- <- <-] Hc _. exists []. split_and!; [constructor|done|].
    change (zlen []) with 0. by rewrite Z.add_0_r, add_answers_nil.
  - destruct (bulk_round next_ans s vbs l r) as [[[[l1 r1] bs1] vbs1]|] eqn:E1; [|done].
    destruct (bulk_collect next_ans n s vbs1 l1 r1) as [[[[l2 r2] rest] next2]|] eqn:E2; [|done].
    intros [= <- <- <- <-] Hc Hl. pose proof (zlen_nonneg vbs) as Hz.
    destruct (bulk_pass_answers vbs s l r cnt l1 r1 bs1 vbs1 Hu E1) as (outs1 & Ho1 & Hl1 & Hn1 & ->); [lia|nia|].
    assert (zlen bs1 = zlen vbs) as Ez1 by (unfold zlen; lia). assert (zlen vbs1 = zlen vbs) as Ez2 by (unfold zlen; lia).
    destruct (add_answers_same outs1 bs1 (cnt + 1) s) as [Hs Hu'].
    rewrite <- (bulk_collect_access next_ans n _ s mib_getnext_access Hs) in E2.
    destruct (IH _ _ _ _ (cnt + zlen vbs) _ _ _ _ Hu' E2) as (outs2 & Ho2 & Hl2 & ->); [lia|rewrite Ez2; nia|].
    exists (outs1 ++ outs2). split_and!; [rewrite fmap_app; by apply Forall2_app|rewrite length_app; lia|].
    rewrite <- add_answers_app, zlen_app, Ez1. do 3 f_equal; [lia|]. f_equal. lia.
Qed.
End Answers.

(** ** Responses *)

(** A decoded request of version 1 or 2c, before it is processed. *)
Definition unanswered (s : snmp_datagram) (name : list Z) : Prop :=
  int_rep (ver_len s) (version s) /\
  str_rep (context_name (ctx s)) (context_name_len (ctx s)) name /\
  is_u8 (pdu_type (pdu s)) /\ int_rep (req_id_len (pdu s)) (req_id (pdu s)) /\
  vb_list_len s = 0 /\ vb_out_cnt s = 0 /\ vb_out_list s = [].

(** The same in a version without security. *)
Definition fresh (s : snmp_datagram) (name : list Z) : Prop := version s < 3 /\ unanswered s name.

Lemma report_pdu_first errs k ph : err_stat ph = 0 ->
  report_pdu errs k ph =
  set_err (first_error errs k).1 (if nz (first_error errs k).1 then (first_error errs k).2 else err_idx ph) ph.
Proof.
  revert k. induction errs as [|err errs IH]; intros k H; cbn [report_pdu first_error].
  - destruct ph. cbn in *. by subst.
  - rewrite H. destruct (nz err) eqn:En; cbn [andb]; [|by apply IH]. change (0 =? 0) with true. cbn [fst snd].
    rewrite En. set (ph' := set_err err k ph). assert (nz (err_stat ph') = true) as Hn by done. clearbody ph'.
    clear IH. revert k. induction errs as [|err' errs IH']; intros k; [done|]. cbn [report_pdu].
    unfold nz in Hn. destruct (err_stat ph' =? 0); [done|]. rewrite andb_false_r. apply IH'.
Qed.

Lemma report_pdu_kept errs k ph : err_stat ph <> 0 -> report_pdu errs k ph = ph.
Proof.
  intros H. revert k. induction errs as [|err errs IH]; intros k; [done|]. cbn [report_pdu].
  rewrite (proj2 (Z.eqb_neq _ _)), andb_false_r by done. apply IH.
Qed.

Lemma first_error_bound errs k : Forall (fun x => -128 <= x < 128) errs -> 0 <= k -> k + zlen errs <= 128 ->
  -128 <= (first_error errs k).1 < 128 /\ 0 <= (first_error errs k).2 < 128.
Proof.
  intros Hf. revert k. induction Hf as [|err errs He _ IH]; intros k Hk Hl; cbn [first_error]; [cbn; lia|].
  rewrite zlen_cons in Hl. pose proof (zlen_nonneg errs). destruct (nz err); [cbn; lia|]. apply IH; lia.
Qed.

Lemma int_rep_byte x : -128 <= x < 128 -> int_rep 1 x.
Proof.
  intros H. split; [unfold is_i32; lia|]. unfold zlen, int_bytes, int_octets. rewrite length_be_bytes. by repeat zdec.
Qed.

Lemma add_answers_rep s name outs bs k stat idx :
  unanswered s name -> Forall2 vb_rep outs (bs.*2) ->
  report_pdu (bs.*1) k (pdu s) = set_err stat idx (pdu s) ->
  int_rep (err_stat_len (pdu s)) stat -> int_rep (err_idx_len (pdu s)) idx -> zlen (bindings_bytes (bs.*2)) < 2 ^ 32 ->
  sdg_rep (add_answers outs bs k s) name (mk_pdu_msg (pdu_type (pdu s)) (req_id (pdu s)) stat idx (bs.*2)).
Proof.
  intros (Hvr & Hn & Ht & Hr & Hl & Hc & Ho) Hf Hrep Hs Hi Hz. unfold sdg_rep, add_answers.
  rewrite Hrep, Hl, Ho. split_and!; try done. cbn [vb_list_len set_out p_bindings]. apply u32_id.
  by apply zlen_u32.
Qed.

(** The same with another number in the place of the index. *)
Lemma add_answers_index_rep s name outs bs k stat idx i :
  unanswered s name -> Forall2 vb_rep outs (bs.*2) ->
  report_pdu (bs.*1) k (pdu s) = set_err stat idx (pdu s) ->
  int_rep (err_stat_len (pdu s)) stat -> int_rep (err_idx_len (pdu s)) i -> zlen (bindings_bytes (bs.*2)) < 2 ^ 32 ->
  sdg_rep (set_index i (add_answers outs bs k s)) name
    (with_index i (mk_pdu_msg (pdu_type (pdu s)) (req_id (pdu s)) stat idx (bs.*2))).
Proof.
  intros (Hvr & Hn & Ht & Hr & Hl & Hc & Ho) Hf Hrep Hs Hi Hz. unfold sdg_rep, set_index, add_answers.
  cbn [pdu set_out set_pdu]. rewrite Hrep, Hl, Ho. split_and!; try done. cbn [vb_list_len set_out set_pdu p_bindings with_index].
  apply u32_id. by apply zlen_u32.
Qed.

(** The conditions on the answers: the error fields of the response keep the
    one-byte lengths of the request. *)
Definition answers_ok (s : snmp_datagram) (bs : list (Z * binding)) : Prop :=
  err_stat (pdu s) = 0 /\ err_idx (pdu s) = 0 /\ err_stat_len (pdu s) = 1 /\ err_idx_len (pdu s) = 1 /\
  Forall (fun x => -128 <= x < 128) (bs.*1) /\ zlen bs < 128.

(** The PDU of the response: the first error, and the answers. *)
Definition answer_pdu (s : snmp_datagram) (bs : list (Z * binding)) : pdu_msg :=
  let '(stat, idx) := first_error (bs.*1) 1 in
  mk_pdu_msg (pdu_type (pdu s)) (req_id (pdu s)) stat idx (bs.*2).

Lemma answered_rep s name outs bs :
  unanswered s name -> answers_ok s bs -> Forall2 vb_rep outs (bs.*2) -> zlen (bindings_bytes (bs.*2)) < 2 ^ 32 ->
  sdg_rep (add_answers outs bs 1 s) name (answer_pdu s bs).
Proof.
  intros Hf (E1 & E2 & E3 & E4 & He & Hl) Ho Hz. unfold answer_pdu.
  pose proof (report_pdu_first (bs.*1) 1 (pdu s) E1) as Hr. rewrite E2 in Hr.
  assert (zlen (bs.*1) = zlen bs) as Ez by (unfold zlen; by rewrite length_fmap).
  pose proof (first_error_bound (bs.*1) 1 He ltac:(lia) ltac:(lia)) as [Hb1 Hb2].
  assert ((if nz (first_error (bs.*1) 1).1 then (first_error (bs.*1) 1).2 else 0) = (first_error (bs.*1) 1).2) as Ei.
  { clear. generalize 1. induction (bs.*1) as [|x xs IH]; intros k; [done|]. cbn [first_error].
    destruct (nz x) eqn:En; [cbn; by rewrite En|apply IH]. }
  rewrite Ei in Hr. destruct (first_error (bs.*1) 1) as [stat idx]. cbn [fst snd] in *.
  apply add_answers_rep; [done|done|done|rewrite E3; apply int_rep_byte; lia|rewrite E4; apply int_rep_byte; lia|done].
Qed.

Section Responses.
Context {L : Type} (lua_pcall : L -> Z -> Z -> list Z -> lua_arg -> lua_arg -> L * option lua_ret).
Context (e : endian) (junk : Z) (root : mib_node) (st : view_state).
Context (md5 sha1 : list Z -> Z -> list Z -> Z * list Z) (aes : list Z -> list Z -> list Z -> list Z) (r1 r2 : Z).

Local Abbreviation respond := (snmp_response e junk md5 sha1 aes r1 r2).

(** The message that answers the request [s] with [bs]. *)
Definition reply (s : snmp_datagram) (name : list Z) (bs : list (Z * binding)) : list Z :=
  message_tlv (version s) name (answer_pdu s bs).

Definition reply_ok (s : snmp_datagram) (name : list Z) (bs : list (Z * binding)) : Prop :=
  answers_ok s bs /\ zlen (reply s name bs) < 2 ^ 32.

Lemma reply_spec s name outs bs :
  fresh s name -> reply_ok s name bs -> Forall2 vb_rep outs (bs.*2) ->
  exists s', respond (add_answers outs bs 1 s) = Some (s', reply s name bs).
Proof.
  intros [Hv Hf] [Ha Hz] Ho. unfold reply in *. change (version s) with (version (add_answers outs bs 1 s)).
  apply response_message; [|exact Hv|done]. apply answered_rep; [done..|].
  unfold answer_pdu in Hz. destruct (first_error _ _) as [stat idx].
  unfold message_tlv, msg_body, pdu_tlv, pdu_body in Hz. cbn [p_bindings] in Hz. zlens. lia.
Qed.

Lemma fresh_counters s name : fresh s name -> counters_u32 s.
Proof. intros (_ & _ & _ & _ & _ & Hl & Hc & _). unfold counters_u32. rewrite Hl, Hc. unfold is_u32. lia. Qed.
End Responses.

(** ** Access to the MIB *)
Section Mib.
Context {L : Type} (lua_pcall : L -> Z -> Z -> list Z -> lua_arg -> lua_arg -> L * option lua_ret).
Context (e : endian) (junk : Z) (root : mib_node) (st : view_state) (w : Z).
Context (Hroot : root_wf w root) (Hst : state_ok st).

Lemma access_oids_ok a attr : access_ok st a ->
  den (voids (mib_views st)) (views_of a attr) (access_oids st a attr) /\
  apart (access_oids st a attr) /\ Forall oid_small (access_oids st a attr).
Proof.
  intros Ha. destruct (list_ok_den _ _ (access_views st a attr Hst Ha)) as [Hd Hap]. split_and!; [done|done|].
  destruct Hst as [[Hsm _] _ _ _ _]. apply Forall_forall. intros o Ho. unfold access_oids, oids_of in Ho.
  apply list_elem_of_omap in Ho as (i & _ & Hi). rewrite Forall_forall in Hsm. by eapply Hsm, list_elem_of_lookup_2.
Qed.

Lemma search_views a attr o l r :
  access_ok st a -> oid_small o -> (length o <= 1024)%nat -> r_request r <> SNMP_REQ_GETNEXT ->
  match views_spec lua_pcall e root (access_oids st a attr) o (r_request r) l (r_err_stat r) (r_var r) with
  | None => view_search lua_pcall e junk root st (view_fuel st) a attr o None l r = None
  | Some (l', err, v') => exists r',
      view_search lua_pcall e junk root st (view_fuel st) a attr o None l r = Some (l', r') /\
      answer o (r_request r) err v' r'
  end.
Proof.
  intros Ha Ho Hl Hq. rewrite view_search_oids by done. destruct (access_oids_ok a attr Ha) as (_ & Hap & Hsm).
  by apply (search_list_spec lua_pcall e junk root w).
Qed.

(** The access a SET request is left with. *)
Lemma write_access_spec a o : access_ok st a -> oid_ok o ->
  exists a', write_access st a o = Some a' /\
    (covered (access_oids st a MIB_ACES_WRITE) o /\ a' = a \/
     ~ covered (access_oids st a MIB_ACES_WRITE) o /\ views_of a' MIB_ACES_WRITE = [] /\
     forall s r, access_status s a' r = set_err_stat SNMP_ERR_STAT_NO_ACCESS r).
Proof.
  intros Ha Ho. destruct (access_oids_ok a MIB_ACES_WRITE Ha) as (Hd & _ & _).
  assert (Forall oid_ok (voids (mib_views st))) as Hok by (apply Forall_small_ok, Hst).
  destruct a as [[u|]|[c|]]; cbn [write_access].
  - destruct (view_cover_den o (views_of (ByUser (Some u)) MIB_ACES_WRITE) _ (mib_views st) Ho Hok Hd) as (x & E & Hx).
    unfold mib_user_view_cover, owner_view_cover. cbn [views_of] in E. rewrite E.
    eexists. split; [done|]. destruct Hx as [[-> Hx]|[-> Hx]]; [by left|by right].
  - eexists. split; [done|]. right. split; [by intros ?%Exists_nil|done].
  - destruct (view_cover_den o (views_of (ByCommunity (Some c)) MIB_ACES_WRITE) _ (mib_views st) Ho Hok Hd) as (x & E & Hx).
    unfold mib_community_view_cover, owner_view_cover. cbn [views_of] in E. rewrite E.
    eexists. split; [done|]. destruct Hx as [[-> Hx]|[-> Hx]]; [by left|by right].
  - eexists. split; [done|]. right. split; [by intros ?%Exists_nil|done].
Qed.

Lemma covering_covered Ls o : covered Ls o <-> is_Some (covering Ls o).
Proof.
  unfold covered. induction Ls as [|v Ls IH]; cbn [covering]; [rewrite Exists_nil, is_Some_alt; done|].
  rewrite Exists_cons. case_decide as Hp; [split; [by eexists|by left]|]. rewrite IH.
  destruct (covering Ls o) as [[[b u] a]|]; [split; [by eexists|right; by eexists]|].
  split; [intros [?|[? ?]]; done|intros [? ?]; done].
Qed.

(** A SET request, once its access is decided. *)
Lemma mib_set_spec s vb o l r :
  access_ok st (access_of st s) -> vb_ids vb = Some o -> oid_small o -> (length o <= 1024)%nat ->
  r_request r = SNMP_REQ_SET ->
  let Ls := access_oids st (access_of st s) MIB_ACES_WRITE in
  if decide (covered Ls o) then
    match views_spec lua_pcall e root Ls o SNMP_REQ_SET l 0 (r_var r) with
    | None => mib_set lua_pcall e junk root st s vb l r = None
    | Some (l', err, v') => exists r',
        mib_set lua_pcall e junk root st s vb l r = Some (l', r') /\ answer o SNMP_REQ_SET err v' r'
    end
  else exists r', mib_set lua_pcall e junk root st s vb l r = Some (l, r') /\
         answer o SNMP_REQ_SET SNMP_ERR_STAT_NO_ACCESS (r_var r) r'.
Proof.
  intros Ha Hvb Ho Hl Hq Ls. unfold mib_set. rewrite Hvb.
  destruct (write_access_spec (access_of st s) o Ha (oid_small_ok _ Ho)) as (a' & -> & [[Hc ->]|(Hc & Hv & Hs)]).
  - rewrite decide_True by done. set (r0 := access_status s _ r).
    assert (r_request r0 = SNMP_REQ_SET /\ r_var r0 = r_var r) as [E1 E2].
    { subst r0. unfold access_status. destruct (access_of st s) as [[u|]|[c|]]; [destruct (nz _)|..]; done. }
    pose proof (search_views (access_of st s) MIB_ACES_WRITE o l r0 Ha Ho Hl ltac:(by rewrite E1)) as H.
    rewrite E1, E2 in H. fold Ls in H.
    replace (views_spec lua_pcall e root Ls o SNMP_REQ_SET l (r_err_stat r0) (r_var r)) with
      (views_spec lua_pcall e root Ls o SNMP_REQ_SET l 0 (r_var r)) in H; [exact H|].
    unfold views_spec. apply covering_covered in Hc as [[[b u] a] E]. unfold Ls. by rewrite E.
  - rewrite decide_False by done. rewrite Hs.
    assert (view_search lua_pcall e junk root st (view_fuel st) a' MIB_ACES_WRITE o None l
      (set_err_stat SNMP_ERR_STAT_NO_ACCESS r) = search_list lua_pcall e junk root [] o l (set_err_stat SNMP_ERR_STAT_NO_ACCESS r)) as ->.
    { apply (view_search_list lua_pcall e junk root st a' MIB_ACES_WRITE o _ [] []); [by rewrite Hv|constructor|constructor|].
      unfold view_fuel. cbn. lia. }
    cbn [search_list]. destruct (oid_dup_spec junk o Hl) as (cells & -> & Hc1 & Hc2). eexists. split; [done|]. by split_and!.
Qed.
End Mib.

(** ** Examples *)
Definition proc_ops : list view_op :=
  [CommunityReg [1; 3; 5] "public" MIB_ACES_WRITE; CommunityReg [1; 3; 6; 4] "public" MIB_ACES_WRITE;
   CommunityReg [1; 3; 6; 1] "public" MIB_ACES_WRITE; UserCreate "admin" 0 [1; 2] 1 [3; 4];
   UserReg [1; 3] "admin" MIB_ACES_WRITE]%string.

Definition proc_state : view_state :=
  match view_run (example_key 16) (example_key 20) [] 0 proc_ops view_init with Some st => st | None => view_init end.

Lemma proc_ops_small :
  Forall (fun op => match op with CommunityReg oid _ _ | UserReg oid _ _ => oid_small oid | _ => True end) proc_ops.
Proof. unfold proc_ops. repeat (apply Forall_cons; split; [try exact I; by apply oid_small_check|]). apply Forall_nil_2. Qed.

Lemma proc_state_ok : state_ok proc_state.
Proof.
  unfold proc_state. destruct view_init_ok as [Hst Hk].
  pose proof (view_run_ok (example_key 16) (example_key 20) [] 0 proc_ops view_init
    ltac:(reflexivity) ltac:(reflexivity) proc_ops_small Hst Hk) as H.
  by destruct (view_run _ _ _ _ _ _).
Qed.

Definition req_sdg (v t : Z) (u : option mib_user) (err : Z) (ins : list var_bind) : snmp_datagram :=
  mk_sdg 0 0 0 v 1 (mk_global 0 9 1 1472 2 1 1 3 1)
    (mk_secur 0 0 (replicate 33 0) 0 1 1 300 2 (example_name ++ replicate 35 0) 6 (replicate 12 0) 12 (replicate 8 0) 0)
    u err (mk_context 0 (replicate 33 0) 0 (example_name ++ replicate 35 0) 6)
    (mk_pdu t 0 2 1234 1 0 1 0) 0 (zlen ins) 0 ins [].

Definition req_vb (o : list Z) (t : Z) (val : list Z) : var_bind := mk_vb o 0 (zlen o) (zlen val) t val.

Definition proc_user : option mib_user := mib_users proc_state !! 0%nat.

Lemma proc_access v t err ins : access_ok proc_state (access_of proc_state (req_sdg v t proc_user err ins)).
Proof. apply access_of_ok. intros u Hu. by apply (list_elem_of_lookup_2 _ 0%nat). Qed.

Lemma req_fresh v t u err ins : 0 <= v < 3 -> is_u8 t -> fresh (req_sdg v t u err ins) example_name.
Proof.
  intros Hv Ht. split; [cbn; lia|]. split; [apply int_rep_byte; cbn; lia|]. split; [done|]. split; [done|].
  split; [by apply int_rep_check|done].
Qed.

(** ** Properties *)

(** C30: GET looks an identifier up through the one readable view that covers
    it, so that nothing outside the views of the community or user is ever read;
    the handler's value is returned as it is.  A status other than noError, or a
    missing variable, is kept only when that view is the last one of the list,
    and is noSuchObject with status noError otherwise. *)
Theorem mib_get_views {L} lua_pcall e junk (root : mib_node) (st : view_state) w (s : snmp_datagram) (vb : var_bind)
    (o : list Z) (l : L) (r : oid_search_res) (Hroot : root_wf w root) (Hst : state_ok st)
    (Ha : access_ok st (access_of st s)) (Hvb : vb_ids vb = Some o) (Ho : oid_small o) (Hl : (length o <= 1024)%nat)
    (Hq : r_request r = SNMP_REQ_GET) :
  match views_spec lua_pcall e root (access_oids st (access_of st s) MIB_ACES_READ) o SNMP_REQ_GET l
          (r_err_stat (access_status s (access_of st s) r)) (r_var r) with
  | None => mib_get lua_pcall e junk root st s vb l r = None
  | Some (l', err, v') => exists r',
      mib_get lua_pcall e junk root st s vb l r = Some (l', r') /\ answer o SNMP_REQ_GET err v' r'
  end.
Proof.
  unfold mib_get. rewrite Hvb. set (r0 := access_status s _ r).
  assert (r_request r0 = SNMP_REQ_GET /\ r_var r0 = r_var r) as [E1 E2].
  { subst r0. unfold access_status. destruct (access_of st s) as [[u|]|[c|]]; [destruct (nz _)|..]; done. }
  pose proof (search_views lua_pcall e junk root st w Hroot Hst (access_of st s) MIB_ACES_READ o l r0 Ha Ho Hl
    ltac:(by rewrite E1)) as H. by rewrite E1, E2 in H.
Qed.

Lemma mib_get_views_witness :
  exists r', mib_get (table_handler example_table) LE 0 example_root proc_state
      (req_sdg 1 SNMP_RESP proc_user 0 []) (req_vb [1; 3; 6; 1; 2; 0] ASN1_TAG_NUL []) tt (example_res SNMP_REQ_GET)
      = Some (tt, r') /\ tag (r_var r') = ASN1_TAG_INT.
Proof.
  pose proof (mib_get_views (table_handler example_table) LE 0 example_root proc_state 3
    (req_sdg 1 SNMP_RESP proc_user 0 []) (req_vb [1; 3; 6; 1; 2; 0] ASN1_TAG_NUL []) [1; 3; 6; 1; 2; 0] tt
    (example_res SNMP_REQ_GET) example_root_wf proc_state_ok (proc_access 1 SNMP_RESP 0 []) eq_refl
    ltac:(by apply oid_small_check) ltac:(cbn; lia) eq_refl) as H.
  destruct (views_spec _ _ _ _ _ _ _ _ _) as [[[[] err] v']|] eqn:E; [|not_none E].
  destruct H as (r' & Er & _ & _ & _ & _ & Hv & _). exists r'. split; [exact Er|]. rewrite Hv.
  vm_compute in E. injection E as _ <-. reflexivity.
Defined.

(** C15: GETNEXT, over all the readable views of a community or user, returns the
    lexicographically least variable after the given identifier that one of the
    views covers, and endOfMibView with the given identifier exactly when there
    is none, if the handlers answer for their own tables and no view is itself a
    variable. *)
Theorem mib_getnext_successor {L} lua_pcall table (H : @NextHandler L lua_pcall table) e junk
    (root : mib_node) (st : view_state) w (s : snmp_datagram) (vb : var_bind) (o : list Z) (l : L) (r : oid_search_res)
    (Hroot : root_wf w root) (Hst : state_ok st) (Ha : access_ok st (access_of st s))
    (Hne : access_oids st (access_of st s) MIB_ACES_READ <> [])
    (Hviews : Forall (fun v => ~ is_var table root v /\ (length v <= 1024)%nat) (access_oids st (access_of st s) MIB_ACES_READ))
    (Hvars : forall x, is_var table root x -> oid_ok x /\ (length x <= 64)%nat)
    (Hvb : vb_ids vb = Some o) (Ho : oid_small o) (Hl : (length o <= 1024)%nat) (Hval : value_ok (r_var r)) :
  exists l' r', mib_getnext lua_pcall e junk root st s vb l r = Some (l', r') /\
    next_answer table root (access_oids st (access_of st s) MIB_ACES_READ) o r'.
Proof.
  unfold mib_getnext. rewrite Hvb, view_search_next_oids by done.
  destruct (access_oids_ok st Hst (access_of st s) MIB_ACES_READ Ha) as (_ & Hap & Hsm).
  apply (search_next_list_spec lua_pcall table e junk root w Hroot Hvars); try done.
  unfold access_status. destruct (access_of st s) as [[u|]|[c|]]; [destruct (nz _)|..]; done.
Qed.

Lemma proc_views : access_oids proc_state (access_of proc_state (req_sdg 1 SNMP_RESP proc_user 0 [])) MIB_ACES_READ =
  [[1; 3; 5]; [1; 3; 6; 1]; [1; 3; 6; 4]].
Proof. by vm_compute. Qed.

Lemma proc_views_no_var : Forall (fun v => ~ is_var example_table example_root v /\ (length v <= 1024)%nat)
  (access_oids proc_state (access_of proc_state (req_sdg 1 SNMP_RESP proc_user 0 [])) MIB_ACES_READ).
Proof.
  rewrite proc_views. assert (forall v, v ∈ [[1; 3; 5]; [1; 3; 6; 1]; [1; 3; 6; 4]] -> ~ is_var example_table example_root v) as Hno.
  { intros v Hv (o & cb & x & Ho & Hx & ->). apply (instances_shape _ _ _ (proj1 example_root_wf)) in Ho.
    replace (instances example_root) with [([1; 3; 5], 9); ([1; 3; 6; 1], 7); ([1; 3; 6; 4], 8)] in Ho by (by vm_compute).
    assert (x <> []) as Hne by (intros ->; by eapply (nh_nonempty (NextHandler := example_handler))).
    rewrite !elem_of_cons, elem_of_nil in Ho. rewrite !elem_of_cons, elem_of_nil in Hv.
    destruct Ho as [[= -> ->]|[[= -> ->]|[[= -> ->]|[]]]]; destruct x as [|x0 x]; try done;
      cbn in Hv; intuition discriminate. }
  repeat (apply Forall_cons; split; [split; [apply Hno; rewrite !elem_of_cons; tauto|cbn; lia]|]). apply Forall_nil_2.
Qed.

Lemma mib_getnext_successor_witness :
  exists r', mib_getnext (table_handler example_table) LE 0 example_root proc_state
      (req_sdg 1 SNMP_RESP proc_user 0 []) (req_vb [1; 3; 6; 1; 2; 0] ASN1_TAG_NUL []) tt (example_res SNMP_REQ_GETNEXT)
      = Some (tt, r') /\ take (Z.to_nat (r_id_len r')) (r_oid r') = [1; 3; 6; 4; 0].
Proof.
  destruct (mib_getnext_successor (table_handler example_table) example_table example_handler LE 0 example_root proc_state 3
    (req_sdg 1 SNMP_RESP proc_user 0 []) (req_vb [1; 3; 6; 1; 2; 0] ASN1_TAG_NUL []) [1; 3; 6; 1; 2; 0] tt
    (example_res SNMP_REQ_GETNEXT)) as ([] & r' & E & _).
  - exact example_root_wf.
  - exact proc_state_ok.
  - exact (proc_access 1 SNMP_RESP 0 []).
  - rewrite proc_views. discriminate.
  - exact proc_views_no_var.
  - exact example_vars.
  - reflexivity.
  - by apply oid_small_check.
  - cbn. lia.
  - reflexivity.
  - exists r'. split; [exact E|]. vm_compute in E. injection E as <-. reflexivity.
Defined.

(** C31: SET reaches a handler only through a writable view of the community or
    user that covers the identifier; without one the interpreter is untouched,
    the variable keeps the value of the request and the status is noAccess. *)
Theorem mib_set_views {L} lua_pcall e junk (root : mib_node) (st : view_state) w (s : snmp_datagram) (vb : var_bind)
    (o : list Z) (l : L) (r : oid_search_res) (Hroot : root_wf w root) (Hst : state_ok st)
    (Ha : access_ok st (access_of st s)) (Hvb : vb_ids vb = Some o) (Ho : oid_small o) (Hl : (length o <= 1024)%nat)
    (Hq : r_request r = SNMP_REQ_SET) :
  let Ls := access_oids st (access_of st s) MIB_ACES_WRITE in
  if decide (covered Ls o) then
    match views_spec lua_pcall e root Ls o SNMP_REQ_SET l 0 (r_var r) with
    | None => mib_set lua_pcall e junk root st s vb l r = None
    | Some (l', err, v') => exists r',
        mib_set lua_pcall e junk root st s vb l r = Some (l', r') /\ answer o SNMP_REQ_SET err v' r'
    end
  else exists r', mib_set lua_pcall e junk root st s vb l r = Some (l, r') /\
         answer o SNMP_REQ_SET SNMP_ERR_STAT_NO_ACCESS (r_var r) r'.
Proof. by apply (mib_set_spec lua_pcall e junk root st w). Qed.

(** A handler that records the values it is asked to set, and may refuse. *)
Definition recorder (status : Z) (l : list lua_arg) (cb req : Z) (ids : list Z) (val t : lua_arg)
    : list lua_arg * option lua_ret :=
  (l ++ [val; t], Some (mk_lua_ret status [] (mk_lua_value 0 0 [] []) ASN1_TAG_INT)).

Lemma mib_set_views_witness :
  exists r', mib_set (recorder 0) LE 0 example_root proc_state (req_sdg 1 SNMP_RESP proc_user 0 [])
      (req_vb [1; 3; 7] ASN1_TAG_INT [5]) [] (example_res SNMP_REQ_SET) = Some ([], r') /\
    r_err_stat r' = SNMP_ERR_STAT_NO_ACCESS.
Proof.
  pose proof (mib_set_views (recorder 0) LE 0 example_root proc_state 3
    (req_sdg 1 SNMP_RESP proc_user 0 []) (req_vb [1; 3; 7] ASN1_TAG_INT [5]) [1; 3; 7] []
    (example_res SNMP_REQ_SET) example_root_wf proc_state_ok (proc_access 1 SNMP_RESP 0 []) eq_refl
    ltac:(by apply oid_small_check) ltac:(cbn; lia) eq_refl) as H.
  cbv zeta in H. destruct (decide (covered _ _)) as [Hc|_].
  - exfalso. clear H. apply covering_covered in Hc as [x Hc]. vm_compute in Hc. discriminate Hc.
  - destruct H as (r' & E & _ & _ & _ & He & _). exists r'. exact (conj E He).
Defined.

(** A SET whose identifier is covered by a writable view that is not the
    first of the list calls the handler with nil and the tag noSuchObject instead
    of the value and the type of the request: the views before it have overwritten
    the tag of the variable. *)
Theorem mib_set_value_lost {L} lua_pcall e junk (root : mib_node) (st : view_state) w (s : snmp_datagram) (vb : var_bind)
    (p rest : list Z) (cb : Z) (before after : list (list Z)) (view : list Z) (l : L) (r : oid_search_res)
    (Hroot : root_wf w root) (Hst : state_ok st) (Ha : access_ok st (access_of st s))
    (Hinst : shape root p = Some (Some cb)) (Hrest : rest <> [])
    (Hvb : vb_ids vb = Some (p ++ rest)) (Ho : oid_small (p ++ rest)) (Hl : (length (p ++ rest) <= 1024)%nat)
    (Hq : r_request r = SNMP_REQ_SET)
    (Hc : covering (access_oids st (access_of st s) MIB_ACES_WRITE) (p ++ rest) = Some (before, view, after))
    (Hb : before <> []) :
  exists r', mib_set lua_pcall e junk root st s vb l r =
    Some ((lua_pcall l cb SNMP_REQ_SET rest LuaNil (LuaInteger ASN1_TAG_NO_SUCH_OBJ)).1, r').
Proof.
  pose proof (mib_set_spec lua_pcall e junk root st w Hroot Hst s vb (p ++ rest) l r Ha Hvb Ho Hl Hq) as H. cbv zeta in H.
  rewrite decide_True in H by (apply covering_covered; by eexists). unfold views_spec in H.
  rewrite Hc, decide_False in H by done. unfold get_spec in H. pose proof (covering_in _ _ _ _ _ Hc) as (_ & Hp & _).
  rewrite decide_True, (walk_instance w 64%nat root p cb rest (proj1 Hroot) Hinst) in H by done.
  destruct rest as [|id rest]; [done|]. unfold instance_call in H.
  change (SNMP_REQ_SET =? SNMP_REQ_SET) with true in H. cbn match in H.
  change (set_arg e (set_tag ASN1_TAG_NO_SUCH_OBJ (r_var r))) with (Some LuaNil) in H. cbn match in H.
  change (tag (set_tag ASN1_TAG_NO_SUCH_OBJ (r_var r))) with ASN1_TAG_NO_SUCH_OBJ in H.
  destruct (lua_pcall l cb SNMP_REQ_SET (id :: rest) LuaNil (LuaInteger ASN1_TAG_NO_SUCH_OBJ)) as [l' [ret|]]; cbn [fst].
  - destruct ((_ =? 0) && _) in H; destruct (_ || _) in H; destruct H as (r' & E & _); by exists r'.
  - destruct (_ || _) in H; destruct H as (r' & E & _); by exists r'.
Qed.

Lemma mib_set_value_lost_witness :
  exists r', mib_set (recorder 0) LE 0 example_root proc_state (req_sdg 1 SNMP_RESP proc_user 0 [])
      (req_vb [1; 3; 6; 1; 2; 0] ASN1_TAG_INT [5]) [] (example_res SNMP_REQ_SET) =
    Some ([LuaNil; LuaInteger ASN1_TAG_NO_SUCH_OBJ], r').
Proof.
  apply (mib_set_value_lost (recorder 0) LE 0 example_root proc_state 3
    (req_sdg 1 SNMP_RESP proc_user 0 []) (req_vb [1; 3; 6; 1; 2; 0] ASN1_TAG_INT [5]) [1; 3; 6; 1] [2; 0] 7
    [[1; 3; 5]] [[1; 3; 6; 4]] [1; 3; 6; 1] [] (example_res SNMP_REQ_SET)).
  - exact example_root_wf.
  - exact proc_state_ok.
  - exact (proc_access 1 SNMP_RESP 0 []).
  - reflexivity.
  - discriminate.
  - reflexivity.
  - by apply oid_small_check.
  - cbn. lia.
  - reflexivity.
  - by vm_compute.
  - discriminate.
Defined.

(** The error status of a SET handler is lost when the view that covers the
    identifier is not the last one: the next view resets it to noError with
    noSuchObject, which [snmp_set] then reports as notWritable. *)
Theorem mib_set_error_lost {L} lua_pcall e junk (root : mib_node) (st : view_state) w (s : snmp_datagram) (vb : var_bind)
    (p rest : list Z) (cb : Z) (before after : list (list Z)) (view : list Z) (l l' : L) (err : Z) (v' : asn1_var) ids
    (r : oid_search_res)
    (Hroot : root_wf w root) (Hst : state_ok st) (Ha : access_ok st (access_of st s))
    (Hinst : shape root p = Some (Some cb)) (Hrest : rest <> [])
    (Hvb : vb_ids vb = Some (p ++ rest)) (Ho : oid_small (p ++ rest)) (Hl : (length (p ++ rest) <= 1024)%nat)
    (Hq : r_request r = SNMP_REQ_SET)
    (Hc : covering (access_oids st (access_of st s) MIB_ACES_WRITE) (p ++ rest) = Some (before, view, after))
    (Hafter : after <> [])
    (Hcall : instance_call lua_pcall e l cb SNMP_REQ_SET rest
               (if decide (before = []) then r_var r else set_tag ASN1_TAG_NO_SUCH_OBJ (r_var r)) = Some (l', err, ids, v'))
    (Herr : err <> 0) :
  exists r', mib_set lua_pcall e junk root st s vb l r = Some (l', r') /\
    answer (p ++ rest) SNMP_REQ_SET 0 (set_tag ASN1_TAG_NO_SUCH_OBJ v') r'.
Proof.
  pose proof (mib_set_spec lua_pcall e junk root st w Hroot Hst s vb (p ++ rest) l r Ha Hvb Ho Hl Hq) as H. cbv zeta in H.
  rewrite decide_True in H by (apply covering_covered; by eexists). unfold views_spec in H.
  rewrite Hc in H. unfold get_spec in H. pose proof (covering_in _ _ _ _ _ Hc) as (_ & Hp & _).
  rewrite (decide_True (P := view `prefix_of` _)), (walk_instance w 64%nat root p cb rest (proj1 Hroot) Hinst) in H by done.
  destruct rest as [|id rest]; [done|]. rewrite Hcall, (proj2 (Z.eqb_neq _ _)), bool_decide_false in H by done. exact H.
Qed.

Lemma mib_set_error_lost_witness :
  exists r', mib_set (recorder 10) LE 0 example_root proc_state (req_sdg 1 SNMP_RESP proc_user 0 [])
      (req_vb [1; 3; 5; 1] ASN1_TAG_INT [5]) [] (example_res SNMP_REQ_SET) = Some ([LuaNil; LuaInteger ASN1_TAG_NUL], r') /\
    r_err_stat r' = 0.
Proof.
  destruct (mib_set_error_lost (recorder 10) LE 0 example_root proc_state 3
    (req_sdg 1 SNMP_RESP proc_user 0 []) (req_vb [1; 3; 5; 1] ASN1_TAG_INT [5]) [1; 3; 5] [1] 9
    [] [[1; 3; 6; 1]; [1; 3; 6; 4]] [1; 3; 5] [] [LuaNil; LuaInteger ASN1_TAG_NUL] 10
    (set_tag ASN1_TAG_INT example_var) [1] (example_res SNMP_REQ_SET)) as (r' & E & _ & _ & _ & He & _).
  - exact example_root_wf.
  - exact proc_state_ok.
  - exact (proc_access 1 SNMP_RESP 0 []).
  - reflexivity.
  - discriminate.
  - reflexivity.
  - by apply oid_small_check.
  - cbn. lia.
  - reflexivity.
  - by vm_compute.
  - discriminate.
  - reflexivity.
  - discriminate.
  - exists r'. exact (conj E He).
Defined.

(** *** Authentication *)
Section Auth.
Context {L : Type} (lua_pcall : L -> Z -> Z -> list Z -> lua_arg -> lua_arg -> L * option lua_ret).
Context (e : endian) (junk : Z) (root : mib_node) (st : view_state).

(** Both searches assign the status before they read it. *)
Lemma search_err_stat view o l r x :
  mib_tree_search lua_pcall e junk root view o l (set_err_stat x r) = mib_tree_search lua_pcall e junk root view o l r.
Proof. unfold mib_tree_search. destruct (oid_dup junk o); done. Qed.

Lemma search_next_err_stat view o l r x :
  mib_tree_search_next lua_pcall e junk root view o l (set_err_stat x r) =
  mib_tree_search_next lua_pcall e junk root view o l r.
Proof.
  unfold mib_tree_search_next. change (set_request SNMP_REQ_GET (set_err_stat x r)) with (set_err_stat x (set_request SNMP_REQ_GET r)).
  rewrite search_err_stat. destruct (_ >? 0); [done|]. destruct (_ <? 0); [done|]. by destruct (oid_dup junk view).
Qed.

Lemma view_search_err_stat fuel a attr o l r x : views_of a attr <> [] ->
  view_search lua_pcall e junk root st fuel a attr o None l (set_err_stat x r) =
  view_search lua_pcall e junk root st fuel a attr o None l r.
Proof.
  intros H. destruct fuel as [|fuel]; [done|]. cbn [view_search]. rewrite next_view_of_list.
  destruct (views_of a attr) as [|i vs]; [done|]. cbn [next_view]. destruct (mib_views st !! i); [|done].
  by rewrite search_err_stat.
Qed.

Lemma view_search_next_err_stat fuel a o l r x : views_of a MIB_ACES_READ <> [] ->
  view_search_next lua_pcall e junk root st fuel a o None l (set_err_stat x r) =
  view_search_next lua_pcall e junk root st fuel a o None l r.
Proof.
  intros H. destruct fuel as [|fuel]; [done|]. cbn [view_search_next]. rewrite next_view_of_list.
  destruct (views_of a MIB_ACES_READ) as [|i vs]; [done|]. cbn [next_view]. destruct (mib_views st !! i); [|done].
  by rewrite search_next_err_stat.
Qed.

Lemma write_access_nonempty u o a : write_access st (ByUser (Some u)) o = Some a ->
  a = ByUser None \/ a = ByUser (Some u) /\ views_of a MIB_ACES_WRITE <> [].
Proof.
  cbn [write_access]. unfold mib_user_view_cover, owner_view_cover.
  destruct (view_cover o (o_views u MIB_ACES_WRITE) (mib_views st)) as [c|] eqn:Ec; [|done]. intros [= <-].
  destruct (c =? 0) eqn:E0; [by left|]. right. split; [done|]. cbn [views_of]. intros En. rewrite En in Ec.
  cbn in Ec. by simplify_eq.
Qed.
End Auth.

(** C37: the outcome of the authentication of a version 3 request does not
    influence its processing: for a known user with a readable view, GET,
    GETNEXT and SET do the same whatever [auth_err] is, so that a request with a
    wrong digest is answered, and a SET carried out, like an authentic one. *)
Theorem mib_auth_err_ignored {L} lua_pcall e junk (root : mib_node) (st : view_state) (s : snmp_datagram) (u : mib_user)
    (err : Z) (vb : var_bind) (l : L) (r : oid_search_res)
    (Hv : 3 <= version s) (Hu : user s = Some u) (Hviews : u_ro_views u <> []) :
  mib_get lua_pcall e junk root st (set_auth_err err s) vb l r = mib_get lua_pcall e junk root st s vb l r /\
  mib_getnext lua_pcall e junk root st (set_auth_err err s) vb l r = mib_getnext lua_pcall e junk root st s vb l r /\
  mib_set lua_pcall e junk root st (set_auth_err err s) vb l r = mib_set lua_pcall e junk root st s vb l r.
Proof.
  assert (access_of st s = ByUser (Some u)) as Ea.
  { unfold access_of. rewrite Z.geb_leb, (proj2 (Z.leb_le 3 (version s))) by lia. by rewrite Hu. }
  assert (access_of st (set_auth_err err s) = ByUser (Some u)) as Ea' by exact Ea.
  unfold mib_get, mib_getnext, mib_set. rewrite Ea, Ea'. destruct (vb_ids vb) as [o|]; [|done].
  split_and!; [| |destruct (write_access st (ByUser (Some u)) o) as [a|] eqn:Ew; [|done];
    destruct (write_access_nonempty st u o a Ew) as [->|[-> Hw]]; [done|]]; unfold access_status;
    cbn [global set_auth_err auth_err]; (destruct (nz _); [|done]).
  - by rewrite !view_search_err_stat.
  - by rewrite !view_search_next_err_stat.
  - by rewrite !view_search_err_stat.
Qed.

Lemma mib_auth_err_ignored_witness :
  exists u, mib_users proc_state !! 0%nat = Some u /\
    mib_get (table_handler example_table) LE 0 example_root proc_state
      (req_sdg 3 SNMP_RESP (Some u) SNMP_ERR_STAT_AUTHORIZATION []) (req_vb [1; 3; 6; 1; 2; 0] ASN1_TAG_NUL []) tt
      (example_res SNMP_REQ_GET) =
    mib_get (table_handler example_table) LE 0 example_root proc_state
      (req_sdg 3 SNMP_RESP (Some u) 0 []) (req_vb [1; 3; 6; 1; 2; 0] ASN1_TAG_NUL []) tt (example_res SNMP_REQ_GET).
Proof.
  destruct (mib_users proc_state !! 0%nat) as [u|] eqn:E; [|not_none E]. exists u. split; [reflexivity|].
  apply (mib_auth_err_ignored (table_handler example_table) LE 0 example_root proc_state
    (req_sdg 3 SNMP_RESP (Some u) 0 []) u SNMP_ERR_STAT_AUTHORIZATION).
  - cbn. lia.
  - reflexivity.
  - vm_compute in E. injection E as <-. discriminate.
Defined.

(** *** Replies *)
Section Replies.
Context {L : Type} (lua_pcall : L -> Z -> Z -> list Z -> lua_arg -> lua_arg -> L * option lua_ret).
Context (e : endian) (junk : Z) (root : mib_node) (st : view_state).
Context (md5 sha1 : list Z -> Z -> list Z -> Z * list Z) (aes : list Z -> list Z -> list Z -> list Z) (rnd1 rnd2 : Z).

(** The error fields of the answer to a GETBULK request, whose error status is
    the number of non-repeaters. *)
Definition bulk_error (s : snmp_datagram) (bs : list (Z * binding)) : Z * Z :=
  if err_stat (pdu s) =? 0 then first_error (bs.*1) 1 else (err_stat (pdu s), 0).

Definition bulk_pdu (s : snmp_datagram) (bs : list (Z * binding)) : pdu_msg :=
  mk_pdu_msg (pdu_type (pdu s)) (req_id (pdu s)) (bulk_error s bs).1 (bulk_error s bs).2 (bs.*2).

Lemma first_error_range errs k : Forall (fun x => -128 <= x < 128) errs -> 0 <= k ->
  -128 <= (first_error errs k).1 < 128 /\ 0 <= (first_error errs k).2 <= Z.max 0 (k + zlen errs - 1).
Proof.
  intros Hf. revert k. induction Hf as [|err errs He _ IH]; intros k Hk; cbn [first_error].
  { cbn [fst snd]. pose proof (zlen_nonneg (@nil Z)). lia. }
  rewrite zlen_cons. pose proof (zlen_nonneg errs). destruct (nz err); [cbn [fst snd]; lia|].
  destruct (IH (k + 1) ltac:(lia)). lia.
Qed.

(** Fewer bindings than octets. *)
Lemma bindings_bytes_bound bs : 2 * zlen bs <= zlen (bindings_bytes bs).
Proof.
  unfold bindings_bytes. induction bs as [|b bs IH]; [done|]. cbn [map concat]. rewrite zlen_cons, zlen_app.
  assert (2 <= zlen (binding_tlv b)); [|lia]. unfold binding_tlv, binding_body.
  match goal with |- context [tlv ?t (?x ++ ?y)] => pose proof (zlen_tlv_lt t (x ++ y)) as H1 end. rewrite zlen_app in H1.
  pose proof (zlen_tlv_lt ASN1_TAG_OBJID (oid_bytes (b_oid b))). pose proof (zlen_nonneg (oid_bytes (b_oid b))).
  pose proof (zlen_nonneg (tlv (b_type b) (b_value b))). lia.
Qed.

Lemma first_error_idx errs k : nz (first_error errs k).1 = false -> (first_error errs k).2 = 0.
Proof.
  revert k. induction errs as [|x xs IH]; intros k; [done|]. cbn [first_error].
  destruct (nz x) eqn:En; [cbn; by rewrite En|apply IH].
Qed.

Lemma bulk_report s0 bs : err_idx (pdu s0) = 0 ->
  report_pdu (bs.*1) 1 (pdu s0) = set_err (bulk_error s0 bs).1 (bulk_error s0 bs).2 (pdu s0).
Proof.
  intros Hi. unfold bulk_error. destruct (Z.eqb_spec (err_stat (pdu s0)) 0) as [E|E].
  - rewrite report_pdu_first, Hi by done. pose proof (first_error_idx (bs.*1) 1) as H.
    destruct (nz (first_error (bs.*1) 1).1); [done|]. by rewrite H.
  - rewrite report_pdu_kept by done. cbn [fst snd]. destruct (pdu s0). cbn in *. by rewrite Hi.
Qed.

Lemma set_in_rep n c vbs s name p : sdg_rep s name p -> n = vb_list_len s -> sdg_rep (set_in n c vbs s) name p.
Proof. intros H ->. exact H. Qed.

(** The response, whose error index is announced with the length of
    max-repetitions. *)
Lemma bulkget_reply s name l l' r' bs next :
  let s0 := set_pdu (set_err (err_stat (pdu s)) 0 (pdu s)) s in
  let k := err_idx (pdu s) in
  fresh s name -> int_rep (err_stat_len (pdu s)) (err_stat (pdu s)) -> int_rep (err_idx_len (pdu s)) k -> 0 <= k ->
  bulk_collect junk (get_ans e (mib_getnext lua_pcall e junk root st)) (Z.to_nat k) s0 (vb_in_list s) l
    (ret_oid_init SNMP_REQ_GETNEXT) = Some (l', r', bs, next) ->
  Forall (fun x => -128 <= x < 128) (bs.*1) -> zlen (message_tlv (version s) name (with_index k (bulk_pdu s bs))) < 2 ^ 32 ->
  length bs = (Z.to_nat k * length (vb_in_list s))%nat /\
  match index_message junk (version s) name k (bulk_pdu s bs) with
  | Some m => exists s', snmp_bulkget lua_pcall e junk root st (snmp_response e junk md5 sha1 aes rnd1 rnd2) s l = Some (l', s', m)
  | None => snmp_bulkget lua_pcall e junk root st (snmp_response e junk md5 sha1 aes rnd1 rnd2) s l = None
  end.
Proof.
  intros s0 k Hf Hst Hil Hk Hc He Hz. assert (fresh s0 name) as Hf0 by exact Hf.
  pose proof (bulk_collect_length _ _ _ _ _ _ _ _ _ _ _ Hc) as Hlen. split; [done|].
  assert (zlen (bindings_bytes (bs.*2)) < 2 ^ 32) as Hbb.
  { destruct (message_parts_lt (version s) name (with_index k (bulk_pdu s bs))) as (U1 & U2 & _).
    pose proof (zlen_tlv_lt ASN1_TAG_SEQ (msg_body (version s) name (with_index k (bulk_pdu s bs)))) as U3.
    change (tlv ASN1_TAG_SEQ _) with (message_tlv (version s) name (with_index k (bulk_pdu s bs))) in U3.
    change (p_bindings (with_index k (bulk_pdu s bs))) with (bs.*2) in U2. lia. }
  pose proof (bindings_bytes_bound (bs.*2)) as Hbs. unfold zlen at 1 in Hbs. rewrite length_fmap in Hbs.
  destruct Hil as [Hk' Hil]. unfold is_i32 in Hk'.
  destruct (bulk_loop_answers lua_pcall e junk root st (Z.to_nat k) (vb_in_list s) s0 l _ 0 l' r' bs next (fresh_counters s0 name Hf0) Hc)
    as (outs & Ho & _ & E); [lia|unfold zlen; rewrite Z.add_0_l, <- Nat2Z.inj_mul, <- Hlen; lia|].
  unfold snmp_bulkget. cbv zeta. fold s0 k. rewrite u32_id by (unfold is_u32; lia).
  change (vb_in_list s0) with (vb_in_list s). rewrite E. cbn [ps_sdg ps_lua]. change (0 + 1) with 1.
  set (x := set_in _ _ next (add_answers outs bs 1 s0)).
  assert (zlen (bs.*1) = Z.of_nat (length bs)) as Ez by (unfold zlen; by rewrite length_fmap).
  destruct (first_error_range (bs.*1) 1 He ltac:(lia)) as [B1 B2].
  assert (report_pdu (bs.*1) 1 (pdu s0) = set_err (bulk_error s0 bs).1 (bulk_error s0 bs).2 (pdu s0)) as Hr by by apply bulk_report.
  assert (err_idx (pdu x) = p_err_idx (bulk_pdu s bs)) as Hx.
  { change (pdu x) with (report_pdu (bs.*1) 1 (pdu s0)). by rewrite Hr. }
  assert (sdg_rep (set_index k x) name (with_index k (bulk_pdu s bs))) as Hrep.
  { change (set_index k x) with (set_in (vb_list_len (add_answers outs bs 1 s0)) (vb_in_cnt (add_answers outs bs 1 s0)) next
      (set_index k (add_answers outs bs 1 s0))).
    apply set_in_rep; [|done]. apply (add_answers_index_rep s0 name outs bs 1 (bulk_error s bs).1 (bulk_error s bs).2 k); [apply Hf|done|exact Hr| |by split|done].
    unfold bulk_error. change (err_stat (pdu s0)) with (err_stat (pdu s)). change (err_stat_len (pdu s0)) with (err_stat_len (pdu s)).
    destruct (Z.eqb_spec (err_stat (pdu s)) 0) as [E0|_]; [|exact Hst]. destruct Hst as [_ ->]. rewrite E0. by apply int_rep_byte. }
  pose proof (response_index e junk md5 sha1 aes rnd1 rnd2 x name (bulk_pdu s bs) k Hrep Hx) as P.
  change (version x) with (version s) in P.
  assert (is_i32 (p_err_idx (bulk_pdu s bs))) as Hi.
  { unfold bulk_pdu, bulk_error. cbn [p_err_idx]. destruct (_ =? 0); cbn [snd]; unfold is_i32; lia. }
  specialize (P Hi (proj1 Hf) Hz). destruct (index_message junk (version s) name k (bulk_pdu s bs)) as [m|]; [|by rewrite P].
  destruct P as (s' & ->). by exists s'.
Qed.
End Replies.

Definition proc_request : snmp_datagram :=
  req_sdg 1 SNMP_RESP None 0 [req_vb [1; 3; 6; 1; 1; 0] ASN1_TAG_NUL []; req_vb [1; 3; 6; 9] ASN1_TAG_NUL []].

Definition proc_answers : list (Z * binding) :=
  [(0, mk_binding [1; 3; 6; 1; 2; 0] ASN1_TAG_INT [42]); (0, mk_binding [1; 3; 6; 9] ASN1_TAG_END_OF_MIB_VIEW [])].
