(* ===== verification/SnmpIn.v ===== *)
(** * Receiving a request ([src/core/snmp_msg_in.c])

    The decoder walks through the receive buffer with a pointer, which is a
    position here.  It stops with a return code at the first unexpected tag or
    excessive length; it never compares a length with the size of the buffer, and
    a read outside of it is [None].  The buffer is part of the state because the
    authentication parameter is blanked and the scoped PDU is decrypted in
    place.  A datagram that fails to decode is cleared. *)
From Stdlib Require Import String.
From S2P Require Import Prelude BerEncoder BerSpec BerDecoder Oid MibTree MibSearch MibView Message SnmpData SnmpOut SnmpProc.
Local Open Scope Z_scope.

(** ** A monad for the decoder *)

(** From a buffer and a position: [None] is an access outside an object, [inl]
    a return code. *)
Definition parser (A : Type) : Type := list Z -> nat -> option (snmp_err_code + A * list Z * nat).

Definition pret {A} (a : A) : parser A := fun buf p => Some (inr (a, buf, p)).

Definition pbind {A B} (m : parser A) (k : A -> parser B) : parser B := fun buf p =>
  match m buf p with
  | Some (inr (a, buf', p')) => k a buf' p'
  | Some (inl err) => Some (inl err)
  | None => None
  end.

Definition perr {A} (err : snmp_err_code) : parser A := fun _ _ => Some (inl err).

Notation "'do*' x := m 'in' k" := (pbind m (fun x => k))
  (at level 10, x pattern, m at level 100, k at level 200, only parsing) : opt_scope.

Section Decode.
Context (e : endian) (junk : Z).

(** *** Primitives *)

(** [*buf++] *)
Definition byte : parser Z := fun buf p =>
  let* b := buf !! p in Some (inr (b, buf, S p)).

(** [if ( *buf++ != tag) return err;] *)
Definition expect (tag : Z) (err : snmp_err_code) : parser unit :=
  do* b := byte in if b =? tag then pret tt else perr err.

(** [if (c) return err;] *)
Definition reject (c : bool) (err : snmp_err_code) : parser unit := if c then perr err else pret tt.

(** [buf += ber_length_dec(buf, &len)]: the bytes consumed and the length. *)
Definition length_dec : parser (Z * Z) := fun buf p =>
  let* (n, len) := ber_length_dec (drop p buf) in Some (inr ((n, len), buf, (p + Z.to_nat n)%nat)).

(** [ber_value_dec(buf, len, type, dest); buf += len;] where [mem] is what
    [dest] points to. *)
Definition value_dec (len type : Z) (mem : list Z) : parser (list Z) := fun buf p =>
  let* (_, bs) := ber_value_dec e (drop p buf) len type in
  let* mem' := blit bs mem in Some (inr (mem', buf, (p + Z.to_nat len)%nat)).

(** A tag, a length and an [integer_t] whose memory was zeroed: the length and
    the value. *)
Definition int_dec (err : snmp_err_code) : parser (Z * Z) :=
  do* _ := expect ASN1_TAG_INT err in
  do* (_, len) := length_dec in
  do* mem := value_dec len ASN1_TAG_INT (replicate 4 0) in
  fun buf p => let* v := load_int e mem in Some (inr ((len, v), buf, p)).

(** The same for an octet string of an array of [size] bytes, where a length
    that satisfies [bad] is refused with [err']. *)
Definition str_dec (err : snmp_err_code) (size : nat) (bad : Z -> bool) (err' : snmp_err_code) : parser (Z * list Z) :=
  do* _ := expect ASN1_TAG_OCTSTR err in
  do* (_, len) := length_dec in
  do* _ := reject (bad len) err' in
  do* mem := value_dec len ASN1_TAG_OCTSTR (replicate size 0) in pret (len, mem).

(** [len + 1 > sizeof(array)], where [len + 1] is computed on 32 bits. *)
Definition too_long (size len : Z) : bool := u32 (len + 1) >? size.

(** [len && len != n] *)
Definition not_exactly (n len : Z) : bool := nz len && negb (len =? n).

(** ** Variable bindings *)

(** [var_bind_alloc]; the position it reaches is not used. *)
Definition var_bind_alloc : parser var_bind :=
  do* _ := expect ASN1_TAG_OBJID SNMP_ERR_VB_OID_TYPE in
  do* (_, olen) := length_dec in
  do* (buf1, n) := (fun buf p =>
    let* n := ber_value_dec_try (drop p buf) olen ASN1_TAG_OBJID in
    if n >? ASN1_OID_MAX_LEN then Some (inl SNMP_ERR_VB_OID_LEN)
    else Some (inr ((p, n), buf, (p + Z.to_nat olen)%nat))) in
  do* vtype := byte in
  do* (_, vlen) := length_dec in
  do* _ := reject (vlen >? ASN1_VALUE_MAX_LEN) SNMP_ERR_VB_VALUE_LEN in
  fun buf p =>
    let vb := vb_new junk n vlen in
    let* ids := (if olen =? 0 then Some [] else ber_oid_dec (drop buf1 buf) olen) in
    let* cells := blit ids (vb_oid vb) in
    let* bs := slice p (Z.to_nat vlen) buf in
    let* val := blit bs (vb_value vb) in
    Some (inr (mk_vb cells (vb_len vb) (Z.of_nat (length ids)) vlen vtype val, buf, p)).

(** [while (sdg->vb_list_len > 0)].  An iteration reads at least one byte, so
    the size of the buffer bounds their number. *)
Fixpoint var_bind_loop (fuel : nat) (list_len cnt : Z) (vbs : list var_bind) : parser (Z * Z * list var_bind) :=
  match fuel with
  | O => fun _ _ => None
  | S fuel' =>
      if list_len >? 0 then
        do* _ := expect ASN1_TAG_SEQ SNMP_ERR_VB_SEQ in
        do* (n, vlen) := length_dec in
        do* vb := (fun buf p =>
          match var_bind_alloc buf p with
          | Some (inr (vb, _, _)) => Some (inr (vb, buf, (p + Z.to_nat vlen)%nat))
          | Some (inl err) => Some (inl err)
          | None => None
          end) in
        var_bind_loop fuel' (u32 (list_len - (1 + n + vlen))) (u32 (cnt + 1)) (vbs ++ [vb])
      else pret (list_len, cnt, vbs)
  end.

Definition var_bind_parse : parser (Z * Z * list var_bind) :=
  do* _ := expect ASN1_TAG_SEQ SNMP_ERR_VB_LIST_SEQ in
  do* (_, list_len) := length_dec in
  fun buf p => var_bind_loop (S (length buf)) list_len 0 [] buf p.

(** ** PDU header, global data, security parameters *)
Definition pdu_hdr_parse : parser pdu_hdr :=
  do* type := byte in
  do* (_, len) := length_dec in
  do* (id_len, id) := int_dec SNMP_ERR_PDU_REQID in
  do* (stat_len, stat) := int_dec SNMP_ERR_PDU_ERRSTAT in
  do* (idx_len, idx) := int_dec SNMP_ERR_PDU_ERRIDX in
  pret (mk_pdu type len id_len id stat_len stat idx_len idx).

(** [msg_flags] is one byte, whatever its length. *)
Definition global_data_decode (mlen : Z) : parser global_data :=
  do* (id_len, id) := int_dec SNMP_ERR_GLOBAL_ID in
  do* (size_len, size) := int_dec SNMP_ERR_GLOBAL_SIZE in
  do* (flags_len, flags) := str_dec SNMP_ERR_GLOBAL_FLAGS 1 (fun _ => false) SNMP_ERR_GLOBAL_FLAGS in
  do* (model_len, model) := int_dec SNMP_ERR_GLOBAL_MODEL in
  fun buf p =>
    let* f := flags !! 0%nat in
    Some (inr (mk_global mlen id id_len size size_len f flags_len model model_len, buf, p)).

(** [memset(buf, 0, len)] on the bytes just read. *)
Definition blank (len : Z) : parser unit := fun buf p =>
  let* buf' := write_at (p - Z.to_nat len) (replicate (Z.to_nat len) 0) buf in Some (inr (tt, buf', p)).

(** The authentication parameter is blanked once it is read. *)
Definition auth_dec : parser (Z * list Z) :=
  do* (auth_len, auth) :=
    str_dec SNMP_ERR_SECURITY_AUTH_PARA 12 (not_exactly SNMP_MSG_AUTH_PARA_LEN) SNMP_ERR_SECURITY_AUTH_PARA_LEN in
  do* _ := blank auth_len in pret (auth_len, auth).

Definition security_parameter_decode : parser security_para :=
  do* _ := expect ASN1_TAG_OCTSTR SNMP_ERR_SECURITY_STR in
  do* (_, str_len) := length_dec in
  do* _ := expect ASN1_TAG_SEQ SNMP_ERR_SECURITY_SEQ in
  do* (_, para_len) := length_dec in
  do* (eid_len, eid) := str_dec SNMP_ERR_SECURITY_ENGINE_ID 33 (too_long 33) SNMP_ERR_SECURITY_ENGINE_ID_LEN in
  do* (boots_len, boots) := int_dec SNMP_ERR_SECURITY_ENGINE_BOOTS in
  do* (time_len, time) := int_dec SNMP_ERR_SECURITY_ENGINE_TIME in
  do* (name_len, name) := str_dec SNMP_ERR_SECURITY_USER_NAME 41 (too_long 41) SNMP_ERR_SECURITY_USER_NAME_LEN in
  do* (auth_len, auth) := auth_dec in
  do* (priv_len, priv) :=
    str_dec SNMP_ERR_SECURITY_ENGINE_TIME 8 (not_exactly SNMP_MSG_ENCRYPT_PARA_LEN) SNMP_ERR_SECURITY_PRIV_PARA_LEN in
  pret (mk_secur str_len para_len eid eid_len boots boots_len time time_len name name_len auth auth_len priv priv_len).

(** ** Authentication and decryption *)
Context (MD5_hmac SHA1_hmac : list Z -> Z -> list Z -> Z * list Z).
Context (AES_Decrypt : list Z -> list Z -> list Z -> list Z).

(** The new value of [auth_err], which was 0; [msg] is the whole message. *)
Definition snmp_msg_authen (sec : security_para) (u : mib_user) (msg : list Z) : option Z :=
  let* (ret, mac) :=
    (if u_auth_mode u =? SNMP_USER_AUTH_MD5 then
       let* secret := slice 0 16 (u_auth_key u) in Some (MD5_hmac msg 16 secret)
     else if u_auth_mode u =? SNMP_USER_AUTH_SHA1 then
       let* secret := slice 0 20 (u_auth_key u) in Some (SHA1_hmac msg 20 secret)
     else Some (1, [])) in
  let* mac := blit mac (replicate 20 0) in
  if nz ret then Some SNMP_ERR_STAT_GEN_ERR
  else
    let n := Z.to_nat (auth_para_len sec) in
    let* a := slice 0 n mac in
    let* b := slice 0 n (auth_para sec) in
    Some (if decide (a = b) then 0 else SNMP_ERR_STAT_AUTHORIZATION).

(** The plain text, or nothing when the user has another privacy mode. *)
Definition snmp_msg_decrypt (sec : security_para) (u : mib_user) (cipher : list Z) : option (option (list Z)) :=
  if u_priv_mode u =? SNMP_USER_ENCRYPT_AES then
    let* salt := slice 0 (Z.to_nat (priv_para_len sec)) (priv_para sec) in
    let* tail := blit salt (replicate 8 junk) in
    let iv := net_bytes (engine_boots sec) ++ net_bytes (engine_time sec) ++ tail in
    Some (Some (AES_Decrypt (u_priv_key u) iv cipher))
  else Some None.

(** The user security model: [auth_err]; the scoped PDU is decrypted in place
    when the digest is right and the message says that it is encrypted. *)
Definition user_security (recv_len : Z) (g : global_data) (sec : security_para) (u : option mib_user) : parser Z :=
  if nz (Z.land (msg_flags g) SNMP_SECUR_FLAG_AUTH) then
    match u with
    | Some u => fun buf p =>
        let* msg := slice 0 (Z.to_nat recv_len) buf in
        let* err := snmp_msg_authen sec u msg in
        if nz err || negb (nz (Z.land (msg_flags g) SNMP_SECUR_FLAG_ENCRYPT)) then Some (inr (err, buf, p))
        else
          pbind (expect ASN1_TAG_OCTSTR SNMP_ERR_ENCRYPT_PDU_TAG) (fun _ => do* (_, clen) := length_dec in
            fun buf q =>
              let* cipher := slice q (Z.to_nat clen) buf in
              let* plain := snmp_msg_decrypt sec u cipher in
              match plain with
              | Some text => let* buf' := write_at p text buf in Some (inr (err, buf', p))
              | None => Some (inr (err, buf, p))
              end) buf p
    | None => pret 0
    end
  else pret 0.

(** ** [snmp_decode] *)
Definition zero_global : global_data := mk_global 0 0 0 0 0 0 0 0 0.
Definition zero_secur : security_para :=
  mk_secur 0 0 (replicate 33 0) 0 0 0 0 0 (replicate 41 0) 0 (replicate 12 0) 0 (replicate 8 0) 0.
Definition zero_context : context := mk_context 0 (replicate 33 0) 0 (replicate 41 0) 0.
Definition zero_pdu : pdu_hdr := mk_pdu 0 0 0 0 0 0 0 0.

(** [snmp_datagram_clear] *)
Definition snmp_datagram_clear : snmp_datagram :=
  mk_sdg 0 0 0 0 0 zero_global zero_secur None 0 zero_context zero_pdu 0 0 0 [] [].

Context (st : view_state).

Definition find_user (name : list Z) : option mib_user :=
  let* i := mib_user_search st (cstring name) in mib_users st !! i.

(** The part of version 3 between the version and the context name. *)
Definition v3_decode (recv_len : Z)
    : parser (global_data * security_para * option mib_user * Z * (Z * (Z * list Z))) :=
  do* _ := expect ASN1_TAG_SEQ SNMP_ERR_GLOBAL_DATA_LEN in
  do* (_, mlen) := length_dec in
  do* g := global_data_decode mlen in
  do* sec := security_parameter_decode in
  let u := find_user (user_name sec) in
  do* err := user_security recv_len g sec u in
  do* _ := expect ASN1_TAG_SEQ SNMP_ERR_SCOPE_PDU_SEQ in
  do* (_, slen) := length_dec in
  do* cid := str_dec SNMP_ERR_CONTEXT_ID 33 (too_long 33) SNMP_ERR_CONTEXT_ID_LEN in
  pret (g, sec, u, err, (slen, cid)).

Definition decode_body (recv_len : Z) : parser snmp_datagram :=
  do* (_, dlen) := length_dec in
  do* (ver_len, ver) := int_dec SNMP_ERR_VERSION in
  do* (g, sec, u, err, (slen, (cid_len, cid))) :=
    (if ver >=? 3 then v3_decode recv_len
     else pret (zero_global, zero_secur, None, 0, (0, (0, replicate 33 0)))) in
  do* (name_len, name) := str_dec SNMP_ERR_CONTEXT_NAME 41 (too_long 41) SNMP_ERR_CONTEXT_NAME_LEN in
  do* ph := pdu_hdr_parse in
  do* (list_len, cnt, vbs) := var_bind_parse in
  pret (mk_sdg recv_len 0 dlen ver ver_len g sec u err (mk_context slen cid cid_len name name_len) ph
          list_len cnt 0 vbs []).

(** The tag at position 0 is skipped. *)
Definition snmp_decode (recv_buf : list Z) (recv_len : Z) : option snmp_datagram :=
  match decode_body recv_len recv_buf 1%nat with
  | Some (inr (s, _, _)) => Some s
  | Some (inl _) => Some snmp_datagram_clear
  | None => None
  end.
End Decode.

(** ** Dispatch *)
Section Recv.
Context {L : Type} (lua_pcall : L -> Z -> Z -> list Z -> lua_arg -> lua_arg -> L * option lua_ret).
Context (e : endian) (junk : Z) (root : mib_node) (st : view_state).
Context (MD5_hmac SHA1_hmac : list Z -> Z -> list Z -> Z * list Z).
Context (AES_Encrypt AES_Decrypt : list Z -> list Z -> list Z -> list Z) (random1 random2 : Z).

Local Abbreviation respond := (snmp_response e junk MD5_hmac SHA1_hmac AES_Encrypt random1 random2).

(** The interpreter, the datagram and what is sent, if anything. *)
Definition snmp_request_dispatch (s : snmp_datagram) (l : L) : option (L * snmp_datagram * option (list Z)) :=
  let type := pdu_type (pdu s) in
  let s := set_pdu (set_pdu_type (if vb_in_cnt s =? 0 then SNMP_REPO else SNMP_RESP) (pdu s)) s in
  let sending (r : option (L * snmp_datagram * list Z)) :=
    let* (l', s', sent) := r in Some (l', s', Some sent) in
  if type =? SNMP_REQ_GET then sending (snmp_get lua_pcall e junk root st respond s l)
  else if type =? SNMP_REQ_GETNEXT then sending (snmp_getnext lua_pcall e junk root st respond s l)
  else if type =? SNMP_REQ_SET then sending (snmp_set lua_pcall e junk root st respond s l)
  else if type =? SNMP_REQ_BULKGET then sending (snmp_bulkget lua_pcall e junk root st respond s l)
  else Some (l, s, None).

(** [buffer] is the allocation of the transport, whose first [len] bytes were
    received; [s] is the global datagram, of which nothing is used but
    [data_len], overwritten here. *)
Definition snmp_recv (buffer : list Z) (len : Z) (s : snmp_datagram) (l : L)
    : option (L * snmp_datagram * option (list Z)) :=
  if len <=? 0 then None
  else
    let* b0 := buffer !! 0%nat in
    if negb (b0 =? ASN1_TAG_SEQ) then Some (l, s, None)
    else
      let* (len_len, dlen) := ber_length_dec (drop 1 buffer) in
      if negb (u32 (1 + len_len + dlen) =? u32 len) then
        Some (l, mk_sdg (recv_len s) (send_len s) dlen (version s) (ver_len s) (global s) (secur s) (user s)
          (auth_err s) (ctx s) (pdu s) (vb_list_len s) (vb_in_cnt s) (vb_out_cnt s) (vb_in_list s) (vb_out_list s), None)
      else
        let* s' := snmp_decode e junk MD5_hmac SHA1_hmac AES_Decrypt st buffer len in
        snmp_request_dispatch s' l.
End Recv.

(** ** Parsing the reference encoding *)

(** From the start of [X], whatever surrounds it, the parser reads [X], leaves
    [X'] in its place and returns [a]. *)
Definition parses_as {A} (m : parser A) (X X' : list Z) (a : A) : Prop :=
  length X = length X' /\
  forall pre rest, m (pre ++ X ++ rest) (length pre) = Some (inr (a, pre ++ X' ++ rest, (length pre + length X)%nat)).

Abbreviation parses m X a := (parses_as m X X a).

Lemma parses_ret {A} (a : A) : parses (pret a) [] a.
Proof. split; [done|]. intros pre rest. unfold pret. cbn. by rewrite Nat.add_0_r. Qed.

Lemma parses_bind {A B} (m : parser A) (k : A -> parser B) X X' Y Y' a b :
  parses_as m X X' a -> parses_as (k a) Y Y' b -> parses_as (pbind m k) (X ++ Y) (X' ++ Y') b.
Proof.
  intros [Hl1 H1] [Hl2 H2]. split; [rewrite !length_app; lia|]. intros pre rest. unfold pbind.
  rewrite <- !app_assoc, H1, (app_assoc pre). rewrite <- length_app.
  replace (length (pre ++ X)) with (length (pre ++ X')) by (rewrite !length_app; lia). rewrite H2, <- !app_assoc.
  do 3 f_equal. rewrite !length_app. lia.
Qed.

(** The last step reads nothing. *)
Lemma parses_bind0 {A B} (m : parser A) (k : A -> parser B) X X' a b :
  parses_as m X X' a -> parses (k a) [] b -> parses_as (pbind m k) X X' b.
Proof. intros H1 H2. rewrite <- (app_nil_r X), <- (app_nil_r X'). by eapply parses_bind. Qed.

(** The first step reads nothing. *)
Lemma parses_bind1 {A B} (m : parser A) (k : A -> parser B) Y Y' a b :
  parses m [] a -> parses_as (k a) Y Y' b -> parses_as (pbind m k) Y Y' b.
Proof. intros H1 H2. by apply (parses_bind m k [] [] Y Y' a b). Qed.

Lemma parses_byte b : parses byte [b] b.
Proof.
  split; [done|]. intros pre rest. unfold byte. rewrite lookup_app_r, Nat.sub_diag by lia. cbn. do 3 f_equal. lia.
Qed.

Lemma parses_expect t err : parses (expect t err) [t] tt.
Proof. eapply parses_bind0; [apply parses_byte|]. cbn beta. rewrite Z.eqb_refl. apply parses_ret. Qed.

Lemma parses_reject err : parses (reject false err) [] tt.
Proof. apply parses_ret. Qed.

Lemma ber_length_dec_bytes n rest : is_u32 n -> ber_length_dec (len_bytes n ++ rest) = Some (zlen (len_bytes n), n).
Proof.
  intros H. rewrite <- (ber_length_enc_len_bytes LE n) by done. rewrite ber_length_dec_enc by done.
  by rewrite ber_length_enc_try_eq.
Qed.

Lemma parses_length n : is_u32 n -> parses length_dec (len_bytes n) (zlen (len_bytes n), n).
Proof.
  intros H. split; [done|]. intros pre rest. unfold length_dec. rewrite drop_app_length, ber_length_dec_bytes by done.
  by rewrite Zto_nat_zlen.
Qed.

Lemma thl_app t n : thl t n = [t] ++ len_bytes n.
Proof. done. Qed.

Section Roundtrip.
Context (e : endian) (junk : Z).

Lemma parses_value bs t mem mem' n stored :
  (forall rest, ber_value_dec e (bs ++ rest) (zlen bs) t = Some (n, stored)) -> blit stored mem = Some mem' ->
  parses (value_dec e (zlen bs) t mem) bs mem'.
Proof.
  intros Hd Hb. split; [done|]. intros pre rest. unfold value_dec. by rewrite drop_app_length, Hd, Hb, Zto_nat_zlen.
Qed.

Lemma parses_int err v : is_i32 v -> parses (int_dec e err) (tint v) (zlen (int_bytes v), v).
Proof.
  intros Hv. pose proof (zlen_int_bytes v Hv) as Hz. unfold tint. rewrite tlv_thl.
  change (thl ASN1_TAG_INT (zlen (int_bytes v)) ++ int_bytes v) with
    ([ASN1_TAG_INT] ++ len_bytes (zlen (int_bytes v)) ++ int_bytes v).
  unfold int_dec. eapply parses_bind; [apply parses_expect|].
  eapply parses_bind; [apply parses_length; unfold is_u32; lia|]. cbn beta iota.
  eapply parses_bind0.
  - apply (parses_value _ _ _ (mem_of e 4 v) 1 (mem_of e 4 v)); [|apply blit_all; by rewrite length_mem_of].
    intros rest. unfold ber_value_dec. rewrite (proj2 (Z.eqb_neq _ _)) by lia.
    change ((ASN1_TAG_INT =? ASN1_TAG_INT) || (ASN1_TAG_INT =? ASN1_TAG_CNT)) with true. cbv iota.
    unfold zlen, int_bytes. pose proof (int_octets_i32 v Hv).
    rewrite ber_int_dec_app, twos_val_enc by (rewrite ?length_be_bytes; auto using be_bytes_bytes). done.
  - split; [done|]. intros pre rest. rewrite <- (app_nil_r (mem_of e 4 v)), load_int_mem_of by done.
    by rewrite Nat.add_0_r.
Qed.

Lemma parses_str err size bad err' s :
  zlen s < 2 ^ 32 -> bad (zlen s) = false -> (length s <= size)%nat ->
  parses (str_dec e err size bad err') (tstr s) (zlen s, s ++ replicate (size - length s) 0).
Proof.
  intros Hz Hb Hs. unfold tstr. rewrite tlv_thl.
  change (thl ASN1_TAG_OCTSTR (zlen s) ++ s) with ([ASN1_TAG_OCTSTR] ++ len_bytes (zlen s) ++ [] ++ s).
  unfold str_dec. eapply parses_bind; [apply parses_expect|].
  eapply parses_bind; [apply parses_length, zlen_u32; lia|]. cbn beta iota. rewrite Hb.
  eapply parses_bind; [apply parses_reject|].
  eapply parses_bind0; [|apply parses_ret].
  apply (parses_value _ _ _ _ (zlen s) s).
  - intros rest. unfold ber_value_dec. destruct (Z.eqb_spec (zlen s) 0) as [E|E].
    + destruct s; [done|]. unfold zlen in E. cbn in E. lia.
    + change (ASN1_TAG_OCTSTR =? ASN1_TAG_INT) with false. change (ASN1_TAG_OCTSTR =? ASN1_TAG_CNT) with false.
      change (ASN1_TAG_OCTSTR =? ASN1_TAG_GAU) with false. change (ASN1_TAG_OCTSTR =? ASN1_TAG_TIMETICKS) with false.
      change (ASN1_TAG_OCTSTR =? ASN1_TAG_OBJID) with false. change (ASN1_TAG_OCTSTR =? ASN1_TAG_OCTSTR) with true.
      cbn [orb]. by rewrite Zto_nat_zlen, slice_app.
  - unfold blit. rewrite decide_True by (by rewrite length_replicate). by rewrite drop_replicate.
Qed.

(** A binding that the decoder accepts, and what it is decoded to. *)
Definition binding_ok (b : binding) : Prop :=
  oid_canonical (b_oid b) /\ (length (b_oid b) <= 64)%nat /\ zlen (b_value b) <= 1024 /\ zlen (binding_tlv b) < 2 ^ 31.

Definition vb_of (b : binding) : var_bind :=
  mk_vb (b_oid b) junk (zlen (b_oid b)) (zlen (b_value b)) (b_type b) (b_value b).

Lemma run_bind {A B} (m : parser A) (k : A -> parser B) X X' a pre rest :
  parses_as m X X' a -> pbind m k (pre ++ X ++ rest) (length pre) = k a ((pre ++ X') ++ rest) (length (pre ++ X')).
Proof. intros [Hl H]. unfold pbind. by rewrite H, length_app, Hl, <- app_assoc. Qed.

(** The announced and the decoded number of sub-identifiers agree. *)
Lemma oid_dec_count ids bs rest :
  oid_canonical ids -> ber_oid_enc ids = Some bs -> zlen bs < 2 ^ 31 ->
  ber_value_dec_try (bs ++ rest) (zlen bs) ASN1_TAG_OBJID = Some (zlen ids) /\
  zlen bs <> 0 /\ ber_oid_dec (bs ++ rest) (zlen bs) = Some ids.
Proof.
  intros Hc Hbs Hl. pose proof (ber_oid_dec_enc ids bs rest Hc Hbs) as Hd.
  assert (bs <> []) as Hne.
  { destruct Hc as [_ Hc], ids as [|? [|? ids]]; try done. cbn [ber_oid_enc] in Hbs. destruct (subids_enc ids); by simplify_eq. }
  change (Z.of_nat (length bs)) with (zlen bs) in Hd.
  destruct bs as [|b0 bs]; [done|]. rewrite zlen_cons in Hl. pose proof (zlen_nonneg bs).
  assert (zlen (b0 :: bs) <> 0) as Hz by (rewrite zlen_cons; lia). split_and!; [|done|done].
  unfold ber_oid_dec in Hd. cbn [app lookup list_lookup] in Hd.
  unfold ber_value_dec_try. rewrite (proj2 (Z.eqb_neq _ _)) by done.
  change (ASN1_TAG_OBJID =? ASN1_TAG_INT) with false. change (ASN1_TAG_OBJID =? ASN1_TAG_CNT) with false.
  change (ASN1_TAG_OBJID =? ASN1_TAG_GAU) with false. change (ASN1_TAG_OBJID =? ASN1_TAG_TIMETICKS) with false.
  change (ASN1_TAG_OBJID =? ASN1_TAG_OBJID) with true. cbn [orb]. unfold ber_oid_dec_try. cbn [app].
  rewrite Zto_nat_zlen in *. cbn [length] in *.
  rewrite (slice_mid [b0] bs rest) in * by (cbn; lia). rewrite (oid_dec_loop_count 0) by (unfold zlen in *; lia).
  injection Hd as <-. unfold zlen. cbn [length]. f_equal. lia.
Qed.

Lemma var_bind_alloc_spec b pre rest : binding_ok b ->
  exists q, var_bind_alloc junk (pre ++ binding_body b ++ rest) (length pre) =
    Some (inr (vb_of b, pre ++ binding_body b ++ rest, q)).
Proof.
  intros (Hc & Hlen & Hval & Hz). pose proof (ber_oid_enc_bytes (b_oid b) (proj1 Hc)) as Eo.
  remember (oid_bytes (b_oid b)) as obs eqn:Eb. symmetry in Eb.
  unfold binding_tlv, binding_body in *. rewrite ?Eb in *.
  assert (zlen obs < 2 ^ 31 /\ zlen (b_value b) < 2 ^ 31) as [Hobs Hv] by (zlens; lia).
  destruct (oid_dec_count (b_oid b) obs [] Hc Eo Hobs) as (_ & Hnz & _).
  set (whole := pre ++ _ ++ rest).
  assert (whole = pre ++ [ASN1_TAG_OBJID] ++ len_bytes (zlen obs) ++ obs ++ [b_type b] ++ len_bytes (zlen (b_value b))
    ++ b_value b ++ rest) as Ew.
  { subst whole. rewrite !tlv_thl, !thl_app. by rewrite <- !app_assoc. }
  unfold var_bind_alloc. eexists. rewrite Ew.
  rewrite (run_bind _ _ _ _ _ _ _ (parses_expect ASN1_TAG_OBJID SNMP_ERR_VB_OID_TYPE)).
  rewrite (run_bind _ _ _ _ _ _ _ (parses_length (zlen obs) ltac:(apply zlen_u32; lia))). cbv beta iota.
  unfold pbind at 1. rewrite drop_app_length. set (pre1 := (pre ++ _) ++ _). set (rest1 := [b_type b] ++ _).
  destruct (oid_dec_count (b_oid b) obs rest1 Hc Eo Hobs) as (-> & _ & E2).
  rewrite Z.gtb_ltb, (proj2 (Z.ltb_ge _ _)) by (unfold ASN1_OID_MAX_LEN, zlen; lia).
  rewrite Zto_nat_zlen, <- length_app, (app_assoc pre1). subst rest1.
  cbv beta iota. rewrite (run_bind _ _ _ _ _ _ _ (parses_byte (b_type b))).
  rewrite (run_bind _ _ _ _ _ _ _ (parses_length (zlen (b_value b)) ltac:(apply zlen_u32; lia))). cbv beta iota.
  rewrite Z.gtb_ltb, (proj2 (Z.ltb_ge _ _)) by (unfold ASN1_VALUE_MAX_LEN; lia).
  unfold pbind at 1, reject, pret. cbn [vb_new vb_oid vb_value vb_len]. rewrite !Zto_nat_zlen.
  rewrite (slice_mid _ (b_value b) rest), (proj2 (Z.eqb_neq _ _)) by done.
  rewrite <- !(app_assoc pre1), drop_app_length. rewrite <- !app_assoc in *. rewrite E2.
  rewrite !blit_all by (by rewrite length_replicate). subst pre1. rewrite <- !app_assoc. reflexivity.
Qed.

Lemma u32_sub_u32 a b : is_u32 a -> u32 (a + b - b) = a.
Proof. intros. rewrite Z.add_simpl_r. by apply u32_id. Qed.

Lemma var_bind_loop_spec bs : Forall binding_ok bs -> forall fuel cnt vbs,
  (length bs < fuel)%nat -> zlen (bindings_bytes bs) < 2 ^ 31 -> 0 <= cnt -> cnt + zlen bs < 2 ^ 32 ->
  parses (var_bind_loop junk fuel (zlen (bindings_bytes bs)) cnt vbs) (bindings_bytes bs)
    (0, cnt + zlen bs, vbs ++ map vb_of bs).
Proof.
  induction 1 as [|b bs Hb _ IH]; intros fuel cnt vbs Hf Hz Hc Hn; (destruct fuel as [|fuel]; [cbn in Hf; lia|]).
  - cbn. rewrite app_nil_r, Z.add_0_r. apply parses_ret.
  - unfold bindings_bytes in *. cbn [map concat] in *. set (R := concat (map binding_tlv bs)) in *.
    rewrite zlen_app, zlen_cons in *. pose proof (zlen_nonneg R). pose proof (zlen_nonneg bs).
    pose proof (zlen_tlv_lt ASN1_TAG_SEQ (binding_body b)) as Hlt. fold (binding_tlv b) in Hlt.
    pose proof (zlen_nonneg (binding_body b)). cbn [var_bind_loop].
    rewrite Z.gtb_ltb, (proj2 (Z.ltb_lt _ _)) by lia. cbv iota.
    assert (binding_tlv b ++ R = [ASN1_TAG_SEQ] ++ len_bytes (zlen (binding_body b)) ++ binding_body b ++ R) as ->
      by (unfold binding_tlv; by rewrite tlv_thl, thl_app, <- !app_assoc).
    eapply parses_bind; [apply parses_expect|].
    eapply parses_bind; [apply parses_length, zlen_u32; lia|]. cbv beta iota.
    eapply parses_bind.
    + split; [reflexivity|]. intros pre rest. destruct (var_bind_alloc_spec b pre rest Hb) as (q & ->).
      by rewrite Zto_nat_zlen.
    + cbv beta. replace (u32 _) with (zlen R).
      2: { unfold binding_tlv. rewrite zlen_tlv.
           replace (1 + _ + _ + zlen R) with (zlen R + (1 + zlen (len_bytes (zlen (binding_body b))) + zlen (binding_body b))) by lia.
           rewrite u32_sub_u32; [done|]. unfold is_u32. lia. }
      rewrite (u32_id (cnt + 1)) by (unfold is_u32; lia).
      replace (cnt + (1 + zlen bs)) with ((cnt + 1) + zlen bs) by lia.
      replace (vbs ++ vb_of b :: map vb_of bs) with ((vbs ++ [vb_of b]) ++ map vb_of bs) by (by rewrite <- app_assoc).
      apply IH; [cbn in Hf; lia|lia|lia|lia].
Qed.

Lemma zlen_bindings bs : zlen bs <= zlen (bindings_bytes bs).
Proof.
  unfold bindings_bytes. induction bs as [|b bs IH]; [done|]. cbn [map concat]. rewrite zlen_cons, zlen_app.
  pose proof (zlen_tlv_lt ASN1_TAG_SEQ (binding_body b)) as H. fold (binding_tlv b) in H.
  pose proof (zlen_nonneg (binding_body b)). lia.
Qed.

Lemma var_bind_parse_spec bs : Forall binding_ok bs -> zlen (bindings_bytes bs) < 2 ^ 31 ->
  parses (var_bind_parse junk) (tlv ASN1_TAG_SEQ (bindings_bytes bs)) (0, zlen bs, map vb_of bs).
Proof.
  intros Hb Hz. pose proof (zlen_bindings bs) as Hbs. rewrite tlv_thl, thl_app, <- app_assoc. unfold var_bind_parse.
  eapply parses_bind; [apply parses_expect|].
  eapply parses_bind; [apply parses_length, zlen_u32; lia|]. cbv beta iota. split; [done|]. intros pre rest.
  apply (var_bind_loop_spec bs Hb); [|done|lia|lia]. unfold zlen in Hbs. rewrite !length_app. lia.
Qed.

(** *** The PDU *)
Definition pdu_of (p : pdu_msg) : pdu_hdr :=
  mk_pdu (p_type p) (zlen (pdu_body p)) (zlen (int_bytes (p_req_id p))) (p_req_id p)
    (zlen (int_bytes (p_err_stat p))) (p_err_stat p) (zlen (int_bytes (p_err_idx p))) (p_err_idx p).

Definition pdu_ok (p : pdu_msg) : Prop :=
  is_i32 (p_req_id p) /\ is_i32 (p_err_stat p) /\ is_i32 (p_err_idx p) /\ Forall binding_ok (p_bindings p).

Lemma pdu_tlv_app p : pdu_tlv p =
  ([p_type p] ++ len_bytes (zlen (pdu_body p)) ++ tint (p_req_id p) ++ tint (p_err_stat p) ++ tint (p_err_idx p))
    ++ tlv ASN1_TAG_SEQ (bindings_bytes (p_bindings p)).
Proof. unfold pdu_tlv. rewrite tlv_thl, thl_app. unfold pdu_body at 2. by rewrite <- !app_assoc. Qed.

Lemma pdu_hdr_parse_spec p : pdu_ok p -> zlen (pdu_tlv p) < 2 ^ 32 ->
  parses (pdu_hdr_parse e) ([p_type p] ++ len_bytes (zlen (pdu_body p)) ++ tint (p_req_id p) ++ tint (p_err_stat p)
    ++ tint (p_err_idx p)) (pdu_of p).
Proof.
  intros (H1 & H2 & H3 & _) Hz. unfold pdu_hdr_parse. eapply parses_bind; [apply parses_byte|].
  eapply parses_bind; [apply parses_length, zlen_u32; unfold pdu_tlv in Hz; zlens; lia|]. cbv beta iota.
  eapply parses_bind; [by apply parses_int|]. cbv beta iota. eapply parses_bind; [by apply parses_int|]. cbv beta iota.
  eapply parses_bind0; [by apply parses_int|]. cbv beta iota. apply parses_ret.
Qed.

(** *** Versions 1 and 2c *)
Context (md5 sha1 : list Z -> Z -> list Z -> Z * list Z) (aes : list Z -> list Z -> list Z -> list Z) (st : view_state).

Definition sdg_of (recv_len v : Z) (name : list Z) (p : pdu_msg) : snmp_datagram :=
  mk_sdg recv_len 0 (zlen (msg_body v name p)) v (zlen (int_bytes v)) zero_global zero_secur None 0
    (mk_context 0 (replicate 33 0) 0 (name ++ replicate (41 - length name) 0) (zlen name)) (pdu_of p)
    0 (zlen (p_bindings p)) 0 (map vb_of (p_bindings p)) [].

Lemma decode_body_spec n v name p :
  is_i32 v -> v < 3 -> (length name <= 40)%nat -> pdu_ok p -> zlen (message_tlv v name p) < 2 ^ 31 ->
  parses (decode_body e junk md5 sha1 aes st n) (len_bytes (zlen (msg_body v name p)) ++ msg_body v name p) (sdg_of n v name p).
Proof.
  intros Hv Hv3 Hn Hp Hz.
  assert (zlen (msg_body v name p) < 2 ^ 31) as Hb by (unfold message_tlv in Hz; zlens; lia).
  assert (zlen (pdu_tlv p) < 2 ^ 31) as Hpl by (unfold msg_body in Hb; zlens; lia).
  assert (zlen (bindings_bytes (p_bindings p)) < 2 ^ 31) as Hbl by (unfold pdu_tlv, pdu_body in Hpl; zlens; lia).
  unfold sdg_of. pose proof (zlen_nonneg (msg_body v name p)).
  set (dl := zlen (msg_body v name p)) in *. clearbody dl. unfold msg_body, decode_body. rewrite pdu_tlv_app.
  eapply parses_bind; [apply parses_length; unfold is_u32; lia|]. cbv beta iota.
  eapply parses_bind; [by apply parses_int|]. cbv beta iota. rewrite Z.geb_leb, (proj2 (Z.leb_gt 3 v)) by lia.
  eapply parses_bind1; [apply parses_ret|]. cbv beta iota.
  eapply parses_bind.
  { apply parses_str; [unfold zlen; lia| |lia]. unfold too_long. rewrite u32_id by (unfold is_u32, zlen; lia).
    rewrite Z.gtb_ltb. apply Z.ltb_ge. unfold zlen. lia. }
  cbv beta iota. eapply parses_bind; [apply pdu_hdr_parse_spec; [done|lia]|].
  eapply parses_bind0; [by apply var_bind_parse_spec; [apply Hp|]|]. cbv beta iota. apply parses_ret.
Qed.

(** *** Version 3 *)
Definition pad (size : nat) (s : list Z) : list Z := s ++ replicate (size - length s) 0.

Definition global_of (h : v3_hdr) : global_data :=
  mk_global (zlen (global_body h)) (h_id h) (zlen (int_bytes (h_id h))) (h_max_size h) (zlen (int_bytes (h_max_size h)))
    (h_flags h) 1 (h_model h) (zlen (int_bytes (h_model h))).

Definition secur_of (h : v3_hdr) (auth priv : list Z) : security_para :=
  mk_secur (zlen (tlv ASN1_TAG_SEQ (secur_body h auth priv))) (zlen (secur_body h auth priv))
    (pad 33 (h_engine_id h)) (zlen (h_engine_id h)) (h_boots h) (zlen (int_bytes (h_boots h)))
    (h_time h) (zlen (int_bytes (h_time h))) (pad 41 (h_user h)) (zlen (h_user h))
    (pad 12 auth) (zlen auth) (pad 8 priv) (zlen priv).

(** The headers the decoder accepts. *)
Definition hdr_ok (h : v3_hdr) (auth priv : list Z) : Prop :=
  is_i32 (h_id h) /\ is_i32 (h_max_size h) /\ is_i32 (h_model h) /\ is_i32 (h_boots h) /\ is_i32 (h_time h) /\
  (length (h_engine_id h) <= 32)%nat /\ (length (h_user h) <= 40)%nat /\
  (auth = [] \/ length auth = 12%nat) /\ (priv = [] \/ length priv = 8%nat).

Lemma global_data_decode_spec h auth priv : hdr_ok h auth priv ->
  parses (global_data_decode e (zlen (global_body h))) (global_body h) (global_of h).
Proof.
  intros (H1 & H2 & H3 & _). unfold global_of. generalize (zlen (global_body h)). intros n.
  unfold global_body, global_data_decode. eapply parses_bind; [by apply parses_int|]. cbv beta iota.
  eapply parses_bind; [by apply parses_int|]. cbv beta iota.
  eapply parses_bind; [apply parses_str; [done|done|cbn; lia]|]. cbv beta iota.
  eapply parses_bind0; [by apply parses_int|]. cbv beta iota.
  split; [done|]. intros pre rest. cbn [app lookup list_lookup]. by rewrite Nat.add_0_r.
Qed.

Lemma not_exactly_ok (s : list Z) n : s = [] \/ length s = Z.to_nat n -> 0 <= n -> not_exactly n (zlen s) = false.
Proof.
  intros [->|H] Hn; [done|]. unfold not_exactly, zlen. rewrite H, Z2Nat.id, Z.eqb_refl by done. apply andb_false_r.
Qed.

Lemma too_long_ok (s : list Z) n : (length s < n)%nat -> (n < 1000)%nat -> too_long (Z.of_nat n) (zlen s) = false.
Proof.
  intros H Hn. unfold too_long. rewrite u32_id, Z.gtb_ltb by (unfold is_u32, zlen; lia). apply Z.ltb_ge. unfold zlen. lia.
Qed.

Lemma zlen_zeros (s : list Z) : zlen (replicate (length s) 0) = zlen s.
Proof. unfold zlen. by rewrite length_replicate. Qed.

Lemma auth_dec_spec auth : auth = [] \/ length auth = 12%nat ->
  parses_as (auth_dec e) (tstr auth) (tstr (replicate (length auth) 0)) (zlen auth, pad 12 auth).
Proof.
  intros Ha. assert (length auth <= 12)%nat as Hl by (destruct Ha as [-> | ->]; cbn; lia).
  split; [unfold tstr; apply Nat2Z.inj; change (zlen (tlv ASN1_TAG_OCTSTR auth) = zlen (tlv ASN1_TAG_OCTSTR (replicate (length auth) 0)));
    by rewrite !zlen_tlv, zlen_zeros|].
  intros pre rest. unfold auth_dec. erewrite run_bind.
  2: { apply parses_str; [unfold zlen; lia|by apply not_exactly_ok|exact Hl]. }
  cbv beta iota. unfold pbind, blank. rewrite Zto_nat_zlen. unfold tstr. rewrite !tlv_thl, zlen_zeros.
  set (hd := thl _ _). rewrite <- !app_assoc.
  rewrite (app_assoc pre hd (auth ++ rest)), (write_at_mid (pre ++ hd) auth (replicate (length auth) 0) rest);
    [|rewrite !length_app; lia|by rewrite length_replicate].
  unfold pret, pad. rewrite <- !app_assoc. do 3 f_equal. by rewrite length_app.
Qed.

Lemma security_parameter_decode_spec h auth priv : hdr_ok h auth priv -> zlen (secur_tlv h auth priv) < 2 ^ 31 ->
  parses_as (security_parameter_decode e) (secur_tlv h auth priv) (secur_tlv h (replicate (length auth) 0) priv)
    (secur_of h auth priv).
Proof.
  intros (_ & _ & _ & H4 & H5 & H6 & H7 & Ha & Hp) Hz.
  assert (zlen (secur_body h (replicate (length auth) 0) priv) = zlen (secur_body h auth priv)) as Eb.
  { unfold secur_body, tstr. rewrite !zlen_app, !zlen_tlv, zlen_zeros. done. }
  assert (zlen (tlv ASN1_TAG_SEQ (secur_body h (replicate (length auth) 0) priv)) =
    zlen (tlv ASN1_TAG_SEQ (secur_body h auth priv))) as Et by (by rewrite !zlen_tlv, Eb).
  unfold secur_of, secur_tlv in *. unfold tstr at 1 2.
  assert (zlen (tlv ASN1_TAG_SEQ (secur_body h auth priv)) < 2 ^ 31 /\ zlen (secur_body h auth priv) < 2 ^ 31) as [Hz1 Hz2]
    by (unfold tstr in Hz; zlens; lia).
  rewrite (tlv_thl ASN1_TAG_OCTSTR (tlv ASN1_TAG_SEQ (secur_body h auth priv))),
    (tlv_thl ASN1_TAG_OCTSTR (tlv ASN1_TAG_SEQ (secur_body h (replicate _ _) priv))), Et.
  pose proof (zlen_nonneg (tlv ASN1_TAG_SEQ (secur_body h auth priv))).
  set (sl := zlen (tlv ASN1_TAG_SEQ (secur_body h auth priv))) in *. clearbody sl.
  rewrite !tlv_thl, Eb. pose proof (zlen_nonneg (secur_body h auth priv)).
  set (pl := zlen (secur_body h auth priv)) in *. clearbody pl. rewrite !thl_app, <- !app_assoc.
  unfold security_parameter_decode, secur_body.
  eapply parses_bind; [apply parses_expect|].
  eapply parses_bind; [apply parses_length; unfold is_u32; lia|]. cbv beta iota.
  eapply parses_bind; [apply parses_expect|].
  eapply parses_bind; [apply parses_length; unfold is_u32; lia|]. cbv beta iota.
  eapply parses_bind; [apply parses_str; [unfold zlen; lia|by apply (too_long_ok _ 33); lia|lia]|]. cbv beta iota.
  eapply parses_bind; [by apply parses_int|]. cbv beta iota. eapply parses_bind; [by apply parses_int|]. cbv beta iota.
  eapply parses_bind; [apply parses_str; [unfold zlen; lia|by apply (too_long_ok _ 41); lia|lia]|]. cbv beta iota.
  eapply parses_bind; [by apply auth_dec_spec|]. cbv beta iota.
  assert (length priv <= 8)%nat by (destruct Hp as [->|Hp]; [cbn|rewrite Hp]; lia).
  eapply parses_bind0; [apply parses_str; [unfold zlen; lia|by apply not_exactly_ok|done]|]. cbv beta iota.
  apply parses_ret.
Qed.

(** The datagram of a version 3 message. *)
Definition sdg3_of (n ver dl : Z) (h : v3_hdr) (auth priv : list Z) (err : Z) (cid name : list Z) (p : pdu_msg) : snmp_datagram :=
  mk_sdg n 0 dl ver (zlen (int_bytes ver)) (global_of h) (secur_of h auth priv) (find_user st (pad 41 (h_user h))) err
    (mk_context (zlen (scoped_body cid name p)) (pad 33 cid) (zlen cid) (pad 41 name) (zlen name)) (pdu_of p)
    0 (zlen (p_bindings p)) 0 (map vb_of (p_bindings p)) [].

(** The user security model turns the data into the scoped PDU. *)
Definition secures (n : Z) (h : v3_hdr) (auth priv : list Z) (pre data rest : list Z) (err : Z) (scoped rest' : list Z) : Prop :=
  user_security junk md5 sha1 aes n (global_of h) (secur_of h auth priv) (find_user st (pad 41 (h_user h)))
    (pre ++ data ++ rest) (length pre) = Some (inr (err, pre ++ scoped ++ rest', length pre)).

Lemma v3_decode_spec n h auth priv pre data rest err cid name p rest' :
  let pre' := pre ++ global_tlv h ++ secur_tlv h (replicate (length auth) 0) priv in
  let hd := [ASN1_TAG_SEQ] ++ len_bytes (zlen (scoped_body cid name p)) ++ tstr cid in
  hdr_ok h auth priv -> zlen (global_tlv h) < 2 ^ 31 -> zlen (secur_tlv h auth priv) < 2 ^ 31 ->
  (length cid <= 32)%nat -> zlen (scoped_tlv cid name p) < 2 ^ 31 ->
  secures n h auth priv pre' data rest err (scoped_tlv cid name p) rest' ->
  v3_decode e junk md5 sha1 aes st n (pre ++ global_tlv h ++ secur_tlv h auth priv ++ data ++ rest) (length pre) =
  Some (inr ((global_of h, secur_of h auth priv, find_user st (pad 41 (h_user h)), err,
              (zlen (scoped_body cid name p), (zlen cid, pad 33 cid))),
             (pre' ++ hd) ++ (tstr name ++ pdu_tlv p) ++ rest', length (pre' ++ hd))).
Proof.
  intros pre' hd Hh Hg Hs Hc Hsc Hsec.
  assert (zlen (global_body h) < 2 ^ 31 /\ zlen (scoped_body cid name p) < 2 ^ 31) as [Hgb Hsb]
    by (unfold global_tlv, scoped_tlv in *; zlens; lia).
  unfold v3_decode, global_tlv at 1. rewrite tlv_thl, thl_app, <- !app_assoc.
  rewrite (run_bind _ _ _ _ _ _ _ (parses_expect ASN1_TAG_SEQ SNMP_ERR_GLOBAL_DATA_LEN)).
  rewrite (run_bind _ _ _ _ _ _ _ (parses_length (zlen (global_body h)) ltac:(apply zlen_u32; lia))). cbv beta iota.
  rewrite (run_bind _ _ _ _ _ _ _ (global_data_decode_spec h auth priv Hh)).
  rewrite (run_bind _ _ _ _ _ _ _ (security_parameter_decode_spec h auth priv Hh Hs)).
  match goal with |- context [(?x ++ secur_tlv h (replicate _ _) priv) ++ data ++ rest] =>
    replace (x ++ secur_tlv h (replicate (length auth) 0) priv) with pre' end.
  2: { subst pre'. unfold global_tlv. rewrite tlv_thl, thl_app. by rewrite <- !app_assoc. }
  unfold pbind at 1. cbn [user_name secur_of]. fold (pad 41 (h_user h)). fold (secur_of h auth priv).
  rewrite Hsec. unfold scoped_tlv. rewrite tlv_thl, thl_app, <- !app_assoc.
  pose proof (zlen_nonneg (scoped_body cid name p)). subst hd. set (sl := zlen (scoped_body cid name p)) in *.
  clearbody sl. unfold scoped_body.
  rewrite (run_bind _ _ _ _ _ _ _ (parses_expect ASN1_TAG_SEQ SNMP_ERR_SCOPE_PDU_SEQ)).
  rewrite (run_bind _ _ _ _ _ _ _ (parses_length sl ltac:(unfold is_u32; lia))). cbv beta iota.
  rewrite <- (app_assoc (tstr cid)). erewrite run_bind; [|apply parses_str; [unfold zlen; lia|by apply (too_long_ok _ 33); lia|lia]].
  unfold pret. fold (pad 33 cid). by rewrite <- !app_assoc.
Qed.

Lemma decode3_spec n ver h auth priv data rest err cid name p rest' :
  let body := message3_body ver h auth priv data in
  let pre := [ASN1_TAG_SEQ] ++ len_bytes (zlen body) ++ tint ver ++ global_tlv h ++ secur_tlv h (replicate (length auth) 0) priv in
  is_i32 ver -> 3 <= ver -> hdr_ok h auth priv -> (length cid <= 32)%nat -> (length name <= 40)%nat -> pdu_ok p ->
  zlen (message3_tlv ver h auth priv data) < 2 ^ 31 -> zlen (scoped_tlv cid name p) < 2 ^ 31 ->
  secures n h auth priv pre data rest err (scoped_tlv cid name p) rest' ->
  snmp_decode e junk md5 sha1 aes st (message3_tlv ver h auth priv data ++ rest) n =
  Some (sdg3_of n ver (zlen body) h auth priv err cid name p).
Proof.
  intros body pre Hv Hv3 Hh Hc Hn Hp Hz Hsc Hsec.
  assert (zlen body < 2 ^ 31) as Hb by (unfold message3_tlv in Hz; fold body in Hz; zlens; lia).
  assert (zlen (global_tlv h) < 2 ^ 31 /\ zlen (secur_tlv h auth priv) < 2 ^ 31) as [Hg Hs]
    by (subst body; unfold message3_body in Hb; zlens; lia).
  assert (zlen (pdu_tlv p) < 2 ^ 31) as Hpl by (unfold scoped_tlv, scoped_body in Hsc; zlens; lia).
  assert (zlen (bindings_bytes (p_bindings p)) < 2 ^ 31) as Hbl by (unfold pdu_tlv, pdu_body in Hpl; zlens; lia).
  unfold snmp_decode, message3_tlv. fold body. rewrite tlv_thl, thl_app.
  subst pre. pose proof (zlen_nonneg body). set (dl := zlen body) in *. clearbody dl. subst body. unfold message3_body.
  rewrite <- !app_assoc. change 1%nat with (length [ASN1_TAG_SEQ]). unfold decode_body.
  rewrite (run_bind _ _ _ _ _ _ _ (parses_length dl ltac:(unfold is_u32; lia))). cbv beta iota.
  rewrite (run_bind _ _ _ _ _ _ _ (parses_int SNMP_ERR_VERSION ver Hv)). cbv beta iota.
  rewrite Z.geb_leb, (proj2 (Z.leb_le 3 ver)) by lia. unfold pbind at 1.
  set (pre := ([ASN1_TAG_SEQ] ++ len_bytes dl) ++ tint ver).
  rewrite (v3_decode_spec n h auth priv pre data rest err cid name p rest');
    [|done..|by subst pre; rewrite <- !app_assoc].
  pose proof (pdu_hdr_parse_spec p Hp ltac:(lia)) as Hhdr. rewrite pdu_tlv_app.
  set (X := [p_type p] ++ _) in *. clearbody X. rewrite <- !(app_assoc (tstr name)), <- (app_assoc X).
  erewrite run_bind; [|apply parses_str; [unfold zlen; lia|by apply (too_long_ok _ 41); lia|lia]]. cbv beta iota.
  rewrite (run_bind _ _ _ _ _ _ _ Hhdr).
  erewrite run_bind; [|by apply var_bind_parse_spec; [apply Hp|]]. done.
Qed.

(** *** The user security model *)

(** The code returned by the digest of the user's mode. *)
Definition mac_ret (u : mib_user) (msg : list Z) : Z :=
  if u_auth_mode u =? SNMP_USER_AUTH_MD5 then fst (md5 msg 16 (take 16 (u_auth_key u)))
  else if u_auth_mode u =? SNMP_USER_AUTH_SHA1 then fst (sha1 msg 20 (take 20 (u_auth_key u)))
  else 1.

(** What [auth_err] should be. *)
Definition verdict (u : mib_user) (auth msg : list Z) : Z :=
  if nz (mac_ret u msg) then SNMP_ERR_STAT_GEN_ERR
  else if decide (take (length auth) (user_mac md5 sha1 u msg) = auth) then 0 else SNMP_ERR_STAT_AUTHORIZATION.

Lemma slice_pad n s : (length s <= n)%nat -> slice 0 (length s) (pad n s) = Some s.
Proof. intros. unfold pad. by apply slice_app. Qed.

Lemma authen_spec h auth priv u msg :
  hmac_ok md5 sha1 -> keys_ok u -> hdr_ok h auth priv ->
  snmp_msg_authen md5 sha1 (secur_of h auth priv) u msg = Some (verdict u auth msg).
Proof.
  intros Hh [Hk _] Hok. destruct Hok as (_ & _ & _ & _ & _ & _ & _ & Ha & _).
  assert (length auth <= 12)%nat as Hl by (destruct Ha as [-> | ->]; cbn; lia).
  unfold snmp_msg_authen, verdict, mac_ret, user_mac. cbn [auth_para_len auth_para secur_of].
  rewrite !slice_take by lia.
  assert (forall r m, (length m <= 20)%nat -> (12 <= length m)%nat ->
    (let* mac := blit m (replicate 20 0) in
     if nz r then Some SNMP_ERR_STAT_GEN_ERR
     else let* a := slice 0 (Z.to_nat (zlen auth)) mac in
          let* b := slice 0 (Z.to_nat (zlen auth)) (pad 12 auth) in
          Some (if decide (a = b) then 0 else SNMP_ERR_STAT_AUTHORIZATION)) =
    Some (if nz r then SNMP_ERR_STAT_GEN_ERR else if decide (take (length auth) m = auth) then 0 else SNMP_ERR_STAT_AUTHORIZATION))
    as Hmac.
  { intros r m H1 H2. destruct (take_blit (length auth) m (replicate 20 0)) as (mem & -> & Hs);
      [by rewrite length_replicate|lia|]. rewrite Zto_nat_zlen, Hs, slice_pad by done. by destruct (nz r). }
  destruct (Hh msg 16 (take 16 (u_auth_key u))) as [H16 _]. destruct (Hh msg 20 (take 20 (u_auth_key u))) as [_ H20].
  destruct (u_auth_mode u =? SNMP_USER_AUTH_MD5); [|destruct (u_auth_mode u =? SNMP_USER_AUTH_SHA1)].
  - destruct (md5 msg 16 (take 16 (u_auth_key u))) as [ret mac]. cbn [fst snd] in *. apply Hmac; lia.
  - destruct (sha1 msg 20 (take 20 (u_auth_key u))) as [ret mac]. cbn [fst snd] in *. apply Hmac; lia.
  - unfold blit. by rewrite decide_True by (cbn; lia).
Qed.

(** A message in clear. *)
Lemma secures_clear n h auth priv pre data rest :
  hmac_ok md5 sha1 -> Forall keys_ok (mib_users st) -> hdr_ok h auth priv -> n = zlen (pre ++ data) ->
  let err := if flag SNMP_SECUR_FLAG_AUTH h then
      match find_user st (pad 41 (h_user h)) with Some u => verdict u auth (pre ++ data) | None => 0 end
    else 0 in
  flag SNMP_SECUR_FLAG_ENCRYPT h = false \/ nz err = true \/ flag SNMP_SECUR_FLAG_AUTH h = false \/
    find_user st (pad 41 (h_user h)) = None ->
  secures n h auth priv pre data rest err data rest.
Proof.
  intros Hh Hk Hok -> err Henc. unfold secures, user_security. cbn [msg_flags global_of].
  change (nz (Z.land (h_flags h) SNMP_SECUR_FLAG_AUTH)) with (flag SNMP_SECUR_FLAG_AUTH h).
  change (nz (Z.land (h_flags h) SNMP_SECUR_FLAG_ENCRYPT)) with (flag SNMP_SECUR_FLAG_ENCRYPT h).
  subst err. destruct (flag SNMP_SECUR_FLAG_AUTH h); [|done].
  destruct (find_user st (pad 41 (h_user h))) as [u|] eqn:Eu; [|done].
  rewrite Zto_nat_zlen, (app_assoc pre), slice_app by done.
  rewrite authen_spec by (done || (unfold find_user in Eu; destruct (mib_user_search st _); [|done];
    by eapply Forall_lookup_1)).
  assert (nz (verdict u auth (pre ++ data)) || negb (flag SNMP_SECUR_FLAG_ENCRYPT h) = true) as ->; [|by rewrite <- app_assoc].
  destruct Henc as [-> | [-> |[?|?]]]; [by rewrite orb_true_r|done|done|done].
Qed.

(** The initialisation vector of the sender. *)
Definition in_iv (h : v3_hdr) (priv : list Z) : list Z := net_bytes (h_boots h) ++ net_bytes (h_time h) ++ priv.

(** An encrypted message with the right digest. *)
Lemma secures_cipher n h auth priv pre C rest u scoped :
  hmac_ok md5 sha1 -> keys_ok u -> hdr_ok h auth priv -> n = zlen (pre ++ tstr C) -> zlen C < 2 ^ 31 ->
  flag SNMP_SECUR_FLAG_AUTH h = true -> flag SNMP_SECUR_FLAG_ENCRYPT h = true ->
  find_user st (pad 41 (h_user h)) = Some u -> verdict u auth (pre ++ tstr C) = 0 ->
  u_priv_mode u = SNMP_USER_ENCRYPT_AES -> length priv = 8%nat ->
  aes (u_priv_key u) (in_iv h priv) C = scoped -> (length scoped <= length (tstr C))%nat ->
  exists rest', secures n h auth priv pre (tstr C) rest 0 scoped rest'.
Proof.
  intros Hh Hk Hok -> HC Hf He Eu Hv Hm Hp Hd Hl. unfold secures, user_security. cbn [msg_flags global_of].
  change (nz (Z.land (h_flags h) SNMP_SECUR_FLAG_AUTH)) with (flag SNMP_SECUR_FLAG_AUTH h).
  change (nz (Z.land (h_flags h) SNMP_SECUR_FLAG_ENCRYPT)) with (flag SNMP_SECUR_FLAG_ENCRYPT h). rewrite Hf, He, Eu.
  exists (drop (length scoped) (tstr C ++ rest)).
  assert (slice 0 (Z.to_nat (zlen (pre ++ tstr C))) (pre ++ tstr C ++ rest) = Some (pre ++ tstr C)) as ->
    by (rewrite Zto_nat_zlen, app_assoc; by apply slice_app).
  rewrite authen_spec, Hv by done. cbn [nz Z.eqb orb negb].
  assert (pre ++ tstr C ++ rest = pre ++ [ASN1_TAG_OCTSTR] ++ len_bytes (zlen C) ++ C ++ rest) as E
    by (unfold tstr; by rewrite tlv_thl, thl_app, <- !app_assoc).
  rewrite E, (run_bind _ _ _ _ _ _ _ (parses_expect ASN1_TAG_OCTSTR SNMP_ERR_ENCRYPT_PDU_TAG)).
  rewrite (run_bind _ _ _ _ _ _ _ (parses_length (zlen C) ltac:(apply zlen_u32; lia))). cbv beta iota.
  rewrite Zto_nat_zlen, (slice_mid _ C rest) by done. unfold snmp_msg_decrypt. rewrite Hm.
  change (SNMP_USER_ENCRYPT_AES =? SNMP_USER_ENCRYPT_AES) with true. cbn [priv_para_len priv_para engine_boots engine_time secur_of].
  rewrite Zto_nat_zlen, slice_pad, blit_all by (rewrite ?length_replicate; lia). fold (in_iv h priv). rewrite Hd.
  rewrite <- !app_assoc, <- E.
  rewrite <- (take_drop (length scoped) (tstr C ++ rest)) at 1.
  rewrite write_at_mid; [done|done|]. rewrite length_take, length_app. lia.
Qed.
End Roundtrip.

(** ** Properties *)

(** The request as it is processed: the PDU type is that of the answer. *)
Definition as_response (s : snmp_datagram) : snmp_datagram := set_pdu (set_pdu_type SNMP_RESP (pdu s)) s.

Lemma sdg_of_fresh junk n v name p :
  is_i32 v -> v < 3 -> (length name <= 40)%nat -> pdu_ok p -> fresh (as_response (sdg_of junk n v name p)) name.
Proof.
  intros Hv H3 Hn (Hr & _). unfold fresh, unanswered, as_response, int_rep, str_rep. cbn. split_and!; try done.
  by apply slice_app.
Qed.

Lemma message_tlv_split v name p : message_tlv v name p =
  [ASN1_TAG_SEQ] ++ len_bytes (zlen (msg_body v name p)) ++ msg_body v name p.
Proof. unfold message_tlv. by rewrite tlv_thl, thl_app, <- app_assoc. Qed.

Lemma snmp_decode_message e junk md5 sha1 aes st n v name p rest :
  is_i32 v -> v < 3 -> (length name <= 40)%nat -> pdu_ok p -> zlen (message_tlv v name p) < 2 ^ 31 ->
  snmp_decode e junk md5 sha1 aes st (message_tlv v name p ++ rest) n = Some (sdg_of junk n v name p).
Proof.
  intros Hv H3 Hn Hp Hz. rewrite message_tlv_split, <- app_assoc. unfold snmp_decode.
  destruct (decode_body_spec e junk md5 sha1 aes st n v name p Hv H3 Hn Hp Hz) as [_ H]. change 1%nat with (length [ASN1_TAG_SEQ]).
  by rewrite H.
Qed.

(** What is received and passes the first checks is decoded and dispatched. *)
Lemma snmp_recv_tlv {L} lua_pcall e junk root st md5 sha1 enc dec r1 r2 body rest (s : snmp_datagram) (l : L) :
  zlen (tlv ASN1_TAG_SEQ body) < 2 ^ 31 ->
  snmp_recv lua_pcall e junk root st md5 sha1 enc dec r1 r2 (tlv ASN1_TAG_SEQ body ++ rest) (zlen (tlv ASN1_TAG_SEQ body)) s l =
  (let* s' := snmp_decode e junk md5 sha1 dec st (tlv ASN1_TAG_SEQ body ++ rest) (zlen (tlv ASN1_TAG_SEQ body)) in
   snmp_request_dispatch lua_pcall e junk root st md5 sha1 enc r1 r2 s' l).
Proof.
  intros Hz. pose proof (zlen_tlv_lt ASN1_TAG_SEQ body) as Hlt. pose proof (zlen_nonneg body). unfold snmp_recv.
  rewrite (proj2 (Z.leb_gt _ 0)) by lia. set (n := zlen (tlv ASN1_TAG_SEQ body)) in *.
  assert (n = 1 + zlen (len_bytes (zlen body)) + zlen body) as En by apply zlen_tlv. clearbody n.
  rewrite tlv_thl, thl_app, <- !app_assoc. set (X := snmp_decode _ _ _ _ _ _ _ _). clearbody X.
  cbn [app lookup list_lookup]. rewrite Z.eqb_refl. cbn [negb drop].
  rewrite drop_0, ber_length_dec_bytes by (unfold is_u32; lia). by rewrite <- En, Z.eqb_refl.
Qed.

(** C28: every request of version 1 or 2c in the reference encoding, whatever
    follows it in the buffer, is decoded to its version, community, PDU header
    and bindings, each with its identifier and its undecoded value. *)
Theorem snmp_decode_roundtrip e junk md5 sha1 aes (st : view_state) (n v : Z) (name : list Z) (p : pdu_msg) (rest : list Z)
    (Hv : is_i32 v) (H3 : v < 3) (Hn : (length name <= 40)%nat) (Hp : pdu_ok p) (Hz : zlen (message_tlv v name p) < 2 ^ 31) :
  snmp_decode e junk md5 sha1 aes st (message_tlv v name p ++ rest) n = Some (sdg_of junk n v name p).
Proof. by apply snmp_decode_message. Qed.

Definition in_pdu (t : Z) : pdu_msg :=
  mk_pdu_msg t 1234 0 0 [mk_binding [1; 3; 6; 1; 1; 0] ASN1_TAG_NUL []; mk_binding [1; 3; 6; 9] ASN1_TAG_NUL []].

Lemma in_pdu_ok t : pdu_ok (in_pdu t).
Proof.
  split_and!; try (split; vm_compute; discriminate || reflexivity).
  do 2 (apply Forall_cons; split; [split_and!; [split; [by repeat constructor|]; cbn; eauto with lia|cbn; lia|vm_compute; discriminate|vm_compute; reflexivity]|]).
  apply Forall_nil_2.
Qed.

Lemma snmp_decode_roundtrip_witness :
  snmp_decode LE 0 (fun _ _ _ => (0, [])) (fun _ _ _ => (0, [])) (fun _ _ t => t) view_init
    (message_tlv 1 example_name (in_pdu SNMP_REQ_GET) ++ [1; 2; 3]) 50 =
  Some (sdg_of 0 50 1 example_name (in_pdu SNMP_REQ_GET)).
Proof.
  apply snmp_decode_roundtrip; [split; lia|lia|cbn; lia|apply in_pdu_ok|vm_compute; reflexivity].
Defined.

(** The answers to a request type. *)
Definition answers_to {L} lua_pcall e junk (root : mib_node) (st : view_state) (request : Z) : @answerer L :=
  if request =? SNMP_REQ_GET then get_ans e (mib_get lua_pcall e junk root st)
  else if request =? SNMP_REQ_GETNEXT then get_ans e (mib_getnext lua_pcall e junk root st)
  else set_ans lua_pcall e junk root st.

(** The handlers collect the answers and hand them to [snmp_response]. *)
Lemma dispatch_collect {L} lua_pcall e junk root st md5 sha1 enc r1 r2 (s : snmp_datagram) request (l l' : L) r' bs :
  request ∈ [SNMP_REQ_GET; SNMP_REQ_GETNEXT; SNMP_REQ_SET] -> pdu_type (pdu s) = request -> vb_in_cnt s <> 0 ->
  counters_u32 s -> zlen bs < 2 ^ 31 ->
  collect (answers_to lua_pcall e junk root st request) (as_response s) (vb_in_list s) l (ret_oid_init request) = Some (l', r', bs) ->
  exists outs, Forall2 vb_rep outs (bs.*2) /\
    snmp_request_dispatch lua_pcall e junk root st md5 sha1 enc r1 r2 s l =
    (let* (s', msg) := snmp_response e junk md5 sha1 enc r1 r2 (add_answers outs bs 1 (as_response s)) in Some (l', s', Some msg)).
Proof.
  intros Hreq Ht Hc Hu Hl Hcol. pose proof (collect_length _ _ _ _ _ _ _ _ Hcol) as Hlen.
  assert (forall step ans, step_answers e step ans -> access_only ans ->
    collect ans (as_response s) (vb_in_list s) l (ret_oid_init request) = Some (l', r', bs) ->
    exists outs, Forall2 vb_rep outs (bs.*2) /\ for_each step (vb_in_list s) (mk_pstate l (ret_oid_init request) 0 (as_response s)) =
      Some (mk_pstate l' r' (0 + zlen (vb_in_list s)) (add_answers outs bs 1 (as_response s)))) as Hfor.
  { intros step ans Hst Ha Hca. destruct (for_each_answers e step ans (vb_in_list s) Hst Ha (as_response s) l _ 0 l' r' bs Hu Hca)
      as (outs & Ho & _ & E); [lia|unfold zlen in *; lia|by exists outs]. }
  unfold snmp_request_dispatch. rewrite Ht, (proj2 (Z.eqb_neq _ 0)) by done. cbv beta zeta. fold (as_response s).
  unfold snmp_get, snmp_getnext, snmp_set. change (vb_in_list (as_response s)) with (vb_in_list s).
  rewrite !elem_of_cons, elem_of_nil in Hreq. destruct Hreq as [-> |[-> |[-> |[]]]]; unfold answers_to in Hcol.
  - destruct (Hfor _ _ (get_step_answers e junk _) (mib_get_access lua_pcall e junk root st) Hcol) as (outs & Ho & E).
    exists outs. split; [done|]. change (SNMP_REQ_GET =? SNMP_REQ_GET) with true. cbv iota. rewrite E. cbn [ps_sdg ps_lua].
    by destruct (snmp_response _ _ _ _ _ _ _ _) as [[? ?]|].
  - destruct (Hfor _ _ (get_step_answers e junk _) (mib_getnext_access lua_pcall e junk root st) Hcol) as (outs & Ho & E).
    exists outs. split; [done|]. change (SNMP_REQ_GETNEXT =? SNMP_REQ_GET) with false. change (SNMP_REQ_GETNEXT =? SNMP_REQ_GETNEXT) with true.
    cbv iota. rewrite E. cbn [ps_sdg ps_lua]. by destruct (snmp_response _ _ _ _ _ _ _ _) as [[? ?]|].
  - destruct (Hfor _ _ (set_step_answers lua_pcall e junk root st) (mib_set_access lua_pcall e junk root st) Hcol) as (outs & Ho & E).
    exists outs. split; [done|]. change (SNMP_REQ_SET =? SNMP_REQ_GET) with false. change (SNMP_REQ_SET =? SNMP_REQ_GETNEXT) with false.
    change (SNMP_REQ_SET =? SNMP_REQ_SET) with true. cbv iota. rewrite E. cbn [ps_sdg ps_lua].
    by destruct (snmp_response _ _ _ _ _ _ _ _) as [[? ?]|].
Qed.

Lemma dispatch_reply {L} lua_pcall e junk root st md5 sha1 enc r1 r2 (s : snmp_datagram) name request (l l' : L) r' bs :
  request ∈ [SNMP_REQ_GET; SNMP_REQ_GETNEXT; SNMP_REQ_SET] -> pdu_type (pdu s) = request -> vb_in_cnt s <> 0 ->
  fresh (as_response s) name -> reply_ok (as_response s) name bs ->
  collect (answers_to lua_pcall e junk root st request) (as_response s) (vb_in_list s) l (ret_oid_init request) = Some (l', r', bs) ->
  exists s', snmp_request_dispatch lua_pcall e junk root st md5 sha1 enc r1 r2 s l =
    Some (l', s', Some (reply (as_response s) name bs)).
Proof.
  intros Hreq Ht Hc Hf Hok Hcol. pose proof Hok as [(_ & _ & _ & _ & _ & Hl) _].
  destruct (dispatch_collect lua_pcall e junk root st md5 sha1 enc r1 r2 s request l l' r' bs Hreq Ht Hc
    (fresh_counters (as_response s) name Hf) ltac:(lia) Hcol) as (outs & Ho & ->).
  destruct (reply_spec e junk md5 sha1 enc r1 r2 (as_response s) name outs bs Hf Hok Ho) as (s' & ->). by exists s'.
Qed.

(** C1: receiving a well-formed GET, GETNEXT or SET request of version 1 or 2c
    sends the well-formed response with the request's version, community and
    identifier, one answer per binding in their order, and the status and the
    position of the first answer in error. *)
Theorem snmp_recv_replies {L} lua_pcall e junk (root : mib_node) (st : view_state) md5 sha1 enc dec r1 r2
    (v : Z) (name : list Z) (request id : Z) (bindings : list binding) (rest : list Z) (s : snmp_datagram) (l l' : L)
    (r' : oid_search_res) (bs : list (Z * binding))
    (Hreq : request ∈ [SNMP_REQ_GET; SNMP_REQ_GETNEXT; SNMP_REQ_SET])
    (Hv : is_i32 v) (H3 : v < 3) (Hn : (length name <= 40)%nat) (Hp : pdu_ok (mk_pdu_msg request id 0 0 bindings))
    (Hne : bindings <> []) (Hz : zlen (message_tlv v name (mk_pdu_msg request id 0 0 bindings)) < 2 ^ 31) :
  let msg := message_tlv v name (mk_pdu_msg request id 0 0 bindings) in
  let out := message_tlv v name
    (mk_pdu_msg SNMP_RESP id (first_error (bs.*1) 1).1 (first_error (bs.*1) 1).2 (bs.*2)) in
  collect (answers_to lua_pcall e junk root st request)
    (as_response (sdg_of junk (zlen msg) v name (mk_pdu_msg request id 0 0 bindings))) (map (vb_of junk) bindings) l
    (ret_oid_init request) = Some (l', r', bs) ->
  Forall (fun x => -128 <= x < 128) (bs.*1) -> zlen bindings < 128 -> zlen out < 2 ^ 32 ->
  length bs = length bindings /\
  exists s', snmp_recv lua_pcall e junk root st md5 sha1 enc dec r1 r2 (msg ++ rest) (zlen msg) s l = Some (l', s', Some out).
Proof.
  intros msg out Hc He Hl Ho. set (p := mk_pdu_msg request id 0 0 bindings) in *.
  assert (length bs = length bindings) as Hlen by (erewrite collect_length by done; apply length_map). split; [done|].
  pose proof (snmp_decode_message e junk md5 sha1 dec st (zlen msg) v name p rest Hv H3 Hn Hp Hz) as Hd. fold msg in Hd.
  unfold msg, message_tlv in *. rewrite snmp_recv_tlv, Hd by done. set (n := zlen (tlv _ _)) in *.
  assert (reply (as_response (sdg_of junk n v name p)) name bs = out) as Er.
  { unfold reply, answer_pdu, out. destruct (first_error (bs.*1) 1) as [stat idx]. reflexivity. }
  rewrite <- Er. eapply (dispatch_reply _ _ _ _ _ _ _ _ _ _ _ name request); [done|done| | | |exact Hc].
  - cbn. destruct bindings; [done|]. rewrite zlen_cons. pose proof (zlen_nonneg bindings). lia.
  - by apply sdg_of_fresh.
  - unfold reply_ok, answers_ok. rewrite Er. split_and!; try done. unfold zlen in *. lia.
Qed.

Lemma snmp_recv_replies_witness :
  exists s', snmp_recv (table_handler example_table) LE 0 example_root proc_state
      (fun _ _ _ => (0, [])) (fun _ _ _ => (0, [])) (fun _ _ t => t) (fun _ _ t => t) 0 0
      (message_tlv 1 example_name (in_pdu SNMP_REQ_GETNEXT) ++ [])
      (zlen (message_tlv 1 example_name (in_pdu SNMP_REQ_GETNEXT))) snmp_datagram_clear tt =
    Some (tt, s', Some (message_tlv 1 example_name
      (mk_pdu_msg SNMP_RESP 1234 0 0 [mk_binding [1; 3; 6; 1; 2; 0] ASN1_TAG_INT [42];
                                      mk_binding [1; 3; 6; 9] ASN1_TAG_END_OF_MIB_VIEW []]))).
Proof.
  set (ask := collect (answers_to (table_handler example_table) LE 0 example_root proc_state SNMP_REQ_GETNEXT)
    (as_response (sdg_of 0 (zlen (message_tlv 1 example_name (in_pdu SNMP_REQ_GETNEXT))) 1 example_name (in_pdu SNMP_REQ_GETNEXT)))
    (map (vb_of 0) (p_bindings (in_pdu SNMP_REQ_GETNEXT))) tt (ret_oid_init SNMP_REQ_GETNEXT)).
  assert (match ask with Some (_, _, b) => b | None => [] end = proc_answers) as Hb by (vm_compute; reflexivity).
  destruct ask as [[[[] r'] bs]|] eqn:E; [|discriminate Hb]. cbv beta iota in Hb. subst bs.
  destruct (snmp_recv_replies (table_handler example_table) LE 0 example_root proc_state
    (fun _ _ _ => (0, [])) (fun _ _ _ => (0, [])) (fun _ _ t => t) (fun _ _ t => t) 0 0 1 example_name SNMP_REQ_GETNEXT 1234
    (p_bindings (in_pdu SNMP_REQ_GETNEXT)) [] snmp_datagram_clear tt tt r' proc_answers) as [_ (s' & H)].
  - right. left.
  - split; lia.
  - lia.
  - cbn. lia.
  - apply in_pdu_ok.
  - discriminate.
  - vm_compute. reflexivity.
  - exact E.
  - do 2 (apply Forall_cons; split; [cbn; lia|]). apply Forall_nil_2.
  - vm_compute. reflexivity.
  - vm_compute. reflexivity.
  - exists s'. exact H.
Defined.

(** The status and the position that a GETBULK response reports. *)
Definition bulk_status (non_repeaters : Z) (errs : list Z) : Z * Z :=
  if non_repeaters =? 0 then first_error errs 1 else (non_repeaters, 0).

(** A GETBULK request is decoded and processed. *)
Lemma recv_bulk_dispatch {L} lua_pcall e junk (root : mib_node) (st : view_state) md5 sha1 enc dec r1 r2 v name p rest
    (s : snmp_datagram) (l : L) :
  is_i32 v -> v < 3 -> (length name <= 40)%nat -> pdu_ok p -> p_type p = SNMP_REQ_BULKGET -> p_bindings p <> [] ->
  zlen (message_tlv v name p) < 2 ^ 31 ->
  let msg := message_tlv v name p in
  snmp_recv lua_pcall e junk root st md5 sha1 enc dec r1 r2 (msg ++ rest) (zlen msg) s l =
  match snmp_bulkget lua_pcall e junk root st (snmp_response e junk md5 sha1 enc r1 r2) (as_response (sdg_of junk (zlen msg) v name p)) l with
  | Some (l1, s1, m) => Some (l1, s1, Some m)
  | None => None
  end.
Proof.
  intros Hv H3 Hn Hp Ht Hne Hz msg.
  pose proof (snmp_decode_message e junk md5 sha1 dec st (zlen msg) v name p rest Hv H3 Hn Hp Hz) as Hd. fold msg in Hd.
  unfold msg, message_tlv in *. rewrite snmp_recv_tlv, Hd by done. unfold snmp_request_dispatch.
  change (pdu_type (pdu (sdg_of junk _ v name p))) with (p_type p). rewrite Ht. cbn [vb_in_cnt sdg_of].
  rewrite (proj2 (Z.eqb_neq (zlen (p_bindings p)) 0)).
  2: { destruct (p_bindings p); [done|]. rewrite zlen_cons. pose proof (zlen_nonneg l0). lia. }
  change (SNMP_REQ_BULKGET =? SNMP_REQ_GET) with false. change (SNMP_REQ_BULKGET =? SNMP_REQ_GETNEXT) with false.
  change (SNMP_REQ_BULKGET =? SNMP_REQ_SET) with false. change (SNMP_REQ_BULKGET =? SNMP_REQ_BULKGET) with true. cbv iota zeta.
  reflexivity.
Qed.

(** C34: receiving a well-formed GETBULK request of version 1 or 2c with bindings and
    any number of non-repeaters and max-repetitions makes max-repetitions rounds of
    answers for every binding, each round continuing from the identifiers of the
    round before.  The number of non-repeaters is not used, except that it is sent
    back as the error status when it is not zero.  The error index is announced
    with the length of max-repetitions: if its own length is the same (below 128
    both take one octet) the reply is the response with these answers; if it is
    shorter the reply is malformed, the announced length taking in octets of what
    follows and the message ending with what was in memory; and if it is longer
    the allocation is overrun. *)
Theorem snmp_recv_bulk {L} lua_pcall e junk (root : mib_node) (st : view_state) md5 sha1 enc dec r1 r2
    (v : Z) (name : list Z) (id non_repeaters max_repetitions : Z) (bindings : list binding) (rest : list Z)
    (s : snmp_datagram) (l l' : L) (r' : oid_search_res) (bs : list (Z * binding)) (next : list var_bind)
    (Hv : is_i32 v) (H3 : v < 3) (Hn : (length name <= 40)%nat)
    (Hp : pdu_ok (mk_pdu_msg SNMP_REQ_BULKGET id non_repeaters max_repetitions bindings)) (Hne : bindings <> [])
    (Hmr : 0 <= max_repetitions)
    (Hz : zlen (message_tlv v name (mk_pdu_msg SNMP_REQ_BULKGET id non_repeaters max_repetitions bindings)) < 2 ^ 31) :
  let msg := message_tlv v name (mk_pdu_msg SNMP_REQ_BULKGET id non_repeaters max_repetitions bindings) in
  let s0 := as_response (sdg_of junk (zlen msg) v name (mk_pdu_msg SNMP_REQ_BULKGET id non_repeaters max_repetitions bindings)) in
  let out := mk_pdu_msg SNMP_RESP id (bulk_status non_repeaters (bs.*1)).1 (bulk_status non_repeaters (bs.*1)).2 (bs.*2) in
  let announced := zlen (int_bytes max_repetitions) in
  let written := zlen (int_bytes (p_err_idx out)) in
  let received := snmp_recv lua_pcall e junk root st md5 sha1 enc dec r1 r2 (msg ++ rest) (zlen msg) s l in
  bulk_collect junk (get_ans e (mib_getnext lua_pcall e junk root st)) (Z.to_nat max_repetitions)
    (set_pdu (set_err non_repeaters 0 (pdu s0)) s0) (map (vb_of junk) bindings) l (ret_oid_init SNMP_REQ_GETNEXT) =
    Some (l', r', bs, next) ->
  Forall (fun x => -128 <= x < 128) (bs.*1) -> zlen (message_tlv v name (with_index max_repetitions out)) < 2 ^ 32 ->
  length bs = (Z.to_nat max_repetitions * length bindings)%nat /\
  (written = announced -> exists s', received = Some (l', s', Some (message_tlv v name out))) /\
  (written < announced -> exists s', received = Some (l', s', Some (tlv ASN1_TAG_SEQ (tint v ++ tstr name ++
    tlv SNMP_RESP (tint id ++ tint (p_err_stat out) ++ thl ASN1_TAG_INT announced ++ int_bytes (p_err_idx out) ++
      tlv ASN1_TAG_SEQ (bindings_bytes (bs.*2)) ++ replicate (Z.to_nat (announced - written)) junk))))) /\
  (announced < written -> received = None).
Proof.
  intros msg s0 out announced written received Hc He Ho. set (p := mk_pdu_msg SNMP_REQ_BULKGET id non_repeaters max_repetitions bindings) in *.
  pose proof Hp as (_ & Hnr & Hk & _).
  assert (bulk_pdu s0 bs = out) as Er.
  { unfold bulk_pdu, bulk_error, out, bulk_status. change (err_stat (pdu s0)) with non_repeaters. by destruct (_ =? 0). }
  destruct (bulkget_reply lua_pcall e junk root st md5 sha1 enc r1 r2 s0 name l l' r' bs next) as [Hlen E];
    [by apply sdg_of_fresh|by split|by split|done|exact Hc|exact He|by rewrite Er|].
  change (err_idx (pdu s0)) with max_repetitions in *. change (vb_in_list s0) with (map (vb_of junk) bindings) in Hlen.
  rewrite length_map in Hlen. split; [exact Hlen|]. rewrite Er in E. change (version s0) with v in E.
  assert (received = match snmp_bulkget lua_pcall e junk root st (snmp_response e junk md5 sha1 enc r1 r2) s0 l with
    | Some (l1, s1, m) => Some (l1, s1, Some m) | None => None end) as -> by by apply recv_bulk_dispatch.
  split_and!; intros Hw.
  - rewrite index_message_same in E by done. destruct E as (s' & ->). by exists s'.
  - unfold index_message, index_body in E. fold announced written in E. cbv zeta in E.
    rewrite (proj2 (Z.ltb_ge _ _)) in E by lia. destruct E as (s' & ->). exists s'. by rewrite <- !app_assoc.
  - unfold index_message in E. fold announced written in E. cbv zeta in E. rewrite (proj2 (Z.ltb_lt _ _)) in E by lia. by rewrite E.
Qed.

(** One round for each repetition, for one binding. *)
Definition in_vars : list binding := [mk_binding [1; 3; 6] ASN1_TAG_NUL []].

Abbreviation in_bulk x y := (mk_pdu_msg SNMP_REQ_BULKGET 1234 x y in_vars).

Lemma in_bulk_ok x y : is_i32 x -> is_i32 y -> pdu_ok (in_bulk x y).
Proof.
  intros Hx Hy. split_and!; [split; vm_compute; discriminate || reflexivity|done|done|].
  apply Forall_cons; split; [|apply Forall_nil_2].
  split_and!; [split; [by repeat constructor|]; cbn; eauto with lia|cbn; lia|vm_compute; discriminate|vm_compute; reflexivity].
Qed.

Abbreviation in_bulk_sdg x y := (as_response (sdg_of 0 (zlen (message_tlv 1 example_name (in_bulk x y))) 1 example_name (in_bulk x y))).

Abbreviation in_bulk_ask x y :=
  (bulk_collect 0 (get_ans LE (mib_getnext (table_handler example_table) LE 0 example_root proc_state)) (Z.to_nat y)
    (set_pdu (set_err x 0 (pdu (in_bulk_sdg x y))) (in_bulk_sdg x y)) (map (vb_of 0) in_vars) tt (ret_oid_init SNMP_REQ_GETNEXT)).

Definition in_bulk_answers (x y : Z) : list (Z * binding) := match in_bulk_ask x y with Some (_, _, b, _) => b | None => [] end.

Definition three_answers : list (Z * binding) :=
  [(0, mk_binding [1; 3; 6; 1; 1; 0] ASN1_TAG_INT [42]); (0, mk_binding [1; 3; 6; 1; 2; 0] ASN1_TAG_INT [42]);
   (0, mk_binding [1; 3; 6; 4; 0] ASN1_TAG_INT [42])].

Abbreviation in_bulk_recv x y :=
  (snmp_recv (table_handler example_table) LE 0 example_root proc_state
    (fun _ _ _ => (0, [])) (fun _ _ _ => (0, [])) (fun _ _ t => t) (fun _ _ t => t) 0 0
    (message_tlv 1 example_name (in_bulk x y) ++ []) (zlen (message_tlv 1 example_name (in_bulk x y))) snmp_datagram_clear tt).

Lemma no_errors errs : forallb (fun x => x =? 0) errs = true -> Forall (fun x => -128 <= x < 128) errs.
Proof. intros H. apply Forall_forall. intros x Hx%list_elem_of_In. rewrite forallb_forall in H. apply H in Hx. lia. Qed.

(** Three rounds: the number of non-repeaters comes back as the error status.
    For 128 rounds the reply ends with an octet of memory. *)
Lemma snmp_recv_bulk_witness :
  (exists s', in_bulk_recv 1 3 = Some (tt, s', Some (message_tlv 1 example_name
      (mk_pdu_msg SNMP_RESP 1234 1 0 (three_answers.*2))))) /\
  (exists s', in_bulk_recv 0 128 = Some (tt, s', Some (tlv ASN1_TAG_SEQ (tint 1 ++ tstr example_name ++
    tlv SNMP_RESP (tint 1234 ++ tint 0 ++ thl ASN1_TAG_INT 2 ++ int_bytes 0 ++
      tlv ASN1_TAG_SEQ (bindings_bytes ((in_bulk_answers 0 128).*2)) ++ replicate 1 0))))).
Proof.
  split.
  - destruct (in_bulk_ask 1 3) as [[[[[] r'] bs] next]|] eqn:E; [|exfalso; revert E; by vm_compute].
    assert (bs = in_bulk_answers 1 3) as -> by (unfold in_bulk_answers; by rewrite E).
    destruct (snmp_recv_bulk (table_handler example_table) LE 0 example_root proc_state
      (fun _ _ _ => (0, [])) (fun _ _ _ => (0, [])) (fun _ _ t => t) (fun _ _ t => t) 0 0 1 example_name 1234 1 3
      in_vars [] snmp_datagram_clear tt tt r' (in_bulk_answers 1 3) next) as (_ & H & _).
    1, 2: unfold is_i32; lia.
    1: cbn; lia.
    1: apply in_bulk_ok; unfold is_i32; lia.
    1, 2, 3: done.
    1: exact E.
    1: apply no_errors; by vm_compute.
    1: by vm_compute.
    cbv zeta in H. destruct H as (s' & Hs'); [by vm_compute|]. exists s'.
    assert (in_bulk_answers 1 3 = three_answers) as Eb by (vm_compute; reflexivity). rewrite Eb in Hs'. exact Hs'.
  - destruct (in_bulk_ask 0 128) as [[[[[] r'] bs] next]|] eqn:E; [|exfalso; revert E; by vm_compute].
    assert (bs = in_bulk_answers 0 128) as -> by (unfold in_bulk_answers; by rewrite E).
    destruct (snmp_recv_bulk (table_handler example_table) LE 0 example_root proc_state
      (fun _ _ _ => (0, [])) (fun _ _ _ => (0, [])) (fun _ _ t => t) (fun _ _ t => t) 0 0 1 example_name 1234 0 128
      in_vars [] snmp_datagram_clear tt tt r' (in_bulk_answers 0 128) next) as (_ & _ & H & _).
    1, 2: unfold is_i32; lia.
    1: cbn; lia.
    1: apply in_bulk_ok; unfold is_i32; lia.
    1, 2, 3: done.
    1: exact E.
    1: apply no_errors; by vm_compute.
    1: by vm_compute.
    assert (bulk_status 0 ((in_bulk_answers 0 128).*1) = (0, 0)) as Eb by (vm_compute; reflexivity).
    cbv zeta in H. rewrite Eb in H. destruct H as (s' & Hs'); [by vm_compute|]. exists s'. exact Hs'.
Defined.

(** *** Version 3 *)

(** The bytes before the scoped PDU, once the authentication parameter is
    blanked, and the message they start. *)
Lemma message3_blank ver h auth priv data :
  let body := message3_body ver h auth priv data in
  ([ASN1_TAG_SEQ] ++ len_bytes (zlen body) ++ tint ver ++ global_tlv h ++ secur_tlv h (replicate (length auth) 0) priv) ++ data =
    message3_tlv ver h (replicate (length auth) 0) priv data /\
  zlen (message3_tlv ver h (replicate (length auth) 0) priv data) = zlen (message3_tlv ver h auth priv data).
Proof.
  intros body.
  assert (zlen (message3_body ver h (replicate (length auth) 0) priv data) = zlen body) as Eb.
  { subst body. unfold message3_body, secur_tlv, secur_body, tstr.
    repeat rewrite ?zlen_app, ?zlen_tlv. by rewrite zlen_zeros. }
  unfold message3_tlv. split; [|by rewrite !zlen_tlv, Eb].
  rewrite tlv_thl, thl_app, Eb. unfold message3_body. by rewrite <- !app_assoc.
Qed.

Definition in_hmac (d : list Z) (n : Z) (_ : list Z) : Z * list Z := (0, replicate (Z.to_nat n) (u8 (zlen d))).

Lemma in_hmac_ok : hmac_ok in_hmac in_hmac.
Proof. intros d n k. split; apply length_replicate. Qed.

Definition in_hdr (flags : Z) : v3_hdr := mk_v3 9 1472 flags 3 snmpv3_engine_id 1 300 [97; 100; 109; 105; 110].

Lemma in_hdr_ok flags auth priv : auth = [] \/ length auth = 12%nat -> priv = [] \/ length priv = 8%nat ->
  hdr_ok (in_hdr flags) auth priv.
Proof. intros Ha Hp. split_and!; try (split; vm_compute; discriminate || reflexivity); try (cbn; lia); done. Qed.

Lemma proc_state_keys : Forall keys_ok (mib_users proc_state).
Proof. vm_compute. by repeat constructor. Qed.

(** C25: a version 3 request in clear is decoded to its header, security
    parameters, context and bindings; [auth_err] is 0 exactly when the
    authentication parameter is that many bytes of the user's digest of the
    message with this parameter zeroed.  Nothing is verified when the
    authentication flag is missing or the user is unknown. *)
Theorem snmp_decode_v3_clear e junk md5 sha1 aes (st : view_state) (ver : Z) (h : v3_hdr) (auth priv cid name : list Z)
    (p : pdu_msg) (rest : list Z) (Hh : hmac_ok md5 sha1) (Hk : Forall keys_ok (mib_users st))
    (Hv : is_i32 ver) (H3 : 3 <= ver) (Hok : hdr_ok h auth priv) (Hc : (length cid <= 32)%nat)
    (Hn : (length name <= 40)%nat) (Hp : pdu_ok p)
    (Hz : zlen (message3_tlv ver h auth priv (scoped_tlv cid name p)) < 2 ^ 31)
    (Hf : flag SNMP_SECUR_FLAG_ENCRYPT h = false) :
  let data := scoped_tlv cid name p in
  let msg := message3_tlv ver h auth priv data in
  let zeroed := message3_tlv ver h (replicate (length auth) 0) priv data in
  let err := if flag SNMP_SECUR_FLAG_AUTH h then
      match find_user st (pad 41 (h_user h)) with Some u => verdict md5 sha1 u auth zeroed | None => 0 end
    else 0 in
  snmp_decode e junk md5 sha1 aes st (msg ++ rest) (zlen msg) =
  Some (sdg3_of junk st (zlen msg) ver (zlen (message3_body ver h auth priv data)) h auth priv err cid name p).
Proof.
  intros data msg zeroed err. pose proof (message3_blank ver h auth priv data) as [Eb Ez]. cbv zeta in Eb.
  eapply decode3_spec; [done..| |].
  - unfold message3_tlv, message3_body in Hz. zlens. lia.
  - subst err zeroed. rewrite <- Eb. apply secures_clear; [done..|exact (eq_trans (eq_sym Ez) (f_equal zlen (eq_sym Eb)))|by left].
Qed.

Lemma snmp_decode_v3_clear_witness :
  exists s, snmp_decode LE 0 in_hmac in_hmac (fun _ _ t => t) proc_state
      (message3_tlv 3 (in_hdr 1) (replicate 12 126) [] (scoped_tlv snmpv3_engine_id [] (in_pdu SNMP_REQ_GET)) ++ [])
      (zlen (message3_tlv 3 (in_hdr 1) (replicate 12 126) [] (scoped_tlv snmpv3_engine_id [] (in_pdu SNMP_REQ_GET)))) = Some s /\
    auth_err s = 0 /\ user s = proc_user.
Proof.
  eexists. split.
  - apply (snmp_decode_v3_clear LE 0 in_hmac in_hmac (fun _ _ t => t) proc_state 3 (in_hdr 1) (replicate 12 126) []
      snmpv3_engine_id [] (in_pdu SNMP_REQ_GET) []).
    + apply in_hmac_ok.
    + apply proc_state_keys.
    + split; lia.
    + lia.
    + apply in_hdr_ok; [by right|by left].
    + cbn. lia.
    + cbn. lia.
    + apply in_pdu_ok.
    + vm_compute. reflexivity.
    + reflexivity.
  - split; vm_compute; reflexivity.
Defined.

(** A version 3 request whose scoped PDU is encrypted is decoded to the
    bindings of the plain text, provided that its digest is right and the
    cipher text decrypts, under the user's key and the engine boots, the engine
    time and the salt of the message, to a scoped PDU that is not longer than
    the octet string that carries it. *)
Theorem snmp_decode_v3_encrypted e junk md5 sha1 aes (st : view_state) (ver : Z) (h : v3_hdr) (auth priv cid name : list Z)
    (p : pdu_msg) (C rest : list Z) (u : mib_user) (Hh : hmac_ok md5 sha1) (Hk : keys_ok u)
    (Hv : is_i32 ver) (H3 : 3 <= ver) (Hok : hdr_ok h auth priv) (Hc : (length cid <= 32)%nat)
    (Hn : (length name <= 40)%nat) (Hp : pdu_ok p) (Hz : zlen (message3_tlv ver h auth priv (tstr C)) < 2 ^ 31)
    (Hf : flag SNMP_SECUR_FLAG_AUTH h = true) (He : flag SNMP_SECUR_FLAG_ENCRYPT h = true)
    (Hu : find_user st (pad 41 (h_user h)) = Some u) (Hm : u_priv_mode u = SNMP_USER_ENCRYPT_AES)
    (Hs : length priv = 8%nat)
    (Hmac : verdict md5 sha1 u auth (message3_tlv ver h (replicate (length auth) 0) priv (tstr C)) = 0)
    (Hd : aes (u_priv_key u) (in_iv h priv) C = scoped_tlv cid name p)
    (Hl : (length (scoped_tlv cid name p) <= length (tstr C))%nat) :
  let msg := message3_tlv ver h auth priv (tstr C) in
  snmp_decode e junk md5 sha1 aes st (msg ++ rest) (zlen msg) =
  Some (sdg3_of junk st (zlen msg) ver (zlen (message3_body ver h auth priv (tstr C))) h auth priv 0 cid name p).
Proof.
  intros msg. pose proof (message3_blank ver h auth priv (tstr C)) as [Eb Ez]. cbv zeta in Eb.
  assert (zlen (tstr C) < 2 ^ 31) as Ht by (unfold message3_tlv, message3_body in Hz; zlens; lia).
  edestruct (secures_cipher junk md5 sha1 aes st (zlen msg) h auth priv) as (rest' & Hsec);
    [done|done|done|exact (eq_trans (eq_sym Ez) (f_equal zlen (eq_sym Eb)))|unfold tstr in Ht; zlens; lia|done|done|done|by rewrite Eb|done|done|done|done|].
  eapply decode3_spec; [done..| |exact Hsec]. unfold zlen in *. lia.
Qed.

Definition in_flip (_ _ t : list Z) : list Z := map (fun b => 255 - b) t.

Lemma snmp_decode_v3_encrypted_witness :
  exists s, snmp_decode LE 0 in_hmac in_hmac in_flip proc_state
      (message3_tlv 3 (in_hdr 3) (replicate 12 137) (replicate 8 1)
        (tstr (in_flip [] [] (scoped_tlv snmpv3_engine_id [] (in_pdu SNMP_REQ_GET)))) ++ [])
      (zlen (message3_tlv 3 (in_hdr 3) (replicate 12 137) (replicate 8 1)
        (tstr (in_flip [] [] (scoped_tlv snmpv3_engine_id [] (in_pdu SNMP_REQ_GET)))))) = Some s /\
    auth_err s = 0 /\ vb_in_list s = map (vb_of 0) (p_bindings (in_pdu SNMP_REQ_GET)).
Proof.
  destruct (find_user proc_state (pad 41 (h_user (in_hdr 3)))) as [u|] eqn:E; [|not_none E].
  assert (u = mk_user "admin" 0 1 (replicate 16 7 ++ replicate 4 0) (replicate 16 7) [3%nat] [3%nat]) as Hu.
  { vm_compute in E. injection E as <-. vm_compute. reflexivity. }
  eexists. split.
  - apply (snmp_decode_v3_encrypted LE 0 in_hmac in_hmac in_flip proc_state 3 (in_hdr 3) (replicate 12 137) (replicate 8 1)
      snmpv3_engine_id [] (in_pdu SNMP_REQ_GET) (in_flip [] [] (scoped_tlv snmpv3_engine_id [] (in_pdu SNMP_REQ_GET))) [] u).
    + apply in_hmac_ok.
    + rewrite Hu. split; reflexivity.
    + split; lia.
    + lia.
    + apply in_hdr_ok; by right.
    + cbn. lia.
    + cbn. lia.
    + apply in_pdu_ok.
    + vm_compute. reflexivity.
    + reflexivity.
    + reflexivity.
    + exact E.
    + rewrite Hu. reflexivity.
    + reflexivity.
    + rewrite Hu. vm_compute. reflexivity.
    + vm_compute. reflexivity.
    + apply Nat.leb_le. vm_compute. reflexivity.
  - split; reflexivity.
Defined.

(** C38: an empty authentication parameter authenticates any message: with the
    authentication flag set and a user whose digest can be computed, a request
    without a digest is decoded with [auth_err] 0, whatever the user's key. *)
Theorem snmp_decode_empty_auth e junk md5 sha1 aes (st : view_state) (ver : Z) (h : v3_hdr) (priv cid name : list Z)
    (p : pdu_msg) (rest : list Z) (u : mib_user) (Hh : hmac_ok md5 sha1) (Hk : Forall keys_ok (mib_users st))
    (Hv : is_i32 ver) (H3 : 3 <= ver) (Hok : hdr_ok h [] priv) (Hc : (length cid <= 32)%nat)
    (Hn : (length name <= 40)%nat) (Hp : pdu_ok p)
    (Hz : zlen (message3_tlv ver h [] priv (scoped_tlv cid name p)) < 2 ^ 31)
    (Hf : flag SNMP_SECUR_FLAG_AUTH h = true) (He : flag SNMP_SECUR_FLAG_ENCRYPT h = false)
    (Hu : find_user st (pad 41 (h_user h)) = Some u)
    (Hm : forall msg, mac_ret md5 sha1 u msg = 0) :
  let msg := message3_tlv ver h [] priv (scoped_tlv cid name p) in
  exists s, snmp_decode e junk md5 sha1 aes st (msg ++ rest) (zlen msg) = Some s /\
    user s = Some u /\ auth_err s = 0 /\ vb_in_list s = map (vb_of junk) (p_bindings p).
Proof.
  intros msg. pose proof (message3_blank ver h [] priv (scoped_tlv cid name p)) as [Eb Ez]. cbv zeta in Eb.
  eexists. split.
  - eapply decode3_spec; [done..| |].
    + unfold message3_tlv, message3_body in Hz. zlens. lia.
    + apply secures_clear; [done..|exact (eq_trans (eq_sym Ez) (f_equal zlen (eq_sym Eb)))|by left].
  - cbn. rewrite Hu, Hf. unfold verdict. rewrite Hm. cbn. done.
Qed.

Lemma snmp_decode_empty_auth_witness :
  exists u s, snmp_decode LE 0 in_hmac in_hmac (fun _ _ t => t) proc_state
      (message3_tlv 3 (in_hdr 1) [] [] (scoped_tlv snmpv3_engine_id [] (in_pdu SNMP_REQ_SET)) ++ [])
      (zlen (message3_tlv 3 (in_hdr 1) [] [] (scoped_tlv snmpv3_engine_id [] (in_pdu SNMP_REQ_SET)))) = Some s /\
    user s = Some u /\ auth_err s = 0 /\ vb_in_list s = map (vb_of 0) (p_bindings (in_pdu SNMP_REQ_SET)).
Proof.
  destruct (find_user proc_state (pad 41 (h_user (in_hdr 1)))) as [u|] eqn:E; [|not_none E]. exists u.
  apply (snmp_decode_empty_auth LE 0 in_hmac in_hmac (fun _ _ t => t) proc_state 3 (in_hdr 1) []
      snmpv3_engine_id [] (in_pdu SNMP_REQ_SET) [] u).
  - apply in_hmac_ok.
  - apply proc_state_keys.
  - split; lia.
  - lia.
  - apply in_hdr_ok; by left.
  - cbn. lia.
  - cbn. lia.
  - apply in_pdu_ok.
  - vm_compute. reflexivity.
  - reflexivity.
  - reflexivity.
  - exact E.
  - intros msg. vm_compute in E. injection E as <-. reflexivity.
Defined.

(** *** Arbitrary input *)

(** C32: the agent stays silent and calls no handler unless the datagram is
    complete and decodes to a GET, GETNEXT, GETBULK or SET request: anything
    that is sent, and any change of the interpreter's state, comes from the
    processing of such a request. *)
Theorem snmp_recv_silent {L} lua_pcall e junk (root : mib_node) (st : view_state) md5 sha1 enc dec r1 r2
    (buffer : list Z) (len : Z) (s s' : snmp_datagram) (l l' : L) (out : option (list Z))
    (H : snmp_recv lua_pcall e junk root st md5 sha1 enc dec r1 r2 buffer len s l = Some (l', s', out)) :
  out = None /\ l' = l \/
  exists n dlen d buf p, buffer !! 0%nat = Some ASN1_TAG_SEQ /\ ber_length_dec (drop 1 buffer) = Some (n, dlen) /\
    u32 (1 + n + dlen) = u32 len /\
    decode_body e junk md5 sha1 dec st len buffer 1%nat = Some (inr (d, buf, p)) /\
    pdu_type (pdu d) ∈ [SNMP_REQ_GET; SNMP_REQ_GETNEXT; SNMP_REQ_SET; SNMP_REQ_BULKGET] /\
    snmp_request_dispatch lua_pcall e junk root st md5 sha1 enc r1 r2 d l = Some (l', s', out).
Proof.
  unfold snmp_recv in H. destruct (len <=? 0); [done|]. destruct (buffer !! 0%nat) as [b0|] eqn:E0; [|done].
  destruct (Z.eqb_spec b0 ASN1_TAG_SEQ) as [->|]; cbn [negb] in H; [|left; by injection H as <- _ <-].
  destruct (ber_length_dec (drop 1 buffer)) as [[n dlen]|] eqn:El; [|done].
  destruct (Z.eqb_spec (u32 (1 + n + dlen)) (u32 len)) as [Eu|]; cbn [negb] in H; [|left; by injection H as <- _ <-].
  unfold snmp_decode in H. destruct (decode_body e junk md5 sha1 dec st len buffer 1%nat) as [[err|[[d buf] p]]|] eqn:Ed; [| |done].
  - left. cbv in H. by injection H as <- _ <-.
  - destruct (decide (pdu_type (pdu d) ∈ [SNMP_REQ_GET; SNMP_REQ_GETNEXT; SNMP_REQ_SET; SNMP_REQ_BULKGET])) as [Hin|Hin].
    + right. by exists n, dlen, d, buf, p.
    + left. rewrite !not_elem_of_cons in Hin. destruct Hin as (H1 & H2 & H3 & H4 & _). unfold snmp_request_dispatch in H.
      rewrite !(proj2 (Z.eqb_neq _ _)) in H by done. by injection H as <- _ <-.
Qed.

Definition in_recv (buffer : list Z) : option (unit * snmp_datagram * option (list Z)) :=
  snmp_recv (table_handler example_table) LE 0 example_root proc_state in_hmac in_hmac (fun _ _ t => t) (fun _ _ t => t) 0 0
    buffer (zlen buffer) snmp_datagram_clear tt.

Lemma snmp_recv_silent_witness :
  exists d buf p, decode_body LE 0 in_hmac in_hmac (fun _ _ t => t) proc_state
      (zlen (message_tlv 1 example_name (in_pdu SNMP_REQ_GET))) (message_tlv 1 example_name (in_pdu SNMP_REQ_GET)) 1%nat =
      Some (inr (d, buf, p)) /\
    pdu_type (pdu d) ∈ [SNMP_REQ_GET; SNMP_REQ_GETNEXT; SNMP_REQ_SET; SNMP_REQ_BULKGET].
Proof.
  assert (match in_recv (message_tlv 1 example_name (in_pdu SNMP_REQ_GET)) with Some (_, _, Some _) => true | _ => false end = true)
    as Hb by (vm_compute; reflexivity).
  destruct (in_recv (message_tlv 1 example_name (in_pdu SNMP_REQ_GET))) as [[[l' s'] [out|]]|] eqn:E; [|discriminate Hb..].
  clear Hb. unfold in_recv in E.
  destruct (snmp_recv_silent _ _ _ _ _ _ _ _ _ _ _ _ _ _ _ _ _ _ E)
    as [[H _]|(n & dlen & d & buf & p & _ & _ & _ & Hd & Ht & _)]; [discriminate H|].
  exists d, buf, p. split; [exact Hd|exact Ht].
Defined.

(** The sub-identifiers of arbitrary octets. *)
Definition raw_ids (O : list Z) : list Z :=
  match O with [] => [] | b0 :: bs => b0 / 40 :: b0 mod 40 :: oid_dec_loop 0 bs end.

(** Any encoding of a length, minimal or not. *)
Definition is_length (X : list Z) (n : Z) : Prop := forall rest, ber_length_dec (X ++ rest) = Some (zlen X, n).

Lemma parses_is_length X n : is_length X n -> parses length_dec X (zlen X, n).
Proof.
  intros H. split; [done|]. intros pre rest. unfold length_dec. by rewrite drop_app_length, H, Zto_nat_zlen.
Qed.

Lemma raw_ids_dec O rest : zlen O < 2 ^ 31 ->
  ber_value_dec_try (O ++ rest) (zlen O) ASN1_TAG_OBJID = Some (zlen (raw_ids O)) /\
  (if zlen O =? 0 then Some [] else ber_oid_dec (O ++ rest) (zlen O)) = Some (raw_ids O).
Proof.
  intros Hl. unfold ber_value_dec_try. change (ASN1_TAG_OBJID =? ASN1_TAG_OBJID) with true.
  change ((ASN1_TAG_OBJID =? ASN1_TAG_INT) || (ASN1_TAG_OBJID =? ASN1_TAG_CNT) || (ASN1_TAG_OBJID =? ASN1_TAG_GAU)
    || (ASN1_TAG_OBJID =? ASN1_TAG_TIMETICKS)) with false. cbv iota.
  destruct O as [|b0 bs]; [done|]. pose proof (zlen_nonneg bs). rewrite zlen_cons in *.
  rewrite (proj2 (Z.eqb_neq _ _)) by lia. unfold ber_oid_dec_try, ber_oid_dec. cbn [app lookup list_lookup].
  rewrite (slice_mid [b0] bs rest) by (done || unfold zlen; lia). split; [|done].
  rewrite (oid_dec_loop_count 0) by (unfold zlen in *; lia). unfold raw_ids, zlen. cbn [length]. f_equal. lia.
Qed.

(** C33: a binding whose identifier and value are any octets of the receive
    buffer, with lengths in any form, is copied into its allocations without
    overrunning them, unless its identifier has more than 64 sub-identifiers or
    its value more than 1024 bytes: those are refused, in this order. *)
Theorem var_bind_alloc_guards (junk : Z) (O V LO LV pre rest : list Z) (t : Z)
    (Ho : zlen O < 2 ^ 31) (Hlo : is_length LO (zlen O)) (Hlv : is_length LV (zlen V)) :
  let buf := pre ++ [ASN1_TAG_OBJID] ++ LO ++ O ++ [t] ++ LV ++ V ++ rest in
  match var_bind_alloc junk buf (length pre) with
  | Some (inr (vb, _, _)) =>
      vb = mk_vb (raw_ids O) junk (zlen (raw_ids O)) (zlen V) t V /\ zlen (raw_ids O) <= 64 /\ zlen V <= 1024
  | Some (inl err) =>
      err = SNMP_ERR_VB_OID_LEN /\ 64 < zlen (raw_ids O) \/
      err = SNMP_ERR_VB_VALUE_LEN /\ zlen (raw_ids O) <= 64 /\ 1024 < zlen V
  | None => False
  end.
Proof.
  intros buf. subst buf. unfold var_bind_alloc.
  rewrite (run_bind _ _ _ _ _ _ _ (parses_expect ASN1_TAG_OBJID SNMP_ERR_VB_OID_TYPE)).
  rewrite (run_bind _ _ _ _ _ _ _ (parses_is_length LO _ Hlo)). cbv beta iota.
  unfold pbind at 1. rewrite drop_app_length. set (pre1 := (pre ++ _) ++ _).
  destruct (raw_ids_dec O ([t] ++ LV ++ V ++ rest) Ho) as [-> E]. rewrite Z.gtb_ltb. change ASN1_OID_MAX_LEN with 64.
  destruct (Z.ltb_spec 64 (zlen (raw_ids O))) as [Hi|Hi]; [by left|].
  rewrite Zto_nat_zlen, <- length_app, (app_assoc pre1 O).
  rewrite (run_bind _ _ _ _ _ _ _ (parses_byte t)), (run_bind _ _ _ _ _ _ _ (parses_is_length LV _ Hlv)). cbv beta iota.
  unfold pbind, reject. rewrite Z.gtb_ltb. change ASN1_VALUE_MAX_LEN with 1024.
  destruct (Z.ltb_spec 1024 (zlen V)) as [Hv|Hv]; [by right|]. unfold pret. cbn [vb_new vb_oid vb_value vb_len].
  rewrite !Zto_nat_zlen, (slice_mid _ V rest) by done. rewrite <- !(app_assoc pre1), drop_app_length.
  rewrite <- !app_assoc in *. rewrite E. by rewrite !blit_all by (by rewrite length_replicate).
Qed.

Lemma var_bind_alloc_guards_witness :
  match var_bind_alloc 0 ([7] ++ [ASN1_TAG_OBJID] ++ [0x81; 3] ++ [43; 0x81; 6] ++ [ASN1_TAG_INT] ++ [0x82; 0; 2] ++ [1; 0] ++ [9]) 1%nat with
  | Some (inr (vb, _, _)) => vb = mk_vb [1; 3; 134] 0 3 2 ASN1_TAG_INT [1; 0]
  | _ => False
  end.
Proof.
  assert (is_length [0x81; 3] 3 /\ is_length [0x82; 0; 2] 2) as [H1 H2] by (split; intros rest; reflexivity).
  pose proof (var_bind_alloc_guards 0 [43; 0x81; 6] [1; 0] [0x81; 3] [0x82; 0; 2] [7] [9] ASN1_TAG_INT eq_refl H1 H2) as H.
  cbv zeta in H. destruct (var_bind_alloc 0 _ _) as [[err|[[vb b] q]]|] eqn:E.
  - exfalso. vm_compute in E. discriminate E.
  - exact (proj1 H).
  - exact H.
Defined.

(** The guard of the engine identifiers, the user name and the context name
    refuses every length that does not fit the array but one: a length of
    2^32 - 1 wraps to zero in [len + 1] and is accepted, and the copy runs out
    of both the array and the receive buffer. *)
Theorem str_dec_guard (e : endian) (err err' : snmp_err_code) (size : nat) (len : Z) (X pre rest : list Z)
    (Hs : (0 < size)%nat) (Hl : is_u32 len) (Hlen : is_length X len) (Hbig : Z.of_nat size <= len)
    (Hsize : Z.of_nat size < 2 ^ 31) (Hrest : zlen rest < 2 ^ 31) :
  str_dec e err size (too_long (Z.of_nat size)) err' (pre ++ [ASN1_TAG_OCTSTR] ++ X ++ rest) (length pre) =
  if len =? 2 ^ 32 - 1 then None else Some (inl err').
Proof.
  unfold str_dec. rewrite (run_bind _ _ _ _ _ _ _ (parses_expect ASN1_TAG_OCTSTR err)).
  rewrite (run_bind _ _ _ _ _ _ _ (parses_is_length X _ Hlen)). cbv beta iota.
  unfold pbind at 1, reject, too_long. destruct (Z.eqb_spec len (2 ^ 32 - 1)) as [-> | Hne].
  - change (u32 (2 ^ 32 - 1 + 1)) with 0. rewrite Z.gtb_ltb, (proj2 (Z.ltb_ge _ _)) by lia.
    unfold pret, pbind, value_dec. rewrite drop_app_length. unfold ber_value_dec.
    change (2 ^ 32 - 1 =? 0) with false. change (ASN1_TAG_OCTSTR =? ASN1_TAG_INT) with false.
    change (ASN1_TAG_OCTSTR =? ASN1_TAG_CNT) with false. change (ASN1_TAG_OCTSTR =? ASN1_TAG_GAU) with false.
    change (ASN1_TAG_OCTSTR =? ASN1_TAG_TIMETICKS) with false. change (ASN1_TAG_OCTSTR =? ASN1_TAG_OBJID) with false.
    change (ASN1_TAG_OCTSTR =? ASN1_TAG_OCTSTR) with true. cbn [orb]. unfold slice.
    rewrite decide_False; [done|]. unfold zlen in Hrest. lia.
  - rewrite u32_id by (unfold is_u32 in *; lia). by rewrite Z.gtb_ltb, (proj2 (Z.ltb_lt _ _)) by lia.
Qed.

Lemma str_dec_guard_witness :
  str_dec LE SNMP_ERR_CONTEXT_NAME 41 (too_long 41) SNMP_ERR_CONTEXT_NAME_LEN
    ([] ++ [ASN1_TAG_OCTSTR] ++ [0x84; 255; 255; 255; 255] ++ [1]) 0%nat = None /\
  str_dec LE SNMP_ERR_CONTEXT_NAME 41 (too_long 41) SNMP_ERR_CONTEXT_NAME_LEN
    ([] ++ [ASN1_TAG_OCTSTR] ++ [41] ++ [1]) 0%nat = Some (inl SNMP_ERR_CONTEXT_NAME_LEN).
Proof.
  split.
  - apply (str_dec_guard LE SNMP_ERR_CONTEXT_NAME SNMP_ERR_CONTEXT_NAME_LEN 41 (2 ^ 32 - 1) [0x84; 255; 255; 255; 255] [] [1]);
      [lia|split; lia|intros rest; reflexivity|lia|lia|vm_compute; reflexivity].
  - apply (str_dec_guard LE SNMP_ERR_CONTEXT_NAME SNMP_ERR_CONTEXT_NAME_LEN 41 41 [41] [] [1]);
      [lia|split; lia|intros rest; reflexivity|lia|lia|vm_compute; reflexivity].
Defined.
