(* ===== verification/HashWords.v ===== *)
(** * Words and registers of the digests ([openssl_md32_common.h])

    The macros of [openssl_md32_common.h] that read and write words in the byte
    order of an algorithm and rotate them.  The rounds of MD5 and SHA-1 work on
    registers of type [unsigned long], which on many targets are wider than the
    32 bits of a word: the upper bits are "polluted" by additions and rotations
    and only the lower 32 are saved in the end.  A [target] says how wide the
    registers are and which rotation the compiler was given; the lemmas say that
    on the lower 32 bits the operations are those of the standards. *)
From S2P Require Import Prelude.
Local Open Scope Z_scope.

(** ** Byte order macros *)
Definition HOST_l2c (e : endian) (l : Z) : list Z :=
  match e with
  | BE => [Z.land (Z.shiftr l 24) 0xff; Z.land (Z.shiftr l 16) 0xff; Z.land (Z.shiftr l 8) 0xff; Z.land l 0xff]
  | LE => [Z.land l 0xff; Z.land (Z.shiftr l 8) 0xff; Z.land (Z.shiftr l 16) 0xff; Z.land (Z.shiftr l 24) 0xff]
  end.

(** The word at the start of [c], and [c] advanced. *)
Definition HOST_c2l (e : endian) (c : list Z) : option (Z * list Z) :=
  match c with
  | c0 :: c1 :: c2 :: c3 :: c' =>
      let l := match e with
        | BE => Z.lor (Z.lor (Z.lor (Z.shiftl c0 24) (Z.shiftl c1 16)) (Z.shiftl c2 8)) c3
        | LE => Z.lor (Z.lor (Z.lor c0 (Z.shiftl c1 8)) (Z.shiftl c2 16)) (Z.shiftl c3 24)
        end in Some (l, c')
  | _ => None
  end.

(** ** Registers *)
Record target := mk_target {
  reg_bits : Z;
  asm_rotate : bool;   (* the inline assembler of x86, PowerPC and s390x, or the portable macro *)
  reg_junk : Z         (* what an uninitialised register holds *)
}.

(** A [long] has at least 32 bits. *)
Definition target_ok (t : target) : Prop := 32 <= reg_bits t.

(** Storing into a register. *)
Definition reg (t : target) (z : Z) : Z := z mod 2 ^ reg_bits t.

(** Rotation of a word of 32 bits. *)
Definition rotl32 (n x : Z) : Z := Z.lor (u32 (Z.shiftl x n)) (Z.shiftr x (32 - n)).

Definition ROTATE (t : target) (a n : Z) : Z :=
  if asm_rotate t then rotl32 n (u32 a)
  else Z.lor (reg t (Z.shiftl a n)) (Z.shiftr (Z.land a 0xffffffff) (32 - n)).

(** The complement of a word of 32 bits. *)
Definition not32 (x : Z) : Z := Z.lxor x 0xffffffff.

(** The registers A, B, C, D, E, T of the rounds are numbered. *)
Definition rA : nat := 0.
Definition rB : nat := 1.
Definition rC : nat := 2.
Definition rD : nat := 3.
Definition rE : nat := 4.
Definition rT : nat := 5.

(** ** Reading words *)
Definition word (e : endian) (b : list Z) (i : nat) : Z := val_of e (take 4 (drop (4 * i) b)).

Lemma HOST_l2c_mem e l : HOST_l2c e l = mem_of e 4 l.
Proof.
  assert (forall n, 0 <= n -> Z.land (Z.shiftr l n) 0xff = (l / 2 ^ n) mod 256) as E.
  { intros n Hn. change 0xff with (Z.ones 8). by rewrite Z.land_ones, Z.shiftr_div_pow2 by lia. }
  pose proof (E 0) as E0. rewrite Z.shiftr_0_r, Z.div_1_r in E0.
  destruct e; cbn [HOST_l2c mem_of le_bytes rev app]; rewrite E0, !E, !Z.div_div by lia; done.
Qed.

Lemma HOST_c2l_word e c0 c1 c2 c3 c : bytes [c0; c1; c2; c3] ->
  HOST_c2l e (c0 :: c1 :: c2 :: c3 :: c) = Some (val_of e [c0; c1; c2; c3], c).
Proof.
  intros Hb. repeat apply Forall_cons in Hb as [? Hb]. unfold is_u8 in *. cbn [HOST_c2l]. do 2 f_equal.
  assert (forall v b n, 0 <= n -> 0 <= b < 2 ^ n -> Z.lor (2 ^ n * v) b = 2 ^ n * v + b) as Hlor.
  { intros v b n Hn Hr. rewrite <- (lor_shiftl_small n v b) by done. by rewrite Z.shiftl_mul_pow2, Z.mul_comm by lia. }
  destruct e; cbn [val_of le_val rev app].
  - rewrite !Z.shiftl_mul_pow2 by lia.
    rewrite (Z.lor_comm c0), (Z.mul_comm c1), Hlor by lia.
    rewrite (Z.lor_comm _ (c2 * _)), (Z.mul_comm c2), Hlor by lia.
    rewrite (Z.lor_comm _ (c3 * _)), (Z.mul_comm c3), Hlor by lia. lia.
  - rewrite !Z.shiftl_mul_pow2 by lia.
    replace (c0 * 2 ^ 24) with (2 ^ 24 * c0) by lia. rewrite Hlor by lia.
    replace (2 ^ 24 * c0 + c1 * 2 ^ 16) with (2 ^ 16 * (256 * c0 + c1)) by lia. rewrite Hlor by lia.
    replace (2 ^ 16 * (256 * c0 + c1) + c2 * 2 ^ 8) with (2 ^ 8 * (256 * (256 * c0 + c1) + c2)) by lia. rewrite Hlor by lia. lia.
Qed.

(** ** Bits

    [zbits] proves an equation between words bit by bit: the bits are rewritten
    to booleans and the bounds of the indices decided. *)
Lemma testbit_mod z n i : 0 <= n -> 0 <= i -> Z.testbit (z mod 2 ^ n) i = (i <? n) && Z.testbit z i.
Proof.
  intros Hn Hi. destruct (Z.ltb_spec i n); cbn [andb].
  - by rewrite Z.mod_pow2_bits_low by lia.
  - by rewrite Z.mod_pow2_bits_high by lia.
Qed.

Lemma testbit_u32 z i : 0 <= i -> Z.testbit (u32 z) i = (i <? 32) && Z.testbit z i.
Proof. intros. by apply testbit_mod. Qed.

Lemma testbit_ones32 i : 0 <= i -> Z.testbit 0xffffffff i = (i <? 32).
Proof. intros. change 0xffffffff with (Z.ones 32). by rewrite Z.testbit_ones_nonneg by lia. Qed.

Lemma testbit_neg z i : i < 0 -> Z.testbit z i = false.
Proof. apply Z.testbit_neg_r. Qed.

Ltac bits_step :=
  first
    [ rewrite Z.lor_spec | rewrite Z.land_spec | rewrite Z.lxor_spec
    | rewrite Z.lnot_spec by lia | rewrite Z.shiftl_spec by lia | rewrite Z.shiftr_spec by lia
    | rewrite testbit_u32 by lia | rewrite testbit_mod by lia | rewrite testbit_ones32 by lia
    | match goal with |- context [(?a <? ?b)%Z] => destruct (Z.ltb_spec a b) end
    | match goal with |- context [Z.testbit ?z (?a - ?b)] =>
        first [ rewrite (testbit_neg z (a - b)) by lia
              | assert_fails (assert (0 <= a - b) by lia); destruct (Z.ltb_spec (a - b) 0) ] end ];
  cbn [andb orb negb xorb].

Ltac zbits :=
  apply Z.bits_inj'; intros ? ?; repeat bits_step;
  repeat match goal with |- context [Z.testbit ?z ?i] => destruct (Z.testbit z i) end; done || lia.

(** ** The lower 32 bits *)
Section Lower.
Context (t : target) (Ht : target_ok t).

Lemma u32_reg z : u32 (reg t z) = u32 z.
Proof.
  unfold u32, reg, target_ok in *. replace (reg_bits t) with (32 + (reg_bits t - 32)) by lia.
  rewrite Z.pow_add_r by lia. rewrite Z.rem_mul_r by (try apply Z.pow_nonzero; lia).
  rewrite (Z.mul_comm (2 ^ 32)), Z.mod_add, Z.mod_mod by lia. done.
Qed.

Lemma u32_add a b : u32 (a + b) = u32 (u32 a + u32 b).
Proof. unfold u32. by rewrite Z.add_mod by lia. Qed.

Lemma u32_land a b : u32 (Z.land a b) = Z.land (u32 a) (u32 b).
Proof. zbits. Qed.

Lemma u32_lor a b : u32 (Z.lor a b) = Z.lor (u32 a) (u32 b).
Proof. zbits. Qed.

Lemma u32_lxor a b : u32 (Z.lxor a b) = Z.lxor (u32 a) (u32 b).
Proof. zbits. Qed.

Lemma u32_lnot a : u32 (Z.lnot a) = not32 (u32 a).
Proof. unfold not32. zbits. Qed.

Lemma land_ones32 a : Z.land a 0xffffffff = u32 a.
Proof. change 0xffffffff with (Z.ones 32). by rewrite Z.land_ones. Qed.

Lemma u32_shiftl a n : 0 <= n -> u32 (Z.shiftl (u32 a) n) = u32 (Z.shiftl a n).
Proof. intros. unfold u32. by rewrite !Z.shiftl_mul_pow2, Z.mul_mod_idemp_l by lia. Qed.

Lemma is_u32_shiftr x n : is_u32 x -> 0 <= n -> is_u32 (Z.shiftr x n).
Proof.
  intros Hx Hn. unfold is_u32 in *. rewrite Z.shiftr_div_pow2 by lia. pose proof (Z.pow_pos_nonneg 2 n).
  split; [apply Z.div_pos; lia|]. apply Z.div_lt_upper_bound; [lia|nia].
Qed.

Lemma u32_ROTATE a n : 0 < n < 32 -> u32 (ROTATE t a n) = rotl32 n (u32 a).
Proof.
  intros Hn. assert (u32 (Z.shiftr (u32 a) (32 - n)) = Z.shiftr (u32 a) (32 - n)) as E
    by (apply u32_id, is_u32_shiftr; [apply u32_range|lia]).
  unfold ROTATE, rotl32. destruct (asm_rotate t).
  - by rewrite u32_lor, E, (u32_id (u32 _)) by apply u32_range.
  - by rewrite u32_lor, u32_reg, land_ones32, E, u32_shiftl by lia.
Qed.
End Lower.

(** Reading the next word of a block of 64 bytes. *)
Lemma c2l_block e b rest n : length b = 64%nat -> bytes b -> (n < 16)%nat ->
  HOST_c2l e (drop (4 * n) b ++ rest) = Some (word e b n, drop (4 * S n) b ++ rest).
Proof.
  intros Hl Hb Hn. unfold word. pose proof (Forall_drop _ (4 * n) _ Hb) as Hd.
  assert (4 <= length (drop (4 * n) b))%nat as Hg by (rewrite length_drop; lia).
  replace (drop (4 * S n) b) with (drop 4 (drop (4 * n) b)) by (rewrite drop_drop; f_equal; lia).
  destruct (drop (4 * n) b) as [|c0 [|c1 [|c2 [|c3 c]]]]; cbn [length] in Hg; [lia..|].
  change (HOST_c2l e (c0 :: c1 :: c2 :: c3 :: (c ++ rest)) = Some (val_of e [c0; c1; c2; c3], c ++ rest)).
  apply HOST_c2l_word. exact (Forall_take _ 4 _ Hd).
Qed.
