(* ===== verification/Hash.v ===== *)
(** * The digest collector of [openssl_md32_common.h]

    The header is included by MD5 and by SHA-1 with macros for the names and the
    byte order; here they are the fields of the class [HashAlg].  [HASH_UPDATE]
    collects the bytes of a message into blocks of 64, [HASH_FINAL] pads it and
    returns the digest.  The reference is [digest], the one-shot Merkle-Damgard
    construction of RFC 1321 and FIPS 180: the main results say that any
    sequence of updates computes it.

    The second half holds what [openssl_md5.c] and [openssl_sha.c] have in
    common besides: the derivation of a localised key from a password and the
    message authentication code, against RFC 3414 and RFC 2104. *)
From S2P Require Import Prelude HashWords.
Local Open Scope Z_scope.

Definition HASH_CBLOCK : Z := 64.

(** ** What an algorithm provides

    [block_data_order] is [HASH_BLOCK_DATA_ORDER]: the given number of blocks is
    read at the start of the memory it is given; [None] is a read outside. *)
Class HashAlg := {
  hash_state : Type;
  hash_init : hash_state;
  data_order : endian;
  block_data_order : hash_state -> list Z -> nat -> option hash_state;
  make_string : hash_state -> list Z;
  digest_len : nat
}.

(** A function of one block, applied to [q] blocks in order. *)
Fixpoint fold_blocks {S} (f : S -> list Z -> S) (q : nat) (s : S) (l : list Z) : S :=
  match q with
  | O => s
  | Datatypes.S q' => fold_blocks f q' (f s (take 64 l)) (drop 64 l)
  end.

(** What the collector relies on: a reference compression function of one
    block, which the block function applies in order. *)
Class HashLaws (H : HashAlg) := {
  compress : hash_state -> list Z -> hash_state;
  block_data_order_spec s data n :
    bytes data -> (1 <= n)%nat -> (64 * n <= length data)%nat ->
    block_data_order s data n = Some (fold_blocks compress n s data);
  length_make_string s : length (make_string s) = digest_len;
  make_string_bytes s : bytes (make_string s)
}.

(** ** The context *)
Record hash_ctx {H : HashAlg} := mk_ctx {
  c_state : hash_state;
  Nl : Z;
  Nh : Z;
  c_data : list Z;
  num : Z
}.
Arguments hash_ctx H : clear implicits.

Section Collector.
Context {H : HashAlg}.

(** [MD5_Init] and [HASH_INIT]: the context is zeroed and the state set. *)
Definition HASH_INIT : hash_ctx H := mk_ctx H hash_init 0 0 (replicate 64 0) 0.

(** The whole blocks of the input and its tail. *)
Definition update_tail (c : hash_ctx H) (data : list Z) : option (hash_ctx H) :=
  let n := zlen data / HASH_CBLOCK in
  let* s := (if n >? 0 then block_data_order (c_state c) data (Z.to_nat n) else Some (c_state c)) in
  let rest := drop (Z.to_nat (n * HASH_CBLOCK)) data in
  if zlen rest =? 0 then Some (mk_ctx H s (Nl c) (Nh c) (c_data c) (num c))
  else
    let* d := write_at 0 rest (c_data c) in
    Some (mk_ctx H s (Nl c) (Nh c) d (zlen rest)).

Definition HASH_UPDATE (c : hash_ctx H) (data : list Z) : option (hash_ctx H) :=
  let len := zlen data in
  if len =? 0 then Some c
  else
    let l := Z.land (u32 (Nl c + u32 (Z.shiftl (u32 len) 3))) 0xffffffff in
    let nh := if l <? Nl c then u32 (Nh c + 1) else Nh c in
    let nh := u32 (nh + u32 (Z.shiftr len 29)) in
    let n := num c in
    if negb (n =? 0) then
      if (len >=? HASH_CBLOCK) || (len + n >=? HASH_CBLOCK) then
        let* chunk := slice 0 (Z.to_nat (HASH_CBLOCK - n)) data in
        let* p := write_at (Z.to_nat n) chunk (c_data c) in
        let* s := block_data_order (c_state c) p 1 in
        update_tail (mk_ctx H s l nh (replicate 64 0) 0) (drop (Z.to_nat (HASH_CBLOCK - n)) data)
      else
        let* p := write_at (Z.to_nat n) data (c_data c) in
        Some (mk_ctx H (c_state c) l nh p (n + len))
    else update_tail (mk_ctx H (c_state c) l nh (c_data c) n) data.

(** The digest and the context it leaves. *)
Definition HASH_FINAL (c : hash_ctx H) : option (list Z * hash_ctx H) :=
  let n := num c in
  let* p := write_at (Z.to_nat n) [0x80] (c_data c) in
  let n := n + 1 in
  let* (s, p, n) :=
    (if n >? HASH_CBLOCK - 8 then
       let* p := write_at (Z.to_nat n) (replicate (Z.to_nat (HASH_CBLOCK - n)) 0) p in
       let* s := block_data_order (c_state c) p 1 in Some (s, p, 0)
     else Some (c_state c, p, n)) in
  let* p := write_at (Z.to_nat n) (replicate (Z.to_nat (HASH_CBLOCK - 8 - n)) 0) p in
  let* p := write_at 56 (match data_order with
                         | BE => HOST_l2c BE (Nh c) ++ HOST_l2c BE (Nl c)
                         | LE => HOST_l2c LE (Nl c) ++ HOST_l2c LE (Nh c)
                         end) p in
  let* s := block_data_order s p 1 in
  Some (make_string s, mk_ctx H s (Nl c) (Nh c) (replicate 64 0) 0).

(** A block given by the caller, whatever was collected. *)
Definition HASH_TRANSFORM (c : hash_ctx H) (data : list Z) : option (hash_ctx H) :=
  let* s := block_data_order (c_state c) data 1 in Some (mk_ctx H s (Nl c) (Nh c) (c_data c) (num c)).
End Collector.

(** ** The reference: one-shot hashing *)
(** The message, a bit 1, zeros up to 8 bytes before the end of a block, the
    number of bits of the message modulo 2^64. *)
Definition pad (e : endian) (msg : list Z) : list Z :=
  msg ++ [0x80] ++ replicate (Z.to_nat ((55 - zlen msg) mod 64)) 0 ++ mem_of e 8 (8 * zlen msg).

(** The Merkle-Damgard construction. *)
Definition merkle_damgard {S} (e : endian) (f : S -> list Z -> S) (init : S) (out : S -> list Z) (msg : list Z) : list Z :=
  out (fold_blocks f (length (pad e msg) / 64) init (pad e msg)).

Section Reference.
Context {H : HashAlg} {HL : HashLaws H}.

Definition digest : list Z -> list Z := merkle_damgard data_order compress hash_init make_string.

(** The counters hold the number of bits modulo 2^64. *)
Definition count_ok (c : hash_ctx H) (n : Z) : Prop :=
  is_u32 (Nl c) /\ is_u32 (Nh c) /\ (Nl c + 2 ^ 32 * Nh c - 8 * n) mod 2 ^ 64 = 0.

(** The context after [q] whole blocks [full] and the rest [tail]. *)
Record parts_rep (c : hash_ctx H) (q : nat) (full tail : list Z) : Prop := {
  rep_full : length full = (64 * q)%nat;
  rep_state : c_state c = fold_blocks compress q hash_init full;
  rep_short : (length tail < 64)%nat;
  rep_num : num c = zlen tail;
  rep_data : length (c_data c) = 64%nat;
  rep_tail : take (length tail) (c_data c) = tail;
  rep_bytes : bytes full /\ bytes tail
}.

(** The context after the bytes [msg]. *)
Definition ctx_rep (c : hash_ctx H) (msg : list Z) : Prop :=
  count_ok c (zlen msg) /\ exists q full tail, msg = full ++ tail /\ parts_rep c q full tail.

(** *** Folding over blocks *)
Lemma fold_blocks_app {S} (f : S -> list Z -> S) p q s l1 l2 :
  length l1 = (64 * p)%nat -> fold_blocks f (p + q) s (l1 ++ l2) = fold_blocks f q (fold_blocks f p s l1) l2.
Proof.
  revert s l1. induction p as [|p IH]; intros s l1 Hl.
  - destruct l1; [done|simpl in Hl; lia].
  - cbn [Nat.add fold_blocks]. rewrite take_app_le, drop_app_le by lia.
    apply IH. rewrite length_drop. lia.
Qed.

(** Only the blocks themselves matter. *)
Lemma fold_blocks_prefix {S} (f : S -> list Z -> S) p s l1 l2 :
  length l1 = (64 * p)%nat -> fold_blocks f p s (l1 ++ l2) = fold_blocks f p s l1.
Proof. intros Hl. rewrite <- (Nat.add_0_r p) at 1. by rewrite fold_blocks_app. Qed.

Lemma div64 n k : n = (64 * k)%nat -> (n / 64)%nat = k.
Proof. intros ->. rewrite Nat.mul_comm. by apply Nat.div_mul. Qed.

Lemma write_at_fits (i : nat) (bs mem : list Z) :
  (i + length bs <= length mem)%nat -> write_at i bs mem = Some (take i mem ++ bs ++ drop (i + length bs) mem).
Proof.
  intros Hl. rewrite <- (take_drop i mem) at 1. rewrite <- (take_drop (length bs) (drop i mem)).
  rewrite (write_at_mid (take i mem)) by (rewrite ?length_take, ?length_drop; lia). by rewrite drop_drop.
Qed.

(** *** Counting bits *)
Lemma count_update nl nh len :
  is_u32 nl -> is_u32 nh -> 0 <= len ->
  let l := Z.land (u32 (nl + u32 (Z.shiftl (u32 len) 3))) 0xffffffff in
  let h := u32 ((if l <? nl then u32 (nh + 1) else nh) + u32 (Z.shiftr len 29)) in
  is_u32 l /\ is_u32 h /\ (l + 2 ^ 32 * h - (nl + 2 ^ 32 * nh + 8 * len)) mod 2 ^ 64 = 0.
Proof.
  intros Hl Hh Hlen l h.
  assert (l = u32 (nl + 8 * len)) as El.
  { subst l. change 0xffffffff with (Z.ones 32). rewrite Z.land_ones by lia. unfold u32.
    rewrite Z.shiftl_mul_pow2 by lia. rewrite Z.mod_mod, Z.mul_mod_idemp_l, Z.add_mod_idemp_r by lia. f_equal. lia. }
  split; [rewrite El; apply u32_range|]. split; [apply u32_range|].
  subst h. rewrite El. clear El l. rewrite Z.shiftr_div_pow2 by lia. unfold_ints.
  destruct (Z.ltb_spec ((nl + 8 * len) mod 2 ^ 32) nl); Z.div_mod_to_equations; lia.
Qed.

(** *** Updating *)
Lemma init_rep : ctx_rep HASH_INIT [].
Proof.
  split; [done|]. exists 0%nat, [], []. split; [done|]. split; cbn; done || lia.
Qed.

(** The whole blocks of a message and its rest. *)
Lemma split_blocks (data : list Z) : exists n d1 d2,
  data = d1 ++ d2 /\ length d1 = (64 * n)%nat /\ (length d2 < 64)%nat /\ zlen data / HASH_CBLOCK = Z.of_nat n.
Proof.
  set (n := (length data / 64)%nat). exists n, (take (64 * n) data), (drop (64 * n) data).
  pose proof (Nat.div_mod_eq (length data) 64) as Hdm. fold n in Hdm.
  pose proof (Nat.mod_upper_bound (length data) 64) as Hr. split; [symmetry; apply take_drop|].
  rewrite length_take, length_drop. split; [lia|]. split; [lia|].
  symmetry. apply (Nat2Z.inj_div (length data) 64).
Qed.

(** Data that begins at a block boundary. *)
Lemma update_tail_rep c q full data :
  parts_rep c q full [] -> bytes data ->
  exists c' n d1 d2, update_tail c data = Some c' /\ data = d1 ++ d2 /\
    parts_rep c' (q + n) (full ++ d1) d2 /\ Nl c' = Nl c /\ Nh c' = Nh c.
Proof.
  intros [Hf Hs _ Hn Hd _ [Hb _]] Hdata. destruct (split_blocks data) as (n & d1 & d2 & E & H1 & H2 & En).
  assert (bytes d1 /\ bytes d2) as [Hb1 Hb2] by (rewrite E in Hdata; by apply Forall_app in Hdata).
  unfold update_tail. rewrite En. replace (Z.to_nat (Z.of_nat n * HASH_CBLOCK)) with (length d1) by (unfold HASH_CBLOCK; lia).
  assert ((if Z.of_nat n >? 0 then block_data_order (c_state c) data (Z.to_nat (Z.of_nat n)) else Some (c_state c)) =
    Some (fold_blocks compress (q + n) hash_init (full ++ d1))) as ->.
  { rewrite fold_blocks_app, <- Hs by done. rewrite Z.gtb_ltb, Nat2Z.id. destruct (Z.ltb_spec 0 (Z.of_nat n)).
    - rewrite block_data_order_spec by (done || rewrite ?E, ?length_app; lia). rewrite E. by rewrite fold_blocks_prefix.
    - by replace n with 0%nat by lia. }
  rewrite E, drop_app_length.
  assert (length (full ++ d1) = (64 * (q + n))%nat) as Hl by (rewrite length_app; lia).
  assert (bytes (full ++ d1)) as Hbf by (by apply Forall_app).
  destruct (Z.eqb_spec (zlen d2) 0) as [E0|E0].
  - assert (d2 = []) as -> by (apply length_zero_iff_nil; unfold zlen in E0; lia).
    eexists _, n, d1, []. by repeat split.
  - rewrite write_at_fits by lia. eexists _, n, d1, d2. repeat split; try done.
    + cbn [c_data]. rewrite take_0, !length_app, length_drop. cbn. lia.
    + cbn [c_data]. by rewrite take_0, app_nil_l, take_app_length.
Qed.

(** [HASH_TRANSFORM] compresses one block and leaves the collector alone. *)
Lemma transform_block c data : bytes data -> (64 <= length data)%nat ->
  HASH_TRANSFORM c data = Some (mk_ctx H (compress (c_state c) (take 64 data)) (Nl c) (Nh c) (c_data c) (num c)).
Proof. intros Hb Hl. unfold HASH_TRANSFORM. by rewrite block_data_order_spec by (done || lia). Qed.

(** Data that completes a block. *)
Lemma update_fill c q full tail data l h :
  parts_rep c q full tail -> bytes data -> (64 <= length data + length tail)%nat ->
  let chunk := take (64 - length tail) data in
  exists s c' n d1 d2, block_data_order (c_state c) (tail ++ chunk) 1 = Some s /\
    update_tail (mk_ctx H s l h (replicate 64 0) 0) (drop (64 - length tail) data) = Some c' /\
    data = chunk ++ d1 ++ d2 /\ parts_rep c' (q + 1 + n) ((full ++ tail ++ chunk) ++ d1) d2 /\ Nl c' = l /\ Nh c' = h.
Proof.
  intros [Hf Hs Ht Hn Hd Htl [Hbf Hbt]] Hb Hg chunk.
  assert (length chunk = 64 - length tail)%nat as Hk by (subst chunk; rewrite length_take; lia).
  assert (bytes (tail ++ chunk)) as Hbc by (apply Forall_app; split; [done|by apply Forall_take]).
  assert (length (tail ++ chunk) = 64)%nat as Hlc by (rewrite length_app; lia).
  rewrite block_data_order_spec by (done || lia).
  destruct (update_tail_rep (mk_ctx H (fold_blocks compress 1 (c_state c) (tail ++ chunk)) l h (replicate 64 0) 0)
    (q + 1) (full ++ tail ++ chunk) (drop (64 - length tail) data))
    as (c' & n & d1 & d2 & E & Ed & Hr' & El & Eh); [|by apply Forall_drop|].
  { split; cbn [c_state num c_data]; try done.
    - rewrite length_app. lia.
    - by rewrite Hs, <- fold_blocks_app.
    - cbn. lia.
    - split; [by apply Forall_app|done]. }
  eexists _, c', n, d1, d2. split; [done|]. split; [exact E|]. rewrite <- Ed. subst chunk. by rewrite take_drop.
Qed.

(** Appending data to a message. *)
Lemma update_rep c msg data :
  ctx_rep c msg -> bytes data -> exists c', HASH_UPDATE c data = Some c' /\ ctx_rep c' (msg ++ data).
Proof.
  intros [(Hl & Hh & Hc) (q & full & tail & -> & Hr)] Hb. unfold HASH_UPDATE.
  destruct (Z.eqb_spec (zlen data) 0) as [E0|E0].
  { exists c. assert (data = []) as -> by (apply length_zero_iff_nil; unfold zlen in E0; lia).
    rewrite app_nil_r. split; [done|]. split; [done|]. by exists q, full, tail. }
  destruct (count_update (Nl c) (Nh c) (zlen data) Hl Hh (zlen_nonneg data)) as (Hl' & Hh' & Hc').
  set (l := Z.land _ _) in *. set (h := u32 (_ + u32 (Z.shiftr _ _))) in *.
  assert (forall c', Nl c' = l -> Nh c' = h -> count_ok c' (zlen ((full ++ tail) ++ data))) as Hcount.
  { intros c' E1 E2. rewrite zlen_app. unfold count_ok. rewrite E1, E2. split; [done|]. split; [done|].
    clear -Hc Hc'. Z.div_mod_to_equations. lia. }
  clearbody l h. destruct Hr as [Hf Hs Ht Hn Hd Htl [Hbf Hbt]]. rewrite Hn.
  destruct (Z.eqb_spec (zlen tail) 0) as [Et|Et]; cbn [negb].
  - assert (tail = []) as -> by (apply length_zero_iff_nil; unfold zlen in Et; lia).
    destruct (update_tail_rep (mk_ctx H (c_state c) l h (c_data c) (zlen (@nil Z))) q full data)
      as (c' & n & d1 & d2 & -> & -> & Hr' & El & Eh); [by split|done|].
    exists c'. split; [done|]. split; [by apply Hcount|]. exists (q + n)%nat, (full ++ d1), d2.
    split; [by rewrite app_nil_r, app_assoc|done].
  - assert ((zlen data >=? HASH_CBLOCK) || (zlen data + zlen tail >=? HASH_CBLOCK) =
      (64 <=? zlen data + zlen tail)) as -> by (unfold HASH_CBLOCK, zlen; lia).
    rewrite Zto_nat_zlen. destruct (Z.leb_spec 64 (zlen data + zlen tail)) as [Hg|Hg].
    + replace (Z.to_nat (HASH_CBLOCK - zlen tail)) with (64 - length tail)%nat by (unfold HASH_CBLOCK, zlen; lia).
      unfold zlen in Hg. rewrite slice_take by lia. set (chunk := take _ data).
      assert (length chunk = 64 - length tail)%nat as Hk by (subst chunk; rewrite length_take; lia).
      rewrite write_at_fits, Htl, Hk by lia. rewrite drop_ge, app_nil_r by lia.
      destruct (update_fill c q full tail data l h) as (s & c' & n & d1 & d2 & Eb & E & Ed & Hr' & El & Eh); [by split|done|lia|].
      fold chunk in Eb, Ed, Hr'. rewrite Eb. exists c'. split; [exact E|]. split; [by apply Hcount|]. exists (q + 1 + n)%nat, ((full ++ tail ++ chunk) ++ d1), d2.
      split; [|done]. rewrite Ed at 1. by rewrite <- !app_assoc.
    + rewrite write_at_fits by (unfold zlen in Hg; lia). eexists. split; [done|]. split; [by apply Hcount|].
      exists q, full, (tail ++ data). split; [by rewrite app_assoc|]. rewrite Htl. unfold zlen in Hg.
      split; cbn [c_state num c_data]; rewrite ?zlen_app, ?length_app; try done; rewrite ?length_app, ?length_drop; try lia.
      * rewrite app_assoc, <- length_app. by rewrite take_app_length.
      * split; [done|by apply Forall_app].
Qed.

(** Any sequence of updates. *)
Fixpoint update_all (c : hash_ctx H) (ds : list (list Z)) : option (hash_ctx H) :=
  match ds with
  | [] => Some c
  | d :: ds' => let* c := HASH_UPDATE c d in update_all c ds'
  end.

Lemma update_all_rep ds c msg :
  ctx_rep c msg -> Forall bytes ds -> exists c', update_all c ds = Some c' /\ ctx_rep c' (msg ++ concat ds).
Proof.
  revert c msg. induction ds as [|d ds IH]; intros c msg Hc Hb; cbn.
  - rewrite app_nil_r. by exists c.
  - apply Forall_cons in Hb as [Hd Hb]. destruct (update_rep c msg d Hc Hd) as (c' & -> & Hc').
    rewrite app_assoc. by apply IH.
Qed.

(** *** Padding *)
Lemma le_bytes_app n m z : le_bytes (n + m) z = le_bytes n z ++ le_bytes m (z / 256 ^ Z.of_nat n).
Proof.
  revert z. induction n as [|n IH]; intros z; cbn [Nat.add le_bytes app].
  - change (256 ^ Z.of_nat 0) with 1. by rewrite Z.div_1_r.
  - rewrite IH, Z.div_div by lia. do 4 f_equal. rewrite Nat2Z.inj_succ, Z.pow_succ_r by lia. done.
Qed.

Lemma le_bytes_mod n a b : a mod 256 ^ Z.of_nat n = b mod 256 ^ Z.of_nat n -> le_bytes n a = le_bytes n b.
Proof.
  intros E. rewrite <- (le_bytes_le_val (le_bytes n a)), <- (le_bytes_le_val (le_bytes n b)) by apply le_bytes_bytes.
  by rewrite !length_le_bytes, !le_val_le_bytes, E.
Qed.

Lemma length_bytes c n : count_ok c n ->
  match data_order with
  | BE => HOST_l2c BE (Nh c) ++ HOST_l2c BE (Nl c)
  | LE => HOST_l2c LE (Nl c) ++ HOST_l2c LE (Nh c)
  end = mem_of data_order 8 (8 * n).
Proof.
  intros (Hl & Hh & Hc). assert (le_bytes 8 (8 * n) = le_bytes 4 (Nl c) ++ le_bytes 4 (Nh c)) as E.
  { rewrite (le_bytes_mod 8 (8 * n) (Nl c + 2 ^ 32 * Nh c)).
    - rewrite (le_bytes_app 4 4). change (256 ^ Z.of_nat 4) with (2 ^ 32). f_equal.
      + apply le_bytes_mod. change (256 ^ Z.of_nat 4) with (2 ^ 32). rewrite (Z.mul_comm (2 ^ 32)). by rewrite Z.mod_add.
      + f_equal. unfold is_u32 in *. rewrite (Z.mul_comm (2 ^ 32)), Z.div_add, Z.div_small by lia. lia.
    - change (256 ^ Z.of_nat 8) with (2 ^ 64). clear -Hc. Z.div_mod_to_equations. lia. }
  rewrite !HOST_l2c_mem. unfold mem_of. destruct data_order; rewrite E; [done|]. by rewrite rev_app_distr.
Qed.

(** The zeros of the padding, when the rest of the message leaves room for the
    length and when it does not. *)
Lemma pad_zeros q t :
  (t < 64)%nat -> Z.to_nat ((55 - (64 * Z.of_nat q + Z.of_nat t)) mod 64) = (if decide (t <= 55) then 55 - t else 63 - t + 56)%nat.
Proof.
  intros Ht. case_decide.
  - replace (55 - (64 * Z.of_nat q + Z.of_nat t)) with ((55 - Z.of_nat t) + (- Z.of_nat q) * 64) by lia.
    rewrite Z.mod_add, Z.mod_small by lia. lia.
  - replace (55 - (64 * Z.of_nat q + Z.of_nat t)) with ((119 - Z.of_nat t) + (- Z.of_nat q - 1) * 64) by lia.
    rewrite Z.mod_add, Z.mod_small by lia. lia.
Qed.

(** A block function on one block that is split off. *)
Lemma one_block s b : bytes b -> length b = 64%nat -> block_data_order s b 1 = Some (compress s b).
Proof.
  intros Hb Hl. rewrite block_data_order_spec by (done || lia). cbn [fold_blocks]. by rewrite take_ge by lia.
Qed.

Lemma fold_blocks_one {S} (f : S -> list Z -> S) s b : length b = 64%nat -> fold_blocks f 1 s b = f s b.
Proof. intros Hl. cbn [fold_blocks]. by rewrite take_ge by lia. Qed.

Lemma write_last (l1 old bs : list Z) i :
  i = length l1 -> length old = length bs -> write_at i bs (l1 ++ old) = Some (l1 ++ bs).
Proof. intros. rewrite <- (app_nil_r old), (write_at_mid l1) by done. by rewrite app_nil_r. Qed.

Lemma write_next (pre bs rest : list Z) i :
  i = length pre -> (length bs <= length rest)%nat ->
  write_at i bs (pre ++ rest) = Some ((pre ++ bs) ++ drop (length bs) rest).
Proof.
  intros -> Hl. rewrite <- (take_drop (length bs) rest) at 1.
  rewrite write_at_mid by (rewrite ?length_take; lia). by rewrite app_assoc.
Qed.

Lemma write_start (bs mem : list Z) :
  (length bs <= length mem)%nat -> write_at 0 bs mem = Some (bs ++ drop (length bs) mem).
Proof. intros Hl. by rewrite (write_next [] bs mem 0 eq_refl Hl : write_at 0 bs mem = _). Qed.

Lemma final_rep c msg : ctx_rep c msg -> exists c', HASH_FINAL c = Some (digest msg, c').
Proof.
  intros [Hc (q & full & tail & E & [Hf Hs Ht Hn Hd Htl [Hbf Hbt]])]. unfold HASH_FINAL.
  rewrite (length_bytes c _ Hc), Hn, Zto_nat_zlen. set (L := mem_of _ _ _).
  assert (length L = 8%nat) as HL8 by apply length_mem_of. assert (bytes L) as HbL by apply mem_of_bytes.
  unfold digest, merkle_damgard, pad. fold L. assert (zlen msg = 64 * Z.of_nat q + Z.of_nat (length tail)) as El
    by (rewrite E, zlen_app; unfold zlen; lia).
  rewrite El, pad_zeros by done. assert (bytes [0x80]) as H80 by (by apply bytes_check).
  assert (forall k, bytes (replicate k 0)) as Hz by (intros; by apply Forall_replicate).
  rewrite write_at_fits, Htl by (cbn; lia). cbn [length].
  assert (Z.to_nat (zlen tail + 1) = length tail + 1)%nat as En by (unfold zlen; lia). rewrite En.
  rewrite Z.gtb_ltb. destruct (Z.ltb_spec (HASH_CBLOCK - 8) (zlen tail + 1)) as [Hg|Hg]; unfold zlen, HASH_CBLOCK in Hg.
  - rewrite decide_False by lia. replace (Z.to_nat (HASH_CBLOCK - _)) with (63 - length tail)%nat by (unfold HASH_CBLOCK, zlen; lia).
    rewrite app_assoc, write_last by (rewrite ?length_app, ?length_drop, ?length_replicate; cbn [length]; lia).
    set (b1 := (tail ++ [_]) ++ _).
    assert (length b1 = 64%nat) as Hl1 by (subst b1; rewrite !length_app, length_replicate; cbn [length]; lia).
    assert (bytes b1) as Hb1 by (repeat apply Forall_app_2; done).
    rewrite one_block by done. change (Z.to_nat (HASH_CBLOCK - 8 - 0)) with 56%nat. change (Z.to_nat 0) with 0%nat.
    rewrite write_at_fits by (rewrite length_replicate; lia). rewrite take_0, app_nil_l, length_replicate.
    rewrite (write_last (replicate 56 0)) by (rewrite ?length_drop, ?length_replicate; lia).
    rewrite one_block by (rewrite ?length_app, ?length_replicate; lia || by apply Forall_app_2).
    eexists. do 3 f_equal. rewrite E, replicate_add, <- !app_assoc.
    rewrite !(app_assoc tail), !(app_assoc _ (replicate (63 - _) 0)). fold b1.
    rewrite !length_app, Hl1, length_replicate, HL8, Hf. rewrite (div64 _ (q + (1 + 1))) by (cbn [length]; lia).
    rewrite !fold_blocks_app, <- Hs, !fold_blocks_one by (rewrite ?length_app, ?length_replicate; lia). done.
  - rewrite decide_True by lia. replace (Z.to_nat (HASH_CBLOCK - 8 - _)) with (55 - length tail)%nat by (unfold HASH_CBLOCK, zlen; lia).
    rewrite En. set (R := drop _ (c_data c)). assert (length R = 63 - length tail)%nat as HR by (subst R; rewrite length_drop; lia).
    rewrite <- (take_drop (55 - length tail) R), (app_assoc tail).
    rewrite write_at_mid by (rewrite ?length_app, ?length_take, ?length_replicate; cbn [length]; lia).
    rewrite app_assoc, write_last by (rewrite ?length_app, ?length_drop, ?length_replicate; cbn [length]; lia).
    rewrite one_block by (rewrite ?length_app, ?length_replicate; cbn [length]; first [lia | repeat apply Forall_app_2; done]).
    eexists. do 3 f_equal. rewrite E, <- !app_assoc. rewrite !length_app, length_replicate, HL8, Hf.
    rewrite (div64 _ (q + 1)) by (cbn [length]; lia).
    by rewrite !fold_blocks_app, <- Hs, !fold_blocks_one by (rewrite ?length_app, ?length_replicate; cbn [length]; lia).
Qed.
End Reference.

(** ** Keys and authentication codes

    The same code stands in [openssl_md5.c] and [openssl_sha.c]; it differs in
    the digest, in the length of a key, which is the length of the digest, and
    in the size of a buffer. *)
Section Usm.
Context {H : HashAlg}.

Definition HASHKEYLEN : Z := 64.

(** [n] octets of the password from [index] on, wrapping around; with an empty
    password the remainder is taken by 0. *)
Fixpoint password_octets (n : nat) (password : list Z) (index : Z) : option (list Z) :=
  match n with
  | O => Some []
  | S n' =>
      if zlen password =? 0 then None
      else
        let* b := password !! Z.to_nat (index mod zlen password) in
        let* bs := password_octets n' password (index + 1) in Some (b :: bs)
  end.

(** The loop over one megabyte of the repeated password. *)
Fixpoint key_loop (fuel : nat) (password : list Z) (count index : Z) (c : hash_ctx H) (buf : list Z)
    : option (hash_ctx H * list Z) :=
  if count <? 1048576 then
    match fuel with
    | O => None
    | S fuel' =>
        let* bs := password_octets (Z.to_nat HASHKEYLEN) password index in
        let* buf := write_at 0 bs buf in
        let* d := slice 0 (Z.to_nat HASHKEYLEN) buf in
        let* c := HASH_UPDATE c d in
        key_loop fuel' password (count + HASHKEYLEN) (index + HASHKEYLEN) c buf
    end
  else Some (c, buf).

(** [buf] is the uninitialised buffer of the function. *)
Definition hash_key (buf password engineID : list Z) : option (list Z) :=
  let* (c, buf) := key_loop (Z.to_nat 16384) password 0 0 HASH_INIT buf in
  let* (key, _) := HASH_FINAL c in
  let* buf := write_at 0 key buf in
  let* buf := write_at digest_len engineID buf in
  let* buf := write_at (digest_len + length engineID) key buf in
  let* d := slice 0 (2 * digest_len + length engineID) buf in
  let* c := HASH_UPDATE HASH_INIT d in
  let* (key, _) := HASH_FINAL c in
  Some key.

(** [cp] is what is left of the message. *)
Fixpoint hmac_loop (fuel : nat) (c : hash_ctx H) (cp : list Z) : option (hash_ctx H) :=
  if zlen cp >=? HASHKEYLEN then
    match fuel with
    | O => None
    | S fuel' =>
        let* d := slice 0 (Z.to_nat HASHKEYLEN) cp in
        let* c := HASH_UPDATE c d in
        hmac_loop fuel' c (drop (Z.to_nat HASHKEYLEN) cp)
    end
  else HASH_UPDATE c cp.

(** The result and the new contents of the caller's buffer.  [aligned] says
    whether the address of the message is a multiple of the size of a word; if
    it is not the message is copied, and [malloc] says whether there is memory
    for that. *)
Definition hash_hmac (aligned malloc : bool) (data mac : list Z) (maclen : Z) (secret : list Z)
    : option (Z * list Z) :=
  if negb (zlen secret =? Z.of_nat digest_len) || (zlen data <=? 0) || (maclen <=? 0) then Some (-1, mac)
  else
    let* extendedAuthKey := write_at 0 secret (replicate (Z.to_nat HASHKEYLEN) 0) in
    let K1 := map (fun b => Z.lxor b 0x36) extendedAuthKey in
    let K2 := map (fun b => Z.lxor b 0x5c) extendedAuthKey in
    let* c := HASH_UPDATE HASH_INIT K1 in
    if negb aligned && negb malloc then None
    else
      let* c := hmac_loop (length data) c data in
      let* (md, _) := HASH_FINAL c in
      let* buf := write_at 0 md (replicate (Z.to_nat HASHKEYLEN) 0) in
      let* c := HASH_UPDATE HASH_INIT K2 in
      let* inner := slice 0 digest_len buf in
      let* c := HASH_UPDATE c inner in
      let* (md, _) := HASH_FINAL c in
      let* buf := write_at 0 md buf in
      let* out := slice 0 (Z.to_nat maclen) buf in
      let* mac := write_at 0 out mac in
      Some (0, mac).
End Usm.

(** The first [n] octets of the password repeated for ever. *)
Definition repeated (password : list Z) (n : nat) : list Z :=
  map (fun i => nth (i mod length password) password 0) (seq 0 n).

(** RFC 3414, appendix A.2: a megabyte of the password is digested, and the
    result is localised with the identifier of the engine. *)
Definition password_to_key (h : list Z -> list Z) (password engineID : list Z) : list Z :=
  let ku := h (repeated password (Z.to_nat 1048576)) in h (ku ++ engineID ++ ku).

(** RFC 2104, for keys that are shorter than a block. *)
Definition hmac_ref (h : list Z -> list Z) (key data : list Z) : list Z :=
  let k := key ++ replicate (64 - length key) 0 in
  h (map (fun b => Z.lxor b 0x5c) k ++ h (map (fun b => Z.lxor b 0x36) k ++ data)).

Section UsmProofs.
Context {H : HashAlg} {HL : HashLaws H}.

Lemma password_octets_spec n password index :
  password <> [] ->
  password_octets n password (Z.of_nat index) = Some (map (fun i => nth (i mod length password) password 0) (seq index n)).
Proof.
  intros Hp. assert (0 < length password)%nat as Hl by (destruct password; [done|cbn; lia]).
  revert index. induction n as [|n IH]; intros index; [done|]. cbn [password_octets seq map].
  rewrite (proj2 (Z.eqb_neq _ _)) by (unfold zlen; lia). unfold zlen. rewrite <- Nat2Z.inj_mod, Nat2Z.id.
  destruct (nth_lookup_or_length password (index mod length password) 0) as [->|Hge].
  - replace (Z.of_nat index + 1) with (Z.of_nat (S index)) by lia. by rewrite IH.
  - pose proof (Nat.mod_upper_bound index (length password)). lia.
Qed.

Lemma length_repeated password n : length (repeated password n) = n.
Proof. unfold repeated. by rewrite length_map, length_seq. Qed.

Lemma repeated_bytes password n : bytes password -> bytes (repeated password n).
Proof.
  intros Hb. apply List.Forall_forall. intros x Hx. apply in_map_iff in Hx as (i & <- & _).
  destruct (nth_in_or_default (i mod length password) password 0) as [Hi | ->]; [|unfold is_u8; lia].
  rewrite List.Forall_forall in Hb. by apply Hb.
Qed.

(** The loop digests the repeated password, 64 octets at a time. *)
Lemma key_loop_spec password fuel k c buf :
  password <> [] -> bytes password -> (64 <= length buf)%nat -> Z.of_nat (fuel + k) = 16384 ->
  ctx_rep c (repeated password (64 * k)) ->
  exists c' buf', key_loop fuel password (64 * Z.of_nat k) (64 * Z.of_nat k) c buf = Some (c', buf') /\
    length buf' = length buf /\ ctx_rep c' (repeated password (Z.to_nat 1048576)).
Proof.
  intros Hp Hb. revert k c buf. induction fuel as [|fuel IH]; intros k c buf Hl Hf Hc; cbn [key_loop].
  - rewrite (proj2 (Z.ltb_ge _ _)) by lia. exists c, buf. replace (Z.to_nat 1048576) with (64 * k)%nat by lia. done.
  - rewrite (proj2 (Z.ltb_lt _ _)) by lia. change (Z.to_nat HASHKEYLEN) with 64%nat.
    replace (64 * Z.of_nat k) with (Z.of_nat (64 * k)) by lia. rewrite password_octets_spec by done.
    set (bs := map _ _). assert (length bs = 64%nat) as Hbs by (subst bs; by rewrite length_map, length_seq).
    rewrite write_at_fits, take_0, app_nil_l, slice_app by lia.
    assert (repeated password (64 * S k) = repeated password (64 * k) ++ bs) as Er.
    { unfold repeated. subst bs. rewrite <- map_app. do 2 f_equal. replace (64 * S k)%nat with (64 * k + 64)%nat by lia. apply seq_app. }
    assert (bytes bs) as Hbb.
    { pose proof (repeated_bytes password (64 * S k) Hb) as Hr. rewrite Er in Hr. by apply Forall_app in Hr as [_ ?]. }
    destruct (update_rep c _ bs Hc Hbb) as (c' & -> & Hc'). rewrite <- Er in Hc'.
    replace (Z.of_nat (64 * k) + HASHKEYLEN) with (64 * Z.of_nat (S k)) by (unfold HASHKEYLEN; lia).
    destruct (IH (S k) c' (bs ++ drop (0 + length bs) buf)) as (c'' & buf' & -> & E & Hc''); [|lia|done|].
    + rewrite length_app, length_drop. lia.
    + exists c'', buf'. split; [done|]. rewrite E, length_app, length_drop. split; [lia|done].
Qed.

Lemma length_digest msg : length (digest msg) = digest_len.
Proof. apply length_make_string. Qed.

Lemma digest_bytes msg : bytes (digest msg).
Proof. apply make_string_bytes. Qed.

(** Digesting one piece of memory. *)
Lemma oneshot msg : bytes msg ->
  exists c, HASH_UPDATE HASH_INIT msg = Some c /\ ctx_rep c msg.
Proof. intros Hb. apply (update_rep HASH_INIT [] msg init_rep Hb). Qed.

Lemma hash_key_spec buf password engineID :
  password <> [] -> bytes password -> bytes engineID ->
  (64 <= length buf)%nat -> (2 * digest_len + length engineID <= length buf)%nat ->
  hash_key buf password engineID = Some (password_to_key digest password engineID).
Proof.
  intros Hp Hb He Hl Hfit. unfold hash_key.
  destruct (key_loop_spec password (Z.to_nat 16384) 0 HASH_INIT buf) as (c & b & Ek & Eb & Hc); [done..|lia|apply init_rep|].
  change (64 * Z.of_nat 0) with 0 in Ek. rewrite Ek. destruct (final_rep c _ Hc) as (c' & ->). set (ku := digest _).
  pose proof (length_digest (repeated password (Z.to_nat 1048576)) : length ku = _) as Hk.
  rewrite write_start by lia. rewrite !write_next by (rewrite ?length_app, ?length_drop; lia).
  rewrite slice_app by (rewrite !length_app; lia). rewrite <- app_assoc.
  destruct (oneshot (ku ++ engineID ++ ku)) as (c2 & -> & Hc2).
  { repeat apply Forall_app_2; done || apply digest_bytes. }
  by destruct (final_rep c2 _ Hc2) as (c3 & ->).
Qed.

(** The loop of the authentication code digests the message. *)
Lemma hmac_loop_spec fuel c msg cp :
  ctx_rep c msg -> bytes cp -> (length cp <= fuel)%nat -> exists c', hmac_loop fuel c cp = Some c' /\ ctx_rep c' (msg ++ cp).
Proof.
  revert c msg cp. induction fuel as [|fuel IH]; intros c msg cp Hc Hb Hl; cbn [hmac_loop]; rewrite Z.geb_leb.
  - rewrite (proj2 (Z.leb_gt _ _)) by (unfold zlen, HASHKEYLEN; lia). by apply update_rep.
  - destruct (Z.leb_spec HASHKEYLEN (zlen cp)) as [Hg|Hg]; [|by apply update_rep].
    change (Z.to_nat HASHKEYLEN) with 64%nat. unfold zlen, HASHKEYLEN in Hg. rewrite slice_take by lia.
    destruct (update_rep c msg (take 64 cp) Hc) as (c' & -> & Hc'); [by apply Forall_take|].
    destruct (IH c' _ (drop 64 cp) Hc') as (c'' & -> & Hc''); [by apply Forall_drop|rewrite length_drop; lia|].
    exists c''. split; [done|]. by rewrite <- app_assoc, take_drop in Hc''.
Qed.

Lemma xor_bytes k l : is_u8 k -> bytes l -> bytes (map (fun b => Z.lxor b k) l).
Proof.
  intros Hk Hl. apply Forall_map. eapply Forall_impl; [exact Hl|]. intros b Hb. cbn. unfold is_u8 in *.
  split; [apply Z.lxor_nonneg; lia|]. destruct (decide (Z.lxor b k = 0)) as [->|Hn]; [lia|].
  apply Z.log2_lt_pow2; [|eapply Z.le_lt_trans; [apply Z.log2_lxor; lia|]].
  - assert (0 <= Z.lxor b k) by (apply Z.lxor_nonneg; lia). lia.
  - apply Z.max_lub_lt; [destruct (decide (b = 0)) as [->|]; [cbn; lia|] | destruct (decide (k = 0)) as [->|]; [cbn; lia|]];
      apply Z.log2_lt_pow2; lia.
Qed.

Lemma hash_hmac_spec aligned malloc data mac maclen secret :
  length secret = digest_len -> (digest_len <= 64)%nat -> bytes secret -> bytes data -> data <> [] ->
  0 < maclen -> maclen <= Z.of_nat digest_len -> (Z.to_nat maclen <= length mac)%nat -> aligned || malloc = true ->
  hash_hmac aligned malloc data mac maclen secret =
    Some (0, take (Z.to_nat maclen) (hmac_ref digest secret data) ++ drop (Z.to_nat maclen) mac).
Proof.
  intros Hs Hd Hbs Hbd Hne Hm Hml Hfit Ham. unfold hash_hmac.
  assert (0 < zlen data) as Hdata by (destruct data; [done|unfold zlen; cbn; lia]).
  rewrite (proj2 (Z.eqb_eq (zlen secret) _)), (proj2 (Z.leb_gt (zlen data) 0)), (proj2 (Z.leb_gt maclen 0)) by (unfold zlen in *; lia).
  cbn [negb orb].
  replace (negb aligned && negb malloc) with false by (by destruct aligned, malloc).
  change (Z.to_nat HASHKEYLEN) with 64%nat.
  rewrite write_start by (rewrite length_replicate; lia).
  rewrite drop_replicate, Hs. unfold hmac_ref. rewrite <- Hs. set (k := secret ++ _).
  assert (bytes k) as Hbk by (apply Forall_app_2; [done|by apply Forall_replicate]).
  assert (bytes (map (fun b => Z.lxor b 0x36) k) /\ bytes (map (fun b => Z.lxor b 0x5c) k)) as [H1 H2]
    by (split; apply xor_bytes; done).
  destruct (oneshot _ H1) as (c1 & -> & R1).
  destruct (hmac_loop_spec (length data) c1 _ data R1 Hbd ltac:(lia)) as (c2 & -> & R2).
  destruct (final_rep c2 _ R2) as (c3 & ->). set (inner := digest _).
  pose proof (length_digest (map (fun b => Z.lxor b 0x36) k ++ data) : length inner = _) as Hi.
  rewrite write_start by (rewrite length_replicate; lia).
  destruct (oneshot _ H2) as (c4 & -> & R4). rewrite slice_app by lia.
  destruct (update_rep c4 _ inner R4 ltac:(apply digest_bytes)) as (c5 & -> & R5).
  destruct (final_rep c5 _ R5) as (c6 & ->). set (outer := digest _).
  pose proof (length_digest (map (fun b => Z.lxor b 0x5c) k ++ inner) : length outer = _) as Ho.
  rewrite write_start by (rewrite length_app, length_drop, length_replicate; lia).
  rewrite slice_take by (rewrite length_app; lia). rewrite take_app_le by lia.
  rewrite write_start by (rewrite length_take; lia).
  rewrite length_take, Nat.min_l by lia. done.
Qed.
End UsmProofs.
