(* ===== verification/Md5.v ===== *)
(** * MD5 ([openssl_md5.c], [openssl_md5_local.h])

    The rounds are unrolled in the source: each line applies a macro to named
    registers, with loads of the words of the block in between.  They are kept
    as such, as a list of instructions that [md5_exec] executes on the registers
    of a [target].  The reference is the loop of RFC 1321 on words of 32 bits
    ([md5_step]); the main result is that the block function computes it on
    every target, which makes MD5 an instance of [HashLaws]. *)
From S2P Require Import Prelude HashWords Hash.
Local Open Scope Z_scope.

(** ** The macros of the rounds *)
Definition MD5_F (b c d : Z) : Z := Z.lxor (Z.land (Z.lxor c d) b) d.
Definition MD5_G (b c d : Z) : Z := Z.lxor (Z.land (Z.lxor b c) d) c.
Definition MD5_H (b c d : Z) : Z := Z.lxor (Z.lxor b c) d.
Definition MD5_I (b c d : Z) : Z := Z.lxor (Z.lor (Z.lnot d) b) c.

(** [LD i] is [HOST_c2l(data,l); X(i)=l]; [RND f a b c d i s t] is [Rf(a,b,c,d,X(i),s,t)]. *)
Inductive md5_instr :=
  | LD (i : nat)
  | RND (f : nat) (a b c d : nat) (i : nat) (s t : Z).
Abbreviation R0 := (RND 0).
Abbreviation R1 := (RND 1).
Abbreviation R2 := (RND 2).
Abbreviation R3 := (RND 3).

Definition round_fun (f : nat) : Z -> Z -> Z -> Z :=
  match f with 0%nat => MD5_F | 1%nat => MD5_G | 2%nat => MD5_H | _ => MD5_I end.

(** ** [md5_block_data_order] *)
Definition md5_program : list md5_instr :=
  [LD 0; LD 1; R0 rA rB rC rD 0 7 0xd76aa478; LD 2; R0 rD rA rB rC 1 12 0xe8c7b756; LD 3;
   R0 rC rD rA rB 2 17 0x242070db; LD 4; R0 rB rC rD rA 3 22 0xc1bdceee; LD 5; R0 rA rB rC rD 4 7 0xf57c0faf; LD 6;
   R0 rD rA rB rC 5 12 0x4787c62a; LD 7; R0 rC rD rA rB 6 17 0xa8304613; LD 8; R0 rB rC rD rA 7 22 0xfd469501;
   LD 9; R0 rA rB rC rD 8 7 0x698098d8; LD 10; R0 rD rA rB rC 9 12 0x8b44f7af; LD 11;
   R0 rC rD rA rB 10 17 0xffff5bb1; LD 12; R0 rB rC rD rA 11 22 0x895cd7be; LD 13; R0 rA rB rC rD 12 7 0x6b901122;
   LD 14; R0 rD rA rB rC 13 12 0xfd987193; LD 15; R0 rC rD rA rB 14 17 0xa679438e; R0 rB rC rD rA 15 22 0x49b40821;
   R1 rA rB rC rD 1 5 0xf61e2562; R1 rD rA rB rC 6 9 0xc040b340; R1 rC rD rA rB 11 14 0x265e5a51;
   R1 rB rC rD rA 0 20 0xe9b6c7aa; R1 rA rB rC rD 5 5 0xd62f105d; R1 rD rA rB rC 10 9 0x02441453;
   R1 rC rD rA rB 15 14 0xd8a1e681; R1 rB rC rD rA 4 20 0xe7d3fbc8; R1 rA rB rC rD 9 5 0x21e1cde6;
   R1 rD rA rB rC 14 9 0xc33707d6; R1 rC rD rA rB 3 14 0xf4d50d87; R1 rB rC rD rA 8 20 0x455a14ed;
   R1 rA rB rC rD 13 5 0xa9e3e905; R1 rD rA rB rC 2 9 0xfcefa3f8; R1 rC rD rA rB 7 14 0x676f02d9;
   R1 rB rC rD rA 12 20 0x8d2a4c8a; R2 rA rB rC rD 5 4 0xfffa3942; R2 rD rA rB rC 8 11 0x8771f681;
   R2 rC rD rA rB 11 16 0x6d9d6122; R2 rB rC rD rA 14 23 0xfde5380c; R2 rA rB rC rD 1 4 0xa4beea44;
   R2 rD rA rB rC 4 11 0x4bdecfa9; R2 rC rD rA rB 7 16 0xf6bb4b60; R2 rB rC rD rA 10 23 0xbebfbc70;
   R2 rA rB rC rD 13 4 0x289b7ec6; R2 rD rA rB rC 0 11 0xeaa127fa; R2 rC rD rA rB 3 16 0xd4ef3085;
   R2 rB rC rD rA 6 23 0x04881d05; R2 rA rB rC rD 9 4 0xd9d4d039; R2 rD rA rB rC 12 11 0xe6db99e5;
   R2 rC rD rA rB 15 16 0x1fa27cf8; R2 rB rC rD rA 2 23 0xc4ac5665; R3 rA rB rC rD 0 6 0xf4292244;
   R3 rD rA rB rC 7 10 0x432aff97; R3 rC rD rA rB 14 15 0xab9423a7; R3 rB rC rD rA 5 21 0xfc93a039;
   R3 rA rB rC rD 12 6 0x655b59c3; R3 rD rA rB rC 3 10 0x8f0ccc92; R3 rC rD rA rB 10 15 0xffeff47d;
   R3 rB rC rD rA 1 21 0x85845dd1; R3 rA rB rC rD 8 6 0x6fa87e4f; R3 rD rA rB rC 15 10 0xfe2ce6e0;
   R3 rC rD rA rB 6 15 0xa3014314; R3 rB rC rD rA 13 21 0x4e0811a1; R3 rA rB rC rD 4 6 0xf7537e82;
   R3 rD rA rB rC 11 10 0xbd3af235; R3 rC rD rA rB 2 15 0x2ad7d2bb; R3 rB rC rD rA 9 21 0xeb86d391].

Record md5_state := mk_md5 { md5_A : Z; md5_B : Z; md5_C : Z; md5_D : Z }.

(** [MD5_Init] *)
Definition md5_init : md5_state := mk_md5 0x67452301 0xefcdab89 0x98badcfe 0x10325476.

Section Md5.
Context (t : target).

(** The registers, the words X and what is left of the data. *)
Definition md5_machine : Type := list Z * list Z * list Z.

Definition md5_exec (i : md5_instr) (m : md5_machine) : option md5_machine :=
  let '(r, X, data) := m in
  match i with
  | LD i =>
      let* (l, data') := HOST_c2l LE data in
      let* _ := X !! i in Some (r, <[i := l]> X, data')
  | RND f a b c d i s k =>
      let* va := r !! a in let* vb := r !! b in let* vc := r !! c in let* vd := r !! d in
      let* x := X !! i in
      let va := reg t (va + (x + k + round_fun f vb vc vd)) in
      let va := reg t (ROTATE t va s) in
      let va := reg t (va + vb) in
      Some (<[a := va]> r, X, data)
  end.

Fixpoint md5_run (p : list md5_instr) (m : md5_machine) : option md5_machine :=
  match p with
  | [] => Some m
  | i :: p' => let* m := md5_exec i m in md5_run p' m
  end.

Fixpoint md5_blocks (num : nat) (c : md5_state) (X data : list Z) : option md5_state :=
  match num with
  | O => Some c
  | S num' =>
      let* (r, X, data) := md5_run md5_program ([md5_A c; md5_B c; md5_C c; md5_D c], X, data) in
      match r with
      | [a; b; c'; d] => md5_blocks num' (mk_md5 (u32 (md5_A c + a)) (u32 (md5_B c + b)) (u32 (md5_C c + c')) (u32 (md5_D c + d))) X data
      | _ => None
      end
  end.

Definition md5_block_data_order (c : md5_state) (data : list Z) (num : nat) : option md5_state :=
  md5_blocks num c (replicate 16 (reg_junk t)) data.

(** [HASH_MAKE_STRING] *)
Definition md5_make_string (c : md5_state) : list Z :=
  HOST_l2c LE (md5_A c) ++ HOST_l2c LE (md5_B c) ++ HOST_l2c LE (md5_C c) ++ HOST_l2c LE (md5_D c).

Definition md5_alg : HashAlg := {|
  hash_init := md5_init; data_order := LE; block_data_order := md5_block_data_order;
  make_string := md5_make_string; digest_len := 16
|}.
End Md5.

(** ** The reference (RFC 1321, section 3.4) *)
Definition md5_F (x y z : Z) : Z := Z.lor (Z.land x y) (Z.land (not32 x) z).
Definition md5_G (x y z : Z) : Z := Z.lor (Z.land x z) (Z.land y (not32 z)).
Definition md5_H (x y z : Z) : Z := Z.lxor (Z.lxor x y) z.
Definition md5_I (x y z : Z) : Z := Z.lxor y (Z.lor x (not32 z)).

(** The integer part of 4294967296 times abs(sin(i + 1)). *)
Definition md5_T : list Z :=
  [0xd76aa478; 0xe8c7b756; 0x242070db; 0xc1bdceee; 0xf57c0faf; 0x4787c62a; 0xa8304613; 0xfd469501;
   0x698098d8; 0x8b44f7af; 0xffff5bb1; 0x895cd7be; 0x6b901122; 0xfd987193; 0xa679438e; 0x49b40821;
   0xf61e2562; 0xc040b340; 0x265e5a51; 0xe9b6c7aa; 0xd62f105d; 0x02441453; 0xd8a1e681; 0xe7d3fbc8;
   0x21e1cde6; 0xc33707d6; 0xf4d50d87; 0x455a14ed; 0xa9e3e905; 0xfcefa3f8; 0x676f02d9; 0x8d2a4c8a;
   0xfffa3942; 0x8771f681; 0x6d9d6122; 0xfde5380c; 0xa4beea44; 0x4bdecfa9; 0xf6bb4b60; 0xbebfbc70;
   0x289b7ec6; 0xeaa127fa; 0xd4ef3085; 0x04881d05; 0xd9d4d039; 0xe6db99e5; 0x1fa27cf8; 0xc4ac5665;
   0xf4292244; 0x432aff97; 0xab9423a7; 0xfc93a039; 0x655b59c3; 0x8f0ccc92; 0xffeff47d; 0x85845dd1;
   0x6fa87e4f; 0xfe2ce6e0; 0xa3014314; 0x4e0811a1; 0xf7537e82; 0xbd3af235; 0x2ad7d2bb; 0xeb86d391].

Definition md5_shifts (r : nat) : list Z :=
  match r with
  | 0%nat => [7; 12; 17; 22] | 1%nat => [5; 9; 14; 20] | 2%nat => [4; 11; 16; 23] | _ => [6; 10; 15; 21]
  end.

Definition md5_index (r i : nat) : nat :=
  match r with
  | 0%nat => i | 1%nat => (5 * i + 1) mod 16 | 2%nat => (3 * i + 5) mod 16 | _ => (7 * i) mod 16
  end.

Definition md5_fun (r : nat) : Z -> Z -> Z -> Z :=
  match r with 0%nat => md5_F | 1%nat => md5_G | 2%nat => md5_H | _ => md5_I end.

Definition md5_step (M : nat -> Z) (i : nat) (s : Z * Z * Z * Z) : Z * Z * Z * Z :=
  let '(a, b, c, d) := s in
  let r := (i / 16)%nat in
  (d, u32 (b + rotl32 (nth (i mod 4) (md5_shifts r) 0)
                 (u32 (a + md5_fun r b c d + M (md5_index r i) + nth i md5_T 0))), b, c).

(** Operations [i], ..., [i + n - 1]. *)
Fixpoint md5_steps (M : nat -> Z) (n i : nat) (s : Z * Z * Z * Z) : Z * Z * Z * Z :=
  match n with
  | O => s
  | S n' => md5_steps M n' (S i) (md5_step M i s)
  end.

(** The state is made of words of 32 bits. *)
Definition md5_compress (c : md5_state) (b : list Z) : md5_state :=
  let '(x, y, z, w) := md5_steps (word LE b) 64 0 (u32 (md5_A c), u32 (md5_B c), u32 (md5_C c), u32 (md5_D c)) in
  mk_md5 (u32 (md5_A c + x)) (u32 (md5_B c + y)) (u32 (md5_C c + z)) (u32 (md5_D c + w)).

(** The message digest of RFC 1321. *)
Definition md5 : list Z -> list Z := merkle_damgard LE md5_compress md5_init md5_make_string.

(** ** Test vectors (RFC 1321, appendix A.5) *)
Definition test_target : target := mk_target 64 false 0xdeadbeefdeadbeef.

Definition md5_of (msg : list Z) : option (list Z) :=
  let* c := @HASH_UPDATE (md5_alg test_target) HASH_INIT msg in
  let* (md, _) := HASH_FINAL c in Some md.

Example md5_abc : md5_of [0x61; 0x62; 0x63] =
  Some [0x90; 0x01; 0x50; 0x98; 0x3c; 0xd2; 0x4f; 0xb0; 0xd6; 0x96; 0x3f; 0x7d; 0x28; 0xe1; 0x7f; 0x72].
Proof. vm_compute. reflexivity. Qed.

(** ** The program computes the reference *)
Lemma round_fun_spec f b c d : u32 (round_fun f b c d) = md5_fun f (u32 b) (u32 c) (u32 d).
Proof.
  assert (forall x, Z.lxor (u32 x) 0xffffffff = u32 (Z.lnot x)) as En by (intros; symmetry; apply u32_lnot).
  destruct f as [|[|[|f]]]; cbn [round_fun md5_fun]; unfold MD5_F, MD5_G, MD5_H, MD5_I, md5_F, md5_G, md5_H, md5_I, not32;
    rewrite ?En; zbits.
Qed.

(** One operation. *)
Lemma md5_op t a b c d x k f s : target_ok t -> 0 < s < 32 ->
  u32 (reg t (reg t (ROTATE t (reg t (a + (x + k + round_fun f b c d))) s) + b)) =
  u32 (u32 b + rotl32 s (u32 (u32 a + md5_fun f (u32 b) (u32 c) (u32 d) + x + k))).
Proof.
  intros Ht Hs. rewrite u32_reg, u32_add, u32_reg, u32_ROTATE, u32_reg by done.
  rewrite Z.add_comm. do 3 f_equal. rewrite <- round_fun_spec. unfold u32. Z.div_mod_to_equations. lia.
Qed.

(** Where the variables of the reference are before an operation: the names of
    the registers rotate. *)
Definition md5_arrange (j : nat) (s : Z * Z * Z * Z) : list Z :=
  let '(a, b, c, d) := s in
  match j with 0%nat => [a; b; c; d] | 1%nat => [b; c; d; a] | 2%nat => [c; d; a; b] | _ => [d; a; b; c] end.

Definition md5_next_name (j : nat) : nat := match j with 0%nat => 1 | 1%nat => 2 | 2%nat => 3 | _ => 0 end.

Definition md5_names (j : nat) : nat * nat * nat * nat :=
  match j with
  | 0%nat => (rA, rB, rC, rD) | 1%nat => (rD, rA, rB, rC) | 2%nat => (rC, rD, rA, rB) | _ => (rB, rC, rD, rA)
  end.

(** The program has the operations of the reference in order, with the right
    registers, words and constants, and loads every word before it is used; [i]
    operations and [n] loads have been seen. *)
Fixpoint md5_checked (p : list md5_instr) (i j n : nat) : bool :=
  match p with
  | [] => bool_decide (i = 64%nat /\ j = 0%nat /\ n = 16%nat)
  | LD k :: p' => bool_decide (k = n /\ (n < 16)%nat) && md5_checked p' i j (S n)
  | RND f a b c d x s k :: p' =>
      bool_decide (f = (i / 16)%nat /\ (a, b, c, d) = md5_names j /\ x = md5_index (i / 16) i /\ (x < n)%nat /\
        s = nth (i mod 4) (md5_shifts (i / 16)) 0 /\ k = nth i md5_T 0 /\ 0 < s < 32 /\ (i < 64)%nat) &&
      md5_checked p' (S i) (md5_next_name j) n
  end.

Lemma md5_program_checked : md5_checked md5_program 0 0 0 = true.
Proof. vm_compute. reflexivity. Qed.

(** The words of the block [b] that have been loaded. *)
Definition md5_loaded (b rest : list Z) (n : nat) (X data : list Z) : Prop :=
  length X = 16%nat /\ (forall k, (k < n)%nat -> X !! k = Some (word LE b k)) /\ data = drop (4 * n) b ++ rest.

Lemma md5_load_word b rest n X data : length b = 64%nat -> bytes b -> (n < 16)%nat -> md5_loaded b rest n X data ->
  exists X' data', (let* (l, data') := HOST_c2l LE data in let* _ := X !! n in Some (<[n := l]> X, data')) = Some (X', data') /\
    md5_loaded b rest (S n) X' data'.
Proof.
  intros Hl Hb Hn (HX & Hw & ->). rewrite c2l_block by done.
  destruct (lookup_lt_is_Some_2 X n ltac:(lia)) as [x ->]. eexists _, _. split; [done|].
  split; [by rewrite length_insert|]. split; [|done]. intros k Hk. destruct (decide (k = n)) as [->|].
  - apply list_lookup_insert_eq. lia.
  - rewrite list_lookup_insert_ne by done. apply Hw. lia.
Qed.

Lemma md5_exec_spec t j f sh k r X data x w va vb vc vd a b c d :
  target_ok t -> 0 < sh < 32 -> (a, b, c, d) = md5_names j -> map u32 r = md5_arrange j (va, vb, vc, vd) -> X !! x = Some w ->
  exists r', md5_exec t (RND f a b c d x sh k) (r, X, data) = Some (r', X, data) /\
    map u32 r' = md5_arrange (md5_next_name j) (vd, u32 (vb + rotl32 sh (u32 (va + md5_fun f vb vc vd + w + k))), vb, vc).
Proof.
  intros Ht Hs En Hr Hx.
  destruct j as [|[|[|j]]]; cbn [md5_arrange] in Hr; cbn [md5_names] in En; simplify_eq;
    destruct r as [|r0 [|r1 [|r2 [|r3 [|]]]]]; try discriminate Hr; cbn [map] in Hr; simplify_eq;
    cbn [md5_exec]; rewrite Hx; eexists; (split; [reflexivity|]); cbn; by rewrite md5_op.
Qed.

Lemma md5_run_spec t b rest p i j n r X data s :
  target_ok t -> length b = 64%nat -> bytes b -> md5_checked p i j n = true ->
  map u32 r = md5_arrange j s -> md5_loaded b rest n X data ->
  exists r' X', md5_run t p (r, X, data) = Some (r', X', rest) /\
    map u32 r' = md5_arrange 0 (md5_steps (word LE b) (64 - i) i s) /\ length X' = 16%nat.
Proof.
  intros Ht Hl Hb. revert i j n r X data s. induction p as [|o p IH]; intros i j n r X data s Hc Hr HX; cbn [md5_checked] in Hc.
  - apply bool_decide_eq_true in Hc as (-> & -> & ->). destruct HX as (HX & _ & ->). exists r, X.
    rewrite (drop_ge b) by lia. done.
  - destruct o as [k|f a b' c d x sh k]; apply andb_true_iff in Hc as [Hc Hp]; apply bool_decide_eq_true in Hc.
    + destruct Hc as [-> Hn]. destruct (md5_load_word b rest n X data Hl Hb Hn HX) as (X' & data' & E & HX').
      cbn [md5_run md5_exec]. destruct (HOST_c2l LE data) as [[l d']|]; [|done]. destruct (X !! n); [|done].
      simplify_eq. by apply (IH i j (S n)).
    + destruct Hc as (-> & En & -> & Hx & Es & Ek & Hs & Hi). destruct HX as (HX & Hw & ->).
      destruct s as [[[va vb] vc] vd]. replace (64 - i)%nat with (S (64 - S i)) by lia. cbn [md5_run md5_steps].
      destruct (md5_exec_spec t j (i / 16) sh k r X (drop (4 * n) b ++ rest) _ _ va vb vc vd a b' c d Ht Hs En Hr (Hw _ Hx))
        as (r' & -> & Hr').
      apply (IH (S i) (md5_next_name j) n); [done| |done]. by rewrite Hr', Es, Ek.
Qed.

(** All the blocks. *)
Lemma md5_blocks_spec t n c X data :
  target_ok t -> bytes data -> length X = 16%nat -> (64 * n <= length data)%nat ->
  md5_blocks t n c X data = Some (fold_blocks md5_compress n c data).
Proof.
  intros Ht. revert c X data. induction n as [|n IH]; intros c X data Hb HX Hl; [done|]. cbn [md5_blocks fold_blocks].
  assert (length (take 64 data) = 64%nat) as H64 by (rewrite length_take; lia).
  destruct c as [a b c d]. cbn [md5_A md5_B md5_C md5_D].
  destruct (md5_run_spec t (take 64 data) (drop 64 data) md5_program 0 0 0 [a; b; c; d] X data (u32 a, u32 b, u32 c, u32 d))
    as (r & X' & -> & Hr & HX'); [done..|by apply Forall_take|apply md5_program_checked|done| |].
  { split; [done|]. split; [lia|]. by rewrite drop_0, take_drop. }
  unfold md5_compress. cbn [md5_A md5_B md5_C md5_D]. change (64 - 0)%nat with 64%nat in Hr.
  destruct (md5_steps _ 64 0 _) as [[[x y] z] w]. cbn [md5_arrange] in Hr.
  destruct r as [|r0 [|r1 [|r2 [|r3 [|]]]]]; try discriminate Hr. cbn [map] in Hr. simplify_eq.
  rewrite IH by (done || (by apply Forall_drop) || rewrite length_drop; lia).
  assert (forall u v, u32 (u + u32 v) = u32 (u + v)) as E by (intros; unfold u32; by rewrite Z.add_mod_idemp_r by lia).
  by rewrite !E.
Qed.

Lemma length_md5_make_string s : length (md5_make_string s) = 16%nat.
Proof. done. Qed.

Lemma md5_make_string_bytes s : bytes (md5_make_string s).
Proof. unfold md5_make_string. rewrite !HOST_l2c_mem. repeat apply Forall_app_2; apply mem_of_bytes. Qed.

Section Digest.
Context (t : target) (Ht : target_ok t).

(** MD5 keeps the contract of the collector. *)
#[local] Instance md5_laws : HashLaws (md5_alg t).
Proof.
  refine (@Build_HashLaws (md5_alg t) md5_compress _ length_md5_make_string md5_make_string_bytes).
  intros s data n Hb Hn Hl. apply md5_blocks_spec; [done|done|apply length_replicate|done].
Defined.

Lemma md5_digest : @digest (md5_alg t) md5_laws = md5.
Proof. done. Qed.

(** C10: hashing a message that arrives in any number of pieces of any sizes with
    [MD5_Init], [MD5_Update] and [MD5_Final] gives the digest of RFC 1321 of the
    whole message, whatever the width of the registers and the rotation of the
    target, and without any access outside the context and the pieces. *)
Theorem md5_streaming (ds : list (list Z)) :
  Forall bytes ds ->
  exists c c', update_all (@HASH_INIT (md5_alg t)) ds = Some c /\ HASH_FINAL c = Some (md5 (concat ds), c').
Proof.
  intros Hb. destruct (update_all_rep (H := md5_alg t) ds HASH_INIT [] init_rep Hb) as (c & E & Hc).
  destruct (final_rep c _ Hc) as (c' & Ef). rewrite md5_digest in Ef. exists c, c'. split; [exact E|exact Ef].
Qed.

(** [password_buf] has 64 bytes. *)
Definition MD5_key (password engineID : list Z) : option (list Z) :=
  @hash_key (md5_alg t) (replicate 64 (reg_junk t)) password engineID.

Definition MD5_hmac (aligned malloc : bool) (data mac : list Z) (maclen : Z) (secret : list Z) : option (Z * list Z) :=
  @hash_hmac (md5_alg t) aligned malloc data mac maclen secret.

Lemma MD5_key_spec password engineID :
  password <> [] -> bytes password -> bytes engineID -> (length engineID <= 32)%nat ->
  MD5_key password engineID = Some (password_to_key md5 password engineID).
Proof.
  intros Hp Hb He Hl. unfold MD5_key.
  rewrite hash_key_spec by (rewrite ?length_replicate; done || cbn; lia). by rewrite md5_digest.
Qed.

Lemma MD5_hmac_spec aligned malloc data mac maclen secret :
  length secret = 16%nat -> bytes secret -> bytes data -> data <> [] ->
  0 < maclen <= 16 -> (Z.to_nat maclen <= length mac)%nat -> aligned || malloc = true ->
  MD5_hmac aligned malloc data mac maclen secret =
    Some (0, take (Z.to_nat maclen) (hmac_ref md5 secret data) ++ drop (Z.to_nat maclen) mac).
Proof.
  intros. unfold MD5_hmac. rewrite hash_hmac_spec by (done || cbn; lia). by rewrite md5_digest.
Qed.
End Digest.

Lemma md5_streaming_witness :
  exists c c', update_all (@HASH_INIT (md5_alg (mk_target 64 false 0))) [[1; 2]; []; replicate 100 3] = Some c /\
    HASH_FINAL c = Some (md5 (concat [[1; 2]; []; replicate 100 3]), c').
Proof.
  refine (md5_streaming (mk_target 64 false 0) _ [[1; 2]; []; replicate 100 3] _).
  - unfold target_ok. cbn. lia.
  - repeat (apply Forall_cons; split; [apply bytes_check; reflexivity|]). apply Forall_nil_2.
Defined.
