(* ===== verification/Sha1.v ===== *)
(** * SHA-1 ([openssl_sha.c], [openssl_sha_local.h])

    As for MD5 the rounds are unrolled in the source and kept as a list of
    instructions, on six registers whose roles rotate and on a window of sixteen
    words that the message schedule overwrites in place.  The branch for a host
    that is little endian is modelled; the other reads the same words.  The
    reference is the loop of FIPS 180 with a schedule of eighty words. *)
From S2P Require Import Prelude HashWords Hash.
Local Open Scope Z_scope.

(** ** The macros of the rounds *)
Definition K_00_19 : Z := 0x5a827999.
Definition K_20_39 : Z := 0x6ed9eba1.
Definition K_40_59 : Z := 0x8f1bbcdc.
Definition K_60_79 : Z := 0xca62c1d6.

Definition F_00_19 (b c d : Z) : Z := Z.lxor (Z.land (Z.lxor c d) b) d.
Definition F_20_39 (b c d : Z) : Z := Z.lxor (Z.lxor b c) d.
Definition F_40_59 (b c d : Z) : Z := Z.lor (Z.land b c) (Z.land (Z.lor b c) d).
Definition F_60_79 (b c d : Z) : Z := F_20_39 b c d.

(** [LD i] is [HOST_c2l(data,l); X(i)=l]; the other instructions are the macros,
    with the numbers of registers and of words for arguments. *)
Inductive sha1_instr :=
  | LD (i : nat)
  | BODY_00_15 (i a b c d e f xi : nat)
  | BODY_16_19 (i a b c d e f xi xa xb xc xd : nat)
  | BODY_20_31 (i a b c d e f xi xa xb xc xd : nat)
  | BODY_32_39 (i a b c d e f xa xb xc xd : nat)
  | BODY_40_59 (i a b c d e f xa xb xc xd : nat)
  | BODY_60_79 (i a b c d e f xa xb xc xd : nat).

#[export] Instance sha1_instr_eq_dec : EqDecision sha1_instr.
Proof. solve_decision. Defined.

(** ** [sha1_block_data_order] *)
Definition sha1_program : list sha1_instr :=
  [LD 0; LD 1; BODY_00_15 0 rA rB rC rD rE rT 0; LD 2; BODY_00_15 1 rT rA rB rC rD rE 1; LD 3;
   BODY_00_15 2 rE rT rA rB rC rD 2; LD 4; BODY_00_15 3 rD rE rT rA rB rC 3; LD 5;
   BODY_00_15 4 rC rD rE rT rA rB 4; LD 6; BODY_00_15 5 rB rC rD rE rT rA 5; LD 7;
   BODY_00_15 6 rA rB rC rD rE rT 6; LD 8; BODY_00_15 7 rT rA rB rC rD rE 7; LD 9;
   BODY_00_15 8 rE rT rA rB rC rD 8; LD 10; BODY_00_15 9 rD rE rT rA rB rC 9; LD 11;
   BODY_00_15 10 rC rD rE rT rA rB 10; LD 12; BODY_00_15 11 rB rC rD rE rT rA 11; LD 13;
   BODY_00_15 12 rA rB rC rD rE rT 12; LD 14; BODY_00_15 13 rT rA rB rC rD rE 13; LD 15;
   BODY_00_15 14 rE rT rA rB rC rD 14; BODY_00_15 15 rD rE rT rA rB rC 15;
   BODY_16_19 16 rC rD rE rT rA rB 0 0 2 8 13; BODY_16_19 17 rB rC rD rE rT rA 1 1 3 9 14;
   BODY_16_19 18 rA rB rC rD rE rT 2 2 4 10 15; BODY_16_19 19 rT rA rB rC rD rE 3 3 5 11 0;
   BODY_20_31 20 rE rT rA rB rC rD 4 4 6 12 1; BODY_20_31 21 rD rE rT rA rB rC 5 5 7 13 2;
   BODY_20_31 22 rC rD rE rT rA rB 6 6 8 14 3; BODY_20_31 23 rB rC rD rE rT rA 7 7 9 15 4;
   BODY_20_31 24 rA rB rC rD rE rT 8 8 10 0 5; BODY_20_31 25 rT rA rB rC rD rE 9 9 11 1 6;
   BODY_20_31 26 rE rT rA rB rC rD 10 10 12 2 7; BODY_20_31 27 rD rE rT rA rB rC 11 11 13 3 8;
   BODY_20_31 28 rC rD rE rT rA rB 12 12 14 4 9; BODY_20_31 29 rB rC rD rE rT rA 13 13 15 5 10;
   BODY_20_31 30 rA rB rC rD rE rT 14 14 0 6 11; BODY_20_31 31 rT rA rB rC rD rE 15 15 1 7 12;
   BODY_32_39 32 rE rT rA rB rC rD 0 2 8 13; BODY_32_39 33 rD rE rT rA rB rC 1 3 9 14;
   BODY_32_39 34 rC rD rE rT rA rB 2 4 10 15; BODY_32_39 35 rB rC rD rE rT rA 3 5 11 0;
   BODY_32_39 36 rA rB rC rD rE rT 4 6 12 1; BODY_32_39 37 rT rA rB rC rD rE 5 7 13 2;
   BODY_32_39 38 rE rT rA rB rC rD 6 8 14 3; BODY_32_39 39 rD rE rT rA rB rC 7 9 15 4;
   BODY_40_59 40 rC rD rE rT rA rB 8 10 0 5; BODY_40_59 41 rB rC rD rE rT rA 9 11 1 6;
   BODY_40_59 42 rA rB rC rD rE rT 10 12 2 7; BODY_40_59 43 rT rA rB rC rD rE 11 13 3 8;
   BODY_40_59 44 rE rT rA rB rC rD 12 14 4 9; BODY_40_59 45 rD rE rT rA rB rC 13 15 5 10;
   BODY_40_59 46 rC rD rE rT rA rB 14 0 6 11; BODY_40_59 47 rB rC rD rE rT rA 15 1 7 12;
   BODY_40_59 48 rA rB rC rD rE rT 0 2 8 13; BODY_40_59 49 rT rA rB rC rD rE 1 3 9 14;
   BODY_40_59 50 rE rT rA rB rC rD 2 4 10 15; BODY_40_59 51 rD rE rT rA rB rC 3 5 11 0;
   BODY_40_59 52 rC rD rE rT rA rB 4 6 12 1; BODY_40_59 53 rB rC rD rE rT rA 5 7 13 2;
   BODY_40_59 54 rA rB rC rD rE rT 6 8 14 3; BODY_40_59 55 rT rA rB rC rD rE 7 9 15 4;
   BODY_40_59 56 rE rT rA rB rC rD 8 10 0 5; BODY_40_59 57 rD rE rT rA rB rC 9 11 1 6;
   BODY_40_59 58 rC rD rE rT rA rB 10 12 2 7; BODY_40_59 59 rB rC rD rE rT rA 11 13 3 8;
   BODY_60_79 60 rA rB rC rD rE rT 12 14 4 9; BODY_60_79 61 rT rA rB rC rD rE 13 15 5 10;
   BODY_60_79 62 rE rT rA rB rC rD 14 0 6 11; BODY_60_79 63 rD rE rT rA rB rC 15 1 7 12;
   BODY_60_79 64 rC rD rE rT rA rB 0 2 8 13; BODY_60_79 65 rB rC rD rE rT rA 1 3 9 14;
   BODY_60_79 66 rA rB rC rD rE rT 2 4 10 15; BODY_60_79 67 rT rA rB rC rD rE 3 5 11 0;
   BODY_60_79 68 rE rT rA rB rC rD 4 6 12 1; BODY_60_79 69 rD rE rT rA rB rC 5 7 13 2;
   BODY_60_79 70 rC rD rE rT rA rB 6 8 14 3; BODY_60_79 71 rB rC rD rE rT rA 7 9 15 4;
   BODY_60_79 72 rA rB rC rD rE rT 8 10 0 5; BODY_60_79 73 rT rA rB rC rD rE 9 11 1 6;
   BODY_60_79 74 rE rT rA rB rC rD 10 12 2 7; BODY_60_79 75 rD rE rT rA rB rC 11 13 3 8;
   BODY_60_79 76 rC rD rE rT rA rB 12 14 4 9; BODY_60_79 77 rB rC rD rE rT rA 13 15 5 10;
   BODY_60_79 78 rA rB rC rD rE rT 14 0 6 11; BODY_60_79 79 rT rA rB rC rD rE 15 1 7 12].
Record sha1_state := mk_sha1 { h0 : Z; h1 : Z; h2 : Z; h3 : Z; h4 : Z }.

(** [HASH_INIT] *)
Definition sha1_init : sha1_state := mk_sha1 0x67452301 0xefcdab89 0x98badcfe 0x10325476 0xc3d2e1f0.

Section Sha1.
Context (t : target).

(** The registers, the words X and what is left of the data. *)
Definition sha1_machine : Type := list Z * list Z * list Z.

(** [Xupdate(f,xi,xa,xb,xc,xd)]: the value of f, and X with xi replaced. *)
Definition Xupdate (X : list Z) (xi xa xb xc xd : nat) : option (Z * list Z) :=
  let* ia := X !! xa in let* ib := X !! xb in let* ic := X !! xc in let* id := X !! xd in
  let v := reg t (ROTATE t (reg t (Z.lxor (Z.lxor (Z.lxor ia ib) ic) id)) 1) in
  let* _ := X !! xi in Some (v, <[xi := v]> X).

(** The rest of a body: [f = v+e+K+ROTATE(a,5)+F(b,c,d); b=ROTATE(b,30)]. *)
Definition body (K : Z) (F : Z -> Z -> Z -> Z) (v : Z) (r : list Z) (a b c d e f : nat) : option (list Z) :=
  let* va := r !! a in let* vb := r !! b in let* vc := r !! c in let* vd := r !! d in let* ve := r !! e in
  let* _ := r !! f in
  let r := <[f := reg t (v + ve + K + ROTATE t va 5 + F vb vc vd)]> r in
  Some (<[b := reg t (ROTATE t vb 30)]> r).

Definition sha1_exec (o : sha1_instr) (m : sha1_machine) : option sha1_machine :=
  let '(r, X, data) := m in
  let mixed K F a b c d e f xi xa xb xc xd :=
    let* (v, X) := Xupdate X xi xa xb xc xd in
    let* r := body K F v r a b c d e f in Some (r, X, data) in
  match o with
  | LD i => let* (l, data') := HOST_c2l BE data in let* _ := X !! i in Some (r, <[i := l]> X, data')
  | BODY_00_15 _ a b c d e f xi =>
      let* v := X !! xi in let* r := body K_00_19 F_00_19 v r a b c d e f in Some (r, X, data)
  | BODY_16_19 _ a b c d e f xi xa xb xc xd => mixed K_00_19 F_00_19 a b c d e f xi xa xb xc xd
  | BODY_20_31 _ a b c d e f xi xa xb xc xd => mixed K_20_39 F_20_39 a b c d e f xi xa xb xc xd
  | BODY_32_39 _ a b c d e f xa xb xc xd => mixed K_20_39 F_20_39 a b c d e f xa xa xb xc xd
  | BODY_40_59 _ a b c d e f xa xb xc xd => mixed K_40_59 F_40_59 a b c d e f xa xa xb xc xd
  | BODY_60_79 _ a b c d e f xa xb xc xd => mixed K_60_79 F_60_79 a b c d e f xa xa xb xc xd
  end.

Fixpoint sha1_run (p : list sha1_instr) (m : sha1_machine) : option sha1_machine :=
  match p with
  | [] => Some m
  | o :: p' => let* m := sha1_exec o m in sha1_run p' m
  end.

(** The loop ends when [--num] is 0. *)
Fixpoint sha1_blocks (num : nat) (c : sha1_state) (X data : list Z) : option sha1_state :=
  match num with
  | O => None
  | S num' =>
      let* (r, X, data) := sha1_run sha1_program ([h0 c; h1 c; h2 c; h3 c; h4 c; reg_junk t], X, data) in
      match r with
      | [A; B; C; _; E; T] =>
          let add h v := Z.land (reg t (h + v)) 0xffffffff in
          let c := mk_sha1 (add (h0 c) E) (add (h1 c) T) (add (h2 c) A) (add (h3 c) B) (add (h4 c) C) in
          match num' with O => Some c | _ => sha1_blocks num' c X data end
      | _ => None
      end
  end.

Definition sha1_block_data_order (c : sha1_state) (data : list Z) (num : nat) : option sha1_state :=
  sha1_blocks num c (replicate 16 (reg_junk t)) data.

(** [HASH_MAKE_STRING] *)
Definition sha1_make_string (c : sha1_state) : list Z :=
  HOST_l2c BE (h0 c) ++ HOST_l2c BE (h1 c) ++ HOST_l2c BE (h2 c) ++ HOST_l2c BE (h3 c) ++ HOST_l2c BE (h4 c).

Definition sha1_alg : HashAlg := {|
  hash_init := sha1_init; data_order := BE; block_data_order := sha1_block_data_order;
  make_string := sha1_make_string; digest_len := 20
|}.
End Sha1.

(** ** The reference (FIPS 180, section 6.1) *)
Definition Ch (x y z : Z) : Z := Z.lxor (Z.land x y) (Z.land (not32 x) z).
Definition Parity (x y z : Z) : Z := Z.lxor (Z.lxor x y) z.
Definition Maj (x y z : Z) : Z := Z.lxor (Z.lxor (Z.land x y) (Z.land x z)) (Z.land y z).

Definition sha1_f (i : nat) : Z -> Z -> Z -> Z :=
  if decide (i < 20)%nat then Ch else if decide (i < 40)%nat then Parity
  else if decide (i < 60)%nat then Maj else Parity.

Definition sha1_K (i : nat) : Z :=
  if decide (i < 20)%nat then 0x5a827999 else if decide (i < 40)%nat then 0x6ed9eba1
  else if decide (i < 60)%nat then 0x8f1bbcdc else 0xca62c1d6.

(** The message schedule: the words of the block, extended by [n] words. *)
Fixpoint schedule (n : nat) (w : list Z) : list Z :=
  match n with
  | O => w
  | S n' =>
      let t := length w in let W k := nth (t - k) w 0 in
      schedule n' (w ++ [rotl32 1 (Z.lxor (Z.lxor (Z.lxor (W 3%nat) (W 8%nat)) (W 14%nat)) (W 16%nat))])
  end.

Definition sha1_W (b : list Z) (i : nat) : Z := nth i (schedule 64 (map (word BE b) (seq 0 16))) 0.

Definition sha1_step (W : nat -> Z) (i : nat) (s : Z * Z * Z * Z * Z) : Z * Z * Z * Z * Z :=
  let '(a, b, c, d, e) := s in
  (u32 (rotl32 5 a + sha1_f i b c d + e + sha1_K i + W i), a, rotl32 30 b, c, d).

Fixpoint sha1_steps (W : nat -> Z) (n i : nat) (s : Z * Z * Z * Z * Z) : Z * Z * Z * Z * Z :=
  match n with
  | O => s
  | S n' => sha1_steps W n' (S i) (sha1_step W i s)
  end.

(** The state is made of words of 32 bits. *)
Definition sha1_compress (s : sha1_state) (blk : list Z) : sha1_state :=
  let '(a, b, c, d, e) := sha1_steps (sha1_W blk) 80 0 (u32 (h0 s), u32 (h1 s), u32 (h2 s), u32 (h3 s), u32 (h4 s)) in
  mk_sha1 (u32 (h0 s + a)) (u32 (h1 s + b)) (u32 (h2 s + c)) (u32 (h3 s + d)) (u32 (h4 s + e)).

(** The message digest of FIPS 180. *)
Definition sha1 : list Z -> list Z := merkle_damgard BE sha1_compress sha1_init sha1_make_string.

(** ** Test vector (FIPS 180, appendix A.1) *)
Example sha1_abc :
  (let* c := @HASH_UPDATE (sha1_alg (mk_target 64 false 0xdeadbeefdeadbeef)) HASH_INIT [0x61; 0x62; 0x63] in
   let* (md, _) := HASH_FINAL c in Some md) =
  Some [0xa9; 0x99; 0x3e; 0x36; 0x47; 0x06; 0x81; 0x6a; 0xba; 0x3e; 0x25; 0x71; 0x78; 0x50; 0xc2; 0x6c; 0x9c; 0xd0; 0xd8; 0x9d].
Proof. vm_compute. reflexivity. Qed.

Example sha1_abc_reference : sha1 [0x61; 0x62; 0x63] =
  [0xa9; 0x99; 0x3e; 0x36; 0x47; 0x06; 0x81; 0x6a; 0xba; 0x3e; 0x25; 0x71; 0x78; 0x50; 0xc2; 0x6c; 0x9c; 0xd0; 0xd8; 0x9d].
Proof. vm_compute. reflexivity. Qed.

(** ** The message schedule *)
Lemma length_schedule n w : length (schedule n w) = (length w + n)%nat.
Proof.
  revert w. induction n as [|n IH]; intros w; cbn [schedule]; [lia|]. rewrite IH, length_app. cbn [length]. lia.
Qed.

Lemma nth_schedule n w i : (i < length w)%nat -> nth i (schedule n w) 0 = nth i w 0.
Proof.
  revert w. induction n as [|n IH]; intros w Hi; cbn [schedule]; [done|].
  rewrite IH by (rewrite length_app; lia). by rewrite app_nth1.
Qed.

(** The recurrence of the standard. *)
Lemma schedule_rec n w i : (length w <= i < length w + n)%nat ->
  let W k := nth (i - k) (schedule n w) 0 in
  (16 <= length w)%nat ->
  nth i (schedule n w) 0 = rotl32 1 (Z.lxor (Z.lxor (Z.lxor (W 3%nat) (W 8%nat)) (W 14%nat)) (W 16%nat)).
Proof.
  revert w. induction n as [|n IH]; intros w Hi W Hw; [lia|]. subst W. cbn [schedule].
  set (w' := w ++ [_]). assert (length w' = S (length w)) as Hl by (subst w'; rewrite length_app; cbn; lia).
  destruct (decide (i = length w)) as [->|]; [|apply IH; lia].
  rewrite !nth_schedule by lia. subst w'. rewrite nth_middle. by rewrite !app_nth1 by lia.
Qed.

Lemma sha1_W_word b i : (i < 16)%nat -> sha1_W b i = word BE b i.
Proof.
  intros Hi. unfold sha1_W. rewrite nth_schedule by (by rewrite length_map, length_seq).
  rewrite (nth_indep _ 0 (word BE b 0)) by (by rewrite length_map, length_seq). by rewrite map_nth, seq_nth.
Qed.

Lemma sha1_W_rec b i : (16 <= i < 80)%nat ->
  sha1_W b i = rotl32 1 (Z.lxor (Z.lxor (Z.lxor (sha1_W b (i - 3)) (sha1_W b (i - 8))) (sha1_W b (i - 14))) (sha1_W b (i - 16))).
Proof. intros Hi. unfold sha1_W. apply schedule_rec; rewrite length_map, length_seq; lia. Qed.

(** ** The program computes the reference *)
Lemma F_spec i b c d (F : Z -> Z -> Z -> Z) :
  F = (if decide (i < 20)%nat then F_00_19 else if decide (i < 40)%nat then F_20_39
       else if decide (i < 60)%nat then F_40_59 else F_60_79) ->
  u32 (F b c d) = sha1_f i (u32 b) (u32 c) (u32 d).
Proof.
  assert (forall x, Z.lxor (u32 x) 0xffffffff = u32 (Z.lnot x)) as En by (intros; symmetry; apply u32_lnot).
  intros ->. unfold sha1_f. repeat case_decide;
    unfold F_60_79, F_00_19, F_20_39, F_40_59, Ch, Parity, Maj, not32; rewrite ?En; zbits.
Qed.

(** Where the variables of the reference are before an operation; the sixth
    register is free. *)
Definition sha1_arrange (j : nat) (s : Z * Z * Z * Z * Z) (x : Z) : list Z :=
  let '(a, b, c, d, e) := s in drop j [a; b; c; d; e; x] ++ take j [a; b; c; d; e; x].

Definition sha1_next_name (j : nat) : nat := match j with 5%nat => 0 | _ => S j end.

Definition sha1_expected (i j : nat) : sha1_instr :=
  let n k := ((k + 6 - j) mod 6)%nat in
  let x k := ((i + k) mod 16)%nat in
  if decide (i < 16)%nat then BODY_00_15 i (n 0%nat) (n 1%nat) (n 2%nat) (n 3%nat) (n 4%nat) (n 5%nat) i
  else if decide (i < 20)%nat then
    BODY_16_19 i (n 0%nat) (n 1%nat) (n 2%nat) (n 3%nat) (n 4%nat) (n 5%nat) (x 0%nat) (x 0%nat) (x 2%nat) (x 8%nat) (x 13%nat)
  else if decide (i < 32)%nat then
    BODY_20_31 i (n 0%nat) (n 1%nat) (n 2%nat) (n 3%nat) (n 4%nat) (n 5%nat) (x 0%nat) (x 0%nat) (x 2%nat) (x 8%nat) (x 13%nat)
  else if decide (i < 40)%nat then
    BODY_32_39 i (n 0%nat) (n 1%nat) (n 2%nat) (n 3%nat) (n 4%nat) (n 5%nat) (x 0%nat) (x 2%nat) (x 8%nat) (x 13%nat)
  else if decide (i < 60)%nat then
    BODY_40_59 i (n 0%nat) (n 1%nat) (n 2%nat) (n 3%nat) (n 4%nat) (n 5%nat) (x 0%nat) (x 2%nat) (x 8%nat) (x 13%nat)
  else
    BODY_60_79 i (n 0%nat) (n 1%nat) (n 2%nat) (n 3%nat) (n 4%nat) (n 5%nat) (x 0%nat) (x 2%nat) (x 8%nat) (x 13%nat).

(** The program has the operations of the reference in order, with the right
    registers and words, and loads every word before it is used; [i] operations
    and [n] loads have been seen. *)
Fixpoint sha1_checked (p : list sha1_instr) (i j n : nat) : bool :=
  match p with
  | [] => bool_decide (i = 80%nat /\ j = 2%nat /\ n = 16%nat)
  | LD k :: p' => bool_decide (k = n /\ (n < 16)%nat /\ (i < 16)%nat) && sha1_checked p' i j (S n)
  | o :: p' =>
      bool_decide (o = sha1_expected i j /\ (i < 80)%nat /\ (j < 6)%nat /\ (i < n \/ n = 16)%nat) &&
      sha1_checked p' (S i) (sha1_next_name j) n
  end.

Lemma sha1_program_checked : sha1_checked sha1_program 0 0 0 = true.
Proof. vm_compute. reflexivity. Qed.

Section Program.
Context (t : target) (Ht : target_ok t).

Lemma sha1_op a b c d e K v (F f : Z -> Z -> Z -> Z) :
  u32 (F b c d) = f (u32 b) (u32 c) (u32 d) ->
  u32 (reg t (v + e + K + ROTATE t a 5 + F b c d)) =
  u32 (rotl32 5 (u32 a) + f (u32 b) (u32 c) (u32 d) + u32 e + K + u32 v).
Proof.
  intros E. rewrite u32_reg, <- E, <- (u32_ROTATE t Ht) by (done || lia). unfold u32. Z.div_mod_to_equations. lia.
Qed.

Lemma body_spec j K (F f : Z -> Z -> Z -> Z) v r va vb vc vd ve x :
  (j < 6)%nat -> (forall b c d, u32 (F b c d) = f (u32 b) (u32 c) (u32 d)) ->
  map u32 r = sha1_arrange j (va, vb, vc, vd, ve) x ->
  let n k := ((k + 6 - j) mod 6)%nat in
  exists r', body t K F v r (n 0%nat) (n 1%nat) (n 2%nat) (n 3%nat) (n 4%nat) (n 5%nat) = Some r' /\
    map u32 r' = sha1_arrange (sha1_next_name j)
                   (u32 (rotl32 5 va + f vb vc vd + ve + K + u32 v), va, rotl32 30 vb, vc, vd) ve.
Proof.
  intros Hj HF Hr n.
  destruct j as [|[|[|[|[|[|j]]]]]]; [..|lia]; cbn in Hr;
    destruct r as [|r0 [|r1 [|r2 [|r3 [|r4 [|r5 [|]]]]]]]; try discriminate Hr; cbn [map] in Hr; simplify_eq;
    eexists; (split; [reflexivity|]); cbn; rewrite (sha1_op _ _ _ _ _ _ _ F f) by apply HF;
    by rewrite u32_reg, u32_ROTATE by (done || lia).
Qed.

(** The window of the schedule before operation [i], with [n] words loaded. *)
Definition window (b : list Z) (i n : nat) (X : list Z) : Prop :=
  length X = 16%nat /\
  forall k, (i <= k + 16)%nat -> (k < Nat.max n i)%nat -> exists x, X !! (k mod 16)%nat = Some x /\ u32 x = sha1_W b k.

Lemma Xupdate_spec b i X :
  (16 <= i < 80)%nat -> window b i 16 X ->
  let x k := ((i + k) mod 16)%nat in
  exists v X', Xupdate t X (x 0%nat) (x 0%nat) (x 2%nat) (x 8%nat) (x 13%nat) = Some (v, X') /\
    u32 v = sha1_W b i /\ window b (S i) 16 X'.
Proof.
  intros Hi [HX Hw] x.
  assert (forall k, (k < 16)%nat -> exists y, X !! x k = Some y /\ u32 y = sha1_W b (i + k - 16)) as Hx.
  { intros k Hk. destruct (Hw (i + k - 16)%nat ltac:(lia) ltac:(lia)) as (y & Ey & Hy). exists y. split; [|done].
    subst x. cbn beta. replace (i + k)%nat with (i + k - 16 + 1 * 16)%nat by lia. by rewrite Nat.Div0.mod_add. }
  destruct (Hx 0%nat ltac:(lia)) as (y0 & E0 & H0), (Hx 2%nat ltac:(lia)) as (y2 & E2 & H2),
    (Hx 8%nat ltac:(lia)) as (y8 & E8 & H8), (Hx 13%nat ltac:(lia)) as (y13 & E13 & H13).
  unfold Xupdate. rewrite E0, E2, E8, E13. eexists _, _. split; [reflexivity|]. set (v := reg t _).
  assert (u32 v = sha1_W b i) as Ev.
  { subst v. rewrite (sha1_W_rec b i Hi), (u32_reg t Ht), (u32_ROTATE t Ht), (u32_reg t Ht), !u32_lxor, H0, H2, H8, H13 by lia.
    replace (i + 0 - 16)%nat with (i - 16)%nat by lia. replace (i + 2 - 16)%nat with (i - 14)%nat by lia.
    replace (i + 8 - 16)%nat with (i - 8)%nat by lia. replace (i + 13 - 16)%nat with (i - 3)%nat by lia.
    generalize (sha1_W b (i - 16)) (sha1_W b (i - 14)) (sha1_W b (i - 8)) (sha1_W b (i - 3)).
    clear. intros. f_equal. zbits. }
  split; [done|]. split; [by rewrite length_insert|]. intros k H1 H3.
  assert (x 0%nat = i mod 16)%nat as Ex by (subst x; cbn beta; f_equal; lia). rewrite Ex.
  destruct (decide (k = i)) as [->|].
  - exists v. split; [|done]. apply list_lookup_insert_eq. rewrite HX. apply Nat.mod_upper_bound. lia.
  - rewrite list_lookup_insert_ne; [apply Hw; lia|]. intros Em.
    assert (k mod 16 = i mod 16)%nat as Em' by done. clear -Em' H1 H3 n. 
    pose proof (Nat.div_mod_eq k 16). pose proof (Nat.div_mod_eq i 16). lia.
Qed.

(** An operation of the schedule, with the constant and the function of its round. *)
Lemma mixed_spec b i j K (F : Z -> Z -> Z -> Z) r X s x :
  (16 <= i < 80)%nat -> (j < 6)%nat -> K = sha1_K i ->
  (forall b c d, u32 (F b c d) = sha1_f i (u32 b) (u32 c) (u32 d)) ->
  map u32 r = sha1_arrange j s x -> window b i 16 X ->
  let n k := ((k + 6 - j) mod 6)%nat in
  let y k := ((i + k) mod 16)%nat in
  exists v r' X' x', Xupdate t X (y 0%nat) (y 0%nat) (y 2%nat) (y 8%nat) (y 13%nat) = Some (v, X') /\
    body t K F v r (n 0%nat) (n 1%nat) (n 2%nat) (n 3%nat) (n 4%nat) (n 5%nat) = Some r' /\
    map u32 r' = sha1_arrange (sha1_next_name j) (sha1_step (sha1_W b) i s) x' /\ window b (S i) 16 X'.
Proof.
  intros Hi Hj -> HF Hr Hw n y. destruct (Xupdate_spec b i X Hi Hw) as (v & X' & EX & Ev & Hw').
  destruct s as [[[[va vb] vc] vd] ve].
  destruct (body_spec j (sha1_K i) F (sha1_f i) v r va vb vc vd ve x Hj HF Hr) as (r' & Er & Hr').
  exists v, r', X', ve. cbn [sha1_step]. rewrite <- Ev. split_and!; [exact EX|exact Er|exact Hr'|exact Hw'].
Qed.

Ltac mixed_op K F :=
  match goal with Hi : (16 <= ?i < 80)%nat, Hr : map u32 ?r = sha1_arrange ?j ?s ?x, Hw : window ?b ?i _ ?X |- _ =>
    destruct (mixed_spec b i j K F r X s x Hi) as (v & r' & X' & x' & EX & Er & Hr' & Hw');
      [done|unfold sha1_K; repeat case_decide; reflexivity || lia
      |intros; apply F_spec; repeat case_decide; reflexivity || lia|exact Hr|exact Hw|];
    exists r', X', x'; cbn [sha1_exec]; rewrite EX, Er; split_and!; [reflexivity|exact Hr'|exact Hw']
  end.

Lemma sha1_exec_spec b i j n r X data s x :
  (i < 80)%nat -> (j < 6)%nat -> (i < n \/ n = 16)%nat -> (n <= 16)%nat ->
  map u32 r = sha1_arrange j s x -> window b i n X ->
  exists r' X' x', sha1_exec t (sha1_expected i j) (r, X, data) = Some (r', X', data) /\
    map u32 r' = sha1_arrange (sha1_next_name j) (sha1_step (sha1_W b) i s) x' /\ window b (S i) n X'.
Proof.
  intros Hi Hj Hn Hn' Hr Hw. unfold sha1_expected. destruct (decide (i < 16)%nat) as [H16|H16].
  - destruct Hw as [HX Hw]. destruct (Hw i ltac:(lia) ltac:(lia)) as (v & Ev & HWv). rewrite Nat.mod_small in Ev by lia.
    destruct s as [[[[va vb] vc] vd] ve].
    destruct (body_spec j K_00_19 F_00_19 (sha1_f i) v r va vb vc vd ve x Hj) as (r' & Er & Hr'); [|done|].
    { intros. apply F_spec. by rewrite decide_True by lia. }
    exists r', X, ve. cbn [sha1_exec]. rewrite Ev, Er. split; [done|]. split.
    + cbn [sha1_step]. unfold sha1_K. rewrite decide_True by lia. rewrite <- HWv. exact Hr'.
    + split; [done|]. intros k H1 H2. apply Hw; lia.
  - assert (n = 16%nat) as -> by lia.
    assert (16 <= i < 80)%nat as Hi' by lia.
    destruct (decide (i < 20)%nat); [|destruct (decide (i < 32)%nat); [|destruct (decide (i < 40)%nat); [|destruct (decide (i < 60)%nat)]]].
    + mixed_op K_00_19 F_00_19.
    + mixed_op K_20_39 F_20_39.
    + mixed_op K_20_39 F_20_39.
    + mixed_op K_40_59 F_40_59.
    + mixed_op K_60_79 F_60_79.
Qed.

Lemma sha1_load b rest i n X :
  length b = 64%nat -> bytes b -> (n < 16)%nat -> (i < 16)%nat -> window b i n X ->
  window b i (S n) (<[n := word BE b n]> X) /\ is_Some (X !! n) /\
  HOST_c2l BE (drop (4 * n) b ++ rest) = Some (word BE b n, drop (4 * S n) b ++ rest).
Proof.
  intros Hl Hb Hn Hi [HX Hw]. split; [|split].
  - split; [by rewrite length_insert|]. intros k H1 H2. destruct (decide (k = n)) as [->|].
    + exists (word BE b n). rewrite Nat.mod_small by lia. split; [apply list_lookup_insert_eq; lia|].
      rewrite sha1_W_word by lia. apply u32_id. unfold word.
      pose proof (val_of_bound BE (take 4 (drop (4 * n) b)) ltac:(by apply Forall_take, Forall_drop)) as Hv.
      rewrite length_take, length_drop, Nat.min_l in Hv by lia. exact Hv.
    + assert (k mod 16 <> n)%nat as Hne by (rewrite Nat.mod_small; lia).
      rewrite list_lookup_insert_ne by done. apply Hw; lia.
  - apply lookup_lt_is_Some_2. lia.
  - by apply c2l_block.
Qed.

Lemma sha1_run_spec b rest p i j n r X data s x :
  length b = 64%nat -> bytes b -> sha1_checked p i j n = true -> (n <= 16)%nat ->
  map u32 r = sha1_arrange j s x -> window b i n X -> data = drop (4 * n) b ++ rest ->
  exists r' X' x', sha1_run t p (r, X, data) = Some (r', X', rest) /\
    map u32 r' = sha1_arrange 2 (sha1_steps (sha1_W b) (80 - i) i s) x' /\ length X' = 16%nat.
Proof.
  intros Hl Hb. revert i j n r X data s x.
  induction p as [|o p IH]; intros i j n r X data s x Hc Hn Hr HX ->; cbn [sha1_checked] in Hc.
  - apply bool_decide_eq_true in Hc as (-> & -> & ->). exists r, X, x. rewrite (drop_ge b) by lia.
    split_and!; [done|exact Hr|apply HX].
  - assert ((exists k, o = LD k) \/ (forall k, o <> LD k)) as [[k ->]|Ho] by (destruct o; [left; by eexists|right; done..]).
    + apply andb_true_iff in Hc as [Hc Hp]. apply bool_decide_eq_true in Hc as (-> & Hn' & Hi).
      destruct (sha1_load b rest i n X Hl Hb Hn' Hi HX) as (HX' & [y Hy] & E).
      cbn [sha1_run sha1_exec]. rewrite E, Hy. eapply (IH i j (S n)); [done|lia|done|done|done].
    + assert (bool_decide (o = sha1_expected i j /\ (i < 80)%nat /\ (j < 6)%nat /\ (i < n \/ n = 16)%nat) &&
        sha1_checked p (S i) (sha1_next_name j) n = true) as Hc' by (destruct o; [by destruct (Ho i0)|exact Hc..]).
      apply andb_true_iff in Hc' as [Hc' Hp]. apply bool_decide_eq_true in Hc' as (-> & Hi & Hj & Hin).
      destruct (sha1_exec_spec b i j n r X (drop (4 * n) b ++ rest) s x Hi Hj Hin Hn Hr HX) as (r' & X' & x' & E & Hr' & HX').
      cbn [sha1_run]. rewrite E. replace (80 - i)%nat with (S (80 - S i)) by lia. cbn [sha1_steps].
      by eapply (IH (S i) (sha1_next_name j) n).
Qed.

(** All the blocks. *)
Lemma sha1_blocks_spec n c X data :
  bytes data -> length X = 16%nat -> (1 <= n)%nat -> (64 * n <= length data)%nat ->
  sha1_blocks t n c X data = Some (fold_blocks sha1_compress n c data).
Proof.
  revert c X data. induction n as [|n IH]; intros c X data Hb HX Hn Hl; [lia|]. cbn [sha1_blocks fold_blocks].
  assert (length (take 64 data) = 64%nat) as H64 by (rewrite length_take; lia).
  destruct c as [a b c d e]. cbn [h0 h1 h2 h3 h4].
  destruct (sha1_run_spec (take 64 data) (drop 64 data) sha1_program 0 0 0 [a; b; c; d; e; reg_junk t] X data
    (u32 a, u32 b, u32 c, u32 d, u32 e) (u32 (reg_junk t)))
    as (r & X' & x & -> & Hr & HX'); [done|by apply Forall_take|apply sha1_program_checked|lia|done| | |].
  { split; [done|lia]. }
  { by rewrite drop_0, take_drop. }
  assert (forall u v, Z.land (reg t (u + v)) 0xffffffff = u32 (u + u32 v)) as E.
  { intros. rewrite land_ones32, u32_reg by done. unfold u32. by rewrite Z.add_mod_idemp_r by lia. }
  unfold sha1_compress. cbn [h0 h1 h2 h3 h4]. change (80 - 0)%nat with 80%nat in Hr.
  destruct (sha1_steps _ 80 0 _) as [[[[va vb] vc] vd] ve]. cbn in Hr.
  destruct r as [|r0 [|r1 [|r2 [|r3 [|r4 [|r5 [|]]]]]]]; try discriminate Hr. cbn [map] in Hr. simplify_eq. rewrite !E.
  destruct n as [|n]; [reflexivity|]. cbv iota.
  rewrite IH; [reflexivity|by apply Forall_drop|exact HX'|lia|rewrite length_drop; lia].
Qed.

Lemma length_sha1_make_string s : length (sha1_make_string s) = 20%nat.
Proof. done. Qed.

Lemma sha1_make_string_bytes s : bytes (sha1_make_string s).
Proof. unfold sha1_make_string. rewrite !HOST_l2c_mem. do 4 (apply Forall_app_2; [apply mem_of_bytes|]). apply mem_of_bytes. Qed.

(** SHA-1 keeps the contract of the collector. *)
#[local] Instance sha1_laws : HashLaws (sha1_alg t).
Proof.
  refine (@Build_HashLaws (sha1_alg t) sha1_compress _ length_sha1_make_string sha1_make_string_bytes).
  intros s data n Hb Hn Hl. apply sha1_blocks_spec; [done|apply length_replicate|done|done].
Defined.

Lemma sha1_digest : @digest (sha1_alg t) sha1_laws = sha1.
Proof. done. Qed.

(** C9: hashing a message that arrives in any number of pieces of any sizes with
    [SHA1_Init], [SHA1_Update] and [SHA1_Final] gives the digest of FIPS 180 of
    the whole message, whatever the width of the registers and the rotation of
    the target: the schedule that is computed in a window of sixteen words and
    the renaming of six registers are right. *)
Theorem sha1_streaming (ds : list (list Z)) :
  Forall bytes ds ->
  exists c c', update_all (@HASH_INIT (sha1_alg t)) ds = Some c /\ HASH_FINAL c = Some (sha1 (concat ds), c').
Proof.
  intros Hb. destruct (update_all_rep (H := sha1_alg t) ds HASH_INIT [] init_rep Hb) as (c & E & Hc).
  destruct (final_rep c _ Hc) as (c' & Ef). rewrite sha1_digest in Ef. exists c, c'. split; [exact E|exact Ef].
Qed.

(** [password_buf] has 72 bytes. *)
Definition SHA1_key (password engineID : list Z) : option (list Z) :=
  @hash_key (sha1_alg t) (replicate 72 (reg_junk t)) password engineID.

Definition SHA1_hmac (aligned malloc : bool) (data mac : list Z) (maclen : Z) (secret : list Z) : option (Z * list Z) :=
  @hash_hmac (sha1_alg t) aligned malloc data mac maclen secret.

Lemma SHA1_key_spec password engineID :
  password <> [] -> bytes password -> bytes engineID -> (length engineID <= 32)%nat ->
  SHA1_key password engineID = Some (password_to_key sha1 password engineID).
Proof.
  intros Hp Hb He Hl. unfold SHA1_key.
  rewrite hash_key_spec by (rewrite ?length_replicate; done || cbn; lia). by rewrite sha1_digest.
Qed.

Lemma SHA1_hmac_spec aligned malloc data mac maclen secret :
  length secret = 20%nat -> bytes secret -> bytes data -> data <> [] ->
  0 < maclen <= 20 -> (Z.to_nat maclen <= length mac)%nat -> aligned || malloc = true ->
  SHA1_hmac aligned malloc data mac maclen secret =
    Some (0, take (Z.to_nat maclen) (hmac_ref sha1 secret data) ++ drop (Z.to_nat maclen) mac).
Proof.
  intros. unfold SHA1_hmac. rewrite hash_hmac_spec by (done || cbn; lia). by rewrite sha1_digest.
Qed.
End Program.

Lemma sha1_streaming_witness :
  exists c c', update_all (@HASH_INIT (sha1_alg (mk_target 64 false 0))) [[1; 2]; []; replicate 100 3] = Some c /\
    HASH_FINAL c = Some (sha1 (concat [[1; 2]; []; replicate 100 3]), c').
Proof.
  refine (sha1_streaming (mk_target 64 false 0) _ [[1; 2]; []; replicate 100 3] _).
  - unfold target_ok. cbn. lia.
  - repeat (apply Forall_cons; split; [apply bytes_check; reflexivity|]). apply Forall_nil_2.
Defined.
