(* ===== verification/Sha1Small.v ===== *)
(** * SHA-1 for a small footprint ([openssl_sha_local.h], [OPENSSL_SMALL_FOOTPRINT])

    The block function in the variant with loops instead of unrolled rounds: the
    registers are moved instead of renamed.  It computes the same as the
    unrolled variant of [Sha1]. *)
From S2P Require Import Prelude HashWords Hash Sha1.
Local Open Scope Z_scope.

Section Small.
Context (t : target).

(** The registers A to E. *)
Abbreviation regs := (Z * Z * Z * Z * Z)%type.

(** [E=D, D=C, C=ROTATE(B,30), B=A] and the new A. *)
Definition shift_regs (r : regs) (v : Z) : regs :=
  let '(A, B, C, D, E) := r in (reg t v, A, reg t (ROTATE t B 30), C, D).

Definition small_00_15 (xi : Z) (r : regs) : regs :=
  let '(A, B, C, D, E) := r in
  let T := reg t (E + K_00_19 + F_00_19 B C D) in
  shift_regs r (ROTATE t A 5 + T + xi).

(** [Xupdate(a,ix,...)] where ix is a word of the array X, which has 32 bits, and
    not a register: the register keeps the bits that the store drops. *)
Definition Xupdate_word (X : list Z) (xi xa xb xc xd : nat) : option (Z * list Z) :=
  let* (v, X) := Xupdate t X xi xa xb xc xd in Some (v, <[xi := u32 v]> X).

(** The bodies for the rounds from 16 to 59: T comes from the schedule. *)
Definition small_16_59 (K : Z) (F : Z -> Z -> Z -> Z) (xa xb xc xd : nat) (m : regs * list Z) : option (regs * list Z) :=
  let '(r, X) := m in
  let '(A, B, C, D, E) := r in
  let* (T, X) := Xupdate_word X xa xa xb xc xd in
  let T := reg t (T + (E + K + F B C D)) in
  Some (shift_regs r (ROTATE t A 5 + T), X).

(** In the last rounds T is computed anew and the word is read back. *)
Definition small_60_79 (xa xb xc xd : nat) (m : regs * list Z) : option (regs * list Z) :=
  let '(r, X) := m in
  let '(A, B, C, D, E) := r in
  let* (_, X) := Xupdate_word X xa xa xb xc xd in
  let T := reg t (E + K_60_79 + F_60_79 B C D) in
  let* x := X !! xa in
  Some (shift_regs r (ROTATE t A 5 + T + x), X).

(** The first loop: [k] words are left, from [i] on. *)
Fixpoint load_loop (k i : nat) (r : regs) (X data : list Z) : option (regs * list Z * list Z) :=
  match k with
  | O => Some (r, X, data)
  | S k' =>
      let* (l, data) := HOST_c2l BE data in
      let* _ := X !! i in
      load_loop k' (S i) (small_00_15 (u32 l) r) (<[i := u32 l]> X) data
  end.

(** The other loops. *)
Fixpoint mix_loop (body : nat -> regs * list Z -> option (regs * list Z)) (k i : nat) (m : regs * list Z) : option (regs * list Z) :=
  match k with
  | O => Some m
  | S k' => let* m := body i m in mix_loop body k' (S i) m
  end.

Definition idx (i : nat) : nat := Z.to_nat (Z.land (Z.of_nat i) 15).

Definition small_rounds (r : regs) (X data : list Z) : option (regs * list Z * list Z) :=
  let* (r, X, data) := load_loop 16 0 r X data in
  let* m := mix_loop (fun i => small_16_59 K_00_19 F_00_19 i (i + 2) (i + 8) (idx (i + 13))) 4 0 (r, X) in
  let* m := mix_loop (fun i => small_16_59 K_20_39 F_20_39 (idx i) (idx (i + 2)) (idx (i + 8)) (idx (i + 13))) 20 4 m in
  let* m := mix_loop (fun i => small_16_59 K_40_59 F_40_59 (idx (i + 8)) (idx (i + 10)) (idx i) (idx (i + 5))) 20 0 m in
  let* (r, X) := mix_loop (fun i => small_60_79 (idx (i + 8)) (idx (i + 10)) (idx i) (idx (i + 5))) 20 4 m in
  Some (r, X, data).

Fixpoint small_blocks (num : nat) (c : sha1_state) (X data : list Z) : option sha1_state :=
  match num with
  | O => None
  | S num' =>
      let* (r, X, data) := small_rounds (h0 c, h1 c, h2 c, h3 c, h4 c) X data in
      let '(A, B, C, D, E) := r in
      let add h v := Z.land (reg t (h + v)) 0xffffffff in
      let c := mk_sha1 (add (h0 c) A) (add (h1 c) B) (add (h2 c) C) (add (h3 c) D) (add (h4 c) E) in
      match num' with O => Some c | _ => small_blocks num' c X data end
  end.

Definition small_block_data_order (c : sha1_state) (data : list Z) (num : nat) : option sha1_state :=
  small_blocks num c (replicate 16 (u32 (reg_junk t))) data.
End Small.

Section SmallProofs.
Context (t : target) (Ht : target_ok t).
Abbreviation regs := (Z * Z * Z * Z * Z)%type.

(** The registers hold the variables of the reference. *)
Definition holds (r s : regs) : Prop :=
  let '(a, b, c, d, e) := r in s = (u32 a, u32 b, u32 c, u32 d, u32 e).

(** A round, however its sum is put together. *)
Lemma small_round b i r s v (F : Z -> Z -> Z -> Z) :
  holds r s -> (forall b c d, u32 (F b c d) = sha1_f i (u32 b) (u32 c) (u32 d)) ->
  (let '(A, B, C, D, E) := r in u32 v = u32 (ROTATE t A 5 + F B C D + E + sha1_K i + sha1_W b i)) ->
  holds (shift_regs t r v) (sha1_step (sha1_W b) i s).
Proof.
  destruct r as [[[[A B] C] D] E]. intros -> HF Hv. cbn [shift_regs holds sha1_step].
  rewrite !u32_reg, u32_ROTATE, Hv, <- HF, <- (u32_ROTATE t Ht A 5) by (done || lia).
  do 4 f_equal. unfold u32. Z.div_mod_to_equations. lia.
Qed.

(** The truncation of a store is not seen modulo 2^32. *)
Lemma window_store b j n X k v : window b j n X -> X !! k = Some v -> window b j n (<[k := u32 v]> X).
Proof.
  intros [HX Hw] Hk. split; [by rewrite length_insert|]. intros i H1 H2. destruct (Hw i H1 H2) as (x & Ex & Hx).
  destruct (decide (k = (i mod 16)%nat)) as [->|Hne]; [|exists x; rewrite list_lookup_insert_ne by exact Hne; exact (conj Ex Hx)].
  rewrite Hk in Ex. injection Ex as ->. exists (u32 x). rewrite list_lookup_insert_eq by exact (lookup_lt_Some _ _ _ Hk).
  split; [reflexivity|]. rewrite u32_id by apply u32_range. exact Hx.
Qed.

Lemma Xupdate_stores X xi xa xb xc xd v X' : Xupdate t X xi xa xb xc xd = Some (v, X') -> X' !! xi = Some v.
Proof.
  unfold Xupdate. destruct (X !! xa), (X !! xb), (X !! xc), (X !! xd), (X !! xi) eqn:E; try discriminate.
  intros [= <- <-]. apply list_lookup_insert_eq. by apply lookup_lt_Some in E.
Qed.

Lemma Xupdate_word_spec b i X :
  (16 <= i < 80)%nat -> window b i 16 X ->
  let x k := ((i + k) mod 16)%nat in
  exists v X', Xupdate_word t X (x 0%nat) (x 0%nat) (x 2%nat) (x 8%nat) (x 13%nat) = Some (v, X') /\
    u32 v = sha1_W b i /\ window b (S i) 16 X'.
Proof.
  intros Hi HX x. subst x. destruct (Xupdate_spec t Ht b i X Hi HX) as (v & X' & E & Ev & HX').
  unfold Xupdate_word. cbn beta in *. rewrite E. eexists v, _. split; [reflexivity|]. split; [exact Ev|].
  exact (window_store _ _ _ _ _ _ HX' (Xupdate_stores _ _ _ _ _ _ _ _ E)).
Qed.

(** Sums are computed modulo the width of a register, which is at least 32. *)
Lemma u32_sum3 a x y v w : u32 v = w -> u32 (a + reg t (x + y) + v) = u32 (a + y + x + w).
Proof. intros <-. pose proof (u32_reg t Ht (x + y)) as Hr. unfold u32 in *. Z.div_mod_to_equations. lia. Qed.

Lemma u32_sum2 a x y v w : u32 v = w -> u32 (a + reg t (v + (x + y))) = u32 (a + y + x + w).
Proof. intros <-. pose proof (u32_reg t Ht (v + (x + y))) as Hr. unfold u32 in *. Z.div_mod_to_equations. lia. Qed.

Lemma load_loop_spec b rest k : forall i r X s,
  length b = 64%nat -> bytes b -> (i + k = 16)%nat -> holds r s -> window b 0 i X ->
  exists r' X', load_loop t k i r X (drop (4 * i) b ++ rest) = Some (r', X', rest) /\
    holds r' (sha1_steps (sha1_W b) k i s) /\ window b 0 16 X'.
Proof.
  induction k as [|k IH]; intros i r X s Hl Hb Hi Hr HX.
  { replace i with 16%nat in * by lia. exists r, X. by rewrite drop_ge by lia. }
  destruct (sha1_load b rest 0 i X Hl Hb ltac:(lia) ltac:(lia) HX) as (HX' & [y Hy] & E).
  cbn [load_loop sha1_steps]. rewrite E, Hy. apply IH; [done|done|lia| |].
  2: { rewrite <- (list_insert_insert_eq X i _ (word BE b i)). apply window_store; [exact HX'|].
    apply list_lookup_insert_eq. by apply lookup_lt_Some in Hy. }
  destruct r as [[[[A B] C] D] E']. apply (small_round b i _ _ _ F_00_19 Hr); [intros; apply F_spec; by rewrite decide_True by lia|].
  replace (sha1_K i) with K_00_19 by (unfold sha1_K; by rewrite decide_True by lia).
  rewrite <- (Z.add_assoc (ROTATE t A 5 + F_00_19 B C D)).
  rewrite (u32_sum3 _ (E' + K_00_19) _ _ (sha1_W b i)); [f_equal; lia|].
  rewrite u32_id by apply u32_range.
  destruct (proj2 HX' i ltac:(lia) ltac:(lia)) as (x & Ex & <-). rewrite Nat.mod_small, list_lookup_insert_eq in Ex
    by (lia || by apply lookup_lt_Some in Hy). by injection Ex as <-.
Qed.

(** A round of the schedule. *)
Definition round_ok (b : list Z) (body : regs * list Z -> option (regs * list Z)) (j : nat) : Prop :=
  forall r X s, holds r s -> window b j 16 X ->
  exists r' X', body (r, X) = Some (r', X') /\ holds r' (sha1_step (sha1_W b) j s) /\ window b (S j) 16 X'.

Lemma mix_loop_spec b body k : forall i j r X s,
  (forall n, (n < k)%nat -> round_ok b (body (i + n)%nat) (j + n)) -> holds r s -> window b j 16 X ->
  exists r' X', mix_loop body k i (r, X) = Some (r', X') /\ holds r' (sha1_steps (sha1_W b) k j s) /\ window b (j + k) 16 X'.
Proof.
  induction k as [|k IH]; intros i j r X s Hok Hr HX; [rewrite Nat.add_0_r; by exists r, X|].
  destruct (Hok 0%nat ltac:(lia) r X s) as (r1 & X1 & E & Hr1 & HX1); rewrite ?Nat.add_0_r in *; [done..|].
  cbn [mix_loop sha1_steps]. rewrite E. replace (j + S k)%nat with (S j + k)%nat by lia. apply IH; [|done|done].
  intros n Hn. replace (S i + n)%nat with (i + S n)%nat by lia. replace (S j + n)%nat with (j + S n)%nat by lia. apply Hok. lia.
Qed.

Lemma idx_mod i : idx i = (i mod 16)%nat.
Proof.
  unfold idx. change 15 with (Z.ones 4). rewrite Z.land_ones by lia. change (2 ^ 4) with (Z.of_nat 16).
  by rewrite <- Nat2Z.inj_mod, Nat2Z.id.
Qed.

Lemma round_16_59 b j K F xa xb xc xd :
  (16 <= j < 80)%nat -> K = sha1_K j -> (forall b c d, u32 (F b c d) = sha1_f j (u32 b) (u32 c) (u32 d)) ->
  xa = ((j + 0) mod 16)%nat -> xb = ((j + 2) mod 16)%nat -> xc = ((j + 8) mod 16)%nat -> xd = ((j + 13) mod 16)%nat ->
  round_ok b (small_16_59 t K F xa xb xc xd) j.
Proof.
  intros Hj -> HF -> -> -> -> r X s Hr HX. destruct (Xupdate_word_spec b j X Hj HX) as (v & X' & EX & Ev & HX').
  destruct r as [[[[A B] C] D] E]. cbn [small_16_59]. rewrite EX. eexists _, X'. split; [reflexivity|]. split; [|exact HX'].
  apply (small_round b j _ _ _ F Hr HF). rewrite (u32_sum2 _ (E + sha1_K j) _ _ _ Ev). f_equal. lia.
Qed.

Lemma round_60_79 b j xa xb xc xd :
  (60 <= j < 80)%nat ->
  xa = ((j + 0) mod 16)%nat -> xb = ((j + 2) mod 16)%nat -> xc = ((j + 8) mod 16)%nat -> xd = ((j + 13) mod 16)%nat ->
  round_ok b (small_60_79 t xa xb xc xd) j.
Proof.
  intros Hj -> -> -> -> r X s Hr HX. destruct (Xupdate_word_spec b j X ltac:(lia) HX) as (v & X' & EX & Ev & HX').
  destruct r as [[[[A B] C] D] E]. cbn [small_60_79]. rewrite EX.
  destruct (proj2 HX' j ltac:(lia) ltac:(lia)) as (x & Ex & Hx). rewrite Nat.add_0_r, Ex.
  eexists _, X'. split; [reflexivity|]. split; [|exact HX'].
  apply (small_round b j _ _ _ F_60_79 Hr); [intros; apply F_spec; by rewrite !decide_False by lia|].
  rewrite (u32_sum3 _ (E + K_60_79) _ _ _ Hx). replace (sha1_K j) with K_60_79 by (unfold sha1_K; by rewrite !decide_False by lia).
  f_equal. lia.
Qed.

Lemma sha1_steps_app W n m i s : sha1_steps W (n + m) i s = sha1_steps W m (i + n) (sha1_steps W n i s).
Proof.
  revert i s. induction n as [|n IH]; intros i s; cbn [Nat.add sha1_steps]; [by rewrite Nat.add_0_r|].
  rewrite IH. by replace (i + S n)%nat with (S i + n)%nat by lia.
Qed.

Ltac index := rewrite ?idx_mod;
  repeat match goal with |- context [(?x mod 16)%nat] =>
    pose proof (Nat.div_mod_eq x 16); pose proof (Nat.mod_upper_bound x 16 ltac:(lia));
    generalize dependent (x mod 16)%nat; generalize (x / 16)%nat; intros
  end; lia.
Ltac round_side := first [lia | unfold sha1_K; repeat case_decide; reflexivity || lia
  | intros; apply F_spec; repeat case_decide; reflexivity || lia | index].

(** A block. *)
Lemma small_rounds_spec b rest r X s :
  length b = 64%nat -> bytes b -> holds r s -> length X = 16%nat ->
  exists r' X', small_rounds t r X (b ++ rest) = Some (r', X', rest) /\ holds r' (sha1_steps (sha1_W b) 80 0 s) /\ length X' = 16%nat.
Proof.
  intros Hl Hb Hr HX. unfold small_rounds.
  destruct (load_loop_spec b rest 16 0 r X s) as (r1 & X1 & E1 & H1 & W1); [done..|split; [done|lia]|].
  rewrite drop_0 in E1. rewrite E1. assert (window b 16 16 X1) as W1' by (split; [apply W1|intros; apply W1; lia]).
  match goal with |- context [mix_loop ?f 4 0 _] =>
    destruct (mix_loop_spec b f 4 0 16 r1 X1 _ ltac:(intros n Hn; apply round_16_59; round_side) H1 W1') as (r2 & X2 & -> & H2 & W2) end.
  match goal with |- context [mix_loop ?f 20 4 _] =>
    destruct (mix_loop_spec b f 20 4 20 r2 X2 _ ltac:(intros n Hn; apply round_16_59; round_side) H2 W2) as (r3 & X3 & -> & H3 & W3) end.
  match goal with |- context [mix_loop ?f 20 0 _] =>
    destruct (mix_loop_spec b f 20 0 40 r3 X3 _ ltac:(intros n Hn; apply round_16_59; round_side) H3 W3) as (r4 & X4 & -> & H4 & W4) end.
  match goal with |- context [mix_loop ?f 20 4 _] =>
    destruct (mix_loop_spec b f 20 4 60 r4 X4 _ ltac:(intros n Hn; apply round_60_79; round_side) H4 W4) as (r5 & X5 & -> & H5 & W5) end.
  exists r5, X5. split; [done|]. split; [|apply W5]. change 80%nat with (16 + (4 + (20 + (20 + 20))))%nat. by rewrite !sha1_steps_app.
Qed.

Lemma small_blocks_spec n c X data :
  bytes data -> length X = 16%nat -> (1 <= n)%nat -> (64 * n <= length data)%nat ->
  small_blocks t n c X data = Some (fold_blocks sha1_compress n c data).
Proof.
  revert c X data. induction n as [|n IH]; intros c X data Hb HX Hn Hl; [lia|]. cbn [small_blocks fold_blocks].
  destruct c as [a b c d e]. cbn [h0 h1 h2 h3 h4].
  destruct (small_rounds_spec (take 64 data) (drop 64 data) (a, b, c, d, e) X (u32 a, u32 b, u32 c, u32 d, u32 e))
    as (r & X' & E1 & Hr & HX'); [rewrite length_take; lia|by apply Forall_take|done|done|].
  rewrite take_drop in E1. rewrite E1.
  assert (forall u v, Z.land (reg t (u + v)) 0xffffffff = u32 (u + u32 v)) as E.
  { intros. rewrite land_ones32, u32_reg by done. unfold u32. by rewrite Z.add_mod_idemp_r by lia. }
  unfold sha1_compress. cbn [h0 h1 h2 h3 h4]. destruct r as [[[[A B] C] D] E']. cbn [holds] in Hr. rewrite Hr, !E.
  destruct n as [|n]; [reflexivity|]. cbv iota.
  rewrite IH; [reflexivity|by apply Forall_drop|exact HX'|lia|rewrite length_drop; lia].
Qed.

(** The two variants of the block function agree. *)
Theorem small_footprint_same c data n :
  bytes data -> (1 <= n)%nat -> (64 * n <= length data)%nat ->
  small_block_data_order t c data n = sha1_block_data_order t c data n.
Proof.
  intros Hb Hn Hl. unfold small_block_data_order, sha1_block_data_order.
  by rewrite small_blocks_spec, (sha1_blocks_spec t Ht) by (done || apply length_replicate).
Qed.
End SmallProofs.
