(* ===== verification/AesSpec.v ===== *)
(** * The reference for AES: FIPS 197

    The Advanced Encryption Standard on bytes, independent of the code: the
    field GF(2^8), the substitution box as inversion in it followed by an affine
    map, the transformations of the state (sixteen bytes, column by column), the
    cipher, the expansion of keys, and the inverse transformations with the
    laws that make them inverses. *)
From Stdlib Require Import Btauto.
From S2P Require Import Prelude HashWords.
Local Open Scope Z_scope.

(** ** The field (section 4) *)
Definition xtime (b : Z) : Z := Z.lxor (Z.land (Z.shiftl b 1) 0xff) (if Z.testbit b 7 then 0x1b else 0).

(** The product of [c] and [a], from the [n] low bits of [c]. *)
Fixpoint gmul_bits (n : nat) (c a : Z) : Z :=
  match n with
  | O => 0
  | S n' => Z.lxor (if Z.odd c then a else 0) (gmul_bits n' (c / 2) (xtime a))
  end.
Definition gmul : Z -> Z -> Z := gmul_bits 8.

(** The inverse is the power 254, by squaring; 0 is mapped to 0. *)
Fixpoint gpow (n : nat) (a : Z) : Z :=
  match n with
  | O => 1
  | S n' => gmul a (gpow n' a)
  end.
Definition ginv (a : Z) : Z :=
  let sq x := gmul x x in
  let a2 := sq a in let a4 := sq a2 in let a8 := sq a4 in let a16 := sq a8 in
  let a32 := sq a16 in let a64 := sq a32 in let a128 := sq a64 in
  gmul a2 (gmul a4 (gmul a8 (gmul a16 (gmul a32 (gmul a64 a128))))).

(** ** The substitution box (section 5.1.1) *)
Definition rotl8 (x n : Z) : Z := Z.lor (u8 (Z.shiftl x n)) (Z.shiftr x (8 - n)).

Definition affine (x : Z) : Z :=
  Z.lxor (Z.lxor (Z.lxor (Z.lxor (Z.lxor x (rotl8 x 1)) (rotl8 x 2)) (rotl8 x 3)) (rotl8 x 4)) 0x63.

Definition sbox_table : list Z := Eval vm_compute in map (fun i => affine (ginv (Z.of_nat i))) (seq 0 256).
Definition sbox (x : Z) : Z := nth (Z.to_nat x) sbox_table 0.

(** The position of a byte in the box. *)
Fixpoint position (y : Z) (l : list Z) (i : Z) : Z :=
  match l with
  | [] => 0
  | x :: l' => if x =? y then i else position y l' (i + 1)
  end.
Definition inv_sbox_table : list Z := Eval vm_compute in map (fun i => position (Z.of_nat i) sbox_table 0) (seq 0 256).
Definition inv_sbox (y : Z) : Z := nth (Z.to_nat y) inv_sbox_table 0.

(** ** The transformations of the state (sections 5.1 and 5.3) *)
Definition SubBytes (s : list Z) : list Z := map sbox s.
Definition InvSubBytes (s : list Z) : list Z := map inv_sbox s.

(** Row [r] of column [c] is byte [4 * c + r]. *)
Definition ShiftRows (s : list Z) : list Z :=
  map (fun k => nth (4 * ((k / 4 + k mod 4) mod 4) + k mod 4)%nat s 0) (seq 0 16).
Definition InvShiftRows (s : list Z) : list Z :=
  map (fun k => nth (4 * ((k / 4 + 4 - k mod 4) mod 4) + k mod 4)%nat s 0) (seq 0 16).

Definition xor4 (a b c d : Z) : Z := Z.lxor (Z.lxor (Z.lxor a b) c) d.

Definition mix_column (a b c d : Z) : list Z :=
  [xor4 (gmul 2 a) (gmul 3 b) c d; xor4 a (gmul 2 b) (gmul 3 c) d;
   xor4 a b (gmul 2 c) (gmul 3 d); xor4 (gmul 3 a) b c (gmul 2 d)].
Definition inv_mix_column (a b c d : Z) : list Z :=
  [xor4 (gmul 14 a) (gmul 11 b) (gmul 13 c) (gmul 9 d); xor4 (gmul 9 a) (gmul 14 b) (gmul 11 c) (gmul 13 d);
   xor4 (gmul 13 a) (gmul 9 b) (gmul 14 c) (gmul 11 d); xor4 (gmul 11 a) (gmul 13 b) (gmul 9 c) (gmul 14 d)].

Fixpoint columns (f : Z -> Z -> Z -> Z -> list Z) (s : list Z) : list Z :=
  match s with
  | a :: b :: c :: d :: s' => f a b c d ++ columns f s'
  | _ => []
  end.
Definition MixColumns : list Z -> list Z := columns mix_column.
Definition InvMixColumns : list Z -> list Z := columns inv_mix_column.

Definition word_bytes (w : Z) : list Z := mem_of BE 4 w.
Definition round_key (w : list Z) : list Z := flat_map word_bytes (take 4 w).
Definition AddRoundKey (s k : list Z) : list Z := zip_with Z.lxor s k.

(** ** The cipher *)
Fixpoint cipher_rounds (n : nat) (s w : list Z) : list Z :=
  match n with
  | O => AddRoundKey (ShiftRows (SubBytes s)) (round_key w)
  | S n' => cipher_rounds n' (AddRoundKey (MixColumns (ShiftRows (SubBytes s))) (round_key w)) (drop 4 w)
  end.

Definition Cipher (Nr : nat) (w s : list Z) : list Z :=
  cipher_rounds (Nr - 1) (AddRoundKey s (round_key w)) (drop 4 w).

(** ** The expansion of keys (section 5.2) *)
Definition of_bytes (l : list Z) : Z := val_of BE l.
Definition SubWord (w : Z) : Z := of_bytes (map sbox (word_bytes w)).
Definition RotWord (w : Z) : Z := match word_bytes w with [a; b; c; d] => of_bytes [b; c; d; a] | _ => 0 end.
Definition Rcon (i : nat) : Z := of_bytes [gpow (i - 1) 2; 0; 0; 0].

Definition next_word (Nk : nat) (w : list Z) : Z :=
  let i := length w in
  let temp := nth (i - 1) w 0 in
  let temp :=
    if Nat.eqb (i mod Nk) 0 then Z.lxor (SubWord (RotWord temp)) (Rcon (i / Nk))
    else if Nat.ltb 6 Nk && Nat.eqb (i mod Nk) 4 then SubWord temp else temp in
  Z.lxor (nth (i - Nk) w 0) temp.

Fixpoint expand (n Nk : nat) (w : list Z) : list Z :=
  match n with
  | O => w
  | S n' => expand n' Nk (w ++ [next_word Nk w])
  end.

Definition key_words (n : nat) (key : list Z) : list Z := map (word BE key) (seq 0 n).

Definition KeyExpansion (Nk Nr : nat) (key : list Z) : list Z := expand (4 * (Nr + 1) - Nk) Nk (key_words Nk key).

(** ** Laws of the field *)
Lemma testbit_byte a i : is_u8 a -> 8 <= i -> Z.testbit a i = false.
Proof.
  intros Ha Hi. destruct (decide (a = 0)) as [->|]; [apply Z.bits_0|]. unfold is_u8 in *.
  apply Z.bits_above_log2; [lia|]. apply Z.lt_le_trans with 8; [|done]. apply Z.log2_lt_pow2; lia.
Qed.

Lemma xtime_lxor a b : xtime (Z.lxor a b) = Z.lxor (xtime a) (xtime b).
Proof.
  unfold xtime. rewrite Z.lxor_spec, Z.shiftl_lxor.
  assert (forall x y z, Z.land (Z.lxor x y) z = Z.lxor (Z.land x z) (Z.land y z)) as E by (intros; zbits).
  rewrite E. destruct (Z.testbit a 7), (Z.testbit b 7); cbn [xorb]; rewrite ?Z.lxor_0_r; [|zbits..|done].
  generalize (Z.land (Z.shiftl a 1) 255) (Z.land (Z.shiftl b 1) 255). intros. zbits.
Qed.

Lemma gmul_lxor c a b : gmul c (Z.lxor a b) = Z.lxor (gmul c a) (gmul c b).
Proof.
  unfold gmul. generalize 8%nat. intros n. revert c a b. induction n as [|n IH]; intros c a b; [done|]. cbn [gmul_bits].
  rewrite xtime_lxor, IH. destruct (Z.odd c); rewrite ?Z.lxor_0_l; [|done]. zbits.
Qed.

(** Equations between sums of the field. *)
Ltac zxor := apply Z.bits_inj'; intros ? ?; rewrite ?Z.lxor_spec, ?Z.bits_0; btauto.

Lemma byte_lxor a b : is_u8 a -> is_u8 b -> is_u8 (Z.lxor a b).
Proof.
  intros Ha Hb. assert (Z.lxor a b = u8 (Z.lxor a b)) as ->; [|apply u8_range].
  unfold u8. apply Z.bits_inj'. intros i Hi. rewrite testbit_mod by lia. destruct (Z.ltb_spec i 8); [done|].
  by rewrite Z.lxor_spec, !testbit_byte.
Qed.

Definition is_byte (b : Z) : bool := (0 <=? b) && (b <? 256).

Lemma is_byte_spec b : is_byte b = true -> is_u8 b.
Proof. unfold is_byte, is_u8. lia. Qed.

(** Facts of all bytes, by evaluation. *)
Lemma gmul_byte c a : In c [2; 3; 9; 11; 13; 14] -> is_u8 a -> is_u8 (gmul c a).
Proof.
  intros Hc Ha. apply is_byte_spec.
  pose proof (byte_check (fun a => forallb (fun c => is_byte (gmul c a)) [2; 3; 9; 11; 13; 14]) ltac:(vm_compute; reflexivity) a Ha) as H.
  rewrite forallb_forall in H. by apply H.
Qed.

Lemma sbox_byte x : is_u8 x -> is_u8 (sbox x).
Proof. intros Hx. by apply is_byte_spec, (byte_check (fun x => is_byte (sbox x))). Qed.

Lemma inv_sbox_byte x : is_u8 x -> is_u8 (inv_sbox x).
Proof. intros Hx. by apply is_byte_spec, (byte_check (fun x => is_byte (inv_sbox x))). Qed.

Lemma inv_sbox_sbox x : is_u8 x -> inv_sbox (sbox x) = x.
Proof. intros Hx. by apply Z.eqb_eq, (byte_check (fun x => inv_sbox (sbox x) =? x)). Qed.

(** The rows of one matrix with the columns of the other. *)
Lemma mix_identity a : is_u8 a ->
  xor4 (gmul 14 (gmul 2 a)) (gmul 11 a) (gmul 13 a) (gmul 9 (gmul 3 a)) = a /\
  xor4 (gmul 14 (gmul 3 a)) (gmul 11 (gmul 2 a)) (gmul 13 a) (gmul 9 a) = 0 /\
  xor4 (gmul 14 a) (gmul 11 (gmul 3 a)) (gmul 13 (gmul 2 a)) (gmul 9 a) = 0 /\
  xor4 (gmul 14 a) (gmul 11 a) (gmul 13 (gmul 3 a)) (gmul 9 (gmul 2 a)) = 0.
Proof.
  intros Ha.
  pose proof (byte_check (fun a =>
    (xor4 (gmul 14 (gmul 2 a)) (gmul 11 a) (gmul 13 a) (gmul 9 (gmul 3 a)) =? a) &&
    (xor4 (gmul 14 (gmul 3 a)) (gmul 11 (gmul 2 a)) (gmul 13 a) (gmul 9 a) =? 0) &&
    (xor4 (gmul 14 a) (gmul 11 (gmul 3 a)) (gmul 13 (gmul 2 a)) (gmul 9 a) =? 0) &&
    (xor4 (gmul 14 a) (gmul 11 a) (gmul 13 (gmul 3 a)) (gmul 9 (gmul 2 a)) =? 0)) ltac:(vm_compute; reflexivity) a Ha) as H.
  cbn beta in H. rewrite !andb_true_iff, !Z.eqb_eq in H. tauto.
Qed.

Lemma inv_mix_entry a b c d : is_u8 a -> is_u8 b -> is_u8 c -> is_u8 d ->
  xor4 (gmul 14 (xor4 (gmul 2 a) (gmul 3 b) c d)) (gmul 11 (xor4 a (gmul 2 b) (gmul 3 c) d))
       (gmul 13 (xor4 a b (gmul 2 c) (gmul 3 d))) (gmul 9 (xor4 (gmul 3 a) b c (gmul 2 d))) = a.
Proof.
  intros Ha Hb Hc Hd. destruct (mix_identity a Ha) as (Ea & _), (mix_identity b Hb) as (_ & Eb & _),
    (mix_identity c Hc) as (_ & _ & Ec & _), (mix_identity d Hd) as (_ & _ & _ & Ed).
  transitivity (xor4 a 0 0 0); [rewrite <- Ea at 5; rewrite <- Eb, <- Ec, <- Ed at 1|unfold xor4; by rewrite !Z.lxor_0_r].
  unfold xor4. rewrite !gmul_lxor. zxor.
Qed.

Lemma xor4_rot a b c d : xor4 a b c d = xor4 b c d a.
Proof. unfold xor4. zxor. Qed.

Definition on_column (f : Z -> Z -> Z -> Z -> list Z) (l : list Z) : list Z :=
  match l with [a; b; c; d] => f a b c d | _ => [] end.

Lemma inv_mix_column_mix a b c d : is_u8 a -> is_u8 b -> is_u8 c -> is_u8 d ->
  on_column inv_mix_column (mix_column a b c d) = [a; b; c; d].
Proof.
  intros Ha Hb Hc Hd. cbn [on_column mix_column]. unfold inv_mix_column. repeat f_equal.
  - by apply inv_mix_entry.
  - etransitivity; [|by apply (inv_mix_entry b c d a)]. rewrite xor4_rot. f_equal; f_equal; unfold xor4; zxor.
  - etransitivity; [|by apply (inv_mix_entry c d a b)]. do 2 rewrite xor4_rot. f_equal; f_equal; unfold xor4; zxor.
  - etransitivity; [|by apply (inv_mix_entry d a b c)]. do 3 rewrite xor4_rot. f_equal; f_equal; unfold xor4; zxor.
Qed.

Lemma inv_mix_column_lxor a b c d a' b' c' d' :
  inv_mix_column (Z.lxor a a') (Z.lxor b b') (Z.lxor c c') (Z.lxor d d') =
  zip_with Z.lxor (inv_mix_column a b c d) (inv_mix_column a' b' c' d').
Proof. unfold inv_mix_column, xor4. rewrite !gmul_lxor. cbn [zip_with]. do 3 (f_equal; [zxor|]). f_equal. zxor. Qed.

(** ** The state *)
Definition is_block (s : list Z) : Prop := length s = 16%nat /\ bytes s.

(** Sixteen bytes, named. *)
Ltac block s H :=
  let Hl := fresh in let Hb := fresh in
  destruct H as [Hl Hb];
  do 16 (destruct s as [|? s]; [discriminate Hl|]);
  destruct s; [clear Hl|discriminate Hl];
  repeat match type of Hb with Forall _ (_ :: _) => apply Forall_cons in Hb as [? Hb] end; clear Hb.

Lemma is_block_list s : length s = 16%nat -> bytes s -> is_block s.
Proof. done. Qed.

Lemma InvShiftRows_ShiftRows s : length s = 16%nat -> InvShiftRows (ShiftRows s) = s.
Proof. intros Hl. do 16 (destruct s as [|? s]; [discriminate Hl|]). by destruct s. Qed.

Lemma InvSub_Shift_comm s : length s = 16%nat -> InvSubBytes (ShiftRows s) = ShiftRows (InvSubBytes s).
Proof. intros Hl. do 16 (destruct s as [|? s]; [discriminate Hl|]). by destruct s. Qed.

Lemma InvSub_Sub s : bytes s -> InvSubBytes (SubBytes s) = s.
Proof.
  unfold InvSubBytes, SubBytes. rewrite map_map. intros Hb. rewrite <- (map_id s) at 2. apply map_ext_in.
  intros x Hx. rewrite List.Forall_forall in Hb. by apply inv_sbox_sbox, Hb.
Qed.

Lemma columns_app f l r : length l = 4%nat -> columns f (l ++ r) = on_column f l ++ columns f r.
Proof. intros Hl. do 4 (destruct l as [|? l]; [discriminate Hl|]). by destruct l. Qed.

(** States are handled column by column. *)
Lemma block_ind (P : list Z -> Prop) :
  P [] ->
  (forall a b c d s, is_u8 a -> is_u8 b -> is_u8 c -> is_u8 d -> bytes s -> (exists n, length s = (4 * n)%nat) ->
     P s -> P (a :: b :: c :: d :: s)) ->
  forall n s, length s = (4 * n)%nat -> bytes s -> P s.
Proof.
  intros H0 H4. induction n as [|n IH]; intros s Hl Hb.
  - by destruct s.
  - do 4 (destruct s as [|? s]; [exfalso; cbn in Hl; lia|]). do 4 (apply Forall_cons in Hb as [? Hb]).
    assert (length s = 4 * n)%nat as Hl' by (cbn in Hl; lia). apply H4; eauto.
Qed.

Lemma InvMixColumns_MixColumns s : is_block s -> InvMixColumns (MixColumns s) = s.
Proof.
  intros [Hl Hb]. unfold InvMixColumns, MixColumns. revert Hb. apply (block_ind (fun s => columns _ (columns _ s) = s)
    ltac:(done)) with (n := 4%nat) (s := s); [|done].
  intros a b c d s' Ha Hb' Hc Hd _ _ IH. cbn [columns].
  by rewrite columns_app, inv_mix_column_mix, IH by done.
Qed.

Lemma InvMixColumns_lxor s k : length s = 16%nat -> length k = 16%nat ->
  InvMixColumns (AddRoundKey s k) = AddRoundKey (InvMixColumns s) (InvMixColumns k).
Proof.
  intros Hs Hk. do 16 (destruct s as [|? s]; [discriminate Hs|]). destruct s; [|discriminate Hs].
  do 16 (destruct k as [|? k]; [discriminate Hk|]). destruct k; [|discriminate Hk].
  unfold InvMixColumns, AddRoundKey. cbn [zip_with columns]. rewrite !inv_mix_column_lxor. done.
Qed.

Lemma length_InvMixColumns s : length s = 16%nat -> length (InvMixColumns s) = 16%nat.
Proof. intros Hs. do 16 (destruct s as [|? s]; [discriminate Hs|]). by destruct s. Qed.

(** The transformations keep blocks. *)
Lemma SubBytes_block s : is_block s -> is_block (SubBytes s).
Proof.
  intros [Hl Hb]. split; [unfold SubBytes; by rewrite length_map|]. apply Forall_map.
  eapply Forall_impl; [exact Hb|]. intros x. apply sbox_byte.
Qed.

Lemma ShiftRows_block s : is_block s -> is_block (ShiftRows s).
Proof. intros Hs. block s Hs. split; [done|]. by repeat (apply Forall_cons; split). Qed.

Lemma AddRoundKey_block s k : is_block s -> is_block k -> is_block (AddRoundKey s k).
Proof.
  intros [Hs Bs] [Hk Bk]. split; [unfold AddRoundKey; rewrite length_zip_with; lia|].
  unfold AddRoundKey. clear Hs Hk. revert k Bk. induction Bs as [|x s Hx Bs IH]; intros [|y k] Bk; cbn [zip_with]; try constructor.
  - apply Forall_cons in Bk as [Hy _]. by apply byte_lxor.
  - apply Forall_cons in Bk as [_ Bk]. by apply IH.
Qed.

(** Sums of products are bytes. *)
Ltac byte_sum :=
  lazymatch goal with
  | |- is_u8 (Z.lxor _ _) => apply byte_lxor; byte_sum
  | |- is_u8 (gmul _ _) => apply gmul_byte; [cbn; tauto|byte_sum]
  | |- _ => done
  end.

Lemma MixColumns_block s : is_block s -> is_block (MixColumns s).
Proof.
  intros Hs. block s Hs. split; [done|]. unfold MixColumns, mix_column, xor4. cbn [columns app].
  repeat (apply Forall_cons; split); try done; byte_sum.
Qed.

Lemma AddRoundKey_cancel s k : length s = length k -> AddRoundKey (AddRoundKey s k) k = s.
Proof.
  unfold AddRoundKey. revert k. induction s as [|x s IH]; intros [|y k] Hl; cbn [zip_with]; try done.
  rewrite IH by (cbn in Hl; lia). f_equal. zxor.
Qed.

(** ** The inverse cipher

    The equivalent inverse cipher of section 5.3.5: the round keys in reverse
    order, all but the first and the last transformed by [InvMixColumns]. *)
Fixpoint inv_rounds (n : nat) (s w : list Z) : list Z :=
  match n with
  | O => AddRoundKey (InvShiftRows (InvSubBytes s)) (round_key w)
  | S n' => inv_rounds n' (AddRoundKey (InvMixColumns (InvShiftRows (InvSubBytes s))) (round_key w)) (drop 4 w)
  end.

Definition EqInvCipher (Nr : nat) (dw s : list Z) : list Z :=
  inv_rounds (Nr - 1) (AddRoundKey s (round_key dw)) (drop 4 dw).

(** The round keys of a schedule. *)
Definition key_at (w : list Z) (i : nat) : list Z := round_key (drop (4 * i) w).

Record inverse_schedule (Nr : nat) (w dw : list Z) : Prop := {
  inv_first : key_at dw 0 = key_at w Nr;
  inv_middle i : (0 < i < Nr)%nat -> key_at dw i = InvMixColumns (key_at w (Nr - i));
  inv_last : key_at dw Nr = key_at w 0
}.

Section Inverse.
Context (Nr : nat) (w dw s : list Z) (HNr : (0 < Nr)%nat).
Context (Hw : forall i, (i <= Nr)%nat -> is_block (key_at w i)) (Hs : is_block s) (Hdw : inverse_schedule Nr w dw).

(** The state after [i] rounds of the cipher. *)
Fixpoint state_at (i : nat) : list Z :=
  match i with
  | O => AddRoundKey s (key_at w 0)
  | S i' => AddRoundKey (MixColumns (ShiftRows (SubBytes (state_at i')))) (key_at w i)
  end.

Lemma state_at_block i : (i <= Nr)%nat -> is_block (state_at i).
Proof.
  induction i as [|i IH]; intros Hi; cbn [state_at]; (apply AddRoundKey_block; [|by apply Hw]).
  - done.
  - apply MixColumns_block, ShiftRows_block, SubBytes_block, IH. lia.
Qed.

Lemma cipher_rounds_state n i : (i + n < Nr)%nat ->
  cipher_rounds n (state_at i) (drop (4 * S i) w) = AddRoundKey (ShiftRows (SubBytes (state_at (i + n)))) (key_at w (S (i + n))).
Proof.
  revert i. induction n as [|n IH]; intros i Hi; cbn [cipher_rounds].
  - by rewrite Nat.add_0_r.
  - rewrite drop_drop. replace (4 * S i + 4)%nat with (4 * S (S i))%nat by lia.
    change (AddRoundKey (MixColumns (ShiftRows (SubBytes (state_at i)))) (round_key (drop (4 * S i) w))) with (state_at (S i)).
    rewrite IH by lia. by replace (S i + n)%nat with (i + S n)%nat by lia.
Qed.

Lemma unround i : (i <= Nr)%nat -> InvShiftRows (InvSubBytes (ShiftRows (SubBytes (state_at i)))) = state_at i.
Proof.
  intros Hi. destruct (state_at_block i Hi) as [Hl Hb].
  rewrite InvSub_Shift_comm by (unfold SubBytes; by rewrite length_map). by rewrite InvSub_Sub, InvShiftRows_ShiftRows.
Qed.

Lemma inv_rounds_state n : (n < Nr)%nat ->
  inv_rounds n (ShiftRows (SubBytes (state_at n))) (drop (4 * (Nr - n)) dw) = s.
Proof.
  induction n as [|n IH]; intros Hn; cbn [inv_rounds]; rewrite unround by lia.
  - rewrite Nat.sub_0_r. change (round_key (drop (4 * Nr) dw)) with (key_at dw Nr). rewrite (inv_last _ _ _ Hdw). cbn [state_at].
    apply AddRoundKey_cancel. destruct Hs as [-> _], (Hw 0 ltac:(lia)) as [-> _]. done.
  - change (round_key (drop (4 * (Nr - S n)) dw)) with (key_at dw (Nr - S n)). rewrite (inv_middle _ _ _ Hdw) by lia.
    replace (Nr - (Nr - S n))%nat with (S n) by lia. cbn [state_at].
    assert (is_block (ShiftRows (SubBytes (state_at n)))) as Hb by (apply ShiftRows_block, SubBytes_block, state_at_block; lia).
    pose proof (Hw (S n) ltac:(lia)) as Hk. pose proof (MixColumns_block _ Hb) as Hm.
    rewrite InvMixColumns_lxor by (apply Hm || apply Hk). rewrite InvMixColumns_MixColumns by done.
    rewrite AddRoundKey_cancel.
    + rewrite drop_drop. replace (4 * (Nr - S n) + 4)%nat with (4 * (Nr - n))%nat by lia. apply IH. lia.
    + destruct Hb as [-> _]. symmetry. by apply length_InvMixColumns, Hk.
Qed.

(** The equivalent inverse cipher inverts the cipher. *)
Lemma EqInvCipher_Cipher : EqInvCipher Nr dw (Cipher Nr w s) = s.
Proof.
  unfold EqInvCipher, Cipher. change (AddRoundKey s (round_key w)) with (state_at 0).
  change (drop 4 w) with (drop (4 * 1) w). rewrite (cipher_rounds_state (Nr - 1) 0) by lia. cbn [Nat.add].
  replace (S (Nr - 1)) with Nr by lia. change (round_key dw) with (key_at dw 0). rewrite (inv_first _ _ _ Hdw).
  rewrite AddRoundKey_cancel.
  - replace 4%nat with (4 * (Nr - (Nr - 1)))%nat by lia. apply inv_rounds_state. lia.
  - destruct (Hw Nr ltac:(lia)) as [-> _]. apply ShiftRows_block, SubBytes_block, state_at_block. lia.
Qed.
End Inverse.
