(* ===== verification/Aes.v ===== *)
(** * AES ([openssl_aes_core.c], [openssl_aes_local.h])

    The block cipher works on words of 32 bits and on tables that combine the
    substitution of bytes with the multiplication of columns.  The reference is
    FIPS 197 on bytes: the field GF(2^8), the substitution box computed from
    inverses in it, and the transformations of the state.  The results are that
    the tables contain what the comment above them says, that the key schedule
    is the expansion of the standard for the three sizes of keys, that
    [AES_encrypt] is its cipher and that [AES_decrypt] inverts it.

    The code for [FULL_UNROLL], which [openssl_aes_local.h] undefines, and for
    [AES_ASM] is not compiled; it is in [AesVariants]. *)
From S2P Require Import Prelude HashWords AesTables AesSpec.
Local Open Scope Z_scope.

(** ** Words ([openssl_aes_local.h]) *)
Definition GETU32 (pt : list Z) : option Z :=
  match pt with
  | p0 :: p1 :: p2 :: p3 :: _ =>
      Some (Z.lxor (Z.lxor (Z.lxor (Z.shiftl p0 24) (Z.shiftl p1 16)) (Z.shiftl p2 8)) p3)
  | _ => None
  end.

Definition PUTU32 (st : Z) : list Z := [u8 (Z.shiftr st 24); u8 (Z.shiftr st 16); u8 (Z.shiftr st 8); u8 st].

(** The bytes of a word, as the code selects them. *)
Definition byte3 (s : Z) : Z := Z.shiftr s 24.
Definition byte2 (s : Z) : Z := Z.land (Z.shiftr s 16) 0xff.
Definition byte1 (s : Z) : Z := Z.land (Z.shiftr s 8) 0xff.
Definition byte0 (s : Z) : Z := Z.land s 0xff.

(** Reading a table. *)
Definition tab (T : list Z) (i : Z) : option Z := if i <? 0 then None else T !! Z.to_nat i.

(** [AES_KEY]: an array of 60 words and the number of rounds. *)
Record AES_KEY := mk_key { rd_key : list Z; rounds : Z }.

(** ** The key schedule *)

(** The substitution of a word, rotated by a byte ([sub_rot]) or not ([sub_word]). *)
Definition sub_bytes (a b c d : Z) : option Z :=
  let* x := tab Te2 a in let* y := tab Te3 b in let* z := tab Te0 c in let* w := tab Te1 d in
  Some (Z.lxor (Z.lxor (Z.lxor (Z.land x 0xff000000) (Z.land y 0x00ff0000)) (Z.land z 0x0000ff00)) (Z.land w 0x000000ff)).

Definition sub_rot (temp : Z) : option Z := sub_bytes (byte2 temp) (byte1 temp) (byte0 temp) (byte3 temp).
Definition sub_word (temp : Z) : option Z := sub_bytes (byte3 temp) (byte2 temp) (byte1 temp) (byte0 temp).

Definition rk_set (i : nat) (v : Z) (rk : list Z) : option (list Z) :=
  let* _ := rk !! i in Some (<[i := v]> rk).

(** [rk[d] = rk[a] ^ rk[b]] *)
Definition rk_xor (d a b : nat) (rk : list Z) : option (list Z) :=
  let* x := rk !! a in let* y := rk !! b in rk_set d (Z.lxor x y) rk.

(** [rk[d] = rk[a] ^ (the substitution of rk[b], rotated) ^ rcon[i]] *)
Definition rk_first (d a b i : nat) (rk : list Z) : option (list Z) :=
  let* temp := rk !! b in let* x := rk !! a in
  let* s := sub_rot temp in let* c := rcon !! i in
  rk_set d (Z.lxor (Z.lxor x s) c) rk.

(** [rk[d] = rk[a] ^ (the substitution of rk[b])] *)
Definition rk_sub (d a b : nat) (rk : list Z) : option (list Z) :=
  let* temp := rk !! b in let* x := rk !! a in
  let* s := sub_word temp in rk_set d (Z.lxor x s) rk.

(** The loops; [o] is how far [rk] has been advanced. *)
Fixpoint loop128 (fuel i o : nat) (rk : list Z) : option (list Z) :=
  match fuel with
  | O => None
  | S fuel' =>
      let* rk := rk_first (o + 4) o (o + 3) i rk in
      let* rk := rk_xor (o + 5) (o + 1) (o + 4) rk in
      let* rk := rk_xor (o + 6) (o + 2) (o + 5) rk in
      let* rk := rk_xor (o + 7) (o + 3) (o + 6) rk in
      if Nat.eqb (S i) 10 then Some rk else loop128 fuel' (S i) (o + 4) rk
  end.

Fixpoint loop192 (fuel i o : nat) (rk : list Z) : option (list Z) :=
  match fuel with
  | O => None
  | S fuel' =>
      let* rk := rk_first (o + 6) o (o + 5) i rk in
      let* rk := rk_xor (o + 7) (o + 1) (o + 6) rk in
      let* rk := rk_xor (o + 8) (o + 2) (o + 7) rk in
      let* rk := rk_xor (o + 9) (o + 3) (o + 8) rk in
      if Nat.eqb (S i) 8 then Some rk
      else
        let* rk := rk_xor (o + 10) (o + 4) (o + 9) rk in
        let* rk := rk_xor (o + 11) (o + 5) (o + 10) rk in
        loop192 fuel' (S i) (o + 6) rk
  end.

Fixpoint loop256 (fuel i o : nat) (rk : list Z) : option (list Z) :=
  match fuel with
  | O => None
  | S fuel' =>
      let* rk := rk_first (o + 8) o (o + 7) i rk in
      let* rk := rk_xor (o + 9) (o + 1) (o + 8) rk in
      let* rk := rk_xor (o + 10) (o + 2) (o + 9) rk in
      let* rk := rk_xor (o + 11) (o + 3) (o + 10) rk in
      if Nat.eqb (S i) 7 then Some rk
      else
        let* rk := rk_sub (o + 12) (o + 4) (o + 11) rk in
        let* rk := rk_xor (o + 13) (o + 5) (o + 12) rk in
        let* rk := rk_xor (o + 14) (o + 6) (o + 13) rk in
        let* rk := rk_xor (o + 15) (o + 7) (o + 14) rk in
        loop256 fuel' (S i) (o + 8) rk
  end.

(** [rk[i] = GETU32(userKey + 4 * i)] for [i] from [a] on, [n] times. *)
Fixpoint load_key (n a : nat) (userKey rk : list Z) : option (list Z) :=
  match n with
  | O => Some rk
  | S n' =>
      let* v := GETU32 (drop (4 * a) userKey) in
      let* rk := rk_set a v rk in load_key n' (S a) userKey rk
  end.

(** The status and the key; the pointers are not NULL. *)
Definition AES_set_encrypt_key (userKey : list Z) (bits : Z) (key : AES_KEY) : option (Z * AES_KEY) :=
  if negb (bits =? 128) && negb (bits =? 192) && negb (bits =? 256) then Some (-2, key)
  else
    let rounds := if bits =? 128 then 10 else if bits =? 192 then 12 else 14 in
    let* rk := load_key 4 0 userKey (rd_key key) in
    if bits =? 128 then let* rk := loop128 10 0 0 rk in Some (0, mk_key rk rounds)
    else
      let* rk := load_key 2 4 userKey rk in
      if bits =? 192 then let* rk := loop192 8 0 0 rk in Some (0, mk_key rk rounds)
      else
        let* rk := load_key 2 6 userKey rk in
        let* rk := loop256 7 0 0 rk in Some (0, mk_key rk rounds).

(** ** Encryption of a block *)
Definition words4 : Type := Z * Z * Z * Z.

(** [Te0[s0 >> 24] ^ Te1[(s1 >> 16) & 0xff] ^ Te2[(s2 >> 8) & 0xff] ^ Te3[s3 & 0xff] ^ k] *)
Definition te_word (s0 s1 s2 s3 k : Z) : option Z :=
  let* a := tab Te0 (byte3 s0) in let* b := tab Te1 (byte2 s1) in
  let* c := tab Te2 (byte1 s2) in let* d := tab Te3 (byte0 s3) in
  Some (Z.lxor (Z.lxor (Z.lxor (Z.lxor a b) c) d) k).

(** The word of the last round. *)
Definition te_last (s0 s1 s2 s3 k : Z) : option Z :=
  let* v := sub_bytes (byte3 s0) (byte2 s1) (byte1 s2) (byte0 s3) in Some (Z.lxor v k).

(** Four words of a state from four of another, with the round key at [rk]. *)
Definition enc_words (f : Z -> Z -> Z -> Z -> Z -> option Z) (s : words4) (rk : list Z) : option words4 :=
  let '(s0, s1, s2, s3) := s in
  let* k0 := rk !! 0%nat in let* k1 := rk !! 1%nat in let* k2 := rk !! 2%nat in let* k3 := rk !! 3%nat in
  let* t0 := f s0 s1 s2 s3 k0 in let* t1 := f s1 s2 s3 s0 k1 in
  let* t2 := f s2 s3 s0 s1 k2 in let* t3 := f s3 s0 s1 s2 k3 in
  Some (t0, t1, t2, t3).

(** The state of four words that is read at [in] and xored with the round key. *)
Definition load_block (inp rk : list Z) : option words4 :=
  let* k0 := rk !! 0%nat in let* k1 := rk !! 1%nat in let* k2 := rk !! 2%nat in let* k3 := rk !! 3%nat in
  let* a := GETU32 inp in let* b := GETU32 (drop 4 inp) in
  let* c := GETU32 (drop 8 inp) in let* d := GETU32 (drop 12 inp) in
  Some (Z.lxor a k0, Z.lxor b k1, Z.lxor c k2, Z.lxor d k3).

Definition store_block (s : words4) : list Z :=
  let '(s0, s1, s2, s3) := s in PUTU32 s0 ++ PUTU32 s1 ++ PUTU32 s2 ++ PUTU32 s3.

(** The loop over pairs of rounds, which is left in its middle; the caller gives
    [r > 0], since otherwise the counter would pass 0. *)
Fixpoint rounds_loop (round : words4 -> list Z -> option words4) (r : nat) (s : words4) (rk : list Z)
    : option (words4 * list Z) :=
  match r with
  | O => None
  | S r' =>
      let* t := round s (drop 4 rk) in
      let rk := drop 8 rk in
      match r' with
      | O => Some (t, rk)
      | _ => let* s := round t rk in rounds_loop round r' s rk
      end
  end.

Definition AES_encrypt (inp : list Z) (key : AES_KEY) : option (list Z) :=
  let rk := rd_key key in
  let* s := load_block inp rk in
  let* (t, rk) := rounds_loop (enc_words te_word) (Z.to_nat (Z.shiftr (rounds key) 1)) s rk in
  let* s := enc_words te_last t rk in
  Some (store_block s).

(** ** Decryption *)

(** [rk[i]] and [rk[j]] exchanged. *)
Definition rk_swap (i j : nat) (rk : list Z) : option (list Z) :=
  let* temp := rk !! i in let* x := rk !! j in Some (<[j := temp]> (<[i := x]> rk)).

Fixpoint swap_loop (fuel i j : nat) (rk : list Z) : option (list Z) :=
  if Nat.ltb i j then
    match fuel with
    | O => None
    | S fuel' =>
        let* rk := rk_swap i j rk in let* rk := rk_swap (i + 1) (j + 1) rk in
        let* rk := rk_swap (i + 2) (j + 2) rk in let* rk := rk_swap (i + 3) (j + 3) rk in
        swap_loop fuel' (i + 4) (j - 4) rk
    end
  else Some rk.

(** [Td0[Te1[v >> 24] & 0xff] ^ Td1[Te1[(v >> 16) & 0xff] & 0xff] ^ ...] *)
Definition inv_mix_word (v : Z) : option Z :=
  let sub T i := let* x := tab Te1 i in tab T (Z.land x 0xff) in
  let* a := sub Td0 (byte3 v) in let* b := sub Td1 (byte2 v) in
  let* c := sub Td2 (byte1 v) in let* d := sub Td3 (byte0 v) in
  Some (Z.lxor (Z.lxor (Z.lxor a b) c) d).

Definition rk_inv_mix (i : nat) (rk : list Z) : option (list Z) :=
  let* v := rk !! i in let* v' := inv_mix_word v in rk_set i v' rk.

(** [n] round keys from word [o] on. *)
Fixpoint inv_mix_loop (n o : nat) (rk : list Z) : option (list Z) :=
  match n with
  | O => Some rk
  | S n' =>
      let* rk := rk_inv_mix o rk in let* rk := rk_inv_mix (o + 1) rk in
      let* rk := rk_inv_mix (o + 2) rk in let* rk := rk_inv_mix (o + 3) rk in
      inv_mix_loop n' (o + 4) rk
  end.

Definition AES_set_decrypt_key (userKey : list Z) (bits : Z) (key : AES_KEY) : option (Z * AES_KEY) :=
  let* (status, key) := AES_set_encrypt_key userKey bits key in
  if status <? 0 then Some (status, key)
  else
    let n := Z.to_nat (rounds key) in
    let* rk := swap_loop n 0 (4 * n) (rd_key key) in
    let* rk := inv_mix_loop (n - 1) 4 rk in
    Some (0, mk_key rk (rounds key)).

Definition td_word (s0 s1 s2 s3 k : Z) : option Z :=
  let* a := tab Td0 (byte3 s0) in let* b := tab Td1 (byte2 s1) in
  let* c := tab Td2 (byte1 s2) in let* d := tab Td3 (byte0 s3) in
  Some (Z.lxor (Z.lxor (Z.lxor (Z.lxor a b) c) d) k).

Definition td_last (s0 s1 s2 s3 k : Z) : option Z :=
  let* a := tab Td4 (byte3 s0) in let* b := tab Td4 (byte2 s1) in
  let* c := tab Td4 (byte1 s2) in let* d := tab Td4 (byte0 s3) in
  Some (Z.lxor (Z.lxor (Z.lxor (Z.lxor (Z.shiftl a 24) (Z.shiftl b 16)) (Z.shiftl c 8)) d) k).

Definition dec_words (f : Z -> Z -> Z -> Z -> Z -> option Z) (s : words4) (rk : list Z) : option words4 :=
  let '(s0, s1, s2, s3) := s in
  let* k0 := rk !! 0%nat in let* k1 := rk !! 1%nat in let* k2 := rk !! 2%nat in let* k3 := rk !! 3%nat in
  let* t0 := f s0 s3 s2 s1 k0 in let* t1 := f s1 s0 s3 s2 k1 in
  let* t2 := f s2 s1 s0 s3 k2 in let* t3 := f s3 s2 s1 s0 k3 in
  Some (t0, t1, t2, t3).

Definition AES_decrypt (inp : list Z) (key : AES_KEY) : option (list Z) :=
  let rk := rd_key key in
  let* s := load_block inp rk in
  let* (t, rk) := rounds_loop (dec_words td_word) (Z.to_nat (Z.shiftr (rounds key) 1)) s rk in
  let* s := dec_words td_last t rk in
  Some (store_block s).

(** ** Test vectors (FIPS 197, appendix C) *)
Definition test_key (bits : Z) : option AES_KEY :=
  let* (_, k) := AES_set_encrypt_key (map Z.of_nat (seq 0 32)) bits (mk_key (replicate 60 0) 0) in Some k.
Definition test_block : list Z := map (fun i => 17 * Z.of_nat i) (seq 0 16).

Example aes128_vector : (let* k := test_key 128 in AES_encrypt test_block k) =
  Some [0x69; 0xc4; 0xe0; 0xd8; 0x6a; 0x7b; 0x04; 0x30; 0xd8; 0xcd; 0xb7; 0x80; 0x70; 0xb4; 0xc5; 0x5a].
Proof. vm_compute. reflexivity. Qed.

Example aes192_vector : (let* k := test_key 192 in AES_encrypt test_block k) =
  Some [0xdd; 0xa9; 0x7c; 0xa4; 0x86; 0x4c; 0xdf; 0xe0; 0x6e; 0xaf; 0x70; 0xa0; 0xec; 0x0d; 0x71; 0x91].
Proof. vm_compute. reflexivity. Qed.

Example aes256_vector : (let* k := test_key 256 in AES_encrypt test_block k) =
  Some [0x8e; 0xa2; 0xb7; 0xca; 0x51; 0x67; 0x45; 0xbf; 0xea; 0xfc; 0x49; 0x90; 0x4b; 0x49; 0x60; 0x89].
Proof. vm_compute. reflexivity. Qed.

Example aes_decrypt_vector :
  (let* (_, k) := AES_set_decrypt_key (map Z.of_nat (seq 0 32)) 256 (mk_key (replicate 60 0) 0) in
   AES_decrypt [0x8e; 0xa2; 0xb7; 0xca; 0x51; 0x67; 0x45; 0xbf; 0xea; 0xfc; 0x49; 0x90; 0x4b; 0x49; 0x60; 0x89] k) =
  Some test_block.
Proof. vm_compute. reflexivity. Qed.

Example reference_vector :
  Cipher 10 (KeyExpansion 4 10 (map Z.of_nat (seq 0 16))) test_block =
  [0x69; 0xc4; 0xe0; 0xd8; 0x6a; 0x7b; 0x04; 0x30; 0xd8; 0xcd; 0xb7; 0x80; 0x70; 0xb4; 0xc5; 0x5a].
Proof. vm_compute. reflexivity. Qed.

(** ** Words as four bytes *)
Definition W (a b c d : Z) : Z := of_bytes [a; b; c; d].

Lemma lxor_shiftl_byte v b : is_u8 b -> Z.lxor (Z.shiftl v 8) b = 256 * v + b.
Proof.
  intros Hb. rewrite <- (lor_shiftl_byte v b Hb). symmetry. rewrite Z.lxor_lor; [done|].
  apply Z.bits_inj'. intros i Hi. rewrite Z.land_spec, Z.bits_0.
  destruct (Z.ltb_spec i 8); [|by rewrite (testbit_byte b), andb_false_r].
  rewrite Z.shiftl_spec_low by lia. done.
Qed.

Lemma W_xor_form a b c d : is_u8 b -> is_u8 c -> is_u8 d ->
  W a b c d = Z.lxor (Z.lxor (Z.lxor (Z.shiftl a 24) (Z.shiftl b 16)) (Z.shiftl c 8)) d.
Proof.
  intros Hb Hc Hd. unfold W, of_bytes. cbn [val_of rev app le_val].
  transitivity (Z.lxor (Z.shiftl (Z.lxor (Z.shiftl (Z.lxor (Z.shiftl a 8) b) 8) c) 8) d).
  - rewrite !lxor_shiftl_byte by done. lia.
  - rewrite !Z.shiftl_lxor, !Z.shiftl_shiftl by lia. done.
Qed.

Lemma W_lxor a b c d a' b' c' d' :
  is_u8 a -> is_u8 b -> is_u8 c -> is_u8 d -> is_u8 a' -> is_u8 b' -> is_u8 c' -> is_u8 d' ->
  Z.lxor (W a b c d) (W a' b' c' d') = W (Z.lxor a a') (Z.lxor b b') (Z.lxor c c') (Z.lxor d d').
Proof.
  intros. rewrite !W_xor_form by (try apply byte_lxor; done). rewrite !Z.shiftl_lxor. zxor.
Qed.

Lemma W_bytes a b c d : is_u8 a -> is_u8 b -> is_u8 c -> is_u8 d ->
  byte3 (W a b c d) = a /\ byte2 (W a b c d) = b /\ byte1 (W a b c d) = c /\ byte0 (W a b c d) = d.
Proof.
  intros. unfold byte3, byte2, byte1, byte0, W, of_bytes, is_u8 in *. cbn [val_of rev app le_val].
  change 0xff with (Z.ones 8). rewrite !Z.land_ones, !Z.shiftr_div_pow2 by lia. Z.div_mod_to_equations. lia.
Qed.

Lemma byte3_W a b c d : is_u8 a -> is_u8 b -> is_u8 c -> is_u8 d -> byte3 (W a b c d) = a.
Proof. intros Ha Hb Hc Hd. by destruct (W_bytes a b c d Ha Hb Hc Hd) as (? & ? & ? & ?). Qed.
Lemma byte2_W a b c d : is_u8 a -> is_u8 b -> is_u8 c -> is_u8 d -> byte2 (W a b c d) = b.
Proof. intros Ha Hb Hc Hd. by destruct (W_bytes a b c d Ha Hb Hc Hd) as (? & ? & ? & ?). Qed.
Lemma byte1_W a b c d : is_u8 a -> is_u8 b -> is_u8 c -> is_u8 d -> byte1 (W a b c d) = c.
Proof. intros Ha Hb Hc Hd. by destruct (W_bytes a b c d Ha Hb Hc Hd) as (? & ? & ? & ?). Qed.
Lemma byte0_W a b c d : is_u8 a -> is_u8 b -> is_u8 c -> is_u8 d -> byte0 (W a b c d) = d.
Proof. intros Ha Hb Hc Hd. by destruct (W_bytes a b c d Ha Hb Hc Hd) as (? & ? & ? & ?). Qed.
Hint Rewrite byte3_W byte2_W byte1_W byte0_W using done : words.

Lemma W_split v : is_u32 v -> exists a b c d, v = W a b c d /\ is_u8 a /\ is_u8 b /\ is_u8 c /\ is_u8 d.
Proof.
  intros Hv. exists (v / 2 ^ 24), ((v / 2 ^ 16) mod 256), ((v / 2 ^ 8) mod 256), (v mod 256).
  unfold W, of_bytes, is_u8, is_u32 in *. cbn [val_of rev app le_val]. Z.div_mod_to_equations. lia.
Qed.

Lemma GETU32_W a b c d r : is_u8 b -> is_u8 c -> is_u8 d -> GETU32 (a :: b :: c :: d :: r) = Some (W a b c d).
Proof. intros. cbn [GETU32]. by rewrite W_xor_form. Qed.

Lemma word_bytes_W a b c d : is_u8 a -> is_u8 b -> is_u8 c -> is_u8 d -> word_bytes (W a b c d) = [a; b; c; d].
Proof.
  intros. unfold word_bytes, W, of_bytes, val_of, mem_of. rewrite <- (rev_involutive [a; b; c; d]) at 2. f_equal.
  apply (le_bytes_le_val (rev [a; b; c; d])). cbn [rev app]. by repeat (apply Forall_cons; split).
Qed.

Lemma PUTU32_bytes v : is_u32 v -> PUTU32 v = word_bytes v.
Proof.
  intros Hv. destruct (W_split v Hv) as (a & b & c & d & -> & Ha & Hb & Hc & Hd).
  rewrite word_bytes_W by done. unfold PUTU32. destruct (W_bytes a b c d Ha Hb Hc Hd) as (E3 & E2 & E1 & E0).
  assert (forall x, u8 x = Z.land x 0xff) as Eu by (intros; change 0xff with (Z.ones 8); by rewrite Z.land_ones).
  rewrite !Eu. unfold byte3, byte2, byte1, byte0 in *. rewrite E3, E2, E1, E0, <- Eu. by rewrite (u8_id a Ha).
Qed.

(** ** The tables *)
Definition oeq (o : option Z) (v : Z) : bool := match o with Some x => x =? v | None => false end.

Lemma oeq_spec o v : oeq o v = true -> o = Some v.
Proof. destruct o as [x|]; [|done]. cbn. by intros ->%Z.eqb_eq. Qed.

Lemma Te_spec x : is_u8 x -> let S := sbox x in
  tab Te0 x = Some (W (gmul 2 S) S S (gmul 3 S)) /\ tab Te1 x = Some (W (gmul 3 S) (gmul 2 S) S S) /\
  tab Te2 x = Some (W S (gmul 3 S) (gmul 2 S) S) /\ tab Te3 x = Some (W S S (gmul 3 S) (gmul 2 S)).
Proof.
  intros Hx S.
  pose proof (byte_check (fun x => let S := sbox x in
    oeq (tab Te0 x) (W (gmul 2 S) S S (gmul 3 S)) && oeq (tab Te1 x) (W (gmul 3 S) (gmul 2 S) S S) &&
    oeq (tab Te2 x) (W S (gmul 3 S) (gmul 2 S) S) && oeq (tab Te3 x) (W S S (gmul 3 S) (gmul 2 S)))
    ltac:(vm_compute; reflexivity) x Hx) as H.
  cbv beta zeta in H. rewrite !andb_true_iff in H. destruct H as [[[H0 H1] H2] H3].
  split_and!; by apply oeq_spec.
Qed.

Lemma Td_spec x : is_u8 x -> let S := inv_sbox x in
  tab Td0 x = Some (W (gmul 14 S) (gmul 9 S) (gmul 13 S) (gmul 11 S)) /\
  tab Td1 x = Some (W (gmul 11 S) (gmul 14 S) (gmul 9 S) (gmul 13 S)) /\
  tab Td2 x = Some (W (gmul 13 S) (gmul 11 S) (gmul 14 S) (gmul 9 S)) /\
  tab Td3 x = Some (W (gmul 9 S) (gmul 13 S) (gmul 11 S) (gmul 14 S)) /\ tab Td4 x = Some S.
Proof.
  intros Hx S.
  pose proof (byte_check (fun x => let S := inv_sbox x in
    oeq (tab Td0 x) (W (gmul 14 S) (gmul 9 S) (gmul 13 S) (gmul 11 S)) &&
    oeq (tab Td1 x) (W (gmul 11 S) (gmul 14 S) (gmul 9 S) (gmul 13 S)) &&
    oeq (tab Td2 x) (W (gmul 13 S) (gmul 11 S) (gmul 14 S) (gmul 9 S)) &&
    oeq (tab Td3 x) (W (gmul 9 S) (gmul 13 S) (gmul 11 S) (gmul 14 S)) && oeq (tab Td4 x) S)
    ltac:(vm_compute; reflexivity) x Hx) as H.
  cbv beta zeta in H. rewrite !andb_true_iff in H. destruct H as [[[[H0 H1] H2] H3] H4].
  split_and!; by apply oeq_spec.
Qed.

(** Selecting a byte of a word with a mask. *)
Lemma W_masks a b c d : is_u8 a -> is_u8 b -> is_u8 c -> is_u8 d ->
  Z.land (W a b c d) 0xff000000 = W a 0 0 0 /\ Z.land (W a b c d) 0x00ff0000 = W 0 b 0 0 /\
  Z.land (W a b c d) 0x0000ff00 = W 0 0 c 0 /\ Z.land (W a b c d) 0x000000ff = W 0 0 0 d.
Proof.
  intros Ha Hb Hc Hd. destruct (W_bytes a b c d Ha Hb Hc Hd) as (E3 & E2 & E1 & E0).
  assert (forall v m n, 0 <= n -> Z.land v (Z.shiftl m n) = Z.shiftl (Z.land (Z.shiftr v n) m) n) as E.
  { intros v m n Hn. apply Z.bits_inj'. intros i Hi. rewrite Z.land_spec, !Z.shiftl_spec by lia. destruct (Z.ltb_spec i n).
    - rewrite !(testbit_neg _ (i - n)) by lia. apply andb_false_r.
    - rewrite Z.land_spec, Z.shiftr_spec by lia. by replace (i - n + n) with i by lia. }
  change 0xff000000 with (Z.shiftl 0xff 24). change 0x00ff0000 with (Z.shiftl 0xff 16).
  change 0x0000ff00 with (Z.shiftl 0xff 8). rewrite !E by lia. unfold byte3, byte2, byte1, byte0 in *. rewrite E3, E2, E1, E0.
  replace (Z.land a 0xff) with a by (change 0xff with (Z.ones 8); rewrite Z.land_ones by lia; symmetry; by apply u8_id).
  rewrite !Z.shiftl_mul_pow2 by lia. unfold W, of_bytes. cbn [val_of rev app le_val]. split_and!; lia.
Qed.

(** ** States *)
Definition words_of (b : list Z) : words4 :=
  match b with
  | [b0; b1; b2; b3; b4; b5; b6; b7; b8; b9; b10; b11; b12; b13; b14; b15] =>
      (W b0 b1 b2 b3, W b4 b5 b6 b7, W b8 b9 b10 b11, W b12 b13 b14 b15)
  | _ => (0, 0, 0, 0)
  end.

Lemma store_words b : is_block b -> store_block (words_of b) = b.
Proof.
  intros Hb. block b Hb. cbn [words_of store_block].
  assert (forall a b c d, is_u8 a -> is_u8 b -> is_u8 c -> is_u8 d -> PUTU32 (W a b c d) = [a; b; c; d]) as E.
  { intros a b c d Ha Hb Hc Hd. rewrite PUTU32_bytes; [by apply word_bytes_W|].
    unfold W, of_bytes, is_u32, is_u8 in *. cbn [val_of rev app le_val]. lia. }
  by rewrite !E by done.
Qed.

(** The round key at the start of a schedule, as words and as bytes. *)
Lemma round_key_words rk : words rk -> (4 <= length rk)%nat -> exists k,
  is_block k /\ round_key rk = k /\
  rk !! 0%nat = Some (words_of k).1.1.1 /\ rk !! 1%nat = Some (words_of k).1.1.2 /\
  rk !! 2%nat = Some (words_of k).1.2 /\ rk !! 3%nat = Some (words_of k).2.
Proof.
  intros Hw Hl. do 4 (destruct rk as [|? rk]; [exfalso; cbn in Hl; lia|]). do 4 (apply Forall_cons in Hw as [? Hw]).
  repeat match goal with H : is_u32 _ |- _ => apply W_split in H as (? & ? & ? & ? & -> & ? & ? & ? & ?) end.
  eexists. split; [|split; [unfold round_key; cbn [take flat_map app]; rewrite !word_bytes_W by done; reflexivity|]].
  - split; [done|]. by repeat (apply Forall_cons; split).
  - done.
Qed.

(** ** Rounds *)
Lemma products x : is_u8 x ->
  is_u8 (gmul 2 x) /\ is_u8 (gmul 3 x) /\ is_u8 (gmul 9 x) /\ is_u8 (gmul 11 x) /\ is_u8 (gmul 13 x) /\ is_u8 (gmul 14 x).
Proof. intros. split_and!; (apply gmul_byte; [cbn; tauto|done]). Qed.

(** The bytes of products and sums. *)
Ltac bytes_of x Hx := destruct (products x Hx) as (? & ? & ? & ? & ? & ?).

Lemma sub_bytes_spec a b c d : is_u8 a -> is_u8 b -> is_u8 c -> is_u8 d ->
  sub_bytes a b c d = Some (W (sbox a) (sbox b) (sbox c) (sbox d)).
Proof.
  intros Ha Hb Hc Hd. unfold sub_bytes.
  destruct (Te_spec a Ha) as (_ & _ & -> & _), (Te_spec b Hb) as (_ & _ & _ & ->),
    (Te_spec c Hc) as (-> & _), (Te_spec d Hd) as (_ & -> & _).
  pose proof (sbox_byte a Ha). pose proof (sbox_byte b Hb). pose proof (sbox_byte c Hc). pose proof (sbox_byte d Hd).
  bytes_of (sbox a) H. bytes_of (sbox b) H0. bytes_of (sbox c) H1. bytes_of (sbox d) H2. assert (is_u8 0) by done.
  destruct (W_masks (sbox a) (gmul 3 (sbox a)) (gmul 2 (sbox a)) (sbox a)) as (-> & _); [done..|].
  destruct (W_masks (sbox b) (sbox b) (gmul 3 (sbox b)) (gmul 2 (sbox b))) as (_ & -> & _); [done..|].
  destruct (W_masks (gmul 2 (sbox c)) (sbox c) (sbox c) (gmul 3 (sbox c))) as (_ & _ & -> & _); [done..|].
  destruct (W_masks (gmul 3 (sbox d)) (gmul 2 (sbox d)) (sbox d) (sbox d)) as (_ & _ & _ & ->); [done..|].
  rewrite !W_lxor by byte_sum. by rewrite !Z.lxor_0_r, !Z.lxor_0_l.
Qed.

(** A column of the state and the round key. *)
Definition col_xor (l k : list Z) : Z := of_bytes (AddRoundKey l k).

Lemma te_word_spec a a1 a2 a3 b b1 b2 b3 c c1 c2 c3 d d1 d2 d3 k0 k1 k2 k3 :
  bytes [a; a1; a2; a3] -> bytes [b; b1; b2; b3] -> bytes [c; c1; c2; c3] -> bytes [d; d1; d2; d3] ->
  bytes [k0; k1; k2; k3] ->
  te_word (W a a1 a2 a3) (W b b1 b2 b3) (W c c1 c2 c3) (W d d1 d2 d3) (W k0 k1 k2 k3) =
  Some (col_xor (mix_column (sbox a) (sbox b1) (sbox c2) (sbox d3)) [k0; k1; k2; k3]).
Proof.
  intros Ha Hb Hc Hd Hk. repeat match goal with H : Forall _ (_ :: _) |- _ => apply Forall_cons in H as [? H] end.
  unfold te_word.
  autorewrite with words.
  destruct (Te_spec a ltac:(done)) as (-> & _), (Te_spec b1 ltac:(done)) as (_ & -> & _),
    (Te_spec c2 ltac:(done)) as (_ & _ & -> & _), (Te_spec d3 ltac:(done)) as (_ & _ & _ & ->).
  pose proof (sbox_byte a ltac:(done)) as Sa. pose proof (sbox_byte b1 ltac:(done)) as Sb.
  pose proof (sbox_byte c2 ltac:(done)) as Sc. pose proof (sbox_byte d3 ltac:(done)) as Sd.
  bytes_of (sbox a) Sa. bytes_of (sbox b1) Sb. bytes_of (sbox c2) Sc. bytes_of (sbox d3) Sd.
  rewrite !W_lxor by byte_sum. unfold col_xor, AddRoundKey, mix_column, xor4, W. cbn [zip_with]. reflexivity.
Qed.

Lemma te_last_spec a a1 a2 a3 b b1 b2 b3 c c1 c2 c3 d d1 d2 d3 k0 k1 k2 k3 :
  bytes [a; a1; a2; a3] -> bytes [b; b1; b2; b3] -> bytes [c; c1; c2; c3] -> bytes [d; d1; d2; d3] ->
  bytes [k0; k1; k2; k3] ->
  te_last (W a a1 a2 a3) (W b b1 b2 b3) (W c c1 c2 c3) (W d d1 d2 d3) (W k0 k1 k2 k3) =
  Some (col_xor [sbox a; sbox b1; sbox c2; sbox d3] [k0; k1; k2; k3]).
Proof.
  intros Ha Hb Hc Hd Hk. repeat match goal with H : Forall _ (_ :: _) |- _ => apply Forall_cons in H as [? H] end.
  unfold te_last.
  autorewrite with words.
  rewrite sub_bytes_spec by done. rewrite W_lxor by (done || by apply sbox_byte). reflexivity.
Qed.

Lemma ShiftRows_eq b0 b1 b2 b3 b4 b5 b6 b7 b8 b9 b10 b11 b12 b13 b14 b15 :
  ShiftRows [b0; b1; b2; b3; b4; b5; b6; b7; b8; b9; b10; b11; b12; b13; b14; b15] =
  [b0; b5; b10; b15; b4; b9; b14; b3; b8; b13; b2; b7; b12; b1; b6; b11].
Proof. reflexivity. Qed.

Ltac byte_list := repeat (apply Forall_cons; split); done.

(** A round of the code is a round of the standard. *)
Lemma enc_round_spec b rk : is_block b -> words rk -> (4 <= length rk)%nat ->
  enc_words te_word (words_of b) rk = Some (words_of (AddRoundKey (MixColumns (ShiftRows (SubBytes b))) (round_key rk))).
Proof.
  intros Hb Hw Hl. destruct (round_key_words rk Hw Hl) as (k & Hk & -> & E0 & E1 & E2 & E3).
  block b Hb. block k Hk. cbn [words_of fst snd] in *. unfold enc_words. rewrite E0, E1, E2, E3.
  rewrite !te_word_spec by byte_list. unfold SubBytes. cbn [map]. rewrite ShiftRows_eq.
  cbv [MixColumns columns mix_column AddRoundKey zip_with app words_of col_xor W]. reflexivity.
Qed.

Lemma enc_last_spec b rk : is_block b -> words rk -> (4 <= length rk)%nat ->
  enc_words te_last (words_of b) rk = Some (words_of (AddRoundKey (ShiftRows (SubBytes b)) (round_key rk))).
Proof.
  intros Hb Hw Hl. destruct (round_key_words rk Hw Hl) as (k & Hk & -> & E0 & E1 & E2 & E3).
  block b Hb. block k Hk. cbn [words_of fst snd] in *. unfold enc_words. rewrite E0, E1, E2, E3.
  rewrite !te_last_spec by byte_list. unfold SubBytes. cbn [map]. rewrite ShiftRows_eq.
  cbv [MixColumns columns mix_column AddRoundKey zip_with app words_of col_xor W]. reflexivity.
Qed.

(** ** The loop over the rounds, for both directions *)
Fixpoint iter_rounds (step : list Z -> list Z -> list Z) (n : nat) (s w : list Z) : list Z :=
  match n with
  | O => s
  | S n' => iter_rounds step n' (step s w) (drop 4 w)
  end.

Section Loop.
Context (round : words4 -> list Z -> option words4) (step : list Z -> list Z -> list Z).
Context (Hround : forall s rk, is_block s -> words rk -> (4 <= length rk)%nat ->
  round (words_of s) rk = Some (words_of (step s rk)) /\ is_block (step s rk)).

Lemma rounds_loop_spec r s rk : is_block s -> words rk -> (8 * S r <= length rk)%nat ->
  rounds_loop round (S r) (words_of s) rk =
    Some (words_of (iter_rounds step (2 * r + 1) s (drop 4 rk)), drop (8 * S r) rk) /\
  is_block (iter_rounds step (2 * r + 1) s (drop 4 rk)).
Proof.
  revert s rk. induction r as [|r IH]; intros s rk Hs Hw Hl.
  - cbn [rounds_loop]. destruct (Hround s (drop 4 rk) Hs) as [-> Hb]; [by apply Forall_drop|rewrite length_drop; lia|]. done.
  - remember (S r) as r' eqn:Er. cbn [rounds_loop].
    destruct (Hround s (drop 4 rk) Hs) as [-> Hb]; [by apply Forall_drop|rewrite length_drop; lia|].
    rewrite Er at 1. cbv iota. destruct (Hround (step s (drop 4 rk)) (drop 8 rk) Hb) as [-> Hb']; [by apply Forall_drop|rewrite length_drop; lia|].
    subst r'. replace (2 * S r + 1)%nat with (S (S (2 * r + 1))) by lia. cbn [iter_rounds]. rewrite !drop_drop.
    destruct (IH (step (step s (drop 4 rk)) (drop 8 rk)) (drop 8 rk) Hb') as [-> Hb'']; [by apply Forall_drop|rewrite length_drop; lia|].
    rewrite !drop_drop in *. replace (8 + 8 * S r)%nat with (8 * S (S r))%nat by lia. done.
Qed.
End Loop.

Lemma load_block_spec b rk : is_block b -> words rk -> (4 <= length rk)%nat ->
  load_block b rk = Some (words_of (AddRoundKey b (round_key rk))).
Proof.
  intros Hb Hw Hl. destruct (round_key_words rk Hw Hl) as (k & Hk & -> & E0 & E1 & E2 & E3).
  block b Hb. block k Hk. cbn [words_of fst snd] in *. unfold load_block. rewrite E0, E1, E2, E3.
  cbn [drop]. rewrite !GETU32_W by done. rewrite !W_lxor by done. reflexivity.
Qed.

Lemma round_key_block rk : words rk -> (4 <= length rk)%nat -> is_block (round_key rk).
Proof. intros Hw Hl. by destruct (round_key_words rk Hw Hl) as (k & Hk & -> & _). Qed.

Definition enc_step (s w : list Z) : list Z := AddRoundKey (MixColumns (ShiftRows (SubBytes s))) (round_key w).

Lemma cipher_rounds_iter n s w :
  cipher_rounds n s w = AddRoundKey (ShiftRows (SubBytes (iter_rounds enc_step n s w))) (round_key (drop (4 * n) w)).
Proof.
  revert s w. induction n as [|n IH]; intros s w; cbn [cipher_rounds iter_rounds]; [by rewrite drop_0|].
  rewrite IH, drop_drop. by replace (4 + 4 * n)%nat with (4 * S n)%nat by lia.
Qed.

(** A key whose schedule has the words of [r + 1] pairs of rounds. *)
Definition key_for (r : nat) (key : AES_KEY) : Prop :=
  rounds key = 2 * Z.of_nat (S r) /\ words (rd_key key) /\ (4 * (2 * S r + 1) <= length (rd_key key))%nat.

Lemma key_rounds r key : key_for r key -> Z.to_nat (Z.shiftr (rounds key) 1) = S r.
Proof. intros (-> & _). rewrite Z.shiftr_div_pow2 by lia. rewrite Z.mul_comm, Z.div_mul by lia. lia. Qed.

Lemma AES_encrypt_spec r key b : key_for r key -> is_block b ->
  AES_encrypt b key = Some (Cipher (2 * S r) (rd_key key) b) /\ is_block (Cipher (2 * S r) (rd_key key) b).
Proof.
  intros Hk Hb. unfold AES_encrypt. rewrite (key_rounds r key Hk). destruct Hk as (_ & Hw & Hl).
  rewrite load_block_spec by (done || lia).
  assert (is_block (AddRoundKey b (round_key (rd_key key)))) as Hs
    by (apply AddRoundKey_block; [done|apply round_key_block; done || lia]).
  destruct (rounds_loop_spec (enc_words te_word) enc_step) with (r := r) (s := AddRoundKey b (round_key (rd_key key))) (rk := rd_key key)
    as [E Hi]; [|done|done|lia|].
  { intros s rk H1 H2 H3. split; [by apply enc_round_spec|].
    apply AddRoundKey_block; [by apply MixColumns_block, ShiftRows_block, SubBytes_block|by apply round_key_block]. }
  rewrite E. clear E. assert (words (drop (8 * S r) (rd_key key))) as Hw' by (by apply Forall_drop).
  assert (4 <= length (drop (8 * S r) (rd_key key)))%nat as Hl' by (rewrite length_drop; lia).
  rewrite enc_last_spec by done. unfold Cipher. rewrite cipher_rounds_iter. replace (2 * S r - 1)%nat with (2 * r + 1)%nat by lia.
  rewrite drop_drop. replace (4 + 4 * (2 * r + 1))%nat with (8 * S r)%nat by lia.
  assert (is_block (AddRoundKey (ShiftRows (SubBytes (iter_rounds enc_step (2 * r + 1) (AddRoundKey b (round_key (rd_key key)))
    (drop 4 (rd_key key))))) (round_key (drop (8 * S r) (rd_key key))))) as Hf
    by (apply AddRoundKey_block; [by apply ShiftRows_block, SubBytes_block|by apply round_key_block]).
  by rewrite store_words.
Qed.

(** ** The key schedule *)
Lemma sbox_word a b c d : is_u8 a -> is_u8 b -> is_u8 c -> is_u8 d ->
  SubWord (W a b c d) = W (sbox a) (sbox b) (sbox c) (sbox d) /\ RotWord (W a b c d) = W b c d a.
Proof. intros. unfold SubWord, RotWord. by rewrite word_bytes_W by done. Qed.

Lemma sub_rot_spec v : is_u32 v -> sub_rot v = Some (SubWord (RotWord v)).
Proof.
  intros (a & b & c & d & -> & Ha & Hb & Hc & Hd)%W_split. unfold sub_rot. autorewrite with words.
  rewrite sub_bytes_spec by done. destruct (sbox_word a b c d Ha Hb Hc Hd) as [_ ->].
  by destruct (sbox_word b c d a Hb Hc Hd Ha) as [-> _].
Qed.

Lemma sub_word_spec v : is_u32 v -> sub_word v = Some (SubWord v).
Proof.
  intros (a & b & c & d & -> & Ha & Hb & Hc & Hd)%W_split. unfold sub_word. autorewrite with words.
  rewrite sub_bytes_spec by done. by destruct (sbox_word a b c d Ha Hb Hc Hd) as [-> _].
Qed.

Lemma rcon_spec i : (i < 10)%nat -> rcon !! i = Some (Rcon (S i)).
Proof. intros Hi. do 10 (destruct i as [|i]; [reflexivity|]). lia. Qed.

Lemma W_u32 a b c d : is_u8 a -> is_u8 b -> is_u8 c -> is_u8 d -> is_u32 (W a b c d).
Proof. intros. unfold W, of_bytes, is_u32, is_u8 in *. cbn [val_of rev app le_val]. lia. Qed.

Lemma u32_xor a b : is_u32 a -> is_u32 b -> is_u32 (Z.lxor a b).
Proof.
  intros (a0 & a1 & a2 & a3 & -> & ? & ? & ? & ?)%W_split (b0 & b1 & b2 & b3 & -> & ? & ? & ? & ?)%W_split.
  rewrite W_lxor by done. apply W_u32; by apply byte_lxor.
Qed.

Lemma SubWord_u32 v : is_u32 v -> is_u32 (SubWord v).
Proof.
  intros (a & b & c & d & -> & Ha & Hb & Hc & Hd)%W_split. destruct (sbox_word a b c d Ha Hb Hc Hd) as [-> _].
  apply W_u32; by apply sbox_byte.
Qed.

Lemma RotWord_u32 v : is_u32 v -> is_u32 (RotWord v).
Proof.
  intros (a & b & c & d & -> & Ha & Hb & Hc & Hd)%W_split. destruct (sbox_word a b c d Ha Hb Hc Hd) as [_ ->]. by apply W_u32.
Qed.

Lemma Rcon_u32 i : (i < 10)%nat -> is_u32 (Rcon (S i)).
Proof. intros Hi. do 10 (destruct i as [|i]; [by vm_compute|]). lia. Qed.

Lemma nth_word w i : words w -> (i < length w)%nat -> w !! i = Some (nth i w 0) /\ is_u32 (nth i w 0).
Proof.
  intros Hw Hi. destruct (nth_lookup_or_length w i 0) as [E|]; [|lia]. split; [done|].
  rewrite Forall_lookup in Hw. by eapply Hw.
Qed.

(** Writing the next word of the schedule. *)
Lemma set_next_word w x junk d v : d = length w -> rk_set d v (w ++ x :: junk) = Some ((w ++ [v]) ++ junk).
Proof.
  intros ->. unfold rk_set. rewrite list_lookup_middle by done. rewrite insert_app_r_alt by lia. rewrite Nat.sub_diag.
  cbn [insert list_insert]. by rewrite <- app_assoc.
Qed.

Section NextWord.
Context (Nk : nat) (w : list Z) (x : Z) (junk : list Z) (d a b : nat).
Context (HNk : (1 <= Nk)%nat) (Hw : words w) (Hd : d = length w) (Ha : (a + Nk)%nat = d) (Hb : (b + 1)%nat = d).

Lemma get_word i : (i < length w)%nat -> (w ++ x :: junk) !! i = Some (nth i w 0).
Proof. intros Hi. rewrite lookup_app_l by done. by apply nth_word. Qed.

Lemma rk_first_spec i : (length w = Nk * S i)%nat -> (i < 10)%nat ->
  rk_first d a b i (w ++ x :: junk) = Some ((w ++ [next_word Nk w]) ++ junk) /\ is_u32 (next_word Nk w).
Proof.
  intros Hl Hi. unfold rk_first. rewrite !get_word by lia. destruct (nth_word w b Hw) as [_ Hv]; [lia|].
  destruct (nth_word w a Hw) as [_ Hv']; [lia|].
  rewrite (sub_rot_spec _ Hv), (rcon_spec i Hi), set_next_word by done. unfold next_word. rewrite Hl, Nat.mul_comm, Nat.Div0.mod_mul, Nat.div_mul by lia.
  cbn [Nat.eqb]. replace (S i * Nk - 1)%nat with b by lia. replace (S i * Nk - Nk)%nat with a by lia.
  rewrite Z.lxor_assoc. split; [done|]. repeat apply u32_xor; [done|by apply SubWord_u32, RotWord_u32|by apply Rcon_u32].
Qed.

Lemma offset_mod i k : (length w = Nk * S i + k)%nat -> (k < Nk)%nat -> (length w mod Nk)%nat = k.
Proof. intros -> Hk. rewrite Nat.add_comm, Nat.mul_comm, Nat.Div0.mod_add. by apply Nat.mod_small. Qed.

Lemma rk_xor_spec i k : (length w = Nk * S i + k)%nat -> (0 < k < Nk)%nat -> (Nk <= 6 \/ k <> 4)%nat ->
  rk_xor d a b (w ++ x :: junk) = Some ((w ++ [next_word Nk w]) ++ junk) /\ is_u32 (next_word Nk w).
Proof.
  intros Hl Hk H4. unfold rk_xor. rewrite !get_word by lia. destruct (nth_word w b Hw) as [_ Hv]; [lia|].
  destruct (nth_word w a Hw) as [_ Hv']; [lia|]. rewrite set_next_word by done. unfold next_word. rewrite (offset_mod i k Hl) by lia.
  rewrite (proj2 (Nat.eqb_neq k 0)) by lia.
  replace (Nat.ltb 6 Nk && Nat.eqb k 4) with false by (destruct (Nat.ltb_spec 6 Nk), (Nat.eqb_spec k 4); done || lia).
  replace (length w - 1)%nat with b by lia. replace (length w - Nk)%nat with a by lia. split; [done|by apply u32_xor].
Qed.

Lemma rk_sub_spec i : (length w = Nk * S i + 4)%nat -> (6 < Nk)%nat ->
  rk_sub d a b (w ++ x :: junk) = Some ((w ++ [next_word Nk w]) ++ junk) /\ is_u32 (next_word Nk w).
Proof.
  intros Hl H6. unfold rk_sub. rewrite !get_word by lia. destruct (nth_word w b Hw) as [_ Hv]; [lia|].
  destruct (nth_word w a Hw) as [_ Hv']; [lia|]. rewrite (sub_word_spec _ Hv), set_next_word by done. unfold next_word.
  rewrite (offset_mod i 4 Hl), (proj2 (Nat.ltb_lt 6 Nk)) by lia. cbn [Nat.eqb andb].
  replace (length w - 1)%nat with b by lia. replace (length w - Nk)%nat with a by lia.
  split; [done|by apply u32_xor, SubWord_u32].
Qed.
End NextWord.

(** One more word of the schedule: the memory is the schedule so far and junk. *)
Lemma words_snoc w v : words w -> is_u32 v -> words (w ++ [v]).
Proof. intros Hw Hv. apply Forall_app_2; [done|]. by apply Forall_singleton. Qed.

Ltac grown H :=
  let E := fresh "E" in let U := fresh "U" in let w' := fresh "w" in let Hw' := fresh "Hw" in let Hl' := fresh "Hl" in
  destruct H as [E U]; rewrite E; clear E;
  match type of U with is_u32 (next_word ?Nk ?w) =>
    match goal with Hw : words w |- _ => pose proof (words_snoc w _ Hw U) as Hw'; clear U Hw end;
    assert (length (w ++ [next_word Nk w]) = S (length w)) as Hl' by (rewrite length_app; cbn [length]; lia);
    set (w' := w ++ [next_word Nk w]) in *; clearbody w'
  end.

Ltac grow Nk i k :=
  match goal with
  | Hw : words ?w |- context [rk_first ?d ?a ?b ?j (?w ++ ?x :: ?junk)] =>
      grown (rk_first_spec Nk w x junk d a b ltac:(lia) Hw ltac:(lia) ltac:(lia) ltac:(lia) i ltac:(lia) ltac:(lia))
  | Hw : words ?w |- context [rk_xor ?d ?a ?b (?w ++ ?x :: ?junk)] =>
      grown (rk_xor_spec Nk w x junk d a b ltac:(lia) Hw ltac:(lia) ltac:(lia) ltac:(lia) i k ltac:(lia) ltac:(lia) ltac:(lia))
  | Hw : words ?w |- context [rk_sub ?d ?a ?b (?w ++ ?x :: ?junk)] =>
      grown (rk_sub_spec Nk w x junk d a b ltac:(lia) Hw ltac:(lia) ltac:(lia) ltac:(lia) i ltac:(lia) ltac:(lia))
  end.

Lemma loop128_spec fuel i w junk :
  (fuel + i = 10)%nat -> (1 <= fuel)%nat -> words w -> (length w = 4 * S i)%nat -> (4 * fuel <= length junk)%nat ->
  loop128 fuel i (4 * i) (w ++ junk) = Some (expand (4 * fuel) 4 w ++ drop (4 * fuel) junk) /\ words (expand (4 * fuel) 4 w).
Proof.
  revert i w junk. induction fuel as [|fuel IH]; intros i w junk Hf H1 Hw Hl Hj; [lia|]. cbn [loop128].
  do 4 (destruct junk as [|? junk]; [exfalso; cbn in Hj; lia|]). cbn [length] in Hj.
  replace (4 * S fuel)%nat with (S (S (S (S (4 * fuel))))) by lia. cbn [expand drop].
  grow 4%nat i 0%nat. grow 4%nat i 1%nat. grow 4%nat i 2%nat. grow 4%nat i 3%nat.
  destruct (Nat.eqb_spec (S i) 10) as [E|E].
  - replace fuel with 0%nat by lia. cbn [Nat.mul expand drop]. by rewrite drop_0.
  - replace (4 * i + 4)%nat with (4 * S i)%nat by lia. apply IH; done || lia.
Qed.

Lemma loop192_spec fuel i w junk :
  (fuel + i = 8)%nat -> (1 <= fuel)%nat -> words w -> (length w = 6 * S i)%nat -> (6 * fuel - 2 <= length junk)%nat ->
  loop192 fuel i (6 * i) (w ++ junk) = Some (expand (6 * fuel - 2) 6 w ++ drop (6 * fuel - 2) junk) /\
  words (expand (6 * fuel - 2) 6 w).
Proof.
  revert i w junk. induction fuel as [|fuel IH]; intros i w junk Hf H1 Hw Hl Hj; [lia|]. cbn [loop192].
  do 4 (destruct junk as [|? junk]; [exfalso; cbn in Hj; lia|]). cbn [length] in Hj.
  destruct (Nat.eqb_spec (S i) 8) as [E|E].
  - replace (6 * S fuel - 2)%nat with 4%nat by lia. cbn [expand drop].
    grow 6%nat i 0%nat. grow 6%nat i 1%nat. grow 6%nat i 2%nat. grow 6%nat i 3%nat. by rewrite drop_0.
  - do 2 (destruct junk as [|? junk]; [exfalso; cbn in Hj; lia|]). cbn [length] in Hj.
    replace (6 * S fuel - 2)%nat with (S (S (S (S (S (S (6 * fuel - 2))))))) by lia. cbn [expand drop].
    grow 6%nat i 0%nat. grow 6%nat i 1%nat. grow 6%nat i 2%nat. grow 6%nat i 3%nat. grow 6%nat i 4%nat. grow 6%nat i 5%nat.
    replace (6 * i + 6)%nat with (6 * S i)%nat by lia. apply IH; done || lia.
Qed.

Lemma loop256_spec fuel i w junk :
  (fuel + i = 7)%nat -> (1 <= fuel)%nat -> words w -> (length w = 8 * S i)%nat -> (8 * fuel - 4 <= length junk)%nat ->
  loop256 fuel i (8 * i) (w ++ junk) = Some (expand (8 * fuel - 4) 8 w ++ drop (8 * fuel - 4) junk) /\
  words (expand (8 * fuel - 4) 8 w).
Proof.
  revert i w junk. induction fuel as [|fuel IH]; intros i w junk Hf H1 Hw Hl Hj; [lia|]. cbn [loop256].
  do 4 (destruct junk as [|? junk]; [exfalso; cbn in Hj; lia|]). cbn [length] in Hj.
  destruct (Nat.eqb_spec (S i) 7) as [E|E].
  - replace (8 * S fuel - 4)%nat with 4%nat by lia. cbn [expand drop].
    grow 8%nat i 0%nat. grow 8%nat i 1%nat. grow 8%nat i 2%nat. grow 8%nat i 3%nat. by rewrite drop_0.
  - do 4 (destruct junk as [|? junk]; [exfalso; cbn in Hj; lia|]). cbn [length] in Hj.
    replace (8 * S fuel - 4)%nat with (S (S (S (S (S (S (S (S (8 * fuel - 4))))))))) by lia. cbn [expand drop].
    grow 8%nat i 0%nat. grow 8%nat i 1%nat. grow 8%nat i 2%nat. grow 8%nat i 3%nat.
    grow 8%nat i 4%nat. grow 8%nat i 5%nat. grow 8%nat i 6%nat. grow 8%nat i 7%nat.
    replace (8 * i + 8)%nat with (8 * S i)%nat by lia. apply IH; done || lia.
Qed.

Lemma length_expand n Nk w : length (expand n Nk w) = (length w + n)%nat.
Proof.
  revert w. induction n as [|n IH]; intros w; cbn [expand]; [lia|]. rewrite IH, length_app. cbn [length]. lia.
Qed.

Lemma length_key_words n key : length (key_words n key) = n.
Proof. unfold key_words. by rewrite length_map, length_seq. Qed.

Lemma GETU32_word i key : bytes key -> (4 * S i <= length key)%nat ->
  GETU32 (drop (4 * i) key) = Some (word BE key i) /\ is_u32 (word BE key i).
Proof.
  intros Hb Hl. unfold word. pose proof (Forall_drop _ (4 * i) _ Hb) as Hd.
  assert (4 <= length (drop (4 * i) key))%nat as Hg by (rewrite length_drop; lia).
  destruct (drop (4 * i) key) as [|c0 [|c1 [|c2 [|c3 c]]]]; cbn [length] in Hg; [lia..|].
  do 4 (apply Forall_cons in Hd as [? Hd]). rewrite GETU32_W by done. split; [done|]. by apply W_u32.
Qed.

Lemma load_key_spec n a key junk :
  bytes key -> (4 * (a + n) <= length key)%nat -> (n <= length junk)%nat ->
  load_key n a key (key_words a key ++ junk) = Some (key_words (a + n) key ++ drop n junk).
Proof.
  revert a junk. induction n as [|n IH]; intros a junk Hb Hl Hj; cbn [load_key].
  - by rewrite drop_0, Nat.add_0_r.
  - destruct junk as [|x junk]; [cbn in Hj; lia|]. destruct (GETU32_word a key Hb) as [-> _]; [lia|].
    rewrite set_next_word by (by rewrite length_key_words).
    assert (key_words a key ++ [word BE key a] = key_words (S a) key) as ->
      by (unfold key_words; rewrite (seq_S a 0), map_app; done).
    rewrite IH by (done || cbn in Hj; lia). by replace (S a + n)%nat with (a + S n)%nat by lia.
Qed.

Lemma key_words_u32 n key : bytes key -> (4 * n <= length key)%nat -> words (key_words n key).
Proof.
  intros Hb Hl. unfold key_words. apply Forall_map, List.Forall_forall. intros i Hi. apply in_seq in Hi.
  apply GETU32_word; [done|lia].
Qed.

(** The sizes of keys: bits, words of the key, rounds. *)
Definition aes_size (bits : Z) (Nk Nr : nat) : Prop :=
  (bits = 128 /\ Nk = 4%nat /\ Nr = 10%nat) \/ (bits = 192 /\ Nk = 6%nat /\ Nr = 12%nat) \/
  (bits = 256 /\ Nk = 8%nat /\ Nr = 14%nat).

(** An array of 60 words, whatever is in it. *)
Definition key_array (key : AES_KEY) : Prop := length (rd_key key) = 60%nat /\ words (rd_key key).

Lemma expanded_key Nk Nr w junk :
  length w = Nk -> words (expand (4 * (Nr + 1) - Nk) Nk w) -> words junk -> (Nk <= 4 * (Nr + 1))%nat ->
  (length (w ++ junk) = 60)%nat -> (4 * (Nr + 1) <= 60)%nat ->
  let rk := expand (4 * (Nr + 1) - Nk) Nk w ++ drop (4 * (Nr + 1) - Nk) junk in
  length rk = 60%nat /\ words rk /\ take (4 * (Nr + 1)) rk = expand (4 * (Nr + 1) - Nk) Nk w.
Proof.
  intros Hl Hw Hj Hn H60 Hr rk. rewrite length_app in H60. split; [|split].
  - subst rk. rewrite length_app, length_expand, length_drop. lia.
  - apply Forall_app_2; [done|by apply Forall_drop].
  - subst rk. rewrite take_app_le by (rewrite length_expand; lia). apply take_ge. rewrite length_expand. lia.
Qed.

Lemma AES_set_encrypt_key_spec bits Nk Nr userKey key :
  aes_size bits Nk Nr -> bytes userKey -> (4 * Nk <= length userKey)%nat -> key_array key ->
  exists key', AES_set_encrypt_key userKey bits key = Some (0, key') /\ rounds key' = Z.of_nat Nr /\ key_array key' /\
    take (4 * (Nr + 1)) (rd_key key') = KeyExpansion Nk Nr userKey.
Proof.
  intros Hs Hb Hl [H60 Hw]. unfold AES_set_encrypt_key, KeyExpansion.
  assert (rd_key key = key_words 0 userKey ++ rd_key key) as E0 by done.
  assert (forall n, (4 * n <= length userKey)%nat -> (n <= 60)%nat -> let w := key_words n userKey ++ drop n (rd_key key) in
    words (key_words n userKey) /\ words (drop n (rd_key key)) /\ length w = 60%nat) as Hn.
  { intros n H1 H2 w. split; [by apply key_words_u32|]. split; [by apply Forall_drop|].
    subst w. rewrite length_app, length_key_words, length_drop. lia. }
  destruct Hs as [(-> & -> & ->)|[(-> & -> & ->)|(-> & -> & ->)]]; cbn [Z.eqb Pos.eqb negb andb];
    rewrite E0, (load_key_spec 4 0) by (done || lia).
  - destruct (Hn 4%nat ltac:(lia) ltac:(lia)) as (H1 & H2 & H3).
    destruct (loop128_spec 10 0 (key_words 4 userKey) (drop 4 (rd_key key))) as [El We];
      [lia|lia|done|by rewrite length_key_words|rewrite length_drop; lia|].
    change (4 * 0)%nat with 0%nat in El. cbn [Nat.add] in *. change (4 * 10)%nat with (4 * (10 + 1) - 4)%nat in El, We. rewrite El. eexists. split; [reflexivity|]. split; [done|].
    destruct (expanded_key 4 10 (key_words 4 userKey) (drop 4 (rd_key key))) as (L & Wd & T);
      [apply length_key_words|exact We|exact H2|lia|exact H3|lia|].
    split; [split; [exact L|exact Wd]|exact T].
  - rewrite (load_key_spec 2 4) by (done || rewrite ?length_drop; lia). rewrite drop_drop. cbn [Nat.add].
    destruct (Hn 6%nat ltac:(lia) ltac:(lia)) as (H1 & H2 & H3).
    destruct (loop192_spec 8 0 (key_words 6 userKey) (drop 6 (rd_key key))) as [El We];
      [lia|lia|done|by rewrite length_key_words|rewrite length_drop; lia|].
    change (6 * 0)%nat with 0%nat in El. change (6 * 8 - 2)%nat with (4 * (12 + 1) - 6)%nat in El, We. rewrite El. eexists. split; [reflexivity|]. split; [done|].
    destruct (expanded_key 6 12 (key_words 6 userKey) (drop 6 (rd_key key))) as (L & Wd & T);
      [apply length_key_words|exact We|exact H2|lia|exact H3|lia|].
    split; [split; [exact L|exact Wd]|exact T].
  - rewrite (load_key_spec 2 4) by (done || rewrite ?length_drop; lia). rewrite drop_drop. cbn [Nat.add].
    rewrite (load_key_spec 2 6) by (done || rewrite ?length_drop; lia). rewrite drop_drop. cbn [Nat.add].
    destruct (Hn 8%nat ltac:(lia) ltac:(lia)) as (H1 & H2 & H3).
    destruct (loop256_spec 7 0 (key_words 8 userKey) (drop 8 (rd_key key))) as [El We];
      [lia|lia|done|by rewrite length_key_words|rewrite length_drop; lia|].
    change (8 * 0)%nat with 0%nat in El. change (8 * 7 - 4)%nat with (4 * (14 + 1) - 8)%nat in El, We. rewrite El. eexists. split; [reflexivity|]. split; [done|].
    destruct (expanded_key 8 14 (key_words 8 userKey) (drop 8 (rd_key key))) as (L & Wd & T);
      [apply length_key_words|exact We|exact H2|lia|exact H3|lia|].
    split; [split; [exact L|exact Wd]|exact T].
Qed.

(** ** Encryption *)
Lemma round_key_take n w : (4 <= n)%nat -> round_key (take n w) = round_key w.
Proof. intros Hn. unfold round_key. by rewrite take_take, Nat.min_l by lia. Qed.

(** The cipher uses no more than its schedule. *)
Lemma cipher_rounds_take n m s w : (4 * S n <= m)%nat -> cipher_rounds n s (take m w) = cipher_rounds n s w.
Proof.
  revert m s w. induction n as [|n IH]; intros m s w Hm; cbn [cipher_rounds].
  - by rewrite round_key_take by lia.
  - rewrite round_key_take by lia. replace m with (4 + (m - 4))%nat by lia. rewrite <- take_drop_commute. apply IH. lia.
Qed.

Lemma Cipher_take Nr w s : (1 <= Nr)%nat -> Cipher Nr (take (4 * (Nr + 1)) w) s = Cipher Nr w s.
Proof.
  intros HNr. unfold Cipher. rewrite round_key_take by lia.
  replace (4 * (Nr + 1))%nat with (4 + 4 * Nr)%nat by lia. rewrite <- take_drop_commute. apply cipher_rounds_take. lia.
Qed.

Lemma aes_size_pairs bits Nk Nr : aes_size bits Nk Nr -> exists r, Nr = (2 * S r)%nat /\ (4 * (Nr + 1) <= 60)%nat.
Proof. intros [(_ & _ & ->)|[(_ & _ & ->)|(_ & _ & ->)]]; [exists 4%nat|exists 5%nat|exists 6%nat]; lia. Qed.

Lemma key_for_size bits Nk Nr r key : aes_size bits Nk Nr -> Nr = (2 * S r)%nat ->
  rounds key = Z.of_nat Nr -> key_array key -> key_for r key.
Proof.
  intros Hs -> Hr [H60 Hw]. destruct (aes_size_pairs _ _ _ Hs) as (r' & E & Hle). split; [lia|]. split; [done|]. lia.
Qed.

(** Encryption with any of the three sizes of keys is the cipher of the
    standard under the expanded key. *)
Lemma aes_encrypts bits Nk Nr userKey key b :
  aes_size bits Nk Nr -> bytes userKey -> (4 * Nk <= length userKey)%nat -> key_array key -> is_block b ->
  exists key', AES_set_encrypt_key userKey bits key = Some (0, key') /\
    AES_encrypt b key' = Some (Cipher Nr (KeyExpansion Nk Nr userKey) b) /\ is_block (Cipher Nr (KeyExpansion Nk Nr userKey) b).
Proof.
  intros Hs Hb Hl Hk Hblk. destruct (AES_set_encrypt_key_spec bits Nk Nr userKey key Hs Hb Hl Hk) as (key' & E & Hr & Hk' & T).
  destruct (aes_size_pairs _ _ _ Hs) as (r & ENr & _). exists key'. split; [done|].
  rewrite <- T, Cipher_take by lia. rewrite ENr. apply (AES_encrypt_spec r); [by eapply key_for_size|done].
Qed.

(** ** Decryption *)
Lemma inv_mix_word_spec v : is_u32 v -> inv_mix_word v = Some (of_bytes (on_column inv_mix_column (word_bytes v))).
Proof.
  intros (a & b & c & d & -> & Ha & Hb & Hc & Hd)%W_split. unfold inv_mix_word. autorewrite with words.
  assert (forall x, is_u8 x -> exists y, tab Te1 x = Some y /\ Z.land y 0xff = sbox x) as Hsub.
  { intros x Hx. destruct (Te_spec x Hx) as (_ & -> & _). eexists. split; [done|].
    pose proof (sbox_byte x Hx) as Sx. bytes_of (sbox x) Sx.
    change (Z.land ?v 0xff) with (byte0 v). by rewrite byte0_W. }
  destruct (Hsub a Ha) as (ya & -> & ->), (Hsub b Hb) as (yb & -> & ->), (Hsub c Hc) as (yc & -> & ->), (Hsub d Hd) as (yd & -> & ->).
  destruct (Td_spec (sbox a) (sbox_byte a Ha)) as (-> & _), (Td_spec (sbox b) (sbox_byte b Hb)) as (_ & -> & _),
    (Td_spec (sbox c) (sbox_byte c Hc)) as (_ & _ & -> & _), (Td_spec (sbox d) (sbox_byte d Hd)) as (_ & _ & _ & -> & _).
  rewrite !inv_sbox_sbox, word_bytes_W by done.
  bytes_of a Ha. bytes_of b Hb. bytes_of c Hc. bytes_of d Hd. rewrite !W_lxor by byte_sum.
  cbv [on_column inv_mix_column xor4 W]. reflexivity.
Qed.

Lemma InvShiftRows_eq b0 b1 b2 b3 b4 b5 b6 b7 b8 b9 b10 b11 b12 b13 b14 b15 :
  InvShiftRows [b0; b1; b2; b3; b4; b5; b6; b7; b8; b9; b10; b11; b12; b13; b14; b15] =
  [b0; b13; b10; b7; b4; b1; b14; b11; b8; b5; b2; b15; b12; b9; b6; b3].
Proof. reflexivity. Qed.

Lemma td_word_spec a a1 a2 a3 b b1 b2 b3 c c1 c2 c3 d d1 d2 d3 k0 k1 k2 k3 :
  bytes [a; a1; a2; a3] -> bytes [b; b1; b2; b3] -> bytes [c; c1; c2; c3] -> bytes [d; d1; d2; d3] ->
  bytes [k0; k1; k2; k3] ->
  td_word (W a a1 a2 a3) (W b b1 b2 b3) (W c c1 c2 c3) (W d d1 d2 d3) (W k0 k1 k2 k3) =
  Some (col_xor (inv_mix_column (inv_sbox a) (inv_sbox b1) (inv_sbox c2) (inv_sbox d3)) [k0; k1; k2; k3]).
Proof.
  intros Ha Hb Hc Hd Hk. repeat match goal with H : Forall _ (_ :: _) |- _ => apply Forall_cons in H as [? H] end.
  unfold td_word. autorewrite with words.
  destruct (Td_spec a ltac:(done)) as (-> & _), (Td_spec b1 ltac:(done)) as (_ & -> & _),
    (Td_spec c2 ltac:(done)) as (_ & _ & -> & _), (Td_spec d3 ltac:(done)) as (_ & _ & _ & -> & _).
  pose proof (inv_sbox_byte a ltac:(done)) as Sa. pose proof (inv_sbox_byte b1 ltac:(done)) as Sb.
  pose proof (inv_sbox_byte c2 ltac:(done)) as Sc. pose proof (inv_sbox_byte d3 ltac:(done)) as Sd.
  bytes_of (inv_sbox a) Sa. bytes_of (inv_sbox b1) Sb. bytes_of (inv_sbox c2) Sc. bytes_of (inv_sbox d3) Sd.
  rewrite !W_lxor by byte_sum. unfold col_xor, AddRoundKey, inv_mix_column, xor4, W. cbn [zip_with]. reflexivity.
Qed.

Lemma td_last_spec a a1 a2 a3 b b1 b2 b3 c c1 c2 c3 d d1 d2 d3 k0 k1 k2 k3 :
  bytes [a; a1; a2; a3] -> bytes [b; b1; b2; b3] -> bytes [c; c1; c2; c3] -> bytes [d; d1; d2; d3] ->
  bytes [k0; k1; k2; k3] ->
  td_last (W a a1 a2 a3) (W b b1 b2 b3) (W c c1 c2 c3) (W d d1 d2 d3) (W k0 k1 k2 k3) =
  Some (col_xor [inv_sbox a; inv_sbox b1; inv_sbox c2; inv_sbox d3] [k0; k1; k2; k3]).
Proof.
  intros Ha Hb Hc Hd Hk. repeat match goal with H : Forall _ (_ :: _) |- _ => apply Forall_cons in H as [? H] end.
  unfold td_last. autorewrite with words.
  destruct (Td_spec a ltac:(done)) as (_ & _ & _ & _ & ->), (Td_spec b1 ltac:(done)) as (_ & _ & _ & _ & ->),
    (Td_spec c2 ltac:(done)) as (_ & _ & _ & _ & ->), (Td_spec d3 ltac:(done)) as (_ & _ & _ & _ & ->).
  rewrite <- W_xor_form by (by apply inv_sbox_byte). rewrite W_lxor by (done || by apply inv_sbox_byte). reflexivity.
Qed.

Lemma dec_round_spec b rk : is_block b -> words rk -> (4 <= length rk)%nat ->
  dec_words td_word (words_of b) rk = Some (words_of (AddRoundKey (InvMixColumns (InvShiftRows (InvSubBytes b))) (round_key rk))).
Proof.
  intros Hb Hw Hl. destruct (round_key_words rk Hw Hl) as (k & Hk & -> & E0 & E1 & E2 & E3).
  block b Hb. block k Hk. cbn [words_of fst snd] in *. unfold dec_words. rewrite E0, E1, E2, E3.
  rewrite !td_word_spec by byte_list. unfold InvSubBytes. cbn [map]. rewrite InvShiftRows_eq.
  cbv [InvMixColumns columns inv_mix_column AddRoundKey zip_with app words_of col_xor W]. reflexivity.
Qed.

Lemma dec_last_spec b rk : is_block b -> words rk -> (4 <= length rk)%nat ->
  dec_words td_last (words_of b) rk = Some (words_of (AddRoundKey (InvShiftRows (InvSubBytes b)) (round_key rk))).
Proof.
  intros Hb Hw Hl. destruct (round_key_words rk Hw Hl) as (k & Hk & -> & E0 & E1 & E2 & E3).
  block b Hb. block k Hk. cbn [words_of fst snd] in *. unfold dec_words. rewrite E0, E1, E2, E3.
  rewrite !td_last_spec by byte_list. unfold InvSubBytes. cbn [map]. rewrite InvShiftRows_eq.
  cbv [AddRoundKey zip_with app words_of col_xor W]. reflexivity.
Qed.

Lemma InvSubBytes_block s : is_block s -> is_block (InvSubBytes s).
Proof.
  intros [Hl Hb]. split; [unfold InvSubBytes; by rewrite length_map|]. apply Forall_map.
  eapply Forall_impl; [exact Hb|]. intros x. apply inv_sbox_byte.
Qed.

Lemma InvShiftRows_block s : is_block s -> is_block (InvShiftRows s).
Proof. intros Hs. block s Hs. split; [done|]. by repeat (apply Forall_cons; split). Qed.

Lemma InvMixColumns_block s : is_block s -> is_block (InvMixColumns s).
Proof.
  intros Hs. block s Hs. split; [done|]. unfold InvMixColumns, inv_mix_column, xor4. cbn [columns app].
  repeat (apply Forall_cons; split); try done; byte_sum.
Qed.

Definition dec_step (s w : list Z) : list Z := AddRoundKey (InvMixColumns (InvShiftRows (InvSubBytes s))) (round_key w).

Lemma inv_rounds_iter n s w :
  inv_rounds n s w = AddRoundKey (InvShiftRows (InvSubBytes (iter_rounds dec_step n s w))) (round_key (drop (4 * n) w)).
Proof.
  revert s w. induction n as [|n IH]; intros s w; cbn [inv_rounds iter_rounds]; [by rewrite drop_0|].
  rewrite IH, drop_drop. by replace (4 + 4 * n)%nat with (4 * S n)%nat by lia.
Qed.

Lemma AES_decrypt_spec r key b : key_for r key -> is_block b ->
  AES_decrypt b key = Some (EqInvCipher (2 * S r) (rd_key key) b).
Proof.
  intros Hk Hb. unfold AES_decrypt. rewrite (key_rounds r key Hk). destruct Hk as (_ & Hw & Hl).
  rewrite load_block_spec by (done || lia).
  assert (is_block (AddRoundKey b (round_key (rd_key key)))) as Hs
    by (apply AddRoundKey_block; [done|apply round_key_block; done || lia]).
  destruct (rounds_loop_spec (dec_words td_word) dec_step) with (r := r) (s := AddRoundKey b (round_key (rd_key key))) (rk := rd_key key)
    as [E Hi]; [|done|done|lia|].
  { intros s rk H1 H2 H3. split; [by apply dec_round_spec|].
    apply AddRoundKey_block; [by apply InvMixColumns_block, InvShiftRows_block, InvSubBytes_block|by apply round_key_block]. }
  rewrite E. clear E. assert (words (drop (8 * S r) (rd_key key))) as Hw' by (by apply Forall_drop).
  assert (4 <= length (drop (8 * S r) (rd_key key)))%nat as Hl' by (rewrite length_drop; lia).
  rewrite dec_last_spec by done. unfold EqInvCipher. rewrite inv_rounds_iter. replace (2 * S r - 1)%nat with (2 * r + 1)%nat by lia.
  rewrite drop_drop. replace (4 + 4 * (2 * r + 1))%nat with (8 * S r)%nat by lia.
  rewrite store_words; [done|].
  apply AddRoundKey_block; [by apply InvShiftRows_block, InvSubBytes_block|by apply round_key_block].
Qed.

(** *** The schedule for decryption *)
Lemma rk_swap_words i j rk rk' : rk_swap i j rk = Some rk' -> words rk -> words rk' /\ length rk' = length rk.
Proof.
  unfold rk_swap. intros E Hw. destruct (rk !! i) as [a|] eqn:Ei; [|done]. destruct (rk !! j) as [b|] eqn:Ej; [|done].
  simplify_eq. rewrite Forall_lookup in Hw. rewrite !length_insert. split; [|done].
  repeat apply Forall_insert; [by apply Forall_lookup| |]; by eapply Hw.
Qed.

(** The groups of four words of a schedule. *)
Definition group (rk : list Z) (i : nat) : list Z := take 4 (drop (4 * i) rk).

Lemma swap_loop_words fuel i j rk rk' : swap_loop fuel i j rk = Some rk' -> words rk -> words rk'.
Proof.
  revert i j rk. induction fuel as [|fuel IH]; intros i j rk E Hw; cbn [swap_loop] in E;
    (destruct (Nat.ltb i j); [|by simplify_eq]); [done|].
  repeat match type of E with context [rk_swap ?a ?b ?r] =>
    let Es := fresh in destruct (rk_swap a b r) as [?|] eqn:Es; [|done];
    apply rk_swap_words in Es as [? _]; [|done] end.
  by eapply IH.
Qed.

(** The loop reverses the order of the round keys. *)
Lemma swap_loop_spec bits Nk Nr rk : aes_size bits Nk Nr -> length rk = 60%nat ->
  exists rk', swap_loop Nr 0 (4 * Nr) rk = Some rk' /\ length rk' = 60%nat /\
    forall i, (i <= Nr)%nat -> group rk' i = group rk (Nr - i).
Proof.
  intros Hs Hl. do 60 (destruct rk as [|? rk]; [discriminate Hl|]). destruct rk; [|discriminate Hl]. clear Hl.
  destruct Hs as [(_ & _ & ->)|[(_ & _ & ->)|(_ & _ & ->)]]; (eexists; split; [reflexivity|]; split; [reflexivity|]);
    intros i Hi; do 15 (destruct i as [|i]; [first [exfalso; lia | reflexivity]|]); lia.
Qed.

Definition inv_mix_of (v : Z) : Z := of_bytes (on_column inv_mix_column (word_bytes v)).

Lemma inv_mix_of_W a b c d : is_u8 a -> is_u8 b -> is_u8 c -> is_u8 d ->
  word_bytes (inv_mix_of (W a b c d)) = inv_mix_column a b c d /\ is_u32 (inv_mix_of (W a b c d)).
Proof.
  intros Ha Hb Hc Hd. unfold inv_mix_of. rewrite word_bytes_W by done. cbn [on_column]. unfold inv_mix_column.
  bytes_of a Ha. bytes_of b Hb. bytes_of c Hc. bytes_of d Hd. unfold xor4.
  split; [apply word_bytes_W|apply W_u32]; byte_sum.
Qed.

Lemma rk_inv_mix_spec pre v post i : i = length pre -> is_u32 v ->
  rk_inv_mix i (pre ++ v :: post) = Some (pre ++ inv_mix_of v :: post).
Proof.
  intros -> Hv. unfold rk_inv_mix. rewrite list_lookup_middle by done. rewrite (inv_mix_word_spec v Hv).
  rewrite set_next_word by done. by rewrite <- app_assoc.
Qed.

Lemma inv_mix_loop_spec n o pre mid post :
  o = length pre -> length mid = (4 * n)%nat -> words mid ->
  inv_mix_loop n o (pre ++ mid ++ post) = Some (pre ++ map inv_mix_of mid ++ post).
Proof.
  revert o pre mid. induction n as [|n IH]; intros o pre mid Ho Hl Hw; cbn [inv_mix_loop].
  - by destruct mid.
  - do 4 (destruct mid as [|? mid]; [exfalso; cbn in Hl; lia|]). do 4 (apply Forall_cons in Hw as [? Hw]). cbn [app map].
    rewrite rk_inv_mix_spec by done. rewrite (cons_middle _ pre).
    rewrite app_assoc, rk_inv_mix_spec by (rewrite ?length_app; cbn [length]; done || lia). rewrite (cons_middle _ (pre ++ [_])).
    rewrite app_assoc, rk_inv_mix_spec by (rewrite ?length_app; cbn [length]; done || lia). rewrite (cons_middle _ ((pre ++ [_]) ++ [_])).
    rewrite app_assoc, rk_inv_mix_spec by (rewrite ?length_app; cbn [length]; done || lia).
    rewrite (cons_middle _ (((pre ++ [_]) ++ [_]) ++ [_])), app_assoc.
    rewrite IH by (rewrite ?length_app; cbn [length] in *; done || lia). by rewrite <- !app_assoc.
Qed.

Lemma inv_mix_words g : words g -> flat_map word_bytes (map inv_mix_of g) = InvMixColumns (flat_map word_bytes g).
Proof.
  induction 1 as [|v g Hv Hg IH]; [done|]. cbn [map flat_map]. rewrite IH. clear IH.
  apply W_split in Hv as (a & b & c & d & -> & Ha & Hb & Hc & Hd).
  destruct (inv_mix_of_W a b c d Ha Hb Hc Hd) as [-> _]. rewrite word_bytes_W by done.
  unfold InvMixColumns. by rewrite columns_app.
Qed.

Lemma key_at_group w i : key_at w i = flat_map word_bytes (group w i).
Proof. done. Qed.

(** The three parts of a schedule: the first round key, the ones in the middle
    and the rest. *)
Lemma group_parts pre mid post Nr i (f : Z -> Z) :
  length pre = 4%nat -> length mid = (4 * (Nr - 1))%nat -> (1 <= Nr)%nat -> (i <= Nr)%nat ->
  group (pre ++ map f mid ++ post) i =
    (if decide (0 < i < Nr)%nat then map f (group (pre ++ mid ++ post) i) else group (pre ++ mid ++ post) i).
Proof.
  intros Hp Hm HN Hi. unfold group. case_decide as Hd.
  - rewrite !(drop_app_ge pre) by lia. rewrite !drop_app_le by (rewrite ?length_map; lia).
    rewrite !take_app_le by (rewrite ?length_drop, ?length_map; lia). by rewrite skipn_map, firstn_map.
  - destruct (decide (i = 0%nat)) as [->|].
    + rewrite !drop_0, !take_app_le by lia. done.
    + replace i with Nr by lia. rewrite !(drop_app_ge pre) by lia. rewrite !drop_app_ge by (rewrite ?length_map; lia).
      by rewrite length_map.
Qed.

Lemma AES_set_decrypt_key_spec bits Nk Nr userKey key :
  aes_size bits Nk Nr -> bytes userKey -> (4 * Nk <= length userKey)%nat -> key_array key ->
  exists ekey dkey, AES_set_encrypt_key userKey bits key = Some (0, ekey) /\
    AES_set_decrypt_key userKey bits key = Some (0, dkey) /\ rounds ekey = Z.of_nat Nr /\ key_array ekey /\
    rounds dkey = Z.of_nat Nr /\ key_array dkey /\ inverse_schedule Nr (rd_key ekey) (rd_key dkey).
Proof.
  intros Hs Hb Hl Hk. destruct (AES_set_encrypt_key_spec bits Nk Nr userKey key Hs Hb Hl Hk) as (ekey & E & Hr & [H60 Hw] & _).
  destruct (aes_size_pairs _ _ _ Hs) as (r & ENr & HNr). unfold AES_set_decrypt_key. rewrite E. cbn [Z.ltb Z.compare].
  rewrite Hr, Nat2Z.id. destruct (swap_loop_spec bits Nk Nr (rd_key ekey) Hs H60) as (rk & Es & Hl' & Hg). rewrite Es.
  pose proof (swap_loop_words _ _ _ _ _ Es Hw) as Hw'.
  set (pre := take 4 rk). set (mid := take (4 * (Nr - 1)) (drop 4 rk)). set (post := drop (4 * (Nr - 1)) (drop 4 rk)).
  assert (rk = pre ++ mid ++ post) as Erk by (subst pre mid post; by rewrite !take_drop).
  assert (length pre = 4%nat) as Hp by (subst pre; rewrite length_take; lia).
  assert (length mid = (4 * (Nr - 1))%nat) as Hm by (subst mid; rewrite length_take, length_drop; lia).
  assert (words pre /\ words mid /\ words post) as (Wp & Wm & Wq)
    by (split_and!; [by apply Forall_take|by apply Forall_take, Forall_drop|by apply Forall_drop, Forall_drop]).
  clearbody pre mid post. rewrite Erk, (inv_mix_loop_spec (Nr - 1) 4 pre mid post) by done.
  eexists ekey, _. split; [done|]. split; [reflexivity|]. cbn [rounds rd_key].
  split; [done|]. split; [by split|]. split; [done|]. split.
  - split; cbn [rd_key].
    + rewrite !length_app, length_map. rewrite Erk, !length_app in Hl'. lia.
    + apply Forall_app_2; [done|]. apply Forall_app_2; [|done]. apply Forall_map. eapply Forall_impl; [exact Wm|].
      intros v Hv. cbn beta. apply W_split in Hv as (a & b & c & d & -> & Ha & Hb' & Hc & Hd). by apply inv_mix_of_W.
  - assert (forall i, (i <= Nr)%nat -> key_at (pre ++ map inv_mix_of mid ++ post) i =
      (if decide (0 < i < Nr)%nat then InvMixColumns (key_at (rd_key ekey) (Nr - i)) else key_at (rd_key ekey) (Nr - i))) as Hkey.
    { intros i Hi. rewrite !key_at_group, (group_parts pre mid post Nr i) by (done || lia). rewrite <- Erk, (Hg i Hi).
      case_decide; [|done]. apply inv_mix_words. by apply Forall_take, Forall_drop. }
    split.
    + rewrite Hkey, decide_False by lia. by rewrite Nat.sub_0_r.
    + intros i Hi. by rewrite Hkey, decide_True by lia.
    + rewrite Hkey, decide_False by lia. by rewrite Nat.sub_diag.
Qed.

(** The round keys of a schedule are blocks. *)
Lemma key_at_block Nr w i : words w -> (4 * (Nr + 1) <= length w)%nat -> (i <= Nr)%nat -> is_block (key_at w i).
Proof. intros Hw Hl Hi. apply round_key_block; [by apply Forall_drop|rewrite length_drop; lia]. Qed.

Section BlockCipher.
Context (bits : Z) (Nk Nr : nat) (userKey : list Z) (key : AES_KEY) (b : list Z).
Context (Hsize : aes_size bits Nk Nr) (Hbytes : bytes userKey) (Hlen : (4 * Nk <= length userKey)%nat).
Context (Hkey : key_array key) (Hblock : is_block b).

(** C8: with keys of 128, 192 and 256 bits, expanding a key with
    [AES_set_encrypt_key] and encrypting a block with [AES_encrypt] is the
    cipher of FIPS 197 on bytes: the tables, which merge the substitution with
    the multiplication of columns, and the schedule computed in place are right;
    no access leaves the tables, the array of round keys or the block. *)
Theorem aes_encrypt_fips197 :
  exists key', AES_set_encrypt_key userKey bits key = Some (0, key') /\
    AES_encrypt b key' = Some (Cipher Nr (KeyExpansion Nk Nr userKey) b).
Proof.
  destruct (aes_encrypts bits Nk Nr userKey key b Hsize Hbytes Hlen Hkey Hblock) as (key' & E1 & E2 & _). by exists key'.
Qed.

(** C13: [AES_decrypt] with the schedule of [AES_set_decrypt_key] gives back the
    block that [AES_encrypt] encrypted with the schedule of
    [AES_set_encrypt_key] for the same key, for the three sizes of keys. *)
Theorem aes_decrypt_inverts :
  exists ekey dkey, AES_set_encrypt_key userKey bits key = Some (0, ekey) /\
    AES_set_decrypt_key userKey bits key = Some (0, dkey) /\
    exists c, AES_encrypt b ekey = Some c /\ AES_decrypt c dkey = Some b.
Proof.
  destruct (AES_set_decrypt_key_spec bits Nk Nr userKey key) as (ekey & dkey & E1 & E2 & Re & Ke & Rd & Kd & Hi); try done.
  destruct (aes_size_pairs _ _ _ Hsize) as (r & ENr & HNr). exists ekey, dkey. split; [done|]. split; [done|].
  destruct (AES_encrypt_spec r ekey b) as [Ee Hc]; [by eapply key_for_size|done|]. rewrite <- ENr in Ee, Hc.
  eexists. split; [exact Ee|]. rewrite (AES_decrypt_spec r) by (done || by eapply key_for_size). rewrite <- ENr. f_equal.
  destruct Ke as [H60 Hw]. apply EqInvCipher_Cipher; [lia| |done|done]. intros i. apply key_at_block; [done|lia].
Qed.
End BlockCipher.

(** A key and a block to try them on. *)
Lemma test_key_array : key_array (mk_key (replicate 60 0) 0).
Proof. split; [done|]. by apply Forall_replicate. Qed.

Lemma aes_encrypt_fips197_witness :
  exists key', AES_set_encrypt_key (map Z.of_nat (seq 0 32)) 256 (mk_key (replicate 60 0) 0) = Some (0, key') /\
    AES_encrypt test_block key' = Some (Cipher 14 (KeyExpansion 8 14 (map Z.of_nat (seq 0 32))) test_block).
Proof.
  apply (aes_encrypt_fips197 256 8 14 (map Z.of_nat (seq 0 32)) (mk_key (replicate 60 0) 0) test_block).
  - right. right. done.
  - by apply bytes_check.
  - cbn. lia.
  - apply test_key_array.
  - split; [done|by apply bytes_check].
Defined.

Lemma aes_decrypt_inverts_witness :
  exists ekey dkey, AES_set_encrypt_key (map Z.of_nat (seq 0 32)) 192 (mk_key (replicate 60 0) 0) = Some (0, ekey) /\
    AES_set_decrypt_key (map Z.of_nat (seq 0 32)) 192 (mk_key (replicate 60 0) 0) = Some (0, dkey) /\
    exists c, AES_encrypt test_block ekey = Some c /\ AES_decrypt c dkey = Some test_block.
Proof.
  apply (aes_decrypt_inverts 192 6 12 (map Z.of_nat (seq 0 32)) (mk_key (replicate 60 0) 0) test_block).
  - right. left. done.
  - by apply bytes_check.
  - cbn. lia.
  - apply test_key_array.
  - split; [done|by apply bytes_check].
Defined.
