(* ===== verification/AesVariants.v ===== *)
(** * The variants of AES ([openssl_aes_core.c], [FULL_UNROLL] and [AES_ASM])

    With [FULL_UNROLL] the loop over the rounds is written out.  With [AES_ASM]
    the rounds are elsewhere, and the key schedules are computed with the
    substitution box itself and with the inverse of the multiplication of columns
    on the four bytes of a word at once.  Both compute the same as the code of
    [Aes]. *)
From S2P Require Import Prelude HashWords AesTables AesSpec Aes.
Local Open Scope Z_scope.

(** ** The rounds written out *)
Module Unrolled.

(** Round [i] reads the words of the schedule from [4 * i] on. *)
Definition unrolled_rounds (round : words4 -> list Z -> option words4) (rounds : Z) (s : words4) (rk : list Z)
    : option (words4 * list Z) :=
  let* t := round s (drop 4 rk) in
  let* s := round t (drop 8 rk) in
  let* t := round s (drop 12 rk) in
  let* s := round t (drop 16 rk) in
  let* t := round s (drop 20 rk) in
  let* s := round t (drop 24 rk) in
  let* t := round s (drop 28 rk) in
  let* s := round t (drop 32 rk) in
  let* t := round s (drop 36 rk) in
  let* t :=
    (if rounds >? 10 then
       let* s := round t (drop 40 rk) in
       let* t := round s (drop 44 rk) in
       if rounds >? 12 then
         let* s := round t (drop 48 rk) in
         round s (drop 52 rk)
       else Some t
     else Some t) in
  Some (t, drop (Z.to_nat (Z.shiftl rounds 2)) rk).

Definition unrolled_encrypt (inp : list Z) (key : AES_KEY) : option (list Z) :=
  let rk := rd_key key in
  let* s := load_block inp rk in
  let* (t, rk) := unrolled_rounds (enc_words te_word) (rounds key) s rk in
  let* s := enc_words te_last t rk in
  Some (store_block s).

Definition unrolled_decrypt (inp : list Z) (key : AES_KEY) : option (list Z) :=
  let rk := rd_key key in
  let* s := load_block inp rk in
  let* (t, rk) := unrolled_rounds (dec_words td_word) (rounds key) s rk in
  let* s := dec_words td_last t rk in
  Some (store_block s).

(** The numbers of rounds of the three sizes of keys. *)
Definition aes_rounds (r : Z) : Prop := r = 10 \/ r = 12 \/ r = 14.

Lemma unrolled_rounds_same round r s rk : aes_rounds r ->
  unrolled_rounds round r s rk = rounds_loop round (Z.to_nat (Z.shiftr r 1)) s rk.
Proof.
  intros [->|[->| ->]]; unfold unrolled_rounds;
    match goal with |- context [Z.to_nat (Z.shiftr ?a 1)] => let n := eval vm_compute in (Z.to_nat (Z.shiftr a 1)) in
      change (Z.to_nat (Z.shiftr a 1)) with n end;
    match goal with |- context [Z.to_nat (Z.shiftl ?a 2)] => let n := eval vm_compute in (Z.to_nat (Z.shiftl a 2)) in
      change (Z.to_nat (Z.shiftl a 2)) with n end;
    cbn [rounds_loop Z.gtb Z.compare Pos.compare Pos.compare_cont]; rewrite !drop_drop; cbn [Nat.add];
    repeat match goal with |- context [round ?s ?k] => destruct (round s k); [|reflexivity] end; reflexivity.
Qed.

(** Encryption and decryption with the rounds written out are those with the loop. *)
Theorem unrolled_same inp key : aes_rounds (rounds key) ->
  unrolled_encrypt inp key = AES_encrypt inp key /\ unrolled_decrypt inp key = AES_decrypt inp key.
Proof.
  intros Hr. unfold unrolled_encrypt, unrolled_decrypt, AES_encrypt, AES_decrypt.
  destruct (load_block inp (rd_key key)) as [s|]; [|done]. by rewrite !unrolled_rounds_same.
Qed.
End Unrolled.

(** ** The schedules for assembler code *)
Module Asm.

Definition Te4 : list Z :=
  [0x63; 0x7c; 0x77; 0x7b; 0xf2; 0x6b; 0x6f; 0xc5; 0x30; 0x01; 0x67; 0x2b; 0xfe; 0xd7; 0xab; 0x76;
   0xca; 0x82; 0xc9; 0x7d; 0xfa; 0x59; 0x47; 0xf0; 0xad; 0xd4; 0xa2; 0xaf; 0x9c; 0xa4; 0x72; 0xc0;
   0xb7; 0xfd; 0x93; 0x26; 0x36; 0x3f; 0xf7; 0xcc; 0x34; 0xa5; 0xe5; 0xf1; 0x71; 0xd8; 0x31; 0x15;
   0x04; 0xc7; 0x23; 0xc3; 0x18; 0x96; 0x05; 0x9a; 0x07; 0x12; 0x80; 0xe2; 0xeb; 0x27; 0xb2; 0x75;
   0x09; 0x83; 0x2c; 0x1a; 0x1b; 0x6e; 0x5a; 0xa0; 0x52; 0x3b; 0xd6; 0xb3; 0x29; 0xe3; 0x2f; 0x84;
   0x53; 0xd1; 0x00; 0xed; 0x20; 0xfc; 0xb1; 0x5b; 0x6a; 0xcb; 0xbe; 0x39; 0x4a; 0x4c; 0x58; 0xcf;
   0xd0; 0xef; 0xaa; 0xfb; 0x43; 0x4d; 0x33; 0x85; 0x45; 0xf9; 0x02; 0x7f; 0x50; 0x3c; 0x9f; 0xa8;
   0x51; 0xa3; 0x40; 0x8f; 0x92; 0x9d; 0x38; 0xf5; 0xbc; 0xb6; 0xda; 0x21; 0x10; 0xff; 0xf3; 0xd2;
   0xcd; 0x0c; 0x13; 0xec; 0x5f; 0x97; 0x44; 0x17; 0xc4; 0xa7; 0x7e; 0x3d; 0x64; 0x5d; 0x19; 0x73;
   0x60; 0x81; 0x4f; 0xdc; 0x22; 0x2a; 0x90; 0x88; 0x46; 0xee; 0xb8; 0x14; 0xde; 0x5e; 0x0b; 0xdb;
   0xe0; 0x32; 0x3a; 0x0a; 0x49; 0x06; 0x24; 0x5c; 0xc2; 0xd3; 0xac; 0x62; 0x91; 0x95; 0xe4; 0x79;
   0xe7; 0xc8; 0x37; 0x6d; 0x8d; 0xd5; 0x4e; 0xa9; 0x6c; 0x56; 0xf4; 0xea; 0x65; 0x7a; 0xae; 0x08;
   0xba; 0x78; 0x25; 0x2e; 0x1c; 0xa6; 0xb4; 0xc6; 0xe8; 0xdd; 0x74; 0x1f; 0x4b; 0xbd; 0x8b; 0x8a;
   0x70; 0x3e; 0xb5; 0x66; 0x48; 0x03; 0xf6; 0x0e; 0x61; 0x35; 0x57; 0xb9; 0x86; 0xc1; 0x1d; 0x9e;
   0xe1; 0xf8; 0x98; 0x11; 0x69; 0xd9; 0x8e; 0x94; 0x9b; 0x1e; 0x87; 0xe9; 0xce; 0x55; 0x28; 0xdf;
   0x8c; 0xa1; 0x89; 0x0d; 0xbf; 0xe6; 0x42; 0x68; 0x41; 0x99; 0x2d; 0x0f; 0xb0; 0x54; 0xbb; 0x16].

(** [(Te4[a] << 24) ^ (Te4[b] << 16) ^ (Te4[c] << 8) ^ Te4[d]] *)
Definition asm_sub_bytes (a b c d : Z) : option Z :=
  let* x := tab Te4 a in let* y := tab Te4 b in let* z := tab Te4 c in let* w := tab Te4 d in
  Some (Z.lxor (Z.lxor (Z.lxor (Z.shiftl x 24) (Z.shiftl y 16)) (Z.shiftl z 8)) w).

(** [rk[d] = rk[a] ^ (the substitution of rk[b], rotated) ^ rcon[i]] *)
Definition asm_rk_first (d a b i : nat) (rk : list Z) : option (list Z) :=
  let* temp := rk !! b in let* x := rk !! a in
  let* s := asm_sub_bytes (byte2 temp) (byte1 temp) (byte0 temp) (byte3 temp) in let* c := rcon !! i in
  rk_set d (Z.lxor (Z.lxor x s) c) rk.

(** [rk[d] = rk[a] ^ (the substitution of rk[b])] *)
Definition asm_rk_sub (d a b : nat) (rk : list Z) : option (list Z) :=
  let* temp := rk !! b in let* x := rk !! a in
  let* s := asm_sub_bytes (byte3 temp) (byte2 temp) (byte1 temp) (byte0 temp) in rk_set d (Z.lxor x s) rk.

(** The loops; [o] is how far [rk] has been advanced. *)
Fixpoint asm_loop128 (fuel i o : nat) (rk : list Z) : option (list Z) :=
  match fuel with
  | O => None
  | S fuel' =>
      let* rk := asm_rk_first (o + 4) o (o + 3) i rk in
      let* rk := rk_xor (o + 5) (o + 1) (o + 4) rk in
      let* rk := rk_xor (o + 6) (o + 2) (o + 5) rk in
      let* rk := rk_xor (o + 7) (o + 3) (o + 6) rk in
      if Nat.eqb (S i) 10 then Some rk else asm_loop128 fuel' (S i) (o + 4) rk
  end.

Fixpoint asm_loop192 (fuel i o : nat) (rk : list Z) : option (list Z) :=
  match fuel with
  | O => None
  | S fuel' =>
      let* rk := asm_rk_first (o + 6) o (o + 5) i rk in
      let* rk := rk_xor (o + 7) (o + 1) (o + 6) rk in
      let* rk := rk_xor (o + 8) (o + 2) (o + 7) rk in
      let* rk := rk_xor (o + 9) (o + 3) (o + 8) rk in
      if Nat.eqb (S i) 8 then Some rk
      else
        let* rk := rk_xor (o + 10) (o + 4) (o + 9) rk in
        let* rk := rk_xor (o + 11) (o + 5) (o + 10) rk in
        asm_loop192 fuel' (S i) (o + 6) rk
  end.

Fixpoint asm_loop256 (fuel i o : nat) (rk : list Z) : option (list Z) :=
  match fuel with
  | O => None
  | S fuel' =>
      let* rk := asm_rk_first (o + 8) o (o + 7) i rk in
      let* rk := rk_xor (o + 9) (o + 1) (o + 8) rk in
      let* rk := rk_xor (o + 10) (o + 2) (o + 9) rk in
      let* rk := rk_xor (o + 11) (o + 3) (o + 10) rk in
      if Nat.eqb (S i) 7 then Some rk
      else
        let* rk := asm_rk_sub (o + 12) (o + 4) (o + 11) rk in
        let* rk := rk_xor (o + 13) (o + 5) (o + 12) rk in
        let* rk := rk_xor (o + 14) (o + 6) (o + 13) rk in
        let* rk := rk_xor (o + 15) (o + 7) (o + 14) rk in
        asm_loop256 fuel' (S i) (o + 8) rk
  end.

Definition asm_set_encrypt_key (userKey : list Z) (bits : Z) (key : AES_KEY) : option (Z * AES_KEY) :=
  if negb (bits =? 128) && negb (bits =? 192) && negb (bits =? 256) then Some (-2, key)
  else
    let rounds := if bits =? 128 then 10 else if bits =? 192 then 12 else 14 in
    let* rk := load_key 4 0 userKey (rd_key key) in
    if bits =? 128 then let* rk := asm_loop128 10 0 0 rk in Some (0, mk_key rk rounds)
    else
      let* rk := load_key 2 4 userKey rk in
      if bits =? 192 then let* rk := asm_loop192 8 0 0 rk in Some (0, mk_key rk rounds)
      else
        let* rk := load_key 2 6 userKey rk in
        let* rk := asm_loop256 7 0 0 rk in Some (0, mk_key rk rounds).

(** The four bytes of a word doubled in the field:
    [((tp & 0x7f7f7f7f) << 1) ^ ((m - (m >> 7)) & 0x1b1b1b1b)] with [m = tp & 0x80808080]. *)
Definition double4 (tp : Z) : Z :=
  let m := Z.land tp 0x80808080 in
  Z.lxor (u32 (Z.shiftl (Z.land tp 0x7f7f7f7f) 1)) (Z.land (u32 (m - Z.shiftr m 7)) 0x1b1b1b1b).

(** The body of the inner loop; [ROTATE] is not defined in this file. *)
Definition inv_mix4 (tp1 : Z) : Z :=
  let tp2 := double4 tp1 in
  let tp4 := double4 tp2 in
  let tp8 := double4 tp4 in
  let tp9 := Z.lxor tp8 tp1 in
  let tpb := Z.lxor tp9 tp2 in
  let tpd := Z.lxor tp9 tp4 in
  let tpe := Z.lxor (Z.lxor tp8 tp4) tp2 in
  Z.lxor (Z.lxor (Z.lxor (Z.lxor (Z.lxor (Z.lxor tpe (Z.shiftr tpd 16)) (u32 (Z.shiftl tpd 16)))
    (Z.shiftr tp9 8)) (u32 (Z.shiftl tp9 24))) (Z.shiftr tpb 24)) (u32 (Z.shiftl tpb 8)).

(** The inner loop: [k] words are left. *)
Fixpoint column_loop (k j : nat) (rk : list Z) : option (list Z) :=
  match k with
  | O => Some rk
  | S k' => let* v := rk !! j in let* rk := rk_set j (inv_mix4 v) rk in column_loop k' (S j) rk
  end.

Fixpoint asm_inv_mix_loop (n o : nat) (rk : list Z) : option (list Z) :=
  match n with
  | O => Some rk
  | S n' => let* rk := column_loop 4 o rk in asm_inv_mix_loop n' (o + 4) rk
  end.

Definition asm_set_decrypt_key (userKey : list Z) (bits : Z) (key : AES_KEY) : option (Z * AES_KEY) :=
  let* (status, key) := asm_set_encrypt_key userKey bits key in
  if status <? 0 then Some (status, key)
  else
    let n := Z.to_nat (rounds key) in
    let* rk := swap_loop n 0 (4 * n) (rd_key key) in
    let* rk := asm_inv_mix_loop (n - 1) 4 rk in
    Some (0, mk_key rk (rounds key)).

(** *** The substitution *)

(** The bytes that the code masks out of a table are those of the box. *)
Lemma tab_map T T' (f g : Z -> Z) i : map f T = map g T' -> f <$> tab T i = g <$> tab T' i.
Proof. intros E. change (f <$> T = g <$> T') in E. unfold tab. destruct (i <? 0); [done|]. by rewrite <- !list_lookup_fmap, E. Qed.

Lemma asm_sub_bytes_same a b c d : asm_sub_bytes a b c d = sub_bytes a b c d.
Proof.
  pose proof (tab_map Te2 Te4 (fun x => Z.land x 0xff000000) (fun x => Z.shiftl x 24) a ltac:(vm_compute; reflexivity)) as Ha.
  pose proof (tab_map Te3 Te4 (fun x => Z.land x 0x00ff0000) (fun x => Z.shiftl x 16) b ltac:(vm_compute; reflexivity)) as Hb.
  pose proof (tab_map Te0 Te4 (fun x => Z.land x 0x0000ff00) (fun x => Z.shiftl x 8) c ltac:(vm_compute; reflexivity)) as Hc.
  pose proof (tab_map Te1 Te4 (fun x => Z.land x 0x000000ff) (fun x => x) d ltac:(vm_compute; reflexivity)) as Hd.
  unfold asm_sub_bytes, sub_bytes.
  destruct (tab Te4 a), (tab Te2 a); try discriminate Ha; [|reflexivity]. injection Ha as ->.
  destruct (tab Te4 b), (tab Te3 b); try discriminate Hb; [|reflexivity]. injection Hb as ->.
  destruct (tab Te4 c), (tab Te0 c); try discriminate Hc; [|reflexivity]. injection Hc as ->.
  destruct (tab Te4 d), (tab Te1 d); try discriminate Hd; [|reflexivity]. injection Hd as ->. reflexivity.
Qed.

Lemma asm_rk_first_same d a b i rk : asm_rk_first d a b i rk = rk_first d a b i rk.
Proof. unfold asm_rk_first, rk_first, sub_rot. destruct (rk !! b), (rk !! a); by rewrite ?asm_sub_bytes_same. Qed.

Lemma asm_rk_sub_same d a b rk : asm_rk_sub d a b rk = rk_sub d a b rk.
Proof. unfold asm_rk_sub, rk_sub, sub_word. destruct (rk !! b), (rk !! a); by rewrite ?asm_sub_bytes_same. Qed.

Ltac same_loop :=
  let fuel := fresh in let IH := fresh in
  intros fuel; induction fuel as [|fuel IH]; [reflexivity|]; intros i o rk; cbn;
  repeat match goal with
  | |- context [asm_rk_first] => rewrite asm_rk_first_same
  | |- context [asm_rk_sub] => rewrite asm_rk_sub_same
  | |- context [Nat.eqb i ?n] => destruct (Nat.eqb i n); [reflexivity|]
  | |- context [rk_first ?d ?a ?b ?i ?rk] => destruct (rk_first d a b i rk); [|reflexivity]
  | |- context [rk_sub ?d ?a ?b ?rk] => destruct (rk_sub d a b rk); [|reflexivity]
  | |- context [rk_xor ?d ?a ?b ?rk] => destruct (rk_xor d a b rk); [|reflexivity]
  end; first [apply IH|reflexivity].

Lemma asm_loop128_same : forall fuel i o rk, asm_loop128 fuel i o rk = loop128 fuel i o rk.
Proof. same_loop. Qed.
Lemma asm_loop192_same : forall fuel i o rk, asm_loop192 fuel i o rk = loop192 fuel i o rk.
Proof. same_loop. Qed.
Lemma asm_loop256_same : forall fuel i o rk, asm_loop256 fuel i o rk = loop256 fuel i o rk.
Proof. same_loop. Qed.

Lemma asm_encrypt_key_same userKey bits key : asm_set_encrypt_key userKey bits key = AES_set_encrypt_key userKey bits key.
Proof.
  unfold asm_set_encrypt_key, AES_set_encrypt_key. destruct (_ && _); [done|].
  destruct (load_key 4 0 userKey (rd_key key)) as [rk|]; [|done]. rewrite asm_loop128_same. destruct (bits =? 128); [done|].
  destruct (load_key 2 4 userKey rk) as [rk'|]; [|done]. rewrite asm_loop192_same. destruct (bits =? 192); [done|].
  destruct (load_key 2 6 userKey rk') as [rk''|]; [|done]. by rewrite asm_loop256_same.
Qed.

(** *** Four bytes at once *)
Lemma W_sum a b c d : W a b c d = 16777216 * a + 65536 * b + 256 * c + d.
Proof. unfold W, of_bytes. cbn [val_of rev app le_val]. lia. Qed.

Lemma testbit_snoc v b i : is_u8 b -> 0 <= i ->
  Z.testbit (256 * v + b) i = if i <? 8 then Z.testbit b i else Z.testbit v (i - 8).
Proof.
  intros Hb Hi. rewrite <- lor_shiftl_byte, Z.lor_spec by done. destruct (Z.ltb_spec i 8).
  - by rewrite Z.shiftl_spec_low by lia.
  - rewrite Z.shiftl_spec by lia. by rewrite (testbit_byte b), orb_false_r.
Qed.

Lemma testbit_W a b c d i : is_u8 b -> is_u8 c -> is_u8 d -> 0 <= i ->
  Z.testbit (W a b c d) i =
    if i <? 8 then Z.testbit d i else if i - 8 <? 8 then Z.testbit c (i - 8)
    else if i - 8 - 8 <? 8 then Z.testbit b (i - 8 - 8) else Z.testbit a (i - 8 - 8 - 8).
Proof.
  intros Hb Hc Hd Hi. rewrite W_sum.
  replace (16777216 * a + 65536 * b + 256 * c + d) with (256 * (256 * (256 * a + b) + c) + d) by lia.
  rewrite testbit_snoc by done. destruct (Z.ltb_spec i 8); [done|].
  rewrite testbit_snoc by (done || lia). destruct (Z.ltb_spec (i - 8) 8); [done|]. by rewrite testbit_snoc by (done || lia).
Qed.

Lemma byte_land a b : is_u8 a -> is_u8 b -> is_u8 (Z.land a b).
Proof.
  intros Ha Hb. assert (Z.land a b = u8 (Z.land a b)) as ->; [|apply u8_range].
  unfold u8. apply Z.bits_inj'. intros i Hi. rewrite testbit_mod by lia. destruct (Z.ltb_spec i 8); [done|].
  by rewrite Z.land_spec, testbit_byte.
Qed.

Lemma W_land a b c d a' b' c' d' :
  is_u8 a -> is_u8 b -> is_u8 c -> is_u8 d -> is_u8 a' -> is_u8 b' -> is_u8 c' -> is_u8 d' ->
  Z.land (W a b c d) (W a' b' c' d') = W (Z.land a a') (Z.land b b') (Z.land c c') (Z.land d d').
Proof.
  intros. apply Z.bits_inj'. intros i Hi. rewrite Z.land_spec, !testbit_W by (done || by apply byte_land).
  by repeat case_match; rewrite Z.land_spec.
Qed.

(** A byte as its high bit and the others, and its double. *)
Lemma xtime_parts a : is_u8 a -> exists x l,
  Z.land a 0x80 = 128 * x /\ Z.land a 0x7f = l /\ 0 <= x <= 1 /\ 0 <= l < 128 /\
  is_u8 (xtime a) /\ xtime a = Z.lxor (2 * l) (Z.land (127 * x) 0x1b).
Proof.
  intros Ha. exists (Z.land a 0x80 / 128), (Z.land a 0x7f).
  pose proof (byte_check (fun a => let x := Z.land a 0x80 / 128 in let l := Z.land a 0x7f in
    (Z.land a 0x80 =? 128 * x) && ((0 <=? x) && (x <=? 1)) && ((0 <=? l) && (l <? 128)) &&
    ((0 <=? xtime a) && (xtime a <? 256)) && (xtime a =? Z.lxor (2 * l) (Z.land (127 * x) 0x1b)))
    ltac:(vm_compute; reflexivity) a Ha) as H.
  cbv beta zeta in H. rewrite !andb_true_iff, !Z.eqb_eq, !Z.leb_le, !Z.ltb_lt in H. unfold is_u8.
  pose proof (eq_refl (Z.land a 0x7f)). tauto.
Qed.

Lemma double4_W a b c d : is_u8 a -> is_u8 b -> is_u8 c -> is_u8 d ->
  double4 (W a b c d) = W (xtime a) (xtime b) (xtime c) (xtime d).
Proof.
  intros Ha Hb Hc Hd. unfold double4.
  change 0x80808080 with (W 0x80 0x80 0x80 0x80). change 0x7f7f7f7f with (W 0x7f 0x7f 0x7f 0x7f).
  change 0x1b1b1b1b with (W 0x1b 0x1b 0x1b 0x1b). rewrite !W_land by done.
  destruct (xtime_parts a Ha) as (xa & la & -> & -> & Hxa & Hla & _ & ->), (xtime_parts b Hb) as (xb & lb & -> & -> & Hxb & Hlb & _ & ->),
    (xtime_parts c Hc) as (xc & lc & -> & -> & Hxc & Hlc & _ & ->), (xtime_parts d Hd) as (xd & ld & -> & -> & Hxd & Hld & _ & ->).
  assert (Z.shiftl (W la lb lc ld) 1 = W (2 * la) (2 * lb) (2 * lc) (2 * ld)) as ->
    by (rewrite Z.shiftl_mul_pow2, !W_sum by lia; lia).
  assert (W (128 * xa) (128 * xb) (128 * xc) (128 * xd) - Z.shiftr (W (128 * xa) (128 * xb) (128 * xc) (128 * xd)) 7 =
    W (127 * xa) (127 * xb) (127 * xc) (127 * xd)) as ->.
  { assert (W (128 * xa) (128 * xb) (128 * xc) (128 * xd) = W xa xb xc xd * 128) as -> by (rewrite !W_sum; lia).
    rewrite Z.shiftr_div_pow2 by lia. change (2 ^ 7) with 128. rewrite Z.div_mul, !W_sum by lia. lia. }
  rewrite !u32_id by (apply W_u32; unfold is_u8; lia). rewrite W_land by (done || (unfold is_u8; lia)).
  apply W_lxor; try apply byte_land; done || (unfold is_u8; lia).
Qed.

(** The shifts move bytes. *)
Lemma W_shifts a b c d : is_u8 a -> is_u8 b -> is_u8 c -> is_u8 d ->
  Z.shiftr (W a b c d) 8 = W 0 a b c /\ Z.shiftr (W a b c d) 16 = W 0 0 a b /\ Z.shiftr (W a b c d) 24 = W 0 0 0 a /\
  u32 (Z.shiftl (W a b c d) 8) = W b c d 0 /\ u32 (Z.shiftl (W a b c d) 16) = W c d 0 0 /\
  u32 (Z.shiftl (W a b c d) 24) = W d 0 0 0.
Proof.
  intros. unfold is_u8, u32 in *. rewrite !Z.shiftl_mul_pow2, !Z.shiftr_div_pow2, !W_sum by lia.
  split_and!; Z.div_mod_to_equations; lia.
Qed.

Lemma gmul_doubles a : is_u8 a ->
  let x := xtime a in let x2 := xtime x in let x3 := xtime x2 in
  gmul 9 a = Z.lxor x3 a /\ gmul 11 a = Z.lxor (Z.lxor x3 a) x /\ gmul 13 a = Z.lxor (Z.lxor x3 a) x2 /\
  gmul 14 a = Z.lxor (Z.lxor x3 x2) x.
Proof.
  intros Ha. pose proof (byte_check (fun a => let x := xtime a in let x2 := xtime x in let x3 := xtime x2 in
    (gmul 9 a =? Z.lxor x3 a) && (gmul 11 a =? Z.lxor (Z.lxor x3 a) x) && (gmul 13 a =? Z.lxor (Z.lxor x3 a) x2) &&
    (gmul 14 a =? Z.lxor (Z.lxor x3 x2) x)) ltac:(vm_compute; reflexivity) a Ha) as H.
  cbv beta zeta in H. rewrite !andb_true_iff, !Z.eqb_eq in H. cbv zeta. tauto.
Qed.

Lemma xtime_byte a : is_u8 a -> is_u8 (xtime a).
Proof. intros Ha. by destruct (xtime_parts a Ha) as (? & ? & _ & _ & _ & _ & ? & _). Qed.

(** The inverse of the multiplication of columns, on a word. *)
Lemma inv_mix4_spec v : is_u32 v -> inv_mix4 v = inv_mix_of v.
Proof.
  intros (a & b & c & d & -> & Ha & Hb & Hc & Hd)%W_split. unfold inv_mix_of. rewrite word_bytes_W by done.
  cbn [on_column]. unfold inv_mix_column, inv_mix4.
  destruct (gmul_doubles a Ha) as (-> & -> & -> & ->), (gmul_doubles b Hb) as (-> & -> & -> & ->),
    (gmul_doubles c Hc) as (-> & -> & -> & ->), (gmul_doubles d Hd) as (-> & -> & -> & ->).
  rewrite !double4_W by (done || by repeat apply xtime_byte).
  repeat match goal with H : is_u8 ?x |- context [xtime ?x] =>
    let y := fresh "y" in pose proof (xtime_byte x H); set (y := xtime x) in *; clearbody y end.
  rewrite !W_lxor by (repeat apply byte_lxor; done).
  repeat match goal with |- context [Z.shiftr (W ?a ?b ?c ?d) _] =>
    destruct (W_shifts a b c d) as (E1 & E2 & E3 & E4 & E5 & E6); [repeat apply byte_lxor; done..|];
    rewrite ?E1, ?E2, ?E3, ?E4, ?E5, ?E6; clear E1 E2 E3 E4 E5 E6 end.
  rewrite !W_lxor by (repeat apply byte_lxor; done). unfold xor4.
  match goal with |- W ?a ?b ?c ?d = of_bytes [?a'; ?b'; ?c'; ?d'] => change (W a b c d = W a' b' c' d') end.
  f_equal; zxor.
Qed.

(** *** The schedule for decryption *)
Lemma column_step j rk : words rk ->
  (let* v := rk !! j in rk_set j (inv_mix4 v) rk) = rk_inv_mix j rk /\ forall rk', rk_inv_mix j rk = Some rk' -> words rk'.
Proof.
  intros Hw. unfold rk_inv_mix, rk_set. destruct (rk !! j) as [v|] eqn:Ej; [|done].
  pose proof (proj1 (Forall_lookup _ _) Hw j v Ej) as Hv. cbn beta in Hv. rewrite (inv_mix_word_spec v Hv).
  change (of_bytes (on_column inv_mix_column (word_bytes v))) with (inv_mix_of v). rewrite (inv_mix4_spec v Hv).
  split; [done|]. intros rk' [= <-]. apply Forall_insert; [done|].
  apply W_split in Hv as (a & b & c & d & -> & Ha & Hb & Hc & Hd). by apply inv_mix_of_W.
Qed.

Fixpoint inv_mix_run (k j : nat) (rk : list Z) : option (list Z) :=
  match k with O => Some rk | S k' => let* rk := rk_inv_mix j rk in inv_mix_run k' (S j) rk end.

Lemma column_loop_same k j rk : words rk ->
  column_loop k j rk = inv_mix_run k j rk /\ forall rk', inv_mix_run k j rk = Some rk' -> words rk'.
Proof.
  revert j rk. induction k as [|k IH]; intros j rk Hw; cbn [column_loop inv_mix_run]; [split; [done|by intros ? [= <-]]|].
  destruct (column_step j rk Hw) as [E Hs]. rewrite <- E in *. destruct (rk !! j) as [v|]; [|done].
  destruct (rk_set j (inv_mix4 v) rk) as [rk1|]; [|done]. apply IH. by apply Hs.
Qed.

Lemma asm_inv_mix_loop_same n o rk : words rk -> asm_inv_mix_loop n o rk = inv_mix_loop n o rk.
Proof.
  revert o rk. induction n as [|n IH]; intros o rk Hw; [done|]. cbn [asm_inv_mix_loop inv_mix_loop].
  destruct (column_loop_same 4 o rk Hw) as [-> Hs]. cbn [inv_mix_run] in *. 
  replace (S o) with (o + 1)%nat in * by lia. replace (S (o + 1)) with (o + 2)%nat in * by lia.
  replace (S (o + 2)) with (o + 3)%nat in * by lia.
  repeat match goal with |- context [rk_inv_mix ?i ?r] => destruct (rk_inv_mix i r); [|done] end. apply IH. by apply Hs.
Qed.

(** The key schedules with the substitution box and with four bytes at once are
    those with the tables: for encryption with any arguments, for decryption
    with a key that is long enough. *)
Theorem asm_schedules_same bits Nk Nr userKey key :
  aes_size bits Nk Nr -> bytes userKey -> (4 * Nk <= length userKey)%nat -> key_array key ->
  (forall userKey bits key, asm_set_encrypt_key userKey bits key = AES_set_encrypt_key userKey bits key) /\
  asm_set_decrypt_key userKey bits key = AES_set_decrypt_key userKey bits key.
Proof.
  intros Hs Hb Hl Hk. split; [exact asm_encrypt_key_same|]. unfold asm_set_decrypt_key, AES_set_decrypt_key.
  rewrite asm_encrypt_key_same.
  destruct (AES_set_encrypt_key_spec bits Nk Nr userKey key Hs Hb Hl Hk) as (ekey & -> & _ & [_ Hw] & _).
  cbn [Z.ltb Z.compare]. destruct (swap_loop _ _ _ _) as [rk|] eqn:E; [|done].
  by rewrite asm_inv_mix_loop_same by (by eapply swap_loop_words).
Qed.

Lemma asm_schedules_same_witness :
  asm_set_decrypt_key (map Z.of_nat (seq 0 32)) 256 (mk_key (replicate 60 0) 0) =
  AES_set_decrypt_key (map Z.of_nat (seq 0 32)) 256 (mk_key (replicate 60 0) 0).
Proof.
  apply (asm_schedules_same 256 8 14).
  - right. right. done.
  - by apply bytes_check.
  - cbn. lia.
  - apply test_key_array.
Defined.
End Asm.
