(* ===== verification/AesCfb.v ===== *)
(** * Cipher feedback ([openssl_cfb128.c], [openssl_aes_cfb.c], [openssl_aes.c])

    The mode of operation that the agent encrypts with: [CRYPTO_cfb128_encrypt]
    over any block cipher, its use with AES and the functions [AES_Encrypt] and
    [AES_Decrypt] that the agent calls.  Input and output are different pieces
    of memory, as in the agent, which copies the cipher text before it decrypts
    it.  The reference is CFB-128 of NIST SP 800-38A. *)
From S2P Require Import Prelude HashWords AesTables AesSpec Aes.
Local Open Scope Z_scope.

(** ** [CRYPTO_cfb128_encrypt] *)
Section Cfb.
Context (block : list Z -> option (list Z)) (enc : bool).

(** One byte: the output, and what is left in the vector at its place. *)
Definition cfb_byte (v x : Z) : Z * Z :=
  let y := Z.lxor v x in (y, if enc then y else x).

(** [while (n && len)]: the output, the vector, [n] and the rest of the input. *)
Fixpoint cfb_head (inp ivec : list Z) (n : nat) : option (list Z * list Z * nat * list Z) :=
  match inp with
  | x :: inp' =>
      if Nat.eqb n 0 then Some ([], ivec, n, inp)
      else
        let* v := ivec !! n in
        let (y, v') := cfb_byte v x in
        let* (out, ivec, n, rest) := cfb_head inp' (<[n := v']> ivec) ((n + 1) mod 16) in
        Some (y :: out, ivec, n, rest)
  | [] => Some ([], ivec, n, [])
  end.

(** [while (len>=16)]: blocks are combined a [size_t] at a time, which is byte
    by byte on the memory. *)
Fixpoint cfb_blocks (fuel : nat) (inp ivec : list Z) : option (list Z * list Z * list Z) :=
  if Nat.leb 16 (length inp) then
    match fuel with
    | O => None
    | S fuel' =>
        let* ivec := block ivec in
        let x := take 16 inp in
        let y := zip_with Z.lxor ivec x in
        let* (out, ivec, rest) := cfb_blocks fuel' (drop 16 inp) (if enc then y else x) in
        Some (y ++ out, ivec, rest)
    end
  else Some ([], ivec, inp).

(** [while (len--)] *)
Fixpoint cfb_tail (inp ivec : list Z) (n : nat) : option (list Z * list Z * nat) :=
  match inp with
  | [] => Some ([], ivec, n)
  | x :: inp' =>
      let* v := ivec !! n in
      let (y, v') := cfb_byte v x in
      let* (out, ivec, n) := cfb_tail inp' (<[n := v']> ivec) (S n) in
      Some (y :: out, ivec, n)
  end.

(** [while (l<len)], a byte at a time. *)
Fixpoint cfb_bytes (inp ivec : list Z) (n : nat) : option (list Z * list Z * nat) :=
  match inp with
  | [] => Some ([], ivec, n)
  | x :: inp' =>
      let* ivec := (if Nat.eqb n 0 then block ivec else Some ivec) in
      let* v := ivec !! n in
      let (y, v') := cfb_byte v x in
      let* (out, ivec, n) := cfb_bytes inp' (<[n := v']> ivec) ((n + 1) mod 16) in
      Some (y :: out, ivec, n)
  end.

(** The output, the vector and [*num].  [fast] says that the addresses are
    aligned, or that the target does not need them to be. *)
Definition CRYPTO_cfb128_encrypt (fast : bool) (inp ivec : list Z) (num : nat) : option (list Z * list Z * nat) :=
  let* (out1, ivec, n, inp) := cfb_head inp ivec num in
  if fast then
    let* (out2, ivec, inp) := cfb_blocks (length inp) inp ivec in
    let* (out3, ivec, n) :=
      (if Nat.eqb (length inp) 0 then Some ([], ivec, 0%nat)
       else let* ivec := block ivec in cfb_tail inp ivec 0) in
    Some (out1 ++ out2 ++ out3, ivec, n)
  else
    let* (out2, ivec, n) := cfb_bytes inp ivec n in Some (out1 ++ out2, ivec, n).
End Cfb.

(** ** The reference: CFB with segments of a block

    [E] is the forward cipher; the last segment may be short. *)
Fixpoint cfb (fuel : nat) (E : list Z -> list Z) (enc : bool) (iv text : list Z) : list Z :=
  match fuel, text with
  | S fuel', _ :: _ =>
      let x := take 16 text in
      let y := zip_with Z.lxor (E iv) x in
      y ++ cfb fuel' E enc (if enc then y else x) (drop 16 text)
  | _, _ => []
  end.
Definition cfb128 (E : list Z -> list Z) (enc : bool) (iv text : list Z) : list Z := cfb (length text) E enc iv text.

Section CfbProofs.
Context (E : list Z -> list Z) (HE : forall b, length b = 16%nat -> bytes b -> length (E b) = 16%nat /\ bytes (E b)).
Context (block : list Z -> option (list Z)).
Context (Hblock : forall b, length b = 16%nat -> bytes b -> block b = Some (E b)).

Lemma zip_xor_length (a b : list Z) : length (zip_with Z.lxor a b) = Nat.min (length a) (length b).
Proof. apply length_zip_with. Qed.

Lemma zip_xor_bytes (a b : list Z) : bytes a -> bytes b -> bytes (zip_with Z.lxor a b).
Proof.
  intros Ha. revert b. induction Ha as [|x a Hx Ha IH]; intros [|y b] Hb; cbn [zip_with]; try constructor.
  - apply Forall_cons in Hb as [Hy _]. by apply byte_lxor.
  - apply Forall_cons in Hb as [_ Hb]. by apply IH.
Qed.

Lemma zip_xor_cancel (a b : list Z) : (length b <= length a)%nat -> zip_with Z.lxor a (zip_with Z.lxor a b) = b.
Proof.
  revert b. induction a as [|x a IH]; intros [|y b] Hl; cbn [zip_with length] in *; [done|lia|done|].
  rewrite IH by lia. f_equal. zxor.
Qed.

Lemma cfb_length fuel enc iv text : (length text <= fuel)%nat -> length iv = 16%nat -> bytes iv -> bytes text ->
  length (cfb fuel E enc iv text) = length text /\ bytes (cfb fuel E enc iv text).
Proof.
  revert iv text. induction fuel as [|fuel IH]; intros iv text Hf Hi Hbi Hb; [destruct text; [done|cbn in Hf; lia]|].
  destruct text as [|t text']; [done|]. cbn [cfb]. set (text := t :: text') in *.
  destruct (HE iv Hi Hbi) as [HE1 HE2]. set (y := zip_with Z.lxor (E iv) (take 16 text)).
  assert (length y = Nat.min 16 (length text)) as Hy by (subst y; rewrite zip_xor_length, length_take; lia).
  assert (bytes y) as Hby by (apply zip_xor_bytes; [done|by apply Forall_take]).
  assert (bytes (if enc then y else take 16 text)) as Hbn by (destruct enc; [done|by apply Forall_take]).
  rewrite length_app. destruct (decide (16 <= length text)%nat) as [Hg|Hg].
  - destruct (IH (if enc then y else take 16 text) (drop 16 text)) as [-> Hr].
    + rewrite length_drop. subst text. cbn [length] in *. lia.
    + destruct enc; rewrite ?length_take; lia.
    + done.
    + by apply Forall_drop.
    + rewrite length_drop. split; [lia|by apply Forall_app_2].
  - rewrite (drop_ge text) by lia. destruct fuel; cbn [cfb]; rewrite app_nil_r; (split; [cbn [length]; lia|done]).
Qed.

(** Decryption inverts encryption, whatever the cipher. *)
Lemma cfb_inverse fuel iv text : (length text <= fuel)%nat -> length iv = 16%nat -> bytes iv -> bytes text ->
  cfb fuel E false iv (cfb fuel E true iv text) = text.
Proof.
  revert iv text. induction fuel as [|fuel IH]; intros iv text Hf Hi Hbi Hb; [destruct text; [done|cbn in Hf; lia]|].
  destruct text as [|t text']; [done|]. set (text := t :: text') in *.
  destruct (HE iv Hi Hbi) as [HE1 HE2].
  change (cfb (S fuel) E true iv text) with (zip_with Z.lxor (E iv) (take 16 text) ++
    cfb fuel E true (zip_with Z.lxor (E iv) (take 16 text)) (drop 16 text)).
  set (y := zip_with Z.lxor (E iv) (take 16 text)). set (r := cfb fuel E true y (drop 16 text)).
  assert (length y = Nat.min 16 (length text)) as Hy by (subst y; rewrite zip_xor_length, length_take; lia).
  assert (bytes y) as Hby by (apply zip_xor_bytes; [done|by apply Forall_take]).
  assert (1 <= length text)%nat as H1 by (subst text; cbn [length]; lia).
  assert (take 16 (y ++ r) = y /\ drop 16 (y ++ r) = r) as [Et Ed].
  { destruct (decide (16 <= length text)%nat) as [Hg|Hg].
    - replace 16%nat with (length y) by lia. by rewrite take_app_length, drop_app_length.
    - assert (r = []) as -> by (subst r; rewrite (drop_ge text) by lia; by destruct fuel).
      rewrite app_nil_r, take_ge, drop_ge by lia. done. }
  assert (cfb (S fuel) E false iv (y ++ r) = zip_with Z.lxor (E iv) y ++ cfb fuel E false y r) as ->.
  { destruct (y ++ r) eqn:Eyr; [apply app_nil in Eyr as [Ey _]; rewrite Ey in Hy; cbn in Hy; lia|].
    rewrite <- Eyr in *. cbn [cfb]. rewrite Eyr. cbn [cfb]. rewrite <- Eyr, Et, Ed. done. }
  assert (zip_with Z.lxor (E iv) y = take 16 text) as -> by (subst y; apply zip_xor_cancel; rewrite length_take; lia).
  rewrite <- (take_drop 16 text) at 2. f_equal. subst r. destruct (decide (16 <= length text)%nat) as [Hg|Hg].
  - apply IH; [rewrite length_drop; lia|lia|done|by apply Forall_drop].
  - rewrite (drop_ge text) by lia. by destruct fuel.
Qed.

Lemma cfb_fuel fuel enc iv text : (length text <= fuel)%nat -> cfb fuel E enc iv text = cfb128 E enc iv text.
Proof.
  unfold cfb128. assert (forall f1 f2 iv text, (length text <= f1)%nat -> (length text <= f2)%nat ->
    cfb f1 E enc iv text = cfb f2 E enc iv text) as Hf; [|intros; apply Hf; lia].
  clear. induction f1 as [|f1 IH]; intros [|f2] iv text H1 H2; destruct text as [|t text]; try done; [cbn in *; lia..|].
  cbn [cfb]. f_equal. apply IH; rewrite length_drop; cbn [length] in *; lia.
Qed.

(** The first block of a text, and a text that is shorter than a block. *)
Lemma cfb128_block enc iv text : (16 <= length text)%nat ->
  let y := zip_with Z.lxor (E iv) (take 16 text) in
  cfb128 E enc iv text = y ++ cfb128 E enc (if enc then y else take 16 text) (drop 16 text).
Proof.
  intros Hl y. unfold cfb128 at 1. destruct text as [|t text']; [cbn in Hl; lia|]. set (text := t :: text') in *.
  change (length text) with (S (length text')). cbn [cfb]. rewrite cfb_fuel; [done|].
  rewrite length_drop. subst text. cbn [length] in *. lia.
Qed.

Lemma cfb128_short enc iv text : (length text < 16)%nat -> text <> [] -> cfb128 E enc iv text = zip_with Z.lxor (E iv) text.
Proof.
  intros Hl Hn. unfold cfb128. destruct text as [|t text']; [done|]. set (text := t :: text') in *.
  change (length text) with (S (length text')). cbn [cfb]. rewrite take_ge, drop_ge by lia.
  destruct (length text'); by rewrite app_nil_r.
Qed.

Lemma cfb_tail_spec enc inp ivec n : (n + length inp <= length ivec)%nat ->
  exists ivec', cfb_tail enc inp ivec n = Some (zip_with Z.lxor (drop n ivec) inp, ivec', (n + length inp)%nat) /\
    length ivec' = length ivec /\
    (n = 0%nat -> length inp = length ivec -> ivec' = if enc then zip_with Z.lxor ivec inp else inp).
Proof.
  assert (forall inp ivec n, (n + length inp <= length ivec)%nat ->
    cfb_tail enc inp ivec n = Some (zip_with Z.lxor (drop n ivec) inp,
      take n ivec ++ (if enc then zip_with Z.lxor (drop n ivec) inp else inp) ++ drop (n + length inp) ivec, (n + length inp)%nat)) as Hc.
  { clear. induction inp as [|x inp IH]; intros ivec n Hl; cbn [cfb_tail length] in *.
    - rewrite Nat.add_0_r, zip_with_nil_r. destruct enc; cbn [app]; by rewrite take_drop.
    - destruct (lookup_lt_is_Some_2 ivec n ltac:(lia)) as [v Ev]. rewrite Ev. cbn [cfb_byte].
      set (v' := if enc then Z.lxor v x else x). rewrite IH by (rewrite length_insert; lia).
      assert (drop n ivec = v :: drop (S n) ivec) as Ed by (by apply drop_S).
      assert (drop (S n) (<[n:=v']> ivec) = drop (S n) ivec) as Ed' by (apply drop_insert_lt; lia).
      assert (take (S n) (<[n:=v']> ivec) = take n ivec ++ [v']) as Et.
      { rewrite (take_S_r _ _ v') by (apply list_lookup_insert_eq; lia). f_equal. apply take_insert_ge. lia. }
      rewrite Ed, Ed', Et. cbn [zip_with]. replace (S n + length inp)%nat with (n + S (length inp))%nat by lia.
      rewrite drop_insert_lt by lia. do 3 f_equal. rewrite <- app_assoc. subst v'. by destruct enc. }
  intros Hl. rewrite Hc by done. eexists. split; [reflexivity|]. split.
  - rewrite !length_app, length_take, length_drop. destruct enc; rewrite ?length_zip_with, ?length_drop; lia.
  - intros -> Hi. rewrite take_0, drop_0, (drop_ge ivec), app_nil_r by lia. done.
Qed.

Lemma mod16_sub n : (16 <= n)%nat -> (n mod 16 = (n - 16) mod 16)%nat.
Proof. intros Hn. replace n with (n - 16 + 1 * 16)%nat at 1 by lia. apply Nat.Div0.mod_add. Qed.

Lemma cfb_blocks_spec enc fuel inp ivec : (length inp <= fuel)%nat -> length ivec = 16%nat -> bytes ivec -> bytes inp ->
  exists out ivec' rest, cfb_blocks block enc fuel inp ivec = Some (out, ivec', rest) /\
    (length rest < 16)%nat /\ (length inp mod 16 = length rest)%nat /\ length ivec' = 16%nat /\ bytes ivec' /\ bytes rest /\
    cfb128 E enc ivec inp = out ++ cfb128 E enc ivec' rest.
Proof.
  revert inp ivec. induction fuel as [|fuel IH]; intros inp ivec Hf Hi Hbi Hb; cbn [cfb_blocks];
    destruct (Nat.leb_spec 16 (length inp)) as [Hg|Hg]; [lia| | |];
    try (exists [], ivec, inp; rewrite Nat.mod_small by lia; done).
  rewrite Hblock by done. destruct (HE ivec Hi Hbi) as [HE1 HE2]. rewrite cfb128_block by done.
  set (y := zip_with Z.lxor (E ivec) (take 16 inp)).
  assert (length y = 16%nat) as Hy by (subst y; rewrite zip_xor_length, length_take; lia).
  assert (bytes y) as Hby by (apply zip_xor_bytes; [done|by apply Forall_take]).
  destruct (IH (drop 16 inp) (if enc then y else take 16 inp)) as (out & ivec' & rest & -> & H1 & Hm & H2 & H3 & H4 & ->).
  - rewrite length_drop. lia.
  - destruct enc; [done|]. rewrite length_take. lia.
  - destruct enc; [done|by apply Forall_take].
  - by apply Forall_drop.
  - exists (y ++ out), ivec', rest. rewrite app_assoc. split; [done|]. split; [done|]. split; [|done].
    rewrite <- Hm, length_drop. by apply mod16_sub.
Qed.

(** The bytes up to the end of a block. *)
Lemma cfb_bytes_segment enc k n inp ivec : (n + k = 16)%nat -> (1 <= n)%nat -> length ivec = 16%nat ->
  cfb_bytes block enc inp ivec (n mod 16) =
    (let* (y, ivec', n') := cfb_tail enc (take k inp) ivec n in
     let* (out, ivec'', m) := cfb_bytes block enc (drop k inp) ivec' (if decide (k <= length inp)%nat then 0 else n')%nat in
     Some (y ++ out, ivec'', m)).
Proof.
  revert n inp ivec. induction k as [|k IH]; intros n inp ivec Hn H1 Hl.
  - replace n with 16%nat by lia. rewrite drop_0, take_0. change (16 mod 16)%nat with 0%nat. cbn [cfb_tail].
    rewrite decide_True by lia. cbn [app]. by destruct (cfb_bytes _ _ _ _ _) as [[[? ?] ?]|].
  - rewrite Nat.mod_small by lia. destruct inp as [|x inp]; [done|].
    cbn [cfb_bytes cfb_tail take drop length]. rewrite (proj2 (Nat.eqb_neq n 0)) by lia.
    destruct (ivec !! n) as [v|]; [|done]. cbn [cfb_byte]. replace (n + 1)%nat with (S n) by lia.
    rewrite IH by (rewrite ?length_insert; lia).
    destruct (cfb_tail enc (take k inp) _ (S n)) as [[[y ivec'] n']|]; [|done].
    replace (if decide (S k <= S (length inp))%nat then 0%nat else n') with (if decide (k <= length inp)%nat then 0%nat else n')
      by (repeat case_decide; done || lia).
    by destruct (cfb_bytes _ _ _ _ _) as [[[? ?] ?]|].
Qed.

Lemma cfb_bytes_first enc inp ivec : inp <> [] -> length ivec = 16%nat -> bytes ivec ->
  cfb_bytes block enc inp ivec 0 =
    (let* (y, ivec', n') := cfb_tail enc (take 16 inp) (E ivec) 0 in
     let* (out, ivec'', m) := cfb_bytes block enc (drop 16 inp) ivec' (if decide (16 <= length inp)%nat then 0 else n')%nat in
     Some (y ++ out, ivec'', m)).
Proof.
  intros Hne Hl Hb. destruct inp as [|x inp]; [done|]. cbn [cfb_bytes cfb_tail take drop length Nat.eqb].
  rewrite Hblock by done. destruct (HE ivec Hl Hb) as [HE1 _].
  destruct (E ivec !! 0%nat) as [v|]; [|done]. cbn [cfb_byte]. change ((0 + 1) mod 16)%nat with (1 mod 16)%nat.
  rewrite (cfb_bytes_segment enc 15 1) by (rewrite ?length_insert; lia).
  destruct (cfb_tail enc (take 15 inp) _ 1) as [[[y ivec'] n']|]; [|done].
  replace (if decide (16 <= S (length inp))%nat then 0%nat else n') with (if decide (15 <= length inp)%nat then 0%nat else n')
    by (repeat case_decide; done || lia).
  by destruct (cfb_bytes _ _ _ _ _) as [[[? ?] ?]|].
Qed.

Lemma cfb_bytes_spec enc fuel inp ivec : (length inp <= fuel)%nat -> length ivec = 16%nat -> bytes ivec -> bytes inp ->
  exists ivec', cfb_bytes block enc inp ivec 0 = Some (cfb128 E enc ivec inp, ivec', (length inp mod 16)%nat).
Proof.
  revert inp ivec. induction fuel as [|fuel IH]; intros inp ivec Hf Hi Hbi Hb.
  - destruct inp; [|cbn in Hf; lia]. by exists ivec.
  - destruct (decide (inp = [])) as [->|Hne]; [by exists ivec|]. rewrite cfb_bytes_first by done.
    destruct (HE ivec Hi Hbi) as [HE1 HE2].
    destruct (cfb_tail_spec enc (take 16 inp) (E ivec) 0) as (iv1 & -> & Hl1 & Hv1); [rewrite length_take; lia|].
    rewrite drop_0. destruct (decide (16 <= length inp)%nat) as [Hg|Hg].
    + rewrite Hv1 by (done || rewrite length_take; lia). rewrite cfb128_block by done.
      set (y := zip_with Z.lxor (E ivec) (take 16 inp)).
      assert (bytes y) as Hby by (apply zip_xor_bytes; [done|by apply Forall_take]).
      destruct (IH (drop 16 inp) (if enc then y else take 16 inp)) as (iv2 & ->).
      * rewrite length_drop. lia.
      * subst y. destruct enc; rewrite ?zip_xor_length, ?length_take; lia.
      * destruct enc; [done|by apply Forall_take].
      * by apply Forall_drop.
      * exists iv2. do 2 f_equal. rewrite length_drop. symmetry. by apply mod16_sub.
    + rewrite drop_ge by lia. cbn [cfb_bytes]. rewrite take_ge, cfb128_short, app_nil_r by (done || lia).
      exists iv1. by rewrite Nat.mod_small by lia.
Qed.

(** Starting at a block boundary, both ways to write the loop are the mode of
    the standard. *)
Lemma cfb128_encrypt_spec enc fast inp ivec : length ivec = 16%nat -> bytes ivec -> bytes inp ->
  exists ivec', CRYPTO_cfb128_encrypt block enc fast inp ivec 0 = Some (cfb128 E enc ivec inp, ivec', (length inp mod 16)%nat).
Proof.
  intros Hi Hbi Hb. unfold CRYPTO_cfb128_encrypt.
  assert (cfb_head enc inp ivec 0 = Some ([], ivec, 0%nat, inp)) as -> by (by destruct inp).
  destruct fast.
  - destruct (cfb_blocks_spec enc (length inp) inp ivec) as (out & iv1 & rest & E1 & Hr & Hm & Hl1 & Hb1 & Hbr & Ec); [done..|].
    rewrite E1, Ec, Hm. destruct (Nat.eqb_spec (length rest) 0) as [E0|E0].
    + apply length_zero_iff_nil in E0 as ->. by exists iv1.
    + rewrite Hblock by done. destruct (HE iv1 Hl1 Hb1) as [HE1 HE2].
      destruct (cfb_tail_spec enc rest (E iv1) 0) as (iv2 & -> & _ & _); [lia|]. rewrite drop_0.
      rewrite cfb128_short by (done || by intros ->). by exists iv2.
  - destruct (cfb_bytes_spec enc (length inp) inp ivec) as (iv' & ->); [done..|]. by exists iv'.
Qed.
End CfbProofs.

(** Within a block, before its end, the three loops do the same. *)
Lemma cfb_head_tail enc inp ivec n : (1 <= n)%nat -> (n + length inp < 16)%nat ->
  cfb_head enc inp ivec n = (let* (out, ivec, n) := cfb_tail enc inp ivec n in Some (out, ivec, n, [])).
Proof.
  revert ivec n. induction inp as [|x inp IH]; intros ivec n Hn Hl; [done|]. cbn [cfb_head cfb_tail length] in *.
  rewrite (proj2 (Nat.eqb_neq n 0)) by lia. destruct (ivec !! n) as [v|]; [|done]. cbn [cfb_byte].
  replace ((n + 1) mod 16)%nat with (S n) by (rewrite Nat.mod_small; lia). rewrite IH by lia.
  by destruct (cfb_tail _ _ _ _) as [[[? ?] ?]|].
Qed.

(** A piece that ends within a block that an earlier piece began: the vector
    and the output are right, but on the fast path [*num] becomes 0, so that the
    next piece begins a new block too early; the byte by byte path returns the
    position it is at. *)
Lemma cfb128_short_piece block enc inp ivec n : length ivec = 16%nat -> (1 <= n)%nat -> (n + length inp < 16)%nat ->
  exists out ivec', CRYPTO_cfb128_encrypt block enc true inp ivec n = Some (out, ivec', 0%nat) /\
    CRYPTO_cfb128_encrypt block enc false inp ivec n = Some (out, ivec', (n + length inp)%nat).
Proof.
  intros Hi Hn Hl. unfold CRYPTO_cfb128_encrypt. rewrite cfb_head_tail by done.
  destruct (cfb_tail_spec enc inp ivec n) as (iv & -> & _ & _); [lia|]. cbn. eexists _, _. by rewrite !app_nil_r.
Qed.

(** ** AES in this mode *)
Definition AES_SECRETKEYLEN : Z := 16.

Definition AES_cfb128_encrypt (fast : bool) (inp : list Z) (key : AES_KEY) (ivec : list Z) (num : nat) (enc : bool)
    : option (list Z * list Z * nat) :=
  CRYPTO_cfb128_encrypt (fun b => AES_encrypt b key) enc fast inp ivec num.

Section Crypt.
(** How the loop is compiled, and the uninitialised [AES_KEY]. *)
Context (fast : bool) (aes_key : AES_KEY).

(** The buffer of the cipher text and [*ctlen] afterwards. *)
Definition AES_Encrypt (key iv plaintext ciphertext : list Z) (ctlen : Z) : option (list Z * Z) :=
  if (zlen plaintext <=? 0) || (ctlen <=? 0) || (zlen plaintext >? ctlen) ||
     (zlen key <? AES_SECRETKEYLEN) || (zlen iv <? AES_SECRETKEYLEN) then Some (ciphertext, ctlen)
  else
    let* (_, k) := AES_set_encrypt_key key (AES_SECRETKEYLEN * 8) aes_key in
    let* my_iv := write_at 0 iv (replicate (Z.to_nat (AES_SECRETKEYLEN * 8)) 0) in
    let* ivec := slice 0 16 my_iv in
    let* (out, _, _) := AES_cfb128_encrypt fast plaintext k ivec 0 true in
    let* ciphertext := write_at 0 out ciphertext in
    Some (ciphertext, zlen plaintext).

Definition AES_Decrypt (key iv ciphertext plaintext : list Z) (ptlen : Z) : option (list Z * Z) :=
  if (zlen ciphertext <=? 0) || (ptlen <=? 0) || (zlen ciphertext >? ptlen) ||
     (zlen key <? AES_SECRETKEYLEN) || (zlen iv <? AES_SECRETKEYLEN) then Some (plaintext, ptlen)
  else
    let* my_iv := write_at 0 iv (replicate (Z.to_nat (AES_SECRETKEYLEN * 8)) 0) in
    let* (_, k) := AES_set_encrypt_key key (AES_SECRETKEYLEN * 8) aes_key in
    let* ivec := slice 0 16 my_iv in
    let* (out, _, _) := AES_cfb128_encrypt fast ciphertext k ivec 0 false in
    let* plaintext := write_at 0 out plaintext in
    Some (plaintext, zlen ciphertext).
End Crypt.

(** The cipher of the standard under a key of 128 bits. *)
Definition aes128 (key b : list Z) : list Z := Cipher 10 (KeyExpansion 4 10 key) b.

Lemma AES_cfb128_spec fast aes_key key iv text enc :
  key_array aes_key -> (16 <= length key)%nat -> bytes key -> length iv = 16%nat -> bytes iv -> bytes text ->
  exists k iv' n, AES_set_encrypt_key key 128 aes_key = Some (0, k) /\
    AES_cfb128_encrypt fast text k iv 0 enc = Some (cfb128 (aes128 key) enc iv text, iv', n).
Proof.
  intros Hk Hl Hb Hi Hbi Ht. assert (aes_size 128 4 10) as Hs by (by left).
  assert (forall b, is_block b -> exists k, AES_set_encrypt_key key 128 aes_key = Some (0, k) /\
    AES_encrypt b k = Some (aes128 key b) /\ is_block (aes128 key b)) as Henc
    by (intros; apply aes_encrypts; done || lia).
  destruct (Henc iv (conj Hi Hbi)) as (k & Ek & _). exists k.
  destruct (cfb128_encrypt_spec (aes128 key)) with (block := fun b => AES_encrypt b k) (enc := enc) (fast := fast) (inp := text) (ivec := iv)
    as (iv' & E); [| |done..|].
  - intros b H1 H2. by destruct (Henc b (conj H1 H2)) as (_ & _ & _ & ?).
  - intros b H1 H2. destruct (Henc b (conj H1 H2)) as (k' & Ek' & ? & _). by simplify_eq.
  - by eexists _, _.
Qed.

Lemma aes128_block key b : (16 <= length key)%nat -> bytes key -> length b = 16%nat -> bytes b ->
  length (aes128 key b) = 16%nat /\ bytes (aes128 key b).
Proof.
  intros Hl Hb H1 H2.
  destruct (aes_encrypts 128 4 10 key (mk_key (replicate 60 0) 0) b) as (_ & _ & _ & ?); [by left|done|lia| |done|done].
  split; [done|]. by apply Forall_replicate.
Qed.

Section CryptProofs.
Context (fast : bool) (aes_key : AES_KEY) (Hkey : key_array aes_key).
Context (key iv : list Z) (Hk : (16 <= length key)%nat) (Hbk : bytes key) (Hi : (16 <= length iv <= 128)%nat) (Hbi : bytes iv).

(** The guards, for arguments that pass them. *)
Lemma crypt_guard (text : list Z) len : text <> [] -> zlen text <= len ->
  (zlen text <=? 0) || (len <=? 0) || (zlen text >? len) || (zlen key <? AES_SECRETKEYLEN) || (zlen iv <? AES_SECRETKEYLEN) = false.
Proof.
  intros Hn Hle. assert (0 < zlen text) by (destruct text; [done|unfold zlen; cbn; lia]).
  unfold AES_SECRETKEYLEN. unfold zlen in *. rewrite Z.gtb_ltb. repeat (apply orb_false_intro); lia.
Qed.

Lemma crypt_iv : write_at 0 iv (replicate (Z.to_nat (AES_SECRETKEYLEN * 8)) 0) = Some (iv ++ drop (length iv) (replicate 128 0)) /\
  slice 0 16 (iv ++ drop (length iv) (replicate 128 0)) = Some (take 16 iv).
Proof.
  split.
  - change (Z.to_nat (AES_SECRETKEYLEN * 8)) with 128%nat. unfold write_at, blit.
    rewrite decide_True by lia. rewrite drop_0, decide_True by (rewrite length_replicate; lia). done.
  - rewrite slice_take by (rewrite length_app; lia). by rewrite take_app_le by lia.
Qed.

Lemma write_out (out buf : list Z) : (length out <= length buf)%nat -> write_at 0 out buf = Some (out ++ drop (length out) buf).
Proof. intros Hl. unfold write_at, blit. by rewrite decide_True, drop_0, decide_True by lia. Qed.

Lemma take_iv : length (take 16 iv) = 16%nat /\ bytes (take 16 iv).
Proof. split; [rewrite length_take; lia|by apply Forall_take]. Qed.

Lemma AES_Encrypt_spec text buf ctlen : text <> [] -> bytes text -> zlen text <= ctlen -> (length text <= length buf)%nat ->
  AES_Encrypt fast aes_key key iv text buf ctlen =
    Some (cfb128 (aes128 key) true (take 16 iv) text ++ drop (length text) buf, zlen text).
Proof.
  intros Hn Hb Hc Hl. unfold AES_Encrypt. rewrite crypt_guard by done. change (AES_SECRETKEYLEN * 8) with 128.
  destruct take_iv as [H1 H2], crypt_iv as [E1 E2].
  destruct (AES_cfb128_spec fast aes_key key (take 16 iv) text true) as (k & iv' & n & -> & Ec); [done..|].
  change (AES_SECRETKEYLEN * 8) with 128 in E1. rewrite E1, E2, Ec.
  destruct (cfb_length (aes128 key)) with (fuel := length text) (enc := true) (iv := take 16 iv) (text := text) as [El _]; [|done..|].
  { intros. by apply aes128_block. }
  unfold cfb128 in *. rewrite write_out by lia. by rewrite El.
Qed.

Lemma AES_Decrypt_spec text buf ptlen : text <> [] -> bytes text -> zlen text <= ptlen -> (length text <= length buf)%nat ->
  AES_Decrypt fast aes_key key iv text buf ptlen =
    Some (cfb128 (aes128 key) false (take 16 iv) text ++ drop (length text) buf, zlen text).
Proof.
  intros Hn Hb Hc Hl. unfold AES_Decrypt. rewrite crypt_guard by done. change (AES_SECRETKEYLEN * 8) with 128.
  destruct take_iv as [H1 H2], crypt_iv as [E1 E2].
  destruct (AES_cfb128_spec fast aes_key key (take 16 iv) text false) as (k & iv' & n & -> & Ec); [done..|].
  change (AES_SECRETKEYLEN * 8) with 128 in E1. rewrite E1, E2, Ec.
  destruct (cfb_length (aes128 key)) with (fuel := length text) (enc := false) (iv := take 16 iv) (text := text) as [El _]; [|done..|].
  { intros. by apply aes128_block. }
  unfold cfb128 in *. rewrite write_out by lia. by rewrite El.
Qed.

(** The cipher text has the length of the text, and decrypts to it. *)
Lemma cfb128_aes text : bytes text ->
  length (cfb128 (aes128 key) true (take 16 iv) text) = length text /\ bytes (cfb128 (aes128 key) true (take 16 iv) text) /\
  cfb128 (aes128 key) false (take 16 iv) (cfb128 (aes128 key) true (take 16 iv) text) = text.
Proof.
  intros Hb. destruct take_iv as [H1 H2].
  assert (forall b, length b = 16%nat -> bytes b -> length (aes128 key b) = 16%nat /\ bytes (aes128 key b)) as HE
    by (intros; by apply aes128_block).
  destruct (cfb_length (aes128 key) HE (length text) true (take 16 iv) text) as [El Ey]; [done..|].
  split; [done|]. split; [done|]. unfold cfb128 at 1 2. rewrite El. by apply cfb_inverse.
Qed.

(** C12: [AES_Encrypt] writes the encryption of the text in CFB mode with the
    AES-128 cipher of FIPS 197, of the same length as the text, and
    [AES_Decrypt] with the same key and initialisation vector gives back the
    text; both work for any text that is not empty, aligned in memory or not,
    and access nothing outside their buffers. *)
Theorem aes_cfb_roundtrip text buf1 buf2 :
  text <> [] -> bytes text -> length buf1 = length text -> length buf2 = length text ->
  exists cipher, AES_Encrypt fast aes_key key iv text buf1 (zlen text) = Some (cipher, zlen text) /\
    cipher = cfb128 (aes128 key) true (take 16 iv) text /\
    AES_Decrypt fast aes_key key iv cipher buf2 (zlen text) = Some (text, zlen text).
Proof.
  intros Hn Hb Hl1 Hl2. destruct (cfb128_aes text Hb) as (El & Hbc & Ei).
  rewrite AES_Encrypt_spec by (assumption || lia). rewrite (drop_ge buf1), app_nil_r by lia.
  eexists. split; [reflexivity|]. split; [reflexivity|].
  revert El Hbc Ei. generalize (cfb128 (aes128 key) true (take 16 iv) text). intros C El Hbc Ei.
  assert (zlen C = zlen text) as Ez by (unfold zlen; by rewrite El).
  rewrite AES_Decrypt_spec; [|intros ->; destruct text; [by apply Hn|discriminate El]|assumption|lia|lia].
  by rewrite Ei, Ez, (drop_ge buf2), app_nil_r by lia.
Qed.
End CryptProofs.

Lemma aes_cfb_roundtrip_witness :
  exists cipher,
    AES_Encrypt true (mk_key (replicate 60 0) 0) (replicate 16 7) (replicate 16 9) [1; 2; 3] (replicate 3 0) (zlen [1; 2; 3])
      = Some (cipher, zlen [1; 2; 3]) /\
    cipher = cfb128 (aes128 (replicate 16 7)) true (take 16 (replicate 16 9)) [1; 2; 3] /\
    AES_Decrypt true (mk_key (replicate 60 0) 0) (replicate 16 7) (replicate 16 9) cipher (replicate 3 0) (zlen [1; 2; 3])
      = Some ([1; 2; 3], zlen [1; 2; 3]).
Proof.
  refine (aes_cfb_roundtrip true (mk_key (replicate 60 0) 0) test_key_array (replicate 16 7) (replicate 16 9)
    _ _ _ _ [1; 2; 3] (replicate 3 0) (replicate 3 0) _ _ _ _);
    first [discriminate | reflexivity | apply bytes_check; reflexivity | cbn; lia].
Defined.
