(* ===== verification/AesCfbBits.v ===== *)
(** * Cipher feedback with short segments ([openssl_cfb128.c], [openssl_aes_cfb.c])

    [CRYPTO_cfb128_8_encrypt] and [CRYPTO_cfb128_1_encrypt], the modes with
    segments of eight bits and of one bit, which are compiled but not called by
    the agent.  The reference is the mode of NIST SP 800-38A on numbers: the
    register of 128 bits is shifted to the left by a segment of cipher text. *)
From Stdlib Require Import Btauto.
From S2P Require Import Prelude BerEncoder BerDecoder HashWords AesTables AesSpec Aes AesCfb.
Local Open Scope Z_scope.

(** ** The code *)
Section Bits.
Context (block : list Z -> option (list Z)) (enc : bool) (junk : Z).

(** The bytes that are written to [out], and [ivec].  [ovec] is the old vector,
    the bytes of cipher text and uninitialised memory; what lies in it is
    shifted to the left by [nbits]. *)
Definition cfbr_encrypt_block (inp : list Z) (nbits : Z) (ivec : list Z) : option (list Z * list Z) :=
  if (nbits <=? 0) || (nbits >? 128) then Some ([], ivec)
  else
    let* old := slice 0 16 ivec in
    let ovec := old ++ replicate 17 junk in
    let* ivec := block ivec in
    let* x := slice 0 (Z.to_nat ((nbits + 7) / 8)) inp in
    let* v := slice 0 (length x) ivec in
    let y := zip_with Z.lxor x v in
    let* ovec := write_at 16 (if enc then y else x) ovec in
    let rem := nbits mod 8 in
    let num := Z.to_nat (nbits / 8) in
    let* hi := slice num 16 ovec in
    if rem =? 0 then Some (y, hi)
    else
      let* lo := slice (S num) 16 ovec in
      Some (y, zip_with (fun a b => u8 (Z.lor (Z.shiftl a rem) (Z.shiftr b (8 - rem)))) hi lo).

(** [k] bytes are left, from index [n] on. *)
Fixpoint cfb8_loop (k n : nat) (inp out ivec : list Z) : option (list Z * list Z) :=
  match k with
  | O => Some (out, ivec)
  | S k' =>
      let* (y, ivec) := cfbr_encrypt_block (drop n inp) 8 ivec in
      let* out := write_at n y out in
      cfb8_loop k' (S n) inp out ivec
  end.

Definition CRYPTO_cfb128_8_encrypt (inp out : list Z) (len : nat) (ivec : list Z) (num : Z) : option (list Z * list Z) :=
  if num =? 0 then cfb8_loop len 0 inp out ivec else None.

(** Bit [n] of a piece of memory, the most significant bit of a byte first. *)
Definition bit_pos (n : nat) : Z := 7 - Z.of_nat (n mod 8).

Fixpoint cfb1_loop (k n : nat) (inp out ivec : list Z) : option (list Z * list Z) :=
  match k with
  | O => Some (out, ivec)
  | S k' =>
      let* b := inp !! (n / 8)%nat in
      let c := if nz (Z.land b (Z.shiftl 1 (bit_pos n))) then 0x80 else 0 in
      let* (d, ivec) := cfbr_encrypt_block [c] 1 ivec in
      let* d0 := d !! 0%nat in
      let* o := out !! (n / 8)%nat in
      let o := u8 (Z.lor (Z.land o (Z.lnot (Z.shiftl 1 (bit_pos n)))) (Z.shiftr (Z.land d0 0x80) (Z.of_nat (n mod 8)))) in
      cfb1_loop k' (S n) inp (<[(n / 8)%nat := o]> out) ivec
  end.

Definition CRYPTO_cfb128_1_encrypt (inp out : list Z) (bits : nat) (ivec : list Z) (num : Z) : option (list Z * list Z) :=
  if num =? 0 then
    let* out := write_at 0 (replicate ((bits + 7) / 8) 0) out in
    cfb1_loop bits 0 inp out ivec
  else None.
End Bits.

Definition AES_cfb1_encrypt (junk : Z) (inp out : list Z) (len : nat) (key : AES_KEY) (ivec : list Z) (num : Z) (enc : bool) :=
  CRYPTO_cfb128_1_encrypt (fun b => AES_encrypt b key) enc junk inp out len ivec num.
Definition AES_cfb8_encrypt (junk : Z) (inp out : list Z) (len : nat) (key : AES_KEY) (ivec : list Z) (num : Z) (enc : bool) :=
  CRYPTO_cfb128_8_encrypt (fun b => AES_encrypt b key) enc junk inp out len ivec num.

(** ** The reference *)

(** [s] bits at a time: [E] is the cipher on numbers of 128 bits. *)
Fixpoint cfb_s (s : Z) (E : Z -> Z) (enc : bool) (reg : Z) (text : list Z) : list Z :=
  match text with
  | [] => []
  | x :: text' =>
      let y := Z.lxor x (Z.shiftr (E reg) (128 - s)) in
      y :: cfb_s s E enc ((Z.shiftl reg s + (if enc then y else x)) mod 2 ^ 128) text'
  end.

(** The cipher on bytes as a cipher on numbers. *)
Definition on_numbers (E : list Z -> list Z) (reg : Z) : Z := be_val (E (be_bytes 16 reg)).

(** Decryption inverts encryption, whatever the cipher and the size. *)
Lemma cfb_s_inverse s E reg text : cfb_s s E false reg (cfb_s s E true reg text) = text.
Proof.
  revert reg. induction text as [|x text IH]; intros reg; [done|]. cbn [cfb_s]. rewrite IH. f_equal.
  rewrite Z.lxor_assoc, Z.lxor_nilpotent. apply Z.lxor_0_r.
Qed.

Lemma length_cfb_s s E enc reg text : length (cfb_s s E enc reg text) = length text.
Proof. revert reg. induction text as [|x text IH]; intros reg; cbn; [done|]. by rewrite IH. Qed.

(** Bit [n] of a piece of memory as a number. *)
Definition bit_of (l : list Z) (n : nat) : Z := Z.b2z (Z.testbit (nth (n / 8) l 0) (bit_pos n)).

(** ** A segment *)
Section Segment.
Context (E : list Z -> list Z) (HE : forall b, length b = 16%nat -> bytes b -> length (E b) = 16%nat /\ bytes (E b)).
Context (block : list Z -> option (list Z)).
Context (Hblock : forall b, length b = 16%nat -> bytes b -> block b = Some (E b)).
Context (junk : Z).

Lemma be_bytes_be_val l : bytes l -> be_bytes (length l) (be_val l) = l.
Proof.
  intros Hl. unfold be_bytes, be_val. rewrite <- (length_rev l), le_bytes_le_val, rev_involutive; [done|].
  by apply Forall_rev.
Qed.

Lemma be_val_snoc l c : be_val (l ++ [c]) = 256 * be_val l + c.
Proof. unfold be_val. rewrite rev_app_distr. cbn [rev app le_val]. lia. Qed.

(** The first byte of a block is the top of its number. *)
Lemma top_byte v l : bytes (v :: l) -> length l = 15%nat -> Z.shiftr (be_val (v :: l)) 120 = v.
Proof.
  intros Hb Hl. apply Forall_cons in Hb as [Hv Hb]. pose proof (be_val_bound l Hb) as Hbd. rewrite Hl in Hbd.
  rewrite be_val_cons, Hl, Z.shiftr_div_pow2 by lia. change (256 ^ Z.of_nat 15) with (2 ^ 120) in *.
  rewrite Z.div_add_l by lia. rewrite Z.div_small by lia. lia.
Qed.

Lemma top_bit v l : bytes (v :: l) -> length l = 15%nat -> Z.shiftr (be_val (v :: l)) 127 = Z.shiftr v 7.
Proof. intros Hb Hl. change 127 with (120 + 7). rewrite <- Z.shiftr_shiftr by lia. by rewrite top_byte. Qed.

Lemma shift_byte v l c : bytes (v :: l) -> length l = 15%nat -> is_u8 c ->
  be_val (l ++ [c]) = (Z.shiftl (be_val (v :: l)) 8 + c) mod 2 ^ 128.
Proof.
  intros Hb Hl Hc. apply Forall_cons in Hb as [Hv Hb]. pose proof (be_val_bound l Hb) as Hbd. unfold is_u8 in *.
  rewrite be_val_snoc, be_val_cons, Z.shiftl_mul_pow2 by lia. rewrite Hl in *. change (256 ^ Z.of_nat 15) with (2 ^ 120) in *.
  replace ((v * 2 ^ 120 + be_val l) * 2 ^ 8 + c) with (256 * be_val l + c + v * 2 ^ 128) by lia.
  rewrite Z_mod_plus_full. symmetry. apply Z.mod_small. lia.
Qed.

Lemma mod_top x r W : 0 <= r < W -> (x * W + r) mod (256 * W) = x mod 256 * W + r.
Proof.
  intros Hr. symmetry. apply (Z.mod_unique _ _ (x / 256)).
  - left. pose proof (Z.mod_pos_bound x 256). nia.
  - rewrite (Z.div_mod x 256) at 1 by lia. lia.
Qed.

Lemma u8_shift a b : is_u8 a -> is_u8 b -> u8 (Z.lor (Z.shiftl a 1) (Z.shiftr b 7)) = (2 * a + b / 128) mod 256.
Proof.
  intros Ha Hb. unfold is_u8 in *. rewrite (Z.shiftr_div_pow2 b 7) by lia. change (2 ^ 7) with 128.
  rewrite lor_shiftl_small; [done|lia|]. Z.to_euclidean_division_equations. lia.
Qed.

(** A list of bytes shifted by a bit. *)
Lemma shift_bits l c : bytes l -> is_u8 c ->
  let l' := zip_with (fun a b => u8 (Z.lor (Z.shiftl a 1) (Z.shiftr b 7))) l (drop 1 l ++ [c]) in
  length l' = length l /\ bytes l' /\
  be_val l' = (Z.shiftl (be_val l) 1 + Z.shiftr c 7) mod 256 ^ Z.of_nat (length l).
Proof.
  intros Hl Hc. unfold is_u8 in Hc. rewrite !Z.shiftr_div_pow2, Z.shiftl_mul_pow2 by lia. change (2 ^ 7) with 128. change (2 ^ 1) with 2.
  induction Hl as [|a l Ha Hl IH].
  { split_and!; [done|constructor|]. cbn. by rewrite Z.mod_1_r. }
  destruct IH as (IH1 & IH2 & IH3). set (W := 256 ^ Z.of_nat (length l)) in *. set (V := be_val l) in *.
  pose proof (be_val_bound l Hl) as HV. fold W V in HV.
  assert (0 <= c / 128 <= 1) as Hc7 by (split; [apply Z.div_pos; lia|apply Z.lt_succ_r, Z.div_lt_upper_bound; lia]).
  assert (exists nb rest, drop 1 (a :: l) ++ [c] = nb :: rest /\ is_u8 nb /\ (2 * V + c / 128) / W = nb / 128 /\
    zip_with (fun a b => u8 (Z.lor (Z.shiftl a 1) (Z.shiftr b 7))) l rest =
    zip_with (fun a b => u8 (Z.lor (Z.shiftl a 1) (Z.shiftr b 7))) l (drop 1 l ++ [c])) as (nb & rest & Ed & Hnb & Hq & Ez).
  { destruct Hl as [|b l Hb Hl]; cbn [drop app].
    - exists c, []. split_and!; [done|done| |done]. subst V W. cbn. by rewrite Z.div_1_r.
    - exists b, (l ++ [c]). rewrite drop_0. split_and!; [done|done| |done].
      pose proof (be_val_bound l Hl) as HV2. subst V W. rewrite be_val_cons in *. cbn [length] in *.
      rewrite Nat2Z.inj_succ, Z.pow_succ_r in * by lia. set (W2 := 256 ^ Z.of_nat (length l)) in *. unfold is_u8 in Hb.
      symmetry. assert (b / 128 = 0 /\ b < 128 \/ b / 128 = 1 /\ 128 <= b) as [[-> ?]|[-> ?]] by (Z.to_euclidean_division_equations; lia).
      + apply (Z.div_unique_pos _ _ _ (2 * (b * W2 + be_val l) + c / 128)); [split; nia|lia].
      + apply (Z.div_unique_pos _ _ _ (2 * (b * W2 + be_val l) + c / 128 - 256 * W2)); [split; nia|lia]. }
  cbn zeta. rewrite Ed. cbn [zip_with length]. rewrite Ez. split; [by rewrite IH1|]. split; [constructor; [apply u8_range|done]|].
  rewrite !be_val_cons, IH1, IH3, u8_shift by done. fold W V. rewrite Nat2Z.inj_succ, Z.pow_succ_r by lia. fold W.
  pose proof (Z.div_mod (V * 2 + c / 128) W ltac:(lia)) as Hd. rewrite (Z.mul_comm V 2), Hq in Hd.
  replace ((a * W + V) * 2 + c / 128) with ((2 * a + nb / 128) * W + (2 * V + c / 128) mod W) by lia.
  rewrite mod_top by (apply Z.mod_pos_bound; lia). by rewrite (Z.mul_comm V 2).
Qed.

(** Eight bits. *)
Lemma segment_byte enc x rest ivec : is_u8 x -> length ivec = 16%nat -> bytes ivec ->
  let y := Z.lxor x (Z.shiftr (on_numbers E (be_val ivec)) 120) in
  exists ivec', cfbr_encrypt_block block enc junk (x :: rest) 8 ivec = Some ([y], ivec') /\ is_u8 y /\
    length ivec' = 16%nat /\ bytes ivec' /\
    be_val ivec' = (Z.shiftl (be_val ivec) 8 + (if enc then y else x)) mod 2 ^ 128.
Proof.
  intros Hx Hl Hb. unfold on_numbers.
  assert (be_bytes 16 (be_val ivec) = ivec) as -> by (rewrite <- Hl; by apply be_bytes_be_val).
  destruct (HE ivec Hl Hb) as [HE1 HE2]. unfold cfbr_encrypt_block. cbn [Z.leb Z.gtb Z.compare Pos.compare Pos.compare_cont orb].
  rewrite slice_take, take_ge, Hblock by (done || lia). change (Z.to_nat ((8 + 7) / 8)) with 1%nat. rewrite slice_take by (cbn; lia).
  destruct (E ivec) as [|v l] eqn:Ev; [done|]. cbn [length] in HE1. rewrite top_byte by (done || lia).
  cbn [take length]. rewrite ?take_0. rewrite slice_take by (cbn; lia). cbn [take zip_with length]. rewrite ?take_0.
  set (y := Z.lxor x v). assert (is_u8 y) as Hy by (apply Forall_cons in HE2 as [Hv _]; by apply byte_lxor).
  set (c := if enc then y else x). assert (is_u8 c) as Hc by (by destruct enc).
  replace (if enc then [y] else [x]) with [c] by (by destruct enc).
  change (replicate 17 junk) with ([junk] ++ replicate 16 junk). rewrite write_at_mid by done.
  change (8 mod 8 =? 0) with true. cbn match. change (Z.to_nat (8 / 8)) with 1%nat.
  destruct ivec as [|v0 ivec]; [done|]. cbn [length] in Hl.
  replace ((v0 :: ivec) ++ [c] ++ replicate 16 junk) with ([v0] ++ (ivec ++ [c]) ++ replicate 16 junk) by (cbn; by rewrite <- app_assoc).
  rewrite slice_mid by (cbn; rewrite ?length_app; cbn; lia). eexists. split; [reflexivity|]. split; [done|].
  split; [rewrite length_app; cbn; lia|]. pose proof Hb as Hb'. apply Forall_cons in Hb' as [_ Hb'].
  split; [apply Forall_app_2; [done|by constructor]|]. apply shift_byte; [done|lia|done].
Qed.

(** One bit, the top one of a byte. *)
Lemma segment_bit enc b ivec : b = 0 \/ b = 1 -> length ivec = 16%nat -> bytes ivec ->
  exists y ivec', cfbr_encrypt_block block enc junk [128 * b] 1 ivec = Some ([y], ivec') /\ is_u8 y /\
    Z.shiftr y 7 = Z.lxor b (Z.shiftr (on_numbers E (be_val ivec)) 127) /\ length ivec' = 16%nat /\ bytes ivec' /\
    be_val ivec' = (Z.shiftl (be_val ivec) 1 + (if enc then Z.shiftr y 7 else b)) mod 2 ^ 128.
Proof.
  intros Hx Hl Hb. unfold on_numbers. assert (be_bytes 16 (be_val ivec) = ivec) as -> by (rewrite <- Hl; by apply be_bytes_be_val).
  destruct (HE ivec Hl Hb) as [HE1 HE2]. unfold cfbr_encrypt_block. cbn [Z.leb Z.gtb Z.compare Pos.compare Pos.compare_cont orb].
  rewrite slice_take, take_ge, Hblock by (done || lia). change (Z.to_nat ((1 + 7) / 8)) with 1%nat. rewrite slice_take by (cbn; lia).
  destruct (E ivec) as [|v l] eqn:Ev; [done|]. cbn [length] in HE1. rewrite top_bit by (done || lia).
  cbn [take length]. rewrite slice_take by (cbn; lia). cbn [take zip_with].
  set (x := 128 * b). set (y := Z.lxor x v). assert (is_u8 x) as Hxu by (unfold is_u8; lia).
  assert (is_u8 y) as Hy by (apply Forall_cons in HE2 as [Hv _]; by apply byte_lxor).
  assert (Z.shiftr x 7 = b) as Hxb by (by destruct Hx as [-> | ->]).
  set (c := if enc then y else x). assert (is_u8 c) as Hc by (by destruct enc).
  replace (if enc then [y] else [x]) with [c] by (by destruct enc).
  change (replicate 17 junk) with ([junk] ++ replicate 16 junk). rewrite write_at_mid by done.
  change (1 mod 8 =? 0) with false. cbn match. change (Z.to_nat (1 / 8)) with 0%nat. change (1 mod 8) with 1. change (8 - 1) with 7.
  rewrite slice_app by done.
  replace (ivec ++ [c] ++ replicate 16 junk) with (take 1 ivec ++ (drop 1 ivec ++ [c]) ++ replicate 16 junk)
    by (rewrite <- (app_assoc (drop 1 ivec)), app_assoc, take_drop; done).
  rewrite slice_mid by (rewrite ?length_app, ?length_take, ?length_drop; cbn [length]; lia). cbn match.
  destruct (shift_bits ivec c Hb Hc) as (H1 & H2 & H3). eexists y, _. split; [reflexivity|]. split; [exact Hy|].
  split; [unfold y; by rewrite Z.shiftr_lxor, Hxb|]. split; [lia|]. split; [exact H2|]. rewrite H3, Hl.
  change (256 ^ Z.of_nat 16) with (2 ^ 128). do 2 f_equal. unfold c. by destruct enc.
Qed.

(** ** The modes *)
Lemma cfb_s_bytes enc text : forall reg, bytes text -> bytes (cfb_s 8 (on_numbers E) enc reg text).
Proof.
  induction text as [|x text IH]; intros reg Hb; [constructor|]. apply Forall_cons in Hb as [Hx Hb]. cbn [cfb_s].
  constructor; [|by apply IH]. apply byte_lxor; [done|]. unfold on_numbers. change (128 - 8) with 120.
  destruct (HE (be_bytes 16 reg) (length_be_bytes _ _) (be_bytes_bytes _ _)) as [Hl Hv].
  destruct (E (be_bytes 16 reg)) as [|v l]; [done|]. cbn [length] in Hl. rewrite top_byte by (done || lia). by apply Forall_cons in Hv as [? _].
Qed.

Lemma cfb8_loop_spec enc text : forall n pre post done old rest ivec,
  bytes text -> length pre = n -> length done = n -> length old = length text -> length ivec = 16%nat -> bytes ivec ->
  exists ivec', cfb8_loop block enc junk (length text) n (pre ++ text ++ post) (done ++ old ++ rest) ivec =
    Some (done ++ cfb_s 8 (on_numbers E) enc (be_val ivec) text ++ rest, ivec').
Proof.
  induction text as [|x text IH]; intros n pre post done old rest ivec Hb Hp Hd Ho Hl Hi.
  { destruct old; [|done]. by exists ivec. }
  destruct old as [|o old]; [done|]. apply Forall_cons in Hb as [Hx Hb]. cbn [length cfb8_loop].
  rewrite <- Hp, drop_app_length. cbn [app].
  destruct (segment_byte enc x (text ++ post) ivec Hx Hl Hi) as (iv1 & -> & Hy & Hl1 & Hi1 & Hv). cbn match.
  set (y := Z.lxor x _) in *. rewrite Hp, <- Hd. change (o :: old ++ rest) with ([o] ++ old ++ rest). rewrite write_at_mid by done.
  destruct (IH (S n) (pre ++ [x]) post (done ++ [y]) old rest iv1) as (iv2 & E2); try done.
  - rewrite length_app. cbn. lia.
  - rewrite length_app. cbn. lia.
  - cbn in Ho. lia.
  - rewrite <- !app_assoc, <- Hd in E2. cbn [app] in *. rewrite E2. exists iv2. cbn [cfb_s]. change (128 - 8) with 120. fold y.
    by rewrite <- Hv.
Qed.

Lemma bit_pos_range n : 0 <= bit_pos n < 8.
Proof. unfold bit_pos. pose proof (Nat.mod_upper_bound n 8). lia. Qed.

Lemma bit_read b n : nz (Z.land b (Z.shiftl 1 (bit_pos n))) = Z.testbit b (bit_pos n).
Proof.
  pose proof (bit_pos_range n) as Hp. unfold nz. destruct (Z.testbit b (bit_pos n)) eqn:Eb.
  - apply negb_true_iff, Z.eqb_neq. intros H0. apply (f_equal (fun z => Z.testbit z (bit_pos n))) in H0. revert H0.
    rewrite Z.land_spec, Z.shiftl_1_l, Z.pow2_bits_true, Eb, Z.bits_0 by lia. done.
  - apply negb_false_iff, Z.eqb_eq, Z.bits_inj'. intros j Hj. rewrite Z.land_spec, Z.shiftl_1_l, Z.pow2_bits_eqb, Z.bits_0 by lia.
    destruct (Z.eqb_spec (bit_pos n) j) as [<-|]; [by rewrite Eb|apply andb_false_r].
Qed.

(** Storing the top bit of [d] in a byte. *)
Lemma bit_write o d n j : 0 <= j < 8 ->
  Z.testbit (u8 (Z.lor (Z.land o (Z.lnot (Z.shiftl 1 (bit_pos n)))) (Z.shiftr (Z.land d 0x80) (Z.of_nat (n mod 8))))) j =
  if j =? bit_pos n then Z.testbit d 7 else Z.testbit o j.
Proof.
  intros Hj. pose proof (bit_pos_range n) as Hp. change 0x80 with (2 ^ 7).
  unfold u8. change 256 with (2 ^ 8). rewrite Z.mod_pow2_bits_low, Z.lor_spec, Z.land_spec, Z.lnot_spec, Z.shiftl_1_l, Z.pow2_bits_eqb by lia.
  rewrite Z.shiftr_spec, Z.land_spec, Z.pow2_bits_eqb by lia. rewrite (Z.eqb_sym (bit_pos n)). unfold bit_pos in *.
  destruct (Z.eqb_spec j (7 - Z.of_nat (n mod 8))) as [->|Hne]; cbn [negb].
  - replace (7 - Z.of_nat (n mod 8) + Z.of_nat (n mod 8)) with 7 by lia. rewrite Z.eqb_refl. btauto.
  - rewrite (proj2 (Z.eqb_neq _ _)) by lia. btauto.
Qed.

Lemma bit_of_insert l n m o d : (n / 8 < length l)%nat -> nth (n / 8) l 0 = o ->
  bit_of (<[(n / 8)%nat := u8 (Z.lor (Z.land o (Z.lnot (Z.shiftl 1 (bit_pos n)))) (Z.shiftr (Z.land d 0x80) (Z.of_nat (n mod 8))))]> l) m =
  if decide (m = n) then Z.shiftr d 7 mod 2 else bit_of l m.
Proof.
  intros Hl Ho. unfold bit_of. pose proof (bit_pos_range m) as Hm.
  assert (forall i x, nth i (<[(n / 8)%nat := x]> l) 0 = if decide (i = n / 8)%nat then x else nth i l 0) as Hnth.
  { intros i x. rewrite !nth_lookup. case_decide as Ei; [subst; by rewrite list_lookup_insert_eq by lia|].
    by rewrite list_lookup_insert_ne by congruence. }
  rewrite Hnth. case_decide as Ei.
  - rewrite bit_write by lia. destruct (decide (m = n)) as [->|Hne].
    + rewrite Z.eqb_refl. rewrite Z.testbit_spec' by lia. by rewrite Z.shiftr_div_pow2 by lia.
    + rewrite (proj2 (Z.eqb_neq _ _)); [by rewrite Ei, Ho|]. intros Hb. unfold bit_pos in Hb. apply Hne.
      rewrite (Nat.div_mod_eq m 8), (Nat.div_mod_eq n 8), Ei. lia.
  - rewrite decide_False; [done|]. intros ->. done.
Qed.

Lemma cfb1_loop_spec enc inp : forall k n out ivec,
  (n + k <= 8 * length inp)%nat -> (n + k <= 8 * length out)%nat -> length ivec = 16%nat -> bytes ivec ->
  exists out' ivec', cfb1_loop block enc junk k n inp out ivec = Some (out', ivec') /\ length out' = length out /\
    (forall i, (i < n \/ n + k <= i)%nat -> bit_of out' i = bit_of out i) /\
    map (bit_of out') (seq n k) = cfb_s 1 (on_numbers E) enc (be_val ivec) (map (bit_of inp) (seq n k)).
Proof.
  induction k as [|k IH]; intros n out ivec Hn Ho Hl Hb; [by exists out, ivec|]. cbn [cfb1_loop seq map cfb_s].
  assert (n / 8 < length inp)%nat as Hi by (apply Nat.Div0.div_lt_upper_bound; lia).
  assert (n / 8 < length out)%nat as Hio by (apply Nat.Div0.div_lt_upper_bound; lia).
  destruct (lookup_lt_is_Some_2 inp _ Hi) as [b Eb]. destruct (lookup_lt_is_Some_2 out _ Hio) as [o Eo].
  rewrite Eb, Eo. assert (nth (n / 8) out 0 = o) as Eo' by (by rewrite nth_lookup, Eo).
  assert ((if nz (Z.land b (Z.shiftl 1 (bit_pos n))) then 0x80 else 0) = 128 * bit_of inp n) as ->.
  { rewrite bit_read. unfold bit_of. rewrite nth_lookup, Eb. cbn [from_option default id]. by destruct (Z.testbit b _). }
  assert (bit_of inp n = 0 \/ bit_of inp n = 1) as Hbit by (unfold bit_of; destruct (Z.testbit _ _); auto).
  destruct (segment_bit enc (bit_of inp n) ivec Hbit Hl Hb) as (y & iv1 & -> & Hyu & Hy & Hl1 & Hb1 & Hv).
  change ([y] !! 0%nat) with (Some y). cbn match. change (128 - 1) with 127. rewrite <- Hy, <- Hv.
  destruct (IH (S n) (<[(n / 8)%nat := u8 (Z.lor (Z.land o (Z.lnot (Z.shiftl 1 (bit_pos n)))) (Z.shiftr (Z.land y 0x80) (Z.of_nat (n mod 8))))]> out)
    iv1) as (out' & iv2 & -> & Hlen & Hout & Hbits); [lia|rewrite length_insert; lia|done|done|].
  rewrite length_insert in Hlen. exists out', iv2. split; [done|]. split; [done|]. split.
  - intros i Hr. rewrite Hout by lia. rewrite bit_of_insert, decide_False by (done || lia). done.
  - f_equal; [|exact Hbits]. rewrite Hout by lia. rewrite bit_of_insert, decide_True by done.
    unfold is_u8 in Hyu. rewrite Z.shiftr_div_pow2 by lia. apply Z.mod_small. Z.to_euclidean_division_equations. lia.
Qed.
End Segment.

(** ** With AES *)
Section AesBits.
Context (junk : Z) (aes_key : AES_KEY) (Hkey : key_array aes_key).
Context (key iv : list Z) (Hk : (16 <= length key)%nat) (Hbk : bytes key) (Hi : length iv = 16%nat) (Hbi : bytes iv).

Lemma aes128_schedule : exists k, AES_set_encrypt_key key 128 aes_key = Some (0, k) /\
  forall b, length b = 16%nat -> bytes b -> AES_encrypt b k = Some (aes128 key b).
Proof.
  assert (forall b, is_block b -> exists k, AES_set_encrypt_key key 128 aes_key = Some (0, k) /\
    AES_encrypt b k = Some (aes128 key b) /\ is_block (aes128 key b)) as Henc by (intros; apply aes_encrypts; (by left) || done || lia).
  destruct (Henc iv (conj Hi Hbi)) as (k & Ek & _). exists k. split; [done|].
  intros b H1 H2. destruct (Henc b (conj H1 H2)) as (k' & Ek' & ? & _). by simplify_eq.
Qed.

Lemma aes128_blocks b : length b = 16%nat -> bytes b -> length (aes128 key b) = 16%nat /\ bytes (aes128 key b).
Proof. by apply aes128_block. Qed.

(** The mode with segments of eight bits is that of the standard, and
    decryption gives back the text. *)
Theorem aes_cfb8_roundtrip (text buf1 buf2 : list Z) :
  bytes text -> length buf1 = length text -> length buf2 = length text ->
  exists k cipher iv1 iv2, AES_set_encrypt_key key 128 aes_key = Some (0, k) /\
    cipher = cfb_s 8 (on_numbers (aes128 key)) true (be_val iv) text /\
    AES_cfb8_encrypt junk text buf1 (length text) k iv 0 true = Some (cipher, iv1) /\
    AES_cfb8_encrypt junk cipher buf2 (length cipher) k iv 0 false = Some (text, iv2).
Proof.
  intros Ht H1 H2. destruct aes128_schedule as (k & Ek & Eb).
  pose proof (fun enc t buf (Hb : bytes t) (Hl : length buf = length t) => cfb8_loop_spec (aes128 key) aes128_blocks
    (fun b => AES_encrypt b k) Eb junk enc t 0 [] [] [] buf [] iv Hb eq_refl eq_refl Hl Hi Hbi) as Hspec.
  cbn [app] in Hspec. pose proof (cfb_s_bytes (aes128 key) aes128_blocks true text (be_val iv) Ht) as Hbc.
  pose proof (length_cfb_s 8 (on_numbers (aes128 key)) true (be_val iv) text) as Hlc.
  pose proof (cfb_s_inverse 8 (on_numbers (aes128 key)) (be_val iv) text) as Hinv.
  destruct (Hspec true text buf1 Ht H1) as (iv1 & E1). revert E1 Hbc Hlc Hinv. generalize (cfb_s 8 (on_numbers (aes128 key)) true (be_val iv) text).
  intros cipher E1 Hbc Hlc Hinv. destruct (Hspec false cipher buf2 Hbc ltac:(lia)) as (iv2 & E2). rewrite Hinv in E2.
  rewrite !app_nil_r in E1, E2. by exists k, cipher, iv1, iv2.
Qed.

(** So is the mode with segments of one bit, for any number of bits. *)
Theorem aes_cfb1_roundtrip (text buf1 buf2 : list Z) (bits : nat) :
  (bits <= 8 * length text)%nat -> length buf1 = length text -> length buf2 = length text ->
  exists k cipher clear iv1 iv2, AES_set_encrypt_key key 128 aes_key = Some (0, k) /\
    AES_cfb1_encrypt junk text buf1 bits k iv 0 true = Some (cipher, iv1) /\
    map (bit_of cipher) (seq 0 bits) = cfb_s 1 (on_numbers (aes128 key)) true (be_val iv) (map (bit_of text) (seq 0 bits)) /\
    AES_cfb1_encrypt junk cipher buf2 bits k iv 0 false = Some (clear, iv2) /\
    map (bit_of clear) (seq 0 bits) = map (bit_of text) (seq 0 bits).
Proof.
  intros Hn H1 H2. destruct aes128_schedule as (k & Ek & Eb).
  assert ((bits + 7) / 8 <= length text)%nat as Hq by (apply Nat.lt_succ_r, Nat.Div0.div_lt_upper_bound; lia).
  assert (forall buf, length buf = length text ->
    exists z, write_at 0 (replicate ((bits + 7) / 8) 0) buf = Some z /\ length z = length text) as Hz.
  { intros buf Hb. unfold write_at, blit. rewrite decide_True, drop_0, decide_True by (rewrite ?length_replicate; lia).
    eexists. split; [reflexivity|]. rewrite take_0. cbn [app].
    rewrite length_app, length_drop, length_replicate. lia. }
  pose proof (fun enc inp out (Ha : (0 + bits <= 8 * length inp)%nat) (Hb : (0 + bits <= 8 * length out)%nat) => cfb1_loop_spec (aes128 key)
    aes128_blocks (fun b => AES_encrypt b k) Eb junk enc inp bits 0 out iv Ha Hb Hi Hbi) as Hspec.
  destruct (Hz buf1 H1) as (z1 & Ez1 & Hz1), (Hz buf2 H2) as (z2 & Ez2 & Hz2).
  destruct (Hspec true text z1 ltac:(lia) ltac:(lia)) as (cipher & iv1 & E1 & Hl1 & _ & B1).
  destruct (Hspec false cipher z2 ltac:(lia) ltac:(lia)) as (clear & iv2 & E2 & _ & _ & B2).
  exists k, cipher, clear, iv1, iv2. unfold AES_cfb1_encrypt, CRYPTO_cfb128_1_encrypt. change (0 =? 0) with true. cbn match.
  rewrite Ez1, Ez2. split; [exact Ek|]. split; [exact E1|]. split; [exact B1|]. split; [exact E2|].
  rewrite B2, B1. apply cfb_s_inverse.
Qed.
End AesBits.

(** The examples F.3.1 and F.3.7 of NIST SP 800-38A. *)
Definition sp_key : list Z := be_bytes 16 0x2b7e151628aed2a6abf7158809cf4f3c.
Definition sp_iv : list Z := be_bytes 16 0x000102030405060708090a0b0c0d0e0f.

Example aes_cfb8_vector :
  (let* (_, k) := AES_set_encrypt_key sp_key 128 (mk_key (replicate 60 0) 0) in
   let* (out, _) := AES_cfb8_encrypt 0 (be_bytes 18 0x6bc1bee22e409f96e93d7e117393172aae2d) (replicate 18 0) 18 k sp_iv 0 true in
   Some (be_val out)) = Some 0x3b79424c9c0dd436bace9e0ed4586a4f32b9.
Proof. vm_compute. reflexivity. Qed.

Example aes_cfb1_vector :
  (let* (_, k) := AES_set_encrypt_key sp_key 128 (mk_key (replicate 60 0) 0) in
   let* (out, _) := AES_cfb1_encrypt 0 (be_bytes 2 0x6bc1) (replicate 2 0) 16 k sp_iv 0 true in
   Some (be_val out)) = Some 0x68b3.
Proof. vm_compute. reflexivity. Qed.
