(* ===== verification/Usm.v ===== *)
(** * The user security model with its cryptography

    The files of the agent take the digests, the key derivations and the cipher
    as parameters, with what they rely on as hypotheses.  Here the parameters
    are the code of [src/3rd/crypto], called as [mib_view.c], [snmp_msg_in.c]
    and [snmp_msg_out.c] call it, and the hypotheses are proved of it.  The
    theorems say what the agent does in terms of the standards: RFC 3414 for the
    keys, RFC 2104 for the authentication, RFC 3826 and FIPS 197 for privacy. *)
From Stdlib Require Import String.
From S2P Require Import Prelude BerEncoder BerSpec BerDecoder Oid MibTree MibSearch MibView Message SnmpData SnmpOut SnmpProc SnmpIn HashWords Hash Md5 Sha1 AesSpec Aes AesCfb.
Local Open Scope Z_scope.

(** ** The calls of the agent

    The buffers a function gets are those of its caller: [junk] is what an
    uninitialised byte holds.  A call that would fault gives the buffer as it
    was; the lemmas below say that this does not happen. *)
Section Calls.
Context (t : target) (aligned fast : bool) (k0 : AES_KEY) (junk : Z).

Definition derive (key : option (list Z)) (len : nat) : list Z := resize len junk (default [] key).

Definition usm_MD5_key (password engine_id : list Z) : list Z := derive (MD5_key t password engine_id) 16.
Definition usm_SHA1_key (password engine_id : list Z) : list Z := derive (SHA1_key t password engine_id) 20.

(** A message that is not aligned is copied; memory is there for that. *)
Definition usm_hmac (hmac : bool -> bool -> list Z -> list Z -> Z -> list Z -> option (Z * list Z))
    (data : list Z) (maclen : Z) (secret : list Z) : Z * list Z :=
  let '(ret, mac) := default (-1, []) (hmac aligned true data (replicate (Z.to_nat maclen) junk) maclen secret) in
  (ret, resize (Z.to_nat maclen) junk mac).

Definition usm_MD5_hmac : list Z -> Z -> list Z -> Z * list Z := usm_hmac (MD5_hmac t).
Definition usm_SHA1_hmac : list Z -> Z -> list Z -> Z * list Z := usm_hmac (SHA1_hmac t).

(** The buffer of the result is as long as the text. *)
Definition usm_AES_Encrypt (key iv text : list Z) : list Z :=
  resize (length text) junk
    (default [] (fst <$> AES_Encrypt fast k0 key iv text (replicate (length text) junk) (zlen text))).
Definition usm_AES_Decrypt (key iv text : list Z) : list Z :=
  resize (length text) junk
    (default [] (fst <$> AES_Decrypt fast k0 key iv text (replicate (length text) junk) (zlen text))).
End Calls.

(** ** The hypotheses of the agent's theorems *)
Section Laws.
Context (t : target) (Ht : target_ok t) (aligned fast : bool) (k0 : AES_KEY) (Hk0 : key_array k0) (junk : Z).

Lemma usm_MD5_key_length p id : length (usm_MD5_key t junk p id) = 16%nat.
Proof. apply length_resize. Qed.

Lemma usm_SHA1_key_length p id : length (usm_SHA1_key t junk p id) = 20%nat.
Proof. apply length_resize. Qed.

Lemma length_usm_hmac hmac data n secret : length (snd (usm_hmac aligned junk hmac data n secret)) = Z.to_nat n.
Proof. unfold usm_hmac. destruct (default _ _) as [ret mac]. apply length_resize. Qed.

Lemma usm_hmac_ok : hmac_ok (usm_MD5_hmac t aligned junk) (usm_SHA1_hmac t aligned junk).
Proof. intros data n secret. split; apply length_usm_hmac. Qed.

Lemma usm_aes_ok : aes_ok (usm_AES_Encrypt fast k0 junk).
Proof. intros key iv text. apply length_resize. Qed.

(** ** What the calls compute *)
Lemma resize_id (l : list Z) n : length l = n -> resize n junk l = l.
Proof. intros <-. apply resize_all. Qed.

Lemma length_md5 msg : length (md5 msg) = 16%nat.
Proof. rewrite <- (md5_digest t Ht). exact (@length_digest (md5_alg t) (md5_laws t Ht) msg). Qed.

Lemma length_sha1 msg : length (sha1 msg) = 20%nat.
Proof. rewrite <- (sha1_digest t Ht). exact (@length_digest (sha1_alg t) (sha1_laws t Ht) msg). Qed.

Lemma md5_bytes msg : bytes (md5 msg).
Proof. rewrite <- (md5_digest t Ht). exact (@digest_bytes (md5_alg t) (md5_laws t Ht) msg). Qed.

Lemma sha1_bytes msg : bytes (sha1 msg).
Proof. rewrite <- (sha1_digest t Ht). exact (@digest_bytes (sha1_alg t) (sha1_laws t Ht) msg). Qed.

Lemma usm_MD5_key_spec p id : p <> [] -> bytes p -> bytes id -> (length id <= 32)%nat ->
  usm_MD5_key t junk p id = password_to_key md5 p id.
Proof.
  intros. unfold usm_MD5_key, derive. rewrite (MD5_key_spec t Ht) by assumption. apply resize_id, length_md5.
Qed.

Lemma usm_SHA1_key_spec p id : p <> [] -> bytes p -> bytes id -> (length id <= 32)%nat ->
  usm_SHA1_key t junk p id = password_to_key sha1 p id.
Proof.
  intros. unfold usm_SHA1_key, derive. rewrite (SHA1_key_spec t Ht) by assumption. apply resize_id, length_sha1.
Qed.

Lemma usm_MD5_hmac_spec data secret : length secret = 16%nat -> bytes secret -> bytes data -> data <> [] ->
  usm_MD5_hmac t aligned junk data 16 secret = (0, hmac_ref md5 secret data).
Proof.
  intros. unfold usm_MD5_hmac, usm_hmac.
  rewrite (MD5_hmac_spec t Ht) by (assumption || lia || (rewrite length_replicate; lia) || apply orb_true_r).
  cbn [default from_option id]. rewrite take_ge by (unfold hmac_ref; rewrite length_md5; lia).
  rewrite drop_ge, app_nil_r by (rewrite length_replicate; lia).
  by rewrite resize_id by (unfold hmac_ref; apply length_md5).
Qed.

Lemma usm_SHA1_hmac_spec data secret : length secret = 20%nat -> bytes secret -> bytes data -> data <> [] ->
  usm_SHA1_hmac t aligned junk data 20 secret = (0, hmac_ref sha1 secret data).
Proof.
  intros. unfold usm_SHA1_hmac, usm_hmac.
  rewrite (SHA1_hmac_spec t Ht) by (assumption || lia || (rewrite length_replicate; lia) || apply orb_true_r).
  cbn [default from_option id]. rewrite take_ge by (unfold hmac_ref; rewrite length_sha1; lia).
  rewrite drop_ge, app_nil_r by (rewrite length_replicate; lia).
  by rewrite resize_id by (unfold hmac_ref; apply length_sha1).
Qed.

(** RFC 3826: the text is encrypted in CFB mode with AES-128. *)
Lemma usm_AES_spec key iv text : length key = 16%nat -> bytes key -> length iv = 16%nat -> bytes iv -> text <> [] -> bytes text ->
  usm_AES_Encrypt fast k0 junk key iv text = cfb128 (aes128 key) true iv text /\
  usm_AES_Decrypt fast k0 junk key iv (cfb128 (aes128 key) true iv text) = text /\
  length (cfb128 (aes128 key) true iv text) = length text /\ bytes (cfb128 (aes128 key) true iv text).
Proof.
  intros Hk Hbk Hi Hbi Hn Hb.
  destruct (cfb128_aes key iv ltac:(lia) Hbk ltac:(lia) Hbi text Hb) as (El & Hbc & Ei).
  rewrite (take_ge iv) in * by lia. unfold usm_AES_Encrypt, usm_AES_Decrypt.
  rewrite (AES_Encrypt_spec fast k0 Hk0 key iv ltac:(lia) Hbk ltac:(lia) Hbi)
    by (assumption || lia || (rewrite length_replicate; lia)).
  rewrite (take_ge iv), (drop_ge (replicate _ _)), app_nil_r by (rewrite ?length_replicate; lia). cbn [fmap option_fmap option_map fst default from_option id].
  split; [by apply resize_id|].
  revert El Hbc Ei. generalize (cfb128 (aes128 key) true iv text). intros C El Hbc Ei. split; [|by split].
  rewrite (AES_Decrypt_spec fast k0 Hk0 key iv ltac:(lia) Hbk ltac:(lia) Hbi)
    by (assumption || lia || (rewrite length_replicate; lia) || (intros ->; destruct text; [by apply Hn|discriminate El])).
  rewrite (take_ge iv), Ei, (drop_ge (replicate _ _)), app_nil_r by (rewrite ?length_replicate; lia).
  cbn [fmap option_fmap option_map fst default from_option id]. by apply resize_id.
Qed.
End Laws.

(** ** Messages are octets *)
Lemma len_bytes_octets n : 0 <= n -> bytes (len_bytes n).
Proof.
  intros Hn. unfold len_bytes. case_match; (constructor; [unfold is_u8|]); try done; try lia; [|apply be_bytes_bytes].
  unfold len_octets. repeat case_match; lia.
Qed.

Lemma tlv_octets t c : is_u8 t -> bytes c -> bytes (tlv t c).
Proof.
  intros Ht Hc. rewrite tlv_thl. constructor; [done|]. apply Forall_app_2; [apply len_bytes_octets, zlen_nonneg|done].
Qed.

Lemma tint_octets v : bytes (tint v).
Proof. apply tlv_octets; [by split; vm_compute|apply be_bytes_bytes]. Qed.

Lemma tstr_octets s : bytes s -> bytes (tstr s).
Proof. apply tlv_octets. by split; vm_compute. Qed.

Lemma groups_octets n : forall v flag, 0 <= flag <= 128 -> bytes (groups n v flag).
Proof.
  induction n as [|n IH]; intros v flag Hf; cbn [groups]; [constructor|]. apply Forall_app_2; [by apply IH|].
  constructor; [|done]. pose proof (Z.mod_pos_bound v 128). unfold is_u8. lia.
Qed.

Lemma oid_octets ids : bytes (oid_bytes ids).
Proof.
  destruct ids as [|a [|b ids]]; cbn [oid_bytes]; [done|constructor; [apply u8_range|done]|].
  constructor; [apply u8_range|]. apply Forall_concat, Forall_map, Forall_true. intros. by apply groups_octets.
Qed.

(** The tags and values of a PDU are octets. *)
Definition pdu_octets (p : pdu_msg) : Prop :=
  is_u8 (p_type p) /\ Forall (fun b => is_u8 (b_type b) /\ bytes (b_value b)) (p_bindings p).

Create HintDb octets.
#[export] Hint Resolve Forall_app_2 tlv_octets tint_octets tstr_octets oid_octets : octets.
#[export] Hint Extern 1 (is_u8 _) => (split; by vm_compute) : octets.

Lemma scoped_octets id name p : bytes id -> bytes name -> pdu_octets p -> bytes (scoped_tlv id name p).
Proof.
  intros Hi Hn [Ht Hb]. unfold scoped_tlv, scoped_body, pdu_tlv, pdu_body, bindings_bytes.
  assert (bytes (concat (map binding_tlv (p_bindings p)))).
  { apply Forall_concat, Forall_fmap. eapply Forall_impl; [exact Hb|]. intros b [H1 H2].
    unfold compose, binding_tlv, binding_body. auto with octets. }
  auto 10 with octets.
Qed.

Lemma message3_octets ver h auth priv data :
  is_u8 (h_flags h) -> bytes (h_engine_id h) -> bytes (h_user h) -> bytes auth -> bytes priv -> bytes data ->
  bytes (message3_tlv ver h auth priv data).
Proof.
  intros Hf He Hu Ha Hp Hd. unfold message3_tlv, message3_body, global_tlv, global_body, secur_tlv, secur_body.
  assert (bytes [h_flags h]) by (by constructor). auto 15 with octets.
Qed.

Lemma engine_id_octets : bytes snmpv3_engine_id.
Proof. by apply bytes_check. Qed.

(** ** Properties *)

(** The digest of an authentication mode, and the length of its keys. *)
Definition mode_digest (mode : Z) : list Z -> list Z := if mode =? SNMP_USER_AUTH_MD5 then md5 else sha1.
Definition mode_key_len (mode : Z) : nat := if mode =? SNMP_USER_AUTH_MD5 then 16 else 20.
Definition auth_mode_ok (mode : Z) : Prop := mode = SNMP_USER_AUTH_MD5 \/ mode = SNMP_USER_AUTH_SHA1.

Section Security.
Context (t : target) (Ht : target_ok t) (aligned fast : bool) (k0 : AES_KEY) (Hk0 : key_array k0) (junk : Z).

Local Abbreviation md5_hmac := (usm_MD5_hmac t aligned junk).
Local Abbreviation sha1_hmac := (usm_SHA1_hmac t aligned junk).
Local Abbreviation encrypt := (usm_AES_Encrypt fast k0 junk).
Local Abbreviation decrypt := (usm_AES_Decrypt fast k0 junk).
Local Abbreviation create := (mib_user_create (usm_MD5_key t junk) (usm_SHA1_key t junk) snmpv3_engine_id junk).

Lemma engine_id_short : (length snmpv3_engine_id <= 32)%nat.
Proof. cbn. lia. Qed.

(** The search for a user looks at the names only. *)
Lemma owner_search_names name (l1 l2 : list mib_user) :
  u_name <$> l1 = u_name <$> l2 -> owner_search l1 name = owner_search l2 name.
Proof.
  unfold owner_search. generalize 0%nat. revert l2.
  induction l1 as [|u l1 IH]; intros [|v l2] i E; try done. cbn in E. injection E as E1 E2.
  cbn [owner_search_loop]. change (o_name u) with (u_name u). rewrite E1. change (o_name v) with (u_name v).
  destruct (String.eqb _ _); [done|]. by apply IH.
Qed.

Lemma owner_search_shift name (l : list mib_user) i : owner_search_loop name l (S i) = S <$> owner_search_loop name l i.
Proof. revert i. induction l as [|u l IH]; intros i; cbn; [done|]. by destruct (String.eqb _ _). Qed.

(** The user of a name. *)
Definition user_named (users : list mib_user) (name : string) : option mib_user :=
  let* i := owner_search users name in users !! i.

Lemma user_named_new u users n : u_name u <> n -> user_named (u :: users) n = user_named users n.
Proof.
  intros Hn. unfold user_named, owner_search. cbn [owner_search_loop]. change (o_name u) with (u_name u).
  rewrite (proj2 (String.eqb_neq _ _) Hn), owner_search_shift. by destruct (owner_search_loop n users 0).
Qed.

Lemma user_named_insert users i u u' n : users !! i = Some u -> u_name u' = u_name u -> u_name u <> n ->
  user_named (<[i := u']> users) n = user_named users n.
Proof.
  intros Hi En Hn. unfold user_named. rewrite (owner_search_names n _ users).
  - destruct (owner_search users n) as [j|] eqn:E; [|done]. apply owner_search_some in E as (c & Hj & <-).
    apply list_lookup_insert_ne. intros <-. rewrite Hi in Hj. by injection Hj as <-.
  - rewrite list_fmap_insert, En. apply list_insert_id. by rewrite list_lookup_fmap, Hi.
Qed.

(** The user that [mib_user_create] finds or makes has the derived keys. *)
Lemma created_user st name am ap pm pp : users_keys_ok st -> ap <> [] -> pp <> [] ->
  exists st' u, create name am ap pm pp st = Some st' /\ user_named (mib_users st') name = Some u /\
    (forall n, n <> name -> user_named (mib_users st') n = user_named (mib_users st) n) /\
    keys_ok u /\ u_auth_mode u = am /\ u_priv_mode u = pm /\
    (am = SNMP_USER_AUTH_MD5 -> take 16 (u_auth_key u) = usm_MD5_key t junk ap snmpv3_engine_id /\
                               u_priv_key u = usm_MD5_key t junk pp snmpv3_engine_id) /\
    (am = SNMP_USER_AUTH_SHA1 -> u_auth_key u = usm_SHA1_key t junk ap snmpv3_engine_id /\
                                u_priv_key u = take 16 (usm_SHA1_key t junk pp snmpv3_engine_id)).
Proof.
  intros Hk Hap Hpp. unfold mib_user_create, mib_user_search.
  assert (exists i users u, (match owner_search (mib_users st) name with
    | Some i => (i, mib_users st)
    | None => (0%nat, mk_user name junk junk (replicate 20 junk) (replicate 16 junk) [] [] :: mib_users st)
    end) = (i, users) /\ users !! i = Some u /\ keys_ok u /\ owner_search users name = Some i /\ u_name u = name /\
    forall n, n <> name -> user_named users n = user_named (mib_users st) n)
    as (i & users & u & -> & Hi & Hku & Es & Hn & Ho).
  { destruct (owner_search (mib_users st) name) as [i|] eqn:E.
    - pose proof E as (u & Hu & ?)%owner_search_some. exists i, (mib_users st), u. split_and!; try done.
      exact (Forall_lookup_1 _ _ _ _ Hk Hu).
    - do 3 eexists. split; [done|]. split; [done|]. split; [by split|]. split_and!; [|done|].
      + unfold owner_search. cbn. by rewrite String.eqb_refl.
      + intros n Hn. by apply user_named_new. }
  rewrite Hi. destruct (user_keys_spec (usm_MD5_key t junk) (usm_SHA1_key t junk) snmpv3_engine_id junk
    (usm_MD5_key_length t junk) (usm_SHA1_key_length t junk) u am ap pm pp Hku) as (u' & -> & Hk' & En & _ & _ & H).
  destruct (H Hap) as (Ea & H1 & H2 & H3). destruct (H3 Hpp) as (Ep & H4 & H5).
  eexists _, u'. split; [done|]. cbn [mib_users]. split_and!; try done; try (intros E; split; auto).
  - unfold user_named. rewrite (owner_search_names name _ users), Es.
    + by apply list_lookup_insert_eq, lookup_lt_Some with u.
    + rewrite list_fmap_insert, En. apply list_insert_id. by rewrite list_lookup_fmap, Hi.
  - intros n Hne. rewrite (user_named_insert users i u u') by (done || by rewrite Hn). by apply Ho.
Qed.

(** C11: [mib_user_create] gives a user the keys of RFC 3414: the authentication
    key is the authentication phrase, the privacy key the privacy phrase,
    digested with MD5 or SHA-1 over a megabyte of its repetition and localised
    with the identifier of the engine; the privacy key has its first 16 octets.
    The other users are as before. *)
Theorem usm_user_keys st name am ap pm pp :
  users_keys_ok st -> auth_mode_ok am -> ap <> [] -> pp <> [] -> bytes ap -> bytes pp ->
  exists st' u, create name am ap pm pp st = Some st' /\ user_named (mib_users st') name = Some u /\
    u_auth_mode u = am /\ u_priv_mode u = pm /\
    take (mode_key_len am) (u_auth_key u) = password_to_key (mode_digest am) ap snmpv3_engine_id /\
    u_priv_key u = take 16 (password_to_key (mode_digest am) pp snmpv3_engine_id) /\
    forall n, n <> name -> user_named (mib_users st') n = user_named (mib_users st) n.
Proof.
  intros Hk Ham Hap Hpp Hba Hbp.
  destruct (created_user st name am ap pm pp Hk Hap Hpp) as (st' & u & E & Hu & Ho & [Hl1 Hl2] & Ea & Ep & H1 & H2).
  exists st', u. split; [exact E|]. split; [exact Hu|]. split; [exact Ea|]. split; [exact Ep|].
  pose proof engine_id_octets. pose proof engine_id_short.
  destruct Ham as [-> | ->]; [destruct (H1 eq_refl) as [Ek1 Ek2]|destruct (H2 eq_refl) as [Ek1 Ek2]];
    rewrite ?(usm_MD5_key_spec t Ht), ?(usm_SHA1_key_spec t Ht) in Ek1, Ek2 by assumption.
  - change (mode_digest SNMP_USER_AUTH_MD5) with md5. change (mode_key_len SNMP_USER_AUTH_MD5) with 16%nat.
    split; [exact Ek1|]. split; [|exact Ho]. rewrite Ek2, take_ge; [reflexivity|]. rewrite <- Ek2. lia.
  - change (mode_digest SNMP_USER_AUTH_SHA1) with sha1. change (mode_key_len SNMP_USER_AUTH_SHA1) with 20%nat.
    split; [rewrite take_ge by lia; exact Ek1|]. split; [exact Ek2|exact Ho].
Qed.

(** A user whose keys are set. *)
Record user_ready (u : mib_user) : Prop := {
  ready_keys : keys_ok u;
  ready_octets : bytes (u_auth_key u) /\ bytes (u_priv_key u);
  ready_mode : auth_mode_ok (u_auth_mode u);
  ready_priv : u_priv_mode u = SNMP_USER_ENCRYPT_AES;
}.

(** The authentication code of a message under the key of a user. *)
Definition rfc_mac (u : mib_user) (msg : list Z) : list Z :=
  hmac_ref (mode_digest (u_auth_mode u)) (take (mode_key_len (u_auth_mode u)) (u_auth_key u)) msg.

Lemma user_mac_rfc u msg : user_ready u -> bytes msg -> msg <> [] ->
  user_mac md5_hmac sha1_hmac u msg = rfc_mac u msg /\ mac_ret md5_hmac sha1_hmac u msg = 0.
Proof.
  intros [[Hl _] [Hb _] Hm _] Hbm Hn. unfold user_mac, mac_ret, rfc_mac, mode_digest, mode_key_len.
  assert (forall n, (n <= 20)%nat -> length (take n (u_auth_key u)) = n /\ bytes (take n (u_auth_key u))) as Hk
    by (intros n ?; split; [rewrite length_take; lia|by apply Forall_take]).
  destruct (Hk 16%nat ltac:(lia)) as [E1 B1], (Hk 20%nat ltac:(lia)) as [E2 B2].
  destruct Hm as [-> | ->]; cbn [SNMP_USER_AUTH_MD5 SNMP_USER_AUTH_SHA1 Z.eqb];
    rewrite ?(usm_MD5_hmac_spec t Ht), ?(usm_SHA1_hmac_spec t Ht) by assumption; split; reflexivity.
Qed.

(** The initialisation vector of RFC 3826. *)
Definition rfc_iv (h : v3_hdr) (salt : list Z) : list Z := net_bytes (h_boots h) ++ net_bytes (h_time h) ++ salt.

Lemma net_bytes_octets z : bytes (net_bytes z).
Proof. apply mem_of_bytes. Qed.

Lemma rfc_iv_octets h r1 r2 :
  length (rfc_iv h (net_bytes r1 ++ net_bytes r2)) = 16%nat /\ bytes (rfc_iv h (net_bytes r1 ++ net_bytes r2)).
Proof.
  unfold rfc_iv. rewrite !length_app, !length_net_bytes. split; [done|].
  do 3 (apply Forall_app_2; [apply net_bytes_octets|]). apply net_bytes_octets.
Qed.

Lemma scoped_nonempty id name p : scoped_tlv id name p <> [].
Proof. unfold scoped_tlv. by rewrite tlv_thl. Qed.

Lemma message3_nonempty ver h auth priv data : message3_tlv ver h auth priv data <> [].
Proof. unfold message3_tlv. by rewrite tlv_thl. Qed.

(** The message of RFC 3414 and RFC 3826: the scoped PDU encrypted with AES-128
    in CFB mode, authenticated over the message with zeros for the code. *)
Definition usm_cipher (u : mib_user) (h : v3_hdr) (salt id name : list Z) (p : pdu_msg) : list Z :=
  cfb128 (aes128 (u_priv_key u)) true (rfc_iv h salt) (scoped_tlv id name p).
Definition usm_mac (u : mib_user) (ver : Z) (h : v3_hdr) (salt id name : list Z) (p : pdu_msg) : list Z :=
  take 12 (rfc_mac u (message3_tlv ver h (replicate 12 0) salt (tstr (usm_cipher u h salt id name p)))).
Definition usm_message (u : mib_user) (ver : Z) (h : v3_hdr) (salt id name : list Z) (p : pdu_msg) : list Z :=
  message3_tlv ver h (usm_mac u ver h salt id name p) salt (tstr (usm_cipher u h salt id name p)).

(** What such a message is made of. *)
Record secured (h : v3_hdr) (salt id name : list Z) (p : pdu_msg) : Prop := {
  scd_salt : length salt = 8%nat /\ bytes salt;
  scd_flags : flag SNMP_SECUR_FLAG_AUTH h = true /\ flag SNMP_SECUR_FLAG_ENCRYPT h = true;
  scd_names : (length (h_user h) <= 40)%nat /\ (length name <= 40)%nat /\ (length id <= 32)%nat;
  scd_octets : is_u8 (h_flags h) /\ bytes (h_user h) /\ bytes name /\ bytes id /\ pdu_octets p;
  scd_engine : h_engine_id h = snmpv3_engine_id;
}.

Lemma salt_octets r1 r2 : length (net_bytes r1 ++ net_bytes r2) = 8%nat /\ bytes (net_bytes r1 ++ net_bytes r2).
Proof. rewrite length_app, !length_net_bytes. split; [done|]. apply Forall_app_2; apply net_bytes_octets. Qed.

(** The functions of the agent compute its parts. *)
Lemma usm_parts u ver h salt id name p : user_ready u -> secured h salt id name p ->
  let cipher := usm_cipher u h salt id name p in
  let zeroed := message3_tlv ver h (replicate 12 0) salt (tstr cipher) in
  encrypt (u_priv_key u) (rfc_iv h salt) (scoped_tlv id name p) = cipher /\
  decrypt (u_priv_key u) (rfc_iv h salt) cipher = scoped_tlv id name p /\
  length cipher = length (scoped_tlv id name p) /\
  take 12 (user_mac md5_hmac sha1_hmac u zeroed) = usm_mac u ver h salt id name p /\
  mac_ret md5_hmac sha1_hmac u zeroed = 0 /\ length (usm_mac u ver h salt id name p) = 12%nat.
Proof.
  intros Hu [[Hsl Hsb] _ _ (Ho1 & Ho2 & Ho3 & Ho4 & Ho5) He] cipher zeroed. pose proof Hu as [Hk [_ Hbp] _ _].
  assert (length (rfc_iv h salt) = 16%nat /\ bytes (rfc_iv h salt)) as [Hiv Hbiv].
  { unfold rfc_iv. rewrite !length_app, !length_net_bytes, Hsl. split; [done|].
    do 2 (apply Forall_app_2; [apply net_bytes_octets|]). exact Hsb. }
  destruct (usm_AES_spec fast k0 Hk0 junk (u_priv_key u) (rfc_iv h salt) (scoped_tlv id name p)
    (proj2 Hk) Hbp Hiv Hbiv (scoped_nonempty _ _ _) (scoped_octets id name p Ho4 Ho3 Ho5)) as (Een & Ede & Elc & Hbc).
  change (cfb128 _ true _ _) with cipher in Een, Ede, Elc, Hbc.
  assert (bytes zeroed) as Hbm.
  { apply message3_octets; try assumption; [rewrite He; apply engine_id_octets|by apply bytes_check|by apply tstr_octets]. }
  destruct (user_mac_rfc u _ Hu Hbm (message3_nonempty _ _ _ _ _)) as [Emac Eret].
  assert (take 12 (user_mac md5_hmac sha1_hmac u zeroed) = usm_mac u ver h salt id name p) as Em by (rewrite Emac; reflexivity).
  split; [exact Een|]. split; [exact Ede|]. split; [exact Elc|]. split; [exact Em|]. split; [exact Eret|].
  rewrite <- Em. apply (zlen_user_mac md5_hmac sha1_hmac); [apply usm_hmac_ok|lia].
Qed.

(** The response of the agent. *)
Lemma usm_response e r1 r2 s h auth priv name p u :
  let salt := net_bytes r1 ++ net_bytes r2 in
  user_ready u -> secured h salt snmpv3_engine_id name p -> user s = Some u ->
  sdg_rep s name p -> v3_rep s h auth priv -> 3 <= version s -> length auth = 12%nat -> length priv = 8%nat ->
  zlen (message3_tlv (version s) h auth priv (payload h name p)) < 2 ^ 31 ->
  exists s', snmp_response e junk md5_hmac sha1_hmac encrypt r1 r2 s = Some (s', usm_message u (version s) h salt snmpv3_engine_id name p).
Proof.
  intros salt Hu Hs Hus Hrep H3 Hv Ha Hp Hz. pose proof Hs as [[Hsl _] [Hfa Hfe] _ _ _].
  destruct (usm_parts u (version s) h salt snmpv3_engine_id name p Hu Hs) as (Een & _ & _ & Em & _ & _).
  assert (out_priv r1 r2 h priv = salt) as Esalt by (unfold out_priv, out_salt; rewrite Hfe; apply take_ge; fold salt; lia).
  assert (out_data encrypt r1 r2 u h name p = tstr (usm_cipher u h salt snmpv3_engine_id name p)) as Edata
    by (unfold out_data; rewrite Hfe; unfold out_cipher; change (out_iv r1 r2 h) with (rfc_iv h salt); by rewrite Een).
  destruct (snmp_response_v3_signed e junk md5_hmac sha1_hmac encrypt r1 r2 s h auth priv name p u
    (usm_hmac_ok t aligned junk) (usm_aes_ok fast k0 junk) Hrep H3 Hv ltac:(lia) Hus (ready_keys u Hu) Hfa ltac:(lia) ltac:(lia)
    (fun _ => ready_priv u Hu)) as (s' & E). exists s'. rewrite E, Esalt, Edata, Ha, Em. reflexivity.
Qed.

(** The decoder of the agent. *)
Lemma usm_decode e ver h salt id name p u st rest :
  user_ready u -> secured h salt id name p -> find_user st (SnmpIn.pad 41 (h_user h)) = Some u ->
  is_i32 ver -> 3 <= ver -> (forall a v, length a = 12%nat -> length v = 8%nat -> hdr_ok h a v) -> pdu_ok p ->
  let mac := usm_mac u ver h salt id name p in
  let data := tstr (usm_cipher u h salt id name p) in
  let msg := usm_message u ver h salt id name p in
  zlen msg < 2 ^ 31 ->
  snmp_decode e junk md5_hmac sha1_hmac decrypt st (msg ++ rest) (zlen msg) =
    Some (sdg3_of junk st (zlen msg) ver (zlen (message3_body ver h mac salt data)) h mac salt 0 id name p).
Proof.
  intros Hu Hs Hf Hv H3 Hh Hp mac data msg Hz. pose proof Hs as [[Hsl _] [Hfa Hfe] (Hn1 & Hn2 & Hn3) _ _].
  destruct (usm_parts u ver h salt id name p Hu Hs) as (_ & Ede & Elc & Em & Er & Hm).
  apply (snmp_decode_v3_encrypted e junk md5_hmac sha1_hmac decrypt st ver h mac salt id name p
    (usm_cipher u h salt id name p) rest u (usm_hmac_ok t aligned junk) (ready_keys u Hu) Hv H3 (Hh mac salt Hm Hsl));
    [assumption..|apply Hu|assumption| |exact Ede|].
  - unfold verdict. subst mac. rewrite Hm, Er, Em. by rewrite decide_True.
  - unfold tstr. pose proof (zlen_tlv_lt ASN1_TAG_OCTSTR (usm_cipher u h salt id name p)) as Hlt. unfold zlen in Hlt. lia.
Qed.

(** The length of the message does not depend on the keys. *)
Lemma zlen_usm_message u ver h salt name p auth priv : user_ready u -> secured h salt snmpv3_engine_id name p ->
  length auth = 12%nat -> length priv = 8%nat ->
  zlen (usm_message u ver h salt snmpv3_engine_id name p) = zlen (message3_tlv ver h auth priv (payload h name p)).
Proof.
  intros Hu Hs Ha Hp. pose proof Hs as [[Hsl _] [_ Hfe] _ _ _].
  destruct (usm_parts u ver h salt snmpv3_engine_id name p Hu Hs) as (_ & _ & Elc & _ & _ & Hm).
  destruct (message3_replace ver h auth (usm_mac u ver h salt snmpv3_engine_id name p) priv salt (payload h name p)
    (tstr (usm_cipher u h salt snmpv3_engine_id name p))) as [_ Ez]; [by rewrite Ha, Hm|unfold zlen; by rewrite Hp, Hsl| |by rewrite Ez].
  unfold payload. rewrite Hfe. unfold tstr. rewrite !zlen_tlv. unfold zlen. by rewrite Elc.
Qed.

(** What the response of the agent is made of. *)
Record secure_response (s : snmp_datagram) (h : v3_hdr) (auth priv name : list Z) (p : pdu_msg) (u : mib_user) : Prop := {
  sec_rep : sdg_rep s name p;
  sec_v3 : v3_rep s h auth priv;
  sec_version : 3 <= version s;
  sec_auth : length auth = 12%nat;
  sec_priv : length priv = 8%nat;
  sec_user : user s = Some u;
  sec_flags : flag SNMP_SECUR_FLAG_AUTH h = true /\ flag SNMP_SECUR_FLAG_ENCRYPT h = true;
  sec_names : (length (h_user h) <= 40)%nat /\ (length name <= 40)%nat;
  sec_octets : is_u8 (h_flags h) /\ bytes (h_user h) /\ bytes name /\ pdu_octets p;
  sec_pdu : pdu_ok p;
  sec_size : zlen (message3_tlv (version s) h auth priv (payload h name p)) < 2 ^ 31;
}.

Lemma secure_hdr_ok s h auth priv name p u a' v' : secure_response s h auth priv name p u ->
  length a' = 12%nat -> length v' = 8%nat -> hdr_ok h a' v'.
Proof.
  intros [? H3 ? ? ? ? ? [? ?] ? ? ?] Ha Hv.
  destruct H3 as ((? & H1 & _) & (? & H2 & _) & ? & (? & H4 & _) & He & (? & H5 & _) & (? & H6 & _) & _).
  unfold hdr_ok. rewrite He. pose proof engine_id_short. split_and!; try assumption; by right.
Qed.

Lemma secure_secured s h auth priv name p u r1 r2 : secure_response s h auth priv name p u ->
  secured h (net_bytes r1 ++ net_bytes r2) snmpv3_engine_id name p.
Proof.
  intros [_ H3 _ _ _ _ Hf [Hn1 Hn2] (Ho1 & Ho2 & Ho3 & Ho4) _ _]. pose proof engine_id_octets. pose proof engine_id_short.
  destruct H3 as (_ & _ & _ & _ & He & _).
  split; [apply salt_octets|exact Hf|split_and!; assumption|split_and!; assumption|exact He].
Qed.

(** C7: the response to an authenticated and encrypted request is, octet for
    octet, the message of RFC 3414 and RFC 3826: the scoped PDU encrypted with
    AES-128 in CFB mode under the user's key, with the boots, the time and the
    salt as the initialisation vector, and authenticated with the first 12
    octets of the HMAC of RFC 2104, with MD5 or SHA-1, over the message with
    zeros in their place.  The decoder of the agent accepts the message and
    gives back the PDU. *)
Theorem usm_secure_roundtrip e r1 r2 s h auth priv name p u st rest :
  user_ready u -> secure_response s h auth priv name p u -> find_user st (SnmpIn.pad 41 (h_user h)) = Some u ->
  let salt := net_bytes r1 ++ net_bytes r2 in
  let cipher := cfb128 (aes128 (u_priv_key u)) true (rfc_iv h salt) (scoped_tlv snmpv3_engine_id name p) in
  let mac := take 12 (rfc_mac u (message3_tlv (version s) h (replicate 12 0) salt (tstr cipher))) in
  let msg := message3_tlv (version s) h mac salt (tstr cipher) in
  (exists s', snmp_response e junk md5_hmac sha1_hmac encrypt r1 r2 s = Some (s', msg)) /\
  snmp_decode e junk md5_hmac sha1_hmac decrypt st (msg ++ rest) (zlen msg) =
    Some (sdg3_of junk st (zlen msg) (version s) (zlen (message3_body (version s) h mac salt (tstr cipher))) h mac salt 0
      snmpv3_engine_id name p).
Proof.
  intros Hu Hs Hf salt cipher mac msg. pose proof (secure_secured s h auth priv name p u r1 r2 Hs) as Hsec.
  pose proof Hs as [Hrep H3 Hv Ha Hp Hus _ _ _ Hpdu Hz]. split.
  - exact (usm_response e r1 r2 s h auth priv name p u Hu Hsec Hus Hrep H3 Hv Ha Hp Hz).
  - apply (usm_decode e (version s) h salt snmpv3_engine_id name p u st rest Hu Hsec Hf (proj1 (proj1 Hrep)) Hv); [|exact Hpdu|].
    + intros a v La Lv. by apply (secure_hdr_ok s h auth priv name p u).
    + rewrite (zlen_usm_message u (version s) h salt name p auth priv Hu Hsec Ha Hp). exact Hz.
Qed.
End Security.

(** *** Witnesses *)
Definition usm_target : target := mk_target 64 false 0.

Lemma usm_target_ok : target_ok usm_target.
Proof. unfold target_ok. cbn. lia. Qed.

Lemma usm_user_keys_witness :
  exists st' u,
    mib_user_create (usm_MD5_key usm_target 0) (usm_SHA1_key usm_target 0) snmpv3_engine_id 0 "admin"%string SNMP_USER_AUTH_SHA1
      (replicate 8 97) 1 (replicate 8 98) view_init = Some st' /\ user_named (mib_users st') "admin"%string = Some u /\
    u_auth_mode u = SNMP_USER_AUTH_SHA1 /\ u_priv_mode u = 1 /\
    take (mode_key_len SNMP_USER_AUTH_SHA1) (u_auth_key u) =
      password_to_key (mode_digest SNMP_USER_AUTH_SHA1) (replicate 8 97) snmpv3_engine_id /\
    u_priv_key u = take 16 (password_to_key (mode_digest SNMP_USER_AUTH_SHA1) (replicate 8 98) snmpv3_engine_id) /\
    forall n, n <> "admin"%string -> user_named (mib_users st') n = user_named (mib_users view_init) n.
Proof.
  refine (usm_user_keys usm_target usm_target_ok 0 view_init "admin"%string SNMP_USER_AUTH_SHA1
    (replicate 8 97) 1 (replicate 8 98) _ _ _ _ _ _).
  - apply Forall_nil_2.
  - right. reflexivity.
  - discriminate.
  - discriminate.
  - apply bytes_check. reflexivity.
  - apply bytes_check. reflexivity.
Defined.

(** A table with the user of the example datagram. *)
Definition usm_state : view_state :=
  mk_state [] [] [mk_user "public"%string SNMP_USER_AUTH_MD5 SNMP_USER_ENCRYPT_AES (replicate 20 3) (replicate 16 5) [] []].
Definition usm_user : mib_user :=
  mk_user "public"%string SNMP_USER_AUTH_MD5 SNMP_USER_ENCRYPT_AES (replicate 20 3) (replicate 16 5) [] [].

Lemma usm_user_ready : user_ready usm_user.
Proof. split; [by split|by split; apply bytes_check|by left|done]. Qed.

Lemma usm_example_secure : secure_response (example_sdg 3 3 (Some usm_user) (replicate 12 9) (replicate 8 8)) (example_hdr 3)
  (replicate 12 9) (replicate 8 8) example_name example_pdu usm_user.
Proof.
  split; [apply example_sdg_rep; lia|apply example_v3_rep|done..| | | |].
  - split; cbn; lia.
  - split; [split; cbn; lia|]. split; [by apply bytes_check|]. split; [by apply bytes_check|].
    split; [by split|]. apply Forall_cons; split; [|apply Forall_nil_2]. split; [by split|by apply bytes_check].
  - split_and!; try (split; vm_compute; discriminate || reflexivity). apply Forall_cons; split; [|apply Forall_nil_2].
    split_and!; [split; [by repeat constructor|]; cbn; eauto with lia|cbn; lia|vm_compute; discriminate|vm_compute; reflexivity].
  - vm_compute. reflexivity.
Qed.

Lemma usm_secure_roundtrip_witness :
  exists mac cipher,
    (exists s', snmp_response LE 0 (usm_MD5_hmac usm_target true 0) (usm_SHA1_hmac usm_target true 0)
        (usm_AES_Encrypt true (mk_key (replicate 60 0) 0) 0) 5 6
        (example_sdg 3 3 (Some usm_user) (replicate 12 9) (replicate 8 8)) =
      Some (s', message3_tlv 3 (example_hdr 3) mac [0; 0; 0; 5; 0; 0; 0; 6] (tstr cipher))) /\
    exists s, snmp_decode LE 0 (usm_MD5_hmac usm_target true 0) (usm_SHA1_hmac usm_target true 0)
        (usm_AES_Decrypt true (mk_key (replicate 60 0) 0) 0) usm_state
        (message3_tlv 3 (example_hdr 3) mac [0; 0; 0; 5; 0; 0; 0; 6] (tstr cipher) ++ [])
        (zlen (message3_tlv 3 (example_hdr 3) mac [0; 0; 0; 5; 0; 0; 0; 6] (tstr cipher))) = Some s /\ auth_err s = 0.
Proof.
  pose proof (usm_secure_roundtrip usm_target usm_target_ok true true (mk_key (replicate 60 0) 0) test_key_array 0 LE 5 6
    (example_sdg 3 3 (Some usm_user) (replicate 12 9) (replicate 8 8)) (example_hdr 3) (replicate 12 9) (replicate 8 8)
    example_name example_pdu usm_user usm_state []) as H.
  eexists _, _. destruct H as [H1 H2].
  - apply usm_user_ready.
  - apply usm_example_secure.
  - reflexivity.
  - split; [exact H1|]. eexists. split; [exact H2|reflexivity].
Defined.
