(* ===== verification/UsmRecv.v ===== *)
(** * Requests under the user-based security model, end to end

    What [snmp_recv] does with an authenticated and encrypted request, with the
    cryptography of the repository: the datagram is decrypted, the request is
    answered from the MIB, and the response is encrypted and signed. *)
From Stdlib Require Import String.
From S2P Require Import Prelude BerEncoder BerSpec BerDecoder Oid MibTree MibSearch MibView Message SnmpData SnmpOut SnmpProc SnmpIn HashWords Hash Md5 Sha1 AesTables AesSpec Aes AesCfb Usm.
Local Open Scope Z_scope.

Section Recv.
Context {L : Type} (lua_pcall : L -> Z -> Z -> list Z -> lua_arg -> lua_arg -> L * option lua_ret).
Context (t : target) (Ht : target_ok t) (aligned fast : bool) (k0 : AES_KEY) (Hk0 : key_array k0) (e : endian) (junk : Z).

(** ** The decoded request is ready to be answered *)
Lemma str_rep_pad n bs : str_rep (SnmpIn.pad n bs) (zlen bs) bs.
Proof. split; [done|]. by apply slice_app. Qed.

Lemma request_unanswered st n ver dl h auth priv err cid name p :
  is_i32 ver -> pdu_ok p -> unanswered (as_response (sdg3_of junk st n ver dl h auth priv err cid name p)) name.
Proof.
  intros Hv (Hr & _). unfold unanswered, as_response, int_rep, sdg3_of. cbn. split_and!; try done. apply str_rep_pad.
Qed.

(** The header of the response is that of the request. *)
Lemma request_v3_rep st n ver dl h auth priv err cid name p outs bs k :
  hdr_ok h auth priv -> h_engine_id h = snmpv3_engine_id ->
  v3_rep (add_answers outs bs k (as_response (sdg3_of junk st n ver dl h auth priv err cid name p))) h auth priv.
Proof.
  intros (H1 & H2 & H3 & H4 & H5 & _) He. unfold v3_rep, int_rep, sdg3_of, as_response. cbn. split_and!; try done; apply str_rep_pad.
Qed.

Lemma payload_bindings ver h auth priv name q :
  zlen (message3_tlv ver h auth priv (payload h name q)) < 2 ^ 31 -> zlen (bindings_bytes (p_bindings q)) < 2 ^ 32.
Proof.
  unfold payload. intros Hz. assert (zlen (scoped_tlv snmpv3_engine_id name q) < 2 ^ 31) as Hs.
  { unfold message3_tlv, message3_body in Hz. destruct (flag _ h); unfold tstr in Hz; zlens; lia. }
  unfold scoped_tlv, scoped_body, pdu_tlv, pdu_body in Hs. zlens. lia.
Qed.

(** ** Properties *)

(** C2: an authenticated and encrypted GET, GETNEXT or SET request of a known
    user is answered.  If the datagram is the message of RFC 3414 and RFC 3826
    for the request under the user's keys, then the agent sends the message of
    these standards for the response, under the same keys and with a new salt:
    it has the request's identifier, one answer per binding in their order, and
    the status and the position of the first answer in error. *)
Theorem usm_recv_replies (root : mib_node) (st : view_state) (r1 r2 ver : Z) (h : v3_hdr) (salt cid name : list Z)
    (request id : Z) (bindings : list binding) (u : mib_user) (rest : list Z) (s : snmp_datagram) (l l' : L)
    (r' : oid_search_res) (bs : list (Z * binding)) :
  let p := mk_pdu_msg request id 0 0 bindings in
  let mac := usm_mac u ver h salt cid name p in
  let msg := usm_message u ver h salt cid name p in
  let out_salt := net_bytes r1 ++ net_bytes r2 in
  let q := mk_pdu_msg SNMP_RESP id (first_error (bs.*1) 1).1 (first_error (bs.*1) 1).2 (bs.*2) in
  let out := usm_message u ver h out_salt snmpv3_engine_id name q in
  request ∈ [SNMP_REQ_GET; SNMP_REQ_GETNEXT; SNMP_REQ_SET] -> bindings <> [] ->
  user_ready u -> find_user st (SnmpIn.pad 41 (h_user h)) = Some u ->
  is_i32 ver -> 3 <= ver -> hdr_ok h mac salt -> pdu_ok p -> secured h salt cid name p -> zlen msg < 2 ^ 31 ->
  collect (answers_to lua_pcall e junk root st request)
    (as_response (sdg3_of junk st (zlen msg) ver (zlen (message3_body ver h mac salt (tstr (usm_cipher u h salt cid name p)))) h mac salt 0 cid name p))
    (map (vb_of junk) bindings) l (ret_oid_init request) = Some (l', r', bs) ->
  Forall (fun x => -128 <= x < 128) (bs.*1) -> zlen bindings < 128 ->
  secured h out_salt snmpv3_engine_id name q -> zlen out < 2 ^ 31 ->
  length bs = length bindings /\
  exists s', snmp_recv lua_pcall e junk root st (usm_MD5_hmac t aligned junk) (usm_SHA1_hmac t aligned junk)
      (usm_AES_Encrypt fast k0 junk) (usm_AES_Decrypt fast k0 junk) r1 r2 (msg ++ rest) (zlen msg) s l = Some (l', s', Some out).
Proof.
  intros p mac msg out_salt q out Hreq Hne Hu Hf Hv H3 Hh Hp Hs Hz Hc He Hl Hq Ho.
  assert (length bs = length bindings) as Hlen by (erewrite collect_length by done; apply length_map). split; [done|].
  pose proof Hs as [[Hsl _] _ _ _ Heng].
  destruct (usm_parts t Ht aligned fast k0 Hk0 junk u ver h salt cid name p Hu Hs) as (_ & _ & _ & _ & _ & Hm). fold mac in Hm.
  assert (snmp_decode e junk (usm_MD5_hmac t aligned junk) (usm_SHA1_hmac t aligned junk) (usm_AES_Decrypt fast k0 junk) st (msg ++ rest) (zlen msg) =
    Some (sdg3_of junk st (zlen msg) ver (zlen (message3_body ver h mac salt (tstr (usm_cipher u h salt cid name p)))) h mac salt 0 cid name p)) as Hd.
  { apply (usm_decode t Ht aligned fast k0 Hk0 junk e ver h salt cid name p u st rest); try assumption.
    intros a v La Lv. destruct Hh as (? & ? & ? & ? & ? & ? & ? & _). split_and!; try assumption; by right. }
  set (dl := zlen (message3_body _ _ _ _ _)) in *. set (n := zlen msg) in *. set (req := sdg3_of _ _ _ _ _ _ _ _ _ _ _ _) in *.
  assert (answer_pdu (as_response req) bs = q) as Eq by (unfold answer_pdu, q; by destruct (first_error (bs.*1) 1)).
  pose proof (zlen_usm_message t Ht aligned fast k0 Hk0 junk u ver h out_salt name q mac salt Hu Hq Hm Hsl) as Ez. fold out in Ez.
  rewrite Ez in Ho. subst n. change msg with (tlv ASN1_TAG_SEQ (message3_body ver h mac salt (tstr (usm_cipher u h salt cid name p)))) at 1 2.
  rewrite snmp_recv_tlv by exact Hz. fold (message3_tlv ver h mac salt (tstr (usm_cipher u h salt cid name p))).
  change (message3_tlv ver h mac salt _) with msg. rewrite Hd.
  destruct (dispatch_collect lua_pcall e junk root st (usm_MD5_hmac t aligned junk) (usm_SHA1_hmac t aligned junk)
    (usm_AES_Encrypt fast k0 junk) r1 r2 req request l l' r' bs Hreq eq_refl) as (outs & Hout & ->).
  - unfold req. cbn. destruct bindings; [done|]. rewrite zlen_cons. pose proof (zlen_nonneg bindings). lia.
  - unfold counters_u32, req. cbn. unfold is_u32. lia.
  - unfold zlen in *. lia.
  - exact Hc.
  - destruct (usm_response t Ht aligned fast k0 Hk0 junk e r1 r2 (add_answers outs bs 1 (as_response req)) h mac salt name q u)
      as (s' & ->); [exact Hu|exact Hq|exact Hf| | |exact H3|exact Hm|exact Hsl|exact Ho|by exists s'].
    + rewrite <- Eq. apply answered_rep; [by apply request_unanswered| |exact Hout|].
      * unfold answers_ok. split_and!; try done. unfold zlen in *. lia.
      * exact (payload_bindings ver h mac salt name q Ho).
    + by apply request_v3_rep.
Qed.
End Recv.

(** A GETNEXT request of the user of the example. *)
Definition recv_user : mib_user := mk_user "admin" 0 1 (replicate 16 7 ++ replicate 4 0) (replicate 16 7) [3%nat] [3%nat].
Definition recv_pdu : pdu_msg := in_pdu SNMP_REQ_GETNEXT.
Definition recv_reply : pdu_msg :=
  mk_pdu_msg SNMP_RESP 1234 0 0 [mk_binding [1; 3; 6; 1; 2; 0] ASN1_TAG_INT [42]; mk_binding [1; 3; 6; 9] ASN1_TAG_END_OF_MIB_VIEW []].

Lemma recv_user_ready : user_ready recv_user.
Proof. split; [by split|by split; apply bytes_check|by left|done]. Qed.

Lemma recv_secured salt p : length salt = 8%nat -> bytes salt -> pdu_octets p -> secured (in_hdr 3) salt snmpv3_engine_id [] p.
Proof.
  intros Hl Hb Hp. split; [by split|by split|split_and!; cbn; lia| |reflexivity].
  split; [split; cbn; lia|]. split_and!; [by apply bytes_check|constructor|by apply bytes_check|exact Hp].
Qed.

Definition recv_message : list Z := usm_message recv_user 3 (in_hdr 3) (replicate 8 1) snmpv3_engine_id [] recv_pdu.

Lemma recv_message_small : zlen recv_message < 2 ^ 31.
Proof. vm_compute. reflexivity. Qed.

Lemma recv_pdu_octets : pdu_octets recv_pdu /\ pdu_octets recv_reply.
Proof. split; (split; [by split|]); repeat (apply Forall_cons; split; [split; [by split|by apply bytes_check]|]); apply Forall_nil_2. Qed.

Lemma usm_recv_replies_witness :
  exists s', snmp_recv (table_handler example_table) LE 0 example_root proc_state (usm_MD5_hmac usm_target true 0)
      (usm_SHA1_hmac usm_target true 0) (usm_AES_Encrypt true (mk_key (replicate 60 0) 0) 0)
      (usm_AES_Decrypt true (mk_key (replicate 60 0) 0) 0) 5 6 (recv_message ++ []) (zlen recv_message) snmp_datagram_clear tt =
    Some (tt, s', Some (usm_message recv_user 3 (in_hdr 3) [0; 0; 0; 5; 0; 0; 0; 6] snmpv3_engine_id [] recv_reply)).
Proof.
  set (mac := usm_mac recv_user 3 (in_hdr 3) (replicate 8 1) snmpv3_engine_id [] recv_pdu).
  set (ask := collect (answers_to (table_handler example_table) LE 0 example_root proc_state SNMP_REQ_GETNEXT)
    (as_response (sdg3_of 0 proc_state (zlen recv_message) 3 (zlen (message3_body 3 (in_hdr 3) mac (replicate 8 1)
      (tstr (usm_cipher recv_user (in_hdr 3) (replicate 8 1) snmpv3_engine_id [] recv_pdu)))) (in_hdr 3) mac (replicate 8 1) 0
      snmpv3_engine_id [] recv_pdu)) (map (vb_of 0) (p_bindings recv_pdu)) tt (ret_oid_init SNMP_REQ_GETNEXT)).
  assert (match ask with Some (_, _, b) => b | None => [] end = proc_answers) as Hb by (vm_compute; reflexivity).
  destruct ask as [[[[] r'] bs]|] eqn:E; [|discriminate Hb]. cbv beta iota in Hb. subst bs.
  destruct (usm_recv_replies (table_handler example_table) usm_target usm_target_ok true true (mk_key (replicate 60 0) 0) test_key_array
    LE 0 example_root proc_state 5 6 3 (in_hdr 3) (replicate 8 1) snmpv3_engine_id [] SNMP_REQ_GETNEXT 1234 (p_bindings recv_pdu)
    recv_user [] snmp_datagram_clear tt tt r' proc_answers) as [_ (s' & H)].
  - right. left.
  - discriminate.
  - exact recv_user_ready.
  - vm_compute. reflexivity.
  - split; vm_compute; [discriminate|reflexivity].
  - lia.
  - apply in_hdr_ok; right; vm_compute; reflexivity.
  - exact (in_pdu_ok SNMP_REQ_GETNEXT).
  - apply recv_secured; [reflexivity|apply bytes_check; reflexivity|exact (proj1 recv_pdu_octets)].
  - exact recv_message_small.
  - exact E.
  - do 2 (apply Forall_cons; split; [cbn; lia|]). apply Forall_nil_2.
  - vm_compute. reflexivity.
  - apply recv_secured; [reflexivity|apply bytes_check; reflexivity|exact (proj2 recv_pdu_octets)].
  - vm_compute. reflexivity.
  - exists s'. exact H.
Defined.
