(* ===== verification/EventLoop.v ===== *)
(** * The event loop ([src/core/event_loop.c], [event_select.h],
    [event_epoll.h], [event_kqueue.h])

    The loop keeps a table of five slots, each with a descriptor, the events it
    waits for and a callback for reading and for writing.  One of three back ends
    is compiled in; the class [Backend] is what the loop needs of it, with an
    instance for each.  The system call of a back end is an oracle: what it
    reports is an argument of the poll.  Callbacks change the loop and the state
    of the transport, and are a parameter. *)
From stdpp Require Import gmap.
From S2P Require Import Prelude.
Local Open Scope Z_scope.

Definition SNMP_MAX_EVENTS : nat := 5.
Definition SNMP_EV_NONE : Z := 0.
Definition SNMP_EV_READ : Z := 1.
Definition SNMP_EV_WRITE : Z := 2.

(** [flag & SNMP_EV_READ] and [flag & SNMP_EV_WRITE] as conditions. *)
Definition has_read (flag : Z) : bool := negb (Z.land flag SNMP_EV_READ =? 0).
Definition has_write (flag : Z) : bool := negb (Z.land flag SNMP_EV_WRITE =? 0).

(** ** The table

    [H] names the callbacks; their data is either NULL or the entry of the
    transport. *)
Record snmp_event (H : Type) := mk_event {
  ev_fd : Z;
  rcb : option H;
  wcb : option H;
  rud : bool;
  wud : bool;
  ev_flag : Z;
  ev_read : bool;
  ev_write : bool;
}.
Arguments mk_event {H}.
Arguments ev_fd {H}.
Arguments rcb {H}.
Arguments wcb {H}.
Arguments rud {H}.
Arguments wud {H}.
Arguments ev_flag {H}.
Arguments ev_read {H}.
Arguments ev_write {H}.

Record snmp_event_loop (H : Type) := mk_loop {
  running : Z;
  max_fd : Z;
  timeout : Z;
  event : list (snmp_event H);
}.
Arguments mk_loop {H}.
Arguments running {H}.
Arguments max_fd {H}.
Arguments timeout {H}.
Arguments event {H}.

Section Slots.
Context {H : Type}.
Implicit Types (ev : snmp_event H).

Definition set_fd (fd : Z) ev := mk_event fd (rcb ev) (wcb ev) (rud ev) (wud ev) (ev_flag ev) (ev_read ev) (ev_write ev).
Definition set_flag (f : Z) ev := mk_event (ev_fd ev) (rcb ev) (wcb ev) (rud ev) (wud ev) f (ev_read ev) (ev_write ev).
Definition set_rd (b : bool) ev := mk_event (ev_fd ev) (rcb ev) (wcb ev) (rud ev) (wud ev) (ev_flag ev) b (ev_write ev).
Definition set_wr (b : bool) ev := mk_event (ev_fd ev) (rcb ev) (wcb ev) (rud ev) (wud ev) (ev_flag ev) (ev_read ev) b.

(** The callbacks [snmp_event_add] assigns. *)
Definition set_cb (flag : Z) (cb : H) (ud : bool) ev :=
  mk_event (ev_fd ev) (if has_read flag then Some cb else rcb ev) (if has_write flag then Some cb else wcb ev)
    (if has_read flag then ud else rud ev) (if has_write flag then ud else wud ev)
    (ev_flag ev) (ev_read ev) (ev_write ev).

(** What [snmp_event_init] and [snmp_event_done] assign to a slot. *)
Definition reset_slot ev := mk_event (-1) (rcb ev) (wcb ev) (rud ev) (wud ev) SNMP_EV_NONE false false.
End Slots.

(** The static object. *)
Definition ev_loop {H} : snmp_event_loop H :=
  mk_loop 0 0 0 (replicate SNMP_MAX_EVENTS (mk_event 0 None None false false 0 false false)).

(** ** Back ends

    [env] is the state of the back end and [answer] what its system call
    reports; the poll returns the number of events. *)
Class Backend (env answer : Type) := {
  ev_init : env;
  ev_done : env -> env;
  ev_add : forall {H}, snmp_event H -> Z -> env -> option env;
  ev_remove : forall {H}, snmp_event H -> Z -> env -> option env;
  ev_poll : forall {H}, answer -> snmp_event_loop H -> env -> Z * snmp_event_loop H * env;
}.

(** *** [select]: two sets of descriptors below 1024 *)
Record select_env := mk_senv { rfds : gset Z; wfds : gset Z }.

(** The result and the two sets it leaves. *)
Record select_answer := mk_sel { sel_n : Z; sel_r : gset Z; sel_w : gset Z }.

Definition fd_ok (fd : Z) : bool := (0 <=? fd) && (fd <? 1024).

Definition select_add {H} (ev : snmp_event H) (flag : Z) (s : select_env) : option select_env :=
  if fd_ok (ev_fd ev) then
    Some (mk_senv (if has_read flag then {[ev_fd ev]} ∪ rfds s else rfds s)
            (if has_write flag then {[ev_fd ev]} ∪ wfds s else wfds s))
  else None.

Definition select_remove {H} (ev : snmp_event H) (flag : Z) (s : select_env) : option select_env :=
  if fd_ok (ev_fd ev) then
    Some (mk_senv (if has_read flag then rfds s ∖ {[ev_fd ev]} else rfds s)
            (if has_write flag then wfds s ∖ {[ev_fd ev]} else wfds s))
  else None.

Definition select_mark {H} (a : select_answer) (ev : snmp_event H) : snmp_event H :=
  if ev_flag ev =? SNMP_EV_NONE then ev
  else
    let ev1 := if has_read (ev_flag ev) && bool_decide (ev_fd ev ∈ sel_r a) then set_rd true ev else ev in
    if has_write (ev_flag ev) && bool_decide (ev_fd ev ∈ sel_w a) then set_wr true ev1 else ev1.

Definition select_poll {H} (a : select_answer) (l : snmp_event_loop H) (s : select_env)
    : Z * snmp_event_loop H * select_env :=
  (sel_n a,
   if sel_n a >? 0 then mk_loop (running l) (max_fd l) (timeout l) (map (select_mark a) (event l)) else l, s).

#[export] Instance Select : Backend select_env select_answer := {
  ev_init := mk_senv ∅ ∅;
  ev_done := id;
  ev_add := @select_add;
  ev_remove := @select_remove;
  ev_poll := @select_poll;
}.

(** The arguments of the system call: the number of descriptors and the time to
    wait, in seconds and microseconds ([None]: no limit). *)
Definition select_args {H} (l : snmp_event_loop H) : Z * option (Z * Z) :=
  (max_fd l + 1,
   if negb (timeout l =? -1) then Some (Z.quot (timeout l) 1000, Z.rem (timeout l) 1000 * 1000) else None).

(** *** [epoll]: the interest of every descriptor *)
Record interest := mk_int { e_in : bool; e_out : bool }.

Abbreviation epoll_env := (gmap Z interest).

(** The result and the events reported, in order. *)
Record epoll_answer := mk_epa { ep_n : Z; ep_events : list (Z * interest) }.

(** [EPOLL_CTL_ADD] fails for a registered descriptor, [EPOLL_CTL_MOD] and
    [EPOLL_CTL_DEL] for another one; the code ignores the failure. *)
Definition epoll_add {H} (ev : snmp_event H) (flag : Z) (s : epoll_env) : option epoll_env :=
  let ee := mk_int (has_read flag) (has_write flag) in
  Some (match s !! ev_fd ev with
        | None => if ev_flag ev =? SNMP_EV_NONE then <[ev_fd ev := ee]> s else s
        | Some _ => if ev_flag ev =? SNMP_EV_NONE then s else <[ev_fd ev := ee]> s
        end).

Definition epoll_remove {H} (ev : snmp_event H) (flag : Z) (s : epoll_env) : option epoll_env :=
  let ee := mk_int (negb (has_read flag)) (negb (has_write flag)) in
  Some (if negb (e_in ee) && negb (e_out ee) then delete (ev_fd ev) s
        else match s !! ev_fd ev with None => s | Some _ => <[ev_fd ev := ee]> s end).

(** [event[i]] is marked for the [i]th event reported. *)
Fixpoint mark_in_order {H} (ees : list (Z * interest)) (evs : list (snmp_event H)) : list (snmp_event H) :=
  match ees, evs with
  | (_, ee) :: ees', ev :: evs' =>
      let ev1 := if e_in ee then set_rd true ev else ev in
      (if e_out ee then set_wr true ev1 else ev1) :: mark_in_order ees' evs'
  | _, _ => evs
  end.

Definition epoll_poll {H} (a : epoll_answer) (l : snmp_event_loop H) (s : epoll_env)
    : Z * snmp_event_loop H * epoll_env :=
  (ep_n a, mk_loop (running l) (max_fd l) (timeout l) (mark_in_order (take (Z.to_nat (ep_n a)) (ep_events a)) (event l)), s).

#[export] Instance Epoll : Backend epoll_env epoll_answer := {
  ev_init := ∅;
  ev_done := λ _, ∅;
  ev_add := @epoll_add;
  ev_remove := @epoll_remove;
  ev_poll := @epoll_poll;
}.

(** *** [kqueue]: a filter for reading and one for writing *)

(** When both flags are given only the filter for writing is changed. *)
Definition kqueue_change {H} (ev : snmp_event H) (flag : Z) (b : bool) (s : epoll_env) : option epoll_env :=
  let old := default (mk_int false false) (s !! ev_fd ev) in
  if has_write flag then Some (<[ev_fd ev := mk_int (e_in old) b]> s)
  else if has_read flag then Some (<[ev_fd ev := mk_int b (e_out old)]> s)
  else None.

Abbreviation kqueue_env := (gmap Z interest * unit)%type.

Definition kqueue_add {H} (ev : snmp_event H) (flag : Z) (s : kqueue_env) : option kqueue_env :=
  let* s := kqueue_change ev flag true s.1 in Some (s, tt).

Definition kqueue_remove {H} (ev : snmp_event H) (flag : Z) (s : kqueue_env) : option kqueue_env :=
  let* s := kqueue_change ev flag false s.1 in Some (s, tt).

(** Each event is for one filter; the slots are marked in the order of the events here too. *)
Definition kqueue_poll {H} (a : epoll_answer) (l : snmp_event_loop H) (s : kqueue_env)
    : Z * snmp_event_loop H * kqueue_env :=
  let '(n, l, s') := epoll_poll a l s.1 in (n, l, (s', tt)).

#[export] Instance Kqueue : Backend kqueue_env epoll_answer := {
  ev_init := (∅, tt);
  ev_done := λ _, (∅, tt);
  ev_add := @kqueue_add;
  ev_remove := @kqueue_remove;
  ev_poll := @kqueue_poll;
}.

(** ** The loop *)
Section Loop.
Context {H env answer : Type} {B : Backend env answer} {T : Type}.

(** The loop, the state of the back end and that of the transport. *)
Record world := mk_world {
  w_loop : snmp_event_loop H;
  w_env : env;
  w_t : T;
}.

Definition set_events (evs : list (snmp_event H)) (w : world) : world :=
  mk_world (mk_loop (running (w_loop w)) (max_fd (w_loop w)) (timeout (w_loop w)) evs) (w_env w) (w_t w).

Definition set_t (t : T) (w : world) : world := mk_world (w_loop w) (w_env w) t.

Definition snmp_event_init (w : world) : world :=
  mk_world (mk_loop 1 (-1) (-1) (map reset_slot (event (w_loop w)))) ev_init (w_t w).

Definition snmp_event_done (w : world) : world :=
  mk_world (mk_loop 0 (-1) (-1) (map reset_slot (event (w_loop w)))) (ev_done (w_env w)) (w_t w).

(** The first slot that has the descriptor or is free. *)
Fixpoint add_loop (fd flag : Z) (cb : H) (ud : bool) (evs : list (snmp_event H)) (mx : Z) (s : env)
    : option (Z * list (snmp_event H) * Z * env) :=
  match evs with
  | [] => Some (-1, [], mx, s)
  | ev :: evs' =>
      if ev_fd ev =? fd then
        let* s := ev_add ev flag s in
        Some (0, set_cb flag cb ud (set_flag (Z.lor (ev_flag ev) flag) ev) :: evs', mx, s)
      else if ev_fd ev =? -1 then
        let ev := set_fd fd ev in
        let* s := ev_add ev flag s in
        Some (0, set_cb flag cb ud (set_flag flag ev) :: evs', if fd >? mx then fd else mx, s)
      else
        let* (ret, evs', mx, s) := add_loop fd flag cb ud evs' mx s in Some (ret, ev :: evs', mx, s)
  end.

Definition snmp_event_add (fd flag : Z) (cb : H) (ud : bool) (w : world) : option (Z * world) :=
  let l := w_loop w in
  let* (ret, evs, mx, s) := add_loop fd flag cb ud (event l) (max_fd l) (w_env w) in
  Some (ret, mk_world (mk_loop (running l) mx (timeout l) evs) s (w_t w)).

(** The slot after its flags are removed. *)
Definition remove_slot (flag : Z) (ev : snmp_event H) : snmp_event H :=
  let f := Z.land (ev_flag ev) (Z.lnot flag) in
  let ev := set_flag f ev in
  let ev := if has_read flag then set_rd false ev else ev in
  let ev := if has_write flag then set_wr false ev else ev in
  if f =? SNMP_EV_NONE then set_fd (-1) ev else ev.

Fixpoint remove_loop (fd flag : Z) (evs : list (snmp_event H)) (mx : Z) (s : env)
    : option (list (snmp_event H) * Z * env) :=
  match evs with
  | [] => Some ([], mx, s)
  | ev :: evs' =>
      let* (ev, s) :=
        (if ev_fd ev =? fd then let* s := ev_remove ev flag s in Some (remove_slot flag ev, s) else Some (ev, s)) in
      let mx := if fd >? mx then fd else mx in
      let* (evs', mx, s) := remove_loop fd flag evs' mx s in
      Some (ev :: evs', mx, s)
  end.

Definition snmp_event_remove (fd flag : Z) (w : world) : option world :=
  let l := w_loop w in
  let mx := if fd =? max_fd l then -1 else max_fd l in
  let* (evs, mx, s) := remove_loop fd flag (event l) mx (w_env w) in
  Some (mk_world (mk_loop (running l) mx (timeout l) evs) s (w_t w)).

Definition snmp_event_timeout (t : Z) (w : world) : world :=
  let l := w_loop w in mk_world (mk_loop (running l) (max_fd l) (t * 10) (event l)) (w_env w) (w_t w).

(** The callbacks, and [smithsnmp_trap_ops->probe]. *)
Context (call : H -> Z -> Z -> bool -> world -> option world) (probe : world -> option world).

(** The body of the loop for slot [i]: every access goes through the table. *)
Definition dispatch_read (i : nat) (w : world) : option world :=
  let* ev := event (w_loop w) !! i in
  match ev_read ev, rcb ev with
  | true, Some cb =>
      let* w := call cb (ev_fd ev) SNMP_EV_READ (rud ev) w in
      Some (set_events (alter (set_rd false) i (event (w_loop w))) w)
  | _, _ => Some w
  end.

Definition dispatch_write (i : nat) (w : world) : option world :=
  let* ev := event (w_loop w) !! i in
  match ev_write ev, wcb ev with
  | true, Some cb =>
      let* w := call cb (ev_fd ev) SNMP_EV_WRITE (wud ev) w in
      Some (set_events (alter (set_wr false) i (event (w_loop w))) w)
  | _, _ => Some w
  end.

Fixpoint dispatch (slots : list nat) (w : world) : option world :=
  match slots with
  | [] => Some w
  | i :: slots' =>
      let* w := dispatch_read i w in
      let* w := dispatch_write i w in
      dispatch slots' w
  end.

Definition snmp_event_poll (a : answer) (w : world) : option (Z * world) :=
  let '(ret, l, s) := ev_poll a (w_loop w) (w_env w) in
  let* w := dispatch (seq 0 SNMP_MAX_EVENTS) (mk_world l s (w_t w)) in
  Some (ret, w).

(** [snmp_event_run] for as long as the system call returns: the answers are
    consumed one by one, those left are returned. *)
Fixpoint snmp_event_run (answers : list answer) (w : world) : option (list answer * world) :=
  if running (w_loop w) =? 0 then Some (answers, w) else
  match answers with
  | [] => Some ([], w)
  | a :: answers' =>
      let* (ret, w) := snmp_event_poll a w in
      let* w := (if ret =? 0 then probe w else Some w) in
      snmp_event_run answers' w
  end.

Definition snmp_event_step (t : Z) (a : answer) (w : world) : option (Z * world) :=
  let l := w_loop w in
  let* (ret, w) := snmp_event_poll a (mk_world (mk_loop (running l) (max_fd l) t (event l)) (w_env w) (w_t w)) in
  let* w := (if ret =? 0 then probe w else Some w) in
  Some (ret, w).
End Loop.
Arguments world : clear implicits.
Arguments mk_world {H env T}.
