(* ===== verification/Transport.v ===== *)
(** * The transports ([src/core/snmp_udp_transport.c],
    [src/core/agentx_tcp_transport.c])

    The two transports differ in the size of the receive buffer and in that the
    first remembers the sender of the last datagram; they are modelled once,
    with these two differences as arguments.  The descriptors become readable
    and writable as the answers of [EventLoop] say.  What the network delivers
    is a queue in the state, and what is sent is a log.  The agent behind the
    transport is a parameter [receive]: [snmp_recv], whose answer goes to
    [transport_send], or [agentx_recv], which writes its answer to the socket
    itself, with all of their state. *)
From Stdlib Require Import String.
From stdpp Require Import gmap.
From S2P Require Import Prelude EventLoop.
Local Open Scope Z_scope.

Definition SIGINT : Z := 2.

Inductive handler := HRead | HWrite | HSignal.

(** The buffer of the pending response. *)
Inductive buf_ptr := BufNull | BufLive (m : list Z) | BufDangling.

(** What [recvfrom] delivers. *)
Inductive input := Recv (bytes from : list Z) | RecvFail.

(** [t_sent], [t_closed] and [t_leaked] record the datagrams sent with their
    destinations, the descriptors closed and the buffers that are lost; a short
    read of [t_signals] is [None]. *)
Record transport (A : Type) := mk_transp {
  t_sock : Z;
  t_sigfd : Z;
  t_buf : buf_ptr;
  t_client : list Z;
  t_agent : A;
  t_inbox : list input;
  t_signals : list (option Z);
  t_sent : list (list Z * list Z);
  t_closed : list Z;
  t_leaked : list (list Z);
}.
Arguments mk_transp {A}.
Arguments t_sock {A}.
Arguments t_sigfd {A}.
Arguments t_buf {A}.
Arguments t_client {A}.
Arguments t_agent {A}.
Arguments t_inbox {A}.
Arguments t_signals {A}.
Arguments t_sent {A}.
Arguments t_closed {A}.
Arguments t_leaked {A}.

Section Transport.
Context {env answer : Type} {B : Backend env answer} {A : Type}.
Context (junk : Z).
(** The size given to [recvfrom], and whether the sender is recorded. *)
Context (room : nat) (datagram : bool).
(** The agent: a buffer and the result of [recvfrom]; its answer goes to [transport_send]. *)
Context (receive : list Z -> Z -> A -> option (A * option (list Z))).
(** Whether sending a message to an address succeeds. *)
Context (sendto : list Z -> list Z -> bool).

Definition TRANSP_BUF_SIZ : nat := 65536.

Abbreviation transp_world := (world handler env (transport A)).

(** [malloc(TRANSP_BUF_SIZ)] with what was received in front. *)
Definition recv_buf (bytes : list Z) : list Z :=
  let got := take room bytes in got ++ replicate (TRANSP_BUF_SIZ - length got) junk.

(** The pending response is replaced; the event loop is asked to write. *)
Definition transport_send (m : list Z) (w : transp_world) : option transp_world :=
  let t := w_t w in
  let leaked := match t_buf t with BufLive old => t_leaked t ++ [old] | _ => t_leaked t end in
  let w := set_t (mk_transp (t_sock t) (t_sigfd t) (BufLive m) (t_client t) (t_agent t) (t_inbox t) (t_signals t)
                    (t_sent t) (t_closed t) leaked) w in
  let* (_, w) := snmp_event_add (t_sock t) SNMP_EV_WRITE HWrite true w in
  Some w.

(** [snmp_prot_ops.receive(buf, len)] *)
Definition agent_receive (buf : list Z) (len : Z) (w : transp_world) : option transp_world :=
  let t := w_t w in
  let* (a, resp) := receive buf len (t_agent t) in
  let w := set_t (mk_transp (t_sock t) (t_sigfd t) (t_buf t) (t_client t) a (t_inbox t) (t_signals t) (t_sent t)
                    (t_closed t) (t_leaked t)) w in
  match resp with Some m => transport_send m w | None => Some w end.

(** A read with nothing to receive blocks, which is [None] as well. *)
Definition read_handler (w : transp_world) : option transp_world :=
  let t := w_t w in
  match t_inbox t with
  | [] => None
  | Recv bytes from :: rest =>
      let client := if datagram then from else t_client t in
      agent_receive (recv_buf bytes) (Z.of_nat (length (take room bytes)))
        (set_t (mk_transp (t_sock t) (t_sigfd t) (t_buf t) client (t_agent t) rest (t_signals t) (t_sent t)
                  (t_closed t) (t_leaked t)) w)
  | RecvFail :: rest =>
      agent_receive (recv_buf []) (-1)
        (snmp_event_done
           (set_t (mk_transp (t_sock t) (t_sigfd t) (t_buf t) (t_client t) (t_agent t) rest (t_signals t) (t_sent t)
                     (t_closed t) (t_leaked t)) w))
  end.

(** [ud] is the entry of the transport; a freed buffer is not sent. *)
Definition write_handler (sock flag : Z) (ud : bool) (w : transp_world) : option transp_world :=
  if negb ud then None else
  let t := w_t w in
  match t_buf t with
  | BufLive m =>
      let w := if sendto m (t_client t) then w else snmp_event_done w in
      let sent := if sendto m (t_client t) then t_sent t ++ [(t_client t, m)] else t_sent t in
      snmp_event_remove sock flag
        (set_t (mk_transp (t_sock t) (t_sigfd t) BufDangling (t_client t) (t_agent t) (t_inbox t) (t_signals t) sent
                  (t_closed t) (t_leaked t)) w)
  | _ => None
  end.

Definition transport_close (w : transp_world) : transp_world :=
  let w := snmp_event_done w in
  let t := w_t w in
  set_t (mk_transp (t_sock t) (t_sigfd t) (t_buf t) (t_client t) (t_agent t) (t_inbox t) (t_signals t) (t_sent t)
           (t_closed t ++ [t_sock t; t_sigfd t]) (t_leaked t)) w.

Definition signal_handler (w : transp_world) : option transp_world :=
  let t := w_t w in
  match t_signals t with
  | [] => None
  | s :: rest =>
      let w := set_t (mk_transp (t_sock t) (t_sigfd t) (t_buf t) (t_client t) (t_agent t) (t_inbox t) rest (t_sent t)
                        (t_closed t) (t_leaked t)) w in
      match s with
      | Some signo => Some (if signo =? SIGINT then transport_close w else w)
      | None => Some w
      end
  end.

Definition transp_call (h : handler) (fd flag : Z) (ud : bool) (w : transp_world) : option transp_world :=
  match h with
  | HRead => read_handler w
  | HWrite => write_handler fd flag ud w
  | HSignal => signal_handler w
  end.

(** What [transport_running] and the first [transport_step] register. *)
Definition transport_start (w : transp_world) : option transp_world :=
  let w := snmp_event_init w in
  let* (_, w) := snmp_event_add (t_sock (w_t w)) SNMP_EV_READ HRead false w in
  let* (_, w) := snmp_event_add (t_sigfd (w_t w)) SNMP_EV_READ HSignal false w in
  Some w.

(** The results of [signalfd], [socket] and of [bind] or [connect]. *)
Definition transport_init (sigfd sock : Z) (connected : bool) (w : transp_world) : Z * transp_world :=
  let t := w_t w in
  let put sock closed :=
    set_t (mk_transp sock sigfd (t_buf t) (t_client t) (t_agent t) (t_inbox t) (t_signals t) (t_sent t) closed
             (t_leaked t)) w in
  if sigfd <? 0 then (-1, put (t_sock t) (t_closed t))
  else if sock <? 0 then (-1, put sock (t_closed t))
  else if connected then (0, put sock (t_closed t)) else (-1, put sock (t_closed t ++ [sock])).

Context (probe : transp_world -> option transp_world).

Definition transport_running (answers : list answer) (w : transp_world) : option (list answer * transp_world) :=
  let* w := transport_start w in
  snmp_event_run transp_call probe answers w.

(** [inited] is the static variable of the function. *)
Definition transport_step (inited : bool) (timeout : Z) (a : answer) (w : transp_world)
    : option (Z * transp_world) :=
  let* w := (if inited then Some w else transport_start w) in
  snmp_event_step transp_call probe timeout a w.
End Transport.

(** The two transports. *)
Definition snmp_read_handler {env answer A} `{Backend env answer} (junk : Z)
    (receive : list Z -> Z -> A -> option (A * option (list Z))) :=
  read_handler (B := _) junk TRANSP_BUF_SIZ true receive.

Definition agentx_read_handler {env answer A} `{Backend env answer} (junk : Z)
    (receive : list Z -> Z -> A -> option (A * option (list Z))) :=
  read_handler (B := _) junk (TRANSP_BUF_SIZ - 1) false receive.

Definition snmp_write_handler {env answer A} `{Backend env answer} := write_handler (B := _) (A := A).
Definition agentx_write_handler {env answer A} `{Backend env answer} := write_handler (B := _) (A := A).
Definition snmp_signal_handler {env answer A} `{Backend env answer} := signal_handler (B := _) (A := A).
Definition agentx_signal_handler {env answer A} `{Backend env answer} := signal_handler (B := _) (A := A).

(** The functions of [agentx_tcp_transport.c].  Its [transport_init] connects
    instead of binding; the copy of the descriptor that it leaves in
    [agentx_datagram] is the network of [Agentx]. *)
Module Tcp.
Section Tcp.
Context {env answer : Type} {B : Backend env answer} {A : Type} (junk : Z).
Context (receive : list Z -> Z -> A -> option (A * option (list Z))) (send : list Z -> list Z -> bool).
Abbreviation transp_world := (world handler env (transport A)).

Definition tcp_transport_send (m : list Z) (w : transp_world) : option transp_world := transport_send m w.

Definition tcp_transport_close (w : transp_world) : transp_world := transport_close w.

Definition tcp_transport_init (sigfd sock : Z) (connected : bool) (w : transp_world) : Z * transp_world :=
  transport_init sigfd sock connected w.

Context (probe : transp_world -> option transp_world).

Definition tcp_transport_running (answers : list answer) (w : transp_world) : option (list answer * transp_world) :=
  transport_running junk (TRANSP_BUF_SIZ - 1) false receive send probe answers w.

Definition tcp_transport_step (inited : bool) (timeout : Z) (a : answer) (w : transp_world) : option (Z * transp_world) :=
  transport_step junk (TRANSP_BUF_SIZ - 1) false receive send probe inited timeout a w.
End Tcp.
End Tcp.

(** *** [struct transport_operation]

    The tables through which the protocols reach their transport; [transp_step]
    takes the static variable of the function. *)
Record transport_operation (S answer : Type) := mk_transp_ops {
  transp_name : string;
  transp_init : Z -> S -> Z * S;
  transp_running : list answer -> S -> option (list answer * S);
  transp_close : S -> S;
  transp_send : list Z -> S -> option S;
  transp_step : bool -> Z -> answer -> S -> option (Z * S);
}.
Arguments mk_transp_ops {S answer}.
Arguments transp_name {S answer}.
Arguments transp_init {S answer}.
Arguments transp_running {S answer}.
Arguments transp_close {S answer}.
Arguments transp_send {S answer}.
Arguments transp_step {S answer}.

Section Tables.
Context {env answer : Type} {B : Backend env answer} {A : Type} (junk : Z).
Context (receive : list Z -> Z -> A -> option (A * option (list Z))) (sendto : list Z -> list Z -> bool).
Context (sigfd sock : Z) (connected : Z -> bool).
Abbreviation transp_world := (world handler env (transport A)).
Context (probe : transp_world -> option transp_world).

Definition snmp_transp_ops : transport_operation transp_world answer :=
  mk_transp_ops "snmp_udp" (fun port => transport_init sigfd sock (connected port))
    (transport_running junk TRANSP_BUF_SIZ true receive sendto probe) transport_close transport_send
    (transport_step junk TRANSP_BUF_SIZ true receive sendto probe).

Definition agentx_transp_ops : transport_operation transp_world answer :=
  mk_transp_ops "agentx_tcp" (fun port => Tcp.tcp_transport_init sigfd sock (connected port))
    (Tcp.tcp_transport_running junk receive sendto probe) Tcp.tcp_transport_close Tcp.tcp_transport_send
    (Tcp.tcp_transport_step junk receive sendto probe).
End Tables.

(** ** The table while the transport runs, with [select] *)
Abbreviation slot := (snmp_event handler).

Definition free_slot (ev : slot) : Prop :=
  ev_fd ev = -1 /\ ev_flag ev = SNMP_EV_NONE /\ ev_read ev = false /\ ev_write ev = false.

(** The socket, waiting to write when [pend]; the signals; three free slots. *)
Definition table (sock sigfd : Z) (pend : bool) (c0 : option handler) (u0 : bool) (r0 w0 : bool)
    (c1 : option handler) (u1 r1 : bool) (fs : list slot) : list slot :=
  mk_event sock (Some HRead) c0 false u0 (if pend then 3 else 1) r0 w0
    :: mk_event sigfd (Some HSignal) c1 false u1 1 r1 false :: fs.

Section Serving.
Context {A : Type}.
Abbreviation sworld := (world handler select_env (transport A)).

Definition fds_ok (t : transport A) : Prop :=
  fd_ok (t_sock t) = true /\ fd_ok (t_sigfd t) = true /\ t_sock t <> t_sigfd t.

(** The marks [r0], [w0] and [r1] are set between the system call and the callbacks. *)
Record marked (w : sworld) (pend r0 w0 r1 : bool) : Prop := {
  mk_fds : fds_ok (w_t w);
  mk_run : running (w_loop w) = 1;
  mk_max : max_fd (w_loop w) = Z.max (t_sock (w_t w)) (t_sigfd (w_t w));
  mk_table : exists c0 u0 c1 u1 fs,
    event (w_loop w) = table (t_sock (w_t w)) (t_sigfd (w_t w)) pend c0 u0 r0 w0 c1 u1 r1 fs /\
    Forall free_slot fs /\ length fs = 3%nat /\ (pend = true -> c0 = Some HWrite /\ u0 = true);
  mk_r : rfds (w_env w) = {[t_sock (w_t w); t_sigfd (w_t w)]};
  mk_w : wfds (w_env w) = if pend then {[t_sock (w_t w)]} else ∅;
  mk_buf : if pend then exists m, t_buf (w_t w) = BufLive m else forall m, t_buf (w_t w) <> BufLive m;
}.

Abbreviation serving w pend := (marked w pend false false false).

Lemma fd_ok_range fd : fd_ok fd = true -> 0 <= fd.
Proof. unfold fd_ok. rewrite andb_true_iff, Z.leb_le. tauto. Qed.

Lemma add_free fd flag (cb : handler) ud fs mx (s : select_env) ev :
  free_slot ev -> 0 <= fd -> fd_ok fd = true ->
  add_loop fd flag cb ud (ev :: fs) mx s =
  let* s' := select_add (set_fd fd ev) flag s in
  Some (0, set_cb flag cb ud (set_flag flag (set_fd fd ev)) :: fs, if fd >? mx then fd else mx, s').
Proof.
  intros (E & _) H1 H2. cbn [add_loop]. rewrite E, (proj2 (Z.eqb_neq (-1) fd)) by lia. done.
Qed.

Lemma add_skip fd flag (cb : handler) ud fs mx (s : select_env) (ev : slot) :
  ev_fd ev <> fd -> ev_fd ev <> -1 ->
  add_loop fd flag cb ud (ev :: fs) mx s =
  let* (ret, fs', mx', s') := add_loop fd flag cb ud fs mx s in Some (ret, ev :: fs', mx', s').
Proof. intros H1 H2. cbn [add_loop]. by rewrite (proj2 (Z.eqb_neq _ _) H1), (proj2 (Z.eqb_neq _ _) H2). Qed.

Lemma reset_free (ev : slot) : free_slot (reset_slot ev).
Proof. done. Qed.

(** Starting registers the two descriptors. *)
Lemma transport_start_spec (w : sworld) :
  fds_ok (w_t w) -> length (event (w_loop w)) = SNMP_MAX_EVENTS -> (forall m, t_buf (w_t w) <> BufLive m) ->
  exists w', transport_start w = Some w' /\ serving w' false /\ w_t w' = w_t w.
Proof.
  intros (Hs & Hg & Hne) Hl Hb.
  destruct (event (w_loop w)) as [|e0 [|e1 [|e2 [|e3 [|e4 [|]]]]]] eqn:E; try done.
  unfold transport_start, snmp_event_init, snmp_event_add. rewrite E. cbn [map w_loop event max_fd w_env w_t].
  pose proof (fd_ok_range _ Hs). pose proof (fd_ok_range _ Hg).
  rewrite add_free by done. unfold select_add at 1. cbn [ev_fd set_fd reset_slot]. rewrite Hs.
  cbn [w_loop w_t w_env event max_fd]. rewrite add_skip by (cbn; lia).
  rewrite add_free by done. unfold select_add. cbn [ev_fd set_fd reset_slot]. rewrite Hg.
  eexists. split; [reflexivity|]. split; [|done]. split; cbn [w_t w_loop w_env running max_fd event rfds wfds]; try done.
  - rewrite !Z.gtb_ltb. repeat case_match; rewrite ?Z.ltb_lt, ?Z.ltb_ge in *; lia.
  - exists (wcb e0), (wud e0), (wcb e1), (wud e1), [reset_slot e2; reset_slot e3; reset_slot e4].
    by repeat constructor.
  - cbn. set_solver.
Qed.

(** *** Callbacks on the table *)
Context (junk : Z) (room : nat) (datagram : bool).
Context (receive : list Z -> Z -> A -> option (A * option (list Z))) (sendto : list Z -> list Z -> bool).
Abbreviation call := (transp_call (B := Select) junk room datagram receive sendto).

(** A response becomes the pending one. *)
Definition t_respond (m : list Z) (t : transport A) : transport A :=
  mk_transp (t_sock t) (t_sigfd t) (BufLive m) (t_client t) (t_agent t) (t_inbox t) (t_signals t) (t_sent t)
    (t_closed t) (match t_buf t with BufLive old => t_leaked t ++ [old] | _ => t_leaked t end).

(** A message is received; whether it is answered. *)
Definition t_read (t : transport A) : option (transport A * bool) :=
  match t_inbox t with
  | Recv bytes from :: rest =>
      let* (a, resp) := receive (recv_buf junk room bytes) (Z.of_nat (length (take room bytes))) (t_agent t) in
      let t := mk_transp (t_sock t) (t_sigfd t) (t_buf t) (if datagram then from else t_client t) a rest (t_signals t)
                 (t_sent t) (t_closed t) (t_leaked t) in
      Some (match resp with Some m => (t_respond m t, true) | None => (t, false) end)
  | _ => None
  end.

(** The pending response is sent. *)
Definition t_write (m : list Z) (t : transport A) : transport A :=
  mk_transp (t_sock t) (t_sigfd t) BufDangling (t_client t) (t_agent t) (t_inbox t) (t_signals t)
    (t_sent t ++ [(t_client t, m)]) (t_closed t) (t_leaked t).

Lemma marked_set_t (w : sworld) pend r0 w0 r1 t :
  marked w pend r0 w0 r1 -> t_sock t = t_sock (w_t w) -> t_sigfd t = t_sigfd (w_t w) -> t_buf t = t_buf (w_t w) ->
  marked (set_t t w) pend r0 w0 r1.
Proof.
  intros [(H1 & H2 & H3) Hrun Hmax Ht Hr Hw Hb] E1 E2 E3.
  split; unfold fds_ok; cbn [set_t w_t w_loop w_env]; rewrite ?E1, ?E2, ?E3; done.
Qed.

(** The mark is reset after the callback. *)
Lemma clear_marks (w : sworld) pend r0 w0 r1 :
  marked w pend r0 w0 r1 ->
  marked (set_events (alter (set_rd false) 0%nat (event (w_loop w))) w) pend false w0 r1 /\
  marked (set_events (alter (set_wr false) 0%nat (event (w_loop w))) w) pend r0 false r1 /\
  marked (set_events (alter (set_rd false) 1%nat (event (w_loop w))) w) pend r0 w0 false.
Proof.
  intros [Hfds Hrun Hmax (c0 & u0 & c1 & u1 & fs & Ht & Hrest) Hr Hw Hb]. rewrite Ht.
  split_and!; (split; cbn [set_events w_t w_loop w_env running max_fd event]; try done; exists c0, u0, c1, u1, fs; by split).
Qed.

Lemma transport_send_spec (w : sworld) pend r0 w0 r1 m :
  marked w pend r0 w0 r1 ->
  exists w', transport_send m w = Some w' /\ marked w' true r0 w0 r1 /\ w_t w' = t_respond m (w_t w).
Proof.
  intros [Hfds Hrun Hmax (c0 & u0 & c1 & u1 & fs & Ht & Hf & Hl & Hc) Hr Hw Hb].
  pose proof Hfds as (Hs & _). unfold transport_send, snmp_event_add, set_t. cbn [w_loop w_env w_t].
  rewrite Ht. unfold table. cbn [add_loop ev_fd ev_flag]. rewrite Z.eqb_refl. cbn [ev_add Select]. unfold select_add.
  cbn [ev_fd]. rewrite Hs. eexists. split; [reflexivity|]. split; [|done].
  split; cbn [w_t w_loop w_env running max_fd event rfds wfds t_sock t_sigfd t_buf]; try done.
  - exists (Some HWrite), true, c1, u1, fs. split; [by destruct pend|done].
  - change (has_write SNMP_EV_WRITE) with true. rewrite Hw. destruct pend; cbv iota; set_solver.
  - by exists m.
Qed.

Lemma dispatch_read_spec (w : sworld) pend w0 r1 t p :
  marked w pend true w0 r1 -> t_read (w_t w) = Some (t, p) ->
  exists w', dispatch_read call 0 w = Some w' /\ marked w' (pend || p) false w0 r1 /\ w_t w' = t.
Proof.
  intros M. unfold t_read. destruct (t_inbox (w_t w)) as [|[bytes from|] rest] eqn:Ei; try done.
  destruct (receive _ _ _) as [[a resp]|] eqn:Er; [|done]. intros E.
  set (t0 := mk_transp _ _ _ _ _ _ _ _ _ _) in E. pose proof (marked_set_t w _ _ _ _ t0 M eq_refl eq_refl eq_refl) as M0.
  assert (read_handler (B := Select) junk room datagram receive w =
          match resp with Some m => transport_send m (set_t t0 w) | None => Some (set_t t0 w) end) as Eh.
  { unfold read_handler. rewrite Ei. unfold agent_receive. cbn [set_t w_t t_agent]. by rewrite Er. }
  destruct (mk_table _ _ _ _ _ M) as (c0 & u0 & c1 & u1 & fs & Ht & _).
  unfold dispatch_read. rewrite Ht. unfold table. cbn [lookup list_lookup ev_read rcb transp_call]. rewrite Eh.
  destruct resp as [m|]; injection E as <- <-.
  - destruct (transport_send_spec _ _ _ _ _ m M0) as (w' & -> & M' & Et).
    eexists. split; [reflexivity|]. rewrite orb_true_r. split; [by apply (clear_marks _ _ _ _ _ M')|exact Et].
  - eexists. split; [reflexivity|]. rewrite orb_false_r. split; [by apply (clear_marks _ _ _ _ _ M0)|done].
Qed.

Lemma remove_skip (fd flag : Z) (fs : list slot) mx (s : select_env) :
  Forall (λ ev, ev_fd ev <> fd) fs ->
  remove_loop fd flag fs mx s = Some (fs, match fs with [] => mx | _ => Z.max fd mx end, s).
Proof.
  intros H. revert mx. induction H as [|ev fs Hev _ IH]; intros mx; [done|]. cbn [remove_loop].
  rewrite (proj2 (Z.eqb_neq _ _) Hev), IH. f_equal. f_equal. f_equal. rewrite Z.gtb_ltb.
  destruct fs; case_match; rewrite ?Z.ltb_lt, ?Z.ltb_ge in *; lia.
Qed.

Lemma dispatch_write_spec (w : sworld) r0 r1 m :
  marked w true r0 true r1 -> t_buf (w_t w) = BufLive m -> sendto m (t_client (w_t w)) = true ->
  exists w', dispatch_write call 0 w = Some w' /\ marked w' false r0 false r1 /\ w_t w' = t_write m (w_t w).
Proof.
  intros M Hm Hs. pose proof M as [Hfds Hrun Hmax (c0 & u0 & c1 & u1 & fs & Ht & Hf & Hl & Hc) Hr Hw Hb].
  destruct (Hc eq_refl) as [-> ->]. destruct Hfds as (Hfd & Hfd' & Hne). pose proof (fd_ok_range _ Hfd).
  unfold dispatch_write. rewrite Ht. unfold table. cbn [lookup list_lookup ev_write wcb wud ev_fd transp_call].
  unfold write_handler. cbn [negb]. rewrite Hm, Hs. unfold snmp_event_remove, set_t. cbn [w_loop w_env w_t].
  rewrite Ht. unfold table. cbn [remove_loop ev_fd]. rewrite Z.eqb_refl. cbn [ev_remove Select]. unfold select_remove.
  cbn [ev_fd]. rewrite Hfd, (proj2 (Z.eqb_neq (t_sigfd (w_t w)) (t_sock (w_t w)))) by congruence.
  rewrite remove_skip by (eapply Forall_impl; [exact Hf|]; intros ev (E & _); lia).
  eexists. split; [reflexivity|]. split; [|done].
  split; cbn [set_events w_t w_loop w_env running max_fd event rfds wfds t_sock t_sigfd t_buf]; try done.
  - rewrite Hmax. destruct fs; [done|]. rewrite !Z.gtb_ltb.
    repeat case_match; rewrite ?Z.ltb_lt, ?Z.ltb_ge, ?Z.eqb_eq, ?Z.eqb_neq in *; lia.
  - exists (Some HWrite), true, c1, u1, fs. by split.
  - change (has_write SNMP_EV_WRITE) with true. cbv iota. rewrite Hw. set_solver.
Qed.

(** *** A stopped loop *)
Definition stopped (w : sworld) : Prop :=
  running (w_loop w) = 0 /\ Forall free_slot (event (w_loop w)) /\ length (event (w_loop w)) = SNMP_MAX_EVENTS.

Lemma done_stopped (w : sworld) : length (event (w_loop w)) = SNMP_MAX_EVENTS -> stopped (snmp_event_done w).
Proof.
  intros Hl. unfold stopped. cbn [snmp_event_done w_loop running event]. rewrite length_map. split_and!; try done.
  apply Forall_map, Forall_true. by intros.
Qed.

Lemma stopped_set_t (w : sworld) t : stopped w -> stopped (set_t t w).
Proof. done. Qed.

Definition slot_free (w : sworld) (i : nat) : Prop := exists ev, event (w_loop w) !! i = Some ev /\ free_slot ev.

Lemma dispatch_slot_free (w : sworld) i : slot_free w i -> dispatch_read call i w = Some w /\ dispatch_write call i w = Some w.
Proof. intros (ev & Hev & _ & _ & H1 & H2). unfold dispatch_read, dispatch_write. by rewrite Hev, H1, H2. Qed.

Lemma dispatch_free (w : sworld) ix : Forall (slot_free w) ix -> dispatch call ix w = Some w.
Proof.
  induction 1 as [|i ix Hi _ IH]; [done|]. cbn [dispatch].
  destruct (dispatch_slot_free w i Hi) as [-> E]. by rewrite E.
Qed.

Lemma stopped_slot (w : sworld) i : stopped w -> (i < 5)%nat -> slot_free w i.
Proof.
  intros (_ & Hf & Hl) Hi. destruct (lookup_lt_is_Some_2 (event (w_loop w)) i) as [ev Hev]; [by rewrite Hl|].
  exists ev. split; [done|]. by eapply Forall_lookup_1.
Qed.

Lemma alter_stopped (w : sworld) f i :
  stopped w -> (forall ev : slot, free_slot ev -> free_slot (f ev)) ->
  stopped (set_events (alter f i (event (w_loop w))) w).
Proof.
  intros (Hr & Hf & Hl) Hfree. unfold stopped. cbn [set_events w_loop running event]. rewrite length_alter.
  split_and!; try done. apply Forall_alter; [done|]. intros ev _ Hev. by apply Hfree.
Qed.

Lemma marked_length (w : sworld) pend r0 w0 r1 : marked w pend r0 w0 r1 -> length (event (w_loop w)) = SNMP_MAX_EVENTS.
Proof. intros M. destruct (mk_table _ _ _ _ _ M) as (c0 & u0 & c1 & u1 & fs & -> & _ & Hl & _). cbn. by rewrite Hl. Qed.

(** When sending fails the loop stops. *)
Lemma dispatch_write_fails (w : sworld) r0 r1 m :
  marked w true r0 true r1 -> t_buf (w_t w) = BufLive m -> sendto m (t_client (w_t w)) = false ->
  exists w', dispatch_write call 0 w = Some w' /\ stopped w'.
Proof.
  intros M Hm Hs. pose proof M as [Hfds Hrun Hmax (c0 & u0 & c1 & u1 & fs & Ht & Hf & Hl & Hc) Hr Hw Hb].
  destruct (Hc eq_refl) as [-> ->]. destruct Hfds as (Hfd & _). pose proof (fd_ok_range _ Hfd).
  unfold dispatch_write. rewrite Ht. unfold table. cbn [lookup list_lookup ev_write wcb wud ev_fd transp_call].
  unfold write_handler. cbn [negb]. rewrite Hm, Hs. set (t := mk_transp _ _ _ _ _ _ _ _ _ _).
  pose proof (stopped_set_t _ t (done_stopped w (marked_length _ _ _ _ _ M))) as (S1 & S2 & S3).
  unfold snmp_event_remove. rewrite remove_skip by (eapply Forall_impl; [exact S2|]; intros ev (E & _); lia).
  eexists. split; [reflexivity|]. apply alter_stopped; [done|]. by intros ev (? & ? & ? & ?).
Qed.

(** Signals other than SIGINT are consumed; SIGINT closes the descriptors. *)
Definition t_signal (rest : list (option Z)) (closed : list Z) (t : transport A) : transport A :=
  mk_transp (t_sock t) (t_sigfd t) (t_buf t) (t_client t) (t_agent t) (t_inbox t) rest (t_sent t) (t_closed t ++ closed)
    (t_leaked t).

Lemma dispatch_signal_spec (w : sworld) pend s rest :
  marked w pend false false true -> t_signals (w_t w) = s :: rest ->
  exists w', dispatch_read call 1 w = Some w' /\
    if bool_decide (s = Some SIGINT) then stopped w' /\ w_t w' = t_signal rest [t_sock (w_t w); t_sigfd (w_t w)] (w_t w)
    else serving w' pend /\ w_t w' = t_signal rest [] (w_t w).
Proof.
  intros M Hs. destruct (mk_table _ _ _ _ _ M) as (c0 & u0 & c1 & u1 & fs & Ht & _).
  unfold dispatch_read. rewrite Ht. unfold table. cbn [lookup list_lookup ev_read rcb transp_call].
  unfold signal_handler. rewrite Hs. case_bool_decide as E.
  - subst s. cbn [Z.eqb SIGINT Pos.eqb]. eexists. split; [reflexivity|]. split; [|done].
    apply alter_stopped; [|by intros ev (? & ? & ? & ?)]. by apply (done_stopped w (marked_length _ _ _ _ _ M)).
  - set (t := mk_transp _ _ _ _ _ _ _ _ _ _).
    pose proof (marked_set_t w _ _ _ _ t M eq_refl eq_refl eq_refl) as M0.
    assert (t = t_signal rest [] (w_t w)) as Et by (unfold t, t_signal; by rewrite app_nil_r).
    destruct s as [signo|].
    + rewrite (proj2 (Z.eqb_neq signo SIGINT)) by congruence.
      eexists. split; [reflexivity|]. split; [by apply (clear_marks _ _ _ _ _ M0)|exact Et].
    + eexists. split; [reflexivity|]. split; [by apply (clear_marks _ _ _ _ _ M0)|exact Et].
Qed.

(** *** Slots without an event *)
Lemma dispatch_read_none (w : sworld) pend w0 r1 : marked w pend false w0 r1 -> dispatch_read call 0 w = Some w.
Proof. intros M. destruct (mk_table _ _ _ _ _ M) as (c0 & u0 & c1 & u1 & fs & Ht & _). unfold dispatch_read. by rewrite Ht. Qed.

Lemma dispatch_write_none (w : sworld) pend r0 r1 : marked w pend r0 false r1 -> dispatch_write call 0 w = Some w.
Proof. intros M. destruct (mk_table _ _ _ _ _ M) as (c0 & u0 & c1 & u1 & fs & Ht & _). unfold dispatch_write. by rewrite Ht. Qed.

Lemma dispatch_tail (w : sworld) pend r0 w0 :
  marked w pend r0 w0 false ->
  dispatch_read call 1 w = Some w /\ dispatch_write call 1 w = Some w /\ dispatch call [2; 3; 4]%nat w = Some w.
Proof.
  intros M. destruct (mk_table _ _ _ _ _ M) as (c0 & u0 & c1 & u1 & fs & Ht & Hf & Hl & _).
  split_and!; [unfold dispatch_read; by rewrite Ht|unfold dispatch_write; by rewrite Ht|].
  apply dispatch_free. unfold slot_free. rewrite Ht. destruct fs as [|f2 [|f3 [|f4 [|]]]]; try done.
  rewrite !Forall_cons in Hf. destruct Hf as (F2 & F3 & F4 & _). repeat constructor; by eexists.
Qed.

(** *** A poll *)
Definition sel_sock (a : select_answer) (w : sworld) : bool := bool_decide (t_sock (w_t w) ∈ sel_r a).
Definition sel_out (a : select_answer) (w : sworld) : bool := bool_decide (t_sock (w_t w) ∈ sel_w a).
Definition sel_sig (a : select_answer) (w : sworld) : bool := bool_decide (t_sigfd (w_t w) ∈ sel_r a).

Definition mark_world (a : select_answer) (w : sworld) : sworld :=
  mk_world (select_poll a (w_loop w) (w_env w)).1.2 (w_env w) (w_t w).

Lemma mark_world_spec (w : sworld) pend a :
  serving w pend -> sel_n a > 0 -> marked (mark_world a w) pend (sel_sock a w) (pend && sel_out a w) (sel_sig a w).
Proof.
  intros [Hfds Hrun Hmax (c0 & u0 & c1 & u1 & fs & Ht & Hf & Hl & Hc) Hr Hw Hb] Hn. unfold mark_world, select_poll.
  rewrite Z.gtb_ltb, (proj2 (Z.ltb_lt 0 (sel_n a))) by lia. cbn [fst snd].
  split; cbn [w_t w_loop w_env running max_fd event]; try done.
  exists c0, u0, c1, u1, fs. rewrite Ht. split_and!; try done. unfold table. cbn [map].
  assert (map (select_mark a) fs = fs) as ->.
  { clear Ht Hl. induction Hf as [|ev fs (_ & E & _) _ IH]; [done|]. cbn [map]. rewrite IH. unfold select_mark. by rewrite E. }
  unfold select_mark, sel_sock, sel_out, sel_sig. f_equal; [|f_equal]; destruct pend; cbn;
    repeat (case_bool_decide; cbn); done.
Qed.

(** The first slot, and the rest. *)
Definition t_poll (rd wr pend : bool) (t : transport A) : option (transport A * bool) :=
  let* (t, p) := (if rd then t_read t else Some (t, false)) in
  if pend && wr then
    match t_buf t with
    | BufLive m => if sendto m (t_client t) then Some (t_write m t, false) else None
    | _ => None
    end
  else Some (t, pend || p).

Lemma dispatch_socket_spec (w : sworld) pend rd wr r1 t' pend' :
  marked w pend rd (pend && wr) r1 -> t_poll rd wr pend (w_t w) = Some (t', pend') ->
  exists w1 w2, dispatch_read call 0 w = Some w1 /\ dispatch_write call 0 w1 = Some w2 /\
    marked w2 pend' false false r1 /\ w_t w2 = t'.
Proof.
  intros M. unfold t_poll.
  assert (forall t p, (if rd then t_read (w_t w) else Some (w_t w, false)) = Some (t, p) ->
    exists w1, dispatch_read call 0 w = Some w1 /\ marked w1 (pend || p) false (pend && wr) r1 /\ w_t w1 = t) as Hread.
  { intros t p E. destruct rd; [by apply dispatch_read_spec|]. injection E as <- <-. exists w. rewrite orb_false_r.
    split_and!; [by eapply dispatch_read_none|done..]. }
  destruct (if rd then _ else _) as [[t p]|]; [|done].
  destruct (Hread t p eq_refl) as (w1 & E1 & M1 & Et). clear Hread. rewrite E1.
  destruct (pend && wr) eqn:Ew.
  - apply andb_true_iff in Ew as [-> ->]. destruct (t_buf t) as [|m|] eqn:Em; try done.
    destruct (sendto m (t_client t)) eqn:Es; [|done]. intros [= <- <-]. rewrite <- Et in Em, Es.
    destruct (dispatch_write_spec w1 false r1 m M1 Em Es) as (w2 & E2 & M2 & Et2). exists w1, w2. by rewrite Et2, Et.
  - intros [= <- <-]. exists w1, w1. split_and!; try done. by eapply dispatch_write_none.
Qed.

Lemma poll_unfold (w : sworld) a :
  snmp_event_poll call a w =
  let* w1 := dispatch_read call 0 (mark_world a w) in
  let* w2 := dispatch_write call 0 w1 in
  let* w3 := dispatch_read call 1 w2 in
  let* w4 := dispatch_write call 1 w3 in
  let* w5 := dispatch call [2; 3; 4]%nat w4 in Some (sel_n a, w5).
Proof.
  unfold snmp_event_poll, mark_world. cbn [ev_poll Select]. destruct (select_poll a (w_loop w) (w_env w)) as [[n l] s] eqn:E.
  unfold select_poll in E. injection E as <- <- <-. cbn [fst snd]. change (seq 0 SNMP_MAX_EVENTS) with [0; 1; 2; 3; 4]%nat.
  change (dispatch call [0; 1; 2; 3; 4]%nat ?x) with
    (let* w1 := dispatch_read call 0 x in let* w2 := dispatch_write call 0 w1 in
     let* w3 := dispatch_read call 1 w2 in let* w4 := dispatch_write call 1 w3 in dispatch call [2; 3; 4]%nat w4).
  destruct (dispatch_read call 0 _); [|done]. destruct (dispatch_write call 0 _); [|done].
  destruct (dispatch_read call 1 _); [|done]. by destruct (dispatch_write call 1 _).
Qed.

Lemma poll_spec (w : sworld) pend a t' pend' :
  serving w pend -> sel_n a > 0 -> sel_sig a w = false ->
  t_poll (sel_sock a w) (sel_out a w) pend (w_t w) = Some (t', pend') ->
  exists w', snmp_event_poll call a w = Some (sel_n a, w') /\ serving w' pend' /\ w_t w' = t'.
Proof.
  intros S Hn Hg E. pose proof (mark_world_spec w pend a S Hn) as M. rewrite Hg in M.
  destruct (dispatch_socket_spec _ pend _ _ _ t' pend' M E) as (w1 & w2 & E1 & E2 & M2 & Et).
  destruct (dispatch_tail w2 pend' false false M2) as (E3 & E4 & E5).
  exists w2. by rewrite poll_unfold, E1, E2, E3, E4, E5.
Qed.
End Serving.

(** A poll of a running loop that reports something. *)
Lemma run_poll {T} (call : handler -> Z -> Z -> bool -> world handler select_env T -> option (world handler select_env T))
    (probe : world handler select_env T -> _) a sels w w' :
  running (w_loop w) = 1 -> sel_n a > 0 -> snmp_event_poll call a w = Some (sel_n a, w') ->
  snmp_event_run call probe (a :: sels) w = snmp_event_run call probe sels w'.
Proof.
  intros Hr Hn E. cbn [snmp_event_run]. rewrite Hr, E. cbn [Z.eqb].
  by rewrite (proj2 (Z.eqb_neq (sel_n a) 0)) by lia.
Qed.

(** ** Serving requests in turn *)
Section Turns.
Context {A : Type} (junk : Z).
Context (receive : list Z -> Z -> A -> option (A * option (list Z))) (sendto : list Z -> list Z -> bool).

(** What the agent answers to a datagram. *)
Definition agent_answer (bytes : list Z) (a : A) : option (A * option (list Z)) :=
  receive (recv_buf junk TRANSP_BUF_SIZ bytes) (Z.of_nat (length (take TRANSP_BUF_SIZ bytes))) a.

(** The answers to a sequence of datagrams with their senders. *)
Fixpoint agent_answers (reqs : list (list Z * list Z)) (a : A) : option (A * list (option (list Z))) :=
  match reqs with
  | [] => Some (a, [])
  | (bytes, _) :: reqs' =>
      let* (a, resp) := agent_answer bytes a in
      let* (a, resps) := agent_answers reqs' a in
      Some (a, resp :: resps)
  end.

(** Each answer goes to its sender. *)
Definition replies (reqs : list (list Z * list Z)) (resps : list (option (list Z))) : list (list Z * list Z) :=
  concat (zip_with (λ req resp, match resp with Some m => [(req.2, m)] | None => [] end) reqs resps).

(** The socket is reported readable, and after a request that is answered it is
    reported writable before it is reported readable again. *)
Inductive turns (sock sigfd : Z) : list (option (list Z)) -> list select_answer -> Prop :=
| turns_nil : turns sock sigfd [] []
| turns_silent a resps sels :
    sel_n a > 0 -> sock ∈ sel_r a -> sigfd ∉ sel_r a ->
    turns sock sigfd resps sels -> turns sock sigfd (None :: resps) (a :: sels)
| turns_answered a b m resps sels :
    sel_n a > 0 -> sock ∈ sel_r a -> sigfd ∉ sel_r a ->
    sel_n b > 0 -> sock ∉ sel_r b -> sock ∈ sel_w b -> sigfd ∉ sel_r b ->
    turns sock sigfd resps sels -> turns sock sigfd (Some m :: resps) (a :: b :: sels).

Abbreviation udp_call := (transp_call (B := Select) junk TRANSP_BUF_SIZ true receive sendto).

(** The poll that receives a request, and the one that sends its answer. *)
Definition received (from : list Z) (a : A) (rest : list input) (t : transport A) : transport A :=
  mk_transp (t_sock t) (t_sigfd t) (t_buf t) from a rest (t_signals t) (t_sent t) (t_closed t) (t_leaked t).

Lemma poll_receives w x bytes from rest a resp :
  marked w false false false false -> t_inbox (w_t w) = Recv bytes from :: rest ->
  agent_answer bytes (t_agent (w_t w)) = Some (a, resp) ->
  sel_n x > 0 -> t_sock (w_t w) ∈ sel_r x -> t_sigfd (w_t w) ∉ sel_r x ->
  exists w', snmp_event_poll udp_call x w = Some (sel_n x, w') /\
    let t := received from a rest (w_t w) in
    match resp with
    | Some m => marked w' true false false false /\ w_t w' = t_respond m t
    | None => marked w' false false false false /\ w_t w' = t
    end.
Proof.
  intros M Hi Ha Hn Hr Hg. unfold agent_answer in Ha.
  destruct resp as [m|];
    (edestruct (poll_spec junk TRANSP_BUF_SIZ true receive sendto w false x) as (w' & E & M' & Et);
     [done..
     |unfold sel_sig; by apply bool_decide_eq_false
     |unfold t_poll, sel_sock; rewrite bool_decide_eq_true_2 by done; unfold t_read; rewrite Hi, Ha; reflexivity
     |exists w'; by split_and!]).
Qed.

Lemma poll_sends w x m :
  marked w true false false false -> t_buf (w_t w) = BufLive m -> sendto m (t_client (w_t w)) = true ->
  sel_n x > 0 -> t_sock (w_t w) ∉ sel_r x -> t_sock (w_t w) ∈ sel_w x -> t_sigfd (w_t w) ∉ sel_r x ->
  exists w', snmp_event_poll udp_call x w = Some (sel_n x, w') /\ marked w' false false false false /\
    w_t w' = t_write m (w_t w).
Proof.
  intros M Hm Hs Hn Hr Hw Hg.
  apply (poll_spec junk TRANSP_BUF_SIZ true receive sendto w true x); [done..| |].
  - unfold sel_sig. by apply bool_decide_eq_false.
  - unfold t_poll, sel_sock, sel_out. rewrite bool_decide_eq_false_2, bool_decide_eq_true_2 by done. cbn [andb].
    by rewrite Hm, Hs.
Qed.

Lemma run_turns (probe : world handler select_env (transport A) -> _) reqs : forall resps sels w a rest,
  marked w false false false false -> t_inbox (w_t w) = map (λ req, Recv req.1 req.2) reqs ++ rest ->
  agent_answers reqs (t_agent (w_t w)) = Some (a, resps) ->
  (forall to m, (to, m) ∈ replies reqs resps -> sendto m to = true) ->
  turns (t_sock (w_t w)) (t_sigfd (w_t w)) resps sels ->
  exists w', snmp_event_run udp_call probe sels w = Some ([], w') /\ marked w' false false false false /\
    t_sent (w_t w') = t_sent (w_t w) ++ replies reqs resps /\ t_agent (w_t w') = a /\ t_inbox (w_t w') = rest /\
    t_leaked (w_t w') = t_leaked (w_t w).
Proof.
  induction reqs as [|[bytes from] reqs IH]; intros resps sels w a rest M Hi Ha Hs Ht.
  { injection Ha as <- <-. inversion Ht; subst. exists w. cbn [snmp_event_run]. rewrite (mk_run _ _ _ _ _ M).
    split_and!; try done. cbn. by rewrite app_nil_r. }
  cbn [agent_answers] in Ha. destruct (agent_answer bytes _) as [[a1 resp]|] eqn:E1; [|done].
  destruct (agent_answers reqs a1) as [[a2 resps']|] eqn:E2; [|done]. injection Ha as <- <-.
  cbn [map app fst snd] in Hi. inversion Ht as [|x rs ss Hn Hr Hg Ht'|x y m rs ss Hn Hr Hg Hn' Hr' Hw' Hg' Ht']; subst.
  - destruct (poll_receives w x bytes from _ a1 None M Hi E1 Hn Hr Hg) as (w1 & P1 & M1 & T1).
    rewrite (run_poll _ probe x ss w w1) by (done || by apply M).
    destruct (IH resps' ss w1 a2 rest M1) as (w' & E & M' & R); rewrite ?T1; try done.
    exists w'. rewrite E. split_and!; try done; by rewrite T1 in R; destruct R as (? & ? & ? & ?).
  - destruct (poll_receives w x bytes from _ a1 (Some m) M Hi E1 Hn Hr Hg) as (w1 & P1 & M1 & T1).
    rewrite (run_poll _ probe x (y :: ss) w w1) by (done || by apply M).
    destruct (poll_sends w1 y m M1) as (w2 & P2 & M2 & T2); rewrite ?T1; try done.
    { apply Hs. left. }
    rewrite (run_poll _ probe y ss w1 w2) by (done || by apply M1).
    assert (t_leaked (w_t w2) = t_leaked (w_t w)) as Hleak.
    { rewrite T2, T1. cbn. pose proof (mk_buf _ _ _ _ _ M) as Hb. by destruct (t_buf (w_t w)); [|destruct (Hb m0)|]. }
    destruct (IH resps' ss w2 a2 rest M2) as (w' & E & M' & R); rewrite ?T2, ?T1; try done.
    { intros to m' Hm. apply Hs. by right. }
    exists w'. rewrite E. destruct R as (R1 & R2 & R3 & R4). split_and!; try done; [|by rewrite R4, Hleak].
    rewrite R1, T2, T1. cbn [t_write t_respond t_sent t_client received]. by rewrite <- app_assoc.
Qed.
End Turns.

(** ** A stream whose requests the agent answers itself *)
Section Stream.
Context {A : Type} (junk : Z) (room : nat).
Context (receive : list Z -> Z -> A -> option (A * option (list Z))) (sendto : list Z -> list Z -> bool).
Abbreviation tcp_call := (transp_call (B := Select) junk room false receive sendto).

(** The agent after a sequence of messages, to none of which it gives an answer
    to the transport. *)
Fixpoint absorbs (msgs : list (list Z)) (a : A) : option A :=
  match msgs with
  | [] => Some a
  | bytes :: msgs' =>
      let* (a, resp) := receive (recv_buf junk room bytes) (Z.of_nat (length (take room bytes))) a in
      match resp with Some _ => None | None => absorbs msgs' a end
  end.

Definition absorbed (a : A) (rest : list input) (t : transport A) : transport A :=
  mk_transp (t_sock t) (t_sigfd t) (t_buf t) (t_client t) a rest (t_signals t) (t_sent t) (t_closed t) (t_leaked t).

(** Only the socket is reported, as readable. *)
Definition only_readable (sock sigfd : Z) (x : select_answer) : Prop := sel_n x > 0 /\ sock ∈ sel_r x /\ sigfd ∉ sel_r x.

Lemma run_stream (probe : world handler select_env (transport A) -> _) msgs : forall sels w a rest,
  marked w false false false false -> t_inbox (w_t w) = map (λ b, Recv b []) msgs ++ rest ->
  absorbs msgs (t_agent (w_t w)) = Some a -> length sels = length msgs ->
  Forall (only_readable (t_sock (w_t w)) (t_sigfd (w_t w))) sels ->
  exists w', snmp_event_run tcp_call probe sels w = Some ([], w') /\ marked w' false false false false /\
    w_t w' = absorbed a rest (w_t w).
Proof.
  induction msgs as [|bytes msgs IH]; intros sels w a rest M Hi Ha Hl Hs.
  { destruct sels; [|done]. injection Ha as <-. exists w. cbn [snmp_event_run]. rewrite (mk_run _ _ _ _ _ M).
    split; [done|]. split; [done|]. cbn in Hi. subst rest. by destruct (w_t w). }
  destruct sels as [|x sels]; [done|]. apply Forall_cons in Hs as [(Hn & Hr & Hg) Hs]. cbn [map app absorbs] in Hi, Ha.
  destruct (receive _ _ _) as [[a1 [m|]]|] eqn:E1; [done| |done].
  destruct (poll_spec junk room false receive sendto w false x (absorbed a1 (map (λ b, Recv b []) msgs ++ rest) (w_t w)) false)
    as (w1 & P1 & M1 & T1); [done..| | |].
  { unfold sel_sig. by apply bool_decide_eq_false. }
  { unfold t_poll, sel_sock. rewrite bool_decide_eq_true_2 by done. unfold t_read. by rewrite Hi, E1. }
  rewrite (run_poll _ probe x sels w w1) by (done || by apply M).
  destruct (IH sels w1 a rest M1) as (w' & E & M' & T'); rewrite ?T1; [done|exact Ha|cbn in Hl; lia|exact Hs|].
  exists w'. rewrite E. split; [done|]. split; [done|]. by rewrite T', T1.
Qed.

(** Running the transport on such a stream. *)
Lemma running_stream probe (w : world handler select_env (transport A)) msgs rest a sels :
  fds_ok (w_t w) -> length (event (w_loop w)) = SNMP_MAX_EVENTS -> (forall m, t_buf (w_t w) <> BufLive m) ->
  t_inbox (w_t w) = map (λ b, Recv b []) msgs ++ rest -> absorbs msgs (t_agent (w_t w)) = Some a ->
  length sels = length msgs -> Forall (only_readable (t_sock (w_t w)) (t_sigfd (w_t w))) sels ->
  exists w', transport_running (B := Select) junk room false receive sendto probe sels w = Some ([], w') /\
    w_t w' = absorbed a rest (w_t w).
Proof.
  intros Hf Hl Hb Hi Ha Hn Hs. destruct (transport_start_spec w Hf Hl Hb) as (w0 & E0 & M0 & T0).
  unfold transport_running. rewrite E0. rewrite <- T0 in Hi, Ha, Hs.
  destruct (run_stream probe msgs sels w0 a rest M0 Hi Ha Hn Hs) as (w' & E & _ & T). exists w'. by rewrite T, T0.
Qed.
End Stream.

(** ** Safety of a poll *)
Section Safe.
Context {A : Type} (junk : Z) (room : nat) (datagram : bool).
Context (receive : list Z -> Z -> A -> option (A * option (list Z))) (sendto : list Z -> list Z -> bool).
Abbreviation call := (transp_call (B := Select) junk room datagram receive sendto).
Abbreviation sworld := (world handler select_env (transport A)).

(** The next datagram, which the agent handles without a fault. *)
Definition handled (w : sworld) : Prop :=
  exists bytes from rest, t_inbox (w_t w) = Recv bytes from :: rest /\
    is_Some (receive (recv_buf junk room bytes) (Z.of_nat (length (take room bytes))) (t_agent (w_t w))).

(** [select] reports a descriptor as readable when there is something to read. *)
Definition answer_ok (a : select_answer) (w : sworld) : Prop :=
  (t_sock (w_t w) ∈ sel_r a -> handled w) /\ (t_sigfd (w_t w) ∈ sel_r a -> t_signals (w_t w) <> []).

(** What the callbacks of the socket leave alone. *)
Definition same_fds (t t' : transport A) : Prop :=
  t_sock t' = t_sock t /\ t_sigfd t' = t_sigfd t /\ t_signals t' = t_signals t /\ t_closed t' = t_closed t.

(** The loop stops only when sending fails. *)
Lemma socket_safe (w : sworld) pend rd wr r1 :
  marked w pend rd (pend && wr) r1 -> (rd = true -> handled w) ->
  exists w1 w2, dispatch_read call 0 w = Some w1 /\ dispatch_write call 0 w1 = Some w2 /\
    (stopped w2 /\ (exists m to, sendto m to = false) \/
     (exists pend', marked w2 pend' false false r1) /\ same_fds (w_t w) (w_t w2)).
Proof.
  intros M Hin.
  assert (exists w1 p, dispatch_read call 0 w = Some w1 /\ marked w1 (pend || p) false (pend && wr) r1 /\
    same_fds (w_t w) (w_t w1)) as (w1 & p & E1 & M1 & Es1).
  { destruct rd; [|exists w, false; rewrite orb_false_r; split_and!; [by eapply dispatch_read_none|done..]].
    destruct (Hin eq_refl) as (bytes & from & rest & Ei & [a Er]).
    assert (exists t p, t_read junk room datagram receive (w_t w) = Some (t, p) /\ same_fds (w_t w) t)
      as (t & p & Et & Hs).
    { unfold t_read. rewrite Ei, Er. destruct a as [a [m|]]; by do 2 eexists. }
    destruct (dispatch_read_spec junk room datagram receive sendto w _ _ _ t p M Et) as (w1 & E1 & M1 & T1).
    exists w1, p. by rewrite T1. }
  exists w1. destruct (pend && wr) eqn:Ew.
  - apply andb_true_iff in Ew as [-> ->]. destruct (mk_buf _ _ _ _ _ M1) as [m Hm].
    destruct (sendto m (t_client (w_t w1))) eqn:Es.
    + destruct (dispatch_write_spec junk room datagram receive sendto w1 _ _ m M1 Hm Es) as (w2 & E2 & M2 & T2).
      exists w2. split_and!; [done..|]. right. split; [by exists false|]. by rewrite T2.
    + destruct (dispatch_write_fails junk room datagram receive sendto w1 _ _ m M1 Hm Es) as (w2 & E2 & S2).
      exists w2. split_and!; [done..|]. left. eauto.
  - exists w1. split_and!; [done|by eapply dispatch_write_none|]. right. split; [by exists (pend || p)|done].
Qed.

Lemma tail_safe (w : sworld) :
  stopped w \/ (exists pend, marked w pend false false false) ->
  dispatch_write call 1 w = Some w /\ dispatch call [2; 3; 4]%nat w = Some w.
Proof.
  intros [S|[pend M]]; [|by eapply dispatch_tail].
  split; [by apply dispatch_slot_free, stopped_slot; [|lia]|].
  apply dispatch_free. repeat constructor; apply stopped_slot; (done || lia).
Qed.

(** SIGINT is the next signal and [select] reports it. *)
Definition sigint_reported (a : select_answer) (w : sworld) : Prop :=
  sel_n a > 0 /\ t_sigfd (w_t w) ∈ sel_r a /\ head (t_signals (w_t w)) = Some (Some SIGINT).

(** After a poll the loop has stopped because sending failed, or because of
    SIGINT, or goes on. *)
Inductive polled (a : select_answer) (w w' : sworld) : Prop :=
| polled_failed m to : sendto m to = false -> stopped w' -> polled a w w'
| polled_closed :
    sigint_reported a w -> stopped w' -> t_closed (w_t w') = t_closed (w_t w) ++ [t_sock (w_t w); t_sigfd (w_t w)] ->
    polled a w w'
| polled_on pend :
    ~ sigint_reported a w -> marked w' pend false false false -> t_closed (w_t w') = t_closed (w_t w) ->
    t_sock (w_t w') = t_sock (w_t w) -> t_sigfd (w_t w') = t_sigfd (w_t w) -> polled a w w'.

Lemma polled_safe a w w' : polled a w w' -> stopped w' \/ exists pend, marked w' pend false false false.
Proof. intros [? ? ? S|? S|pend ? M]; eauto. Qed.

(** The slot of the signals, once the socket has been served. *)
Lemma signal_polled a (w w2 : sworld) pend :
  sel_n a > 0 -> answer_ok a w -> marked w2 pend false false (sel_sig a w) -> same_fds (w_t w) (w_t w2) ->
  exists w3, dispatch_read call 1 w2 = Some w3 /\ polled a w w3.
Proof.
  intros Hn [_ Hsig] M (Es & Eg & Esig & Ec). unfold sel_sig in M. case_bool_decide as Hin.
  - destruct (t_signals (w_t w)) as [|sg rest] eqn:E; [by destruct (Hsig Hin)|].
    destruct (dispatch_signal_spec junk room datagram receive sendto w2 pend sg rest M Esig) as (w3 & E3 & H).
    exists w3. split; [done|]. case_bool_decide as Hsg; destruct H as [H T].
    + subst sg. apply polled_closed; [by unfold sigint_reported; rewrite E|done|].
      rewrite T. cbn [t_signal t_closed]. by rewrite Ec, Es, Eg.
    + apply polled_on with pend; rewrite ?T; cbn [t_signal t_closed t_sock t_sigfd]; rewrite ?app_nil_r; try done.
      intros (_ & _ & Hh). rewrite E in Hh. by injection Hh.
  - exists w2. split; [by eapply dispatch_tail|]. apply polled_on with pend; try done. by intros (_ & ? & _).
Qed.

Lemma poll_polled (w : sworld) pend a :
  marked w pend false false false -> answer_ok a w ->
  exists w', snmp_event_poll call a w = Some (sel_n a, w') /\ polled a w w'.
Proof.
  intros M Hok. rewrite poll_unfold. destruct (Z.leb_spec (sel_n a) 0) as [Hn|Hn].
  - assert (mark_world a w = w) as ->.
    { unfold mark_world, select_poll. rewrite Z.gtb_ltb, (proj2 (Z.ltb_ge 0 (sel_n a))) by lia. by destruct w. }
    destruct (dispatch_tail junk room datagram receive sendto w pend _ _ M) as (E3 & E4 & E5).
    rewrite (dispatch_read_none _ _ _ _ _ _ _ _ _ M), (dispatch_write_none _ _ _ _ _ _ _ _ _ M), E3, E4, E5.
    exists w. split; [done|]. apply polled_on with pend; try done. intros (? & _). lia.
  - pose proof (mark_world_spec w pend a M ltac:(lia)) as M0.
    destruct (socket_safe _ _ _ _ _ M0) as (w1 & w2 & -> & -> & H2).
    { unfold sel_sock. intros H%bool_decide_eq_true. by apply Hok. }
    assert (exists w3, dispatch_read call 1 w2 = Some w3 /\ polled a w w3) as (w3 & -> & H3).
    { destruct H2 as [[S (m & to & Hm)]|[[pend' M2] Es]].
      - exists w2. split; [by apply dispatch_slot_free, stopped_slot; [|lia]|by apply polled_failed with m to].
      - apply (signal_polled a w w2 pend'); [lia|done..]. }
    destruct (tail_safe w3 (polled_safe _ _ _ H3)) as [-> ->]. by exists w3.
Qed.

(** The answers of [select] up to the one that reports SIGINT, each right for
    the state in which it is given. *)
Inductive interrupted : sworld -> list select_answer -> Prop :=
| interrupted_now a w : answer_ok a w -> sigint_reported a w -> interrupted w [a]
| interrupted_later a sels w :
    answer_ok a w -> sel_n a <> 0 -> ~ sigint_reported a w ->
    (forall w', snmp_event_poll call a w = Some (sel_n a, w') -> interrupted w' sels) ->
    interrupted w (a :: sels).

Lemma run_interrupted (probe : sworld -> option sworld) w sels more :
  (forall m to, sendto m to = true) -> interrupted w sels -> forall pend, marked w pend false false false ->
  exists w', snmp_event_run call probe (sels ++ more) w = Some (more, w') /\ stopped w' /\
    t_closed (w_t w') = t_closed (w_t w) ++ [t_sock (w_t w); t_sigfd (w_t w)].
Proof.
  intros Hs. induction 1 as [a w Hok Hint|a sels w Hok Hn Hint _ IH]; intros pend M;
    destruct (poll_polled w pend a M Hok) as (w1 & E1 & [m to Hm|Hi S Hc|pend1 Hi M1 Hc Hk Hg]);
    try (by rewrite Hs in Hm); try done.
  - exists w1. split; [|done]. destruct Hint as (Hn & _). cbn [app].
    rewrite (run_poll _ probe a more w w1) by (done || apply M). destruct S as (Hr & _).
    destruct more; cbn [snmp_event_run]; by rewrite Hr.
  - destruct (IH w1 E1 pend1 M1) as (w' & E & S & Hc'). exists w'. rewrite Hc', Hc, Hk, Hg. split; [|done].
    cbn [app snmp_event_run]. rewrite (mk_run _ _ _ _ _ M), E1. cbn [Z.eqb]. by rewrite (proj2 (Z.eqb_neq _ _) Hn).
Qed.

End Safe.

(** ** Properties *)

(** C20: a poll is safe and keeps the table of the event loop: while the
    transport runs, the socket and the signals are in the first two slots, the
    loop waits for the socket to become writable exactly when a response is
    pending, the pending response is a live buffer, and the highest descriptor
    is right; whatever [select] reports, a poll with an agent
    that handles the datagram received does not block, use a freed
    buffer or a free slot, and leaves a state of the same kind or a stopped
    loop. *)
Theorem transport_poll_safe {A} (junk : Z) (room : nat) (datagram : bool)
    (receive : list Z -> Z -> A -> option (A * option (list Z))) (sendto : list Z -> list Z -> bool)
    (w : world handler select_env (transport A)) (pend : bool) (a : select_answer) :
  marked w pend false false false -> answer_ok junk room receive a w ->
  exists w', snmp_event_poll (transp_call (B := Select) junk room datagram receive sendto) a w = Some (sel_n a, w') /\
    (stopped w' \/ exists pend', marked w' pend' false false false).
Proof.
  intros M Hok. destruct (poll_polled junk room datagram receive sendto w pend a M Hok) as (w' & E & H).
  exists w'. split; [exact E|]. by apply polled_safe in H.
Qed.

(** *** Examples: an agent that counts the datagrams and answers with the count
    those that start with a sequence tag *)
Definition count_agent (buf : list Z) (len : Z) (a : Z) : option (Z * option (list Z)) :=
  let* b := buf !! 0%nat in Some (a + 1, if b =? 48 then Some [a] else None).

Definition idle_world (inbox : list input) : world handler select_env (transport Z) :=
  mk_world ev_loop (mk_senv ∅ ∅) (mk_transp 3 4 BufNull [] 7 inbox [] [] [] []).

Definition readable : select_answer := mk_sel 1 {[3]} ∅.
Definition writable : select_answer := mk_sel 1 ∅ {[3]}.
Definition both : select_answer := mk_sel 2 {[3]} {[3]}.

Lemma idle_world_starts inbox : exists w,
  transport_start (idle_world inbox) = Some w /\ marked w false false false false /\ w_t w = w_t (idle_world inbox).
Proof. by apply transport_start_spec. Qed.

Lemma transport_poll_safe_witness :
  exists w w', transport_start (idle_world [Recv [48] [1]]) = Some w /\
    snmp_event_poll (transp_call (B := Select) 0 TRANSP_BUF_SIZ true count_agent (λ _ _, true)) readable w = Some (1, w') /\
    (stopped w' \/ exists pend', marked w' pend' false false false).
Proof.
  destruct (idle_world_starts [Recv [48] [1]]) as (w & Ew & M & Et).
  destruct (transport_poll_safe 0 TRANSP_BUF_SIZ true count_agent (λ _ _, true) w false readable M) as (w' & E & H).
  { unfold answer_ok, handled. rewrite Et. split; [|by vm_compute]. intros _. exists [48], [1], []. split; [reflexivity|].
    eexists. reflexivity. }
  exists w, w'. split; [exact Ew|]. split; [exact E|exact H].
Defined.

(** C21: SIGINT ends the run: from its start the transport polls, whatever
    requests, answers and other signals come in and whether or not a response is
    pending, until [select] reports the descriptor of the signals and SIGINT is
    the next one; then [transport_running] returns, without another system call,
    with every slot of the loop free and the two descriptors closed once each. *)
Theorem transport_stops_on_sigint {A} (junk : Z) (room : nat) (datagram : bool)
    (receive : list Z -> Z -> A -> option (A * option (list Z))) (sendto : list Z -> list Z -> bool)
    (probe : world handler select_env (transport A) -> option _)
    (w : world handler select_env (transport A)) (sels more : list select_answer) :
  fds_ok (w_t w) -> length (event (w_loop w)) = SNMP_MAX_EVENTS -> (forall m, t_buf (w_t w) <> BufLive m) ->
  (forall m to, sendto m to = true) ->
  (forall w0, transport_start w = Some w0 -> interrupted junk room datagram receive sendto w0 sels) ->
  exists w', transport_running (B := Select) junk room datagram receive sendto probe (sels ++ more) w = Some (more, w') /\
    stopped w' /\ t_closed (w_t w') = t_closed (w_t w) ++ [t_sock (w_t w); t_sigfd (w_t w)].
Proof.
  intros Hf Hl Hb Hs Hint. destruct (transport_start_spec w Hf Hl Hb) as (w0 & E0 & M0 & T0).
  unfold transport_running. rewrite E0, <- T0. by apply run_interrupted with false, M0; [|apply Hint].
Qed.

(** A request arrives and is answered; SIGINT comes before the answer is sent. *)
Definition signalled : select_answer := mk_sel 1 {[4]} ∅.
Definition interrupted_world : world handler select_env (transport Z) :=
  mk_world ev_loop (mk_senv ∅ ∅) (mk_transp 3 4 BufNull [] 7 [Recv [48] [1]] [Some SIGINT] [] [] []).

Lemma interrupted_world_stops w0 :
  transport_start interrupted_world = Some w0 ->
  interrupted 0 TRANSP_BUF_SIZ true count_agent (λ _ _, true) w0 [readable; signalled].
Proof.
  destruct (transport_start_spec interrupted_world) as (w1 & E & M & T); [by repeat split|done..|].
  rewrite E. intros [= ->].
  apply interrupted_later; [|cbn; lia| |].
  - unfold answer_ok, handled. rewrite T. split; [|cbn; set_solver]. intros _. exists [48], [1], []. split; [reflexivity|].
    eexists. reflexivity.
  - intros (_ & H & _). rewrite T in H. cbn in H. set_solver.
  - intros w' E'. destruct (poll_receives 0 count_agent (λ _ _, true) w0 readable [48] [1] [] 8 (Some [7]) M)
      as (w & Ew & Mw & Tw); rewrite ?T; [reflexivity|reflexivity|done|cbn; set_solver|cbn; set_solver|].
    rewrite Ew in E'. injection E' as ->. rewrite T in Tw. apply interrupted_now.
    + unfold answer_ok. rewrite Tw. split; [|intros _; discriminate]. intros H. exfalso. revert H. clear. cbn. set_solver.
    + unfold sigint_reported. rewrite Tw. cbn. split; [done|]. split; [set_solver|done].
Qed.

Lemma transport_stops_on_sigint_witness :
  exists w', transport_running (B := Select) 0 TRANSP_BUF_SIZ true count_agent (λ _ _, true) Some
      ([readable; signalled] ++ [writable]) interrupted_world = Some ([writable], w') /\
    stopped w' /\ t_closed (w_t w') = [] ++ [3; 4].
Proof.
  apply (transport_stops_on_sigint 0 TRANSP_BUF_SIZ true count_agent (λ _ _, true) Some interrupted_world
    [readable; signalled] [writable]); [by repeat split|reflexivity|intros m; discriminate|reflexivity|].
  exact interrupted_world_stops.
Defined.

(** Requests that come in one at a time are answered in order, each answer
    to the sender of its request, by [transport_running] from the start: if the
    socket is reported writable after each request that is answered, before the
    next one is read, the answers of the agent are sent once each, nothing is
    lost, and the transport waits for the next request. *)
Theorem udp_serves_in_turn {A} (junk : Z) (receive : list Z -> Z -> A -> option (A * option (list Z)))
    (sendto : list Z -> list Z -> bool) (probe : world handler select_env (transport A) -> option _)
    (w : world handler select_env (transport A)) (reqs : list (list Z * list Z)) (rest : list input)
    (a : A) (resps : list (option (list Z))) (sels : list select_answer) :
  fds_ok (w_t w) -> length (event (w_loop w)) = SNMP_MAX_EVENTS -> (forall m, t_buf (w_t w) <> BufLive m) ->
  t_inbox (w_t w) = map (λ req, Recv req.1 req.2) reqs ++ rest ->
  agent_answers junk receive reqs (t_agent (w_t w)) = Some (a, resps) ->
  (forall to m, (to, m) ∈ replies reqs resps -> sendto m to = true) ->
  turns (t_sock (w_t w)) (t_sigfd (w_t w)) resps sels ->
  exists w', transport_running (B := Select) junk TRANSP_BUF_SIZ true receive sendto probe sels w = Some ([], w') /\
    t_sent (w_t w') = t_sent (w_t w) ++ replies reqs resps /\ t_agent (w_t w') = a /\ t_inbox (w_t w') = rest /\
    t_leaked (w_t w') = t_leaked (w_t w) /\ marked w' false false false false.
Proof.
  intros Hf Hl Hb Hi Ha Hs Ht. destruct (transport_start_spec w Hf Hl Hb) as (w0 & E0 & M0 & T0).
  unfold transport_running. rewrite E0. rewrite <- T0 in Hi, Ha, Ht.
  destruct (run_turns junk receive sendto probe reqs resps sels w0 a rest M0 Hi Ha Hs Ht) as (w' & E & M & R).
  exists w'. rewrite T0 in R. destruct R as (R1 & R2 & R3 & R4). by split_and!.
Qed.

Definition example_reqs : list (list Z * list Z) := [([48; 1], [1]); ([5], [2]); ([48; 2], [3])].

Lemma udp_serves_in_turn_witness :
  exists w', transport_running (B := Select) 0 TRANSP_BUF_SIZ true count_agent (λ _ _, true) Some
      [readable; writable; readable; readable; writable] (idle_world (map (λ req, Recv req.1 req.2) example_reqs)) =
    Some ([], w') /\ t_sent (w_t w') = [([1], [7]); ([3], [9])].
Proof.
  destruct (udp_serves_in_turn 0 count_agent (λ _ _, true) Some (idle_world (map (λ req, Recv req.1 req.2) example_reqs))
    example_reqs [] 10 [Some [7]; None; Some [9]] [readable; writable; readable; readable; writable])
    as (w' & E & Hs & _).
  - by repeat split.
  - reflexivity.
  - intros m; discriminate.
  - reflexivity.
  - reflexivity.
  - reflexivity.
  - repeat constructor; (lia || set_solver).
  - exists w'. split; [exact E|exact Hs].
Defined.

(** A request that arrives while a response is pending takes its place:
    when [select] reports the socket readable and writable at once, the new
    datagram is received first.  If it is answered, the pending response is
    never sent and its buffer is lost; if it is not (it may be malformed), the
    pending response is sent to its sender, who did not ask for it. *)
Theorem udp_response_overtaken {A} (junk : Z) (receive : list Z -> Z -> A -> option (A * option (list Z)))
    (sendto : list Z -> list Z -> bool) (w : world handler select_env (transport A)) (sel : select_answer)
    (pending bytes from : list Z) (rest : list input) (a : A) (resp : option (list Z)) :
  marked w true false false false -> t_buf (w_t w) = BufLive pending -> t_inbox (w_t w) = Recv bytes from :: rest ->
  agent_answer junk receive bytes (t_agent (w_t w)) = Some (a, resp) -> (forall m to, sendto m to = true) ->
  sel_n sel > 0 -> t_sock (w_t w) ∈ sel_r sel -> t_sock (w_t w) ∈ sel_w sel -> t_sigfd (w_t w) ∉ sel_r sel ->
  exists w', snmp_event_poll (transp_call (B := Select) junk TRANSP_BUF_SIZ true receive sendto) sel w =
      Some (sel_n sel, w') /\ marked w' false false false false /\
    t_sent (w_t w') = t_sent (w_t w) ++ [(from, default pending resp)] /\
    t_leaked (w_t w') = t_leaked (w_t w) ++ (if resp then [pending] else []).
Proof.
  intros M Hp Hi Ha Hs Hn Hr Hw Hg. unfold agent_answer in Ha.
  destruct resp as [m|];
    (edestruct (poll_spec junk TRANSP_BUF_SIZ true receive sendto w true sel) as (w' & E & M' & Et);
     [done..
     |unfold sel_sig; by apply bool_decide_eq_false
     |unfold t_poll, sel_sock, sel_out; rewrite !bool_decide_eq_true_2 by done; unfold t_read;
      rewrite Hi, Ha; unfold t_respond; cbn [andb t_buf]; rewrite ?Hp, Hs; reflexivity
     |exists w'; rewrite Et; split_and!; try done; cbn; by rewrite ?app_nil_r]).
Qed.

Lemma udp_response_overtaken_witness :
  exists w w', marked w true false false false /\
    snmp_event_poll (transp_call (B := Select) 0 TRANSP_BUF_SIZ true count_agent (λ _ _, true)) both w = Some (2, w') /\
    t_sent (w_t w') = [([2], [7])].
Proof.
  destruct (idle_world_starts [Recv [48; 1] [1]; Recv [5] [2]]) as (w0 & E0 & M0 & T0).
  destruct (poll_receives 0 count_agent (λ _ _, true) w0 readable [48; 1] [1] [Recv [5] [2]] 8 (Some [7]) M0)
    as (w & E & M & Et); rewrite ?T0; [reflexivity|reflexivity|done|cbn; set_solver|cbn; set_solver|].
  rewrite T0 in Et.
  destruct (udp_response_overtaken 0 count_agent (λ _ _, true) w both [7] [5] [2] [] 9 None M) as (w' & E' & _ & Hs & _);
    rewrite ?Et; [reflexivity|reflexivity|reflexivity|reflexivity|done|cbn; set_solver
                 |cbn; set_solver|cbn; set_solver|].
  exists w, w'. split; [exact M|]. split; [exact E'|]. rewrite Et in Hs. exact Hs.
Defined.

(** *** Signals with the two back ends *)
Lemma epoll_start_spec {A} (w : world handler epoll_env (transport A)) :
  fds_ok (w_t w) -> length (event (w_loop w)) = SNMP_MAX_EVENTS ->
  exists w', transport_start (B := Epoll) w = Some w' /\ w_t w' = w_t w /\
    w_env w' !! t_sigfd (w_t w) = Some (mk_int true false) /\
    exists ev evs, event (w_loop w') = ev :: evs /\ rcb ev = Some HRead.
Proof.
  intros (Hfs & Hfg & Hne) Hl. pose proof (fd_ok_range _ Hfs). pose proof (fd_ok_range _ Hfg).
  destruct (event (w_loop w)) as [|e0 [|e1 [|e2 [|e3 [|e4 [|]]]]]] eqn:E; try done.
  unfold transport_start, snmp_event_init, snmp_event_add. rewrite E. cbn [map w_loop event max_fd w_env w_t].
  cbn [add_loop reset_slot ev_fd]. rewrite (proj2 (Z.eqb_neq (-1) (t_sock (w_t w)))) by lia.
  cbn [Z.eqb Pos.eqb ev_add Epoll epoll_add set_fd ev_flag ev_fd w_t w_loop w_env event max_fd add_loop set_cb set_flag].
  rewrite (proj2 (Z.eqb_neq (t_sock (w_t w)) (t_sigfd (w_t w)))), (proj2 (Z.eqb_neq (t_sock (w_t w)) (-1))) by (done || lia).
  cbn [reset_slot ev_fd]. rewrite (proj2 (Z.eqb_neq (-1) (t_sigfd (w_t w)))) by lia. eexists. split; [reflexivity|]. split; [done|].
  split; [|by do 2 eexists]. cbn [w_env ev_init Epoll]. rewrite lookup_empty.
  change (ev_flag (reset_slot ?e) =? SNMP_EV_NONE) with true. cbv iota.
  rewrite lookup_insert_ne, lookup_empty by done. apply lookup_insert_eq.
Qed.

Lemma epoll_reads_first {A} (junk : Z) (room : nat) (datagram : bool)
    (receive : list Z -> Z -> A -> option (A * option (list Z))) (sendto : list Z -> list Z -> bool)
    (w : world handler epoll_env (transport A)) fd ev evs :
  event (w_loop w) = ev :: evs -> rcb ev = Some HRead -> t_inbox (w_t w) = [] ->
  snmp_event_poll (transp_call (B := Epoll) junk room datagram receive sendto) (mk_epa 1 [(fd, mk_int true false)]) w = None.
Proof.
  intros E Hc Hi. unfold snmp_event_poll. cbn [ev_poll Epoll epoll_poll ep_n ep_events]. rewrite E.
  change (take (Z.to_nat 1) [(fd, mk_int true false)]) with [(fd, mk_int true false)]. cbn [mark_in_order e_in e_out].
  cbn [dispatch seq SNMP_MAX_EVENTS]. unfold dispatch_read at 1. cbn [w_loop event lookup list_lookup set_rd ev_read rcb].
  rewrite Hc. cbn [transp_call]. unfold read_handler. cbn [w_t]. by rewrite Hi.
Qed.

(** With [epoll] the wrong slot is served: the [i]th event reported marks the
    [i]th slot, whatever descriptor it is for.  When a signal arrives while the
    socket is idle, the callback of the socket is called, and blocks; with
    [select] the same signal closes the transport and stops the loop. *)
Theorem epoll_signal_misdirected {A} (junk : Z) (room : nat) (datagram : bool)
    (receive : list Z -> Z -> A -> option (A * option (list Z))) (sendto : list Z -> list Z -> bool)
    (we : world handler epoll_env (transport A)) (ws : world handler select_env (transport A)) :
  w_t we = w_t ws -> fds_ok (w_t ws) -> (forall m, t_buf (w_t ws) <> BufLive m) ->
  length (event (w_loop we)) = SNMP_MAX_EVENTS -> length (event (w_loop ws)) = SNMP_MAX_EVENTS ->
  t_inbox (w_t ws) = [] -> t_signals (w_t ws) = [Some SIGINT] ->
  (exists w, transport_start (B := Epoll) we = Some w /\ w_env w !! t_sigfd (w_t we) = Some (mk_int true false) /\
     snmp_event_poll (transp_call (B := Epoll) junk room datagram receive sendto)
       (mk_epa 1 [(t_sigfd (w_t we), mk_int true false)]) w = None) /\
  (exists w w', transport_start (B := Select) ws = Some w /\ t_sigfd (w_t ws) ∈ rfds (w_env w) /\
     snmp_event_poll (transp_call (B := Select) junk room datagram receive sendto)
       (mk_sel 1 {[t_sigfd (w_t ws)]} ∅) w = Some (1, w') /\
     stopped w' /\ t_closed (w_t w') = t_closed (w_t ws) ++ [t_sock (w_t ws); t_sigfd (w_t ws)]).
Proof.
  intros Et Hf Hb Hle Hls Hi Hs. split.
  - destruct (epoll_start_spec we) as (w & E & T & Hw & ev & evs & Hev & Hcb); [by rewrite Et|done|].
    exists w. split_and!; [done..|]. apply (epoll_reads_first _ _ _ _ _ _ _ ev evs); [done..|]. by rewrite T, Et.
  - destruct (transport_start_spec ws Hf Hls Hb) as (w & E & M & T). pose proof Hf as (_ & _ & Hne).
    pose proof (mark_world_spec w false (mk_sel 1 {[t_sigfd (w_t ws)]} ∅) M ltac:(by cbn)) as M1.
    unfold sel_sock, sel_sig in M1. cbn [sel_r andb] in M1.
    rewrite T, bool_decide_eq_false_2, bool_decide_eq_true_2 in M1 by set_solver.
    set (w1 := mark_world _ w) in M1. assert (w_t w1 = w_t w) as T1 by done.
    destruct (dispatch_signal_spec junk room datagram receive sendto w1 false (Some SIGINT) [] M1) as (w' & E' & S & T');
      [by rewrite T1, T|]. exists w, w'. split; [done|]. split; [by rewrite (mk_r _ _ _ _ _ M), T; set_solver|].
    destruct (tail_safe junk room datagram receive sendto w' (or_introl S)) as [E4 E5].
    rewrite poll_unfold. fold w1.
    rewrite (dispatch_read_none _ _ _ _ _ _ _ _ _ M1), (dispatch_write_none _ _ _ _ _ _ _ _ _ M1), E', E4, E5.
    split_and!; [done..|]. rewrite T', T1, T. done.
Qed.

Lemma epoll_signal_misdirected_witness :
  let we := mk_world ev_loop ∅ (mk_transp 3 4 BufNull [] 7 [] [Some SIGINT] [] [] []) in
  exists w, transport_start (B := Epoll) we = Some w /\
    snmp_event_poll (transp_call (B := Epoll) 0 TRANSP_BUF_SIZ true count_agent (λ _ _, true))
      (mk_epa 1 [(4, mk_int true false)]) w = None.
Proof.
  set (t := mk_transp 3 4 BufNull [] 7 [] [Some SIGINT] [] [] []).
  destruct (epoll_signal_misdirected 0 TRANSP_BUF_SIZ true count_agent (λ _ _, true) (mk_world ev_loop ∅ t)
              (mk_world ev_loop (mk_senv ∅ ∅) t)) as [(w & E & _ & P) _];
    [reflexivity|by repeat split|intros m; discriminate|reflexivity..|].
  exists w. split; [exact E|exact P].
Defined.
