(* ===== verification/SnmpTrap.v ===== *)
(** * Notifications ([src/core/snmp_trap.c], [src/core/trap.h])

    A notification is built in a global datagram: [snmp_trap_varbind] appends a
    binding and adds to the running length, [snmp_trap_send] fills the header,
    encodes and transmits the message and clears the datagram.  The random
    request identifier and the result of [socket] and [sendto] are parameters.
    The effects on the event loop, on the Lua registry and on the network are
    returned in the order in which they happen.  What is sent is compared with a
    message in the encoding of X.690 ([trap_x690]). *)
From Stdlib Require Import String.
From S2P Require Import Prelude BerEncoder BerSpec BerDecoder Oid MibTree MibSearch MibView Message SnmpData SnmpOut SnmpProc EventLoop.
Local Open Scope Z_scope.

Definition TRAP_V1 : Z := 1.
Definition TRAP_V2 : Z := 2.
Definition SNMP_TRAP_V1 : Z := 0xA4.

(** [send_buf]: NULL before the first notification, an allocation while one is
    encoded and sent, freed but not reset after it. *)
Inductive send_ptr := Null | Live (mem : list Z) | Dangling.

(** [struct trap_hdr] has the fields of [pdu_hdr], the header of the second
    version being the only one in use. *)
Record trap_datagram := mk_tdg {
  td_sock : Z;
  td_lua : bool;             (* lua_state is not NULL *)
  td_handler : Z;
  td_buf : send_ptr;
  td_send_len : Z;
  td_data_len : Z;
  td_version : Z;
  td_ver_len : Z;
  td_community : list Z;
  td_comm_len : Z;
  td_hdr : pdu_hdr;
  td_vb_list_len : Z;
  td_vb_cnt : Z;
  td_vb_list : list var_bind;
}.

(** The static object before the first call. *)
Definition snmp_trap_datagram : trap_datagram :=
  mk_tdg 0 false 0 Null 0 0 0 0 [] 0 (mk_pdu 0 0 0 0 0 0 0 0) 0 0 [].

Inductive trap_effect :=
| EvTimeout (timeout : Z)                                  (* snmp_event_timeout *)
| LuaUnref (handler : Z)
| LuaCall (handler : Z)
| SendTo (sock : Z) (msg : list Z) (addr port : list Z)
| CloseSock (sock : Z).

Section Trap.
Context (e : endian) (junk : Z).

(** [free]: an invalid pointer is an error. *)
Definition free_buf (b : send_ptr) : option send_ptr :=
  match b with Null => Some Null | Live _ => Some Dangling | Dangling => None end.

Definition set_pdu_len (n : Z) (h : pdu_hdr) : pdu_hdr :=
  mk_pdu (pdu_type h) n (req_id_len h) (req_id h) (err_stat_len h) (err_stat h) (err_idx_len h) (err_idx h).

Definition trap_datagram_clear (t : trap_datagram) : option trap_datagram :=
  let* buf := free_buf (td_buf t) in
  Some (mk_tdg (td_sock t) (td_lua t) (td_handler t) buf 0 0 (td_version t) (td_ver_len t) (td_community t)
          (td_comm_len t) (set_pdu_len 0 (td_hdr t)) 0 0 []).

(** What is written for the header of the second version. *)
Definition snmp_trapv2_header (h : pdu_hdr) : option (list Z) :=
  let* id := int_field e (req_id_len h) (req_id h) in
  let* stat := int_field e (err_stat_len h) (err_stat h) in
  let* idx := int_field e (err_idx_len h) (err_idx h) in
  Some (id ++ stat ++ idx).

(** The lengths of [snmp_trap_encode]: each is added to what the field holds. *)
Definition trap_lengths (t : trap_datagram) : trap_datagram :=
  let h := td_hdr t in
  let plen := u32 (pdu_len h + tlv_len e (td_vb_list_len t)) in
  let plen := u32 (plen + tlv_len e (req_id_len h)) in
  let plen := u32 (plen + tlv_len e (err_stat_len h)) in
  let plen := u32 (plen + tlv_len e (err_idx_len h)) in
  let dlen := u32 (td_data_len t + tlv_len e plen) in
  let dlen := u32 (dlen + tlv_len e (td_comm_len t)) in
  let dlen := u32 (dlen + tlv_len e (td_ver_len t)) in
  let slen := u32 (td_send_len t + tlv_len e dlen) in
  mk_tdg (td_sock t) (td_lua t) (td_handler t) (td_buf t) slen dlen (td_version t) (td_ver_len t)
    (td_community t) (td_comm_len t) (set_pdu_len plen h) (td_vb_list_len t) (td_vb_cnt t) (td_vb_list t).

Definition set_buf (b : send_ptr) (t : trap_datagram) : trap_datagram :=
  mk_tdg (td_sock t) (td_lua t) (td_handler t) b (td_send_len t) (td_data_len t) (td_version t) (td_ver_len t)
    (td_community t) (td_comm_len t) (td_hdr t) (td_vb_list_len t) (td_vb_cnt t) (td_vb_list t).

(** The bytes are put into an allocation of the computed length.  The buffer is
    freed for every version but the second. *)
Definition snmp_trap_encode (t : trap_datagram) : option trap_datagram :=
  let t := trap_lengths t in
  let h := td_hdr t in
  let* ver := int_field e (td_ver_len t) (td_version t - 1) in
  let* comm := str_field e (td_comm_len t) (td_community t) in
  let hdr := tl e ASN1_TAG_SEQ (td_data_len t) ++ ver ++ comm ++ tl e (pdu_type h) (pdu_len h) in
  let alloc := replicate (Z.to_nat (td_send_len t)) junk in
  if td_version t =? TRAP_V2 then
    let* v2 := snmp_trapv2_header h in
    let* vbs := vbs_encode e (td_vb_list t) in
    let* mem := blit (hdr ++ v2 ++ tl e ASN1_TAG_SEQ (td_vb_list_len t) ++ vbs) alloc in
    Some (set_buf (Live mem) t)
  else
    let* mem := blit hdr alloc in
    Some (set_buf Dangling t).

(** [sin_addr] and [sin_port] are stored in network order. *)
Definition snmp_trap_socket (t : trap_datagram) (host port : Z) : option trap_effect :=
  match td_buf t with
  | Live mem =>
      let* msg := slice 0 (Z.to_nat (td_send_len t)) mem in
      Some (SendTo (td_sock t) msg (net_bytes host) (mem_of BE 2 port))
  | _ => None
  end.

Definition snmp_trap_varbind (oid : list Z) (var : asn1_var) (t : trap_datagram) : option trap_datagram :=
  let* val_len := ber_value_enc_try e (value var) (len var) (tag var) in
  let* bs := ber_value_enc e (value var) (len var) (tag var) in
  let* mem := blit bs (replicate (Z.to_nat val_len) junk) in
  let* id_len := ber_oid_enc_try oid in
  let vlen := Z.of_nat (length bs) in
  let vb := mk_vb oid (u32 (tlv_len e id_len + tlv_len e vlen)) (Z.of_nat (length oid)) vlen (tag var) mem in
  Some (mk_tdg (td_sock t) (td_lua t) (td_handler t) (td_buf t) (td_send_len t) (td_data_len t) (td_version t)
          (td_ver_len t) (td_community t) (td_comm_len t) (td_hdr t)
          (u32 (td_vb_list_len t + tlv_len e (vb_len vb))) (u32 (td_vb_cnt t + 1)) (td_vb_list t ++ [vb])).

(** The header of [snmp_trap_send].  The lengths of the error status and index
    are computed from the memory of the length fields themselves. *)
Definition trap_header (version random : Z) (h : pdu_hdr) : option pdu_hdr :=
  let* id_len := ber_value_enc_try e (mem_of e 4 random) 1 ASN1_TAG_INT in
  let* stat_len := ber_value_enc_try e (mem_of e 4 (err_stat_len h)) 1 ASN1_TAG_INT in
  let* idx_len := ber_value_enc_try e (mem_of e 4 (err_idx_len h)) 1 ASN1_TAG_INT in
  let ty := if version =? TRAP_V1 then SNMP_TRAP_V1 else if version =? TRAP_V2 then SNMP_TRAP_V2 else pdu_type h in
  Some (mk_pdu ty (pdu_len h) id_len random stat_len 0 idx_len 0).

(** The result of [sendto] is returned to the caller and plays no other part. *)
Definition snmp_trap_send (version : Z) (community : list Z) (comm_len host port random : Z) (t : trap_datagram)
    : option (trap_datagram * trap_effect) :=
  let* h := trap_header version random (td_hdr t) in
  let t := mk_tdg (td_sock t) (td_lua t) (td_handler t) (td_buf t) (td_send_len t) (td_data_len t) version 1
             community comm_len h (td_vb_list_len t) (td_vb_cnt t) (td_vb_list t) in
  let* t := snmp_trap_encode t in
  let* sent := snmp_trap_socket t host port in
  let* t := trap_datagram_clear t in
  Some (t, sent).

(** [sock] is the result of [socket]; the second result is returned. *)
Definition snmp_trap_open (sock poll_interv handler : Z) (t : trap_datagram) : trap_datagram * Z * list trap_effect :=
  if sock <? 0 then
    (mk_tdg sock (td_lua t) (td_handler t) (td_buf t) (td_send_len t) (td_data_len t) (td_version t) (td_ver_len t)
       (td_community t) (td_comm_len t) (td_hdr t) (td_vb_list_len t) (td_vb_cnt t) (td_vb_list t), -1, [])
  else
    (mk_tdg sock true handler (td_buf t) (td_send_len t) (td_data_len t) (td_version t) (td_ver_len t)
       (td_community t) (td_comm_len t) (td_hdr t) (td_vb_list_len t) (td_vb_cnt t) [], 0, [EvTimeout poll_interv]).

Definition snmp_trap_close (t : trap_datagram) : list trap_effect :=
  if td_lua t then [EvTimeout 0; LuaUnref (td_handler t); CloseSock (td_sock t)] else [].

Definition snmp_trap_probe (t : trap_datagram) : list trap_effect :=
  if td_lua t then [LuaCall (td_handler t)] else [].
End Trap.

(** ** Notifications as messages *)

(** The value that a variable holds. *)
Definition var_holds (e : endian) (var : asn1_var) (v : snmp_val) : Prop :=
  tag var = val_tag v /\ len var = val_count v /\ exists tail, value var = val_mem e v ++ tail.

(** An object of a notification is an identifier and a value.  The encoder
    announces their lengths in eight bits and, on big-endian machines, not at all
    for the integers 0 and -1. *)
Definition object : Type := list Z * snmp_val.

Definition object_ok (e : endian) (o : object) : Prop :=
  words o.1 /\ (length o.1 < 256)%nat /\ zlen (oid_bytes o.1) < 256 /\ is_u8 (val_tag o.2) /\ val_ok o.2 /\ val_sized e o.2.

Definition object_standard (o : object) : Prop := oid_standard o.1 /\ val_standard o.2.

(** What is sent for it. *)
Definition object_binding (o : object) : binding := mk_binding o.1 (val_tag o.2) (val_written o.2).

Definition note_message (community : list Z) (random : Z) (objs : list object) : list Z :=
  message_tlv 1 community (mk_pdu_msg SNMP_TRAP_V2 random 0 0 (map object_binding objs)).

(** The message of RFC 1901 and RFC 3416 in the encoding of X.690. *)
Definition object_x690 (o : object) : list Z :=
  tlv ASN1_TAG_SEQ (tlv ASN1_TAG_OBJID (oid_x690 o.1) ++ tlv (val_tag o.2) (val_octets o.2)).

Definition trap_x690 (community : list Z) (random : Z) (objs : list object) : list Z :=
  tlv ASN1_TAG_SEQ (tint 1 ++ tlv ASN1_TAG_OCTSTR community ++
    tlv SNMP_TRAP_V2 (tint random ++ tint 0 ++ tint 0 ++ tlv ASN1_TAG_SEQ (concat (map object_x690 objs)))).

Lemma note_message_x690 community random objs : Forall (object_ok LE) objs \/ Forall (object_ok BE) objs ->
  Forall object_standard objs -> note_message community random objs = trap_x690 community random objs.
Proof.
  intros Hok Hs. unfold note_message, trap_x690, message_tlv, msg_body, pdu_tlv, pdu_body, bindings_bytes, tstr.
  cbn [p_type p_req_id p_err_stat p_err_idx p_bindings]. rewrite map_map.
  assert (map (λ o, binding_tlv (object_binding o)) objs = map object_x690 objs) as ->; [|done].
  apply map_ext_in. intros o Ho%list_elem_of_In. rewrite Forall_forall in Hs. destruct (Hs o Ho) as [H1 H2].
  unfold binding_tlv, binding_body, object_x690, object_binding. cbn [b_oid b_type b_value].
  rewrite oid_bytes_x690, val_written_octets; [done| |done|done].
  destruct Hok as [Hok|Hok]; rewrite Forall_forall in Hok; apply (Hok o Ho).
Qed.

(** The state between two calls: the bindings [bs] are pending. *)
Record trap_ready (t : trap_datagram) (bs : list binding) : Prop := {
  tr_send : td_send_len t = 0;
  tr_data : td_data_len t = 0;
  tr_pdu : pdu_len (td_hdr t) = 0;
  tr_stat : 0 <= err_stat_len (td_hdr t) < 128;
  tr_idx : 0 <= err_idx_len (td_hdr t) < 128;
  tr_len : td_vb_list_len t = zlen (bindings_bytes bs);
  tr_vbs : Forall2 vb_rep (td_vb_list t) bs;
}.

(** The lengths from which those of the error status and index are computed:
    the zeros of the initial state do on little-endian machines only. *)
Definition lengths_sized (e : endian) (t : trap_datagram) : Prop :=
  int_sized e (err_stat_len (td_hdr t)) /\ int_sized e (err_idx_len (td_hdr t)).

Definition same_target (t t' : trap_datagram) : Prop :=
  td_sock t' = td_sock t /\ td_lua t' = td_lua t /\ td_handler t' = td_handler t.

Lemma same_target_trans t1 t2 t3 : same_target t1 t2 -> same_target t2 t3 -> same_target t1 t3.
Proof. unfold same_target. intros (-> & -> & ->). tauto. Qed.

Section Ready.
Context (e : endian) (junk : Z).

Lemma bindings_bytes_snoc bs b : bindings_bytes (bs ++ [b]) = bindings_bytes bs ++ binding_tlv b.
Proof. unfold bindings_bytes. rewrite map_app, concat_app. cbn [map concat]. by rewrite app_nil_r. Qed.

Lemma varbind_ready t bs oid var v :
  trap_ready t bs -> var_holds e var v -> object_ok e (oid, v) ->
  zlen (bindings_bytes (bs ++ [object_binding (oid, v)])) < 2 ^ 32 ->
  exists t', snmp_trap_varbind e junk oid var t = Some t' /\ trap_ready t' (bs ++ [object_binding (oid, v)]) /\
    same_target t t' /\ td_hdr t' = td_hdr t.
Proof.
  intros [] (Et & El & tail & Ev) (Hw & Hn & Hb & Ht & Hv & Hs) Hl. cbn [fst snd] in *. set (b := object_binding (oid, v)) in *.
  rewrite bindings_bytes_snoc, zlen_app in Hl. pose proof (zlen_nonneg (bindings_bytes bs)). pose proof (zlen_nonneg (binding_tlv b)).
  destruct (vb_out_encode_value e junk (mk_res oid (Z.of_nat (length oid)) None 0 0 0 0 var) (len var) (tag var) oid (val_written v))
    as (vb & Evb & Hvb); cbn [r_var r_id_len r_oid]; rewrite ?Et, ?El, ?Ev, ?Nat2Z.id; try done; [by apply ber_value_enc_written|apply slice_self|
    change (zlen (binding_tlv b) < 2 ^ 32); lia|].
  rewrite Et in Hvb. change (mk_binding oid (val_tag v) (val_written v)) with b in Hvb.
  unfold vb_out_encode in Evb. cbn [r_var r_id_len r_oid] in Evb. unfold snmp_trap_varbind.
  rewrite Et, El, Ev in Evb |- *. rewrite ber_value_enc_try_written by done.
  destruct (ber_value_enc _ _ _ _) as [val|]; [|done]. destruct (blit _ _) as [mem|]; [|done].
  rewrite Nat2Z.id, slice_self in Evb. destruct (ber_oid_enc_try oid) as [id_len|]; [|done]. injection Evb as Evb.
  rewrite Evb. eexists. split; [reflexivity|]. split; [|done].
  split; cbn [td_send_len td_data_len td_hdr td_vb_list_len td_vb_list]; try done.
  - destruct Hvb as (_ & _ & _ & _ & _ & _ & _ & _ & ->). rewrite tr_len0, bindings_bytes_snoc, zlen_app. fold b.
    change (binding_tlv b) with (tlv ASN1_TAG_SEQ (binding_body b)) in *.
    rewrite (tlv_len_spec e ASN1_TAG_SEQ) by lia. apply u32_id. unfold is_u32. lia.
  - apply Forall2_app; [done|]. by constructor.
Qed.

Lemma u32_tlv_len n : u32 (0 + tlv_len e n) = tlv_len e n.
Proof. rewrite Z.add_0_l. apply u32_id, u32_range. Qed.

Lemma int_try n : is_i32 n -> ber_value_enc_try e (mem_of e 4 n) 1 ASN1_TAG_INT =
  if decide (int_sized e n) then Some (zlen (int_bytes n)) else None.
Proof.
  intros. unfold ber_value_enc_try. cbn [ASN1_TAG_INT Z.eqb Pos.eqb orb].
  rewrite <- (app_nil_r (mem_of _ _ _)), load_int_mem_of by done. by rewrite ber_int_enc_try_sized.
Qed.

Lemma small_int_bytes n : 0 <= n < 128 -> zlen (int_bytes n) = 1.
Proof. intros. unfold zlen, int_bytes, int_octets. rewrite length_be_bytes. by repeat zdec. Qed.

Lemma len_try n : 0 <= n < 128 -> ber_value_enc_try e (mem_of e 4 n) 1 ASN1_TAG_INT =
  if decide (int_sized e n) then Some 1 else None.
Proof. intros. rewrite int_try, small_int_bytes by (unfold is_i32; lia). done. Qed.

Lemma trapv2_hdr h n x : pdu_hdr_encode e h n = Some x ->
  exists v2, snmp_trapv2_header e h = Some v2 /\ x = tl e (pdu_type h) (pdu_len h) ++ v2 ++ tl e ASN1_TAG_SEQ n.
Proof.
  unfold pdu_hdr_encode, snmp_trapv2_header. do 3 (destruct (int_field _ _ _); [|done]). intros [= <-].
  eexists. split; [reflexivity|]. by repeat rewrite <- app_assoc.
Qed.

Lemma send_ready t bs mem comm host port random :
  trap_ready t bs -> lengths_sized e t -> is_i32 random -> int_sized e random -> slice 0 (length comm) mem = Some comm ->
  zlen (message_tlv 1 comm (mk_pdu_msg SNMP_TRAP_V2 random 0 0 bs)) < 2 ^ 32 ->
  exists t',
    snmp_trap_send e junk TRAP_V2 mem (zlen comm) host port random t =
      Some (t', SendTo (td_sock t) (message_tlv 1 comm (mk_pdu_msg SNMP_TRAP_V2 random 0 0 bs))
                  (net_bytes host) (mem_of BE 2 port)) /\
    trap_ready t' [] /\ lengths_sized e t' /\ same_target t t'.
Proof.
  intros [] [Hs1 Hs2] Hr Hrs Hc Hl. set (p := mk_pdu_msg _ _ _ _ _) in *.
  change (message_tlv 1 comm p) with (tlv ASN1_TAG_SEQ (msg_body 1 comm p)) in *.
  unfold snmp_trap_send, trap_header. rewrite (int_try random), !len_try, !decide_True by done. change (TRAP_V2 =? TRAP_V1) with false.
  change (TRAP_V2 =? TRAP_V2) with true. cbv iota.
  set (h := mk_pdu SNMP_TRAP_V2 (pdu_len (td_hdr t)) _ _ _ _ _ _).
  assert (pdu_rep h p) as Hp.
  { unfold pdu_rep, int_rep, is_u8, is_i32 in *. subst h p.
    cbn [pdu_type req_id req_id_len err_stat err_stat_len err_idx err_idx_len p_type p_req_id p_err_stat p_err_idx].
    split_and!; first [done | lia]. }
  destruct (pdu_len_spec e h p (td_vb_list_len t) Hp tr_len0) as [Ep1 Ep2]; [unfold msg_body in *; zside|].
  unfold snmp_trap_encode, trap_lengths.
  cbn [td_hdr td_vb_list_len td_comm_len td_ver_len td_data_len td_send_len td_version td_community td_vb_list td_sock
       td_lua td_handler td_buf td_vb_cnt].
  replace (pdu_len h) with 0 by (by rewrite <- tr_pdu0). rewrite tr_data0, tr_send0.
  rewrite (u32_tlv_len (td_vb_list_len t)), Ep1, (u32_tlv_len (zlen (pdu_body p))), Ep2.
  change (tlv_len e 1) with (tlv_len e (zlen (int_bytes 1))).
  rewrite (tlv_len_spec e ASN1_TAG_OCTSTR), (tlv_len_spec e ASN1_TAG_INT)
    by (unfold msg_body, tint, tstr in *; zside).
  assert (u32 (u32 (zlen (pdu_tlv p) + zlen (tlv ASN1_TAG_OCTSTR comm)) + zlen (tlv ASN1_TAG_INT (int_bytes 1))) =
    zlen (msg_body 1 comm p)) as ->.
  { unfold msg_body, tint, tstr in *. zlens. rewrite !u32_id; unfold is_u32; repeat rewrite u32_id; unfold is_u32; lia. }
  rewrite u32_tlv_len, (tlv_len_spec e ASN1_TAG_SEQ) by done.
  change (int_field e 1 (TRAP_V2 - 1)) with (int_field e (zlen (int_bytes 1)) 1).
  rewrite int_field_spec, str_field_spec by (done || unfold msg_body, tint, tstr in *; zside).
  assert (pdu_rep (set_pdu_len (zlen (pdu_body p)) h) p) as Hp' by exact Hp.
  assert (zlen (pdu_tlv p) < 2 ^ 32) as Hpl by (unfold msg_body in *; zside).
  destruct (pdu_hdr_encode_spec e _ p (td_vb_list_len t) Hp' tr_len0 eq_refl Hpl) as (x & Ex & Hx).
  destruct (trapv2_hdr _ _ _ Ex) as (v2 & -> & ->). change (TRAP_V2 =? TRAP_V2) with true. cbv iota.
  assert (zlen (bindings_bytes (p_bindings p)) < 2 ^ 32) as Hbl.
  { change (pdu_tlv p) with (tlv (p_type p) (pdu_body p)) in *. unfold pdu_body in *. zside. }
  rewrite (vbs_encode_spec e _ bs) by done.
  repeat rewrite <- app_assoc in Hx. repeat rewrite <- app_assoc. change (p_bindings p) with bs in Hx. rewrite Hx.
  change (tint 1 ++ tstr comm ++ pdu_tlv p) with (msg_body 1 comm p).
  rewrite tl_spec0, Zto_nat_zlen, blit_all by (zside || by rewrite length_replicate).
  unfold snmp_trap_socket, trap_datagram_clear. cbn [td_buf set_buf td_send_len free_buf td_sock].
  rewrite Zto_nat_zlen, slice_self. eexists. split; [reflexivity|]. split; [|split; [by destruct e|done]].
  split; try done; cbn; lia.
Qed.
End Ready.

(** ** Sequences of notifications *)
Record notification := mk_note {
  n_vars : list (list Z * asn1_var);
  n_community : list Z;
  n_random : Z;
  n_host : Z;
  n_port : Z;
}.

Section Notify.
Context (e : endian) (junk : Z).

Fixpoint trap_varbinds (vars : list (list Z * asn1_var)) (t : trap_datagram) : option trap_datagram :=
  match vars with
  | [] => Some t
  | ov :: vars' => let* t := snmp_trap_varbind e junk ov.1 ov.2 t in trap_varbinds vars' t
  end.

(** The community is a C string: its bytes are followed by a zero. *)
Fixpoint notify (notes : list notification) (t : trap_datagram) : option (trap_datagram * list trap_effect) :=
  match notes with
  | [] => Some (t, [])
  | n :: notes' =>
      let* t := trap_varbinds (n_vars n) t in
      let* (t, sent) := snmp_trap_send e junk TRAP_V2 (n_community n ++ [0]) (zlen (n_community n)) (n_host n)
                          (n_port n) (n_random n) t in
      let* (t, rest) := notify notes' t in
      Some (t, sent :: rest)
  end.

(** The objects are in the variables; they can be announced and the message fits
    32 bits. *)
Definition vars_hold (vars : list (list Z * asn1_var)) (objs : list object) : Prop :=
  Forall2 (λ ov o, ov.1 = o.1 /\ var_holds e ov.2 o.2) vars objs.

Definition note_fits (community : list Z) (random : Z) (objs : list object) : Prop :=
  Forall (object_ok e) objs /\ is_i32 random /\ int_sized e random /\ zlen (note_message community random objs) < 2 ^ 32.

Definition note_ok (n : notification) (objs : list object) : Prop :=
  vars_hold (n_vars n) objs /\ note_fits (n_community n) (n_random n) objs.

Lemma trap_varbinds_ready vars objs : vars_hold vars objs -> Forall (object_ok e) objs -> forall t bs0,
  trap_ready t bs0 -> zlen (bindings_bytes (bs0 ++ map object_binding objs)) < 2 ^ 32 ->
  exists t', trap_varbinds vars t = Some t' /\ trap_ready t' (bs0 ++ map object_binding objs) /\ same_target t t' /\
    td_hdr t' = td_hdr t.
Proof.
  induction 1 as [|[oid var] [oid' v] vars objs [E Hv] _ IH]; intros Hok t bs0 Ht Hl.
  { cbn [map]. rewrite app_nil_r. by exists t. }
  cbn [fst snd] in E, Hv. subst oid'. apply Forall_cons in Hok as [Ho Hok]. cbn [map] in *.
  rewrite (app_assoc bs0 [object_binding (oid, v)] _ : bs0 ++ _ :: _ = _) in *.
  assert (zlen (bindings_bytes (bs0 ++ [object_binding (oid, v)])) < 2 ^ 32) as Hl'.
  { revert Hl. unfold bindings_bytes. rewrite (map_app _ (bs0 ++ [_]) _), concat_app, zlen_app.
    pose proof (zlen_nonneg (concat (map binding_tlv (map object_binding objs)))). lia. }
  destruct (varbind_ready e junk t bs0 oid var v Ht Hv Ho Hl') as (t1 & E1 & Ht1 & S1 & H1).
  destruct (IH Hok t1 (bs0 ++ [_]) Ht1 Hl) as (t2 & E2 & Ht2 & S2 & H2). exists t2. cbn [trap_varbinds fst snd]. rewrite E1.
  split_and!; [done..|by apply (same_target_trans t t1 t2)|by rewrite H2].
Qed.

Lemma message_bindings_bound c p : zlen (message_tlv 1 c p) < 2 ^ 32 -> zlen (bindings_bytes (p_bindings p)) < 2 ^ 32.
Proof. intros H. unfold message_tlv, msg_body, pdu_tlv, pdu_body in H. zside. Qed.

(** One notification. *)
Lemma notify_one n objs t : trap_ready t [] -> note_ok n objs ->
  exists t1, trap_varbinds (n_vars n) t = Some t1 /\ same_target t t1 /\ td_hdr t1 = td_hdr t /\
    trap_ready t1 (map object_binding objs) /\
    (lengths_sized e t -> exists t2,
      snmp_trap_send e junk TRAP_V2 (n_community n ++ [0]) (zlen (n_community n)) (n_host n) (n_port n) (n_random n) t1 =
        Some (t2, SendTo (td_sock t) (note_message (n_community n) (n_random n) objs) (net_bytes (n_host n)) (mem_of BE 2 (n_port n))) /\
      trap_ready t2 [] /\ lengths_sized e t2 /\ same_target t t2).
Proof.
  intros Ht (Hv & Ho & Hr & Hrs & Hl).
  destruct (trap_varbinds_ready _ _ Hv Ho t [] Ht) as (t1 & E1 & Ht1 & S1 & H1).
  { by apply (message_bindings_bound (n_community n) (mk_pdu_msg SNMP_TRAP_V2 (n_random n) 0 0 (map object_binding objs))). }
  exists t1. split_and!; [done..|]. intros Hs.
  destruct (send_ready e junk t1 _ (n_community n ++ [0]) (n_community n) (n_host n) (n_port n) (n_random n) Ht1)
    as (t2 & E2 & Ht2 & Hs2 & S2); try done; [unfold lengths_sized; by rewrite H1|by apply slice_app|].
  exists t2. rewrite E2, (proj1 S1). split_and!; [done..|by apply (same_target_trans t t1 t2)].
Qed.

(** Without the lengths nothing is sent. *)
Lemma send_unsized t bs mem n host port random : trap_ready t bs -> ~ lengths_sized e t ->
  snmp_trap_send e junk TRAP_V2 mem n host port random t = None.
Proof.
  intros [] Hs. unfold snmp_trap_send, trap_header. destruct (ber_value_enc_try e _ 1 _) as [id_len|]; [|done].
  rewrite !len_try by done. destruct (decide (int_sized e (err_stat_len (td_hdr t)))); [|done].
  by destruct (decide (int_sized e (err_idx_len (td_hdr t)))); [destruct Hs|].
Qed.
End Notify.

(** ** Properties *)


(** The time since start, as [mibs/system.lua] registers it, and a string. *)
Definition example_note : notification :=
  mk_note [([1; 3; 6; 1; 2; 1; 1; 3; 0], mk_var ASN1_TAG_TIMETICKS 1 (mem_of LE 4 300 ++ [0; 0]));
           ([1; 3; 6; 1; 4; 1; 2333; 1; 1; 0], mk_var ASN1_TAG_OCTSTR 2 [104; 105; 0])]
    [112; 117; 98; 108; 105; 99] 7 0x7f000001 162.

Definition example_objects : list object :=
  [([1; 3; 6; 1; 2; 1; 1; 3; 0], VUint ASN1_TAG_TIMETICKS 300);
   ([1; 3; 6; 1; 4; 1; 2333; 1; 1; 0], VStr ASN1_TAG_OCTSTR [104; 105])].

Lemma example_note_ok : note_ok LE example_note example_objects.
Proof.
  split.
  { repeat constructor; [by exists [0; 0]|by exists [0]]. }
  unfold object_ok, is_u32, is_u8, is_i32, example_note, example_objects.
  split; [|by split; [|split; [|vm_compute]]]. repeat constructor; done.
Qed.

Lemma snmp_trap_datagram_ready : trap_ready snmp_trap_datagram [].
Proof. split; cbn; (done || lia). Qed.


(** A notification of any version but the second is sent from freed memory:
    [snmp_trap_encode] frees the send buffer and returns normally, and its caller
    goes on to pass the buffer to [sendto] and to free it a second time. *)
Theorem snmp_trap_v1_use_after_free (e : endian) (junk : Z) (t t' : trap_datagram) (host port : Z) :
  td_version t <> TRAP_V2 -> snmp_trap_encode e junk t = Some t' ->
  td_buf t' = Dangling /\ snmp_trap_socket t' host port = None /\ trap_datagram_clear t' = None.
Proof.
  intros Hv. unfold snmp_trap_encode.
  destruct (int_field _ _ _) as [ver|]; [|done]. destruct (str_field _ _ _) as [c|]; [|done].
  change (td_version (trap_lengths e t)) with (td_version t). rewrite (proj2 (Z.eqb_neq _ _) Hv).
  destruct (blit _ _); [|done]. by intros [= <-].
Qed.

(** The datagram [snmp_trap_send] hands to the encoder for version 1. *)
Definition example_v1 : trap_datagram :=
  mk_tdg 3 true 1 Null 0 0 TRAP_V1 1 [112; 0] 1 (mk_pdu SNMP_TRAP_V1 0 1 7 1 0 1 0) 0 0 [].

Lemma snmp_trap_v1_use_after_free_witness :
  exists t', snmp_trap_encode LE 0xAA example_v1 = Some t' /\ td_buf t' = Dangling /\
    snmp_trap_socket t' 0 162 = None /\ trap_datagram_clear t' = None.
Proof.
  destruct (snmp_trap_encode LE 0xAA example_v1) as [t'|] eqn:E; [|exfalso; revert E; by vm_compute].
  exists t'. split; [reflexivity|]. exact (snmp_trap_v1_use_after_free LE 0xAA example_v1 t' 0 162 ltac:(done) E).
Defined.

(** ** The event loop *)

(** What the effects do to the loop. *)
Definition loop_effect {H env T} (w : world H env T) (eff : trap_effect) : world H env T :=
  match eff with EvTimeout t => snmp_event_timeout t w | _ => w end.

(** Enabling notifications makes the loop wake up every [poll_interv] ticks
    of ten milliseconds; but disabling them does not stop it: the loop is left
    with a time limit of zero, with which [select] returns at once, for ever, and
    each time the probe calls the Lua handler that was just released, since
    [lua_state] is not reset. *)
Theorem snmp_trap_close_keeps_probing {H env T} (sock poll_interv handler : Z) (t : trap_datagram) (w : world H env T) :
  0 <= sock ->
  let '(t1, ret, effs) := snmp_trap_open sock poll_interv handler t in
  let w1 := foldl loop_effect w effs in
  let w2 := foldl loop_effect w1 (snmp_trap_close t1) in
  ret = 0 /\
  (select_args (w_loop w1)).2 = Some (Z.quot (poll_interv * 10) 1000, Z.rem (poll_interv * 10) 1000 * 1000) /\
  LuaUnref handler ∈ snmp_trap_close t1 /\
  (select_args (w_loop w2)).2 = Some (0, 0) /\ snmp_trap_probe t1 = [LuaCall handler].
Proof.
  intros Hs. unfold snmp_trap_open. rewrite (proj2 (Z.ltb_ge sock 0)) by lia.
  cbn [foldl loop_effect snmp_trap_close td_lua td_handler td_sock snmp_trap_probe].
  unfold select_args, snmp_event_timeout. cbn [w_loop timeout fst snd].
  rewrite (proj2 (Z.eqb_neq (poll_interv * 10) (-1))) by lia. split_and!; try done. right. left.
Qed.

Lemma snmp_trap_close_keeps_probing_witness :
  snmp_trap_probe (snmp_trap_open 5 100 9 snmp_trap_datagram).1.1 = [LuaCall 9].
Proof.
  pose proof (snmp_trap_close_keeps_probing 5 100 9 snmp_trap_datagram
                (mk_world (H := unit) ev_loop tt tt) ltac:(lia)) as P.
  exact (proj2 (proj2 (proj2 (proj2 P)))).
Defined.
