(* ===== verification/AgentxData.v ===== *)
(** * AgentX data ([src/core/agentx.h], [src/core/utils.h])

    The sub-agent keeps one [struct agentx_datagram]: the header of the last PDU
    it received, the decoded search ranges and bindings, and the answers.  The
    lists are Rocq lists in the order of the links; an allocation is the list of
    its cells, so the identifiers are lists of words and the values lists of
    bytes.  The padding of [struct x_var_bind] behind its flexible array is not
    counted as part of the value. *)
From S2P Require Import Prelude BerEncoder.
Local Open Scope Z_scope.

(** ** Constants *)
Definition INSTANCE_REGISTRATION : Z := 0x1.
Definition NON_DEFAULT_CONTEXT : Z := 0x8.
Definition NETWORD_BYTE_ORDER : Z := 0x10.

Definition AGENTX_PDU_OPEN : Z := 1.
Definition AGENTX_PDU_CLOSE : Z := 2.
Definition AGENTX_PDU_REG : Z := 3.
Definition AGENTX_PDU_UNREG : Z := 4.
Definition AGENTX_PDU_GET : Z := 5.
Definition AGENTX_PDU_GETNEXT : Z := 6.
Definition AGENTX_PDU_GETBULK : Z := 7.
Definition AGENTX_PDU_TESTSET : Z := 8.
Definition AGENTX_PDU_COMMITSET : Z := 9.
Definition AGENTX_PDU_UNDOSET : Z := 10.
Definition AGENTX_PDU_CLEANUPSET : Z := 11.
Definition AGENTX_PDU_PING : Z := 13.
Definition AGENTX_PDU_RESPONSE : Z := 18.

Definition AGENTX_ERR_STAT_NOT_WRITABLE : Z := 17.
Definition R_SHUTDOWN : Z := 5.

Inductive agentx_err_code :=
| AGENTX_ERR_OK
| AGENTX_ERR_PDU_CTX_LEN
| AGENTX_ERR_VB_VAR
| AGENTX_ERR_VB_VALUE_LEN
| AGENTX_ERR_VB_OID_LEN
| AGENTX_ERR_SR_VAR
| AGENTX_ERR_SR_OID_LEN.

#[global] Instance agentx_err_code_eq_dec : EqDecision agentx_err_code.
Proof. solve_decision. Defined.

(** ** Byte order *)

(** [bswap_16], [bswap_32], [bswap_64]: the bytes of an [n]-byte integer
    reversed. *)
Definition bswap (n : nat) (x : Z) : Z := le_val (rev (le_bytes n x)).

(** Whether the byte order of a message with these flags differs from the host's. *)
Definition swaps (e : endian) (flags : Z) : bool :=
  match e with
  | LE => nz (Z.land flags NETWORD_BYTE_ORDER)
  | BE => negb (nz (Z.land flags NETWORD_BYTE_ORDER))
  end.

(** [htoax16], [htoax32] and [htoax64], for [n] bytes; [axtoh] is the same. *)
Definition htoax (e : endian) (n : nat) (flags x : Z) : Z :=
  if swaps e flags then bswap n x else x.
Definition axtoh (e : endian) (n : nat) (flags x : Z) : Z := htoax e n flags x.

(** The byte order a message with these flags is in. *)
Definition wire_order (flags : Z) : endian := if nz (Z.land flags NETWORD_BYTE_ORDER) then BE else LE.

(** [*(uintN_t * )(buf + pos)], for [n] bytes. *)
Definition rd (e : endian) (n : nat) (buf : list Z) (pos : nat) : option Z :=
  let* bs := slice pos n buf in Some (val_of e bs).

(** The macro of [utils.h]: the size rounded up to a multiple of four, in
    [size_t]. *)
Definition uint_sizeof (n : Z) : Z := Z.land (n + 4 - 1) (Z.lnot (4 - 1)).

(** ** Records *)
Record x_pdu_hdr := mk_xhdr {
  xh_version : Z;
  xh_type : Z;
  xh_flags : Z;
  xh_reserved : Z;
  xh_session_id : Z;
  xh_transaction_id : Z;
  xh_packet_id : Z;
  xh_payload_length : Z;
}.

Record x_search_range := mk_sr {
  sr_start : list Z;
  sr_end : list Z;
  sr_start_len : Z;
  sr_end_len : Z;
  sr_start_include : Z;
  sr_end_include : Z;
}.

Record x_var_bind := mk_xvb {
  xvb_oid : list Z;
  xvb_oid_len : Z;
  xvb_val_type : Z;
  xvb_val_len : Z;
  xvb_value : list Z;
}.

(** The union of the datagram: the four bytes that [close.reason],
    [getbulk.non_rep], [getbulk.max_rep] and [response.sys_up_time] share, then
    [response.error] and [response.index]. *)
Record x_union := mk_xu {
  xu_head : list Z;
  xu_error : Z;
  xu_index : Z;
}.

Record agentx_datagram := mk_xdg {
  x_context : list Z;
  x_ctx_len : Z;
  x_hdr : x_pdu_hdr;
  x_u : x_union;
  x_vb_in_cnt : Z;
  x_vb_out_cnt : Z;
  x_vb_in_list : list x_var_bind;
  x_vb_out_list : list x_var_bind;
  x_sr_in_cnt : Z;
  x_sr_out_cnt : Z;
  x_sr_in_list : list x_search_range;
  x_sr_out_list : list x_search_range;
}.

(** The identifiers of a range and of a binding. *)
Definition sr_start_ids (sr : x_search_range) : option (list Z) := slice 0 (Z.to_nat (sr_start_len sr)) (sr_start sr).
Definition sr_end_ids (sr : x_search_range) : option (list Z) := slice 0 (Z.to_nat (sr_end_len sr)) (sr_end sr).
Definition xvb_ids (vb : x_var_bind) : option (list Z) := slice 0 (Z.to_nat (xvb_oid_len vb)) (xvb_oid vb).

(** Field updates. *)
Definition set_payload (n : Z) (h : x_pdu_hdr) : x_pdu_hdr :=
  mk_xhdr (xh_version h) (xh_type h) (xh_flags h) (xh_reserved h) (xh_session_id h) (xh_transaction_id h)
    (xh_packet_id h) (u32 n).

Definition set_packet_id (n : Z) (h : x_pdu_hdr) : x_pdu_hdr :=
  mk_xhdr (xh_version h) (xh_type h) (xh_flags h) (xh_reserved h) (xh_session_id h) (xh_transaction_id h)
    (u32 n) (xh_payload_length h).

Definition set_xhdr (h : x_pdu_hdr) (x : agentx_datagram) : agentx_datagram :=
  mk_xdg (x_context x) (x_ctx_len x) h (x_u x) (x_vb_in_cnt x) (x_vb_out_cnt x) (x_vb_in_list x) (x_vb_out_list x)
    (x_sr_in_cnt x) (x_sr_out_cnt x) (x_sr_in_list x) (x_sr_out_list x).

Definition set_xu (u : x_union) (x : agentx_datagram) : agentx_datagram :=
  mk_xdg (x_context x) (x_ctx_len x) (x_hdr x) u (x_vb_in_cnt x) (x_vb_out_cnt x) (x_vb_in_list x) (x_vb_out_list x)
    (x_sr_in_cnt x) (x_sr_out_cnt x) (x_sr_in_list x) (x_sr_out_list x).

Definition set_context (c : list Z) (n : Z) (x : agentx_datagram) : agentx_datagram :=
  mk_xdg c n (x_hdr x) (x_u x) (x_vb_in_cnt x) (x_vb_out_cnt x) (x_vb_in_list x) (x_vb_out_list x)
    (x_sr_in_cnt x) (x_sr_out_cnt x) (x_sr_in_list x) (x_sr_out_list x).

Definition add_vb_in (vb : x_var_bind) (x : agentx_datagram) : agentx_datagram :=
  mk_xdg (x_context x) (x_ctx_len x) (x_hdr x) (x_u x) (u32 (x_vb_in_cnt x + 1)) (x_vb_out_cnt x)
    (x_vb_in_list x ++ [vb]) (x_vb_out_list x) (x_sr_in_cnt x) (x_sr_out_cnt x) (x_sr_in_list x) (x_sr_out_list x).

Definition add_vb_out (vb : x_var_bind) (x : agentx_datagram) : agentx_datagram :=
  mk_xdg (x_context x) (x_ctx_len x) (x_hdr x) (x_u x) (x_vb_in_cnt x) (u32 (x_vb_out_cnt x + 1))
    (x_vb_in_list x) (x_vb_out_list x ++ [vb]) (x_sr_in_cnt x) (x_sr_out_cnt x) (x_sr_in_list x) (x_sr_out_list x).

Definition add_sr_in (sr : x_search_range) (x : agentx_datagram) : agentx_datagram :=
  mk_xdg (x_context x) (x_ctx_len x) (x_hdr x) (x_u x) (x_vb_in_cnt x) (x_vb_out_cnt x)
    (x_vb_in_list x) (x_vb_out_list x) (u32 (x_sr_in_cnt x + 1)) (x_sr_out_cnt x) (x_sr_in_list x ++ [sr])
    (x_sr_out_list x).

(** ** Lemmas *)
Lemma uint_sizeof_eq n : uint_sizeof n = 4 * ((n + 3) / 4).
Proof.
  unfold uint_sizeof. rewrite <- Z.ldiff_land. change (4 - 1) with (Z.ones 2).
  rewrite Z.ldiff_ones_r by lia. rewrite Z.shiftl_mul_pow2, Z.shiftr_div_pow2 by lia.
  change (2 ^ 2) with 4. change (Z.ones 2) with 3. replace (n + 4 - 1) with (n + 3) by lia. lia.
Qed.

Lemma uint_sizeof_bounds n : n <= uint_sizeof n < n + 4 /\ uint_sizeof n mod 4 = 0.
Proof. rewrite uint_sizeof_eq. Z.div_mod_to_equations. lia. Qed.

Lemma bswap_val_of e n bs : length bs = n -> bytes bs ->
  bswap n (val_of e bs) = val_of (match e with LE => BE | BE => LE end) bs.
Proof.
  intros <- Hb. unfold bswap. destruct e; cbn [val_of].
  - by rewrite le_bytes_le_val.
  - rewrite <- length_rev, le_bytes_le_val by by apply Forall_rev. by rewrite rev_involutive.
Qed.

(** The conversion reads an integer in the byte order of the message, on both
    kinds of host. *)
Lemma axtoh_val_of e n flags bs : length bs = n -> bytes bs ->
  axtoh e n flags (val_of e bs) = val_of (wire_order flags) bs.
Proof.
  intros Hl Hb. unfold axtoh, htoax, swaps, wire_order.
  destruct e, (nz _); cbn [negb]; rewrite ?bswap_val_of by done; done.
Qed.

Lemma rd_mid e n l1 l2 r i : i = length l1 -> n = length l2 -> rd e n (l1 ++ l2 ++ r) i = Some (val_of e l2).
Proof. intros. unfold rd. by rewrite slice_mid. Qed.
