(* ===== verification/ErrorMsg.v ===== *)
(** * The messages for errors ([src/core/utils.h], [snmp_msg_in.c], [agentx_msg_in.c])

    The decoders log an error with the message that the linear search
    [error_message] finds in a table.  A code without a message would give a null
    pointer to [printf]; every code of the two enumerations has one, and no two
    codes share it. *)
From Stdlib Require Import String.
From S2P Require Import Prelude SnmpData AgentxData.
Local Open Scope Z_scope.

(** [struct err_msg_map] *)
Record err_msg_map := mk_err { error : Z; message : string }.

(** [error_message(msg_blk, size, err)]: [None] outside the result is a read
    past the end of the table, inside it the null pointer. *)
Fixpoint error_loop (msg_blk : list err_msg_map) (k i : nat) (err : Z) : option (option string) :=
  match k with
  | O => Some None
  | S k' =>
      let* m := msg_blk !! i in
      if error m =? err then Some (Some (message m)) else error_loop msg_blk k' (S i) err
  end.

Definition error_message (msg_blk : list err_msg_map) (size : nat) (err : Z) : option (option string) :=
  error_loop msg_blk size 0 err.

(** The values of the enumeration; SNMP_ERR_OK is zero. *)
Definition SNMP_ERR_OK : Z := 0.

Definition snmp_err_value (c : snmp_err_code) : Z :=
  match c with
  | SNMP_ERR_VERSION => -100
  | SNMP_ERR_GLOBAL_DATA_LEN => -200
  | SNMP_ERR_GLOBAL_ID => -201
  | SNMP_ERR_GLOBAL_SIZE => -202
  | SNMP_ERR_GLOBAL_FLAGS => -203
  | SNMP_ERR_GLOBAL_MODEL => -204
  | SNMP_ERR_SECURITY_STR => -300
  | SNMP_ERR_SECURITY_SEQ => -301
  | SNMP_ERR_SECURITY_ENGINE_ID => -302
  | SNMP_ERR_SECURITY_ENGINE_ID_LEN => -303
  | SNMP_ERR_SECURITY_ENGINE_BOOTS => -304
  | SNMP_ERR_SECURITY_ENGINE_TIME => -305
  | SNMP_ERR_SECURITY_USER_NAME => -306
  | SNMP_ERR_SECURITY_USER_NAME_LEN => -307
  | SNMP_ERR_SECURITY_AUTH_PARA => -308
  | SNMP_ERR_SECURITY_AUTH_PARA_LEN => -309
  | SNMP_ERR_SECURITY_PRIV_PARA => -310
  | SNMP_ERR_SECURITY_PRIV_PARA_LEN => -311
  | SNMP_ERR_SCOPE_PDU_SEQ => -400
  | SNMP_ERR_CONTEXT_ID => -500
  | SNMP_ERR_CONTEXT_ID_LEN => -501
  | SNMP_ERR_CONTEXT_NAME => -502
  | SNMP_ERR_CONTEXT_NAME_LEN => -503
  | SNMP_ERR_PDU_TYPE => -600
  | SNMP_ERR_PDU_LEN => -601
  | SNMP_ERR_PDU_REQID => -602
  | SNMP_ERR_PDU_ERRSTAT => -603
  | SNMP_ERR_PDU_ERRIDX => -604
  | SNMP_ERR_VB_LIST_SEQ => -700
  | SNMP_ERR_VB_SEQ => -701
  | SNMP_ERR_VB_OID_TYPE => -702
  | SNMP_ERR_VB_VAR => -703
  | SNMP_ERR_VB_VALUE_LEN => -704
  | SNMP_ERR_VB_OID_LEN => -705
  | SNMP_ERR_AUTH_NO_SUCH_USER => -800
  | SNMP_ERR_AUTH_FAIL => -801
  | SNMP_ERR_ENCRYPT_PDU_TAG => -900
  end.

Definition agentx_err_value (c : agentx_err_code) : Z :=
  match c with
  | AGENTX_ERR_OK => 0
  | AGENTX_ERR_PDU_CTX_LEN => -100
  | AGENTX_ERR_VB_VAR => -200
  | AGENTX_ERR_VB_VALUE_LEN => -201
  | AGENTX_ERR_VB_OID_LEN => -202
  | AGENTX_ERR_SR_VAR => -300
  | AGENTX_ERR_SR_OID_LEN => -301
  end.

Definition snmp_err_msg : list err_msg_map := [
  mk_err SNMP_ERR_OK "Every thing is OK!";
  mk_err (snmp_err_value SNMP_ERR_VERSION) "SNMP version tag should be integer!";
  mk_err (snmp_err_value SNMP_ERR_GLOBAL_DATA_LEN) "SNMP global data tag should be sequence!";
  mk_err (snmp_err_value SNMP_ERR_GLOBAL_ID) "SNMP message id tag should be integer!";
  mk_err (snmp_err_value SNMP_ERR_GLOBAL_SIZE) "SNMP message max size tag should be integer!";
  mk_err (snmp_err_value SNMP_ERR_GLOBAL_FLAGS) "SNMP message flags tag should be octect string!";
  mk_err (snmp_err_value SNMP_ERR_GLOBAL_MODEL) "SNMP security model tag should be integer!";
  mk_err (snmp_err_value SNMP_ERR_SECURITY_STR) "SNMP security string tag should be octect string!";
  mk_err (snmp_err_value SNMP_ERR_SECURITY_SEQ) "SNMP security tag should be sequence!";
  mk_err (snmp_err_value SNMP_ERR_SECURITY_ENGINE_ID) "SNMP engine id tag should be integer!";
  mk_err (snmp_err_value SNMP_ERR_SECURITY_ENGINE_ID_LEN) "SNMP engine id length should not exceed 32 bytes!";
  mk_err (snmp_err_value SNMP_ERR_SECURITY_ENGINE_BOOTS) "SNMP engine boots tag should be integer!";
  mk_err (snmp_err_value SNMP_ERR_SECURITY_ENGINE_TIME) "SNMP engine time tag should be integer!";
  mk_err (snmp_err_value SNMP_ERR_SECURITY_USER_NAME) "SNMP user name tag should be octect string!";
  mk_err (snmp_err_value SNMP_ERR_SECURITY_USER_NAME_LEN) "SNMP user name length exceeds!";
  mk_err (snmp_err_value SNMP_ERR_SECURITY_AUTH_PARA) "SNMP authentication parameter tag should be octect string!";
  mk_err (snmp_err_value SNMP_ERR_SECURITY_AUTH_PARA_LEN) "SNMP authentication parameter length exceeds!";
  mk_err (snmp_err_value SNMP_ERR_SECURITY_PRIV_PARA) "SNMP privacy parameter tag should be octect string!";
  mk_err (snmp_err_value SNMP_ERR_SECURITY_PRIV_PARA_LEN) "SNMP privacy parameter length exceeds!";
  mk_err (snmp_err_value SNMP_ERR_SCOPE_PDU_SEQ) "SNMP scope PDU tag should be sequence!";
  mk_err (snmp_err_value SNMP_ERR_CONTEXT_ID) "SNMP context id tag should be octect string!";
  mk_err (snmp_err_value SNMP_ERR_CONTEXT_ID_LEN) "SNMP context id length should not exceed 32 bytes!";
  mk_err (snmp_err_value SNMP_ERR_CONTEXT_NAME) "SNMP context name tag should be octect string!";
  mk_err (snmp_err_value SNMP_ERR_CONTEXT_NAME_LEN) "SNMP context name length exceeds!";
  mk_err (snmp_err_value SNMP_ERR_PDU_TYPE) "SNMP PDU tag should be sequence!";
  mk_err (snmp_err_value SNMP_ERR_PDU_LEN) "SNMP PDU length not match!";
  mk_err (snmp_err_value SNMP_ERR_PDU_REQID) "SNMP PDU request id tag should be integer!";
  mk_err (snmp_err_value SNMP_ERR_PDU_ERRSTAT) "SNMP PDU error status tag should be integer!";
  mk_err (snmp_err_value SNMP_ERR_PDU_ERRIDX) "SNMP PDU error index tag should be integer!";
  mk_err (snmp_err_value SNMP_ERR_VB_LIST_SEQ) "SNMP varbind list tag should be sequence!";
  mk_err (snmp_err_value SNMP_ERR_VB_SEQ) "SNMP varbind tag should be sequence!";
  mk_err (snmp_err_value SNMP_ERR_VB_OID_TYPE) "SNMP varbind oid tag should be object identifier!";
  mk_err (snmp_err_value SNMP_ERR_VB_VAR) "SNMP varbind allocation fail!";
  mk_err (snmp_err_value SNMP_ERR_VB_VALUE_LEN) "SNMP varbind value length exceeds!";
  mk_err (snmp_err_value SNMP_ERR_VB_OID_LEN) "SNMP varbind oid length exceeds!";
  mk_err (snmp_err_value SNMP_ERR_AUTH_NO_SUCH_USER) "SNMP no such user!";
  mk_err (snmp_err_value SNMP_ERR_AUTH_FAIL) "SNMP user authentication failure!";
  mk_err (snmp_err_value SNMP_ERR_ENCRYPT_PDU_TAG) "SNMP encrypted PDU tag should be octect string!"
].

Definition agentx_err_msg : list err_msg_map := [
  mk_err (agentx_err_value AGENTX_ERR_OK) "Every thing is OK!";
  mk_err (agentx_err_value AGENTX_ERR_PDU_CTX_LEN) "AgentX PDU context length exceeds!";
  mk_err (agentx_err_value AGENTX_ERR_VB_VAR) "AgentX varbind allocation fail!";
  mk_err (agentx_err_value AGENTX_ERR_VB_VALUE_LEN) "AgentX varbind value length exceeds!";
  mk_err (agentx_err_value AGENTX_ERR_VB_OID_LEN) "AgentX varbind oid length exceeds!";
  mk_err (agentx_err_value AGENTX_ERR_SR_VAR) "AgentX search range allocation fail!";
  mk_err (agentx_err_value AGENTX_ERR_SR_OID_LEN) "AgentX search range oid length exceeds!"
].

(** The calls: [elem_num] is the size of the table. *)
Definition snmp_error_message (c : snmp_err_code) : option (option string) :=
  error_message snmp_err_msg (length snmp_err_msg) (snmp_err_value c).

Definition agentx_error_message (c : agentx_err_code) : option (option string) :=
  error_message agentx_err_msg (length agentx_err_msg) (agentx_err_value c).

(** ** The search *)
Lemma error_loop_spec msg_blk err k i :
  (i + k = length msg_blk)%nat ->
  error_loop msg_blk k i err = Some (message <$> List.find (fun m => error m =? err) (drop i msg_blk)).
Proof.
  revert i. induction k as [|k IH]; intros i Hi; cbn [error_loop]; [by rewrite drop_ge by lia|].
  destruct (lookup_lt_is_Some_2 msg_blk i ltac:(lia)) as [m Hm]. rewrite Hm, (drop_S _ _ _ Hm). cbn [List.find].
  destruct (error m =? err); [done|]. apply IH. lia.
Qed.

(** The search stays in the table and gives the message of the first entry with
    the code, or the null pointer when there is none. *)
Theorem error_message_first msg_blk err :
  error_message msg_blk (length msg_blk) err = Some (message <$> List.find (fun m => error m =? err) msg_blk).
Proof. exact (error_loop_spec msg_blk err _ 0 eq_refl). Qed.

(** ** Every code has a message of its own *)
Section Named.
Context {C : Type} `{EqDecision C} (all : list C) (value : C -> Z) (tbl : list err_msg_map).
Hypothesis all_codes : forall c, c ∈ all.

Definition same_message (c c' : C) : bool :=
  match error_message tbl (length tbl) (value c), error_message tbl (length tbl) (value c') with
  | Some (Some m), Some (Some m') => String.eqb m m'
  | _, _ => false
  end.

(** A check over all pairs of codes. *)
Definition named : bool :=
  forallb (fun c => forallb (fun c' => Bool.eqb (same_message c c') (bool_decide (c = c'))) all) all.

Lemma named_pairs c c' : named = true -> same_message c c' = bool_decide (c = c').
Proof.
  unfold named. rewrite forallb_forall. intros H. specialize (H c (proj1 (list_elem_of_In _ _) (all_codes c))).
  rewrite forallb_forall in H. specialize (H c' (proj1 (list_elem_of_In _ _) (all_codes c'))). by apply Bool.eqb_prop.
Qed.

Lemma named_spec :
  named = true ->
  (forall c, exists m, error_message tbl (length tbl) (value c) = Some (Some m)) /\
  (forall c c', error_message tbl (length tbl) (value c) = error_message tbl (length tbl) (value c') -> c = c').
Proof.
  intros H. assert (forall c, exists m, error_message tbl (length tbl) (value c) = Some (Some m)) as Hm.
  { intros c. generalize (named_pairs c c H). rewrite (bool_decide_eq_true_2 _ eq_refl). unfold same_message.
    destruct (error_message tbl _ _) as [[m|]|]; try discriminate. by exists m. }
  split; [exact Hm|]. intros c c' E. generalize (named_pairs c c' H). unfold same_message. rewrite <- E.
  destruct (Hm c) as [m ->]. rewrite String.eqb_refl. intros Hd. symmetry in Hd. by apply bool_decide_eq_true in Hd.
Qed.
End Named.

Definition snmp_codes : list snmp_err_code := [
  SNMP_ERR_VERSION; SNMP_ERR_GLOBAL_DATA_LEN; SNMP_ERR_GLOBAL_ID; SNMP_ERR_GLOBAL_SIZE;
  SNMP_ERR_GLOBAL_FLAGS; SNMP_ERR_GLOBAL_MODEL; SNMP_ERR_SECURITY_STR; SNMP_ERR_SECURITY_SEQ;
  SNMP_ERR_SECURITY_ENGINE_ID; SNMP_ERR_SECURITY_ENGINE_ID_LEN; SNMP_ERR_SECURITY_ENGINE_BOOTS; SNMP_ERR_SECURITY_ENGINE_TIME;
  SNMP_ERR_SECURITY_USER_NAME; SNMP_ERR_SECURITY_USER_NAME_LEN; SNMP_ERR_SECURITY_AUTH_PARA; SNMP_ERR_SECURITY_AUTH_PARA_LEN;
  SNMP_ERR_SECURITY_PRIV_PARA; SNMP_ERR_SECURITY_PRIV_PARA_LEN; SNMP_ERR_SCOPE_PDU_SEQ; SNMP_ERR_CONTEXT_ID;
  SNMP_ERR_CONTEXT_ID_LEN; SNMP_ERR_CONTEXT_NAME; SNMP_ERR_CONTEXT_NAME_LEN; SNMP_ERR_PDU_TYPE;
  SNMP_ERR_PDU_LEN; SNMP_ERR_PDU_REQID; SNMP_ERR_PDU_ERRSTAT; SNMP_ERR_PDU_ERRIDX;
  SNMP_ERR_VB_LIST_SEQ; SNMP_ERR_VB_SEQ; SNMP_ERR_VB_OID_TYPE; SNMP_ERR_VB_VAR;
  SNMP_ERR_VB_VALUE_LEN; SNMP_ERR_VB_OID_LEN; SNMP_ERR_AUTH_NO_SUCH_USER; SNMP_ERR_AUTH_FAIL;
  SNMP_ERR_ENCRYPT_PDU_TAG
].

Definition agentx_codes : list agentx_err_code := [
  AGENTX_ERR_OK; AGENTX_ERR_PDU_CTX_LEN; AGENTX_ERR_VB_VAR; AGENTX_ERR_VB_VALUE_LEN; AGENTX_ERR_VB_OID_LEN;
  AGENTX_ERR_SR_VAR; AGENTX_ERR_SR_OID_LEN
].

(** Every error of the SNMP decoder is logged with a message of its own. *)
Theorem snmp_errors_named :
  (forall c, exists m, snmp_error_message c = Some (Some m)) /\
  (forall c c', snmp_error_message c = snmp_error_message c' -> c = c').
Proof.
  apply (named_spec snmp_codes); [|vm_compute; reflexivity].
  intros c. apply list_elem_of_In. destruct c; cbn; tauto.
Qed.

(** So is every error of the AgentX decoder. *)
Theorem agentx_errors_named :
  (forall c, exists m, agentx_error_message c = Some (Some m)) /\
  (forall c c', agentx_error_message c = agentx_error_message c' -> c = c').
Proof.
  apply (named_spec agentx_codes); [|vm_compute; reflexivity].
  intros c. apply list_elem_of_In. destruct c; cbn; tauto.
Qed.
