(* ===== verification/AgentxWire.v ===== *)
(** * AgentX messages on the wire

    The reference encoding of RFC 2741, independent of the code and for both
    byte orders [w]: what the decoder of [agentx_msg_in.c] is meant to accept
    and the encoder of [agentx_msg_out.c] is meant to produce. *)
From S2P Require Import Prelude BerEncoder AgentxData.
Local Open Scope Z_scope.

(** ** Identifiers, strings and values *)
Definition internet : list Z := [1; 3; 6; 1].

(** The identifier below [internet], when the short form applies. *)
Definition short_form (ids : list Z) : option (Z * list Z) :=
  if decide (take 4 ids = internet) then
    match drop 4 ids with
    | p :: rest => if (0 <? p) && (p <? 256) then Some (p, rest) else None
    | [] => None
    end
  else None.

Definition x_objid (w : endian) (include : Z) (ids : list Z) : list Z :=
  match short_form ids with
  | Some (p, rest) => [zlen rest; p; include; 0] ++ store_oid w rest
  | None => [zlen ids; 0; include; 0] ++ store_oid w ids
  end.

(** The zero bytes after [n] bytes up to a multiple of four. *)
Definition padding (n : Z) : list Z := replicate (Z.to_nat (uint_sizeof n - n)) 0.

Definition x_octstr (w : endian) (s : list Z) : list Z := mem_of w 4 (zlen s) ++ s ++ padding (zlen s).

Inductive x_value :=
| XInt (v : Z)
| XCnt64 (v : Z)
| XStr (s : list Z)
| XOid (ids : list Z)
| XNone.

Definition x_value_bytes (w : endian) (v : x_value) : list Z :=
  match v with
  | XInt v => mem_of w 4 v
  | XCnt64 v => mem_of w 8 v
  | XStr s => x_octstr w s
  | XOid ids => x_objid w 0 ids
  | XNone => []
  end.

(** ** Search ranges and bindings *)
Record x_range := mk_xrange {
  xr_start : list Z;
  xr_start_include : Z;
  xr_end : list Z;
  xr_end_include : Z;
}.

Definition x_range_bytes (w : endian) (r : x_range) : list Z :=
  x_objid w (xr_start_include r) (xr_start r) ++ x_objid w (xr_end_include r) (xr_end r).

Record x_binding := mk_xbinding {
  xb_type : Z;
  xb_oid : list Z;
  xb_value : x_value;
}.

Definition x_binding_bytes (w : endian) (b : x_binding) : list Z :=
  mem_of w 2 (xb_type b) ++ [0; 0] ++ x_objid w 0 (xb_oid b) ++ x_value_bytes w (xb_value b).

Definition x_ranges_bytes (w : endian) (rs : list x_range) : list Z := concat (map (x_range_bytes w) rs).
Definition x_bindings_bytes (w : endian) (bs : list x_binding) : list Z := concat (map (x_binding_bytes w) bs).

(** ** Messages *)
Definition x_header (w : endian) (h : x_pdu_hdr) (n : Z) : list Z :=
  [xh_version h; xh_type h; xh_flags h; xh_reserved h] ++ mem_of w 4 (xh_session_id h)
    ++ mem_of w 4 (xh_transaction_id h) ++ mem_of w 4 (xh_packet_id h) ++ mem_of w 4 n.

Definition x_message (w : endian) (h : x_pdu_hdr) (payload : list Z) : list Z :=
  x_header w h (zlen payload) ++ payload.

Definition x_response_body (w : endian) (time error index : Z) (bs : list x_binding) : list Z :=
  mem_of w 4 time ++ mem_of w 2 error ++ mem_of w 2 index ++ x_bindings_bytes w bs.

(** ** Well-formed parts *)

(** The null identifier, those of the short form and those sent in full, up to
    the limit of the agent: 59 sub-identifiers after the prefix. *)
Inductive x_oid_ok : list Z -> Prop :=
| x_oid_null : x_oid_ok []
| x_oid_internet p rest : 0 < p < 256 -> words rest -> (length rest <= 59)%nat -> x_oid_ok (internet ++ p :: rest)
| x_oid_full ids : short_form ids = None -> ids <> [] -> words ids -> (length ids <= 59)%nat -> x_oid_ok ids.

(** Those of the short form alone, for what the sub-agent registers. *)
Inductive x_oid_short : list Z -> Prop :=
| x_short p rest : 0 < p < 256 -> words rest -> (length rest <= 59)%nat -> x_oid_short (internet ++ p :: rest).

Lemma x_oid_short_ok ids : x_oid_short ids -> x_oid_ok ids.
Proof. intros [p rest]. by apply x_oid_internet. Qed.

Lemma x_short_words ids : x_oid_short ids -> words ids.
Proof. intros [p rest Hp Hw _]. repeat (constructor; [unfold is_u32; lia|]). done. Qed.

Inductive x_typed : Z -> x_value -> Prop :=
| x_typed_int t v :
    t ∈ [ASN1_TAG_INT; ASN1_TAG_CNT; ASN1_TAG_GAU; ASN1_TAG_TIMETICKS] -> is_u32 v -> x_typed t (XInt v)
| x_typed_cnt64 v : 0 <= v < 2 ^ 64 -> x_typed ASN1_TAG_CNT64 (XCnt64 v)
| x_typed_str t s :
    t ∈ [ASN1_TAG_OCTSTR; ASN1_TAG_IPADDR] -> bytes s -> zlen s <= ASN1_VALUE_MAX_LEN -> x_typed t (XStr s)
| x_typed_oid ids : x_oid_ok ids -> x_typed ASN1_TAG_OBJID (XOid ids)
| x_typed_none t :
    t ∈ [ASN1_TAG_NUL; ASN1_TAG_NO_SUCH_OBJ; ASN1_TAG_NO_SUCH_INST; ASN1_TAG_END_OF_MIB_VIEW] -> x_typed t XNone.

Definition x_binding_ok (b : x_binding) : Prop := x_typed (xb_type b) (xb_value b) /\ x_oid_ok (xb_oid b).
Definition x_range_ok (r : x_range) : Prop :=
  x_oid_ok (xr_start r) /\ x_oid_ok (xr_end r) /\ is_u8 (xr_start_include r) /\ is_u8 (xr_end_include r).

Definition x_hdr_ok (h : x_pdu_hdr) : Prop :=
  is_u8 (xh_version h) /\ is_u8 (xh_type h) /\ is_u8 (xh_flags h) /\ is_u8 (xh_reserved h) /\
  is_u32 (xh_session_id h) /\ is_u32 (xh_transaction_id h) /\ is_u32 (xh_packet_id h).

(** ** Lemmas *)
Lemma short_form_internet p rest : 0 < p < 256 -> short_form (internet ++ p :: rest) = Some (p, rest).
Proof.
  intros Hp. unfold short_form, internet. cbn [app take drop]. rewrite decide_True by done.
  by rewrite (proj2 (Z.ltb_lt 0 p)), (proj2 (Z.ltb_lt p 256)) by lia.
Qed.

Lemma x_objid_internet w inc p rest : 0 < p < 256 ->
  x_objid w inc (internet ++ p :: rest) = [zlen rest; p; inc; 0] ++ store_oid w rest.
Proof. intros Hp. unfold x_objid. by rewrite short_form_internet. Qed.

Lemma zlen_padding n : zlen (padding n) = uint_sizeof n - n.
Proof. unfold padding, zlen. rewrite length_replicate. pose proof (uint_sizeof_bounds n). lia. Qed.

Lemma zlen_octstr w s : zlen (x_octstr w s) = 4 + uint_sizeof (zlen s).
Proof. unfold x_octstr. rewrite !zlen_app, zlen_mem_of, zlen_padding. lia. Qed.

Lemma zlen_header w h n : zlen (x_header w h n) = 20.
Proof. unfold x_header, zlen. rewrite !length_app, !length_mem_of. done. Qed.
