(* ===== verification/AgentxCodec.v ===== *)
(** * AgentX values ([src/core/agentx_decoder.c], [src/core/agentx_encoder.c])

    Values and identifiers, between a message and the memory of the agent.  A
    read outside the buffer is [None].  What is stored through a [void *] is
    returned as the list of the bytes stored; the caller writes it into its
    allocation.  The [flag] argument of the decoder is not used by the code. *)
From S2P Require Import Prelude BerEncoder AgentxData AgentxWire.
Local Open Scope Z_scope.

Definition is_word_tag (type : Z) : bool :=
  (type =? ASN1_TAG_INT) || (type =? ASN1_TAG_CNT) || (type =? ASN1_TAG_GAU) || (type =? ASN1_TAG_TIMETICKS).

Definition is_string_tag (type : Z) : bool := (type =? ASN1_TAG_OCTSTR) || (type =? ASN1_TAG_IPADDR).

(** ** Decoding *)

(** The size of a value in bytes.  The first case of the [switch] has no
    [break] and falls into the second. *)
Definition agentx_value_dec_try (e : endian) (buf : list Z) (pos : nat) (type : Z) : option Z :=
  if is_word_tag type || (type =? ASN1_TAG_CNT64) then Some 8
  else if is_string_tag type then rd e 4 buf pos
  else if type =? ASN1_TAG_OBJID then
    let* n := buf !! pos in
    let* prefix := buf !! S pos in
    if (n =? 0) && (prefix =? 0) then Some 0 else Some ((n + 5) * 4)
  else Some 0.

(** The position after the value, the number of elements, the bytes stored. *)
Definition agentx_value_dec (e : endian) (buf : list Z) (pos : nat) (type : Z) : option (nat * Z * list Z) :=
  if is_word_tag type then
    let* bs := slice pos 4 buf in Some ((pos + 4)%nat, 1, bs)
  else if type =? ASN1_TAG_CNT64 then
    let* bs := slice pos 8 buf in Some ((pos + 8)%nat, 1, bs)
  else if is_string_tag type then
    let* ret := rd e 4 buf pos in
    let* bs := slice (pos + 4) (Z.to_nat ret) buf in
    Some ((pos + 4 + Z.to_nat (uint_sizeof ret))%nat, ret, bs)
  else if type =? ASN1_TAG_OBJID then
    let* n := buf !! pos in
    let* prefix := buf !! S pos in
    if (n =? 0) && (prefix =? 0) then Some ((pos + 4)%nat, 0, [])
    else
      let* src := slice (pos + 4) (4 * Z.to_nat n) buf in
      Some ((pos + 4 + 4 * Z.to_nat n)%nat, n + 5, store_oid e [1; 3; 6; 1; prefix] ++ src)
  else Some (pos, 0, []).

(** ** Encoding *)
Definition agentx_value_enc_try (len type : Z) : Z :=
  if is_word_tag type then 4
  else if type =? ASN1_TAG_CNT64 then 8
  else if type =? ASN1_TAG_OBJID then u32 (len * 4)
  else if is_string_tag type then len
  else 0.

(** The byte length and the bytes written. *)
Definition agentx_value_enc (value : list Z) (len type : Z) : option (Z * list Z) :=
  if is_word_tag type then
    let* bs := slice 0 4 value in Some (4, bs)
  else if type =? ASN1_TAG_CNT64 then
    let* bs := slice 0 8 value in Some (8, bs)
  else if type =? ASN1_TAG_OBJID then
    let* bs := slice 0 (4 * Z.to_nat len) value in Some (u32 (len * 4), bs)
  else if is_string_tag type then
    let* bs := slice 0 (Z.to_nat len) value in Some (len, bs)
  else Some (0, []).

(** ** Identifiers in the memory of the agent

    The decoder takes every identifier but the null one to be below [internet],
    with the prefix as its fifth sub-identifier, and the encoder does the
    reverse.  An identifier sent in full (prefix zero) therefore has 1.3.6.1.0
    in front of it in memory. *)
Definition as_read (ids : list Z) : list Z :=
  match short_form ids, ids with
  | Some _, _ => ids
  | None, [] => []
  | None, _ => internet ++ 0 :: ids
  end.

Lemma as_read_internet p rest : 0 < p < 256 -> as_read (internet ++ p :: rest) = internet ++ p :: rest.
Proof. intros Hp. unfold as_read. by rewrite short_form_internet. Qed.

(** The identifier survives exactly when it is null or has a short form. *)
Lemma as_read_same ids : as_read ids = ids <-> ids = [] \/ short_form ids <> None.
Proof.
  unfold as_read. destruct (short_form ids) eqn:E; [by split; [right|]|].
  destruct ids as [|id ids]; [by split; [left|]|]. split; [|by intros [?|?]].
  intros H. apply (f_equal length) in H. unfold internet in H. cbn in H. lia.
Qed.

(** The prefix and the sub-identifiers, on the wire and in memory. *)
Lemma x_oid_view ids : x_oid_ok ids -> ids = [] \/
  exists p rest, as_read ids = internet ++ p :: rest /\ 0 <= p < 256 /\ (p = 0 -> rest <> []) /\ words rest /\
    (length rest <= 59)%nat /\ forall w inc, x_objid w inc ids = [zlen rest; p; inc; 0] ++ store_oid w rest.
Proof.
  intros [|p rest Hp Hw Hl|ids' Hs Hne Hw Hl]; [by left|right; exists p, rest|right; exists 0, ids'].
  - rewrite as_read_internet by done. split_and!; try done; try lia. intros w inc. by apply x_objid_internet.
  - unfold as_read. rewrite Hs. split_and!; try done; [by destruct ids'|]. intros w inc. unfold x_objid. by rewrite Hs.
Qed.

(** ** Values in the memory of the agent *)

(** The element count and the bytes of a value. *)
Definition x_count (v : x_value) : Z :=
  match v with XInt _ | XCnt64 _ => 1 | XStr s => zlen s | XOid ids => zlen (as_read ids) | XNone => 0 end.

Definition x_mem (e : endian) (v : x_value) : list Z :=
  match v with
  | XInt v => mem_of e 4 v
  | XCnt64 v => mem_of e 8 v
  | XStr s => s
  | XOid ids => store_oid e (as_read ids)
  | XNone => []
  end.

(** The size the decoder announces: integers get eight bytes too. *)
Definition x_room (v : x_value) : Z :=
  match v with XInt _ | XCnt64 _ => 8 | XStr s => zlen s | XOid ids => 4 * zlen (as_read ids) | XNone => 0 end.

Ltac x_tags H :=
  repeat (apply elem_of_cons in H as [->|H]); [..|by apply not_elem_of_nil in H].

(** What each kind of tag selects. *)
Lemma x_typed_inv t v : x_typed t v ->
  match v with
  | XInt _ => is_word_tag t = true
  | XCnt64 _ => is_word_tag t = false /\ t = ASN1_TAG_CNT64
  | XStr _ => is_word_tag t = false /\ (t =? ASN1_TAG_CNT64) = false /\ (t =? ASN1_TAG_OBJID) = false /\ is_string_tag t = true
  | XOid _ => is_word_tag t = false /\ t = ASN1_TAG_OBJID
  | XNone => is_word_tag t = false /\ (t =? ASN1_TAG_CNT64) = false /\ (t =? ASN1_TAG_OBJID) = false /\ is_string_tag t = false
  end /\ is_u8 t.
Proof.
  destruct 1 as [t v Ht _|v _|t s Ht _ _|ids _|t Ht].
  1,3,5: x_tags Ht; vm_compute; intuition congruence.
  all: vm_compute; intuition congruence.
Qed.

(** Reduce the [switch] on a known tag. *)
Ltac x_switch :=
  unfold agentx_value_dec_try, agentx_value_dec, agentx_value_enc_try, agentx_value_enc, is_word_tag, is_string_tag,
    ASN1_TAG_INT, ASN1_TAG_CNT, ASN1_TAG_GAU, ASN1_TAG_TIMETICKS, ASN1_TAG_OBJID, ASN1_TAG_CNT64,
    ASN1_TAG_OCTSTR, ASN1_TAG_IPADDR; cbn [Z.eqb Pos.eqb orb].

(** ** Decoding what the reference encodes *)
Section Decode.
Context (e : endian) (pre rest : list Z).

(** Reading an identifier in the byte order of the host. *)
Lemma objid_dec inc ids : x_oid_ok ids ->
  let buf := pre ++ x_objid e inc ids ++ rest in
  agentx_value_dec_try e buf (length pre) ASN1_TAG_OBJID = Some (4 * zlen (as_read ids)) /\
  agentx_value_dec e buf (length pre) ASN1_TAG_OBJID =
    Some ((length pre + length (x_objid e inc ids))%nat, zlen (as_read ids), store_oid e (as_read ids)) /\
  buf !! (length pre + 2)%nat = Some inc /\
  zlen (x_objid e inc ids) = (if 0 <? 4 * zlen (as_read ids) then 4 + 4 * zlen (as_read ids) - 20 else 4).
Proof.
  intros H. destruct (x_oid_view ids H) as [->|(p & ids0 & -> & Hp & Hz & Hw & Hl & Ex)]; intros buf; subst buf.
  - change (x_objid e inc []) with [0; 0; inc; 0]. x_switch.
    rewrite (lookup_mid _ _ _ (length pre) 0 0), (lookup_mid _ _ _ (S (length pre)) 1 0),
      (lookup_mid _ _ _ (length pre + 2) 2 inc) by (done || lia). split_and!; done.
  - rewrite Ex. clear ids H Ex. rename ids0 into ids. x_switch. rewrite <- app_assoc. set (hd := [zlen ids; p; inc; 0]).
    assert ((zlen ids =? 0) && (p =? 0) = false) as Hnz.
    { destruct (Z.eqb_spec p 0) as [E|]; [|apply andb_false_r]. rewrite andb_true_r. apply Z.eqb_neq.
      destruct ids; [by destruct (Hz E)|]. rewrite zlen_cons. pose proof (zlen_nonneg ids). lia. }
    rewrite (lookup_mid pre hd _ (length pre) 0 (zlen ids)), (lookup_mid pre hd _ (S (length pre)) 1 p),
      (lookup_mid pre hd _ (length pre + 2) 2 inc) by (done || lia).
    rewrite Hnz.
    rewrite Zto_nat_zlen, (app_assoc pre), (slice_mid (pre ++ hd) (store_oid e ids))
      by (rewrite ?length_store_oid, ?length_app; cbn [hd length]; lia).
    rewrite !length_app, length_store_oid, !zlen_app. cbn [hd length].
    pose proof (zlen_nonneg ids). unfold internet, hd. rewrite !zlen_cons. cbn [app].
    change (zlen (A := Z) []) with 0. rewrite (proj2 (Z.ltb_lt 0 _)) by lia. split_and!.
    + f_equal. lia.
    + f_equal. f_equal; [f_equal; lia|]. symmetry. exact (store_oid_app e [1; 3; 6; 1; p] ids).
    + done.
    + unfold zlen at 1. rewrite length_store_oid. unfold zlen. lia.
Qed.

(** Reading a value in the byte order of the host. *)
Lemma value_dec t v : x_typed t v ->
  let buf := pre ++ x_value_bytes e v ++ rest in
  agentx_value_dec e buf (length pre) t = Some ((length pre + length (x_value_bytes e v))%nat, x_count v, x_mem e v) /\
  agentx_value_dec_try e buf (length pre) t = Some (x_room v) /\ zlen (x_mem e v) <= x_room v <= ASN1_VALUE_MAX_LEN.
Proof.
  intros H. pose proof (x_typed_inv t v H) as [Hi _]. unfold ASN1_VALUE_MAX_LEN, x_room.
  destruct H as [t v _ Hv|v Hv|t s Ht Hs Hl|ids Hids|t _]; cbn [x_value_bytes x_count x_mem].
  - unfold agentx_value_dec, agentx_value_dec_try. rewrite Hi. cbn [orb].
    rewrite (slice_mid pre (mem_of e 4 v)), length_mem_of by (by rewrite ?length_mem_of).
    split; [done|]. split; [done|]. rewrite zlen_mem_of. lia.
  - x_switch. rewrite (slice_mid pre (mem_of e 8 v)), length_mem_of by (by rewrite ?length_mem_of).
    split; [done|]. split; [done|]. rewrite zlen_mem_of. lia.
  - destruct Hi as (H1 & H2 & H3 & H4). unfold agentx_value_dec, agentx_value_dec_try. rewrite H1, H2, H4. cbn [orb].
    unfold x_octstr. rewrite <- !app_assoc, rd_mid by (by rewrite ?length_mem_of).
    unfold ASN1_VALUE_MAX_LEN in Hl. pose proof (zlen_nonneg s). rewrite val_of_word by (unfold is_u32; lia).
    rewrite (app_assoc pre), Zto_nat_zlen, (slice_mid (pre ++ _) s) by (rewrite ?length_app, ?length_mem_of; lia).
    pose proof (zlen_padding (zlen s)). pose proof (uint_sizeof_bounds (zlen s)).
    split; [|done]. do 3 f_equal. rewrite !length_app, length_mem_of. unfold zlen in *. lia.
  - destruct (objid_dec 0 ids Hids) as (H1 & H2 & _ & _). split; [done|]. split; [exact H1|].
    unfold zlen. rewrite length_store_oid. destruct (x_oid_view ids Hids) as [->|(p & r & -> & _ & _ & _ & Hl & _)]; [by cbn|].
    rewrite length_app. cbn [length internet]. lia.
  - destruct Hi as (H1 & H2 & H3 & H4). unfold agentx_value_dec, agentx_value_dec_try. rewrite H1, H2, H3, H4. cbn [orb length].
    rewrite Nat.add_0_r. by split_and!.
Qed.
End Decode.

(** ** Encoding: the answer of a handler *)
Lemma value_enc e t v mem : x_typed t v -> slice 0 (length (x_mem e v)) mem = Some (x_mem e v) ->
  agentx_value_enc_try (x_count v) t = zlen (x_mem e v) /\
  agentx_value_enc mem (x_count v) t = Some (zlen (x_mem e v), x_mem e v).
Proof.
  intros H. pose proof (x_typed_inv t v H) as [Hi _].
  destruct H as [t v _ Hv|v Hv|t s Ht Hs Hl|ids Hids|t _]; cbn [x_count x_mem]; intros Hs'.
  - unfold agentx_value_enc, agentx_value_enc_try. rewrite Hi, zlen_mem_of. rewrite length_mem_of in Hs'. by rewrite Hs'.
  - x_switch. rewrite zlen_mem_of. rewrite length_mem_of in Hs'. by rewrite Hs'.
  - destruct Hi as (H1 & H2 & H3 & H4). unfold agentx_value_enc, agentx_value_enc_try. rewrite H1, H2, H3, H4.
    rewrite Zto_nat_zlen. by rewrite Hs'.
  - x_switch. rewrite length_store_oid in Hs'. rewrite Zto_nat_zlen, Hs'.
    assert (u32 (zlen (as_read ids) * 4) = zlen (store_oid e (as_read ids))) as ->; [|done].
    unfold zlen. rewrite length_store_oid, u32_id; [lia|]. unfold is_u32.
    destruct (x_oid_view ids Hids) as [->|(p & r & -> & _ & _ & _ & Hl & _)]; [by cbn|].
    rewrite length_app. cbn [length internet]. lia.
  - destruct Hi as (H1 & H2 & H3 & H4). unfold agentx_value_enc, agentx_value_enc_try. by rewrite H1, H2, H3, H4.
Qed.

(** ** Properties *)

(** An identifier that is sent in full (prefix zero: it is not below
    [internet], or its fifth sub-identifier is zero or does not fit a byte) is
    decoded as one below [internet]: 1.3.6.1.0 is put in front of it, because
    the decoder takes the prefix to be always in use.  The master agent's
    identifiers outside 1.3.6.1.1 to 1.3.6.1.255 are therefore misread. *)
Theorem agentx_objid_full_misread (e : endian) (pre rest : list Z) (inc : Z) (ids : list Z) :
  ids <> [] -> short_form ids = None ->
  agentx_value_dec e (pre ++ x_objid e inc ids ++ rest) (length pre) ASN1_TAG_OBJID =
  Some ((length pre + length (x_objid e inc ids))%nat, zlen ids + 5, store_oid e (internet ++ 0 :: ids)).
Proof.
  intros Hn Hs. unfold x_objid. rewrite Hs. x_switch. rewrite <- app_assoc. set (hd := [zlen ids; 0; inc; 0]).
  rewrite (lookup_mid pre hd _ (length pre) 0 (zlen ids)), (lookup_mid pre hd _ (S (length pre)) 1 0) by (done || lia).
  assert (zlen ids <> 0) as Hz by (destruct ids; [done|unfold zlen; cbn [length]; lia]).
  rewrite (proj2 (Z.eqb_neq _ _) Hz). cbn [andb].
  rewrite Zto_nat_zlen, (app_assoc pre), (slice_mid (pre ++ hd) (store_oid e ids))
    by (rewrite ?length_store_oid, ?length_app; cbn [hd length]; lia).
  rewrite length_app, length_store_oid. cbn [hd length]. f_equal. f_equal; [f_equal; lia|].
  symmetry. exact (store_oid_app e [1; 3; 6; 1; 0] ids).
Qed.

(** 1.2.840 *)
Lemma agentx_objid_full_misread_witness :
  agentx_value_dec LE (x_objid LE 0 [1; 2; 840]) 0 ASN1_TAG_OBJID = Some (16%nat, 8, store_oid LE [1; 3; 6; 1; 0; 1; 2; 840]).
Proof.
  pose proof (agentx_objid_full_misread LE [] [] 0 [1; 2; 840] ltac:(discriminate) ltac:(reflexivity)) as H.
  rewrite app_nil_r in H. exact H.
Defined.
