(* ===== verification/AgentxOut.v ===== *)
(** * AgentX messages of the sub-agent ([src/core/agentx_msg_out.c])

    Every PDU is written into a zeroed allocation of the length computed before:
    the header through a structure, the rest through a pointer that advances.  A
    write outside the allocation and a failed [assert] are [None].  A PDU is the
    list of the bytes of its allocation, all of which are sent. *)
From S2P Require Import Prelude BerEncoder AgentxData AgentxWire AgentxCodec.
Local Open Scope Z_scope.

(** ** Writing through a pointer *)

(** The memory and the position of the pointer. *)
Definition wst : Type := list Z * nat.
Definition wop : Type := wst -> option wst.

(** A store at an offset from the pointer. *)
Definition poke (off : nat) (bs : list Z) : wop := fun s =>
  let* m := write_at (s.2 + off) bs s.1 in Some (m, s.2).

(** [buf += n] *)
Definition step (n : nat) : wop := fun s => Some (s.1, (s.2 + n)%nat).

Definition wseq (a b : wop) : wop := fun s => let* s' := a s in b s'.

(** A read that the store depends on. *)
Definition wlet {A} (c : option A) (k : A -> wop) : wop := fun s => let* a := c in k a s.

Definition wskip : wop := Some.

Declare Scope wop_scope.
Delimit Scope wop_scope with wop.
Notation "a >>> b" := (wseq a b) (at level 60, right associativity) : wop_scope.
Local Open Scope wop_scope.

(** [xmalloc(len)], [memset(buf, 0, len)], then the stores. *)
Definition with_zeros (len : Z) (w : wop) : option (list Z) :=
  let* s := w (replicate (Z.to_nat len) 0, 0%nat) in Some s.1.

(** [*buf++ = b] *)
Definition put_byte (b : Z) : wop := poke 0 [b] >>> step 1.

(** The header; [reserved] is not assigned. *)
Definition put_hdr (e : endian) (version type flags session transaction packet payload : Z) : wop :=
  poke 0 [version; type; flags] >>> poke 4 (mem_of e 4 session) >>> poke 8 (mem_of e 4 transaction) >>>
  poke 12 (mem_of e 4 packet) >>> poke 16 (mem_of e 4 payload) >>> step 20.

(** [octstr->len = len; memcpy(octstr->str, s, strlen(s));] *)
Definition put_octstr (e : endian) (len : Z) (s : list Z) : wop := poke 0 (mem_of e 4 len) >>> poke 4 s.

(** The members of [objid] other than [sub_id]. *)
Definition put_objid_head (n_subid prefix : Z) : wop := poke 0 [u8 n_subid; u8 prefix; 0].

(** ** Session management *)
Definition sizeof_hdr : Z := 20.

Definition agentx_open_pdu (e : endian) (x : agentx_datagram) (oid : list Z) (oid_len : Z) (descr : list Z)
    (descr_len : Z) : option (list Z) :=
  if negb ((oid_len =? 0) || ((oid_len >? 4) && (u32 (oid_len + 5) <=? ASN1_OID_MAX_LEN)
            && (descr_len <=? ASN1_VALUE_MAX_LEN))) then None
  else
    let descr_len := u32 (uint_sizeof descr_len) in
    let ids_len := if oid_len =? 0 then 0 else u32 (oid_len - 5) * 4 in
    let len := u32 (sizeof_hdr + 4 + 4 + ids_len + 4 + descr_len) in
    with_zeros len (
      put_hdr e 1 AGENTX_PDU_OPEN (match e with LE => 0 | BE => NETWORD_BYTE_ORDER end)
        (xh_session_id (x_hdr x)) (xh_transaction_id (x_hdr x)) 1 (u32 (len - sizeof_hdr)) >>>
      step 4 >>>
      wlet (if oid_len =? 0 then Some 0 else oid !! 4%nat) (fun prefix =>
        put_objid_head (if oid_len =? 0 then 0 else oid_len - 5) prefix) >>>
      wlet (slice 5 (Z.to_nat oid_len - 5) oid) (fun ids => poke 4 (store_oid e ids)) >>>
      step (4 + Z.to_nat ids_len) >>>
      put_octstr e descr_len descr).

(** The PDUs that count packets: the updated datagram and the PDU. *)
Definition next_packet (x : agentx_datagram) : agentx_datagram :=
  set_xhdr (set_packet_id (xh_packet_id (x_hdr x) + 1) (x_hdr x)) x.

Definition put_next_hdr (e : endian) (x : agentx_datagram) (type flags len : Z) : wop :=
  let h := x_hdr (next_packet x) in
  put_hdr e (xh_version h) type flags (xh_session_id h) (xh_transaction_id h) (xh_packet_id h) (u32 (len - sizeof_hdr)).

Definition agentx_close_pdu (e : endian) (x : agentx_datagram) (reason : Z) : option (agentx_datagram * list Z) :=
  let len := sizeof_hdr + 4 in
  let* m := with_zeros len (
    put_next_hdr e x AGENTX_PDU_CLOSE (xh_flags (x_hdr x)) len >>> poke 0 (mem_of e 4 reason)) in
  Some (next_packet x, m).

(** [agentx_register_pdu] and [agentx_unregister_pdu] differ in the type and in
    [timeout], which the second leaves zero. *)
Definition region_pdu (e : endian) (type : Z) (put_timeout : wop) (x : agentx_datagram) (oid : list Z) (oid_len : Z)
    (context : list Z) (ctx_len priority range_subid upper_bound : Z) : option (agentx_datagram * list Z) :=
  if negb ((oid_len >? 4) && (u32 (oid_len + 5) <=? ASN1_OID_MAX_LEN) && (ctx_len <=? 40)) then None
  else
    let ctx_len := u32 (uint_sizeof ctx_len) in
    let ids_len := u32 (oid_len - 5) * 4 in
    let len := u32 (sizeof_hdr + (if nz ctx_len then 4 + ctx_len else 0) + 4 + 4 + ids_len
                    + (if nz range_subid then 4 else 0)) in
    let* m := with_zeros len (
      put_next_hdr e x type (Z.lor (xh_flags (x_hdr x)) INSTANCE_REGISTRATION) len >>>
      (if nz ctx_len then put_octstr e ctx_len context >>> step (Z.to_nat (4 + ctx_len)) else wskip) >>>
      put_timeout >>> put_byte priority >>> put_byte range_subid >>> step 1 >>>
      wlet (oid !! 4%nat) (fun prefix => put_objid_head (oid_len - 5) prefix) >>>
      wlet (slice 5 (Z.to_nat oid_len - 5) oid) (fun ids => poke 4 (store_oid e ids)) >>>
      step (Z.to_nat (4 + ids_len)) >>>
      (if nz range_subid then poke 0 (mem_of e 4 upper_bound) else wskip)) in
    Some (next_packet x, m).

Definition agentx_register_pdu (e : endian) (x : agentx_datagram) (oid : list Z) (oid_len : Z) (context : list Z)
    (ctx_len timeout priority range_subid upper_bound : Z) : option (agentx_datagram * list Z) :=
  region_pdu e AGENTX_PDU_REG (put_byte timeout) x oid oid_len context ctx_len priority range_subid upper_bound.

Definition agentx_unregister_pdu (e : endian) (x : agentx_datagram) (oid : list Z) (oid_len : Z) (context : list Z)
    (ctx_len timeout priority range_subid upper_bound : Z) : option (agentx_datagram * list Z) :=
  region_pdu e AGENTX_PDU_UNREG (step 1) x oid oid_len context ctx_len priority range_subid upper_bound.

Definition agentx_ping_pdu (e : endian) (x : agentx_datagram) (context : list Z) (context_len : Z)
    : option (agentx_datagram * list Z) :=
  if negb (context_len <? 40) then None
  else
    let context_len := u32 (uint_sizeof context_len) in
    let len := u32 (sizeof_hdr + (if nz context_len then 4 + context_len else 0)) in
    let* m := with_zeros len (
      put_next_hdr e x AGENTX_PDU_PING (xh_flags (x_hdr x)) len >>>
      (if nz context_len then put_octstr e context_len context else wskip)) in
    Some (next_packet x, m).

(** ** Responses *)

(** What a binding adds to the length of the PDU. *)
Definition vb_out_len (vb : x_var_bind) : Z :=
  let t := xvb_val_type vb in
  (if xvb_oid_len vb >? 5 then 4 + 4 + (xvb_oid_len vb - 5) * 4 else 4 + 4) +
  (if is_word_tag t then 4
   else if t =? ASN1_TAG_CNT64 then 8
   else if is_string_tag t then 4 + uint_sizeof (xvb_val_len vb)
   else if t =? ASN1_TAG_OBJID then (if xvb_val_len vb >? 20 then 4 + xvb_val_len vb - 20 else 4)
   else 0).

Definition vb_out_lens (vbs : list x_var_bind) (len : Z) : Z := foldl (fun n vb => u32 (n + vb_out_len vb)) len vbs.

(** The identifier of a binding. *)
Definition put_vb_oid (e : endian) (vb : x_var_bind) : wop :=
  let n := xvb_oid_len vb in
  wlet (if n >? 4 then xvb_oid vb !! 4%nat else Some 0) (fun prefix => put_objid_head (if n >? 5 then n - 5 else 0) prefix) >>>
  wlet (slice 5 (Z.to_nat n - 5) (xvb_oid vb)) (fun ids => poke 4 (store_oid e ids)) >>>
  step (if n >? 5 then 4 + Z.to_nat ((n - 5) * 4) else 4)%nat.

(** Its value. *)
Definition put_vb_value (e : endian) (vb : x_var_bind) : wop :=
  let t := xvb_val_type vb in
  let n := xvb_val_len vb in
  if is_word_tag t then wlet (slice 0 4 (xvb_value vb)) (fun bs => poke 0 bs) >>> step 4
  else if t =? ASN1_TAG_CNT64 then wlet (slice 0 8 (xvb_value vb)) (fun bs => poke 0 bs) >>> step 8
  else if is_string_tag t then
    wlet (slice 0 (Z.to_nat n) (xvb_value vb)) (fun bs => put_octstr e n bs) >>> step (4 + Z.to_nat (uint_sizeof n))
  else if t =? ASN1_TAG_OBJID then
    wlet (if n >? 16 then rd e 4 (xvb_value vb) 16 else Some 0) (fun prefix =>
      put_objid_head (if n >? 20 then (n - 20) / 4 else 0) prefix) >>>
    wlet (slice 20 (4 * (Z.to_nat (n / 4) - 5)) (xvb_value vb)) (fun bs => poke 4 bs) >>>
    step (if n >? 20 then 4 + Z.to_nat (n - 20) else 4)%nat
  else wskip.

Definition put_vb (e : endian) (vb : x_var_bind) : wop :=
  poke 0 (mem_of e 2 (xvb_val_type vb)) >>> step 4 >>> put_vb_oid e vb >>> put_vb_value e vb.

(** [list_for_each] over the answers. *)
Fixpoint put_vbs (e : endian) (vbs : list x_var_bind) : wop :=
  match vbs with
  | [] => wskip
  | vb :: vbs' => put_vb e vb >>> put_vbs e vbs'
  end.

Definition agentx_response_pdu (e : endian) (x : agentx_datagram) : option (list Z) :=
  let h := x_hdr x in
  let len := vb_out_lens (x_vb_out_list x) (sizeof_hdr + 4 + 2 * 2) in
  with_zeros len (
    put_hdr e (xh_version h) AGENTX_PDU_RESPONSE (xh_flags h) (xh_session_id h) (xh_transaction_id h) (xh_packet_id h)
      (u32 (len - sizeof_hdr)) >>>
    step 4 >>>
    poke 0 (mem_of e 2 (xu_error (x_u x))) >>> step 2 >>>
    poke 0 (mem_of e 2 (xu_index (x_u x))) >>> step 2 >>>
    put_vbs e (x_vb_out_list x)).

(** The bytes given to [send], whose failure is only logged. *)
Definition agentx_response (e : endian) (x : agentx_datagram) : option (list Z) := agentx_response_pdu e x.

(** ** A calculus of writes *)
Section Writes.
Local Abbreviation zeros n := (replicate n 0).

(** The bytes after the pointer, zeros otherwise, become [Y] from [X]; the
    pointer stays. *)
Definition puts (w : wop) (X Y : list Z) : Prop :=
  (length X <= length Y)%nat /\ forall dn k, (length Y <= length X + k)%nat ->
    w (dn ++ X ++ zeros k, length dn) = Some (dn ++ Y ++ zeros (length X + k - length Y), length dn).

(** [bs] is written at the pointer, which advances past it. *)
Definition writes (w : wop) (bs : list Z) : Prop := forall dn k, (length bs <= k)%nat ->
  w (dn ++ zeros k, length dn) = Some (dn ++ bs ++ zeros (k - length bs), (length dn + length bs)%nat).

Lemma zeros_app a b : zeros (a + b) = zeros a ++ zeros b.
Proof. apply replicate_add. Qed.

Lemma puts_poke X off bs : (length X <= off)%nat -> puts (poke off bs) X (X ++ zeros (off - length X) ++ bs).
Proof.
  intros Ho. split; [rewrite length_app; lia|]. intros dn k Hk. rewrite !length_app, length_replicate in *. unfold poke. cbn [fst snd].
  replace k with (off - length X + (length bs + (length X + k - (length X + (off - length X + length bs)))))%nat at 1 by lia.
  rewrite !zeros_app, (app_assoc X), (app_assoc dn), write_at_mid
    by (rewrite ?length_app, ?length_replicate; lia).
  by rewrite <- !app_assoc.
Qed.

Lemma puts_seq a b X Y Y' : puts a X Y -> puts b Y Y' -> puts (a >>> b) X Y'.
Proof.
  intros [H1 Ha] [H2 Hb]. split; [lia|]. intros dn k Hk. unfold wseq. rewrite Ha by lia. rewrite Hb by lia.
  do 4 f_equal. f_equal. lia.
Qed.

Lemma puts_let {A} (c : option A) a k X Y : c = Some a -> puts (k a) X Y -> puts (wlet c k) X Y.
Proof. intros -> H. exact H. Qed.

(** The bytes after the pointer become [bs] from [X], and the pointer
    advances past them. *)
Definition ends (w : wop) (X bs : list Z) : Prop :=
  (length X <= length bs)%nat /\ forall dn k, (length bs <= length X + k)%nat ->
    w (dn ++ X ++ zeros k, length dn) =
    Some (dn ++ bs ++ zeros (length X + k - length bs), (length dn + length bs)%nat).

Lemma ends_writes w bs : ends w [] bs -> writes w bs.
Proof. intros [_ H] dn k Hk. by apply (H dn k). Qed.

Lemma ends_puts a w X Y bs : puts a X Y -> ends w Y bs -> ends (a >>> w) X bs.
Proof.
  intros [H1 Ha] [H2 Hw]. split; [lia|]. intros dn k Hk. unfold wseq. rewrite Ha by lia. rewrite Hw by lia.
  do 4 f_equal. f_equal. lia.
Qed.

Lemma ends_step X n bs : (length X <= n)%nat -> bs = X ++ zeros (n - length X) -> ends (step n) X bs.
Proof.
  intros Hn ->. split; rewrite length_app, length_replicate; [lia|]. intros dn k Hk. unfold step. cbn [fst snd].
  do 2 f_equal; [|lia]. rewrite <- !app_assoc, <- zeros_app. do 3 f_equal. lia.
Qed.

Lemma ends_exact X n : n = length X -> ends (step n) X X.
Proof. intros ->. apply ends_step; [done|]. by rewrite Nat.sub_diag, app_nil_r. Qed.

Lemma ends_seq a w X A B : ends a X A -> writes w B -> ends (a >>> w) X (A ++ B).
Proof.
  intros [H1 Ha] Hw. split; rewrite length_app; [lia|]. intros dn k Hk. unfold wseq. rewrite Ha by lia.
  rewrite app_assoc, <- length_app, Hw by lia. rewrite <- !app_assoc, !length_app. do 2 f_equal; [|lia].
  do 4 f_equal. lia.
Qed.

Lemma writes_gap n : writes (step n) (zeros n).
Proof.
  intros dn k Hk. rewrite length_replicate in *. unfold step. cbn [fst snd]. rewrite <- zeros_app. do 4 f_equal; lia.
Qed.

Lemma writes_seq a b A B : writes a A -> writes b B -> writes (a >>> b) (A ++ B).
Proof.
  intros Ha Hb dn k Hk. rewrite length_app in *. unfold wseq. rewrite Ha by lia. rewrite app_assoc, <- length_app.
  rewrite Hb by lia. rewrite <- !app_assoc, !length_app. do 2 f_equal; [|lia]. do 4 f_equal. lia.
Qed.

Lemma writes_skip : writes wskip [].
Proof. intros dn k _. cbn [length]. by rewrite Nat.sub_0_r, Nat.add_0_r. Qed.

Lemma puts_skip X : puts wskip X X.
Proof. split; [done|]. intros dn k _. unfold wskip. do 4 f_equal. f_equal. lia. Qed.

(** A sequence of stores whose last one need not advance the pointer. *)
Definition leaves (w : wop) (X bs : list Z) : Prop := forall dn k, (length bs <= length X + k)%nat ->
  exists p, w (dn ++ X ++ zeros k, length dn) = Some (dn ++ bs ++ zeros (length X + k - length bs), p).

Lemma leaves_puts w X Y : puts w X Y -> leaves w X Y.
Proof. intros [_ H] dn k Hk. eexists. by apply H. Qed.

Lemma leaves_writes w A : writes w A -> leaves w [] A.
Proof. intros H dn k Hk. eexists. by apply H. Qed.

Lemma leaves_puts_seq a w X Y bs : puts a X Y -> leaves w Y bs -> (length Y <= length bs)%nat -> leaves (a >>> w) X bs.
Proof.
  intros [H1 Ha] Hw H2 dn k Hk. unfold wseq. rewrite Ha by lia. destruct (Hw dn (length X + k - length Y)%nat) as [p ->]; [lia|].
  exists p. do 4 f_equal. f_equal. lia.
Qed.

Lemma leaves_ends_seq a w X A B : ends a X A -> leaves w [] B -> leaves (a >>> w) X (A ++ B).
Proof.
  intros [H1 Ha] Hw dn k Hk. rewrite length_app in Hk. unfold wseq. rewrite Ha by lia.
  destruct (Hw (dn ++ A) (length X + k - length A)%nat) as [p E]; [cbn; lia|]. rewrite <- app_assoc, length_app in E.
  cbn [app length Nat.add] in E. rewrite E. exists p. rewrite <- !app_assoc, length_app. do 5 f_equal. f_equal. lia.
Qed.

Lemma leaves_seq a w A B : writes a A -> leaves w [] B -> leaves (a >>> w) [] (A ++ B).
Proof. intros Ha Hw. apply leaves_ends_seq; [|done]. split; [cbn; lia|]. intros dn k Hk. by apply (Ha dn k). Qed.

(** Zeros that follow are part of what is left. *)
Lemma leaves_zeros w X Y m : leaves w X Y -> leaves w X (Y ++ zeros m).
Proof.
  intros H dn k Hk. rewrite length_app, length_replicate in *. destruct (H dn k) as [p ->]; [lia|]. exists p.
  rewrite <- app_assoc, <- zeros_app. do 5 f_equal. lia.
Qed.

Lemma with_zeros_leaves w bs n : leaves w [] bs -> n = zlen bs -> with_zeros n w = Some bs.
Proof.
  intros H ->. unfold with_zeros. rewrite Zto_nat_zlen. destruct (H [] (length bs)) as [p E]; [cbn; lia|].
  cbn [app length Nat.add] in E. by rewrite E, Nat.sub_diag, app_nil_r.
Qed.

(** [*buf++ = b] *)
Lemma writes_byte b : writes (put_byte b) [b].
Proof. apply ends_writes. eapply ends_puts; [by apply puts_poke|]. by apply ends_step. Qed.
End Writes.

(** ** Headers, strings and identifiers *)
Lemma writes_hdr e version type flags session transaction packet payload :
  writes (put_hdr e version type flags session transaction packet payload)
    (x_header e (mk_xhdr version type flags 0 session transaction packet payload) payload).
Proof.
  apply ends_writes. unfold put_hdr.
  repeat (eapply ends_puts; [apply puts_poke; rewrite ?length_app, ?length_replicate, ?length_mem_of; cbn [length]; lia|]).
  apply ends_step; rewrite ?length_app, ?length_replicate, ?length_mem_of; cbn [length]; [lia|].
  unfold x_header. cbn [xh_version xh_type xh_flags xh_reserved xh_session_id xh_transaction_id xh_packet_id].
  cbn [Nat.sub replicate app]. by rewrite app_nil_r, <- !app_assoc.
Qed.

Lemma puts_objid_head c n p : c = Some p -> is_u8 n -> is_u8 p ->
  puts (wlet c (fun prefix => put_objid_head n prefix)) [] [n; p; 0].
Proof.
  intros Hc Hn Hp. eapply puts_let; [exact Hc|]. unfold put_objid_head. rewrite !u8_id by done.
  by apply (puts_poke []).
Qed.

Lemma puts_sub_ids {A} (c : option A) ids f n p : c = Some ids ->
  puts (wlet c (fun ids => poke 4 (f ids))) [n; p; 0] ([n; p; 0; 0] ++ f ids).
Proof. intros Hc. eapply puts_let; [exact Hc|]. apply (puts_poke [n; p; 0]). cbn. lia. Qed.

(** The parts of an identifier in memory. *)
Lemma internet_cells cells p rest : slice 0 (length (internet ++ p :: rest)) cells = Some (internet ++ p :: rest) ->
  cells !! 4%nat = Some p /\ slice 5 (length rest) cells = Some rest.
Proof.
  intros [r ->]%slice_prefix. split; [done|]. rewrite <- app_assoc. by apply (slice_mid [1; 3; 6; 1; p] rest).
Qed.

Lemma zlen_internet p rest : zlen (internet ++ p :: rest) = 5 + zlen rest.
Proof. unfold internet. cbn [app]. rewrite !zlen_cons. lia. Qed.

Lemma zlen_u8 (rest : list Z) : (length rest <= 59)%nat -> is_u8 (zlen rest).
Proof. unfold is_u8, zlen. lia. Qed.

Lemma writes_vb_oid e vb ids :
  x_oid_ok ids -> xvb_oid_len vb = zlen (as_read ids) -> xvb_ids vb = Some (as_read ids) ->
  writes (put_vb_oid e vb) (x_objid e 0 ids).
Proof.
  intros H Hl Hs. unfold xvb_ids in Hs. rewrite Hl, Zto_nat_zlen in Hs. unfold put_vb_oid. rewrite Hl. apply ends_writes.
  destruct (x_oid_view ids H) as [->|(p & rest & Er & Hp & _ & Hw & Hn & ->)].
  - change (zlen (as_read [])) with 0. eapply ends_puts; [by apply puts_objid_head|].
    eapply ends_puts; [by apply puts_sub_ids|]. by apply ends_step.
  - rewrite Er in *. destruct (internet_cells _ _ _ Hs) as [H4 H5]. rewrite zlen_internet.
    pose proof (zlen_nonneg rest).
    rewrite (Z.gtb_ltb _ 4), (proj2 (Z.ltb_lt 4 _)) by lia. replace (Z.to_nat (5 + zlen rest) - 5)%nat with (length rest) by (unfold zlen; lia).
    replace (if 5 + zlen rest >? 5 then 5 + zlen rest - 5 else 0) with (zlen rest)
      by (rewrite Z.gtb_ltb; zcase; lia).
    eapply ends_puts; [apply puts_objid_head; [exact H4|by apply zlen_u8|unfold is_u8; lia]|].
    eapply ends_puts; [by apply puts_sub_ids|].
    apply ends_exact. rewrite length_app, length_store_oid. cbn [length]. unfold zlen. rewrite Z.gtb_ltb. zcase; lia.
Qed.

(** ** Values and bindings *)

(** The answer [vb] stands for the binding [b]. *)
Record xvb_rep (e : endian) (vb : x_var_bind) (b : x_binding) : Prop := {
  xr_type : xvb_val_type vb = xb_type b;
  xr_oid_len : xvb_oid_len vb = zlen (as_read (xb_oid b));
  xr_oid : xvb_ids vb = Some (as_read (xb_oid b));
  xr_val_len : xvb_val_len vb = zlen (x_mem e (xb_value b));
  xr_value : slice 0 (length (x_mem e (xb_value b))) (xvb_value vb) = Some (x_mem e (xb_value b));
  xr_ok : x_binding_ok b;
}.

(** A store of bytes read from the answer. *)
Lemma writes_copy c bs n : c = Some bs -> n = length bs -> writes (wlet c (fun bs => poke 0 bs) >>> step n) bs.
Proof.
  intros Hc Hn. apply ends_writes. eapply ends_puts; [eapply puts_let; [exact Hc|by apply (puts_poke [])]|].
  by apply ends_exact.
Qed.

Lemma puts_octstr e n s : puts (put_octstr e n s) [] (mem_of e 4 n ++ s).
Proof.
  unfold put_octstr. eapply puts_seq; [by apply (puts_poke [])|]. cbn [length Nat.sub replicate app].
  pose proof (puts_poke (mem_of e 4 n) 4 s) as H. rewrite length_mem_of in H. by apply H.
Qed.

Lemma writes_octstr e s n : n = (4 + Z.to_nat (uint_sizeof (zlen s)))%nat ->
  writes (put_octstr e (zlen s) s >>> step n) (x_octstr e s).
Proof.
  intros ->. apply ends_writes. eapply ends_puts; [apply puts_octstr|].
  pose proof (uint_sizeof_bounds (zlen s)). apply ends_step; rewrite length_app, length_mem_of; [unfold zlen in *; lia|].
  unfold x_octstr, padding. rewrite <- app_assoc. do 3 f_equal. unfold zlen in *. lia.
Qed.

(** The identifier as a value: [n] bytes of memory. *)
Lemma store_internet_cells e value p rest :
  slice 0 (length (store_oid e (internet ++ p :: rest))) value = Some (store_oid e (internet ++ p :: rest)) ->
  is_u32 p -> rd e 4 value 16 = Some p /\ slice 20 (4 * length rest) value = Some (store_oid e rest).
Proof.
  intros [r ->]%slice_prefix Hp. rewrite store_oid_app. change (p :: rest) with ([p] ++ rest).
  rewrite store_oid_app, <- !app_assoc. cbn [store_oid]. rewrite app_nil_r. split.
  - rewrite rd_mid, val_of_word by (rewrite ?length_store_oid, ?length_mem_of; done). done.
  - rewrite (app_assoc (store_oid e internet)). apply slice_mid; rewrite ?length_app, ?length_store_oid, ?length_mem_of; done.
Qed.

Lemma writes_vb_objid e vb ids (n := zlen (store_oid e (as_read ids))) : x_oid_ok ids ->
  slice 0 (length (store_oid e (as_read ids))) (xvb_value vb) = Some (store_oid e (as_read ids)) ->
  writes (wlet (if n >? 16 then rd e 4 (xvb_value vb) 16 else Some 0) (fun prefix =>
      put_objid_head (if n >? 20 then (n - 20) / 4 else 0) prefix) >>>
    wlet (slice 20 (4 * (Z.to_nat (n / 4) - 5)) (xvb_value vb)) (fun bs => poke 4 bs) >>>
    step (if n >? 20 then 4 + Z.to_nat (n - 20) else 4)%nat) (x_objid e 0 ids).
Proof.
  intros H Hs. apply ends_writes. subst n. destruct (x_oid_view ids H) as [->|(p & rest & Er & Hp & _ & Hw & Hl & ->)].
  - eapply ends_puts; [by apply puts_objid_head|]. eapply ends_puts; [by apply (puts_sub_ids _ [] (fun bs => bs))|].
    by apply ends_step.
  - rewrite Er in *. destruct (store_internet_cells _ _ _ _ Hs) as [H4 H5]; [unfold is_u32; lia|].
    assert (zlen (store_oid e (internet ++ p :: rest)) = 20 + 4 * zlen rest) as ->.
    { unfold zlen. rewrite length_store_oid, length_app. cbn [length internet]. lia. }
    pose proof (zlen_nonneg rest). rewrite (Z.gtb_ltb _ 16), (proj2 (Z.ltb_lt 16 _)) by lia.
    replace (Z.to_nat ((20 + 4 * zlen rest) / 4) - 5)%nat with (length rest)
      by (unfold zlen in *; Z.div_mod_to_equations; lia).
    replace (if 20 + 4 * zlen rest >? 20 then (20 + 4 * zlen rest - 20) / 4 else 0) with (zlen rest)
      by (rewrite Z.gtb_ltb; zcase; Z.div_mod_to_equations; lia).
    eapply ends_puts; [apply puts_objid_head; [exact H4|by apply zlen_u8|unfold is_u8; lia]|].
    eapply ends_puts; [by apply (puts_sub_ids _ (store_oid e rest) (fun bs => bs))|].
    apply ends_exact. rewrite length_app, length_store_oid. cbn [length]. unfold zlen. rewrite Z.gtb_ltb. zcase; lia.
Qed.

Lemma writes_vb_value e vb b : xvb_rep e vb b -> writes (put_vb_value e vb) (x_value_bytes e (xb_value b)).
Proof.
  intros [Ht _ _ Hn Hv [Hty _]]. destruct b as [t ids v]. cbn in *. unfold put_vb_value. rewrite Ht, Hn.
  pose proof (x_typed_inv t v Hty) as [Hi _].
  destruct Hty as [t v _ Hv'|v Hv'|t s Htag Hs Hl|vids Hids|t _]; cbn [x_mem x_value_bytes] in *.
  - rewrite Hi. rewrite length_mem_of in Hv. by apply writes_copy; rewrite ?length_mem_of.
  - x_switch. rewrite length_mem_of in Hv. by apply writes_copy; rewrite ?length_mem_of.
  - destruct Hi as (-> & -> & -> & ->). rewrite Zto_nat_zlen. intros dn k Hk. unfold wseq, wlet. rewrite Hv.
    by apply (writes_octstr e s _ eq_refl).
  - x_switch. by apply writes_vb_objid.
  - destruct Hi as (-> & -> & -> & ->). apply writes_skip.
Qed.

Lemma writes_vb e vb b : xvb_rep e vb b -> writes (put_vb e vb) (x_binding_bytes e b).
Proof.
  intros H. destruct (H) as [Ht Hl Ho _ _ [Hty Hok]]. apply ends_writes. unfold put_vb, x_binding_bytes. rewrite Ht.
  eapply ends_puts; [by apply (puts_poke [])|]. rewrite (app_assoc (mem_of e 2 _)). apply ends_seq.
  - apply ends_step; cbn [length Nat.sub replicate app]; rewrite length_mem_of; [lia|done].
  - apply writes_seq; [by apply writes_vb_oid|by apply writes_vb_value].
Qed.

Lemma writes_vbs e vbs bs : Forall2 (xvb_rep e) vbs bs -> writes (put_vbs e vbs) (x_bindings_bytes e bs).
Proof.
  induction 1 as [|vb b vbs bs H _ IH]; [apply writes_skip|]. apply writes_seq; [by apply writes_vb|done].
Qed.

(** The length computed for a binding is the length written. *)
Lemma vb_out_len_spec e vb b : xvb_rep e vb b -> vb_out_len vb = zlen (x_binding_bytes e b).
Proof.
  intros [Ht Hl _ Hn _ [Hty Hok]]. destruct b as [t ids v]. cbn in *. unfold vb_out_len, x_binding_bytes. rewrite Ht, Hl, Hn.
  rewrite !zlen_app, zlen_mem_of. cbn [xb_oid xb_value].
  assert (forall ids, x_oid_ok ids ->
    zlen (x_objid e 0 ids) = if zlen (as_read ids) >? 5 then 4 + (zlen (as_read ids) - 5) * 4 else 4) as Hobj.
  { clear. intros ids H. destruct (objid_dec e [] [] 0 ids H) as (_ & _ & _ & ->).
    rewrite Z.gtb_ltb. destruct (x_oid_view ids H) as [->|(p & rest & -> & _)]; [done|].
    rewrite zlen_internet in *. pose proof (zlen_nonneg rest).
    rewrite (proj2 (Z.ltb_lt 0 _)) by lia. zcase; lia. }
  rewrite (Hobj _ Hok). change (zlen [0; 0]) with 2. pose proof (x_typed_inv t v Hty) as [Hi _].
  assert (zlen (x_value_bytes e v) = if is_word_tag t then 4 else if t =? ASN1_TAG_CNT64 then 8
    else if is_string_tag t then 4 + uint_sizeof (zlen (x_mem e v))
    else if t =? ASN1_TAG_OBJID then (if zlen (x_mem e v) >? 20 then 4 + zlen (x_mem e v) - 20 else 4) else 0) as ->;
    [|destruct (zlen (as_read ids) >? 5); lia].
  destruct Hty as [t v _ Hv'|v Hv'|t s Htag Hs Hl'|vids Hids|t _]; cbn [x_mem x_value_bytes].
  - by rewrite Hi, zlen_mem_of.
  - x_switch. apply zlen_mem_of.
  - destruct Hi as (-> & -> & _ & ->). apply zlen_octstr.
  - x_switch. rewrite (Hobj _ Hids).
    replace (zlen (store_oid e (as_read vids))) with (4 * zlen (as_read vids)) by (unfold zlen; rewrite length_store_oid; lia).
    rewrite !Z.gtb_ltb. repeat zcase; lia.
  - by destruct Hi as (-> & -> & -> & ->).
Qed.

Lemma vb_out_lens_spec e vbs bs n : Forall2 (xvb_rep e) vbs bs -> 0 <= n -> n + zlen (x_bindings_bytes e bs) < 2 ^ 32 ->
  vb_out_lens vbs n = n + zlen (x_bindings_bytes e bs).
Proof.
  intros H. revert n. unfold vb_out_lens, x_bindings_bytes.
  induction H as [|vb b vbs bs H _ IH]; intros n Hn Hb; cbn [map concat foldl] in *; [unfold zlen; cbn [length]; lia|].
  rewrite zlen_app in *. rewrite (vb_out_len_spec e vb b H). pose proof (zlen_nonneg (x_binding_bytes e b)).
  pose proof (zlen_nonneg (concat (map (x_binding_bytes e) bs))).
  rewrite u32_id by (unfold is_u32; lia). rewrite IH by lia. lia.
Qed.

(** The response to the request with header [h]. *)
Definition response_hdr (h : x_pdu_hdr) : x_pdu_hdr :=
  mk_xhdr (xh_version h) AGENTX_PDU_RESPONSE (xh_flags h) 0 (xh_session_id h) (xh_transaction_id h) (xh_packet_id h) 0.

Lemma response_pdu_spec e x bs :
  Forall2 (xvb_rep e) (x_vb_out_list x) bs ->
  let body := x_response_body e 0 (xu_error (x_u x)) (xu_index (x_u x)) bs in
  20 + zlen body < 2 ^ 32 ->
  agentx_response_pdu e x = Some (x_message e (response_hdr (x_hdr x)) body).
Proof.
  intros Hbs body Hlen. unfold agentx_response_pdu, sizeof_hdr.
  assert (zlen body = 8 + zlen (x_bindings_bytes e bs)) as Hb.
  { unfold body, x_response_body. rewrite !zlen_app, !zlen_mem_of. lia. }
  pose proof (zlen_nonneg (x_bindings_bytes e bs)).
  rewrite (vb_out_lens_spec e _ bs) by (done || lia).
  rewrite u32_id by (unfold is_u32; lia).
  replace (20 + 4 + 2 * 2 + zlen (x_bindings_bytes e bs) - 20) with (zlen body) by lia.
  apply with_zeros_leaves; [apply leaves_writes|unfold x_message; rewrite zlen_app, zlen_header; lia]. unfold x_message. apply writes_seq; [apply (writes_hdr e _ _ _ _ _ _ (zlen body))|].
  unfold body, x_response_body. replace (mem_of e 4 0) with (replicate 4 0) by (by destruct e).
  apply writes_seq; [apply writes_gap|]. apply ends_writes.
  eapply ends_puts; [by apply (puts_poke [])|]. apply ends_seq; [apply ends_exact; by rewrite ?length_app, length_mem_of|].
  apply ends_writes. eapply ends_puts; [by apply (puts_poke [])|].
  apply ends_seq; [apply ends_exact; by rewrite ?length_app, length_mem_of|]. by apply writes_vbs.
Qed.

(** *** Answers that cannot be written *)
Lemma wseq_fails_l a b : (forall s, a s = None) -> forall s, (a >>> b) s = None.
Proof. intros H s. unfold wseq. by rewrite H. Qed.

Lemma wseq_fails_r a b : (forall s, b s = None) -> forall s, (a >>> b) s = None.
Proof. intros H s. unfold wseq. destruct (a s); [apply H|done]. Qed.

Lemma with_zeros_fails n w : (forall s, w s = None) -> with_zeros n w = None.
Proof. intros H. unfold with_zeros. by rewrite H. Qed.

Lemma put_vbs_fails e vb vbs : vb ∈ vbs -> (forall s, put_vb_value e vb s = None) -> forall s, put_vbs e vbs s = None.
Proof.
  intros Hin Hv. induction vbs as [|vb' vbs IH]; [by apply not_elem_of_nil in Hin|]. apply elem_of_cons in Hin as [<-|Hin].
  - apply wseq_fails_l. by do 3 apply wseq_fails_r.
  - by apply wseq_fails_r, IH.
Qed.

Lemma response_pdu_fails e x vb : vb ∈ x_vb_out_list x -> (forall s, put_vb_value e vb s = None) ->
  agentx_response_pdu e x = None.
Proof.
  intros Hin Hv. unfold agentx_response_pdu. apply with_zeros_fails. do 6 apply wseq_fails_r. by eapply put_vbs_fails.
Qed.

(** ** Session PDUs *)

(** A string that the code announces with its padding. *)
Definition padded (s : list Z) : list Z := s ++ padding (zlen s).

Lemma zlen_padded s : zlen (padded s) = uint_sizeof (zlen s).
Proof. unfold padded. rewrite zlen_app, zlen_padding. lia. Qed.

Lemma octstr_padded e s : x_octstr e (padded s) = mem_of e 4 (uint_sizeof (zlen s)) ++ s ++ padding (zlen s).
Proof.
  unfold x_octstr. rewrite zlen_padded. unfold padding at 1.
  replace (uint_sizeof (uint_sizeof (zlen s)) - uint_sizeof (zlen s)) with 0.
  - by rewrite app_nil_r.
  - rewrite !uint_sizeof_eq. Z.div_mod_to_equations. lia.
Qed.

(** The stores of an identifier given as an argument, then [w]. *)
Lemma leaves_region e c c' n k ids p w B : k = (4 + 4 * length ids)%nat -> n = zlen ids -> (length ids <= 59)%nat ->
  is_u8 p -> c = Some p -> c' = Some ids -> leaves w [] B ->
  leaves (wlet c (fun prefix => put_objid_head n prefix) >>>
          wlet c' (fun ids => poke 4 (store_oid e ids)) >>> step k >>> w) []
         ([zlen ids; p; 0; 0] ++ store_oid e ids ++ B).
Proof.
  intros -> -> Hl Hp H4 H5 Hw. eapply leaves_puts_seq; [apply puts_objid_head; [done|by apply zlen_u8|done]|..].
  - eapply leaves_puts_seq; [by apply puts_sub_ids|..].
    + rewrite app_assoc. apply leaves_ends_seq; [|done]. apply ends_exact. by rewrite length_app, length_store_oid.
    + rewrite !length_app. cbn [length]. lia.
  - cbn [length app]. lia.
Qed.

Lemma short_cells oid p rest : oid = internet ++ p :: rest ->
  oid !! 4%nat = Some p /\ slice 5 (Z.to_nat (zlen oid) - 5) oid = Some rest.
Proof.
  intros ->. split; [done|]. rewrite Zto_nat_zlen, length_app. cbn [length internet].
  replace (4 + S (length rest) - 5)%nat with (length rest) by lia.
  rewrite <- (app_nil_r (internet ++ p :: rest)), <- app_assoc. by apply (slice_mid [1; 3; 6; 1; p] rest).
Qed.

Lemma leaves_oid e oid k w B : x_oid_short oid -> k = (4 + Z.to_nat ((zlen oid - 5) * 4))%nat -> leaves w [] B ->
  leaves (wlet (oid !! 4%nat) (fun prefix => put_objid_head (zlen oid - 5) prefix) >>>
          wlet (slice 5 (Z.to_nat (zlen oid) - 5) oid) (fun ids => poke 4 (store_oid e ids)) >>> step k >>> w) []
         (x_objid e 0 oid ++ B).
Proof.
  intros Ho -> Hw. destruct Ho as [p rest Hp Hrest Hl].
  destruct (short_cells _ p rest eq_refl) as [H4 H5]. rewrite x_objid_internet, <- app_assoc by done.
  rewrite zlen_internet in *. apply (leaves_region e); try done; unfold zlen, is_u8; lia.
Qed.

(** The header of an Open PDU: it announces the byte order of the host. *)
Definition open_hdr (e : endian) (h : x_pdu_hdr) : x_pdu_hdr :=
  mk_xhdr 1 AGENTX_PDU_OPEN (match e with LE => 0 | BE => NETWORD_BYTE_ORDER end) 0
    (xh_session_id h) (xh_transaction_id h) 1 0.

(** The sizes of the identifier in the code and in the reference. *)
Lemma region_sizes e oid : x_oid_short oid -> zlen oid <= 59 ->
  (zlen oid >? 4) = true /\ (u32 (zlen oid + 5) <=? 64) = true /\ zlen (x_objid e 0 oid) = 4 + (zlen oid - 5) * 4 /\
  u32 (zlen oid - 5) = zlen oid - 5 /\ 0 <= zlen oid - 5 <= 54.
Proof.
  intros Ho Hl. destruct (objid_dec e [] [] 0 oid (x_oid_short_ok _ Ho)) as (_ & _ & _ & ->). destruct Ho as [p rest Hp Hw Hr].
  rewrite as_read_internet by done.
  rewrite zlen_internet in *. pose proof (zlen_nonneg rest). rewrite !u32_id by (unfold is_u32; lia). rewrite Z.gtb_ltb.
  rewrite (proj2 (Z.ltb_lt 4 _)), (proj2 (Z.ltb_lt 0 _)), (proj2 (Z.leb_le _ _)) by lia. repeat split; lia.
Qed.

Lemma leaves_padded e s : leaves (put_octstr e (uint_sizeof (zlen s)) s) [] (x_octstr e (padded s)).
Proof. rewrite octstr_padded, app_assoc. apply leaves_zeros, leaves_puts, puts_octstr. Qed.

Lemma zlen_octstr_padded e s : zlen (x_octstr e (padded s)) = 4 + uint_sizeof (zlen s).
Proof. rewrite octstr_padded, !zlen_app, zlen_mem_of, zlen_padding. lia. Qed.

Lemma open_pdu_spec e x oid descr :
  oid = [] \/ x_oid_short oid -> zlen oid <= 59 -> zlen descr <= ASN1_VALUE_MAX_LEN ->
  agentx_open_pdu e x oid (zlen oid) descr (zlen descr) =
  Some (x_message e (open_hdr e (x_hdr x)) (replicate 4 0 ++ x_objid e 0 oid ++ x_octstr e (padded descr))).
Proof.
  intros Ho Hl Hd. unfold ASN1_VALUE_MAX_LEN in Hd. unfold agentx_open_pdu, ASN1_OID_MAX_LEN, ASN1_VALUE_MAX_LEN, sizeof_hdr.
  pose proof (zlen_nonneg descr). pose proof (uint_sizeof_bounds (zlen descr)).
  rewrite (u32_id (uint_sizeof (zlen descr))) by (unfold is_u32; lia). rewrite (proj2 (Z.leb_le (zlen descr) _)) by lia.
  set (body := replicate 4 0 ++ x_objid e 0 oid ++ x_octstr e (padded descr)).
  assert (zlen body = 4 + zlen (x_objid e 0 oid) + (4 + uint_sizeof (zlen descr))) as Hb
    by (unfold body; by rewrite !zlen_app, zlen_octstr_padded, Z.add_assoc).
  assert (zlen (x_message e (open_hdr e (x_hdr x)) body) = 20 + zlen body) as Hm
    by (unfold x_message; by rewrite zlen_app, zlen_header).
  destruct Ho as [->|Ho].
  - change (zlen (x_objid e 0 [])) with 4 in Hb. change (zlen (A := Z) []) with 0. cbn [Z.eqb orb negb].
    rewrite !u32_id by (unfold is_u32; lia).
    apply with_zeros_leaves; [|lia]. apply leaves_seq; [|apply leaves_seq; [apply writes_gap|]].
    + replace (20 + 4 + 4 + 0 + 4 + uint_sizeof (zlen descr) - 20) with (zlen body) by lia. apply (writes_hdr e).
    + apply (leaves_region e _ _ _ _ [] 0); try done; [cbn; lia|apply leaves_padded].
  - destruct (region_sizes e oid Ho Hl) as (-> & -> & Hr & -> & Hu). rewrite Hr in Hb. cbn [orb andb negb].
    rewrite (proj2 (Z.eqb_neq (zlen oid) 0)) by lia. cbn [orb negb].
    rewrite !u32_id by (unfold is_u32; rewrite ?u32_id by (unfold is_u32; lia); lia).
    apply with_zeros_leaves; [|lia]. apply leaves_seq; [|apply leaves_seq; [apply writes_gap|]].
    + replace (20 + 4 + 4 + (zlen oid - 5) * 4 + 4 + uint_sizeof (zlen descr) - 20) with (zlen body) by lia.
      apply (writes_hdr e).
    + by apply leaves_oid, leaves_padded.
Qed.

(** The header of a PDU that counts packets. *)
Definition packet_hdr (type flags : Z) (h : x_pdu_hdr) : x_pdu_hdr :=
  mk_xhdr (xh_version h) type flags 0 (xh_session_id h) (xh_transaction_id h) (u32 (xh_packet_id h + 1)) 0.

(** The optional context of a PDU, announced with its padding. *)
Definition context_bytes (w : endian) (s : list Z) : list Z := if decide (s = []) then [] else x_octstr w (padded s).

Lemma zlen_context e s : zlen (context_bytes e s) = if nz (uint_sizeof (zlen s)) then 4 + uint_sizeof (zlen s) else 0.
Proof.
  unfold context_bytes. destruct (decide (s = [])) as [->|Hne]; [done|]. rewrite zlen_octstr_padded.
  pose proof (uint_sizeof_bounds (zlen s)). assert (0 < zlen s) by (destruct s; [done|rewrite zlen_cons; pose proof (zlen_nonneg s); lia]).
  unfold nz. by rewrite (proj2 (Z.eqb_neq _ 0)) by lia.
Qed.

Lemma context_stores (s : list Z) : (s = [] /\ nz (uint_sizeof (zlen s)) = false) \/ (s <> [] /\ nz (uint_sizeof (zlen s)) = true).
Proof.
  destruct s as [|b s]; [by left|]. right. split; [done|]. pose proof (uint_sizeof_bounds (zlen (b :: s))).
  rewrite zlen_cons in *. pose proof (zlen_nonneg s). unfold nz. by rewrite (proj2 (Z.eqb_neq _ 0)) by lia.
Qed.

Lemma writes_context e s :
  writes (if nz (uint_sizeof (zlen s)) then put_octstr e (uint_sizeof (zlen s)) s >>> step (Z.to_nat (4 + uint_sizeof (zlen s)))
          else wskip) (context_bytes e s).
Proof.
  unfold context_bytes. destruct (context_stores s) as [[-> Hn]|[Hne ->]]; [apply writes_skip|]. rewrite decide_False by done.
  apply ends_writes. eapply ends_puts; [apply puts_octstr|]. pose proof (uint_sizeof_bounds (zlen s)).
  apply ends_step; rewrite length_app, length_mem_of; [unfold zlen in *; lia|].
  rewrite octstr_padded, <- app_assoc. unfold padding. do 3 f_equal. unfold zlen in *. lia.
Qed.

Lemma region_pdu_spec e type put_timeout timeout x oid context priority range_subid upper_bound :
  writes put_timeout [timeout] -> x_oid_short oid -> zlen oid <= 59 -> zlen context <= 40 ->
  region_pdu e type put_timeout x oid (zlen oid) context (zlen context) priority range_subid upper_bound =
  Some (next_packet x,
    x_message e (packet_hdr type (Z.lor (xh_flags (x_hdr x)) INSTANCE_REGISTRATION) (x_hdr x))
      (context_bytes e context ++ [timeout] ++ [priority] ++ [range_subid] ++ [0] ++ x_objid e 0 oid
        ++ if nz range_subid then mem_of e 4 upper_bound else [])).
Proof.
  intros Ht Ho Hl Hc. unfold region_pdu, ASN1_OID_MAX_LEN, sizeof_hdr.
  destruct (region_sizes e oid Ho Hl) as (-> & -> & Hr & -> & Hu). rewrite (proj2 (Z.leb_le (zlen context) _)) by lia.
  pose proof (zlen_nonneg context). pose proof (uint_sizeof_bounds (zlen context)).
  rewrite (u32_id (uint_sizeof (zlen context))) by (unfold is_u32; lia). cbn [andb negb].
  set (body := context_bytes e context ++ _).
  assert (zlen body = zlen (context_bytes e context) + 4 + 4 + (zlen oid - 5) * 4 + if nz range_subid then 4 else 0) as Hb.
  { unfold body. rewrite !zlen_app, Hr. destruct (nz range_subid); rewrite ?zlen_mem_of; unfold zlen; cbn [length]; lia. }
  rewrite <- zlen_context with (e := e). pose proof (zlen_context e context) as Hz.
  assert (0 <= zlen (context_bytes e context) <= 48) as Hcb by (destruct (nz (uint_sizeof _)); lia).
  assert (0 <= (if nz range_subid then 4 else 0) <= 4) by (destruct (nz range_subid); lia).
  rewrite (u32_id (20 + _ + _ + _ + _ + _)) by (unfold is_u32; lia).
  rewrite (with_zeros_leaves _ (x_message e (packet_hdr type (Z.lor (xh_flags (x_hdr x)) INSTANCE_REGISTRATION) (x_hdr x)) body));
    [done| |unfold x_message; rewrite zlen_app, zlen_header; lia].
  unfold x_message. apply leaves_seq.
  - unfold put_next_hdr, sizeof_hdr. rewrite u32_id by (unfold is_u32; lia).
    replace (20 + zlen (context_bytes e context) + 4 + 4 + (zlen oid - 5) * 4 + (if nz range_subid then 4 else 0) - 20)
      with (zlen body) by lia. apply (writes_hdr e).
  - apply leaves_seq; [apply writes_context|]. apply leaves_seq; [done|].
    do 2 (apply leaves_seq; [apply writes_byte|]). apply leaves_seq; [apply (writes_gap 1)|].
    apply leaves_oid; [done|lia|]. destruct (nz range_subid); [|apply leaves_writes, writes_skip].
    apply leaves_puts, (puts_poke []). cbn. lia.
Qed.

Lemma close_pdu_spec e x reason :
  agentx_close_pdu e x reason =
  Some (next_packet x, x_message e (packet_hdr AGENTX_PDU_CLOSE (xh_flags (x_hdr x)) (x_hdr x)) (mem_of e 4 reason)).
Proof.
  unfold agentx_close_pdu.
  rewrite (with_zeros_leaves _ (x_message e (packet_hdr AGENTX_PDU_CLOSE (xh_flags (x_hdr x)) (x_hdr x)) (mem_of e 4 reason)));
    [done| |unfold x_message; by rewrite zlen_app, zlen_header, zlen_mem_of].
  unfold x_message. apply leaves_seq; [rewrite zlen_mem_of; apply (writes_hdr e)|].
  apply leaves_puts, (puts_poke []). cbn. lia.
Qed.

Lemma ping_pdu_spec e x context : zlen context < 40 ->
  agentx_ping_pdu e x context (zlen context) =
  Some (next_packet x,
    x_message e (packet_hdr AGENTX_PDU_PING (xh_flags (x_hdr x)) (x_hdr x)) (context_bytes e context)).
Proof.
  intros Hc. unfold agentx_ping_pdu, sizeof_hdr. rewrite (proj2 (Z.ltb_lt _ _) Hc). cbn [negb].
  pose proof (zlen_nonneg context). pose proof (uint_sizeof_bounds (zlen context)).
  rewrite (u32_id (uint_sizeof (zlen context))) by (unfold is_u32; lia). rewrite <- zlen_context with (e := e).
  assert (0 <= zlen (context_bytes e context) <= 48) as Hcb by (rewrite zlen_context; destruct (nz (uint_sizeof _)); lia).
  rewrite (u32_id (20 + _)) by (unfold is_u32; lia).
  rewrite (with_zeros_leaves _ (x_message e (packet_hdr AGENTX_PDU_PING (xh_flags (x_hdr x)) (x_hdr x)) (context_bytes e context)));
    [done| |unfold x_message; by rewrite zlen_app, zlen_header].
  unfold x_message. apply leaves_seq.
  - unfold put_next_hdr, sizeof_hdr. rewrite u32_id by (unfold is_u32; lia).
    replace (20 + zlen (context_bytes e context) - 20) with (zlen (context_bytes e context)) by lia. apply (writes_hdr e).
  - unfold context_bytes. destruct (context_stores context) as [[-> Hn]|[Hne ->]]; [apply leaves_writes, writes_skip|].
    rewrite decide_False by done. apply leaves_padded.
Qed.
