(* ===== verification/AgentxProc.v ===== *)
(** * Processing AgentX requests ([src/core/agentx_msg_proc.c])

    Every search range of a Get or GetNext request and every binding of a
    TestSet request is looked up in the MIB tree, in the one view [.1.3.6.1] of
    the sub-agent; the answer is encoded and appended to [vb_out_list], the first
    error is kept.  As in [snmp_msg_proc.c] the result structure [ret_oid] is
    reused from one search to the next. *)
From S2P Require Import Prelude BerEncoder BerDecoder Oid MibTree MibSearch AgentxData AgentxWire AgentxCodec AgentxOut.
Local Open Scope Z_scope.

Definition agentx_dummy_view : list Z := [1; 3; 6; 1].

Section Proc.
Context {L : Type} (lua_pcall : L -> Z -> Z -> list Z -> lua_arg -> lua_arg -> L * option lua_ret).
Context (e : endian) (junk : Z) (root : mib_node).

(** ** Searches *)
Definition x_search (o : list Z) (l : L) (r : oid_search_res) : option (L * oid_search_res) :=
  let* (_, l', r') := mib_tree_search lua_pcall e junk root agentx_dummy_view o l r in Some (l', r').

(** [mib_get] *)
Definition x_mib_get (sr_in : x_search_range) (l : L) (r : oid_search_res) : option (L * oid_search_res) :=
  let* start := sr_start_ids sr_in in x_search start l r.

(** The condition [ret_oid->err_stat || !ASN1_TAG_VALID(tag(&ret_oid->var))]. *)
Definition missed (r : oid_search_res) : bool := nz (r_err_stat r) || negb (ASN1_TAG_VALID (tag (r_var r))).

(** Whether the identifier found is beyond the range. *)
Definition exceeds (sr_in : x_search_range) (found last : list Z) : bool :=
  (nz (sr_end_include sr_in) && (oid_cmp found last >? 0)) ||
  (negb (nz (sr_end_include sr_in)) && (oid_cmp found last >=? 0)).

(** [mib_getnext]: the included start first, then what follows it, up to the
    end of the range. *)
Definition x_mib_getnext (sr_in : x_search_range) (l : L) (r : oid_search_res) : option (L * oid_search_res) :=
  let* start := sr_start_ids sr_in in
  let* (l, r) := (if nz (sr_start_include sr_in) then x_search start l r else Some (l, r)) in
  if negb (nz (sr_start_include sr_in)) || missed r then
    let* (l, r) := mib_tree_search_next lua_pcall e junk root agentx_dummy_view start l r in
    if negb (missed r) then
      let* last := sr_end_ids sr_in in
      let* found := slice 0 (Z.to_nat (r_id_len r)) (r_oid r) in
      if exceeds sr_in found last then
        let* cells := oid_cpy (r_oid r) start in
        Some (l, set_var (set_tag ASN1_TAG_END_OF_MIB_VIEW (r_var r))
                   (set_inst None 0 (set_oid cells (sr_start_len sr_in) r)))
      else Some (l, r)
    else Some (l, r)
  else Some (l, r).

(** [mib_set] *)
Definition x_mib_set (vb_in : x_var_bind) (l : L) (r : oid_search_res) : option (L * oid_search_res) :=
  let* ids := xvb_ids vb_in in x_search ids l r.

(** ** Answers *)

(** [vb_out] for the result [r]: [count] is the length given to
    [agentx_value_enc], [t] the type of the answer. *)
Definition x_vb_out (r : oid_search_res) (count t : Z) : option x_var_bind :=
  let v := r_var r in
  let val_len := agentx_value_enc_try (len v) (tag v) in
  let* (n, bs) := agentx_value_enc (value v) count (tag v) in
  let* mem := blit bs (replicate (Z.to_nat val_len) junk) in
  Some (mk_xvb (r_oid r) (r_id_len r) t n mem).

(** The first error is reported. *)
Definition x_report (err cnt : Z) (x : agentx_datagram) : agentx_datagram :=
  if nz err && (xu_error (x_u x) =? 0) then set_xu (mk_xu (xu_head (x_u x)) (u16 err) (u16 cnt)) x else x.

Record xstate := mk_xstate {
  xs_lua : L;
  xs_ret : oid_search_res;
  xs_cnt : Z;
  xs_xdg : agentx_datagram;
}.

(** The search and the encoding of its result, in the loops of [agentx_get]
    and [agentx_getnext]: the interpreter, [ret_oid], the error, [vb_out]. *)
Definition x_get_answer (search : x_search_range -> L -> oid_search_res -> option (L * oid_search_res))
    (sr_in : x_search_range) (l : L) (r : oid_search_res) : option (L * oid_search_res * Z * x_var_bind) :=
  let* (l, r) := search sr_in l r in
  let* vb_out := x_vb_out r (len (r_var r)) (tag (r_var r)) in
  Some (l, r, r_err_stat r, vb_out).

(** The same in the loop of [agentx_set]: the encoding is given [val_len] as
    the count, the answer keeps the type of the request. *)
Definition x_set_answer (vb_in : x_var_bind) (l : L) (r : oid_search_res)
    : option (L * oid_search_res * Z * x_var_bind) :=
  let t := u8 (xvb_val_type vb_in) in
  let n := u16 (xvb_val_len vb_in) in
  let* bs := slice 0 (Z.to_nat (agentx_value_enc_try n t)) (xvb_value vb_in) in
  let* val := blit bs (value (r_var r)) in
  let* (l, r) := x_mib_set vb_in l (set_var (mk_var t n val) r) in
  let val_len := agentx_value_enc_try (len (r_var r)) (tag (r_var r)) in
  let* vb_out := x_vb_out r val_len (xvb_val_type vb_in) in
  let r := if (r_err_stat r =? 0) && negb (ASN1_TAG_VALID (tag (r_var r)))
           then set_err_stat AGENTX_ERR_STAT_NOT_WRITABLE r else r in
  Some (l, r, r_err_stat r, vb_out).

(** The body of the loops: the answer, its error and the list. *)
Definition x_step {A} (answer : A -> L -> oid_search_res -> option (L * oid_search_res * Z * x_var_bind))
    (s : xstate) (a : A) : option xstate :=
  let cnt := u32 (xs_cnt s + 1) in
  let* (l, r, err, vb_out) := answer a (xs_lua s) (xs_ret s) in
  Some (mk_xstate l r cnt (add_vb_out vb_out (x_report err cnt (xs_xdg s)))).

(** [list_for_each] *)
Fixpoint x_for_each {A} (step : xstate -> A -> option xstate) (l : list A) (s : xstate) : option xstate :=
  match l with
  | [] => Some s
  | a :: l' => let* s' := step s a in x_for_each step l' s'
  end.

(** The interpreter, the datagram and the message sent. *)
Definition agentx_get (x : agentx_datagram) (l : L) : option (L * agentx_datagram * list Z) :=
  let* s := x_for_each (x_step (x_get_answer x_mib_get)) (x_sr_in_list x) (mk_xstate l (ret_oid_init SNMP_REQ_GET) 0 x) in
  let* sent := agentx_response e (xs_xdg s) in Some (xs_lua s, xs_xdg s, sent).

Definition agentx_getnext (x : agentx_datagram) (l : L) : option (L * agentx_datagram * list Z) :=
  let* s := x_for_each (x_step (x_get_answer x_mib_getnext)) (x_sr_in_list x)
              (mk_xstate l (ret_oid_init SNMP_REQ_GETNEXT) 0 x) in
  let* sent := agentx_response e (xs_xdg s) in Some (xs_lua s, xs_xdg s, sent).

Definition agentx_set (x : agentx_datagram) (l : L) : option (L * agentx_datagram * list Z) :=
  let* s := x_for_each (x_step x_set_answer) (x_vb_in_list x) (mk_xstate l (ret_oid_init SNMP_REQ_SET) 0 x) in
  let* sent := agentx_response e (xs_xdg s) in Some (xs_lua s, xs_xdg s, sent).
End Proc.

(** ** The answers to a request *)
Section Answers.
Context {L A : Type} (answer : A -> L -> oid_search_res -> option (L * oid_search_res * Z * x_var_bind)).

Fixpoint x_collect (l : list A) (lua : L) (r : oid_search_res) : option (L * oid_search_res * list (Z * x_var_bind)) :=
  match l with
  | [] => Some (lua, r, [])
  | a :: l' =>
      let* (lua1, r1, err, vb) := answer a lua r in
      let* (lua2, r2, outs) := x_collect l' lua1 r1 in Some (lua2, r2, (err, vb) :: outs)
  end.

(** The datagram after the answers from position [k] on. *)
Fixpoint x_add_answers (outs : list (Z * x_var_bind)) (k : Z) (x : agentx_datagram) : agentx_datagram :=
  match outs with
  | [] => x
  | (err, vb) :: outs' => x_add_answers outs' (u32 (k + 1)) (add_vb_out vb (x_report err (u32 (k + 1)) x))
  end.

Lemma x_for_each_collect l : forall s lua' r' outs, x_collect l (xs_lua s) (xs_ret s) = Some (lua', r', outs) ->
  exists cnt, x_for_each (x_step answer) l s = Some (mk_xstate lua' r' cnt (x_add_answers outs (xs_cnt s) (xs_xdg s))).
Proof.
  induction l as [|a l IH]; intros [lua r cnt x] lua' r' outs H; cbn [x_collect x_for_each xs_lua xs_ret xs_cnt xs_xdg] in *.
  { injection H as <- <- <-. by eexists. }
  unfold x_step at 1. cbn [xs_lua xs_ret xs_cnt xs_xdg].
  destruct (answer a lua r) as [[[[lua1 r1] err] vb]|]; [|done].
  destruct (x_collect l lua1 r1) as [[[lua2 r2] outs']|] eqn:E; [|done]. injection H as <- <- <-.
  destruct (IH (mk_xstate lua1 r1 (u32 (cnt + 1)) (add_vb_out vb (x_report err (u32 (cnt + 1)) x))) _ _ _ E) as [cnt' ->].
  by exists cnt'.
Qed.

Lemma x_for_each_fault l : forall s, x_collect l (xs_lua s) (xs_ret s) = None -> x_for_each (x_step answer) l s = None.
Proof.
  induction l as [|a l IH]; intros [lua r cnt x] H; cbn [x_collect x_for_each xs_lua xs_ret xs_cnt xs_xdg] in *; [done|].
  unfold x_step at 1. cbn [xs_lua xs_ret xs_cnt xs_xdg].
  destruct (answer a lua r) as [[[[lua1 r1] err] vb]|]; [|done].
  apply IH. cbn [xs_lua xs_ret]. by destruct (x_collect l lua1 r1) as [[[? ?] ?]|].
Qed.

Lemma x_collect_length l : forall lua r lua' r' outs, x_collect l lua r = Some (lua', r', outs) -> length outs = length l.
Proof.
  induction l as [|a l IH]; intros lua r lua' r' outs H; cbn [x_collect] in H; [by injection H as _ _ <-|].
  destruct (answer a lua r) as [[[[lua1 r1] err] vb]|]; [|done].
  destruct (x_collect l lua1 r1) as [[[lua2 r2] outs']|] eqn:E; [|done]. injection H as _ _ <-. cbn. by erewrite IH.
Qed.
End Answers.

(** The bindings, and the first error with its position. *)
Lemma x_report_same err k x : x_vb_out_list (x_report err k x) = x_vb_out_list x /\ x_hdr (x_report err k x) = x_hdr x.
Proof. unfold x_report. by destruct (_ && _). Qed.

Lemma x_add_answers_lists outs : forall k x,
  x_vb_out_list (x_add_answers outs k x) = x_vb_out_list x ++ outs.*2 /\ x_hdr (x_add_answers outs k x) = x_hdr x.
Proof.
  induction outs as [|[err vb] outs IH]; intros k x; cbn [x_add_answers]; [by rewrite app_nil_r|].
  destruct (IH (u32 (k + 1)) (add_vb_out vb (x_report err (u32 (k + 1)) x))) as [-> ->].
  destruct (x_report_same err (u32 (k + 1)) x) as [H1 H2]. cbn [x_vb_out_list x_hdr add_vb_out]. rewrite H1, H2. cbn.
  by rewrite <- app_assoc.
Qed.

Lemma x_add_answers_kept outs : forall k x, xu_error (x_u x) <> 0 ->
  x_u (x_add_answers outs k x) = x_u x.
Proof.
  induction outs as [|[err vb] outs IH]; intros k x H; cbn [x_add_answers]; [done|].
  rewrite IH; cbn [x_u add_vb_out]; unfold x_report; by rewrite (proj2 (Z.eqb_neq _ 0) H), andb_false_r.
Qed.

Lemma x_add_answers_error outs : forall k x, xu_error (x_u x) = 0 -> xu_index (x_u x) = 0 ->
  Forall is_u16 outs.*1 -> 0 <= k -> k + zlen outs < 2 ^ 16 ->
  let u := x_u (x_add_answers outs k x) in (xu_error u, xu_index u) = first_error outs.*1 (k + 1).
Proof.
  induction outs as [|[err vb] outs IH]; intros k x He Hi Hf Hk Hl; cbn [x_add_answers fmap list_fmap first_error] in *.
  { by rewrite He, Hi. }
  apply Forall_cons in Hf as [Herr Hf]. rewrite zlen_cons in Hl. pose proof (zlen_nonneg outs). unfold x_report.
  rewrite He, (u32_id (k + 1)) by (unfold is_u32; lia). cbn [fst]. destruct (nz err) eqn:En; cbn [andb Z.eqb].
  - rewrite x_add_answers_kept; cbn [x_u add_vb_out set_xu xu_error xu_index]; rewrite !u16_id by (done || (unfold is_u16; lia)).
    + done.
    + intros ->. done.
  - apply IH; [done|done|done|lia|lia].
Qed.

(** ** The reply *)
Lemma x_reply e (x : agentx_datagram) (outs : list (Z * x_var_bind)) (bs : list x_binding) :
  x_vb_out_list x = [] -> xu_error (x_u x) = 0 -> xu_index (x_u x) = 0 ->
  Forall is_u16 outs.*1 -> zlen outs < 2 ^ 16 -> Forall2 (xvb_rep e) outs.*2 bs ->
  let body := x_response_body e 0 (first_error outs.*1 1).1 (first_error outs.*1 1).2 bs in
  20 + zlen body < 2 ^ 32 ->
  agentx_response e (x_add_answers outs 0 x) = Some (x_message e (response_hdr (x_hdr x)) body).
Proof.
  intros Hnil He Hi Hf Hl Hbs body Hlen. unfold agentx_response.
  destruct (x_add_answers_lists outs 0 x) as [Ho Hh]. rewrite Hnil in Ho. cbn [app] in Ho.
  pose proof (x_add_answers_error outs 0 x He Hi Hf ltac:(lia) ltac:(lia)) as Hu. cbn beta zeta in Hu.
  change (0 + 1) with 1 in Hu. unfold body in *. clear body. rewrite <- Hu in Hlen |- *. cbn [fst snd] in *. rewrite <- Hh.
  apply response_pdu_spec; [by rewrite Ho|done].
Qed.

(** ** Results and bindings *)

(** The result [r] of a search stands for the binding [b]. *)
Record res_rep (e : endian) (r : oid_search_res) (b : x_binding) : Prop := {
  rr_id_len : r_id_len r = zlen (as_read (xb_oid b));
  rr_oid : slice 0 (length (as_read (xb_oid b))) (r_oid r) = Some (as_read (xb_oid b));
  rr_tag : tag (r_var r) = xb_type b;
  rr_len : len (r_var r) = x_count (xb_value b);
  rr_value : slice 0 (length (x_mem e (xb_value b))) (value (r_var r)) = Some (x_mem e (xb_value b));
  rr_ok : x_binding_ok b;
}.

Lemma x_vb_out_rep e junk r b : res_rep e r b ->
  exists vb, x_vb_out junk r (len (r_var r)) (tag (r_var r)) = Some vb /\ xvb_rep e vb b.
Proof.
  intros [H1 H2 H3 H4 H5 [H6 H7]]. destruct (value_enc e (xb_type b) (xb_value b) (value (r_var r)) H6 H5) as [Ht He].
  unfold x_vb_out. rewrite H3, H4, Ht, He, blit_all by (by rewrite length_replicate, Zto_nat_zlen).
  eexists. split; [done|]. split; cbn; try done; [|apply slice_self].
  unfold xvb_ids. cbn. by rewrite H1, Zto_nat_zlen.
Qed.

(** A SET answer gives the byte length where the count is meant; that is the
    same but for identifiers. *)
Lemma x_set_out_rep e junk r b : res_rep e r b -> (forall ids, xb_value b <> XOid ids) ->
  exists vb, x_vb_out junk r (agentx_value_enc_try (len (r_var r)) (tag (r_var r))) (tag (r_var r)) = Some vb /\ xvb_rep e vb b.
Proof.
  intros Hr Hno. destruct (x_vb_out_rep e junk r b Hr) as (vb & E & Hrep). exists vb. split; [|done]. rewrite <- E.
  destruct Hr as [_ _ H3 H4 _ [H6 _]]. unfold x_vb_out. rewrite H3, H4. f_equal.
  pose proof (x_typed_inv _ _ H6) as [Hi _]. unfold agentx_value_enc, agentx_value_enc_try.
  destruct H6 as [t v _ _|v _|t s _ _ _|ids _|t _].
  - by rewrite Hi.
  - done.
  - by destruct Hi as (-> & -> & -> & ->).
  - by destruct (Hno ids).
  - by destruct Hi as (-> & -> & -> & ->).
Qed.

(** ** Searches in a range *)
Section Range.
Context {L : Type} (lua_pcall : L -> Z -> Z -> list Z -> lua_arg -> lua_arg -> L * option lua_ret).
Context (table : Z -> list (list Z)) `{!NextHandler lua_pcall table}.
Context (e : endian) (junk : Z) (root : mib_node) (w : Z) (Hroot : root_wf w root).
Context (Hvars : forall x, is_var table root x -> oid_ok x /\ (length x <= 64)%nat).

(** What the end of the range admits. *)
Definition in_range (sr : x_search_range) (last y : list Z) : Prop :=
  oid_lt y last \/ nz (sr_end_include sr) = true /\ y = last.

Lemma exceeds_spec sr found last : oid_small found -> oid_small last ->
  exceeds sr found last = false <-> in_range sr last found.
Proof.
  intros Hf Hl. unfold exceeds, in_range. pose proof (oid_cmp_gt found last Hf Hl) as Hgt.
  pose proof (oid_cmp_neg found last Hf Hl) as Hlt.
  pose proof (oid_lt_total found last) as Ht. rewrite Z.gtb_ltb, Z.geb_leb.
  destruct (nz (sr_end_include sr)); cbn [andb orb negb]; rewrite ?orb_false_r.
  - rewrite Z.ltb_ge. split.
    + intros H. destruct Ht as [?|[?|Hr]]; [by left|by right|]. apply Hgt in Hr. lia.
    + intros [H%Hlt|[_ ->]]; [lia|]. apply Z.nlt_ge. intros H%Hgt. by apply irreflexivity in H; [|apply _].
  - rewrite Z.leb_gt. rewrite Hlt. split; [by left|]. by intros [?|[? _]].
Qed.

(** The answer to a range: the first variable after the start, if it is in the
    range; otherwise endOfMibView, and no variable of the range follows. *)
Definition range_answer (sr : x_search_range) (start last : list Z) (r : oid_search_res) : Prop :=
  let x := take (Z.to_nat (r_id_len r)) (r_oid r) in
  r_err_stat r = 0 /\
  (ASN1_TAG_VALID (tag (r_var r)) = true /\ is_var table root x /\ agentx_dummy_view `prefix_of` x /\ oid_lt start x /\
   in_range sr last x /\
   (forall y, is_var table root y -> agentx_dummy_view `prefix_of` y -> oid_lt start y -> x = y \/ oid_lt x y) \/
   tag (r_var r) = ASN1_TAG_END_OF_MIB_VIEW /\ x = start /\
   forall y, is_var table root y -> agentx_dummy_view `prefix_of` y -> oid_lt start y -> ~ in_range sr last y).

Lemma dummy_small : oid_small agentx_dummy_view.
Proof. split; [repeat constructor; lia|cbn; lia]. Qed.

Lemma in_range_down sr last x y : in_range sr last y -> x = y \/ oid_lt x y -> in_range sr last x.
Proof.
  intros Hy [->|Hlt]; [done|]. left. destruct Hy as [Hy|[_ ->]]; [by transitivity y|done].
Qed.

(** A GETNEXT call on an identifier below an instance. *)
Lemma search_next_call view p cb ids s l r :
  shape root p = Some (Some cb) -> ids <> [] -> view `prefix_of` p ++ ids -> oid_ok view -> oid_ok (p ++ ids) ->
  (length (p ++ ids) <= 64)%nat -> (length (p ++ s) <= 1024)%nat -> r_request r = SNMP_REQ_GETNEXT -> value_ok (r_var r) ->
  first_after ids (table cb) = Some s ->
  exists l' r', mib_tree_search lua_pcall e junk root view (p ++ ids) l r = Some (Some (MIB_OBJ_INSTANCE cb), l', r') /\
    take (length (p ++ s)) (r_oid r') = p ++ s /\ r_id_len r' = zlen (p ++ ids) /\ r_err_stat r' = 0 /\
    ASN1_TAG_VALID (tag (r_var r')) = true.
Proof.
  intros Hsh Hne Hview Hov Ho Hl Hls Hreq Hv Hs. unfold mib_tree_search.
  destruct (oid_dup_spec junk (p ++ ids) ltac:(lia)) as (cells & -> & Hc1 & Hc2).
  rewrite (oid_cover_spec view (p ++ ids) Hov Ho), decide_True by done. change (1 <=? 0) with false. cbn match.
  pose proof (walk_spec (p ++ ids) w 64%nat root 0%nat (proj1 Hroot)) as Hw.
  rewrite (walk_instance w 64%nat root p cb ids (proj1 Hroot) Hsh) in Hw. destruct Hw as (-> & _).
  destruct ids as [|id ids]; [done|]. destruct (cells_split _ _ _ Hc2) as [Hp Hslice].
  unfold mib_instance_search.
  cbn [r_inst_id r_oid r_inst_id_len r_callback r_request r_var set_callback set_inst set_err_stat set_oid Nat.add].
  rewrite Nat2Z.id, Hslice, Hreq.
  pose proof (call_next lua_pcall table e l cb (id :: ids) (r_var r) Hv) as Hcall. rewrite Hs in Hcall.
  destruct Hcall as (l' & v' & -> & Ht & _). rewrite length_app in Hls.
  destruct (write_ids_spec p s cells Hp ltac:(lia)) as (cells' & -> & Hl' & Hc').
  do 2 eexists. split; [done|]. by split_and!.
Qed.
End Range.

(** ** Properties *)

(** C24: a GetNext search in a range whose start is not included answers with the
    lexicographically first variable of the sub-agent after the start when that
    variable is in the range, as the end of the range and its include flag
    delimit it, and otherwise with endOfMibView and the identifier of the start,
    in which case no variable after the start is in the range. *)
Theorem x_mib_getnext_range {L} lua_pcall table (H : @NextHandler L lua_pcall table) e junk (root : mib_node) w
    (sr : x_search_range) (start last : list Z) (l : L) (r : oid_search_res) (Hroot : root_wf w root)
    (Hvars : forall x, is_var table root x -> oid_small x /\ (length x <= 64)%nat)
    (Hs : sr_start_ids sr = Some start) (He : sr_end_ids sr = Some last) (Hsl : sr_start_len sr = zlen start)
    (Hinc : nz (sr_start_include sr) = false) (Hss : oid_small start) (Hes : oid_small last)
    (Hl : (length start <= 64)%nat) (Hnv : ~ is_var table root agentx_dummy_view) (Hv : value_ok (r_var r)) :
  exists l' r', x_mib_getnext lua_pcall e junk root sr l r = Some (l', r') /\ range_answer table root sr start last r'.
Proof.
  assert (forall x, is_var table root x -> oid_ok x /\ (length x <= 64)%nat) as Hvars'
    by (intros x Hx; split; [apply oid_small_ok|]; by apply Hvars).
  unfold x_mib_getnext. rewrite Hs, Hinc. cbn [negb orb].
  destruct (view_next_spec lua_pcall table e root w Hroot Hvars' agentx_dummy_view start l (r_var r)) as (l' & res & E & Hres);
    [apply dummy_small|done..|].
  pose proof (search_next_spec lua_pcall e junk root w agentx_dummy_view start l r Hroot (oid_small_ok _ dummy_small)
    (oid_small_ok _ Hss) ltac:(cbn; lia) ltac:(lia)) as Hsp. rewrite E in Hsp. destruct Hsp as (r' & -> & Hlen & Hpost).
  unfold range_answer. destruct res as [x err v|v]; cbn [succ_in] in Hres.
  - destruct Hpost as (Hx & Hid & Herr & Hvar). destruct Hres as (-> & Hvt & Hvv & Hxv & Hxp & Hxlt & Hleast).
    destruct (Hvars x Hxv) as [Hsmall Hxl].
    assert (missed r' = false) as -> by (unfold missed; by rewrite Herr, Hvar, Hvt). cbn [negb]. rewrite He, Hid, Nat2Z.id.
    rewrite slice_take, Hx by lia. pose proof (exceeds_spec sr x last Hsmall Hes) as Hex.
    destruct (exceeds sr x last).
    + destruct (oid_cpy_spec (r_oid r') start Hlen ltac:(lia)) as (cells & -> & Hc1 & Hc2). do 2 eexists. split; [done|].
      cbn [r_id_len r_oid r_err_stat r_var set_var set_inst set_oid]. rewrite Hsl, Zto_nat_zlen, Hc2. split; [done|].
      right. split_and!; [done|done|]. intros y Hy Hyv Hyl Hin. enough (true = false) by done.
      apply Hex. by eapply in_range_down, Hleast.
    + do 2 eexists. split; [done|]. rewrite Hid, Nat2Z.id, Hx, Hvar. split; [done|]. left. split_and!; try done. by apply Hex.
  - destruct Hpost as (Hx & Hid & Herr & Hvar). destruct Hres as [_ Hno].
    assert (missed r' = true) as -> by (unfold missed; rewrite Hvar; apply orb_true_r). cbn [negb].
    do 2 eexists. split; [done|]. rewrite Hid, Nat2Z.id, Hx, Hvar. split; [done|]. right. split_and!; [done|done|].
    intros y Hy Hyv Hlt. by destruct (Hno y Hy Hyv).
Qed.

Definition example_range (include : Z) : x_search_range := mk_sr [1; 3; 6; 1; 1; 0] [1; 3; 6; 1; 2; 0] 6 6 include 0.

Lemma example_vars_small x : is_var example_table example_root x -> oid_small x /\ (length x <= 64)%nat.
Proof.
  intros (o & cb & s & Ho & Hs & ->). apply (instances_shape _ _ _ (proj1 example_root_wf)) in Ho.
  replace (instances example_root) with [([1; 3; 5], 9); ([1; 3; 6; 1], 7); ([1; 3; 6; 4], 8)] in Ho by (by vm_compute).
  rewrite !elem_of_cons, elem_of_nil in Ho.
  assert (s ∈ [[1; 0]; [2; 0]; [0]]) as Hs'.
  { destruct Ho as [[= -> ->]|[[= -> ->]|[[= -> ->]|[]]]]; cbn in Hs; rewrite ?elem_of_cons, ?elem_of_nil in *; tauto. }
  rewrite !elem_of_cons, elem_of_nil in Hs'.
  destruct Ho as [[= -> _]|[[= -> _]|[[= -> _]|[]]]], Hs' as [->|[->|[->|[]]]];
    (split; [split; [repeat constructor; lia|cbn; lia]|cbn; lia]).
Qed.

Lemma example_dummy_no_var : ~ is_var example_table example_root agentx_dummy_view.
Proof.
  intros (o & cb & s & Ho & Hs & E). apply (instances_shape _ _ _ (proj1 example_root_wf)) in Ho.
  replace (instances example_root) with [([1; 3; 5], 9); ([1; 3; 6; 1], 7); ([1; 3; 6; 4], 8)] in Ho by (by vm_compute).
  rewrite !elem_of_cons, elem_of_nil in Ho.
  destruct Ho as [[= -> ->]|[[= -> ->]|[[= -> ->]|[]]]]; cbn in Hs; rewrite ?elem_of_cons, ?elem_of_nil in Hs;
    unfold agentx_dummy_view in E; cbn in E; destruct Hs as [->|[->|[]]] || destruct Hs as [->|[]] || destruct Hs; done.
Qed.

Lemma x_mib_getnext_range_witness :
  exists l' r', x_mib_getnext (table_handler example_table) LE 0 example_root (example_range 0) tt
      (ret_oid_init SNMP_REQ_GETNEXT) = Some (l', r') /\ tag (r_var r') = ASN1_TAG_END_OF_MIB_VIEW.
Proof.
  destruct (x_mib_getnext_range (table_handler example_table) example_table example_handler LE 0 example_root 3
    (example_range 0) [1; 3; 6; 1; 1; 0] [1; 3; 6; 1; 2; 0] tt (ret_oid_init SNMP_REQ_GETNEXT) example_root_wf
    example_vars_small eq_refl eq_refl eq_refl eq_refl) as (l' & r' & E & _).
  - split; [repeat constructor; lia|cbn; lia].
  - split; [repeat constructor; lia|cbn; lia].
  - cbn. lia.
  - exact example_dummy_no_var.
  - reflexivity.
  - exists l', r'. split; [exact E|]. clear -E. vm_compute in E. injection E as _ <-. reflexivity.
Defined.

(** A range whose start is included never yields its start: the search for
    the start is made as a GETNEXT call, so the handler answers with the
    variable after it, and the end of the range is not looked at.  Here [ids]
    and [s] are consecutive variables of one instance, with identifiers of the
    same length. *)
Theorem x_mib_getnext_skips_start {L} lua_pcall table (H : @NextHandler L lua_pcall table) e junk (root : mib_node) w
    (sr : x_search_range) (p ids s : list Z) (cb : Z) (l : L) (r : oid_search_res) (Hroot : root_wf w root)
    (Hs : sr_start_ids sr = Some (p ++ ids)) (Hinc : nz (sr_start_include sr) = true)
    (Hsh : shape root p = Some (Some cb)) (Hin : ids ∈ table cb) (Hnext : first_after ids (table cb) = Some s)
    (Hlen : length s = length ids) (Hview : agentx_dummy_view `prefix_of` p ++ ids) (Ho : oid_ok (p ++ ids))
    (Hl : (length (p ++ ids) <= 64)%nat) (Hreq : r_request r = SNMP_REQ_GETNEXT) (Hv : value_ok (r_var r)) :
  is_var table root (p ++ ids) /\
  exists l' r', x_mib_getnext lua_pcall e junk root sr l r = Some (l', r') /\
    take (Z.to_nat (r_id_len r')) (r_oid r') = p ++ s /\ oid_lt (p ++ ids) (p ++ s) /\
    ASN1_TAG_VALID (tag (r_var r')) = true.
Proof.
  split; [by exists p, cb, ids|].
  assert (ids <> []) as Hne by (intros ->; by destruct (nh_nonempty cb)).
  destruct (search_next_call lua_pcall table e junk root w Hroot agentx_dummy_view p cb ids s l r Hsh Hne Hview)
    as (l' & r' & E & Hx & Hid & Herr & Ht); [apply (oid_small_ok _ dummy_small)|done|done|
    rewrite length_app in *; lia|done|done|done|].
  exists l', r'. unfold x_mib_getnext, x_search. rewrite Hs, Hinc, E. cbn [negb orb].
  assert (missed r' = false) as -> by (unfold missed; by rewrite Herr, Ht). split; [done|]. rewrite Hid, Zto_nat_zlen.
  assert (length (p ++ ids) = length (p ++ s)) as -> by (rewrite !length_app; lia). split_and!; [done| |done].
  apply oid_lt_app_l. pose proof (first_after_spec ids (table cb) (nh_sorted cb)) as Hf. rewrite Hnext in Hf. by destruct Hf as (_ & ? & _).
Qed.

Lemma x_mib_getnext_skips_start_witness :
  exists l' r', x_mib_getnext (table_handler example_table) LE 0 example_root (example_range 1) tt
      (ret_oid_init SNMP_REQ_GETNEXT) = Some (l', r') /\ take (Z.to_nat (r_id_len r')) (r_oid r') = [1; 3; 6; 1; 2; 0].
Proof.
  destruct (x_mib_getnext_skips_start (table_handler example_table) example_table example_handler LE 0 example_root 3
    (example_range 1) [1; 3; 6; 1] [1; 0] [2; 0] 7 tt (ret_oid_init SNMP_REQ_GETNEXT) example_root_wf eq_refl eq_refl
    eq_refl ltac:(by left) eq_refl eq_refl ltac:(by exists [1; 0]) ltac:(by apply oid_ok_small) ltac:(cbn; lia) eq_refl eq_refl)
    as (_ & l' & r' & E & Hx & _).
  exists l', r'. exact (conj E Hx).
Defined.

(** A TestSet request that assigns an object identifier of [n] > 0
    sub-identifiers writes [16 n] bytes into an answer that was allocated with
    [4 n] bytes for its value, whatever else happens, as soon as the handler
    accepts the value: the byte length of the value is passed where the number
    of sub-identifiers is meant. *)
Theorem x_set_objid_overflow {L} lua_pcall e junk (root : mib_node) w (vb : x_var_bind) (p rest v : list Z) (cb : Z)
    (l l' : L) (ret : lua_ret) (r : oid_search_res) (Hroot : root_wf w root) (Hids : xvb_ids vb = Some (p ++ rest))
    (Hsh : shape root p = Some (Some cb)) (Hrest : rest <> []) (Hview : agentx_dummy_view `prefix_of` p ++ rest)
    (Ho : oid_ok (p ++ rest)) (Hl : (length (p ++ rest) <= 64)%nat) (Ht : xvb_val_type vb = ASN1_TAG_OBJID)
    (Hn : xvb_val_len vb = zlen v) (Hval : slice 0 (4 * length v) (xvb_value vb) = Some (store_oid e v))
    (Hw : words v) (Hv : (0 < length v <= 64)%nat) (Hok : value_ok (r_var r)) (Hreq : r_request r = SNMP_REQ_SET)
    (Hcall : lua_pcall l cb SNMP_REQ_SET rest (LuaTable v) (LuaInteger ASN1_TAG_OBJID) = (l', Some ret))
    (Herr : i32 (ret_err ret) = 0) (Htag : u8 (ret_tag ret) = ASN1_TAG_OBJID) :
  x_set_answer lua_pcall e junk root vb l r = None.
Proof.
  unfold x_set_answer. rewrite Ht, Hn. change (u8 ASN1_TAG_OBJID) with ASN1_TAG_OBJID.
  assert (zlen v = Z.of_nat (length v)) as Hz by done. rewrite (u16_id (zlen v)) by (unfold is_u16; lia).
  assert (agentx_value_enc_try (zlen v) ASN1_TAG_OBJID = 4 * zlen v) as Htry.
  { x_switch. rewrite u32_id by (unfold is_u32; lia). lia. }
  rewrite Htry. replace (Z.to_nat (4 * zlen v)) with (4 * length v)%nat by lia. rewrite Hval.
  unfold value_ok, VALUE_SIZE, ASN1_VALUE_MAX_LEN in Hok.
  unfold blit at 1. rewrite length_store_oid, decide_True by lia. unfold x_mib_set, x_search. rewrite Hids.
  set (r1 := set_var (mk_var ASN1_TAG_OBJID (zlen v) (store_oid e v ++ drop (4 * length v) (value (r_var r)))) r).
  pose proof (search_spec lua_pcall e junk root w agentx_dummy_view (p ++ rest) l r1 Hroot (oid_small_ok _ dummy_small) Ho
    ltac:(lia) ltac:(unfold r1; cbn; by rewrite Hreq)) as Hs.
  unfold get_spec in Hs. rewrite decide_True, (walk_instance w 64%nat root p cb rest (proj1 Hroot) Hsh) in Hs by done.
  assert (instance_call lua_pcall e l cb (r_request r1) rest (r_var r1) = Some (l', 0, rest, r_var r1)) as Hi.
  { unfold instance_call, r1. cbn [r_request set_var r_var]. rewrite Hreq. change (SNMP_REQ_SET =? SNMP_REQ_SET) with true.
    cbn match. unfold set_arg. cbn [tag value len]. rewrite Zto_nat_zlen, (load_oid_store_oid e v) by done.
    unfold ASN1_TAG_OBJID in *. cbn [Z.eqb Pos.eqb ASN1_TAG_INT ASN1_TAG_OCTSTR ASN1_TAG_CNT ASN1_TAG_IPADDR].
    rewrite Hcall, Herr, Htag. done. }
  destruct rest as [|id rest]; [done|]. rewrite Hi in Hs. destruct Hs as (r' & -> & Hr'). unfold get_ok in Hr'.
  destruct Hr' as (_ & _ & _ & _ & Hvar & _). rewrite Hvar. unfold x_vb_out. rewrite Hvar. unfold r1.
  cbn [r_var set_var len tag value]. rewrite Htry. x_switch.
  rewrite slice_take by (rewrite length_app, length_store_oid, length_drop; lia).
  unfold blit. rewrite decide_False; [done|]. rewrite length_take, length_app, length_store_oid, length_drop, length_replicate. lia.
Qed.

(** A handler that accepts every request with one tag. *)
Definition echo_handler (t : Z) (l : unit) (cb req : Z) (ids : list Z) (_ _ : lua_arg) : unit * option lua_ret :=
  (tt, Some (mk_lua_ret 0 [] (mk_lua_value 0 0 [] []) t)).

Lemma x_set_objid_overflow_witness :
  x_set_answer (echo_handler ASN1_TAG_OBJID) LE 0 example_root
    (mk_xvb [1; 3; 6; 1; 1; 0] 6 ASN1_TAG_OBJID 2 (store_oid LE [1; 3])) tt (ret_oid_init SNMP_REQ_SET) = None.
Proof.
  apply (x_set_objid_overflow (echo_handler ASN1_TAG_OBJID) LE 0 example_root 3
    (mk_xvb [1; 3; 6; 1; 1; 0] 6 ASN1_TAG_OBJID 2 (store_oid LE [1; 3])) [1; 3; 6; 1] [1; 0] [1; 3] 7 tt tt
    (mk_lua_ret 0 [] (mk_lua_value 0 0 [] []) ASN1_TAG_OBJID) (ret_oid_init SNMP_REQ_SET) example_root_wf); try reflexivity.
  - discriminate.
  - by exists [1; 0].
  - by apply oid_ok_small.
  - cbn. lia.
  - repeat constructor; unfold is_u32; lia.
  - cbn. lia.
Defined.

(** A TestSet request for an integer that is refused without an error
    status (unknown object, no such instance) is not answered properly: the
    answer keeps the integer type of the request but no byte is allocated for
    its value, and building the response reads four bytes of it. *)
Theorem agentx_set_refused_overread {L} lua_pcall e junk (root : mib_node) (x : agentx_datagram) (vb : x_var_bind)
    (bs val : list Z) (l l' : L) (r' : oid_search_res) (Hin : x_vb_in_list x = [vb]) (Hout : x_vb_out_list x = [])
    (Ht : is_word_tag (xvb_val_type vb) = true) (Hbs : slice 0 4 (xvb_value vb) = Some bs)
    (Hval : blit bs (value (r_var (ret_oid_init SNMP_REQ_SET))) = Some val)
    (Hset : x_mib_set lua_pcall e junk root vb l
              (set_var (mk_var (xvb_val_type vb) (u16 (xvb_val_len vb)) val) (ret_oid_init SNMP_REQ_SET)) = Some (l', r'))
    (Hmiss : ASN1_TAG_VALID (tag (r_var r')) = false) :
  agentx_set lua_pcall e junk root x l = None.
Proof.
  assert (u8 (xvb_val_type vb) = xvb_val_type vb) as Hu.
  { unfold is_word_tag in Ht. rewrite !orb_true_iff, !Z.eqb_eq in Ht. by destruct Ht as [[[-> | ->] | ->] | ->]. }
  assert (agentx_value_enc_try (u16 (xvb_val_len vb)) (xvb_val_type vb) = 4) as Htry
    by (unfold agentx_value_enc_try; by rewrite Ht).
  unfold agentx_set. rewrite Hin. cbn [x_for_each]. unfold x_step, x_set_answer. cbn [xs_lua xs_ret xs_cnt xs_xdg].
  rewrite Hu, Htry. change (Z.to_nat 4) with 4%nat. rewrite Hbs, Hval, Hset.
  unfold ASN1_TAG_VALID, ASN1_TAG_NO_SUCH_OBJ in Hmiss. apply Z.ltb_ge in Hmiss.
  assert (x_vb_out junk r' (agentx_value_enc_try (len (r_var r')) (tag (r_var r'))) (xvb_val_type vb)
          = Some (mk_xvb (r_oid r') (r_id_len r') (xvb_val_type vb) 0 [])) as ->.
  { unfold x_vb_out, agentx_value_enc, agentx_value_enc_try, is_word_tag, is_string_tag, ASN1_TAG_INT, ASN1_TAG_CNT, ASN1_TAG_GAU,
      ASN1_TAG_TIMETICKS, ASN1_TAG_CNT64, ASN1_TAG_OBJID, ASN1_TAG_OCTSTR, ASN1_TAG_IPADDR.
    by rewrite !(proj2 (Z.eqb_neq (tag (r_var r')) _)) by lia. }
  cbn [xs_xdg xs_lua]. set (x' := add_vb_out _ _).
  assert (x_vb_out_list x' = [mk_xvb (r_oid r') (r_id_len r') (xvb_val_type vb) 0 []]) as Hx'.
  { unfold x'. cbn [x_vb_out_list add_vb_out]. destruct (x_report_same (r_err_stat (if (r_err_stat r' =? 0) && negb (ASN1_TAG_VALID (tag (r_var r')))
      then set_err_stat AGENTX_ERR_STAT_NOT_WRITABLE r' else r')) (u32 (0 + 1)) x) as [-> _]. by rewrite Hout. }
  clearbody x'. unfold agentx_response. erewrite response_pdu_fails; [done|rewrite Hx'; by left|].
  intros s. unfold put_vb_value. cbn [xvb_val_type xvb_value]. by rewrite Ht.
Qed.

Lemma agentx_set_refused_overread_witness :
  agentx_set (echo_handler ASN1_TAG_NO_SUCH_INST) LE 0 example_root
    (mk_xdg [] 0 (mk_xhdr 1 AGENTX_PDU_TESTSET 0 0 1 2 3 0) (mk_xu [0; 0; 0; 0] 0 0) 1 0
      [mk_xvb [1; 3; 6; 1; 1; 0] 6 ASN1_TAG_INT 1 [42; 0; 0; 0]] [] 0 0 [] []) tt = None.
Proof.
  destruct (x_mib_set (echo_handler ASN1_TAG_NO_SUCH_INST) LE 0 example_root (mk_xvb [1; 3; 6; 1; 1; 0] 6 ASN1_TAG_INT 1 [42; 0; 0; 0])
    tt (set_var (mk_var ASN1_TAG_INT 1 ([42; 0; 0; 0] ++ replicate (Z.to_nat VALUE_SIZE - 4) 0)) (ret_oid_init SNMP_REQ_SET)))
    as [[l' r']|] eqn:E; [|not_none E].
  eapply (agentx_set_refused_overread (echo_handler ASN1_TAG_NO_SUCH_INST) LE 0 example_root
    (mk_xdg [] 0 (mk_xhdr 1 AGENTX_PDU_TESTSET 0 0 1 2 3 0) (mk_xu [0; 0; 0; 0] 0 0) 1 0
      [mk_xvb [1; 3; 6; 1; 1; 0] 6 ASN1_TAG_INT 1 [42; 0; 0; 0]] [] 0 0 [] [])
    (mk_xvb [1; 3; 6; 1; 1; 0] 6 ASN1_TAG_INT 1 [42; 0; 0; 0]) [42; 0; 0; 0]
    ([42; 0; 0; 0] ++ replicate (Z.to_nat VALUE_SIZE - 4) 0) tt l' r'); [reflexivity..|vm_compute; reflexivity|exact E|].
  vm_compute in E. injection E as _ <-. reflexivity.
Defined.
