(* ===== verification/AgentxIn.v ===== *)
(** * Receiving AgentX messages ([src/core/agentx_msg_in.c])

    The decoder walks through the receive buffer with a pointer, a position
    here, and counts [payload_length] down.  It compares neither with the size
    of the buffer: a read outside of it is [None]. *)
From S2P Require Import Prelude BerEncoder BerDecoder Oid MibTree MibSearch AgentxData AgentxWire AgentxCodec AgentxOut AgentxProc.
Local Open Scope Z_scope.

(** ** The datagram *)
Definition CONTEXT_SIZE : nat := 41.

(** The header survives. *)
Definition agentx_datagram_clear (x : agentx_datagram) : agentx_datagram :=
  mk_xdg (replicate CONTEXT_SIZE 0) 0 (x_hdr x) (mk_xu [0; 0; 0; 0] 0 0) 0 0 [] [] 0 0 [] [].

Section Decode.
Context (e : endian) (junk : Z).

(** An identifier decoded into an allocation of [room] words. *)
Definition ids_dec (buf : list Z) (pos : nat) (room : Z) : option (nat * Z * list Z) :=
  let* (pos', n, bs) := agentx_value_dec e buf pos ASN1_TAG_OBJID in
  let* ids := load_oid e bs (Z.to_nat n) in
  let* cells := blit ids (replicate (Z.to_nat room) junk) in
  Some (pos', n, cells).

(** The position after the identifier whose size is [len] bytes. *)
Definition skip_ids (pos : nat) (len : Z) : nat :=
  if len >? 0 then (pos + Z.to_nat (4 + len - 20))%nat else (pos + 4)%nat.

(** The result is an error, or the binding and the position after it. *)
Definition x_var_bind_alloc (buf : list Z) (pos : nat) (flag : Z) : option (agentx_err_code + x_var_bind * nat) :=
  let* t := rd e 2 buf pos in
  let type := htoax e 2 flag t in
  let buf1 := (pos + 4)%nat in
  let* oid_len := agentx_value_dec_try e buf buf1 ASN1_TAG_OBJID in
  if oid_len / 4 >? ASN1_OID_MAX_LEN then Some (inl AGENTX_ERR_VB_OID_LEN)
  else
    let pos := skip_ids buf1 oid_len in
    let* val_len := agentx_value_dec_try e buf pos (u8 type) in
    if val_len >? ASN1_VALUE_MAX_LEN then Some (inl AGENTX_ERR_VB_VALUE_LEN)
    else
      let* (_, n, oid) := ids_dec buf buf1 (oid_len / 4) in
      let* (pos, len, bs) := agentx_value_dec e buf pos (u8 type) in
      let* value := blit bs (replicate (Z.to_nat val_len) junk) in
      Some (inr (mk_xvb oid n type len value, pos)).

Definition x_search_range_alloc (buf : list Z) (pos : nat) : option (agentx_err_code + x_search_range * nat) :=
  let* start_len := agentx_value_dec_try e buf pos ASN1_TAG_OBJID in
  if start_len / 4 >? ASN1_OID_MAX_LEN then Some (inl AGENTX_ERR_SR_OID_LEN)
  else
    let* start_include := buf !! (pos + 2)%nat in
    let pos' := skip_ids pos start_len in
    let* end_len := agentx_value_dec_try e buf pos' ASN1_TAG_OBJID in
    if end_len / 4 >? ASN1_OID_MAX_LEN then Some (inl AGENTX_ERR_SR_OID_LEN)
    else
      let* end_include := buf !! (pos' + 2)%nat in
      let* (_, n, start) := ids_dec buf pos start_len in
      let* (pos'', m, last) := ids_dec buf pos' end_len in
      Some (inr (mk_sr start last n m start_include end_include, pos'')).

(** [payload_length -= buf - *buffer] *)
Definition consume (n : nat) (x : agentx_datagram) : agentx_datagram :=
  set_xhdr (set_payload (xh_payload_length (x_hdr x) - Z.of_nat n) (x_hdr x)) x.

(** The loops: [None] is also reached when the fuel runs out, which is more
    than the iterations that stay inside the buffer. *)
Fixpoint x_var_bind_parse (fuel : nat) (buf : list Z) (pos : nat) (x : agentx_datagram)
    : option (agentx_err_code * agentx_datagram) :=
  match fuel with
  | O => None
  | S fuel' =>
      if xh_payload_length (x_hdr x) >? 0 then
        let* res := x_var_bind_alloc buf pos (xh_flags (x_hdr x)) in
        match res with
        | inl err => Some (err, x)
        | inr (vb, pos') => x_var_bind_parse fuel' buf pos' (consume (pos' - pos) (add_vb_in vb x))
        end
      else Some (AGENTX_ERR_OK, x)
  end.

Fixpoint x_search_range_parse (fuel : nat) (buf : list Z) (pos : nat) (x : agentx_datagram)
    : option (agentx_err_code * agentx_datagram) :=
  match fuel with
  | O => None
  | S fuel' =>
      if xh_payload_length (x_hdr x) >? 0 then
        let* res := x_search_range_alloc buf pos in
        match res with
        | inl err => Some (err, x)
        | inr (sr, pos') => x_search_range_parse fuel' buf pos' (consume (pos' - pos) (add_sr_in sr x))
        end
      else Some (AGENTX_ERR_OK, x)
  end.

(** ** The header *)

(** [axtohN( *(uintN_t * )buf, flags)] *)
Definition ax_rd (n : nat) (buf : list Z) (pos : nat) (flags : Z) : option Z :=
  let* v := rd e n buf pos in Some (axtoh e n flags v).

Definition x_hdr_read (buf : list Z) : option x_pdu_hdr :=
  let* version := buf !! 0%nat in
  let* type := buf !! 1%nat in
  let* flags := buf !! 2%nat in
  let* reserved := buf !! 3%nat in
  let* session_id := ax_rd 4 buf 4 flags in
  let* transaction_id := ax_rd 4 buf 8 flags in
  let* packet_id := ax_rd 4 buf 12 flags in
  let* payload_length := ax_rd 4 buf 16 flags in
  Some (mk_xhdr version type flags reserved session_id transaction_id packet_id payload_length).

(** The optional context. *)
Definition x_ctx_parse (buf : list Z) (pos : nat) (x : agentx_datagram)
    : option (agentx_err_code * agentx_datagram * nat) :=
  let flags := xh_flags (x_hdr x) in
  if nz (Z.land flags NON_DEFAULT_CONTEXT) then
    let* ctx_len := ax_rd 4 buf pos flags in
    let x := set_context (x_context x) ctx_len x in
    if u32 (ctx_len + 1) >? Z.of_nat CONTEXT_SIZE then Some (AGENTX_ERR_PDU_CTX_LEN, x, pos)
    else
      let* bs := slice (pos + 4) (Z.to_nat ctx_len) buf in
      let* context := blit bs (x_context x) in
      let n := (4 + Z.to_nat (uint_sizeof ctx_len))%nat in
      Some (AGENTX_ERR_OK, consume n (set_context context ctx_len x), (pos + n)%nat)
  else Some (AGENTX_ERR_OK, x, pos).

(** The additional data of a PDU. *)
Definition x_data_parse (buf : list Z) (pos : nat) (x : agentx_datagram) : option (agentx_datagram * nat) :=
  let h := x_hdr x in
  let u := x_u x in
  if xh_type h =? AGENTX_PDU_CLOSE then
    let* reason := buf !! pos in
    let* head := write_at 0 [reason] (xu_head u) in
    Some (consume 4 (set_xu (mk_xu head (xu_error u) (xu_index u)) x), (pos + 4)%nat)
  else if xh_type h =? AGENTX_PDU_GETBULK then
    let* non_rep := ax_rd 2 buf pos (xh_flags h) in
    let* max_rep := ax_rd 2 buf (pos + 2) (xh_flags h) in
    let* head := write_at 0 (mem_of e 2 non_rep) (xu_head u) in
    let* head := write_at 2 (mem_of e 2 max_rep) head in
    Some (consume 4 (set_xu (mk_xu head (xu_error u) (xu_index u)) x), (pos + 4)%nat)
  else if xh_type h =? AGENTX_PDU_RESPONSE then
    let* sys_up_time := ax_rd 4 buf pos (xh_flags h) in
    let* error := ax_rd 2 buf (pos + 4) (xh_flags h) in
    let* index := ax_rd 2 buf (pos + 6) (xh_flags h) in
    let* head := write_at 0 (mem_of e 4 sys_up_time) (xu_head u) in
    Some (consume 8 (set_xu (mk_xu head error index) x), (pos + 8)%nat)
  else Some (x, pos).

Definition x_pdu_hdr_parse (buf : list Z) (x : agentx_datagram) : option (agentx_err_code * agentx_datagram * nat) :=
  let* h := x_hdr_read buf in
  let* (err, x, pos) := x_ctx_parse buf 20 (set_xhdr h x) in
  match err with
  | AGENTX_ERR_OK => let* (x, pos) := x_data_parse buf pos x in Some (AGENTX_ERR_OK, x, pos)
  | err => Some (err, x, pos)
  end.

(** ** [agentx_decode] *)
Definition is_range_pdu (t : Z) : bool := (t =? AGENTX_PDU_GET) || (t =? AGENTX_PDU_GETNEXT) || (t =? AGENTX_PDU_GETBULK).
Definition is_vb_pdu (t : Z) : bool := (t =? AGENTX_PDU_TESTSET) || (t =? AGENTX_PDU_RESPONSE).

Definition agentx_decode (buf : list Z) (x : agentx_datagram) : option (agentx_err_code * agentx_datagram) :=
  let* (err, x, pos) := x_pdu_hdr_parse buf x in
  let* (err, x) :=
    (if decide (err = AGENTX_ERR_OK) then
       if is_range_pdu (xh_type (x_hdr x)) then x_search_range_parse (S (length buf)) buf pos x
       else if is_vb_pdu (xh_type (x_hdr x)) then x_var_bind_parse (S (length buf)) buf pos x
       else Some (AGENTX_ERR_OK, x)
     else Some (err, x)) in
  Some (err, if decide (err = AGENTX_ERR_OK) then x else agentx_datagram_clear x).
End Decode.

(** ** Dispatch *)
Section Recv.
Context {L : Type} (lua_pcall : L -> Z -> Z -> list Z -> lua_arg -> lua_arg -> L * option lua_ret).
Context (e : endian) (junk : Z) (root : mib_node).

(** The interpreter, the datagram and the message sent, if any. *)
Definition agentx_request_dispatch (x : agentx_datagram) (l : L) : option (L * agentx_datagram * option (list Z)) :=
  let t := xh_type (x_hdr x) in
  if t =? AGENTX_PDU_GET then
    let* (l, x, sent) := agentx_get lua_pcall e junk root x l in Some (l, x, Some sent)
  else if (t =? AGENTX_PDU_GETNEXT) || (t =? AGENTX_PDU_GETBULK) then
    let* (l, x, sent) := agentx_getnext lua_pcall e junk root x l in Some (l, x, Some sent)
  else if t =? AGENTX_PDU_TESTSET then
    let* (l, x, sent) := agentx_set lua_pcall e junk root x l in Some (l, x, Some sent)
  else if (t =? AGENTX_PDU_COMMITSET) || (t =? AGENTX_PDU_UNDOSET) || (t =? AGENTX_PDU_CLEANUPSET) then
    let* sent := agentx_response e x in Some (l, x, Some sent)
  else Some (l, x, None).

(** [buffer] is what the receive buffer holds. *)
Definition agentx_recv (buffer : list Z) (len : Z) (x : agentx_datagram) (l : L)
    : option (agentx_err_code * L * agentx_datagram * option (list Z)) :=
  if len <=? 0 then None
  else
    let* (ret, x) := agentx_decode e junk buffer (agentx_datagram_clear x) in
    if decide (ret = AGENTX_ERR_OK) then
      let* (l, x, sent) := agentx_request_dispatch x l in Some (ret, l, x, sent)
    else Some (ret, l, x, None).
End Recv.

(** ** Decoding what the reference encodes *)

(** What the decoder makes of a range and of a binding. *)
Definition sr_of (junk : Z) (r : x_range) : x_search_range :=
  let start := as_read (xr_start r) in
  let last := as_read (xr_end r) in
  mk_sr (start ++ replicate (3 * length start) junk) (last ++ replicate (3 * length last) junk)
    (zlen start) (zlen last) (xr_start_include r) (xr_end_include r).

Definition xvb_of (e : endian) (junk : Z) (b : x_binding) : x_var_bind :=
  let v := xb_value b in
  mk_xvb (as_read (xb_oid b)) (zlen (as_read (xb_oid b))) (xb_type b) (x_count v)
    (x_mem e v ++ replicate (Z.to_nat (x_room v) - length (x_mem e v)) junk).

Lemma x_oid_bounds ids : x_oid_ok ids -> words (as_read ids) /\ (length (as_read ids) <= 64)%nat.
Proof.
  intros [->|(p & rest & -> & Hp & _ & Hw & Hl & _)]%x_oid_view; [by split; [|vm_compute; lia]|]. split.
  - repeat (constructor; [unfold is_u32; lia|]). done.
  - rewrite length_app. cbn [length internet]. lia.
Qed.

Lemma blit_replicate (bs : list Z) n junk : (length bs <= n)%nat ->
  blit bs (replicate n junk) = Some (bs ++ replicate (n - length bs) junk).
Proof. intros H. unfold blit. rewrite length_replicate, decide_True by done. by rewrite drop_replicate. Qed.

Section Spec.
Context (e : endian) (junk : Z).

Lemma ids_dec_spec pre rest inc ids room : x_oid_ok ids -> zlen (as_read ids) <= room ->
  ids_dec e junk (pre ++ x_objid e inc ids ++ rest) (length pre) room =
  Some ((length pre + length (x_objid e inc ids))%nat, zlen (as_read ids),
        as_read ids ++ replicate (Z.to_nat room - length (as_read ids)) junk).
Proof.
  intros Hok Hr. destruct (x_oid_bounds ids Hok) as [Hw _]. unfold ids_dec.
  destruct (objid_dec e pre rest inc ids Hok) as (_ & -> & _ & _). rewrite Zto_nat_zlen.
  pose proof (load_oid_store_oid e (as_read ids) [] Hw) as Hload. rewrite app_nil_r in Hload. rewrite Hload.
  by rewrite blit_replicate by (unfold zlen in Hr; lia).
Qed.

Lemma skip_ids_spec (pre : list Z) inc ids : x_oid_ok ids ->
  skip_ids (length pre) (4 * zlen (as_read ids)) = (length pre + length (x_objid e inc ids))%nat.
Proof.
  intros Hok. destruct (objid_dec e [] [] inc ids Hok) as (_ & _ & _ & Hz). unfold skip_ids. rewrite Z.gtb_ltb.
  unfold zlen at 1 in Hz. destruct (0 <? 4 * zlen (as_read ids)); lia.
Qed.

Lemma oid_len_guard ids : x_oid_ok ids -> (4 * zlen (as_read ids) / 4 >? ASN1_OID_MAX_LEN) = false.
Proof.
  intros [_ Hl]%x_oid_bounds. unfold ASN1_OID_MAX_LEN. rewrite Z.gtb_ltb. apply Z.ltb_ge.
  unfold zlen. Z.div_mod_to_equations. lia.
Qed.

Lemma x_search_range_alloc_spec pre rest r : x_range_ok r ->
  x_search_range_alloc e junk (pre ++ x_range_bytes e r ++ rest) (length pre) =
  Some (inr (sr_of junk r, (length pre + length (x_range_bytes e r))%nat)).
Proof.
  intros (Hs & He & _ & _). unfold x_search_range_alloc, x_range_bytes. rewrite <- app_assoc.
  set (S1 := x_objid e (xr_start_include r) (xr_start r)). set (E1 := x_objid e (xr_end_include r) (xr_end r)).
  destruct (objid_dec e pre (E1 ++ rest) (xr_start_include r) (xr_start r) Hs) as (G1 & _ & G2 & _).
  fold S1 in G1, G2. rewrite G1, G2, oid_len_guard, (skip_ids_spec pre (xr_start_include r)) by done. fold S1.
  destruct (objid_dec e (pre ++ S1) rest (xr_end_include r) (xr_end r) He) as (H1 & _ & H2 & _). fold E1 in H1, H2.
  rewrite <- app_assoc, length_app in H1, H2. rewrite H1, H2, oid_len_guard by done.
  pose proof (zlen_nonneg (as_read (xr_start r))). pose proof (zlen_nonneg (as_read (xr_end r))).
  unfold S1. rewrite ids_dec_spec by (done || lia). fold S1.
  pose proof (ids_dec_spec (pre ++ S1) rest (xr_end_include r) (xr_end r) (4 * zlen (as_read (xr_end r))) He ltac:(lia)) as H3.
  fold E1 in H3. rewrite <- app_assoc, length_app in H3. rewrite H3. unfold sr_of. rewrite !length_app.
  do 3 f_equal; [|lia]. f_equal; f_equal; f_equal; unfold zlen; lia.
Qed.

Lemma htoax_same n flags x : wire_order flags = e -> htoax e n flags x = x.
Proof. unfold wire_order, htoax, swaps. intros <-. by destruct (nz _). Qed.

Lemma x_var_bind_alloc_spec pre rest flags b : x_binding_ok b -> wire_order flags = e ->
  x_var_bind_alloc e junk (pre ++ x_binding_bytes e b ++ rest) (length pre) flags =
  Some (inr (xvb_of e junk b, (length pre + length (x_binding_bytes e b))%nat)).
Proof.
  intros [Hty Hoid] Hw. unfold x_var_bind_alloc, x_binding_bytes. rewrite <- !app_assoc.
  pose proof (x_typed_inv _ _ Hty) as [_ Ht]. rewrite rd_mid by (by rewrite ?length_mem_of).
  rewrite val_of_mem_of, htoax_same by done. change (256 ^ Z.of_nat 2) with (2 ^ 16).
  rewrite Z.mod_small by (unfold is_u8 in Ht; lia). rewrite (u8_id (xb_type b)) by done.
  set (T := mem_of e 2 (xb_type b) ++ [0; 0]). set (O := x_objid e 0 (xb_oid b)). set (V := x_value_bytes e (xb_value b)).
  assert (length T = 4%nat) as HT by (unfold T; by rewrite length_app, length_mem_of).
  assert (pre ++ mem_of e 2 (xb_type b) ++ [0; 0] ++ O ++ V ++ rest = (pre ++ T) ++ O ++ V ++ rest) as ->
    by (unfold T; by rewrite <- !app_assoc).
  assert ((length pre + 4)%nat = length (pre ++ T)) as -> by (by rewrite length_app, HT).
  unfold O. destruct (objid_dec e (pre ++ T) (V ++ rest) 0 (xb_oid b) Hoid) as (-> & _).
  rewrite oid_len_guard, (skip_ids_spec (pre ++ T) 0) by done. rewrite ids_dec_spec
    by (done || (unfold zlen; Z.div_mod_to_equations; lia)). fold O.
  destruct (value_dec e ((pre ++ T) ++ O) rest (xb_type b) (xb_value b) Hty) as (Hdec & Htry & Hroom). fold V in Hdec, Htry.
  rewrite <- app_assoc, (length_app (pre ++ T)) in Hdec, Htry. rewrite Hdec, Htry.
  rewrite Z.gtb_ltb, (proj2 (Z.ltb_ge _ _)) by lia. rewrite blit_replicate by (unfold zlen in Hroom; lia).
  unfold xvb_of. rewrite !length_app, length_mem_of. cbn [length]. do 3 f_equal; [|lia].
  replace (Z.to_nat (4 * zlen (as_read (xb_oid b)) / 4) - length (as_read (xb_oid b)))%nat with 0%nat; [by rewrite app_nil_r|].
  unfold zlen. Z.div_mod_to_equations. lia.
Qed.
(** *** The loops *)
Definition with_ranges (rs : list x_range) (x : agentx_datagram) : agentx_datagram :=
  mk_xdg (x_context x) (x_ctx_len x) (set_payload 0 (x_hdr x)) (x_u x) (x_vb_in_cnt x) (x_vb_out_cnt x) (x_vb_in_list x)
    (x_vb_out_list x) (u32 (x_sr_in_cnt x + zlen rs)) (x_sr_out_cnt x) (x_sr_in_list x ++ map (sr_of junk) rs) (x_sr_out_list x).

Definition with_bindings (bs : list x_binding) (x : agentx_datagram) : agentx_datagram :=
  mk_xdg (x_context x) (x_ctx_len x) (set_payload 0 (x_hdr x)) (x_u x) (u32 (x_vb_in_cnt x + zlen bs)) (x_vb_out_cnt x)
    (x_vb_in_list x ++ map (xvb_of e junk) bs) (x_vb_out_list x) (x_sr_in_cnt x) (x_sr_out_cnt x) (x_sr_in_list x)
    (x_sr_out_list x).

Lemma set_payload_same h : xh_payload_length h = 0 -> set_payload 0 h = h.
Proof. destruct h; cbn. by intros ->. Qed.

Lemma with_nothing x : xh_payload_length (x_hdr x) = 0 -> is_u32 (x_sr_in_cnt x) -> is_u32 (x_vb_in_cnt x) ->
  with_ranges [] x = x /\ with_bindings [] x = x.
Proof.
  intros Hp H1 H2. unfold with_ranges, with_bindings. cbn [map]. change (zlen (A := x_range) []) with 0.
  change (zlen (A := x_binding) []) with 0. rewrite set_payload_same, !Z.add_0_r, !u32_id, !app_nil_r by done. by destruct x.
Qed.

Lemma objid_min inc ids : (4 <= length (x_objid e inc ids))%nat.
Proof. unfold x_objid. destruct (short_form ids) as [[p rest]|]; rewrite length_app; cbn [length]; lia. Qed.

Lemma range_min r : 8 <= zlen (x_range_bytes e r).
Proof.
  unfold x_range_bytes, zlen. rewrite length_app. pose proof (objid_min (xr_start_include r) (xr_start r)).
  pose proof (objid_min (xr_end_include r) (xr_end r)). lia.
Qed.

Lemma binding_min b : 8 <= zlen (x_binding_bytes e b).
Proof.
  unfold x_binding_bytes, zlen. rewrite !length_app, length_mem_of. pose proof (objid_min 0 (xb_oid b)). cbn [length]. lia.
Qed.

(** One step of a loop: the payload left after an item of size [n]. *)
Lemma consume_payload n N x : xh_payload_length (x_hdr x) = Z.of_nat n + N -> 0 <= N -> Z.of_nat n + N < 2 ^ 32 ->
  xh_payload_length (x_hdr (consume n x)) = N.
Proof. intros Hp HN Hl. cbn. rewrite Hp. rewrite u32_id by (unfold is_u32; lia). lia. Qed.

Lemma ranges_parse rs : Forall x_range_ok rs -> forall fuel pre rest x, (length rs < fuel)%nat ->
  xh_payload_length (x_hdr x) = zlen (x_ranges_bytes e rs) -> zlen (x_ranges_bytes e rs) < 2 ^ 32 ->
  is_u32 (x_sr_in_cnt x) -> is_u32 (x_vb_in_cnt x) ->
  x_search_range_parse e junk fuel (pre ++ x_ranges_bytes e rs ++ rest) (length pre) x = Some (AGENTX_ERR_OK, with_ranges rs x).
Proof.
  induction 1 as [|r rs Hr _ IH]; intros fuel pre rest x Hf Hp Hl H1 H2; (destruct fuel as [|fuel]; [cbn in Hf; lia|]);
    cbn [x_search_range_parse].
  { rewrite Hp. change (zlen (x_ranges_bytes e []) >? 0) with false. cbn match. by rewrite (proj1 (with_nothing x Hp H1 H2)). }
  unfold x_ranges_bytes in *. cbn [map concat] in *. rewrite zlen_app in Hp, Hl. pose proof (range_min r).
  pose proof (zlen_nonneg (concat (map (x_range_bytes e) rs))) as Hn. rewrite Hp, Z.gtb_ltb, (proj2 (Z.ltb_lt 0 _)) by lia.
  rewrite <- app_assoc, x_search_range_alloc_spec, app_assoc by done.
  replace (length pre + length (x_range_bytes e r))%nat with (length (pre ++ x_range_bytes e r)) by (by rewrite length_app).
  rewrite IH.
  - rewrite length_app, Nat.add_comm, Nat.add_sub. unfold with_ranges, consume, add_sr_in, set_xhdr, set_payload.
    cbn [x_context x_ctx_len x_hdr x_u x_vb_in_cnt x_vb_out_cnt x_vb_in_list x_vb_out_list x_sr_in_cnt x_sr_out_cnt
      x_sr_in_list x_sr_out_list xh_version xh_type xh_flags xh_reserved xh_session_id xh_transaction_id xh_packet_id map].
    rewrite u32_add_l, zlen_cons, <- app_assoc, Z.add_assoc. done.
  - cbn in Hf. lia.
  - rewrite length_app, Nat.add_comm, Nat.add_sub. apply consume_payload; [done|done|unfold zlen in *; lia].
  - lia.
  - cbn. apply u32_range.
  - done.
Qed.

Lemma bindings_parse bs : Forall x_binding_ok bs -> forall fuel pre rest x, (length bs < fuel)%nat ->
  wire_order (xh_flags (x_hdr x)) = e ->
  xh_payload_length (x_hdr x) = zlen (x_bindings_bytes e bs) -> zlen (x_bindings_bytes e bs) < 2 ^ 32 ->
  is_u32 (x_sr_in_cnt x) -> is_u32 (x_vb_in_cnt x) ->
  x_var_bind_parse e junk fuel (pre ++ x_bindings_bytes e bs ++ rest) (length pre) x =
  Some (AGENTX_ERR_OK, with_bindings bs x).
Proof.
  induction 1 as [|b bs Hb _ IH]; intros fuel pre rest x Hf Hw Hp Hl H1 H2; (destruct fuel as [|fuel]; [cbn in Hf; lia|]);
    cbn [x_var_bind_parse].
  { rewrite Hp. change (zlen (x_bindings_bytes e []) >? 0) with false. cbn match. by rewrite (proj2 (with_nothing x Hp H1 H2)). }
  unfold x_bindings_bytes in *. cbn [map concat] in *. rewrite zlen_app in Hp, Hl. pose proof (binding_min b).
  pose proof (zlen_nonneg (concat (map (x_binding_bytes e) bs))) as Hn. rewrite Hp, Z.gtb_ltb, (proj2 (Z.ltb_lt 0 _)) by lia.
  rewrite <- app_assoc, x_var_bind_alloc_spec, app_assoc by done.
  replace (length pre + length (x_binding_bytes e b))%nat with (length (pre ++ x_binding_bytes e b)) by (by rewrite length_app).
  rewrite IH.
  - rewrite length_app, Nat.add_comm, Nat.add_sub. unfold with_bindings, consume, add_vb_in, set_xhdr, set_payload.
    cbn [x_context x_ctx_len x_hdr x_u x_vb_in_cnt x_vb_out_cnt x_vb_in_list x_vb_out_list x_sr_in_cnt x_sr_out_cnt
      x_sr_in_list x_sr_out_list xh_version xh_type xh_flags xh_reserved xh_session_id xh_transaction_id xh_packet_id map].
    rewrite u32_add_l, zlen_cons, <- app_assoc, Z.add_assoc. done.
  - cbn in Hf. lia.
  - done.
  - rewrite length_app, Nat.add_comm, Nat.add_sub. apply consume_payload; [done|done|unfold zlen in *; lia].
  - lia.
  - done.
  - cbn. apply u32_range.
Qed.

(** The items are fewer than the bytes of the buffer. *)
Lemma items_fuel {A} (f : A -> list Z) (l : list A) pre rest : (forall a, 8 <= zlen (f a)) ->
  (length l < S (length (pre ++ concat (map f l) ++ rest)))%nat.
Proof.
  intros Hf. rewrite !length_app. enough (length l <= length (concat (map f l)))%nat by lia.
  induction l as [|a l IH]; [done|]. cbn [map concat length]. rewrite length_app. specialize (Hf a). unfold zlen in Hf. lia.
Qed.

(** *** The header *)
Lemma ax_rd_spec n flags l1 v r i : i = length l1 ->
  ax_rd e n (l1 ++ mem_of (wire_order flags) n v ++ r) i flags = Some (v mod 256 ^ Z.of_nat n).
Proof.
  intros ->. unfold ax_rd. rewrite rd_mid by (by rewrite ?length_mem_of).
  by rewrite axtoh_val_of, val_of_mem_of by (rewrite ?length_mem_of; done || apply mem_of_bytes).
Qed.

(** The header is read correctly in either byte order. *)
Lemma x_hdr_read_spec h n rest : x_hdr_ok h -> is_u32 n ->
  x_hdr_read e (x_header (wire_order (xh_flags h)) h n ++ rest) = Some (set_payload n h).
Proof.
  intros (_ & _ & _ & _ & Hs & Ht & Hp) Hn. unfold x_hdr_read, x_header. rewrite <- !app_assoc. cbn [app lookup list_lookup].
  set (w := wire_order (xh_flags h)). set (hd := [xh_version h; xh_type h; xh_flags h; xh_reserved h]).
  change (xh_version h :: xh_type h :: xh_flags h :: xh_reserved h :: ?X) with (hd ++ X).
  set (A := mem_of w 4 (xh_session_id h)). set (B := mem_of w 4 (xh_transaction_id h)). set (C := mem_of w 4 (xh_packet_id h)).
  pose proof (ax_rd_spec 4 (xh_flags h) hd (xh_session_id h) (B ++ C ++ mem_of w 4 n ++ rest) 4 eq_refl) as H1.
  pose proof (ax_rd_spec 4 (xh_flags h) (hd ++ A) (xh_transaction_id h) (C ++ mem_of w 4 n ++ rest) 8) as H2.
  pose proof (ax_rd_spec 4 (xh_flags h) (hd ++ A ++ B) (xh_packet_id h) (mem_of w 4 n ++ rest) 12) as H3.
  pose proof (ax_rd_spec 4 (xh_flags h) (hd ++ A ++ B ++ C) n rest 16) as H4.
  fold w A B C in H1, H2, H3, H4. repeat rewrite <- app_assoc in H2. repeat rewrite <- app_assoc in H3. repeat rewrite <- app_assoc in H4.
  change (256 ^ Z.of_nat 4) with (2 ^ 32) in *. unfold is_u32 in *.
  rewrite H1, H2, H3, H4 by (unfold A, B, C; by rewrite !length_app, !length_mem_of || by rewrite !length_app, length_mem_of).
  rewrite !Z.mod_small by done. unfold set_payload. by rewrite u32_id by done.
Qed.
End Spec.

(** *** Messages *)

(** What a PDU carries after its header and context. *)
Inductive x_body :=
| XRanges (rs : list x_range)
| XBulk (non_rep max_rep : Z) (rs : list x_range)
| XBindings (bs : list x_binding)
| XResponse (time error index : Z) (bs : list x_binding)
| XReason (reason : Z)
| XPlain (payload : list Z).

Definition body_head (w : endian) (b : x_body) : list Z :=
  match b with
  | XBulk non_rep max_rep _ => mem_of w 2 non_rep ++ mem_of w 2 max_rep
  | XResponse time error index _ => mem_of w 4 time ++ mem_of w 2 error ++ mem_of w 2 index
  | XReason reason => [reason; 0; 0; 0]
  | _ => []
  end.

Definition body_ranges (b : x_body) : list x_range := match b with XRanges rs | XBulk _ _ rs => rs | _ => [] end.
Definition body_bindings (b : x_body) : list x_binding := match b with XBindings bs | XResponse _ _ _ bs => bs | _ => [] end.

(** What the agent does not look at. *)
Definition body_plain (b : x_body) : list Z := match b with XPlain payload => payload | _ => [] end.

Definition body_items (w : endian) (b : x_body) : list Z :=
  x_ranges_bytes w (body_ranges b) ++ x_bindings_bytes w (body_bindings b) ++ body_plain b.

Definition body_bytes (w : endian) (b : x_body) : list Z := body_head w b ++ body_items w b.

(** Which PDU carries which body.  Of the PDUs of other types (the phases of a
    set, Ping, and those that the master agent does not send) the agent looks
    only at the header and the context. *)
Definition body_type (t : Z) (b : x_body) : Prop :=
  match b with
  | XRanges _ => t ∈ [AGENTX_PDU_GET; AGENTX_PDU_GETNEXT]
  | XBulk non_rep max_rep _ => t = AGENTX_PDU_GETBULK /\ is_u16 non_rep /\ is_u16 max_rep
  | XBindings _ => t = AGENTX_PDU_TESTSET
  | XResponse time error index _ => t = AGENTX_PDU_RESPONSE /\ is_u32 time /\ is_u16 error /\ is_u16 index
  | XReason _ => t = AGENTX_PDU_CLOSE
  | XPlain _ => t <> AGENTX_PDU_CLOSE /\ t <> AGENTX_PDU_GETBULK /\ is_range_pdu t = false /\ is_vb_pdu t = false
  end.

Definition body_ok (t : Z) (b : x_body) : Prop :=
  body_type t b /\ Forall x_range_ok (body_ranges b) /\ Forall x_binding_ok (body_bindings b).

(** The context, present when the flag says so. *)
Definition x_ctx_bytes (w : endian) (flags : Z) (s : list Z) : list Z :=
  if nz (Z.land flags NON_DEFAULT_CONTEXT) then x_octstr w s else [].

Definition ctx_ok (flags : Z) (s : list Z) : Prop :=
  (length s <= 40)%nat /\ (nz (Z.land flags NON_DEFAULT_CONTEXT) = false -> s = []).

(** The union after decoding. *)
Definition body_union (e : endian) (b : x_body) : x_union :=
  match b with
  | XBulk non_rep max_rep _ => mk_xu (mem_of e 2 non_rep ++ mem_of e 2 max_rep) 0 0
  | XResponse time error index _ => mk_xu (mem_of e 4 time) error index
  | XReason reason => mk_xu [reason; 0; 0; 0] 0 0
  | _ => mk_xu [0; 0; 0; 0] 0 0
  end.

(** The datagram after the header, with the context and the union. *)
Definition x_start (h : x_pdu_hdr) (s : list Z) (u : x_union) : agentx_datagram :=
  mk_xdg (s ++ replicate (CONTEXT_SIZE - length s) 0) (zlen s) h u 0 0 [] [] 0 0 [] [].

(** The datagram a message is decoded to. *)
Definition x_decoded (e : endian) (junk : Z) (h : x_pdu_hdr) (s : list Z) (b : x_body) : agentx_datagram :=
  mk_xdg (s ++ replicate (CONTEXT_SIZE - length s) 0) (zlen s) (set_payload (zlen (body_plain b)) h) (body_union e b)
    (zlen (body_bindings b)) 0 (map (xvb_of e junk) (body_bindings b)) []
    (zlen (body_ranges b)) 0 (map (sr_of junk) (body_ranges b)) [].

Section Messages.
Context (e : endian) (junk : Z).

Lemma set_payload_twice n m h : set_payload n (set_payload m h) = set_payload n h.
Proof. done. Qed.

Lemma consume_start n N h s u : 0 <= N -> Z.of_nat n + N < 2 ^ 32 ->
  consume n (x_start (set_payload (Z.of_nat n + N) h) s u) = x_start (set_payload N h) s u.
Proof.
  intros HN Hl. unfold consume. cbn [x_hdr x_start set_xhdr]. unfold x_start, set_xhdr. cbn.
  unfold set_payload at 1. cbn [xh_payload_length set_payload]. rewrite (u32_id (Z.of_nat n + N)) by (unfold is_u32; lia).
  replace (Z.of_nat n + N - Z.of_nat n) with N by lia. done.
Qed.

Lemma x_ctx_parse_spec h s u N pre rest : wire_order (xh_flags h) = e -> ctx_ok (xh_flags h) s -> 0 <= N ->
  let C := x_ctx_bytes e (xh_flags h) s in
  zlen C + N < 2 ^ 32 ->
  x_ctx_parse e (pre ++ C ++ rest) (length pre) (x_start (set_payload (zlen C + N) h) [] u) =
  Some (AGENTX_ERR_OK, x_start (set_payload N h) s u, (length pre + length C)%nat).
Proof.
  intros Hw [Hl Hnone] HN C HC. unfold x_ctx_parse. cbn [x_hdr x_start]. unfold C, x_ctx_bytes in *. clear C.
  cbn [xh_flags set_payload]. destruct (nz (Z.land (xh_flags h) NON_DEFAULT_CONTEXT)).
  2:{ rewrite Hnone by done. cbn [length]. change (zlen (A := Z) []) with 0. by rewrite Z.add_0_l, Nat.add_0_r. }
  assert (pre ++ x_octstr e s ++ rest = pre ++ mem_of e 4 (zlen s) ++ s ++ padding (zlen s) ++ rest) as ->
    by (unfold x_octstr; by rewrite <- !app_assoc).
  pose proof (ax_rd_spec e 4 (xh_flags h) pre (zlen s) (s ++ padding (zlen s) ++ rest) (length pre) eq_refl) as Hr.
  rewrite Hw in Hr. rewrite Hr. assert (zlen s = Z.of_nat (length s)) as Hz by done.
  change (256 ^ Z.of_nat 4) with (2 ^ 32). rewrite Z.mod_small by lia.
  rewrite u32_id by (unfold is_u32; lia). unfold CONTEXT_SIZE. rewrite Z.gtb_ltb, (proj2 (Z.ltb_ge _ _)) by lia.
  rewrite Zto_nat_zlen, (app_assoc pre), slice_mid by (rewrite ?length_app, ?length_mem_of; lia).
  cbn [x_context x_start set_context app length].
  pose proof (blit_replicate s 41 0 ltac:(lia)) as Hb. change (CONTEXT_SIZE - 0)%nat with 41%nat. rewrite Hb.
  pose proof (uint_sizeof_bounds (zlen s)). pose proof (zlen_octstr e s) as Ho.
  assert (length (x_octstr e s) = (4 + Z.to_nat (uint_sizeof (zlen s)))%nat) as Hlen by (unfold zlen in Ho at 1; lia).
  rewrite Hlen, Ho. do 3 f_equal.
  pose proof (consume_start (4 + Z.to_nat (uint_sizeof (zlen s))) N h s u HN ltac:(lia)) as Hc.
  replace (Z.of_nat (4 + Z.to_nat (uint_sizeof (zlen s))) + N) with (4 + uint_sizeof (zlen s) + N) in Hc by lia.
  rewrite <- Hc. done.
Qed.

(** Two's reads of the additional data. *)
Lemma ax_rd_word flags n l1 v r i : wire_order flags = e -> i = length l1 -> 0 <= v < 256 ^ Z.of_nat n ->
  ax_rd e n (l1 ++ mem_of e n v ++ r) i flags = Some v.
Proof. intros Hw Hi Hv. pose proof (ax_rd_spec e n flags l1 v r i Hi) as H. rewrite Hw in H. by rewrite H, Z.mod_small. Qed.

Lemma x_data_parse_spec h s b N pre rest : wire_order (xh_flags h) = e -> body_type (xh_type h) b -> 0 <= N ->
  let D := body_head e b in
  zlen D + N < 2 ^ 32 ->
  x_data_parse e (pre ++ D ++ rest) (length pre) (x_start (set_payload (zlen D + N) h) s (mk_xu [0; 0; 0; 0] 0 0)) =
  Some (x_start (set_payload N h) s (body_union e b), (length pre + length D)%nat).
Proof.
  intros Hw Ht HN D HD. unfold x_data_parse. cbn [x_hdr x_start x_u xu_head xu_error xu_index]. cbn [xh_type xh_flags set_payload].
  pose proof (consume_start 4 N h s) as C4. pose proof (consume_start 8 N h s) as C8.
  destruct b as [rs|nr mr rs|bs|time err idx bs|reason|payload]; unfold D, body_head, body_union, body_type in *; clear D.
  - cbn [app length]. change (zlen (A := Z) []) with 0. rewrite Z.add_0_l, Nat.add_0_r. x_tags Ht; done.
  - destruct Ht as (-> & Hn & Hm). change (AGENTX_PDU_GETBULK =? AGENTX_PDU_CLOSE) with false. cbn match.
    change (AGENTX_PDU_GETBULK =? AGENTX_PDU_GETBULK) with true. cbn match. rewrite <- app_assoc.
    rewrite (ax_rd_word _ 2 pre) by done. rewrite (app_assoc pre), (ax_rd_word _ 2 (pre ++ _))
      by (done || by rewrite length_app, length_mem_of).
    change [0; 0; 0; 0] with ([] ++ [0; 0] ++ [0; 0]) at 1. rewrite write_at_mid by (by rewrite ?length_mem_of).
    pose proof (write_at_mid (mem_of e 2 nr) [0; 0] (mem_of e 2 mr) [] 2) as Hwr. rewrite !app_nil_r in Hwr.
    cbn [app] in Hwr |- *. rewrite Hwr by (by rewrite ?length_mem_of). rewrite !zlen_app, !zlen_mem_of in *.
    rewrite length_app, !length_mem_of. rewrite <- (C4 _ HN ltac:(lia)). done.
  - cbn [app length]. change (zlen (A := Z) []) with 0. rewrite Z.add_0_l, Nat.add_0_r. by rewrite Ht.
  - destruct Ht as (-> & Htm & He & Hi). change (AGENTX_PDU_RESPONSE =? AGENTX_PDU_CLOSE) with false. cbn match.
    change (AGENTX_PDU_RESPONSE =? AGENTX_PDU_GETBULK) with false. cbn match.
    change (AGENTX_PDU_RESPONSE =? AGENTX_PDU_RESPONSE) with true. cbn match. rewrite <- !app_assoc.
    rewrite (ax_rd_word _ 4 pre) by done. rewrite (app_assoc pre), (ax_rd_word _ 2 (pre ++ _))
      by (done || by rewrite length_app, length_mem_of).
    rewrite (app_assoc (pre ++ _)), (ax_rd_word _ 2 ((pre ++ _) ++ _)) by (done || (rewrite !length_app, !length_mem_of; lia)).
    change [0; 0; 0; 0] with ([] ++ [0; 0; 0; 0] ++ []) at 1. rewrite write_at_mid by (by rewrite ?length_mem_of).
    rewrite !zlen_app, !zlen_mem_of in *. rewrite !length_app, !length_mem_of, app_nil_r. cbn [app].
    rewrite <- (C8 _ HN ltac:(lia)). done.
  - rewrite Ht. change (AGENTX_PDU_CLOSE =? AGENTX_PDU_CLOSE) with true. cbn match.
    rewrite (lookup_mid pre [reason; 0; 0; 0] rest (length pre) 0 reason) by (done || lia).
    change (write_at 0 [reason] [0; 0; 0; 0]) with (Some [reason; 0; 0; 0]). cbn match.
    rewrite <- (C4 _ HN ltac:(change (zlen [reason; 0; 0; 0]) with 4 in HD; lia)). done.
  - cbn [app length]. change (zlen (A := Z) []) with 0. rewrite Z.add_0_l, Nat.add_0_r. destruct Ht as (H1 & H2 & _ & H3).
    unfold is_vb_pdu in H3. apply orb_false_iff in H3 as [_ H3].
    by rewrite (proj2 (Z.eqb_neq _ _) H1), (proj2 (Z.eqb_neq _ _) H2), H3.
Qed.

(** A message: header, context, additional data, items. *)
Definition x_pdu_bytes (w : endian) (h : x_pdu_hdr) (s : list Z) (b : x_body) : list Z :=
  x_message w h (x_ctx_bytes w (xh_flags h) s ++ body_bytes w b).

(** After the header, with [N] bytes of items left. *)
Lemma x_pdu_hdr_parse_spec h s b rest x : x_hdr_ok h -> wire_order (xh_flags h) = e -> ctx_ok (xh_flags h) s ->
  body_type (xh_type h) b -> zlen (x_pdu_bytes e h s b) < 2 ^ 32 ->
  let items := body_items e b in
  exists pre, x_pdu_bytes e h s b ++ rest = pre ++ items ++ rest /\
    x_pdu_hdr_parse e (x_pdu_bytes e h s b ++ rest) (agentx_datagram_clear x) =
    Some (AGENTX_ERR_OK, x_start (set_payload (zlen items) h) s (body_union e b), length pre).
Proof.
  intros Hh Hw Hctx Hb Hlen items. unfold x_pdu_bytes, x_message, body_bytes in *. fold items in Hlen |- *.
  set (C := x_ctx_bytes e (xh_flags h) s) in *. set (D := body_head e b) in *. set (P := zlen (C ++ D ++ items)) in *.
  set (H := x_header e h P) in *. exists (H ++ C ++ D). split; [by rewrite <- !app_assoc|].
  assert (zlen H = 20) as HH by apply zlen_header. rewrite zlen_app, HH in Hlen.
  assert (P = zlen C + (zlen D + zlen items)) as HP by (unfold P; by rewrite !zlen_app).
  pose proof (zlen_nonneg C). pose proof (zlen_nonneg D). pose proof (zlen_nonneg items).
  unfold x_pdu_hdr_parse. pose proof (x_hdr_read_spec e h P (C ++ D ++ items ++ rest) Hh ltac:(unfold is_u32; lia)) as Hr.
  rewrite Hw in Hr. fold H in Hr. rewrite <- !app_assoc. rewrite Hr.
  change (set_xhdr (set_payload P h) (agentx_datagram_clear x)) with (x_start (set_payload P h) [] (mk_xu [0; 0; 0; 0] 0 0)).
  rewrite HP. replace 20%nat with (length H) by (unfold zlen in HH; lia).
  unfold C. rewrite x_ctx_parse_spec by (done || (fold C; lia)). fold C. cbn match.
  rewrite app_assoc. replace (length H + length C)%nat with (length (H ++ C)) by (by rewrite length_app).
  unfold D. rewrite x_data_parse_spec by (done || (fold D; lia)). fold D. by rewrite !length_app, Nat.add_assoc.
Qed.

Lemma body_kind t b : body_type t b ->
  match b with
  | XRanges _ | XBulk _ _ _ => is_range_pdu t = true
  | XBindings _ | XResponse _ _ _ _ => is_range_pdu t = false /\ is_vb_pdu t = true
  | _ => is_range_pdu t = false /\ is_vb_pdu t = false
  end.
Proof.
  destruct b; cbn [body_type]; intros H.
  6: apply H.
  1: x_tags H; done.
  1,3: destruct H as [-> _]; done.
  all: by rewrite H.
Qed.

Lemma zlen_items {A} (f : A -> list Z) (l : list A) : (forall a, 8 <= zlen (f a)) -> zlen l <= zlen (concat (map f l)).
Proof. intros Hf. pose proof (items_fuel f l [] [] Hf) as H. rewrite app_nil_r in H. cbn [app] in H. unfold zlen. lia. Qed.

Lemma decode_spec h s b rest x : x_hdr_ok h -> wire_order (xh_flags h) = e -> ctx_ok (xh_flags h) s ->
  body_ok (xh_type h) b -> zlen (x_pdu_bytes e h s b) < 2 ^ 32 ->
  agentx_decode e junk (x_pdu_bytes e h s b ++ rest) (agentx_datagram_clear x) = Some (AGENTX_ERR_OK, x_decoded e junk h s b).
Proof.
  intros Hh Hw Hctx (Hb & Hrs & Hbs) Hlen. unfold agentx_decode.
  destruct (x_pdu_hdr_parse_spec h s b rest x Hh Hw Hctx Hb Hlen) as (pre & Ebuf & ->). rewrite decide_True by done.
  assert (zlen (body_items e b) < 2 ^ 32) as Hi.
  { clear -Hlen. unfold x_pdu_bytes, x_message, body_bytes in Hlen. rewrite !zlen_app in *.
    pose proof (zlen_nonneg (x_ctx_bytes e (xh_flags h) s)). pose proof (zlen_nonneg (body_head e b)).
    rewrite zlen_header in Hlen. lia. }
  cbn [x_hdr x_start xh_type set_payload]. pose proof (body_kind _ _ Hb) as Hk. rewrite Ebuf. clear Ebuf Hlen.
  unfold x_decoded, body_items in *. destruct b as [rs|nr mr rs|bs|time err idx bs|reason|payload];
    cbn [body_ranges body_bindings body_plain] in *;
    change (x_bindings_bytes e []) with (@nil Z) in *; change (x_ranges_bytes e []) with (@nil Z) in *;
    rewrite ?app_nil_r in *; cbn [app] in *.
  1,2: rewrite Hk, ranges_parse;
    [|done|apply (items_fuel (x_range_bytes e)), range_min|cbn; rewrite u32_id; [done|split; [apply zlen_nonneg|done]]|done|done|done];
    rewrite decide_True by done; unfold with_ranges; cbn;
    pose proof (zlen_items (x_range_bytes e) rs (range_min e)) as Hz; unfold x_ranges_bytes in Hi;
    rewrite u32_id by (unfold is_u32; pose proof (zlen_nonneg rs); lia); done.
  1,2: destruct Hk as [-> ->]; rewrite bindings_parse;
    [|done|apply (items_fuel (x_binding_bytes e)), binding_min|done|cbn; rewrite u32_id; [done|split; [apply zlen_nonneg|done]]
     |done|done|done];
    rewrite decide_True by done; unfold with_bindings; cbn;
    pose proof (zlen_items (x_binding_bytes e) bs (binding_min e)) as Hz; unfold x_bindings_bytes in Hi;
    rewrite u32_id by (unfold is_u32; pose proof (zlen_nonneg bs); lia); done.
  all: destruct Hk as [-> ->]; rewrite decide_True by done; done.
Qed.
End Messages.

(** ** What any buffer is decoded to *)

(** Whatever was received, the lists of the datagram hold identifiers and
    values that can be read. *)
Definition ids_wf (n : Z) (cells : list Z) : Prop :=
  exists ids, slice 0 (Z.to_nat n) cells = Some ids /\ n = zlen ids /\ words ids /\ zlen ids <= ASN1_OID_MAX_LEN.

Definition sr_wf (sr : x_search_range) : Prop :=
  ids_wf (sr_start_len sr) (sr_start sr) /\ ids_wf (sr_end_len sr) (sr_end sr) /\
  is_u8 (sr_start_include sr) /\ is_u8 (sr_end_include sr).

Definition xvb_wf (vb : x_var_bind) : Prop :=
  ids_wf (xvb_oid_len vb) (xvb_oid vb) /\ is_u16 (xvb_val_type vb) /\ 0 <= xvb_val_len vb <= ASN1_VALUE_MAX_LEN /\
  agentx_value_enc_try (xvb_val_len vb) (u8 (xvb_val_type vb)) <= zlen (xvb_value vb).

Record xdg_wf (x : agentx_datagram) : Prop := {
  wf_context : length (x_context x) = CONTEXT_SIZE;
  wf_ctx_len : 0 <= x_ctx_len x <= 40;
  wf_head : length (xu_head (x_u x)) = 4%nat;
  wf_vb_in : Forall xvb_wf (x_vb_in_list x);
  wf_vb_cnt : x_vb_in_cnt x = u32 (zlen (x_vb_in_list x));
  wf_sr_in : Forall sr_wf (x_sr_in_list x);
  wf_sr_cnt : x_sr_in_cnt x = u32 (zlen (x_sr_in_list x));
}.

Section Wf.
Context (e : endian) (junk : Z) (buf : list Z) (Hbuf : bytes buf).

Lemma load_oid_words bs k ids : bytes bs -> load_oid e bs k = Some ids -> length ids = k /\ words ids.
Proof.
  revert bs ids. induction k as [|k IH]; intros bs ids Hb H; cbn [load_oid] in H; [by injection H as <-|].
  unfold load_uint in H. destruct (slice 0 4 bs) as [b4|] eqn:E; [|done].
  destruct (load_oid e (drop 4 bs) k) as [ids'|] eqn:E'; [|done]. injection H as <-.
  destruct (IH _ _ (Forall_drop _ _ _ Hb) E') as [<- Hw]. split; [done|]. constructor; [|done].
  pose proof (slice_length _ _ _ _ E) as Hl. pose proof (val_of_bound e b4 (slice_Forall _ _ _ _ _ Hb E)) as Hv.
  rewrite Hl in Hv. exact Hv.
Qed.

Lemma lookup_u8 i b : buf !! i = Some b -> is_u8 b.
Proof. intros H. rewrite Forall_forall in Hbuf. by apply Hbuf, list_elem_of_lookup_2 with i. Qed.

(** The decoded identifier agrees with the announced size. *)
Lemma ids_dec_wf pos room pos' n cells len : ids_dec e junk buf pos room = Some (pos', n, cells) ->
  agentx_value_dec_try e buf pos ASN1_TAG_OBJID = Some len -> (len / 4 >? ASN1_OID_MAX_LEN) = false -> ids_wf n cells.
Proof.
  unfold ids_dec. intros H Htry Hg. destruct (agentx_value_dec e buf pos ASN1_TAG_OBJID) as [[[p m] bs]|] eqn:E; [|done].
  destruct (load_oid e bs (Z.to_nat m)) as [ids|] eqn:El; [|done].
  destruct (blit ids _) as [cells'|] eqn:Eb; [|done]. injection H as <- <- <-.
  revert E Htry. x_switch. destruct (buf !! pos) as [k|] eqn:Ek; [|done]. destruct (buf !! S pos) as [q|] eqn:Eq; [|done].
  apply lookup_u8 in Ek, Eq. unfold is_u8 in *.
  assert (bytes bs /\ m = zlen ids /\ zlen ids <= 64 -> ids_wf m cells') as Hfin.
  { intros (Hb & -> & Hl). destruct (load_oid_words _ _ _ Hb El) as [_ Hw]. exists ids. rewrite Zto_nat_zlen. split_and!; try done.
    apply blit_take in Eb as Et. rewrite slice_take, Et; [done|]. apply (f_equal length) in Et. rewrite length_take in Et. lia. }
  unfold ASN1_OID_MAX_LEN in *. rewrite Z.gtb_ltb in Hg. apply Z.ltb_ge in Hg.
  destruct ((k =? 0) && (q =? 0)).
  - intros [= <- <- <-] [= <-]. apply Hfin. change (Z.to_nat 0) with 0%nat in El. cbn in El. injection El as <-. done.
  - destruct (slice (pos + 4) (4 * Z.to_nat k) buf) as [src|] eqn:Es; [|done]. intros [= <- <- <-] [= <-]. apply Hfin.
    assert (bytes (store_oid e [1; 3; 6; 1; q] ++ src)) as Hb
      by (apply Forall_app; split; [apply store_oid_bytes|by eapply slice_Forall]).
    destruct (load_oid_words _ _ _ Hb El) as [Hl _]. unfold zlen. split_and!; [done|lia|]. Z.div_mod_to_equations. lia.
Qed.

Lemma x_search_range_alloc_wf pos sr pos' : x_search_range_alloc e junk buf pos = Some (inr (sr, pos')) -> sr_wf sr.
Proof.
  unfold x_search_range_alloc. intros H.
  destruct (agentx_value_dec_try e buf pos _) as [n1|] eqn:E1; [|done]. destruct (_ >? _) eqn:G1; [done|].
  destruct (buf !! (pos + 2)%nat) as [i1|] eqn:B1; [|done].
  destruct (agentx_value_dec_try e buf (skip_ids pos n1) _) as [n2|] eqn:E2; [|done]. destruct (n2 / 4 >? _) eqn:G2; [done|].
  destruct (buf !! (skip_ids pos n1 + 2)%nat) as [i2|] eqn:B2; [|done].
  destruct (ids_dec e junk buf pos n1) as [[[p1 m1] c1]|] eqn:D1; [|done].
  destruct (ids_dec e junk buf (skip_ids pos n1) n2) as [[[p2 m2] c2]|] eqn:D2; [|done]. injection H as <- _.
  split_and!; [by eapply ids_dec_wf|by eapply ids_dec_wf|by eapply lookup_u8|by eapply lookup_u8].
Qed.
(** The decoded value fits the announced size and can be read back. *)
Lemma value_dec_wf pos t n pos' len bs : agentx_value_dec_try e buf pos t = Some n ->
  agentx_value_dec e buf pos t = Some (pos', len, bs) -> n <= ASN1_VALUE_MAX_LEN ->
  0 <= len <= ASN1_VALUE_MAX_LEN /\ agentx_value_enc_try len t <= n /\ 0 <= n.
Proof.
  unfold agentx_value_dec_try, agentx_value_dec, agentx_value_enc_try, ASN1_VALUE_MAX_LEN. intros Hn Hd Hm.
  destruct (is_word_tag t); cbn [orb] in *.
  { destruct (slice pos 4 buf); [|done]. injection Hn as <-. injection Hd as _ <- _. lia. }
  destruct (t =? ASN1_TAG_CNT64) eqn:Ec.
  { destruct (slice pos 8 buf); [|done]. injection Hn as <-. injection Hd as _ <- _. lia. }
  destruct (is_string_tag t) eqn:Es.
  - rewrite Hn in Hd. destruct (slice (pos + 4) _ buf); [|done]. injection Hd as _ <- _.
    unfold rd in Hn. destruct (slice pos 4 buf) as [b4|] eqn:E4; [|done]. injection Hn as <-.
    pose proof (val_of_bound e b4 (slice_Forall _ _ _ _ _ Hbuf E4)) as Hv.
    assert ((t =? ASN1_TAG_OBJID) = false) as ->.
    { unfold is_string_tag in Es. rewrite orb_true_iff, !Z.eqb_eq in Es. by destruct Es as [-> | ->]. }
    lia.
  - destruct (t =? ASN1_TAG_OBJID).
    + destruct (buf !! pos) as [k|] eqn:Ek; [|done]. destruct (buf !! S pos) as [q|]; [|done]. apply lookup_u8 in Ek. unfold is_u8 in Ek.
      destruct ((k =? 0) && (q =? 0)); [injection Hn as <-; injection Hd as _ <- _; split_and!; done|].
      destruct (slice (pos + 4) _ buf); [|done]. injection Hn as <-. injection Hd as _ <- _.
      rewrite u32_id by (unfold is_u32; lia). lia.
    + injection Hn as <-. injection Hd as _ <- _. lia.
Qed.

Lemma x_var_bind_alloc_wf pos flag vb pos' : x_var_bind_alloc e junk buf pos flag = Some (inr (vb, pos')) -> xvb_wf vb.
Proof.
  unfold x_var_bind_alloc. intros H. unfold rd in H. destruct (slice pos 2 buf) as [b2|] eqn:E2; [|done].
  assert (is_u16 (htoax e 2 flag (val_of e b2))) as Ht.
  { pose proof (slice_Forall _ _ _ _ _ Hbuf E2) as Hb. pose proof (slice_length _ _ _ _ E2) as Hl.
    pose proof (axtoh_val_of e 2 flag b2 Hl Hb) as Ha. unfold axtoh in Ha. rewrite Ha.
    pose proof (val_of_bound (wire_order flag) b2 Hb) as Hv. rewrite Hl in Hv. exact Hv. }
  set (t := htoax e 2 flag (val_of e b2)) in *. clearbody t.
  destruct (agentx_value_dec_try e buf (pos + 4) _) as [n1|] eqn:E1; [|done]. destruct (_ >? _) eqn:G1; [done|].
  destruct (agentx_value_dec_try e buf (skip_ids (pos + 4) n1) (u8 t)) as [n|] eqn:En; [|done].
  destruct (n >? ASN1_VALUE_MAX_LEN) eqn:G2; [done|].
  destruct (ids_dec e junk buf (pos + 4) (n1 / 4)) as [[[p1 m1] c1]|] eqn:D1; [|done].
  destruct (agentx_value_dec e buf (skip_ids (pos + 4) n1) (u8 t)) as [[[p2 len] bs]|] eqn:Ed; [|done].
  destruct (blit bs _) as [val|] eqn:Eb; [|done]. injection H as <- _.
  rewrite Z.gtb_ltb in G2. apply Z.ltb_ge in G2. destruct (value_dec_wf _ _ _ _ _ _ En Ed G2) as (Hl & Henc & Hn).
  split_and!; cbn [xvb_oid_len xvb_oid xvb_val_type xvb_val_len xvb_value]; [by eapply ids_dec_wf|exact Ht|lia|lia|].
  apply blit_length in Eb. rewrite length_replicate in Eb. unfold zlen. lia.
Qed.

(** *** The loops and the header *)
Lemma consume_wf n x : xdg_wf x -> xdg_wf (consume n x).
Proof. by intros []; split. Qed.

Lemma u32_snoc {A} (a : A) l c : c = u32 (zlen l) -> u32 (c + 1) = u32 (zlen (l ++ [a])).
Proof. intros ->. by rewrite u32_add_l, zlen_app. Qed.

Lemma x_search_range_parse_wf fuel : forall pos x err x', xdg_wf x ->
  x_search_range_parse e junk fuel buf pos x = Some (err, x') -> xdg_wf x'.
Proof.
  induction fuel as [|fuel IH]; intros pos x err x' Hx H; [done|]. cbn [x_search_range_parse] in H.
  destruct (_ >? 0); [|by injection H as _ <-]. destruct (x_search_range_alloc e junk buf pos) as [[err'|[sr pos']]|] eqn:E; [| |done].
  - by injection H as _ <-.
  - eapply IH; [|exact H]. apply consume_wf. destruct Hx. split; cbn; try done; [|by apply u32_snoc].
    apply Forall_app. split; [done|]. constructor; [by eapply x_search_range_alloc_wf|done].
Qed.

Lemma x_var_bind_parse_wf fuel : forall pos x err x', xdg_wf x ->
  x_var_bind_parse e junk fuel buf pos x = Some (err, x') -> xdg_wf x'.
Proof.
  induction fuel as [|fuel IH]; intros pos x err x' Hx H; [done|]. cbn [x_var_bind_parse] in H.
  destruct (_ >? 0); [|by injection H as _ <-]. destruct (x_var_bind_alloc e junk buf pos _) as [[err'|[vb pos']]|] eqn:E; [| |done].
  - by injection H as _ <-.
  - eapply IH; [|exact H]. apply consume_wf. destruct Hx. split; cbn; try done; [|by apply u32_snoc].
    apply Forall_app. split; [done|]. constructor; [by eapply x_var_bind_alloc_wf|done].
Qed.

Lemma clear_wf x : xdg_wf (agentx_datagram_clear x).
Proof. by split. Qed.

(** A context that fills its array leaves no room for the terminating zero, so
    it is refused, but for the length that wraps. *)
Lemma x_ctx_parse_wf pos x x' pos' : xdg_wf x -> x_ctx_parse e buf pos x = Some (AGENTX_ERR_OK, x', pos') -> xdg_wf x'.
Proof.
  intros Hx H. unfold x_ctx_parse in H. destruct (nz _); [|by injection H as <- _].
  unfold ax_rd, rd in H. destruct (slice pos 4 buf) as [b4|] eqn:E4; [|done].
  pose proof (slice_Forall _ _ _ _ _ Hbuf E4) as Hb. pose proof (slice_length _ _ _ _ E4) as Hl.
  rewrite axtoh_val_of in H by done. pose proof (val_of_bound (wire_order (xh_flags (x_hdr x))) b4 Hb) as Hv. rewrite Hl in Hv.
  set (n := val_of (wire_order (xh_flags (x_hdr x))) b4) in *. clearbody n. destruct (_ >? _) eqn:G; [done|].
  destruct (slice (pos + 4) (Z.to_nat n) buf) as [bs|] eqn:Es; [|done].
  destruct (blit bs _) as [c|] eqn:Eb; [|done]. injection H as <- _. apply consume_wf. pose proof (slice_length _ _ _ _ Es) as Hbs.
  destruct Hx as [Hc]. cbn [x_context set_context] in Eb. pose proof (blit_length _ _ _ Eb) as Hc'.
  assert (length bs <= length (x_context x))%nat as Hfit by (unfold blit in Eb; case_decide; [done|done]).
  split; cbn; try done; [by rewrite Hc'|]. unfold CONTEXT_SIZE in *. change (256 ^ Z.of_nat 4) with (2 ^ 32) in Hv.
  rewrite Z.gtb_ltb in G. apply Z.ltb_ge in G.
  destruct (decide (n = 2 ^ 32 - 1)) as [->|]; [lia|]. rewrite u32_id in G by (unfold is_u32; lia). lia.
Qed.

Lemma write_at_length (i : nat) (bs mem mem' : list Z) : write_at i bs mem = Some mem' -> length mem' = length mem.
Proof.
  unfold write_at. case_decide; [|done]. destruct (blit bs (drop i mem)) as [tl|] eqn:E; [|done]. intros [= <-].
  apply blit_length in E. rewrite length_app, length_take, E, length_drop. lia.
Qed.

Lemma set_xu_wf u x : xdg_wf x -> length (xu_head u) = 4%nat -> xdg_wf (set_xu u x).
Proof. by intros [] H; split. Qed.

Lemma x_data_parse_wf pos x x' pos' : xdg_wf x -> x_data_parse e buf pos x = Some (x', pos') -> xdg_wf x'.
Proof.
  intros Hx H. pose proof (wf_head x Hx) as Hh. unfold x_data_parse in H.
  destruct (xh_type _ =? AGENTX_PDU_CLOSE); [|destruct (xh_type _ =? AGENTX_PDU_GETBULK); [|destruct (xh_type _ =? AGENTX_PDU_RESPONSE)]].
  - destruct (buf !! pos); [|done]. destruct (write_at _ _ _) as [hd|] eqn:E; [|done]. injection H as <- _.
    apply write_at_length in E. apply consume_wf, set_xu_wf; [done|]. cbn. congruence.
  - destruct (ax_rd e 2 buf pos _); [|done]. destruct (ax_rd e 2 buf (pos + 2) _); [|done].
    destruct (write_at 0 _ _) as [hd|] eqn:E; [|done]. destruct (write_at 2 _ hd) as [hd'|] eqn:E'; [|done]. injection H as <- _.
    apply write_at_length in E, E'. apply consume_wf, set_xu_wf; [done|]. cbn. congruence.
  - destruct (ax_rd e 4 buf pos _); [|done]. destruct (ax_rd e 2 buf (pos + 4) _); [|done].
    destruct (ax_rd e 2 buf (pos + 6) _); [|done]. destruct (write_at 0 _ _) as [hd|] eqn:E; [|done]. injection H as <- _.
    apply write_at_length in E. apply consume_wf, set_xu_wf; [done|]. cbn. congruence.
  - by injection H as <- _.
Qed.
End Wf.

(** ** Properties *)

(** C22: whatever bytes are received, when the decoder returns, with an error or
    not, every identifier of the datagram has at most 64 sub-identifiers that
    can be read from its allocation, every value at most 1024 bytes that can be
    read back, the context at most 40 bytes of its 41, and the counters are the
    lengths of the lists. *)
Theorem agentx_decode_wf (e : endian) (junk : Z) (buf : list Z) (x x' : agentx_datagram) (err : agentx_err_code)
    (Hbuf : bytes buf) (H : agentx_decode e junk buf (agentx_datagram_clear x) = Some (err, x')) :
  xdg_wf x'.
Proof.
  unfold agentx_decode, x_pdu_hdr_parse in H. destruct (x_hdr_read e buf) as [h|]; [|done].
  assert (xdg_wf (set_xhdr h (agentx_datagram_clear x))) as H0 by (by split).
  destruct (x_ctx_parse e buf 20 _) as [[[err1 x1] pos1]|] eqn:E1; [|done].
  destruct (decide (err1 = AGENTX_ERR_OK)) as [->|Hne].
  - pose proof (x_ctx_parse_wf e buf Hbuf _ _ _ _ H0 E1) as H1. destruct (x_data_parse e buf pos1 x1) as [[x2 pos2]|] eqn:E2; [|done].
    pose proof (x_data_parse_wf e buf _ _ _ _ H1 E2) as H2. rewrite decide_True in H by done.
    destruct (if is_range_pdu _ then _ else _) as [[err3 x3]|] eqn:E3; [|done]. injection H as <- <-.
    destruct (decide (err3 = _)); [|apply clear_wf].
    destruct (is_range_pdu _); [by eapply x_search_range_parse_wf|].
    destruct (is_vb_pdu _); [by eapply x_var_bind_parse_wf|by injection E3 as _ <-].
  - assert (exists p, Some (err1, x1, p) = match err1 with AGENTX_ERR_OK => let* (x, pos) := x_data_parse e buf pos1 x1 in
      Some (AGENTX_ERR_OK, x, pos) | err => Some (err, x1, pos1) end) as [p Ep] by (destruct err1; try done; by eexists).
    rewrite <- Ep in H. rewrite !decide_False in H by done. injection H as _ <-. apply clear_wf.
Qed.

Lemma agentx_decode_wf_witness :
  exists x', agentx_decode LE 0 (x_message LE (mk_xhdr 1 AGENTX_PDU_GET 0 0 1 2 3 0)
      (x_range_bytes LE (mk_xrange [1; 3; 6; 1; 2; 1] 0 [] 0))) (agentx_datagram_clear (x_start (mk_xhdr 0 0 0 0 0 0 0 0) [] (mk_xu [] 0 0)))
    = Some (AGENTX_ERR_OK, x') /\ xdg_wf x'.
Proof.
  eexists. split; [vm_compute; reflexivity|].
  eapply (agentx_decode_wf LE 0 (x_message LE (mk_xhdr 1 AGENTX_PDU_GET 0 0 1 2 3 0)
      (x_range_bytes LE (mk_xrange [1; 3; 6; 1; 2; 1] 0 [] 0))) (x_start (mk_xhdr 0 0 0 0 0 0 0 0) [] (mk_xu [] 0 0)));
    [|vm_compute; reflexivity].
  by apply bytes_check.
Defined.

(** C23: every PDU in the byte order of the host, of any type, with or without a
    context (of at most 40 bytes) and followed by any bytes, is decoded to its
    header, context, ranges and bindings, provided its identifiers have at most
    59 sub-identifiers after the prefix and its values are of the types the
    agent knows, with at most 1024 bytes.  The payload of types without ranges
    or bindings for the agent is left alone.  The identifiers in memory are
    those of the message exactly when they are null or have the short form; the
    others, sent in full, get 1.3.6.1.0 in front. *)
Theorem agentx_decode_roundtrip (e : endian) (junk : Z) (h : x_pdu_hdr) (s : list Z) (b : x_body) (rest : list Z)
    (x : agentx_datagram) (Hh : x_hdr_ok h) (Hw : wire_order (xh_flags h) = e) (Hs : ctx_ok (xh_flags h) s)
    (Hb : body_ok (xh_type h) b) (Hlen : zlen (x_pdu_bytes e h s b) < 2 ^ 32) :
  agentx_decode e junk (x_pdu_bytes e h s b ++ rest) (agentx_datagram_clear x) =
  Some (AGENTX_ERR_OK, x_decoded e junk h s b) /\
  forall ids, x_oid_ok ids ->
    (as_read ids = ids <-> ids = [] \/ short_form ids <> None) /\
    (short_form ids = None -> ids <> [] -> as_read ids = internet ++ 0 :: ids).
Proof.
  split; [by apply decode_spec|]. intros ids _. split; [apply as_read_same|]. intros Hf Hne. unfold as_read. rewrite Hf.
  by destruct ids.
Qed.

Definition in_xhdr (t flags : Z) : x_pdu_hdr := mk_xhdr 1 t flags 0 77 5 9 0.
Definition in_ranges : x_body := XRanges [mk_xrange [1; 3; 6; 1; 1; 0] 0 [1; 3; 6; 1; 2; 0] 0].
Definition in_full : x_body := XRanges [mk_xrange [1; 3; 6; 1; 1; 0] 0 [1; 2; 840] 0].
Definition in_xdg : agentx_datagram := x_start (mk_xhdr 0 0 0 0 0 0 0 0) [] (mk_xu [] 0 0).

Lemma in_xhdr_ok t flags : is_u8 t -> is_u8 flags -> x_hdr_ok (in_xhdr t flags).
Proof. intros Ht Hf. unfold x_hdr_ok. cbn. unfold is_u8, is_u32 in *. lia. Qed.

Lemma in_full_ok t : t ∈ [AGENTX_PDU_GET; AGENTX_PDU_GETNEXT] -> body_ok t in_full.
Proof.
  intros Ht. split; [done|]. split; [|constructor]. constructor; [|constructor].
  split_and!; try (cbn; unfold is_u8; lia).
  - apply (x_oid_internet 1 [0]); [lia|repeat constructor; unfold is_u32; lia|cbn; lia].
  - apply x_oid_full; [done|done|repeat constructor; unfold is_u32; lia|cbn; lia].
Qed.

(** A range from 1.3.6.1.1.0 to 1.2.840, which is sent in full. *)
Lemma agentx_decode_roundtrip_witness :
  agentx_decode BE 0 (x_pdu_bytes BE (in_xhdr AGENTX_PDU_GET 0x18) [112; 117; 98] in_full ++ [0; 0]) (agentx_datagram_clear in_xdg) =
  Some (AGENTX_ERR_OK, x_decoded BE 0 (in_xhdr AGENTX_PDU_GET 0x18) [112; 117; 98] in_full).
Proof.
  refine (proj1 (agentx_decode_roundtrip BE 0 (in_xhdr AGENTX_PDU_GET 0x18) [112; 117; 98] in_full [0; 0] in_xdg _ _ _ _ _)).
  - by apply in_xhdr_ok.
  - reflexivity.
  - split; [cbn; lia|]. intros H. vm_compute in H. discriminate H.
  - apply in_full_ok. by left.
  - reflexivity.
Defined.

(** ** Requests and responses *)
Definition x_requests : list Z :=
  [AGENTX_PDU_GET; AGENTX_PDU_GETNEXT; AGENTX_PDU_GETBULK; AGENTX_PDU_TESTSET; AGENTX_PDU_COMMITSET; AGENTX_PDU_UNDOSET;
   AGENTX_PDU_CLEANUPSET].

Ltac not_in H :=
  exfalso; clear -H; unfold x_requests in H;
  repeat (apply elem_of_cons in H as [H|H]; [discriminate H|]); by apply not_elem_of_nil in H.

Section Replies.
Context {L : Type} (lua_pcall : L -> Z -> Z -> list Z -> lua_arg -> lua_arg -> L * option lua_ret).
Context (e : endian) (junk : Z) (root : mib_node).

(** The answers to a request; the last three phases of a set have none. *)
Definition x_answers_to (t : Z) (b : x_body) (l : L) : option (L * oid_search_res * list (Z * x_var_bind)) :=
  let get := x_get_answer junk (x_mib_get lua_pcall e junk root) in
  let getnext := x_get_answer junk (x_mib_getnext lua_pcall e junk root) in
  match b with
  | XRanges rs =>
      if t =? AGENTX_PDU_GET then x_collect get (map (sr_of junk) rs) l (ret_oid_init SNMP_REQ_GET)
      else x_collect getnext (map (sr_of junk) rs) l (ret_oid_init SNMP_REQ_GETNEXT)
  | XBulk _ _ rs => x_collect getnext (map (sr_of junk) rs) l (ret_oid_init SNMP_REQ_GETNEXT)
  | XBindings bs =>
      x_collect (x_set_answer lua_pcall e junk root) (map (xvb_of e junk) bs) l (ret_oid_init SNMP_REQ_SET)
  | _ => Some (l, ret_oid_init 0, [])
  end.

Lemma collected {A} (answer : A -> L -> oid_search_res -> option (L * oid_search_res * Z * x_var_bind)) (as_ : list A) req x l :
  (let* s := x_for_each (x_step answer) as_ (mk_xstate l (ret_oid_init req) 0 x) in
   let* sent := agentx_response e (xs_xdg s) in Some (xs_lua s, xs_xdg s, sent)) =
  let* (l', r', outs) := x_collect answer as_ l (ret_oid_init req) in
  let* sent := agentx_response e (x_add_answers outs 0 x) in Some (l', x_add_answers outs 0 x, sent).
Proof.
  destruct (x_collect answer as_ l (ret_oid_init req)) as [[[l' r'] outs]|] eqn:E.
  - by destruct (x_for_each_collect answer as_ (mk_xstate l (ret_oid_init req) 0 x) _ _ _ E) as [cnt ->].
  - by rewrite (x_for_each_fault answer as_ (mk_xstate l (ret_oid_init req) 0 x) E).
Qed.

(** The dispatcher, on a decoded request: the answers are computed, and the
    response with them is built. *)
Lemma x_dispatch_reply h s b l : let x := x_decoded e junk h s b in
  xh_type h ∈ x_requests -> body_type (xh_type h) b ->
  agentx_request_dispatch lua_pcall e junk root x l =
  let* (l', r', outs) := x_answers_to (xh_type h) b l in
  let* sent := agentx_response e (x_add_answers outs 0 x) in Some (l', x_add_answers outs 0 x, Some sent).
Proof.
  intros x Ht Hb. unfold agentx_request_dispatch. change (xh_type (x_hdr x)) with (xh_type h).
  destruct b as [rs|nr mr rs|bs|time err idx bs|reason|payload]; cbn [body_type x_answers_to] in *.
  - set (t := xh_type h) in *. clearbody t. x_tags Hb.
    + change (AGENTX_PDU_GET =? AGENTX_PDU_GET) with true. cbn match. unfold agentx_get. rewrite collected.
      change (x_sr_in_list x) with (map (sr_of junk) rs).
      destruct (x_collect _ _ _ _) as [[[? ?] ?]|]; [|done]. by destruct (agentx_response _ _).
    + change (AGENTX_PDU_GETNEXT =? AGENTX_PDU_GET) with false.
      change ((AGENTX_PDU_GETNEXT =? AGENTX_PDU_GETNEXT) || (AGENTX_PDU_GETNEXT =? AGENTX_PDU_GETBULK)) with true. cbn match.
      unfold agentx_getnext. rewrite collected. change (x_sr_in_list x) with (map (sr_of junk) rs).
      destruct (x_collect _ _ _ _) as [[[? ?] ?]|]; [|done]. by destruct (agentx_response _ _).
  - destruct Hb as (-> & _). change (AGENTX_PDU_GETBULK =? AGENTX_PDU_GET) with false.
    change ((AGENTX_PDU_GETBULK =? AGENTX_PDU_GETNEXT) || (AGENTX_PDU_GETBULK =? AGENTX_PDU_GETBULK)) with true. cbn match.
    unfold agentx_getnext. rewrite collected. change (x_sr_in_list x) with (map (sr_of junk) rs).
    destruct (x_collect _ _ _ _) as [[[? ?] ?]|]; [|done]. by destruct (agentx_response _ _).
  - rewrite Hb. change (AGENTX_PDU_TESTSET =? AGENTX_PDU_GET) with false.
    change ((AGENTX_PDU_TESTSET =? AGENTX_PDU_GETNEXT) || (AGENTX_PDU_TESTSET =? AGENTX_PDU_GETBULK)) with false.
    change (AGENTX_PDU_TESTSET =? AGENTX_PDU_TESTSET) with true. cbn match.
    unfold agentx_set. rewrite collected. change (x_vb_in_list x) with (map (xvb_of e junk) bs).
    destruct (x_collect _ _ _ _) as [[[? ?] ?]|]; [|done]. by destruct (agentx_response _ _).
  - destruct Hb as (Hb & _). rewrite Hb in Ht. not_in Ht.
  - rewrite Hb in Ht. not_in Ht.
  - cbn [x_add_answers]. destruct Hb as (_ & _ & Hr & Hv). set (t := xh_type h) in *. clearbody t. unfold x_requests in Ht.
    repeat (apply elem_of_cons in Ht as [->|Ht]; [first [discriminate Hr|discriminate Hv|by destruct (agentx_response _ _)]|]).
    by apply not_elem_of_nil in Ht.
Qed.
End Replies.

(** A well-formed request and its answer: the message [msg] takes the
    interpreter from [l] to [l'] and is answered by [resp]. *)
Inductive x_answered {L} lua_pcall e junk (root : mib_node) : list Z -> L -> L -> list Z -> Prop :=
| x_answered_intro h s b l l' r' outs bs :
    x_hdr_ok h -> wire_order (xh_flags h) = e -> ctx_ok (xh_flags h) s -> body_ok (xh_type h) b ->
    xh_type h ∈ x_requests -> zlen (x_pdu_bytes e h s b) < 2 ^ 32 ->
    x_answers_to lua_pcall e junk root (xh_type h) b l = Some (l', r', outs) ->
    Forall is_u16 outs.*1 -> zlen outs < 2 ^ 16 -> Forall2 (xvb_rep e) outs.*2 bs -> zlen (x_bindings_bytes e bs) < 2 ^ 31 ->
    x_answered lua_pcall e junk root (x_pdu_bytes e h s b) l l'
      (x_message e (response_hdr h) (x_response_body e 0 (first_error outs.*1 1).1 (first_error outs.*1 1).2 bs)).

(** The message is decoded, and its answers are computed and sent. *)
Lemma recv_dispatched {L} lua_pcall e junk (root : mib_node) h s b rest (l : L) x :
  x_hdr_ok h -> wire_order (xh_flags h) = e -> ctx_ok (xh_flags h) s -> body_ok (xh_type h) b ->
  xh_type h ∈ x_requests -> zlen (x_pdu_bytes e h s b) < 2 ^ 32 ->
  agentx_recv lua_pcall e junk root (x_pdu_bytes e h s b ++ rest) (zlen (x_pdu_bytes e h s b)) x l =
  let* (l', r', outs) := x_answers_to lua_pcall e junk root (xh_type h) b l in
  let x' := x_add_answers outs 0 (x_decoded e junk h s b) in
  let* sent := agentx_response e x' in Some (AGENTX_ERR_OK, l', x', Some sent).
Proof.
  intros Hh Hw Hs Hb Hreq Hlen. unfold agentx_recv.
  assert (0 < zlen (x_pdu_bytes e h s b)) as Hpos.
  { unfold x_pdu_bytes, x_message. rewrite zlen_app, zlen_header. pose proof (zlen_nonneg (x_ctx_bytes e (xh_flags h) s ++ body_bytes e b)). lia. }
  rewrite (proj2 (Z.leb_gt _ 0)), decode_spec, decide_True by done.
  rewrite (x_dispatch_reply lua_pcall e junk root h s b l Hreq (proj1 Hb)).
  destruct (x_answers_to _ _ _ _ _ _ _) as [[[? ?] ?]|]; [|done]. by destruct (agentx_response _ _).
Qed.

Lemma recv_answers {L} lua_pcall e junk (root : mib_node) msg (l l' : L) resp rest x :
  x_answered lua_pcall e junk root msg l l' resp ->
  exists x', agentx_recv lua_pcall e junk root (msg ++ rest) (zlen msg) x l = Some (AGENTX_ERR_OK, l', x', Some resp).
Proof.
  intros [h s b l0 l1 r' outs bs Hh Hw Hs Hb Hreq Hlen Hans Herr Hcnt Hrep Hout].
  rewrite recv_dispatched, Hans by done.
  assert (xu_error (body_union e b) = 0 /\ xu_index (body_union e b) = 0) as [Hu1 Hu2].
  { destruct b; try done. destruct Hb as [(Hb & _) _]. rewrite Hb in Hreq. not_in Hreq. }
  pose proof (x_reply e (x_decoded e junk h s b) outs bs eq_refl Hu1 Hu2 Herr Hcnt Hrep) as Hr.
  unfold x_response_body in Hr. rewrite !zlen_app, !zlen_mem_of in Hr. specialize (Hr ltac:(lia)).
  cbv zeta. rewrite Hr. by eexists.
Qed.

(** An answer that keeps the type of an integer and has no bytes: what a TestSet
    that is refused without an error status leaves. *)
Definition hollow (vb : x_var_bind) : Prop :=
  (is_word_tag (xvb_val_type vb) = true \/ xvb_val_type vb = ASN1_TAG_CNT64) /\ xvb_value vb = [].

Lemma put_hollow e vb s : hollow vb -> put_vb_value e vb s = None.
Proof. intros [[Ht|Ht] Hv]; unfold put_vb_value; rewrite Ht, Hv; done. Qed.

Lemma add_answers_out outs k x : x_vb_out_list x = [] -> x_vb_out_list (x_add_answers outs k x) = outs.*2.
Proof. intros H. by rewrite (proj1 (x_add_answers_lists outs k x)), H. Qed.


Definition in_next : x_body := XRanges [mk_xrange [1; 3; 6; 1; 1; 0] 0 [1; 3; 6; 1; 9] 0].
Definition in_answer : x_binding := mk_xbinding ASN1_TAG_INT [1; 3; 6; 1; 2; 0] (XInt 42).
Definition in_xvb : x_var_bind := mk_xvb ([1; 3; 6; 1; 2; 0] ++ replicate 1018 0) 6 ASN1_TAG_INT 4 [42; 0; 0; 0].

Lemma in_xvb_rep : xvb_rep LE in_xvb in_answer.
Proof.
  split; [reflexivity..|]. split.
  - apply x_typed_int; [by left|unfold is_u32; lia].
  - apply (x_oid_internet 2 [0]); [lia|repeat constructor; unfold is_u32; lia|cbn; lia].
Qed.

Lemma in_next_ok : body_ok AGENTX_PDU_GETNEXT in_next.
Proof.
  split; [by right; left|]. split; [|constructor]. constructor; [|constructor].
  split_and!; try (cbn; unfold is_u8; lia).
  - apply (x_oid_internet 1 [0]); [lia|repeat constructor; unfold is_u32; lia|cbn; lia].
  - apply (x_oid_internet 9 []); [lia|constructor|cbn; lia].
Qed.


(** ** Malformed lengths *)
Section Aligned.
Context (e : endian) (junk : Z) (buf : list Z).

Lemma to_nat_quad q : Z.to_nat (4 * q) = (4 * Z.to_nat q)%nat.
Proof. lia. Qed.

Lemma value_dec_quad pos t pos' n bs : agentx_value_dec e buf pos t = Some (pos', n, bs) -> exists k, pos' = (pos + 4 * k)%nat.
Proof.
  unfold agentx_value_dec. intros H. destruct (is_word_tag t).
  { destruct (slice pos 4 buf); [|done]. injection H as <- _ _. by exists 1%nat. }
  destruct (t =? _). { destruct (slice pos 8 buf); [|done]. injection H as <- _ _. by exists 2%nat. }
  destruct (is_string_tag t).
  - destruct (rd e 4 buf pos) as [ret|]; [|done]. destruct (slice _ _ buf); [|done]. injection H as <- _ _.
    rewrite uint_sizeof_eq, to_nat_quad. exists (1 + Z.to_nat ((ret + 3) / 4))%nat. lia.
  - destruct (t =? _); [|injection H as <- _ _; by exists 0%nat].
    destruct (buf !! pos) as [k|]; [|done]. destruct (buf !! S pos) as [q|]; [|done].
    destruct (_ && _); [injection H as <- _ _; by exists 1%nat|]. destruct (slice _ _ buf); [|done]. injection H as <- _ _.
    exists (1 + Z.to_nat k)%nat. lia.
Qed.

Lemma skip_ids_quad pos pos0 len : agentx_value_dec_try e buf pos0 ASN1_TAG_OBJID = Some len ->
  exists k, skip_ids pos len = (pos + 4 * k)%nat.
Proof.
  x_switch. destruct (buf !! pos0) as [n|]; [|done]. destruct (buf !! S pos0) as [q|]; [|done]. intros H. unfold skip_ids.
  destruct (len >? 0) eqn:G; [|by exists 1%nat]. destruct (_ && _); injection H as <-; [done|].
  exists (Z.to_nat (n + 1)). rewrite <- to_nat_quad. f_equal. f_equal. lia.
Qed.

Lemma ids_dec_quad pos room pos' n cells : ids_dec e junk buf pos room = Some (pos', n, cells) -> exists k, pos' = (pos + 4 * k)%nat.
Proof.
  unfold ids_dec. intros H. destruct (agentx_value_dec e buf pos _) as [[[p m] bs]|] eqn:E; [|done].
  destruct (load_oid _ _ _); [|done]. destruct (blit _ _); [|done]. injection H as <- _ _. by eapply value_dec_quad.
Qed.

(** Every range and binding takes a multiple of four bytes. *)
Lemma x_search_range_alloc_quad pos sr pos' : x_search_range_alloc e junk buf pos = Some (inr (sr, pos')) ->
  exists k, pos' = (pos + 4 * k)%nat.
Proof.
  unfold x_search_range_alloc. intros H.
  destruct (agentx_value_dec_try e buf pos _) as [n1|] eqn:E1; [|done]. destruct (_ >? _); [done|].
  destruct (buf !! (pos + 2)%nat); [|done].
  destruct (agentx_value_dec_try e buf (skip_ids pos n1) _) as [n2|]; [|done]. destruct (n2 / 4 >? _); [done|].
  destruct (buf !! (skip_ids pos n1 + 2)%nat); [|done]. destruct (ids_dec e junk buf pos n1) as [[[p1 m1] c1]|]; [|done].
  destruct (ids_dec e junk buf (skip_ids pos n1) n2) as [[[p2 m2] c2]|] eqn:D2; [|done]. injection H as _ <-.
  destruct (skip_ids_quad pos pos n1 E1) as [k1 Ek]. destruct (ids_dec_quad _ _ _ _ _ D2) as [k2 ->]. exists (k1 + k2)%nat. lia.
Qed.

Lemma x_var_bind_alloc_quad pos flag vb pos' : x_var_bind_alloc e junk buf pos flag = Some (inr (vb, pos')) ->
  exists k, pos' = (pos + 4 * k)%nat.
Proof.
  unfold x_var_bind_alloc. intros H. destruct (rd e 2 buf pos) as [t|]; [|done].
  destruct (agentx_value_dec_try e buf (pos + 4) _) as [n1|] eqn:E1; [|done]. destruct (_ >? _); [done|].
  destruct (agentx_value_dec_try e buf (skip_ids (pos + 4) n1) _) as [n|]; [|done]. destruct (n >? _); [done|].
  destruct (ids_dec e junk buf (pos + 4) _) as [[[p1 m1] c1]|]; [|done].
  destruct (agentx_value_dec e buf (skip_ids (pos + 4) n1) _) as [[[p2 len] bs]|] eqn:Ed; [|done].
  destruct (blit _ _); [|done]. injection H as _ <-.
  destruct (skip_ids_quad (pos + 4) _ n1 E1) as [k1 Ek]. destruct (value_dec_quad _ _ _ _ _ Ed) as [k2 ->].
  exists (1 + k1 + k2)%nat. lia.
Qed.

Lemma u32_quad p k : u32 (p - Z.of_nat (4 * k)) mod 4 = p mod 4.
Proof. unfold u32. Z.div_mod_to_equations. lia. Qed.

(** The loops end normally only when the payload is used up, which it never is
    when its length is not a multiple of four. *)
Lemma x_search_range_parse_quad fuel : forall pos x x', 0 <= xh_payload_length (x_hdr x) ->
  x_search_range_parse e junk fuel buf pos x = Some (AGENTX_ERR_OK, x') -> xh_payload_length (x_hdr x) mod 4 = 0.
Proof.
  induction fuel as [|fuel IH]; intros pos x x' Hp H; [done|]. cbn [x_search_range_parse] in H.
  destruct (_ >? 0) eqn:G; [|rewrite Z.gtb_ltb in G; apply Z.ltb_ge in G; by replace (xh_payload_length (x_hdr x)) with 0 by lia].
  destruct (x_search_range_alloc e junk buf pos) as [[err|[sr pos']]|] eqn:E; [| |done].
  - injection H as -> _. unfold x_search_range_alloc in E. exfalso.
    repeat (match type of E with context [match ?c with _ => _ end] => destruct c; try done end).
  - apply IH in H; [|cbn; apply u32_range]. destruct (x_search_range_alloc_quad _ _ _ E) as [k ->].
    change (u32 (xh_payload_length (x_hdr x) - Z.of_nat (pos + 4 * k - pos)) mod 4 = 0) in H.
    replace (pos + 4 * k - pos)%nat with (4 * k)%nat in H by lia. by rewrite u32_quad in H.
Qed.

Lemma x_var_bind_parse_quad fuel : forall pos x x', 0 <= xh_payload_length (x_hdr x) ->
  x_var_bind_parse e junk fuel buf pos x = Some (AGENTX_ERR_OK, x') -> xh_payload_length (x_hdr x) mod 4 = 0.
Proof.
  induction fuel as [|fuel IH]; intros pos x x' Hp H; [done|]. cbn [x_var_bind_parse] in H.
  destruct (_ >? 0) eqn:G; [|rewrite Z.gtb_ltb in G; apply Z.ltb_ge in G; by replace (xh_payload_length (x_hdr x)) with 0 by lia].
  destruct (x_var_bind_alloc e junk buf pos _) as [[err|[vb pos']]|] eqn:E; [| |done].
  - injection H as -> _. unfold x_var_bind_alloc in E. exfalso.
    repeat (match type of E with context [match ?c with _ => _ end] => destruct c; try done end).
  - apply IH in H; [|cbn; apply u32_range]. destruct (x_var_bind_alloc_quad _ _ _ _ E) as [k ->].
    change (u32 (xh_payload_length (x_hdr x) - Z.of_nat (pos + 4 * k - pos)) mod 4 = 0) in H.
    replace (pos + 4 * k - pos)%nat with (4 * k)%nat in H by lia. by rewrite u32_quad in H.
Qed.
End Aligned.

(** Nor does what precedes them. *)
Lemma x_ctx_parse_quad e buf pos x x' pos' : x_ctx_parse e buf pos x = Some (AGENTX_ERR_OK, x', pos') ->
  0 <= xh_payload_length (x_hdr x) ->
  0 <= xh_payload_length (x_hdr x') /\ xh_payload_length (x_hdr x') mod 4 = xh_payload_length (x_hdr x) mod 4 /\
  xh_type (x_hdr x') = xh_type (x_hdr x).
Proof.
  unfold x_ctx_parse. intros H Hp. destruct (nz _); [|by injection H as <- _].
  destruct (ax_rd e 4 buf pos _) as [n|]; [|done]. destruct (_ >? _); [done|]. destruct (slice _ _ buf); [|done].
  destruct (blit _ _); [|done]. injection H as <- _.
  assert (4 + Z.to_nat (uint_sizeof n) = 4 * (1 + Z.to_nat ((n + 3) / 4)))%nat as Hk by (rewrite uint_sizeof_eq, to_nat_quad; lia).
  change (S (S (S (S (Z.to_nat (uint_sizeof n)))))) with (4 + Z.to_nat (uint_sizeof n))%nat. rewrite Hk. split; [cbn; apply u32_range|]. split; [|done]. apply u32_quad.
Qed.

Lemma x_data_parse_quad e buf pos x x' pos' : x_data_parse e buf pos x = Some (x', pos') ->
  0 <= xh_payload_length (x_hdr x) ->
  0 <= xh_payload_length (x_hdr x') /\ xh_payload_length (x_hdr x') mod 4 = xh_payload_length (x_hdr x) mod 4 /\
  xh_type (x_hdr x') = xh_type (x_hdr x).
Proof.
  unfold x_data_parse. intros H Hp.
  assert (forall k u y, x_hdr y = x_hdr x -> let y' := consume (4 * k) (set_xu u y) in
    0 <= xh_payload_length (x_hdr y') /\ xh_payload_length (x_hdr y') mod 4 = xh_payload_length (x_hdr x) mod 4 /\
    xh_type (x_hdr y') = xh_type (x_hdr x)) as Hc.
  { intros k u y Hy. split; [cbn; apply u32_range|]. rewrite <- Hy. split; [apply u32_quad|done]. }
  repeat match type of H with
  | (if ?c then _ else _) = _ => destruct c
  | match ?c with _ => _ end = _ => destruct c; [|done]
  end; injection H as <- _.
  1,2: by apply (Hc 1%nat).
  - by apply (Hc 2%nat).
  - done.
Qed.

(** A Get, GetNext, GetBulk, TestSet or Response PDU whose payload length is
    not a multiple of four is never accepted: the remaining length wraps
    instead of reaching zero, and the decoder reads on until it rejects an item
    or leaves the buffer. *)
Theorem agentx_decode_aligned (e : endian) (junk : Z) (buf : list Z) (x x' : agentx_datagram) (h : x_pdu_hdr)
    (Hbuf : bytes buf) (Hh : x_hdr_read e buf = Some h)
    (Hk : is_range_pdu (xh_type h) || is_vb_pdu (xh_type h) = true)
    (H : agentx_decode e junk buf (agentx_datagram_clear x) = Some (AGENTX_ERR_OK, x')) :
  xh_payload_length h mod 4 = 0.
Proof.
  assert (0 <= xh_payload_length h) as Hp.
  { unfold x_hdr_read in Hh. unfold ax_rd, rd in Hh. repeat (destruct (buf !! _) in Hh; [|done]).
    destruct (slice 4 4 buf); [|done]. destruct (slice 8 4 buf); [|done]. destruct (slice 12 4 buf); [|done].
    destruct (slice 16 4 buf) as [b4|] eqn:E4; [|done]. injection Hh as <-. cbn.
    rewrite axtoh_val_of by (by eapply slice_length || by eapply slice_Forall).
    apply (val_of_bound _ b4). by eapply slice_Forall. }
  unfold agentx_decode, x_pdu_hdr_parse in H. rewrite Hh in H.
  destruct (x_ctx_parse e buf 20 _) as [[[err1 x1] pos1]|] eqn:E1; [|done].
  destruct (decide (err1 = AGENTX_ERR_OK)) as [->|Hne].
  2:{ destruct err1; [done|..]; rewrite !decide_False in H by done; done. }
  destruct (x_ctx_parse_quad _ _ _ _ _ _ E1 Hp) as (Hp1 & Hm1 & Ht1).
  destruct (x_data_parse e buf pos1 x1) as [[x2 pos2]|] eqn:E2; [|done].
  destruct (x_data_parse_quad _ _ _ _ _ _ E2 Hp1) as (Hp2 & Hm2 & Ht2). rewrite decide_True in H by done.
  destruct (if is_range_pdu _ then _ else _) as [[err3 x3]|] eqn:E3; [|done]. injection H as -> _.
  cbn [x_hdr set_xhdr] in *. rewrite Ht2, Ht1 in E3. rewrite <- Hm1, <- Hm2. clear -E3 Hk Hp2.
  destruct (is_range_pdu _); [by eapply x_search_range_parse_quad|]. cbn [orb] in Hk. rewrite Hk in E3.
  by eapply x_var_bind_parse_quad.
Qed.

Lemma agentx_decode_aligned_witness :
  xh_payload_length (set_payload 16 (in_xhdr AGENTX_PDU_GET 0)) mod 4 = 0.
Proof.
  eapply (agentx_decode_aligned LE 0 (x_pdu_bytes LE (in_xhdr AGENTX_PDU_GET 0) [] in_ranges) in_xdg);
    [by apply bytes_check|vm_compute; reflexivity|reflexivity|vm_compute; reflexivity].
Defined.

(** ** Byte order *)
Lemma val_of_other e w n v : w <> e -> val_of e (mem_of w n v) = bswap n v.
Proof. intros H. by destruct e, w. Qed.

Lemma load_oid_other e w ids rest : w <> e -> load_oid e (store_oid w ids ++ rest) (length ids) = Some (map (bswap 4) ids).
Proof.
  intros H. induction ids as [|id ids IH]; [done|]. cbn [length load_oid store_oid map]. unfold load_uint.
  rewrite <- app_assoc, slice_app by (by rewrite length_mem_of). rewrite val_of_other by done.
  by rewrite drop_app_length', IH by (by rewrite length_mem_of).
Qed.

(** An identifier in either byte order: the sub-identifiers are copied. *)
Lemma objid_dec_any e w pre rest inc p ids : 0 < p < 256 ->
  let buf := pre ++ x_objid w inc (internet ++ p :: ids) ++ rest in
  agentx_value_dec_try e buf (length pre) ASN1_TAG_OBJID = Some ((zlen ids + 5) * 4) /\
  agentx_value_dec e buf (length pre) ASN1_TAG_OBJID =
    Some ((length pre + length (x_objid w inc (internet ++ p :: ids)))%nat, zlen ids + 5,
          store_oid e [1; 3; 6; 1; p] ++ store_oid w ids).
Proof.
  intros Hp buf. subst buf. rewrite x_objid_internet by done. x_switch. rewrite <- app_assoc.
  set (hd := [zlen ids; p; inc; 0]).
  rewrite (lookup_mid pre hd _ (length pre) 0 (zlen ids)), (lookup_mid pre hd _ (S (length pre)) 1 p) by (done || lia).
  rewrite (proj2 (Z.eqb_neq p 0)), andb_false_r by lia.
  rewrite Zto_nat_zlen, (app_assoc pre), (slice_mid (pre ++ hd) (store_oid w ids))
    by (rewrite ?length_store_oid, ?length_app; cbn [hd length]; lia).
  split; [done|]. rewrite length_app, length_store_oid. cbn [hd length]. do 3 f_equal. lia.
Qed.

(** In a message whose byte order is not the one of the host the header and
    the types are converted, but integer values and sub-identifiers are not:
    every one of them is decoded with its bytes reversed. *)
Theorem x_var_bind_alloc_unswapped (e : endian) (junk flags p v : Z) (ids pre rest : list Z)
    (Hw : wire_order flags <> e) (Hp : 0 < p < 256) (Hl : (length ids <= 59)%nat) (Hv : is_u32 v) :
  let b := mk_xbinding ASN1_TAG_INT (internet ++ p :: ids) (XInt v) in
  exists vb pos, x_var_bind_alloc e junk (pre ++ x_binding_bytes (wire_order flags) b ++ rest) (length pre) flags =
    Some (inr (vb, pos)) /\
    xvb_val_type vb = ASN1_TAG_INT /\ xvb_ids vb = Some (internet ++ p :: map (bswap 4) ids) /\
    load_uint e (xvb_value vb) = Some (bswap 4 v).
Proof.
  intros b. set (w := wire_order flags) in *. unfold x_var_bind_alloc, x_binding_bytes. cbn [b xb_type xb_oid xb_value x_value_bytes].
  rewrite <- !app_assoc. rewrite rd_mid by (by rewrite ?length_mem_of).
  pose proof (axtoh_val_of e 2 flags (mem_of w 2 ASN1_TAG_INT) ltac:(by rewrite length_mem_of) ltac:(apply mem_of_bytes)) as Ht.
  unfold axtoh in Ht. fold w in Ht. rewrite Ht, val_of_mem_of. change (ASN1_TAG_INT mod 256 ^ Z.of_nat 2) with ASN1_TAG_INT.
  change (u8 ASN1_TAG_INT) with ASN1_TAG_INT.
  set (T := mem_of w 2 ASN1_TAG_INT ++ [0; 0]). set (O := x_objid w 0 (internet ++ p :: ids)).
  assert (length T = 4%nat) as HT by (unfold T; by rewrite length_app, length_mem_of).
  assert (pre ++ mem_of w 2 ASN1_TAG_INT ++ [0; 0] ++ O ++ mem_of w 4 v ++ rest = (pre ++ T) ++ O ++ mem_of w 4 v ++ rest) as ->
    by (unfold T; by rewrite <- !app_assoc).
  assert ((length pre + 4)%nat = length (pre ++ T)) as -> by (by rewrite length_app, HT).
  destruct (objid_dec_any e w (pre ++ T) (mem_of w 4 v ++ rest) 0 p ids Hp) as [Htry Hdec]. fold O in Htry, Hdec.
  rewrite Htry. assert ((zlen ids + 5) * 4 / 4 = zlen ids + 5) as Hq by (rewrite Z.div_mul; lia). rewrite Hq.
  assert (zlen ids = Z.of_nat (length ids)) as Hz by done.
  unfold ASN1_OID_MAX_LEN. rewrite Z.gtb_ltb, (proj2 (Z.ltb_ge 64 _)) by lia.
  assert (skip_ids (length (pre ++ T)) ((zlen ids + 5) * 4) = length ((pre ++ T) ++ O)) as ->.
  { unfold skip_ids, O. rewrite Z.gtb_ltb, (proj2 (Z.ltb_lt 0 _)) by lia. rewrite (length_app (pre ++ T)), x_objid_internet by done.
    rewrite (length_app _ (store_oid w ids)), length_store_oid. cbn [length]. lia. }
  change (agentx_value_dec_try e _ _ ASN1_TAG_INT) with (Some 8). cbn match. change (8 >? ASN1_VALUE_MAX_LEN) with false. cbn match.
  unfold ids_dec. rewrite Hdec.
  assert (load_oid e (store_oid e [1; 3; 6; 1; p] ++ store_oid w ids) (Z.to_nat (zlen ids + 5)) =
    Some ([1; 3; 6; 1; p] ++ map (bswap 4) ids)) as ->.
  { replace (Z.to_nat (zlen ids + 5)) with (S (S (S (S (S (length ids)))))) by lia.
    pose proof (load_oid_other e w ids [] Hw) as Hload. rewrite app_nil_r in Hload.
    cbn [store_oid load_oid]. rewrite app_nil_r, <- !app_assoc.
    do 5 (rewrite load_uint_mem_of, u32_id by (unfold is_u32; lia); rewrite drop_app_length' by (by rewrite length_mem_of)).
    by rewrite Hload. }
  rewrite blit_all by (rewrite length_app, length_map, length_replicate; cbn [length]; lia).
  unfold agentx_value_dec. change (is_word_tag ASN1_TAG_INT) with true. cbn match.
  rewrite (app_assoc (pre ++ T)), slice_mid by (by rewrite ?length_mem_of).
  rewrite blit_replicate by (rewrite length_mem_of; cbn; lia). do 2 eexists. split; [done|]. split; [done|]. split.
  - unfold xvb_ids. cbn [xvb_oid_len xvb_oid]. replace (Z.to_nat (zlen ids + 5)) with (length ([1; 3; 6; 1; p] ++ map (bswap 4) ids))
      by (rewrite length_app, length_map; cbn [length]; lia). apply slice_self.
  - cbn [xvb_value]. unfold load_uint. rewrite slice_app by (by rewrite length_mem_of). by rewrite val_of_other.
Qed.

Lemma x_var_bind_alloc_unswapped_witness :
  exists vb pos, x_var_bind_alloc LE 0 (x_binding_bytes BE (mk_xbinding ASN1_TAG_INT [1; 3; 6; 1; 2; 1] (XInt 7))) 0 NETWORD_BYTE_ORDER
      = Some (inr (vb, pos)) /\ xvb_ids vb = Some [1; 3; 6; 1; 2; 0x1000000] /\ load_uint LE (xvb_value vb) = Some 0x7000000.
Proof.
  destruct (x_var_bind_alloc_unswapped LE 0 NETWORD_BYTE_ORDER 2 7 [1] [] []) as (vb & pos & E & _ & Hi & Hv);
    [discriminate|lia|cbn; lia|unfold is_u32; lia|].
  cbn [app] in E. rewrite app_nil_r in E. exists vb, pos. exact (conj E (conj Hi Hv)).
Defined.

(** A context length of 2^32 - 1 passes the test against the size of the
    context, because the addition of one wraps, and the copy that follows leaves
    the context, if not the buffer. *)
Theorem agentx_ctx_len_wraps (e : endian) (junk : Z) (h : x_pdu_hdr) (n : Z) (rest : list Z) (x : agentx_datagram)
    (Hh : x_hdr_ok h) (Hn : is_u32 n) (Hf : nz (Z.land (xh_flags h) NON_DEFAULT_CONTEXT) = true) :
  agentx_decode e junk (x_header (wire_order (xh_flags h)) h n ++ mem_of (wire_order (xh_flags h)) 4 (2 ^ 32 - 1) ++ rest)
    (agentx_datagram_clear x) = None.
Proof.
  unfold agentx_decode, x_pdu_hdr_parse. rewrite x_hdr_read_spec by done.
  unfold x_ctx_parse. cbn [x_hdr set_xhdr xh_flags set_payload]. rewrite Hf.
  rewrite ax_rd_spec by (pose proof (zlen_header (wire_order (xh_flags h)) h n); unfold zlen in *; lia).
  change ((2 ^ 32 - 1) mod 256 ^ Z.of_nat 4) with (2 ^ 32 - 1). change (u32 (2 ^ 32 - 1 + 1)) with 0.
  change (0 >? Z.of_nat CONTEXT_SIZE) with false. cbn match.
  destruct (slice _ _ _) as [bs|] eqn:Es; [|done]. apply slice_length in Es. unfold blit. rewrite decide_False; [done|].
  cbn [x_context set_context set_xhdr agentx_datagram_clear]. rewrite length_replicate, Es. unfold CONTEXT_SIZE. lia.
Qed.

Lemma agentx_ctx_len_wraps_witness :
  agentx_decode LE 0 (x_header LE (in_xhdr AGENTX_PDU_GET 8) 4 ++ mem_of LE 4 (2 ^ 32 - 1) ++ []) (agentx_datagram_clear in_xdg) = None.
Proof.
  apply (agentx_ctx_len_wraps LE 0 (in_xhdr AGENTX_PDU_GET 8) 4 [] in_xdg).
  - by apply in_xhdr_ok.
  - unfold is_u32. lia.
  - reflexivity.
Defined.
