(* ===== verification/Agentx.v ===== *)
(** * The AgentX session ([src/core/agentx.c])

    The sub-agent opens a session with the master agent, registers and
    unregisters regions and closes the session; each of these sends a PDU and
    waits for the response on the same socket.  The network is a parameter: a
    state [N] with [send] (false when it fails) and [recv] (the bytes received,
    [None] when it fails). *)
From Stdlib Require Import String.
From S2P Require Import Prelude BerEncoder BerDecoder Oid MibTree MibSearch AgentxData AgentxWire AgentxCodec AgentxOut AgentxProc AgentxIn.
Local Open Scope Z_scope.

Definition TRANSP_BUF_SIZ : nat := Z.to_nat 65536.

(** The characters of a C string literal. *)
Fixpoint chars (s : string) : list Z :=
  match s with
  | EmptyString => []
  | String a s' => Z.of_N (Ascii.N_of_ascii a) :: chars s'
  end.

Section Session.
Context {N L : Type}.
Context (send : N -> list Z -> N * bool) (recv : N -> N * option (list Z)) (close : N -> N).
Context (lua_pcall : L -> Z -> Z -> list Z -> lua_arg -> lua_arg -> L * option lua_ret) (luaL_unref : Z -> L -> L).
Context (e : endian) (junk : Z).

(** The network, the interpreter, the datagram and the MIB tree. *)
Record session := mk_session {
  ss_net : N;
  ss_lua : L;
  ss_xdg : agentx_datagram;
  ss_mib : mib_node;
}.

(** [agentx_recv] on a message of [len] bytes in [buf]; what it answers is sent. *)
Definition session_recv (buf : list Z) (len : Z) (s : session) : option (agentx_err_code * session) :=
  let* (err, l, x, out) := agentx_recv lua_pcall e junk (ss_mib s) buf len (ss_xdg s) (ss_lua s) in
  let n := match out with Some m => (send (ss_net s) m).1 | None => ss_net s end in
  Some (err, mk_session n l x (ss_mib s)).

(** The buffer of the PDU is resized and reused for the response. *)
Definition resize (pdu : list Z) : list Z :=
  take TRANSP_BUF_SIZ pdu ++ replicate (TRANSP_BUF_SIZ - length pdu) junk.

(** Sending a PDU and receiving its response: whether the response was
    parsed. *)
Definition exchange (pdu : list Z) (s : session) : option (bool * session) :=
  let (n, sent) := send (ss_net s) pdu in
  let s := mk_session n (ss_lua s) (ss_xdg s) (ss_mib s) in
  if negb sent then Some (false, s)
  else
    let (n, got) := recv (ss_net s) in
    let s := mk_session n (ss_lua s) (ss_xdg s) (ss_mib s) in
    match got with
    | None => Some (false, s)
    | Some bs =>
        let* buf := blit bs (resize pdu) in
        let* (err, s) := session_recv buf (zlen bs) s in
        Some (bool_decide (err = AGENTX_ERR_OK), s)
    end.

Definition with_xdg (x : agentx_datagram) (s : session) : session := mk_session (ss_net s) (ss_lua s) x (ss_mib s).
Definition with_mib (root : mib_node) (s : session) : session := mk_session (ss_net s) (ss_lua s) (ss_xdg s) root.

(** ** Registration *)

(** [id_len < 4 || grp_id[0] != 1 || ...] *)
Definition bad_prefix (grp_id : list Z) : bool := negb (bool_decide (take 4 grp_id = [1; 3; 6; 1])).

Definition agentx_mib_node_reg (grp_id : list Z) (grp_cb : Z) (s : session) : option (Z * session) :=
  if bad_prefix grp_id then Some (-1, s)
  else
    let* (x, pdu) := agentx_register_pdu e (ss_xdg s) grp_id (zlen grp_id) [] 0 0 127 0 0 in
    let* (ok, s) := exchange pdu (with_xdg x s) in
    if negb ok then Some (-1, s)
    else
      let* (ret, dummy) := mib_node_reg (Some (ss_mib s)) grp_id grp_cb in
      let* root := dummy in Some (ret, with_mib root s).

Definition agentx_mib_node_unreg (grp_id : list Z) (s : session) : option (Z * session) :=
  if bad_prefix grp_id then Some (-1, s)
  else
    let* (x, pdu) := agentx_unregister_pdu e (ss_xdg s) grp_id (zlen grp_id) [] 0 0 127 0 0 in
    let* (ok, s) := exchange pdu (with_xdg x s) in
    if negb ok then Some (-1, s)
    else
      let* (dummy, log) := mib_node_unreg (Some (ss_mib s)) grp_id in
      let* root := dummy in
      Some (0, mk_session (ss_net s) (release luaL_unref log (ss_lua s)) (ss_xdg s) root).

(** ** Opening and closing *)
Definition open_descr : list Z := chars "SmithSNMP AgentX sub-agent".

Definition agentx_open (s : session) : option (Z * session) :=
  let* pdu := agentx_open_pdu e (ss_xdg s) [] 0 open_descr (zlen open_descr) in
  let* (ok, s) := exchange pdu s in Some (if ok then 0 else -1, s).

Definition agentx_close (s : session) : option (Z * session) :=
  let* (x, pdu) := agentx_close_pdu e (ss_xdg s) R_SHUTDOWN in
  let* (ok, s) := exchange pdu (with_xdg x s) in
  if ok then Some (0, mk_session (close (ss_net s)) (ss_lua s) (ss_xdg s) (ss_mib s)) else Some (-1, s).

(** [agentx_receive], the callback of the transport. *)
Definition agentx_receive (buf : list Z) (len : Z) (s : session) : option session :=
  let* (_, s) := session_recv buf len s in Some s.

(** ** The exchange with a master that responds *)

(** The master accepts [pdu] and answers with the response [h], [s], [body]. *)
Definition responds (n : N) (pdu : list Z) (n' : N) (h : x_pdu_hdr) (ctx : list Z) (time error index : Z)
    (bs : list x_binding) : Prop :=
  let body := XResponse time error index bs in
  (exists n1, send n pdu = (n1, true) /\ recv n1 = (n', Some (x_pdu_bytes e h ctx body))) /\
  x_hdr_ok h /\ wire_order (xh_flags h) = e /\ ctx_ok (xh_flags h) ctx /\ body_ok (xh_type h) body /\
  zlen (x_pdu_bytes e h ctx body) <= 65536.

Lemma length_resize pdu : length (resize pdu) = TRANSP_BUF_SIZ.
Proof. unfold resize. rewrite length_app, length_take, length_replicate. lia. Qed.

Lemma exchange_responds s pdu n' h ctx time error index bs :
  responds (ss_net s) pdu n' h ctx time error index bs ->
  exchange pdu s =
  Some (true, mk_session n' (ss_lua s) (x_decoded e junk h ctx (XResponse time error index bs)) (ss_mib s)).
Proof.
  intros ((n1 & Hs & Hr) & Hh & Hw & Hc & Hb & Hl). set (body := XResponse time error index bs) in *.
  unfold exchange. rewrite Hs. cbn [negb ss_net]. rewrite Hr.
  assert (20 <= zlen (x_pdu_bytes e h ctx body)) as Hpos.
  { unfold x_pdu_bytes, x_message. rewrite zlen_app, zlen_header. pose proof (zlen_nonneg (x_ctx_bytes e (xh_flags h) ctx ++ body_bytes e body)). lia. }
  unfold blit. rewrite length_resize, decide_True by (unfold TRANSP_BUF_SIZ, zlen in *; lia).
  unfold session_recv, agentx_recv. cbn [ss_xdg ss_lua ss_mib ss_net].
  rewrite (proj2 (Z.leb_gt _ 0)), decode_spec, decide_True by (done || lia).
  unfold agentx_request_dispatch. change (xh_type (x_hdr (x_decoded e junk h ctx body))) with (xh_type h).
  destruct Hb as [(-> & _) _]. done.
Qed.

(** The PDUs of a session, in the reference encoding; [h] is the header of the
    last response. *)
Definition open_msg (h : x_pdu_hdr) : list Z :=
  x_message e (open_hdr e h) (replicate 4 0 ++ x_objid e 0 [] ++ x_octstr e (padded open_descr)).

Definition region_msg (type : Z) (h : x_pdu_hdr) (oid : list Z) : list Z :=
  x_message e (packet_hdr type (Z.lor (xh_flags h) INSTANCE_REGISTRATION) h) ([0; 127; 0; 0] ++ x_objid e 0 oid).

Definition close_msg (h : x_pdu_hdr) : list Z :=
  x_message e (packet_hdr AGENTX_PDU_CLOSE (xh_flags h) h) (mem_of e 4 R_SHUTDOWN).

(** The datagram after a response, and its header. *)
Abbreviation responded h ctx time error index bs := (x_decoded e junk h ctx (XResponse time error index bs)).

Lemma open_step s n' h ctx time error index bs :
  responds (ss_net s) (open_msg (x_hdr (ss_xdg s))) n' h ctx time error index bs ->
  agentx_open s = Some (0, mk_session n' (ss_lua s) (responded h ctx time error index bs) (ss_mib s)).
Proof.
  intros Hr. unfold open_msg in Hr. unfold agentx_open. pose proof (open_pdu_spec e (ss_xdg s) [] open_descr (or_introl eq_refl)) as Ho.
  change (zlen (A := Z) []) with 0 in Ho. rewrite Ho by (vm_compute; discriminate).
  by rewrite (exchange_responds s _ n' h ctx time error index bs Hr).
Qed.

Lemma good_prefix oid : x_oid_short oid -> bad_prefix oid = false.
Proof. intros [p rest]. unfold bad_prefix. by rewrite bool_decide_true. Qed.

Lemma region_pdu_msg type put_timeout x oid : writes put_timeout [0] -> x_oid_short oid -> zlen oid <= 59 ->
  region_pdu e type put_timeout x oid (zlen oid) [] 0 127 0 0 = Some (next_packet x, region_msg type (x_hdr x) oid).
Proof.
  intros Hp Ho Hl. pose proof (region_pdu_spec e type put_timeout 0 x oid [] 127 0 0 Hp Ho Hl ltac:(done)) as H.
  change (zlen (A := Z) []) with 0 in H. rewrite H. cbn [nz negb Z.eqb]. rewrite app_nil_r. done.
Qed.

Lemma reg_step s n' h ctx time error index bs oid cb w :
  x_oid_short oid -> zlen oid <= 59 -> root_wf w (ss_mib s) -> 0 <= w <= GROUP_MAX ->
  responds (ss_net s) (region_msg AGENTX_PDU_REG (x_hdr (ss_xdg s)) oid) n' h ctx time error index bs ->
  exists root', agentx_mib_node_reg oid cb s =
    Some ((a_reg (shape (ss_mib s)) oid cb).1, mk_session n' (ss_lua s) (responded h ctx time error index bs) root') /\
    root_wf (w + 1) root' /\ forall o, shape root' o = (a_reg (shape (ss_mib s)) oid cb).2 o.
Proof.
  intros Ho Hl Hwf Hw Hr. unfold agentx_mib_node_reg. rewrite good_prefix by done. unfold agentx_register_pdu.
  rewrite region_pdu_msg by (done || apply writes_byte).
  rewrite (exchange_responds (with_xdg (next_packet (ss_xdg s)) s) _ n' h ctx time error index bs Hr). cbn [negb ss_mib ss_lua with_xdg].
  destruct (reg_spec (ss_mib s) w oid cb Hwf (x_short_words oid Ho) Hw) as (root' & -> & Hwf' & Hs).
  by exists root'.
Qed.

Lemma unreg_step s n' h ctx time error index bs oid w :
  x_oid_short oid -> zlen oid <= 59 -> root_wf w (ss_mib s) ->
  responds (ss_net s) (region_msg AGENTX_PDU_UNREG (x_hdr (ss_xdg s)) oid) n' h ctx time error index bs ->
  exists root' cbs, agentx_mib_node_unreg oid s =
    Some (0, mk_session n' (foldl (fun l cb => luaL_unref cb l) (ss_lua s) cbs) (responded h ctx time error index bs) root') /\
    released (shape (ss_mib s)) oid cbs /\ root_wf w root' /\ forall o, shape root' o = a_unreg (shape (ss_mib s)) oid o.
Proof.
  intros Ho Hl Hwf Hr. unfold agentx_mib_node_unreg. rewrite good_prefix by done. unfold agentx_unregister_pdu.
  rewrite region_pdu_msg by (done || apply (writes_gap 1)).
  rewrite (exchange_responds (with_xdg (next_packet (ss_xdg s)) s) _ n' h ctx time error index bs Hr). cbn [negb ss_mib ss_lua with_xdg].
  destruct (unreg_spec (ss_mib s) w oid Hwf) as (root' & log & E & Hwf' & Hs & _).
  destruct (frees_released luaL_unref (ss_mib s) w oid _ log (ss_lua s) Hwf E) as (cbs & Hc & El).
  rewrite E. exists root', cbs. cbn [ss_net ss_xdg]. by rewrite <- El.
Qed.

Lemma close_step s n' h ctx time error index bs :
  responds (ss_net s) (close_msg (x_hdr (ss_xdg s))) n' h ctx time error index bs ->
  agentx_close s = Some (0, mk_session (close n') (ss_lua s) (responded h ctx time error index bs) (ss_mib s)).
Proof.
  intros Hr. unfold close_msg in Hr. unfold agentx_close. rewrite close_pdu_spec.
  by rewrite (exchange_responds (with_xdg (next_packet (ss_xdg s)) s) _ n' h ctx time error index bs Hr).
Qed.
End Session.

(** ** Properties *)

(** A session with a master agent that responds to every PDU: opening it,
    registering a region, unregistering it and closing the session send the four
    PDUs of RFC 2741, each with the session identifier of the last response and
    the next packet identifier, change the MIB tree as the abstract
    registration and removal do, and drop the references of the handlers that are
    removed, in order.  The errors the responses carry do not matter:
    a region the master refuses is registered locally all the same. *)
Theorem agentx_session_lifecycle {N L} send recv close lua_pcall luaL_unref e junk (s : @session N L) (n1 n2 n3 n4 : N)
    (h1 h2 h3 h4 : x_pdu_hdr) (c1 c2 c3 c4 : list Z) (t1 t2 t3 t4 e1 e2 e3 e4 i1 i2 i3 i4 : Z)
    (b1 b2 b3 b4 : list x_binding) (oid : list Z) (cb w : Z)
    (Ho : x_oid_short oid) (Hl : zlen oid <= 59) (Hwf : root_wf w (ss_mib s)) (Hw : 0 <= w <= GROUP_MAX)
    (Hopen : responds send recv e (ss_net s) (open_msg e (x_hdr (ss_xdg s))) n1 h1 c1 t1 e1 i1 b1)
    (Hreg : responds send recv e n1 (region_msg e AGENTX_PDU_REG (set_payload 0 h1) oid) n2 h2 c2 t2 e2 i2 b2)
    (Hunreg : responds send recv e n2 (region_msg e AGENTX_PDU_UNREG (set_payload 0 h2) oid) n3 h3 c3 t3 e3 i3 b3)
    (Hclose : responds send recv e n3 (close_msg e (set_payload 0 h3)) n4 h4 c4 t4 e4 i4 b4) :
  exists s1 s2 s3 s4 cbs,
    agentx_open send recv lua_pcall e junk s = Some (0, s1) /\
    agentx_mib_node_reg send recv lua_pcall e junk oid cb s1 = Some ((a_reg (shape (ss_mib s)) oid cb).1, s2) /\
    (forall o, shape (ss_mib s2) o = (a_reg (shape (ss_mib s)) oid cb).2 o) /\
    agentx_mib_node_unreg send recv lua_pcall luaL_unref e junk oid s2 = Some (0, s3) /\
    (forall o, shape (ss_mib s3) o = a_unreg (shape (ss_mib s2)) oid o) /\ released (shape (ss_mib s2)) oid cbs /\
    agentx_close send recv close lua_pcall e junk s3 = Some (0, s4) /\
    ss_net s4 = close n4 /\ ss_lua s4 = foldl (fun l cb => luaL_unref cb l) (ss_lua s) cbs /\ xh_session_id (x_hdr (ss_xdg s4)) = xh_session_id h4.
Proof.
  set (s1 := mk_session n1 (ss_lua s) (x_decoded e junk h1 c1 (XResponse t1 e1 i1 b1)) (ss_mib s)).
  destruct (reg_step send recv lua_pcall e junk s1 n2 h2 c2 t2 e2 i2 b2 oid cb w Ho Hl Hwf Hw Hreg) as (r2 & E2 & Hwf2 & Hs2).
  set (s2 := mk_session n2 _ _ r2) in *.
  destruct (unreg_step send recv lua_pcall luaL_unref e junk s2 n3 h3 c3 t3 e3 i3 b3 oid (w + 1) Ho Hl Hwf2 Hunreg) as (r3 & cbs & E3 & Hc & _ & Hs3).
  set (s3 := mk_session n3 _ _ r3) in *.
  eexists s1, s2, s3, _, cbs. split; [by apply open_step|]. split; [exact E2|]. split; [exact Hs2|]. split; [exact E3|].
  split; [exact Hs3|]. split; [exact Hc|]. split; [by apply (close_step send recv close lua_pcall e junk s3 n4 h4 c4 t4 e4 i4 b4)|]. done.
Qed.

(** A master that answers every PDU with the same error. *)
Definition refusal (e : endian) (packet : Z) : x_pdu_hdr :=
  mk_xhdr 1 AGENTX_PDU_RESPONSE (match e with LE => 0 | BE => NETWORD_BYTE_ORDER end) 0 9 0 packet 0.
Definition refuse_send (n : Z) (pdu : list Z) : Z * bool := (n + 1, true).
Definition refuse_recv (n : Z) : Z * option (list Z) :=
  (n, Some (x_pdu_bytes LE (refusal LE n) [] (XResponse 0 0x106 0 []))).

Lemma refuse_responds n pdu : 0 <= n < 100 ->
  responds refuse_send refuse_recv LE n pdu (n + 1) (refusal LE (n + 1)) [] 0 0x106 0 [].
Proof.
  intros Hn. split; [by exists (n + 1)|]. split.
  { unfold x_hdr_ok, is_u8, is_u32, refusal, AGENTX_PDU_RESPONSE. cbn. lia. }
  split; [done|]. split; [by split; [cbn; lia|]|]. split.
  { split; [|by split]. unfold body_type, is_u32, is_u16. split; [done|lia]. }
  unfold x_pdu_bytes, x_message. rewrite zlen_app, zlen_header. done.
Qed.

Lemma agentx_session_lifecycle_witness :
  let s := mk_session 0 tt (x_start (mk_xhdr 0 0 0 0 0 0 0 0) [] (mk_xu [0; 0; 0; 0] 0 0)) mib_dummy_node_init in
  exists s1 s2, agentx_open refuse_send refuse_recv (table_handler example_table) LE 0 s = Some (0, s1) /\
    agentx_mib_node_reg refuse_send refuse_recv (table_handler example_table) LE 0 [1; 3; 6; 1; 4; 1] 5 s1 = Some (0, s2).
Proof.
  intros s.
  destruct (agentx_session_lifecycle refuse_send refuse_recv (fun n => n) (table_handler example_table) (fun _ l => l) LE 0 s 1 2 3 4
    (refusal LE 1) (refusal LE 2) (refusal LE 3) (refusal LE 4) [] [] [] [] 0 0 0 0 0x106 0x106 0x106 0x106 0 0 0 0 [] [] [] []
    [1; 3; 6; 1; 4; 1] 5 0) as (s1 & s2 & s3 & s4 & cbs & E1 & E2 & _).
  - apply (x_short 4 [1]); [lia|repeat constructor; unfold is_u32; lia|cbn; lia].
  - unfold zlen. cbn. lia.
  - destruct root_wf_init as (root & E & Hwf & _). by injection E as <-.
  - unfold GROUP_MAX. lia.
  - by apply (refuse_responds 0).
  - by apply (refuse_responds 1).
  - by apply (refuse_responds 2).
  - by apply (refuse_responds 3).
  - exists s1, s2. split; [exact E1|]. exact E2.
Defined.

(** An identifier below [.1.3.6.1] passes the check of the registration
    functions whatever its length, but the PDU asserts more than four and fewer
    than sixty sub-identifiers: registering [.1.3.6.1] itself, or an identifier
    of sixty sub-identifiers or more, ends the program. *)
Theorem agentx_reg_aborts {N L} send recv lua_pcall luaL_unref e junk (s : @session N L) (rest : list Z) (cb : Z)
    (Hl : zlen rest = 0 \/ 56 <= zlen rest < 2 ^ 31) :
  agentx_mib_node_reg send recv lua_pcall e junk (internet ++ rest) cb s = None /\
  agentx_mib_node_unreg send recv lua_pcall luaL_unref e junk (internet ++ rest) s = None.
Proof.
  assert (zlen (internet ++ rest) = 4 + zlen rest) as Hz by (by rewrite zlen_app).
  unfold agentx_mib_node_reg, agentx_mib_node_unreg, bad_prefix. rewrite bool_decide_true by done. cbn [negb].
  unfold agentx_register_pdu, agentx_unregister_pdu, region_pdu, ASN1_OID_MAX_LEN. rewrite Hz, Z.gtb_ltb.
  rewrite u32_id by (unfold is_u32; lia). destruct Hl as [->|Hl]; [done|].
  by rewrite (proj2 (Z.leb_gt (4 + zlen rest + 5) 64)), andb_false_r by lia.
Qed.

Lemma agentx_reg_aborts_witness :
  let s := mk_session 0 tt (x_start (mk_xhdr 0 0 0 0 0 0 0 0) [] (mk_xu [0; 0; 0; 0] 0 0)) example_root in
  agentx_mib_node_reg refuse_send refuse_recv (table_handler example_table) LE 0 [1; 3; 6; 1] 5 s = None.
Proof.
  intros s. apply (agentx_reg_aborts refuse_send refuse_recv (table_handler example_table) (fun _ l => l) LE 0 s [] 5). by left.
Defined.
