(* ===== verification/Snmpd.v ===== *)
(** * The protocols as tables of functions

    [protocol.h] and [trap.h] declare the tables through which the Lua bindings
    and the event loop reach a protocol.  A table is a record of operations on a
    state; [snmp.c] fills the one of the agent with the transport, the MIB tree
    and [snmp_recv] with the cryptography of [Usm], [snmp_trap.c] the one for
    notifications, and [agentx.c] the one of the sub-agent. *)
From Stdlib Require Import String.
From S2P Require Import Prelude Oid MibTree MibSearch MibView SnmpData SnmpOut SnmpProc SnmpIn HashWords Aes AesCfb Usm EventLoop Transport SnmpTrap AgentxData AgentxIn Agentx.
Local Open Scope Z_scope.

(** ** [struct protocol_operation] and [struct trap_operation]

    [S] is the state of the program; [answer] is what the system call of the
    event loop reports, which a run consumes. *)
Record protocol_operation (S answer : Type) := mk_prot {
  prot_name : string;
  prot_init : Z -> S -> option (Z * S);
  prot_open : S -> option (Z * S);
  prot_close : S -> option (Z * S);
  prot_run : list answer -> S -> option (list answer * S);
  prot_reg : list Z -> Z -> S -> option (Z * S);
  prot_unreg : list Z -> S -> option (Z * S);
  prot_receive : list Z -> Z -> S -> option S;
  prot_send : list Z -> S -> option S;
  prot_step : option (Z -> answer -> S -> option (Z * S));   (* NULL when the initialiser ends before it *)
}.
Arguments mk_prot {S answer}.
Arguments prot_name {S answer}.
Arguments prot_init {S answer}.
Arguments prot_open {S answer}.
Arguments prot_close {S answer}.
Arguments prot_run {S answer}.
Arguments prot_reg {S answer}.
Arguments prot_unreg {S answer}.
Arguments prot_receive {S answer}.
Arguments prot_send {S answer}.
Arguments prot_step {S answer}.

Record trap_operation (S : Type) := mk_trap_ops {
  trap_name : string;
  trap_open : Z -> Z -> S -> option (Z * S);
  trap_close : S -> option S;
  trap_varbind : list Z -> asn1_var -> S -> option S;
  trap_send : Z -> list Z -> Z -> Z -> Z -> S -> option (Z * S);
  trap_probe : S -> option S;
}.
Arguments mk_trap_ops {S}.
Arguments trap_name {S}.
Arguments trap_open {S}.
Arguments trap_close {S}.
Arguments trap_varbind {S}.
Arguments trap_send {S}.
Arguments trap_probe {S}.

(** ** The global state of the agent *)

(** The MIB tree, the access tables, the datagram of [snmp.c], the interpreter,
    the datagram of [snmp_trap.c] with what notifications did to the network,
    the static variable of [transport_step], and how many datagrams were
    received. *)
Record agent (L : Type) := mk_agent {
  ag_root : option mib_node;
  ag_views : view_state;
  ag_sdg : snmp_datagram;
  ag_lua : L;
  ag_trap : trap_datagram;
  ag_net : list trap_effect;
  ag_inited : bool;
  ag_count : nat;
}.
Arguments mk_agent {L}.
Arguments ag_root {L}.
Arguments ag_views {L}.
Arguments ag_sdg {L}.
Arguments ag_lua {L}.
Arguments ag_trap {L}.
Arguments ag_net {L}.
Arguments ag_inited {L}.
Arguments ag_count {L}.

Definition with_root {L} (root : option mib_node) (a : agent L) : agent L :=
  mk_agent root (ag_views a) (ag_sdg a) (ag_lua a) (ag_trap a) (ag_net a) (ag_inited a) (ag_count a).
Definition with_views {L} (st : view_state) (a : agent L) : agent L :=
  mk_agent (ag_root a) st (ag_sdg a) (ag_lua a) (ag_trap a) (ag_net a) (ag_inited a) (ag_count a).
Definition with_lua {L} (l : L) (a : agent L) : agent L :=
  mk_agent (ag_root a) (ag_views a) (ag_sdg a) l (ag_trap a) (ag_net a) (ag_inited a) (ag_count a).
Definition with_sdg {L} (s : snmp_datagram) (a : agent L) : agent L :=
  mk_agent (ag_root a) (ag_views a) s (ag_lua a) (ag_trap a) (ag_net a) (ag_inited a) (ag_count a).
Definition with_trap {L} (d : trap_datagram) (a : agent L) : agent L :=
  mk_agent (ag_root a) (ag_views a) (ag_sdg a) (ag_lua a) d (ag_net a) (ag_inited a) (ag_count a).
Definition with_inited {L} (a : agent L) : agent L :=
  mk_agent (ag_root a) (ag_views a) (ag_sdg a) (ag_lua a) (ag_trap a) (ag_net a) true (ag_count a).

(** ** [snmp.c] *)
Section Snmpd.
Context {L env answer : Type} {B : Backend env answer}.
(** The interpreter: a handler of the MIB, [luaL_unref], the trap handler. *)
Context (lua_pcall : L -> Z -> Z -> list Z -> lua_arg -> lua_arg -> L * option lua_ret) (luaL_unref : Z -> L -> L).
Context (e : endian) (junk : Z) (t : target) (aligned fast : bool) (k0 : AES_KEY).
(** The values of [random()] while the [n]th datagram is handled. *)
Context (random : nat -> Z * Z).
(** The results of [signalfd], [socket] and [bind]; whether [sendto] succeeds. *)
Context (sigfd sock : Z) (bound : Z -> bool) (sendto : list Z -> list Z -> bool).

Abbreviation snmp_world := (world handler env (transport (agent L))).

Definition on_agent (f : agent L -> agent L) (w : snmp_world) : snmp_world :=
  let tr := w_t w in
  set_t (mk_transp (t_sock tr) (t_sigfd tr) (t_buf tr) (t_client tr) (f (t_agent tr)) (t_inbox tr) (t_signals tr)
           (t_sent tr) (t_closed tr) (t_leaked tr)) w.

(** [snmpd_receive]: the state of the agent and its answer, which [snmpd_send]
    hands to the transport. *)
Definition snmpd_receive (buf : list Z) (len : Z) (a : agent L) : option (agent L * option (list Z)) :=
  let* root := mib_tree_init_check (ag_root a) in
  let '(r1, r2) := random (ag_count a) in
  let* (l, s, out) := snmp_recv lua_pcall e junk root (ag_views a) (usm_MD5_hmac t aligned junk) (usm_SHA1_hmac t aligned junk)
    (usm_AES_Encrypt fast k0 junk) (usm_AES_Decrypt fast k0 junk) r1 r2 buf len (ag_sdg a) (ag_lua a) in
  Some (mk_agent (ag_root a) (ag_views a) s l (ag_trap a) (ag_net a) (ag_inited a) (S (ag_count a)), out).

(** The transport of the agent. *)
Definition snmp_transport (probe : snmp_world -> option snmp_world) : transport_operation snmp_world answer :=
  snmp_transp_ops junk snmpd_receive sendto sigfd sock bound probe.

Section Running.
(** [smithsnmp_trap_ops->probe] *)
Context (probe : snmp_world -> option snmp_world).

Definition snmpd_send (buf : list Z) (w : snmp_world) : option snmp_world := transp_send (snmp_transport probe) buf w.

Definition snmpd_mib_node_reg (grp_id : list Z) (grp_cb : Z) (w : snmp_world) : option (Z * snmp_world) :=
  let* (ret, root) := mib_node_reg (ag_root (t_agent (w_t w))) grp_id grp_cb in
  Some (ret, on_agent (with_root root) w).

(** What is freed drops its references to handlers. *)
Definition snmpd_mib_node_unreg (grp_id : list Z) (w : snmp_world) : option (Z * snmp_world) :=
  let* (root, log) := mib_node_unreg (ag_root (t_agent (w_t w))) grp_id in
  Some (0, on_agent (fun a => with_lua (release luaL_unref log (ag_lua a)) (with_root root a)) w).

(** The lists of the datagram become empty. *)
Definition snmpd_init (port : Z) (w : snmp_world) : option (Z * snmp_world) :=
  let empty s := mk_sdg (recv_len s) (send_len s) (data_len s) (version s) (ver_len s) (global s) (secur s) (user s)
    (auth_err s) (ctx s) (pdu s) (vb_list_len s) (vb_in_cnt s) (vb_out_cnt s) [] [] in
  Some (transp_init (snmp_transport probe) port (on_agent (fun a => with_sdg (empty (ag_sdg a)) a) w)).

Definition snmpd_open (w : snmp_world) : option (Z * snmp_world) := Some (0, w).

Definition snmpd_close (w : snmp_world) : option (Z * snmp_world) := Some (0, transp_close (snmp_transport probe) w).

Definition snmpd_run (answers : list answer) (w : snmp_world) : option (list answer * snmp_world) :=
  transp_running (snmp_transport probe) answers w.

Definition snmpd_step (timeout : Z) (a : answer) (w : snmp_world) : option (Z * snmp_world) :=
  transp_step (snmp_transport probe) (ag_inited (t_agent (w_t w))) timeout a (on_agent with_inited w).

(** *** The table of the protocol *)
Definition snmp_prot_ops : protocol_operation snmp_world answer :=
  mk_prot "snmp" snmpd_init snmpd_open snmpd_close snmpd_run snmpd_mib_node_reg snmpd_mib_node_unreg
    (fun buf len w => agent_receive snmpd_receive buf len w) snmpd_send (Some snmpd_step).
End Running.

(** *** The table for notifications ([snmp_trap.c]) *)

(** The Lua handler of notifications, which may call the bindings; the result of
    [socket]; what [sendto] returns; the value of [random()]. *)
Context (lua_trap : Z -> snmp_world -> option snmp_world) (trap_sock : Z) (trap_sendto : list Z -> Z) (trap_random : nat -> Z).

Definition log_effects (effs : list trap_effect) (a : agent L) : agent L :=
  mk_agent (ag_root a) (ag_views a) (ag_sdg a)
    (foldl (fun l eff => match eff with LuaUnref cb => luaL_unref cb l | _ => l end) (ag_lua a) effs)
    (ag_trap a) (ag_net a ++ effs) (ag_inited a) (ag_count a).

(** The effects of a call on the event loop, the interpreter and the network. *)
Definition trap_effects (effs : list trap_effect) (w : snmp_world) : snmp_world :=
  on_agent (log_effects effs) (foldl loop_effect w effs).

Definition trap_ops_open (interval handler : Z) (w : snmp_world) : option (Z * snmp_world) :=
  let '(d, ret, effs) := snmp_trap_open trap_sock interval handler (ag_trap (t_agent (w_t w))) in
  Some (ret, trap_effects effs (on_agent (with_trap d) w)).

Definition trap_ops_close (w : snmp_world) : option snmp_world :=
  Some (trap_effects (snmp_trap_close (ag_trap (t_agent (w_t w)))) w).

(** The head of the list of bindings is NULL before notifications are enabled
    for the first time. *)
Definition trap_ops_varbind (oid : list Z) (var : asn1_var) (w : snmp_world) : option snmp_world :=
  let d := ag_trap (t_agent (w_t w)) in
  if td_lua d then let* d := snmp_trap_varbind e junk oid var d in Some (on_agent (with_trap d) w) else None.

Definition trap_ops_send (version : Z) (community : list Z) (comm_len host port : Z) (w : snmp_world)
    : option (Z * snmp_world) :=
  let a := t_agent (w_t w) in
  if td_lua (ag_trap a) then
    let* (d, eff) := snmp_trap_send e junk version community comm_len host port (trap_random (length (ag_net a))) (ag_trap a) in
    let ret := match eff with SendTo _ msg _ _ => trap_sendto msg | _ => 0 end in
    Some (ret, trap_effects [eff] (on_agent (with_trap d) w))
  else None.

Fixpoint trap_calls (effs : list trap_effect) (w : snmp_world) : option snmp_world :=
  match effs with
  | [] => Some w
  | LuaCall handler :: effs' => let* w := lua_trap handler w in trap_calls effs' w
  | _ :: effs' => trap_calls effs' w
  end.

Definition trap_ops_probe (w : snmp_world) : option snmp_world :=
  trap_calls (snmp_trap_probe (ag_trap (t_agent (w_t w)))) w.

Definition snmp_trap_ops : trap_operation snmp_world :=
  mk_trap_ops "snmp" trap_ops_open trap_ops_close trap_ops_varbind trap_ops_send trap_ops_probe.

End Snmpd.

(** ** [agentx.c] *)

(** The session with the master agent, and the access tables, which play no part
    in it. *)
Record x_agent (N L : Type) := mk_x_agent { xa_session : session (N := N) (L := L); xa_views : view_state }.
Arguments mk_x_agent {N L}.
Arguments xa_session {N L}.
Arguments xa_views {N L}.

Section AgentxOps.
Context {N L env answer : Type} {B : Backend env answer}.
Context (send : N -> list Z -> N * bool) (recv : N -> N * option (list Z)).
Context (lua_pcall : L -> Z -> Z -> list Z -> lua_arg -> lua_arg -> L * option lua_ret) (luaL_unref : Z -> L -> L).
Context (e : endian) (junk : Z) (sigfd sock : Z) (connected : Z -> bool) (sendto : list Z -> list Z -> bool).

Abbreviation x_world := (world handler env (transport (x_agent N L))).

Definition on_session (f : session -> session) (w : x_world) : x_world :=
  let tr := w_t w in
  let a := t_agent tr in
  set_t (mk_transp (t_sock tr) (t_sigfd tr) (t_buf tr) (t_client tr) (mk_x_agent (f (xa_session a)) (xa_views a)) (t_inbox tr)
           (t_signals tr) (t_sent tr) (t_closed tr) (t_leaked tr)) w.

Definition in_session (f : session -> option (Z * session)) (w : x_world) : option (Z * x_world) :=
  let* (ret, s) := f (xa_session (t_agent (w_t w))) in Some (ret, on_session (fun _ => s) w).

(** [agentx_receive]: the answer is written to the socket by [agentx_recv]. *)
Definition x_receive (buf : list Z) (len : Z) (a : x_agent N L) : option (x_agent N L * option (list Z)) :=
  let* s := agentx_receive send lua_pcall e junk buf len (xa_session a) in Some (mk_x_agent s (xa_views a), None).

Section Running.
Context (probe : x_world -> option x_world).

(** The transport of the sub-agent. *)
Definition agentx_transport : transport_operation x_world answer :=
  agentx_transp_ops junk x_receive sendto sigfd sock connected probe.

Definition agentx_send (buf : list Z) (w : x_world) : option x_world := transp_send agentx_transport buf w.

(** The lists of the datagram become empty. *)
Definition x_lists_init (x : agentx_datagram) : agentx_datagram :=
  mk_xdg (x_context x) (x_ctx_len x) (x_hdr x) (x_u x) (x_vb_in_cnt x) (x_vb_out_cnt x) [] [] (x_sr_in_cnt x) (x_sr_out_cnt x) [] [].

Definition agentx_init (port : Z) (w : x_world) : option (Z * x_world) :=
  Some (transp_init agentx_transport port (on_session (fun s => with_xdg (x_lists_init (ss_xdg s)) s) w)).

(** The transport is closed when the master agent has answered. *)
Definition agentx_ops_close (w : x_world) : option (Z * x_world) :=
  let* (ret, w) := in_session (agentx_close send recv (fun n => n) lua_pcall e junk) w in
  Some (ret, if ret =? 0 then transp_close agentx_transport w else w).

Definition agentx_run (answers : list answer) (w : x_world) : option (list answer * x_world) :=
  transp_running agentx_transport answers w.

(** The initialiser has no function for [step]. *)
Definition agentx_prot_ops : protocol_operation x_world answer :=
  mk_prot "agentx" agentx_init (in_session (agentx_open send recv lua_pcall e junk)) agentx_ops_close
    agentx_run
    (fun grp_id grp_cb => in_session (agentx_mib_node_reg send recv lua_pcall e junk grp_id grp_cb))
    (fun grp_id => in_session (agentx_mib_node_unreg send recv lua_pcall luaL_unref e junk grp_id))
    (fun buf len w => agent_receive x_receive buf len w) agentx_send None.
End Running.
End AgentxOps.
