(* ===== verification/Bindings.v ===== *)
(** * The Lua bindings

    [smithsnmp.c]: the functions of the module [smithsnmp.core], with which a Lua
    program configures and runs the agent.  A binding reads its arguments
    through the Lua API, calls the protocol through its table and pushes a
    result.  An argument of a wrong type raises a Lua error, which leaves the
    function at once: what it has allocated by then is lost. *)
From Stdlib Require Import String DecimalString.
From stdpp Require Import sets gmap.
From S2P Require Import Prelude BerEncoder BerSpec Oid MibTree MibSearch MibView Message SnmpData SnmpOut SnmpProc SnmpIn HashWords Hash Md5 Sha1 Aes AesCfb Usm EventLoop Transport SnmpTrap AgentxData Agentx Snmpd.
Local Open Scope Z_scope.

(** ** The Lua API

    [V] are the values of Lua.  A conversion that raises an error is [None]; the
    integers are what [lua_tointeger] and [lua_tonumber] convert to. *)
Class LuaApi (V : Type) := {
  lua_nil : V;
  lua_istable : V -> bool;
  lua_isfunction : V -> bool;
  luaL_checkstring : V -> option (list Z);
  luaL_checkint : V -> option Z;
  luaL_optinteger : V -> Z -> option Z;
  lua_objlen : V -> Z;
  lua_rawgeti : V -> Z -> V;
  lua_integer : V -> Z;
  lua_number : V -> Z;
  lua_string : V -> option (list Z);      (* NULL for other values than strings and numbers *)
}.

(** The parts of the program's state that a binding touches itself: the table of
    references of the environment, the MIB tree and the access tables. *)
Class AgentState (V S : Type) := {
  luaL_ref : V -> S -> Z * S;
  as_mib_init : S -> S;
  as_views : S -> view_state;
  as_set_views : view_state -> S -> S;
}.

(** What a binding pushes on the stack. *)
Inductive lua_result := PushBoolean (b : bool) | PushNumber (z : Z).

Section Bindings.
Context {V S answer : Type} `{LuaApi V} `{!AgentState V S}.
Context (snmp_ops agentx_ops : protocol_operation S answer) (trap_ops : trap_operation S).
(** [USE_AGENTX]; the byte order; the key derivations. *)
Context (use_agentx : bool) (e : endian) (junk : Z) (MD5_key SHA1_key : list Z -> list Z -> list Z).

(** The tables in use, NULL before [smithsnmp_init], the number of blocks that
    are allocated and not freed, and the rest. *)
Record smith := mk_smith {
  smithsnmp_prot_ops : option (protocol_operation S answer);
  smithsnmp_trap_ops : option (trap_operation S);
  sm_live : Z;
  sm_state : S;
}.

Definition put_state (s : S) (m : smith) : smith := mk_smith (smithsnmp_prot_ops m) (smithsnmp_trap_ops m) (sm_live m) s.

(** A computation that can raise a Lua error ([inl]); a fault is [None]. *)
Definition binding (A : Type) : Type := smith -> option (smith * option A).

Definition push {A} (a : A) : binding A := fun m => Some (m, Some a).
Definition raise {A} : binding A := fun m => Some (m, None).
Definition bbind {A B} (b : binding A) (k : A -> binding B) : binding B := fun m =>
  let* (m, r) := b m in match r with Some a => k a m | None => Some (m, None) end.
Local Notation "'lua*' x := b 'in' k" := (bbind b (fun x => k)) (at level 200, x pattern, b at level 100, k at level 200).

Definition check {A} (o : option A) : binding A := match o with Some a => push a | None => raise end.
Definition nofault {A} (o : option A) : binding A := fun m => let* a := o in Some (m, Some a).
Definition on_state {A} (f : S -> option (A * S)) : binding A := fun m =>
  let* (a, s) := f (sm_state m) in Some (put_state s m, Some a).
Definition on_state_ (f : S -> option S) : binding unit := fun m =>
  let* s := f (sm_state m) in Some (put_state s m, Some tt).
Definition alloc (n : Z) : binding unit := fun m =>
  Some (mk_smith (smithsnmp_prot_ops m) (smithsnmp_trap_ops m) (sm_live m + n) (sm_state m), Some tt).

(** Calls through a table that is NULL. *)
Definition prot {A} (k : protocol_operation S answer -> binding A) : binding A := fun m =>
  let* ops := smithsnmp_prot_ops m in k ops m.
Definition trap {A} (k : trap_operation S -> binding A) : binding A := fun m =>
  let* ops := smithsnmp_trap_ops m in k ops m.

(** The arguments: indices from 1, and the top of the stack. *)
Definition arg (args : list V) (i : nat) : V := default lua_nil (args !! (i - 1)%nat).
Definition top (args : list V) : V := default lua_nil (last args).

(** A returned code as a boolean. *)
Definition push_ok (ret : Z) : binding (list lua_result) := push [PushBoolean (negb (ret <? 0))].

(** The characters up to the first zero. *)
Fixpoint c_str (bs : list Z) : list Z :=
  match bs with [] => [] | b :: bs' => if b =? 0 then [] else b :: c_str bs' end.

(** The integers of a table, as many as [n]. *)
Definition table_ints (v : V) (n : nat) : list Z := map (fun i => lua_integer (lua_rawgeti v (Z.of_nat i + 1))) (seq 0 n).

(** [luaL_checktype], [lua_objlen], [xmalloc] and the loop that reads an
    identifier; the length is an [int], and an allocation for a negative one
    fails. *)
Definition check_oid (v : V) : binding (list Z) :=
  if lua_istable v then
    let n := i32 (lua_objlen v) in
    if n <? 0 then nofault None
    else lua* _ := alloc 1 in push (map u32 (table_ints v (Z.to_nat n)))
  else raise.

(** ** Starting and running *)
Definition smithsnmp_init (args : list V) : binding (list lua_result) :=
  lua* protocol := check (luaL_checkstring (arg args 1)) in
  lua* port := check (luaL_checkint (arg args 2)) in
  lua* _ := on_state_ (fun s => Some (as_mib_init s)) in
  let select ops tops : binding unit := fun m => Some (mk_smith ops tops (sm_live m) (sm_state m), Some tt) in
  let start : binding (list lua_result) :=
    prot (fun ops => lua* ret := on_state (prot_init ops port) in push_ok ret) in
  if String.eqb (cstring protocol) "snmp" then
    lua* _ := select (Some snmp_ops) (Some trap_ops) in start
  else if String.eqb (cstring protocol) "agentx" then
    lua* _ := (fun m => if use_agentx then select (Some agentx_ops) (smithsnmp_trap_ops m) m else push tt m) in start
  else push [PushBoolean false].

Definition smithsnmp_open (args : list V) : binding (list lua_result) :=
  prot (fun ops => lua* ret := on_state (prot_open ops) in push_ok ret).

(** The answers of the system call that are left. *)
Definition smithsnmp_run (answers : list answer) (args : list V) : binding (list answer) :=
  prot (fun ops => on_state (prot_run ops answers)).

Definition smithsnmp_step (a : answer) (args : list V) : binding (list lua_result) :=
  lua* timeout := check (luaL_optinteger (arg args 1) 0) in
  prot (fun ops => lua* step := nofault (prot_step ops) in lua* _ := on_state (step timeout a) in push []).

Definition smithsnmp_exit (args : list V) : binding (list lua_result) :=
  prot (fun ops => lua* _ := on_state (prot_close ops) in push []).

(** ** The MIB *)
Definition smithsnmp_mib_node_reg (args : list V) : binding (list lua_result) :=
  lua* grp_id := check_oid (arg args 1) in
  if negb (lua_isfunction (top args)) then raise
  else
    lua* grp_cb := on_state (fun s => Some (luaL_ref (top args) s)) in
    lua* i := prot (fun ops => on_state (prot_reg ops grp_id grp_cb)) in
    lua* _ := alloc (-1) in
    push [PushNumber i].

Definition smithsnmp_mib_node_unreg (args : list V) : binding (list lua_result) :=
  lua* grp_id := check_oid (arg args 1) in
  lua* i := prot (fun ops => on_state (prot_unreg ops grp_id)) in
  lua* _ := alloc (-1) in
  push [PushNumber i].

(** ** Access *)

(** The attribute is an [int]: registering compares it with [MIB_ACES_WRITE],
    unregistering with [MIB_ACES_READ]. *)
Definition reg_attr (z : Z) : aces_attr := if z =? 2 then MIB_ACES_WRITE else MIB_ACES_READ.
Definition unreg_attr (z : Z) : aces_attr := if z =? 1 then MIB_ACES_READ else MIB_ACES_WRITE.

Definition on_views (f : view_state -> option view_state) : binding unit :=
  on_state_ (fun s => let* st := f (as_views s) in Some (as_set_views st s)).

Definition smithsnmp_mib_community_reg (args : list V) : binding (list lua_result) :=
  lua* oid := check_oid (arg args 1) in
  lua* community := check (luaL_checkstring (arg args 2)) in
  lua* attribute := check (luaL_checkint (arg args 3)) in
  lua* _ := on_views (mib_community_reg oid (cstring community) (reg_attr attribute)) in
  lua* _ := alloc (-1) in
  push [].

Definition smithsnmp_mib_community_unreg (args : list V) : binding (list lua_result) :=
  lua* community := check (luaL_checkstring (arg args 1)) in
  lua* attribute := check (luaL_checkint (arg args 2)) in
  lua* _ := on_views (mib_community_unreg (cstring community) (unreg_attr attribute)) in
  push [].

(** A phrase that is not empty has at least eight characters. *)
Definition short_phrase (phrase : list Z) : bool := negb (zlen phrase =? 0) && (zlen phrase <? 8).

Definition smithsnmp_mib_user_create (args : list V) : binding (list lua_result) :=
  lua* user := check (luaL_checkstring (arg args 1)) in
  lua* auth_mode := check (luaL_checkint (arg args 2)) in
  lua* auth_phrase := check (luaL_checkstring (arg args 3)) in
  if short_phrase (c_str auth_phrase) then push [PushBoolean false]
  else
    lua* encrypt_mode := check (luaL_checkint (arg args 4)) in
    lua* encrypt_phrase := check (luaL_checkstring (arg args 5)) in
    if short_phrase (c_str encrypt_phrase) then push [PushBoolean false]
    else
      lua* _ := on_views (mib_user_create MD5_key SHA1_key snmpv3_engine_id junk (cstring user) (u8 auth_mode)
        (c_str auth_phrase) (u8 encrypt_mode) (c_str encrypt_phrase)) in
      push [PushBoolean true].

Definition smithsnmp_mib_user_reg (args : list V) : binding (list lua_result) :=
  lua* oid := check_oid (arg args 1) in
  lua* user := check (luaL_checkstring (arg args 2)) in
  lua* attribute := check (luaL_checkint (arg args 3)) in
  lua* _ := on_views (mib_user_reg oid (cstring user) (reg_attr attribute)) in
  lua* _ := alloc (-1) in
  push [].

Definition smithsnmp_mib_user_unreg (args : list V) : binding (list lua_result) :=
  lua* user := check (luaL_checkstring (arg args 1)) in
  lua* attribute := check (luaL_checkint (arg args 2)) in
  lua* _ := on_views (mib_user_unreg (cstring user) (unreg_attr attribute)) in
  push [].

(** ** Notifications *)
Definition smithsnmp_trap_open (args : list V) : binding (list lua_result) :=
  lua* interval := check (luaL_checkint (arg args 1)) in
  if negb (lua_isfunction (top args)) then raise
  else
    lua* trap_cb := on_state (fun s => Some (luaL_ref (top args) s)) in
    trap (fun ops => lua* ret := on_state (trap_open ops interval trap_cb) in push_ok ret).

Definition smithsnmp_trap_close (args : list V) : binding (list lua_result) :=
  trap (fun ops => lua* _ := on_state_ (trap_close ops) in push []).

(** What the API reads from the value of a binding.  Copying characters from
    NULL, and indexing something else than a table, is a fault, unless there is
    nothing to copy. *)
Definition value_of (v : V) (t : Z) : option lua_value :=
  let empty := u16 (lua_objlen v) =? 0 in
  let* s := (if t =? ASN1_TAG_OCTSTR then if empty then Some [] else lua_string v else Some []) in
  let* l := (if (t =? ASN1_TAG_IPADDR) || (t =? ASN1_TAG_OBJID) then
               if empty then Some [] else if lua_istable v then Some (table_ints v (Z.to_nat (lua_objlen v))) else None
             else Some []) in
  Some (mk_lua_value (lua_integer v) (lua_number v) s l).

Definition smithsnmp_trap_varbind (args : list V) : binding (list lua_result) :=
  lua* oid := check_oid (arg args 1) in
  lua* tag := check (luaL_checkint (arg args 2)) in
  lua* var := nofault (let* lv := value_of (arg args 3) (u8 tag) in
                       store_value e (u8 tag) lv (mk_var (u8 tag) 0 (replicate (Z.to_nat VALUE_SIZE) 0))) in
  lua* _ := trap (fun ops => on_state_ (trap_varbind ops oid var)) in
  lua* _ := alloc (-1) in
  push [].

(** The four bytes of the address as a word; what a shift moves out of the word
    is lost. *)
Definition host_of (ip : list Z) : Z :=
  let byte i := nth i ip 0 in
  let at_ i := match e with LE => 8 * (3 - Z.of_nat i) | BE => 8 * Z.of_nat i end in
  foldl (fun host i => u32 (Z.lor host (Z.shiftl (byte i) (at_ i)))) 0 (seq 0 4).

(** The bytes are stored without looking at the size of the array. *)
Definition smithsnmp_trap_send (args : list V) : binding (list lua_result) :=
  lua* version := check (luaL_checkint (arg args 1)) in
  lua* community := check (luaL_checkstring (arg args 2)) in
  if negb (lua_istable (arg args 3)) then raise
  else
    lua* ip := nofault (blit (map u8 (table_ints (arg args 3) (Z.to_nat (lua_objlen (arg args 3))))) (replicate 4 junk)) in
    lua* port := check (luaL_checkint (arg args 4)) in
    trap (fun ops =>
      lua* ret := on_state (trap_send ops (u8 version) (c_str community) (zlen (c_str community)) (host_of ip) port) in
      push_ok ret).

(** ** [smithsnmp_func]: the functions by the names of the module

    With what the system calls will report to those that wait for events. *)
Inductive call :=
| Init | Open | Run (answers : list answer) | Step (a : answer) | Exit | MibNodeReg | MibNodeUnreg | CommunityRegister
| CommunityUnregister | CreateUser | UserRegister | UserUnregister | TrapOpen | TrapClose | TrapVarbind | TrapSend.

Definition smithsnmp_func (c : call) : list V -> binding (list lua_result) :=
  match c with
  | Init => smithsnmp_init
  | Open => smithsnmp_open
  | Run answers => fun args => lua* _ := smithsnmp_run answers args in push []
  | Step a => smithsnmp_step a
  | Exit => smithsnmp_exit
  | MibNodeReg => smithsnmp_mib_node_reg
  | MibNodeUnreg => smithsnmp_mib_node_unreg
  | CommunityRegister => smithsnmp_mib_community_reg
  | CommunityUnregister => smithsnmp_mib_community_unreg
  | CreateUser => smithsnmp_mib_user_create
  | UserRegister => smithsnmp_mib_user_reg
  | UserUnregister => smithsnmp_mib_user_unreg
  | TrapOpen => smithsnmp_trap_open
  | TrapClose => smithsnmp_trap_close
  | TrapVarbind => smithsnmp_trap_varbind
  | TrapSend => smithsnmp_trap_send
  end.

(** A script: calls one after the other, with their results; an error ends it. *)
Fixpoint script (calls : list (call * list V)) : binding (list (list lua_result)) :=
  match calls with
  | [] => push []
  | (c, args) :: calls' =>
      lua* r := smithsnmp_func c args in
      lua* rs := script calls' in
      push (r :: rs)
  end.
End Bindings.
Arguments call : clear implicits.

(** A table of integers that is read as an identifier. *)
Definition is_oid {V} `{LuaApi V} (v : V) (oid : list Z) : Prop :=
  lua_istable v = true /\ lua_objlen v = zlen oid /\ zlen oid < 2 ^ 31 /\ map u32 (table_ints v (length oid)) = oid.

(** ** Scripts, for any state and any tables *)
Section Scripts.
Context {V S answer : Type} `{LuaApi V} `{!AgentState V S}.
Context (snmp_ops agentx_ops : protocol_operation S answer) (trap_ops : trap_operation S).
Context (use_agentx : bool) (e : endian) (junk : Z) (MD5_key SHA1_key : list Z -> list Z -> list Z).
Abbreviation func := (smithsnmp_func snmp_ops agentx_ops trap_ops use_agentx e junk MD5_key SHA1_key).
Abbreviation run := (script snmp_ops agentx_ops trap_ops use_agentx e junk MD5_key SHA1_key).

Lemma arg_cons (v : V) args i : arg (v :: args) (Datatypes.S i) = match i with O => v | _ => arg args i end.
Proof. destruct i; [done|]. unfold arg. cbn [Nat.sub lookup list_lookup]. by rewrite Nat.sub_0_r. Qed.

(** The identifier stays allocated. *)
Lemma check_oid_spec (v : V) oid (m : smith (S := S) (answer := answer)) :
  is_oid v oid ->
  check_oid v m = Some (mk_smith (smithsnmp_prot_ops m) (smithsnmp_trap_ops m) (sm_live m + 1) (sm_state m), Some oid).
Proof.
  intros (H1 & H2 & H3 & H4). unfold check_oid. rewrite H1, H2. pose proof (zlen_nonneg oid).
  rewrite i32_id by (unfold is_i32; lia). rewrite (proj2 (Z.ltb_ge _ _)) by lia.
  unfold bbind, alloc, push. rewrite Zto_nat_zlen, H4. done.
Qed.

Lemma is_oid_words (v : V) oid : is_oid v oid -> words oid.
Proof. intros (_ & _ & _ & <-). apply Forall_fmap, Forall_forall. intros z _. apply u32_range. Qed.

Lemma calls_cons c args calls m m1 r :
  func c args m = Some (m1, Some r) ->
  run ((c, args) :: calls) m = let* (m2, rs) := run calls m1 in Some (m2, cons r <$> rs).
Proof. intros E. cbn [script]. unfold bbind. rewrite E. by destruct (run calls m1) as [[? [?|]]|]. Qed.

Lemma calls_app calls calls' m :
  run (calls ++ calls') m =
  let* (m1, r) := run calls m in
  match r with
  | Some rs => let* (m2, r') := run calls' m1 in Some (m2, app rs <$> r')
  | None => Some (m1, None)
  end.
Proof.
  revert m. induction calls as [|[c args] calls IH]; intros m.
  { cbn. by destruct (run calls' m) as [[? [?|]]|]. }
  cbn [app script]. unfold bbind. destruct (func c args m) as [[m1 [r|]]|]; [|done|done]. rewrite IH.
  destruct (run calls m1) as [[m2 [rs|]]|]; [|done|done]. cbn. by destruct (run calls' m2) as [[? [?|]]|].
Qed.
End Scripts.

(** ** The bindings of the agent

    The state is that of [snmp.c], with [select] as the back end of the event
    loop. *)
Abbreviation agent_world L := (world handler select_env (transport (agent L))).

Definition agent_of {L answer} (m : smith (S := agent_world L) (answer := answer)) : agent L := t_agent (w_t (sm_state m)).

(** What a script asks for, apart from starting and running. *)
Inductive config_op (V : Type) :=
| OReg (oid : list Z) (handler : V)
| OUnreg (oid : list Z)
| OView (op : view_op).
Arguments OReg {V}.
Arguments OUnreg {V}.
Arguments OView {V}.

(** The calls with arguments of the right types. *)
Inductive reads {V} `{LuaApi V} : call select_answer * list V -> config_op V -> Prop :=
| reads_reg v f oid : is_oid v oid -> lua_isfunction f = true -> reads (MibNodeReg, [v; f]) (OReg oid f)
| reads_unreg v oid : is_oid v oid -> reads (MibNodeUnreg, [v]) (OUnreg oid)
| reads_community_reg v n a oid name attr :
    is_oid v oid -> luaL_checkstring n = Some name -> luaL_checkint a = Some attr ->
    reads (CommunityRegister, [v; n; a]) (OView (CommunityReg oid (cstring name) (reg_attr attr)))
| reads_community_unreg n a name attr :
    luaL_checkstring n = Some name -> luaL_checkint a = Some attr ->
    reads (CommunityUnregister, [n; a]) (OView (CommunityUnreg (cstring name) (unreg_attr attr)))
| reads_create n a p b q name am ap pm pp :
    luaL_checkstring n = Some name -> luaL_checkint a = Some am -> luaL_checkstring p = Some ap ->
    luaL_checkint b = Some pm -> luaL_checkstring q = Some pp ->
    short_phrase (c_str ap) = false -> short_phrase (c_str pp) = false ->
    reads (CreateUser, [n; a; p; b; q]) (OView (UserCreate (cstring name) (u8 am) (c_str ap) (u8 pm) (c_str pp)))
| reads_user_reg v n a oid name attr :
    is_oid v oid -> luaL_checkstring n = Some name -> luaL_checkint a = Some attr ->
    reads (UserRegister, [v; n; a]) (OView (UserReg oid (cstring name) (reg_attr attr)))
| reads_user_unreg n a name attr :
    luaL_checkstring n = Some name -> luaL_checkint a = Some attr ->
    reads (UserUnregister, [n; a]) (OView (UserUnreg (cstring name) (unreg_attr attr))).

(** A call that adds an object to a notification. *)
Inductive reads_var {V} `{LuaApi V} (e : endian) : call select_answer * list V -> list Z * asn1_var -> Prop :=
| reads_varbind v g x oid tg lv var :
    is_oid v oid -> luaL_checkint g = Some tg -> value_of x (u8 tg) = Some lv ->
    store_value e (u8 tg) lv (mk_var (u8 tg) 0 (replicate (Z.to_nat VALUE_SIZE) 0)) = Some var ->
    reads_var e (TrapVarbind, [v; g; x]) (oid, var).

(** The value that [store_value] makes of a value of Lua: integers of 32 bits, and
    as much of a string or table as the 16 bits of its length. *)
Definition stored_val (t : Z) (lv : lua_value) : snmp_val :=
  let prefix l := take (Z.to_nat (u16 (Z.of_nat (length l)))) l in
  if t =? ASN1_TAG_INT then VInt (i32 (lua_tointeger lv))
  else if t =? ASN1_TAG_OCTSTR then VStr t (prefix (lua_tostring lv))
  else if t =? ASN1_TAG_CNT then VCnt (u32 (lua_tonumber lv))
  else if (t =? ASN1_TAG_GAU) || (t =? ASN1_TAG_TIMETICKS) then VUint t (u32 (lua_tonumber lv))
  else if t =? ASN1_TAG_IPADDR then VStr t (map u8 (prefix (lua_totable lv)))
  else VOid (map u32 (prefix (lua_totable lv))).

Lemma blit_prefix (bs mem out : list Z) : blit bs mem = Some out -> exists tail, out = bs ++ tail.
Proof. unfold blit. case_decide; [|done]. intros [= <-]. by eexists. Qed.

Lemma store_value_holds e t lv var0 var : store_value e t lv var0 = Some var -> var_holds e var (stored_val t lv).
Proof.
  assert (forall l : list Z, zlen (take (Z.to_nat (u16 (Z.of_nat (length l)))) l) = u16 (Z.of_nat (length l))) as Hn.
  { intros l. unfold zlen. rewrite length_take. unfold u16. Z.div_mod_to_equations. lia. }
  assert (forall (f : Z -> Z) (l : list Z), zlen (map f (take (Z.to_nat (u16 (Z.of_nat (length l)))) l)) = u16 (Z.of_nat (length l))) as Hm.
  { intros f l. unfold zlen in *. rewrite length_map. apply Hn. }
  unfold store_value, stored_val, var_holds.
  destruct (Z.eqb_spec t ASN1_TAG_INT) as [->|H1].
  { destruct (blit _ _) as [out|] eqn:E; [|done]. apply blit_prefix in E. by intros [= <-]. }
  destruct (Z.eqb_spec t ASN1_TAG_OCTSTR) as [->|H2].
  { destruct (blit _ _) as [out|] eqn:E; [|done]. apply blit_prefix in E. intros [= <-]. by split; [|split; [symmetry; apply Hn|]]. }
  destruct (Z.eqb_spec t ASN1_TAG_CNT) as [->|H3]; cbn [orb].
  { destruct (blit _ _) as [out|] eqn:E; [|done]. apply blit_prefix in E. by intros [= <-]. }
  destruct ((t =? ASN1_TAG_GAU) || (t =? ASN1_TAG_TIMETICKS)).
  { destruct (blit _ _) as [out|] eqn:E; [|done]. apply blit_prefix in E. by intros [= <-]. }
  destruct (Z.eqb_spec t ASN1_TAG_IPADDR) as [->|H4].
  { destruct (blit _ _) as [out|] eqn:E; [|done]. apply blit_prefix in E. intros [= <-]. by split; [|split; [symmetry; apply Hm|]]. }
  destruct (Z.eqb_spec t ASN1_TAG_OBJID) as [->|H5]; [|done].
  destruct (blit _ _) as [out|] eqn:E; [|done]. apply blit_prefix in E. intros [= <-]. by split; [|split; [symmetry; apply Hm|]].
Qed.

(** A call that adds a given object. *)
Inductive reads_object {V} `{LuaApi V} (e : endian) : call select_answer * list V -> object -> Prop :=
| reads_value v g x oid tg lv :
    is_oid v oid -> luaL_checkint g = Some tg -> value_of x (u8 tg) = Some lv ->
    store_value e (u8 tg) lv (mk_var (u8 tg) 0 (replicate (Z.to_nat VALUE_SIZE) 0)) <> None ->
    reads_object e (TrapVarbind, [v; g; x]) (oid, stored_val (u8 tg) lv).

Lemma reads_objects_vars {V} `{LuaApi V} e (calls : list (call select_answer * list V)) objs : Forall2 (reads_object e) calls objs ->
  exists vars, Forall2 (reads_var e) calls vars /\ vars_hold e vars objs.
Proof.
  induction 1 as [|c o calls objs Hc _ (vars & H1 & H2)]; [exists []; split; constructor|].
  destruct Hc as [v g x oid tg lv Ho Hg Hx Hst].
  destruct (store_value e _ _ _) as [var|] eqn:E; [|done]. exists ((oid, var) :: vars).
  split; constructor; try done; [by apply (reads_varbind e v g x oid tg lv var)|].
  split; [done|]. by eapply store_value_holds.
Qed.

(** A call that sends it: version 2, to an address of four bytes. *)
Inductive reads_send {V} `{LuaApi V} : call select_answer * list V -> list Z -> list Z -> Z -> Prop :=
| reads_trap_send ver n a q name ip port :
    luaL_checkint ver = Some 2 -> luaL_checkstring n = Some name -> lua_istable a = true -> lua_objlen a = 4 ->
    map u8 (table_ints a 4) = ip -> luaL_checkint q = Some port ->
    reads_send (TrapSend, [ver; n; a; q]) (c_str name) ip port.

Definition view_result (op : view_op) : list lua_result :=
  match op with UserCreate _ _ _ _ _ => [PushBoolean true] | _ => [] end.

Definition op_small {V} (op : config_op V) : Prop :=
  match op with OView (CommunityReg oid _ _) | OView (UserReg oid _ _) => oid_small oid | _ => True end.

Section Agent.
Context {V L : Type} `{LuaApi V}.
Context (lua_pcall : L -> Z -> Z -> list Z -> lua_arg -> lua_arg -> L * option lua_ret).
Context (lua_ref : V -> L -> Z * L) (lua_unref : Z -> L -> L).
Context (e : endian) (junk : Z) (t : target) (aligned fast : bool) (k0 : AES_KEY) (random : nat -> Z * Z).
Context (sigfd sock : Z) (bound : Z -> bool) (sendto : list Z -> list Z -> bool).
Context (lua_trap : Z -> agent_world L -> option (agent_world L)).
Context (trap_sock : Z) (trap_sendto : list Z -> Z) (trap_random : nat -> Z).
Context (agentx_ops : protocol_operation (agent_world L) select_answer) (use_agentx : bool).

#[local] Instance snmp_state : AgentState V (agent_world L) := {
  luaL_ref v w := let '(cb, l) := lua_ref v (ag_lua (t_agent (w_t w))) in (cb, on_agent (with_lua l) w);
  as_mib_init w := on_agent (with_root mib_init) w;
  as_views w := ag_views (t_agent (w_t w));
  as_set_views st w := on_agent (with_views st) w;
}.

Definition trap_table : trap_operation (agent_world L) :=
  snmp_trap_ops lua_unref e junk lua_trap trap_sock trap_sendto trap_random.
Definition snmp_table : protocol_operation (agent_world L) select_answer :=
  snmp_prot_ops (B := Select) lua_pcall lua_unref e junk t aligned fast k0 random sigfd sock bound sendto (trap_probe trap_table).

Definition agent_func : call select_answer -> list V -> binding (list lua_result) :=
  smithsnmp_func snmp_table agentx_ops trap_table use_agentx e junk (usm_MD5_key t junk) (usm_SHA1_key t junk).
Definition agent_script : list (call select_answer * list V) -> binding (list (list lua_result)) :=
  script snmp_table agentx_ops trap_table use_agentx e junk (usm_MD5_key t junk) (usm_SHA1_key t junk).

(** *** The meaning of a script

    On the map of the MIB, the access tables and the interpreter. *)

Inductive a_call : config_op V -> amib * view_state * L -> list lua_result -> amib * view_state * L -> Prop :=
| a_call_reg oid f sh sh' st l cb l' ret :
    lua_ref f l = (cb, l') -> ret = (a_reg sh oid cb).1 -> (forall o, sh' o = (a_reg sh oid cb).2 o) ->
    a_call (OReg oid f) (sh, st, l) [PushNumber ret] (sh', st, l')
| a_call_unreg oid sh sh' st l cbs :
    released sh oid cbs -> (forall o, sh' o = a_unreg sh oid o) ->
    a_call (OUnreg oid) (sh, st, l) [PushNumber 0] (sh', st, foldl (fun l cb => lua_unref cb l) l cbs)
| a_call_view op sh st st' l :
    view_step (usm_MD5_key t junk) (usm_SHA1_key t junk) snmpv3_engine_id junk op st = Some st' ->
    a_call (OView op) (sh, st, l) (view_result op) (sh, st', l).

Inductive a_script : list (config_op V) -> amib * view_state * L -> list (list lua_result) -> amib * view_state * L -> Prop :=
| a_script_nil x : a_script [] x [] x
| a_script_cons op ops x y z r rs : a_call op x r y -> a_script ops y rs z -> a_script (op :: ops) x (r :: rs) z.

(** A script that comes to a call which never returns: a removal with the write
    attribute of a community or user that has readable views. *)
Definition a_stuck (ops : list (config_op V)) (x : amib * view_state * L) : Prop :=
  exists before op rest rs y, ops = before ++ OView op :: rest /\ a_script before x rs y /\ view_stuck op y.1.2.

(** The state of an agent whose configuration is in order. *)
Record ready (w : Z) (root : mib_node) (m : smith (S := agent_world L) (answer := select_answer)) : Prop := {
  rd_prot : smithsnmp_prot_ops m = Some snmp_table;
  rd_root : ag_root (agent_of m) = Some root;
  rd_wf : root_wf w root;
  rd_views : state_ok (ag_views (agent_of m));
  rd_keys : users_keys_ok (ag_views (agent_of m));
}.

(** The state after a configuration: nothing else has changed. *)
Definition reconfigured (root : mib_node) (st : view_state) (l : L) (m : smith (S := agent_world L) (answer := select_answer)) :=
  put_state (on_agent (fun a => with_lua l (with_views st (with_root (Some root) a))) (sm_state m)) m.

(** The allocation of an identifier is freed. *)
Lemma live_back n : n + 1 + -1 = n.
Proof. lia. Qed.

(** The state of a binding, taken apart; the operations on the MIB and the
    access tables stay folded. *)
Ltac bcbn := cbn -[cstring c_str u8 reg_attr unreg_attr short_phrase mib_node_reg mib_node_unreg mib_community_reg mib_community_unreg mib_user_create mib_user_reg mib_user_unreg Z.add].
Ltac step_binding :=
  rewrite ?arg_cons; unfold on_views, prot, trap, on_state_, on_state, alloc, push, check, bbind, put_state, reconfigured, on_agent; bcbn.

Lemma reg_call v f oid m w root :
  is_oid v oid -> lua_isfunction f = true -> ready w root m -> 0 <= w <= GROUP_MAX ->
  exists r root' l', agent_func MibNodeReg [v; f] m = Some (reconfigured root' (ag_views (agent_of m)) l' m, Some r) /\
    a_call (OReg oid f) (shape root, ag_views (agent_of m), ag_lua (agent_of m)) r (shape root', ag_views (agent_of m), l') /\
    root_wf (w + 1) root'.
Proof.
  intros Ho Hf [Hp Hr Hwf Hv Hk] Hw. cbn [agent_func smithsnmp_func]. unfold agent_func, smithsnmp_func, smithsnmp_mib_node_reg, bbind at 1.
  rewrite arg_cons, (check_oid_spec v oid m Ho). change (top [v; f]) with f. rewrite Hf. cbn [negb].
  destruct (lua_ref f (ag_lua (agent_of m))) as [cb l'] eqn:El.
  destruct (reg_spec root w oid cb Hwf (is_oid_words v oid Ho) Hw) as (root' & Er & Hwf' & Hs).
  destruct m as [po to live [loop env [sk sg buf cl [ro vi sd lu tp nt ini cnt] ib sgs sent clo lea]]].
  unfold agent_of in *. cbn [sm_state w_t t_agent ag_lua ag_root ag_views smithsnmp_prot_ops] in *. subst po ro.
  step_binding. rewrite El. bcbn. unfold snmpd_mib_node_reg. bcbn. rewrite Er. bcbn.
  exists [PushNumber (a_reg (shape root) oid cb).1], root', l'. rewrite live_back. split; [reflexivity|]. split; [|exact Hwf'].
  by econstructor.
Qed.
Lemma unreg_call v oid m w root :
  is_oid v oid -> ready w root m ->
  exists r root' l', agent_func MibNodeUnreg [v] m = Some (reconfigured root' (ag_views (agent_of m)) l' m, Some r) /\
    a_call (OUnreg oid) (shape root, ag_views (agent_of m), ag_lua (agent_of m)) r (shape root', ag_views (agent_of m), l') /\
    root_wf w root'.
Proof.
  intros Ho [Hp Hr Hwf Hv Hk]. unfold agent_func, smithsnmp_func, smithsnmp_mib_node_unreg, bbind at 1.
  rewrite arg_cons, (check_oid_spec v oid m Ho).
  destruct (unreg_spec root w oid Hwf) as (root' & log & Er & Hwf' & Hs & _).
  destruct (frees_released lua_unref root w oid _ log (ag_lua (agent_of m)) Hwf Er) as (cbs & Hc & El).
  destruct m as [po to live [loop env [sk sg buf cl [ro vi sd lu tp nt ini cnt] ib sgs sent clo lea]]].
  unfold agent_of in *. cbn [sm_state w_t t_agent ag_lua ag_root ag_views smithsnmp_prot_ops] in *. subst po ro.
  step_binding. unfold snmpd_mib_node_unreg. bcbn. rewrite Er. bcbn.
  exists [PushNumber 0], root', (release lua_unref log lu). rewrite live_back. split; [reflexivity|]. split; [|exact Hwf'].
  rewrite El. by constructor.
Qed.

(** The calls on the access tables change nothing else. *)
Lemma view_call c args op m w root :
  reads (c, args) (OView op) -> ready w root m ->
  agent_func c args m =
  let* st' := view_step (usm_MD5_key t junk) (usm_SHA1_key t junk) snmpv3_engine_id junk op (ag_views (agent_of m)) in
  Some (reconfigured root st' (ag_lua (agent_of m)) m, Some (view_result op)).
Proof.
  intros Hr [Hp Hroot Hwf Hv Hk]. clear Hv Hk Hwf.
  destruct m as [po to live [loop env [sk sg buf cl [ro vi sd lu tp nt ini cnt] ib sgs sent clo lea]]].
  unfold agent_of in *. cbn [sm_state w_t t_agent ag_lua ag_root ag_views smithsnmp_prot_ops] in *. subst po ro.
  inversion Hr; subst; cbn [view_step view_result] in *; unfold agent_func, smithsnmp_func,
    smithsnmp_mib_community_reg, smithsnmp_mib_community_unreg, smithsnmp_mib_user_create, smithsnmp_mib_user_reg, smithsnmp_mib_user_unreg.
  all: try match goal with H : is_oid ?v ?o |- _ => unfold bbind at 1; rewrite arg_cons, (check_oid_spec v o _ H) end; step_binding.
  all: repeat match goal with H : luaL_checkstring _ = _ |- _ => rewrite H | H : luaL_checkint _ = _ |- _ => rewrite H end.
  all: unfold push; bcbn; repeat match goal with H : short_phrase _ = false |- _ => rewrite H end; bcbn.
  all: match goal with |- _ = match ?x with Some _ => _ | None => _ end => destruct x end; bcbn; rewrite ?live_back; reflexivity.
Qed.
Lemma ready_again w root m w' root' st' l' :
  ready w root m -> root_wf w' root' -> state_ok st' -> users_keys_ok st' -> ready w' root' (reconfigured root' st' l' m).
Proof. intros [Hp _ _ _ _] Hwf Hv Hk. split; [exact Hp|reflexivity|exact Hwf|exact Hv|exact Hk]. Qed.

(** Every call of a configuration does its part and leaves the agent ready, or it
    never returns. *)
Lemma config_call c args op m w root :
  reads (c, args) op -> op_small op -> ready w root m -> 0 <= w <= GROUP_MAX ->
  (exists r root' st' l', agent_func c args m = Some (reconfigured root' st' l' m, Some r) /\
    a_call op (shape root, ag_views (agent_of m), ag_lua (agent_of m)) r (shape root', st', l') /\
    ready (w + 1) root' (reconfigured root' st' l' m)) \/
  (exists vop, op = OView vop /\ view_stuck vop (ag_views (agent_of m)) /\ agent_func c args m = None).
Proof.
  intros Hr Hs Hm Hw. pose proof Hm as [Hp Hroot Hwf Hv Hk].
  destruct op as [oid f|oid|op].
  - left. inversion Hr; subst. destruct (reg_call v f oid m w root) as (r & root' & l' & E & Ha & Hwf'); [assumption..|].
    exists r, root', (ag_views (agent_of m)), l'. split; [exact E|]. split; [exact Ha|].
    exact (ready_again w root m _ root' _ l' Hm Hwf' Hv Hk).
  - left. inversion Hr; subst. destruct (unreg_call v oid m w root) as (r & root' & l' & E & Ha & Hwf'); [assumption..|].
    exists r, root', (ag_views (agent_of m)), l'. split; [exact E|]. split; [exact Ha|].
    exact (ready_again w root m _ root' _ l' Hm (root_wf_weaken _ _ Hwf') Hv Hk).
  - rewrite (view_call c args op m w root Hr Hm).
    destruct (view_step_ok (usm_MD5_key t junk) (usm_SHA1_key t junk) snmpv3_engine_id junk op _ (usm_MD5_key_length t junk)
      (usm_SHA1_key_length t junk) Hv Hk) as [(st' & Ev & Hv' & Hk')|Hst]; [by destruct op|left|right].
    + rewrite Ev. exists (view_result op), root, st', (ag_lua (agent_of m)). split; [reflexivity|]. split; [constructor; exact Ev|].
      exact (ready_again w root m _ root st' _ Hm (root_wf_weaken _ _ Hwf) Hv' Hk').
    + exists op. split; [reflexivity|]. split; [exact Hst|]. by rewrite (view_stuck_step _ _ _ _ _ _ Hst).
Qed.

Lemma script_spec calls ops : forall m w root,
  Forall2 reads calls ops -> Forall op_small ops -> ready w root m -> 0 <= w -> w + zlen ops <= GROUP_MAX + 1 ->
  (exists rs root' st' l', agent_script calls m = Some (reconfigured root' st' l' m, Some rs) /\
    a_script ops (shape root, ag_views (agent_of m), ag_lua (agent_of m)) rs (shape root', st', l') /\
    ready (w + zlen ops) root' (reconfigured root' st' l' m)) \/
  (a_stuck ops (shape root, ag_views (agent_of m), ag_lua (agent_of m)) /\ agent_script calls m = None).
Proof.
  intros m w root Hr. revert m w root. induction Hr as [|[c args] op calls ops Hc Hr IH]; intros m w root Hs Hm H0 Hw.
  { left. exists [], root, (ag_views (agent_of m)), (ag_lua (agent_of m)). pose proof Hm as [_ Hroot _ _ _].
    assert (m = reconfigured root (ag_views (agent_of m)) (ag_lua (agent_of m)) m) as Em.
    { destruct m as [po to live [loop env [sk sg buf cl [ro vi sd lu tp nt ini cnt] ib sgs sent clo lea]]].
      unfold agent_of in Hroot. cbn in Hroot. by subst ro. }
    split; [rewrite <- Em; reflexivity|]. split; [constructor|]. rewrite <- Em, Z.add_0_r. exact Hm. }
  inversion Hs as [|? ? Ho Hs']; subst. unfold zlen in *. cbn [length] in Hw. rewrite Nat2Z.inj_succ in Hw.
  change (agent_script ((c, args) :: calls) m) with
    (bbind (agent_func c args) (fun r => bbind (agent_script calls) (fun rs => push (r :: rs))) m). unfold bbind.
  destruct (config_call c args op m w root Hc Ho Hm ltac:(lia)) as [(r & root1 & st1 & l1 & E1 & A1 & M1)|(vop & -> & Hst & ->)].
  2: { right. split; [|reflexivity]. eexists [], vop, ops, [], _. split; [reflexivity|]. split; [constructor|exact Hst]. }
  rewrite E1. destruct (IH _ (w + 1) root1 Hs' M1 ltac:(lia) ltac:(lia)) as [(rs & root2 & st2 & l2 & E2 & A2 & M2)|[Hstuck E2]].
  - left. exists (r :: rs), root2, st2, l2. rewrite E2. split; [reflexivity|]. split; [by econstructor|].
    cbn [length]. rewrite Nat2Z.inj_succ. replace (w + Z.succ (Z.of_nat (length ops))) with (w + 1 + Z.of_nat (length ops)) by lia.
    exact M2.
  - right. rewrite E2. split; [|reflexivity]. destruct Hstuck as (before & vop & rest & rs & y & -> & Hb & Hst).
    exists (op :: before), vop, rest, (r :: rs), y. split; [reflexivity|]. split; [by econstructor|exact Hst].
Qed.
(** Starting the protocol: a fresh tree, and the two descriptors. *)
Lemma init_call p q name port m :
  luaL_checkstring p = Some name -> cstring name = "snmp"%string -> luaL_checkint q = Some port -> bound port = true ->
  fd_ok sock = true -> fd_ok sigfd = true ->
  exists m', agent_func Init [p; q] m = Some (m', Some [PushBoolean true]) /\
    smithsnmp_prot_ops m' = Some snmp_table /\ sm_live m' = sm_live m /\ w_loop (sm_state m') = w_loop (sm_state m) /\
    ag_root (agent_of m') = mib_init /\ ag_views (agent_of m') = ag_views (agent_of m) /\
    ag_lua (agent_of m') = ag_lua (agent_of m) /\
    (let tr := w_t (sm_state m) in let tr' := w_t (sm_state m') in
     t_sock tr' = sock /\ t_sigfd tr' = sigfd /\ t_buf tr' = t_buf tr /\ t_inbox tr' = t_inbox tr /\ t_sent tr' = t_sent tr /\
     t_leaked tr' = t_leaked tr).
Proof.
  intros E1 E2 E3 Hb Hs Hg. apply fd_ok_range in Hs, Hg.
  destruct m as [po to live [loop env [sk sg buf cl [ro vi sd lu tp nt ini cnt] ib sgs sent clo lea]]].
  unfold agent_func, smithsnmp_func, smithsnmp_init. step_binding. rewrite E1. unfold push. cbn match. rewrite E3. cbn match.
  rewrite E2. cbn [String.eqb Ascii.eqb Bool.eqb]. bcbn. unfold snmpd_init, transport_init.
  rewrite Hb, (proj2 (Z.ltb_ge _ _)), (proj2 (Z.ltb_ge _ _)) by lia. eexists. split; [reflexivity|].
  by repeat split.
Qed.
Lemma script_app calls calls' m :
  agent_script (calls ++ calls') m =
  let* (m1, r) := agent_script calls m in
  match r with
  | Some rs => let* (m2, r') := agent_script calls' m1 in Some (m2, app rs <$> r')
  | None => Some (m1, None)
  end.
Proof. apply calls_app. Qed.

Lemma script_cons c args calls m m1 r :
  agent_func c args m = Some (m1, Some r) ->
  agent_script ((c, args) :: calls) m = let* (m2, rs) := agent_script calls m1 in Some (m2, cons r <$> rs).
Proof. apply calls_cons. Qed.


Lemma open_call m : smithsnmp_prot_ops m = Some snmp_table -> agent_script [(Open, [])] m = Some (m, Some [[PushBoolean true]]).
Proof. destruct m as [po to live s]. cbn [smithsnmp_prot_ops]. intros ->. reflexivity. Qed.

Lemma run_call m sels w' rest :
  smithsnmp_prot_ops m = Some snmp_table ->
  transport_running (B := Select) junk Transport.TRANSP_BUF_SIZ true (snmpd_receive lua_pcall e junk t aligned fast k0 random) sendto
    (trap_probe trap_table) sels (sm_state m) = Some (rest, w') ->
  smithsnmp_run (V := V) sels [] m = Some (put_state w' m, Some rest).
Proof.
  intros Hp E. unfold smithsnmp_run, prot, on_state. rewrite Hp. change (prot_run snmp_table) with
    (transport_running (B := Select) junk Transport.TRANSP_BUF_SIZ true
      (snmpd_receive lua_pcall e junk t aligned fast k0 random) sendto (trap_probe trap_table)).
  by rewrite E.
Qed.

(** *** Notifications *)
Definition with_trap_state (d : trap_datagram) (m : smith (S := agent_world L) (answer := select_answer)) : smith :=
  put_state (on_agent (with_trap d) (sm_state m)) m.

Lemma varbind_call c oid var m d' :
  reads_var e c (oid, var) -> smithsnmp_trap_ops m = Some trap_table -> td_lua (ag_trap (agent_of m)) = true ->
  snmp_trap_varbind e junk oid var (ag_trap (agent_of m)) = Some d' ->
  agent_func c.1 c.2 m = Some (with_trap_state d' m, Some []).
Proof.
  intros Hr Ht Hl E. inversion Hr as [v g x o tg lv var' Ho Hg Hv Hs]; subst. cbn [fst snd].
  unfold agent_func, smithsnmp_func, smithsnmp_trap_varbind, bbind at 1. rewrite arg_cons, (check_oid_spec v oid m Ho).
  destruct m as [po to live [loop env [sk sg buf cl [ro vi sd lu tp nt ini cnt] ib sgs sent clo lea]]].
  unfold agent_of in *. cbn [sm_state w_t t_agent ag_trap smithsnmp_trap_ops] in *. subst to.
  unfold bbind. rewrite !arg_cons. unfold check. rewrite Hg. unfold push. cbn match. unfold nofault. rewrite Hv. cbn match. rewrite Hs.
  cbn match. unfold trap, on_state_. cbn [smithsnmp_trap_ops sm_state]. cbn match.
  change (trap_varbind trap_table) with (trap_ops_varbind (L := L) (env := select_env) e junk). unfold trap_ops_varbind.
  cbn [w_t t_agent ag_trap]. rewrite Hl, E. cbn match. unfold alloc, with_trap_state, put_state, on_agent. bcbn. by rewrite live_back.
Qed.

Lemma host_bytes ip : length ip = 4%nat -> bytes ip -> net_bytes (host_of LE ip) = ip.
Proof.
  destruct ip as [|b0 [|b1 [|b2 [|b3 [|]]]]]; try done. intros _ Hb. rewrite !Forall_cons in Hb.
  assert (forall v b n, 0 <= n -> is_u8 b -> Z.lor (Z.shiftl v (n + 8)) (Z.shiftl b n) = Z.shiftl (256 * v + b) n) as Hcat.
  { intros v b n Hn Hb'. rewrite (Z.add_comm n 8), <- Z.shiftl_shiftl by lia. by rewrite <- Z.shiftl_lor, lor_shiftl_byte. }
  assert (forall z n, 0 <= n -> 0 <= z < 2 ^ (32 - n) -> n <= 32 -> u32 (Z.shiftl z n) = Z.shiftl z n) as Hid.
  { intros z n Hn Hz Hle. rewrite Z.shiftl_mul_pow2 by done. apply u32_id. unfold is_u32.
    replace 32 with (32 - n + n) by lia. rewrite Z.pow_add_r by lia. pose proof (Z.pow_pos_nonneg 2 n). nia. }
  destruct Hb as (H0 & H1 & H2 & H3 & _).
  assert (host_of LE [b0; b1; b2; b3] = 256 * (256 * (256 * b0 + b1) + b2) + b3) as ->.
  { unfold host_of. cbn [seq foldl nth]. change (8 * (3 - Z.of_nat 0)) with (16 + 8). rewrite Z.lor_0_l, (Hid b0) by (unfold is_u8 in *; lia).
    change (8 * (3 - Z.of_nat 1)) with 16. rewrite Hcat, (Hid (256 * b0 + b1)) by (done || unfold is_u8 in *; lia).
    change (8 * (3 - Z.of_nat 2)) with 8. change 16 with (8 + 8). rewrite Hcat, Hid by (done || unfold is_u8 in *; lia).
    change (8 * (3 - Z.of_nat 3)) with 0. change 8 with (0 + 8). rewrite Hcat, Hid by (done || unfold is_u8 in *; lia). apply Z.shiftl_0_r. }
  unfold is_u8 in *. unfold net_bytes, mem_of. cbn [le_bytes rev app]. 
  repeat f_equal; Z.to_euclidean_division_equations; lia.
Qed.
(** On a machine of the other byte order the bytes of the address are exchanged. *)
Lemma host_reversed (b0 b1 b2 b3 : Z) : host_of BE [b0; b1; b2; b3] = host_of LE [b3; b2; b1; b0].
Proof.
  unfold host_of, u32. cbn [seq foldl nth]. change (Z.of_nat 0) with 0. change (Z.of_nat 1) with 1. change (Z.of_nat 2) with 2.
  change (Z.of_nat 3) with 3. change (8 * (3 - 0)) with (8 * 3). change (8 * (3 - 1)) with (8 * 2). change (8 * (3 - 2)) with (8 * 1).
  change (8 * (3 - 3)) with (8 * 0). rewrite <- !Z.land_ones by done. apply Z.bits_inj. intros n.
  rewrite !Z.land_spec, !Z.lor_spec, !Z.land_spec, !Z.lor_spec, !Z.land_spec, !Z.lor_spec, !Z.land_spec, !Z.lor_spec, !Z.bits_0.
  destruct (Z.testbit (Z.ones 32) n); rewrite ?andb_false_r, ?andb_true_r; [|done].
  destruct (Z.testbit (Z.shiftl b0 _) n), (Z.testbit (Z.shiftl b1 _) n), (Z.testbit (Z.shiftl b2 _) n), (Z.testbit (Z.shiftl b3 _) n); done.
Qed.

(** The address to which a datagram goes. *)
Definition sent_to (ip : list Z) : list Z := match e with LE => ip | BE => rev ip end.

Lemma host_sent_to ip : length ip = 4%nat -> bytes ip -> net_bytes (host_of e ip) = sent_to ip.
Proof.
  unfold sent_to. destruct e; [apply host_bytes|]. intros Hl Hb. destruct ip as [|b0 [|b1 [|b2 [|b3 [|]]]]]; try done.
  rewrite host_reversed. apply host_bytes; [done|]. by apply Forall_rev in Hb.
Qed.

Lemma table_bytes (v : V) n : bytes (map u8 (table_ints v n)).
Proof. apply Forall_fmap, Forall_forall. intros z _. apply u8_range. Qed.

Lemma send_call c comm ip port m d' eff :
  reads_send c comm ip port -> smithsnmp_trap_ops m = Some trap_table -> td_lua (ag_trap (agent_of m)) = true ->
  snmp_trap_send e junk TRAP_V2 comm (zlen comm) (host_of e ip) port (trap_random (length (ag_net (agent_of m)))) (ag_trap (agent_of m)) =
    Some (d', eff) ->
  let ret := match eff with SendTo _ msg _ _ => trap_sendto msg | _ => 0 end in
  agent_func c.1 c.2 m =
    Some (put_state (trap_effects lua_unref [eff] (on_agent (with_trap d') (sm_state m))) m, Some [PushBoolean (negb (ret <? 0))]).
Proof.
  intros Hr Ht Hl E ret. inversion Hr as [ver n a q name ip' port' Hver Hn Ha Hlen Hip Hq]; subst. cbn [fst snd].
  destruct m as [po to live [loop env [sk sg buf cl [ro vi sd lu tp nt ini cnt] ib sgs sent clo lea]]].
  unfold agent_of in *. cbn [sm_state w_t t_agent ag_trap ag_net smithsnmp_trap_ops] in *. subst to.
  unfold agent_func, smithsnmp_func, smithsnmp_trap_send, bbind. rewrite !arg_cons, Ha, Hlen. unfold check. rewrite Hver, Hn, Hq.
  unfold push. cbn match. cbn [negb]. unfold nofault. change (Z.to_nat 4) with 4%nat.
  rewrite (blit_all (map u8 (table_ints a 4))) by (by rewrite length_replicate). cbn match. unfold trap, on_state.
  cbn [smithsnmp_trap_ops sm_state]. cbn match. change (u8 2) with TRAP_V2.
  change (trap_send trap_table) with (trap_ops_send (L := L) (env := select_env) lua_unref e junk trap_sendto trap_random).
  unfold trap_ops_send. cbn [w_t t_agent ag_trap ag_net]. rewrite Hl, E. cbn match. reflexivity.
Qed.
Lemma varbind_lua oid var d d' : snmp_trap_varbind e junk oid var d = Some d' -> td_lua d' = td_lua d.
Proof.
  unfold snmp_trap_varbind. destruct (ber_value_enc_try _ _ _ _); [|done]. destruct (ber_value_enc _ _ _ _); [|done].
  destruct (blit _ _); [|done]. destruct (ber_oid_enc_try oid); [|done]. by intros [= <-].
Qed.

Lemma varbind_calls calls vars : Forall2 (reads_var e) calls vars -> forall m d',
  smithsnmp_trap_ops m = Some trap_table -> td_lua (ag_trap (agent_of m)) = true ->
  trap_varbinds e junk vars (ag_trap (agent_of m)) = Some d' ->
  agent_script calls m = Some (with_trap_state d' m, Some (replicate (length calls) [])).
Proof.
  induction 1 as [|[c args] [oid var] calls vars Hc _ IH]; intros m d' Ht Hl E.
  { injection E as <-. by destruct m as [po to live [loop env [sk sg buf cl [ro vi sd lu tp nt ini cnt] ib sgs sent clo lea]]]. }
  cbn [trap_varbinds fst snd] in E. destruct (snmp_trap_varbind e junk oid var _) as [d1|] eqn:E1; [|done].
  pose proof (varbind_call _ oid var m d1 Hc Ht Hl E1) as Ef. cbn [fst snd] in Ef.
  rewrite (script_cons _ _ _ _ _ _ Ef), (IH (with_trap_state d1 m) d'); [|exact Ht| |exact E].
  - reflexivity.
  - rewrite <- Hl. exact (varbind_lua _ _ _ _ E1).
Qed.

(** C18: a notification of version 2 from Lua: with notifications enabled and the
    lengths of the error fields in place (on little-endian machines always), the
    calls that add objects and the call that sends them to an address of four bytes
    transmit one datagram, [note_message] with these objects in order, which is the
    message of RFC 3416 if they are standard, to the port given and to the address
    given, its bytes exchanged on big-endian machines.  The objects are the values
    that the script passes, cut to 32 bits or to the 16 bits of a length, as far as
    they fit the variable and their lengths can be announced.  The script learns
    whether [sendto] succeeded, the datagram is ready for the next notification and
    nothing is leaked. *)
Theorem smithsnmp_notifies (calls : list (call select_answer * list V)) (objs : list object) (c : call select_answer * list V)
    (comm ip : list Z) (port : Z) (m : smith (S := agent_world L) (answer := select_answer)) :
  let rnd := trap_random (length (ag_net (agent_of m))) in
  let msg := note_message comm rnd objs in
  Forall2 (reads_object e) calls objs -> reads_send c comm ip port -> note_fits e comm rnd objs ->
  smithsnmp_trap_ops m = Some trap_table -> td_lua (ag_trap (agent_of m)) = true ->
  trap_ready (ag_trap (agent_of m)) [] -> lengths_sized e (ag_trap (agent_of m)) ->
  (exists d', let sent := SendTo (td_sock (ag_trap (agent_of m))) msg (sent_to ip) (mem_of BE 2 port) in
    agent_script (calls ++ [c]) m =
      Some (put_state (on_agent (fun a => log_effects lua_unref [sent] (with_trap d' a)) (sm_state m)) m,
            Some (replicate (length calls) [] ++ [[PushBoolean (negb (trap_sendto msg <? 0))]])) /\
    trap_ready d' [] /\ lengths_sized e d' /\ same_target (ag_trap (agent_of m)) d') /\
  (Forall object_standard objs -> msg = trap_x690 comm rnd objs).
Proof.
  intros rnd msg Hc Hs Hfit Ht Hl Hr Hz. pose proof Hfit as (Hok & Hrnd & Hrs & Hlen).
  split; [|intros; apply note_message_x690; [destruct e; auto|done]].
  destruct (reads_objects_vars e calls objs Hc) as (vars & Hvars & Hh).
  destruct (trap_varbinds_ready e junk _ _ Hh Hok _ [] Hr) as (d1 & E1 & Hd1 & S1 & Hh1).
  { by apply (message_bindings_bound comm (mk_pdu_msg SNMP_TRAP_V2 rnd 0 0 (map object_binding objs))). }
  destruct (send_ready e junk d1 _ comm comm (host_of e ip) port rnd Hd1) as (d2 & E2 & Hd2 & Hs2 & S2);
    [unfold lengths_sized; by rewrite Hh1|done|done|by apply slice_self|exact Hlen|].
  exists d2. split; [|split; [exact Hd2|split; [exact Hs2|by apply (same_target_trans _ d1)]]].
  rewrite script_app, (varbind_calls _ _ Hvars m d1 Ht Hl E1). cbn match. destruct c as [c args].
  assert (net_bytes (host_of e ip) = sent_to ip) as Hip.
  { inversion Hs; subst. apply host_sent_to; [reflexivity|apply table_bytes]. }
  rewrite Hip in E2.
  pose proof (send_call (c, args) comm ip port (with_trap_state d1 m) d2 _ Hs Ht (eq_trans (proj1 (proj2 S1)) Hl) E2) as Ef.
  cbn [fst snd] in Ef. rewrite (script_cons _ _ _ _ _ _ Ef), (proj1 S1). reflexivity.
Qed.
(** *** Errors *)

(** The program after an error in a call that has read an identifier: the
    identifier stays allocated. *)
Definition leaked_oid (m : smith (S := agent_world L) (answer := select_answer)) : smith :=
  mk_smith (smithsnmp_prot_ops m) (smithsnmp_trap_ops m) (sm_live m + 1) (sm_state m).

(** C39: a call of Lua with a wrong argument changes nothing and raises an error;
    but the four functions that copy an identifier before they look at their
    other arguments leave the copy allocated for ever: registering something
    that is not a function, and registering a community or a user, or adding an
    object to a notification, with something else than a string or a number as
    the second argument. *)
Theorem smithsnmp_errors_leak (v : V) (oid : list Z) (args : list V) (m : smith) :
  (lua_istable v = false ->
    forall c, c ∈ [MibNodeReg; MibNodeUnreg; CommunityRegister; UserRegister; TrapVarbind] ->
    agent_func c (v :: args) m = Some (m, None)) /\
  (is_oid v oid -> lua_isfunction (top (v :: args)) = false -> agent_func MibNodeReg (v :: args) m = Some (leaked_oid m, None)) /\
  (is_oid v oid -> luaL_checkstring (arg args 1) = None -> forall c, c ∈ [CommunityRegister; UserRegister] ->
    agent_func c (v :: args) m = Some (leaked_oid m, None)) /\
  (is_oid v oid -> luaL_checkint (arg args 1) = None -> agent_func TrapVarbind (v :: args) m = Some (leaked_oid m, None)).
Proof.
  split_and!.
  - intros Hv c Hc. assert (forall A (k : list Z -> binding A), bbind (check_oid (arg (v :: args) 1)) k m = Some (m, None)) as Hk.
    { intros A k. unfold bbind, check_oid. by rewrite arg_cons, Hv. }
    rewrite !elem_of_cons, elem_of_nil in Hc. destruct Hc as [->|[->|[->|[->|[->|[]]]]]]; apply Hk.
  - intros Ho Hf. unfold agent_func, smithsnmp_func, smithsnmp_mib_node_reg, bbind at 1.
    by rewrite arg_cons, (check_oid_spec v oid m Ho), Hf.
  - intros Ho Hs c Hc. assert (forall A (k : list Z -> list Z -> binding A),
      bbind (check_oid (arg (v :: args) 1)) (fun o => bbind (check (luaL_checkstring (arg (v :: args) 2))) (k o)) m =
      Some (leaked_oid m, None)) as Hk.
    { intros A k. unfold bbind. rewrite arg_cons, (check_oid_spec v oid m Ho), arg_cons. by rewrite Hs. }
    rewrite !elem_of_cons, elem_of_nil in Hc. destruct Hc as [->|[->|[]]]; apply Hk.
  - intros Ho Hg. unfold agent_func, smithsnmp_func, smithsnmp_trap_varbind, bbind at 1.
    rewrite arg_cons, (check_oid_spec v oid m Ho), arg_cons. unfold bbind. by rewrite Hg.
Qed.

(** An address of more than four bytes is written past the end of the array. *)
Theorem smithsnmp_trap_send_overflow (ver n a : V) (args : list V) (name : list Z) (z : Z) (m : smith) :
  luaL_checkint ver = Some z -> luaL_checkstring n = Some name -> lua_istable a = true -> 4 < lua_objlen a ->
  agent_func TrapSend (ver :: n :: a :: args) m = None.
Proof.
  intros Hv Hn Ha Hl. unfold agent_func, smithsnmp_func, smithsnmp_trap_send, bbind. rewrite !arg_cons. unfold check.
  rewrite Hv, Hn, Ha. unfold push. cbn match. cbn [negb]. unfold nofault, blit. rewrite decide_False; [done|].
  rewrite length_map, length_replicate. unfold table_ints. rewrite length_map, length_seq. lia.
Qed.

(** A protocol that is not compiled in is not refused: the call goes through the
    table of before, which is NULL in a program that has not started any. *)
Theorem smithsnmp_init_agentx_disabled (p q : V) (args : list V) (name : list Z) (port : Z) (m : smith) :
  use_agentx = false -> luaL_checkstring p = Some name -> cstring name = "agentx"%string -> luaL_checkint q = Some port ->
  smithsnmp_prot_ops m = None -> agent_func Init (p :: q :: args) m = None.
Proof.
  intros Hu Hp En Hq Hm. unfold agent_func, smithsnmp_func, smithsnmp_init, bbind. rewrite !arg_cons. unfold check.
  rewrite Hp, Hq. unfold push. cbn match. rewrite En, Hu. cbn [String.eqb Ascii.eqb Bool.eqb]. unfold on_state_, prot. cbn match.
  unfold put_state. cbn [smithsnmp_prot_ops]. by rewrite Hm.
Qed.

(** Stepping is a call through NULL with a table that has no function for it, as
    that of the sub-agent. *)
Theorem smithsnmp_step_missing (a : select_answer) (args : list V) (ops : protocol_operation (agent_world L) select_answer) (m : smith) (z : Z) :
  luaL_optinteger (arg args 1) 0 = Some z -> smithsnmp_prot_ops m = Some ops -> prot_step ops = None ->
  smithsnmp_step a args m = None.
Proof.
  intros Hz Hm Hs. unfold smithsnmp_step, bbind, check. rewrite Hz. unfold push. cbn match. unfold prot. rewrite Hm. cbn match.
  unfold nofault. by rewrite Hs.
Qed.
End Agent.

(** ** A small program

    Values of Lua; the digits of a number are its string, a string is not read as
    a number. *)
Inductive lua_val := LNil | LNum (z : Z) | LStr (s : list Z) | LTab (vs : list lua_val) | LFun (n : Z).

Definition digits (z : Z) : list Z :=
  map (fun c => Z.of_N (Ascii.N_of_ascii c)) (list_ascii_of_string (DecimalString.NilZero.string_of_int (Z.to_int z))).

#[export] Instance lua_vals : LuaApi lua_val := {
  lua_nil := LNil;
  lua_istable v := match v with LTab _ => true | _ => false end;
  lua_isfunction v := match v with LFun _ => true | _ => false end;
  luaL_checkstring v := match v with LStr s => Some s | LNum z => Some (digits z) | _ => None end;
  luaL_checkint v := match v with LNum z => Some (i32 z) | _ => None end;
  luaL_optinteger v d := match v with LNum z => Some z | LNil => Some d | _ => None end;
  lua_objlen v := match v with LTab vs => zlen vs | LStr s => zlen s | LNum z => zlen (digits z) | _ => 0 end;
  lua_rawgeti v i := match v with LTab vs => default LNil (vs !! Z.to_nat (i - 1)) | _ => LNil end;
  lua_integer v := match v with LNum z => z | _ => 0 end;
  lua_number v := match v with LNum z => z | _ => 0 end;
  lua_string v := match v with LStr s => Some s | LNum z => Some (digits z) | _ => None end;
}.

Definition small_ref (v : lua_val) (l : unit) : Z * unit := (match v with LFun n => n | _ => -1 end, l).
Definition small_table : protocol_operation (agent_world unit) select_answer :=
  snmp_table (table_handler example_table) (fun _ l => l) LE 0 usm_target true true (mk_key (replicate 60 0) 0) (fun _ => (0, 0)) 4 3
    (fun _ => true) (fun _ _ => true) (fun _ w => Some w) 5 (fun _ => 0) (fun _ => 7).
Definition small_traps : trap_operation (agent_world unit) :=
  trap_table (fun _ l => l) LE 0 (fun _ w => Some w) 5 (fun _ => 0) (fun _ => 7).
Definition small_script : list (call select_answer * list lua_val) -> binding (list (list lua_result)) :=
  agent_script (table_handler example_table) small_ref (fun _ l => l) LE 0 usm_target true true (mk_key (replicate 60 0) 0)
    (fun _ => (0, 0)) 4 3 (fun _ => true) (fun _ _ => true) (fun _ w => Some w) 5 (fun _ => 0) (fun _ => 7) small_table false.

(** The program before it calls anything, with a datagram that will arrive. *)
Definition small_request : list Z := message_tlv 1 example_name (in_pdu SNMP_REQ_GETNEXT).
Definition small_trap_state (lua : bool) : trap_datagram :=
  mk_tdg 5 lua 9 Null 0 0 0 0 [] 0 (mk_pdu 0 0 0 0 0 0 0 0) 0 0 [].
Definition small_program (po : option (protocol_operation (agent_world unit) select_answer)) (root : option mib_node) (st : view_state) : smith :=
  mk_smith po (Some small_traps) 0 (mk_world ev_loop (mk_senv ∅ ∅) (mk_transp 0 0 BufNull []
    (mk_agent root st snmp_datagram_clear tt (small_trap_state true) [] false 0) [Recv small_request [1]] [] [] [] [])).

Definition small_config : list (call select_answer * list lua_val) :=
  [(MibNodeReg, [LTab [LNum 1; LNum 3; LNum 6; LNum 1]; LFun 7]);
   (MibNodeReg, [LTab [LNum 1; LNum 3; LNum 6; LNum 4]; LFun 8]);
   (MibNodeUnreg, [LTab [LNum 1; LNum 3; LNum 6; LNum 4]]);
   (CommunityRegister, [LTab [LNum 1; LNum 3; LNum 6]; LStr example_name; LNum 1])].
Definition small_ops : list (config_op lua_val) :=
  [OReg [1; 3; 6; 1] (LFun 7); OReg [1; 3; 6; 4] (LFun 8); OUnreg [1; 3; 6; 4];
   OView (CommunityReg [1; 3; 6] (cstring example_name) MIB_ACES_READ)].

Lemma small_reads : Forall2 reads small_config small_ops.
Proof. repeat constructor. apply (reads_community_reg _ _ _ _ example_name 1); by repeat split. Qed.

Lemma small_ops_small : Forall op_small small_ops.
Proof. repeat (apply Forall_cons; split; [try exact I; by apply oid_small_check|]). apply Forall_nil_2. Qed.

Lemma small_ready : ready (table_handler example_table) (fun _ l => l) LE 0 usm_target true true (mk_key (replicate 60 0) 0)
  (fun _ => (0, 0)) 4 3 (fun _ => true) (fun _ _ => true) (fun _ w => Some w) 5 (fun _ => 0) (fun _ => 7)
  0 mib_dummy_node_init (small_program (Some small_table) (Some mib_dummy_node_init) view_init).
Proof.
  destruct root_wf_init as (r & [= <-] & Hwf & _). destruct view_init_ok as [Hv Hk].
  split; [reflexivity|reflexivity|exact Hwf|exact Hv|exact Hk].
Qed.

(** The removal of the community with the write attribute. *)
Definition small_hang : call select_answer * list lua_val := (CommunityUnregister, [LStr example_name; LNum 2]).

(** The script runs to its end; with this removal added it never returns. *)
Definition small_runs_to_end (calls : list (call select_answer * list lua_val)) (m : smith) : bool :=
  match small_script calls m with Some _ => true | None => false end.


(** The program starts, configures itself and answers a GETNEXT request. *)
Definition small_main : list (call select_answer * list lua_val) :=
  [(Init, [LStr [115; 110; 109; 112]; LNum 161])] ++ small_config ++ [(Open, [])].
Definition small_boot : smith := small_program None None view_init.
Definition small_started : smith := match small_script small_main small_boot with Some (m, _) => m | None => small_boot end.
Definition small_receive : list Z -> Z -> agent unit -> option (agent unit * option (list Z)) :=
  snmpd_receive (table_handler example_table) LE 0 usm_target true true (mk_key (replicate 60 0) 0) (fun _ => (0, 0)).
Definition small_response : list Z :=
  message_tlv 1 example_name (mk_pdu_msg SNMP_RESP 1234 0 0 [mk_binding [1; 3; 6; 1; 2; 0] ASN1_TAG_INT [42];
    mk_binding [1; 3; 6; 9] ASN1_TAG_END_OF_MIB_VIEW []]).

Lemma small_turns msg : turns 3 4 [Some msg] [readable; writable].
Proof. repeat constructor; (lia || set_solver). Qed.


(** A notification with the time since start. *)
Definition small_varbind : call select_answer * list lua_val :=
  (TrapVarbind, [LTab [LNum 1; LNum 3; LNum 6; LNum 1; LNum 2; LNum 1; LNum 1; LNum 3; LNum 0]; LNum ASN1_TAG_TIMETICKS; LNum 300]).
Definition small_send : call select_answer * list lua_val :=
  (TrapSend, [LNum 2; LStr example_name; LTab [LNum 127; LNum 0; LNum 0; LNum 1]; LNum 162]).

Lemma small_reads_object : reads_object LE small_varbind ([1; 3; 6; 1; 2; 1; 1; 3; 0], VUint ASN1_TAG_TIMETICKS 300).
Proof.
  apply (reads_value LE _ _ _ _ ASN1_TAG_TIMETICKS (mk_lua_value 300 300 [] [])); [by repeat split|reflexivity|reflexivity|by vm_compute].
Qed.

Lemma small_reads_send : reads_send small_send example_name [127; 0; 0; 1] 162.
Proof. by apply (reads_trap_send _ _ _ _ example_name). Qed.

Lemma small_trap_ready : trap_ready (small_trap_state true) [].
Proof. split; cbn; (done || lia). Qed.

Lemma smithsnmp_notifies_witness :
  let objs := [([1; 3; 6; 1; 2; 1; 1; 3; 0], VUint ASN1_TAG_TIMETICKS 300)] in
  exists m', small_script [small_varbind; small_send] small_boot = Some (m', Some [[]; [PushBoolean true]]) /\
    ag_net (agent_of m') = [SendTo 5 (trap_x690 example_name 7 objs) [127; 0; 0; 1] [0; 162]] /\ sm_live m' = 0.
Proof.
  intros objs. 
  destruct (smithsnmp_notifies (table_handler example_table) small_ref (fun _ l => l) LE 0 usm_target true true
    (mk_key (replicate 60 0) 0) (fun _ => (0, 0)) 4 3 (fun _ => true) (fun _ _ => true) (fun _ w => Some w) 5 (fun _ => 0)
    (fun _ => 7) small_table false [small_varbind] objs small_send example_name [127; 0; 0; 1] 162
    small_boot) as ((d' & E & _) & Hstd).
  - constructor; [exact small_reads_object|constructor].
  - exact small_reads_send.
  - split; [|by split; [|split; [|vm_compute]]]. unfold object_ok, is_u8. repeat constructor; done.
  - reflexivity.
  - reflexivity.
  - exact small_trap_ready.
  - exact (conj I I).
  - eexists. split; [exact E|]. split; [|reflexivity].
    rewrite <- Hstd by (unfold object_standard, oid_standard; repeat constructor; done). reflexivity.
Defined.

Lemma smithsnmp_errors_leak_witness :
  let m := small_boot in
  exists m', agent_func (table_handler example_table) small_ref (fun _ l => l) LE 0 usm_target true true (mk_key (replicate 60 0) 0)
    (fun _ => (0, 0)) 4 3 (fun _ => true) (fun _ _ => true) (fun _ w => Some w) 5 (fun _ => 0) (fun _ => 7) small_table false
    MibNodeReg [LTab [LNum 1; LNum 3]; LNum 5] m = Some (m', None) /\ sm_live m' = 1.
Proof.
  intros m. exists (leaked_oid m). split; [|reflexivity].
  refine (proj1 (proj2 (smithsnmp_errors_leak (table_handler example_table) small_ref (fun _ l => l) LE 0 usm_target true true
    (mk_key (replicate 60 0) 0) (fun _ => (0, 0)) 4 3 (fun _ => true) (fun _ _ => true) (fun _ w => Some w) 5 (fun _ => 0)
    (fun _ => 7) small_table false (LTab [LNum 1; LNum 3]) [1; 3] [LNum 5] m)) _ _).
  - by repeat split.
  - reflexivity.
Defined.
