(* ===== verification/Subagent.v ===== *)
(** * The sub-agent as a whole

    A Lua program that runs as a sub-agent: it starts the protocol [agentx], opens
    a session, registers and removes handlers, each of which is a dialogue with
    the master agent, and serves the requests of the master.  The pieces are the
    bindings of [Bindings], the session of [Agentx], the stream of [Transport]
    and the answers of [AgentxIn]. *)
From Stdlib Require Import String.
From stdpp Require Import sets.
From S2P Require Import Prelude BerEncoder Oid MibTree MibSearch MibView SnmpData EventLoop Transport HashWords AgentxData AgentxWire AgentxCodec AgentxOut AgentxProc AgentxIn Agentx Usm Snmpd Bindings.
Local Open Scope Z_scope.

Abbreviation sub_world N L := (world handler select_env (transport (x_agent N L))).

Definition session_of {N L answer} (m : smith (S := sub_world N L) (answer := answer)) : session (N := N) (L := L) :=
  xa_session (t_agent (w_t (sm_state m))).

Section Subagent.
Context {V N L : Type} `{LuaApi V}.
Context (send : N -> list Z -> N * bool) (recv : N -> N * option (list Z)).
Context (lua_pcall : L -> Z -> Z -> list Z -> lua_arg -> lua_arg -> L * option lua_ret).
Context (lua_ref : V -> L -> Z * L) (lua_unref : Z -> L -> L).
Context (e : endian) (junk : Z) (t : target) (sigfd sock : Z) (connected : Z -> bool) (sendto : list Z -> list Z -> bool).
(** The table of notifications, which is not set in this protocol. *)
Context (probe : sub_world N L -> option (sub_world N L)).
Context (snmp_ops : protocol_operation (sub_world N L) select_answer) (trap_ops : trap_operation (sub_world N L)).
Context (MD5_key SHA1_key : list Z -> list Z -> list Z).

#[local] Instance agentx_state : AgentState V (sub_world N L) := {
  luaL_ref v w := let '(cb, l) := lua_ref v (ss_lua (xa_session (t_agent (w_t w)))) in
    (cb, on_session (fun s => mk_session (ss_net s) l (ss_xdg s) (ss_mib s)) w);
  as_mib_init w := on_session (with_mib mib_dummy_node_init) w;
  as_views w := xa_views (t_agent (w_t w));
  as_set_views st w :=
    let tr := w_t w in
    set_t (mk_transp (t_sock tr) (t_sigfd tr) (t_buf tr) (t_client tr) (mk_x_agent (xa_session (t_agent tr)) st) (t_inbox tr)
             (t_signals tr) (t_sent tr) (t_closed tr) (t_leaked tr)) w;
}.

Definition agentx_table : protocol_operation (sub_world N L) select_answer :=
  agentx_prot_ops (B := Select) send recv lua_pcall lua_unref e junk sigfd sock connected sendto probe.
Definition sub_func : call select_answer -> list V -> binding (list lua_result) :=
  smithsnmp_func snmp_ops agentx_table trap_ops true e junk MD5_key SHA1_key.
Definition sub_script : list (call select_answer * list V) -> binding (list (list lua_result)) :=
  script snmp_ops agentx_table trap_ops true e junk MD5_key SHA1_key.

Abbreviation sub_smith := (smith (S := sub_world N L) (answer := select_answer)).

(** *** The master agent *)

(** The PDU of an operation; [h] is the header of the last response. *)
Definition region_op (h : x_pdu_hdr) (op : config_op V) : list Z :=
  match op with
  | OReg oid _ => region_msg e AGENTX_PDU_REG h oid
  | OUnreg oid => region_msg e AGENTX_PDU_UNREG h oid
  | OView _ => []
  end.

(** Regions that can be registered: at least one level below [.1.3.6.1], with a
    fifth sub-identifier of 1 to 255 and at most 59 sub-identifiers. *)
Definition region_of (op : config_op V) : option (list Z) :=
  match op with OReg oid _ | OUnreg oid => Some oid | OView _ => None end.

Definition region_ok (op : config_op V) : Prop :=
  match region_of op with Some oid => x_oid_short oid /\ zlen oid <= 59 | None => False end.

(** Those that are refused, and those that end the program. *)
Definition region_refused (op : config_op V) : Prop :=
  match region_of op with Some oid => bad_prefix oid = true | None => False end.

Definition region_aborts (op : config_op V) : Prop :=
  match region_of op with
  | Some oid => exists rest, oid = internet ++ rest /\ (zlen rest = 0 \/ 56 <= zlen rest < 2 ^ 31)
  | None => False
  end.

(** The master responds to the PDUs one after the other, whatever errors it
    reports. *)
Inductive master : N -> x_pdu_hdr -> list (config_op V) -> N -> Prop :=
| master_done n h : master n h [] n
| master_responds n h op ops n1 h1 ctx time error index bs n' :
    responds send recv e n (region_op h op) n1 h1 ctx time error index bs ->
    master n1 (set_payload 0 h1) ops n' -> master n h (op :: ops) n'.

(** The master sends requests, and takes their responses. *)
Inductive requests (root : mib_node) : list (list Z) -> N -> L -> N -> L -> Prop :=
| requests_done n l : requests root [] n l n l
| requests_next msg msgs n l l1 resp n' l' :
    x_answered lua_pcall e junk root msg l l1 resp -> zlen msg < 65536 ->
    requests root msgs (send n resp).1 l1 n' l' -> requests root (msg :: msgs) n l n' l'.

(** *** The calls *)
Definition with_session (s : session) (m : sub_smith) : sub_smith := put_state (on_session (fun _ => s) (sm_state m)) m.

(** The state of a sub-agent with an open session. *)
Record sub_ready (w : Z) (m : sub_smith) : Prop := {
  sr_prot : smithsnmp_prot_ops m = Some agentx_table;
  sr_wf : root_wf w (ss_mib (session_of m));
}.

Ltac take_apart m :=
  let po := fresh "po" in
  destruct m as [po ? ? [? ? [? ? ? ? [[? ? ? ?] ?] ? ? ? ? ?]]];
  unfold session_of in *; cbn [sm_state w_t t_agent xa_session ss_net ss_lua ss_xdg ss_mib smithsnmp_prot_ops xa_views] in *.

Lemma region_call c args op m w n1 h1 ctx time error index bs :
  reads (c, args) op -> region_ok op -> sub_ready w m -> 0 <= w <= GROUP_MAX ->
  responds send recv e (ss_net (session_of m)) (region_op (x_hdr (ss_xdg (session_of m))) op) n1 h1 ctx time error index bs ->
  exists r s', sub_func c args m = Some (with_session s' m, Some r) /\
    (forall st, a_call lua_ref lua_unref junk t op (shape (ss_mib (session_of m)), st, ss_lua (session_of m)) r (shape (ss_mib s'), st, ss_lua s')) /\
    ss_net s' = n1 /\ x_hdr (ss_xdg s') = set_payload 0 h1 /\ root_wf (w + 1) (ss_mib s').
Proof.
  intros Hr Hok [Hp Hwf] Hw Hm. destruct op as [oid f|oid|op]; [..|done]; destruct Hok as (Ho & Hl); inversion Hr; subst;
    unfold sub_func, smithsnmp_func, smithsnmp_mib_node_reg, smithsnmp_mib_node_unreg, bbind at 1;
    rewrite arg_cons, (check_oid_spec v oid) by assumption.
  - destruct (lua_ref f (ss_lua (session_of m))) as [cb l1] eqn:El.
    set (s1 := mk_session (ss_net (session_of m)) l1 (ss_xdg (session_of m)) (ss_mib (session_of m))).
    destruct (reg_step send recv lua_pcall e junk s1 n1 h1 ctx time error index bs oid cb w Ho Hl Hwf Hw Hm) as (root' & Er & Hwf' & Hs).
    take_apart m. subst. change (top [v; f]) with f.
    match goal with H : lua_isfunction f = true |- _ => rewrite H end. cbn [negb].
    unfold prot, on_state, bbind, alloc, push, put_state. cbn. rewrite El. cbn. unfold in_session. cbn.
    unfold s1 in Er. rewrite Er. cbn. rewrite live_back.
    eexists _, _. split; [reflexivity|]. split; [intros st; by econstructor|]. done.
  - destruct (unreg_step send recv lua_pcall lua_unref e junk (session_of m) n1 h1 ctx time error index bs oid w Ho Hl Hwf Hm)
      as (root' & cbs & Er & Hc & Hwf' & Hs).
    take_apart m. subst.
    unfold prot, on_state, bbind, alloc, push, put_state. cbn. unfold in_session. cbn. rewrite Er. cbn. rewrite live_back.
    eexists _, _. split; [reflexivity|]. split; [intros st; by econstructor|]. split; [done|]. split; [done|].
    by apply root_wf_weaken.
Qed.

(** A refused registration has taken a reference to its handler. *)
Lemma region_call_refused c args op m :
  reads (c, args) op -> region_refused op -> smithsnmp_prot_ops m = Some agentx_table ->
  let s := session_of m in
  let l := match op with OReg _ f => (lua_ref f (ss_lua s)).2 | _ => ss_lua s end in
  sub_func c args m = Some (with_session (mk_session (ss_net s) l (ss_xdg s) (ss_mib s)) m, Some [PushNumber (-1)]).
Proof.
  intros Hr Hok Hp. destruct op as [oid f|oid|op]; [..|done]; unfold region_refused in Hok; cbn [region_of] in Hok;
    inversion Hr; subst;
    unfold sub_func, smithsnmp_func, smithsnmp_mib_node_reg, smithsnmp_mib_node_unreg, bbind at 1;
    rewrite arg_cons, (check_oid_spec v oid) by assumption; take_apart m; subst.
  - change (top [v; f]) with f. match goal with H : lua_isfunction f = true |- _ => rewrite H end. cbn [negb].
    unfold prot, on_state, bbind, alloc, push, put_state. cbn. destruct (lua_ref f _) as [cb l1]. cbn.
    unfold in_session. cbn. unfold agentx_mib_node_reg. rewrite Hok. cbn. by rewrite live_back.
  - unfold prot, on_state, bbind, alloc, push, put_state. cbn. unfold in_session. cbn.
    unfold agentx_mib_node_unreg. rewrite Hok. cbn. by rewrite live_back.
Qed.

Lemma region_call_aborts c args op m :
  reads (c, args) op -> region_aborts op -> smithsnmp_prot_ops m = Some agentx_table -> sub_func c args m = None.
Proof.
  intros Hr Hok Hp. destruct op as [oid f|oid|op]; [..|done]; destruct Hok as (rest & -> & Hl); inversion Hr; subst;
    unfold sub_func, smithsnmp_func, smithsnmp_mib_node_reg, smithsnmp_mib_node_unreg, bbind at 1;
    rewrite arg_cons, (check_oid_spec v (internet ++ rest)) by assumption; take_apart m; subst.
  - change (top [v; f]) with f. match goal with H : lua_isfunction f = true |- _ => rewrite H end. cbn [negb].
    unfold prot, on_state, bbind, alloc, push, put_state. cbn. destruct (lua_ref f _) as [cb l1]. cbn.
    unfold in_session. cbn. by rewrite (proj1 (agentx_reg_aborts send recv lua_pcall lua_unref e junk _ rest cb Hl)).
  - unfold prot, on_state, bbind, alloc, push, put_state. cbn. unfold in_session. cbn.
    by rewrite (proj2 (agentx_reg_aborts send recv lua_pcall lua_unref e junk _ rest 0 Hl)).
Qed.

Lemma with_session_twice s s' m : with_session s' (with_session s m) = with_session s' m.
Proof. done. Qed.

Lemma with_session_id m : with_session (session_of m) m = m.
Proof. by take_apart m. Qed.

(** A sequence of registrations and removals. *)
Lemma regions_script calls ops : forall m w n',
  Forall2 reads calls ops -> Forall region_ok ops -> sub_ready w m -> 0 <= w -> w + zlen ops <= GROUP_MAX + 1 ->
  master (ss_net (session_of m)) (x_hdr (ss_xdg (session_of m))) ops n' ->
  exists rs s', sub_script calls m = Some (with_session s' m, Some rs) /\
    (forall st, a_script lua_ref lua_unref junk t ops (shape (ss_mib (session_of m)), st, ss_lua (session_of m)) rs
      (shape (ss_mib s'), st, ss_lua s')) /\
    ss_net s' = n' /\ root_wf (w + zlen ops) (ss_mib s').
Proof.
  intros m w n' Hr. revert m w n'. induction Hr as [|[c args] op calls ops Hc Hr IH]; intros m w n' Hok Hm H0 Hw Hma.
  { exists [], (session_of m). rewrite with_session_id. inversion Hma; subst. split; [done|]. split; [constructor|].
    split; [done|]. rewrite Z.add_0_r. apply Hm. }
  apply Forall_cons in Hok as [Ho Hok]. inversion Hma as [|? ? ? ? n1 h1 ctx time error index bs ? Hresp Hrest]; subst.
  rewrite zlen_cons in *. pose proof (zlen_nonneg ops).
  destruct (region_call c args op m w _ _ _ _ _ _ _ Hc Ho Hm ltac:(lia) Hresp) as (r & s1 & E1 & A1 & N1 & X1 & W1).
  destruct (IH (with_session s1 m) (w + 1) n') as (rs & s2 & E2 & A2 & N2 & W2).
  - done.
  - split; [apply Hm|exact W1].
  - lia.
  - lia.
  - change (session_of (with_session s1 m)) with s1. by rewrite N1, X1.
  - exists (r :: rs), s2. unfold sub_script in *. rewrite (calls_cons _ _ _ _ _ _ _ _ _ _ _ _ _ _ E1), E2, with_session_twice.
    split; [done|]. split; [intros st; econstructor; [apply A1|apply A2]|]. split; [done|].
    rewrite Z.add_assoc. exact W2.
Qed.

(** Starting the protocol. *)
Lemma sub_init p q name port m :
  luaL_checkstring p = Some name -> cstring name = "agentx"%string -> luaL_checkint q = Some port -> connected port = true ->
  fd_ok sock = true -> fd_ok sigfd = true ->
  exists m', sub_func Init [p; q] m = Some (m', Some [PushBoolean true]) /\
    smithsnmp_prot_ops m' = Some agentx_table /\ sm_live m' = sm_live m /\ w_loop (sm_state m') = w_loop (sm_state m) /\
    session_of m' = mk_session (ss_net (session_of m)) (ss_lua (session_of m)) (x_lists_init (ss_xdg (session_of m))) mib_dummy_node_init /\
    (let tr := w_t (sm_state m) in let tr' := w_t (sm_state m') in
     t_sock tr' = sock /\ t_sigfd tr' = sigfd /\ t_buf tr' = t_buf tr /\ t_inbox tr' = t_inbox tr /\ t_sent tr' = t_sent tr /\
     t_leaked tr' = t_leaked tr).
Proof.
  intros E1 E2 E3 Hc Hs Hg. apply fd_ok_range in Hs, Hg. take_apart m.
  unfold sub_func, smithsnmp_func, smithsnmp_init, bbind. rewrite !arg_cons, E1. unfold check, push. cbn match.
  rewrite E3. cbn match. rewrite E2. cbn [String.eqb Ascii.eqb Bool.eqb]. unfold prot, on_state, on_state_, put_state. cbn -[Z.ltb].
  unfold agentx_init, Tcp.tcp_transport_init, transport_init. rewrite Hc, (proj2 (Z.ltb_ge _ _)), (proj2 (Z.ltb_ge _ _)) by lia.
  eexists. split; [reflexivity|]. by repeat split.
Qed.

Lemma sub_open m n1 h1 ctx time error index bs :
  smithsnmp_prot_ops m = Some agentx_table ->
  responds send recv e (ss_net (session_of m)) (open_msg e (x_hdr (ss_xdg (session_of m)))) n1 h1 ctx time error index bs ->
  exists x, x_hdr x = set_payload 0 h1 /\
    sub_func Open [] m = Some (with_session (mk_session n1 (ss_lua (session_of m)) x (ss_mib (session_of m))) m, Some [PushBoolean true]).
Proof.
  intros Hp Hr. pose proof (open_step send recv lua_pcall e junk (session_of m) _ _ _ _ _ _ _ Hr) as E. eexists. split; [|].
  2: { take_apart m. subst. unfold sub_func, smithsnmp_func, smithsnmp_open, prot, on_state, bbind, in_session. cbn.
       unfold in_session. cbn. rewrite E. reflexivity. }
  done.
Qed.

Lemma buf_siz : Transport.TRANSP_BUF_SIZ = Z.to_nat 65536.
Proof. apply Nat2Z.inj. rewrite Z2Nat.id by lia. vm_compute. reflexivity. Qed.

(** The requests of the master are answered on its connection. *)
Lemma requests_absorbed root msgs n l n' l' : requests root msgs n l n' l' -> forall x st,
  exists x', absorbs junk (Transport.TRANSP_BUF_SIZ - 1) (x_receive send lua_pcall e junk) msgs
    (mk_x_agent (mk_session n l x root) st) = Some (mk_x_agent (mk_session n' l' x' root) st).
Proof.
  induction 1 as [n l|msg msgs n l l1 resp n' l' Ha Hz Hr IH]; intros x st; [by exists x|]. cbn [absorbs].
  assert (take (Transport.TRANSP_BUF_SIZ - 1) msg = msg) as Et by (apply take_ge; rewrite buf_siz; unfold zlen in *; lia).
  unfold recv_buf. rewrite Et. unfold x_receive at 1, agentx_receive, session_recv. cbn [xa_session ss_net ss_lua ss_xdg ss_mib].
  change (Z.of_nat (length msg)) with (zlen msg).
  destruct (recv_answers lua_pcall e junk root msg l l1 resp
    (replicate (Transport.TRANSP_BUF_SIZ - length msg) junk) x Ha) as [x1 ->].
  cbn match. apply IH.
Qed.

(** Starting and opening. *)
Lemma sub_starts m p q name port n1 h1 ctx time error index bs :
  luaL_checkstring p = Some name -> cstring name = "agentx"%string -> luaL_checkint q = Some port -> connected port = true ->
  fd_ok sock = true -> fd_ok sigfd = true ->
  responds send recv e (ss_net (session_of m)) (open_msg e (x_hdr (ss_xdg (session_of m)))) n1 h1 ctx time error index bs ->
  exists m', sub_script [(Init, [p; q]); (Open, [])] m = Some (m', Some [[PushBoolean true]; [PushBoolean true]]) /\
    sub_ready 0 m' /\ sm_live m' = sm_live m /\ w_loop (sm_state m') = w_loop (sm_state m) /\
    (exists x, x_hdr x = set_payload 0 h1 /\ session_of m' = mk_session n1 (ss_lua (session_of m)) x mib_dummy_node_init) /\
    (let tr := w_t (sm_state m) in let tr' := w_t (sm_state m') in
     t_sock tr' = sock /\ t_sigfd tr' = sigfd /\ t_buf tr' = t_buf tr /\ t_inbox tr' = t_inbox tr /\ t_sent tr' = t_sent tr /\
     t_leaked tr' = t_leaked tr).
Proof.
  intros E1 E2 E3 Hc Hs Hg Hr. destruct (sub_init p q name port m E1 E2 E3 Hc Hs Hg) as (m0 & Ei & Hp & Hlive & Hloop & Hses & Ht).
  destruct (sub_open m0 n1 h1 ctx time error index bs Hp) as (x & Hx & Eo); [by rewrite Hses|]. rewrite Hses in Eo.
  cbn [ss_lua ss_mib] in Eo. eexists. split.
  { unfold sub_script. rewrite (calls_cons _ _ _ _ _ _ _ _ _ _ _ _ _ _ Ei), (calls_cons _ _ _ _ _ _ _ _ _ _ _ _ _ _ Eo). reflexivity. }
  split; [|split; [exact Hlive|]; split; [exact Hloop|]; split; [|exact Ht]].
  - split; [exact Hp|]. by destruct root_wf_init as (? & [= <-] & Hwf & _).
  - exists x. by split.
Qed.

Lemma sub_run m sels w' rest :
  smithsnmp_prot_ops m = Some agentx_table ->
  transport_running (B := Select) junk (Transport.TRANSP_BUF_SIZ - 1) false (x_receive send lua_pcall e junk) sendto probe sels (sm_state m) =
    Some (rest, w') ->
  smithsnmp_run (V := V) sels [] m = Some (put_state w' m, Some rest).
Proof.
  intros Hp E. unfold smithsnmp_run, prot, on_state. rewrite Hp. change (prot_run agentx_table) with
    (transport_running (B := Select) junk (Transport.TRANSP_BUF_SIZ - 1) false (x_receive send lua_pcall e junk) sendto probe).
  by rewrite E.
Qed.

(** Serving the requests that are in the inbox. *)
Lemma sub_serves s m msgs rest n' l' sels :
  smithsnmp_prot_ops m = Some agentx_table -> fds_ok (w_t (sm_state m)) ->
  length (event (w_loop (sm_state m))) = SNMP_MAX_EVENTS -> (forall b, t_buf (w_t (sm_state m)) <> BufLive b) ->
  t_inbox (w_t (sm_state m)) = map (λ b, Recv b []) msgs ++ rest -> requests (ss_mib s) msgs (ss_net s) (ss_lua s) n' l' ->
  length sels = length msgs -> Forall (only_readable (t_sock (w_t (sm_state m))) (t_sigfd (w_t (sm_state m)))) sels ->
  exists m2, smithsnmp_run (V := V) sels [] (with_session s m) = Some (m2, Some []) /\
    ss_net (session_of m2) = n' /\ ss_lua (session_of m2) = l' /\ ss_mib (session_of m2) = ss_mib s /\
    t_inbox (w_t (sm_state m2)) = rest /\ t_sent (w_t (sm_state m2)) = t_sent (w_t (sm_state m)) /\
    t_leaked (w_t (sm_state m2)) = t_leaked (w_t (sm_state m)) /\ sm_live m2 = sm_live m.
Proof.
  intros Hp Hf Hlen Hbuf Hi Hreq Hl Hsel. destruct s as [n l x root]. cbn [ss_net ss_lua ss_mib] in *.
  destruct (requests_absorbed root msgs n l n' l' Hreq x (xa_views (t_agent (w_t (sm_state m))))) as (x' & Hab).
  destruct (running_stream junk (Transport.TRANSP_BUF_SIZ - 1) (x_receive send lua_pcall e junk) sendto probe
    (sm_state (with_session (mk_session n l x root) m)) msgs rest
    (mk_x_agent (mk_session n' l' x' root) (xa_views (t_agent (w_t (sm_state m))))) sels) as (w' & Er & Tw); [done..|].
  exists (put_state w' (with_session (mk_session n l x root) m)). split; [by apply sub_run|].
  unfold session_of. cbn [put_state sm_state sm_live with_session]. by rewrite Tw.
Qed.

End Subagent.

(** ** A small sub-agent

    The master refuses everything and asks for a variable all the same; the
    network is the number of PDUs with what was sent. *)
Definition logged_send (n : Z * list (list Z)) (pdu : list Z) : (Z * list (list Z)) * bool := ((n.1 + 1, n.2 ++ [pdu]), true).
Definition logged_recv (n : Z * list (list Z)) : (Z * list (list Z)) * option (list Z) := (n, (refuse_recv n.1).2).

Lemma logged_responds n out pdu : 0 <= n < 100 ->
  responds logged_send logged_recv LE (n, out) pdu (n + 1, out ++ [pdu]) (refusal LE (n + 1)) [] 0 0x106 0 [].
Proof. intros Hn. destruct (refuse_responds n pdu Hn) as [_ R]. split; [|exact R]. by exists (n + 1, out ++ [pdu]). Qed.

Definition sub_trap : trap_operation (sub_world (Z * list (list Z)) unit) :=
  mk_trap_ops "none" (fun _ _ _ => None) (fun _ => None) (fun _ _ _ => None) (fun _ _ _ _ _ _ => None) (fun _ => None).
Definition sub_snmp : protocol_operation (sub_world (Z * list (list Z)) unit) select_answer :=
  mk_prot "none" (fun _ _ => None) (fun _ => None) (fun _ => None) (fun _ _ => None) (fun _ _ _ => None) (fun _ _ => None)
    (fun _ _ _ => None) (fun _ _ => None) None.
Definition sub_config : list (call select_answer * list lua_val) :=
  [(MibNodeReg, [LTab [LNum 1; LNum 3; LNum 6; LNum 1; LNum 4]; LFun 7]);
   (MibNodeReg, [LTab [LNum 1; LNum 3; LNum 6; LNum 1; LNum 5]; LFun 8]);
   (MibNodeUnreg, [LTab [LNum 1; LNum 3; LNum 6; LNum 1; LNum 5]])].
Definition sub_ops : list (config_op lua_val) := [OReg [1; 3; 6; 1; 4] (LFun 7); OReg [1; 3; 6; 1; 5] (LFun 8); OUnreg [1; 3; 6; 1; 5]].

(** The master asks for the variable after [.1.3.6.1.4.1.0]. *)
Definition sub_next : x_body := XRanges [mk_xrange [1; 3; 6; 1; 4; 1; 0] 0 [1; 3; 6; 1; 9] 0].
Definition sub_answer : x_binding := mk_xbinding ASN1_TAG_INT [1; 3; 6; 1; 4; 2; 0] (XInt 42).
Definition sub_xvb : x_var_bind := mk_xvb ([1; 3; 6; 1; 4; 2; 0] ++ replicate 1017 0) 7 ASN1_TAG_INT 4 [42; 0; 0; 0].
Definition sub_request : list Z := x_pdu_bytes LE (in_xhdr AGENTX_PDU_GETNEXT 0) [] sub_next.
Definition sub_response : list Z :=
  x_message LE (response_hdr (in_xhdr AGENTX_PDU_GETNEXT 0)) (x_response_body LE 0 0 0 [sub_answer]).

Definition sub_boot : smith (S := sub_world (Z * list (list Z)) unit) (answer := select_answer) :=
  mk_smith None None 0 (mk_world ev_loop (mk_senv ∅ ∅) (mk_transp 0 0 BufNull []
    (mk_x_agent (mk_session (0, []) tt (x_start (mk_xhdr 0 0 0 0 0 0 0 0) [] (mk_xu [0; 0; 0; 0] 0 0)) mib_dummy_node_init) view_init)
    [Recv sub_request []] [] [] [] [])).
Definition agentx_name : list Z := [97; 103; 101; 110; 116; 120].
Definition sub_main : list (call select_answer * list lua_val) := [(Init, [LStr agentx_name; LNum 705]); (Open, [])] ++ sub_config.
Definition small_sub_script :=
  sub_script logged_send logged_recv (table_handler example_table) small_ref (fun _ l => l) LE 0 4 3 (fun _ => true) (fun _ _ => true)
    (fun _ => None) sub_snmp sub_trap (fun _ _ => []) (fun _ _ => []).
Definition sub_root : mib_node :=
  match small_sub_script sub_main sub_boot with Some (m, _) => ss_mib (session_of m) | None => mib_dummy_node_init end.

Lemma sub_oid_short p rest : (p :: rest) ∈ [[4]; [5]; [4; 1; 0]; [4; 2; 0]; [9]] -> x_oid_short ([1; 3; 6; 1] ++ p :: rest).
Proof.
  rewrite !elem_of_cons, elem_of_nil. intros Hin. apply (x_short p rest);
    (destruct Hin as [[= -> ->]|[[= -> ->]|[[= -> ->]|[[= -> ->]|[[= -> ->]|[]]]]]]; [..]); try lia; try (cbn; lia);
    repeat constructor; unfold is_u32; lia.
Qed.

Lemma sub_xvb_rep : xvb_rep LE sub_xvb sub_answer.
Proof. split; [reflexivity..|]. split; [apply x_typed_int; [by left|unfold is_u32; lia]|apply x_oid_short_ok, (sub_oid_short 4 [2; 0]); set_solver]. Qed.

Lemma sub_next_ok : body_ok AGENTX_PDU_GETNEXT sub_next.
Proof.
  split; [by right; left|]. split; [|constructor]. constructor; [|constructor].
  split_and!; try (cbn; unfold is_u8; lia); [apply x_oid_short_ok, (sub_oid_short 4 [1; 0])|apply x_oid_short_ok, (sub_oid_short 9 [])]; set_solver.
Qed.

Lemma sub_answered : x_answered (table_handler example_table) LE 0 sub_root sub_request tt tt sub_response.
Proof.
  destruct (x_answers_to (table_handler example_table) LE 0 sub_root AGENTX_PDU_GETNEXT sub_next tt) as [[[[] r'] outs]|] eqn:E; [|not_none E].
  assert (outs = [(0, sub_xvb)]) as ->.
  { enough (Some outs = Some [(0, sub_xvb)]) as H by (by injection H).
    transitivity (match x_answers_to (table_handler example_table) LE 0 sub_root AGENTX_PDU_GETNEXT sub_next tt with
                  | Some (_, _, o) => Some o | None => None end); [by rewrite E|vm_compute; reflexivity]. }
  revert E. generalize sub_root. intros root E. unfold sub_request, sub_response.
  change (x_response_body LE 0 0 0 [sub_answer]) with
    (x_response_body LE 0 (first_error [(0, sub_xvb)].*1 1).1 (first_error [(0, sub_xvb)].*1 1).2 [sub_answer]).
  apply (x_answered_intro _ LE 0 root (in_xhdr AGENTX_PDU_GETNEXT 0) [] sub_next tt tt r' [(0, sub_xvb)] [sub_answer]);
    [by apply in_xhdr_ok|reflexivity|by split; [cbn; lia|]|exact sub_next_ok|by right; left
    |reflexivity|exact E|by repeat constructor|reflexivity|constructor; [exact sub_xvb_rep|constructor]|reflexivity].
Qed.

Lemma sub_region_ok : Forall (region_ok (V := lua_val)) sub_ops.
Proof.
  repeat (apply Forall_cons; split; [split; [|unfold zlen; cbn; lia]|]); [| | |apply Forall_nil_2];
    [apply (sub_oid_short 4 [])|apply (sub_oid_short 5 [])|apply (sub_oid_short 5 [])]; set_solver.
Qed.

Lemma only_socket : only_readable 3 4 readable.
Proof. split; [reflexivity|]. split; cbn [sel_r readable]; set_solver. Qed.

